(* ===== verification/_CoqProject ===== *)
-Q . S2P
Prelude.v
CMem.v
CFormat.v
RalPrimitives.v
RalState.v
RalPrint.v
RalSend.v
RalConfirm.v
RalRecv.v
MihSpec.v
RalMessages.v
RalBehaviour.v
RalDispatch.v
RalSystem.v
MosOptions.v
Dhc6Timers.v
Base64.v
NlMsg.v
NlProofs.v
NlUse.v
BindingStates.v
V6Addr.v
LeaseDb.v
LeaseLaws.v
LeaseRefs.v
LeaseDrop.v
LeasePool.v
LeaseInv.v
LeaseMoves.v
LeaseOps.v
LeaseIa.v
LeaseCleanup.v
LeaseTimeout.v
LeaseAdd.v
LeaseCreate.v
LeaseTry.v
LeaseLoad.v
LeaseSystem.v
LeaseClaims.v
FailoverLeases.v
V4State.v
V4Queues.v
V4Leases.v
V4Machine.v
V4Handlers.v
V4Chain.v
V4Laws.v
V4Frames.v
V4Lists.v
V4Moves.v
V4Pending.v
V4Sending.v
V4System.v
V4Tables.v
V4Spared.v
V4Service.v
V4Timers.v
V4Claims.v
V4Wire.v
V4WireProofs.v
V4WireClaims.v
V4Pair.v
V4Serve.v
V4ServeProofs.v
V4Allocate.v
V4ServeClaims.v
V4Answers.v
V4Ack.v
V4AckProofs.v
V4AckClaims.v
DhcpClient.v
DhcpClientProofs.v
DhcpClientClaims.v
