(* ===== verification/Prelude.v ===== *)
(** * A verification library for the C components of EMICOM

    EMICOM is an IEEE 802.21 (Media Independent Handover) system built on ODTONE.
    The parts of it that are written in C, and the ones modelled here, are

    - the LTE link adapter, a link SAP that answers the requests of the MIHF over
      UDP (src/extensions/MIH_C_Protocol/LTE_link_Test/, mRALlteInt_main.c,
      mRALlteInt_msg.c, mRALlteInt_log.c and the headers of include/);
    - the MIH extensions of the DHCP client, which take the addresses and names of
      mobility servers (MoS) out of a DHCP reply (src/app/dhcp_usr/client/,
      dhclient.c and dhc6.c), the DHCPv6 exchange that asks for them, and the state machine
      of the client for IPv4;
    - the lease database of the DHCPv6 server (src/app/dhcp_usr/server/mdb6.c), with
      the parts of confpars.c and dhcpv6.c that fill it, enter addresses clients ask for, and commit leases;
    - the failover protocol of the DHCPv4 server (src/app/dhcp_usr/server/failover.c) and
      the lease database it works on (src/app/dhcp_usr/server/mdb.c), and how the server
      answers clients (src/app/dhcp_usr/server/dhcp.c);
    - the base-64 codec of the DHCP programs (src/app/dhcp_usr/server/dst/base64.c);
    - the messages and attributes of the netlink library below the link SAPs
      (src/app/common/libnl/libnl/lib/, msg.c and attr.c).

    The adapter and the DHCP client are processes of their own that talk to the
    MIHF and to their callers by datagrams and callbacks; the codec and the netlink
    library are called by such processes, and the lease database is called by the
    message handlers and timers of the server.  So the groups of files below
    depend on this prelude and not on each other, but for the states of leases and the
    failover decisions, which the DHCPv4 server uses.

    ** How C is modelled

    Memory is a list of bytes, each a [Z] in [0, 256); a pointer into it is an
    offset; integers in memory are little-endian and are reduced to their width when
    stored.  An access outside a buffer has no result ([None], or [Fault] where
    error codes are results too), so a theorem that a function has a result says
    among other things that it stays inside its buffers.  Effects on the outside
    are lists of events or calls in the order they happen; what the outside answers
    ([sendto], [recvfrom], [select], [random], [calloc]) is an argument.

    ** The link adapter

    - CMem.v: packed C structs as data ([ctype]), [sizeof], paths such as
      Header.Message_ID, loads, stores, [strcpy] and sequences of assignments.
    - CFormat.v: the conversions of [printf] and [sscanf] the sources use.
    - RalPrimitives.v: the constants and message structs of MIH_C_Link_Constants.h,
      MIH_C_Link_Primitives.h, mRALlteInt_variables.h and mRALlteInt_log.h.
    - RalState.v: the global variables (record [ral]), the state monad [M], the
      operating system interface (class [Os]) and mRALlteInt_log.c.  The classes
      [LogOnly] and [Stuck] collect the computations that change nothing but the
      log, and those with no result.
    - RalPrint.v: the print_ functions; OUTPUT_LEVEL_1 is on, 2 and 3 are off, as in
      mRALlteInt_variables.h.
    - RalSend.v, RalConfirm.v: the mRALte_send_ functions: one list of assignments
      per message, in the order of the source, then the send and the log output.
    - RalRecv.v: the mRALte_decode_ functions, [process_mih_command] and [main], whose
      loop runs over the list of what [select] answers.  What [socket] answers is an
      argument, and [FD_SET] has no result for a number that is no descriptor.
    - MihSpec.v: the 802.21 frame format: messages as lists of TLVs, encoder, parser
      and their round trip; nothing in it depends on the adapter.
    - RalMessages.v: every message of the adapter against that format.
    - RalBehaviour.v: what each send does to the state, for all states.
    - RalDispatch.v: requests, and the script of confirmation, pauses and indications
      that answers each of them; [process_mih_command] runs the script.
    - RalSystem.v: an abstract session automaton that only sees datagrams, a
      simulation of it by the adapter (invariant over [reachable] states), and [main].

    The theorems show: every message except one is the encoding of the 802.21 message
    it stands for, and that one is misread in a way that is stated exactly
    (messages_well_formed, link_scan_response_misread); every datagram is answered by
    the script of its request, except threshold requests whose counts reach past the
    receive buffer, which read outside it (request_served,
    threshold_request_overread); any other known request is confirmed with its own
    identifiers (request_confirmed); the datagrams of a running adapter form a
    well-ordered session (session_respected); with a socket, and without such threshold
    requests, [main] runs until [select] fails, and otherwise it leaves its memory
    (main_serves).

    Not modelled: the sleeps take no time, they are events; sockets are not closed;
    log text is produced but nothing is proved about it.

    ** The DHCP client

    - MosOptions.v: [hex_to_ipv4], [hex_to_ipv6], [decode_mih_options] and
      [decode_mih6_options].  The data of each MIH sub-option is an argument, in place
      of [lookup_option] and [evaluate_option_cache]; allocation succeeds.
    - Dhc6Timers.v: [dhc6_rand], [dhc6_retrans_init], [dhc6_retrans_advance],
      [start_init6], [start_info_request6], [check_timing6], [do_info_request6].
      What [make_client6_options] puts in a packet is not modelled, only that it is
      called.  TIME is unbounded; retransmission times stay below 13200.

    The theorems show: well-formed DHCPv6 replies give the callback exactly their
    addresses and names (mih6_options_decoded); which names are decoded inside their
    bounds (name_decoded_iff); IPv6 texts read back (ipv6_text_roundtrip); every IPv4
    address overflows the text buffer (ipv4_text_overflows,
    mih_address_option_overflows); random jitter, retransmission times and the progress
    of an information request are those of RFC 3315 (dhc6_rand_table,
    info_exchange_progress, solicit_first_rt), except for the wake-up at the maximal
    duration (mrd_wakes_late).

    - DhcpClient.v: the IPv4 state machine of dhclient.c, for one client on one interface.
      The record [client] is struct client_state; a function of the source is a function of
      the monad [MC], which stops where a null pointer is followed or memory is left ([Crash]),
      or the program ends.  An ACK has its MIH options decoded by [decode_mih_options] of
      MosOptions.v, which may leave its buffer.  The functions that call each other are the bodies of [call], with a number of
      rounds.  Timers are the class [Timeouts] with [TimeoutsLaws]; random numbers, the
      script, the lease file and the evaluation of options are arguments ([outside]).
    - DhcpClientProofs.v: rules for [MC] ([wp]) and what each function does to a client with
      no timer set; the invariant [steady].
    - DhcpClientClaims.v: the theorems, and a client that gets an address.

    They show: whatever arrives and whatever timer goes off, a running client keeps exactly
    one timer, of its state, has a lease when it uses one, never follows a null pointer, and
    leaves its memory only where decoding MIH options does (client_runs_on); the times of a
    new lease are in order, and the answer to an INFORM changes no lease (ack_times); the search for an
    old lease ends and loses none (panic_search); the end of a lease is noticed
    (lease_end_noticed), and so is the panic timeout (discover_in_time); a session that ends
    leaves no timer, unless it collected offers (release_quiet, terminated_goes_on).  The
    two ways in from other programs break the invariant: init_session can crash
    (session_crashes), and request_info binds a client to nothing (inform_binds_nothing).
    DNS updates, the alias, the lease file and the environment of the script are left out.

    ** The lease database of the DHCPv6 server

    A pool hands out addresses or prefixes of a network.  Leases in use are in a hash
    table by address and on a heap by expiry (active); leases that are over stay on a
    second heap (inactive) until they are forgotten.  Leases, identity associations and
    pools are counted objects that refer to each other.

    - V6Addr.v: [build_address6], [build_temporary6], [build_prefix6],
      [ipv6_network_portion] and the test of [ipv6_in_pool], on bytes and masks.
    - LeaseDb.v: the rest of mdb6.c.  The record [db] has one map per kind of object and
      the global variables; the monad [D] passes it on, and has no result when an object
      is used after it was freed or a heap is used at an index it does not have.  There
      is one definition per function of mdb6.c, and the loops and the parts of
      [add_lease6] and [create_lease6] have their own.  The classes [Hash] and [Heap] are
      the tables and heaps of two libraries that are not in the repository; MD5, the
      random generator and whether an allocation succeeds are arguments.
    - LeaseLaws.v: what is relied on of tables and heaps ([HashLaws], [HeapLaws]), and
      two instances that show it can hold (association lists, sorted lists).
    - LeaseRefs.v, LeaseDrop.v: reference counts against the references there are, and
      the three mutually recursive functions that drop a reference.
    - LeasePool.v, LeaseInv.v: the invariant [Inv] of a database in which the caller
      holds given references.  The class [Strict] says whether the heaps are in the order of
      expiry: they are if renewals of leases in use only extend them, and the server does
      not keep to that; everything but the order is proved either way.
    - LeaseMoves.v, LeaseOps.v, LeaseIa.v, LeaseCleanup.v, LeaseTimeout.v, LeaseAdd.v,
      LeaseCreate.v, LeaseTry.v, LeaseLoad.v: every operation keeps it, and what it does on
      each branch.  LeaseOps.v has the commit of reply_process_ia_na in dhcpv6.c; LeaseTry.v
      the functions of dhcpv6.c that enter an address, a prefix or a temporary address a
      client asks for; LeaseIa.v and LeaseLoad.v what confpars.c does with a pool and an
      association it has read.
    - LeaseSystem.v: the calls of the server ([call], [exec]), when they may be made
      ([may]), the [reachable] states, and their consistency.
    - LeaseClaims.v: the theorems, and a run of the server that instantiates them.

    The theorems show: membership in a pool is what it is for 128 bit numbers, and
    whatever is built belongs to the pool (in_pool_arithmetic, built_in_pool); dropping a
    reference ends, frees only what nobody refers to, and leaves exact counts
    (drop_exact); in every reachable state the counts cover all references, the numbers
    of leases are right, no two leases in use share an address, and every permitted call
    returns (reachable_safe); a created lease is new, free and in its pool
    (created_lease_free); a timeout ends, expires nothing that is not over, and, if the heaps
    are in order, all that is (timeout_expires_due); renewing, declining, releasing and expiring are operations on
    a set of addresses (calls_refine_addresses); and removing a lease from an association
    leaves a pointer that makes the next addition fail silently (removed_slot_stays).

    The conditions [may] are the ones the code states in comments or needs: an address that
    is in use is not entered a second time, a lease is on the heap of its state, the slot
    behind the last lease of an association is free.  Times are
    unbounded integers.  Not modelled: [write_leases6], which only writes; evaluating the
    fixed addresses of hosts; the reference to a pool that a running timer holds.

    ** Failover of the DHCP server

    - BindingStates.v: the states of leases, shared with the lease database.
    - FailoverLeases.v: the decisions of failover.c about a single lease, as functions of
      the members they read ([normal_binding_state_transition_check],
      [conflict_binding_state_transition_check], [failover_lease_is_better],
      [lease_mine_to_reallocate], [load_balance_mine], [peer_wants_lease] and the hash).

    The theorems put a primary and a secondary side by side: which updates are refused,
    and until when a lease in use is not freed (peer_updates_checked); who wins when
    updates cross, and when nobody does (duel_decided); that at most one of the two hands
    a lease out (reallocation_exclusive); and that exactly one of them answers a client
    (load_shared).  The option lookup for the client identifier is an argument.

    ** The DHCPv4 server with a failover partner

    Every lease of a pool is on one of six lists of the pool, linked through the leases and
    sorted by time; which one, follows from its state.  Leases whose changes the partner has
    not seen are on a queue of updates, and then on a queue that waits for acknowledgements,
    linked through another member.  The state of the server and that of its partner decide
    whether clients are answered, and messages, timers and the other parts of the server move
    leases and states.

    - V4State.v: leases, pools, the tables, the relationship ([srv]), what goes to the outside
      (events; writing a lease and bringing the file to the disk are events with what was
      written and whether it succeeded), and the monad [M4].
    - V4Queues.v: sending messages, the queues of updates and acknowledgements, and when a
      pool is balanced next (failover.c).
    - V4Leases.v: mdb.c: the tables by client, [lease_enqueue], [supersede_lease],
      [make_binding_state_transition], [pool_timer], [release_lease], [abandon_lease],
      [dissociate_lease], [expire_all_pools].
    - V4Machine.v: the state machine of failover.c: [dhcp_failover_set_state],
      [dhcp_failover_set_service_state], [dhcp_failover_state_transition],
      [dhcp_failover_peer_state_changed], and the balancing of pools.
    - V4Handlers.v: the handlers of the partner's messages and the signals of a connection.
    - V4Chain.v: chains of pointers ([seg]); V4Laws.v: relations an operation keeps between the
      states before and after it ([Keeps], the tactic [keeps], the class [Quiet]);
      V4Frames.v: what every operation leaves alone.
    - V4Lists.v, V4Moves.v: the invariant of the lists ([files_ok]).
    - V4Pending.v, V4Sending.v: the invariant of the queues ([pending]) and what each operation
      on them does to the two lists they stand for.
    - V4System.v: the operations of the running server ([op4], [step_srv]) keep both ([ok4]).
    - V4Tables.v: relations that all changes outside clients and states keep (the classes [Still] and [Calm]),
      and the tables by client identifier and hardware address ([tables_good]), over every operation.
    - V4Spared.v: what releasing leases leaves of the other leases.
    - V4Service.v: the states and the service ([mode_ok]).
    - V4Timers.v: how many transitions are still to come, and that the functions that call each
      other end.
    - V4Claims.v: the theorems, and the servers that are examples.

    The theorems show, for every sequence of messages, timers and calls: every lease is on the
    list of its state and the counts are right (leases_stay_filed); the queues are queues
    (updates_stay_queued), and implement two lists (failover_queues_refine); the server answers
    clients only when both states allow it (service_safe), is always in one of the thirteen
    states (failover_state_valid), enters none it could not write down (set_state_recorded),
    and waits out its partner's promises (recover_waits); the timer of a pool ends
    (pool_timer_returns); balancing leaves each server its share (balance_keeps_share).  And
    where the code fails: the timer frees leases the partner has not acknowledged
    (timer_frees_unacknowledged), and an update that changes whether a free lease is reserved
    ends the server (reserved_change_fatal).

    There is one relationship, and a pool belongs to it or to none; the connection takes every
    message, and that it is closed is an event of its own.  Times are unbounded integers.
    Leases and pools are not freed while the server runs, so reference counts are left out;
    billing, host declarations, agent options and statements on expiry and release are not
    modelled.  Loading the lease file is not; [expire_all_pools] is modelled, and nothing is
    proved about it yet.

    ** Answering DHCPv4 clients

    A DISCOVER is answered with a lease the client has or had, or with a new one, a REQUEST with
    an ACK, a NAK or not at all; RELEASE and DECLINE give a lease up.  [find_lease] collects the
    leases with the client's identifier, hardware address and address, throws out what the client
    may not have, and chooses; what it does not choose, it may release.

    - V4Serve.v: dhcp.c: [permitted], [find_lease] in the parts of the source, [allocate_lease],
      [dhcpdiscover], [dhcprequest], [dhcprelease], [dhcpdecline], [locate_network], [dhcp]; and
      the searches for hosts and subnets of mdb.c.  The configuration is an argument ([site]).
    - V4ServeProofs.v: what each part of [find_lease] may end with, in terms of the server when the
      message came: leases that were [available] to the client, and that only such leases were
      given up ([frees]).
    - V4Allocate.v: which lease a pool offers ([offers], in terms of its lists), and the order in
      which [allocate_lease] prefers them ([rank]).
    - V4ServeClaims.v: an ACK or an OFFER is for a lease that the client may have and that nobody
      else has (ack_granted, offer_safe), a new lease is the best there is (allocate_best), and
      the leases of a client are found (clients_found).
    - V4Answers.v: every message has an outcome ([dhcp4_answers]): total correctness of the
      handlers, as triples over the states that releasing leases leads to ([ends]).
    - V4Ack.v: dhcp.c: [ack_lease] in the parts of the source (other leases of the client, who is
      turned away, the time, the record, the options), [dhcp_reply], [nak_lease],
      [get_server_source_address]; dhcpd.c: the pings; bootp.c.  The state is the lease database
      with [lease->state], the timers of pings, the packets that were sent and, with each, the
      events that were there before ([server4]); what
      the statements of the configuration say for an answer is an argument ([terms]).
    - V4AckProofs.v: what [supersede_lease] has written to the lease file when it succeeds, and that
      it is on the disk ([written]), and what a server needs to be ready for the next message ([stays]).
    - V4AckClaims.v: an ACK is in the lease file, on the disk, before it is sent (ack_recorded), times are
      within the limits of the configuration and of the partner (lease_time_bounds), and the
      server serves any sequence of messages, pings and timers (service_goes_on).

    Theorems about results ask for fuel by the number of leases ([release_fuel]), for options that
    are long enough, and, for [ack_lease], that the options one-lease-per-client and
    adaptive-lease-time-threshold are not set ([terms_fine]).  INFORM, lease queries, billing of
    classes, agent options, statements on commit and dynamic DNS are not modelled, nor is putting
    options into a packet ([cons_options], which is not in the repository).  Addresses are 32-bit
    numbers in host order.

    ** The failover protocol on the wire

    A message is its length, type, payload offset, time and transaction id and then options,
    each a code, a length and data.  A link reads messages whenever enough bytes have arrived
    and passes them to the relationship; a CONNECT is checked first.

    - V4Wire.v: the tables of stables.c ([ft_options], [fto_allowed], [ft_sizes]), writing
      ([dhcp_failover_make_option], [put_message]), the options of each message, reading
      ([do_a_failover_option], [read_message]), the checks of a CONNECT, and the link
      ([link_ready] for the signal "ready", [arrivals] for bytes from the network).  The connection
      is the class [Connection], with [ConnectionLaws]; lists of bytes are an instance.
    - V4WireProofs.v: any bytes, options and messages that were written, and the link.
    - V4WireClaims.v: what the machine sends ([sent] of V4State.v) as messages, and the theorems: messages arrive
      whole and in order however they are cut up (messages_delivered), with the meaning the
      machine of the other server gave them (partner_hears); any message of a known type is
      refused or read exactly (reading_total); which CONNECT is taken (connect_checked); that a
      refusal cannot be read (refusal_unreadable), types are not checked (type_unchecked), and
      DDNS options are refused (ddns_refused).
    - V4Pair.v: the state a server sends is the one its partner records (state_believed).

    Allocation succeeds, and what a relationship does with a message happens between two
    messages.

    ** Base-64

    - Base64.v: [b64_ntop] and [b64_pton].  Proved: the encoder writes the encoding and
      stays in its bounds, the decoder undoes it, accepts only canonical texts, and
      never leaves its target (ntop_encodes, pton_decodes, pton_canonical_only,
      pton_safe).

    ** Netlink messages

    - NlMsg.v: msg.c and attr.c without their debugging output and object parsing.
      C [int]s are unbounded, except in the comparisons and fields where their width
      matters.
    - NlProofs.v: a message as a header and an association list of attributes.  Proved:
      building appends to the list, parsing and searching read it, nesting, integers
      (nla_put_appends, attributes_found, nesting, u32_roundtrip), safety of parsing
      untrusted attributes and where it ends (nla_parse_safe, nla_walk_overreads), and
      that a test counts the message length twice (nla_put_refuses_fitting).
    - NlUse.v: what users rely on: parsing enforces its policy (policy_enforced), data
      and headers are appended and read back (append_framed, header_put), received
      messages are copied whole (convert_copies), copied strings are terminated
      (strlcpy_terminated).

    ** Fuel

    Loops over a buffer carry a [nat] that bounds the number of rounds; running out
    is an error of the same kind as leaving the buffer, so the theorems that give a
    result show that it does not happen.  Walks over netlink attributes take at least
    four bytes a round and have one unit per byte; name and address loops of the DHCP
    client consume at least one byte a round and have one unit per byte; the TLV
    parser takes two bytes a round.  Dropping a reference goes no deeper than there are
    objects with a count above zero ([in_use]); creating and loading a lease have one
    object more, so the system runs with [in_use d + 2].  The two loops of a timeout take a
    lease off a heap in every round and have one unit per lease and one to stop.  The timer of
    a pool of N leases and [supersede_lease] call each other no deeper than 3 N (N + 3) + N + 2,
    as each lease has at most three transitions to come; walks over a list or a queue have one
    unit per lease and one to stop, and so have the searches of a client's leases; releasing a
    lease in a server with N leases takes [release_fuel N].  An option of the failover protocol takes four bytes, a
    message twelve and two rounds of the link.  The functions of the DHCPv4 client
    call each other at most six deep; the search of state_panic tries every lease once and takes
    two rounds for each.

    ** Not modelled

    The C++ parts (the MIHF, the ODTONE library, the 802.11 and 802.3 link SAPs, the
    MIH users), the Java sensors, the information server, and the rest of the DHCP
    programs and of libnl.  Worth adding: the packets of dhcp.c, startup of the lease database, the
    DHCPv6 lease exchanges of dhc6.c (do_init6, do_confirm6, do_release6 and the reply
    handlers), and the address and cache layers of libnl.  The option lookup of the DHCP
    programs is in a library that comes in binary form. *)

(** ** Prelude

    Bytes, machine integers, buffers and the automation the components share. *)

From Stdlib Require Export Ascii.
From stdpp Require Export prelude strings list.
From Stdlib Require Export ZArith Lia.

#[global] Open Scope Z_scope.

(** ** Automation *)

Create HintDb emi.
Create Rewrite HintDb emi.

(** Destruct the scrutinee of every [match]/[if] of the goal. *)
Ltac split_matches :=
  repeat match goal with
  | |- context [match ?x with _ => _ end] => destruct x eqn:?
  end.

(** Turn boolean comparisons of the context into propositions. *)
Ltac bool_to_prop :=
  repeat match goal with
  | H : (_ && _)%bool = true |- _ => apply andb_prop in H; destruct H
  | H : (_ || _)%bool = false |- _ => apply orb_false_elim in H; destruct H
  | H : negb _ = true |- _ => apply negb_true_iff in H
  | H : negb _ = false |- _ => apply negb_false_iff in H
  | H : (_ <=? _) = true |- _ => apply Z.leb_le in H
  | H : (_ <=? _) = false |- _ => apply Z.leb_gt in H
  | H : (_ <? _) = true |- _ => apply Z.ltb_lt in H
  | H : (_ <? _) = false |- _ => apply Z.ltb_ge in H
  | H : (_ =? _) = true |- _ => apply Z.eqb_eq in H
  | H : (_ =? _) = false |- _ => apply Z.eqb_neq in H
  end.

(** Closed comparisons over [Z], by computation. *)
Ltac zcompute := vm_compute; first [reflexivity | split; discriminate | discriminate | idtac].

(** ** Bytes and machine integers *)

(** An unsigned [w]-bit integer is a [Z] in [0, 2^w); assignment to one wraps. *)
Definition wrap (w v : Z) : Z := v mod 2 ^ w.
Definition u8 (v : Z) : Z := wrap 8 v.
Definition u16 (v : Z) : Z := wrap 16 v.
Definition u32 (v : Z) : Z := wrap 32 v.

Definition byte_ok (b : Z) : Prop := 0 <= b < 256.
Definition bytes_ok (l : list Z) : Prop := Forall byte_ok l.

#[export] Instance byte_ok_dec b : Decision (byte_ok b).
Proof. unfold byte_ok. apply _. Defined.

(** Little-endian bytes of [v], [n] of them; the value of little-endian bytes. *)
Fixpoint le_bytes (n : nat) (v : Z) : list Z :=
  match n with
  | O => []
  | S n => v mod 256 :: le_bytes n (v / 256)
  end.

Fixpoint le_val (l : list Z) : Z :=
  match l with
  | [] => 0
  | b :: l => b + 256 * le_val l
  end.

Lemma wrap_range w v : 0 <= w -> 0 <= wrap w v < 2 ^ w.
Proof. intros. unfold wrap. apply Z.mod_pos_bound. lia. Qed.

Lemma wrap_small w v : 0 <= v < 2 ^ w -> wrap w v = v.
Proof. unfold wrap. apply Z.mod_small. Qed.

Lemma u8_ok v : byte_ok (u8 v).
Proof. apply (wrap_range 8). lia. Qed.

Lemma u8_id v : byte_ok v -> u8 v = v.
Proof. apply (wrap_small 8). Qed.

Lemma mod256_ok v : byte_ok (v mod 256).
Proof. apply Z.mod_pos_bound. lia. Qed.

#[export] Hint Resolve u8_ok mod256_ok : emi.

Lemma length_le_bytes n v : length (le_bytes n v) = n.
Proof. revert v. induction n; intros; simpl; auto. Qed.

Lemma le_bytes_ok n v : bytes_ok (le_bytes n v).
Proof.
  revert v. induction n; intros v; simpl; constructor; auto with emi.
  apply IHn.
Qed.

Lemma le_val_le_bytes n v : le_val (le_bytes n v) = v mod 256 ^ Z.of_nat n.
Proof.
  revert v. induction n as [|n IH]; intros v; cbn [le_bytes le_val].
  - rewrite Z.pow_0_r, Z.mod_1_r. reflexivity.
  - rewrite IH, Nat2Z.inj_succ, Z.pow_succ_r, Z.rem_mul_r by lia. reflexivity.
Qed.

Lemma le_bytes_le_val l : bytes_ok l -> le_bytes (length l) (le_val l) = l.
Proof.
  induction 1 as [|b l Hb Hl IH]; simpl; [reflexivity|].
  unfold byte_ok in Hb.
  rewrite (Z.mul_comm 256), Z.mod_add, Z.div_add, Z.mod_small, Z.div_small by lia.
  rewrite Z.add_0_l, IH. reflexivity.
Qed.

Lemma le_val_le_bytes_small v : 0 <= v < 4294967296 -> le_val (le_bytes 4 v) = v.
Proof. intros. rewrite le_val_le_bytes. apply Z.mod_small. exact H. Qed.

Lemma le_val_range l : bytes_ok l -> 0 <= le_val l < 256 ^ Z.of_nat (length l).
Proof.
  induction 1 as [|b l Hb Hl IH]; cbn [le_val length]; [lia|].
  unfold byte_ok in Hb. rewrite Nat2Z.inj_succ, Z.pow_succ_r by lia. lia.
Qed.

(** ** Lists of bytes *)

(** Bytes [off, off + n) of a buffer, when it has them. *)
Definition slice (off n : nat) (l : list Z) : option (list Z) :=
  if (off + n <=? length l)%nat then Some (take n (drop off l)) else None.

(** Overwrite from [off] on, when the bytes fit. *)
Definition splice (off : nat) (bs l : list Z) : option (list Z) :=
  if (off + length bs <=? length l)%nat
  then Some (take off l ++ bs ++ drop (off + length bs) l) else None.

Lemma length_slice off n l bs : slice off n l = Some bs -> length bs = n.
Proof.
  unfold slice. destruct (Nat.leb_spec (off + n) (length l)); intros; simplify_eq.
  rewrite length_take, length_drop. lia.
Qed.

Lemma slice_is_Some off n l : (off + n <= length l)%nat -> is_Some (slice off n l).
Proof. intros. unfold slice. rewrite (proj2 (Nat.leb_le _ _)); eauto. Qed.

Lemma slice_None off n l : (length l < off + n)%nat -> slice off n l = None.
Proof. intros. unfold slice. rewrite (proj2 (Nat.leb_gt _ _)); auto. Qed.

Lemma length_splice off bs l l' : splice off bs l = Some l' -> length l' = length l.
Proof.
  unfold splice. destruct (Nat.leb_spec (off + length bs) (length l)); intros; simplify_eq.
  rewrite !length_app, length_take, length_drop. lia.
Qed.

Lemma splice_is_Some off bs l :
  (off + length bs <= length l)%nat -> is_Some (splice off bs l).
Proof. intros. unfold splice. rewrite (proj2 (Nat.leb_le _ _)); eauto. Qed.

Lemma slice_splice_same off bs l l' :
  splice off bs l = Some l' -> slice off (length bs) l' = Some bs.
Proof.
  intros H. pose proof (length_splice _ _ _ _ H) as Hlen. revert H.
  unfold splice. destruct (Nat.leb_spec (off + length bs) (length l)); intros; simplify_eq.
  unfold slice. rewrite Hlen, (proj2 (Nat.leb_le _ _)) by lia.
  rewrite drop_app_length' by (rewrite length_take; lia).
  rewrite take_app_length' by reflexivity. reflexivity.
Qed.

Lemma splice_ok off bs l l' :
  bytes_ok bs -> bytes_ok l -> splice off bs l = Some l' -> bytes_ok l'.
Proof.
  unfold splice, bytes_ok. destruct (_ <=? _)%nat; intros; simplify_eq.
  rewrite !Forall_app. auto using Forall_take, Forall_drop.
Qed.

Lemma slice_ok off n l bs : bytes_ok l -> slice off n l = Some bs -> bytes_ok bs.
Proof.
  unfold slice, bytes_ok. destruct (_ <=? _)%nat; intros; simplify_eq.
  auto using Forall_take, Forall_drop.
Qed.

(** ** Characters and strings as byte lists *)

Definition bytes_of_string (s : string) : list Z :=
  map (fun a => Z.of_nat (Ascii.nat_of_ascii a)) (String.list_ascii_of_string s).

Definition string_of_bytes (l : list Z) : string :=
  String.string_of_list_ascii (map (fun b => Ascii.ascii_of_nat (Z.to_nat b)) l).

Lemma length_bytes_of_string s : length (bytes_of_string s) = String.length s.
Proof. unfold bytes_of_string. rewrite length_map. induction s; simpl; auto. Qed.

Lemma bytes_of_string_ok s : bytes_ok (bytes_of_string s).
Proof.
  unfold bytes_of_string, bytes_ok. apply Forall_map, Forall_true. intros a.
  unfold byte_ok. pose proof (Ascii.nat_ascii_bounded a). simpl. lia.
Qed.

Lemma string_of_bytes_of_string s : string_of_bytes (bytes_of_string s) = s.
Proof.
  unfold string_of_bytes, bytes_of_string. rewrite map_map.
  erewrite map_ext, map_id, String.string_of_list_ascii_of_string; [reflexivity|].
  intros a. cbv beta. rewrite Nat2Z.id. apply Ascii.ascii_nat_embedding.
Qed.

#[export] Hint Resolve le_bytes_ok bytes_of_string_ok length_le_bytes : emi.

(** ** Checking all bytes *)

Definition all_bytes : list Z := map Z.of_nat (seq 0 256).

(** A decidable property of all bytes, by computation. *)
Lemma byte_forall (P : Z -> bool) b : forallb P all_bytes = true -> byte_ok b -> P b = true.
Proof.
  intros HP Hb. rewrite forallb_forall in HP. apply HP. unfold all_bytes, byte_ok in *.
  apply in_map_iff. exists (Z.to_nat b). split; [lia|]. apply in_seq. lia.
Qed.

(** ** Bytes without NUL *)

Definition nonul (l : list Z) : Prop := Forall (fun b => b <> 0) l.

#[export] Instance nonul_dec l : Decision (nonul l).
Proof. unfold nonul. apply _. Defined.

Lemma nonul_app l l' : nonul l -> nonul l' -> nonul (l ++ l').
Proof. unfold nonul. intros. by apply Forall_app. Qed.

Lemma splice_app bs l1 l2 l3 :
  length l2 = length bs -> splice (length l1) bs (l1 ++ l2 ++ l3) = Some (l1 ++ bs ++ l3).
Proof.
  intros Hl. unfold splice. rewrite !length_app, Hl, (proj2 (Nat.leb_le _ _)) by lia.
  rewrite take_app_length. rewrite (app_assoc l1 l2 l3), drop_app_length' by (rewrite length_app; lia). reflexivity.
Qed.

Lemma splice_None off bs l : (length l < off + length bs)%nat -> splice off bs l = None.
Proof. intros. unfold splice. rewrite (proj2 (Nat.leb_gt _ _)); auto. Qed.

(** ** Buffers written from the front *)

(** A buffer of [n] bytes of which the first ones are [done]. *)
Definition holds (n : nat) (done buf : list Z) : Prop :=
  exists rest, buf = (done ++ rest)%list /\ length buf = n.

Lemma holds_nil buf : holds (length buf) [] buf.
Proof. exists buf. split; reflexivity. Qed.

Lemma splice_one n done buf c :
  holds n done buf -> (length done < n)%nat ->
  exists buf', splice (length done) [c] buf = Some buf' /\ holds n (done ++ [c]) buf'.
Proof.
  intros (rest & -> & Hn) Hl. rewrite length_app in Hn. destruct rest as [|x rest]; simpl in Hn; [lia|].
  change (x :: rest) with ([x] ++ rest)%list. rewrite splice_app by reflexivity.
  eexists. split; [reflexivity|]. exists rest. split; [by rewrite <- app_assoc|].
  rewrite !length_app. simpl. lia.
Qed.

(** ** Lists, three elements at a time *)

Lemma list_ind3 {A} (P : list A -> Prop) :
  P [] -> (forall a, P [a]) -> (forall a b, P [a; b]) -> (forall a b c l, P l -> P (a :: b :: c :: l)) ->
  forall l, P l.
Proof.
  intros H0 H1 H2 H3. fix IH 1. intros [|a [|b [|c l]]]; [exact H0 | apply H1 | apply H2 | apply H3, IH].
Qed.
