(* ===== verification/CMem.v ===== *)
(** * C objects in byte buffers

    The C sources cast a [char] buffer to a pointer to a packed struct and then
    read and write members through it.  This file gives the part of C they use:
    packed types with their size, member designators ("A.B[1].C") resolved to an
    offset and a type, little-endian loads and stores at a designator, [strcpy],
    and straight-line lists of such assignments.  An access outside the buffer
    has no result ([None]); an access outside a member but inside the buffer does
    what the compiled code does, it touches the neighbouring member. *)

From S2P Require Import Prelude.

(** ** Packed types *)

#[warnings="-register-all"]
Inductive ctype :=
| U8
| U16
| U32
| Arr (t : ctype) (n : nat)
| Struct (fs : list (string * ctype)).

Fixpoint sizeof (t : ctype) : nat :=
  match t with
  | U8 => 1
  | U16 => 2
  | U32 => 4
  | Arr t n => n * sizeof t
  | Struct fs =>
      (fix go fs := match fs with
                    | [] => 0
                    | (_, t) :: fs => sizeof t + go fs
                    end) fs
  end%nat.

(** ** Member designators *)

Inductive accessor :=
| Fld (f : string)
| Idx (i : nat).

Definition digit (a : Ascii.ascii) : option nat :=
  let n := Ascii.nat_of_ascii a in
  if ((48 <=? n) && (n <=? 57))%nat then Some (n - 48)%nat else None.

(** Reads "A.B[1].C" as [Fld A; Fld B; Idx 1; Fld C].  [name] is the member name
    being read, in reverse; [idx] the index being read, when inside brackets. *)
Fixpoint parse_path (s : string) (name : string) (idx : option nat) : option (list accessor) :=
  let flush l := match name with EmptyString => l | _ => Fld (String.rev name) :: l end in
  match s with
  | EmptyString => match idx with None => Some (flush []) | Some _ => None end
  | String a s =>
      match idx with
      | Some i =>
          if Ascii.eqb a "]"%char then l ← parse_path s EmptyString None; Some (Idx i :: l)
          else d ← digit a; parse_path s EmptyString (Some (10 * i + d)%nat)
      | None =>
          if Ascii.eqb a "."%char then l ← parse_path s EmptyString None; Some (flush l)
          else if Ascii.eqb a "["%char then l ← parse_path s EmptyString (Some 0%nat); Some (flush l)
          else parse_path s (String a name) None
      end
  end.

Fixpoint field_at (fs : list (string * ctype)) (f : string) (off : nat) : option (nat * ctype) :=
  match fs with
  | [] => None
  | (g, t) :: fs => if String.eqb f g then Some (off, t) else field_at fs f (off + sizeof t)%nat
  end.

(** An index is not checked against the declared number of elements, as in C. *)
Fixpoint resolve (t : ctype) (p : list accessor) (off : nat) : option (nat * ctype) :=
  match p with
  | [] => Some (off, t)
  | Fld f :: p =>
      match t with
      | Struct fs => '(o, u) ← field_at fs f off; resolve u p o
      | _ => None
      end
  | Idx i :: p =>
      match t with
      | Arr u _ => resolve u p (off + i * sizeof u)%nat
      | _ => None
      end
  end.

Definition designate (t : ctype) (path : string) : option (nat * ctype) :=
  p ← parse_path path EmptyString None; resolve t p 0.

Definition offset_of (t : ctype) (path : string) : option nat := fst <$> designate t path.

(** ** Loads and stores *)

(** The lvalue [p->path] where [p], a pointer to [t], is [buf + base]. *)
Definition load (t : ctype) (path : string) (buf : list Z) (base : nat) : option Z :=
  '(o, u) ← designate t path;
  le_val <$> slice (base + o) (sizeof u) buf.

Definition store (t : ctype) (path : string) (v : Z) (buf : list Z) (base : nat) : option (list Z) :=
  '(o, u) ← designate t path;
  splice (base + o) (le_bytes (sizeof u) v) buf.

(** [strcpy(p->path, s)]: the characters of [s] and the terminating NUL. *)
Definition strcpy (t : ctype) (path : string) (s : string) (buf : list Z) (base : nat) : option (list Z) :=
  '(o, _) ← designate t path;
  splice (base + o) (bytes_of_string s ++ [0]) buf.

Definition bzero (n : nat) : list Z := replicate n 0.

(** ** Straight-line assignments to a struct *)

Inductive stmt :=
| Assign (path : string) (v : Z)
| Strcpy (path : string) (s : string)
| Copy (path : string) (bs : list Z).

Definition exec_stmt (t : ctype) (c : stmt) (buf : list Z) : option (list Z) :=
  match c with
  | Assign path v => store t path v buf 0
  | Strcpy path s => strcpy t path s buf 0
  | Copy path bs => '(o, _) ← designate t path; splice o bs buf
  end.

Fixpoint exec (t : ctype) (cs : list stmt) (buf : list Z) : option (list Z) :=
  match cs with
  | [] => Some buf
  | c :: cs => buf ← exec_stmt t c buf; exec t cs buf
  end.

Notation "p '::=' v" := (Assign p v) (at level 70).

(** ** Facts *)

Lemma store_length t path v buf base buf' :
  store t path v buf base = Some buf' -> length buf' = length buf.
Proof.
  unfold store. destruct (designate t path) as [[o u]|]; simpl; [|discriminate].
  apply length_splice.
Qed.

Lemma strcpy_length t path s buf base buf' :
  strcpy t path s buf base = Some buf' -> length buf' = length buf.
Proof.
  unfold strcpy. destruct (designate t path) as [[o u]|]; simpl; [|discriminate].
  apply length_splice.
Qed.

Lemma exec_stmt_length t c buf buf' : exec_stmt t c buf = Some buf' -> length buf' = length buf.
Proof.
  destruct c; simpl; eauto using store_length, strcpy_length.
  destruct (designate t path) as [[o u]|]; simpl; [|discriminate]. apply length_splice.
Qed.

(** No list of assignments changes the size of the buffer. *)
Lemma exec_length t cs buf buf' : exec t cs buf = Some buf' -> length buf' = length buf.
Proof.
  revert buf. induction cs as [|c cs IH]; intros buf H; simpl in H; [by simplify_eq|].
  destruct (exec_stmt t c buf) eqn:E; simpl in H; [|discriminate].
  apply IH in H. apply exec_stmt_length in E. congruence.
Qed.

(** A member read back after it was assigned has the assigned value, reduced to
    the width of the member. *)
Lemma load_store_same t path v buf base buf' o u :
  designate t path = Some (o, u) ->
  store t path v buf base = Some buf' ->
  load t path buf' base = Some (v mod 256 ^ Z.of_nat (sizeof u)).
Proof.
  unfold store, load. intros ->; simpl; intros H.
  apply slice_splice_same in H. rewrite length_le_bytes in H. rewrite H. simpl.
  rewrite le_val_le_bytes. reflexivity.
Qed.

Lemma load_is_Some t path buf base o u :
  designate t path = Some (o, u) -> (base + o + sizeof u <= length buf)%nat ->
  is_Some (load t path buf base).
Proof.
  intros Hd Hl. unfold load. rewrite Hd. simpl. apply fmap_is_Some, slice_is_Some. lia.
Qed.

Lemma load_None t path buf base o u :
  designate t path = Some (o, u) -> (length buf < base + o + sizeof u)%nat ->
  load t path buf base = None.
Proof. intros Hd Hl. unfold load. rewrite Hd. simpl. rewrite slice_None by lia. reflexivity. Qed.

Lemma load_range t path buf base v o u :
  designate t path = Some (o, u) -> bytes_ok buf -> load t path buf base = Some v ->
  0 <= v < 256 ^ Z.of_nat (sizeof u).
Proof.
  unfold load. intros ->; simpl; intros Hb H.
  apply fmap_Some in H as (bs & Hs & ->).
  rewrite <- (length_slice _ _ _ _ Hs). eapply le_val_range, slice_ok; eauto.
Qed.

Example designate_example :
  designate (Struct [("A"%string, U8); ("B"%string, Arr (Struct [("C"%string, U16); ("D"%string, U8)]) 2)]) "B[1].D"
  = Some (6%nat, U8).
Proof. reflexivity. Qed.
