(* ===== verification/CFormat.v ===== *)
(** * The C formatting functions the sources use

    [printf]/[sprintf] with the conversions that occur in the sources (%d, %x,
    %c, %s-free, with a zero flag, a field width and the hh modifier), the C
    escape sequence \n of string literals, and [sscanf] with %02x. *)

From S2P Require Import Prelude.

(** ** Numbers *)

Definition char_of (n : Z) : string := String (Ascii.ascii_of_nat (Z.to_nat n)) EmptyString.

(** The digit of value [d] in a base up to 16, lower case. *)
Definition digit_char (d : Z) : string :=
  if d <? 10 then char_of (48 + d) else char_of (87 + d).

(** Digits of [v] in base [b], most significant first; [n] bounds their number. *)
Fixpoint digits (n : nat) (b v : Z) : string :=
  match n with
  | O => EmptyString
  | S n => if v <? b then digit_char v else String.append (digits n b (v / b)) (digit_char (v mod b))
  end.

(** A C [int] or narrower unsigned value prints in at most 10 digits in base 10
    and 8 in base 16; 20 digits cover 64-bit values too. *)
Definition decimal (v : Z) : string :=
  if v <? 0 then String.append "-" (digits 20 10 (- v)) else digits 20 10 v.
Definition hexadecimal (v : Z) : string := digits 20 16 v.

Fixpoint zeros (n : nat) : string :=
  match n with O => EmptyString | S n => String.append "0" (zeros n) end.

Definition pad (zero : bool) (width : nat) (s : string) : string :=
  let n := (width - String.length s)%nat in
  String.append (if zero then zeros n else String.string_of_list_ascii (replicate n " "%char)) s.

(** ** Format strings *)

Record spec := { sp_zero : bool; sp_width : nat; sp_hh : bool }.

Definition no_spec : spec := {| sp_zero := false; sp_width := 0; sp_hh := false |}.

Definition char_digit (a : Ascii.ascii) : option nat :=
  let n := Ascii.nat_of_ascii a in
  if ((48 <=? n) && (n <=? 57))%nat then Some (n - 48)%nat else None.

(** [mode]: [None] outside a conversion specification, [Some sp] inside one.
    A conversion with no argument left prints nothing (C leaves it undefined; no
    call of the sources does that); surplus arguments are ignored. *)
Fixpoint sprintf_go (mode : option spec) (fmt : string) (args : list Z) : string :=
  match fmt with
  | EmptyString => EmptyString
  | String a fmt =>
      match mode with
      | None =>
          if Ascii.eqb a "%"%char then sprintf_go (Some no_spec) fmt args
          else String a (sprintf_go None fmt args)
      | Some sp =>
          let conv (f : Z -> string) :=
            match args with
            | [] => sprintf_go None fmt []
            | v :: args => String.append (f v) (sprintf_go None fmt args)
            end in
          if Ascii.eqb a "d"%char then conv (fun v => pad (sp_zero sp) (sp_width sp) (decimal v))
          else if Ascii.eqb a "x"%char then
            conv (fun v => pad (sp_zero sp) (sp_width sp)
                             (hexadecimal (if sp_hh sp then u8 v else u32 v)))
          else if Ascii.eqb a "c"%char then conv (fun v => char_of (u8 v))
          else if Ascii.eqb a "%"%char then String a (sprintf_go None fmt args)
          else if Ascii.eqb a "h"%char then
            sprintf_go (Some {| sp_zero := sp_zero sp; sp_width := sp_width sp; sp_hh := true |}) fmt args
          else match char_digit a with
               | Some d =>
                   let sp' := if ((d =? 0) && (sp_width sp =? 0))%nat
                              then {| sp_zero := true; sp_width := 0; sp_hh := sp_hh sp |}
                              else {| sp_zero := sp_zero sp; sp_width := (10 * sp_width sp + d)%nat;
                                      sp_hh := sp_hh sp |} in
                   sprintf_go (Some sp') fmt args
               | None => sprintf_go None fmt args
               end
      end
  end.

Definition sprintf (fmt : string) (args : list Z) : string := sprintf_go None fmt args.

(** The value of a string literal: \n is a line feed. *)
Fixpoint c_str (s : string) : string :=
  match s with
  | EmptyString => EmptyString
  | String a s' =>
      match s' with
      | String b s'' =>
          if Ascii.eqb a "\"%char && Ascii.eqb b "n"%char
          then String (Ascii.ascii_of_nat 10) (c_str s'')
          else String a (c_str s')
      | EmptyString => String a EmptyString
      end
  end.

(** ** sscanf(buf, "%02x", &val) *)

Definition hex_digit (b : Z) : option Z :=
  if (48 <=? b) && (b <=? 57) then Some (b - 48)
  else if (97 <=? b) && (b <=? 102) then Some (b - 87)
  else if (65 <=? b) && (b <=? 70) then Some (b - 55)
  else None.

(** Up to [width] hexadecimal digits; no digit at all leaves [val] as it was. *)
Fixpoint scan_hex (width : nat) (l : list Z) (acc : option Z) : option Z :=
  match width, l with
  | S w, b :: l =>
      match hex_digit b with
      | Some d => scan_hex w l (Some (16 * default 0 acc + d))
      | None => acc
      end
  | _, _ => acc
  end.

Definition sscanf_02x (buf : list Z) (val : Z) : Z := default val (scan_hex 2 buf None).

(** ** Facts *)

Example sprintf_example :
  sprintf (c_str "MID = %hhx0%hhx, tid %d, %02x!\n") [1564; 6; 42; 11]
  = String.append "MID = 1c06, tid 42, 0b!" (char_of 10).
Proof. reflexivity. Qed.
