(* ===== verification/RalPrimitives.v ===== *)
(** * Constants and packed types of the MIH link adapter

    MIH_C_Link_Constants.h, MIH_C_Link_Primitives.h, mRALlteInt_variables.h and
    mRALlteInt_log.h of extensions/MIH_C_Protocol/LTE_link_Test/include: every
    numeric and string macro, every scalar typedef and every packed struct, with
    the members in the order of the source. *)

From S2P Require Import Prelude CMem.

Local Open Scope string_scope.
Local Open Scope Z_scope.

(** ** Constants of MIH_C_Link_Constants.h *)

Definition PROTOCOL_VERSION : Z := 16.
Definition ACK_REQ_ON : Z := 8.
Definition ACK_RSP_ON : Z := 4.
Definition MIH_LINK_HEADER_2 : Z := 0.
Definition MIH_LINK_HEADER_3_ES_Ind : Z := 1564.
Definition MIH_LINK_HEADER_4_ES_Ind : Z := 0.
Definition MIH_LINK_HEADER_3_Link_Up_Ind : Z := 556.
Definition MIH_LINK_HEADER_4_Link_Up_Ind : Z := 0.
Definition MIH_LINK_HEADER_3_Link_Down_Ind : Z := 812.
Definition MIH_LINK_HEADER_4_Link_Down_Ind : Z := 0.
Definition MIH_LINK_HEADER_3_Cap_Disc_Req : Z := 276.
Definition MIH_LINK_HEADER_3_Cap_Disc_Conf : Z := 272.
Definition MIH_LINK_HEADER_3_Evt_Sub_Req : Z := 1044.
Definition MIH_LINK_HEADER_3_Evt_Sub_Conf : Z := 1040.
Definition MIH_LINK_HEADER_3_Evt_Unsub_Req : Z := 1300.
Definition MIH_LINK_HEADER_3_Evt_Unsub_Conf : Z := 1296.
Definition MIH_LINK_HEADER_3_Get_Param_Req : Z := 308.
Definition MIH_LINK_HEADER_3_Get_Param_Conf : Z := 304.
Definition MIH_LINK_HEADER_3_Link_Conf_Thres_Req : Z := 564.
Definition MIH_LINK_HEADER_3_Link_Conf_Thres_Conf : Z := 560.
Definition MIH_LINK_HEADER_3_Link_Act_Req : Z := 820.
Definition MIH_LINK_HEADER_3_Link_Act_Conf : Z := 816.
Definition MIH_LINK_HEADER_3_Link_Detected_Ind : Z := 300.
Definition MIH_LINK_HEADER_4_Link_Detected_Ind : Z := 0.
Definition MIH_LINK_HEADER_3_Link_Going_Down : Z := 1580.
Definition MIH_LINK_HEADER_4_Link_Going_Down : Z := 0.
Definition MIH_LINK_HEADER_3_Link_Param_Report : Z := 1324.
Definition MIH_LINK_HEADER_4_Link_Param_Report : Z := 0.
Definition MIH_NETWORK_ID_LENGTH : Z := 7.
Definition MIH_LINK_HEADER_LENGTH : Z := 8.
Definition MIH_NET_AUX_ID_LENGTH : Z := 6.
Definition NET_CAP_LENGTH : Z := 4.
Definition MIH_MAC_ADDRESS_LENGTH : Z := 6.
Definition MIH_3GPP_ADDRESS_LENGTH : Z := 8.
Definition MIH_3GPP_ADDRESS_CELL_ID_LENGTH : Z := 4.
Definition MIHF_MAX_LINK_ID_NAME : Z := 6.
Definition MIHF_MAX_LINK_ID_NAME_MIHF : Z := 5.
Definition MIHF_MAX_LINK_ID_NAME_LINK : Z := 4.
Definition MIHF_MAX_LINK_ID_NAME_USER : Z := 4.
Definition MIHF_EVT_LIST_LENGTH : Z := 4.
Definition MIHF_CMD_LIST_LENGTH : Z := 4.
Definition MAX_NUMBER_LINK_ID : Z := 2.
Definition GET_STATUS_RESPONSE_LIST_LENGTH : Z := 2.
Definition LINK_DET_INFO_VALUE_LIST_LENGTH : Z := 1.
Definition LINK_STATES_RSP_LIST_LENGTH : Z := 1.
Definition LINK_PARAM_TYPE_LIST_LENGTH : Z := 1.
Definition LINK_DESC_RSP_LIST_LENGTH : Z := 1.
Definition GET_STATUS_RSP_LIST_LENGTH : Z := 1.
Definition LIST_PARAM_RPT_LENGTH_VALUE : Z := 1.
Definition LINK_SCAN_RSP_LIST_LENGTH : Z := 1.
Definition LINK_ACTION_REQ_LIST_LENGTH : Z := 1.
Definition TRESHOLD_LIST_LENGTH : Z := 1.
Definition LINK_CFG_STATUS_LIST_LENGTH : Z := 1.
Definition LINK_ADDRESS_LENGTH : Z := 2.
Definition LINK_ACTION_RSP_LENGTH : Z := 1.
Definition LINK_CFG_PARAM_LIST_LENGTH : Z := 1.
Definition SID_SERVICE_MANAGEMENT : Z := 1.
Definition SID_EVENT_SERVICE : Z := 2.
Definition SID_COMMAND_SERVICE : Z := 3.
Definition SID_INFORMATION_SERVICE : Z := 4.
Definition OP_CONFIRM : Z := 0.
Definition OP_REQUEST : Z := 1.
Definition OP_RESPONCE : Z := 2.
Definition OP_INDICATION : Z := 3.
Definition AID_CAPABILITY_DISCOVER : Z := 1.
Definition AID_EVENT_SUBSCRIBE : Z := 4.
Definition AID_EVENT_UNSUBSCRIBE : Z := 5.
Definition AID_LINK_REGISTER_INDICATION : Z := 6.
Definition AID_LINK_DETECTED : Z := 1.
Definition AID_LINK_UP : Z := 2.
Definition AID_LINK_DOWN : Z := 3.
Definition AID_LINK_PARAMETERS_REPORT : Z := 5.
Definition AID_LINK_GOING_DOWN : Z := 6.
Definition AID_LINK_GET_PARAMETERS : Z := 1.
Definition AID_LINK_CONFIGURE_THRESHOLDS : Z := 2.
Definition AID_LINK_ACTIONS : Z := 3.
Definition CHOICE_MAC_ADDRESS : Z := 0.
Definition CHOICE_ADDRESS_3GPP : Z := 3.
Definition TLV_MIHF_ID_SOURCE : Z := 1.
Definition TLV_MIHF_ID_DESTINATION : Z := 2.
Definition TLV_STATUS : Z := 3.
Definition TLV_EVENT_LIST : Z := 5.
Definition TLV_COMMAND_LIST : Z := 6.
Definition TLV_LINK_TUPLE_ID : Z := 13.
Definition TLV_LINK_DOWN_REASON_CODE : Z := 20.
Definition TLV_LINK_TIME_INTERVAL : Z := 21.
Definition TLV_LINK_GOING_DOWN_REASON : Z := 22.
Definition TLV_LINK_PARAM_RPT_LIST : Z := 23.
Definition TLV_LINK_CFG_PARAM_LIST : Z := 29.
Definition TLV_LINK_CFG_STATUS_LIST : Z := 30.
Definition TLV_LINK_DET_INFO_LIST : Z := 58.
Definition TLV_LINK_EVENT_LIST : Z := 101.
Definition TLV_LINK_CMD_LIST : Z := 102.
Definition TLV_LIST_LINK_PARAM_TYPE : Z := 103.
Definition TLV_LINK_PARAMETERS_STATUS_LIST : Z := 104.
Definition TLV_LINK_STATES_RSP : Z := 106.
Definition TLV_LINK_DESCRIPTOR_RSP : Z := 108.
Definition TLV_LINK_ACTION : Z := 109.
Definition TLV_LINK_AC_RESULT : Z := 110.
Definition TLV_LINK_SCAN_RSP_LIST : Z := 111.
Definition TLV_LINK_DET_INFO : Z := 112.
Definition TLV_LINK_REGISTER_TYPE : Z := 113.

(** ** Constants of mRALlteInt_variables.h *)

Definition HEADER_VERSION_PRINT : Z := 240.
Definition HEADER_VERSION_0 : Z := 0.
Definition HEADER_VERSION_1 : Z := 16.
Definition ACK_REQ_PRINT : Z := 8.
Definition ACK_RSP_PRINT : Z := 4.
Definition ACK_UIR_PRINT : Z := 2.
Definition MORE_FRAGMENT_PRINT : Z := 1.
Definition FRAGMENT_NUMBER_PRINT : Z := 254.
Definition RESERVED1_PRINT : Z := 1.
Definition SID_PRINT : Z := 240.
Definition OPCODE_PRINT : Z := 12.
Definition AID_PRINT : Z := 1023.
Definition RSVD2_PRINT : Z := 15.
Definition TID_PRINT : Z := 255.
Definition LINK_PARAM_VAL : Z := 0.
Definition QOS_PARAM_VAL : Z := 1.
Definition LINK_TH_ACTION_SET_NORMAL : Z := 0.
Definition LINK_TH_ACTION_SET_ONE_SHOT : Z := 1.
Definition LINK_TH_ACTION_CANCEL : Z := 2.
Definition ABOVE_THRESHOLD : Z := 0.
Definition BELOW_THRESHOLD : Z := 1.
Definition CONFIG_STATUS_SUCCESS : Z := 0.
Definition CONFIG_STATUS_ERROR : Z := 1.
Definition CONVERSION : Z := 256.
Definition LINK_TYPE_802_11 : Z := 19.
Definition LINK_TYPE_3GPP : Z := 23.
Definition LINK_ADDR_FAMILY_MAC : Z := 6.
Definition LENGTH_MAC_ADDRESS : Z := 6.
Definition PORT_MIHF : Z := 1235.
Definition PORT_ODTONE : Z := 1025.
Definition MIHLink_MAX_LENGTH : Z := 500.
Definition MIH_C_MESSAGE_MAX_LENGTH : Z := 50.
Definition VALUE_NULL : Z := 0.
Definition CHOICE_NULL : Z := 0.
Definition REASON_CODE_LENGTH : Z := 1.
Definition LINK_DOWN_RC_EXPLICIT_DISCONNECT : Z := 0.
Definition LINK_DOWN_RC_PACKET_TIMEOUT : Z := 1.
Definition LINK_DOWN_RC_NO_RESOURCE : Z := 2.
Definition LINK_DOWN_RC_NO_BROADCAST : Z := 3.
Definition LINK_DOWN_RC_AUTHENTICATION_FAILURE : Z := 4.
Definition LINK_DOWN_RC_BILLING_FAILURE : Z := 5.
Definition STATUS_SUCCESS : Z := 0.
Definition STATUS_UNSPECIFIED_FAILURE : Z := 1.
Definition STATUS_REJECTED : Z := 2.
Definition STATUS_AUTHORIZATION_FAILURE : Z := 3.
Definition STATUS_NETWORK_ERROR : Z := 4.
Definition EVT_LIST_LINK_DETECTED : Z := 1.
Definition EVT_LIST_LINK_UP : Z := 2.
Definition EVT_LIST_LINK_DOWN : Z := 4.
Definition EVT_LIST_LINK_PARAMETERS_REPORT : Z := 8.
Definition EVT_LIST_LINK_GOING_DOWN : Z := 16.
Definition EVT_LIST_LINK_HANDOVER_IMMINENT : Z := 32.
Definition EVT_LIST_LINK_HANDOVER_COMPLETE : Z := 64.
Definition EVT_LIST_PDU_TRANSMIT_STATUS : Z := 128.
Definition CMD_LIST_LINK_EVENT_SUBSCRIBE : Z := 2.
Definition CMD_LIST_LINK_EVENT_UNSUBSCRIBE : Z := 4.
Definition CMD_LIST_LINK_GET_PARAMETERS : Z := 8.
Definition CMD_LIST_LINK_CONFIGURE_THRESHOLDS : Z := 16.
Definition CMD_LIST_LINK_ACTION : Z := 32.
Definition CHOICE_LINK_PARAM_VAL : Z := 0.
Definition CHOICE_QOS_PARAM_VAL : Z := 1.
Definition LINK_PARAM_VAL_VALUE : Z := 100.
Definition CHOICE_OP_MODE : Z := 0.
Definition CHOICE_CHANNEL_ID : Z := 1.
Definition OP_MODE_NORMAL_MODE : Z := 0.
Definition OP_MODE_POWER_SAVING_MODE : Z := 1.
Definition OP_MODE_POWERED_DOWN : Z := 2.
Definition CHOICE_NUM_COS : Z := 0.
Definition CHOICE_NUM_QUEUE : Z := 1.
Definition NUM_COS_VALUE : Z := 6.
Definition NUM_NUM_QUEUE_VALUE : Z := 8.
Definition CONFIG_STATUS_TRUE : Z := 0.
Definition CONFIG_STATUS_FALSE : Z := 1.
Definition LINK_ACTION_LENGTH : Z := 1.
Definition LINK_AC_TYPE_NONE : Z := 0.
Definition LINK_AC_TYPE_LINK_DISCONNECT : Z := 1.
Definition LINK_AC_TYPE_LOW_POWER : Z := 2.
Definition LINK_AC_TYPE_POWER_DOWN : Z := 3.
Definition LINK_AC_TYPE_POWER_UP : Z := 4.
Definition LINK_SCAN : Z := 1.
Definition LINK_GET_PARAMETERS_CONFIRM_LINK_PARAM_LENGTH : Z := 6.
Definition LINK_GET_PARAMETERS_CONFIRM_LINK_PARAM_LIST_LENGTH : Z := 1.
Definition LINK_GET_PARAMETERS_CONFIRM_LINK_STATES_RSP_LIST_LENGTH : Z := 1.
Definition LINK_GET_PARAMETERS_CONFIRM_LINK_DESC_LIST_LENGTH : Z := 1.
Definition LINK_CONF_THRES_CONF_LINK_CFG_STATUS_LIST_TYPE : Z := 30.
Definition LINK_CONF_THRES_CONF_LINK_CFG_STATUS_LENGTH : Z := 7.
Definition LINK_CONF_THRES_CONF_LINK_CFG_STATUS_LIST_LENGTH : Z := 1.
Definition LINK_CONF_THRES_CONF_LINK_CFG_STATUS_THRESHOLD_VAL : Z := 100.
Definition LINK_CONF_THRES_CONF_LINK_CFG_STATUS_THRESHOLD_X_DIR : Z := 1.
Definition LINK_ACTION_CONF_STATUS_LENGTH : Z := 1.
Definition LINK_ACTION_CONF_STATUS_VALUE : Z := 0.
Definition LINK_ACTION_CONF_LINK_AC_RESULT : Z := 0.
Definition LINK_ADDR_3GPP_3G_CELL_ID : Z := 2.
Definition MCC : Z := 208.
Definition MNC : Z := 1.
Definition CELL_ID : Z := 45.
Definition SIG_STRENGTH_VALUE : Z := 100.
Definition LINK_PARAM_802_11 : Z := 5.
Definition LINK_PARAM_GEN : Z := 0.
Definition LINK_PARAM_GEN_VAL : Z := 0.
Definition OP_MODE : Z := 1.
Definition CHANNEL_ID : Z := 2.
Definition CLASSES_SERVICE : Z := 1.
Definition QUEUES_SUPPORTED : Z := 2.
Definition LINK_DETECTED_INDICATION_SIG_STRENGTH : Z := 5.
Definition LINK_DETECTED_INDICATION_SINR : Z := 45.
Definition LINK_DETECTED_INDICATION_LINK_DATA_RATE : Z := 1000.
Definition EVENT_SERVICE_SUPPORTED_ON : Z := 1.
Definition COMMAND_SERVICE_SUPPORTED_ON : Z := 2.
Definition INFORMATION_SERVICE_SUPPORTED_ON : Z := 4.
Definition NET_CAPS_QOS_CLASS_0 : Z := 2.
Definition NET_CAPS_QOS_CLASS_1 : Z := 4.
Definition NET_CAPS_INTERNET_ACCESS : Z := 64.
Definition LINK_DETECTED_TIME_INTERVAL : Z := 50.
Definition LINK_GOING_DOWN_REASON_EXPLICIT_DISCONNECT : Z := 0.
Definition LINK_GOING_DOWN_REASON_LINK_PARAM_DEGRADING : Z := 1.
Definition LINK_GOING_DOWN_REASON_LOW_POWER : Z := 2.
Definition LINK_GOING_DOWN_REASON_NO_RESOURCE : Z := 3.

(** ** Constants of mRALlteInt_log.h *)

Definition LOG_CONST : Z := 0.
Definition LOG_TO_CONSOLE : Z := 0.
Definition LOG_TO_FILE : Z := 1.
Definition LOG_TO_SYSTEM : Z := 2.
Definition RAL_LTE_LOG_DEBUG : Z := 4.
Definition RAL_LTE_LOG_ERROR : Z := 8.
Definition LOG_TO_DEFAULT : Z := LOG_TO_CONSOLE.
Definition IP_ADDRESS : string := "127.0.0.1".
Definition SOCKET_ADDRESS : string := "127.0.0.1".
Definition ADDRESS_3GPP : string := "0335060080149150".
Definition MIH_SOURCE_ID : string := "link".
Definition MIH_DESTINATION_ID : string := "mihf1".
Definition MIH_SOURCE_ID_LINK_UP : string := "link".
Definition MIH_NETWORK_ID : string := "eurecom".
Definition MIH_NETAUX : string := "netaux".
Definition LTE_LOGFILE_NAME : string := "/tmp/log_MT_RALlte.txt".
Definition LTE_SYSLOG_NAME : string := "MT_RALlte".
Definition LTE_MT_RAL_VERSION : string := "D0.1".

(** ** Packed types of MIH_C_Link_Primitives.h *)

Definition MIH_C_Header_Vers : ctype := U8.
Definition MIH_C_Header_FN : ctype := U8.
Definition MIH_C_Message_ID : ctype := U16.
Definition MIH_C_Transaction_ID : ctype := U16.
Definition MIH_C_Variable_Payload_Length : ctype := U16.
Definition MIH_C_Type : ctype := U8.
Definition MIH_C_Length : ctype := U8.
Definition MIH_C_Link_Type : ctype := U8.
Definition MIH_C_Address_Family : ctype := U16.
Definition MIH_C_Length_Address : ctype := U8.
Definition MIH_C_Status_Value : ctype := U8.
Definition MIH_C_Reason_Code : ctype := U8.
Definition MIH_C_Exec_Delay : ctype := U8.
Definition MIH_C_Link_State_Req_Value : ctype := U8.
Definition MIH_C_Link_Param_Type_Value : ctype := U8.
Definition MIH_C_Link_States_Req_Value : ctype := U16.
Definition MIH_C_Link_Desc_Req_Value : ctype := U16.
Definition MIH_C_Link_Param_Value : ctype := U16.
Definition MIH_C_Link_Ac_Type : ctype := U8.
Definition MIH_C_Link_Ac_Attr : ctype := U8.
Definition MIH_C_Choice : ctype := U8.
Definition MIH_C_Link_States_Rsp_Value : ctype := U8.
Definition MIH_C_Link_Desc_Rsp_Value : ctype := U8.
Definition MIH_C_Choice_Address : ctype := U8.
Definition MIH_C_Link_Mihcap_Flag : ctype := U8.
Definition MIH_C_Time_Interval_Value : ctype := U16.
Definition MIH_C_Link_Going_Down_Reason_Value : ctype := U8.
Definition MIH_C_SINR : ctype := U16.
Definition MIH_C_Link_Data_Rate : ctype := U32.
Definition MIH_C_List_Length : ctype := U8.
Definition MIH_C_Link_Param_Type_Num : ctype := U8.
Definition MIH_C_Timer_Interval : ctype := U16.
Definition MIH_C_Th_Action : ctype := U8.
Definition MIH_C_Threshold_Val : ctype := U16.
Definition MIH_C_Threshold_X_Dir : ctype := U8.
Definition MIH_C_Config_Status : ctype := U8.
Definition MIH_C_Link_Ac_Ex_Time : ctype := U16.
Definition MIH_C_Link_Addr : ctype := Arr U8 (Z.to_nat LINK_ADDRESS_LENGTH).
Definition MIH_C_Execution_Delay : ctype := U16.
Definition MIH_C_Link_Ac_Result_Value : ctype := U8.
Definition MIH_C_Link_Sig_Strength_Value : ctype := U8.
Definition MIH_C_VariablePayload : ctype := U8.
Definition MIH_C_Link_Sig_Strength : ctype := Struct
  [("Choice", MIH_C_Choice);
   ("Link_Sig_Strength_Value", MIH_C_Link_Sig_Strength_Value)].
Definition MIH_C_Link_States_Rsp : ctype := Struct
  [("Choice", MIH_C_Choice);
   ("Link_States_Rsp_Value", MIH_C_Link_States_Rsp_Value)].
Definition MIH_C_Link_Desc_Rsp : ctype := Struct
  [("Choice", MIH_C_Choice);
   ("Link_Desc_Rsp_Value", MIH_C_Link_Desc_Rsp_Value)].
Definition MIH_C_Link_Param : ctype := Struct
  [("Param_Type_Choice", MIH_C_Choice);
   ("Link_Param_Type_Num", MIH_C_Link_Param_Type_Num);
   ("Choice", MIH_C_Choice);
   ("Link_Param_Value", MIH_C_Link_Param_Value)].
Definition MIH_C_Link_Param_Type : ctype := Struct
  [("Choice", MIH_C_Choice);
   ("Link_Param_Type_Value", MIH_C_Link_Param_Type_Value)].
Definition MIH_C_MAC_Address : ctype := Struct
  [("MAC_Addr_Val", Arr U8 (Z.to_nat MIH_MAC_ADDRESS_LENGTH))].
Definition MIH_C_Address_3GPP : ctype := Struct
  [("Addr_Val_List_Length", U8);
   ("Addr_Val_3GPP", Arr U8 (Z.to_nat MIH_3GPP_ADDRESS_LENGTH))].
Definition MIH_C_Address_3GPP_CellId : ctype := Struct
  [("PLMN_ID", Arr U8 3);
   ("Address_3GPP_CellId_Value", U32)].
Definition MIH_C_Net_Aux_Id : ctype := Struct
  [("Net_Aux_Id_Length", U8);
   ("Net_Aux_Id_Value", Arr U8 (Z.to_nat MIH_NET_AUX_ID_LENGTH))].
Definition MIH_C_Network_Id : ctype := Struct
  [("Network_Id_Length", U8);
   ("Network_Id_Value", Arr U8 (Z.to_nat MIH_NETWORK_ID_LENGTH))].
Definition MIH_C_Sig_Strength : ctype := Struct
  [("Choice", MIH_C_Choice);
   ("Sig_Strength_Value", U8)].
Definition MIH_C_Link_ID_Name_Mihf : ctype := Struct
  [("Length", U8);
   ("Link_ID_Char", Arr U8 (Z.to_nat MIHF_MAX_LINK_ID_NAME_MIHF))].
Definition MIH_C_Link_ID_Name_Link : ctype := Struct
  [("Length", U8);
   ("Link_ID_Char", Arr U8 (Z.to_nat MIHF_MAX_LINK_ID_NAME_LINK))].
Definition MIH_C_Link_ID_Name_User : ctype := Struct
  [("Length", U8);
   ("Link_ID_Char", Arr U8 (Z.to_nat MIHF_MAX_LINK_ID_NAME_USER))].
Definition MIH_C_Evt_List_Data : ctype := Struct
  [("Evt_List_Oct", Arr U8 (Z.to_nat MIHF_EVT_LIST_LENGTH))].
Definition MIH_C_Cmd_List_Data : ctype := Struct
  [("Cmd_List_Oct", Arr U8 (Z.to_nat MIHF_CMD_LIST_LENGTH))].
Definition MIH_C_Header : ctype := Struct
  [("Header_Vers", MIH_C_Header_Vers);
   ("Header_FN", MIH_C_Header_FN);
   ("Message_ID", MIH_C_Message_ID);
   ("Transaction_ID", MIH_C_Transaction_ID);
   ("Payload_Length", MIH_C_Variable_Payload_Length)].
Definition MIH_C_Link_ID_3GPP : ctype := Struct
  [("LinkType", MIH_C_Link_Type);
   ("Choice_Address", MIH_C_Choice_Address);
   ("Address_3GPP", MIH_C_Address_3GPP)].
Definition MIH_C_Link_ID : ctype := Struct
  [("LinkType", MIH_C_Link_Type);
   ("AddressFamily", MIH_C_Address_Family);
   ("LengthAddress", MIH_C_Length_Address);
   ("MAC_Address", MIH_C_MAC_Address)].
Definition MIH_C_Link_Det_Info_Value : ctype := Struct
  [("Link_ID_3GPP", MIH_C_Link_ID_3GPP);
   ("Choice", MIH_C_Choice);
   ("Network_Id", MIH_C_Network_Id);
   ("Net_Aux_Id", MIH_C_Net_Aux_Id);
   ("Sinr", MIH_C_SINR);
   ("Link_Data_Rate", MIH_C_Link_Data_Rate);
   ("Sig_Strength", MIH_C_Sig_Strength);
   ("Link_Mihcap_Flag", MIH_C_Link_Mihcap_Flag);
   ("Net_Caps", U32)].
Definition MIH_C_Mihf_ID_Mihf : ctype := Struct
  [("Type", MIH_C_Type);
   ("Length", MIH_C_Length);
   ("Link_ID_Name_Mihf", MIH_C_Link_ID_Name_Mihf)].
Definition MIH_C_Mihf_ID_Link : ctype := Struct
  [("Type", MIH_C_Type);
   ("Length", MIH_C_Length);
   ("Link_ID_Name_Link", MIH_C_Link_ID_Name_Link)].
Definition MIH_C_Mihf_ID_User : ctype := Struct
  [("Type", MIH_C_Type);
   ("Length", MIH_C_Length);
   ("Link_ID_Name_User", MIH_C_Link_ID_Name_User)].
Definition MIH_C_Link_Register_Information : ctype := Struct
  [("Type", MIH_C_Type);
   ("Length", MIH_C_Length);
   ("Link_ID_3GPP", MIH_C_Link_ID_3GPP)].
Definition MIH_C_Status : ctype := Struct
  [("Type", MIH_C_Type);
   ("Length", MIH_C_Length);
   ("Status_Value", MIH_C_Status_Value)].
Definition MIH_C_MIH_Evt_List : ctype := Struct
  [("Type", MIH_C_Type);
   ("Length", MIH_C_Length);
   ("Evt_List_Data", MIH_C_Evt_List_Data)].
Definition MIH_C_MIH_Cmd_List : ctype := Struct
  [("Type", MIH_C_Type);
   ("Length", MIH_C_Length);
   ("Cmd_List_Data", MIH_C_Cmd_List_Data)].
Definition MIH_C_Link_Identifier : ctype := Struct
  [("Type", MIH_C_Type);
   ("Length", MIH_C_Length);
   ("Link_ID_3GPP", MIH_C_Link_ID_3GPP)].
Definition MIH_C_Link_Tuple_Id : ctype := Struct
  [("Type", MIH_C_Type);
   ("Length", MIH_C_Length);
   ("Link_ID", MIH_C_Link_ID);
   ("Choice", MIH_C_Choice)].
Definition MIH_C_Link_Tuple_Id_3GPP : ctype := Struct
  [("Type", MIH_C_Type);
   ("Length", MIH_C_Length);
   ("Link_ID_3GPP", MIH_C_Link_ID_3GPP);
   ("Choice", MIH_C_Choice)].
Definition MIH_C_Link_Dn_Reason : ctype := Struct
  [("Type", MIH_C_Type);
   ("Length", MIH_C_Length);
   ("Reason", MIH_C_Reason_Code)].
Definition MIH_C_Action_Value : ctype := Struct
  [("Link_Ac_Type", MIH_C_Link_Ac_Type);
   ("Link_Ac_Attr", MIH_C_Link_Ac_Attr)].
Definition MIH_C_Link_Evt_List : ctype := Struct
  [("Type", MIH_C_Type);
   ("Length", MIH_C_Length);
   ("Evt_List_Data", MIH_C_Evt_List_Data)].
Definition MIH_C_Link_Cmd_List : ctype := Struct
  [("Type", MIH_C_Type);
   ("Length", MIH_C_Length);
   ("Cmd_List_Data", MIH_C_Cmd_List_Data)].
Definition MIH_C_Link_Action : ctype := Struct
  [("Type", MIH_C_Type);
   ("Length", MIH_C_Length);
   ("Link_Action_Value", MIH_C_Action_Value)].
Definition MIH_C_List_Link_ID : ctype := Struct
  [("Type", MIH_C_Type);
   ("Length", MIH_C_Length);
   ("Link_ID", Arr MIH_C_Link_ID (Z.to_nat MAX_NUMBER_LINK_ID))].
Definition MIH_C_Link_Param_Type_List : ctype := Struct
  [("Type", MIH_C_Type);
   ("Length", MIH_C_Length);
   ("List_Length", MIH_C_List_Length);
   ("Link_Param_Type", Arr MIH_C_Link_Param_Type (Z.to_nat LINK_PARAM_TYPE_LIST_LENGTH))].
Definition MIH_C_Link_States_Req : ctype := Struct
  [("Type", MIH_C_Type);
   ("Length", MIH_C_Length);
   ("Link_States_Req_Value", MIH_C_Link_States_Req_Value)].
Definition MIH_C_Link_Desc_Req : ctype := Struct
  [("Type", MIH_C_Type);
   ("Length", MIH_C_Length);
   ("Link_Desc_Req_Value", MIH_C_Link_Desc_Req_Value)].
Definition MIH_C_Link_Param_List : ctype := Struct
  [("Type", MIH_C_Type);
   ("Length", MIH_C_Length);
   ("List_Length", MIH_C_List_Length);
   ("Link_Param", Arr MIH_C_Link_Param (Z.to_nat LINK_PARAM_TYPE_LIST_LENGTH))].
Definition MIH_C_Link_States_Rsp_List : ctype := Struct
  [("Type", MIH_C_Type);
   ("Length", MIH_C_Length);
   ("List_Length", MIH_C_List_Length);
   ("Link_States_Rsp", Arr MIH_C_Link_States_Rsp (Z.to_nat LINK_STATES_RSP_LIST_LENGTH))].
Definition MIH_C_Link_Desc_Rsp_List : ctype := Struct
  [("Type", MIH_C_Type);
   ("Length", MIH_C_Length);
   ("List_Length", MIH_C_List_Length);
   ("Link_Desc_Rsp", Arr MIH_C_Link_Desc_Rsp (Z.to_nat LINK_DESC_RSP_LIST_LENGTH))].
Definition MIH_C_Link_Ac_Result : ctype := Struct
  [("Type", MIH_C_Type);
   ("Length", MIH_C_Length);
   ("Link_Ac_Result_Value", MIH_C_Link_Ac_Result_Value)].
Definition MIH_C_Threshold : ctype := Struct
  [("Threshold_Val", MIH_C_Threshold_Val);
   ("Threshold_X_Dir", MIH_C_Threshold_X_Dir)].
Definition MIH_C_Threshold_List : ctype := Struct
  [("Length", MIH_C_Length);
   ("Threshold", Arr MIH_C_Threshold (Z.to_nat TRESHOLD_LIST_LENGTH))].
Definition MIH_C_Link_Cfg_Param : ctype := Struct
  [("Link_Param_Type_Choice", MIH_C_Choice);
   ("Link_Param_Type_Num", MIH_C_Link_Param_Type_Num);
   ("Choice", MIH_C_Choice);
   ("Th_Action", MIH_C_Th_Action);
   ("Threshold_List", MIH_C_Threshold_List)].
Definition MIH_C_Link_Cfg_Param_List : ctype := Struct
  [("Type", MIH_C_Type);
   ("Length", MIH_C_Length);
   ("List_Length", MIH_C_List_Length);
   ("Link_Cfg_Param", Arr MIH_C_Link_Cfg_Param (Z.to_nat LINK_CFG_PARAM_LIST_LENGTH))].
Definition MIH_C_Link_Cfg_Rsp : ctype := Struct
  [("Link_Param_Type_Num", MIH_C_Link_Param_Type_Num);
   ("Threshold", MIH_C_Threshold);
   ("Config_Status", MIH_C_Config_Status)].
Definition MIH_C_Link_Cfg_Status : ctype := Struct
  [("Param_Type_Choice", MIH_C_Choice);
   ("Link_Param_Type_Num", MIH_C_Link_Param_Type_Num);
   ("Threshold", MIH_C_Threshold);
   ("Config_Status", MIH_C_Config_Status)].
Definition MIH_C_Link_Cfg_Status_List : ctype := Struct
  [("Type", MIH_C_Type);
   ("Length", MIH_C_Length);
   ("List_Length", MIH_C_List_Length);
   ("Link_Cfg_Status", Arr MIH_C_Link_Cfg_Status (Z.to_nat LINK_CFG_STATUS_LIST_LENGTH))].
Definition MIH_C_Link_Action_Req : ctype := Struct
  [("Link_ID", MIH_C_Link_ID_3GPP);
   ("Choice", MIH_C_Choice);
   ("Link_Action_Value", MIH_C_Action_Value);
   ("Link_Ac_Ex_Time", MIH_C_Link_Ac_Ex_Time)].
Definition MIH_C_Link_Action_Req_List : ctype := Struct
  [("Type", MIH_C_Type);
   ("Length", MIH_C_Length);
   ("List_Length", MIH_C_List_Length);
   ("Link_Action_Req", Arr MIH_C_Link_Action_Req (Z.to_nat LINK_ACTION_REQ_LIST_LENGTH))].
Definition MIH_C_Link_Scan_Rsp : ctype := Struct
  [("Choice", MIH_C_Choice);
   ("Address_3GPP_CellId", MIH_C_Address_3GPP_CellId);
   ("Network_Id", MIH_C_Network_Id);
   ("Link_Sig_Strength", MIH_C_Link_Sig_Strength)].
Definition MIH_C_Link_Scan_Rsp_List : ctype := Struct
  [("List_Length", MIH_C_List_Length);
   ("Link_Scan_Rsp", Arr MIH_C_Link_Scan_Rsp (Z.to_nat LINK_SCAN_RSP_LIST_LENGTH))].
Definition MIH_C_Link_Action_Rsp_List : ctype := Struct
  [("Type", MIH_C_Type);
   ("Length", MIH_C_Length);
   ("Link_Scan_Rsp_List", MIH_C_Link_Scan_Rsp_List)].
Definition MIH_C_Link_Det_Info_List : ctype := Struct
  [("Type", MIH_C_Type);
   ("Length", MIH_C_Length);
   ("List_Length", MIH_C_List_Length);
   ("Link_Det_Info_Value", Arr MIH_C_Link_Det_Info_Value (Z.to_nat LINK_DET_INFO_VALUE_LIST_LENGTH))].
Definition MIH_C_Link_Det_Info : ctype := Struct
  [("Type", MIH_C_Type);
   ("Length", MIH_C_Length);
   ("Link_Det_Info_Value", MIH_C_Link_Det_Info_Value)].
Definition MIH_C_Time_Interval : ctype := Struct
  [("Type", MIH_C_Type);
   ("Length", MIH_C_Length);
   ("Time_Interval_Value", MIH_C_Time_Interval_Value)].
Definition MIH_C_Link_Going_Down_Reason : ctype := Struct
  [("Type", MIH_C_Type);
   ("Length", MIH_C_Length);
   ("Link_Going_Down_Reason_Value", MIH_C_Link_Going_Down_Reason_Value)].
Definition MIH_C_Link_Param_Rpt : ctype := Struct
  [("Link_Param", MIH_C_Link_Param);
   ("Choice", MIH_C_Choice)].
Definition MIH_C_Link_Param_Rpt_List_Value : ctype := Struct
  [("List_Length", MIH_C_List_Length);
   ("Link_Param_Rpt", Arr MIH_C_Link_Param_Rpt (Z.to_nat LIST_PARAM_RPT_LENGTH_VALUE))].
Definition MIH_C_Link_Param_Rpt_List : ctype := Struct
  [("Type", MIH_C_Type);
   ("Length", MIH_C_Length);
   ("Link_Param_Rpt_List_Value", MIH_C_Link_Param_Rpt_List_Value)].
Definition MIH_C_Link_Register_Indication : ctype := Struct
  [("Header", MIH_C_Header);
   ("MIHF_Source", MIH_C_Mihf_ID_Link);
   ("MIHF_Destination", MIH_C_Mihf_ID_Mihf);
   ("LinkRegister", MIH_C_Link_Register_Information)].
Definition MIH_C_Link_Up_Indication : ctype := Struct
  [("Header", MIH_C_Header);
   ("MIHF_Source", MIH_C_Mihf_ID_Link);
   ("MIHF_Destination", MIH_C_Mihf_ID_Mihf);
   ("Link_Tuple_Id_3GPP", MIH_C_Link_Tuple_Id_3GPP)].
Definition MIH_C_Link_Down_Indication : ctype := Struct
  [("Header", MIH_C_Header);
   ("MIHF_Source", MIH_C_Mihf_ID_Link);
   ("MIHF_Destination", MIH_C_Mihf_ID_Mihf);
   ("Link_Tuple_Id_3GPP", MIH_C_Link_Tuple_Id_3GPP);
   ("Reason_Code", MIH_C_Link_Dn_Reason)].
Definition MIH_C_Capability_Discover_Req : ctype := Struct
  [("Header", MIH_C_Header);
   ("MIHF_Source", MIH_C_Mihf_ID_Mihf);
   ("MIHF_Destination", MIH_C_Mihf_ID_Link)].
Definition MIH_C_Capability_Discover_Conf : ctype := Struct
  [("Header", MIH_C_Header);
   ("MIHF_Source", MIH_C_Mihf_ID_Link);
   ("MIHF_Destination", MIH_C_Mihf_ID_Mihf);
   ("Status", MIH_C_Status);
   ("Link_Evt_List", MIH_C_Link_Evt_List);
   ("Link_Cmd_List", MIH_C_Link_Cmd_List)].
Definition MIH_C_Event_Subscribe_Req : ctype := Struct
  [("Header", MIH_C_Header);
   ("MIHF_Source", MIH_C_Mihf_ID_Mihf);
   ("MIHF_Destination", MIH_C_Mihf_ID_Link);
   ("Link_Evt_List", MIH_C_Link_Evt_List)].
Definition MIH_C_Event_Subscribe_Conf : ctype := Struct
  [("Header", MIH_C_Header);
   ("MIHF_Source", MIH_C_Mihf_ID_Link);
   ("MIHF_Destination", MIH_C_Mihf_ID_Mihf);
   ("Status", MIH_C_Status);
   ("Link_Evt_List", MIH_C_Link_Evt_List)].
Definition MIH_C_Event_Unsubscribe_Req : ctype := Struct
  [("Header", MIH_C_Header);
   ("MIHF_Source", MIH_C_Mihf_ID_Mihf);
   ("MIHF_Destination", MIH_C_Mihf_ID_Link);
   ("Requested_MIH_Evt_List", MIH_C_Link_Evt_List)].
Definition MIH_C_Event_Unsubscribe_Conf : ctype := Struct
  [("Header", MIH_C_Header);
   ("MIHF_Source", MIH_C_Mihf_ID_Link);
   ("MIHF_Destination", MIH_C_Mihf_ID_Mihf);
   ("Status", MIH_C_Status);
   ("Responce_MIH_Evt_List", MIH_C_Link_Evt_List)].
Definition MIH_C_Get_Parameters_Req : ctype := Struct
  [("Header", MIH_C_Header);
   ("MIHF_Source", MIH_C_Mihf_ID_Mihf);
   ("MIHF_Destination", MIH_C_Mihf_ID_Link);
   ("Link_Param_Type_List", MIH_C_Link_Param_Type_List);
   ("Link_States_Req", MIH_C_Link_States_Req);
   ("Link_Desc_Req", MIH_C_Link_Desc_Req)].
Definition MIH_C_Get_Parameters_Confirm : ctype := Struct
  [("Header", MIH_C_Header);
   ("MIHF_Source", MIH_C_Mihf_ID_Link);
   ("MIHF_Destination", MIH_C_Mihf_ID_Mihf);
   ("Status", MIH_C_Status);
   ("Link_Param_List", MIH_C_Link_Param_List);
   ("Link_States_Rsp_List", MIH_C_Link_States_Rsp_List);
   ("Link_Desc_Rsp_List", MIH_C_Link_Desc_Rsp_List)].
Definition MIH_C_Link_Configure_Thresholds_Req : ctype := Struct
  [("Header", MIH_C_Header);
   ("MIHF_Source", MIH_C_Mihf_ID_Mihf);
   ("MIHF_Destination", MIH_C_Mihf_ID_Link);
   ("Link_Cfg_Param_List", MIH_C_Link_Cfg_Param_List)].
Definition MIH_C_Link_Configure_Thresholds_Confirm : ctype := Struct
  [("Header", MIH_C_Header);
   ("MIHF_Source", MIH_C_Mihf_ID_Link);
   ("MIHF_Destination", MIH_C_Mihf_ID_Mihf);
   ("Status", MIH_C_Status);
   ("Link_Cfg_Status_List", MIH_C_Link_Cfg_Status_List)].
Definition MIH_C_Link_Action_Request : ctype := Struct
  [("Header", MIH_C_Header);
   ("MIHF_Source", MIH_C_Mihf_ID_Mihf);
   ("MIHF_Destination", MIH_C_Mihf_ID_Link);
   ("Link_Action", MIH_C_Link_Action);
   ("Execution_Delay", MIH_C_Execution_Delay)].
Definition MIH_C_Link_Action_Confirm : ctype := Struct
  [("Header", MIH_C_Header);
   ("MIHF_Source", MIH_C_Mihf_ID_Link);
   ("MIHF_Destination", MIH_C_Mihf_ID_Mihf);
   ("Status", MIH_C_Status);
   ("Link_Ac_Result", MIH_C_Link_Ac_Result)].
Definition MIH_C_Link_Action_Confirm_Lsr : ctype := Struct
  [("Header", MIH_C_Header);
   ("MIHF_Source", MIH_C_Mihf_ID_Link);
   ("MIHF_Destination", MIH_C_Mihf_ID_Mihf);
   ("Status", MIH_C_Status);
   ("Link_Action_Rsp_List", MIH_C_Link_Action_Rsp_List);
   ("Link_Ac_Result", MIH_C_Link_Ac_Result)].
Definition MIH_C_Link_Detected_Indication : ctype := Struct
  [("Header", MIH_C_Header);
   ("MIHF_Source", MIH_C_Mihf_ID_Link);
   ("MIHF_Destination", MIH_C_Mihf_ID_Mihf);
   ("Link_Det_Info", MIH_C_Link_Det_Info)].
Definition MIH_C_Link_Going_Down_Indication : ctype := Struct
  [("Header", MIH_C_Header);
   ("MIHF_Source", MIH_C_Mihf_ID_Link);
   ("MIHF_Destination", MIH_C_Mihf_ID_Mihf);
   ("Link_Tuple_Id_3GPP", MIH_C_Link_Tuple_Id_3GPP);
   ("Time_Interval", MIH_C_Time_Interval);
   ("Link_Going_Down_Reason", MIH_C_Link_Going_Down_Reason)].
Definition MIH_C_Link_Parameters_Report_Indication : ctype := Struct
  [("Header", MIH_C_Header);
   ("MIHF_Source", MIH_C_Mihf_ID_Link);
   ("MIHF_Destination", MIH_C_Mihf_ID_Mihf);
   ("Link_Tuple_Id_3GPP", MIH_C_Link_Tuple_Id_3GPP);
   ("Link_Param_Rpt_List", MIH_C_Link_Param_Rpt_List)].
Definition MIH_C_ODTONE_Message : ctype := Struct
  [("Header", MIH_C_Header);
   ("MIHF_Source", MIH_C_Mihf_ID_Mihf);
   ("MIHF_Destination", MIH_C_Mihf_ID_Link);
   ("variablePayload", Arr MIH_C_VariablePayload (Z.to_nat MIH_C_MESSAGE_MAX_LENGTH))].

(** Sizes of the messages, as the packed layout gives them. *)
Example message_sizes :
  map sizeof [MIH_C_Header; MIH_C_Link_Register_Indication; MIH_C_Link_Up_Indication;
              MIH_C_Link_Down_Indication; MIH_C_Capability_Discover_Conf; MIH_C_Event_Subscribe_Conf;
              MIH_C_Get_Parameters_Confirm; MIH_C_Link_Action_Confirm; MIH_C_Link_Action_Confirm_Lsr;
              MIH_C_Link_Detected_Indication; MIH_C_ODTONE_Message]
  = [8; 36; 37; 40; 38; 32; 44; 29; 50; 65; 73]%nat.
Proof. vm_compute. reflexivity. Qed.
