(* ===== verification/RalState.v ===== *)
(** * State, effects and logging of the MIH link adapter

    The global variables of mRALlteInt_main.c and mRALlteInt_msg.c, the effects
    the adapter has on the outside (datagrams, sleeps, log text), the monad its
    functions run in, and the functions of mRALlteInt_log.c.  A computation with
    no result has read or written outside the buffer it was given, which C leaves
    undefined. *)

From S2P Require Import Prelude CMem CFormat RalPrimitives.

Local Open Scope string_scope.
Local Open Scope Z_scope.

(** ** The outside *)

(** A [struct sockaddr_in]; the port and the address are kept as the arguments of
    [htons] and [inet_addr]. *)
Record sockaddr_in := { sin_family : Z; sin_port : Z; sin_addr : string }.

Definition AF_INET : Z := 2.
Definition sizeof_sockaddr_in : Z := 16.

Inductive event :=
| EvSend (dst : sockaddr_in) (dst_len : Z) (bytes : list Z) (rc : Z)
| EvSleep (seconds : Z).

Inductive channel := Console | LogFile | Syslog | Stderr.

(** What [sendto] answers, given what was done before and the bytes to send. *)
Class Os := { sendto : list event -> list Z -> Z }.

(** ** Global variables *)

Record ral := mkRal {
  la_req : Z;
  lpd : Z;
  link_detec : Z;
  link_scan : Z;
  rcv_evt_list : Z;
  trans_id : Z;
  wait_start_mihf : Z;
  log_output : Z;
  udp_socket : sockaddr_in;
  mihf_socket : sockaddr_in;
  sockaddr_len : Z;
  trace : list event;
  log : list (channel * string)
}.

Definition zero_sockaddr : sockaddr_in := {| sin_family := 0; sin_port := 0; sin_addr := "" |}.

(** Static storage is zero except for the initializers of mRALlteInt_msg.c. *)
Definition ral_init : ral :=
  mkRal 1 0 1 0 0 0 0 0 zero_sockaddr zero_sockaddr 0 [] [].

Definition set_la_req v s := mkRal v (lpd s) (link_detec s) (link_scan s) (rcv_evt_list s) (trans_id s)
  (wait_start_mihf s) (log_output s) (udp_socket s) (mihf_socket s) (sockaddr_len s) (trace s) (log s).
Definition set_lpd v s := mkRal (la_req s) v (link_detec s) (link_scan s) (rcv_evt_list s) (trans_id s)
  (wait_start_mihf s) (log_output s) (udp_socket s) (mihf_socket s) (sockaddr_len s) (trace s) (log s).
Definition set_link_detec v s := mkRal (la_req s) (lpd s) v (link_scan s) (rcv_evt_list s) (trans_id s)
  (wait_start_mihf s) (log_output s) (udp_socket s) (mihf_socket s) (sockaddr_len s) (trace s) (log s).
Definition set_link_scan v s := mkRal (la_req s) (lpd s) (link_detec s) v (rcv_evt_list s) (trans_id s)
  (wait_start_mihf s) (log_output s) (udp_socket s) (mihf_socket s) (sockaddr_len s) (trace s) (log s).
Definition set_rcv_evt_list v s := mkRal (la_req s) (lpd s) (link_detec s) (link_scan s) v (trans_id s)
  (wait_start_mihf s) (log_output s) (udp_socket s) (mihf_socket s) (sockaddr_len s) (trace s) (log s).
Definition set_trans_id v s := mkRal (la_req s) (lpd s) (link_detec s) (link_scan s) (rcv_evt_list s) v
  (wait_start_mihf s) (log_output s) (udp_socket s) (mihf_socket s) (sockaddr_len s) (trace s) (log s).
Definition set_wait_start_mihf v s := mkRal (la_req s) (lpd s) (link_detec s) (link_scan s) (rcv_evt_list s)
  (trans_id s) v (log_output s) (udp_socket s) (mihf_socket s) (sockaddr_len s) (trace s) (log s).
Definition set_log_output v s := mkRal (la_req s) (lpd s) (link_detec s) (link_scan s) (rcv_evt_list s)
  (trans_id s) (wait_start_mihf s) v (udp_socket s) (mihf_socket s) (sockaddr_len s) (trace s) (log s).
Definition set_udp_socket v s := mkRal (la_req s) (lpd s) (link_detec s) (link_scan s) (rcv_evt_list s)
  (trans_id s) (wait_start_mihf s) (log_output s) v (mihf_socket s) (sockaddr_len s) (trace s) (log s).
Definition set_mihf_socket v s := mkRal (la_req s) (lpd s) (link_detec s) (link_scan s) (rcv_evt_list s)
  (trans_id s) (wait_start_mihf s) (log_output s) (udp_socket s) v (sockaddr_len s) (trace s) (log s).
Definition set_sockaddr_len v s := mkRal (la_req s) (lpd s) (link_detec s) (link_scan s) (rcv_evt_list s)
  (trans_id s) (wait_start_mihf s) (log_output s) (udp_socket s) (mihf_socket s) v (trace s) (log s).
Definition add_event e s := mkRal (la_req s) (lpd s) (link_detec s) (link_scan s) (rcv_evt_list s)
  (trans_id s) (wait_start_mihf s) (log_output s) (udp_socket s) (mihf_socket s) (sockaddr_len s)
  (trace s ++ [e]) (log s).
Definition set_log l s := mkRal (la_req s) (lpd s) (link_detec s) (link_scan s) (rcv_evt_list s)
  (trans_id s) (wait_start_mihf s) (log_output s) (udp_socket s) (mihf_socket s) (sockaddr_len s)
  (trace s) l.

(** ** The monad *)

Definition M (A : Type) : Type := ral -> option (A * ral).

#[export] Instance M_ret : MRet M := fun A a s => Some (a, s).
#[export] Instance M_bind : MBind M := fun A B f m s =>
  match m s with Some (a, s') => f a s' | None => None end.

Definition get {A} (f : ral -> A) : M A := fun s => Some (f s, s).
Definition modify (f : ral -> ral) : M unit := fun s => Some (tt, f s).
Definition lift {A} (o : option A) : M A := fun s => match o with Some a => Some (a, s) | None => None end.
Definition skip : M unit := mret tt.
Definition when (b : bool) (m : M unit) : M unit := if b then m else skip.

(** [for (i = 0; i < n; i++) body(i)] *)
Fixpoint for_from (i n : nat) (body : nat -> M unit) : M unit :=
  match n with
  | O => skip
  | S n => body i ;; for_from (S i) n body
  end.
Definition for_loop (n : Z) (body : nat -> M unit) : M unit := for_from 0 (Z.to_nat n) body.

(** A [switch] each of whose cases ends in [break]. *)
Fixpoint switch {A} (v : Z) (cases : list (Z * M A)) (dflt : M A) : M A :=
  match cases with
  | [] => dflt
  | (c, m) :: cases => if v =? c then m else switch v cases dflt
  end.

(** [p->path] and [&(p->path)] for [p] a pointer to [t] at [str + off]. *)
Definition field (t : ctype) (path : string) (str : list Z) (off : nat) : M Z := lift (load t path str off).
Definition addr (t : ctype) (path : string) (off : nat) : M nat :=
  lift ((fun o => (off + o)%nat) <$> offset_of t path).

(** ** mRALlteInt_log.c *)

Definition put_log (c : channel) (text : string) : M unit :=
  modify (fun s => set_log (log s ++ [(c, text)]) s).

Definition mRALu_log_record (level : Z) (log_msg : string) (args : list Z) : M unit :=
  out ← get log_output;
  switch out
    [(LOG_TO_CONSOLE, put_log Console (sprintf (c_str log_msg) args));
     (LOG_TO_FILE, put_log LogFile (sprintf (c_str log_msg) args));
     (LOG_TO_SYSTEM, skip)]
    (put_log Console (sprintf "mRALu_log_record: level error %d" [level])).

Definition DEBUG (log_msg : string) (args : list Z) : M unit :=
  mRALu_log_record RAL_LTE_LOG_DEBUG log_msg args.

Definition perror (msg : string) : M unit := put_log Stderr msg.

(** [inl code]: the process exits with [code]. *)
Definition mRALu_log_init (l_output : Z) (fopen_ok : bool) : M (Z + Z) :=
  modify (set_log_output l_output) ;;
  let banner := String.append "***** MT_RAL_LTE V" (String.append LTE_MT_RAL_VERSION (c_str " logging \n\n")) in
  switch l_output
    [(LOG_TO_CONSOLE, put_log Console banner ;; mret (inr 0));
     (LOG_TO_FILE,
        if fopen_ok then put_log LogFile banner ;; mret (inr 0)
        else perror "mRALu_log_init - error opening file" ;; mret (inl 1));
     (LOG_TO_SYSTEM,
        put_log Syslog (String.append "***** V" (String.append LTE_MT_RAL_VERSION (c_str " starting logging \n\n"))) ;;
        mret (inr 0))]
    (put_log Console (sprintf "mRALu_log_init: l_output error %d" [l_output]) ;; mret (inr 0)).

Definition mRALu_log_exit : M unit :=
  out ← get log_output;
  switch out
    [(LOG_TO_CONSOLE, put_log Console (c_str "***** MT_RAL_LTE stopping \n\n"));
     (LOG_TO_FILE, put_log LogFile (c_str "***** MT_RAL_LTE stopping \n\n"));
     (LOG_TO_SYSTEM, put_log Syslog (c_str "***** stopping logging \n\n"))]
    (put_log Console (sprintf "mRALu_log_exit: log_output error %d" [out])).

Definition mRALu_log_usage : M unit :=
  foldr (fun l k => put_log Console (c_str l) ;; k) skip
    [" >. In function mRALlteInt_log_usage \n\n"; "MT_RALlteInt : \n\n";
     " >./MT_RALlteInt LOG_location LOG_level \n\n"; " LOG_location can take the following values\n";
     " 0 : Log to screen\n"; " 1 : Log to file (default is /tmp/log_MT_LTE.txt)\n";
     " 2 : Log to system (syslog) -- FFS\n"; " \n";
     " If no value is entered , default value as log to file is assumed.\n\n";
     " LOG_level can take the following values\n"; " 0 : DEBUG + ERROR\n"; " 1 : ERROR only\n"].

(** ** Computations that only log *)

(** [m] has a result and changes nothing but the log. *)
Class LogOnly {A} (m : M A) : Prop :=
  log_only : forall s, exists a l, m s = Some (a, set_log l s).

Lemma set_log_log l l' s : set_log l (set_log l' s) = set_log l s.
Proof. reflexivity. Qed.

Lemma set_log_id s : set_log (log s) s = s.
Proof. destruct s. reflexivity. Qed.

#[export] Hint Rewrite set_log_log set_log_id : emi.

#[export] Instance log_only_ret {A} (a : A) : LogOnly (mret a).
Proof. intros s. exists a, (log s). rewrite set_log_id. reflexivity. Qed.

#[export] Instance log_only_skip : LogOnly skip.
Proof. apply log_only_ret. Qed.

#[export] Instance log_only_get {A} (f : ral -> A) : LogOnly (get f).
Proof. intros s. exists (f s), (log s). rewrite set_log_id. reflexivity. Qed.

#[export] Instance log_only_bind {A B} (m : M A) (f : A -> M B) :
  LogOnly m -> (forall a, LogOnly (f a)) -> LogOnly (m ≫= f).
Proof.
  intros Hm Hf s. destruct (Hm s) as (a & l & E). destruct (Hf a (set_log l s)) as (b & l' & E').
  exists b, l'. unfold mbind, M_bind. rewrite E, E'. reflexivity.
Qed.

#[export] Instance log_only_when b m : LogOnly m -> LogOnly (when b m).
Proof. intros. destruct b; simpl; apply _. Qed.

#[export] Instance log_only_put_log c t : LogOnly (put_log c t).
Proof. intros s. exists tt, (log s ++ [(c, t)])%list. reflexivity. Qed.

#[export] Instance log_only_if {A} (b : bool) (m n : M A) :
  LogOnly m -> LogOnly n -> LogOnly (if b then m else n).
Proof. intros. destruct b; assumption. Qed.

Lemma log_only_switch {A} v (cases : list (Z * M A)) d :
  LogOnly d -> Forall (fun c => LogOnly (snd c)) cases -> LogOnly (switch v cases d).
Proof.
  intros Hd. induction 1 as [|[c m] cases Hm _ IH]; simpl; [assumption|].
  destruct (v =? c); assumption.
Qed.

#[export] Instance log_only_switch_nil {A} v (d : M A) : LogOnly d -> LogOnly (switch v [] d).
Proof. intros. assumption. Qed.

#[export] Instance log_only_switch_cons {A} v c (m : M A) cases d :
  LogOnly m -> LogOnly (switch v cases d) -> LogOnly (switch v ((c, m) :: cases) d).
Proof. intros. simpl. destruct (v =? c); assumption. Qed.

#[export] Instance log_only_record level msg args : LogOnly (mRALu_log_record level msg args).
Proof. unfold mRALu_log_record. apply _. Qed.

#[export] Instance log_only_DEBUG msg args : LogOnly (DEBUG msg args).
Proof. unfold DEBUG. apply _. Qed.

#[export] Instance log_only_perror msg : LogOnly (perror msg).
Proof. unfold perror. apply _. Qed.

Lemma log_only_for i n body :
  (forall j, (i <= j < i + n)%nat -> LogOnly (body j)) -> LogOnly (for_from i n body).
Proof.
  revert i. induction n as [|n IH]; intros i H; simpl; [apply _|].
  apply log_only_bind; [apply H; lia|]. intros _. apply IH. intros. apply H. lia.
Qed.

Lemma log_only_for_loop n body :
  (forall j, (j < Z.to_nat n)%nat -> LogOnly (body j)) -> LogOnly (for_loop n body).
Proof. intros H. apply log_only_for. intros. apply H. lia. Qed.

Lemma ret_bind {A B} (a : A) (f : A -> M B) : (mret a ≫= f) = f a.
Proof. reflexivity. Qed.

(** [m] reads or writes outside its buffer, whatever the globals are. *)
Class Stuck {A} (m : M A) : Prop := stuck : forall s, m s = None.

Lemma stuck_bind {A B} (m : M A) (f : A -> M B) : Stuck m -> Stuck (m ≫= f).
Proof. intros Hm s. unfold mbind, M_bind. rewrite Hm. reflexivity. Qed.

Lemma stuck_after {A B} (m : M A) (f : A -> M B) : (forall a, Stuck (f a)) -> Stuck (m ≫= f).
Proof. intros Hf s. unfold mbind, M_bind. destruct (m s) as [[a s']|]; [apply Hf | reflexivity]. Qed.

Lemma stuck_for i n body j : (i <= j < i + n)%nat -> Stuck (body j) -> Stuck (for_from i n body).
Proof.
  revert i. induction n as [|n IH]; intros i Hj Hs; [lia|]. simpl.
  destruct (decide (j = i)) as [->|N]; [by apply stuck_bind|].
  apply stuck_after. intros _. apply IH; [lia|assumption].
Qed.

Lemma stuck_for_loop n body j : (j < Z.to_nat n)%nat -> Stuck (body j) -> Stuck (for_loop n body).
Proof. intros Hj. apply stuck_for. lia. Qed.

Lemma log_only_lift {A} (o : option A) : is_Some o -> LogOnly (lift o).
Proof. intros [a ->] s. exists a, (log s). rewrite set_log_id. reflexivity. Qed.

(** Running past a logging computation. *)
Lemma run_log_only {A B} (m : M A) (f : A -> M B) s :
  LogOnly m -> exists a l, (m ≫= f) s = f a (set_log l s).
Proof.
  intros H. destruct (H s) as (a & l & E). exists a, l. unfold mbind, M_bind. rewrite E. reflexivity.
Qed.
