(* ===== verification/RalPrint.v ===== *)
(** * The printing functions of the MIH link adapter

    The print_* functions of mRALlteInt_msg.c and mRALu_print_buffer of
    mRALlteInt_main.c.  Each takes the buffer and the offset its pointer argument
    stands for.  Except for print_mihf_id, mRALu_print_buffer and
    print_link_cfg_param, which loop on a length found in the data, they read at
    fixed offsets and only log. *)

From S2P Require Import Prelude CMem CFormat RalPrimitives RalState.

Local Open Scope string_scope.
Local Open Scope Z_scope.

(** The build sets OUTPUT_LEVEL_1 and leaves the other two out. *)
Definition OUTPUT_LEVEL_1 : bool := true.
Definition OUTPUT_LEVEL_2 : bool := false.
Definition OUTPUT_LEVEL_3 : bool := false.

(** A [char] read through a [char *]: signed. *)
Definition signed8 (b : Z) : Z := if b <? 128 then b else b - 256.

Definition mRALu_print_buffer (str : list Z) (off : nat) (length : Z) : M unit :=
  for_loop length (fun i =>
    b ← lift (str !! (off + i)%nat);
    DEBUG "-%hhx-" [b] ;;
    when (Z.of_nat i mod 8 =? 7) (DEBUG "\n" [])) ;;
  DEBUG ",	 length %d\n\n" [length].

Definition print_header (str : list Z) (off : nat) : M unit :=
  mid ← field MIH_C_Header "Message_ID" str off;
  DEBUG "[mRAL]:   MID (Message ID) = %hhx0%hhx \n" [mid; Z.shiftr mid 8] ;;
  DEBUG "[mRAL]:      > Service Identifier (sid) =" [] ;;
  let sid := Z.shiftr (Z.land mid SID_PRINT) 4 in
  let aid := Z.shiftr mid 8 in
  switch sid
    [(SID_SERVICE_MANAGEMENT, DEBUG " Service Management (1)\n" []);
     (SID_EVENT_SERVICE, DEBUG " Event Service (2)\n" []);
     (SID_COMMAND_SERVICE, DEBUG " Command Service (3)\n" []);
     (SID_INFORMATION_SERVICE, DEBUG " Information Service (4)\n" [])]
    (DEBUG " Not recognized! \n" []) ;;
  DEBUG "[mRAL]:      > Operation Code (opcode)  =" [] ;;
  switch (Z.shiftr (Z.land mid OPCODE_PRINT) 2)
    [(OP_CONFIRM, DEBUG " Confirm (0)\n" []);
     (OP_REQUEST, DEBUG " Request (1)\n" []);
     (OP_RESPONCE, DEBUG " Responce (2)\n" []);
     (OP_INDICATION, DEBUG " Indication (4)\n" [])]
    (DEBUG " Not recognized! \n" []) ;;
  DEBUG "[mRAL]:      > Action Identifier (AID)  =" [] ;;
  when (sid =? SID_SERVICE_MANAGEMENT)
    (switch aid
      [(AID_CAPABILITY_DISCOVER, DEBUG " Capability Discover (1)\n" []);
       (AID_EVENT_SUBSCRIBE, DEBUG " Event Subscribe (4)\n" []);
       (AID_EVENT_UNSUBSCRIBE, DEBUG " Event Unsubscribe (5)\n" []);
       (AID_LINK_REGISTER_INDICATION, DEBUG " Link Register Ind (6)\n" [])]
      (DEBUG " Not recognized! \n" [])) ;;
  when (sid =? SID_EVENT_SERVICE)
    (switch aid
      [(AID_LINK_DETECTED, DEBUG " Link Detected (1)\n" []);
       (AID_LINK_UP, DEBUG " Link Up (2)\n" []);
       (AID_LINK_DOWN, DEBUG " Link Down (3)\n" []);
       (AID_LINK_PARAMETERS_REPORT, DEBUG " Link Parameters Report (5)\n" []);
       (AID_LINK_GOING_DOWN, DEBUG " Link Going Down (6)\n" [])]
      (DEBUG " Not recognized! \n" [])) ;;
  when (sid =? SID_COMMAND_SERVICE)
    (switch aid
      [(AID_LINK_GET_PARAMETERS, DEBUG " Link Get Parameters (1)\n" []);
       (AID_LINK_CONFIGURE_THRESHOLDS, DEBUG " Link Configure Thresholds (2)\n" []);
       (AID_LINK_ACTIONS, DEBUG " Link Actions (3)\n" [])]
      (DEBUG " Not recognized! \n" [])) ;;
  when (sid =? SID_INFORMATION_SERVICE) (DEBUG " Add AI \n" []) ;;
  tid ← field MIH_C_Header "Transaction_ID" str off;
  DEBUG "[mRAL]:   Transition ID (Tid) = %d " [Z.land (Z.shiftr tid 8) TID_PRINT] ;;
  len ← field MIH_C_Header "Payload_Length" str off;
  DEBUG " - Payload Length = %d \n\n" [Z.shiftr len 8].

Definition print_mihf_id (str : list Z) (off : nat) : M unit :=
  let off := (off + 2)%nat in
  fin ← lift (str !! off);
  for_loop (signed8 fin + 1) (fun i => c ← lift (str !! (off + i)%nat); DEBUG "%c" [c]) ;;
  DEBUG "\n" [].

Definition print_link_id_3GPP (str : list Z) (off : nat) : M unit :=
  DEBUG "[mRAL]:		- Link Type: " [] ;;
  lt ← field MIH_C_Link_ID_3GPP "LinkType" str off;
  switch lt [(LINK_TYPE_3GPP, DEBUG "UMTS \n" [])] (DEBUG "Link Type not recognized \n \n" []) ;;
  DEBUG "[mRAL]:		- 3GPP Address: " [] ;;
  base ← addr MIH_C_Link_ID_3GPP "Address_3GPP.Addr_Val_3GPP" off;
  for_loop MIH_3GPP_ADDRESS_LENGTH (fun i =>
    b ← lift (str !! (base + i)%nat);
    DEBUG "%hhx" [b] ;;
    when (negb (Z.of_nat i =? MIH_3GPP_ADDRESS_LENGTH - 1)) (DEBUG "--" [])) ;;
  DEBUG "\n\n" [].

Definition print_link_tuple_id_3GPP (str : list Z) (off : nat) : M unit :=
  o ← addr MIH_C_Link_Tuple_Id_3GPP "Link_ID_3GPP" off;
  print_link_id_3GPP str o.

Definition print_status (str : list Z) (off : nat) : M unit :=
  DEBUG "[mRAL]:		- Status: " [] ;;
  v ← field MIH_C_Status "Status_Value" str off;
  switch v
    [(STATUS_SUCCESS, DEBUG "Success (0) \n" []);
     (STATUS_UNSPECIFIED_FAILURE, DEBUG "Unspecified Failure (1) \n" []);
     (STATUS_REJECTED, DEBUG "Rejected (2) \n" []);
     (STATUS_AUTHORIZATION_FAILURE, DEBUG "Authorization Failure (3) \n" []);
     (STATUS_NETWORK_ERROR, DEBUG "Network Error (4) \n" [])]
    (DEBUG "Status not recognized \n" []) ;;
  DEBUG "\n" [].

(** [if (v & bit) DEBUG(msg);] *)
Definition debug_bit (v bit : Z) (msg : string) : M unit :=
  when (negb (Z.land v bit =? 0)) (DEBUG msg []).

Definition print_link_evt_list (str : list Z) (off : nat) : M unit :=
  DEBUG "[mRAL]:		- " [] ;;
  v ← field MIH_C_Link_Evt_List "Evt_List_Data.Evt_List_Oct[3]" str off;
  debug_bit v EVT_LIST_LINK_DETECTED " Link_Detected -" ;;
  debug_bit v EVT_LIST_LINK_UP " Link_Up -" ;;
  debug_bit v EVT_LIST_LINK_DOWN " Link_Down -" ;;
  debug_bit v EVT_LIST_LINK_PARAMETERS_REPORT " Link_Param_Reports -" ;;
  debug_bit v EVT_LIST_LINK_GOING_DOWN " Link_Going_Down -" ;;
  debug_bit v EVT_LIST_LINK_HANDOVER_IMMINENT " Link_Handover_Imminent -" ;;
  debug_bit v EVT_LIST_LINK_HANDOVER_COMPLETE " Link_Handover_Complete -" ;;
  debug_bit v EVT_LIST_PDU_TRANSMIT_STATUS " Link_PDU_Transmit_Status -" ;;
  DEBUG "\n\n" [].

Definition print_link_cmd_list (str : list Z) (off : nat) : M unit :=
  DEBUG "[mRAL]:		- Command List Values: " [] ;;
  v ← field MIH_C_Link_Cmd_List "Cmd_List_Data.Cmd_List_Oct[3]" str off;
  debug_bit v CMD_LIST_LINK_EVENT_SUBSCRIBE "Link_Event_Subscribe -" ;;
  debug_bit v CMD_LIST_LINK_EVENT_UNSUBSCRIBE "Link_Event_Unsubscribe -\n" ;;
  debug_bit v CMD_LIST_LINK_GET_PARAMETERS "[mRAL]:		   - Link_Get_Parameters - " ;;
  debug_bit v CMD_LIST_LINK_CONFIGURE_THRESHOLDS "Link_Configure_Thresholds - " ;;
  debug_bit v CMD_LIST_LINK_ACTION " Link_Action" ;;
  DEBUG "\n\n" [].

(** The [switch] of case (1) on the parameter number comes after its [break] and
    is never reached. *)
Definition print_link_cfg_param (str : list Z) (off : nat) : M unit :=
  choice ← field MIH_C_Link_Cfg_Param "Link_Param_Type_Choice" str off;
  num ← field MIH_C_Link_Cfg_Param "Link_Param_Type_Num" str off;
  switch choice
    [(0, DEBUG "[mRAL]:		- Generic Link Parameter (0): " [] ;;
         switch num
           [(0, DEBUG "Data Rate (0) \n" []);
            (1, DEBUG "Signal Strength (1) \n" []);
            (2, DEBUG "SINR (2) \n" []);
            (3, DEBUG "Throughput (3) \n" []);
            (4, DEBUG "Packet Error Rate (4) \n" [])]
           (DEBUG "Not recognized \n" []));
     (1, DEBUG "[mRAL]:		- QoS List Parameters (1): " [])]
    (DEBUG " Parameter not recognized \n" []) ;;
  DEBUG "[mRAL]:		- Link Th_Action: " [] ;;
  act ← field MIH_C_Link_Cfg_Param "Th_Action" str off;
  switch act
    [(LINK_TH_ACTION_SET_NORMAL, DEBUG "Set normal threshold (0) \n" []);
     (LINK_TH_ACTION_SET_ONE_SHOT, DEBUG "Set one-shot threshold (1) \n" []);
     (LINK_TH_ACTION_CANCEL, DEBUG "Cancel threshold (2) \n" [])]
    (DEBUG "Not recognized \n" []) ;;
  DEBUG "[mRAL]:		- Link Threshold List Length: " [] ;;
  n ← field MIH_C_Link_Cfg_Param "Threshold_List.Length" str off;
  DEBUG " %d \n" [n] ;;
  th ← addr MIH_C_Link_Cfg_Param "Threshold_List.Threshold" off;
  for_loop n (fun i =>
    let p := (th + i * sizeof MIH_C_Threshold)%nat in
    v ← field MIH_C_Threshold "Threshold_Val" str p;
    DEBUG "[mRAL]:		- List Element: %d  Link Threshold_Value: %d \n" [Z.of_nat i + 1; v / CONVERSION] ;;
    DEBUG "[mRAL]:		- List Element: %d  Link Threshold_X_Dir: " [Z.of_nat i + 1] ;;
    d ← field MIH_C_Threshold "Threshold_X_Dir" str p;
    switch d
      [(ABOVE_THRESHOLD, DEBUG "ABOVE THRESHOLD (0) \n" []);
       (BELOW_THRESHOLD, DEBUG "BELOW THRESHOLD (1) \n" [])]
      (DEBUG "Reserved \n" [])).

Definition print_link_cfg_status (str : list Z) (off : nat) : M unit :=
  v ← field MIH_C_Link_Cfg_Status "Threshold.Threshold_Val" str off;
  DEBUG "[mRAL]:		- Link Cfg Status Param - Threshold_Val: %d \n" [v] ;;
  DEBUG "[mRAL]:		- Link Cfg Status Param - Threshold_X_Dir: " [] ;;
  d ← field MIH_C_Link_Cfg_Status "Threshold.Threshold_X_Dir" str off;
  switch d
    [(ABOVE_THRESHOLD, DEBUG "ABOVE THRESHOLD (0) \n" []);
     (BELOW_THRESHOLD, DEBUG "BELOW THRESHOLD (1) \n" [])]
    (DEBUG "Reserved \n" []) ;;
  DEBUG "[mRAL]:		- Link Cfg Status Param - Config Status: " [] ;;
  c ← field MIH_C_Link_Cfg_Status "Config_Status" str off;
  switch c
    [(CONFIG_STATUS_SUCCESS, DEBUG "SUCCESS (0) \n" []);
     (CONFIG_STATUS_ERROR, DEBUG "ERROR (1) \n" [])]
    (DEBUG "Wrong Value! \n" []).

(** ** What the printing functions leave alone *)

Lemma log_only_field t path str off o u :
  designate t path = Some (o, u) -> (off + o + sizeof u <= length str)%nat ->
  LogOnly (field t path str off).
Proof. intros. apply log_only_lift. eapply load_is_Some; eauto. Qed.

Lemma log_only_at {A} (str : list A) i : (i < length str)%nat -> LogOnly (lift (str !! i)).
Proof. intros. by apply log_only_lift, lookup_lt_is_Some. Qed.

Lemma log_only_addr t path off : is_Some (offset_of t path) -> LogOnly (addr t path off).
Proof. intros H. by apply log_only_lift, fmap_is_Some. Qed.

Ltac solve_field :=
  eapply log_only_field; [vm_compute; reflexivity | cbn [sizeof]; lia].

#[export] Hint Extern 1 (LogOnly (field _ _ _ _)) => solve_field : typeclass_instances.
#[export] Hint Extern 1 (LogOnly (addr _ _ _)) =>
  (apply log_only_addr; vm_compute; eexists; reflexivity) : typeclass_instances.

#[export] Instance log_only_debug_bit v bit msg : LogOnly (debug_bit v bit msg).
Proof. unfold debug_bit. apply _. Qed.

Lemma print_header_log str off : (off + 8 <= length str)%nat -> LogOnly (print_header str off).
Proof. intros. unfold print_header. apply _. Qed.

Lemma print_status_log str off : (off + 3 <= length str)%nat -> LogOnly (print_status str off).
Proof. intros. unfold print_status. apply _. Qed.

Lemma print_link_evt_list_log str off : (off + 6 <= length str)%nat -> LogOnly (print_link_evt_list str off).
Proof. intros. unfold print_link_evt_list. apply _. Qed.

Lemma print_link_cmd_list_log str off : (off + 6 <= length str)%nat -> LogOnly (print_link_cmd_list str off).
Proof. intros. unfold print_link_cmd_list. apply _. Qed.

Lemma print_link_cfg_status_log str off : (off + 6 <= length str)%nat -> LogOnly (print_link_cfg_status str off).
Proof. intros. unfold print_link_cfg_status. apply _. Qed.

Lemma addr_ret t path off o : offset_of t path = Some o -> addr t path off = mret (off + o)%nat.
Proof. unfold addr. intros ->. reflexivity. Qed.

(** Walk through a sequence of logging computations, keeping known results. *)
Ltac log_steps :=
  repeat match goal with
  | |- LogOnly (mret _ ≫= _) => rewrite ret_bind
  | |- LogOnly (_ ≫= _) => apply log_only_bind; [apply _ | intros ?]
  end.

Lemma print_link_id_3GPP_log str off :
  (off + 11 <= length str)%nat -> LogOnly (print_link_id_3GPP str off).
Proof.
  intros. unfold print_link_id_3GPP. rewrite (addr_ret _ _ _ 3) by reflexivity.
  log_steps. apply log_only_bind; [|apply _]. apply log_only_for_loop. intros j Hj.
  change (Z.to_nat MIH_3GPP_ADDRESS_LENGTH) with 8%nat in Hj.
  apply log_only_bind; [apply log_only_at; lia | apply _].
Qed.

Lemma print_link_tuple_id_3GPP_log str off :
  (off + 13 <= length str)%nat -> LogOnly (print_link_tuple_id_3GPP str off).
Proof.
  intros. unfold print_link_tuple_id_3GPP. rewrite (addr_ret _ _ _ 2) by reflexivity.
  rewrite ret_bind. apply print_link_id_3GPP_log. lia.
Qed.

(** ** print_link_cfg_param stays inside the buffer exactly when the announced
       number of thresholds does *)

(** The thresholds announced by the parameter at [off] end inside the buffer. *)
Definition cfg_param_fits (str : list Z) (off : nat) : Prop :=
  exists n, str !! (off + 4)%nat = Some n /\ (off + 5 + 3 * Z.to_nat n <= length str)%nat.

Lemma field_u8 t path str off o b :
  designate t path = Some (o, U8) -> str !! (off + o)%nat = Some b -> field t path str off = mret b.
Proof.
  unfold field, load. intros -> H; simpl. unfold slice.
  pose proof (lookup_lt_Some _ _ _ H) as Hl.
  rewrite (proj2 (Nat.leb_le _ _)) by (simpl; lia). simpl.
  rewrite (drop_S _ _ _ H). simpl. rewrite Z.add_0_r. reflexivity.
Qed.

Lemma print_link_cfg_param_log str off :
  cfg_param_fits str off -> LogOnly (print_link_cfg_param str off).
Proof.
  intros (n & Hn & Hlen). unfold print_link_cfg_param. rewrite (addr_ret _ _ _ 5) by reflexivity.
  pose proof (field_u8 MIH_C_Link_Cfg_Param "Threshold_List.Length" str off 4 n eq_refl Hn) as ->.
  log_steps. apply log_only_for_loop. intros j Hj. change (sizeof MIH_C_Threshold) with 3%nat.
  log_steps. apply _.
Qed.

Lemma field_stuck t path str off o u :
  designate t path = Some (o, u) -> (length str < off + o + sizeof u)%nat -> Stuck (field t path str off).
Proof. intros Hd Hl s. unfold field. erewrite load_None by (eauto; lia). reflexivity. Qed.

(** Walk towards the access that is out of bounds. *)
Ltac stuck_steps :=
  repeat match goal with
  | |- Stuck (mret _ ≫= _) => rewrite ret_bind
  | |- Stuck (field _ _ _ _ ≫= _) =>
      first [apply stuck_bind; eapply field_stuck; [vm_compute; reflexivity | cbn [sizeof]; lia]
            | apply stuck_after; intros ?]
  | |- Stuck (_ ≫= _) => apply stuck_after; intros ?
  end.

#[export] Instance cfg_param_fits_dec str off : Decision (cfg_param_fits str off).
Proof.
  unfold cfg_param_fits. destruct (str !! (off + 4)%nat) as [n|] eqn:E.
  - destruct (decide (off + 5 + 3 * Z.to_nat n <= length str)%nat) as [Hl|Hl]; [left; eauto|].
    right. intros (m & Hm & Hl'). simplify_eq. lia.
  - right. intros (m & Hm & _). discriminate.
Defined.

Lemma print_link_cfg_param_stuck str off :
  ~ cfg_param_fits str off -> Stuck (print_link_cfg_param str off).
Proof.
  intros Hf. unfold print_link_cfg_param. rewrite (addr_ret _ _ _ 5) by reflexivity.
  destruct (str !! (off + 4)%nat) as [n|] eqn:Hn; cycle 1.
  { apply lookup_ge_None in Hn. stuck_steps. }
  pose proof (field_u8 MIH_C_Link_Cfg_Param "Threshold_List.Length" str off 4 n eq_refl Hn) as ->.
  apply lookup_lt_Some in Hn as Hl.
  assert (length str < off + 5 + 3 * Z.to_nat n)%nat as Hb.
  { destruct (decide (off + 5 + 3 * Z.to_nat n <= length str)%nat); [|lia]. destruct Hf. exists n. eauto. }
  stuck_steps. change (sizeof MIH_C_Threshold) with 3%nat.
  apply (stuck_for_loop _ _ (Z.to_nat n - 1)); [lia|]. stuck_steps.
Qed.
