(* ===== verification/RalSend.v ===== *)
(** * Transmission side of the MIH link adapter

    The functions of mRALlteInt_msg.c that build a message in a 500 byte buffer
    and send it to the MIHF: for each, the assignments to the message in the
    order of the source, then the call of [send_to_mih] and the log output. *)

From S2P Require Import Prelude CMem CFormat RalPrimitives RalState RalPrint.

Local Open Scope string_scope.
Local Open Scope Z_scope.

Section Send.
Context `{Os}.

(** ** Addresses *)

(** [strcpy(address_3gpp, ADDRESS_3GPP)] writes the 16 digits and a NUL, one byte
    more than [char address_3gpp[16]] has.  The frame of the function is taken to
    have a spare byte behind the array. *)
Definition address_3gpp_frame : list Z := bytes_of_string ADDRESS_3GPP ++ [0].

(** The [l]th round of the loop: two digits into [buf], [sscanf], the low byte of
    [val]. *)
Definition load_3gpp_byte (l : nat) : option Z :=
  b0 ← address_3gpp_frame !! (l * 2)%nat;
  b1 ← address_3gpp_frame !! (l * 2 + 1)%nat;
  Some (u8 (sscanf_02x [b0; b1; 0] 0)).

(** [load_3gpp_address(&(m->path))], with [path] a MIH_C_Address_3GPP. *)
Definition load_3gpp_address (path : string) : stmt :=
  Copy (path ++ ".Addr_Val_3GPP") (default [] (mapM load_3gpp_byte (seq 0 8))).

(** ** The common parts of the messages *)

Definition sizeofZ (t : ctype) : Z := Z.of_nat (sizeof t).

Definition header_stmts (t : ctype) (mid tid : Z) : list stmt :=
  ["Header.Header_Vers" ::= PROTOCOL_VERSION;
   "Header.Header_FN" ::= MIH_LINK_HEADER_2;
   "Header.Message_ID" ::= mid;
   "Header.Transaction_ID" ::= tid;
   "Header.Payload_Length" ::= Z.shiftl (sizeofZ t - sizeofZ MIH_C_Header) 8].

Definition source_destination_stmts : list stmt :=
  ["MIHF_Source.Type" ::= TLV_MIHF_ID_SOURCE;
   "MIHF_Source.Length" ::= sizeofZ MIH_C_Link_ID_Name_Link;
   "MIHF_Source.Link_ID_Name_Link.Length" ::= sizeofZ MIH_C_Link_ID_Name_Link - 1;
   Strcpy "MIHF_Source.Link_ID_Name_Link.Link_ID_Char" MIH_SOURCE_ID;
   "MIHF_Destination.Type" ::= TLV_MIHF_ID_DESTINATION;
   "MIHF_Destination.Length" ::= sizeofZ MIH_C_Link_ID_Name_Mihf;
   "MIHF_Destination.Link_ID_Name_Mihf.Length" ::= sizeofZ MIH_C_Link_ID_Name_Mihf - 1;
   Strcpy "MIHF_Destination.Link_ID_Name_Mihf.Link_ID_Char" MIH_DESTINATION_ID].

Definition status_stmts : list stmt :=
  ["Status.Type" ::= TLV_STATUS;
   "Status.Length" ::= sizeofZ MIH_C_Status_Value;
   "Status.Status_Value" ::= STATUS_SUCCESS].

Definition link_tuple_stmts : list stmt :=
  ["Link_Tuple_Id_3GPP.Type" ::= TLV_LINK_TUPLE_ID;
   "Link_Tuple_Id_3GPP.Length" ::= sizeofZ MIH_C_Link_ID_3GPP + sizeofZ MIH_C_Choice;
   "Link_Tuple_Id_3GPP.Link_ID_3GPP.LinkType" ::= LINK_TYPE_3GPP;
   "Link_Tuple_Id_3GPP.Link_ID_3GPP.Choice_Address" ::= CHOICE_ADDRESS_3GPP;
   "Link_Tuple_Id_3GPP.Link_ID_3GPP.Address_3GPP.Addr_Val_List_Length" ::= sizeofZ MIH_C_Address_3GPP - 1;
   load_3gpp_address "Link_Tuple_Id_3GPP.Link_ID_3GPP.Address_3GPP";
   "Link_Tuple_Id_3GPP.Choice" ::= CHOICE_NULL].

(** An event list TLV whose last octet is [evt]; the other three are cleared after it. *)
Definition evt_list_stmts (m : string) (tlv evt : Z) : list stmt :=
  [(m ++ ".Type") ::= tlv;
   (m ++ ".Length") ::= sizeofZ MIH_C_Evt_List_Data;
   (m ++ ".Evt_List_Data.Evt_List_Oct[3]") ::= evt;
   (m ++ ".Evt_List_Data.Evt_List_Oct[0]") ::= VALUE_NULL;
   (m ++ ".Evt_List_Data.Evt_List_Oct[1]") ::= VALUE_NULL;
   (m ++ ".Evt_List_Data.Evt_List_Oct[2]") ::= VALUE_NULL].

Definition build (t : ctype) (mid tid : Z) (body : list stmt) : option (list Z) :=
  exec t (header_stmts t mid tid ++ source_destination_stmts ++ body) (bzero (Z.to_nat MIHLink_MAX_LENGTH)).

Definition send_to_mih (str : list Z) (prim_length : nat) : M Z :=
  modify (set_udp_socket {| sin_family := AF_INET; sin_port := PORT_ODTONE; sin_addr := SOCKET_ADDRESS |}) ;;
  bytes ← lift (slice 0 prim_length str);
  dst ← get udp_socket;
  len ← get sockaddr_len;
  before ← get trace;
  let rc := sendto before bytes in
  modify (add_event (EvSend dst len bytes rc)) ;;
  mret rc.

(** [if (send_to_mih(str, n) < 0) { perror(msg); wait_start_mihf = 1; }] *)
Definition send_or_wait (str : list Z) (n : nat) (msg : string) : M unit :=
  rc ← send_to_mih str n;
  if rc <? 0 then perror msg ;; modify (set_wait_start_mihf 1) else skip.

(** The Source and Destination lines printed at OUTPUT_LEVEL_2. *)
Definition print_ids (t : ctype) (name : string) (str : list Z) : M unit :=
  DEBUG ("[mRAL]: " ++ name ++ " - Source: ") [] ;;
  src ← addr t "MIHF_Source" 0;
  print_mihf_id str src ;;
  DEBUG ("[mRAL]: " ++ name ++ " - Destination: ") [] ;;
  dst ← addr t "MIHF_Destination" 0;
  print_mihf_id str dst ;;
  DEBUG "\n" [].

(** The message dump printed at OUTPUT_LEVEL_3. *)
Definition print_content (msg : string) (str : list Z) (n : Z) : M unit :=
  DEBUG msg [] ;; mRALu_print_buffer str 0 n.

(** ** Indications *)

Definition link_register_indication : option (list Z) :=
  build MIH_C_Link_Register_Indication MIH_LINK_HEADER_3_ES_Ind MIH_LINK_HEADER_4_ES_Ind
    ["LinkRegister.Type" ::= TLV_LINK_REGISTER_TYPE;
     "LinkRegister.Length" ::= sizeofZ MIH_C_Link_ID_3GPP;
     "LinkRegister.Link_ID_3GPP.LinkType" ::= LINK_TYPE_3GPP;
     "LinkRegister.Link_ID_3GPP.Choice_Address" ::= CHOICE_ADDRESS_3GPP;
     "LinkRegister.Link_ID_3GPP.Address_3GPP.Addr_Val_List_Length" ::= sizeofZ MIH_C_Address_3GPP - 1;
     load_3gpp_address "LinkRegister.Link_ID_3GPP.Address_3GPP"].

Definition mRALte_send_link_register_indication : M Z :=
  let t := MIH_C_Link_Register_Indication in
  let prim_length := sizeof t in
  str ← lift link_register_indication;
  rc ← send_to_mih str prim_length;
  done ← (if rc <? 0 then perror "[mRALt]: Link_Register_Indication" ;; mret 1 else mret 0);
  DEBUG "[mRAL]: Link_Register_Indication - SENT - Begin \n\n" [] ;;
  when OUTPUT_LEVEL_1 (print_header str 0) ;;
  when OUTPUT_LEVEL_2 (print_ids t "Link_Register_Indication" str) ;;
  when OUTPUT_LEVEL_1
    (ty ← field t "LinkRegister.Type" str 0;
     DEBUG "[mRAL]:   LINK_ID - Type: %d \n" [ty] ;;
     p ← addr t "LinkRegister.Link_ID_3GPP" 0;
     print_link_id_3GPP str p) ;;
  when OUTPUT_LEVEL_3 (print_content "[mRAL]: 		- Message content: \n" str (Z.of_nat prim_length)) ;;
  DEBUG "[mRAL]: Link_Register_Indication - End \n\n" [] ;;
  mret done.

Definition link_up_indication : option (list Z) :=
  build MIH_C_Link_Up_Indication MIH_LINK_HEADER_3_Link_Up_Ind MIH_LINK_HEADER_4_Link_Up_Ind
    link_tuple_stmts.

(** The second argument of the LINK_TUPLE_ID line has no conversion: the line
    shows the type where it says length. *)
Definition mRALte_send_link_up_indication : M Z :=
  let t := MIH_C_Link_Up_Indication in
  let prim_length := sizeof t in
  str ← lift link_up_indication;
  send_or_wait str prim_length "[mRAL] mRALte_send_link_up_indication" ;;
  DEBUG "[mRAL]: Link_Up_Indication - SENT \n\n" [] ;;
  when OUTPUT_LEVEL_1 (print_header str 0) ;;
  when OUTPUT_LEVEL_2 (print_ids t "Link_Up_Indication" str) ;;
  when OUTPUT_LEVEL_1
    (ty ← field t "Link_Tuple_Id_3GPP.Type" str 0;
     len ← field t "Link_Tuple_Id_3GPP.Length" str 0;
     DEBUG "[mRAL]:   LINK_TUPLE_ID - Length: %d \n" [ty; len] ;;
     p ← addr t "Link_Tuple_Id_3GPP" 0;
     print_link_tuple_id_3GPP str p ;;
     DEBUG "\n" []) ;;
  when OUTPUT_LEVEL_3
    (print_content "[mRAL]: Link_Register_Indication - Message content: \n" str (Z.of_nat prim_length)) ;;
  mret 0.

Definition link_down_indication : option (list Z) :=
  build MIH_C_Link_Down_Indication MIH_LINK_HEADER_3_Link_Down_Ind MIH_LINK_HEADER_4_Link_Down_Ind
    (link_tuple_stmts ++
     ["Reason_Code.Type" ::= TLV_LINK_DOWN_REASON_CODE;
      "Reason_Code.Length" ::= REASON_CODE_LENGTH;
      "Reason_Code.Reason" ::= LINK_DOWN_RC_AUTHENTICATION_FAILURE])%list.

Definition mRALte_send_link_down_indication : M Z :=
  let t := MIH_C_Link_Down_Indication in
  let prim_length := sizeof t in
  str ← lift link_down_indication;
  send_or_wait str prim_length "[mRAL] mRALte_send_link_down_indication" ;;
  DEBUG "[mRAL]: Link_Down_Indication - SENT \n\n" [] ;;
  when OUTPUT_LEVEL_2 (print_header str 0 ;; print_ids t "Link_Down_Indication" str) ;;
  when OUTPUT_LEVEL_1
    (len ← field t "Link_Tuple_Id_3GPP.Length" str 0;
     DEBUG "[mRAL]:   LINK_TUPLE_ID - Length: %d \n" [len] ;;
     p ← addr t "Link_Tuple_Id_3GPP" 0;
     print_link_tuple_id_3GPP str p ;;
     ty ← field t "Reason_Code.Type" str 0;
     DEBUG "[mRAL]:   REASON CODE - Type: %d \n" [ty] ;;
     DEBUG "[mRAL]:		- Reason: " [] ;;
     reason ← field t "Reason_Code.Reason" str 0;
     switch reason
       [(LINK_DOWN_RC_EXPLICIT_DISCONNECT, DEBUG "Explicit Disconnect (0) \n" []);
        (LINK_DOWN_RC_PACKET_TIMEOUT, DEBUG "Packer Timeout (1) \n" []);
        (LINK_DOWN_RC_NO_RESOURCE, DEBUG "No Resource (2) \n" []);
        (LINK_DOWN_RC_NO_BROADCAST, DEBUG "No Broadcast (3) \n" []);
        (LINK_DOWN_RC_AUTHENTICATION_FAILURE, DEBUG "Authentication Failure (4) \n" []);
        (LINK_DOWN_RC_BILLING_FAILURE, DEBUG "Billing Failure (5) \n" [])]
       (DEBUG "Reason Code Not Recognised \n" []) ;;
     DEBUG "\n" []) ;;
  when OUTPUT_LEVEL_3
    (print_content "[mRAL]: Link_Down_Indication - Message content: \n" str (Z.of_nat prim_length)) ;;
  mret 0.

Definition link_detected_indication : option (list Z) :=
  let link_mihcap_flag :=
    Z.lor (Z.lor (Z.lor 0 EVENT_SERVICE_SUPPORTED_ON) COMMAND_SERVICE_SUPPORTED_ON)
          INFORMATION_SERVICE_SUPPORTED_ON in
  let link_net_caps :=
    Z.lor (Z.lor (Z.lor 0 NET_CAPS_QOS_CLASS_0) NET_CAPS_QOS_CLASS_1) NET_CAPS_INTERNET_ACCESS in
  let v := "Link_Det_Info.Link_Det_Info_Value." in
  build MIH_C_Link_Detected_Indication MIH_LINK_HEADER_3_Link_Detected_Ind MIH_LINK_HEADER_4_Link_Detected_Ind
    ["Link_Det_Info.Type" ::= TLV_LINK_DET_INFO;
     "Link_Det_Info.Length" ::= sizeofZ MIH_C_Link_Det_Info - 2;
     (v ++ "Link_ID_3GPP.LinkType") ::= LINK_TYPE_3GPP;
     (v ++ "Link_ID_3GPP.Choice_Address") ::= CHOICE_ADDRESS_3GPP;
     (v ++ "Link_ID_3GPP.Address_3GPP.Addr_Val_List_Length") ::= sizeofZ MIH_C_Address_3GPP - 1;
     load_3gpp_address (v ++ "Link_ID_3GPP.Address_3GPP");
     (v ++ "Choice") ::= CHOICE_NULL;
     (v ++ "Network_Id.Network_Id_Length") ::= MIH_NETWORK_ID_LENGTH;
     Strcpy (v ++ "Network_Id.Network_Id_Value") MIH_NETWORK_ID;
     (v ++ "Net_Aux_Id.Net_Aux_Id_Length") ::= MIH_NET_AUX_ID_LENGTH;
     Strcpy (v ++ "Net_Aux_Id.Net_Aux_Id_Value") MIH_NETAUX;
     (v ++ "Sig_Strength.Choice") ::= CHOICE_NULL;
     (v ++ "Sig_Strength.Sig_Strength_Value") ::= LINK_DETECTED_INDICATION_SIG_STRENGTH;
     (v ++ "Sinr") ::= LINK_DETECTED_INDICATION_SINR;
     (v ++ "Link_Data_Rate") ::= LINK_DETECTED_INDICATION_LINK_DATA_RATE;
     (v ++ "Link_Mihcap_Flag") ::= link_mihcap_flag;
     (v ++ "Net_Caps") ::= link_net_caps].

(** [for (i = 0; i < n; i++) DEBUG("%c", p[i]);] *)
Definition print_chars (str : list Z) (off : nat) (n : Z) : M unit :=
  for_loop n (fun i => c ← lift (str !! (off + i)%nat); DEBUG "%c" [c]).

Definition mRALte_send_link_detected_indication : M Z :=
  let t := MIH_C_Link_Detected_Indication in
  let prim_length := sizeof t in
  let v := "Link_Det_Info.Link_Det_Info_Value." in
  str ← lift link_detected_indication;
  send_or_wait str prim_length "[mRAL]: mRALte_send_link_detected_indication" ;;
  DEBUG "[mRAL]: Link_Detected_Indication - SENT - Begin \n\n" [] ;;
  when OUTPUT_LEVEL_1 (print_header str 0) ;;
  when OUTPUT_LEVEL_2 (print_ids t "Link_Detected_Indication" str) ;;
  when OUTPUT_LEVEL_1
    (ty ← field t "Link_Det_Info.Type" str 0;
     DEBUG "[mRAL]:     - Link Det Info - Type: %d \n" [ty] ;;
     p ← addr t (v ++ "Link_ID_3GPP") 0;
     print_link_id_3GPP str p ;;
     DEBUG "[mRAL]:         - Network identifier: " [] ;;
     nid ← addr t (v ++ "Network_Id.Network_Id_Value") 0;
     print_chars str nid MIH_NETWORK_ID_LENGTH ;;
     DEBUG "\n" [] ;;
     DEBUG "[mRAL]:         - Auxiliary access network identifier: " [] ;;
     aux ← addr t (v ++ "Net_Aux_Id.Net_Aux_Id_Value") 0;
     print_chars str aux MIH_NET_AUX_ID_LENGTH ;;
     DEBUG "\n" [] ;;
     sig ← field t (v ++ "Sig_Strength.Sig_Strength_Value") str 0;
     DEBUG "[mRAL]:         - Signal Strength: %d \n" [sig] ;;
     sinr ← field t (v ++ "Sinr") str 0;
     DEBUG "[mRAL]:         - SINR Value: %d \n" [sinr] ;;
     rate ← field t (v ++ "Link_Data_Rate") str 0;
     DEBUG "[mRAL]:         - Link Data Rate: %d \n" [rate] ;;
     DEBUG "[mRAL]:         - MIH Capabilities Supported: \n" [] ;;
     DEBUG "[mRAL]:          " [] ;;
     flag ← field t (v ++ "Link_Mihcap_Flag") str 0;
     debug_bit flag EVENT_SERVICE_SUPPORTED_ON " Evt Service (ES) -" ;;
     debug_bit flag COMMAND_SERVICE_SUPPORTED_ON " Cmd Service (CS) -" ;;
     debug_bit flag INFORMATION_SERVICE_SUPPORTED_ON " Inf Service (IS) -" ;;
     DEBUG "\n" [] ;;
     DEBUG "[mRAL]:         - High Level Capabilities Supported: \n" [] ;;
     DEBUG "[mRAL]:          " [] ;;
     caps ← field t (v ++ "Net_Caps") str 0;
     debug_bit caps NET_CAPS_QOS_CLASS_0 " QoS Class 0 -" ;;
     debug_bit caps NET_CAPS_QOS_CLASS_1 " QoS Class 1 -" ;;
     debug_bit caps NET_CAPS_INTERNET_ACCESS " Internet Access -" ;;
     DEBUG "\n\n" []) ;;
  when OUTPUT_LEVEL_3
    (print_content "[mRAL]: Link_Action_Confirm - Message content: \n\n" str (Z.of_nat prim_length)) ;;
  DEBUG "[mRAL]: Link_Detected_Indication - End \n\n" [] ;;
  modify (set_link_detec 0) ;;
  mret 0.

Definition link_going_down_indication : option (list Z) :=
  build MIH_C_Link_Going_Down_Indication MIH_LINK_HEADER_3_Link_Going_Down MIH_LINK_HEADER_4_Link_Detected_Ind
    (link_tuple_stmts ++
     ["Time_Interval.Type" ::= TLV_LINK_TIME_INTERVAL;
      "Time_Interval.Length" ::= sizeofZ MIH_C_Time_Interval_Value;
      "Time_Interval.Time_Interval_Value" ::= LINK_DETECTED_TIME_INTERVAL;
      "Link_Going_Down_Reason.Type" ::= TLV_LINK_GOING_DOWN_REASON;
      "Link_Going_Down_Reason.Length" ::= sizeofZ MIH_C_Link_Going_Down_Reason_Value;
      "Link_Going_Down_Reason.Link_Going_Down_Reason_Value" ::= LINK_GOING_DOWN_REASON_LINK_PARAM_DEGRADING])%list.

Definition mRALte_send_link_going_down_indication : M Z :=
  let t := MIH_C_Link_Going_Down_Indication in
  let prim_length := sizeof t in
  str ← lift link_going_down_indication;
  send_or_wait str prim_length "[mRAL]: mRALte_send_link_going_down_indication" ;;
  DEBUG "[mRAL]: mRALte_send_link_going_down - SENT - Begin \n\n" [] ;;
  when OUTPUT_LEVEL_1 (print_header str 0) ;;
  when OUTPUT_LEVEL_2 (print_ids t "Link_Going_Down" str) ;;
  when OUTPUT_LEVEL_1
    (ty ← field t "Link_Tuple_Id_3GPP.Type" str 0;
     DEBUG "[mRAL]:   LINK_TUPLE_ID - Type: %d \n" [ty] ;;
     p ← addr t "Link_Tuple_Id_3GPP" 0;
     print_link_tuple_id_3GPP str p ;;
     tty ← field t "Time_Interval.Type" str 0;
     tv ← field t "Time_Interval.Time_Interval_Value" str 0;
     DEBUG "[mRAL]:   TIME INTERVAL - Type: %d - Value: %d\n" [tty; tv] ;;
     rty ← field t "Link_Going_Down_Reason.Type" str 0;
     DEBUG "[mRAL]:   GOING DOWN REASON - Type %d -  " [rty] ;;
     reason ← field t "Link_Going_Down_Reason.Link_Going_Down_Reason_Value" str 0;
     switch reason
       [(LINK_GOING_DOWN_REASON_EXPLICIT_DISCONNECT, DEBUG " Explicit Disconnect \n" []);
        (LINK_GOING_DOWN_REASON_LINK_PARAM_DEGRADING, DEBUG " Link Parameter degrading \n" []);
        (LINK_GOING_DOWN_REASON_LOW_POWER, DEBUG " Low Power \n" []);
        (LINK_GOING_DOWN_REASON_NO_RESOURCE, DEBUG " No Resource \n" [])]
       (DEBUG " Not recognized \n" [])) ;;
  DEBUG "\n" [] ;;
  DEBUG "[mRAL]: mRALte_send_link_going_down - End \n\n" [] ;;
  mret 0.

Definition link_parameters_report_indication (tid : Z) : option (list Z) :=
  let r := "Link_Param_Rpt_List.Link_Param_Rpt_List_Value." in
  build MIH_C_Link_Parameters_Report_Indication MIH_LINK_HEADER_3_Link_Param_Report tid
    (link_tuple_stmts ++
     ["Link_Param_Rpt_List.Type" ::= TLV_LINK_PARAM_RPT_LIST;
      "Link_Param_Rpt_List.Length" ::= sizeofZ MIH_C_Link_Param_Rpt_List - 2;
      (r ++ "List_Length") ::= LIST_PARAM_RPT_LENGTH_VALUE;
      (r ++ "Link_Param_Rpt[0].Link_Param.Param_Type_Choice") ::= LINK_PARAM_GEN;
      (r ++ "Link_Param_Rpt[0].Link_Param.Link_Param_Type_Num") ::= LINK_PARAM_GEN_VAL;
      (r ++ "Link_Param_Rpt[0].Link_Param.Choice") ::= CHOICE_LINK_PARAM_VAL;
      (r ++ "Link_Param_Rpt[0].Link_Param.Link_Param_Value") ::= LINK_PARAM_VAL_VALUE;
      (r ++ "Link_Param_Rpt[0].Link_Param.Choice") ::= CHOICE_NULL])%list.

Definition mRALte_send_link_parameters_report_indication : M Z :=
  let t := MIH_C_Link_Parameters_Report_Indication in
  let prim_length := sizeof t in
  tid ← get trans_id;
  str ← lift (link_parameters_report_indication tid);
  send_or_wait str prim_length "[mRAL]: mRALte_send_link_parameters_report_indication" ;;
  DEBUG "[mRAL]: mRALte send link parameters report indication - SENT \n\n" [] ;;
  when OUTPUT_LEVEL_1 (print_header str 0) ;;
  when OUTPUT_LEVEL_1
    (ty ← field t "Link_Tuple_Id_3GPP.Type" str 0;
     DEBUG "[mRAL]:   LINK_TUPLE_ID - Type: %d \n" [ty] ;;
     p ← addr t "Link_Tuple_Id_3GPP" 0;
     print_link_tuple_id_3GPP str p) ;;
  DEBUG "[mRAL]: mRALte send link parameters report indication - End \n\n" [] ;;
  mret 0.

End Send.
