(* ===== verification/RalConfirm.v ===== *)
(** * Confirmations of the MIH link adapter

    The functions of mRALlteInt_msg.c that answer a request of the MIHF. *)

From S2P Require Import Prelude CMem CFormat RalPrimitives RalState RalPrint RalSend.

Local Open Scope string_scope.
Local Open Scope Z_scope.

Section Confirm.
Context `{Os}.

Definition capability_discover_confirm (tid : Z) : option (list Z) :=
  let evt_list :=
    Z.lor (Z.lor (Z.lor (Z.lor (Z.lor 0 EVT_LIST_LINK_DETECTED) EVT_LIST_LINK_UP) EVT_LIST_LINK_DOWN)
      EVT_LIST_LINK_GOING_DOWN) EVT_LIST_LINK_PARAMETERS_REPORT in
  let cmd_list :=
    Z.lor (Z.lor (Z.lor (Z.lor (Z.lor 0 CMD_LIST_LINK_EVENT_SUBSCRIBE) CMD_LIST_LINK_EVENT_UNSUBSCRIBE)
      CMD_LIST_LINK_GET_PARAMETERS) CMD_LIST_LINK_CONFIGURE_THRESHOLDS) CMD_LIST_LINK_ACTION in
  build MIH_C_Capability_Discover_Conf MIH_LINK_HEADER_3_Cap_Disc_Conf tid
    (status_stmts ++ evt_list_stmts "Link_Evt_List" TLV_LINK_EVENT_LIST evt_list ++
     ["Link_Cmd_List.Type" ::= TLV_LINK_CMD_LIST;
      "Link_Cmd_List.Length" ::= sizeofZ MIH_C_Cmd_List_Data;
      "Link_Cmd_List.Cmd_List_Data.Cmd_List_Oct[3]" ::= cmd_list;
      "Link_Cmd_List.Cmd_List_Data.Cmd_List_Oct[0]" ::= VALUE_NULL;
      "Link_Cmd_List.Cmd_List_Data.Cmd_List_Oct[1]" ::= VALUE_NULL;
      "Link_Cmd_List.Cmd_List_Data.Cmd_List_Oct[2]" ::= VALUE_NULL])%list.

Definition mRALte_send_capability_discover_confirm : M Z :=
  let t := MIH_C_Capability_Discover_Conf in
  let prim_length := sizeof t in
  tid ← get trans_id;
  str ← lift (capability_discover_confirm tid);
  send_or_wait str prim_length "[mRAL]: mRALu_send_capability_discover_confirm" ;;
  DEBUG "[mRAL]: Link_Capability_Discover_Confirm - SENT - Begin:\n\n" [] ;;
  when OUTPUT_LEVEL_1 (print_header str 0) ;;
  when OUTPUT_LEVEL_2 (print_ids t "Link_Capability_Discover_Confirm" str) ;;
  when OUTPUT_LEVEL_1
    (ty ← field t "Status.Type" str 0;
     DEBUG "[mRAL]:   STATUS - Type: %d \n" [ty] ;;
     p ← addr t "Status" 0;
     print_status str p ;;
     ety ← field t "Link_Evt_List.Type" str 0;
     DEBUG "[mRAL]:   LINK_EVT_LIST - Type: %d \n" [ety] ;;
     ep ← addr t "Link_Evt_List" 0;
     print_link_evt_list str ep ;;
     cty ← field t "Link_Cmd_List.Type" str 0;
     DEBUG "[mRAL]:   LINK_CMD_LIST - Type: %d \n" [cty] ;;
     cp ← addr t "Link_Cmd_List" 0;
     print_link_cmd_list str cp) ;;
  when OUTPUT_LEVEL_3
    (print_content "[mRAL]: Link_Capability_Discover_Confirm - Message content: \n" str (Z.of_nat prim_length)) ;;
  mret 0.

Definition event_subscribe_confirm (tid evt : Z) : option (list Z) :=
  build MIH_C_Event_Subscribe_Conf MIH_LINK_HEADER_3_Evt_Sub_Conf tid
    (status_stmts ++ evt_list_stmts "Link_Evt_List" TLV_LINK_EVENT_LIST evt)%list.

Definition mRALte_send_event_subscribe_confirm : M Z :=
  let t := MIH_C_Event_Subscribe_Conf in
  let prim_length := sizeof t in
  tid ← get trans_id;
  evt ← get rcv_evt_list;
  str ← lift (event_subscribe_confirm tid evt);
  send_or_wait str prim_length "[mRAL]: mRALu_send_event_subscribe_confirm" ;;
  DEBUG "[mRAL]: Event Subscribe Confirm - SENT \n\n" [] ;;
  when OUTPUT_LEVEL_1 (print_header str 0) ;;
  when OUTPUT_LEVEL_2 (print_ids t "Event Subscribe Confirm" str) ;;
  when OUTPUT_LEVEL_1
    (ety ← field t "Link_Evt_List.Type" str 0;
     DEBUG "[mRAL]:   MIH_EVT_LIST - Type: %d \n" [ety] ;;
     ep ← addr t "Link_Evt_List" 0;
     print_link_evt_list str ep) ;;
  when OUTPUT_LEVEL_3
    (print_content "[mRAL]: Event Subscribe Confirm - Message content: \n" str (Z.of_nat prim_length)) ;;
  mret 0.

Definition event_unsubscribe_confirm (tid evt : Z) : option (list Z) :=
  build MIH_C_Event_Unsubscribe_Conf MIH_LINK_HEADER_3_Evt_Unsub_Conf tid
    (status_stmts ++ evt_list_stmts "Responce_MIH_Evt_List" TLV_EVENT_LIST evt)%list.

Definition mRALte_send_event_unsubscribe_confirm : M Z :=
  let t := MIH_C_Event_Unsubscribe_Conf in
  let prim_length := sizeof t in
  tid ← get trans_id;
  evt ← get rcv_evt_list;
  str ← lift (event_unsubscribe_confirm tid evt);
  send_or_wait str prim_length "[mRAL]: mRALte_send_event_unsubscribe_confirm" ;;
  DEBUG "[mRAL]: Event Unsubscribe Confirm - SENT \n\n" [] ;;
  when OUTPUT_LEVEL_1 (print_header str 0) ;;
  when OUTPUT_LEVEL_2 (print_ids t "Event Unsubscribe Confirm" str) ;;
  when OUTPUT_LEVEL_1
    (ty ← field t "Status.Type" str 0;
     DEBUG "[mRAL]:   STATUS - Type: %d \n" [ty] ;;
     p ← addr t "Status" 0;
     print_status str p ;;
     ety ← field t "Responce_MIH_Evt_List.Type" str 0;
     DEBUG "[mRAL]:   EVT_LIST - Type: %d \n" [ety] ;;
     ep ← addr t "Responce_MIH_Evt_List" 0;
     print_link_evt_list str ep ;;
     DEBUG "\n" []) ;;
  when OUTPUT_LEVEL_3
    (print_content "[mRAL]: Event Unsubscribe Confirm - Message content: \n" str (Z.of_nat prim_length)) ;;
  mret 0.

Definition link_get_parameters_confirm (tid : Z) : option (list Z) :=
  build MIH_C_Get_Parameters_Confirm MIH_LINK_HEADER_3_Get_Param_Conf tid
    (status_stmts ++
     ["Link_Param_List.Type" ::= TLV_LINK_PARAMETERS_STATUS_LIST;
      "Link_Param_List.Length" ::= sizeofZ MIH_C_Link_Param_List - 2;
      "Link_Param_List.List_Length" ::= LINK_GET_PARAMETERS_CONFIRM_LINK_PARAM_LIST_LENGTH;
      "Link_Param_List.Link_Param[0].Param_Type_Choice" ::= LINK_PARAM_GEN;
      "Link_Param_List.Link_Param[0].Link_Param_Type_Num" ::= LINK_PARAM_GEN_VAL;
      "Link_Param_List.Link_Param[0].Choice" ::= CHOICE_LINK_PARAM_VAL;
      "Link_Param_List.Link_Param[0].Link_Param_Value" ::= LINK_PARAM_VAL_VALUE;
      "Link_States_Rsp_List.Type" ::= TLV_LINK_STATES_RSP;
      "Link_States_Rsp_List.Length" ::= sizeofZ MIH_C_Link_States_Rsp_List - 2;
      "Link_States_Rsp_List.List_Length" ::= LINK_GET_PARAMETERS_CONFIRM_LINK_STATES_RSP_LIST_LENGTH;
      "Link_States_Rsp_List.Link_States_Rsp[0].Choice" ::= CHOICE_OP_MODE;
      "Link_States_Rsp_List.Link_States_Rsp[0].Link_States_Rsp_Value" ::= OP_MODE_NORMAL_MODE;
      "Link_Desc_Rsp_List.Type" ::= TLV_LINK_DESCRIPTOR_RSP;
      "Link_Desc_Rsp_List.Length" ::= sizeofZ MIH_C_Link_Desc_Rsp_List - 2;
      "Link_Desc_Rsp_List.List_Length" ::= LINK_GET_PARAMETERS_CONFIRM_LINK_DESC_LIST_LENGTH;
      "Link_Desc_Rsp_List.Link_Desc_Rsp[0].Choice" ::= CHOICE_NUM_COS;
      "Link_Desc_Rsp_List.Link_Desc_Rsp[0].Link_Desc_Rsp_Value" ::= NUM_COS_VALUE])%list.

Definition mRALte_send_link_get_parameters_confirm : M Z :=
  let t := MIH_C_Get_Parameters_Confirm in
  let prim_length := sizeof t in
  tid ← get trans_id;
  str ← lift (link_get_parameters_confirm tid);
  send_or_wait str prim_length "[mRAL]: mRALte_send_link_get_parameters_confirm" ;;
  DEBUG "[mRAL]: Link_Get_Parameters_Confirm - SENT - Begin \n\n" [] ;;
  when OUTPUT_LEVEL_1 (print_header str 0) ;;
  when OUTPUT_LEVEL_2 (print_ids t "Link_Get_Parameters_Confirm" str) ;;
  when OUTPUT_LEVEL_1
    (ty ← field t "Status.Type" str 0;
     DEBUG "[mRAL]:   STATUS - Type: %d \n" [ty] ;;
     p ← addr t "Status" 0;
     print_status str p ;;
     pty ← field t "Link_Param_List.Type" str 0;
     DEBUG "[mRAL]:   LINK PARAM LIST - Type: %d \n" [pty] ;;
     pn ← field t "Link_Param_List.List_Length" str 0;
     DEBUG "[mRAL]:   LINK PARAM LIST - List Element %d \n" [pn] ;;
     DEBUG "[mRAL]:		- Link Param Type: " [] ;;
     pc ← field t "Link_Param_List.Link_Param[0].Param_Type_Choice" str 0;
     switch pc
       [(LINK_PARAM_802_11, DEBUG "802.11 \n" []);
        (LINK_PARAM_GEN, DEBUG " Generic Link Type \n" [])]
       (DEBUG "Not recognized \n" []) ;;
     DEBUG "[mRAL]:		- Link Param Type: " [] ;;
     pnum ← field t "Link_Param_List.Link_Param[0].Link_Param_Type_Num" str 0;
     switch pnum [(LINK_PARAM_GEN_VAL, DEBUG " Data Rate\n" [])] (DEBUG "Not recognized \n" []) ;;
     pv ← field t "Link_Param_List.Link_Param[0].Link_Param_Value" str 0;
     DEBUG "[mRAL]:		- Link Param Type (Value): %d \n" [pv] ;;
     sty ← field t "Link_States_Rsp_List.Type" str 0;
     DEBUG "[mRAL]:   LINK STATES RSP LIST - Type: %d \n" [sty] ;;
     sn ← field t "Link_States_Rsp_List.List_Length" str 0;
     DEBUG "[mRAL]:   LINK STATES RSP LIST - List Element %d \n" [sn] ;;
     DEBUG "[mRAL]:		- Link States requested: " [] ;;
     sc ← field t "Link_States_Rsp_List.Link_States_Rsp[0].Choice" str 0;
     switch sc
       [(CHOICE_OP_MODE, DEBUG "Operational Mode \n" []);
        (CHOICE_CHANNEL_ID, DEBUG "Channel ID \n" [])]
       (DEBUG "Not recognized \n" []) ;;
     DEBUG "[mRAL]:		- Link States Rsp (Value):" [] ;;
     sv ← field t "Link_States_Rsp_List.Link_States_Rsp[0].Link_States_Rsp_Value" str 0;
     switch sv
       [(OP_MODE_NORMAL_MODE, DEBUG "Normal Mode \n" []);
        (OP_MODE_POWERED_DOWN, DEBUG "Powered Down \n" [])]
       (DEBUG "Not recognized \n" []) ;;
     dty ← field t "Link_Desc_Rsp_List.Type" str 0;
     DEBUG "[mRAL]:   LINK DESC RSP LIST - Type: %d \n" [dty] ;;
     dn ← field t "Link_Desc_Rsp_List.List_Length" str 0;
     DEBUG "[mRAL]:   LINK DESC RSP LIST - List Length %d \n" [dn] ;;
     DEBUG "[mRAL]:		- Link Desc Rsp: " [] ;;
     dc ← field t "Link_Desc_Rsp_List.Link_Desc_Rsp[0].Choice" str 0;
     switch dc
       [(CHOICE_NUM_COS, DEBUG "NUM_COS - differentiable classes of service supported \n" []);
        (CHOICE_NUM_QUEUE, DEBUG "NUM_QUEUE - number of transmit queues supported \n" [])]
       (DEBUG "Not recognized \n" []) ;;
     DEBUG "[mRAL]:		- Link Desc Rsp (Value):" [] ;;
     dv ← field t "Link_Desc_Rsp_List.Link_Desc_Rsp[0].Link_Desc_Rsp_Value" str 0;
     DEBUG "%d \n\n" [dv]) ;;
  when OUTPUT_LEVEL_3
    (print_content "[mRAL]: Link_Get_Parameters_Confirm - Message content: \n\n" str (Z.of_nat prim_length)) ;;
  DEBUG "[mRAL]: Link_Get_Parameters_Confirm - End \n\n" [] ;;
  mret 0.

Definition link_configure_thresholds_confirm (tid : Z) : option (list Z) :=
  let l := "Link_Cfg_Status_List." in
  build MIH_C_Link_Configure_Thresholds_Confirm MIH_LINK_HEADER_3_Link_Conf_Thres_Conf tid
    (status_stmts ++
     [(l ++ "Type")%string ::= TLV_LINK_CFG_STATUS_LIST;
      (l ++ "Length")%string ::= LINK_CONF_THRES_CONF_LINK_CFG_STATUS_LENGTH;
      (l ++ "List_Length")%string ::= LINK_CONF_THRES_CONF_LINK_CFG_STATUS_LIST_LENGTH;
      (l ++ "Link_Cfg_Status[0].Param_Type_Choice")%string ::= LINK_PARAM_GEN;
      (l ++ "Link_Cfg_Status[0].Link_Param_Type_Num")%string ::= LINK_PARAM_GEN_VAL;
      (l ++ "Link_Cfg_Status[0].Threshold.Threshold_Val")%string ::=
         LINK_CONF_THRES_CONF_LINK_CFG_STATUS_THRESHOLD_VAL;
      (l ++ "Link_Cfg_Status[0].Threshold.Threshold_X_Dir")%string ::=
         LINK_CONF_THRES_CONF_LINK_CFG_STATUS_THRESHOLD_X_DIR;
      (l ++ "Link_Cfg_Status[0].Config_Status")%string ::= CONFIG_STATUS_TRUE])%list.

Definition mRALte_send_link_configure_thresholds_confirm : M Z :=
  let t := MIH_C_Link_Configure_Thresholds_Confirm in
  let prim_length := sizeof t in
  tid ← get trans_id;
  str ← lift (link_configure_thresholds_confirm tid);
  send_or_wait str prim_length "[mRAL]: mRALte_send_link_configure_thresholds_confirm" ;;
  DEBUG "[mRAL]: Link_Configure_Thresholds_Confirm - SENT \n\n" [] ;;
  when OUTPUT_LEVEL_1 (print_header str 0) ;;
  when OUTPUT_LEVEL_2 (print_ids t "Link_Configure_Thresholds_Confirm" str) ;;
  when OUTPUT_LEVEL_1
    (ty ← field t "Status.Type" str 0;
     DEBUG "[mRAL]:   STATUS - Type: %d \n" [ty] ;;
     p ← addr t "Status" 0;
     print_status str p ;;
     lty ← field t "Link_Cfg_Status_List.Type" str 0;
     DEBUG "[mRAL]:   LINK CFG STATUS LIST - Type: %d \n" [lty] ;;
     n ← field t "Link_Cfg_Status_List.List_Length" str 0;
     DEBUG "[mRAL]:   LINK CFG STATUS LIST - List Length: %d \n" [n] ;;
     l ← addr t "Link_Cfg_Status_List.Link_Cfg_Status" 0;
     for_loop n (fun i =>
       DEBUG "[mRAL]:   LINK CFG STATUS - %d \n" [Z.of_nat i + 1] ;;
       print_link_cfg_status str (l + i * sizeof MIH_C_Link_Cfg_Status)%nat) ;;
     DEBUG "\n" []) ;;
  when OUTPUT_LEVEL_3
    (print_content "[mRAL]: Link_Configure_Thresholds_Confirm - Message content: \n\n" str (Z.of_nat prim_length)) ;;
  DEBUG "[mRAL]: Link_Configure_Thresholds_Confirm - End \n\n" [] ;;
  mret 0.

Definition link_ac_result_stmts : list stmt :=
  ["Link_Ac_Result.Type" ::= TLV_LINK_AC_RESULT;
   "Link_Ac_Result.Length" ::= sizeofZ MIH_C_Link_Ac_Result_Value;
   "Link_Ac_Result.Link_Ac_Result_Value" ::= STATUS_SUCCESS].

Definition link_action_confirm (tid : Z) : option (list Z) :=
  build MIH_C_Link_Action_Confirm MIH_LINK_HEADER_3_Link_Act_Conf tid
    (status_stmts ++ link_ac_result_stmts)%list.

Definition mRALte_send_link_action_confirm : M Z :=
  let t := MIH_C_Link_Action_Confirm in
  let prim_length := sizeof t in
  tid ← get trans_id;
  str ← lift (link_action_confirm tid);
  send_or_wait str prim_length "[mRAL]: mRALte_send_link_action_confirm" ;;
  DEBUG "[mRAL]: Link_Action_Confirm - SENT \n\n" [] ;;
  when OUTPUT_LEVEL_1 (print_header str 0) ;;
  when OUTPUT_LEVEL_2 (print_ids t "Link_Action_Confirm" str) ;;
  when OUTPUT_LEVEL_1
    (len ← field t "Status.Length" str 0;
     DEBUG "[mRAL]:   STATUS - Length: %d \n" [len] ;;
     p ← addr t "Status" 0;
     print_status str p ;;
     alen ← field t "Link_Ac_Result.Length" str 0;
     DEBUG "[mRAL]:   LINK ACTION RESULT - Length: %d \n" [alen] ;;
     DEBUG "[mRAL]:   LINK ACTION RESULT - Action: " [] ;;
     v ← field t "Link_Ac_Result.Link_Ac_Result_Value" str 0;
     switch v [(STATUS_SUCCESS, DEBUG "Link Action Success \n" [])] (DEBUG "Link Action not Success \n" []) ;;
     DEBUG "\n" []) ;;
  when OUTPUT_LEVEL_3
    (print_content "[mRAL]: Link_Action_Confirm - Message content: \n\n" str (Z.of_nat prim_length)) ;;
  DEBUG "[mRAL]: Link_Action_Confirm - End\n\n" [] ;;
  mret 0.

Definition link_action_confirm_lsr (tid : Z) : option (list Z) :=
  let r := "Link_Action_Rsp_List.Link_Scan_Rsp_List.Link_Scan_Rsp[0]." in
  build MIH_C_Link_Action_Confirm_Lsr MIH_LINK_HEADER_3_Link_Act_Conf tid
    (status_stmts ++
     ["Link_Action_Rsp_List.Type" ::= TLV_LINK_SCAN_RSP_LIST;
      "Link_Action_Rsp_List.Length" ::= sizeofZ MIH_C_Link_Action_Rsp_List - 1;
      "Link_Action_Rsp_List.Link_Scan_Rsp_List.List_Length" ::= LINK_STATES_RSP_LIST_LENGTH;
      (r ++ "Choice")%string ::= LINK_ADDR_3GPP_3G_CELL_ID;
      (r ++ "Address_3GPP_CellId.PLMN_ID[1]")%string ::= MCC;
      (r ++ "Address_3GPP_CellId.PLMN_ID[2]")%string ::= MNC;
      (r ++ "Address_3GPP_CellId.Address_3GPP_CellId_Value")%string ::= CELL_ID;
      (r ++ "Network_Id.Network_Id_Length")%string ::= MIH_NETWORK_ID_LENGTH;
      Strcpy (r ++ "Network_Id.Network_Id_Value")%string MIH_NETWORK_ID;
      (r ++ "Link_Sig_Strength.Choice")%string ::= CHOICE_NULL;
      (r ++ "Link_Sig_Strength.Link_Sig_Strength_Value")%string ::= SIG_STRENGTH_VALUE] ++
     link_ac_result_stmts)%list.

Definition mRALte_send_link_action_confirm_lsr : M Z :=
  let t := MIH_C_Link_Action_Confirm_Lsr in
  let prim_length := sizeof t in
  let r := "Link_Action_Rsp_List.Link_Scan_Rsp_List.Link_Scan_Rsp[0]." in
  tid ← get trans_id;
  str ← lift (link_action_confirm_lsr tid);
  send_or_wait str prim_length "[mRAL]: mRALte_send_link_action_confirm_lsr" ;;
  DEBUG "[mRAL]: Link_Action_Confirm - SENT \n\n" [] ;;
  when OUTPUT_LEVEL_1 (print_header str 0) ;;
  when OUTPUT_LEVEL_2 (print_ids t "Link_Action_Confirm" str) ;;
  when OUTPUT_LEVEL_1
    (len ← field t "Status.Length" str 0;
     DEBUG "[mRAL]:   STATUS - Length: %d \n" [len] ;;
     p ← addr t "Status" 0;
     print_status str p ;;
     aty ← field t "Link_Ac_Result.Type" str 0;
     DEBUG "[mRAL]:   LINK ACTION RESULT - Type: %d \n" [aty] ;;
     DEBUG "[mRAL]:   LINK ACTION RESULT - " [] ;;
     v ← field t "Link_Ac_Result.Link_Ac_Result_Value" str 0;
     switch v [(STATUS_SUCCESS, DEBUG "Link Action Success \n" [])] (DEBUG "Link Action not Success \n" []) ;;
     DEBUG "\n" [] ;;
     scan ← get link_scan;
     when (scan =? LINK_SCAN)
       (DEBUG "[mRAL]:   LINK SCAN RESPONSE LIST: " [] ;;
        lty ← field t "Link_Action_Rsp_List.Type" str 0;
        n ← field t "Link_Action_Rsp_List.Link_Scan_Rsp_List.List_Length" str 0;
        DEBUG "  Type: %d - List Length: %d \n" [lty; n] ;;
        DEBUG "[mRAL]:   	LINK ADDR: " [] ;;
        c ← field t (r ++ "Choice") str 0;
        cell ← field t (r ++ "Address_3GPP_CellId.Address_3GPP_CellId_Value") str 0;
        switch c [(LINK_ADDR_3GPP_3G_CELL_ID, DEBUG "3GPP 3G Cell ID - Value: %d \n" [cell])]
          (DEBUG " Add Link Addr Type \n" []) ;;
        DEBUG "[mRAL]:   	NETWORK_ID: " [] ;;
        nid ← addr t (r ++ "Network_Id.Network_Id_Value") 0;
        print_chars str nid MIH_NETWORK_ID_LENGTH ;;
        DEBUG "\n" [] ;;
        sig ← field t (r ++ "Link_Sig_Strength.Link_Sig_Strength_Value") str 0;
        DEBUG "[mRAL]:   	SIG STRENGTH: %d" [sig] ;;
        DEBUG "\n" [])) ;;
  when OUTPUT_LEVEL_3
    (print_content "[mRAL]: Link_Action_Confirm - Message content: \n\n" str (Z.of_nat prim_length)) ;;
  DEBUG "[mRAL]: Link_Action_Confirm - End\n\n" [] ;;
  mret 0.

End Confirm.
