(* ===== verification/RalRecv.v ===== *)
(** * Reception side of the MIH link adapter

    The decoding functions and [process_mih_command] of mRALlteInt_msg.c, and
    [main] of mRALlteInt_main.c as a loop over what [select] and [recvfrom]
    answer. *)

From S2P Require Import Prelude CMem CFormat RalPrimitives RalState RalPrint RalSend RalConfirm.

Local Open Scope string_scope.
Local Open Scope Z_scope.

(** What [recvfrom] answers: an error, or a datagram with the peer's address. *)
Inductive recv_result :=
| RecvError
| RecvOk (bytes : list Z) (from : sockaddr_in) (from_len : Z).

(** What one round of [select] answers. *)
Inductive poll :=
| SelectError
| SelectTimeout
| SelectReadable (r : recv_result).

Section Recv.
Context `{Os}.

Definition sleep (seconds : Z) : M unit := modify (add_event (EvSleep seconds)).

Definition mRALte_decode_link_get_parameters_request (str : list Z) : M unit :=
  let t := MIH_C_Get_Parameters_Req in
  tid ← field t "Header.Transaction_ID" str 0;
  modify (set_trans_id tid) ;;
  when OUTPUT_LEVEL_1 (print_header str 0) ;;
  when OUTPUT_LEVEL_2 (print_ids t "Link Get Parameters Request" str) ;;
  when OUTPUT_LEVEL_1
    (ty ← field t "Link_Param_Type_List.Type" str 0;
     DEBUG "[mRAL]:    LINK PARAMETER TYPE LIST - Type: %d \n" [ty] ;;
     c ← field t "Link_Param_Type_List.Link_Param_Type[0].Choice" str 0;
     switch c
       [(LINK_PARAM_802_11, DEBUG "		- Link Param Choice: 802.11 (%hhx) " [c]);
        (LINK_PARAM_GEN, DEBUG "		- Generic Link Parameter (%hhx) " [c])]
       (DEBUG "		- Add the specific Parameter Type" []) ;;
     v ← field t "Link_Param_Type_List.Link_Param_Type[0].Link_Param_Type_Value" str 0;
     switch v [(LINK_PARAM_GEN, DEBUG "	- DATA RATE " [])]
       (DEBUG "	- Add the specific Parameter Type Value" []) ;;
     DEBUG "\n" [] ;;
     sty ← field t "Link_States_Req.Type" str 0;
     DEBUG "[mRAL]:    LINK STATES REQUEST - Type: %d\n" [sty] ;;
     DEBUG "[mRAL]:		- Link State to be requested: " [] ;;
     sv ← field t "Link_States_Req.Link_States_Req_Value" str 0;
     switch (Z.shiftr sv 8)
       [(OP_MODE, DEBUG "Operational Mode (OP_MODE)\n" []);
        (CHANNEL_ID, DEBUG "Channel ID \n" [])]
       (DEBUG "Reserved \n" []) ;;
     dty ← field t "Link_Desc_Req.Type" str 0;
     DEBUG "[mRAL]:    LINK DESCRIPTORS REQUEST - Type: %d \n" [dty] ;;
     DEBUG "[mRAL]:		- Link Descriptors Request : " [] ;;
     dv ← field t "Link_Desc_Req.Link_Desc_Req_Value" str 0;
     switch (Z.shiftr dv 8)
       [(CLASSES_SERVICE, DEBUG " Number of Classes of Service Supported \n" []);
        (QUEUES_SUPPORTED, DEBUG " Number of Queues Supported \n" [])]
       (DEBUG "Reserved " []) ;;
     DEBUG "\n" []) ;;
  when OUTPUT_LEVEL_3
    (print_content "[mRAL]: Link Get Parameters Request - Message content: \n" str (sizeofZ t)) ;;
  DEBUG "[mRAL]: Link Get Parameters Request - End \n\n" [] ;;
  mRALte_send_link_get_parameters_confirm ;;
  sleep 1.

Definition mRALte_decode_link_capability_discover_request (str : list Z) : M unit :=
  let t := MIH_C_Capability_Discover_Req in
  tid ← field t "Header.Transaction_ID" str 0;
  modify (set_trans_id tid) ;;
  DEBUG "[mRAL]: Capability_Discover_Request - RECEIVED - Begin \n\n" [] ;;
  when OUTPUT_LEVEL_1 (print_header str 0) ;;
  when OUTPUT_LEVEL_2 (print_ids t "Capability_Discover_Request" str) ;;
  when OUTPUT_LEVEL_3
    (len ← field t "Header.Payload_Length" str 0;
     print_content "[mRAL]: Capability_Discover_Request - Message content: \n" str (len / CONVERSION)) ;;
  DEBUG "[mRAL]: Capability_Discover_Request - End \n\n" [] ;;
  mRALte_send_capability_discover_confirm ;;
  skip.

Definition mRALte_decode_link_configure_threshold_request (str : list Z) : M unit :=
  let t := MIH_C_Link_Configure_Thresholds_Req in
  tid ← field t "Header.Transaction_ID" str 0;
  modify (set_trans_id tid) ;;
  DEBUG "[mRAL]: Link Configure Thresholds Req - RECEIVED: \n\n" [] ;;
  when OUTPUT_LEVEL_1 (print_header str 0) ;;
  when OUTPUT_LEVEL_2 (print_ids t "Link Configure Thresholds Req" str) ;;
  when OUTPUT_LEVEL_1
    (ty ← field t "Link_Cfg_Param_List.Type" str 0;
     DEBUG "[mRAL]:    LINK CFG PARAMETERS LIST - TLV: %d \n" [ty] ;;
     n ← field t "Link_Cfg_Param_List.List_Length" str 0;
     l ← addr t "Link_Cfg_Param_List.Link_Cfg_Param" 0;
     for_loop n (fun i =>
       DEBUG "[mRAL]: 	LINK CFG PARAM - %d \n" [Z.of_nat i + 1] ;;
       print_link_cfg_param str (l + i * sizeof MIH_C_Link_Cfg_Param)%nat)) ;;
  DEBUG "\n" [] ;;
  when OUTPUT_LEVEL_3
    (print_content "[mRAL]: Link Configure Thresholds Req - Message content: \n" str (sizeofZ t)) ;;
  DEBUG "[mRAL]: Link Configure Thresholds Req - End \n\n" [] ;;
  mRALte_send_link_configure_thresholds_confirm ;;
  skip.

Definition mRALte_decode_event_subscribe_request (str : list Z) : M unit :=
  let t := MIH_C_Event_Subscribe_Req in
  tid ← field t "Header.Transaction_ID" str 0;
  modify (set_trans_id tid) ;;
  when OUTPUT_LEVEL_1 (print_header str 0) ;;
  when OUTPUT_LEVEL_2 (print_ids t "Event Subscribe Request" str) ;;
  when OUTPUT_LEVEL_1
    (ty ← field t "Link_Evt_List.Type" str 0;
     DEBUG "[mRAL]:		MIH_EVT_LIST - Type %d \n" [ty] ;;
     p ← addr t "Link_Evt_List" 0;
     print_link_evt_list str p) ;;
  when OUTPUT_LEVEL_3
    (print_content "[mRAL]: Event Subscribe Request - Message content: \n" str (sizeofZ t)) ;;
  DEBUG "[mRAL]: Event Subscribe Request - End \n\n" [] ;;
  evt ← field t "Link_Evt_List.Evt_List_Data.Evt_List_Oct[3]" str 0;
  modify (set_rcv_evt_list evt) ;;
  mRALte_send_event_subscribe_confirm ;;
  skip.

Definition mRALte_decode_link_action_request (str : list Z) : M unit :=
  let t := MIH_C_Link_Action_Request in
  tid ← field t "Header.Transaction_ID" str 0;
  modify (set_trans_id tid) ;;
  when OUTPUT_LEVEL_1 (print_header str 0) ;;
  when OUTPUT_LEVEL_2 (print_ids t "Link Action Request" str) ;;
  ac ← field t "Link_Action.Link_Action_Value.Link_Ac_Type" str 0;
  attr ← field t "Link_Action.Link_Action_Value.Link_Ac_Attr" str 0;
  when OUTPUT_LEVEL_1
    (DEBUG "[mRAL]:    LINK ACTION TYPE: " [] ;;
     switch ac
       [(LINK_AC_TYPE_NONE, DEBUG " None (0)\n" []);
        (LINK_AC_TYPE_LINK_DISCONNECT, DEBUG " Link_Disconnect (1) \n" []);
        (LINK_AC_TYPE_POWER_DOWN, modify (set_lpd LINK_AC_TYPE_POWER_DOWN) ;; DEBUG " Link_Power_Down (3)\n" []);
        (LINK_AC_TYPE_POWER_UP, modify (set_lpd LINK_AC_TYPE_POWER_UP) ;; DEBUG " Link_Power_Up (4)\n" [])]
       (DEBUG " Not recognized! \n" []) ;;
     DEBUG "[mRAL]:    LINK ACTION ATTRIBUTE: " [] ;;
     switch attr
       [(LINK_SCAN, modify (set_link_scan LINK_SCAN) ;; DEBUG " Link Scan (1)\n\n" [])]
       (modify (set_link_scan 0) ;; DEBUG " None \n\n" [])) ;;
  when OUTPUT_LEVEL_3
    (print_content "[mRAL]: Link Action Request - Message content: \n" str (sizeofZ t + 30)) ;;
  DEBUG "[mRAL]: Link Action Request - End \n\n" [] ;;
  switch attr
    [(LINK_SCAN, mRALte_send_link_action_confirm_lsr)]
    mRALte_send_link_action_confirm ;;
  skip.

Definition mRALte_decode_event_unsubscribe_request (str : list Z) : M unit :=
  let t := MIH_C_Event_Unsubscribe_Req in
  tid ← field t "Header.Transaction_ID" str 0;
  modify (set_trans_id tid) ;;
  when OUTPUT_LEVEL_1 (print_header str 0) ;;
  when OUTPUT_LEVEL_2 (print_ids t "Link Event Unsubscribe Request" str) ;;
  when OUTPUT_LEVEL_1
    (ty ← field t "Requested_MIH_Evt_List.Type" str 0;
     DEBUG "[mRAL]:   EVT_LIST - Type: %d \n" [ty] ;;
     p ← addr t "Requested_MIH_Evt_List" 0;
     print_link_evt_list str p) ;;
  when OUTPUT_LEVEL_3
    (print_content "[mRAL]: Link Event Unsubscribe Request - Message content: \n" str (sizeofZ t)) ;;
  DEBUG "[mRAL]: Link Event Unsubscribe Request - End \n\n" [] ;;
  evt ← field t "Requested_MIH_Evt_List.Evt_List_Data.Evt_List_Oct[3]" str 0;
  modify (set_rcv_evt_list evt) ;;
  mRALte_send_event_unsubscribe_confirm ;;
  skip.

(** [recvfrom] copies at most [n] bytes of the datagram to the front of a zeroed
    buffer and stores the peer's address; on error it leaves everything. *)
Definition recvfrom (r : recv_result) (n : nat) : M (list Z) :=
  let str := bzero (Z.to_nat MIHLink_MAX_LENGTH) in
  match r with
  | RecvError => mret str
  | RecvOk bytes from from_len =>
      modify (set_udp_socket from) ;;
      modify (set_sockaddr_len from_len) ;;
      lift (splice 0 (take n bytes) str)
  end.

Definition process_mih_command (r : recv_result) : M Z :=
  modify (set_mihf_socket {| sin_family := AF_INET; sin_port := PORT_ODTONE; sin_addr := SOCKET_ADDRESS |}) ;;
  str ← recvfrom r (sizeof MIH_C_ODTONE_Message);
  mid ← field MIH_C_ODTONE_Message "Header.Message_ID" str 0;
  switch mid
    [(MIH_LINK_HEADER_3_Cap_Disc_Req, mRALte_decode_link_capability_discover_request str);
     (MIH_LINK_HEADER_3_Evt_Sub_Req,
        DEBUG "[mRAL]: Event Subscribe Request - RECEIVED - Begin \n\n" [] ;;
        mRALte_decode_event_subscribe_request str);
     (MIH_LINK_HEADER_3_Evt_Unsub_Req,
        DEBUG "[mRAL]: Event Unsubscribe Request - RECEIVED - Begin \n\n" [] ;;
        mRALte_decode_event_unsubscribe_request str);
     (MIH_LINK_HEADER_3_Link_Conf_Thres_Req, mRALte_decode_link_configure_threshold_request str);
     (MIH_LINK_HEADER_3_Get_Param_Req,
        DEBUG "[mRAL]: Link Get Parameters Request - RECEIVED - Begin \n\n" [] ;;
        mRALte_decode_link_get_parameters_request str ;;
        sleep 2 ;;
        detec ← get link_detec;
        if detec =? 1 then mRALte_send_link_detected_indication ;; skip else skip);
     (MIH_LINK_HEADER_3_Link_Act_Req,
        DEBUG "[mRAL]: Link Action Request - RECEIVED - Begin \n\n" [] ;;
        mRALte_decode_link_action_request str ;;
        req ← get la_req;
        (if req =? 1 then
           sleep 3 ;; mRALte_send_link_up_indication ;;
           sleep 1 ;; mRALte_send_link_parameters_report_indication ;;
           sleep 1 ;; mRALte_send_link_going_down_indication ;;
           sleep 1
         else skip) ;;
        req ← get la_req;
        (if req =? 2 then
           sleep 3 ;; mRALte_send_link_down_indication ;; sleep 1
         else skip) ;;
        modify (set_la_req 2))]
    (DEBUG "Message not recognized \n" []) ;;
  mret 0.

(** ** main *)

(** [sock] is what [socket] returns, a descriptor or -1; it is returned unchecked. *)
Definition mRALu_MTmihf_connect (sock : Z) : M Z :=
  DEBUG "\nTrying to connect to  UDP ...\n" [] ;;
  modify (set_udp_socket {| sin_family := AF_INET; sin_port := PORT_ODTONE; sin_addr := SOCKET_ADDRESS |}) ;;
  modify (set_sockaddr_len sizeof_sockaddr_in) ;;
  mret sock.

(** [FD_SET] of a number that is not a descriptor below [FD_SETSIZE] writes outside the set. *)
Definition FD_SETSIZE : Z := 1024.
Definition fd_ok (fd : Z) : bool := (0 <=? fd) && (fd <? FD_SETSIZE).
Definition FD_SET (fd : Z) : M unit := lift (if fd_ok fd then Some tt else None).

(** The [do ... while (!done)] loop: one element of [polls] per round.  The result
    tells whether the loop was left ([Some done]) or is still waiting for input. *)
Fixpoint main_loop (sd_graal : Z) (polls : list poll) : M (option Z) :=
  FD_SET sd_graal ;;
  match polls with
  | [] => mret None
  | p :: polls =>
      done ← match p with
             | SelectError => perror "select" ;; mret 1
             | SelectTimeout => mret 0
             | SelectReadable r => process_mih_command r
             end;
      if done =? 0 then main_loop sd_graal polls else mret (Some done)
  end.

(** The command line: no argument, "-h", or an argument with its value under
    [strtoul]. *)
Inductive argv1 :=
| NoArg
| Help
| Location (v : Z).

Definition log_location_of (v : Z) : Z :=
  let v := if v =? LOG_TO_SYSTEM then LOG_TO_FILE else v in
  if negb (v =? LOG_TO_CONSOLE) && negb (v =? LOG_TO_FILE) then LOG_TO_DEFAULT else v.

(** [main] up to its loop; [inl code] when the process exits before, and [inr sd_graal] otherwise.  (If there is no socket,
    the [sendto] of the register indication fails, as any [sendto] may.) *)
Definition startup (arg : argv1) (fopen_ok : bool) (sock : Z) : M (Z + Z) :=
  match arg with
  | Help => mRALu_log_usage ;; mret (inl 0)
  | _ =>
      put_log Console (c_str "\n") ;;
      r ← mRALu_log_init (match arg with Location v => log_location_of v | _ => LOG_TO_DEFAULT end) fopen_ok;
      match r with
      | inl code => mret (inl code)
      | inr _ =>
          DEBUG "mRALte: Initializing UDP socket\n" [] ;;
          sd_graal ← mRALu_MTmihf_connect sock;
          DEBUG "mRALte: UDP socket initialized.\n\n" [] ;;
          mRALte_send_link_register_indication ;;
          mret (inr sd_graal)
      end
  end.

(** The exit status, or [None] while the loop is waiting for input. *)
Definition main (arg : argv1) (fopen_ok : bool) (sock : Z) (polls : list poll) : M (option Z) :=
  started ← startup arg fopen_ok sock;
  match started with
  | inl code => mret (Some code)
  | inr sd_graal =>
      left ← main_loop sd_graal polls;
      match left with
      | None => mret None
      | Some _ => mRALu_log_exit ;; mret (Some 0)
      end
  end.

End Recv.
