(* ===== verification/MihSpec.v ===== *)
(** * The MIH message format

    What the adapter promises about the datagrams it sends, independently of how
    the code lays them out: an 802.21 message is a header with service, operation
    and action identifiers, a transaction id, a payload length, and a payload that
    is a sequence of type-length-value elements.  [encode] writes a message,
    [decode] reads one, and reading what was written gives the message back. *)

From S2P Require Import Prelude.

Record mih_msg := {
  m_sid : Z;
  m_opcode : Z;
  m_aid : Z;
  m_tid : Z;
  m_tlvs : list (Z * list Z)
}.

#[export] Instance mih_msg_eq_dec : EqDecision mih_msg.
Proof. solve_decision. Defined.

(** ** Writing *)

Definition encode_tlv (tlv : Z * list Z) : list Z :=
  fst tlv :: Z.of_nat (length (snd tlv)) :: snd tlv.

Definition encode_tlvs (l : list (Z * list Z)) : list Z := concat (map encode_tlv l).

Definition be16 (v : Z) : list Z := [v / 256; v mod 256].

Definition mid_of (sid opcode aid : Z) : Z := sid * 4096 + opcode * 1024 + aid.

Definition encode (m : mih_msg) : list Z :=
  let payload := encode_tlvs (m_tlvs m) in
  [16; 0] ++ be16 (mid_of (m_sid m) (m_opcode m) (m_aid m)) ++ be16 (m_tid m) ++
  be16 (Z.of_nat (length payload)) ++ payload.

(** ** Reading *)

(** Each element takes at least two bytes, so the number of bytes is enough fuel. *)
Fixpoint parse_tlvs (fuel : nat) (l : list Z) : option (list (Z * list Z)) :=
  match l with
  | [] => Some []
  | t :: n :: l =>
      match fuel with
      | O => None
      | S fuel =>
          if (0 <=? n) && (n <=? Z.of_nat (length l))
          then rest ← parse_tlvs fuel (drop (Z.to_nat n) l); Some ((t, take (Z.to_nat n) l) :: rest)
          else None
      end
  | [_] => None
  end.

Definition decode (l : list Z) : option mih_msg :=
  match l with
  | v :: _ :: i1 :: i0 :: t1 :: t0 :: n1 :: n0 :: payload =>
      if (v =? 16) && (n1 * 256 + n0 =? Z.of_nat (length payload)) then
        let mid := i1 * 256 + i0 in
        tlvs ← parse_tlvs (length payload) payload;
        Some {| m_sid := mid / 4096; m_opcode := (mid / 1024) mod 4; m_aid := mid mod 1024;
                m_tid := t1 * 256 + t0; m_tlvs := tlvs |}
      else None
  | _ => None
  end.

(** ** Messages that can be written *)

(** A TLV whose length fits the one-byte form, which ends at 127. *)
Definition tlv_wf (tlv : Z * list Z) : Prop := byte_ok (fst tlv) /\ (length (snd tlv) < 128)%nat.

Definition msg_wf (m : mih_msg) : Prop :=
  0 <= m_sid m < 16 /\ 0 <= m_opcode m < 4 /\ 0 <= m_aid m < 1024 /\ 0 <= m_tid m < 65536 /\
  Forall tlv_wf (m_tlvs m) /\ Z.of_nat (length (encode_tlvs (m_tlvs m))) < 65536.

(** ** Reading back *)

Lemma parse_encode_tlvs l fuel :
  (length (encode_tlvs l) <= fuel)%nat -> parse_tlvs fuel (encode_tlvs l) = Some l.
Proof.
  revert fuel. induction l as [|[t v] l IH]; intros fuel Hf; [by destruct fuel|].
  unfold encode_tlvs in *. cbn [map concat encode_tlv app fst snd length] in *.
  rewrite length_app in Hf. destruct fuel as [|fuel]; [lia|]. cbn [parse_tlvs].
  rewrite (proj2 (Z.leb_le 0 _)) by lia. rewrite length_app.
  rewrite (proj2 (Z.leb_le _ _)) by lia. cbn [andb].
  rewrite Nat2Z.id, drop_app_length, take_app_length, IH by lia. reflexivity.
Qed.

Lemma be16_val v : be16 v = [v / 256; v mod 256].
Proof. reflexivity. Qed.

Lemma be16_back v : v / 256 * 256 + v mod 256 = v.
Proof. pose proof (Z.div_mod v 256). lia. Qed.

Lemma mid_split sid opcode aid :
  0 <= opcode < 4 -> 0 <= aid < 1024 ->
  mid_of sid opcode aid / 4096 = sid /\ (mid_of sid opcode aid / 1024) mod 4 = opcode /\
  mid_of sid opcode aid mod 1024 = aid.
Proof.
  intros. unfold mid_of. replace (sid * 4096 + opcode * 1024 + aid)
    with (aid + (sid * 4 + opcode) * 1024) by lia.
  rewrite Z.div_add, Z.mod_add, (Z.div_small aid), (Z.mod_small aid) by lia.
  replace (0 + (sid * 4 + opcode)) with (opcode + sid * 4) by lia.
  rewrite Z.mod_add, (Z.mod_small opcode) by lia.
  replace (aid + (sid * 4 + opcode) * 1024) with ((opcode * 1024 + aid) + sid * 4096) by lia.
  rewrite Z.div_add, (Z.div_small (_ + _)) by lia. lia.
Qed.

Lemma decode_encode_wf m :
  0 <= m_opcode m < 4 -> 0 <= m_aid m < 1024 -> decode (encode m) = Some m.
Proof.
  intros Ho Ha. unfold encode. rewrite !be16_val. cbn [app decode].
  rewrite !be16_back, !Z.eqb_refl. cbn [andb].
  rewrite parse_encode_tlvs by lia. cbn.
  destruct (mid_split (m_sid m) (m_opcode m) (m_aid m) Ho Ha) as (-> & -> & ->).
  destruct m; reflexivity.
Qed.

(** Every byte of a written message is a byte. *)
Lemma encode_tlvs_bytes l :
  Forall (fun tlv => tlv_wf tlv /\ bytes_ok (snd tlv)) l -> bytes_ok (encode_tlvs l).
Proof.
  unfold encode_tlvs. induction 1 as [|[t v] l [[Ht Hl] Hv] _ IH]; simpl; [constructor|].
  constructor; [exact Ht|]. constructor; [unfold byte_ok; simpl in *; lia|].
  apply Forall_app. split; assumption.
Qed.

Lemma be16_bytes v : 0 <= v < 65536 -> bytes_ok (be16 v).
Proof.
  intros. constructor; [|constructor; [apply mod256_ok|constructor]].
  split; [apply Z.div_pos | apply Z.div_lt_upper_bound]; lia.
Qed.

Lemma encode_bytes m :
  msg_wf m -> Forall (fun tlv => bytes_ok (snd tlv)) (m_tlvs m) -> bytes_ok (encode m).
Proof.
  intros (H1 & H2 & H3 & H4 & H5 & H6) Hv. unfold encode, bytes_ok.
  rewrite !Forall_app. repeat split.
  - repeat constructor; unfold byte_ok; lia.
  - apply be16_bytes. unfold mid_of. lia.
  - apply be16_bytes. lia.
  - apply be16_bytes. lia.
  - apply encode_tlvs_bytes, Forall_and. split; assumption.
Qed.
