(* ===== verification/RalMessages.v ===== *)
(** * The datagrams of the MIH link adapter

    Every message the adapter builds, as the 802.21 message it stands for: the
    bytes the code writes through its packed structs are exactly the encoding of
    that message, whatever the transaction id and the event list, except for the
    link scan response, whose length octet is one too large. *)

From S2P Require Import Prelude CMem CFormat RalPrimitives RalState RalPrint RalSend RalConfirm MihSpec.

Local Open Scope string_scope.
Local Open Scope Z_scope.

(** ** The primitives *)

Inductive primitive :=
| LinkRegisterInd | LinkUpInd | LinkDownInd | LinkDetectedInd | LinkGoingDownInd
| LinkParametersReportInd
| CapabilityDiscoverConf | EventSubscribeConf | EventUnsubscribeConf
| GetParametersConf | ConfigureThresholdsConf | LinkActionConf | LinkActionConfLsr.

#[export] Instance primitive_eq_dec : EqDecision primitive.
Proof. solve_decision. Defined.

(** The buffer the code builds, from the globals [trans_id] and [rcv_evt_list]. *)
Definition buffer_of (p : primitive) (tid evt : Z) : option (list Z) :=
  match p with
  | LinkRegisterInd => link_register_indication
  | LinkUpInd => link_up_indication
  | LinkDownInd => link_down_indication
  | LinkDetectedInd => link_detected_indication
  | LinkGoingDownInd => link_going_down_indication
  | LinkParametersReportInd => link_parameters_report_indication tid
  | CapabilityDiscoverConf => capability_discover_confirm tid
  | EventSubscribeConf => event_subscribe_confirm tid evt
  | EventUnsubscribeConf => event_unsubscribe_confirm tid evt
  | GetParametersConf => link_get_parameters_confirm tid
  | ConfigureThresholdsConf => link_configure_thresholds_confirm tid
  | LinkActionConf => link_action_confirm tid
  | LinkActionConfLsr => link_action_confirm_lsr tid
  end.

Definition struct_of (p : primitive) : ctype :=
  match p with
  | LinkRegisterInd => MIH_C_Link_Register_Indication
  | LinkUpInd => MIH_C_Link_Up_Indication
  | LinkDownInd => MIH_C_Link_Down_Indication
  | LinkDetectedInd => MIH_C_Link_Detected_Indication
  | LinkGoingDownInd => MIH_C_Link_Going_Down_Indication
  | LinkParametersReportInd => MIH_C_Link_Parameters_Report_Indication
  | CapabilityDiscoverConf => MIH_C_Capability_Discover_Conf
  | EventSubscribeConf => MIH_C_Event_Subscribe_Conf
  | EventUnsubscribeConf => MIH_C_Event_Unsubscribe_Conf
  | GetParametersConf => MIH_C_Get_Parameters_Confirm
  | ConfigureThresholdsConf => MIH_C_Link_Configure_Thresholds_Confirm
  | LinkActionConf => MIH_C_Link_Action_Confirm
  | LinkActionConfLsr => MIH_C_Link_Action_Confirm_Lsr
  end.

(** ** The messages they stand for *)

(** The globals hold a big-endian field as the little-endian machine loads it. *)
Definition swap16 (v : Z) : Z := v mod 256 * 256 + v / 256.

Definition id_tlv (ty : Z) (name : string) : Z * list Z :=
  (ty, Z.of_nat (String.length name) :: bytes_of_string name).

(** LINK_ID of a 3GPP link: type, address choice, and an octet string. *)
Definition link_id : list Z := [LINK_TYPE_3GPP; CHOICE_ADDRESS_3GPP; 8; 3; 53; 6; 0; 128; 20; 145; 80].

Definition tuple_tlv : Z * list Z := (TLV_LINK_TUPLE_ID, link_id ++ [0])%list.
Definition status_tlv : Z * list Z := (TLV_STATUS, [STATUS_SUCCESS]).

Definition message (sid opcode aid tid : Z) (tlvs : list (Z * list Z)) : mih_msg :=
  {| m_sid := sid; m_opcode := opcode; m_aid := aid; m_tid := tid;
     m_tlvs := id_tlv TLV_MIHF_ID_SOURCE MIH_SOURCE_ID :: id_tlv TLV_MIHF_ID_DESTINATION MIH_DESTINATION_ID :: tlvs |}.

(** [tid] is the transaction id in host order.  Multi-octet values inside the
    TLVs are in the byte order of the machine. *)
Definition message_of (p : primitive) (tid evt : Z) : mih_msg :=
  match p with
  | LinkRegisterInd =>
      message SID_SERVICE_MANAGEMENT OP_INDICATION AID_LINK_REGISTER_INDICATION 0
        [(TLV_LINK_REGISTER_TYPE, link_id)]
  | LinkUpInd => message SID_EVENT_SERVICE OP_INDICATION AID_LINK_UP 0 [tuple_tlv]
  | LinkDownInd =>
      message SID_EVENT_SERVICE OP_INDICATION AID_LINK_DOWN 0
        [tuple_tlv; (TLV_LINK_DOWN_REASON_CODE, [LINK_DOWN_RC_AUTHENTICATION_FAILURE])]
  | LinkDetectedInd =>
      message SID_EVENT_SERVICE OP_INDICATION AID_LINK_DETECTED 0
        [(TLV_LINK_DET_INFO,
          link_id ++ [0] ++ (7 :: bytes_of_string MIH_NETWORK_ID) ++ (6 :: bytes_of_string MIH_NETAUX) ++
          le_bytes 2 LINK_DETECTED_INDICATION_SINR ++ le_bytes 4 LINK_DETECTED_INDICATION_LINK_DATA_RATE ++
          [0; LINK_DETECTED_INDICATION_SIG_STRENGTH] ++ [7] ++ le_bytes 4 70)%list]
  | LinkGoingDownInd =>
      message SID_EVENT_SERVICE OP_INDICATION AID_LINK_GOING_DOWN 0
        [tuple_tlv; (TLV_LINK_TIME_INTERVAL, le_bytes 2 LINK_DETECTED_TIME_INTERVAL);
         (TLV_LINK_GOING_DOWN_REASON, [LINK_GOING_DOWN_REASON_LINK_PARAM_DEGRADING])]
  | LinkParametersReportInd =>
      message SID_EVENT_SERVICE OP_INDICATION AID_LINK_PARAMETERS_REPORT tid
        [tuple_tlv;
         (TLV_LINK_PARAM_RPT_LIST, [1; LINK_PARAM_GEN; LINK_PARAM_GEN_VAL; 0] ++
            le_bytes 2 LINK_PARAM_VAL_VALUE ++ [0])%list]
  | CapabilityDiscoverConf =>
      message SID_SERVICE_MANAGEMENT OP_CONFIRM AID_CAPABILITY_DISCOVER tid
        [status_tlv; (TLV_LINK_EVENT_LIST, [0; 0; 0; 31]); (TLV_LINK_CMD_LIST, [0; 0; 0; 62])]
  | EventSubscribeConf =>
      message SID_SERVICE_MANAGEMENT OP_CONFIRM AID_EVENT_SUBSCRIBE tid
        [status_tlv; (TLV_LINK_EVENT_LIST, [0; 0; 0; evt])]
  | EventUnsubscribeConf =>
      message SID_SERVICE_MANAGEMENT OP_CONFIRM AID_EVENT_UNSUBSCRIBE tid
        [status_tlv; (TLV_EVENT_LIST, [0; 0; 0; evt])]
  | GetParametersConf =>
      message SID_COMMAND_SERVICE OP_CONFIRM AID_LINK_GET_PARAMETERS tid
        [status_tlv;
         (TLV_LINK_PARAMETERS_STATUS_LIST,
            [1; LINK_PARAM_GEN; LINK_PARAM_GEN_VAL; 0] ++ le_bytes 2 LINK_PARAM_VAL_VALUE)%list;
         (TLV_LINK_STATES_RSP, [1; CHOICE_OP_MODE; OP_MODE_NORMAL_MODE]);
         (TLV_LINK_DESCRIPTOR_RSP, [1; CHOICE_NUM_COS; NUM_COS_VALUE])]
  | ConfigureThresholdsConf =>
      message SID_COMMAND_SERVICE OP_CONFIRM AID_LINK_CONFIGURE_THRESHOLDS tid
        [status_tlv;
         (TLV_LINK_CFG_STATUS_LIST,
            [1; LINK_PARAM_GEN; LINK_PARAM_GEN_VAL] ++
            le_bytes 2 LINK_CONF_THRES_CONF_LINK_CFG_STATUS_THRESHOLD_VAL ++
            [LINK_CONF_THRES_CONF_LINK_CFG_STATUS_THRESHOLD_X_DIR; CONFIG_STATUS_SUCCESS])%list]
  | LinkActionConf =>
      message SID_COMMAND_SERVICE OP_CONFIRM AID_LINK_ACTIONS tid
        [status_tlv; (TLV_LINK_AC_RESULT, [STATUS_SUCCESS])]
  | LinkActionConfLsr =>
      message SID_COMMAND_SERVICE OP_CONFIRM AID_LINK_ACTIONS tid
        [status_tlv;
         (TLV_LINK_SCAN_RSP_LIST,
            [1; LINK_ADDR_3GPP_3G_CELL_ID; 0; MCC; MNC] ++ le_bytes 4 CELL_ID ++
            (7 :: bytes_of_string MIH_NETWORK_ID) ++ [0; SIG_STRENGTH_VALUE])%list;
         (TLV_LINK_AC_RESULT, [STATUS_SUCCESS])]
  end.

(** The bytes handed to [sendto]. *)
Definition datagram (p : primitive) (tid evt : Z) : option (list Z) :=
  str ← buffer_of p tid evt; slice 0 (sizeof (struct_of p)) str.

(** What the adapter says in a link scan response: the length octet of the scan
    list is one larger than the list, and swallows the type octet of the link
    action result. *)
Definition lsr_message_read (tid : Z) : mih_msg :=
  message SID_COMMAND_SERVICE OP_CONFIRM AID_LINK_ACTIONS tid
    [status_tlv;
     (TLV_LINK_SCAN_RSP_LIST,
        [1; LINK_ADDR_3GPP_3G_CELL_ID; 0; MCC; MNC] ++ le_bytes 4 CELL_ID ++
        (7 :: bytes_of_string MIH_NETWORK_ID) ++ [0; SIG_STRENGTH_VALUE; TLV_LINK_AC_RESULT])%list;
     (1, [])].

(** ** Lemmas *)

Lemma swap16_be16 t : 0 <= t < 65536 -> be16 (swap16 t) = [t mod 256; (t / 256) mod 256].
Proof.
  intros Ht. unfold be16, swap16.
  assert (0 <= t / 256 < 256) by (split; [apply Z.div_pos | apply Z.div_lt_upper_bound]; lia).
  rewrite (Z.add_comm _ (t / 256)), Z.div_add, Z.mod_add by lia.
  rewrite (Z.div_small (t / 256)), (Z.mod_small (t / 256)) by lia. reflexivity.
Qed.

Lemma swap16_range t : 0 <= t < 65536 -> 0 <= swap16 t < 65536.
Proof.
  intros. unfold swap16. pose proof (Z.mod_pos_bound t 256 ltac:(lia)).
  assert (0 <= t / 256 < 256) by (split; [apply Z.div_pos | apply Z.div_lt_upper_bound]; lia). lia.
Qed.

Lemma swap16_swap16 t : 0 <= t < 65536 -> swap16 (swap16 t) = t.
Proof.
  intros Ht. pose proof (swap16_be16 t Ht) as E. unfold be16 in E. injection E as E1 E2.
  unfold swap16 at 1. rewrite E1, E2.
  rewrite Z.mod_small by (split; [apply Z.div_pos | apply Z.div_lt_upper_bound]; lia).
  pose proof (Z.div_mod t 256). lia.
Qed.

(** An encoding with the bytes of the transaction id left as the code writes them. *)
Definition encode_raw (m : mih_msg) (tid_bytes : list Z) : list Z :=
  let payload := encode_tlvs (m_tlvs m) in
  [16; 0] ++ be16 (mid_of (m_sid m) (m_opcode m) (m_aid m)) ++ tid_bytes ++
  be16 (Z.of_nat (length payload)) ++ payload.

Lemma encode_raw_encode m b : be16 (m_tid m) = b -> encode_raw m b = encode m.
Proof. intros <-. reflexivity. Qed.

(** Messages whose header carries the global [trans_id]. *)
Definition echoes_tid (p : primitive) : bool :=
  match p with
  | LinkRegisterInd | LinkUpInd | LinkDownInd | LinkDetectedInd | LinkGoingDownInd => false
  | _ => true
  end.

Lemma datagram_raw p t evt :
  p <> LinkActionConfLsr ->
  datagram p t evt =
  Some (encode_raw (message_of p 0 (evt mod 256))
          (if echoes_tid p then [t mod 256; (t / 256) mod 256] else [0; 0])).
Proof. intros Hp. destruct p; try congruence; vm_compute; reflexivity. Qed.

Lemma encode_message_tid p t evt :
  0 <= t < 65536 ->
  encode (message_of p (swap16 t) evt) =
  encode_raw (message_of p 0 evt) (if echoes_tid p then [t mod 256; (t / 256) mod 256] else [0; 0]).
Proof.
  intros Ht. rewrite <- (swap16_be16 t Ht). destruct p; reflexivity.
Qed.

Lemma datagram_encode p t evt :
  p <> LinkActionConfLsr -> 0 <= t < 65536 -> byte_ok evt ->
  datagram p t evt = Some (encode (message_of p (swap16 t) evt)).
Proof.
  intros Hp Ht He. rewrite datagram_raw, encode_message_tid by assumption.
  rewrite (Z.mod_small evt) by exact He. reflexivity.
Qed.

Lemma datagram_lsr_raw t evt :
  datagram LinkActionConfLsr t evt =
  Some (encode_raw (lsr_message_read 0) [t mod 256; (t / 256) mod 256]).
Proof. vm_compute. reflexivity. Qed.

Lemma datagram_lsr t evt :
  0 <= t < 65536 -> datagram LinkActionConfLsr t evt = Some (encode (lsr_message_read (swap16 t))).
Proof.
  intros Ht. rewrite datagram_lsr_raw, <- (swap16_be16 t Ht). reflexivity.
Qed.

Lemma message_of_ranges p t evt :
  0 <= m_opcode (message_of p t evt) < 4 /\ 0 <= m_aid (message_of p t evt) < 1024.
Proof. destruct p; vm_compute; split; split; congruence. Qed.

Lemma datagram_length p t evt bs :
  datagram p t evt = Some bs -> length bs = sizeof (struct_of p).
Proof.
  unfold datagram. destruct (buffer_of p t evt); simpl; [|discriminate]. apply length_slice.
Qed.

Lemma buffer_is_Some p t evt : exists str, buffer_of p t evt = Some str /\ length str = 500%nat.
Proof.
  assert (is_Some (buffer_of p t evt)) as [str Hs] by (destruct p; vm_compute; eexists; reflexivity).
  exists str. split; [exact Hs|]. change 500%nat with (length (bzero (Z.to_nat MIHLink_MAX_LENGTH))).
  destruct p; cbn [buffer_of] in Hs; unfold link_register_indication, link_up_indication, link_down_indication,
    link_detected_indication, link_going_down_indication, link_parameters_report_indication,
    capability_discover_confirm, event_subscribe_confirm, event_unsubscribe_confirm,
    link_get_parameters_confirm, link_configure_thresholds_confirm, link_action_confirm,
    link_action_confirm_lsr, build in Hs; exact (exec_length _ _ _ _ Hs).
Qed.

Lemma lsr_read_types t : map fst (m_tlvs (lsr_message_read t)) = [1; 2; 3; 111; 1].
Proof. reflexivity. Qed.

Lemma lsr_intended_types t evt :
  map fst (m_tlvs (message_of LinkActionConfLsr t evt)) = [1; 2; 3; 111; TLV_LINK_AC_RESULT].
Proof. reflexivity. Qed.

(** ** Claims *)

(** C1: every message the adapter builds, except the link scan response, is the
    encoding of the 802.21 message it stands for: the service, operation and
    action identifiers are those of the primitive, confirmations and the
    parameters report carry the transaction id of the last request, the payload
    length is the length of the payload, and the payload reads back as exactly
    the intended TLVs, in spite of each [strcpy] writing one byte past its
    member. *)
Theorem messages_well_formed p tid evt :
  p <> LinkActionConfLsr -> 0 <= tid < 65536 -> byte_ok evt ->
  exists bs, datagram p tid evt = Some bs /\
    length bs = sizeof (struct_of p) /\
    bs = encode (message_of p (swap16 tid) evt) /\
    decode bs = Some (message_of p (swap16 tid) evt).
Proof.
  intros Hp Ht He. pose proof (datagram_encode p tid evt Hp Ht He) as E.
  eexists. split; [exact E|]. split; [eapply datagram_length, E|]. split; [reflexivity|].
  apply decode_encode_wf; apply message_of_ranges.
Qed.

Lemma messages_well_formed_witness :
  exists bs, datagram EventSubscribeConf 517 31 = Some bs /\
    length bs = sizeof (struct_of EventSubscribeConf) /\
    bs = encode (message_of EventSubscribeConf (swap16 517) 31) /\
    decode bs = Some (message_of EventSubscribeConf (swap16 517) 31).
Proof. apply messages_well_formed; [discriminate | lia | split; lia]. Defined.

(** The link scan response does not read back as intended.  Its scan list
    announces one octet more than it has (sizeof minus 1 where the other lists
    take sizeof minus 2), so a reader takes the type octet of the link action
    result as the last octet of the list, finds an empty TLV of type 1 (source
    identifier) behind it, and never sees the link action result. *)
Theorem link_scan_response_misread tid evt :
  0 <= tid < 65536 ->
  exists bs, datagram LinkActionConfLsr tid evt = Some bs /\
    decode bs = Some (lsr_message_read (swap16 tid)) /\
    (forall v, ~ In (TLV_LINK_AC_RESULT, v) (m_tlvs (lsr_message_read (swap16 tid)))) /\
    decode bs <> Some (message_of LinkActionConfLsr (swap16 tid) evt).
Proof.
  intros Ht. pose proof (datagram_lsr tid evt Ht) as E. eexists. split; [exact E|].
  assert (decode (encode (lsr_message_read (swap16 tid))) = Some (lsr_message_read (swap16 tid))) as D
    by (apply decode_encode_wf; vm_compute; split; congruence).
  split; [exact D|]. split.
  - intros v Hin. apply (in_map fst) in Hin. rewrite lsr_read_types in Hin. simpl in Hin.
    unfold TLV_LINK_AC_RESULT in Hin. lia.
  - rewrite D. intros F. apply (f_equal (fmap (fun m => map fst (m_tlvs m)))) in F. cbn [fmap option_fmap option_map] in F.
    rewrite lsr_read_types, lsr_intended_types in F. discriminate.
Qed.

Lemma link_scan_response_misread_witness :
  exists bs, datagram LinkActionConfLsr 256 31 = Some bs /\
    decode bs = Some (lsr_message_read (swap16 256)) /\
    (forall v, ~ In (TLV_LINK_AC_RESULT, v) (m_tlvs (lsr_message_read (swap16 256)))) /\
    decode bs <> Some (message_of LinkActionConfLsr (swap16 256) 31).
Proof. apply link_scan_response_misread. lia. Defined.
