(* ===== verification/RalBehaviour.v ===== *)
(** * What each transmission does

    Each mRALte_send_* function hands exactly one datagram to [sendto], addressed
    to the MIHF port of the local host, and apart from that only logs (the link
    detected indication also clears [link_detec]).  A failed [sendto] is noted in
    [wait_start_mihf]. *)

From S2P Require Import Prelude CMem CFormat RalPrimitives RalState RalPrint RalSend RalConfirm RalRecv.
From S2P Require Import MihSpec RalMessages.

Local Open Scope string_scope.
Local Open Scope Z_scope.

(** The address of the MIHF. *)
Definition odtone : sockaddr_in :=
  {| sin_family := AF_INET; sin_port := PORT_ODTONE; sin_addr := SOCKET_ADDRESS |}.

(** Replace the offsets of the members by their values. *)
Ltac fold_addrs :=
  repeat match goal with
  | |- context [addr ?t ?path ?off] =>
      let o := eval vm_compute in (offset_of t path) in
      match o with
      | Some ?n => rewrite (addr_ret t path off n) by (vm_compute; reflexivity)
      end
  end.

(** Output blocks that the build leaves out. *)
Ltac drop_levels :=
  change OUTPUT_LEVEL_1 with true; change OUTPUT_LEVEL_2 with false; change OUTPUT_LEVEL_3 with false;
  cbn [when].

Section Behaviour.
Context `{Os}.

(** The function of the code that sends [p]. *)
Definition send_primitive (p : primitive) : M Z :=
  match p with
  | LinkRegisterInd => mRALte_send_link_register_indication
  | LinkUpInd => mRALte_send_link_up_indication
  | LinkDownInd => mRALte_send_link_down_indication
  | LinkDetectedInd => mRALte_send_link_detected_indication
  | LinkGoingDownInd => mRALte_send_link_going_down_indication
  | LinkParametersReportInd => mRALte_send_link_parameters_report_indication
  | CapabilityDiscoverConf => mRALte_send_capability_discover_confirm
  | EventSubscribeConf => mRALte_send_event_subscribe_confirm
  | EventUnsubscribeConf => mRALte_send_event_unsubscribe_confirm
  | GetParametersConf => mRALte_send_link_get_parameters_confirm
  | ConfigureThresholdsConf => mRALte_send_link_configure_thresholds_confirm
  | LinkActionConf => mRALte_send_link_action_confirm
  | LinkActionConfLsr => mRALte_send_link_action_confirm_lsr
  end.

(** The state after [bytes] were handed to [sendto]. *)
Definition after_sendto (bytes : list Z) (s : ral) : ral :=
  add_event (EvSend odtone (sockaddr_len s) bytes (sendto (trace s) bytes)) (set_udp_socket odtone s).

Definition bytes_of (p : primitive) (s : ral) : list Z :=
  default [] (datagram p (trans_id s) (rcv_evt_list s)).

(** The state after the function that sends [p], up to the log. *)
Definition after_send (p : primitive) (s : ral) : ral :=
  let bytes := bytes_of p s in
  let s' := after_sendto bytes s in
  let failed := sendto (trace s) bytes <? 0 in
  match p with
  | LinkRegisterInd => s'
  | LinkDetectedInd => set_link_detec 0 (if failed then set_wait_start_mihf 1 s' else s')
  | _ => if failed then set_wait_start_mihf 1 s' else s'
  end.

(** The value returned: the register indication reports a failed send. *)
Definition send_result (p : primitive) (s : ral) : Z :=
  match p with
  | LinkRegisterInd => if sendto (trace s) (bytes_of p s) <? 0 then 1 else 0
  | _ => 0
  end.

(** ** Computations that log and return a known value *)

Class LogRet {A} (m : M A) (a : A) : Prop :=
  log_ret : forall s, exists l, m s = Some (a, set_log l s).

#[local] Instance log_ret_ret {A} (a : A) : LogRet (mret a) a.
Proof. intros s. exists (log s). rewrite set_log_id. reflexivity. Qed.

#[local] Instance log_ret_bind {A B} (m : M A) (f : A -> M B) b :
  LogOnly m -> (forall a, LogRet (f a) b) -> LogRet (m ≫= f) b.
Proof.
  intros Hm Hf s. destruct (Hm s) as (a & l & E). destruct (Hf a (set_log l s)) as (l' & E').
  exists l'. unfold mbind, M_bind. rewrite E, E'. reflexivity.
Qed.

#[local] Hint Extern 1 (LogOnly (print_header _ _)) => (apply print_header_log; lia) : typeclass_instances.
#[local] Hint Extern 1 (LogOnly (print_status _ _)) => (apply print_status_log; lia) : typeclass_instances.
#[local] Hint Extern 1 (LogOnly (print_link_evt_list _ _)) => (apply print_link_evt_list_log; lia) : typeclass_instances.
#[local] Hint Extern 1 (LogOnly (print_link_cmd_list _ _)) => (apply print_link_cmd_list_log; lia) : typeclass_instances.
#[local] Hint Extern 1 (LogOnly (print_link_id_3GPP _ _)) => (apply print_link_id_3GPP_log; lia) : typeclass_instances.
#[local] Hint Extern 1 (LogOnly (print_link_tuple_id_3GPP _ _)) =>
  (apply print_link_tuple_id_3GPP_log; lia) : typeclass_instances.

#[local] Hint Extern 1 (LogOnly (print_link_cfg_status _ _)) =>
  (apply print_link_cfg_status_log; lia) : typeclass_instances.

Lemma print_chars_log str off n :
  (off + Z.to_nat n <= length str)%nat -> LogOnly (print_chars str off n).
Proof.
  intros. apply log_only_for_loop. intros j Hj.
  apply log_only_bind; [apply log_only_at; lia | apply _].
Qed.

#[local] Hint Extern 1 (LogOnly (print_chars _ _ ?n)) =>
  (apply print_chars_log; let v := eval vm_compute in (Z.to_nat n) in change (Z.to_nat n) with v; lia)
  : typeclass_instances.

(** ** Sending *)

Lemma bind_run {A B} (m : M A) (f : A -> M B) s a s' :
  m s = Some (a, s') -> (m ≫= f) s = f a s'.
Proof. unfold mbind, M_bind. intros ->. reflexivity. Qed.

Lemma lift_bind {A B} (o : option A) (f : A -> M B) a :
  o = Some a -> (lift o ≫= f) = f a.
Proof. intros ->. reflexivity. Qed.

Lemma get_bind {A B} (g : ral -> A) (f : A -> M B) s : (get g ≫= f) s = f (g s) s.
Proof. reflexivity. Qed.

Lemma send_to_mih_run str n bytes s :
  slice 0 n str = Some bytes ->
  send_to_mih str n s = Some (sendto (trace s) bytes, after_sendto bytes s).
Proof. unfold send_to_mih. intros ->. reflexivity. Qed.

Lemma send_or_wait_run str n msg bytes s :
  slice 0 n str = Some bytes ->
  exists l, send_or_wait str n msg s =
    Some (tt, set_log l (if sendto (trace s) bytes <? 0
                         then set_wait_start_mihf 1 (after_sendto bytes s) else after_sendto bytes s)).
Proof.
  intros Hs. unfold send_or_wait. erewrite bind_run by (apply send_to_mih_run, Hs).
  destruct (_ <? 0).
  - exists (log s ++ [(Stderr, msg)])%list. reflexivity.
  - exists (log s). reflexivity.
Qed.

(** A send followed by output. *)
Lemma send_then_log str n msg bytes (k : unit -> M Z) s r :
  slice 0 n str = Some bytes -> LogRet (k tt) r ->
  exists l, (send_or_wait str n msg ≫= k) s =
    Some (r, set_log l (if sendto (trace s) bytes <? 0
                        then set_wait_start_mihf 1 (after_sendto bytes s) else after_sendto bytes s)).
Proof.
  intros Hs Hk. destruct (send_or_wait_run str n msg bytes s Hs) as (l & E).
  erewrite bind_run by exact E.
  match goal with |- context [k tt ?st] => destruct (Hk st) as (l' & E') end.
  exists l'. rewrite E'. destruct (_ <? 0); reflexivity.
Qed.

Lemma datagram_slice p t evt str :
  buffer_of p t evt = Some str -> slice 0 (sizeof (struct_of p)) str = Some (default [] (datagram p t evt)).
Proof.
  intros Hs. unfold datagram. rewrite Hs. cbn [mbind option_bind].
  destruct (buffer_is_Some p t evt) as (str' & Hs' & Hlen). simplify_eq.
  destruct (slice_is_Some 0 (sizeof (struct_of p)) str) as [bs ->]; [|reflexivity].
  rewrite Hlen. destruct p; vm_compute; lia.
Qed.

(** One list of configuration status is announced and printed. *)
Lemma thresholds_list_length t str :
  link_configure_thresholds_confirm t = Some str -> str !! 28%nat = Some 1.
Proof.
  intros Hs. change (str !! 28%nat) with ((b ← Some str; b !! 28%nat) : option Z). rewrite <- Hs.
  vm_compute. reflexivity.
Qed.

Ltac log_ret_steps :=
  drop_levels; fold_addrs;
  repeat first [rewrite ret_bind | apply log_ret_bind; [solve [apply _ | log_steps; apply _] | intros ?]];
  try apply log_ret_ret.

(** Run a computation in a given state, past the parts that only log. *)
Ltac run_step :=
  match goal with
  | |- exists _, (mret _ ≫= _) _ = _ => rewrite ret_bind
  | |- exists _, (get _ ≫= _) _ = _ => rewrite get_bind
  | |- exists _, (modify ?g ≫= ?f) ?s = _ => change ((modify g ≫= f) s) with (f tt (g s)); cbv beta
  | |- exists _, (?m ≫= ?f) ?s = _ =>
      let L := fresh in
      assert (LogOnly m) as L by solve [apply _ | log_steps; apply _];
      destruct (run_log_only m f s L) as (? & ? & ->); clear L
  end.

Lemma configure_thresholds_list_length t str :
  link_configure_thresholds_confirm t = Some str ->
  field MIH_C_Link_Configure_Thresholds_Confirm "Link_Cfg_Status_List.List_Length" str 0 = mret 1.
Proof.
  intros Hs. apply (field_u8 _ _ _ _ 28); [vm_compute; reflexivity|].
  apply (thresholds_list_length _ _ Hs).
Qed.

Lemma send_register_run s :
  exists l, send_primitive LinkRegisterInd s =
    Some (send_result LinkRegisterInd s, set_log l (after_send LinkRegisterInd s)).
Proof.
  destruct (buffer_is_Some LinkRegisterInd (trans_id s) (rcv_evt_list s)) as (str & Hs & Hlen).
  pose proof (datagram_slice _ _ _ _ Hs) as Hsl. cbn [send_primitive buffer_of struct_of] in *.
  unfold mRALte_send_link_register_indication. erewrite lift_bind by exact Hs.
  erewrite bind_run by (apply send_to_mih_run, Hsl).
  cbn [send_result after_send]. unfold bytes_of.
  destruct (_ <? 0).
  - assert (forall s', (perror "[mRALt]: Link_Register_Indication" ;; mret 1 : M Z) s' =
      Some (1, set_log (log s' ++ [(Stderr, "[mRALt]: Link_Register_Indication")])%list s')) as E by reflexivity.
    erewrite bind_run by apply E. drop_levels; fold_addrs. repeat run_step. eexists. reflexivity.
  - rewrite ret_bind. drop_levels; fold_addrs. repeat run_step. eexists. reflexivity.
Qed.

Lemma send_detected_run s :
  exists l, send_primitive LinkDetectedInd s =
    Some (send_result LinkDetectedInd s, set_log l (after_send LinkDetectedInd s)).
Proof.
  destruct (buffer_is_Some LinkDetectedInd (trans_id s) (rcv_evt_list s)) as (str & Hs & Hlen).
  pose proof (datagram_slice _ _ _ _ Hs) as Hsl. cbn [send_primitive buffer_of struct_of] in *.
  unfold mRALte_send_link_detected_indication. cbv zeta. erewrite lift_bind by exact Hs.
  destruct (send_or_wait_run _ _ "[mRAL]: mRALte_send_link_detected_indication" _ s Hsl) as (l & E).
  erewrite bind_run by exact E. cbn [send_result after_send]. unfold bytes_of.
  drop_levels; fold_addrs. repeat run_step. eexists. destruct (_ <? 0); reflexivity.
Qed.

Lemma send_thresholds_run s :
  exists l, send_primitive ConfigureThresholdsConf s =
    Some (send_result ConfigureThresholdsConf s, set_log l (after_send ConfigureThresholdsConf s)).
Proof.
  destruct (buffer_is_Some ConfigureThresholdsConf (trans_id s) (rcv_evt_list s)) as (str & Hs & Hlen).
  pose proof (datagram_slice _ _ _ _ Hs) as Hsl. cbn [send_primitive buffer_of struct_of] in *.
  unfold mRALte_send_link_configure_thresholds_confirm. cbv zeta. rewrite get_bind.
  erewrite lift_bind by exact Hs. apply (send_then_log _ _ _ _ _ _ 0 Hsl).
  rewrite (configure_thresholds_list_length _ _ Hs). drop_levels; fold_addrs.
  change (sizeof MIH_C_Link_Cfg_Status) with 6%nat. log_ret_steps.
Qed.

(** Each send function hands one datagram to [sendto] and otherwise only logs. *)
Lemma send_run p s :
  exists l, send_primitive p s = Some (send_result p s, set_log l (after_send p s)).
Proof.
  destruct (decide (p = LinkRegisterInd)) as [->|N1]; [apply send_register_run|].
  destruct (decide (p = LinkDetectedInd)) as [->|N2]; [apply send_detected_run|].
  destruct (decide (p = ConfigureThresholdsConf)) as [->|N3]; [apply send_thresholds_run|].
  destruct (buffer_is_Some p (trans_id s) (rcv_evt_list s)) as (str & Hs & Hlen).
  pose proof (datagram_slice _ _ _ _ Hs) as Hsl.
  destruct p; try congruence; cbn [send_primitive buffer_of struct_of send_result after_send] in *;
    unfold mRALte_send_link_up_indication, mRALte_send_link_down_indication,
      mRALte_send_link_going_down_indication, mRALte_send_link_parameters_report_indication,
      mRALte_send_capability_discover_confirm, mRALte_send_event_subscribe_confirm,
      mRALte_send_event_unsubscribe_confirm, mRALte_send_link_get_parameters_confirm,
      mRALte_send_link_action_confirm, mRALte_send_link_action_confirm_lsr;
    cbv zeta; rewrite ?get_bind; erewrite lift_bind by exact Hs;
    apply (send_then_log _ _ _ _ _ _ 0 Hsl); log_ret_steps.
Qed.

End Behaviour.
