(* ===== verification/RalDispatch.v ===== *)
(** * What a request makes the adapter do

    [process_mih_command] against an abstract description: a request is
    classified by its message id, and answered by a fixed script of datagrams and
    pauses that depends only on whether a link action was served before and
    whether the link was already reported as detected.  The code follows the
    script on every input, except that a threshold request whose counts point
    outside the receive buffer makes it read there. *)

From S2P Require Import Prelude CMem CFormat RalPrimitives RalState RalPrint RalSend RalConfirm RalRecv.
From S2P Require Import MihSpec RalMessages RalBehaviour.

Local Open Scope string_scope.
Local Open Scope Z_scope.

(** ** Requests *)

Inductive request :=
| ReqCapabilityDiscover | ReqEventSubscribe | ReqEventUnsubscribe
| ReqConfigureThresholds | ReqGetParameters | ReqLinkAction | ReqUnknown.

#[export] Instance request_eq_dec : EqDecision request.
Proof. solve_decision. Defined.

(** The receive buffer after [recvfrom]: at most 73 bytes, zeroes behind. *)
Definition recv_buffer (r : recv_result) : list Z :=
  match r with
  | RecvError => bzero 500
  | RecvOk bytes _ _ => take 73 bytes ++ replicate (500 - length (take 73 bytes)) 0
  end.

Definition octet (str : list Z) (i : nat) : Z := default 0 (str !! i).
Definition le16_at (str : list Z) (i : nat) : Z := octet str i + 256 * octet str (S i).

(** The first two octets of the message id, in network order: service, operation
    and action identifier. *)
Definition classify (str : list Z) : request :=
  let mid := le16_at str 2 in
  if mid =? MIH_LINK_HEADER_3_Cap_Disc_Req then ReqCapabilityDiscover
  else if mid =? MIH_LINK_HEADER_3_Evt_Sub_Req then ReqEventSubscribe
  else if mid =? MIH_LINK_HEADER_3_Evt_Unsub_Req then ReqEventUnsubscribe
  else if mid =? MIH_LINK_HEADER_3_Link_Conf_Thres_Req then ReqConfigureThresholds
  else if mid =? MIH_LINK_HEADER_3_Get_Param_Req then ReqGetParameters
  else if mid =? MIH_LINK_HEADER_3_Link_Act_Req then ReqLinkAction
  else ReqUnknown.

(** ** The script *)

Inductive action :=
| Send (p : primitive)
| Pause (seconds : Z).

#[export] Instance action_eq_dec : EqDecision action.
Proof. solve_decision. Defined.

(** [served]: a link action request was answered before; [detected]: the link was
    reported as detected; [scan]: the request asks for a link scan. *)
Definition script (q : request) (served detected scan : bool) : list action :=
  match q with
  | ReqCapabilityDiscover => [Send CapabilityDiscoverConf]
  | ReqEventSubscribe => [Send EventSubscribeConf]
  | ReqEventUnsubscribe => [Send EventUnsubscribeConf]
  | ReqConfigureThresholds => [Send ConfigureThresholdsConf]
  | ReqGetParameters =>
      [Send GetParametersConf; Pause 1; Pause 2] ++ (if detected then [] else [Send LinkDetectedInd])
  | ReqLinkAction =>
      Send (if scan then LinkActionConfLsr else LinkActionConf) ::
      (if served
       then [Pause 3; Send LinkDownInd; Pause 1]
       else [Pause 3; Send LinkUpInd; Pause 1; Send LinkParametersReportInd; Pause 1;
             Send LinkGoingDownInd; Pause 1])
  | ReqUnknown => []
  end.

Section Dispatch.
Context `{Os}.

Definition perform (s : ral) (a : action) : ral :=
  match a with
  | Send p => after_send p s
  | Pause n => add_event (EvSleep n) s
  end.

Definition perform_all (l : list action) (s : ral) : ral := fold_left perform l s.

(** What receiving does to the globals. *)
Definition received (r : recv_result) (s : ral) : ral :=
  let s := set_mihf_socket odtone s in
  match r with
  | RecvError => s
  | RecvOk _ from from_len => set_sockaddr_len from_len (set_udp_socket from s)
  end.

(** What decoding a request stores in the globals. *)
Definition decoded (q : request) (str : list Z) (s : ral) : ral :=
  let s' := match q with ReqUnknown => s | _ => set_trans_id (le16_at str 4) s end in
  match q with
  | ReqEventSubscribe | ReqEventUnsubscribe => set_rcv_evt_list (octet str 28) s'
  | ReqLinkAction =>
      let ac := octet str 25 in
      let s' := if ac =? LINK_AC_TYPE_POWER_DOWN then set_lpd LINK_AC_TYPE_POWER_DOWN s'
                else if ac =? LINK_AC_TYPE_POWER_UP then set_lpd LINK_AC_TYPE_POWER_UP s' else s' in
      set_link_scan (if octet str 26 =? LINK_SCAN then LINK_SCAN else 0) s'
  | _ => s'
  end.

Definition finished (q : request) (s : ral) : ral :=
  match q with ReqLinkAction => set_la_req 2 s | _ => s end.

(** The state after a request, up to the log. *)
Definition respond (r : recv_result) (s : ral) : ral :=
  let str := recv_buffer r in
  let q := classify str in
  finished q
    (perform_all (script q (la_req s =? 2) (negb (link_detec s =? 1)) (octet str 26 =? LINK_SCAN))
       (decoded q str (received r s))).

(** The parameters of a threshold request, with their thresholds, end inside the
    receive buffer. *)
Definition thresholds_fit (str : list Z) : Prop :=
  Forall (fun i => cfg_param_fits str (26 + i * 8)) (seq 0 (Z.to_nat (octet str 25))).

#[export] Instance thresholds_fit_dec str : Decision (thresholds_fit str).
Proof. unfold thresholds_fit. apply _. Defined.

(** ** The receive buffer *)

Lemma length_recv_buffer r : length (recv_buffer r) = 500%nat.
Proof.
  destruct r; simpl; [reflexivity|].
  rewrite length_app, length_replicate, length_take. lia.
Qed.

Lemma recvfrom_run r s :
  recvfrom r (sizeof MIH_C_ODTONE_Message) (set_mihf_socket odtone s) = Some (recv_buffer r, received r s).
Proof.
  destruct r as [|bytes from len]; [reflexivity|].
  unfold recvfrom. change (sizeof MIH_C_ODTONE_Message) with 73%nat.
  change (Z.to_nat MIHLink_MAX_LENGTH) with 500%nat.
  assert (splice 0 (take 73 bytes) (bzero 500) = Some (recv_buffer (RecvOk bytes from len))) as E.
  { unfold splice, bzero. rewrite length_take, length_replicate.
    rewrite (proj2 (Nat.leb_le _ _)) by lia. cbn [take app plus]. rewrite drop_replicate.
    cbn [recv_buffer]. rewrite length_take. reflexivity. }
  unfold mbind, M_bind, modify, lift. rewrite E. reflexivity.
Qed.

Lemma lookup_octet str i : (i < length str)%nat -> str !! i = Some (octet str i).
Proof. intros Hi. unfold octet. destruct (lookup_lt_is_Some_2 str i Hi) as [b ->]. reflexivity. Qed.

Lemma field_octet t path str o :
  designate t path = Some (o, U8) -> (o < length str)%nat -> field t path str 0 = mret (octet str o).
Proof. intros Hd Hl. apply (field_u8 _ _ _ _ o); [exact Hd|]. apply lookup_octet, Hl. Qed.

Lemma field_le16 t path str o :
  designate t path = Some (o, U16) -> (S o < length str)%nat -> field t path str 0 = mret (le16_at str o).
Proof.
  intros Hd Hl. unfold field, load. rewrite Hd. cbn [mbind option_bind sizeof Nat.add].
  unfold slice. rewrite (proj2 (Nat.leb_le _ _)) by lia.
  rewrite (drop_S _ _ _ (lookup_octet str o ltac:(lia))).
  rewrite (drop_S _ _ _ (lookup_octet str (S o) ltac:(lia))).
  cbn [take fmap option_fmap option_map le_val]. rewrite Z.mul_0_r, Z.add_0_r. reflexivity.
Qed.

(** ** Running up to the log *)

(** From [s], whatever the log, [m] returns [a] and leaves [s'] but for the log. *)
Definition Runs {A} (m : M A) (s : ral) (a : A) (s' : ral) : Prop :=
  forall l, exists l', m (set_log l s) = Some (a, set_log l' s').

Lemma runs_ret {A} (a : A) s : Runs (mret a) s a s.
Proof. intros l. exists l. reflexivity. Qed.

Lemma runs_bind {A B} (m : M A) (f : A -> M B) s a s1 b s2 :
  Runs m s a s1 -> Runs (f a) s1 b s2 -> Runs (m ≫= f) s b s2.
Proof.
  intros Hm Hf l. destruct (Hm l) as (l1 & E). destruct (Hf l1) as (l2 & E').
  exists l2. unfold mbind, M_bind. rewrite E, E'. reflexivity.
Qed.

Lemma runs_log {A B} (m : M A) (f : A -> M B) s b s' :
  LogOnly m -> (forall a, Runs (f a) s b s') -> Runs (m ≫= f) s b s'.
Proof.
  intros Hm Hf l. destruct (Hm (set_log l s)) as (a & l1 & E). destruct (Hf a l1) as (l2 & E').
  exists l2. unfold mbind, M_bind. rewrite E. exact E'.
Qed.

Lemma runs_modify (g : ral -> ral) s :
  (forall l, g (set_log l s) = set_log l (g s)) -> Runs (modify g) s tt (g s).
Proof. intros Hg l. exists l. unfold modify. rewrite Hg. reflexivity. Qed.

Lemma runs_get {A B} (g : ral -> A) (f : A -> M B) s b s' :
  (forall l, g (set_log l s) = g s) -> Runs (f (g s)) s b s' -> Runs (get g ≫= f) s b s'.
Proof. intros Hg Hf l. rewrite get_bind, Hg. apply Hf. Qed.

Lemma runs_log_only (m : M unit) s : LogOnly m -> Runs m s tt s.
Proof. intros Hm l. destruct (Hm (set_log l s)) as ([] & l' & E). exists l'. exact E. Qed.

Lemma after_send_log p l s : after_send p (set_log l s) = set_log l (after_send p s).
Proof. destruct p; unfold after_send; simpl; try destruct (_ <? 0); reflexivity. Qed.

Lemma runs_send p s : Runs (send_primitive p) s (send_result p s) (after_send p s).
Proof.
  intros l. destruct (send_run p (set_log l s)) as (l' & E). exists l'. rewrite E.
  rewrite after_send_log. reflexivity.
Qed.

Lemma runs_run {A} (m : M A) s a s' : Runs m s a s' -> exists l, m s = Some (a, set_log l s').
Proof. intros Hm. destruct (Hm (log s)) as (l & E). exists l. rewrite set_log_id in E. exact E. Qed.

End Dispatch.

(** Step through a computation, keeping the state. *)
Ltac runs_step :=
  match goal with
  | |- Runs ((_ ≫= _) ≫= _) _ _ _ => eapply runs_bind
  | |- Runs (mret _ ≫= _) _ _ _ => rewrite ret_bind
  | |- Runs (get _ ≫= _) _ _ _ => apply runs_get; [reflexivity|]
  | |- Runs (modify _ ≫= _) _ _ _ => eapply runs_bind; [apply runs_modify; reflexivity|]
  | |- Runs (sleep _ ≫= _) _ _ _ => eapply runs_bind; [apply runs_modify; reflexivity|]
  | |- Runs (modify ?g) ?s _ _ => exact (runs_modify g s (fun _ => eq_refl))
  | |- Runs (sleep ?n) ?s _ _ => exact (runs_modify (add_event (EvSleep n)) s (fun _ => eq_refl))
  | |- Runs (mret _) _ _ _ => apply runs_ret
  | |- Runs skip _ _ _ => apply runs_ret
  | |- Runs (_ ≫= _) _ _ _ => apply runs_log; [solve [apply _ | log_steps; apply _] | intros ?]
  | |- Runs _ _ _ _ => apply runs_log_only; apply _
  end.

(** Run the send function at the head. *)
Ltac runs_send_step :=
  let go p := eapply runs_bind; [exact (runs_send p _)|] in
  match goal with
  | |- Runs (mRALte_send_link_up_indication ≫= _) _ _ _ => go LinkUpInd
  | |- Runs (mRALte_send_link_down_indication ≫= _) _ _ _ => go LinkDownInd
  | |- Runs (mRALte_send_link_detected_indication ≫= _) _ _ _ => go LinkDetectedInd
  | |- Runs (mRALte_send_link_going_down_indication ≫= _) _ _ _ => go LinkGoingDownInd
  | |- Runs (mRALte_send_link_parameters_report_indication ≫= _) _ _ _ => go LinkParametersReportInd
  | |- Runs (mRALte_send_capability_discover_confirm ≫= _) _ _ _ => go CapabilityDiscoverConf
  | |- Runs (mRALte_send_event_subscribe_confirm ≫= _) _ _ _ => go EventSubscribeConf
  | |- Runs (mRALte_send_event_unsubscribe_confirm ≫= _) _ _ _ => go EventUnsubscribeConf
  | |- Runs (mRALte_send_link_get_parameters_confirm ≫= _) _ _ _ => go GetParametersConf
  | |- Runs (mRALte_send_link_configure_thresholds_confirm ≫= _) _ _ _ => go ConfigureThresholdsConf
  | |- Runs (mRALte_send_link_action_confirm ≫= _) _ _ _ => go LinkActionConf
  | |- Runs (mRALte_send_link_action_confirm_lsr ≫= _) _ _ _ => go LinkActionConfLsr
  end.

Ltac runs_steps := repeat first [runs_send_step | runs_step].

(** A send function is stepped over as a whole. *)
#[export] Typeclasses Opaque mRALte_send_link_register_indication mRALte_send_link_up_indication
  mRALte_send_link_down_indication mRALte_send_link_detected_indication
  mRALte_send_link_going_down_indication mRALte_send_link_parameters_report_indication
  mRALte_send_capability_discover_confirm mRALte_send_event_subscribe_confirm
  mRALte_send_event_unsubscribe_confirm mRALte_send_link_get_parameters_confirm
  mRALte_send_link_configure_thresholds_confirm mRALte_send_link_action_confirm
  mRALte_send_link_action_confirm_lsr.

Section Requests.
Context `{Os}.

#[local] Hint Extern 1 (LogOnly (print_header _ _)) => (apply print_header_log; lia) : typeclass_instances.
#[local] Hint Extern 1 (LogOnly (print_link_evt_list _ _)) =>
  (apply print_link_evt_list_log; lia) : typeclass_instances.

(** ** The decoding functions *)

Section Decode.
Variable str : list Z.
Hypothesis str_length : length str = 500%nat.

Lemma capability_discover_runs s :
  Runs (mRALte_decode_link_capability_discover_request str) s tt
    (perform (decoded ReqCapabilityDiscover str s) (Send CapabilityDiscoverConf)).
Proof.
  unfold mRALte_decode_link_capability_discover_request. cbv zeta.
  rewrite (field_le16 _ "Header.Transaction_ID" _ 4) by (try reflexivity; lia). drop_levels.
  runs_steps.
Qed.

Lemma event_subscribe_runs s :
  Runs (mRALte_decode_event_subscribe_request str) s tt
    (perform (decoded ReqEventSubscribe str s) (Send EventSubscribeConf)).
Proof.
  unfold mRALte_decode_event_subscribe_request. cbv zeta.
  rewrite (field_le16 _ "Header.Transaction_ID" _ 4), (field_octet _ "Link_Evt_List.Evt_List_Data.Evt_List_Oct[3]" _ 28)
    by (try reflexivity; lia). drop_levels. fold_addrs.
  runs_steps.
Qed.

Lemma event_unsubscribe_runs s :
  Runs (mRALte_decode_event_unsubscribe_request str) s tt
    (perform (decoded ReqEventUnsubscribe str s) (Send EventUnsubscribeConf)).
Proof.
  unfold mRALte_decode_event_unsubscribe_request. cbv zeta.
  rewrite (field_le16 _ "Header.Transaction_ID" _ 4), (field_octet _ "Requested_MIH_Evt_List.Evt_List_Data.Evt_List_Oct[3]" _ 28)
    by (try reflexivity; lia). drop_levels. fold_addrs.
  runs_steps.
Qed.

Lemma get_parameters_runs s :
  Runs (mRALte_decode_link_get_parameters_request str) s tt
    (perform_all [Send GetParametersConf; Pause 1] (decoded ReqGetParameters str s)).
Proof.
  unfold mRALte_decode_link_get_parameters_request. cbv zeta.
  rewrite (field_le16 _ "Header.Transaction_ID" _ 4) by (try reflexivity; lia). drop_levels.
  runs_steps.
Qed.

Lemma link_action_runs s :
  Runs (mRALte_decode_link_action_request str) s tt
    (perform (decoded ReqLinkAction str s)
       (Send (if octet str 26 =? LINK_SCAN then LinkActionConfLsr else LinkActionConf))).
Proof.
  unfold mRALte_decode_link_action_request. cbv zeta.
  rewrite (field_le16 _ "Header.Transaction_ID" _ 4),
    (field_octet _ "Link_Action.Link_Action_Value.Link_Ac_Type" _ 25),
    (field_octet _ "Link_Action.Link_Action_Value.Link_Ac_Attr" _ 26) by (try reflexivity; lia).
  drop_levels. do 3 runs_step. rewrite !ret_bind. unfold decoded. cbn [switch].
  destruct (octet str 25 =? LINK_AC_TYPE_NONE) eqn:E0;
    [apply Z.eqb_eq in E0; rewrite E0
    |destruct (octet str 25 =? LINK_AC_TYPE_LINK_DISCONNECT) eqn:E1;
       [apply Z.eqb_eq in E1; rewrite E1
       |destruct (octet str 25 =? LINK_AC_TYPE_POWER_DOWN), (octet str 25 =? LINK_AC_TYPE_POWER_UP)]];
    destruct (octet str 26 =? LINK_SCAN); runs_steps.
Qed.

Lemma thresholds_runs s :
  thresholds_fit str ->
  Runs (mRALte_decode_link_configure_threshold_request str) s tt
    (perform (decoded ReqConfigureThresholds str s) (Send ConfigureThresholdsConf)).
Proof.
  intros Hf. unfold mRALte_decode_link_configure_threshold_request. cbv zeta.
  rewrite (field_le16 _ "Header.Transaction_ID" _ 4),
    (field_octet _ "Link_Cfg_Param_List.List_Length" _ 25) by (try reflexivity; lia).
  drop_levels. fold_addrs. rewrite !ret_bind. do 4 runs_step. apply runs_log.
  - log_steps. apply log_only_for_loop. intros j Hj. log_steps.
    apply print_link_cfg_param_log. unfold thresholds_fit in Hf. rewrite Forall_forall in Hf. apply Hf, elem_of_seq. lia.
  - intros _. runs_steps.
Qed.

Lemma thresholds_stuck :
  ~ thresholds_fit str -> Stuck (mRALte_decode_link_configure_threshold_request str).
Proof.
  intros Hf. unfold mRALte_decode_link_configure_threshold_request. cbv zeta.
  rewrite (field_octet _ "Link_Cfg_Param_List.List_Length" _ 25) by (try reflexivity; lia).
  drop_levels. fold_addrs. do 5 (apply stuck_after; intros ?). apply stuck_bind.
  stuck_steps. apply not_Forall_Exists, Exists_exists in Hf as (j & Hj%elem_of_seq & Hn); [|apply _].
  apply (stuck_for_loop _ _ j); [lia|]. apply stuck_after. intros _.
  apply print_link_cfg_param_stuck, Hn.
Qed.

End Decode.

(** ** A whole request *)

(** The adapter knows whether a link action was served. *)
Definition ral_ok (s : ral) : Prop :=
  (la_req s = 1 \/ la_req s = 2) /\ (link_detec s = 0 \/ link_detec s = 1).

(** The request makes the adapter read outside its receive buffer. *)
Definition overreads (r : recv_result) : Prop :=
  classify (recv_buffer r) = ReqConfigureThresholds /\ ~ thresholds_fit (recv_buffer r).

#[export] Instance overreads_dec r : Decision (overreads r).
Proof. unfold overreads. apply _. Defined.

Lemma la_req_after_send p s : la_req (after_send p s) = la_req s.
Proof. destruct p; unfold after_send; simpl; repeat case_match; reflexivity. Qed.

Lemma la_req_add_event e s : la_req (add_event e s) = la_req s.
Proof. reflexivity. Qed.

Lemma la_req_perform s a : la_req (perform s a) = la_req s.
Proof. destruct a; [apply la_req_after_send | reflexivity]. Qed.

Lemma link_detec_perform s a :
  link_detec (perform s a) = if decide (a = Send LinkDetectedInd) then 0 else link_detec s.
Proof.
  destruct a as [p|]; [|reflexivity]. destruct p; unfold perform, after_send; simpl; repeat case_match; reflexivity.
Qed.

Lemma la_req_decoded q str s : la_req (decoded q str s) = la_req s.
Proof. unfold decoded. destruct q; simpl; repeat case_match; reflexivity. Qed.

Lemma link_detec_decoded q str s : link_detec (decoded q str s) = link_detec s.
Proof. unfold decoded. destruct q; simpl; repeat case_match; reflexivity. Qed.

Lemma la_req_received r s : la_req (received r s) = la_req s.
Proof. by destruct r. Qed.

Lemma link_detec_received r s : link_detec (received r s) = link_detec s.
Proof. by destruct r. Qed.

Lemma runs_receive {B} r (f : list Z -> M B) s b s' :
  Runs (f (recv_buffer r)) (received r s) b s' ->
  Runs (modify (set_mihf_socket odtone) ;; str ← recvfrom r (sizeof MIH_C_ODTONE_Message); f str) s b s'.
Proof.
  intros Hf l. destruct (Hf l) as (l' & E). exists l'.
  change ((recvfrom r (sizeof MIH_C_ODTONE_Message) ≫= f) (set_mihf_socket odtone (set_log l s)) = Some (b, set_log l' s')).
  erewrite bind_run by apply recvfrom_run. rewrite <- E. by destruct r.
Qed.

Lemma link_action_served_runs str s :
  length str = 500%nat -> la_req s = 1 \/ la_req s = 2 ->
  Runs (mRALte_decode_link_action_request str ;;
        req ← get la_req;
        (if req =? 1 then
           sleep 3 ;; mRALte_send_link_up_indication ;;
           sleep 1 ;; mRALte_send_link_parameters_report_indication ;;
           sleep 1 ;; mRALte_send_link_going_down_indication ;;
           sleep 1
         else skip) ;;
        req ← get la_req;
        (if req =? 2 then
           sleep 3 ;; mRALte_send_link_down_indication ;; sleep 1
         else skip) ;;
        modify (set_la_req 2)) s tt
    (set_la_req 2 (perform_all (script ReqLinkAction (la_req s =? 2) (negb (link_detec s =? 1)) (octet str 26 =? LINK_SCAN))
       (decoded ReqLinkAction str s))).
Proof.
  intros Hlen Hla. eapply runs_bind; [apply link_action_runs, Hlen|].
  set (s1 := perform _ _). assert (la_req s1 = la_req s) as E by (unfold s1; rewrite la_req_perform, la_req_decoded; reflexivity).
  apply runs_get; [reflexivity|]. rewrite E.
  destruct Hla as [Hla|Hla]; rewrite Hla in E |- *; cbn [Z.eqb Pos.eqb].
  - eapply runs_bind; [runs_steps|]. apply runs_get; [reflexivity|].
    rewrite !la_req_add_event, !la_req_after_send, !la_req_add_event, !la_req_after_send,
      !la_req_add_event, !la_req_after_send, !la_req_add_event, E. cbn [Z.eqb Pos.eqb]. runs_steps.
  - runs_step. apply runs_get; [reflexivity|]. rewrite E. cbn [Z.eqb Pos.eqb]. runs_steps.
Qed.

Lemma get_parameters_detec str s :
  link_detec (add_event (EvSleep 2) (perform_all [Send GetParametersConf; Pause 1]
    (decoded ReqGetParameters str s))) = link_detec s.
Proof. simpl. case_match; reflexivity. Qed.

Lemma process_runs r s :
  ral_ok s -> ~ overreads r -> Runs (process_mih_command r) s 0 (respond r s).
Proof.
  intros [Hla Hdet] Hf. unfold process_mih_command. apply runs_receive.
  pose proof (length_recv_buffer r) as Hlen.
  rewrite (field_le16 _ _ _ 2) by (try reflexivity; lia).
  rewrite ret_bind. eapply runs_bind; [|apply runs_ret].
  unfold respond, overreads, classify in *. cbn [switch]. cbv zeta in *.
  rewrite <- (la_req_received r s), <- (link_detec_received r s) in *.
  repeat match goal with |- context [if le16_at ?b 2 =? ?c then _ else _] => destruct (le16_at b 2 =? c) end.
  - apply capability_discover_runs, Hlen.
  - runs_step. apply event_subscribe_runs, Hlen.
  - runs_step. apply event_unsubscribe_runs, Hlen.
  - apply thresholds_runs, dec_stable; [exact Hlen|]. intros N. by apply Hf.
  - runs_step. eapply runs_bind; [apply get_parameters_runs, Hlen|]. runs_step. runs_step.
    rewrite get_parameters_detec.
    destruct (link_detec (received r s) =? 1); runs_steps.
  - runs_step. by apply link_action_served_runs.
  - runs_steps.
Qed.

End Requests.
