(* ===== verification/RalSystem.v ===== *)
(** * The adapter as a running program

    The theorems about whole requests and whole runs of the adapter: what a
    request makes it do, when it leaves its receive buffer, which sequences of
    datagrams it can produce, and when [main] ends. *)

From S2P Require Import Prelude CMem CFormat RalPrimitives RalState RalPrint RalSend RalConfirm RalRecv.
From S2P Require Import MihSpec RalMessages RalBehaviour RalDispatch.

Local Open Scope string_scope.
Local Open Scope Z_scope.

(** ** A link session, as the MIHF sees it *)

(** Where the link is in its life: no indication yet, up, reported, going down;
    from there on every further link action brings a link down. *)
Inductive phase := Idle | Up | Reported | Leaving.

Record session := { link_phase : phase; link_seen : bool }.

#[export] Instance sockaddr_in_eq_dec : EqDecision sockaddr_in.
Proof. solve_decision. Defined.

(** What one primitive does to a session; [None] when it is out of order. *)
Definition advance (p : primitive) (st : session) : option session :=
  match p, link_phase st with
  | LinkRegisterInd, _ => None
  | LinkUpInd, Idle => Some {| link_phase := Up; link_seen := link_seen st |}
  | LinkParametersReportInd, Up => Some {| link_phase := Reported; link_seen := link_seen st |}
  | LinkGoingDownInd, Reported => Some {| link_phase := Leaving; link_seen := link_seen st |}
  | LinkDownInd, Leaving => Some st
  | (LinkUpInd | LinkParametersReportInd | LinkGoingDownInd | LinkDownInd), _ => None
  | LinkDetectedInd, ph => if link_seen st then None else Some {| link_phase := ph; link_seen := true |}
  | _, _ => Some st
  end.

(** The primitive an observer recognizes in a datagram by its message id. *)
Definition recognize (bytes : list Z) : option primitive :=
  let mid := le16_at bytes 2 in
  if mid =? MIH_LINK_HEADER_3_ES_Ind then Some LinkRegisterInd
  else if mid =? MIH_LINK_HEADER_3_Link_Up_Ind then Some LinkUpInd
  else if mid =? MIH_LINK_HEADER_3_Link_Down_Ind then Some LinkDownInd
  else if mid =? MIH_LINK_HEADER_3_Link_Detected_Ind then Some LinkDetectedInd
  else if mid =? MIH_LINK_HEADER_3_Link_Going_Down then Some LinkGoingDownInd
  else if mid =? MIH_LINK_HEADER_3_Link_Param_Report then Some LinkParametersReportInd
  else if mid =? MIH_LINK_HEADER_3_Cap_Disc_Conf then Some CapabilityDiscoverConf
  else if mid =? MIH_LINK_HEADER_3_Evt_Sub_Conf then Some EventSubscribeConf
  else if mid =? MIH_LINK_HEADER_3_Evt_Unsub_Conf then Some EventUnsubscribeConf
  else if mid =? MIH_LINK_HEADER_3_Get_Param_Conf then Some GetParametersConf
  else if mid =? MIH_LINK_HEADER_3_Link_Conf_Thres_Conf then Some ConfigureThresholdsConf
  else if mid =? MIH_LINK_HEADER_3_Link_Act_Conf then Some LinkActionConf
  else None.

(** The session starts with the register indication; every datagram goes to the
    MIHF. *)
Definition observe (st : option session) (e : event) : option (option session) :=
  match e with
  | EvSleep _ => Some st
  | EvSend dst _ bytes _ =>
      if negb (bool_decide (dst = odtone)) then None
      else p ← recognize bytes;
      match st, p with
      | None, LinkRegisterInd => Some (Some {| link_phase := Idle; link_seen := false |})
      | None, _ => None
      | Some st, p => Some <$> advance p st
      end
  end.

Fixpoint observe_all (st : option session) (tr : list event) : option (option session) :=
  match tr with
  | [] => Some st
  | e :: tr => st ← observe st e; observe_all st tr
  end.

Section System.
Context `{Os}.

(** ** Runs of the adapter *)

(** The states between two rounds of the main loop. *)
Inductive reachable : ral -> Prop :=
| reachable_start arg fopen_ok sock sd_graal s : startup arg fopen_ok sock ral_init = Some (inr sd_graal, s) -> reachable s
| reachable_request r s rc s' : reachable s -> process_mih_command r s = Some (rc, s') -> reachable s'.

Definition session_of (s : ral) : session :=
  {| link_phase := if la_req s =? 2 then Leaving else Idle; link_seen := negb (link_detec s =? 1) |}.

Definition session_ok (s : ral) : Prop :=
  ral_ok s /\ observe_all None (trace s) = Some (Some (session_of s)).

(** ** Lemmas *)

Lemma process_stuck r : overreads r -> Stuck (process_mih_command r).
Proof.
  intros [Hc Hf] s. unfold process_mih_command.
  change (modify ?g ≫= ?f) with (fun s => f tt (g s)). cbv beta.
  erewrite bind_run by apply recvfrom_run.
  pose proof (length_recv_buffer r) as Hlen.
  rewrite (field_le16 _ _ _ 2) by (try reflexivity; lia). rewrite ret_bind.
  unfold classify in Hc. cbn [switch]. cbv zeta in Hc.
  repeat match goal with |- context [if le16_at ?b 2 =? ?c then _ else _] => destruct (le16_at b 2 =? c); try discriminate end.
  apply stuck_bind, thresholds_stuck; assumption.
Qed.

Lemma observe_all_app tr tr' st : observe_all st (tr ++ tr') = (st ← observe_all st tr; observe_all st tr').
Proof.
  revert st. induction tr as [|e tr IH]; intros st; simpl; [reflexivity|].
  destruct (observe st e) as [st'|]; simpl; [apply IH | reflexivity].
Qed.

Lemma recognize_bytes p s : recognize (bytes_of p s) = Some (if decide (p = LinkActionConfLsr) then LinkActionConf else p).
Proof. unfold recognize, bytes_of. destruct p; vm_compute; reflexivity. Qed.

Lemma trace_after_send p s :
  trace (after_send p s) =
  (trace s ++ [EvSend odtone (sockaddr_len s) (bytes_of p s) (sendto (trace s) (bytes_of p s))])%list.
Proof. destruct p; unfold after_send; simpl; repeat case_match; reflexivity. Qed.

Definition advance_action (a : action) (st : session) : option session :=
  match a with Send p => advance p st | Pause _ => Some st end.

Lemma observe_perform s a st :
  observe_all None (trace s) = Some (Some st) ->
  observe_all None (trace (perform s a)) = Some <$> advance_action a st.
Proof.
  intros Ht. destruct a as [p|n]; simpl.
  - rewrite trace_after_send, observe_all_app, Ht. cbn [mbind option_bind observe_all observe].
    rewrite bool_decide_true by reflexivity. rewrite recognize_bytes. cbn [negb mbind option_bind].
    destruct (decide (p = LinkActionConfLsr)) as [->|_]; [reflexivity|]. by destruct (advance p st).
  - rewrite observe_all_app, Ht. reflexivity.
Qed.

Lemma observe_perform_all l s st st' :
  observe_all None (trace s) = Some (Some st) ->
  foldl (fun o a => o ≫= advance_action a) (Some st) l = Some st' ->
  observe_all None (trace (perform_all l s)) = Some (Some st').
Proof.
  revert s st. induction l as [|a l IH]; intros s st Ht Hl; simpl in *; [by simplify_eq|].
  pose proof (observe_perform s a st Ht) as Hp. destruct (advance_action a st) as [st1|] eqn:E; simpl in *.
  - eapply IH; eauto.
  - exfalso. clear -Hl. induction l; simpl in *; [discriminate | auto].
Qed.

Lemma la_req_perform_all l s : la_req (perform_all l s) = la_req s.
Proof.
  revert s. induction l as [|a l IH]; intros s; simpl; [reflexivity|]. by rewrite IH, la_req_perform.
Qed.

Lemma link_detec_perform_all l s :
  link_detec (perform_all l s) = if decide (Send LinkDetectedInd ∈ l) then 0 else link_detec s.
Proof.
  revert s. induction l as [|a l IH]; intros s; cbn [perform_all fold_left]; [reflexivity|].
  fold (perform_all l (perform s a)). rewrite IH, link_detec_perform.

  destruct (decide (a = Send LinkDetectedInd)), (decide (Send LinkDetectedInd ∈ l)), (decide (_ ∈ a :: l)) as [Hc|Hc];
    rewrite elem_of_cons in Hc; first [reflexivity | exfalso; intuition congruence].
Qed.

Lemma trace_decoded q str s : trace (decoded q str s) = trace s.
Proof. unfold decoded. destruct q; simpl; repeat case_match; reflexivity. Qed.

Lemma trace_received r s : trace (received r s) = trace s.
Proof. by destruct r. Qed.

Lemma trace_finished q s : trace (finished q s) = trace s.
Proof. by destruct q. Qed.

Lemma la_req_finished q s : la_req (finished q s) = match q with ReqLinkAction => 2 | _ => la_req s end.
Proof. by destruct q. Qed.

Lemma link_detec_finished q s : link_detec (finished q s) = link_detec s.
Proof. by destruct q. Qed.

(** The script of a request takes the session from the one the globals describe
    to the one they describe afterwards. *)
Lemma respond_session r s : session_ok s -> session_ok (respond r s).
Proof.
  intros [[Hla Hde] Ht]. unfold respond. cbv zeta.
  generalize (classify (recv_buffer r)), (octet (recv_buffer r) 26 =? LINK_SCAN). intros q scan.
  unfold session_ok, ral_ok, session_of.
  rewrite trace_finished, la_req_finished, link_detec_finished, la_req_perform_all, link_detec_perform_all,
    la_req_decoded, link_detec_decoded, la_req_received, link_detec_received.
  set (s' := decoded _ _ _).
  assert (observe_all None (trace s') = Some (Some (session_of s))) as Ht'
    by (unfold s'; rewrite trace_decoded, trace_received; exact Ht).
  split.
  - destruct q; repeat case_decide; auto.
  - eapply observe_perform_all; [exact Ht'|]. unfold session_of.
    destruct q, Hla as [-> | ->], Hde as [-> | ->], scan; reflexivity.
Qed.

(** ** Startup *)

Definition log_location (arg : argv1) : Z :=
  match arg with Location v => log_location_of v | _ => LOG_TO_DEFAULT end.

(** The process exits before its loop: after the usage text, or when the log file
    cannot be opened. *)
Definition exits_early (arg : argv1) (fopen_ok : bool) : option Z :=
  match arg with
  | Help => Some 0
  | _ => if (log_location arg =? LOG_TO_FILE) && negb fopen_ok then Some 1 else None
  end.

(** The state in which the loop is entered, but for the log. *)
Definition started (arg : argv1) (s : ral) : ral :=
  after_send LinkRegisterInd
    (set_sockaddr_len sizeof_sockaddr_in (set_udp_socket odtone (set_log_output (log_location arg) s))).

Lemma log_location_cases arg : log_location arg = LOG_TO_CONSOLE \/ log_location arg = LOG_TO_FILE.
Proof.
  destruct arg; [by left | by left |]. unfold log_location, log_location_of. cbv zeta.
  destruct (v =? LOG_TO_SYSTEM); [by right|].
  destruct (v =? LOG_TO_CONSOLE) eqn:E1; [left; simpl; by apply Z.eqb_eq|].
  destruct (v =? LOG_TO_FILE) eqn:E2; [right; simpl; by apply Z.eqb_eq | by left].
Qed.

Lemma log_init_runs loc fopen_ok s :
  loc = LOG_TO_CONSOLE \/ loc = LOG_TO_FILE ->
  Runs (mRALu_log_init loc fopen_ok) s (if (loc =? LOG_TO_FILE) && negb fopen_ok then inl 1 else inr 0)
    (set_log_output loc s).
Proof.
  intros Hl. unfold mRALu_log_init. runs_step. cbn [switch].
  destruct Hl as [-> | ->]; [|destruct fopen_ok]; cbn [negb];
    repeat match goal with |- context [?a =? ?b] => let v := eval vm_compute in (a =? b) in change (a =? b) with v end;
    cbn [andb]; runs_steps.
Qed.

Lemma startup_runs arg fopen_ok sock s :
  exits_early arg fopen_ok = None -> Runs (startup arg fopen_ok sock) s (inr sock) (started arg s).
Proof.
  intros He. pose proof (log_init_runs (log_location arg) fopen_ok s (log_location_cases arg)) as Hi.
  unfold exits_early in He. destruct arg as [| |v]; [| discriminate |];
    (destruct (_ && _); [discriminate|]); unfold startup; runs_step;
    (eapply runs_bind; [exact Hi|]); cbv beta iota; unfold mRALu_MTmihf_connect; runs_steps;
    (eapply runs_bind; [exact (runs_send LinkRegisterInd _) | runs_steps]).
Qed.

Lemma usage_log : LogOnly mRALu_log_usage.
Proof.
  unfold mRALu_log_usage. match goal with |- LogOnly (foldr _ _ ?t) => generalize t end.
  intros t. induction t as [|x t IH]; simpl; apply _.
Qed.

Lemma startup_exits arg fopen_ok sock s c :
  exits_early arg fopen_ok = Some c -> exists lo, Runs (startup arg fopen_ok sock) s (inl c) (set_log_output lo s).
Proof.
  intros He. pose proof (log_init_runs (log_location arg) fopen_ok s (log_location_cases arg)) as Hi.
  unfold exits_early in He. destruct arg as [| |v].
  - discriminate.
  - simplify_eq. exists (log_output s). unfold startup. apply runs_log; [apply usage_log|].
    intros _. destruct s. apply runs_ret.
  - exists (log_location (Location v)). destruct (_ && _); [|discriminate]. simplify_eq.
    unfold startup. runs_step. eapply runs_bind; [exact Hi|]. cbv beta iota. runs_steps.
Qed.

(** ** The main loop *)

(** The requests read before [select] fails, answered in turn. *)
Fixpoint serve (polls : list poll) (s : ral) : ral :=
  match polls with
  | [] | SelectError :: _ => s
  | SelectTimeout :: polls => serve polls s
  | SelectReadable r :: polls => serve polls (respond r s)
  end.

Fixpoint select_fails (polls : list poll) : bool :=
  match polls with
  | [] => false
  | SelectError :: _ => true
  | _ :: polls => select_fails polls
  end.

(** None of the requests read makes the adapter leave its buffer. *)
Fixpoint no_overread (polls : list poll) : Prop :=
  match polls with
  | [] | SelectError :: _ => True
  | SelectTimeout :: polls => no_overread polls
  | SelectReadable r :: polls => ~ overreads r /\ no_overread polls
  end.

Lemma respond_ok r s : ral_ok s -> ral_ok (respond r s).
Proof.
  intros [Hla Hde]. unfold respond, ral_ok. cbv zeta.
  rewrite la_req_finished, link_detec_finished, la_req_perform_all, link_detec_perform_all,
    la_req_decoded, link_detec_decoded, la_req_received, link_detec_received.
  split; [destruct (classify _); auto|]. destruct (decide _); auto.
Qed.

Lemma main_loop_runs fd polls s :
  fd_ok fd = true -> ral_ok s -> no_overread polls ->
  Runs (main_loop fd polls) s (if select_fails polls then Some 1 else None) (serve polls s).
Proof.
  intros Hfd. revert s. induction polls as [|[| |r] polls IH]; intros s Hs Hn; simpl; unfold FD_SET at 1; rewrite Hfd; (change (lift (Some tt)) with (mret tt : M unit)); rewrite ret_bind.
  - runs_steps.
  - eapply runs_bind; [runs_steps|]. simpl. runs_steps.
  - rewrite ret_bind. simpl. apply IH; assumption.
  - destruct Hn as [Hr Hn]. eapply runs_bind; [apply process_runs; assumption|].
    simpl. apply IH; [apply respond_ok, Hs | exact Hn].
Qed.

Lemma main_loop_stuck fd polls s : ral_ok s -> (fd_ok fd = true -> ~ no_overread polls) -> main_loop fd polls s = None.
Proof.
  intros Hs Hn. destruct (fd_ok fd) eqn:Hfd; [specialize (Hn eq_refl)|destruct polls as [|[| |r] polls]; simpl; unfold FD_SET at 1; by rewrite Hfd].
  revert s Hs. induction polls as [|[| |r] polls IH]; intros s Hs; simpl in *; try tauto; unfold FD_SET at 1; rewrite Hfd; (change (lift (Some tt)) with (mret tt : M unit)); rewrite ret_bind.
  - rewrite ret_bind. simpl. by apply IH.
  - destruct (decide (overreads r)) as [Ho|Ho].
    + erewrite stuck_bind by (apply process_stuck, Ho). reflexivity.
    + destruct (runs_run _ _ _ _ (process_runs r s Hs Ho)) as (l & E). erewrite bind_run by exact E.
      simpl. apply IH; [tauto | exact (respond_ok r s Hs)].
Qed.

Lemma started_session arg : session_ok (started arg ral_init).
Proof.
  split; [split; [by left | by right]|]. unfold started. rewrite trace_after_send.
  set (s0 := set_sockaddr_len _ _). change (trace s0) with (@nil event). cbn [app observe_all observe].
  rewrite bool_decide_true by reflexivity. rewrite recognize_bytes. reflexivity.
Qed.

Lemma session_ok_log l s : session_ok s -> session_ok (set_log l s).
Proof. tauto. Qed.

(** ** The confirmation *)

(** The confirmation of a request, in the session of the request. *)
Definition confirmation (q : request) (scan : bool) : option primitive :=
  match q with
  | ReqCapabilityDiscover => Some CapabilityDiscoverConf
  | ReqEventSubscribe => Some EventSubscribeConf
  | ReqEventUnsubscribe => Some EventUnsubscribeConf
  | ReqConfigureThresholds => Some ConfigureThresholdsConf
  | ReqGetParameters => Some GetParametersConf
  | ReqLinkAction => Some (if scan then LinkActionConfLsr else LinkActionConf)
  | ReqUnknown => None
  end.

Lemma script_confirmation q served detected scan p :
  confirmation q scan = Some p -> exists l, script q served detected scan = Send p :: l.
Proof. destruct q; simpl; intros E; simplify_eq; eexists; reflexivity. Qed.

Lemma perform_all_trace l s : exists evs, trace (perform_all l s) = (trace s ++ evs)%list.
Proof.
  revert s. induction l as [|a l IH]; intros s; simpl; [exists []; by rewrite app_nil_r|].
  destruct (IH (perform s a)) as (evs & ->).
  destruct a as [p|n]; cbn [perform]; [rewrite trace_after_send|]; cbn [trace add_event];
    rewrite <- app_assoc; eexists; reflexivity.
Qed.

Lemma recv_buffer_ok bytes from len : bytes_ok bytes -> bytes_ok (recv_buffer (RecvOk bytes from len)).
Proof.
  intros Hb. unfold bytes_ok. cbn [recv_buffer]. apply Forall_app. split; [by apply Forall_take|].
  apply Forall_replicate. unfold byte_ok. lia.
Qed.

Lemma octet_ok str i : bytes_ok str -> byte_ok (octet str i).
Proof.
  intros Hb. unfold octet. destruct (str !! i) eqn:E; simpl; [|unfold byte_ok; lia].
  eapply Forall_lookup_1 in Hb; [exact Hb | exact E].
Qed.

Lemma swap16_le16 str i :
  bytes_ok str -> swap16 (le16_at str i) = octet str i * 256 + octet str (S i).
Proof.
  intros Hb. pose proof (octet_ok str i Hb) as H0. pose proof (octet_ok str (S i) Hb) as H1.
  unfold byte_ok in *. unfold swap16, le16_at.
  rewrite (Z.mul_comm 256), Z.mod_add, Z.div_add, Z.mod_small, Z.div_small by lia. lia.
Qed.

Lemma le16_range str i : bytes_ok str -> 0 <= le16_at str i < 65536.
Proof.
  intros Hb. pose proof (octet_ok str i Hb). pose proof (octet_ok str (S i) Hb).
  unfold byte_ok, le16_at in *. lia.
Qed.

Definition confirmation_message (p : primitive) (tid evt : Z) : mih_msg :=
  match p with
  | LinkActionConfLsr => lsr_message_read tid
  | _ => message_of p tid evt
  end.

Lemma bytes_of_decode p s :
  0 <= trans_id s < 65536 ->
  decode (bytes_of p s) = Some (confirmation_message p (swap16 (trans_id s)) (rcv_evt_list s mod 256)).
Proof.
  intros Ht. unfold bytes_of. destruct (decide (p = LinkActionConfLsr)) as [->|N].
  - rewrite datagram_lsr by assumption. apply decode_encode_wf; vm_compute; split; congruence.
  - rewrite datagram_raw, <- encode_message_tid by assumption. cbn [default].
    replace (confirmation_message p (swap16 (trans_id s)) (rcv_evt_list s mod 256))
      with (message_of p (swap16 (trans_id s)) (rcv_evt_list s mod 256)) by (by destruct p).
    apply decode_encode_wf; apply message_of_ranges.
Qed.

Lemma trans_id_decoded q str s : q <> ReqUnknown -> trans_id (decoded q str s) = le16_at str 4.
Proof. intros Hq. unfold decoded. destruct q; simpl; repeat case_match; first [reflexivity | congruence]. Qed.

(** The message id of a request, in network order. *)
Lemma request_mid q scan p str tid evt :
  bytes_ok str -> classify str = q -> confirmation q scan = Some p ->
  let m := confirmation_message p tid evt in
  m_opcode m = OP_CONFIRM /\ m_tid m = tid /\
  octet str 2 * 256 + octet str 3 = mid_of (m_sid m) OP_REQUEST (m_aid m).
Proof.
  intros Hb Hc Hp. rewrite <- swap16_le16 by assumption. unfold classify in Hc. cbv zeta in Hc.
  repeat match type of Hc with
  | (if ?a =? ?b then _ else _) = _ =>
      destruct (Z.eqb_spec a b) as [-> | _]; [subst q; simpl in Hp; try destruct scan; simplify_eq; vm_compute; auto|]
  end.
  subst q. discriminate.
Qed.

(** ** Claims *)

(** C8: on every datagram, [process_mih_command] either answers exactly as the
    script of the request says, one confirmation and the indications that follow
    it with their pauses, and returns 0; or the datagram is a threshold request
    whose announced counts reach past the 500-byte receive buffer, and the code
    reads outside it.  Nothing else can go wrong, whatever the datagram and
    whatever [sendto] answers. *)
Theorem request_served r s :
  ral_ok s ->
  (overreads r -> process_mih_command r s = None) /\
  (~ overreads r -> exists l, process_mih_command r s = Some (0, set_log l (respond r s))).
Proof.
  intros Hs. split; [intros Ho; by apply process_stuck|].
  intros Ho. by apply runs_run, process_runs.
Qed.

(** One threshold request of 34 octets, a single parameter that announces 200
    thresholds, makes the adapter read past its receive buffer in any state. *)
Theorem threshold_request_overread :
  exists bytes, bytes_ok bytes /\ length bytes = 34%nat /\
    forall from from_len s, process_mih_command (RecvOk bytes from from_len) s = None.
Proof.
  exists ([16; 0; 52; 2; 0; 1; 0; 26] ++ replicate 17 0 ++ [1; 0; 0; 0; 0; 200; 0; 0; 0])%list.
  split; [repeat constructor; unfold byte_ok; lia|]. split; [reflexivity|].
  intros from from_len s. apply process_stuck. split; [reflexivity|].
  intros Hf. apply Forall_inv in Hf. destruct Hf as (n & Hn & Hl). vm_compute in Hn. injection Hn as <-.
  rewrite length_recv_buffer in Hl. vm_compute in Hl. lia.
Qed.

(** C11: in every state the running adapter can reach, the datagrams sent so far
    form a well-ordered session: all of them go to the MIHF, the first is the
    register indication and there is no second one, the link is reported as
    detected at most once and up at most once, the parameter report and the going
    down indication follow the link up in that order, and a link down comes only
    after them.  The flags [la_req] and [link_detec] tell which stage the session
    is in. *)
Theorem session_respected s : reachable s -> session_ok s.
Proof.
  induction 1 as [arg fopen_ok sock sd s Hs | r s rc s' _ IH Hp].
  - destruct (exits_early arg fopen_ok) as [c|] eqn:E.
    + destruct (startup_exits arg fopen_ok sock ral_init c E) as (lo & R).
      destruct (runs_run _ _ _ _ R) as (l & E'). congruence.
    + destruct (runs_run _ _ _ _ (startup_runs arg fopen_ok sock ral_init E)) as (l & E').
      rewrite E' in Hs. injection Hs as _ <-. apply session_ok_log, started_session.
  - destruct (decide (overreads r)) as [Ho|Ho]; [rewrite process_stuck in Hp by assumption; discriminate|].
    destruct (runs_run _ _ _ _ (process_runs r s (proj1 IH) Ho)) as (l & E).
    rewrite E in Hp. injection Hp as <- <-. apply session_ok_log, respond_session, IH.
Qed.

(** C14: a request the adapter knows, and that is not a threshold request whose
    announced counts reach past the receive buffer, is answered first of all by its
    confirmation: one datagram to the MIHF with the service and action identifiers of
    the request, the confirm operation code, and the transaction id of the request.
    Unless a link scan was asked for, it is the encoding of the confirmation that belongs
    to the request; the response to a link scan is read with the same header, but its
    payload is not the intended one. *)
Theorem request_confirmed bytes from from_len s :
  let r := RecvOk bytes from from_len in
  let str := recv_buffer r in
  ral_ok s -> bytes_ok bytes -> ~ overreads r -> classify str <> ReqUnknown ->
  exists s' len bs rc evs m p, process_mih_command r s = Some (0, s') /\
    trace s' = (trace s ++ EvSend odtone len bs rc :: evs)%list /\
    decode bs = Some m /\ m_opcode m = OP_CONFIRM /\
    mid_of (m_sid m) OP_REQUEST (m_aid m) = octet str 2 * 256 + octet str 3 /\
    m_tid m = octet str 4 * 256 + octet str 5 /\
    confirmation (classify str) (octet str 26 =? LINK_SCAN) = Some p /\
    (p <> LinkActionConfLsr ->
      m = message_of p (m_tid m) (rcv_evt_list (decoded (classify str) str (received r s)) mod 256) /\ bs = encode m) /\
    (p = LinkActionConfLsr -> m = lsr_message_read (m_tid m)).
Proof.
  intros r str Hs Hb Ho Hq. destruct (runs_run _ _ _ _ (process_runs r s Hs Ho)) as (l & E).
  pose proof (recv_buffer_ok bytes from from_len Hb) as Hb'. fold r str in Hb'.
  assert (exists p, confirmation (classify str) (octet str 26 =? LINK_SCAN) = Some p) as (p & Hp)
    by (destruct (classify str); try congruence; eexists; reflexivity).
  set (s1 := decoded (classify str) str (received r s)).
  destruct (request_mid _ _ _ str (swap16 (trans_id s1)) (rcv_evt_list s1 mod 256) Hb' eq_refl Hp) as (M1 & M2 & M3).
  assert (trans_id s1 = le16_at str 4) as T by (apply trans_id_decoded, Hq).
  destruct (script_confirmation (classify str) (la_req s =? 2) (negb (link_detec s =? 1)) _ p Hp) as (acts & Hacts).
  destruct (perform_all_trace acts (after_send p s1)) as (evs & Hevs).
  eexists _, _, (bytes_of p s1), _, evs, _, p. split; [exact E|]. split; [|split].
  - cbn [trace set_log]. unfold respond. cbv zeta. fold str. rewrite trace_finished, Hacts. cbn [perform_all fold_left perform].
    fold s1 (perform_all acts (after_send p s1)). rewrite Hevs, trace_after_send, <- app_assoc.
    unfold s1 at 1. rewrite trace_decoded, trace_received. reflexivity.
  - apply bytes_of_decode. rewrite T. apply le16_range, Hb'.
  - assert (0 <= trans_id s1 < 65536) as Ht by (rewrite T; apply le16_range, Hb').
    rewrite M1, M2, <- M3, T. split; [reflexivity|]. split; [reflexivity|]. split; [apply swap16_le16, Hb'|]. split; [exact Hp|].
    split; intros Hpl; [|by subst p]. split; [by destruct p|]. unfold bytes_of. rewrite datagram_raw, <- encode_message_tid, T by assumption.
    by destruct p.
Qed.

(** C22: unless it was asked for help or cannot open its log file, [main] enters its
    loop.  If [socket] has returned a descriptor and no datagram is a threshold request whose
    announced counts reach past the receive buffer, it serves the readable rounds in
    order, whatever else the datagrams are and whatever [sendto] and [recvfrom] answer, and
    ends, with status 0, exactly when [select] fails.  Otherwise it leaves its memory:
    without a socket in the first round, and with such a datagram when it is read. *)
Theorem main_serves arg fopen_ok sock polls :
  exits_early arg fopen_ok = None ->
  (fd_ok sock = true -> no_overread polls -> exists l, main arg fopen_ok sock polls ral_init =
    Some (if select_fails polls then Some 0 else None, set_log l (serve polls (started arg ral_init)))) /\
  ((fd_ok sock = true -> ~ no_overread polls) -> main arg fopen_ok sock polls ral_init = None).
Proof.
  intros He. split.
  - intros Hfd Hn. apply runs_run. unfold main. eapply runs_bind; [apply startup_runs, He|]. cbv iota.
    eapply runs_bind; [apply main_loop_runs; [exact Hfd | apply started_session | exact Hn]|].
    destruct (select_fails polls); [|apply runs_ret]. apply runs_log; [unfold mRALu_log_exit; apply _|].
    intros _. apply runs_ret.
  - intros Hn. destruct (runs_run _ _ _ _ (startup_runs arg fopen_ok sock ral_init He)) as (l & E).
    unfold main. erewrite bind_run by exact E. cbv iota.
    unfold mbind. unfold M_bind. rewrite main_loop_stuck; [reflexivity | apply started_session | exact Hn].
Qed.

End System.

(** ** Witnesses *)

(** A [sendto] that accepts every datagram. *)
Definition reliable : Os := {| sendto := fun _ bytes => Z.of_nat (length bytes) |}.

Definition capability_request : list Z := [16; 0; 20; 1; 0; 7; 0; 0].

Lemma request_served_witness :
  exists l, @process_mih_command reliable (RecvOk capability_request odtone 16) ral_init =
    Some (0, set_log l (@respond reliable (RecvOk capability_request odtone 16) ral_init)).
Proof.
  apply (@request_served reliable); [split; [by left | by right]|].
  intros [Hc _]. discriminate Hc.
Defined.

Lemma session_respected_witness : exists s, @reachable reliable s /\ session_ok s.
Proof.
  destruct (runs_run _ _ _ _ (@startup_runs reliable NoArg true 3 ral_init eq_refl)) as (l & E).
  eexists. split; [eapply reachable_start, E|].
  apply (@session_respected reliable). eapply reachable_start, E.
Defined.

Lemma request_confirmed_witness :
  exists s' len bs rc evs m,
    @process_mih_command reliable (RecvOk capability_request odtone 16) ral_init = Some (0, s') /\
    trace s' = (trace ral_init ++ EvSend odtone len bs rc :: evs)%list /\
    decode bs = Some m /\ m_opcode m = OP_CONFIRM /\
    mid_of (m_sid m) OP_REQUEST (m_aid m) = 20 * 256 + 1 /\ m_tid m = 7 /\ bs = encode m.
Proof.
  edestruct (@request_confirmed reliable capability_request odtone 16 ral_init) as (s' & len & bs & rc & evs & m & p & H1 & H2 & H3 & H4 & H5 & H6 & H7 & H8 & _);
    [| | | |exists s', len, bs, rc, evs, m; split_and!; [exact H1 | exact H2 | exact H3 | exact H4 | exact H5 | exact H6 | apply H8; vm_compute in H7; injection H7 as <-; discriminate]].
  - split; [by left | by right].
  - repeat constructor; unfold byte_ok; lia.
  - intros [Hc _]. discriminate Hc.
  - discriminate.
Defined.

Lemma main_serves_witness :
  exists l, @main reliable NoArg true 3 [SelectTimeout; SelectReadable (RecvOk capability_request odtone 16); SelectError] ral_init =
    Some (Some 0, set_log l (@respond reliable (RecvOk capability_request odtone 16) (@started reliable NoArg ral_init))).
Proof.
  apply (proj1 (@main_serves reliable NoArg true 3
    [SelectTimeout; SelectReadable (RecvOk capability_request odtone 16); SelectError] eq_refl)); [reflexivity|].
  split; [|exact I]. intros [Hc _]. discriminate Hc.
Defined.
