(* ===== verification/MosOptions.v ===== *)
(** * The MIH server options of the DHCP client

    [hex_to_ipv4] and [decode_mih_options] of client/dhclient.c, [hex_to_ipv6] and
    [decode_mih6_options] of client/dhc6.c: the client takes the addresses and
    names of mobility servers out of a DHCP reply and hands them to its caller.

    The options of a packet are given as the data of each sub-option of the two
    universes the functions look in.  A result [None] stands for an access outside
    the option's data, outside the static text buffer or outside the 256 bytes
    allocated for a name. *)

From S2P Require Import Prelude CFormat.

Local Open Scope string_scope.
Local Open Scope Z_scope.

Definition MoS_IS : Z := 1.
Definition MoS_CS : Z := 2.
Definition MoS_ES : Z := 3.
Definition MoS_END : Z := 4.
Definition FQDN_MAX_SIZE : nat := 256.

(** One entry of the list handed to the callback; the [next] pointers are the
    order of the list. *)
Record mih_options := { mo_id : list Z; mo_ip : list Z; mo_port : Z; mo_service : Z }.

(** ** C strings in a buffer *)

Fixpoint strlen (l : list Z) : option nat :=
  match l with
  | [] => None
  | b :: l => if b =? 0 then Some O else S <$> strlen l
  end.

(** [strdup(buf)]: the bytes before the first NUL. *)
Definition strdup (buf : list Z) : option (list Z) := n ← strlen buf; Some (take n buf).

(** [sprintf(s, ...)] with [s] at offset [s] of [buf]. *)
Definition print_at (buf : list Z) (s : nat) (text : string) : option (list Z) :=
  splice s (bytes_of_string text ++ [0])%list buf.

(** ** Addresses *)

Fixpoint hex_to_ipv4_loop (data : list Z) (i n : nat) (buf : list Z) (s : nat) : option (list Z * nat) :=
  match n with
  | O => Some (buf, s)
  | S n =>
      b ← data !! i;
      buf ← (if b <? 10 then print_at buf s (sprintf "%01d" [b]) else Some buf);
      buf ← (if (10 <=? b) && (b <? 100) then print_at buf s (sprintf "%02d" [b]) else Some buf);
      buf ← (if 100 <=? b then print_at buf s (sprintf "%03d" [b]) else Some buf);
      k ← strlen (drop s buf);
      let s := (s + k)%nat in
      buf ← splice s [46] buf;
      hex_to_ipv4_loop data (S i) n buf (S s)
  end.

(** [data] is the option's data from the pointer argument on; the result is the
    new contents of [buf]. *)
Definition hex_to_ipv4 (buf data : list Z) (len : nat) : option (list Z) :=
  match len with
  | O => splice 0 [0] buf
  | _ => '(buf, s) ← hex_to_ipv4_loop data 0 len buf 0; splice (s - 1) [0] buf
  end.

(** [static char buf[7]] *)
Definition ipv4_buf_size : nat := 7.

Fixpoint hex_to_ipv6_loop (data : list Z) (i n : nat) (buf : list Z) (s : nat) : option (list Z * nat) :=
  match n with
  | O => Some (buf, s)
  | S n =>
      b ← data !! i;
      buf ← print_at buf s (sprintf "%02x" [b]);
      k ← strlen (drop s buf);
      let s := (s + k)%nat in
      if ((i + 1) mod 2 =? 0)%nat
      then buf ← splice s [58] buf; hex_to_ipv6_loop data (S i) n buf (S s)
      else hex_to_ipv6_loop data (S i) n buf s
  end.

Definition hex_to_ipv6 (buf data : list Z) (len : nat) : option (list Z) :=
  match len with
  | O => splice 0 [0] buf
  | _ => '(buf, s) ← hex_to_ipv6_loop data 0 len buf 0; splice (s - 1) [0] buf
  end.

(** [static char buf[40]] *)
Definition ipv6_buf_size : nat := 40.

(** ** Names *)

(** [*ptr = c; ++ptr] into the allocated string, of which [str] is written. *)
Definition push (c : Z) (str : list Z) : option (list Z) :=
  if (length str <? FQDN_MAX_SIZE)%nat then Some (str ++ [c])%list else None.

(** The inner loop: copy [nlen] bytes of the option from [j] on. *)
Fixpoint copy_label (data : list Z) (j nlen : nat) (str : list Z) : option (nat * list Z) :=
  match nlen with
  | O => Some (j, str)
  | S nlen => b ← data !! j; str ← push b str; copy_label data (S j) nlen str
  end.

(** The labels up to the empty one, each followed by a dot; [fuel] bounds the
    number of labels. *)
Fixpoint copy_labels (fuel : nat) (data : list Z) (j : nat) (str : list Z) : option (nat * list Z) :=
  match fuel with
  | O => None
  | S fuel =>
      b ← data !! j;
      if b =? 0 then Some (j, str)
      else '(j, str) ← copy_label data (S j) (Z.to_nat b) str;
           str ← push 46 str;
           copy_labels fuel data j str
  end.

(** One name: the position behind it, and the string with the last dot replaced
    by a NUL. *)
Definition parse_fqdn (data : list Z) (j : nat) : option (nat * list Z) :=
  '(j, str) ← copy_labels (S (length data)) data j [];
  match str with
  | [] => None
  | _ => id ← strdup (removelast str ++ [0])%list; Some (S j, id)
  end.

(** [for (j = 0; j < ds.len; )]: every round consumes at least one byte. *)
Fixpoint fqdn_loop (fuel : nat) (data : list Z) (j : nat) (service : Z) (head : list mih_options) :
  option (list mih_options) :=
  if (j <? length data)%nat then
    match fuel with
    | O => None
    | S fuel =>
        '(j, id) ← parse_fqdn data j;
        fqdn_loop fuel data j service
          (head ++ [{| mo_id := id; mo_ip := []; mo_port := 0; mo_service := service |}])%list
    end
  else Some head.

(** ** The option walk *)

(** The static buffer of the printing function and the list built so far. *)
Definition walk : Type := list Z * list mih_options.

(** [for (j = 0; j < ds.len; j += step)] over an address option; [hex] is the
    printing function. *)
Fixpoint address_loop (hex : list Z -> list Z -> option (list Z)) (step fuel : nat) (data : list Z) (j : nat)
    (service : Z) (w : walk) : option walk :=
  if (j <? length data)%nat then
    match fuel with
    | O => None
    | S fuel =>
        buf ← hex w.1 (drop j data);
        ip ← strdup buf;
        address_loop hex step fuel data (j + step) service
          (buf, w.2 ++ [{| mo_id := []; mo_ip := ip; mo_port := 4551; mo_service := service |}])%list
    end
  else Some w.

(** The data of the sub-options of one universe. *)
Definition universe := Z -> option (list Z).

(** One sub-option, if the packet has it. *)
Definition one_service (u : universe) (body : list Z -> Z -> walk -> option walk) (i : Z) (w : walk) : option walk :=
  match u i with Some data => body data i w | None => Some w end.

(** [for (i = 1; i < MoS_END; ++i)] *)
Fixpoint each_service (n : nat) (i : Z) (u : universe) (body : list Z -> Z -> walk -> option walk)
    (w : walk) : option walk :=
  match n with
  | O => Some w
  | S n =>
      w ← one_service u body i w;
      each_service n (i + 1) u body w
  end.

Definition services (u : universe) body w : option walk :=
  each_service (Z.to_nat (MoS_END - 1)) 1 u body w.

(** What the callback is given; [None] when it is not called. *)
Definition dispatch (head : list mih_options) : option (list mih_options) :=
  match head with [] => None | _ => Some head end.

Definition address_option hex step (data : list Z) (i : Z) (w : walk) : option walk :=
  if (3 <? length data)%nat then address_loop hex step (length data) data 0 i w else Some w.

Definition fqdn_option (data : list Z) (i : Z) (w : walk) : option walk :=
  if (0 <? length data)%nat
  then head ← fqdn_loop (length data) data 0 i w.2; Some (w.1, head) else Some w.

(** The static buffer afterwards, and the list the callback is given, if any. *)
Definition decode_options (hex : list Z -> list Z -> option (list Z)) (step : nat) (buf : list Z)
    (ips fqdns : universe) : option (list Z * option (list mih_options)) :=
  w ← services ips (address_option hex step) (buf, []);
  w ← services fqdns fqdn_option w;
  Some (w.1, dispatch w.2).

Definition decode_mih_options (buf : list Z) (mos_ip mos_fqdn : universe) :=
  decode_options (fun buf data => hex_to_ipv4 buf data 4) 4 buf mos_ip mos_fqdn.

Definition decode_mih6_options (buf : list Z) (mos_ip6 mos_fqdn6 : universe) :=
  decode_options (fun buf data => hex_to_ipv6 buf data 16) 16 buf mos_ip6 mos_fqdn6.

Example ipv6_example :
  (b ← hex_to_ipv6 (replicate ipv6_buf_size 7) [32; 1; 13; 184; 0; 0; 0; 0; 0; 0; 0; 0; 0; 0; 0; 1] 16; strdup b)
  = Some (bytes_of_string "2001:0db8:0000:0000:0000:0000:0000:0001").
Proof. reflexivity. Qed.

Example ipv4_example :
  (b ← hex_to_ipv4 (replicate 16 7) [255; 255; 255; 255; 9] 4; strdup b) = Some (bytes_of_string "255.255.255.255").
Proof. reflexivity. Qed.

Example fqdn_example :
  snd <$> decode_mih6_options (replicate 40 0) (fun _ => None)
    (fun i => if i =? MoS_CS then Some [3; 109; 111; 115; 2; 112; 116; 0; 1; 120; 0] else None)
  = Some (Some [{| mo_id := bytes_of_string "mos.pt"; mo_ip := []; mo_port := 0; mo_service := 2 |};
                {| mo_id := bytes_of_string "x"; mo_ip := []; mo_port := 0; mo_service := 2 |}]).
Proof. reflexivity. Qed.

(** ** C strings *)

Lemma strlen_app t r : nonul t -> strlen (t ++ 0 :: r) = Some (length t).
Proof.
  induction 1 as [|b t Hb _ IH]; simpl; [reflexivity|].
  rewrite (proj2 (Z.eqb_neq _ _)) by assumption. rewrite IH. reflexivity.
Qed.

Lemma strdup_app t r : nonul t -> strdup (t ++ 0 :: r) = Some t.
Proof. intros. unfold strdup. rewrite strlen_app by assumption. simpl. rewrite take_app_length. reflexivity. Qed.

Lemma print_at_spec n done buf text :
  holds n done buf -> nonul (bytes_of_string text) ->
  (length done + String.length text < n)%nat ->
  exists buf', print_at buf (length done) text = Some buf' /\
    strlen (drop (length done) buf') = Some (String.length text) /\
    holds n (done ++ bytes_of_string text) buf'.
Proof.
  intros (rest & -> & Hn) Ht Hl. unfold print_at. rewrite <- length_bytes_of_string in *.
  set (t := bytes_of_string text) in *. rewrite length_app in Hn.
  rewrite <- (take_drop (length (t ++ [0])) rest).
  rewrite splice_app by (rewrite length_take, length_app; simpl; lia).
  eexists. split; [reflexivity|]. rewrite <- (app_assoc t). split.
  - rewrite drop_app_length. simpl. by apply strlen_app.
  - exists (0 :: drop (length (t ++ [0])) rest). split; [by rewrite <- !app_assoc|].
    rewrite !length_app in *. simpl. rewrite length_drop. simpl. lia.
Qed.

Lemma print_at_None n done buf text :
  holds n done buf -> (n <= length done + String.length text)%nat ->
  print_at buf (length done) text = None.
Proof.
  intros (rest & -> & Hn) Hl. unfold print_at. apply splice_None.
  rewrite Hn, length_app, length_bytes_of_string. simpl. lia.
Qed.

(** Replacing the last character by a NUL leaves the text without it. *)
Lemma finish_text n done c buf :
  holds n (done ++ [c]) buf -> nonul done ->
  exists buf', splice (length (done ++ [c]) - 1) [0] buf = Some buf' /\
    length buf' = n /\ strdup buf' = Some done.
Proof.
  intros (rest & -> & Hn) Hd. rewrite length_app. simpl. rewrite Nat.add_sub.
  rewrite <- app_assoc, splice_app by reflexivity. eexists. split; [reflexivity|].
  split; [|by apply strdup_app]. rewrite <- Hn, !length_app. simpl. lia.
Qed.

(** ** IPv4 *)

Definition decimal_bytes (b : Z) : list Z := bytes_of_string (decimal b).

(** The text the function means to write. *)
Definition dotted (data : list Z) : list Z := concat (map (fun b => decimal_bytes b ++ [46])%list data).

Lemma decimal_byte b :
  byte_ok b -> nonul (decimal_bytes b) /\ (1 <= length (decimal_bytes b) <= 3)%nat.
Proof.
  intros Hb. apply (byte_forall (fun b => bool_decide (nonul (decimal_bytes b) /\
    (1 <= length (decimal_bytes b) <= 3)%nat))) in Hb; [|vm_compute; reflexivity].
  by apply bool_decide_eq_true in Hb.
Qed.

(** The three conditional prints amount to one. *)
Lemma print_octet {A} b buf s (k : list Z -> option A) :
  byte_ok b ->
  (buf ← (if b <? 10 then print_at buf s (sprintf "%01d" [b]) else Some buf);
   buf ← (if (10 <=? b) && (b <? 100) then print_at buf s (sprintf "%02d" [b]) else Some buf);
   buf ← (if 100 <=? b then print_at buf s (sprintf "%03d" [b]) else Some buf);
   k buf)
  = (buf ← print_at buf s (decimal b); k buf).
Proof.
  intros Hb. apply (byte_forall (fun b => bool_decide (
    sprintf (if b <? 10 then "%01d" else if b <? 100 then "%02d" else "%03d") [b] = decimal b))) in Hb;
    [|vm_compute; reflexivity]. apply bool_decide_eq_true in Hb. revert Hb.
  destruct (Z.ltb_spec b 10), (Z.ltb_spec b 100), (Z.leb_spec 10 b), (Z.leb_spec 100 b); try lia; simpl; intros ->;
    by destruct (print_at buf s (decimal b)).
Qed.

Lemma dotted_cons b data : dotted (b :: data) = (decimal_bytes b ++ [46] ++ dotted data)%list.
Proof. unfold dotted. simpl. by rewrite <- app_assoc. Qed.

(** The loop writes the dotted text when the buffer has room for it, and leaves
    the buffer otherwise. *)
Lemma ipv4_loop_spec n data i cap done buf :
  bytes_ok data -> (i + n <= length data)%nat -> holds cap done buf ->
  let t := dotted (take n (drop i data)) in
  ((length done + length t <= cap)%nat ->
   exists buf', hex_to_ipv4_loop data i n buf (length done) = Some (buf', length (done ++ t)) /\
     holds cap (done ++ t) buf') /\
  ((cap < length done + length t)%nat -> hex_to_ipv4_loop data i n buf (length done) = None).
Proof.
  revert i done buf. induction n as [|n IH]; intros i done buf Hd Hi Hb; cbv zeta.
  - rewrite app_nil_r. split; [intros _; exists buf; split; [reflexivity | exact Hb]|].
    simpl. destruct Hb as (rest & -> & <-). rewrite length_app. lia.
  - destruct (lookup_lt_is_Some_2 data i ltac:(lia)) as (b & Hx). rewrite (drop_S _ _ _ Hx).
    cbn [hex_to_ipv4_loop take]. rewrite Hx. cbn [mbind option_bind].
    assert (byte_ok b) as Hok by (eapply Forall_lookup_1 in Hd; eauto).
    destruct (decimal_byte b Hok) as [Hnn Hlen]. rewrite print_octet by assumption.
    rewrite dotted_cons, !length_app. unfold decimal_bytes in *. rewrite length_bytes_of_string in *. simpl length.
    destruct (decide (length done + String.length (decimal b) < cap)%nat) as [Hr|Hr]; cycle 1.
    { rewrite (print_at_None cap) by (try assumption; lia). split; [lia | reflexivity]. }
    destruct (print_at_spec cap done buf (decimal b) Hb Hnn Hr) as (b1 & -> & E1 & H1).
    cbn [mbind option_bind]. rewrite E1. cbn [mbind option_bind].
    replace (length done + String.length (decimal b))%nat with (length (done ++ bytes_of_string (decimal b)))%nat
      by (rewrite length_app, length_bytes_of_string; reflexivity).
    destruct (splice_one cap _ _ 46 H1) as (b2 & -> & H2); [rewrite length_app, length_bytes_of_string; lia|].
    cbn [mbind option_bind]. destruct (IH (S i) _ b2 Hd ltac:(lia) H2) as [I1 I2]. clear IH.
    replace (S (length (done ++ bytes_of_string (decimal b))))
      with (length ((done ++ bytes_of_string (decimal b)) ++ [46])%list) by (rewrite !length_app; simpl; lia).
    split; intros Hc.
    + destruct I1 as (b3 & -> & H3); [rewrite !length_app, length_bytes_of_string; simpl; lia|].
      exists b3. rewrite <- !app_assoc in *. rewrite !length_app, length_bytes_of_string. split; [reflexivity | exact H3].
    + apply I2. rewrite !length_app, length_bytes_of_string. simpl. lia.
Qed.

Lemma dotted_nonul data : bytes_ok data -> nonul (dotted data).
Proof.
  induction 1 as [|b data Hb _ IH]; [constructor|]. rewrite dotted_cons.
  apply nonul_app; [by apply decimal_byte|]. apply nonul_app; [by repeat constructor | exact IH].
Qed.

Lemma dotted_last data : data <> [] -> exists u, dotted data = (u ++ [46])%list.
Proof.
  induction data as [|b data IH]; intros Hd; [congruence|]. rewrite dotted_cons.
  destruct data as [|c data]; [eexists; reflexivity|]. destruct IH as (u & ->); [discriminate|].
  exists (decimal_bytes b ++ [46] ++ u)%list. by rewrite <- !app_assoc.
Qed.

(** [hex_to_ipv4] on four octets needs one byte more than the text with a dot
    behind every octet. *)
Lemma hex_to_ipv4_spec buf data :
  bytes_ok data -> (4 <= length data)%nat ->
  let t := dotted (take 4 data) in
  ((length t <= length buf)%nat ->
   exists buf', hex_to_ipv4 buf data 4 = Some buf' /\ length buf' = length buf /\ strdup buf' = Some (removelast t)) /\
  ((length buf < length t)%nat -> hex_to_ipv4 buf data 4 = None).
Proof.
  intros Hd Hl t. unfold hex_to_ipv4.
  destruct (ipv4_loop_spec 4 data 0 (length buf) [] buf Hd Hl (holds_nil buf)) as [I1 I2].
  rewrite drop_0 in I1, I2. fold t in I1, I2. simpl length in I1, I2. cbn [app] in I1. split.
  - intros Hc. destruct (I1 Hc) as (b1 & -> & H1). cbn [mbind option_bind].
    assert (nonul t) as Ht by (apply dotted_nonul, Forall_take, Hd).
    destruct (dotted_last (take 4 data)) as (u & Et); [clear -Hl; destruct data; simpl in *; [lia | discriminate]|]. fold t in Et.
    rewrite Et in H1, Ht |- *. rewrite removelast_last. apply Forall_app in Ht as [Hu _].
    destruct (finish_text _ _ _ _ H1 Hu) as (b2 & -> & Hb2 & Hs). exists b2. auto.
  - intros Hc. rewrite (I2 Hc). reflexivity.
Qed.

(** ** IPv6 *)

Definition hex_bytes (b : Z) : list Z := bytes_of_string (sprintf "%02x" [b]).

(** The octets in pairs, a colon behind each pair. *)
Fixpoint coloned (data : list Z) : list Z :=
  match data with
  | a :: b :: data => (hex_bytes a ++ hex_bytes b ++ [58] ++ coloned data)%list
  | _ => []
  end.

(** Reading such a text. *)
Fixpoint read_coloned (l : list Z) : option (list Z) :=
  match l with
  | [] => Some []
  | h1 :: l1 :: h2 :: l2 :: 58 :: l =>
      h1 ← hex_digit h1; l1 ← hex_digit l1; h2 ← hex_digit h2; l2 ← hex_digit l2;
      rest ← read_coloned l;
      Some (16 * h1 + l1 :: 16 * h2 + l2 :: rest)
  | _ => None
  end.

Lemma hex_byte b :
  byte_ok b -> nonul (hex_bytes b) /\
  exists h l dh dl, hex_bytes b = [h; l] /\ hex_digit h = Some dh /\ hex_digit l = Some dl /\ 16 * dh + dl = b.
Proof.
  intros Hb. apply (byte_forall (fun b => bool_decide (nonul (hex_bytes b)) &&
    match hex_bytes b with
    | [h; l] => match hex_digit h, hex_digit l with Some dh, Some dl => 16 * dh + dl =? b | _, _ => false end
    | _ => false end)) in Hb; [|vm_compute; reflexivity].
  apply andb_prop in Hb as [Hn%bool_decide_eq_true Hd]. split; [exact Hn|].
  destruct (hex_bytes b) as [|h [|l [|]]]; try discriminate.
  destruct (hex_digit h) as [dh|] eqn:Eh, (hex_digit l) as [dl|] eqn:El; try discriminate.
  apply Z.eqb_eq in Hd. exists h, l, dh, dl. auto.
Qed.

Lemma hex_bytes_length b : byte_ok b -> String.length (sprintf "%02x" [b]) = 2%nat.
Proof.
  intros Hb. destruct (hex_byte b Hb) as (_ & h & l & dh & dl & E & _).
  rewrite <- length_bytes_of_string. fold (hex_bytes b). rewrite E. reflexivity.
Qed.

(** What one octet adds. *)
Lemma ipv6_step data i n cap done buf b :
  data !! i = Some b -> byte_ok b -> holds cap done buf -> (length done + 2 < cap)%nat ->
  exists buf', holds cap (done ++ hex_bytes b) buf' /\
    hex_to_ipv6_loop data i (S n) buf (length done) =
      if ((i + 1) mod 2 =? 0)%nat
      then buf ← splice (length (done ++ hex_bytes b)) [58] buf';
           hex_to_ipv6_loop data (S i) n buf (S (length (done ++ hex_bytes b)))
      else hex_to_ipv6_loop data (S i) n buf' (length (done ++ hex_bytes b)).
Proof.
  intros Hx Hb Hh Hl. cbn [hex_to_ipv6_loop]. rewrite Hx. cbn [mbind option_bind].
  destruct (print_at_spec cap done buf (sprintf "%02x" [b]) Hh) as (b1 & E & Es & H1);
    [apply hex_byte, Hb | rewrite hex_bytes_length by assumption; exact Hl|].
  exists b1. split; [exact H1|]. rewrite E. cbn [mbind option_bind]. rewrite Es. cbn [mbind option_bind].
  rewrite length_app. unfold hex_bytes. rewrite length_bytes_of_string. reflexivity.
Qed.

Lemma ipv6_loop_spec m data i cap done buf :
  bytes_ok data -> (2 * i + 2 * m <= length data)%nat -> holds cap done buf ->
  let t := coloned (take (2 * m) (drop (2 * i) data)) in
  length t = (5 * m)%nat /\
  ((length done + 5 * m <= cap)%nat ->
   exists buf', hex_to_ipv6_loop data (2 * i) (2 * m) buf (length done) = Some (buf', length (done ++ t)) /\
     holds cap (done ++ t) buf').
Proof.
  revert i done buf. induction m as [|m IH]; intros i done buf Hd Hi Hb; cbv zeta.
  - split; [reflexivity|]. intros _. exists buf. rewrite app_nil_r. split; [reflexivity | exact Hb].
  - destruct (lookup_lt_is_Some_2 data (2 * i) ltac:(lia)) as (a & Ha).
    destruct (lookup_lt_is_Some_2 data (S (2 * i)) ltac:(lia)) as (b & Hb').
    assert (byte_ok a) as Oa by (eapply Forall_lookup_1 in Hd; [exact Hd | exact Ha]).
    assert (byte_ok b) as Ob by (eapply Forall_lookup_1 in Hd; [exact Hd | exact Hb']).
    replace (2 * S m)%nat with (S (S (2 * m))) by lia.
    rewrite (drop_S _ _ _ Ha), (drop_S _ _ _ Hb'). cbn [take coloned].
    replace (S (S (2 * i))) with (2 * S i)%nat by lia.
    pose proof (fun done buf => IH (S i) done buf Hd ltac:(lia)) as IH'. cbv zeta in IH'. clear IH.
    assert (length (hex_bytes a) = 2%nat) as La by (unfold hex_bytes; by rewrite length_bytes_of_string, hex_bytes_length).
    assert (length (hex_bytes b) = 2%nat) as Lb by (unfold hex_bytes; by rewrite length_bytes_of_string, hex_bytes_length).
    split; [rewrite !length_app, La, Lb, (proj1 (IH' done buf Hb)); simpl; lia|]. intros Hc.
    destruct (ipv6_step data (2 * i) (S (2 * m)) cap done buf a Ha Oa Hb ltac:(lia)) as (b1 & H1 & ->).
    rewrite (proj2 (Nat.eqb_neq ((2 * i + 1) mod 2) 0))
      by (rewrite Nat.mul_comm, Nat.add_comm, Nat.Div0.mod_add; discriminate).
    destruct (ipv6_step data (S (2 * i)) (2 * m) cap _ b1 b Hb' Ob H1) as (b2 & H2 & ->);
      [rewrite length_app, La; lia|].
    rewrite (proj2 (Nat.eqb_eq ((S (2 * i) + 1) mod 2) 0))
      by (replace (S (2 * i) + 1)%nat with ((S i) * 2)%nat by lia; apply Nat.Div0.mod_mul).
    destruct (splice_one cap _ _ 58 H2) as (b3 & -> & H3); [rewrite !length_app, La, Lb; lia|].
    cbn [mbind option_bind]. destruct (IH' _ _ H3) as [_ I].
    replace (S (length ((done ++ hex_bytes a) ++ hex_bytes b)))
      with (length (((done ++ hex_bytes a) ++ hex_bytes b) ++ [58])%list) by (rewrite !length_app; simpl; lia).
    replace (S (S (2 * i))) with (2 * S i)%nat by lia.
    destruct I as (b4 & -> & H4); [rewrite !length_app, La, Lb; simpl; lia|].
    exists b4. rewrite <- !app_assoc in *. split; [reflexivity | exact H4].
Qed.

Lemma coloned_shape data :
  bytes_ok data -> nonul (coloned data) /\ (coloned data <> [] -> exists u, coloned data = (u ++ [58])%list).
Proof.
  enough (forall n data, (length data <= n)%nat -> bytes_ok data ->
    nonul (coloned data) /\ (coloned data <> [] -> exists u, coloned data = (u ++ [58])%list)) as K by eauto.
  clear data. induction n as [|n IH]; intros [|a [|b data]] Hn Hd; simpl in *; try lia;
    try (split; [constructor | congruence]).
  inversion Hd as [|? ? Ha Hd1]; subst. inversion Hd1 as [|? ? Hb Hd2]; subst.
  destruct (IH data ltac:(lia) Hd2) as [N L]. split.
  - apply nonul_app; [by apply hex_byte|]. apply nonul_app; [by apply hex_byte|]. constructor; [discriminate | exact N].
  - intros _. destruct (coloned data) as [|x t]; [exists (hex_bytes a ++ hex_bytes b)%list; by rewrite <- app_assoc|].
    destruct L as (u & ->); [discriminate|]. exists (hex_bytes a ++ hex_bytes b ++ 58 :: u)%list.
    by rewrite <- !app_assoc.
Qed.

(** Reading the text back gives the octets. *)
Lemma read_coloned_coloned m data :
  bytes_ok data -> length data = (2 * m)%nat -> read_coloned (coloned data) = Some data.
Proof.
  revert data. induction m as [|m IH]; intros [|a [|b data]] Hd Hl; simpl in Hl; try lia; [reflexivity|].
  inversion Hd as [|? ? Ha Hd1]; subst. inversion Hd1 as [|? ? Hb Hd2]; subst. cbn [coloned].
  destruct (hex_byte a Ha) as (_ & h & l & dh & dl & -> & Eh & El & Ea).
  destruct (hex_byte b Hb) as (_ & h' & l' & dh' & dl' & -> & Eh' & El' & Eb).
  cbn [app read_coloned]. rewrite Eh, El, Eh', El'. cbn [mbind option_bind]. rewrite IH by (try assumption; lia).
  cbn [mbind option_bind]. rewrite Ea, Eb. reflexivity.
Qed.

(** The text of one address. *)
Definition ipv6_text (a : list Z) : list Z := removelast (coloned a).

Lemma ipv6_text_reads a :
  bytes_ok a -> length a = 16%nat -> read_coloned (ipv6_text a ++ [58]) = Some a.
Proof.
  intros Ha Hl. unfold ipv6_text. destruct (coloned_shape a Ha) as [_ L].
  destruct L as (u & E); [destruct a as [|x [|y a]]; try discriminate; cbn [coloned];
    intros F; apply app_eq_nil in F as [_ F]; apply app_eq_nil in F as [_ F]; discriminate|].
  rewrite E, removelast_last, <- E. by apply (read_coloned_coloned 8).
Qed.

Lemma hex_to_ipv6_spec buf data :
  bytes_ok data -> (16 <= length data)%nat -> length buf = ipv6_buf_size ->
  exists buf', hex_to_ipv6 buf data 16 = Some buf' /\ length buf' = ipv6_buf_size /\
    strdup buf' = Some (ipv6_text (take 16 data)).
Proof.
  intros Hd Hl Hb. unfold hex_to_ipv6.
  destruct (ipv6_loop_spec 8 data 0 (length buf) [] buf Hd Hl (holds_nil buf)) as [Ht I].
  change (2 * 8)%nat with 16%nat in *. change (2 * 0)%nat with 0%nat in *. rewrite drop_0 in Ht, I.
  destruct I as (b1 & E & H1); [rewrite Hb; vm_compute; lia|]. cbn [length app] in E, H1. rewrite E. cbn [mbind option_bind].
  destruct (coloned_shape (take 16 data)) as [N L]; [by apply Forall_take|].
  destruct L as (u & Eu); [intros F; rewrite F in Ht; discriminate|].
  unfold ipv6_text. rewrite Eu in H1, N |- *. rewrite removelast_last. apply Forall_app in N as [Hu _].
  destruct (finish_text _ _ _ _ H1 Hu) as (b2 & -> & Hb2 & Hs). exists b2. rewrite Hb2. auto.
Qed.

Lemma hex_to_ipv6_short buf data : (length data < 16)%nat -> hex_to_ipv6 buf data 16 = None.
Proof.
  intros Hl. unfold hex_to_ipv6.
  enough (forall n i buf s, (length data < i + n)%nat -> hex_to_ipv6_loop data i n buf s = None \/ n = 0%nat) as K.
  { destruct (K 16%nat 0%nat buf 0%nat ltac:(lia)) as [-> | ?]; [reflexivity | lia]. }
  clear. induction n as [|n IH]; intros i buf s Hn; [by right|]. left. cbn [hex_to_ipv6_loop].
  destruct (data !! i) as [b|] eqn:E; [|reflexivity]. apply lookup_lt_Some in E. cbn [mbind option_bind].
  destruct (print_at _ _ _) as [b1|]; [|reflexivity]. cbn [mbind option_bind].
  destruct (strlen _) as [k|]; [|reflexivity]. cbn [mbind option_bind].
  assert (n <> 0%nat) as Hn0 by lia.
  destruct (_ =? 0)%nat; [destruct (splice _ _ _) as [b2|]; [|reflexivity]; cbn [mbind option_bind]|];
    match goal with |- hex_to_ipv6_loop _ _ _ ?b ?s = _ => destruct (IH (S i) b s ltac:(lia)) end; [assumption | lia | assumption | lia].
Qed.

(** ** Address options *)

Fixpoint chunks (step k : nat) (l : list Z) : list (list Z) :=
  match k with
  | O => []
  | S k => take step l :: chunks step k (drop step l)
  end.

Definition address_entry (service : Z) (ip : list Z) : mih_options :=
  {| mo_id := []; mo_ip := ip; mo_port := 4551; mo_service := service |}.

Lemma address_loop_spec k fuel data j service buf head :
  length data = (j + k * 16)%nat -> (k <= fuel)%nat -> bytes_ok data -> length buf = ipv6_buf_size ->
  exists buf', length buf' = ipv6_buf_size /\
    address_loop (fun buf data => hex_to_ipv6 buf data 16) 16 fuel data j service (buf, head) =
    Some (buf', head ++ map (fun a => address_entry service (ipv6_text a)) (chunks 16 k (drop j data)))%list.
Proof.
  revert fuel j buf head. induction k as [|k IH]; intros fuel j buf head Hl Hf Hd Hb.
  - exists buf. split; [exact Hb|]. destruct fuel; cbn [address_loop]; rewrite (proj2 (Nat.ltb_ge _ _)) by lia;
      rewrite app_nil_r; reflexivity.
  - destruct fuel as [|fuel]; [lia|]. cbn [address_loop]. rewrite (proj2 (Nat.ltb_lt _ _)) by lia.
    destruct (hex_to_ipv6_spec buf (drop j data)) as (b1 & E & Hb1 & Es);
      [by apply Forall_drop | rewrite length_drop; lia | exact Hb|].
    cbn [fst snd]. rewrite E. cbn [mbind option_bind]. rewrite Es. cbn [mbind option_bind].
    destruct (IH fuel (j + 16)%nat b1 (head ++ [address_entry service (ipv6_text (take 16 (drop j data)))])%list)
      as (b2 & Hb2 & E2); [lia | lia | exact Hd | exact Hb1|].
    exists b2. split; [exact Hb2|]. unfold address_entry in E2 at 1. rewrite E2, <- app_assoc. cbn [chunks map app].
    rewrite drop_drop. reflexivity.
Qed.

Lemma chunks_concat l :
  Forall (fun a => length a = 16%nat) l ->
  length (concat l) = (length l * 16)%nat /\ chunks 16 (length l) (concat l) = l.
Proof.
  induction 1 as [|a l Ha _ [IH1 IH2]]; [by split|]. cbn [concat length chunks]. rewrite length_app, Ha, IH1.
  split; [lia|]. rewrite take_app_length', drop_app_length' by congruence. rewrite IH2. reflexivity.
Qed.

(** An address option made of whole addresses. *)
Lemma address_option_spec addrs service buf head :
  Forall (fun a => length a = 16%nat /\ bytes_ok a) addrs -> length buf = ipv6_buf_size ->
  exists buf', length buf' = ipv6_buf_size /\
    address_option (fun buf data => hex_to_ipv6 buf data 16) 16 (concat addrs) service (buf, head) =
    Some (buf', head ++ map (fun a => address_entry service (ipv6_text a)) addrs)%list.
Proof.
  intros Ha Hb. apply Forall_and in Ha as [Hl Ho]. destruct (chunks_concat addrs Hl) as [L C].
  unfold address_option. destruct (Nat.ltb_spec 3 (length (concat addrs))) as [H3|H3].
  - destruct (address_loop_spec (length addrs) (length (concat addrs)) (concat addrs) 0 service buf head)
      as (b & Hb' & E); [lia | lia | by apply Forall_concat | exact Hb|].
    exists b. split; [exact Hb'|]. rewrite E, drop_0, C. reflexivity.
  - rewrite L in H3. destruct addrs; [|simpl in H3; lia]. exists buf. rewrite app_nil_r. auto.
Qed.

(** ** Names on the wire *)

(** A label: 1 to 255 bytes, none of them NUL. *)
Definition label_wf (l : list Z) : Prop := nonul l /\ (1 <= length l <= 255)%nat.

(** Each label behind its length, then an empty label. *)
Definition encode_labels (ls : list (list Z)) : list Z :=
  concat (map (fun l => Z.of_nat (length l) :: l) ls).
Definition encode_name (ls : list (list Z)) : list Z := (encode_labels ls ++ [0])%list.

Definition dot_labels (ls : list (list Z)) : list Z := concat (map (fun l => l ++ [46])%list ls).

(** The labels with dots between them. *)
Definition name_text (ls : list (list Z)) : list Z := removelast (dot_labels ls).

(** A name the client has room for. *)
Definition name_wf (ls : list (list Z)) : Prop :=
  ls <> [] /\ Forall label_wf ls /\ (length (dot_labels ls) <= FQDN_MAX_SIZE)%nat.

#[export] Instance name_wf_dec ls : Decision (name_wf ls).
Proof. unfold name_wf, label_wf. apply _. Defined.

Lemma push_spec c str : (length str < FQDN_MAX_SIZE)%nat -> push c str = Some (str ++ [c])%list.
Proof. intros. unfold push. rewrite (proj2 (Nat.ltb_lt _ _)) by assumption. reflexivity. Qed.

Lemma copy_label_spec pre l post str :
  (length str + length l <= FQDN_MAX_SIZE)%nat ->
  copy_label (pre ++ l ++ post) (length pre) (length l) str = Some (length (pre ++ l), str ++ l)%list.
Proof.
  revert pre str. induction l as [|c l IH]; intros pre str Hl; cbn [copy_label length app].
  - rewrite !app_nil_r. reflexivity.
  - simpl in Hl. rewrite lookup_app_r by lia. rewrite Nat.sub_diag. cbn [lookup list_lookup mbind option_bind].
    rewrite push_spec by lia. cbn [mbind option_bind].
    specialize (IH (pre ++ [c])%list (str ++ [c])%list). rewrite !length_app, <- !app_assoc in IH. simpl in IH.
    replace (S (length pre)) with (length pre + 1)%nat by lia. rewrite IH by lia.
    rewrite length_app. simpl. do 2 f_equal. lia.
Qed.

Lemma copy_labels_spec ls fuel pre post str :
  Forall label_wf ls -> (length ls < fuel)%nat -> (length str + length (dot_labels ls) <= FQDN_MAX_SIZE)%nat ->
  copy_labels fuel (pre ++ encode_name ls ++ post) (length pre) str =
  Some (length (pre ++ encode_labels ls), str ++ dot_labels ls)%list.
Proof.
  intros Hw. revert fuel pre str. induction Hw as [|l ls [Hn Hl] _ IH]; intros fuel pre str Hf Hs;
    (destruct fuel as [|fuel]; [simpl in Hf; lia|]); cbn [copy_labels].
  - rewrite lookup_app_r by lia. rewrite Nat.sub_diag. cbn. rewrite !app_nil_r. reflexivity.
  - unfold encode_name, encode_labels, dot_labels in *. cbn [map concat] in *.
    set (rest := concat (map (fun l => Z.of_nat (length l) :: l) ls)) in *.
    rewrite !length_app in Hs. simpl in Hs, Hf.
    rewrite lookup_app_r by lia. rewrite Nat.sub_diag. cbn [app lookup list_lookup mbind option_bind].
    rewrite (proj2 (Z.eqb_neq _ _)) by lia. rewrite Nat2Z.id.
    pose proof (copy_label_spec (pre ++ [Z.of_nat (length l)]) l (rest ++ [0] ++ post) str ltac:(lia)) as C.
    rewrite length_app in C. cbn [length] in C. rewrite Nat.add_1_r in C. rewrite <- !app_assoc in C. cbn [app] in C.
    rewrite <- !app_assoc. cbn [app]. rewrite C. cbn [mbind option_bind].
    rewrite push_spec by (rewrite length_app; lia). cbn [mbind option_bind].
    specialize (IH fuel (pre ++ Z.of_nat (length l) :: l)%list ((str ++ l) ++ [46])%list ltac:(lia)).
    rewrite <- !app_assoc in IH. cbn [app] in IH. rewrite <- !app_assoc. cbn [app].
    rewrite IH by (rewrite !length_app; simpl; lia). reflexivity.
Qed.

Lemma dot_labels_shape ls :
  Forall label_wf ls -> nonul (dot_labels ls) /\ (ls <> [] -> exists u, dot_labels ls = (u ++ [46])%list).
Proof.
  unfold dot_labels. induction 1 as [|l ls [Hn Hl] _ [IH1 IH2]]; [split; [constructor | congruence]|]. cbn [map concat].
  split; [apply nonul_app; [apply nonul_app; [exact Hn | by repeat constructor] | exact IH1]|].
  intros _. destruct ls as [|l' ls]; [exists l; by rewrite app_nil_r|].
  destruct IH2 as (u & ->); [discriminate|]. exists ((l ++ [46]) ++ u)%list. by rewrite app_assoc.
Qed.

Lemma length_encode_labels ls : (length ls <= length (encode_labels ls))%nat.
Proof. unfold encode_labels. induction ls as [|l ls IH]; simpl; [lia|]. rewrite length_app. lia. Qed.

(** A well-formed name is read back, whatever is around it. *)
Lemma parse_fqdn_spec ls pre post :
  name_wf ls ->
  parse_fqdn (pre ++ encode_name ls ++ post) (length pre) = Some (length (pre ++ encode_name ls), name_text ls).
Proof.
  intros (Hne & Hw & Hl). unfold parse_fqdn. pose proof (length_encode_labels ls).
  rewrite copy_labels_spec; [| exact Hw | unfold encode_name; rewrite !length_app; lia | exact Hl].
  cbn [mbind option_bind app]. destruct (dot_labels_shape ls Hw) as [Hn Hu]. destruct (Hu Hne) as (u & E).
  unfold name_text. rewrite E in Hn |- *. apply Forall_app in Hn as [Hn _].
  destruct (u ++ [46])%list as [|x t] eqn:E'; [by destruct u|]. rewrite <- E', removelast_last.
  change [0] with (0 :: [])%list. rewrite strdup_app by assumption. cbn [mbind option_bind].
  unfold encode_name. rewrite !length_app. simpl. do 2 f_equal. lia.
Qed.

(** Whatever is copied fits the allocated string. *)
Lemma push_fits c str str' : push c str = Some str' -> (length str' <= FQDN_MAX_SIZE)%nat.
Proof.
  unfold push. destruct (Nat.ltb_spec (length str) FQDN_MAX_SIZE); intros; simplify_eq. rewrite length_app. simpl. lia.
Qed.

Lemma copy_label_None data j n str :
  (FQDN_MAX_SIZE < length str + n)%nat -> (length str <= FQDN_MAX_SIZE)%nat -> copy_label data j n str = None.
Proof.
  revert j str. induction n as [|n IH]; intros j str Hl Hs; [lia|]. cbn [copy_label].
  destruct (data !! j) as [b|]; [|reflexivity]. cbn [mbind option_bind]. unfold push.
  destruct (Nat.ltb_spec (length str) FQDN_MAX_SIZE); [|reflexivity]. cbn [mbind option_bind].
  apply IH; rewrite length_app; simpl; lia.
Qed.

Lemma copy_labels_None ls fuel pre post str :
  Forall label_wf ls -> (length str <= FQDN_MAX_SIZE)%nat -> (FQDN_MAX_SIZE < length str + length (dot_labels ls))%nat ->
  copy_labels fuel (pre ++ encode_name ls ++ post) (length pre) str = None.
Proof.
  intros Hw. revert fuel pre str. induction Hw as [|l ls [Hn Hl] _ IH]; intros fuel pre str Hs Hd;
    (destruct fuel as [|fuel]; [reflexivity|]); [simpl in Hd; lia|]. cbn [copy_labels].
  unfold encode_name, encode_labels, dot_labels in *. cbn [map concat] in *.
  set (rest := concat (map (fun l => Z.of_nat (length l) :: l) ls)) in *.
  rewrite !length_app in Hd. simpl in Hd.
  rewrite lookup_app_r by lia. rewrite Nat.sub_diag. cbn [app lookup list_lookup mbind option_bind].
  rewrite (proj2 (Z.eqb_neq _ _)) by lia. rewrite Nat2Z.id.
  destruct (decide (length str + length l <= FQDN_MAX_SIZE)%nat) as [Hf|Hf]; [|by rewrite copy_label_None by lia].
  pose proof (copy_label_spec (pre ++ [Z.of_nat (length l)]) l (rest ++ [0] ++ post) str Hf) as C.
  rewrite length_app in C. cbn [length] in C. rewrite Nat.add_1_r in C. rewrite <- !app_assoc in C. cbn [app] in C.
  rewrite <- !app_assoc. cbn [app]. rewrite C. cbn [mbind option_bind].
  destruct (push 46 (str ++ l)) as [s1|] eqn:E; [|reflexivity]. cbn [mbind option_bind].
  pose proof (push_fits _ _ _ E) as F. unfold push in E. destruct (_ <? _)%nat; [|discriminate]. simplify_eq.
  specialize (IH fuel (pre ++ Z.of_nat (length l) :: l)%list ((str ++ l) ++ [46])%list F).
  rewrite <- !app_assoc in IH. cbn [app] in IH. rewrite <- !app_assoc. cbn [app].
  apply IH. rewrite !length_app. simpl. lia.
Qed.

Definition name_entry (service : Z) (ls : list (list Z)) : mih_options :=
  {| mo_id := name_text ls; mo_ip := []; mo_port := 0; mo_service := service |}.

Lemma fqdn_loop_spec names fuel pre service head :
  Forall name_wf names -> (length names <= fuel)%nat ->
  fqdn_loop fuel (pre ++ concat (map encode_name names)) (length pre) service head =
  Some (head ++ map (name_entry service) names)%list.
Proof.
  intros Hw. revert fuel pre head. induction Hw as [|ls names Hn _ IH]; intros fuel pre head Hf.
  - cbn [map concat]. rewrite !app_nil_r. destruct fuel; cbn [fqdn_loop]; by rewrite Nat.ltb_irrefl.
  - destruct fuel as [|fuel]; [simpl in Hf; lia|]. cbn [map concat fqdn_loop].
    rewrite (proj2 (Nat.ltb_lt _ _)) by (unfold encode_name; rewrite !length_app; simpl; lia).
    rewrite parse_fqdn_spec by assumption. cbn [mbind option_bind]. rewrite app_assoc.
    rewrite IH by (simpl in Hf; lia). rewrite <- app_assoc. reflexivity.
Qed.

Lemma length_encode_names names : (length names <= length (concat (map encode_name names)))%nat.
Proof.
  induction names as [|x l IH]; cbn [map concat length]; [lia|].
  unfold encode_name at 1. rewrite !length_app. cbn [length]. lia.
Qed.

Lemma fqdn_option_spec names service buf head :
  Forall name_wf names ->
  fqdn_option (concat (map encode_name names)) service (buf, head) =
  Some (buf, head ++ map (name_entry service) names)%list.
Proof.
  intros Hw. unfold fqdn_option. destruct names as [|ls names]; [by rewrite app_nil_r|].
  rewrite (proj2 (Nat.ltb_lt _ _)) by (cbn [map concat]; unfold encode_name; rewrite !length_app; simpl; lia).
  pose proof (fqdn_loop_spec (ls :: names) (length (concat (map encode_name (ls :: names)))) [] service head Hw) as E.
  cbn [app length fst snd] in E |- *. rewrite E; [reflexivity|].
  exact (length_encode_names (ls :: names)).
Qed.

(** ** Whole packets *)

(** Sub-options of a universe, encoded. *)
Definition encode_universe {A} (enc : list A -> list Z) (opts : Z -> option (list A)) : universe :=
  fun i => enc <$> opts i.

(** The entries for the services in order. *)
Definition entries {A} (entry : Z -> A -> mih_options) (opts : Z -> option (list A)) : list mih_options :=
  concat (map (fun i => map (entry i) (default [] (opts i))) [MoS_IS; MoS_CS; MoS_ES]).

(** A body that turns each well-formed option into its entries, run over the
    three services. *)
Lemma services_spec {A} (enc : list A -> list Z) (wf : A -> Prop) (entry : Z -> A -> mih_options) (n : nat)
    body (opts : Z -> option (list A)) buf head :
  (forall l i buf head, Forall wf l -> length buf = n ->
     exists buf', length buf' = n /\ body (enc l) i (buf, head) = Some (buf', head ++ map (entry i) l)%list) ->
  (forall i l, opts i = Some l -> Forall wf l) -> length buf = n ->
  exists buf', length buf' = n /\
    services (encode_universe enc opts) body (buf, head) = Some (buf', head ++ entries entry opts)%list.
Proof.
  intros Hbody Hwf Hb. unfold services, entries.
  change (Z.to_nat (MoS_END - 1)) with 3%nat. cbn [each_service map concat].
  change MoS_IS with 1. change MoS_CS with (1 + 1). change MoS_ES with (1 + 1 + 1).
  assert (forall i buf head, length buf = n -> exists buf', length buf' = n /\
    one_service (encode_universe enc opts) body i (buf, head) =
    Some (buf', head ++ map (entry i) (default [] (opts i)))%list) as K.
  { intros i b h Hl. unfold one_service, encode_universe. destruct (opts i) as [l|] eqn:E; cbn.
    - apply Hbody; eauto.
    - exists b. rewrite app_nil_r. auto. }
  destruct (K 1 buf head Hb) as (b1 & H1 & ->). cbn [mbind option_bind].
  edestruct (K (1 + 1) b1) as (b2 & H2 & ->); [exact H1|]. cbn [mbind option_bind].
  edestruct (K (1 + 1 + 1) b2) as (b3 & H3 & ->); [exact H2|]. cbn [mbind option_bind].
  exists b3. rewrite app_nil_r, <- !app_assoc. auto.
Qed.

(** Four octets take 8 to 16 bytes, each with a dot behind. *)
Lemma dotted_length data :
  bytes_ok data -> (4 <= length data)%nat -> (8 <= length (dotted (take 4 data)) <= 16)%nat.
Proof.
  intros Hd Hl. destruct data as [|a [|b [|c [|d data]]]]; simpl in Hl; try lia. unfold dotted. cbn [take map concat].
  unfold bytes_ok in Hd. rewrite !Forall_cons in Hd. destruct Hd as (Ha & Hb & Hc & Hd & _).
  apply decimal_byte in Ha as [_ Ha], Hb as [_ Hb], Hc as [_ Hc], Hd as [_ Hd].
  rewrite take_0, !length_app. cbn [map concat length]. lia.
Qed.

(** ** Claims *)

(** C36: a DHCPv6 reply whose address options are sequences of 16-octet addresses
    and whose name options are sequences of well-formed names is decoded without
    leaving any buffer, and the callback gets exactly those addresses, as text,
    and then those names, each with its service, in the order of the options;
    when there are none it is not called. *)
Theorem mih6_options_decoded (addrs : Z -> option (list (list Z))) (names : Z -> option (list (list (list Z)))) buf :
  length buf = ipv6_buf_size ->
  (forall i l, addrs i = Some l -> Forall (fun a => length a = 16%nat /\ bytes_ok a) l) ->
  (forall i l, names i = Some l -> Forall name_wf l) ->
  exists buf', decode_mih6_options buf (encode_universe (@concat Z) addrs)
      (encode_universe (fun l => concat (map encode_name l)) names) =
    Some (buf', dispatch (entries (fun i a => address_entry i (ipv6_text a)) addrs ++ entries name_entry names)%list).
Proof.
  intros Hb Ha Hn. unfold decode_mih6_options, decode_options.
  destruct (services_spec (@concat Z) _ (fun i a => address_entry i (ipv6_text a)) ipv6_buf_size
    (address_option (fun buf data => hex_to_ipv6 buf data 16) 16) addrs buf []
    (fun l i buf head => address_option_spec l i buf head) Ha Hb) as (b1 & H1 & E1).
  rewrite E1. cbn [mbind option_bind app].
  destruct (services_spec (fun l => concat (map encode_name l)) name_wf name_entry ipv6_buf_size fqdn_option names b1
    (entries (fun i a => address_entry i (ipv6_text a)) addrs)) as (b2 & H2 & E2); [| exact Hn | exact H1|].
  { intros l i b h Hl Hbl. exists b. split; [exact Hbl | by apply fqdn_option_spec]. }
  rewrite E2. exists b2. reflexivity.
Qed.

(** A name is decoded inside its bounds exactly when it has a label and its
    text, with a dot behind every label, takes at most the 256 bytes allocated for
    it; then the text is the labels with dots between them.  The empty name (a
    lone zero octet) makes the client write in front of the string, a longer one
    behind it. *)
Theorem name_decoded_iff ls pre post :
  Forall label_wf ls ->
  (name_wf ls -> parse_fqdn (pre ++ encode_name ls ++ post) (length pre) =
     Some (length (pre ++ encode_name ls), name_text ls)) /\
  (~ name_wf ls -> parse_fqdn (pre ++ encode_name ls ++ post) (length pre) = None).
Proof.
  intros Hw. split; [apply parse_fqdn_spec|]. intros Hn. unfold parse_fqdn.
  destruct (decide (length (dot_labels ls) <= FQDN_MAX_SIZE)%nat) as [Hl|Hl].
  - destruct ls as [|l ls]; [|destruct Hn; repeat split; auto; discriminate].
    rewrite copy_labels_spec by (try assumption; simpl; lia). reflexivity.
  - rewrite copy_labels_None by (try assumption; simpl; lia). reflexivity.
Qed.

(** [hex_to_ipv6] prints an address without leaving its static buffer, and the
    text reads back as the sixteen octets, so distinct addresses reach the callback
    as distinct texts; with fewer than sixteen octets left in the option, which the
    loop of the caller does not exclude, it reads past them. *)
Theorem ipv6_text_roundtrip buf data :
  length buf = ipv6_buf_size -> bytes_ok data ->
  ((16 <= length data)%nat -> exists buf' text, hex_to_ipv6 buf data 16 = Some buf' /\ strdup buf' = Some text /\
     read_coloned (text ++ [58]) = Some (take 16 data)) /\
  ((length data < 16)%nat -> hex_to_ipv6 buf data 16 = None).
Proof.
  intros Hb Hd. split; [|apply hex_to_ipv6_short]. intros Hl.
  destruct (hex_to_ipv6_spec buf data Hd Hl Hb) as (buf' & E & _ & Es). exists buf', (ipv6_text (take 16 data)).
  split; [exact E|]. split; [exact Es|]. apply ipv6_text_reads; [by apply Forall_take | rewrite length_take; lia].
Qed.

(** The static buffer of [hex_to_ipv4] has 7 bytes, which is too small for
    every IPv4 address: the shortest one needs 8, so an IPv4 address option with
    at least one address always makes the client write outside the buffer; a
    buffer of 16 bytes would be enough for all of them, and the text would be the
    octets in decimal with dots between them. *)
Theorem ipv4_text_overflows buf data :
  bytes_ok data -> (4 <= length data)%nat ->
  (length buf = ipv4_buf_size -> hex_to_ipv4 buf data 4 = None) /\
  (length buf = 16%nat -> exists buf', hex_to_ipv4 buf data 4 = Some buf' /\
     strdup buf' = Some (removelast (dotted (take 4 data)))).
Proof.
  intros Hd Hl. pose proof (hex_to_ipv4_spec buf data Hd Hl) as [S1 S2].
  pose proof (dotted_length data Hd Hl) as Ht.
  split; intros Hb; rewrite Hb in *.
  - apply S2. unfold ipv4_buf_size. lia.
  - destruct S1 as (b & E & _ & Es); [lia|]. eauto.
Qed.

(** An IPv4 address option either has no whole address or overflows. *)
Lemma ipv4_address_option data i w :
  length w.1 = ipv4_buf_size -> bytes_ok data ->
  address_option (fun buf data => hex_to_ipv4 buf data 4) 4 data i w =
  if (3 <? length data)%nat then None else Some w.
Proof.
  intros Hw Hd. unfold address_option. destruct (Nat.ltb_spec 3 (length data)) as [Hl|Hl]; [|reflexivity].
  destruct data as [|a data]; [simpl in Hl; lia|]. cbn [length address_loop Nat.ltb Nat.leb]. rewrite drop_0.
  destruct (hex_to_ipv4_spec w.1 (a :: data) Hd ltac:(lia)) as [_ E]. rewrite E; [reflexivity|].
  pose proof (dotted_length (a :: data) Hd ltac:(lia)). rewrite Hw. unfold ipv4_buf_size. lia.
Qed.

Lemma ipv4_services_overflow n i0 u w i data :
  length w.1 = ipv4_buf_size -> (forall i d, u i = Some d -> bytes_ok d) ->
  i0 <= i < i0 + Z.of_nat n -> u i = Some data -> (3 < length data)%nat ->
  each_service n i0 u (address_option (fun buf data => hex_to_ipv4 buf data 4) 4) w = None.
Proof.
  intros Hw Hu. revert i0 w Hw. induction n as [|n IH]; intros i0 w Hw Hi Hd Hl; [lia|].
  cbn [each_service]. unfold one_service at 1. destruct (decide (i = i0)) as [<-|Hne].
  - rewrite Hd, ipv4_address_option, (proj2 (Nat.ltb_lt _ _)) by eauto. reflexivity.
  - destruct (u i0) as [d|] eqn:E; [|apply IH; auto; lia].
    rewrite ipv4_address_option by eauto. destruct (3 <? length d)%nat; [reflexivity|]. apply IH; auto. lia.
Qed.

(** C38: an IPv4 reply with an address option of at least four octets is never
    decoded: the client leaves its text buffer, whatever the other options are. *)
Theorem mih_address_option_overflows buf mos_ip mos_fqdn i data :
  length buf = ipv4_buf_size -> (forall i d, mos_ip i = Some d -> bytes_ok d) ->
  1 <= i < MoS_END -> mos_ip i = Some data -> (3 < length data)%nat ->
  decode_mih_options buf mos_ip mos_fqdn = None.
Proof.
  intros Hb Hok Hi Hd Hl. unfold decode_mih_options, decode_options, services.
  rewrite (ipv4_services_overflow _ 1 mos_ip (buf, []) i data); auto.
Qed.

(** ** Witnesses *)

Definition example_addrs (i : Z) : option (list (list Z)) :=
  if i =? MoS_IS then Some [[32; 1; 13; 184; 0; 0; 0; 0; 0; 0; 0; 0; 0; 0; 0; 1]] else None.
Definition example_names (i : Z) : option (list (list (list Z))) :=
  if i =? MoS_CS then Some [[bytes_of_string "mos"; bytes_of_string "pt"]] else None.

Lemma mih6_options_decoded_witness :
  exists buf', decode_mih6_options (replicate 40 0) (encode_universe (@concat Z) example_addrs)
      (encode_universe (fun l => concat (map encode_name l)) example_names) =
    Some (buf', Some [{| mo_id := []; mo_ip := bytes_of_string "2001:0db8:0000:0000:0000:0000:0000:0001";
                         mo_port := 4551; mo_service := 1 |};
                      {| mo_id := bytes_of_string "mos.pt"; mo_ip := []; mo_port := 0; mo_service := 2 |}]).
Proof.
  apply (mih6_options_decoded example_addrs example_names (replicate 40 0)); [reflexivity | |].
  - intros i l. unfold example_addrs. destruct (_ =? _); intros E; simplify_eq.
    repeat constructor; unfold byte_ok; lia.
  - intros i l. unfold example_names. destruct (_ =? _); intros E; simplify_eq.
    constructor; [|constructor]. apply (bool_decide_unpack _). vm_compute. exact I.
Defined.

Lemma name_decoded_iff_witness :
  parse_fqdn (encode_name [bytes_of_string "mos"; bytes_of_string "pt"]) 0 = Some (8%nat, bytes_of_string "mos.pt") /\
  parse_fqdn (encode_name []) 0 = None.
Proof.
  split.
  - apply (name_decoded_iff [bytes_of_string "mos"; bytes_of_string "pt"] [] []);
      apply (bool_decide_unpack _); vm_compute; exact I.
  - apply (name_decoded_iff [] [] []); [constructor | intros [H _]; by apply H].
Defined.

Lemma ipv6_text_roundtrip_witness :
  (exists buf' text, hex_to_ipv6 (replicate 40 0) (replicate 16 255) 16 = Some buf' /\ strdup buf' = Some text /\
     read_coloned (text ++ [58]) = Some (replicate 16 255)) /\
  hex_to_ipv6 (replicate 40 0) [32; 1] 16 = None.
Proof.
  split.
  - apply (ipv6_text_roundtrip (replicate 40 0) (replicate 16 255));
      [reflexivity | repeat constructor; unfold byte_ok; lia | simpl; lia].
  - apply (ipv6_text_roundtrip (replicate 40 0) [32; 1]);
      [reflexivity | repeat constructor; unfold byte_ok; lia | simpl; lia].
Defined.

Lemma ipv4_text_overflows_witness :
  hex_to_ipv4 (replicate 7 0) [1; 2; 3; 4] 4 = None.
Proof. apply (ipv4_text_overflows (replicate 7 0) [1; 2; 3; 4]); [repeat constructor; unfold byte_ok; lia | simpl; lia | reflexivity]. Defined.

Lemma mih_address_option_overflows_witness :
  decode_mih_options (replicate 7 0) (fun i => if i =? MoS_ES then Some [10; 0; 0; 1] else None) (fun _ => None) = None.
Proof.
  apply (mih_address_option_overflows _ _ _ MoS_ES [10; 0; 0; 1]).
  - reflexivity.
  - intros i d. destruct (_ =? _); intros E; simplify_eq. repeat constructor; unfold byte_ok; lia.
  - unfold MoS_ES, MoS_END. lia.
  - reflexivity.
  - simpl. lia.
Defined.
