(* ===== verification/Dhc6Timers.v ===== *)
(** * Retransmission timers of the DHCPv6 client

    The RFC 3315 message exchange of client/dhc6.c: [dhc6_rand],
    [dhc6_retrans_init], [dhc6_retrans_advance], [start_init6],
    [start_info_request6], [check_timing6] and [do_info_request6], the exchange
    the MIH client uses to ask for mobility servers.

    [random] and [buffer_allocate] are arguments; what the functions do outside the
    client (timeouts, packets, going to the background) is a list of calls.  The
    current time is an argument of each handler, as [cur_tv] is set by the
    dispatcher before a handler runs. *)

From S2P Require Import Prelude.

Record timeval := { tv_sec : Z; tv_usec : Z }.

Definition SOL_MAX_DELAY : Z := 1.
Definition SOL_TIMEOUT : Z := 1.
Definition SOL_MAX_RT : Z := 120.
Definition INF_MAX_DELAY : Z := 1.
Definition INF_TIMEOUT : Z := 1.
Definition INF_MAX_RT : Z := 120.
Definition DHCPV6_INFORMATION_REQUEST : Z := 11.

Inductive dhcp_state :=
| S_REBOOTING | S_INIT | S_SELECTING | S_REQUESTING | S_BOUND | S_RENEWING | S_REBINDING | S_STOPPED | S_INFORM.
Inductive handler := no_handler | init_handler | info_request_handler.
Inductive timer_func := do_init6_timer | do_info_request6_timer.

Inductive call :=
| add_timeout (tv : timeval) (f : timer_func)
| go_daemon
| make_client6_options (msg_type : Z)
| send_packet6 (msg_type : Z) (transaction_id : list Z).

Record client_state := mkClient {
  state : dhcp_state;
  v6_handler : handler;
  txcount : Z;
  start_time : timeval;
  elapsed : Z;
  RT : Z; IRT : Z; MRC : Z; MRT : Z; MRD : Z;
  dhcpv6_transaction_id : list Z;
  calls : list call;
  draws : nat
}.

Definition set_state v c := mkClient v (v6_handler c) (txcount c) (start_time c) (elapsed c) (RT c) (IRT c) (MRC c)
  (MRT c) (MRD c) (dhcpv6_transaction_id c) (calls c) (draws c).
Definition set_handler v c := mkClient (state c) v (txcount c) (start_time c) (elapsed c) (RT c) (IRT c) (MRC c)
  (MRT c) (MRD c) (dhcpv6_transaction_id c) (calls c) (draws c).
Definition set_txcount v c := mkClient (state c) (v6_handler c) v (start_time c) (elapsed c) (RT c) (IRT c) (MRC c)
  (MRT c) (MRD c) (dhcpv6_transaction_id c) (calls c) (draws c).
Definition set_start_time v c := mkClient (state c) (v6_handler c) (txcount c) v (elapsed c) (RT c) (IRT c) (MRC c)
  (MRT c) (MRD c) (dhcpv6_transaction_id c) (calls c) (draws c).
Definition set_elapsed v c := mkClient (state c) (v6_handler c) (txcount c) (start_time c) v (RT c) (IRT c) (MRC c)
  (MRT c) (MRD c) (dhcpv6_transaction_id c) (calls c) (draws c).
Definition set_RT v c := mkClient (state c) (v6_handler c) (txcount c) (start_time c) (elapsed c) v (IRT c) (MRC c)
  (MRT c) (MRD c) (dhcpv6_transaction_id c) (calls c) (draws c).
Definition set_limits irt mrc mrt mrd c := mkClient (state c) (v6_handler c) (txcount c) (start_time c) (elapsed c)
  (RT c) irt mrc mrt mrd (dhcpv6_transaction_id c) (calls c) (draws c).
Definition set_xid v c := mkClient (state c) (v6_handler c) (txcount c) (start_time c) (elapsed c) (RT c) (IRT c)
  (MRC c) (MRT c) (MRD c) v (calls c) (draws c).
Definition set_draws v c := mkClient (state c) (v6_handler c) (txcount c) (start_time c) (elapsed c) (RT c) (IRT c)
  (MRC c) (MRT c) (MRD c) (dhcpv6_transaction_id c) (calls c) v.
Definition add_call v c := mkClient (state c) (v6_handler c) (txcount c) (start_time c) (elapsed c) (RT c) (IRT c)
  (MRC c) (MRT c) (MRD c) (dhcpv6_transaction_id c) (calls c ++ [v]) (draws c).

(** A function runs on, or ends the process ([exit], [log_fatal]). *)
Inductive outcome (A : Type) :=
| Returns (a : A) (c : client_state)
| Exits (code : Z).
Arguments Returns {A} a c.
Arguments Exits {A} code.

Definition C (A : Type) : Type := client_state -> outcome A.
#[export] Instance C_ret : MRet C := fun A a c => Returns a c.
#[export] Instance C_bind : MBind C := fun A B f m c =>
  match m c with Returns a c' => f a c' | Exits code => Exits code end.

Definition get {A} (f : client_state -> A) : C A := fun c => Returns (f c) c.
Definition modify (f : client_state -> client_state) : C unit := fun c => Returns tt (f c).
Definition exit {A} (code : Z) : C A := fun _ => Exits code.
(** [log_fatal] logs and exits with status 1. *)
Definition log_fatal {A} : C A := exit 1.

(** [htons] on a little-endian machine. *)
Definition htons (v : Z) : Z := v mod 256 * 256 + v / 256.

Section Timers.

(** The values of the successive calls of [random]. *)
Context (random : nat -> Z).

Definition draw : C Z :=
  k ← get draws;
  modify (set_draws (S k)) ;;
  mret (random k).

Definition dhc6_rand (base : Z) : C Z :=
  if base <=? 0 then log_fatal
  else
    let split := Z.quot (base - 1) 10 in
    if split =? 0 then mret 0
    else
      let range := split * 2 + 1 in
      rval ← draw;
      mret (Z.rem rval range - split).

(** The build has RAND_MAX >= 0x00ffffff. *)
Definition dhc6_retrans_init : C unit :=
  modify (set_txcount 0) ;;
  irt ← get IRT;
  r ← dhc6_rand irt;
  modify (set_RT (irt + r)) ;;
  xid ← draw;
  modify (set_xid [Z.land (Z.shiftr xid 16) 255; Z.land (Z.shiftr xid 8) 255; Z.land xid 255]).

(** Addition of hundredths of seconds to a time, as the code writes it. *)
Definition tv_add (tv : timeval) (rt : Z) : timeval :=
  let sec := tv_sec tv + Z.quot rt 100 in
  let usec := tv_usec tv + Z.rem rt 100 * 10000 in
  if 1000000 <=? usec then {| tv_sec := sec + 1; tv_usec := usec - 1000000 |}
  else {| tv_sec := sec; tv_usec := usec |}.

(** [cur - start], with the borrow. *)
Definition tv_sub (cur start : timeval) : timeval :=
  let sec := tv_sec cur - tv_sec start in
  let usec := tv_usec cur - tv_usec start in
  if usec <? 0 then {| tv_sec := sec - 1; tv_usec := usec + 1000000 |}
  else {| tv_sec := sec; tv_usec := usec |}.

Definition dhc6_retrans_advance (cur_tv : timeval) : C unit :=
  start ← get start_time;
  rt ← get RT;
  let elapsed := tv_add (tv_sub cur_tv start) rt in
  r ← dhc6_rand rt;
  modify (set_RT (rt + (rt + r))) ;;
  mrt ← get MRT;
  rt ← get RT;
  (if negb (mrt =? 0) && (mrt <? rt)
   then r ← dhc6_rand mrt; modify (set_RT (mrt + r))
   else mret tt) ;;
  mrd ← get MRD;
  if mrd =? 0 then
    n ← get txcount; modify (set_txcount (n + 1))
  else
    rt ← get RT;
    let elapsed := tv_add elapsed rt in
    (if mrd <=? tv_sec elapsed then
       modify (set_RT ((mrd + (tv_sec start - tv_sec cur_tv)) * 100 +
                       Z.quot (tv_usec start - tv_usec cur_tv) 10000))
     else mret tt) ;;
    n ← get txcount; modify (set_txcount (n + 1)).

(** The first transmission is delayed by up to a second. *)
Definition first_delay (cur_tv : timeval) (max_delay : Z) (f : timer_func) : C unit :=
  r ← draw;
  let usec := tv_usec cur_tv + Z.rem r (max_delay * 100) * 10000 in
  let tv := if 1000000 <=? usec then {| tv_sec := tv_sec cur_tv + 1; tv_usec := usec - 1000000 |}
            else {| tv_sec := tv_sec cur_tv; tv_usec := usec |} in
  modify (add_call (add_timeout tv f)).

Definition start_init6 (cur_tv : timeval) (onetry : bool) (config_timeout : Z) (nowait : bool) : C unit :=
  modify (set_state S_INIT) ;;
  modify (set_limits (SOL_TIMEOUT * 100) 0 (SOL_MAX_RT * 100) (if negb onetry then 0 else config_timeout)) ;;
  dhc6_retrans_init ;;
  rt ← get RT; irt ← get IRT;
  (if rt <=? irt then modify (set_RT (irt + (irt - rt))) else mret tt) ;;
  rt ← get RT;
  (if rt <=? irt then modify (set_RT (irt + 1)) else mret tt) ;;
  modify (set_handler init_handler) ;;
  first_delay cur_tv SOL_MAX_DELAY do_init6_timer ;;
  if nowait then modify (add_call go_daemon) else mret tt.

Definition start_info_request6 (cur_tv : timeval) (onetry : bool) (config_timeout : Z) (nowait : bool) : C unit :=
  modify (set_state S_INIT) ;;
  modify (set_limits (INF_TIMEOUT * 100) 0 (INF_MAX_RT * 100) (if negb onetry then 0 else config_timeout)) ;;
  dhc6_retrans_init ;;
  modify (set_handler info_request_handler) ;;
  first_delay cur_tv INF_MAX_DELAY do_info_request6_timer ;;
  if nowait then modify (add_call go_daemon) else mret tt.

Inductive timing := CHK_TIM_SUCCESS (ds : list Z) | CHK_TIM_MRC_EXCEEDED | CHK_TIM_MRD_EXCEEDED | CHK_TIM_ALLOC_FAILURE.

(** [alloc]: what [buffer_allocate] answers.  On success the message starts with
    its type and the transaction id. *)
Definition check_timing6 (cur_tv : timeval) (alloc : bool) (msg_type : Z) : C timing :=
  n ← get txcount; mrc ← get MRC;
  (if n =? 0 then modify (set_start_time cur_tv) else mret tt) ;;
  if negb (n =? 0) && negb (mrc =? 0) && (mrc <? n) then mret CHK_TIM_MRC_EXCEEDED
  else
    start ← get start_time; mrd ← get MRD;
    let e := tv_sub cur_tv start in
    if negb (mrd =? 0) && (mrd <? tv_sec e) then mret CHK_TIM_MRD_EXCEEDED
    else if negb alloc then mret CHK_TIM_ALLOC_FAILURE
    else
      xid ← get dhcpv6_transaction_id;
      let v := if (tv_sec e <? 0) || (655 <? tv_sec e) || ((tv_sec e =? 655) && (350000 <? tv_usec e))
               then 65535 else u16 (tv_sec e * 100 + Z.quot (tv_usec e) 10000) in
      modify (set_elapsed (htons v)) ;;
      modify (add_call (make_client6_options msg_type)) ;;
      mret (CHK_TIM_SUCCESS (msg_type :: xid)).

Definition do_info_request6 (cur_tv : timeval) (alloc : bool) : C unit :=
  t ← check_timing6 cur_tv alloc DHCPV6_INFORMATION_REQUEST;
  match t with
  | CHK_TIM_MRC_EXCEEDED | CHK_TIM_ALLOC_FAILURE => mret tt
  | CHK_TIM_MRD_EXCEEDED => exit 2
  | CHK_TIM_SUCCESS ds =>
      modify (add_call (send_packet6 (default 0 (head ds)) (tail ds))) ;;
      rt ← get RT;
      modify (add_call (add_timeout (tv_add cur_tv rt) do_info_request6_timer)) ;;
      dhc6_retrans_advance cur_tv
  end.

(** ** Facts *)

(** [random] answers between 0 and RAND_MAX. *)
Hypothesis random_range : forall k, 0 <= random k <= 2147483647.

(** Microseconds of a time. *)
Definition usec (tv : timeval) : Z := tv_sec tv * 1000000 + tv_usec tv.

Definition tv_ok (tv : timeval) : Prop := 0 <= tv_usec tv < 1000000.

Lemma tv_add_spec tv rt :
  tv_ok tv -> 0 <= rt -> tv_ok (tv_add tv rt) /\ usec (tv_add tv rt) = usec tv + rt * 10000.
Proof.
  unfold tv_ok, usec, tv_add. intros Ht Hr. rewrite Z.quot_div_nonneg, Z.rem_mod_nonneg by lia.
  pose proof (Z.div_mod rt 100). pose proof (Z.mod_pos_bound rt 100).
  destruct (Z.leb_spec 1000000 (tv_usec tv + rt mod 100 * 10000)); simpl; lia.
Qed.

Lemma tv_sub_spec cur start :
  tv_ok cur -> tv_ok start -> tv_ok (tv_sub cur start) /\ usec (tv_sub cur start) = usec cur - usec start.
Proof.
  unfold tv_ok, usec, tv_sub. intros Hc Hs.
  destruct (Z.ltb_spec (tv_usec cur - tv_usec start) 0); simpl; lia.
Qed.

(** Everything but the retransmission time, the count and the random draws. *)
Definition same_exchange (c c' : client_state) : Prop :=
  state c' = state c /\ v6_handler c' = v6_handler c /\ start_time c' = start_time c /\ elapsed c' = elapsed c /\
  IRT c' = IRT c /\ MRC c' = MRC c /\ MRT c' = MRT c /\ MRD c' = MRD c /\
  dhcpv6_transaction_id c' = dhcpv6_transaction_id c /\ calls c' = calls c.

(** A random deviation of less than a tenth. *)
Definition near (base v : Z) : Prop := - base < 10 * (v - base) < base.

Lemma dhc6_rand_runs base c :
  0 < base ->
  exists r k, dhc6_rand base c = Returns r (set_draws k c) /\
    - ((base - 1) / 10) <= r <= (base - 1) / 10 /\ near base (base + r).
Proof.
  intros Hb. unfold dhc6_rand, near. rewrite (proj2 (Z.leb_gt _ _)) by lia.
  rewrite Z.quot_div_nonneg by lia. pose proof (Z.div_mod (base - 1) 10). pose proof (Z.mod_pos_bound (base - 1) 10).
  destruct (Z.eqb_spec ((base - 1) / 10) 0) as [E|E].
  - exists 0, (draws c). split; [by destruct c|]. lia.
  - eexists _, _. split; [reflexivity|].
    pose proof (Z.div_pos (base - 1) 10 ltac:(lia) ltac:(lia)). pose proof (random_range (draws c)).
    rewrite Z.rem_mod_nonneg by lia. pose proof (Z.mod_pos_bound (random (draws c)) ((base - 1) / 10 * 2 + 1)). lia.
Qed.

Lemma c_bind {A B} (m : C A) (f : A -> C B) c a c' : m c = Returns a c' -> (m ≫= f) c = f a c'.
Proof. unfold mbind, C_bind. intros ->. reflexivity. Qed.

Lemma retrans_init_runs c :
  0 < IRT c ->
  exists c' r, dhc6_retrans_init c = Returns tt c' /\ same_exchange (set_xid (dhcpv6_transaction_id c') c) c' /\
    txcount c' = 0 /\ near (IRT c) (RT c') /\ 0 <= r <= 2147483647 /\
    dhcpv6_transaction_id c' = [(r / 65536) mod 256; (r / 256) mod 256; r mod 256].
Proof.
  intros Hi. unfold dhc6_retrans_init. erewrite c_bind by reflexivity. erewrite c_bind by reflexivity.
  destruct (dhc6_rand_runs (IRT (set_txcount 0 c)) (set_txcount 0 c) Hi) as (r & k & E & _ & Hn).
  erewrite c_bind by exact E. eexists _, (random k). split; [reflexivity|].
  split; [repeat split|]. split; [reflexivity|]. split; [exact Hn|]. split; [apply random_range|].
  cbn. change 255 with (Z.ones 8). rewrite !Z.land_ones, !Z.shiftr_div_pow2 by lia. reflexivity.
Qed.

(** RFC 3315, section 14: twice the previous time, or the maximum when that is
    larger, with a random deviation. *)
Definition next_rt (c : client_state) (rt : Z) : Prop :=
  (- RT c < 10 * (rt - 2 * RT c) < RT c /\ (MRT c = 0 \/ rt <= MRT c)) \/ (MRT c <> 0 /\ near (MRT c) rt).

(** The time from now to the end of the exchange. *)
Definition until_mrd (cur_tv : timeval) (c : client_state) : Z :=
  (MRD c + (tv_sec (start_time c) - tv_sec cur_tv)) * 100 +
  Z.quot (tv_usec (start_time c) - tv_usec cur_tv) 10000.

Definition clamp_mrd (cur_tv : timeval) (c : client_state) (rt : Z) : Z :=
  if MRD c =? 0 then rt
  else if MRD c <=? tv_sec (tv_add (tv_add (tv_sub cur_tv (start_time c)) (RT c)) rt) then until_mrd cur_tv c else rt.

(** The doubling, and the cap at the maximum. *)
Lemma retrans_double_runs c k r :
  0 < RT c -> 0 <= MRT c -> near (RT c) (RT c + r) ->
  exists rt k', next_rt c rt /\
    (if negb (MRT c =? 0) && (MRT c <? RT c + (RT c + r))
     then r ← dhc6_rand (MRT c); modify (set_RT (MRT c + r)) else mret tt)
      (set_RT (RT c + (RT c + r)) (set_draws k c)) = Returns tt (set_RT rt (set_draws k' c)).
Proof.
  intros Hr Hm Hn. unfold next_rt, near in *. destruct (negb (MRT c =? 0) && (MRT c <? RT c + (RT c + r))) eqn:B.
  - bool_to_prop. destruct (dhc6_rand_runs (MRT c) (set_RT (RT c + (RT c + r)) (set_draws k c)) ltac:(lia))
      as (r' & k' & E' & _ & Hn').
    exists (MRT c + r'), k'. split; [right; auto|]. erewrite c_bind by exact E'. reflexivity.
  - exists (RT c + (RT c + r)), k. split; [|reflexivity]. left. split; [lia|].
    apply andb_false_iff in B as [B|B]; bool_to_prop; auto.
Qed.

Lemma retrans_advance_runs cur_tv c :
  0 < RT c -> 0 <= MRT c ->
  exists c' rt, dhc6_retrans_advance cur_tv c = Returns tt c' /\ same_exchange c c' /\
    txcount c' = txcount c + 1 /\ next_rt c rt /\ RT c' = clamp_mrd cur_tv c rt.
Proof.
  intros Hr Hm. unfold dhc6_retrans_advance, clamp_mrd, until_mrd.
  do 2 (erewrite c_bind by reflexivity).
  destruct (dhc6_rand_runs (RT c) c Hr) as (r & k & E & _ & Hn). cbv zeta. erewrite c_bind by exact E. clear E.
  do 3 (erewrite c_bind by reflexivity). cbn [RT MRT set_RT set_draws].
  destruct (retrans_double_runs c k r Hr Hm Hn) as (rt & k' & Hrt & E). erewrite c_bind by exact E. clear E.
  erewrite c_bind by reflexivity. cbn [MRD set_RT set_draws].
  destruct (MRD c =? 0) eqn:B0.
  - eexists _, rt. split; [reflexivity|]. split; [repeat split|]. auto.
  - erewrite c_bind by reflexivity. cbn [RT set_RT set_draws].
    destruct (MRD c <=? _) eqn:B; (eexists _, rt; split; [reflexivity|]; split; [repeat split|]);
      (split; [reflexivity|]; split; [exact Hrt|]); rewrite B; reflexivity.
Qed.

(** ** An information request exchange *)

(** The states of an exchange without time limit, between two timeouts. *)
Inductive info_exchange : client_state -> Prop :=
| exchange_start cur_tv config_timeout nowait c c' :
    start_info_request6 cur_tv false config_timeout nowait c = Returns tt c' -> info_exchange c'
| exchange_timeout cur_tv alloc c c' :
    info_exchange c -> do_info_request6 cur_tv alloc c = Returns tt c' -> info_exchange c'.

Definition info_ok (c : client_state) : Prop :=
  IRT c = 100 /\ MRT c = 12000 /\ MRC c = 0 /\ MRD c = 0 /\ 91 <= RT c < 13200 /\ 0 <= txcount c /\
  length (dhcpv6_transaction_id c) = 3%nat /\ bytes_ok (dhcpv6_transaction_id c).

(** The first packet goes out within a second. *)
Lemma first_delay_runs cur_tv f c :
  exists k tv, first_delay cur_tv 1 f c = Returns tt (add_call (add_timeout tv f) (set_draws k c)) /\
    (tv_ok cur_tv -> tv_ok tv /\ usec cur_tv <= usec tv < usec cur_tv + 1000000).
Proof.
  unfold first_delay. erewrite c_bind by reflexivity. cbv zeta. eexists _, _. split; [reflexivity|].
  unfold tv_ok, usec. pose proof (random_range (draws c)) as Hr.
  rewrite Z.rem_mod_nonneg by lia. pose proof (Z.mod_pos_bound (random (draws c)) (1 * 100) ltac:(lia)).
  intros Hc. destruct (Z.leb_spec 1000000 (tv_usec cur_tv + random (draws c) mod (1 * 100) * 10000)); simpl in *; lia.
Qed.

Lemma start_info_request6_runs cur_tv onetry config_timeout nowait c :
  exists c', start_info_request6 cur_tv onetry config_timeout nowait c = Returns tt c' /\
    IRT c' = 100 /\ MRT c' = 12000 /\ MRC c' = 0 /\ MRD c' = (if onetry then config_timeout else 0) /\
    91 <= RT c' < 110 /\ txcount c' = 0 /\
    length (dhcpv6_transaction_id c') = 3%nat /\ bytes_ok (dhcpv6_transaction_id c').
Proof.
  unfold start_info_request6. do 2 (erewrite c_bind by reflexivity).
  set (c1 := set_limits _ _ _ _ _).
  destruct (retrans_init_runs c1 ltac:(reflexivity)) as (c2 & r & E & Hs & Ht & Hn & Hr & Hx).
  erewrite c_bind by exact E. erewrite c_bind by reflexivity.
  destruct (first_delay_runs cur_tv do_info_request6_timer (set_handler info_request_handler c2)) as (k & tv & E' & _).
  erewrite c_bind by exact E'. destruct Hs as (_ & _ & _ & _ & H1 & H2 & H3 & H4 & _).
  assert (near 100 (RT c2)) as Hn' by exact Hn. unfold near in Hn'.
  assert (length (dhcpv6_transaction_id c2) = 3%nat /\ bytes_ok (dhcpv6_transaction_id c2)) as [L B].
  { rewrite Hx. split; [reflexivity|]. repeat constructor; apply Z.mod_pos_bound; lia. }
  destruct nowait; eexists; (split; [reflexivity|]); cbn [IRT MRT MRC MRD RT txcount dhcpv6_transaction_id add_call set_draws set_handler];
    rewrite ?H1, ?H2, ?H3, ?H4; destruct onetry; repeat split; try assumption; lia.
Qed.

(** The elapsed-time option: hundredths of seconds since the first transmission,
    at most 65535, in network order. *)
Definition elapsed_value (cur_tv start : timeval) : Z :=
  Z.min 65535 ((usec cur_tv - usec start) / 10000).

Lemma elapsed_spec cur_tv start :
  tv_ok cur_tv -> tv_ok start -> usec start <= usec cur_tv ->
  let e := tv_sub cur_tv start in
  (if (tv_sec e <? 0) || (655 <? tv_sec e) || ((tv_sec e =? 655) && (350000 <? tv_usec e))
   then 65535 else u16 (tv_sec e * 100 + Z.quot (tv_usec e) 10000)) = elapsed_value cur_tv start.
Proof.
  intros Hc Hs Hle e. destruct (tv_sub_spec cur_tv start Hc Hs) as [He Hu]. fold e in He, Hu.
  unfold elapsed_value. rewrite <- Hu. unfold tv_ok, usec in *.
  pose proof (Z.quot_div_nonneg (tv_usec e) 10000 ltac:(lia) ltac:(lia)) as ->.
  assert ((tv_sec e * 1000000 + tv_usec e) / 10000 = tv_sec e * 100 + tv_usec e / 10000) as ->
    by (replace (tv_sec e * 1000000 + tv_usec e) with (tv_usec e + (tv_sec e * 100) * 10000) by lia; rewrite Z.div_add by lia; lia).
  pose proof (Z.div_mod (tv_usec e) 10000 ltac:(lia)). pose proof (Z.mod_pos_bound (tv_usec e) 10000 ltac:(lia)).
  destruct (Z.ltb_spec (tv_sec e) 0), (Z.ltb_spec 655 (tv_sec e)), (Z.eqb_spec (tv_sec e) 655), (Z.ltb_spec 350000 (tv_usec e));
    cbn [orb andb]; try lia; unfold u16, wrap; rewrite Z.mod_small by lia; lia.
Qed.

Lemma check_timing6_runs cur_tv msg_type c :
  MRC c = 0 -> MRD c = 0 ->
  let c1 := if txcount c =? 0 then set_start_time cur_tv c else c in
  exists v, check_timing6 cur_tv true msg_type c =
      Returns (CHK_TIM_SUCCESS (msg_type :: dhcpv6_transaction_id c))
        (add_call (make_client6_options msg_type) (set_elapsed (htons v) c1)) /\
    (tv_ok cur_tv -> tv_ok (start_time c1) -> usec (start_time c1) <= usec cur_tv ->
     v = elapsed_value cur_tv (start_time c1)).
Proof.
  intros Hc Hd c1. unfold check_timing6. do 2 (erewrite c_bind by reflexivity). rewrite Hc.
  assert ((if txcount c =? 0 then modify (set_start_time cur_tv) else mret tt) c = Returns tt c1) as E
    by (unfold c1; destruct (txcount c =? 0); reflexivity).
  erewrite c_bind by exact E. rewrite Z.eqb_refl. cbn [negb]. rewrite andb_false_r. cbn [andb].
  do 2 (erewrite c_bind by reflexivity).
  assert (MRD c1 = 0) as -> by (unfold c1; destruct (txcount c =? 0); exact Hd). cbn [Z.eqb negb andb].
  do 3 (erewrite c_bind by reflexivity).
  assert (dhcpv6_transaction_id c1 = dhcpv6_transaction_id c) as -> by (unfold c1; destruct (txcount c =? 0); reflexivity).
  eexists. split; [reflexivity|]. intros H1 H2 H3. apply elapsed_spec; assumption.
Qed.

(** A timeout of the exchange: the request goes out, the next one is scheduled
    after the current retransmission time, and the time grows as RFC 3315 says. *)
Lemma do_info_request6_runs cur_tv c :
  info_ok c ->
  exists c', do_info_request6 cur_tv true c = Returns tt c' /\ info_ok c' /\
    start_time c' = (if txcount c =? 0 then cur_tv else start_time c) /\
    txcount c' = txcount c + 1 /\ next_rt c (RT c') /\
    dhcpv6_transaction_id c' = dhcpv6_transaction_id c /\
    (tv_ok cur_tv -> tv_ok (start_time c') -> usec (start_time c') <= usec cur_tv ->
     elapsed c' = htons (elapsed_value cur_tv (start_time c'))) /\
    calls c' = calls c ++ [make_client6_options DHCPV6_INFORMATION_REQUEST;
                           send_packet6 DHCPV6_INFORMATION_REQUEST (dhcpv6_transaction_id c);
                           add_timeout (tv_add cur_tv (RT c)) do_info_request6_timer].
Proof.
  intros (Hi & Hm & Hc & Hd & Hr & Ht & Hl & Hb). unfold do_info_request6.
  destruct (check_timing6_runs cur_tv DHCPV6_INFORMATION_REQUEST c Hc Hd) as (v & E & Hv).
  erewrite c_bind by exact E. clear E. cbv beta iota.
  set (c1 := if txcount c =? 0 then set_start_time cur_tv c else c) in *.
  set (c2 := add_call _ (set_elapsed (htons v) c1)).
  do 3 (erewrite c_bind by reflexivity). cbn [head tail default].
  set (c3 := add_call (add_timeout _ _) _).
  assert (RT c3 = RT c /\ MRT c3 = MRT c /\ MRD c3 = MRD c /\ MRC c3 = MRC c /\ IRT c3 = IRT c /\ txcount c3 = txcount c /\
    dhcpv6_transaction_id c3 = dhcpv6_transaction_id c /\ RT c2 = RT c /\ calls c1 = calls c) as (R & M & D & K & I & T & X & R2 & L)
    by (unfold c3, c2, c1; destruct (txcount c =? 0); repeat split).
  destruct (retrans_advance_runs cur_tv c3 ltac:(lia) ltac:(lia)) as (c4 & rt & E & Hs & Ht4 & Hn & Hrt).
  unfold clamp_mrd in Hrt. rewrite D, Hd in Hrt. cbn [Z.eqb] in Hrt. subst rt.
  unfold next_rt, near in Hn. rewrite R, M in Hn.
  destruct Hs as (_ & _ & S1 & S2 & S3 & S4 & S5 & S6 & S7 & S8).
  assert (start_time c4 = start_time c1) as S1' by (rewrite S1; reflexivity).
  assert (elapsed c4 = htons v) as S2' by (rewrite S2; reflexivity).
  exists c4. split; [exact E|]. split; [|split; [|split; [|split; [|split; [|split]]]]].
  - unfold info_ok. rewrite S3, S4, S5, S6, S7, Ht4, M, D, K, I, T, X. repeat split; auto; lia.
  - rewrite S1'. unfold c1. destruct (txcount c =? 0); reflexivity.
  - lia.
  - exact Hn.
  - congruence.
  - rewrite S1', S2'. intros. rewrite Hv by assumption. reflexivity.
  - rewrite S8. unfold c3, c2. cbn [calls add_call set_elapsed]. rewrite L, <- !app_assoc. cbn [app].
    unfold c2 in R2. cbn [RT add_call set_elapsed] in R2 |- *. rewrite R2. reflexivity.
Qed.

Lemma do_info_request6_no_memory cur_tv c :
  info_ok c ->
  do_info_request6 cur_tv false c = Returns tt (if txcount c =? 0 then set_start_time cur_tv c else c).
Proof.
  intros (Hi & Hm & Hc & Hd & _).
  set (c1 := if txcount c =? 0 then set_start_time cur_tv c else c).
  assert ((if txcount c =? 0 then modify (set_start_time cur_tv) else mret tt) c = Returns tt c1) as E
    by (unfold c1; destruct (txcount c =? 0); reflexivity).
  assert (MRD c1 = 0) as Hd1 by (unfold c1; destruct (txcount c =? 0); exact Hd).
  assert (check_timing6 cur_tv false DHCPV6_INFORMATION_REQUEST c = Returns CHK_TIM_ALLOC_FAILURE c1) as T.
  { unfold check_timing6. do 2 (erewrite c_bind by reflexivity). rewrite Hc. erewrite c_bind by exact E.
    rewrite Z.eqb_refl. cbn [negb]. rewrite andb_false_r. cbn [andb]. do 2 (erewrite c_bind by reflexivity).
    rewrite Hd1. reflexivity. }
  unfold do_info_request6. erewrite c_bind by exact T. reflexivity.
Qed.

Lemma info_exchange_ok c : info_exchange c -> info_ok c.
Proof.
  induction 1 as [cur_tv timeout nowait c c' E | cur_tv alloc c c' _ IH E].
  - destruct (start_info_request6_runs cur_tv false timeout nowait c) as (c2 & E2 & P).
    rewrite E2 in E. injection E as <-. destruct P as (H1 & H2 & H3 & H4 & H5 & H6 & H7 & H8).
    unfold info_ok. repeat split; auto; lia.
  - destruct alloc.
    + destruct (do_info_request6_runs cur_tv c IH) as (c2 & E2 & P & _). rewrite E2 in E. by injection E as <-.
    + rewrite do_info_request6_no_memory in E by assumption. injection E as <-. by destruct (txcount c =? 0).
Qed.

(** ** Claims *)

(** [dhc6_rand] implements the table of its comment: for a positive base it
    answers an integer of at most (base - 1) / 10 in absolute value, so less than
    a tenth of the base, and consumes at most one random number; for any other
    base it ends the process. *)
Theorem dhc6_rand_table base c :
  (base <= 0 -> dhc6_rand base c = Exits 1) /\
  (0 < base -> exists r k, dhc6_rand base c = Returns r (set_draws k c) /\
     - ((base - 1) / 10) <= r <= (base - 1) / 10 /\ - base < 10 * r < base /\ (k = draws c \/ k = S (draws c))).
Proof.
  split; intros Hb.
  - unfold dhc6_rand. rewrite (proj2 (Z.leb_le _ _)) by lia. reflexivity.
  - destruct (dhc6_rand_runs base c Hb) as (r & k & E & Hr & Hn). exists r, k. split; [exact E|].
    unfold near in Hn. split; [lia|]. split; [lia|]. unfold dhc6_rand in E.
    rewrite (proj2 (Z.leb_gt _ _)) in E by lia. destruct (_ =? 0).
    + injection E as _ Ec. left. apply (f_equal draws) in Ec. simpl in Ec. congruence.
    + injection E as _ Ec. auto.
Qed.

(** C37: an information request exchange without time limit never ends the
    process: at every timeout for which memory is available it sends one
    information request with the transaction id chosen at the start, schedules
    the next timeout exactly one retransmission time (0.91 s to 132 s) later, and
    picks the next retransmission time as RFC 3315 asks.  The elapsed-time option
    is the time since the first transmission in hundredths of seconds, at most
    65535. *)
Theorem info_exchange_progress c cur_tv :
  info_exchange c ->
  exists c' tv, do_info_request6 cur_tv true c = Returns tt c' /\ info_exchange c' /\
    calls c' = calls c ++ [make_client6_options DHCPV6_INFORMATION_REQUEST;
                           send_packet6 DHCPV6_INFORMATION_REQUEST (dhcpv6_transaction_id c);
                           add_timeout tv do_info_request6_timer] /\
    dhcpv6_transaction_id c' = dhcpv6_transaction_id c /\ length (dhcpv6_transaction_id c) = 3%nat /\
    91 <= RT c < 13200 /\ next_rt c (RT c') /\ txcount c' = txcount c + 1 /\
    (tv_ok cur_tv -> tv_ok tv /\ usec tv = usec cur_tv + RT c * 10000) /\
    (tv_ok cur_tv -> tv_ok (start_time c') -> usec (start_time c') <= usec cur_tv ->
     elapsed c' = htons (Z.min 65535 ((usec cur_tv - usec (start_time c')) / 10000))).
Proof.
  intros He. pose proof (info_exchange_ok c He) as Ho.
  destruct (do_info_request6_runs cur_tv c Ho) as (c' & E & Ho' & Hst & Ht & Hn & Hx & Hel & Hc).
  destruct Ho as (_ & _ & _ & _ & Hr & _ & Hl & _).
  exists c', (tv_add cur_tv (RT c)). split; [exact E|]. split; [eapply exchange_timeout; eauto|].
  repeat (split; [first [exact Hc | exact Hx | exact Hl | exact Hn | exact Ht | lia]|]).
  split; [intros Hv; apply tv_add_spec; [exact Hv | lia] | exact Hel].
Qed.

(** The first retransmission time of a solicitation is strictly larger than
    its initial value of 100 hundredths, as RFC 3315 requires, and less than ten
    percent larger; the first packet is scheduled within a second. *)
Theorem solicit_first_rt cur_tv onetry config_timeout c :
  exists c' tv, start_init6 cur_tv onetry config_timeout false c = Returns tt c' /\
    IRT c' = 100 /\ 100 < RT c' < 110 /\ txcount c' = 0 /\ state c' = S_INIT /\ v6_handler c' = init_handler /\
    calls c' = calls c ++ [add_timeout tv do_init6_timer] /\
    (tv_ok cur_tv -> tv_ok tv /\ usec cur_tv <= usec tv < usec cur_tv + 1000000).
Proof.
  unfold start_init6. do 2 (erewrite c_bind by reflexivity). set (c1 := set_limits _ _ _ _ _).
  destruct (retrans_init_runs c1 ltac:(reflexivity)) as (c2 & r & E & Hs & Ht & Hn & _ & _).
  erewrite c_bind by exact E. clear E. do 2 (erewrite c_bind by reflexivity).
  assert (near 100 (RT c2)) as Hn' by exact Hn. unfold near in Hn'.
  destruct Hs as (H1 & H2 & H3 & H4 & H5 & _ & _ & _ & _ & H6). change (IRT c2 = 100) in H5. rewrite H5.
  set (c3 := if RT c2 <=? 100 then set_RT (100 + (100 - RT c2)) c2 else c2).
  assert ((if RT c2 <=? 100 then modify (set_RT (100 + (100 - RT c2))) else mret tt) c2 = Returns tt c3) as E
    by (unfold c3; destruct (RT c2 <=? 100); reflexivity).
  erewrite c_bind by exact E. clear E. erewrite c_bind by reflexivity.
  set (c4 := if RT c3 <=? 100 then set_RT (100 + 1) c3 else c3).
  assert ((if RT c3 <=? 100 then modify (set_RT (100 + 1)) else mret tt) c3 = Returns tt c4) as E
    by (unfold c4; destruct (RT c3 <=? 100); reflexivity).
  erewrite c_bind by exact E. clear E. erewrite c_bind by reflexivity.
  destruct (first_delay_runs cur_tv do_init6_timer (set_handler init_handler c4)) as (k & tv & E & Htv).
  erewrite c_bind by exact E. eexists _, tv. split; [reflexivity|].
  assert (100 < RT c4 < 110 /\ IRT c4 = 100 /\ txcount c4 = 0 /\ state c4 = S_INIT /\ calls c4 = calls c) as (K1 & K2 & K3 & K4 & K5).
  { clear E Htv. subst c4 c3. destruct (Z.leb_spec (RT c2) 100); cbn [RT set_RT].
    - destruct (Z.leb_spec (100 + (100 - RT c2)) 100); cbn [RT IRT txcount state calls set_RT]; repeat split; auto; lia.
    - rewrite (proj2 (Z.leb_gt _ _)) by lia. repeat split; auto; lia. }
  cbn [RT IRT txcount state calls v6_handler add_call set_draws set_handler]. rewrite K5. repeat split; auto; try lia; apply Htv; auto.
Qed.

(** When a time limit would pass before the transmission after next,
    [dhc6_retrans_advance] sets the retransmission time so that now plus that time
    is the limit (to within a hundredth of a second).  That time only starts to
    run at the next timeout, one previous retransmission time from now, so the
    client wakes up that much after the limit, not "upon reaching" it. *)
Theorem mrd_wakes_late cur_tv c :
  0 < RT c -> 0 <= MRT c -> MRD c <> 0 ->
  exists c' rt, dhc6_retrans_advance cur_tv c = Returns tt c' /\ txcount c' = txcount c + 1 /\ next_rt c rt /\
    let limit := usec (start_time c) + MRD c * 1000000 in
    (tv_sec (tv_add (tv_add (tv_sub cur_tv (start_time c)) (RT c)) rt) < MRD c -> RT c' = rt) /\
    (MRD c <= tv_sec (tv_add (tv_add (tv_sub cur_tv (start_time c)) (RT c)) rt) ->
     limit - 10000 < usec cur_tv + RT c' * 10000 < limit + 10000 /\
     limit + RT c * 10000 - 10000 < usec cur_tv + (RT c + RT c') * 10000).
Proof.
  intros Hr Hm Hd. destruct (retrans_advance_runs cur_tv c Hr Hm) as (c' & rt & E & _ & Ht & Hn & Hrt).
  exists c', rt. split; [exact E|]. split; [exact Ht|]. split; [exact Hn|]. cbv zeta.
  unfold clamp_mrd in Hrt. rewrite (proj2 (Z.eqb_neq _ _)) in Hrt by assumption. split; intros Hc.
  - rewrite (proj2 (Z.leb_gt _ _)) in Hrt by assumption. exact Hrt.
  - rewrite (proj2 (Z.leb_le _ _)) in Hrt by assumption. rewrite Hrt. unfold until_mrd, usec.
    pose proof (Z.quot_rem' (tv_usec (start_time c) - tv_usec cur_tv) 10000).
    pose proof (Z.rem_bound_abs (tv_usec (start_time c) - tv_usec cur_tv) 10000 ltac:(lia)). lia.
Qed.

End Timers.

(** ** Witnesses *)

Definition fixed_random (k : nat) : Z := 12345678.

Lemma fixed_random_range k : 0 <= fixed_random k <= 2147483647.
Proof. unfold fixed_random. lia. Qed.

Definition epoch : timeval := {| tv_sec := 1000; tv_usec := 0 |}.

Definition client0 : client_state :=
  mkClient S_STOPPED no_handler 0 epoch 0 150 100 0 12000 3 [] [] 0.

Lemma dhc6_rand_table_witness :
  exists r k, dhc6_rand fixed_random 100 client0 = Returns r (set_draws k client0) /\ -9 <= r <= 9.
Proof.
  destruct (dhc6_rand_table fixed_random fixed_random_range 100 client0) as [_ T].
  destruct T as (r & k & E & Hr & _); [lia|]. exists r, k. split; [exact E | exact Hr].
Defined.

Lemma info_exchange_progress_witness :
  exists c c' tv, info_exchange fixed_random c /\ do_info_request6 fixed_random epoch true c = Returns tt c' /\
    info_exchange fixed_random c' /\
    calls c' = calls c ++ [make_client6_options DHCPV6_INFORMATION_REQUEST;
                           send_packet6 DHCPV6_INFORMATION_REQUEST (dhcpv6_transaction_id c);
                           add_timeout tv do_info_request6_timer].
Proof.
  eexists. pose proof (exchange_start fixed_random epoch 0 false client0 _ eq_refl) as S.
  destruct (info_exchange_progress fixed_random fixed_random_range _ epoch S) as (c' & tv & E & Hx & Hc & _).
  exists c', tv. split; [exact S|]. split; [exact E|]. split; [exact Hx | exact Hc].
Defined.

Lemma solicit_first_rt_witness :
  exists c' tv, start_init6 fixed_random epoch false 0 false client0 = Returns tt c' /\
    IRT c' = 100 /\ 100 < RT c' < 110 /\ txcount c' = 0 /\ state c' = S_INIT /\ v6_handler c' = init_handler /\
    calls c' = calls client0 ++ [add_timeout tv do_init6_timer] /\
    (tv_ok epoch -> tv_ok tv /\ usec epoch <= usec tv < usec epoch + 1000000).
Proof. apply (solicit_first_rt fixed_random fixed_random_range). Defined.

Lemma mrd_wakes_late_witness :
  exists c' rt, dhc6_retrans_advance fixed_random epoch client0 = Returns tt c' /\ txcount c' = 1 /\
    next_rt client0 rt /\
    let limit := usec epoch + 3 * 1000000 in
    (tv_sec (tv_add (tv_add (tv_sub epoch epoch) 150) rt) < 3 -> RT c' = rt) /\
    (3 <= tv_sec (tv_add (tv_add (tv_sub epoch epoch) 150) rt) ->
     limit - 10000 < usec epoch + RT c' * 10000 < limit + 10000 /\
     limit + 150 * 10000 - 10000 < usec epoch + (150 + RT c') * 10000).
Proof. apply (mrd_wakes_late fixed_random fixed_random_range epoch client0); simpl; lia. Defined.
