(* ===== verification/Base64.v ===== *)
(** * Base 64

    [b64_ntop] and [b64_pton] of server/dst/base64.c, the coder of the DHCP
    server's key material.

    The target area is a list of bytes, as long as the size the caller announces.
    [Minus1] is the error return, [Fault] an access outside the target area, an
    index outside the alphabet or a failed assertion.  A source string of
    [b64_pton] is the list of its characters before the terminating NUL. *)

From S2P Require Import Prelude.

Local Open Scope string_scope.
Local Open Scope Z_scope.

Definition Base64 : list Z :=
  bytes_of_string "ABCDEFGHIJKLMNOPQRSTUVWXYZabcdefghijklmnopqrstuvwxyz0123456789+/".
Definition Pad64 : Z := 61.

Inductive res (A : Type) :=
| Ok (a : A)
| Minus1
| Fault.
Arguments Ok {A} a.
Arguments Minus1 {A}.
Arguments Fault {A}.

#[export] Instance res_ret : MRet res := fun A a => Ok a.
#[export] Instance res_bind : MBind res := fun A B f m =>
  match m with Ok a => f a | Minus1 => Minus1 | Fault => Fault end.

Definition access {A} (o : option A) : res A := match o with Some a => Ok a | None => Fault end.
Definition assert_ (b : bool) : res unit := if b then Ok tt else Fault.

(** ** b64_ntop *)

(** [target[datalength++] = c] *)
Definition store (c : Z) (s : nat * list Z) : res (nat * list Z) :=
  b ← access (splice s.1 [c] s.2); Ok (S s.1, b).

(** [Base64[i]] *)
Definition letter (i : Z) : res Z := access (if 0 <=? i then Base64 !! Z.to_nat i else None).

Definition output0 (i0 : Z) : Z := u8 (Z.shiftr i0 2).
Definition output1 (i0 i1 : Z) : Z := u8 (Z.shiftl (Z.land i0 3) 4 + Z.shiftr i1 4).
Definition output2 (i1 i2 : Z) : Z := u8 (Z.shiftl (Z.land i1 15) 2 + Z.shiftr i2 6).
Definition output3 (i2 : Z) : Z := u8 (Z.land i2 63).

(** The padding block, for one or two remaining bytes. *)
Definition ntop_tail (i0 i1 : Z) (one : bool) (s : nat * list Z) : res (nat * list Z) :=
  assert_ (output0 i0 <? 64) ;; assert_ (output1 i0 i1 <? 64) ;; assert_ (output2 i1 0 <? 64) ;;
  if (length s.2 <? s.1 + 4)%nat then Minus1
  else
    c ← letter (output0 i0); s ← store c s;
    c ← letter (output1 i0 i1); s ← store c s;
    s ← (if one then store Pad64 s else c ← letter (output2 i1 0); store c s);
    store Pad64 s.

Fixpoint ntop_loop (src : list Z) (s : nat * list Z) : res (nat * list Z) :=
  match src with
  | i0 :: i1 :: i2 :: src =>
      assert_ (output0 i0 <? 64) ;; assert_ (output1 i0 i1 <? 64) ;;
      assert_ (output2 i1 i2 <? 64) ;; assert_ (output3 i2 <? 64) ;;
      if (length s.2 <? s.1 + 4)%nat then Minus1
      else
        c ← letter (output0 i0); s ← store c s;
        c ← letter (output1 i0 i1); s ← store c s;
        c ← letter (output2 i1 i2); s ← store c s;
        c ← letter (output3 i2); s ← store c s;
        ntop_loop src s
  | [i0; i1] => ntop_tail i0 i1 false s
  | [i0] => ntop_tail i0 0 true s
  | [] => Ok s
  end.

(** The length returned, and the target area. *)
Definition b64_ntop (src target : list Z) : res (nat * list Z) :=
  s ← ntop_loop src (O, target);
  if (length s.2 <=? s.1)%nat then Minus1
  else b ← access (splice s.1 [0] s.2); Ok (s.1, b).

(** ** b64_pton *)

(** [isspace] in the C locale. *)
Definition isspace (c : Z) : bool := (c =? 32) || ((9 <=? c) && (c <=? 13)).

(** [strchr(Base64, ch) - Base64] *)
Fixpoint strchr (l : list Z) (c : Z) : option nat :=
  match l with
  | [] => None
  | x :: l => if x =? c then Some O else S <$> strchr l c
  end.

(** [target] is NULL or the target area. *)
Definition get (target : option (list Z)) (i : nat) : res Z :=
  match target with None => Ok 0 | Some b => access (b !! i) end.
Definition put (i : nat) (v : Z) (target : option (list Z)) : res (option (list Z)) :=
  match target with None => Ok None | Some b => b ← access (splice i [u8 v] b); Ok (Some b) end.
(** [if (target && i >= targsize) return (-1);] *)
Definition room (target : option (list Z)) (i : nat) : res unit :=
  match target with None => Ok tt | Some b => if (length b <=? i)%nat then Minus1 else Ok tt end.

Record decoder := { st : nat; tarindex : nat; area : option (list Z) }.

(** One base-64 digit. *)
Definition pton_digit (v : Z) (d : decoder) : res decoder :=
  let t := tarindex d in
  match st d with
  | 0%nat =>
      room (area d) t ;;
      a ← put t (Z.shiftl v 2) (area d);
      Ok {| st := 1; tarindex := t; area := a |}
  | 1%nat =>
      room (area d) (t + 1) ;;
      x ← get (area d) t;
      a ← put t (Z.lor x (Z.shiftr v 4)) (area d);
      a ← put (t + 1) (Z.shiftl (Z.land v 15) 4) a;
      Ok {| st := 2; tarindex := S t; area := a |}
  | 2%nat =>
      room (area d) (t + 1) ;;
      x ← get (area d) t;
      a ← put t (Z.lor x (Z.shiftr v 2)) (area d);
      a ← put (t + 1) (Z.shiftl (Z.land v 3) 6) a;
      Ok {| st := 3; tarindex := S t; area := a |}
  | 3%nat =>
      room (area d) t ;;
      x ← get (area d) t;
      a ← put t (Z.lor x v) (area d);
      Ok {| st := 0; tarindex := S t; area := a |}
  | _ => Fault
  end.

(** The loop: where it stopped, with [Some rest] behind a pad character and
    [None] at the end of the string. *)
Fixpoint pton_loop (src : list Z) (d : decoder) : res (option (list Z) * decoder) :=
  match src with
  | [] => Ok (None, d)
  | ch :: src =>
      if isspace ch then pton_loop src d
      else if ch =? Pad64 then Ok (Some src, d)
      else match strchr Base64 ch with
           | None => Minus1
           | Some v => d ← pton_digit (Z.of_nat v) d; pton_loop src d
           end
  end.

Fixpoint skip_spaces (src : list Z) : list Z :=
  match src with
  | ch :: src' => if isspace ch then skip_spaces src' else src
  | [] => []
  end.

(** "single trailing =": nothing but white space, and no bits left over. *)
Definition pton_end (rest : list Z) (d : decoder) : res (nat * option (list Z)) :=
  match skip_spaces rest with
  | _ :: _ => Minus1
  | [] =>
      x ← get (area d) (tarindex d);
      if negb (x =? 0) then Minus1 else Ok (tarindex d, area d)
  end.

(** Behind the loop. *)
Definition pton_finish (r : option (list Z) * decoder) : res (nat * option (list Z)) :=
  let '(stop, d) := r in
  match stop with
  | Some rest =>
      match st d with
      | 2%nat =>
          match skip_spaces rest with
          | ch :: rest => if ch =? Pad64 then pton_end rest d else Minus1
          | [] => Minus1
          end
      | 3%nat => pton_end rest d
      | _ => Minus1
      end
  | None => if (st d =? 0)%nat then Ok (tarindex d, area d) else Minus1
  end.

Definition b64_pton (src : list Z) (target : option (list Z)) : res (nat * option (list Z)) :=
  r ← pton_loop src {| st := 0; tarindex := 0; area := target |};
  pton_finish r.

Example ntop_example :
  b64_ntop (bytes_of_string "hello") (replicate 10 7) =
  Ok (8%nat, bytes_of_string "aGVsbG8=" ++ [0; 7])%list.
Proof. reflexivity. Qed.

Example pton_example :
  b64_pton (bytes_of_string "aGV sbG8=") (Some (replicate 6 7)) = Ok (5%nat, Some (bytes_of_string "hello" ++ [0])%list).
Proof. reflexivity. Qed.

(** ** The encoding *)

Definition letter_of (i : Z) : Z := default 0 (Base64 !! Z.to_nat i).

Fixpoint encode (src : list Z) : list Z :=
  match src with
  | a :: b :: c :: src =>
      (letter_of (output0 a) :: letter_of (output1 a b) :: letter_of (output2 b c) :: letter_of (output3 c)
         :: encode src)%list
  | [a; b] => [letter_of (output0 a); letter_of (output1 a b); letter_of (output2 b 0); Pad64]
  | [a] => [letter_of (output0 a); letter_of (output1 a 0); Pad64; Pad64]
  | [] => []
  end.

(** The four digits as quotients and remainders. *)
Lemma output0_eq a : byte_ok a -> output0 a = a / 4 /\ 0 <= a / 4 < 64.
Proof.
  unfold byte_ok, output0. intros. rewrite Z.shiftr_div_pow2 by lia. change (2 ^ 2) with 4.
  assert (0 <= a / 4 < 64) by (split; [apply Z.div_pos | apply Z.div_lt_upper_bound]; lia).
  rewrite u8_id by (unfold byte_ok; lia). auto.
Qed.

Lemma output1_eq a b : byte_ok b -> output1 a b = a mod 4 * 16 + b / 16 /\ 0 <= a mod 4 * 16 + b / 16 < 64.
Proof.
  unfold byte_ok, output1. intros. rewrite Z.shiftr_div_pow2, Z.shiftl_mul_pow2 by lia.
  change 3 with (Z.ones 2). rewrite Z.land_ones by lia. change (2 ^ 4) with 16. change (2 ^ 2) with 4.
  assert (0 <= b / 16 < 16) by (split; [apply Z.div_pos | apply Z.div_lt_upper_bound]; lia).
  pose proof (Z.mod_pos_bound a 4). rewrite u8_id by (unfold byte_ok; lia). lia.
Qed.

Lemma output2_eq b c : byte_ok c -> output2 b c = b mod 16 * 4 + c / 64 /\ 0 <= b mod 16 * 4 + c / 64 < 64.
Proof.
  unfold byte_ok, output2. intros. rewrite Z.shiftr_div_pow2, Z.shiftl_mul_pow2 by lia.
  change 15 with (Z.ones 4). rewrite Z.land_ones by lia. change (2 ^ 6) with 64. change (2 ^ 4) with 16. change (2 ^ 2) with 4.
  assert (0 <= c / 64 < 4) by (split; [apply Z.div_pos | apply Z.div_lt_upper_bound]; lia).
  pose proof (Z.mod_pos_bound b 16). rewrite u8_id by (unfold byte_ok; lia). lia.
Qed.

Lemma output3_eq c : output3 c = c mod 64 /\ 0 <= c mod 64 < 64.
Proof.
  unfold output3. change 63 with (Z.ones 6). rewrite Z.land_ones by lia. change (2 ^ 6) with 64.
  pose proof (Z.mod_pos_bound c 64). rewrite u8_id by (unfold byte_ok; lia). lia.
Qed.

(** Each digit is below 64 and in the alphabet. *)
Lemma outputs_digits a b c :
  byte_ok a -> byte_ok b -> byte_ok c ->
  0 <= output0 a < 64 /\ 0 <= output1 a b < 64 /\ 0 <= output2 b c < 64 /\ 0 <= output3 c < 64.
Proof.
  intros Ha Hb Hc. destruct (output0_eq a Ha) as [-> ?], (output1_eq a b Hb) as [-> ?],
    (output2_eq b c Hc) as [-> ?], (output3_eq c) as [-> ?]. auto.
Qed.

Lemma letter_ok i : 0 <= i < 64 -> letter i = Ok (letter_of i).
Proof.
  intros Hi. unfold letter, letter_of. rewrite (proj2 (Z.leb_le _ _)) by lia.
  destruct (lookup_lt_is_Some_2 Base64 (Z.to_nat i)) as [c ->]; [|reflexivity].
  change (length Base64) with 64%nat. lia.
Qed.

Lemma assert_ltb i : 0 <= i < 64 -> assert_ (i <? 64) = Ok tt.
Proof. intros. unfold assert_. rewrite (proj2 (Z.ltb_lt _ _)) by lia. reflexivity. Qed.

Lemma store_ok n done buf c :
  holds n done buf -> (length done < n)%nat ->
  exists buf', store c (length done, buf) = Ok (length (done ++ [c]), buf') /\ holds n (done ++ [c]) buf'.
Proof.
  intros Hh Hl. destruct (splice_one n done buf c Hh Hl) as (b & E & Hb). exists b. split; [|exact Hb].
  unfold store. simpl. rewrite E. rewrite length_app. simpl. by rewrite Nat.add_1_r.
Qed.

(** Store the next letter. *)
Ltac store_step n :=
  match goal with
  | |- context [store ?c (length ?done, ?buf)] =>
      let b := fresh "b" in let E := fresh "E" in let Hh := fresh "Hh" in
      destruct (store_ok n done buf c) as (b & E & Hh);
      [assumption | rewrite ?length_app; cbn [length]; lia | rewrite E; clear E; cbn [mbind res_bind]]
  end.

Lemma ntop_tail_spec i0 i1 (one : bool) n done buf :
  byte_ok i0 -> byte_ok i1 -> holds n done buf ->
  ((length done + 4 <= n)%nat ->
   exists buf', let t := [letter_of (output0 i0); letter_of (output1 i0 i1);
                          (if one then Pad64 else letter_of (output2 i1 0)); Pad64] in
     ntop_tail i0 i1 one (length done, buf) = Ok (length (done ++ t), buf') /\ holds n (done ++ t) buf') /\
  ((n < length done + 4)%nat -> ntop_tail i0 i1 one (length done, buf) = Minus1).
Proof.
  intros H0 H1 Hb. destruct (outputs_digits i0 i1 0 H0 H1 ltac:(unfold byte_ok; lia)) as (D0 & D1 & D2 & _).
  unfold ntop_tail. rewrite !assert_ltb by assumption. cbn [mbind res_bind fst snd].
  pose proof Hb as (rest & Eb & Hn). rewrite Hn. split; intros Hl.
  - rewrite (proj2 (Nat.ltb_ge _ _)) by lia. rewrite !letter_ok by assumption. cbn [mbind res_bind].
    do 2 store_step n. destruct one; cbn [mbind res_bind]; do 2 store_step n;
      rewrite <- !app_assoc in *; eexists; split; [reflexivity | eassumption | reflexivity | eassumption].
  - rewrite (proj2 (Nat.ltb_lt _ _)) by lia. reflexivity.
Qed.

Lemma ntop_loop_spec src n done buf :
  bytes_ok src -> holds n done buf ->
  ((length done + length (encode src) <= n)%nat ->
   exists buf', ntop_loop src (length done, buf) = Ok (length (done ++ encode src), buf') /\
     holds n (done ++ encode src) buf') /\
  ((n < length done + length (encode src))%nat -> ntop_loop src (length done, buf) = Minus1).
Proof.
  revert done buf. induction src as [|a|a b|a b c src IH] using list_ind3; intros done buf Hs Hb.
  - simpl. rewrite app_nil_r. split; [eauto|]. destruct Hb as (r & -> & <-). rewrite length_app. lia.
  - inversion Hs; subst. apply ntop_tail_spec; auto. unfold byte_ok; lia.
  - inversion Hs as [|? ? Ha Hs']; subst. inversion Hs'; subst. by apply (ntop_tail_spec a b false).
  - inversion Hs as [|? ? Ha Hs1]; subst. inversion Hs1 as [|? ? Hb' Hs2]; subst.
    inversion Hs2 as [|? ? Hc Hs3]; subst. clear Hs Hs1 Hs2.
    destruct (outputs_digits a b c Ha Hb' Hc) as (D0 & D1 & D2 & D3).
    cbn [ntop_loop encode]. rewrite !assert_ltb by assumption. cbn [mbind res_bind fst snd length].
    pose proof Hb as (rest & Eb & Hn). rewrite Hn.
    destruct (Nat.ltb_spec n (length done + 4)); [split; [lia | reflexivity]|].
    rewrite !letter_ok by assumption. cbn [mbind res_bind]. do 4 store_step n.
    match goal with Hh : holds n ?d ?bf |- context [ntop_loop _ (length ?d, ?bf)] =>
      destruct (IH d bf Hs3 Hh) as [I1 I2];
      assert (d ++ encode src = done ++ letter_of (output0 a) :: letter_of (output1 a b) ::
        letter_of (output2 b c) :: letter_of (output3 c) :: encode src)%list as Ed by (by rewrite <- !app_assoc);
      rewrite Ed in I1; clear Ed
    end.
    split; intros Hl; [apply I1 | apply I2]; rewrite !length_app; cbn [length]; lia.
Qed.

(** ** Decoding *)

Lemma strchr_letter i : 0 <= i < 64 -> strchr Base64 (letter_of i) = Some (Z.to_nat i).
Proof.
  intros Hi. apply (bool_decide_unpack (strchr Base64 (letter_of i) = Some (Z.to_nat i))).
  assert (byte_ok i) as Hb by (unfold byte_ok; lia).
  apply (byte_forall (fun i => (64 <=? i) || bool_decide (strchr Base64 (letter_of i) = Some (Z.to_nat i)))) in Hb;
    [|vm_compute; reflexivity]. rewrite (proj2 (Z.leb_gt _ _)) in Hb by lia. simpl in Hb. by apply Is_true_true.
Qed.

Lemma letter_plain i : 0 <= i < 64 -> isspace (letter_of i) = false /\ (letter_of i =? Pad64) = false.
Proof.
  intros Hi. assert (byte_ok i) as Hb by (unfold byte_ok; lia).
  apply (byte_forall (fun i => (64 <=? i) || (negb (isspace (letter_of i)) && negb (letter_of i =? Pad64)))) in Hb;
    [|vm_compute; reflexivity]. rewrite (proj2 (Z.leb_gt _ _)) in Hb by lia. simpl in Hb.
  by apply andb_prop in Hb as [?%negb_true_iff ?%negb_true_iff].
Qed.

(** White space is skipped everywhere. *)
Definition squeeze (src : list Z) : list Z := filter (fun c => isspace c = false) src.

(** A letter of the alphabet, in a text whose white space does not count. *)
Lemma loop_letter src i u d :
  0 <= i < 64 -> squeeze src = letter_of i :: u ->
  exists src', squeeze src' = u /\ pton_loop src d = (d ← pton_digit i d; pton_loop src' d).
Proof.
  intros Hi. induction src as [|ch src IH]; intros Hs; [discriminate|]. unfold squeeze in *. cbn [pton_loop].
  destruct (isspace ch) eqn:E; [rewrite filter_cons_False in Hs by congruence; auto|].
  rewrite filter_cons_True in Hs by assumption. injection Hs as -> Hs. exists src. split; [exact Hs|].
  destruct (letter_plain i Hi) as [_ ->]. rewrite strchr_letter, Z2Nat.id by lia. reflexivity.
Qed.

Lemma loop_pad src u d :
  squeeze src = Pad64 :: u -> exists src', squeeze src' = u /\ pton_loop src d = Ok (Some src', d).
Proof.
  induction src as [|ch src IH]; intros Hs; [discriminate|]. unfold squeeze in *. cbn [pton_loop].
  destruct (isspace ch) eqn:E; [rewrite filter_cons_False in Hs by congruence; auto|].
  rewrite filter_cons_True in Hs by assumption. injection Hs as -> Hs. exists src. auto.
Qed.

Lemma loop_end src d : squeeze src = [] -> pton_loop src d = Ok (None, d).
Proof.
  induction src as [|ch src IH]; intros Hs; [reflexivity|]. unfold squeeze in *. cbn [pton_loop].
  destruct (isspace ch) eqn:E; [rewrite filter_cons_False in Hs by congruence; auto|].
  rewrite filter_cons_True in Hs by assumption. discriminate.
Qed.

Lemma skip_squeeze src :
  match squeeze src with
  | [] => skip_spaces src = []
  | c :: u => exists src', skip_spaces src = c :: src' /\ squeeze src' = u
  end.
Proof.
  induction src as [|ch src IH]; [reflexivity|]. unfold squeeze in *. cbn [skip_spaces].
  destruct (isspace ch) eqn:E.
  - rewrite filter_cons_False by congruence. exact IH.
  - rewrite filter_cons_True by assumption. eauto.
Qed.

(** The bits the decoder puts together. *)
Lemma join0 a : byte_ok a -> Z.lor (u8 (Z.shiftl (a / 4) 2)) (a mod 4) = a.
Proof.
  intros Hb. apply (byte_forall (fun a => Z.lor (u8 (Z.shiftl (a / 4) 2)) (a mod 4) =? a)) in Hb;
    [|vm_compute; reflexivity]. by apply Z.eqb_eq.
Qed.

Lemma join1 b : byte_ok b -> Z.lor (u8 (Z.shiftl (b / 16) 4)) (b mod 16) = b.
Proof.
  intros Hb. apply (byte_forall (fun b => Z.lor (u8 (Z.shiftl (b / 16) 4)) (b mod 16) =? b)) in Hb;
    [|vm_compute; reflexivity]. by apply Z.eqb_eq.
Qed.

Lemma join2 c : byte_ok c -> Z.lor (u8 (Z.shiftl (c / 64) 6)) (c mod 64) = c.
Proof.
  intros Hb. apply (byte_forall (fun c => Z.lor (u8 (Z.shiftl (c / 64) 6)) (c mod 64) =? c)) in Hb;
    [|vm_compute; reflexivity]. by apply Z.eqb_eq.
Qed.

(** Taking a digit apart. *)
Lemma split_digit x y k :
  0 < k -> 0 <= y < 2 ^ k -> 0 <= x ->
  Z.shiftr (x * 2 ^ k + y) k = x /\ Z.land (x * 2 ^ k + y) (Z.ones k) = y.
Proof.
  intros Hk Hy Hx. rewrite Z.shiftr_div_pow2, Z.land_ones by lia.
  rewrite Z.add_comm, Z.div_add, Z.mod_add, Z.div_small, Z.mod_small by lia. lia.
Qed.

(** ** Digits into a target area *)

Lemma holds_last n done x buf :
  holds n (done ++ [x]) buf -> buf !! length done = Some x /\ (length done < n)%nat.
Proof.
  intros (rest & -> & Hn). rewrite <- app_assoc. cbn [app]. rewrite list_lookup_middle by reflexivity.
  rewrite <- Hn, !length_app. simpl. split; [reflexivity | lia].
Qed.

Lemma replace_last n done x y buf :
  holds n (done ++ [x]) buf ->
  exists buf', splice (length done) [y] buf = Some buf' /\ holds n (done ++ [y]) buf'.
Proof.
  intros (rest & -> & Hn). rewrite <- app_assoc. rewrite splice_app by reflexivity.
  eexists. split; [reflexivity|]. exists rest. split; [by rewrite <- app_assoc|].
  rewrite <- Hn, !length_app. simpl. lia.
Qed.

Definition running (s t : nat) (buf : list Z) : decoder := {| st := s; tarindex := t; area := Some buf |}.

Lemma digit0 v n done buf :
  holds n done buf -> (length done < n)%nat ->
  exists buf', pton_digit v (running 0 (length done) buf) = Ok (running 1 (length done) buf') /\
    holds n (done ++ [u8 (Z.shiftl v 2)]) buf'.
Proof.
  intros Hh Hl. destruct (splice_one n done buf (u8 (Z.shiftl v 2)) Hh Hl) as (b & E & Hb).
  exists b. split; [|exact Hb]. destruct Hh as (r & Er & Hn).
  cbn. rewrite Hn, (proj2 (Nat.leb_gt _ _)) by lia. cbn. rewrite E. reflexivity.
Qed.

Lemma digit_mid s v x y z n done buf :
  holds n (done ++ [x]) buf -> (length done + 1 < n)%nat ->
  (s = 1%nat /\ y = u8 (Z.lor x (Z.shiftr v 4)) /\ z = u8 (Z.shiftl (Z.land v 15) 4)) \/
  (s = 2%nat /\ y = u8 (Z.lor x (Z.shiftr v 2)) /\ z = u8 (Z.shiftl (Z.land v 3) 6)) ->
  exists buf', pton_digit v (running s (length done) buf) = Ok (running (S s) (length (done ++ [y])) buf') /\
    holds n ((done ++ [y]) ++ [z]) buf'.
Proof.
  intros Hh Hl Hs. destruct (holds_last _ _ _ _ Hh) as [Ex _].
  destruct (replace_last n done x y buf Hh) as (b1 & E1 & H1).
  assert (length (done ++ [y]) = length done + 1)%nat as Ly by (rewrite length_app; reflexivity).
  destruct (splice_one n (done ++ [y]) b1 z H1 ltac:(lia)) as (b2 & E2 & H2). rewrite Ly in *.
  exists b2. split; [|exact H2]. destruct Hh as (r & Er & Hn).
  destruct Hs as [(-> & -> & ->) | (-> & -> & ->)]; cbn;
    (rewrite Hn, (proj2 (Nat.leb_gt _ _)) by lia); cbn; rewrite Ex; cbn; rewrite E1; cbn; rewrite E2; cbn;
    rewrite Nat.add_1_r; reflexivity.
Qed.

Lemma digit3 v x n done buf :
  holds n (done ++ [x]) buf ->
  exists buf', pton_digit v (running 3 (length done) buf) =
      Ok (running 0 (length (done ++ [u8 (Z.lor x v)])) buf') /\ holds n (done ++ [u8 (Z.lor x v)]) buf'.
Proof.
  intros Hh. destruct (holds_last _ _ _ _ Hh) as [Ex Hl].
  destruct (replace_last n done x (u8 (Z.lor x v)) buf Hh) as (b1 & E1 & H1). exists b1. split; [|exact H1].
  destruct Hh as (r & Er & Hn). cbn. rewrite Hn, (proj2 (Nat.leb_gt _ _)) by lia. cbn. rewrite Ex. cbn. rewrite E1.
  cbn. rewrite length_app, Nat.add_1_r. reflexivity.
Qed.

(** A digit for which there is no room. *)
Lemma digit_full s v t buf :
  (s <= 3)%nat ->
  (length buf <= t)%nat \/ ((s = 1 \/ s = 2)%nat /\ (length buf <= t + 1)%nat) ->
  pton_digit v (running s t buf) = Minus1.
Proof.
  intros Hs Hf. destruct s as [|[|[|[|s]]]]; [| | | |lia]; cbn;
    (rewrite (proj2 (Nat.leb_le _ _)) by (destruct Hf as [|[[|] ?]]; lia)); reflexivity.
Qed.

(** ** The first digits of a group *)

Section Group.
Context (n : nat) (done : list Z) (a b c : Z).
Hypotheses (Ha : byte_ok a) (Hb : byte_ok b) (Hc : byte_ok c).

(** Two digits: the first byte, and the upper half of the second. *)
Lemma two_digits src u buf :
  squeeze src = letter_of (output0 a) :: letter_of (output1 a b) :: u -> holds n done buf -> (length done + 1 < n)%nat ->
  exists src' buf', squeeze src' = u /\
    pton_loop src (running 0 (length done) buf) = pton_loop src' (running 2 (length (done ++ [a])) buf') /\
    holds n ((done ++ [a]) ++ [u8 (Z.shiftl (b / 16) 4)]) buf'.
Proof.
  intros Hs Hh Hl. destruct (output0_eq a Ha) as [E0 D0], (output1_eq a b Hb) as [E1 D1]. rewrite E0, E1 in Hs.
  destruct (loop_letter _ _ _ (running 0 (length done) buf) D0 Hs) as (s1 & Hs1 & ->).
  destruct (digit0 (a / 4) n done buf Hh ltac:(lia)) as (b1 & -> & H1). cbn [mbind res_bind].
  destruct (loop_letter _ _ _ (running 1 (length done) b1) D1 Hs1) as (s2 & Hs2 & ->).
  assert (0 <= b / 16 < 2 ^ 4) as Hq by (unfold byte_ok in Hb; split; [apply Z.div_pos | apply Z.div_lt_upper_bound]; lia).
  destruct (split_digit (a mod 4) (b / 16) 4 ltac:(lia) Hq) as [S1 S2]; [apply Z.mod_pos_bound; lia|].
  change (Z.ones 4) with 15 in S2. change (2 ^ 4) with 16 in S1, S2.
  destruct (digit_mid 1 (a mod 4 * 16 + b / 16) _ a (u8 (Z.shiftl (b / 16) 4)) n done b1 H1 Hl) as (b2 & -> & H2);
    [left; rewrite S1, S2, join0, u8_id by assumption; auto|]. cbn [mbind res_bind]. exists s2, b2. auto.
Qed.

(** Three digits: two bytes, and the upper two bits of the third. *)
Lemma three_digits src u buf :
  squeeze src = letter_of (output0 a) :: letter_of (output1 a b) :: letter_of (output2 b c) :: u ->
  holds n done buf -> (length done + 2 < n)%nat ->
  exists src' buf', squeeze src' = u /\
    pton_loop src (running 0 (length done) buf) = pton_loop src' (running 3 (length ((done ++ [a]) ++ [b])) buf') /\
    holds n (((done ++ [a]) ++ [b]) ++ [u8 (Z.shiftl (c / 64) 6)]) buf'.
Proof.
  intros Hs Hh Hl. destruct (two_digits _ _ _ Hs Hh ltac:(lia)) as (s1 & b1 & Hs1 & -> & H1).
  destruct (output2_eq b c Hc) as [E2 D2]. rewrite E2 in Hs1.
  destruct (loop_letter _ _ _ (running 2 (length (done ++ [a])) b1) D2 Hs1) as (s2 & Hs2 & ->).
  assert (0 <= c / 64 < 2 ^ 2) as Hq by (unfold byte_ok in Hc; split; [apply Z.div_pos | apply Z.div_lt_upper_bound]; lia).
  destruct (split_digit (b mod 16) (c / 64) 2 ltac:(lia) Hq) as [S1 S2]; [apply Z.mod_pos_bound; lia|].
  change (Z.ones 2) with 3 in S2. change (2 ^ 2) with 4 in S1, S2.
  destruct (digit_mid 2 (b mod 16 * 4 + c / 64) _ b (u8 (Z.shiftl (c / 64) 6)) n (done ++ [a]) b1 H1) as (b2 & -> & H2);
    [rewrite length_app; simpl; lia | right; rewrite S1, S2, join1, u8_id by assumption; auto|]. cbn [mbind res_bind]. exists s2, b2. auto.
Qed.

(** Four digits: three bytes. *)
Lemma four_digits src u buf :
  squeeze src = letter_of (output0 a) :: letter_of (output1 a b) :: letter_of (output2 b c) :: letter_of (output3 c) :: u ->
  holds n done buf -> (length done + 2 < n)%nat ->
  exists src' buf', squeeze src' = u /\
    pton_loop src (running 0 (length done) buf) = pton_loop src' (running 0 (length (done ++ [a; b; c])) buf') /\
    holds n (done ++ [a; b; c]) buf'.
Proof.
  intros Hs Hh Hl. destruct (three_digits _ _ _ Hs Hh Hl) as (s1 & b1 & Hs1 & -> & H1).
  destruct (output3_eq c) as [E3 D3]. rewrite E3 in Hs1.
  destruct (loop_letter _ _ _ (running 3 (length ((done ++ [a]) ++ [b])) b1) D3 Hs1) as (s2 & Hs2 & ->).
  destruct (digit3 (c mod 64) _ n _ b1 H1) as (b2 & -> & H2). rewrite join2, u8_id in * by assumption.
  cbn [mbind res_bind]. rewrite <- !app_assoc in *. exists s2, b2. auto.
Qed.

End Group.

(** ** Decoding an encoding *)

Lemma pton_end_ok s src n done x buf :
  squeeze src = [] -> holds n (done ++ [x]) buf ->
  pton_end src (running s (length done) buf) = if negb (x =? 0) then Minus1 else Ok (length done, Some buf).
Proof.
  intros Hs Hh. unfold pton_end. pose proof (skip_squeeze src) as E. rewrite Hs in E. rewrite E.
  destruct (holds_last _ _ _ _ Hh) as [Ex _]. cbn. rewrite Ex. reflexivity.
Qed.

Lemma zero_pending k v : 0 <= k -> u8 (Z.shiftl (0 / v) k) = 0.
Proof. intros. rewrite Zdiv_0_l, Z.shiftl_0_l. reflexivity. Qed.

(** Decoding the encoding of [data], whatever the white space, stores [data]. *)
Lemma pton_encode data n src done buf :
  bytes_ok data -> squeeze src = encode data -> holds n done buf -> (length done + length data < n)%nat ->
  exists buf', (pton_loop src (running 0 (length done) buf) ≫= pton_finish) = Ok (length (done ++ data), Some buf') /\
    holds n (done ++ data) buf'.
Proof.
  assert (byte_ok 0) as H0 by (unfold byte_ok; lia).
  revert src done buf. induction data as [|a|a b|a b c data IH] using list_ind3; intros src done buf Hd Hs Hh Hl.
  - rewrite loop_end by exact Hs. exists buf. rewrite app_nil_r. auto.
  - inversion Hd as [|? ? Ha _]; subst. simpl in Hl.
    destruct (two_digits n done a 0 Ha H0 _ _ _ Hs Hh ltac:(lia)) as (s1 & b1 & Hs1 & -> & H1).
    rewrite zero_pending in H1 by lia.
    destruct (loop_pad _ _ (running 2 (length (done ++ [a])) b1) Hs1) as (s2 & Hs2 & ->).
    cbn [mbind res_bind pton_finish st running]. pose proof (skip_squeeze s2) as K. rewrite Hs2 in K.
    destruct K as (s3 & -> & Hs3). rewrite Z.eqb_refl. fold (running 2 (length (done ++ [a])) b1).
    rewrite (pton_end_ok 2 _ _ _ _ _ Hs3 H1). exists b1. split; [reflexivity|].
    destruct H1 as (r & -> & Hn). exists (0 :: r)%list. rewrite <- app_assoc in *. auto.
  - inversion Hd as [|? ? Ha Hd1]; subst. inversion Hd1 as [|? ? Hb _]; subst. simpl in Hl.
    destruct (three_digits n done a b 0 Ha Hb H0 _ _ _ Hs Hh ltac:(lia)) as (s1 & b1 & Hs1 & -> & H1).
    rewrite zero_pending in H1 by lia.
    destruct (loop_pad _ _ (running 3 (length ((done ++ [a]) ++ [b])) b1) Hs1) as (s2 & Hs2 & ->).
    cbn [mbind res_bind pton_finish st running]. fold (running 3 (length ((done ++ [a]) ++ [b])) b1).
    rewrite (pton_end_ok 3 _ _ _ _ _ Hs2 H1). rewrite <- !app_assoc in *. exists b1. split; [reflexivity|].
    destruct H1 as (r & -> & Hn). exists (0 :: r)%list. rewrite <- !app_assoc in *. auto.
  - inversion Hd as [|? ? Ha Hd1]; subst. inversion Hd1 as [|? ? Hb Hd2]; subst.
    inversion Hd2 as [|? ? Hc Hd3]; subst. simpl in Hl.
    destruct (four_digits n done a b c Ha Hb Hc _ _ _ Hs Hh ltac:(lia)) as (s1 & b1 & Hs1 & -> & H1).
    destruct (IH _ _ _ Hd3 Hs1 H1) as (b2 & E & H2); [rewrite length_app; simpl; lia|].
    rewrite <- !app_assoc in *. exists b2. auto.
Qed.

(** ** What is accepted is an encoding *)

Lemma strchr_Some l c v : strchr l c = Some v -> l !! v = Some c.
Proof.
  revert v. induction l as [|x l IH]; intros v; [discriminate|]. cbn [strchr].
  destruct (Z.eqb_spec x c) as [->|]; [intros; by simplify_eq|].
  destruct (strchr l c); [|discriminate]. intros E. injection E as <-. simpl. by apply IH.
Qed.

Lemma loop_inv src d r :
  (pton_loop src d ≫= pton_finish) = Ok r ->
  (squeeze src = [] /\ pton_finish (None, d) = Ok r) \/
  (exists src', squeeze src = Pad64 :: squeeze src' /\ pton_finish (Some src', d) = Ok r) \/
  (exists v d' src', 0 <= v < 64 /\ squeeze src = letter_of v :: squeeze src' /\ pton_digit v d = Ok d' /\
     (pton_loop src' d' ≫= pton_finish) = Ok r).
Proof.
  induction src as [|ch src IH]; [auto|]. unfold squeeze. cbn [pton_loop].
  destruct (isspace ch) eqn:E; [rewrite filter_cons_False by congruence; exact IH|].
  rewrite filter_cons_True by assumption.
  destruct (Z.eqb_spec ch Pad64) as [->|_]; [intros Hr; right; left; exists src; auto|].
  destruct (strchr Base64 ch) as [v|] eqn:Ev; [|discriminate].
  pose proof (strchr_Some _ _ _ Ev) as Lv. pose proof (lookup_lt_Some _ _ _ Lv) as Bv.
  change (length Base64) with 64%nat in Bv. intros Hr.
  destruct (pton_digit (Z.of_nat v) d) as [d'| |] eqn:Ed; [|discriminate|discriminate]. cbn [mbind res_bind] in Hr.
  right. right. exists (Z.of_nat v), d', src. split; [lia|]. split; [|auto].
  unfold letter_of. rewrite Nat2Z.id, Lv. reflexivity.
Qed.

(** The bytes put together from four digits have these digits. *)
Lemma lor_low x y k : 0 <= k -> 0 <= y < 2 ^ k -> Z.lor (x * 2 ^ k) y = x * 2 ^ k + y.
Proof.
  intros Hk Hy. rewrite <- Z.add_nocarry_lor; [reflexivity|]. apply Z.bits_inj_0. intros m.
  rewrite Z.land_spec. destruct (Z.ltb_spec m k).
  - rewrite Z.mul_pow2_bits_low by lia. reflexivity.
  - destruct (Z.eq_dec y 0) as [->|]; [rewrite Z.bits_0; apply andb_false_r|].
    rewrite (Z.bits_above_log2 y m), andb_false_r; [reflexivity | lia|].
    apply Z.log2_lt_pow2; [lia|]. apply Z.lt_le_trans with (2 ^ k); [lia|]. apply Z.pow_le_mono_r; lia.
Qed.

Definition byte0 (v0 v1 : Z) : Z := u8 (Z.lor (u8 (Z.shiftl v0 2)) (Z.shiftr v1 4)).
Definition byte1 (v1 v2 : Z) : Z := u8 (Z.lor (u8 (Z.shiftl (Z.land v1 15) 4)) (Z.shiftr v2 2)).
Definition byte2 (v2 v3 : Z) : Z := u8 (Z.lor (u8 (Z.shiftl (Z.land v2 3) 6)) v3).

Lemma bytes_of_digits v0 v1 v2 v3 :
  0 <= v0 < 64 -> 0 <= v1 < 64 -> 0 <= v2 < 64 -> 0 <= v3 < 64 ->
  byte0 v0 v1 = v0 * 4 + v1 / 16 /\ byte1 v1 v2 = v1 mod 16 * 16 + v2 / 4 /\ byte2 v2 v3 = v2 mod 4 * 64 + v3.
Proof.
  intros. unfold byte0, byte1, byte2.
  change 15 with (Z.ones 4). change (Z.land v2 3) with (Z.land v2 (Z.ones 2)).
  rewrite !Z.land_ones, !Z.shiftr_div_pow2, !Z.shiftl_mul_pow2 by lia.
  pose proof (Z.mod_pos_bound v1 16). pose proof (Z.mod_pos_bound v2 4).
  assert (0 <= v1 / 16 < 4) by (split; [apply Z.div_pos | apply Z.div_lt_upper_bound]; lia).
  assert (0 <= v2 / 4 < 16) by (split; [apply Z.div_pos | apply Z.div_lt_upper_bound]; lia).
  change (2 ^ 4) with 16. change (2 ^ 2) with 4. change (2 ^ 6) with 64.
  rewrite !(u8_id (_ * _)) by (unfold byte_ok; lia).
  pose proof (lor_low v0 (v1 / 16) 2 ltac:(lia) ltac:(lia)) as L0.
  pose proof (lor_low (v1 mod 16) (v2 / 4) 4 ltac:(lia) ltac:(lia)) as L1.
  pose proof (lor_low (v2 mod 4) v3 6 ltac:(lia) ltac:(lia)) as L2.
  change (2 ^ 2) with 4 in L0. change (2 ^ 4) with 16 in L1. change (2 ^ 6) with 64 in L2. rewrite L0, L1, L2.
  rewrite !u8_id by (unfold byte_ok; lia). auto.
Qed.

Lemma digits_of_bytes v0 v1 v2 v3 :
  0 <= v0 < 64 -> 0 <= v1 < 64 -> 0 <= v2 < 64 -> 0 <= v3 < 64 ->
  let a := byte0 v0 v1 in let b := byte1 v1 v2 in let c := byte2 v2 v3 in
  (byte_ok a /\ byte_ok b /\ byte_ok c) /\
  output0 a = v0 /\ output1 a b = v1 /\ output2 b c = v2 /\ output3 c = v3.
Proof.
  intros H0 H1 H2 H3 a b c. destruct (bytes_of_digits v0 v1 v2 v3 H0 H1 H2 H3) as (Ea & Eb & Ec).
  fold a in Ea. fold b in Eb. fold c in Ec.
  pose proof (Z.div_mod v1 16 ltac:(lia)). pose proof (Z.mod_pos_bound v1 16 ltac:(lia)).
  pose proof (Z.div_mod v2 4 ltac:(lia)). pose proof (Z.mod_pos_bound v2 4 ltac:(lia)).
  assert (byte_ok a /\ byte_ok b /\ byte_ok c) as (Ha & Hb & Hc) by (unfold byte_ok; lia). split; [auto|].
  destruct (output0_eq a Ha) as [-> _], (output1_eq a b Hb) as [-> _], (output2_eq b c Hc) as [-> _], (output3_eq c) as [-> _].
  rewrite Ea, Eb, Ec. clear - H0 H1 H2 H3. Z.to_euclidean_division_equations. lia.
Qed.

Lemma digit0_inv v n done buf d :
  holds n done buf -> pton_digit v (running 0 (length done) buf) = Ok d ->
  exists buf', d = running 1 (length done) buf' /\ holds n (done ++ [u8 (Z.shiftl v 2)]) buf'.
Proof.
  intros Hh E. destruct (decide (length done < n)%nat) as [Hl|Hl].
  - destruct (digit0 v n done buf Hh Hl) as (b & E' & Hb). rewrite E' in E. injection E as <-. eauto.
  - destruct Hh as (r & -> & <-). rewrite digit_full in E; [discriminate | lia | left; lia].
Qed.

Lemma digit_mid_inv s v x y z n done buf d :
  holds n (done ++ [x]) buf ->
  (s = 1%nat /\ y = u8 (Z.lor x (Z.shiftr v 4)) /\ z = u8 (Z.shiftl (Z.land v 15) 4)) \/
  (s = 2%nat /\ y = u8 (Z.lor x (Z.shiftr v 2)) /\ z = u8 (Z.shiftl (Z.land v 3) 6)) ->
  pton_digit v (running s (length done) buf) = Ok d ->
  exists buf', d = running (S s) (length (done ++ [y])) buf' /\ holds n ((done ++ [y]) ++ [z]) buf'.
Proof.
  intros Hh Hs E. destruct (decide (length done + 1 < n)%nat) as [Hl|Hl].
  - destruct (digit_mid s v x y z n done buf Hh Hl Hs) as (b & E' & Hb). rewrite E' in E. injection E as <-. eauto.
  - destruct Hh as (r & -> & <-). rewrite digit_full in E; [discriminate | lia | right; lia].
Qed.

Lemma pton_end_inv s src n done x buf r :
  holds n (done ++ [x]) buf -> pton_end src (running s (length done) buf) = Ok r ->
  squeeze src = [] /\ x = 0 /\ r = (length done, Some buf).
Proof.
  intros Hh. pose proof (skip_squeeze src) as K. destruct (squeeze src) as [|c u] eqn:Es.
  - rewrite (pton_end_ok s _ _ _ _ _ Es Hh). destruct (Z.eqb_spec x 0); [|discriminate]. simpl. intros E. by injection E as <-.
  - destruct K as (s' & K & _). unfold pton_end. rewrite K. discriminate.
Qed.

Lemma u8_u8 v : u8 (u8 v) = u8 v.
Proof. apply u8_id, u8_ok. Qed.

Lemma pending1 v : u8 (Z.shiftl (Z.land v 15) 4) = byte1 v 0.
Proof. unfold byte1. rewrite Z.shiftr_0_l, Z.lor_0_r, u8_u8. reflexivity. Qed.

Lemma pending2 v : u8 (Z.shiftl (Z.land v 3) 6) = byte2 v 0.
Proof. unfold byte2. rewrite Z.lor_0_r, u8_u8. reflexivity. Qed.

Lemma holds_prefix n done x buf : holds n (done ++ x) buf -> holds n done buf.
Proof. intros (r & -> & Hn). exists (x ++ r)%list. rewrite <- app_assoc in *. auto. Qed.

(** The text decoded from [src] on is the encoding of what was added to [done]. *)
Definition canonical (n : nat) (src done : list Z) (r : nat * option (list Z)) : Prop :=
  exists data buf', r = (length (done ++ data), Some buf') /\ bytes_ok data /\ squeeze src = encode data /\
    holds n (done ++ data) buf'.

Lemma canonical_one n src s done v0 v1 src' buf r :
  0 <= v0 < 64 -> 0 <= v1 < 64 -> squeeze src = letter_of v0 :: letter_of v1 :: Pad64 :: squeeze src' ->
  holds n ((done ++ [byte0 v0 v1]) ++ [byte1 v1 0]) buf ->
  match skip_spaces src' with
  | ch :: rest => if ch =? Pad64 then pton_end rest (running s (length (done ++ [byte0 v0 v1])) buf) else Minus1
  | [] => Minus1
  end = Ok r -> canonical n src done r.
Proof.
  intros H0 H1 Hs Hh E. pose proof (skip_squeeze src') as K. destruct (squeeze src') as [|c u]; [by rewrite K in E|].
  destruct K as (s2 & K & Ku). rewrite K in E. destruct (Z.eqb_spec c Pad64) as [->|]; [|discriminate].
  destruct (pton_end_inv _ _ _ _ _ _ _ Hh E) as (Es2 & Ez & ->).
  destruct (digits_of_bytes v0 v1 0 0 H0 H1 ltac:(lia) ltac:(lia)) as ((Ha & _ & _) & D0 & D1 & _). rewrite Ez in D1.
  exists [byte0 v0 v1], buf. split; [reflexivity|]. split; [repeat (apply Forall_cons_2; [assumption|]); first [assumption | apply Forall_nil_2]|]. split; [|by apply holds_prefix in Hh].
  cbn [encode]. rewrite D0, D1, Hs, <- Ku, Es2. reflexivity.
Qed.

Lemma canonical_two n src s done v0 v1 v2 src' buf r :
  0 <= v0 < 64 -> 0 <= v1 < 64 -> 0 <= v2 < 64 ->
  squeeze src = letter_of v0 :: letter_of v1 :: letter_of v2 :: Pad64 :: squeeze src' ->
  holds n (((done ++ [byte0 v0 v1]) ++ [byte1 v1 v2]) ++ [byte2 v2 0]) buf ->
  pton_end src' (running s (length ((done ++ [byte0 v0 v1]) ++ [byte1 v1 v2])) buf) = Ok r -> canonical n src done r.
Proof.
  intros H0 H1 H2 Hs Hh E. destruct (pton_end_inv _ _ _ _ _ _ _ Hh E) as (Es & Ez & ->).
  destruct (digits_of_bytes v0 v1 v2 0 H0 H1 H2 ltac:(lia)) as ((Ha & Hb & _) & D0 & D1 & D2 & _). rewrite Ez in D2.
  exists [byte0 v0 v1; byte1 v1 v2], buf. apply holds_prefix in Hh. rewrite <- app_assoc in Hh |- *.
  split; [reflexivity|]. split; [repeat (apply Forall_cons_2; [assumption|]); first [assumption | apply Forall_nil_2]|]. split; [|exact Hh].
  cbn [encode]. rewrite D0, D1, D2, Hs, Es. reflexivity.
Qed.

(** Whatever the decoder accepts is an encoding, up to white space. *)
Lemma pton_canonical m n src done buf r :
  (length (squeeze src) <= m)%nat -> holds n done buf ->
  (pton_loop src (running 0 (length done) buf) ≫= pton_finish) = Ok r -> canonical n src done r.
Proof.
  revert src done buf. induction m as [|m IH]; intros src done buf Hm Hh E.
  - destruct (squeeze src) eqn:Es; [|simpl in Hm; lia]. rewrite loop_end in E by assumption. injection E as <-.
    exists [], buf. rewrite app_nil_r. repeat split; auto. constructor.
  - destruct (loop_inv _ _ _ E) as [[Es F] | [(s1 & Es & F) | (v0 & d1 & s1 & V0 & Es & D & E1)]]; [|discriminate F|]; clear E.
    { injection F as <-. exists [], buf. rewrite app_nil_r. repeat split; auto. constructor. }
    destruct (digit0_inv _ _ _ _ _ Hh D) as (b1 & -> & H1). clear D.
    destruct (loop_inv _ _ _ E1) as [[Es1 F] | [(s2 & Es1 & F) | (v1 & d2 & s2 & V1 & Es1 & D & E2)]]; [discriminate F|discriminate F|]; clear E1.
    destruct (digit_mid_inv 1 v1 _ (byte0 v0 v1) (byte1 v1 0) n done b1 d2 H1) as (b2 & -> & H2);
      [left; rewrite pending1; auto | exact D|]. clear D. rewrite Es1 in Es.
    destruct (loop_inv _ _ _ E2) as [[Es2 F] | [(s3 & Es2 & F) | (v2 & d3 & s3 & V2 & Es2 & D & E3)]]; [discriminate F| |]; clear E2; rewrite Es2 in Es.
    { exact (canonical_one n src 2 done v0 v1 s3 b2 r V0 V1 Es H2 F). }
    rewrite <- pending1 in H2.
    destruct (digit_mid_inv 2 v2 _ (byte1 v1 v2) (byte2 v2 0) n (done ++ [byte0 v0 v1]) b2 d3 H2) as (b3 & -> & H3);
      [right; rewrite pending2; auto | exact D|]. clear D.
    destruct (loop_inv _ _ _ E3) as [[Es3 F] | [(s4 & Es3 & F) | (v3 & d4 & s4 & V3 & Es3 & D & E4)]]; [discriminate F| |]; clear E3; rewrite Es3 in Es.
    { exact (canonical_two n src 3 done v0 v1 v2 s4 b3 r V0 V1 V2 Es H3 F). }
    rewrite <- pending2 in H3. destruct (digit3 v3 _ _ _ _ H3) as (b4 & D' & H4). rewrite D' in D. injection D as <-.
    fold (byte2 v2 v3) in H4, E4.
    rewrite Es in Hm. simpl in Hm. assert (length (squeeze s4) <= m)%nat as Hm' by lia.
    destruct (IH _ _ _ Hm' H4 E4) as (data & b5 & -> & Hd & Ed & H5).
    destruct (digits_of_bytes v0 v1 v2 v3 V0 V1 V2 V3) as ((Ha & Hb & Hc) & D0 & D1 & D2 & D3).
    exists (byte0 v0 v1 :: byte1 v1 v2 :: byte2 v2 v3 :: data), b5. rewrite <- !app_assoc in *.
    split; [reflexivity|]. split; [repeat (apply Forall_cons_2; [assumption|]); first [assumption | apply Forall_nil_2]|]. split; [|exact H5].
    cbn [encode]. rewrite D0, D1, D2, D3, Es, Ed. reflexivity.
Qed.

Lemma b64_pton_running src target :
  b64_pton src (Some target) = (pton_loop src (running 0 (length (@nil Z)) target) ≫= pton_finish).
Proof. reflexivity. Qed.

(** A state of the decoder in which the pending byte is inside the target area. *)
Definition decoder_ok (d : decoder) : Prop :=
  (st d <= 3)%nat /\ match area d with Some b => st d = 0%nat \/ (tarindex d < length b)%nat | None => True end.

Lemma put_ok i v b : (i < length b)%nat -> exists b', put i v (Some b) = Ok (Some b') /\ length b' = length b.
Proof.
  intros Hi. unfold put. destruct (splice_is_Some i [u8 v] b) as [b' E]; [simpl; lia|].
  rewrite E. exists b'. split; [reflexivity | by apply length_splice in E].
Qed.

Lemma get_ok i b : (i < length b)%nat -> exists x, get (Some b) i = Ok x.
Proof. intros Hi. unfold get. destruct (lookup_lt_is_Some_2 b i Hi) as [x ->]. eexists. reflexivity. Qed.

Lemma pton_digit_safe v d :
  decoder_ok d -> pton_digit v d = Minus1 \/ exists d', pton_digit v d = Ok d' /\ decoder_ok d'.
Proof.
  destruct d as [s t [b|]]; intros [Hs Ha]; cbn [st tarindex area] in *; cycle 1.
  { destruct s as [|[|[|[|s]]]]; [| | | |lia]; right; eexists; (split; [reflexivity|]); split; simpl; auto; lia. }
  destruct s as [|[|[|[|s]]]]; [| | | |lia]; unfold pton_digit; cbn [st tarindex area room];
    (match goal with |- context [(length b <=? ?i)%nat] => destruct (Nat.leb_spec (length b) i) end; [by left|]);
    right; cbn [mbind res_bind].
  - destruct (put_ok t (Z.shiftl v 2) b ltac:(lia)) as (b1 & -> & L1). eexists. split; [reflexivity|].
    split; simpl; lia.
  - destruct (get_ok t b ltac:(lia)) as [x ->]. cbn [mbind res_bind].
    destruct (put_ok t (Z.lor x (Z.shiftr v 4)) b ltac:(lia)) as (b1 & -> & L1). cbn [mbind res_bind].
    destruct (put_ok (t + 1) (Z.shiftl (Z.land v 15) 4) b1 ltac:(lia)) as (b2 & -> & L2).
    eexists. split; [reflexivity|]. split; simpl; lia.
  - destruct (get_ok t b ltac:(lia)) as [x ->]. cbn [mbind res_bind].
    destruct (put_ok t (Z.lor x (Z.shiftr v 2)) b ltac:(lia)) as (b1 & -> & L1). cbn [mbind res_bind].
    destruct (put_ok (t + 1) (Z.shiftl (Z.land v 3) 6) b1 ltac:(lia)) as (b2 & -> & L2).
    eexists. split; [reflexivity|]. split; simpl; lia.
  - destruct (get_ok t b ltac:(lia)) as [x ->]. cbn [mbind res_bind].
    destruct (put_ok t (Z.lor x v) b ltac:(lia)) as (b1 & -> & L1). eexists. split; [reflexivity|]. split; simpl; lia.
Qed.

Lemma pton_loop_safe src d :
  decoder_ok d -> pton_loop src d = Minus1 \/ exists stop d', pton_loop src d = Ok (stop, d') /\ decoder_ok d'.
Proof.
  revert d. induction src as [|ch src IH]; intros d Hd; cbn [pton_loop]; [right; eauto|].
  destruct (isspace ch); [auto|]. destruct (ch =? Pad64); [right; eauto|].
  destruct (strchr Base64 ch) as [v|]; [|by left].
  destruct (pton_digit_safe (Z.of_nat v) d Hd) as [-> | (d' & -> & Hd')]; [by left|]. cbn [mbind res_bind]. auto.
Qed.

Lemma pton_end_safe src d : decoder_ok d -> st d <> 0%nat -> pton_end src d <> Fault.
Proof.
  intros [Hs Ha] Hn. unfold pton_end. destruct (skip_spaces src); [|discriminate].
  destruct (area d) as [b|]; [|discriminate].
  destruct (get_ok (tarindex d) b) as [x ->]; [by destruct Ha|]. cbn [mbind res_bind]. destruct (_ =? 0); discriminate.
Qed.

(** ** Claims *)

(** No text makes [b64_pton] read or write outside its target area or reach its
    [abort], with or without a target area. *)
Theorem pton_safe src target : b64_pton src target <> Fault.
Proof.
  unfold b64_pton.
  destruct (pton_loop_safe src {| st := 0; tarindex := 0; area := target |}) as [-> | (stop & d & -> & Hd)];
    [split; simpl; [lia | destruct target; auto] | discriminate|].
  cbn [mbind res_bind pton_finish]. destruct stop as [rest|]; [|destruct (st d =? 0)%nat; discriminate].
  destruct (st d) as [|[|[|[|]]]] eqn:E; try discriminate.
  - destruct (skip_spaces rest) as [|c r]; [discriminate|]. destruct (c =? Pad64); [|discriminate].
    apply pton_end_safe; [exact Hd | congruence].
  - apply pton_end_safe; [exact Hd | congruence].
Qed.

(** [b64_ntop] writes the base-64 encoding of its input with a terminating NUL
    and returns its length, when the target area has room for both; otherwise it
    returns -1.  It never leaves the target area, never indexes outside the
    alphabet and no assertion fails. *)
Theorem ntop_encodes src target :
  bytes_ok src ->
  ((length (encode src) < length target)%nat ->
   exists rest, b64_ntop src target = Ok (length (encode src), encode src ++ 0 :: rest)%list /\
     length (encode src ++ 0 :: rest) = length target) /\
  ((length target <= length (encode src))%nat -> b64_ntop src target = Minus1).
Proof.
  intros Hs. destruct (ntop_loop_spec src _ [] target Hs (holds_nil target)) as [L1 L2].
  cbn [length app] in L1, L2. unfold b64_ntop. split; intros Hl.
  - destruct L1 as (b & -> & Hb); [lia|]. cbn [mbind res_bind fst snd]. pose proof Hb as (r & Er & Hn).
    rewrite Hn, (proj2 (Nat.leb_gt _ _)) by lia.
    destruct (splice_one _ _ _ 0 Hb Hl) as (b' & -> & r' & -> & Hn'). cbn [access mbind res_bind].
    exists r'. rewrite <- app_assoc in *. auto.
  - destruct (decide (length (encode src) = length target)) as [E|N].
    + destruct L1 as (b & -> & r & -> & Hn); [lia|]. cbn [mbind res_bind fst snd].
      rewrite Hn, (proj2 (Nat.leb_le _ _)) by lia. reflexivity.
    + rewrite L2 by lia. reflexivity.
Qed.

(** C31: [b64_pton] undoes [b64_ntop]: any text that is the encoding of [data] up to
    white space is decoded to [data], provided the target area has one byte more
    than [data]. *)
Theorem pton_decodes data src target :
  bytes_ok data -> squeeze src = encode data -> (length data < length target)%nat ->
  exists rest, b64_pton src (Some target) = Ok (length data, Some (data ++ rest)%list).
Proof.
  intros Hd Hs Hl. rewrite b64_pton_running.
  destruct (pton_encode data _ src [] target Hd Hs (holds_nil target) Hl) as (b & E & r & -> & _).
  exists r. exact E.
Qed.

(** [b64_pton] accepts nothing else: a text it decodes is, up to white space,
    the canonical encoding of exactly the bytes it stored, so no two different
    texts without white space decode to the same bytes and no bits are hidden
    behind the padding. *)
Theorem pton_canonical_only src target k area :
  b64_pton src (Some target) = Ok (k, area) ->
  exists data rest, area = Some (data ++ rest)%list /\ k = length data /\ bytes_ok data /\
    squeeze src = encode data /\ length (data ++ rest) = length target.
Proof.
  rewrite b64_pton_running. intros E.
  destruct (pton_canonical _ _ src [] target _ (le_n _) (holds_nil target) E) as (data & b & Er & Hd & Es & r & -> & Hn).
  injection Er as -> ->. exists data, r. auto.
Qed.

(** ** Witnesses *)

Lemma ntop_encodes_witness :
  exists rest, b64_ntop (bytes_of_string "hello") (replicate 12 7) = Ok (8%nat, bytes_of_string "aGVsbG8=" ++ 0 :: rest)%list /\
    length (bytes_of_string "aGVsbG8=" ++ 0 :: rest) = 12%nat.
Proof.
  apply (ntop_encodes (bytes_of_string "hello") (replicate 12 7)); [apply bytes_of_string_ok | vm_compute; lia].
Defined.

Lemma pton_decodes_witness :
  exists rest, b64_pton (bytes_of_string "aGV sbG8=") (Some (replicate 6 7)) =
    Ok (5%nat, Some (bytes_of_string "hello" ++ rest)%list).
Proof.
  apply (pton_decodes (bytes_of_string "hello")); [apply bytes_of_string_ok | reflexivity | simpl; lia].
Defined.

Lemma pton_canonical_only_witness :
  exists data rest, Some (bytes_of_string "hello" ++ [0])%list = Some (data ++ rest)%list /\ 5%nat = length data /\
    bytes_ok data /\ squeeze (bytes_of_string "aGVsbG8=") = encode data /\ length (data ++ rest) = 6%nat.
Proof. apply (pton_canonical_only (bytes_of_string "aGVsbG8=") (replicate 6 7)). reflexivity. Defined.
