(* ===== verification/NlMsg.v ===== *)
(** * Netlink messages and attributes

    lib/msg.c and lib/attr.c of the netlink library the link SAPs are built on:
    messages are built in a buffer by reserving room behind what is there, and
    attributes are found by walking the buffer.

    A message buffer is a list of bytes; a pointer into it is an offset.  [Err] is
    a negative return, [Fault] an access outside the buffer or a failed [BUG()].
    The C [int]s are unbounded here; what is stored in a 16 or 32 bit field is
    reduced to its width.  The debugging output is left out. *)

From S2P Require Import Prelude.

Inductive ret (A : Type) :=
| Ret (a : A)
| Err (code : Z)
| Fault.
Arguments Ret {A} a.
Arguments Err {A} code.
Arguments Fault {A}.

#[export] Instance ret_ret : MRet ret := fun A a => Ret a.
#[export] Instance ret_bind : MBind ret := fun A B f m =>
  match m with Ret a => f a | Err c => Err c | Fault => Fault end.

Definition access {A} (o : option A) : ret A := match o with Some a => Ret a | None => Fault end.

Definition NLE_NOMEM : Z := 5.
Definition NLE_INVAL : Z := 7.
Definition NLE_RANGE : Z := 8.
Definition NLE_MSG_TOOSHORT : Z := 21.

(** ** Buffers *)

Definition rd (n : nat) (mem : list Z) (off : nat) : ret Z := access (le_val <$> slice off n mem).
Definition wr (n : nat) (off : nat) (v : Z) (mem : list Z) : ret (list Z) := access (splice off (le_bytes n v) mem).
Definition memset0 (off n : nat) (mem : list Z) : ret (list Z) := access (splice off (replicate n 0) mem).
Definition memcpy (off : nat) (bs mem : list Z) : ret (list Z) := access (splice off bs mem).

(** ** Sizes *)

(** [(len + to - 1) & ~(to - 1)] *)
Definition align (to len : Z) : Z := Z.land (len + to - 1) (Z.lnot (to - 1)).
Definition NLMSG_ALIGNTO : Z := 4.
Definition NLMSG_ALIGN (len : Z) : Z := align NLMSG_ALIGNTO len.
Definition NLA_ALIGNTO : Z := 4.
Definition NLA_ALIGN (len : Z) : Z := align NLA_ALIGNTO len.

Definition sizeof_nlmsghdr : Z := 16.
Definition sizeof_nlattr : Z := 4.
Definition NLMSG_HDRLEN : Z := NLMSG_ALIGN sizeof_nlmsghdr.
Definition NLA_HDRLEN : Z := NLA_ALIGN sizeof_nlattr.

Definition nlmsg_size (payload : Z) : Z := NLMSG_HDRLEN + payload.
Definition nlmsg_msg_size (payload : Z) : Z := nlmsg_size payload.
Definition nlmsg_total_size (payload : Z) : Z := NLMSG_ALIGN (nlmsg_msg_size payload).
Definition nlmsg_padlen (payload : Z) : Z := nlmsg_total_size payload - nlmsg_msg_size payload.

Definition nla_attr_size (payload : Z) : Z := NLA_HDRLEN + payload.
Definition nla_total_size (payload : Z) : Z := NLA_ALIGN (nla_attr_size payload).
Definition nla_padlen (payload : Z) : Z := nla_total_size payload - nla_attr_size payload.

(** ** Messages *)

(** The header starts at offset 0 of [nm_nlh], whose length is [nm_size]. *)
Record sockaddr_nl := { nl_family : Z; nl_pid : Z; nl_groups : Z }.
Record ucred := { cr_pid : Z; cr_uid : Z; cr_gid : Z }.

Record nl_msg := mkMsg {
  nm_protocol : Z; nm_flags : Z; nm_src : sockaddr_nl; nm_dst : sockaddr_nl; nm_creds : ucred;
  nm_nlh : list Z; nm_size : Z; nm_refcnt : Z
}.

Definition set_nlh (b : list Z) (m : nl_msg) : nl_msg :=
  mkMsg (nm_protocol m) (nm_flags m) (nm_src m) (nm_dst m) (nm_creds m) b (nm_size m) (nm_refcnt m).
Definition set_refcnt (v : Z) (m : nl_msg) : nl_msg :=
  mkMsg (nm_protocol m) (nm_flags m) (nm_src m) (nm_dst m) (nm_creds m) (nm_nlh m) (nm_size m) v.

(** The fields of [struct nlmsghdr]. *)
Definition hdr_len (b : list Z) : ret Z := rd 4 b 0.
Definition hdr_type (b : list Z) : ret Z := rd 2 b 4.
Definition hdr_flags (b : list Z) : ret Z := rd 2 b 6.
Definition hdr_seq (b : list Z) : ret Z := rd 4 b 8.
Definition hdr_pid (b : list Z) : ret Z := rd 4 b 12.
Definition set_hdr_len (v : Z) (b : list Z) : ret (list Z) := wr 4 0 v b.

(** Offsets. *)
Definition nlmsg_data : nat := Z.to_nat NLMSG_HDRLEN.
Definition nlmsg_tail (b : list Z) : ret nat := l ← hdr_len b; Ret (Z.to_nat (NLMSG_ALIGN l)).
Definition nlmsg_datalen (b : list Z) : ret Z := l ← hdr_len b; Ret (l - NLMSG_HDRLEN).
Definition nlmsg_len (b : list Z) : ret Z := nlmsg_datalen b.
Definition nlmsg_attrdata (hdrlen : Z) : nat := (nlmsg_data + Z.to_nat (NLMSG_ALIGN hdrlen))%nat.
Definition nlmsg_attrlen (b : list Z) (hdrlen : Z) : ret Z := l ← nlmsg_len b; Ret (l - NLMSG_ALIGN hdrlen).
Definition nlmsg_valid_hdr (b : list Z) (hdrlen : Z) : ret bool :=
  l ← hdr_len b; Ret (negb (l <? nlmsg_msg_size hdrlen)).

(** [remaining >= sizeof(...)] compares an [int] with a [size_t]: the [int] is
    converted to 64 bits without sign. *)
Definition int_ge_size (remaining size : Z) : bool := size <=? wrap 64 remaining.

(** [nlh->nlmsg_len <= remaining] compares a 32 bit number without sign. *)
Definition nlmsg_ok (mem : list Z) (nlh : nat) (remaining : Z) : ret bool :=
  if int_ge_size remaining sizeof_nlmsghdr then
    l ← rd 4 mem nlh; Ret ((sizeof_nlmsghdr <=? l) && (l <=? wrap 32 remaining))
  else Ret false.

Definition nlmsg_next (mem : list Z) (nlh : nat) (remaining : Z) : ret (nat * Z) :=
  l ← rd 4 mem nlh;
  let totlen := NLMSG_ALIGN l in
  Ret ((nlh + Z.to_nat totlen)%nat, remaining - totlen).

(** What [calloc] leaves in the other members. *)
Definition zero_addr : sockaddr_nl := {| nl_family := 0; nl_pid := 0; nl_groups := 0 |}.
Definition zero_creds : ucred := {| cr_pid := 0; cr_uid := 0; cr_gid := 0 |}.

(** [mem_ok]: whether [calloc] finds memory. *)
Definition nlmsg_alloc_ (len : Z) (mem_ok : bool) : ret (option nl_msg) :=
  let len := if len <? sizeof_nlmsghdr then sizeof_nlmsghdr else len in
  if negb mem_ok then Ret None
  else
    b ← memset0 0 (Z.to_nat sizeof_nlmsghdr) (replicate (Z.to_nat len) 0);
    b ← set_hdr_len (nlmsg_total_size 0) b;
    Ret (Some (mkMsg (-1) 0 zero_addr zero_addr zero_creds b len 1)).

Definition nlmsg_alloc (default_msg_size : Z) (mem_ok : bool) : ret (option nl_msg) :=
  nlmsg_alloc_ default_msg_size mem_ok.
Definition nlmsg_alloc_size (max : Z) (mem_ok : bool) : ret (option nl_msg) := nlmsg_alloc_ max mem_ok.

(** [hdr]: the header to inherit from, or NULL. *)
Definition nlmsg_inherit (default_msg_size : Z) (mem_ok : bool) (hdr : option (list Z)) : ret (option nl_msg) :=
  nm ← nlmsg_alloc default_msg_size mem_ok;
  match nm, hdr with
  | Some nm, Some hdr =>
      ty ← hdr_type hdr; b ← wr 2 4 ty (nm_nlh nm);
      fl ← hdr_flags hdr; b ← wr 2 6 fl b;
      sq ← hdr_seq hdr; b ← wr 4 8 sq b;
      pd ← hdr_pid hdr; b ← wr 4 12 pd b;
      Ret (Some (set_nlh b nm))
  | nm, _ => Ret nm
  end.

Definition nlmsg_alloc_simple (default_msg_size : Z) (mem_ok : bool) (nlmsgtype flags : Z) : ret (option nl_msg) :=
  let nlh := le_bytes 4 0 ++ le_bytes 2 nlmsgtype ++ le_bytes 2 flags ++ le_bytes 4 0 ++ le_bytes 4 0 in
  nlmsg_inherit default_msg_size mem_ok (Some nlh).

(** The new default size. *)
Definition nlmsg_set_default_size (max : Z) : Z :=
  if max <? nlmsg_total_size 0 then nlmsg_total_size 0 else max.

Definition nlmsg_convert (hdr : list Z) (mem_ok : bool) : ret (option nl_msg) :=
  l ← hdr_len hdr;
  nm ← nlmsg_alloc_ (NLMSG_ALIGN l) mem_ok;
  match nm with
  | None => Ret None
  | Some nm =>
      bs ← access (slice 0 (Z.to_nat l) hdr);
      b ← memcpy 0 bs (nm_nlh nm);
      Ret (Some (set_nlh b nm))
  end.

(** The offset of the room reserved, or NULL. *)
Definition nlmsg_reserve (n : nl_msg) (len pad : Z) : ret (option nat * nl_msg) :=
  l ← hdr_len (nm_nlh n);
  let tlen := if pad =? 0 then len else align pad len in
  if nm_size n <? tlen + l then Ret (None, n)
  else
    b ← set_hdr_len (l + tlen) (nm_nlh n);
    b ← (if len <? tlen then memset0 (Z.to_nat (l + len)) (Z.to_nat (tlen - len)) b else Ret b);
    Ret (Some (Z.to_nat l), set_nlh b n).

Definition nlmsg_append (n : nl_msg) (data : list Z) (pad : Z) : ret nl_msg :=
  '(tmp, n) ← nlmsg_reserve n (Z.of_nat (length data)) pad;
  match tmp with
  | None => Err (- NLE_NOMEM)
  | Some tmp => b ← memcpy tmp data (nm_nlh n); Ret (set_nlh b n)
  end.

(** [junk]: what [realloc] leaves in the new bytes, of which there are enough. *)
Definition nlmsg_expand (n : nl_msg) (newlen : Z) (mem_ok : bool) (junk : list Z) : ret nl_msg :=
  if newlen <=? nm_size n then Err (- NLE_INVAL)
  else if negb mem_ok then Err (- NLE_NOMEM)
  else Ret (mkMsg (nm_protocol n) (nm_flags n) (nm_src n) (nm_dst n) (nm_creds n) (nm_nlh n ++ junk) newlen (nm_refcnt n)).

(** Whether the header is returned, and the message. *)
Definition nlmsg_put (n : nl_msg) (pid seq type payload flags : Z) : ret (bool * nl_msg) :=
  l ← hdr_len (nm_nlh n);
  if l <? NLMSG_HDRLEN then Fault
  else
    b ← wr 2 4 type (nm_nlh n); b ← wr 2 6 flags b; b ← wr 4 12 pid b; b ← wr 4 8 seq b;
    let n := set_nlh b n in
    if 0 <? payload then
      '(r, n) ← nlmsg_reserve n payload NLMSG_ALIGNTO;
      Ret (match r with None => false | Some _ => true end, n)
    else Ret (true, n).

Definition nlmsg_get (m : nl_msg) : nl_msg := set_refcnt (nm_refcnt m + 1) m.

(** [None] when the message is gone. *)
Definition nlmsg_free (m : option nl_msg) : ret (option nl_msg) :=
  match m with
  | None => Ret None
  | Some m =>
      let c := nm_refcnt m - 1 in
      if c <? 0 then Fault else if c <=? 0 then Ret None else Ret (Some (set_refcnt c m))
  end.

Definition nlmsg_set_proto (m : nl_msg) (protocol : Z) : nl_msg :=
  mkMsg protocol (nm_flags m) (nm_src m) (nm_dst m) (nm_creds m) (nm_nlh m) (nm_size m) (nm_refcnt m).
Definition nlmsg_get_proto (m : nl_msg) : Z := nm_protocol m.
Definition nlmsg_get_max_size (m : nl_msg) : Z := nm_size m.
Definition nlmsg_set_src (m : nl_msg) (addr : sockaddr_nl) : nl_msg :=
  mkMsg (nm_protocol m) (nm_flags m) addr (nm_dst m) (nm_creds m) (nm_nlh m) (nm_size m) (nm_refcnt m).
Definition nlmsg_get_src (m : nl_msg) : sockaddr_nl := nm_src m.
Definition nlmsg_set_dst (m : nl_msg) (addr : sockaddr_nl) : nl_msg :=
  mkMsg (nm_protocol m) (nm_flags m) (nm_src m) addr (nm_creds m) (nm_nlh m) (nm_size m) (nm_refcnt m).
Definition nlmsg_get_dst (m : nl_msg) : sockaddr_nl := nm_dst m.

Definition NL_MSG_CRED_PRESENT : Z := 1.
Definition nlmsg_set_creds (m : nl_msg) (creds : ucred) : nl_msg :=
  mkMsg (nm_protocol m) (Z.lor (nm_flags m) NL_MSG_CRED_PRESENT) (nm_src m) (nm_dst m) creds (nm_nlh m) (nm_size m)
    (nm_refcnt m).
Definition nlmsg_get_creds (m : nl_msg) : option ucred :=
  if negb (Z.land (nm_flags m) NL_MSG_CRED_PRESENT =? 0) then Some (nm_creds m) else None.

(** ** Attributes *)

Definition NLA_F_NESTED : Z := Z.shiftl 1 15.
Definition NLA_F_NET_BYTEORDER : Z := Z.shiftl 1 14.
Definition NLA_TYPE_MASK : Z := Z.lnot (Z.lor NLA_F_NESTED NLA_F_NET_BYTEORDER).

Definition nla_type (mem : list Z) (nla : nat) : ret Z := t ← rd 2 mem (nla + 2); Ret (Z.land t NLA_TYPE_MASK).
Definition nla_data (nla : nat) : nat := (nla + Z.to_nat NLA_HDRLEN)%nat.
Definition nla_len (mem : list Z) (nla : nat) : ret Z := l ← rd 2 mem nla; Ret (l - NLA_HDRLEN).

(** [nla->nla_len <= remaining] is a comparison of [int]s. *)
Definition nla_ok (mem : list Z) (nla : nat) (remaining : Z) : ret bool :=
  if int_ge_size remaining sizeof_nlattr then
    l ← rd 2 mem nla; Ret ((sizeof_nlattr <=? l) && (l <=? remaining))
  else Ret false.

Definition nla_next (mem : list Z) (nla : nat) (remaining : Z) : ret (nat * Z) :=
  l ← rd 2 mem nla;
  let totlen := NLA_ALIGN l in
  Ret ((nla + Z.to_nat totlen)%nat, remaining - totlen).

(** [nla_for_each_attr(pos, head, len, rem) body]; every round takes at least four
    of the remaining bytes. *)
Fixpoint nla_for_each {A} (fuel : nat) (mem : list Z) (pos : nat) (rem : Z) (body : nat -> A -> ret A) (a : A) : ret A :=
  match fuel with
  | O => Fault
  | S fuel =>
      ok ← nla_ok mem pos rem;
      if (ok : bool) then
        a ← body pos a;
        '(pos, rem) ← nla_next mem pos rem;
        nla_for_each fuel mem pos rem body a
      else Ret a
  end.

Definition nla_fuel (len : Z) : nat := S (Z.to_nat len).

Definition NLA_UNSPEC : Z := 0.
Definition NLA_U8 : Z := 1.
Definition NLA_U16 : Z := 2.
Definition NLA_U32 : Z := 3.
Definition NLA_U64 : Z := 4.
Definition NLA_STRING : Z := 5.
Definition NLA_FLAG : Z := 6.
Definition NLA_MSECS : Z := 7.
Definition NLA_NESTED : Z := 8.
Definition NLA_TYPE_MAX : Z := 8.

Record nla_policy := { np_type : Z; np_minlen : Z; np_maxlen : Z }.

Definition nla_attr_minlen (type : Z) : Z :=
  if type =? NLA_U8 then 1 else if type =? NLA_U16 then 2 else if type =? NLA_U32 then 4
  else if type =? NLA_U64 then 8 else if type =? NLA_STRING then 1 else 0.

(** [policy] is indexed by attribute type; it has [maxtype + 1] entries. *)
Definition validate_nla (mem : list Z) (nla : nat) (maxtype : Z) (policy : list nla_policy) : ret unit :=
  type ← nla_type mem nla;
  if (type <=? 0) || (maxtype <? type) then Ret tt
  else
    pt ← access (policy !! Z.to_nat type);
    if NLA_TYPE_MAX <? np_type pt then Fault
    else
      let minlen := if negb (np_minlen pt =? 0) then np_minlen pt
                    else if negb (np_type pt =? NLA_UNSPEC) then nla_attr_minlen (np_type pt) else 0 in
      len ← nla_len mem nla;
      if (np_type pt =? NLA_FLAG) && (0 <? len) then Err (- NLE_RANGE)
      else if len <? minlen then Err (- NLE_RANGE)
      else if negb (np_maxlen pt =? 0) && (np_maxlen pt <? len) then Err (- NLE_RANGE)
      else if np_type pt =? NLA_STRING then
        c ← rd 1 mem (nla_data nla + Z.to_nat (len - 1));
        if negb (c =? 0) then Err (- NLE_INVAL) else Ret tt
      else Ret tt.

(** The table of attributes by type: the last one of each type. *)
Definition nla_parse (maxtype : Z) (mem : list Z) (head : nat) (len : Z) (policy : option (list nla_policy)) :
    ret (list (option nat)) :=
  nla_for_each (nla_fuel len) mem head len (fun nla tb =>
    type ← nla_type mem nla;
    if type =? 0 then Ret tb
    else if type <=? maxtype then
      (match policy with Some p => validate_nla mem nla maxtype p | None => Ret tt end) ;;
      if (Z.to_nat type <? length tb)%nat then Ret (<[Z.to_nat type := Some nla]> tb) else Fault
    else Ret tb)
  (replicate (Z.to_nat (maxtype + 1)) None).

Definition nla_validate (mem : list Z) (head : nat) (len maxtype : Z) (policy : list nla_policy) : ret unit :=
  nla_for_each (nla_fuel len) mem head len (fun nla _ => validate_nla mem nla maxtype policy) tt.

(** The loop leaves at the first match. *)
Fixpoint nla_find_loop (fuel : nat) (mem : list Z) (pos : nat) (rem attrtype : Z) : ret (option nat) :=
  match fuel with
  | O => Fault
  | S fuel =>
      ok ← nla_ok mem pos rem;
      if (ok : bool) then
        type ← nla_type mem pos;
        if type =? attrtype then Ret (Some pos)
        else '(pos, rem) ← nla_next mem pos rem; nla_find_loop fuel mem pos rem attrtype
      else Ret None
  end.

Definition nla_find (mem : list Z) (head : nat) (len attrtype : Z) : ret (option nat) :=
  nla_find_loop (nla_fuel len) mem head len attrtype.

(** The payload of an attribute. *)
Definition nla_payload (mem : list Z) (nla : nat) : ret (list Z) :=
  l ← nla_len mem nla; access (slice (nla_data nla) (Z.to_nat l) mem).

(** The number of bytes copied, and [dest] afterwards; [memcpy] takes a [size_t]. *)
Definition nla_memcpy (dest mem : list Z) (src : option nat) (count : Z) : ret (Z * list Z) :=
  match src with
  | None => Ret (0, dest)
  | Some src =>
      l ← nla_len mem src;
      let minlen := Z.min count l in
      bs ← access (slice (nla_data src) (Z.to_nat (wrap 64 minlen)) mem);
      d ← memcpy 0 bs dest;
      Ret (minlen, d)
  end.

(** [dst] has [dstsize] bytes. *)
Definition nla_strlcpy (dst mem : list Z) (nla : nat) : ret (Z * list Z) :=
  l ← nla_len mem nla;
  let l := wrap 64 l in
  srclen ← (if 0 <? l then c ← rd 1 mem (nla_data nla + Z.to_nat (l - 1)); Ret (if c =? 0 then l - 1 else l) else Ret l);
  let dstsize := Z.of_nat (length dst) in
  if 0 <? dstsize then
    let len := if dstsize <=? srclen then dstsize - 1 else srclen in
    d ← memset0 0 (length dst) dst;
    bs ← access (slice (nla_data nla) (Z.to_nat len) mem);
    d ← memcpy 0 bs d;
    Ret (srclen, d)
  else Ret (srclen, dst).

(** [memcmp] of lists of equal length. *)
Fixpoint memcmp (a b : list Z) : Z :=
  match a, b with
  | x :: a, y :: b => if x =? y then memcmp a b else x - y
  | _, _ => 0
  end.

Definition nla_memcmp (mem : list Z) (nla : nat) (data : list Z) : ret Z :=
  l ← nla_len mem nla;
  let d := l - Z.of_nat (length data) in
  if d =? 0 then bs ← access (slice (nla_data nla) (length data) mem); Ret (memcmp bs data) else Ret d.

Definition nla_strcmp (mem : list Z) (nla : nat) (str : list Z) : ret Z := nla_memcmp mem nla (str ++ [0]).

(** ** Building *)

(** [tlen + nlmsg_len] counts what is in the message twice. *)
Definition nla_reserve (msg : nl_msg) (attrtype attrlen : Z) : ret (option nat * nl_msg) :=
  l ← hdr_len (nm_nlh msg);
  let tlen := NLMSG_ALIGN l + nla_total_size attrlen in
  if nm_size msg <? tlen + l then Ret (None, msg)
  else
    nla ← nlmsg_tail (nm_nlh msg);
    b ← wr 2 (nla + 2) attrtype (nm_nlh msg);
    b ← wr 2 nla (nla_attr_size attrlen) b;
    alen ← rd 2 b nla;
    b ← (if negb (attrlen =? 0) then memset0 (nla + Z.to_nat alen) (Z.to_nat (nla_padlen attrlen)) b else Ret b);
    b ← set_hdr_len tlen b;
    Ret (Some nla, set_nlh b msg).

Definition nla_put (msg : nl_msg) (attrtype : Z) (data : list Z) : ret nl_msg :=
  '(nla, msg) ← nla_reserve msg attrtype (Z.of_nat (length data));
  match nla with
  | None => Err (- NLE_NOMEM)
  | Some nla =>
      if (0 <? length data)%nat then b ← memcpy (nla_data nla) data (nm_nlh msg); Ret (set_nlh b msg)
      else Ret msg
  end.

Definition nla_put_u8 msg attrtype value := nla_put msg attrtype (le_bytes 1 value).
Definition nla_put_u16 msg attrtype value := nla_put msg attrtype (le_bytes 2 value).
Definition nla_put_u32 msg attrtype value := nla_put msg attrtype (le_bytes 4 value).
Definition nla_put_u64 msg attrtype value := nla_put msg attrtype (le_bytes 8 value).
Definition nla_put_msecs msg attrtype msecs := nla_put_u64 msg attrtype msecs.
Definition nla_put_string msg attrtype (str : list Z) := nla_put msg attrtype (str ++ [0]).
Definition nla_put_flag msg attrtype := nla_put msg attrtype [].

Definition nla_get_u8 mem nla : ret Z := rd 1 mem (nla_data nla).
Definition nla_get_u16 mem nla : ret Z := rd 2 mem (nla_data nla).
Definition nla_get_u32 mem nla : ret Z := rd 4 mem (nla_data nla).
(** [tmp]: what was on the stack. *)
Definition nla_get_u64 (tmp : list Z) mem nla : ret Z :=
  '(_, d) ← nla_memcpy tmp mem (Some nla) 8; Ret (le_val d).
Definition nla_get_msecs tmp mem nla : ret Z := nla_get_u64 tmp mem nla.
Definition nla_get_flag (nla : option nat) : bool := match nla with Some _ => true | None => false end.

Definition nla_put_nested (msg : nl_msg) (attrtype : Z) (nested : nl_msg) : ret nl_msg :=
  l ← nlmsg_datalen (nm_nlh nested);
  bs ← access (slice nlmsg_data (Z.to_nat l) (nm_nlh nested));
  nla_put msg attrtype bs.

(** The start of the nest, or NULL. *)
Definition nla_nest_start (msg : nl_msg) (attrtype : Z) : ret (option nat * nl_msg) :=
  start ← nlmsg_tail (nm_nlh msg);
  match nla_put msg attrtype [] with
  | Ret msg => Ret (Some start, msg)
  | Err _ => Ret (None, msg)
  | Fault => Fault
  end.

Definition nla_nest_end (msg : nl_msg) (start : nat) : ret nl_msg :=
  tail ← nlmsg_tail (nm_nlh msg);
  l ← hdr_len (nm_nlh msg);
  let len := Z.of_nat tail - Z.of_nat start in
  if len =? NLA_HDRLEN then
    b ← set_hdr_len (l - NLA_HDRLEN) (nm_nlh msg);
    tail ← nlmsg_tail b;
    b ← memset0 tail (Z.to_nat NLA_HDRLEN) b;
    Ret (set_nlh b msg)
  else
    b ← wr 2 start len (nm_nlh msg);
    let msg := set_nlh b msg in
    let pad := NLMSG_ALIGN l - l in
    if 0 <? pad then
      '(r, msg) ← nlmsg_reserve msg pad 0;
      match r with None => Fault | Some _ => Ret msg end
    else Ret msg.

Definition nla_parse_nested (maxtype : Z) (mem : list Z) (nla : nat) (policy : option (list nla_policy)) :=
  l ← nla_len mem nla; nla_parse maxtype mem (nla_data nla) l policy.

(** ** Messages with attributes *)

Definition nlmsg_parse (b : list Z) (hdrlen maxtype : Z) (policy : option (list nla_policy)) : ret (list (option nat)) :=
  ok ← nlmsg_valid_hdr b hdrlen;
  if negb ok then Err (- NLE_MSG_TOOSHORT)
  else l ← nlmsg_attrlen b hdrlen; nla_parse maxtype b (nlmsg_attrdata hdrlen) l policy.

Definition nlmsg_find_attr (b : list Z) (hdrlen attrtype : Z) : ret (option nat) :=
  l ← nlmsg_attrlen b hdrlen; nla_find b (nlmsg_attrdata hdrlen) l attrtype.

Definition nlmsg_validate (b : list Z) (hdrlen maxtype : Z) (policy : list nla_policy) : ret unit :=
  ok ← nlmsg_valid_hdr b hdrlen;
  if negb ok then Err (- NLE_MSG_TOOSHORT)
  else l ← nlmsg_attrlen b hdrlen; nla_validate b (nlmsg_attrdata hdrlen) l maxtype policy.

Example build_and_parse :
  (m ← nlmsg_alloc_size 256 true;
   match m with
   | None => Fault
   | Some m =>
       m ← nla_put_u32 m 1 77; m ← nla_put_string m 3 [108; 111];
       tb ← nlmsg_parse (nm_nlh m) 0 4 None;
       v ← nla_get_u32 (nm_nlh m) 16;
       Ret (v, tb)
   end) = Ret (77, [None; Some 16%nat; None; Some 24%nat; None]).
Proof. vm_compute. reflexivity. Qed.
