(* ===== verification/NlProofs.v ===== *)
(** * Netlink attributes as an association list

    A message buffer abstracted to the list of its attributes: [nla_put] adds one
    at the end, [nlmsg_parse] and [nla_find] look one up; and what the walk over
    attributes needs to stay inside the buffer. *)

From S2P Require Import Prelude NlMsg.

(** ** Alignment *)

Lemma align4 v : 0 <= v -> align 4 v = v + (- v) mod 4.
Proof.
  intros Hv. unfold align. change (4 - 1) with (Z.ones 2). rewrite <- Z.ldiff_land, Z.ldiff_ones_r by lia.
  rewrite Z.shiftl_mul_pow2, Z.shiftr_div_pow2 by lia. change (2 ^ 2) with 4. change (Z.ones 2) with 3.
  Z.to_euclidean_division_equations. lia.
Qed.

Lemma align4_spec v : 0 <= v -> v <= align 4 v < v + 4 /\ (4 | align 4 v).
Proof.
  intros Hv. rewrite align4 by assumption. pose proof (Z.mod_pos_bound (- v) 4 ltac:(lia)). split; [lia|].
  apply Z.mod_divide; [lia|]. Z.to_euclidean_division_equations. lia.
Qed.

Lemma align4_id v : 0 <= v -> (4 | v) -> align 4 v = v.
Proof. intros Hv Hd. destruct (align4_spec v Hv) as [H1 [q Hq]]. destruct Hd as [p Hp]. lia. Qed.

Lemma align4_mono v w : 0 <= v -> v <= w -> (4 | w) -> align 4 v <= w.
Proof. intros Hv Hw [p Hp]. destruct (align4_spec v Hv) as [H1 [q Hq]]. lia. Qed.

(** ** Reading a buffer made of pieces *)

Lemma slice_app l1 l2 l3 : slice (length l1) (length l2) (l1 ++ l2 ++ l3) = Some l2.
Proof.
  unfold slice. rewrite !length_app, (proj2 (Nat.leb_le _ _)) by lia. rewrite drop_app_length, take_app_length. reflexivity.
Qed.

Lemma rd_app n l1 v l3 off :
  off = length l1 -> rd n (l1 ++ le_bytes n v ++ l3) off = Ret (v mod 256 ^ Z.of_nat n).
Proof.
  intros ->. unfold rd. rewrite <- (length_le_bytes n v) at 1. rewrite slice_app. cbn. rewrite le_val_le_bytes. reflexivity.
Qed.

Lemma wr_app n l1 l2 l3 v off :
  off = length l1 -> length l2 = n -> wr n off v (l1 ++ l2 ++ l3) = Ret (l1 ++ le_bytes n v ++ l3).
Proof. intros -> Hl. unfold wr. rewrite splice_app by (rewrite length_le_bytes; exact Hl). reflexivity. Qed.

Lemma memset_app n l1 l2 l3 off :
  off = length l1 -> length l2 = n -> memset0 off n (l1 ++ l2 ++ l3) = Ret (l1 ++ replicate n 0 ++ l3).
Proof. intros -> Hl. unfold memset0. rewrite splice_app by (rewrite length_replicate; exact Hl). reflexivity. Qed.

Lemma memcpy_app bs l1 l2 l3 off :
  off = length l1 -> length l2 = length bs -> memcpy off bs (l1 ++ l2 ++ l3) = Ret (l1 ++ bs ++ l3).
Proof. intros -> Hl. unfold memcpy. rewrite splice_app by exact Hl. reflexivity. Qed.

(** ** Attributes on the wire *)

Definition attr : Type := Z * list Z.

Definition pad_of (d : list Z) : nat := Z.to_nat ((- Z.of_nat (length d)) mod 4).

Definition encode_attr (a : attr) : list Z :=
  le_bytes 2 (4 + Z.of_nat (length a.2)) ++ le_bytes 2 a.1 ++ a.2 ++ replicate (pad_of a.2) 0.

Definition encode_attrs (l : list attr) : list Z := concat (map encode_attr l).

(** An attribute that fits its header: 14 bits of type, 16 bits of length. *)
Definition attr_ok (a : attr) : Prop := 0 < a.1 < 16384 /\ Z.of_nat (length a.2) <= 65531.

Lemma length_encode_attr a : Z.of_nat (length (encode_attr a)) = align 4 (4 + Z.of_nat (length a.2)).
Proof.
  unfold encode_attr, pad_of. rewrite !length_app, !length_le_bytes, length_replicate, align4 by lia.
  replace (- (4 + Z.of_nat (length a.2))) with (- Z.of_nat (length a.2) + (-1) * 4) by lia. rewrite Z.mod_add by lia.
  pose proof (Z.mod_pos_bound (- Z.of_nat (length a.2)) 4 ltac:(lia)). lia.
Qed.

Lemma length_encode_attrs_div l : (4 | Z.of_nat (length (encode_attrs l))).
Proof.
  unfold encode_attrs. induction l as [|a l IH]; [exists 0; reflexivity|]. cbn [map concat]. rewrite length_app, Nat2Z.inj_add.
  apply Z.divide_add_r; [|exact IH]. rewrite length_encode_attr. apply align4_spec. lia.
Qed.

Lemma encode_attrs_app l l' : encode_attrs (l ++ l') = encode_attrs l ++ encode_attrs l'.
Proof. unfold encode_attrs. rewrite map_app, concat_app. reflexivity. Qed.

Lemma encode_attrs_one a : encode_attrs [a] = encode_attr a.
Proof. apply app_nil_r. Qed.

(** ** The abstraction *)

(** A message with [h] in the header behind the length, and the attributes [l]. *)
Definition carries (m : nl_msg) (h : list Z) (l : list attr) : Prop :=
  nm_size m = Z.of_nat (length (nm_nlh m)) /\ length h = 12%nat /\ nm_size m < 4294967296 /\
  exists rest, nm_nlh m = le_bytes 4 (16 + Z.of_nat (length (encode_attrs l))) ++ h ++ encode_attrs l ++ rest.

(** The length field. *)
Lemma carries_len m h l :
  carries m h l ->
  hdr_len (nm_nlh m) = Ret (16 + Z.of_nat (length (encode_attrs l))) /\
  16 + Z.of_nat (length (encode_attrs l)) <= nm_size m.
Proof.
  intros (Hs & Hh & Hm & rest & E). rewrite E in *. rewrite !length_app, length_le_bytes in Hs. split; [|lia].
  unfold hdr_len. etransitivity; [apply (rd_app 4 [] _ _ 0 eq_refl)|]. rewrite Z.mod_small by lia. reflexivity.
Qed.

Lemma nlmsg_align_encoded l :
  NLMSG_ALIGN (16 + Z.of_nat (length (encode_attrs l))) = 16 + Z.of_nat (length (encode_attrs l)).
Proof.
  unfold NLMSG_ALIGN, NLMSG_ALIGNTO. apply align4_id; [lia|].
  apply Z.divide_add_r; [exists 4; reflexivity | apply length_encode_attrs_div].
Qed.

Lemma nla_total_size_eq d : nla_total_size (Z.of_nat (length d)) = 4 + Z.of_nat (length d) + Z.of_nat (pad_of d).
Proof.
  unfold nla_total_size, nla_attr_size, NLA_ALIGN, NLA_ALIGNTO. change NLA_HDRLEN with 4.
  rewrite align4 by lia. unfold pad_of.
  replace (- (4 + Z.of_nat (length d))) with (- Z.of_nat (length d) + (-1) * 4) by lia. rewrite Z.mod_add by lia.
  pose proof (Z.mod_pos_bound (- Z.of_nat (length d)) 4 ltac:(lia)). lia.
Qed.

(** Taking apart the free room of a buffer. *)
Lemma split_room (rest : list Z) (a b c d : nat) :
  (a + b + c + d <= length rest)%nat ->
  exists r0 r1 r2 r3 r4, rest = r0 ++ r1 ++ r2 ++ r3 ++ r4 /\
    length r0 = a /\ length r1 = b /\ length r2 = c /\ length r3 = d.
Proof.
  intros Hl. exists (take a rest), (take b (drop a rest)), (take c (drop (a + b) rest)),
    (take d (drop (a + b + c) rest)), (drop (a + b + c + d) rest).
  rewrite !length_take, !length_drop. split; [|lia].
  rewrite <- (take_drop a rest) at 1. f_equal. rewrite <- (take_drop b (drop a rest)) at 1. rewrite drop_drop. f_equal.
  rewrite <- (take_drop c (drop (a + b) rest)) at 1. rewrite drop_drop. f_equal.
  rewrite <- (take_drop d (drop (a + b + c) rest)) at 1. rewrite drop_drop. reflexivity.
Qed.

(** The stores of [nla_reserve] and [nla_put], one after the other, in the room
    behind [P]. *)
Lemma attr_stores {A} P r0 r1 r2 r3 r4 t (d : list Z) (k : list Z -> ret A) :
  length r0 = 2%nat -> length r1 = 2%nat -> length r2 = length d -> length r3 = pad_of d ->
  Z.of_nat (length d) <= 65531 ->
  (b ← wr 2 (length P + 2) t (P ++ r0 ++ r1 ++ r2 ++ r3 ++ r4);
   b ← wr 2 (length P) (nla_attr_size (Z.of_nat (length d))) b;
   alen ← rd 2 b (length P);
   b ← (if negb (Z.of_nat (length d) =? 0)
        then memset0 (length P + Z.to_nat alen) (Z.to_nat (nla_padlen (Z.of_nat (length d)))) b else Ret b);
   k b)
  = k (P ++ le_bytes 2 (4 + Z.of_nat (length d)) ++ le_bytes 2 t ++ r2 ++ replicate (pad_of d) 0 ++ r4).
Proof.
  intros L0 L1 L2 L3 Hd. unfold nla_padlen. rewrite nla_total_size_eq. unfold nla_attr_size. change NLA_HDRLEN with 4.
  replace (P ++ r0 ++ r1 ++ r2 ++ r3 ++ r4) with ((P ++ r0) ++ r1 ++ (r2 ++ r3 ++ r4)) by (by rewrite <- !app_assoc).
  rewrite wr_app by (rewrite ?length_app; lia). cbn [mbind ret_bind]. rewrite <- app_assoc.
  rewrite wr_app by lia. cbn [mbind ret_bind]. rewrite rd_app by reflexivity. cbn [mbind ret_bind].
  change (256 ^ Z.of_nat 2) with 65536. rewrite Z.mod_small by lia.
  destruct (Z.eqb_spec (Z.of_nat (length d)) 0) as [E|E]; cbn [negb].
  - destruct d; [|simpl in E; lia]. destruct r2, r3; simpl in L2, L3; try discriminate. reflexivity.
  - replace (P ++ le_bytes 2 (4 + Z.of_nat (length d)) ++ le_bytes 2 t ++ r2 ++ r3 ++ r4)
      with ((P ++ le_bytes 2 (4 + Z.of_nat (length d)) ++ le_bytes 2 t ++ r2) ++ r3 ++ r4) by (by rewrite <- !app_assoc).
    replace (Z.to_nat (4 + Z.of_nat (length d) + Z.of_nat (pad_of d) - (4 + Z.of_nat (length d)))) with (pad_of d) by lia.
    rewrite memset_app by (rewrite ?length_app, ?length_le_bytes; lia). by rewrite <- !app_assoc.
Qed.

(** Room is looked for with the length of the message counted twice. *)
Definition has_room (m : nl_msg) (l : list attr) (d : list Z) : Prop :=
  2 * (16 + Z.of_nat (length (encode_attrs l))) + nla_total_size (Z.of_nat (length d)) <= nm_size m.

#[export] Instance has_room_dec m l d : Decision (has_room m l d).
Proof. unfold has_room. apply _. Defined.

Lemma nla_put_room m h l t d :
  carries m h l -> attr_ok (t, d) -> has_room m l d ->
  exists m', nla_put m t d = Ret m' /\ carries m' h (l ++ [(t, d)]) /\ nm_size m' = nm_size m.
Proof.
  intros Hc [Ht Hd] Hr. cbn [fst snd] in Ht, Hd. destruct (carries_len m h l Hc) as [El Hle].
  destruct Hc as (Hs & Hh & Hm & rest & Eb). unfold has_room in Hr. rewrite nla_total_size_eq in Hr.
  set (n := Z.of_nat (length (encode_attrs l))) in *.
  assert (length rest = (Z.to_nat (nm_size m) - 16 - length (encode_attrs l))%nat) as Hrest.
  { rewrite Hs, Eb, !length_app, length_le_bytes. lia. }
  destruct (split_room rest 2 2 (length d) (pad_of d)) as (r0 & r1 & r2 & r3 & r4 & -> & L0 & L1 & L2 & L3); [lia|].
  unfold nla_put, nla_reserve, nlmsg_tail. rewrite El. cbn [mbind ret_bind]. unfold n. rewrite nlmsg_align_encoded. fold n.
  rewrite nla_total_size_eq, (proj2 (Z.ltb_ge _ _)) by lia.
  set (P := le_bytes 4 (16 + n) ++ h ++ encode_attrs l) in *.
  assert (nm_nlh m = P ++ r0 ++ r1 ++ r2 ++ r3 ++ r4) as Eb' by (rewrite Eb; unfold P; by rewrite <- !app_assoc).
  assert (Z.to_nat (16 + n) = length P) as LP by (unfold P; rewrite !length_app, length_le_bytes; lia).
  rewrite LP, Eb'.
  rewrite (attr_stores P r0 r1 r2 r3 r4 t d) by assumption.
  set (n' := 16 + n + (4 + Z.of_nat (length d) + Z.of_nat (pad_of d))).
  set (X := le_bytes 2 (4 + Z.of_nat (length d)) ++ le_bytes 2 t).
  assert (set_hdr_len n' (P ++ le_bytes 2 (4 + Z.of_nat (length d)) ++ le_bytes 2 t ++ r2 ++ replicate (pad_of d) 0 ++ r4) =
    Ret (((le_bytes 4 n' ++ h ++ encode_attrs l) ++ X) ++ r2 ++ (replicate (pad_of d) 0 ++ r4))) as ->.
  { unfold set_hdr_len, P, X. etransitivity; [rewrite <- app_assoc; apply (wr_app 4 [] _ _ _ 0 eq_refl), length_le_bytes|].
    by rewrite <- !app_assoc. }
  cbn [mbind ret_bind nm_nlh set_nlh].
  assert (nla_data (length P) = length ((le_bytes 4 n' ++ h ++ encode_attrs l) ++ X)) as LD.
  { unfold nla_data, P, X. change (Z.to_nat NLA_HDRLEN) with 4%nat. rewrite !length_app, !length_le_bytes. lia. }
  set (B := ((le_bytes 4 n' ++ h ++ encode_attrs l) ++ X) ++ d ++ (replicate (pad_of d) 0 ++ r4)).
  exists (set_nlh B m). split; [|split; [|reflexivity]].
  - destruct (Nat.ltb_spec 0 (length d)) as [Hp|Hp].
    + rewrite memcpy_app by assumption. reflexivity.
    + destruct d; [|simpl in Hp; lia]. destruct r2; [|discriminate L2]. reflexivity.
  - assert (length B = length (nm_nlh m)) as LB.
    { rewrite Eb'. unfold B, P, X. rewrite !length_app, !length_le_bytes, length_replicate. lia. }
    split; [change (nm_size m = Z.of_nat (length B)); rewrite LB; exact Hs|]. split; [exact Hh|]. split; [exact Hm|]. exists r4. cbn [nm_nlh set_nlh]. unfold B, X.
    rewrite encode_attrs_app, encode_attrs_one, !length_app. unfold encode_attr. cbn [fst snd].
    rewrite !length_app, !length_le_bytes, length_replicate, <- !app_assoc.
    replace (16 + Z.of_nat (length (encode_attrs l) + (2 + (2 + (length d + pad_of d))))) with n' by (unfold n', n; lia).
    reflexivity.
Qed.

Lemma nla_put_full m h l t d :
  carries m h l -> ~ has_room m l d -> nla_put m t d = Err (- NLE_NOMEM).
Proof.
  intros Hc Hr. destruct (carries_len m h l Hc) as [El Hle]. unfold has_room in Hr.
  unfold nla_put, nla_reserve. rewrite El. cbn [mbind ret_bind]. rewrite nlmsg_align_encoded.
  rewrite (proj2 (Z.ltb_lt _ _)) by lia. reflexivity.
Qed.

(** ** Walking over encoded attributes *)

Section Walk.
Context (pre post : list Z) (a : attr).
Hypothesis a_ok : attr_ok a.
Let mem := pre ++ encode_attr a ++ post.

Lemma attr_len_field : rd 2 mem (length pre) = Ret (4 + Z.of_nat (length a.2)).
Proof.
  unfold mem, encode_attr. rewrite <- !app_assoc. rewrite rd_app by reflexivity.
  change (256 ^ Z.of_nat 2) with 65536. destruct a_ok. rewrite Z.mod_small by lia. reflexivity.
Qed.

Lemma attr_type : nla_type mem (length pre) = Ret a.1.
Proof.
  unfold nla_type, mem, encode_attr. rewrite <- !app_assoc, (app_assoc pre).
  rewrite rd_app by (rewrite length_app, length_le_bytes; reflexivity). cbn [mbind ret_bind].
  change (256 ^ Z.of_nat 2) with 65536. destruct a_ok. rewrite Z.mod_small by lia.
  replace (Z.land a.1 NLA_TYPE_MASK) with (Z.land a.1 (Z.ones 14)); [rewrite Z.land_ones, Z.mod_small by lia; reflexivity|].
  rewrite <- (Z.mod_small a.1 (2 ^ 14)) by lia. rewrite <- !Z.land_ones by lia.
  rewrite <- !Z.land_assoc. f_equal.
Qed.

Lemma attr_payload : nla_payload mem (length pre) = Ret a.2.
Proof.
  unfold nla_payload, nla_len. rewrite attr_len_field. cbn [mbind ret_bind]. change NLA_HDRLEN with 4.
  replace (Z.to_nat (4 + Z.of_nat (length a.2) - 4)) with (length a.2) by lia.
  replace mem with ((pre ++ le_bytes 2 (4 + Z.of_nat (length a.2)) ++ le_bytes 2 a.1) ++ a.2 ++ (replicate (pad_of a.2) 0 ++ post))
    by (unfold mem, encode_attr; by rewrite <- !app_assoc).
  replace (nla_data (length pre)) with (length (pre ++ le_bytes 2 (4 + Z.of_nat (length a.2)) ++ le_bytes 2 a.1))
    by (unfold nla_data; rewrite !length_app, !length_le_bytes; reflexivity).
  rewrite slice_app. reflexivity.
Qed.

Lemma attr_ok_here rem :
  Z.of_nat (length (encode_attr a)) <= rem < 18446744073709551616 -> nla_ok mem (length pre) rem = Ret true.
Proof.
  intros Hr. rewrite length_encode_attr in Hr. destruct (align4_spec (4 + Z.of_nat (length a.2)) ltac:(lia)) as [Ha _].
  unfold nla_ok, int_ge_size. rewrite wrap_small by lia. rewrite (proj2 (Z.leb_le sizeof_nlattr rem)) by (unfold sizeof_nlattr; lia).
  rewrite attr_len_field. cbn [mbind ret_bind]. rewrite !(proj2 (Z.leb_le _ _)) by (unfold sizeof_nlattr; lia). reflexivity.
Qed.

Lemma attr_next rem :
  nla_next mem (length pre) rem = Ret (length (pre ++ encode_attr a), rem - Z.of_nat (length (encode_attr a))).
Proof.
  unfold nla_next. rewrite attr_len_field. cbn [mbind ret_bind]. unfold NLA_ALIGN, NLA_ALIGNTO.
  rewrite <- length_encode_attr, Nat2Z.id, length_app. reflexivity.
Qed.

End Walk.

(** Visiting the attributes one after the other. *)
Fixpoint visit {A} (body : nat -> A -> ret A) (pos : nat) (l : list attr) (acc : A) : ret A :=
  match l with
  | [] => Ret acc
  | a :: l => acc ← body pos acc; visit body (pos + length (encode_attr a))%nat l acc
  end.

Lemma nla_ok_end mem pos : nla_ok mem pos 0 = Ret false.
Proof. reflexivity. Qed.

Lemma for_each_encoded {A} (body : nat -> A -> ret A) l fuel pre post acc :
  Forall attr_ok l -> (length l < fuel)%nat -> Z.of_nat (length (encode_attrs l)) < 4294967296 ->
  nla_for_each fuel (pre ++ encode_attrs l ++ post) (length pre) (Z.of_nat (length (encode_attrs l))) body acc =
  visit body (length pre) l acc.
Proof.
  intros Hl. revert fuel pre acc. induction Hl as [|a l Ha _ IH]; intros fuel pre acc Hf Hn;
    (destruct fuel as [|fuel]; [simpl in Hf; lia|]); cbn [nla_for_each visit].
  - rewrite nla_ok_end. reflexivity.
  - unfold encode_attrs in *. cbn [map concat] in *. rewrite length_app in *. rewrite <- app_assoc.
    rewrite attr_ok_here by (try assumption; lia). cbn [mbind ret_bind].
    destruct (body (length pre) acc) as [acc'| |]; cbn [mbind ret_bind]; [|reflexivity|reflexivity].
    rewrite attr_next by assumption. cbn [mbind ret_bind].
    specialize (IH fuel (pre ++ encode_attr a) acc' ltac:(simpl in Hf; lia) ltac:(lia)).
    rewrite <- app_assoc in IH. rewrite <- (length_app pre (encode_attr a)).
    replace (Z.of_nat (length (encode_attr a) + length (concat (map encode_attr l))) - Z.of_nat (length (encode_attr a)))
      with (Z.of_nat (length (concat (map encode_attr l)))) by lia. exact IH.
Qed.

Lemma length_encode_attrs_le l : (length l <= length (encode_attrs l))%nat.
Proof.
  unfold encode_attrs. induction l as [|a l IH]; cbn [map concat length]; [lia|].
  unfold encode_attr at 1. rewrite !length_app, length_le_bytes. lia.
Qed.

(** ** Looking up *)

(** The last value of a type. *)
Fixpoint last_of (t : Z) (l : list attr) : option (list Z) :=
  match l with
  | [] => None
  | (t', d) :: l => match last_of t l with Some d' => Some d' | None => if t' =? t then Some d else None end
  end.

Fixpoint first_of (t : Z) (l : list attr) : option (list Z) :=
  match l with
  | [] => None
  | (t', d) :: l => if t' =? t then Some d else first_of t l
  end.

(** The table holds the attributes [l]. *)
Definition table_for (mem : list Z) (maxtype : Z) (l : list attr) (tb : list (option nat)) : Prop :=
  length tb = Z.to_nat (maxtype + 1) /\
  forall t, 0 < t <= maxtype ->
    match last_of t l with
    | Some d => exists p, tb !! Z.to_nat t = Some (Some p) /\ nla_payload mem p = Ret d
    | None => tb !! Z.to_nat t = Some None
    end.

(** What [nla_parse] does at one attribute, without a policy. *)
Definition parse_body (maxtype : Z) (mem : list Z) (nla : nat) (tb : list (option nat)) : ret (list (option nat)) :=
  type ← nla_type mem nla;
  if type =? 0 then Ret tb
  else if type <=? maxtype then
    Ret tt ;; (if (Z.to_nat type <? length tb)%nat then Ret (<[Z.to_nat type := Some nla]> tb) else Fault)
  else Ret tb.

Lemma last_of_app t l l' : last_of t (l ++ l') = match last_of t l' with Some d => Some d | None => last_of t l end.
Proof.
  induction l as [|[t' d] l IH]; simpl; [by destruct (last_of t l')|]. rewrite IH. by destruct (last_of t l').
Qed.

Lemma parse_body_run maxtype mem pos tb t :
  nla_type mem pos = Ret t -> 0 < t -> 0 <= maxtype -> length tb = Z.to_nat (maxtype + 1) ->
  parse_body maxtype mem pos tb = Ret (if t <=? maxtype then <[Z.to_nat t := Some pos]> tb else tb).
Proof.
  intros Et Hp Hm Hl. unfold parse_body. rewrite Et. cbn [mbind ret_bind]. rewrite (proj2 (Z.eqb_neq _ _)) by lia.
  destruct (Z.leb_spec t maxtype); [|reflexivity]. rewrite (proj2 (Nat.ltb_lt _ _)) by lia. reflexivity.
Qed.

Lemma visit_parse maxtype mem done l pre post tb :
  mem = pre ++ encode_attrs l ++ post -> 0 <= maxtype -> Forall attr_ok l -> table_for mem maxtype done tb ->
  exists tb', visit (parse_body maxtype mem) (length pre) l tb = Ret tb' /\ table_for mem maxtype (done ++ l) tb'.
Proof.
  intros Hmem Hm Hl. revert pre done tb Hmem. induction Hl as [|a l Ha _ IH]; intros pre done tb Hmem [Ht Hv].
  - exists tb. rewrite app_nil_r. split; [reflexivity | split; assumption].
  - assert (mem = pre ++ encode_attr a ++ (encode_attrs l ++ post)) as E1
      by (rewrite Hmem; unfold encode_attrs; cbn [map concat]; by rewrite <- !app_assoc).
    pose proof (attr_type pre (encode_attrs l ++ post) a Ha) as ET. rewrite <- E1 in ET.
    pose proof (attr_payload pre (encode_attrs l ++ post) a Ha) as EP. rewrite <- E1 in EP.
    destruct a as [t d]. destruct Ha as [Hty Hd]. cbn [fst snd] in *.
    cbn [visit]. rewrite (parse_body_run _ _ _ _ t) by (try assumption; lia). cbn [mbind ret_bind].
    set (tb1 := if t <=? maxtype then <[Z.to_nat t := Some (length pre)]> tb else tb).
    rewrite <- length_app.
    destruct (IH (pre ++ encode_attr (t, d)) (done ++ [(t, d)]) tb1) as (tb' & E & T').
    + rewrite E1. by rewrite <- !app_assoc.
    + split; [unfold tb1; destruct (t <=? maxtype); [rewrite length_insert|]; exact Ht|].
      intros t' Ht'. rewrite last_of_app. cbn [last_of]. specialize (Hv t' Ht'). unfold tb1.
      destruct (Z.eqb_spec t t') as [->|N].
      * rewrite (proj2 (Z.leb_le _ _)) by lia. exists (length pre). split; [|exact EP].
        apply list_lookup_insert_eq. lia.
      * destruct (t <=? maxtype); [|exact Hv]. rewrite list_lookup_insert_ne by lia. exact Hv.
    + exists tb'. split; [exact E|]. by rewrite <- app_assoc in T'.
Qed.

Lemma find_encoded t l fuel mem pre post :
  mem = pre ++ encode_attrs l ++ post -> Forall attr_ok l -> (length l < fuel)%nat ->
  Z.of_nat (length (encode_attrs l)) < 4294967296 ->
  match first_of t l with
  | Some d => exists p, nla_find_loop fuel mem (length pre) (Z.of_nat (length (encode_attrs l))) t = Ret (Some p) /\
                nla_payload mem p = Ret d
  | None => nla_find_loop fuel mem (length pre) (Z.of_nat (length (encode_attrs l))) t = Ret None
  end.
Proof.
  intros Hmem Hl. revert fuel pre Hmem. induction Hl as [|a l Ha _ IH]; intros fuel pre Hmem Hf Hn;
    (destruct fuel as [|fuel]; [simpl in Hf; lia|]); cbn [nla_find_loop].
  - rewrite nla_ok_end. reflexivity.
  - assert (mem = pre ++ encode_attr a ++ (encode_attrs l ++ post)) as E1
      by (rewrite Hmem; unfold encode_attrs; cbn [map concat]; by rewrite <- !app_assoc).
    unfold encode_attrs in *. cbn [map concat] in *. rewrite length_app in *.
    set (rest := concat (map encode_attr l) ++ post) in *.
    pose proof (attr_ok_here pre rest a Ha) as EO. pose proof (attr_type pre rest a Ha) as ET.
    pose proof (attr_payload pre rest a Ha) as EP. pose proof (attr_next pre rest a Ha) as EN.
    rewrite <- E1 in EO, ET, EP, EN. rewrite EO by lia. cbn [mbind ret_bind]. rewrite ET. cbn [mbind ret_bind].
    rewrite EN. cbn [mbind ret_bind].
    destruct a as [t' d]. cbn [first_of fst snd] in *. destruct (t' =? t); [eauto|].
    replace (Z.of_nat (length (encode_attr (t', d)) + length (concat (map encode_attr l))) - Z.of_nat (length (encode_attr (t', d))))
      with (Z.of_nat (length (concat (map encode_attr l)))) by lia.
    apply IH; [rewrite E1; unfold rest; by rewrite <- !app_assoc | simpl in Hf; lia | lia].
Qed.

(** ** Staying inside the buffer *)

Lemma rd_range n mem off v : bytes_ok mem -> rd n mem off = Ret v -> 0 <= v < 256 ^ Z.of_nat n.
Proof.
  unfold rd. intros Hb E. destruct (slice off n mem) as [bs|] eqn:Es; [|discriminate]. injection E as <-.
  rewrite <- (length_slice _ _ _ _ Es). eapply le_val_range, slice_ok; eauto.
Qed.

Lemma rd_ok n mem off : (off + n <= length mem)%nat -> exists v, rd n mem off = Ret v.
Proof. intros Hl. unfold rd. destruct (slice_is_Some off n mem Hl) as [bs ->]. eexists. reflexivity. Qed.

(** An attribute at [pos] that ends inside the buffer. *)
Definition attr_inside (mem : list Z) (pos : nat) : Prop :=
  exists l, rd 2 mem pos = Ret l /\ 4 <= l /\ Z.of_nat pos + l <= Z.of_nat (length mem).

Lemma for_each_safe {A} (I : A -> Prop) (body : nat -> A -> ret A) mem fuel pos rem acc :
  bytes_ok mem ->
  (forall pos acc, attr_inside mem pos -> I acc -> body pos acc <> Fault /\ forall acc', body pos acc = Ret acc' -> I acc') ->
  I acc -> 0 <= rem < 18446744073709551616 -> (4 | rem) -> Z.of_nat pos + rem <= Z.of_nat (length mem) -> (Z.to_nat rem < fuel)%nat ->
  nla_for_each fuel mem pos rem body acc <> Fault.
Proof.
  intros Hb Hbody. revert pos rem acc. induction fuel as [|fuel IH]; intros pos rem acc Hi Hr Hd Hp Hf; [lia|].
  cbn [nla_for_each]. unfold nla_ok at 1, int_ge_size. rewrite wrap_small by lia.
  destruct (Z.leb_spec sizeof_nlattr rem) as [H4|H4]; [|discriminate]. unfold sizeof_nlattr in *.
  destruct (rd_ok 2 mem pos ltac:(lia)) as [l El]. rewrite El. cbn [mbind ret_bind].
  destruct ((4 <=? l) && (l <=? rem)) eqn:E; [|discriminate]. apply andb_prop in E as [E1%Z.leb_le E2%Z.leb_le].
  destruct (Hbody pos acc) as [Hs Hn]; [exists l; split; [exact El|]; lia | exact Hi|].
  destruct (body pos acc) as [acc'| |]; [|discriminate|congruence]. cbn [mbind ret_bind].
  unfold nla_next. rewrite El. cbn [mbind ret_bind]. unfold NLA_ALIGN, NLA_ALIGNTO.
  destruct (align4_spec l ltac:(lia)) as [A1 A2]. pose proof (align4_mono l rem ltac:(lia) E2 Hd).
  apply IH; [by apply Hn | lia | by apply Z.divide_sub_r | lia | lia].
Qed.

Lemma nla_type_inside mem pos : attr_inside mem pos -> exists t, nla_type mem pos = Ret t.
Proof.
  intros (l & _ & H4 & Hl). unfold nla_type. destruct (rd_ok 2 mem (pos + 2) ltac:(lia)) as [t ->]. eexists. reflexivity.
Qed.

(** A policy table as the caller must provide it. *)
Definition policy_ok (maxtype : Z) (p : list nla_policy) : Prop :=
  maxtype < Z.of_nat (length p) /\ Forall (fun q => np_type q <= NLA_TYPE_MAX /\ 0 <= np_minlen q) p.

Lemma validate_safe mem pos maxtype p : attr_inside mem pos -> policy_ok maxtype p -> validate_nla mem pos maxtype p <> Fault.
Proof.
  intros Ha [Hl Hp]. unfold validate_nla. destruct (nla_type_inside mem pos Ha) as [t ->]. cbn [mbind ret_bind].
  destruct ((t <=? 0) || (maxtype <? t)) eqn:Et; [discriminate|]. bool_to_prop.
  destruct (lookup_lt_is_Some_2 p (Z.to_nat t) ltac:(lia)) as [q Eq]. rewrite Eq. cbn [access mbind ret_bind].
  eapply Forall_lookup_1 in Hp; [|exact Eq]. destruct Hp as [Hq Hm]. rewrite (proj2 (Z.ltb_ge _ _)) by lia.
  destruct Ha as (l & El & H4 & Hle). unfold nla_len. rewrite El. cbn [mbind ret_bind]. change NLA_HDRLEN with 4.
  destruct (_ && _); [discriminate|]. set (minlen := if negb _ then _ else _).
  destruct (Z.ltb_spec (l - 4) minlen) as [|Hmin]; [discriminate|]. destruct (_ && _); [discriminate|].
  destruct (Z.eqb_spec (np_type q) NLA_STRING) as [Es|]; [|discriminate].
  assert (1 <= l - 4) as H1.
  { unfold minlen in Hmin. rewrite Es in Hmin. destruct (Z.eqb_spec (np_minlen q) 0); cbn in Hmin; lia. }
  destruct (rd_ok 1 mem (nla_data pos + Z.to_nat (l - 4 - 1))) as [c ->];
    [unfold nla_data; change (Z.to_nat NLA_HDRLEN) with 4%nat; lia|].
  cbn [mbind ret_bind]. destruct (c =? 0); discriminate.
Qed.

(** ** Nesting *)

Lemma pad_encoded l : pad_of (encode_attrs l) = 0%nat.
Proof.
  unfold pad_of. destruct (length_encode_attrs_div l) as [k ->].
  replace (- (k * 4)) with ((- k) * 4) by lia. rewrite Z.mod_mul by lia. reflexivity.
Qed.

(** The nest and its contents as one attribute. *)
Lemma encode_nest t inner :
  le_bytes 2 (4 + Z.of_nat (length (encode_attrs inner))) ++ le_bytes 2 t ++ encode_attrs inner
  = encode_attr (t, encode_attrs inner).
Proof. unfold encode_attr. cbn [fst snd]. rewrite pad_encoded, app_nil_r. reflexivity. Qed.

Lemma nest_end_contents m h l t inner :
  carries m h (l ++ [(t, [])] ++ inner) -> inner <> [] ->
  exists m', nla_nest_end m (16 + length (encode_attrs l))%nat = Ret m' /\ carries m' h (l ++ [(t, encode_attrs inner)]) /\
    nm_size m' = nm_size m.
Proof.
  intros Hc Hi. destruct (carries_len _ _ _ Hc) as [El Hle].
  destruct Hc as (Hs & Hh & Hm & rest & Eb). unfold nla_nest_end, nlmsg_tail. rewrite El. cbn [mbind ret_bind].
  rewrite nlmsg_align_encoded, Z.sub_diag. rewrite !encode_attrs_app, encode_attrs_one, !length_app in *.
  change (length (encode_attr (t, []))) with 4%nat in *. cbv zeta.
  replace (Z.of_nat (Z.to_nat (16 + Z.of_nat (length (encode_attrs l) + (4 + length (encode_attrs inner))))) -
    Z.of_nat (16 + length (encode_attrs l))) with (4 + Z.of_nat (length (encode_attrs inner))) by lia.
  assert (0 < Z.of_nat (length (encode_attrs inner))) as Hp
    by (destruct inner as [|x inner]; [congruence|]; unfold encode_attrs; cbn [map concat]; rewrite length_app;
        pose proof (length_encode_attr x); destruct (align4_spec (4 + Z.of_nat (length x.2)) ltac:(lia)); lia).
  change NLA_HDRLEN with 4. rewrite (proj2 (Z.eqb_neq _ _)) by lia.
  set (n := 16 + Z.of_nat (length (encode_attrs l) + (4 + length (encode_attrs inner)))) in *.
  assert (nm_nlh m = (le_bytes 4 n ++ h ++ encode_attrs l) ++ le_bytes 2 4 ++ (le_bytes 2 t ++ encode_attrs inner ++ rest)) as Eb'.
  { rewrite Eb. unfold encode_attr. cbn [fst snd length]. rewrite <- !app_assoc. reflexivity. }
  rewrite Eb', wr_app by (rewrite ?length_app, ?length_le_bytes; lia). cbn [mbind ret_bind].
  eexists. split; [reflexivity|]. split; [|reflexivity]. unfold carries. cbn [nm_nlh nm_size set_nlh].
  split; [rewrite Hs, Eb', !length_app, !length_le_bytes; lia|]. split; [exact Hh|]. split; [exact Hm|]. exists rest.
  rewrite encode_attrs_app, encode_attrs_one, <- encode_nest, <- !app_assoc, !length_app, !length_le_bytes.
  replace (16 + Z.of_nat (length (encode_attrs l) + (2 + (2 + length (encode_attrs inner))))) with n by (unfold n; lia).
  reflexivity.
Qed.

(** An empty nest is taken back. *)
Lemma nest_end_empty m h l t :
  carries m h (l ++ [(t, [])]) ->
  exists m', nla_nest_end m (16 + length (encode_attrs l))%nat = Ret m' /\ carries m' h l /\ nm_size m' = nm_size m.
Proof.
  intros Hc. destruct (carries_len _ _ _ Hc) as [El Hle].
  destruct Hc as (Hs & Hh & Hm & rest & Eb). unfold nla_nest_end, nlmsg_tail. rewrite El. cbn [mbind ret_bind].
  rewrite nlmsg_align_encoded. rewrite !encode_attrs_app, encode_attrs_one, !length_app in *.
  change (length (encode_attr (t, []))) with 4%nat in *. cbv zeta. change NLA_HDRLEN with 4.
  set (n := Z.of_nat (length (encode_attrs l))).
  replace (16 + Z.of_nat (length (encode_attrs l) + 4)) with (16 + n + 4) in * by (unfold n; lia).
  replace (Z.of_nat (Z.to_nat (16 + n + 4)) - Z.of_nat (16 + length (encode_attrs l))) with 4 by (unfold n; lia).
  rewrite Z.eqb_refl. replace (16 + n + 4 - 4) with (16 + n) by lia.
  assert (set_hdr_len (16 + n) (nm_nlh m) = Ret (le_bytes 4 (16 + n) ++ h ++ encode_attrs l ++ encode_attr (t, []) ++ rest)) as ->.
  { unfold set_hdr_len. rewrite Eb, <- !app_assoc. apply (wr_app 4 [] _ _ _ 0 eq_refl), length_le_bytes. }
  cbn [mbind ret_bind]. unfold hdr_len. erewrite (rd_app 4 [] (16 + n) _ 0 eq_refl : rd 4 (le_bytes 4 (16 + n) ++ _) 0 = _).
  rewrite Z.mod_small by (unfold n; change (256 ^ Z.of_nat 4) with 4294967296; lia). cbn [mbind ret_bind].
  unfold n. rewrite nlmsg_align_encoded. fold n.
  rewrite (app_assoc h), (app_assoc (le_bytes 4 (16 + n))), memset_app
    by (rewrite ?length_app, ?length_le_bytes; unfold n; lia || reflexivity).
  cbn [mbind ret_bind]. eexists. split; [reflexivity|]. split; [|reflexivity]. unfold carries. cbn [nm_nlh nm_size set_nlh].
  split; [rewrite Hs, Eb, !length_app, !length_le_bytes, length_replicate; change (length (encode_attr (t, []))) with 4%nat; lia|].
  split; [exact Hh|]. split; [exact Hm|]. exists (replicate (Z.to_nat 4) 0 ++ rest). by rewrite <- !app_assoc.
Qed.

(** ** New messages *)

Lemma alloc_carries size m :
  16 <= size < 4294967296 -> nlmsg_alloc_size size true = Ret (Some m) -> carries m (replicate 12 0) [].
Proof.
  intros Hs. unfold nlmsg_alloc_size, nlmsg_alloc_. rewrite (proj2 (Z.ltb_ge _ _)) by (unfold sizeof_nlmsghdr; lia).
  cbn [negb]. replace (Z.to_nat size) with (4 + (12 + (Z.to_nat size - 16)))%nat by lia.
  rewrite replicate_add, replicate_add.
  assert (memset0 0 (Z.to_nat sizeof_nlmsghdr) (replicate 4 0 ++ replicate 12 0 ++ replicate (Z.to_nat size - 16) 0) =
    Ret (replicate 4 0 ++ replicate 12 0 ++ replicate (Z.to_nat size - 16) 0)) as ->.
  { rewrite app_assoc. exact (memset_app 16 [] (replicate 4 0 ++ replicate 12 0) _ 0 eq_refl eq_refl). }
  cbn [mbind ret_bind]. intros E.
  pose proof (wr_app 4 [] (replicate 4 0) (replicate 12 0 ++ replicate (Z.to_nat size - 16) 0) (nlmsg_total_size 0) 0 eq_refl eq_refl) as W.
  cbn [app] in W. unfold set_hdr_len in E. rewrite W in E. injection E as <-.
  unfold carries. cbn [nm_size nm_nlh].
  split; [cbn [length]; rewrite length_replicate; lia|]. split; [reflexivity|]. split; [lia|].
  eexists. reflexivity.
Qed.

Lemma parse_encoded mem pre l rest maxtype :
  mem = pre ++ encode_attrs l ++ rest -> Z.of_nat (length (encode_attrs l)) < 4294967296 -> Forall attr_ok l -> 0 <= maxtype ->
  exists tb, nla_parse maxtype mem (length pre) (Z.of_nat (length (encode_attrs l))) None = Ret tb /\ table_for mem maxtype l tb.
Proof.
  intros Em Hlt Hl Hm.
  change (nla_parse maxtype mem (length pre) (Z.of_nat (length (encode_attrs l))) None) with
    (nla_for_each (nla_fuel (Z.of_nat (length (encode_attrs l)))) mem (length pre) (Z.of_nat (length (encode_attrs l)))
       (parse_body maxtype mem) (replicate (Z.to_nat (maxtype + 1)) None)).
  pose proof (for_each_encoded (parse_body maxtype mem) l (nla_fuel (Z.of_nat (length (encode_attrs l)))) pre rest
    (replicate (Z.to_nat (maxtype + 1)) None) Hl) as F. rewrite <- Em in F. rewrite F; cycle 1.
  { unfold nla_fuel. pose proof (length_encode_attrs_le l). lia. }
  { lia. }
  apply (visit_parse maxtype mem [] l pre rest); [exact Em | exact Hm | exact Hl|].
  split; [apply length_replicate|]. intros t Ht. cbn [last_of]. apply lookup_replicate_2. lia.
Qed.

Lemma carries_parse m h l maxtype :
  carries m h l -> Forall attr_ok l -> 0 <= maxtype ->
  exists tb, nlmsg_parse (nm_nlh m) 0 maxtype None = Ret tb /\ table_for (nm_nlh m) maxtype l tb.
Proof.
  intros Hc Hl Hm. destruct (carries_len m h l Hc) as [El Hle]. pose proof Hc as (Hs & Hh & Hlt & rest & Eb).
  unfold nlmsg_parse, nlmsg_valid_hdr, nlmsg_attrlen, nlmsg_len, nlmsg_datalen. rewrite El. cbn [mbind ret_bind].
  change (nlmsg_msg_size 0) with 16. rewrite (proj2 (Z.ltb_ge _ _)) by lia. cbn [negb].
  change NLMSG_HDRLEN with 16. change (NLMSG_ALIGN 0) with 0.
  replace (16 + Z.of_nat (length (encode_attrs l)) - 16 - 0) with (Z.of_nat (length (encode_attrs l))) by lia.
  set (pre := le_bytes 4 (16 + Z.of_nat (length (encode_attrs l))) ++ h).
  change (nlmsg_attrdata 0) with 16%nat. replace 16%nat with (length pre) by (unfold pre; rewrite length_app, length_le_bytes; lia).
  apply (parse_encoded _ pre l rest); [unfold pre; rewrite Eb; by rewrite <- !app_assoc | lia | exact Hl | exact Hm].
Qed.

(** ** Several attributes *)

Definition nla_puts (m : nl_msg) (l : list attr) : ret nl_msg :=
  foldl (fun m a => m ← m; nla_put m a.1 a.2) (Ret m) l.

Lemma foldl_stop {A} (r : ret nl_msg) (f : nl_msg -> A -> ret nl_msg) l :
  (forall m, r <> Ret m) -> foldl (fun m a => m ← m; f m a) r l = r.
Proof. intros Hr. induction l as [|a l IH]; simpl; [reflexivity|]. destruct r; [by destruct (Hr a0)|exact IH|exact IH]. Qed.

Lemma nla_puts_carries m h l l' m' :
  carries m h l -> Forall attr_ok l' -> nla_puts m l' = Ret m' -> carries m' h (l ++ l') /\ nm_size m' = nm_size m.
Proof.
  unfold nla_puts. revert m l. induction l' as [|[t d] l' IH]; intros m l Hc Hl E; simpl in E.
  { injection E as ->. rewrite app_nil_r. auto. }
  inversion_clear Hl. destruct (decide (has_room m l d)) as [Hr|Hr]; cycle 1.
  { rewrite (nla_put_full m h l), foldl_stop in E by (assumption || discriminate). discriminate. }
  destruct (nla_put_room m h l t d) as (m1 & E1 & H1 & H2); [assumption..|]. rewrite E1 in E.
  destruct (IH m1 (l ++ [(t, d)])) as [H3 H4]; [assumption..|]. rewrite <- app_assoc in H3. split; [exact H3 | congruence].
Qed.

Lemma nest_start_carries m h l t start m' :
  carries m h l -> 0 < t < 16384 -> nla_nest_start m t = Ret (Some start, m') ->
  start = (16 + length (encode_attrs l))%nat /\ carries m' h (l ++ [(t, [])]) /\ nm_size m' = nm_size m.
Proof.
  intros Hc Ht. assert (attr_ok (t, [])) as Ha by (split; simpl; lia).
  unfold nla_nest_start, nlmsg_tail. rewrite (proj1 (carries_len m h l Hc)). cbn [mbind ret_bind].
  rewrite nlmsg_align_encoded. destruct (decide (has_room m l [])) as [Hr|Hr]; cycle 1.
  { rewrite (nla_put_full m h l) by assumption. discriminate. }
  destruct (nla_put_room m h l t []) as (m1 & -> & H1 & H2); [assumption..|]. intros E. injection E as <- <-.
  split; [lia | auto].
Qed.

(** A nest found in a message, taken apart. *)
Lemma nested_parse m h l t inner maxtype :
  carries m h (l ++ [(t, encode_attrs inner)]) -> Z.of_nat (length (encode_attrs inner)) <= 65531 ->
  Forall attr_ok inner -> 0 <= maxtype ->
  exists tb, nla_parse_nested maxtype (nm_nlh m) (16 + length (encode_attrs l)) None = Ret tb /\
    table_for (nm_nlh m) maxtype inner tb.
Proof.
  intros (Hs & Hh & Hlt & rest & Eb) Hle Hl Hm. rewrite encode_attrs_app, encode_attrs_one, <- encode_nest in Eb.
  unfold nla_parse_nested, nla_len, nla_data.
  set (n := 16 + _) in Eb.
  assert (nm_nlh m = (le_bytes 4 n ++ h ++ encode_attrs l) ++ le_bytes 2 (4 + Z.of_nat (length (encode_attrs inner))) ++
    (le_bytes 2 t ++ encode_attrs inner ++ rest)) as E2 by (rewrite Eb; by rewrite <- !app_assoc).
  assert (rd 2 (nm_nlh m) (16 + length (encode_attrs l)) = Ret (4 + Z.of_nat (length (encode_attrs inner)))) as ->.
  { rewrite E2, rd_app by (rewrite !length_app, length_le_bytes; lia). rewrite Z.mod_small; [reflexivity|].
    change (256 ^ Z.of_nat 2) with 65536. lia. }
  cbn [mbind ret_bind]. change NLA_HDRLEN with 4.
  replace (4 + Z.of_nat (length (encode_attrs inner)) - 4) with (Z.of_nat (length (encode_attrs inner))) by lia.
  set (pre := (le_bytes 4 n ++ h ++ encode_attrs l) ++ le_bytes 2 (4 + Z.of_nat (length (encode_attrs inner))) ++ le_bytes 2 t).
  replace (16 + length (encode_attrs l) + Z.to_nat 4)%nat with (length pre) by (unfold pre; rewrite !length_app, !length_le_bytes; lia).
  apply (parse_encoded _ pre inner rest); [unfold pre; rewrite E2; by rewrite <- !app_assoc | lia | exact Hl | exact Hm].
Qed.

(** ** Claims *)

(** [nla_put] appends: on a message that carries the attributes [l] it either
    gives a message of the same size that carries [l] and the new attribute, padded
    to four bytes, with the header untouched; or it answers that there is no room
    and leaves the message as it was.  It never writes outside the buffer. *)
Theorem nla_put_appends m h l t d :
  carries m h l -> attr_ok (t, d) ->
  (has_room m l d -> exists m', nla_put m t d = Ret m' /\ carries m' h (l ++ [(t, d)]) /\ nm_size m' = nm_size m) /\
  (~ has_room m l d -> nla_put m t d = Err (- NLE_NOMEM)).
Proof. intros Hc Ha. split; [by apply nla_put_room | by apply (nla_put_full m h)]. Qed.

(** C30: what was put is found: parsing a message gives, for every type up to
    [maxtype], the last attribute of that type with exactly its payload, and
    nothing for a type that was not put; [nlmsg_find_attr] gives the first. *)
Theorem attributes_found m h l maxtype :
  carries m h l -> Forall attr_ok l -> 0 <= maxtype ->
  (exists tb, nlmsg_parse (nm_nlh m) 0 maxtype None = Ret tb /\ table_for (nm_nlh m) maxtype l tb) /\
  (forall t, match first_of t l with
             | Some d => exists p, nlmsg_find_attr (nm_nlh m) 0 t = Ret (Some p) /\ nla_payload (nm_nlh m) p = Ret d
             | None => nlmsg_find_attr (nm_nlh m) 0 t = Ret None
             end).
Proof.
  intros Hc Hl Hm. split; [by apply (carries_parse m h)|]. intros t.
  destruct (carries_len m h l Hc) as [El Hle]. pose proof Hc as (Hs & Hh & Hlt & rest & Eb).
  unfold nlmsg_find_attr, nlmsg_attrlen, nlmsg_len, nlmsg_datalen. rewrite El. cbn [mbind ret_bind].
  change NLMSG_HDRLEN with 16. change (NLMSG_ALIGN 0) with 0.
  replace (16 + Z.of_nat (length (encode_attrs l)) - 16 - 0) with (Z.of_nat (length (encode_attrs l))) by lia.
  set (pre := le_bytes 4 (16 + Z.of_nat (length (encode_attrs l))) ++ h).
  change (nlmsg_attrdata 0) with 16%nat. replace 16%nat with (length pre) by (unfold pre; rewrite length_app, length_le_bytes; lia).
  apply (find_encoded t l _ _ pre rest); [unfold pre; rewrite Eb; by rewrite <- !app_assoc | exact Hl | | lia].
  unfold nla_fuel. pose proof (length_encode_attrs_le l). lia.
Qed.

(** Integers survive: a 32 bit value put in a message is read back from the
    attribute found under its type. *)
Theorem u32_roundtrip m h l t v maxtype m' :
  carries m h l -> Forall attr_ok l -> 0 < t <= maxtype -> t < 16384 -> 0 <= v < 4294967296 ->
  nla_put_u32 m t v = Ret m' ->
  exists tb p, nlmsg_parse (nm_nlh m') 0 maxtype None = Ret tb /\ tb !! Z.to_nat t = Some (Some p) /\
    nla_get_u32 (nm_nlh m') p = Ret v.
Proof.
  intros Hc Hl Ht Htt Hv Hp. assert (attr_ok (t, le_bytes 4 v)) as Ha by (split; simpl; lia).
  destruct (decide (has_room m l (le_bytes 4 v))) as [Hr|Hr]; cycle 1.
  { unfold nla_put_u32 in Hp. rewrite (nla_put_full m h l) in Hp by assumption. discriminate. }
  destruct (nla_put_room m h l t _ Hc Ha Hr) as (m2 & E & Hc' & _). unfold nla_put_u32 in Hp. rewrite E in Hp. injection Hp as ->.
  destruct (carries_parse m' h _ maxtype Hc') as (tb & Et & _ & T); [apply Forall_app; auto | lia|].
  exists tb. specialize (T t Ht). rewrite last_of_app in T. cbn [last_of] in T. rewrite Z.eqb_refl in T.
  destruct T as (p & Hp & Hpay). exists p. split; [exact Et|]. split; [exact Hp|].
  unfold nla_payload in Hpay. destruct (nla_len (nm_nlh m') p) as [n| |]; [|discriminate|discriminate]. cbn [mbind ret_bind] in Hpay.
  unfold nla_get_u32, rd. destruct (slice (nla_data p) (Z.to_nat n) (nm_nlh m')) as [bs|] eqn:Es; [|discriminate].
  cbn [access] in Hpay. assert (bs = le_bytes 4 v) as -> by congruence. pose proof (length_slice _ _ _ _ Es) as L. rewrite length_le_bytes in L. rewrite L, Es. cbn [fmap option_fmap option_map access].
  f_equal. exact (le_val_le_bytes_small v Hv).
Qed.

(** Nesting works: a nest is started, attributes are put, the nest is closed.
    When there was room, closing succeeds; the attributes put in between have become
    the payload of one attribute of the nest's type, and parsing the nest gives the
    table of exactly those; a nest nothing was put in leaves no attribute behind. *)
Theorem nesting m h l t inner maxtype start m1 m2 :
  carries m h l -> 0 < t < 16384 -> Forall attr_ok inner -> Z.of_nat (length (encode_attrs inner)) <= 65531 -> 0 <= maxtype ->
  nla_nest_start m t = Ret (Some start, m1) -> nla_puts m1 inner = Ret m2 ->
  exists m3, nla_nest_end m2 start = Ret m3 /\ nm_size m3 = nm_size m /\
    match inner with
    | [] => carries m3 h l
    | _ => carries m3 h (l ++ [(t, encode_attrs inner)]) /\
           exists tb, nla_parse_nested maxtype (nm_nlh m3) start None = Ret tb /\ table_for (nm_nlh m3) maxtype inner tb
    end.
Proof.
  intros Hc Ht Hi Hle Hm E1 E2. destruct (nest_start_carries m h l t start m1 Hc Ht E1) as (-> & Hc1 & S1).
  destruct (nla_puts_carries m1 h _ inner m2 Hc1 Hi E2) as [Hc2 S2]. destruct inner as [|x inner].
  - rewrite app_nil_r in Hc2. destruct (nest_end_empty m2 h l t Hc2) as (m3 & E & H1 & H2).
    exists m3. split; [exact E|]. split; [congruence | exact H1].
  - rewrite <- app_assoc in Hc2.
    destruct (nest_end_contents m2 h l t (x :: inner) Hc2) as (m3 & E & H1 & H2); [discriminate|].
    exists m3. split; [exact E|]. split; [congruence|]. split; [exact H1|]. by apply (nested_parse m3 h l t).
Qed.

(** Parsing untrusted attributes with a policy stays inside the buffer when
    the announced length is a multiple of four. *)
Theorem nla_parse_safe mem head len maxtype policy :
  bytes_ok mem -> 0 <= len < 4294967296 -> (4 | len) -> Z.of_nat head + len <= Z.of_nat (length mem) -> 0 <= maxtype ->
  match policy with Some p => policy_ok maxtype p | None => True end ->
  nla_parse maxtype mem head len policy <> Fault.
Proof.
  intros Hb Hl Hd Hh Hm Hp. unfold nla_parse.
  apply (for_each_safe (fun tb => length tb = Z.to_nat (maxtype + 1))); [exact Hb | | apply length_replicate | lia | exact Hd | exact Hh | unfold nla_fuel; lia].
  intros pos tb Ha Ht. destruct (nla_type_inside mem pos Ha) as [t ->]. cbn [mbind ret_bind].
  destruct (t =? 0); [split; [discriminate | congruence]|].
  destruct (Z.leb_spec t maxtype); [|split; [discriminate | congruence]].
  destruct policy as [p|].
  - pose proof (validate_safe mem pos maxtype p Ha Hp) as V. destruct (validate_nla mem pos maxtype p) as [[]| |]; cbn [mbind ret_bind];
      [|split; [discriminate | intros; discriminate]|congruence].
    rewrite (proj2 (Nat.ltb_lt _ _)) by lia. split; [discriminate|]. intros tb' E. injection E as <-. by rewrite length_insert.
  - cbn [mbind ret_bind]. rewrite (proj2 (Nat.ltb_lt _ _)) by lia. split; [discriminate|].
    intros tb' E. injection E as <-. by rewrite length_insert.
Qed.

(** With another length it need not: behind a last attribute that is not
    padded, the number of remaining bytes goes below zero, the test against the
    size of a header converts it to a large number, and the walk reads a header
    behind the end of the attributes. *)
Theorem nla_walk_overreads :
  exists mem len maxtype, bytes_ok mem /\ 0 <= len /\ len = Z.of_nat (length mem) /\
    nla_parse maxtype mem 0 len None = Fault /\ (forall t, t <> 1 -> nla_find mem 0 len t = Fault).
Proof.
  exists [5; 0; 1; 0; 9], 5, 3. split; [repeat constructor; unfold byte_ok; lia|]. split; [lia|]. split; [reflexivity|].
  split; [reflexivity|]. intros t Ht. cbn. destruct t as [|[]|]; try reflexivity. congruence.
Qed.

(** [nla_reserve] compares with the length of the message counted twice, and
    refuses attributes for which there is room. *)
Theorem nla_put_refuses_fitting :
  exists m h l t d, carries m h l /\ attr_ok (t, d) /\
    16 + Z.of_nat (length (encode_attrs (l ++ [(t, d)]))) <= nm_size m /\ nla_put m t d = Err (- NLE_NOMEM).
Proof.
  destruct (nlmsg_alloc_size 64 true) as [[m|]| |] eqn:E; try discriminate.
  pose proof (alloc_carries 64 m ltac:(lia) E) as Hc. vm_compute in E. injection E as <-.
  assert (attr_ok (1, replicate 32 7)) as Ha by (split; simpl; lia).
  eexists _, _, [], 1, (replicate 32 7). split; [exact Hc|]. split; [exact Ha|]. split; vm_compute; [discriminate | reflexivity].
Qed.

(** ** Witnesses *)

(** A message of 256 bytes with one attribute. *)
Definition sample_attrs : list attr := [(1, [7; 8; 9])].

Definition sample : nl_msg :=
  mkMsg (-1) 0 zero_addr zero_addr zero_creds
    (le_bytes 4 24 ++ replicate 12 0 ++ encode_attrs sample_attrs ++ replicate 232 0) 256 1.

Lemma sample_carries : carries sample (replicate 12 0) sample_attrs.
Proof. split; [reflexivity|]. split; [reflexivity|]. split; [reflexivity|]. exists (replicate 232 0). reflexivity. Qed.

Lemma sample_ok : Forall attr_ok sample_attrs.
Proof. repeat constructor; simpl; lia. Qed.

Lemma nla_put_appends_witness :
  has_room sample sample_attrs [1; 2] /\
  exists m', nla_put sample 2 [1; 2] = Ret m' /\ carries m' (replicate 12 0) (sample_attrs ++ [(2, [1; 2])]) /\
    nm_size m' = 256.
Proof.
  assert (has_room sample sample_attrs [1; 2]) as Hr by (vm_compute; discriminate).
  split; [exact Hr|]. apply (nla_put_appends sample (replicate 12 0) sample_attrs 2 [1; 2]); [exact sample_carries | split; simpl; lia | exact Hr].
Defined.

Lemma attributes_found_witness :
  exists p, nlmsg_find_attr (nm_nlh sample) 0 1 = Ret (Some p) /\ nla_payload (nm_nlh sample) p = Ret [7; 8; 9].
Proof.
  apply (proj2 (attributes_found sample (replicate 12 0) sample_attrs 4 sample_carries sample_ok ltac:(lia)) 1).
Defined.

Lemma u32_roundtrip_witness :
  exists m' tb p, nla_put_u32 sample 3 123456 = Ret m' /\ nlmsg_parse (nm_nlh m') 0 4 None = Ret tb /\
    tb !! 3%nat = Some (Some p) /\ nla_get_u32 (nm_nlh m') p = Ret 123456.
Proof.
  eexists.
  edestruct (u32_roundtrip sample (replicate 12 0) sample_attrs 3 123456 4) as (tb & p & H);
    [exact sample_carries | exact sample_ok | lia | lia | lia | vm_compute; reflexivity|].
  exists tb, p. split; [vm_compute; reflexivity | exact H].
Defined.

Lemma nesting_witness :
  exists start m1 m2 m3, nla_nest_start sample 5 = Ret (Some start, m1) /\ nla_puts m1 [(1, [4]); (2, [5; 6])] = Ret m2 /\
    nla_nest_end m2 start = Ret m3 /\
    carries m3 (replicate 12 0) (sample_attrs ++ [(5, encode_attrs [(1, [4]); (2, [5; 6])])]).
Proof.
  eexists _, _, _.
  edestruct (nesting sample (replicate 12 0) sample_attrs 5 [(1, [4]); (2, [5; 6])] 4) as (m3 & E & _ & H & _);
    [exact sample_carries | lia | repeat constructor; simpl; lia | vm_compute; discriminate | lia
    | vm_compute; reflexivity | vm_compute; reflexivity|].
  exists m3. split; [vm_compute; reflexivity|]. split; [vm_compute; reflexivity|]. split; [exact E | exact H].
Defined.

Lemma nla_parse_safe_witness :
  nla_parse 3 [8; 0; 1; 0; 1; 2; 3; 4; 255; 255; 2; 0] 0 12
    (Some (replicate 4 {| np_type := NLA_U32; np_minlen := 0; np_maxlen := 0 |})) <> Fault.
Proof.
  apply (nla_parse_safe [8; 0; 1; 0; 1; 2; 3; 4; 255; 255; 2; 0] 0 12 3).
  - repeat constructor; unfold byte_ok; lia.
  - lia.
  - exists 3. reflexivity.
  - reflexivity.
  - lia.
  - split; [reflexivity | repeat constructor; vm_compute; discriminate].
Defined.
