(* ===== verification/NlUse.v ===== *)
(** * Using netlink messages

    What a user of the library relies on: the header [nlmsg_put] writes, data
    appended behind it, received messages taken over by [nlmsg_convert], the policy
    that parsing enforces, and copies of string attributes. *)

From S2P Require Import Prelude NlMsg NlProofs.

(** ** Messages with any payload *)

(** [h] in the header behind the length, [body] behind the header. *)
Definition framed (m : nl_msg) (h body : list Z) : Prop :=
  nm_size m = Z.of_nat (length (nm_nlh m)) /\ length h = 12%nat /\ nm_size m < 4294967296 /\
  exists rest, nm_nlh m = le_bytes 4 (16 + Z.of_nat (length body)) ++ h ++ body ++ rest.

Lemma carries_framed m h l : carries m h l -> framed m h (encode_attrs l).
Proof. intros H. exact H. Qed.

Lemma framed_len m h body :
  framed m h body ->
  hdr_len (nm_nlh m) = Ret (16 + Z.of_nat (length body)) /\ 16 + Z.of_nat (length body) <= nm_size m.
Proof.
  intros (Hs & Hh & Hm & rest & E). rewrite E in *. rewrite !length_app, length_le_bytes in Hs. split; [|lia].
  unfold hdr_len. etransitivity; [apply (rd_app 4 [] _ _ 0 eq_refl)|]. rewrite Z.mod_small by lia. reflexivity.
Qed.

(** The bytes [nlmsg_reserve] takes. *)
Definition padded (len pad : Z) : Z := if pad =? 0 then len else align pad len.

Lemma padded_bounds len pad : 0 <= len -> pad = 0 \/ pad = 4 -> len <= padded len pad < len + 4.
Proof.
  intros Hl [->| ->]; unfold padded; cbn [Z.eqb]; [lia|].
  destruct (align4_spec len Hl) as [H _]. exact H.
Qed.

Lemma reserve_full m h body len pad :
  framed m h body -> nm_size m < 16 + Z.of_nat (length body) + padded len pad -> nlmsg_reserve m len pad = Ret (None, m).
Proof.
  intros Hf Hr. destruct (framed_len m h body Hf) as [El _]. unfold nlmsg_reserve. rewrite El. cbn [mbind ret_bind].
  fold (padded len pad). rewrite (proj2 (Z.ltb_lt _ _)) by lia. reflexivity.
Qed.

(** Room is taken behind the body; only the length and the padding are written. *)
Lemma reserve_room m h body len pad :
  framed m h body -> 0 <= len -> pad = 0 \/ pad = 4 -> 16 + Z.of_nat (length body) + padded len pad <= nm_size m ->
  exists m' room rest, nlmsg_reserve m len pad = Ret (Some (16 + length body)%nat, m') /\ length room = Z.to_nat len /\
    nm_nlh m' = le_bytes 4 (16 + Z.of_nat (length body) + padded len pad) ++ h ++ body ++ room ++
                replicate (Z.to_nat (padded len pad - len)) 0 ++ rest /\
    length (nm_nlh m') = length (nm_nlh m) /\ nm_size m' = nm_size m.
Proof.
  intros Hf Hl Hp Hr. destruct (framed_len m h body Hf) as [El _]. pose proof (padded_bounds len pad Hl Hp) as Hb.
  destruct Hf as (Hs & Hh & Hm & rest & E). unfold nlmsg_reserve. rewrite El. cbn [mbind ret_bind].
  fold (padded len pad). set (p := padded len pad) in *. rewrite (proj2 (Z.ltb_ge _ _)) by lia.
  assert (Z.to_nat p <= length rest)%nat as Hrest by (rewrite E, !length_app, length_le_bytes in Hs; lia).
  destruct (split_room rest (Z.to_nat len) (Z.to_nat (p - len)) 0 0) as (room & gap & e1 & e2 & r & -> & L1 & L2 & L3 & L4); [lia|].
  apply nil_length_inv in L3 as ->. apply nil_length_inv in L4 as ->. cbn [app] in *.
  unfold set_hdr_len. rewrite E, <- (app_nil_l (le_bytes 4 _ ++ _)), wr_app by (reflexivity || apply length_le_bytes).
  cbn [mbind ret_bind app].
  set (v := 16 + Z.of_nat (length body) + p) in *.
  exists (set_nlh (le_bytes 4 v ++ h ++ body ++ room ++ replicate (Z.to_nat (p - len)) 0 ++ r) m), room, r.
  assert (forall b, (if len <? p then memset0 (Z.to_nat (16 + Z.of_nat (length body) + len)) (Z.to_nat (p - len))
      (le_bytes 4 v ++ h ++ body ++ room ++ gap ++ r) else Ret (le_bytes 4 v ++ h ++ body ++ room ++ gap ++ r)) = b ->
      b = Ret (le_bytes 4 v ++ h ++ body ++ room ++ replicate (Z.to_nat (p - len)) 0 ++ r)) as K.
  { intros b <-. destruct (Z.ltb_spec len p) as [Hlt|Hge].
    - replace (le_bytes 4 v ++ h ++ body ++ room ++ gap ++ r) with ((le_bytes 4 v ++ h ++ body ++ room) ++ gap ++ r)
        by (by rewrite <- !app_assoc).
      rewrite memset_app by (rewrite ?length_app, ?length_le_bytes; lia). by rewrite <- !app_assoc.
    - replace (Z.to_nat (p - len)) with 0%nat in * by lia. apply nil_length_inv in L2 as ->. reflexivity. }
  rewrite (K _ eq_refl). cbn [mbind ret_bind]. split; [|split; [exact L1|split; [reflexivity|split; [|reflexivity]]]].
  - do 3 f_equal. lia.
  - cbn [nm_nlh set_nlh]. rewrite !length_app, !length_le_bytes, length_replicate. lia.
Qed.

(** ** The policy *)

Lemma for_each_inv {A} (I : A -> Prop) (body : nat -> A -> ret A) mem fuel pos rem acc acc' :
  (forall pos acc acc', attr_inside mem pos -> I acc -> body pos acc = Ret acc' -> I acc') ->
  I acc -> 0 <= rem < 18446744073709551616 -> (4 | rem) -> Z.of_nat pos + rem <= Z.of_nat (length mem) ->
  nla_for_each fuel mem pos rem body acc = Ret acc' -> I acc'.
Proof.
  intros Hbody. revert pos rem acc. induction fuel as [|fuel IH]; intros pos rem acc Hi Hr Hd Hp; [discriminate|].
  cbn [nla_for_each]. unfold nla_ok at 1, int_ge_size. rewrite wrap_small by lia.
  destruct (Z.leb_spec sizeof_nlattr rem) as [H4|H4]; [|cbn; congruence]. unfold sizeof_nlattr in *.
  destruct (rd_ok 2 mem pos ltac:(lia)) as [l El]. rewrite El. cbn [mbind ret_bind].
  destruct ((4 <=? l) && (l <=? rem)) eqn:E; [|cbn; congruence]. apply andb_prop in E as [E1%Z.leb_le E2%Z.leb_le].
  destruct (body pos acc) as [acc1| |] eqn:Eb; [|discriminate|discriminate]. cbn [mbind ret_bind].
  unfold nla_next. rewrite El. cbn [mbind ret_bind]. unfold NLA_ALIGN, NLA_ALIGNTO.
  destruct (align4_spec l ltac:(lia)) as [A1 A2]. pose proof (align4_mono l rem ltac:(lia) E2 Hd).
  apply IH; [|lia | by apply Z.divide_sub_r | lia].
  apply (Hbody pos acc acc1); [exists l; split; [exact El|]; lia | exact Hi | exact Eb].
Qed.

(** What an entry of a policy table asks of an attribute with a payload of [n] bytes. *)
Definition policy_holds (mem : list Z) (nla : nat) (pt : nla_policy) (n : Z) : Prop :=
  (np_minlen pt <> 0 -> np_minlen pt <= n) /\
  (np_minlen pt = 0 -> nla_attr_minlen (np_type pt) <= n) /\
  (np_maxlen pt <> 0 -> n <= np_maxlen pt) /\
  (np_type pt = NLA_FLAG -> n = 0) /\
  (np_type pt = NLA_STRING -> rd 1 mem (nla_data nla + Z.to_nat (n - 1)) = Ret 0).

Lemma validate_enforces mem nla maxtype p t pt n :
  validate_nla mem nla maxtype p = Ret tt -> nla_type mem nla = Ret t -> 0 < t <= maxtype ->
  p !! Z.to_nat t = Some pt -> nla_len mem nla = Ret n -> 0 <= n -> policy_holds mem nla pt n.
Proof.
  unfold validate_nla. intros V Et Ht Ep En Hn. rewrite Et in V. cbn [mbind ret_bind] in V.
  rewrite (proj2 (Z.leb_gt _ _)), (proj2 (Z.ltb_ge _ _)) in V by lia. cbn [orb] in V. rewrite Ep in V. cbn [access mbind ret_bind] in V.
  destruct (NLA_TYPE_MAX <? np_type pt); [discriminate|]. rewrite En in V. cbn [mbind ret_bind] in V.
  destruct ((np_type pt =? NLA_FLAG) && (0 <? n)) eqn:Ef; [discriminate|].
  set (minlen := if negb _ then _ else _) in V. destruct (Z.ltb_spec n minlen) as [|Hmin]; [discriminate|].
  destruct (negb (np_maxlen pt =? 0) && (np_maxlen pt <? n)) eqn:Em; [discriminate|].
  unfold policy_holds. split; [|split; [|split; [|split]]].
  - intros Hz. unfold minlen in Hmin. rewrite (proj2 (Z.eqb_neq _ _)) in Hmin by exact Hz. exact Hmin.
  - intros Hz. unfold minlen in Hmin. rewrite Hz in Hmin. cbn [Z.eqb negb] in Hmin.
    destruct (Z.eqb_spec (np_type pt) NLA_UNSPEC) as [->|]; cbn in Hmin; [exact Hmin | exact Hmin].
  - intros Hz. rewrite (proj2 (Z.eqb_neq _ _)) in Em by exact Hz. cbn [negb andb] in Em. by apply Z.ltb_ge in Em.
  - intros Hz. rewrite Hz, Z.eqb_refl in Ef. cbn [andb] in Ef. apply Z.ltb_ge in Ef. lia.
  - intros Hz. rewrite Hz, Z.eqb_refl in V. destruct (rd 1 mem _) as [c| |]; cbn [mbind ret_bind] in V; try discriminate.
    destruct (Z.eqb_spec c 0) as [E0|]; [by rewrite E0 | discriminate].
Qed.

Lemma nla_type_nonneg mem nla t : bytes_ok mem -> nla_type mem nla = Ret t -> 0 <= t.
Proof.
  intros Hb. unfold nla_type. destruct (rd 2 mem (nla + 2)) as [v| |] eqn:E; cbn [mbind ret_bind]; intros Q; try discriminate.
  injection Q as <-. apply rd_range in E; [|exact Hb]. apply Z.land_nonneg. left. lia.
Qed.

(** The table [nla_parse] fills with a policy. *)
Definition table_checked (mem : list Z) (maxtype : Z) (p : list nla_policy) (tb : list (option nat)) : Prop :=
  length tb = Z.to_nat (maxtype + 1) /\
  forall i nla, tb !! i = Some (Some nla) ->
    attr_inside mem nla /\ (0 < i)%nat /\ nla_type mem nla = Ret (Z.of_nat i) /\ validate_nla mem nla maxtype p = Ret tt.

Lemma parse_checked mem head len maxtype p tb :
  bytes_ok mem -> 0 <= len < 4294967296 -> (4 | len) -> Z.of_nat head + len <= Z.of_nat (length mem) ->
  nla_parse maxtype mem head len (Some p) = Ret tb -> table_checked mem maxtype p tb.
Proof.
  intros Hb Hl Hd Hh. unfold nla_parse.
  apply (for_each_inv (table_checked mem maxtype p)); [|split; [apply length_replicate|] | lia | exact Hd | exact Hh].
  - intros pos acc acc' Ha [Hn Ht]. destruct (nla_type mem pos) as [t| |] eqn:Et; [|discriminate|discriminate].
    cbn [mbind ret_bind]. pose proof (nla_type_nonneg mem pos t Hb Et) as H0.
    destruct (Z.eqb_spec t 0); [intros E; injection E as <-; by split|].
    destruct (Z.leb_spec t maxtype); [|intros E; injection E as <-; by split].
    destruct (validate_nla mem pos maxtype p) as [[]| |] eqn:Ev; [|discriminate|discriminate]. cbn [mbind ret_bind].
    rewrite (proj2 (Nat.ltb_lt _ _)) by lia. intros E. injection E as <-. split; [by rewrite length_insert|].
    intros i nla Hi. destruct (decide (i = Z.to_nat t)) as [->|Hne].
    + rewrite list_lookup_insert_eq in Hi by lia. injection Hi as <-. rewrite Z2Nat.id by lia. repeat split; auto; lia.
    + rewrite list_lookup_insert_ne in Hi by congruence. auto.
  - intros i nla Hi. apply lookup_replicate_1 in Hi as [? _]. discriminate.
Qed.

(** ** Copies of strings *)

Lemma slice_prefix off n mem t r : slice off n mem = Some (t ++ r) -> slice off (length t) mem = Some t.
Proof.
  unfold slice. destruct (Nat.leb_spec (off + n) (length mem)) as [H|]; [|discriminate]. intros E.
  assert (take n (drop off mem) = t ++ r) as E' by congruence.
  assert (length t + length r = n)%nat as L by (rewrite <- length_app, <- E', length_take, length_drop; lia).
  rewrite (proj2 (Nat.leb_le _ _)) by lia. f_equal. pose proof (take_app_length t r) as T.
  rewrite <- E', take_take, Nat.min_l in T by lia. exact T.
Qed.

Lemma slice_last off mem u c n : slice off n mem = Some (u ++ [c]) -> rd 1 mem (off + length u) = Ret c.
Proof.
  intros E. pose proof (length_slice _ _ _ _ E) as L. rewrite length_app in L. cbn [length] in L. unfold rd, slice in *.
  destruct (Nat.leb_spec (off + n) (length mem)); [|discriminate]. rewrite (proj2 (Nat.leb_le _ _)) by lia.
  assert (drop (length u) (take n (drop off mem)) = [c]) as D by (injection E as ->; apply drop_app_length).
  replace n with (length u + 1)%nat in D by lia. rewrite <- take_drop_commute, drop_drop in D. rewrite D.
  cbn. f_equal. lia.
Qed.

(** The copy at the end of [nla_strlcpy]. *)
Lemma copy_text mem off n text r dst :
  slice off n mem = Some (text ++ r) -> dst <> [] ->
  let dstsize := Z.of_nat (length dst) in
  let srclen := Z.of_nat (length text) in
  let copied := take (length dst - 1) text in
  (if 0 <? dstsize then
     let len := if dstsize <=? srclen then dstsize - 1 else srclen in
     d ← memset0 0 (length dst) dst; bs ← access (slice off (Z.to_nat len) mem); d ← memcpy 0 bs d; Ret (srclen, d)
   else Ret (srclen, dst)) = Ret (srclen, copied ++ replicate (length dst - length copied) 0) /\
  (length copied < length dst)%nat.
Proof.
  intros Es Hd dstsize srclen copied. assert (0 < length dst)%nat as Hl by (destruct dst; [congruence | simpl; lia]).
  assert (length copied = Nat.min (length dst - 1) (length text)) as Lc by apply length_take.
  split; [|lia]. rewrite (proj2 (Z.ltb_lt _ _)) by lia.
  assert (memset0 0 (length dst) dst = Ret (replicate (length copied) 0 ++ replicate (length dst - length copied) 0)) as ->.
  { rewrite <- replicate_add. replace (length copied + (length dst - length copied))%nat with (length dst) by lia.
    pose proof (memset_app (length dst) [] dst [] 0 eq_refl eq_refl) as W. rewrite !app_nil_r in W. exact W. }
  cbn [mbind ret_bind].
  assert ((if dstsize <=? srclen then dstsize - 1 else srclen) = Z.of_nat (length copied)) as ->
    by (destruct (Z.leb_spec dstsize srclen); lia).
  rewrite Nat2Z.id. rewrite <- (take_drop (length dst - 1) text), <- app_assoc in Es. fold copied in Es.
  rewrite (slice_prefix _ _ _ _ _ Es). cbn [access mbind ret_bind].
  pose proof (memcpy_app copied [] (replicate (length copied) 0) (replicate (length dst - length copied) 0) 0 eq_refl
    (length_replicate _ _)) as W. cbn [app] in W. rewrite W. reflexivity.
Qed.

(** ** Claims *)

(** C34: parsing a stream of attributes whose length is a multiple of four, as the length of
    any stream is that was built with padding, enforces the policy: if it succeeds, every
    attribute in the table is inside the buffer, has the type it is filed under, has its whole
    payload in the buffer, and meets the entry of the policy table for that type: the minimal
    length (given or implied by the data type), the maximal length, an empty flag, a
    terminated string.  (With another length the walk may read behind the stream.) *)
Theorem policy_enforced mem head len maxtype p tb t nla pt :
  bytes_ok mem -> 0 <= len < 4294967296 -> (4 | len) -> Z.of_nat head + len <= Z.of_nat (length mem) ->
  nla_parse maxtype mem head len (Some p) = Ret tb -> 0 <= t ->
  tb !! Z.to_nat t = Some (Some nla) -> p !! Z.to_nat t = Some pt ->
  nla_type mem nla = Ret t /\
  exists bs, nla_payload mem nla = Ret bs /\ policy_holds mem nla pt (Z.of_nat (length bs)).
Proof.
  intros Hb Hl Hd Hh E Ht Hn Hp. destruct (parse_checked mem head len maxtype p tb Hb Hl Hd Hh E) as [Hlen Htb].
  destruct (Htb _ _ Hn) as (Ha & Hi & Et & Ev). rewrite Z2Nat.id in Et by lia. split; [exact Et|].
  pose proof Ha as (l & El & H4 & Hle). assert (nla_len mem nla = Ret (l - 4)) as En by (unfold nla_len; by rewrite El).
  destruct (slice_is_Some (nla_data nla) (Z.to_nat (l - 4)) mem) as [bs Es];
    [unfold nla_data; change (Z.to_nat NLA_HDRLEN) with 4%nat; lia|].
  exists bs. unfold nla_payload. rewrite En. cbn [mbind ret_bind]. rewrite Es. split; [reflexivity|].
  rewrite (length_slice _ _ _ _ Es), Z2Nat.id by lia. apply lookup_lt_Some in Hn.
  apply (validate_enforces mem nla maxtype p t pt); auto; lia.
Qed.

(** [nla_strlcpy] gives a terminated string: the destination holds the payload,
    without a NUL at its end, cut to one byte less than the destination, and NULs
    behind it; the result is the length before cutting. *)
Theorem strlcpy_terminated mem nla dst bs :
  bytes_ok mem -> attr_inside mem nla -> dst <> [] -> nla_payload mem nla = Ret bs ->
  let text := match last bs with Some 0 => removelast bs | _ => bs end in
  let copied := take (length dst - 1) text in
  nla_strlcpy dst mem nla = Ret (Z.of_nat (length text), copied ++ replicate (length dst - length copied) 0) /\
  (length copied < length dst)%nat.
Proof.
  intros Hb (l & El & H4 & Hle) Hd Hp. assert (l < 65536) as Hlt by (apply rd_range in El; [|exact Hb]; change (256 ^ Z.of_nat 2) with 65536 in El; lia).
  assert (nla_len mem nla = Ret (l - 4)) as En by (unfold nla_len; by rewrite El).
  unfold nla_payload in Hp. rewrite En in Hp. cbn [mbind ret_bind] in Hp.
  destruct (slice (nla_data nla) (Z.to_nat (l - 4)) mem) as [bs'|] eqn:Es; [|discriminate]. injection Hp as ->.
  pose proof (length_slice _ _ _ _ Es) as Lb. unfold nla_strlcpy. rewrite En. cbn [mbind ret_bind].
  rewrite wrap_small by lia. destruct bs as [|c u _] using rev_ind.
  - replace (l - 4) with 0 by (cbn [length] in Lb; lia). cbn [Z.ltb Z.compare mbind ret_bind last].
    apply (copy_text mem (nla_data nla) (Z.to_nat (l - 4)) [] []); [exact Es | exact Hd].
  - rewrite length_app in Lb. cbn [length] in Lb. rewrite (proj2 (Z.ltb_lt 0 (l - 4))) by lia.
    replace (Z.to_nat (l - 4 - 1)) with (length u) by lia. rewrite (slice_last _ _ _ _ _ Es). cbn [mbind ret_bind].
    rewrite last_snoc. destruct (Z.eqb_spec c 0) as [E0|Hc].
    + rewrite E0 in *. rewrite removelast_last. replace (l - 4 - 1) with (Z.of_nat (length u)) by lia.
      by apply (copy_text mem (nla_data nla) (Z.to_nat (l - 4)) u [0]).
    + replace (match c with 0 => removelast (u ++ [c]) | _ => u ++ [c] end) with (u ++ [c]) by (by destruct c).
      replace (l - 4) with (Z.of_nat (length (u ++ [c]))) by (rewrite length_app; cbn [length]; lia).
      apply (copy_text mem (nla_data nla) (Z.to_nat (l - 4)) (u ++ [c]) []); [by rewrite app_nil_r | exact Hd].
Qed.

(** [nlmsg_append] adds data behind what is in the message: when there is room
    for the data and its padding, header and body are kept, the data and zeroed
    padding follow, and the length counts both; otherwise the caller is told and the
    message is not changed.  Nothing is written outside the buffer. *)
Theorem append_framed m h body data pad :
  framed m h body -> pad = 0 \/ pad = 4 ->
  let n := Z.of_nat (length data) in
  (16 + Z.of_nat (length body) + padded n pad <= nm_size m ->
   exists m', nlmsg_append m data pad = Ret m' /\ nm_size m' = nm_size m /\
     framed m' h (body ++ data ++ replicate (Z.to_nat (padded n pad - n)) 0)) /\
  (nm_size m < 16 + Z.of_nat (length body) + padded n pad ->
   nlmsg_append m data pad = Err (- NLE_NOMEM) /\ nlmsg_reserve m n pad = Ret (None, m)).
Proof.
  intros Hf Hp n. unfold nlmsg_append. fold n. split; intros Hr.
  2:{ rewrite (reserve_full m h body) by assumption. split; reflexivity. }
  destruct (reserve_room m h body n pad Hf ltac:(lia) Hp Hr) as (m1 & room & rest & -> & Lr & E & Ln & S1).
  pose proof (padded_bounds n pad ltac:(lia) Hp) as Hb. destruct Hf as (Hs & Hh & Hm & _). cbn [mbind ret_bind].
  assert (length room = length data) as Lrd by (rewrite Lr; unfold n; lia). rewrite E. set (z := replicate _ _). set (v := 16 + _ + _).
  replace (le_bytes 4 v ++ h ++ body ++ room ++ z ++ rest) with ((le_bytes 4 v ++ h ++ body) ++ room ++ (z ++ rest))
    by (by rewrite <- !app_assoc).
  rewrite memcpy_app by (rewrite ?length_app, ?length_le_bytes; lia). cbn [mbind ret_bind].
  eexists. split; [reflexivity|]. split; [exact S1|]. unfold framed. cbn [nm_nlh nm_size set_nlh].
  split; [unfold z; rewrite S1, Hs, <- Ln, E, !length_app, !length_le_bytes, !length_replicate; lia|].
  split; [exact Hh|]. split; [lia|]. exists rest.
  rewrite <- !app_assoc. f_equal. f_equal. unfold v, z. rewrite !length_app, length_replicate. lia.
Qed.

(** The header fields behind the length. *)
Definition header (type flags seq pid : Z) : list Z := le_bytes 2 type ++ le_bytes 2 flags ++ le_bytes 4 seq ++ le_bytes 4 pid.

(** The four stores of [nlmsg_put]. *)
Lemma header_stores {A} (len h rest : list Z) type flags seq pid (k : list Z -> ret A) :
  length len = 4%nat -> length h = 12%nat ->
  (b ← wr 2 4 type (len ++ h ++ rest); b ← wr 2 6 flags b; b ← wr 4 12 pid b; b ← wr 4 8 seq b; k b)
  = k (len ++ header type flags seq pid ++ rest).
Proof.
  intros Ll Lh. destruct (split_room h 2 2 4 4) as (a & b & c & d & e & -> & La & Lb & Lc & Ld); [lia|].
  rewrite !length_app in Lh. assert (e = []) as -> by (apply nil_length_inv; lia). rewrite app_nil_r, <- !app_assoc.
  rewrite wr_app by lia. cbn [mbind ret_bind].
  rewrite (app_assoc len), wr_app by (rewrite ?length_app, ?length_le_bytes; lia). cbn [mbind ret_bind].
  rewrite (app_assoc (len ++ le_bytes 2 type)), (app_assoc _ c), wr_app by (rewrite ?length_app, ?length_le_bytes; lia). cbn [mbind ret_bind].
  rewrite <- (app_assoc _ c), wr_app by (rewrite ?length_app, ?length_le_bytes; lia). cbn [mbind ret_bind].
  unfold header. by rewrite <- !app_assoc.
Qed.

Lemma header_reads b len type flags seq pid rest :
  b = len ++ header type flags seq pid ++ rest -> length len = 4%nat ->
  0 <= type < 65536 -> 0 <= flags < 65536 -> 0 <= seq < 4294967296 -> 0 <= pid < 4294967296 ->
  hdr_type b = Ret type /\ hdr_flags b = Ret flags /\ hdr_seq b = Ret seq /\ hdr_pid b = Ret pid.
Proof.
  intros -> Ll Ht Hf Hs Hp. unfold header, hdr_type, hdr_flags, hdr_seq, hdr_pid. rewrite <- !app_assoc.
  split; [|split; [|split]].
  - rewrite rd_app by lia. rewrite Z.mod_small; [reflexivity | exact Ht].
  - rewrite (app_assoc len), rd_app by (rewrite ?length_app, ?length_le_bytes; lia). rewrite Z.mod_small; [reflexivity | exact Hf].
  - rewrite (app_assoc len), (app_assoc (len ++ _)), rd_app by (rewrite ?length_app, ?length_le_bytes; lia).
    rewrite Z.mod_small; [reflexivity | exact Hs].
  - rewrite (app_assoc len), (app_assoc (len ++ _)), (app_assoc ((len ++ _) ++ _)), rd_app
      by (rewrite ?length_app, ?length_le_bytes; lia).
    rewrite Z.mod_small; [reflexivity | exact Hp].
Qed.

Lemma len_reads v rest : 0 <= v < 4294967296 -> hdr_len (le_bytes 4 v ++ rest) = Ret v.
Proof.
  intros Hv. unfold hdr_len. etransitivity; [apply (rd_app 4 [] v rest 0 eq_refl)|].
  rewrite Z.mod_small; [reflexivity | exact Hv].
Qed.

(** The payload of [nlmsg_put], reserved in a message without a body. *)
Lemma put_payload m h payload :
  framed m h [] -> 0 <= payload ->
  exists m' ok rest v, (if 0 <? payload then
      '(r, n) ← nlmsg_reserve m payload NLMSG_ALIGNTO; Ret (match r with None => false | Some _ => true end, n)
    else Ret (true, m)) = Ret (ok, m') /\ nm_size m' = nm_size m /\ nm_nlh m' = le_bytes 4 v ++ h ++ rest /\
    (16 + padded payload 4 <= nm_size m -> ok = true /\ v = 16 + padded payload 4) /\
    (nm_size m < 16 + padded payload 4 -> ok = false /\ v = 16).
Proof.
  intros Hf Hp. pose proof Hf as (Hs & Hh & Hm & r & E). destruct (framed_len m h [] Hf) as [_ H16]. cbn [length] in *.
  destruct (Z.ltb_spec 0 payload).
  - change NLMSG_ALIGNTO with 4. destruct (decide (16 + padded payload 4 <= nm_size m)) as [Hr|Hr].
    + destruct (reserve_room m h [] payload 4 Hf Hp (or_intror eq_refl)) as (m1 & room & rest & -> & _ & E1 & _ & S1); [cbn [length]; lia|].
      cbn [mbind ret_bind]. eexists m1, true, _, _. split; [reflexivity|]. split; [exact S1|]. split; [exact E1|].
      cbn [length]. split; intros; [|lia]. split; [reflexivity | lia].
    + rewrite (reserve_full m h []) by (assumption || (cbn [length]; lia)). cbn [mbind ret_bind].
      exists m, false, r, 16. split; [reflexivity|]. split; [reflexivity|]. split; [exact E|]. split; intros; [lia | auto].
  - replace payload with 0 by lia. change (padded 0 4) with 0.
    exists m, true, r, 16. split; [reflexivity|]. split; [reflexivity|]. split; [exact E|]. split; intros; [|lia].
    split; reflexivity.
Qed.

(** [nlmsg_put] writes a header that reads back: on a new message it stores type,
    flags, sequence number and port as they are given, whatever was in the header,
    and reserves the payload with its padding behind the header; without room for
    the payload it answers NULL. *)
Theorem header_put m h pid seq type payload flags :
  framed m h [] -> 0 <= type < 65536 -> 0 <= flags < 65536 -> 0 <= seq < 4294967296 -> 0 <= pid < 4294967296 ->
  0 <= payload ->
  exists m' ok, nlmsg_put m pid seq type payload flags = Ret (ok, m') /\ nm_size m' = nm_size m /\
    hdr_type (nm_nlh m') = Ret type /\ hdr_flags (nm_nlh m') = Ret flags /\
    hdr_seq (nm_nlh m') = Ret seq /\ hdr_pid (nm_nlh m') = Ret pid /\
    (16 + padded payload 4 <= nm_size m -> ok = true /\ hdr_len (nm_nlh m') = Ret (16 + padded payload 4)) /\
    (nm_size m < 16 + padded payload 4 -> ok = false /\ hdr_len (nm_nlh m') = Ret 16).
Proof.
  intros Hf Ht Hfl Hs Hp Hpay. destruct (framed_len m h [] Hf) as [El H16]. destruct Hf as (Hsz & Hh & Hm & r & E).
  unfold nlmsg_put. rewrite El. cbn [mbind ret_bind length]. change (16 + Z.of_nat 0) with 16 in *.
  change NLMSG_HDRLEN with 16. cbn [Z.ltb Z.compare Pos.compare Pos.compare_cont]. cbn [app] in E. rewrite E, header_stores
    by (reflexivity || exact Hh). cbv zeta. set (m1 := set_nlh _ m).
  assert (framed m1 (header type flags seq pid) []) as Hf1.
  { unfold framed. cbn [nm_nlh nm_size set_nlh m1]. split; [rewrite Hsz, E, !length_app; unfold header; rewrite !length_app, !length_le_bytes; lia|].
    split; [unfold header; rewrite !length_app, !length_le_bytes; reflexivity|]. split; [exact Hm|]. exists r. reflexivity. }
  destruct (put_payload m1 _ payload Hf1 Hpay) as (m' & ok & rest & v & Ep & Sz & E' & Hok & Hno).
  exists m', ok. split; [exact Ep|]. split; [exact Sz|]. cbn [nm_size set_nlh m1] in *.
  destruct (header_reads (nm_nlh m') (le_bytes 4 v) type flags seq pid rest) as (R1 & R2 & R3 & R4);
    [exact E' | apply length_le_bytes | assumption..|].
  split; [exact R1|]. split; [exact R2|]. split; [exact R3|]. split; [exact R4|].
  assert (0 <= padded payload 4) by (pose proof (padded_bounds payload 4); lia).
  split; intros Hr; [destruct (Hok Hr) as [-> ->] | destruct (Hno Hr) as [-> ->]]; split; try reflexivity;
    rewrite E'; apply len_reads; lia.
Qed.

Lemma alloc_some n : 16 <= n -> exists m, nlmsg_alloc_size n true = Ret (Some m) /\ nm_size m = n.
Proof.
  intros Hn. unfold nlmsg_alloc_size, nlmsg_alloc_. rewrite (proj2 (Z.ltb_ge _ _)) by exact Hn. cbn [negb].
  unfold memset0. destruct (splice_is_Some 0 (replicate (Z.to_nat sizeof_nlmsghdr) 0) (replicate (Z.to_nat n) 0)) as [b Eb];
    [rewrite !length_replicate; unfold sizeof_nlmsghdr; lia|].
  pose proof (length_splice _ _ _ _ Eb) as Lb. rewrite length_replicate in Lb. rewrite Eb. cbn [access mbind ret_bind].
  unfold set_hdr_len, wr. destruct (splice_is_Some 0 (le_bytes 4 (nlmsg_total_size 0)) b) as [b2 ->];
    [rewrite length_le_bytes; lia|]. eexists. split; reflexivity.
Qed.

(** [nlmsg_convert] takes over a received message: the copy has the same header and
    the same attributes, and room for nothing else. *)
Theorem convert_copies m h l :
  carries m h l ->
  exists m', nlmsg_convert (nm_nlh m) true = Ret (Some m') /\ carries m' h l /\
    nm_size m' = 16 + Z.of_nat (length (encode_attrs l)).
Proof.
  intros Hc. destruct (carries_len m h l Hc) as [El Hle]. destruct Hc as (Hs & Hh & Hm & rest & E).
  unfold nlmsg_convert. rewrite El. cbn [mbind ret_bind]. rewrite nlmsg_align_encoded.
  set (n := 16 + Z.of_nat (length (encode_attrs l))) in *.
  destruct (alloc_some n ltac:(lia)) as (m1 & Ea & Sz).
  pose proof (alloc_carries n m1 ltac:(lia) Ea) as (L1 & _). unfold nlmsg_alloc_size in Ea. rewrite Ea. cbn [mbind ret_bind].
  set (bs := le_bytes 4 n ++ h ++ encode_attrs l).
  assert (length bs = Z.to_nat n) as Lb by (unfold bs, n; rewrite !length_app, length_le_bytes; lia).
  assert (slice 0 (Z.to_nat n) (nm_nlh m) = Some bs) as ->.
  { rewrite <- Lb. replace (nm_nlh m) with ([] ++ bs ++ rest) by (unfold bs; rewrite E; by rewrite <- !app_assoc).
    apply (slice_app [] bs rest). }
  cbn [access mbind ret_bind].
  pose proof (memcpy_app bs [] (nm_nlh m1) [] 0 eq_refl ltac:(lia)) as W. rewrite !app_nil_r in W. cbn [app] in W. rewrite W.
  cbn [mbind ret_bind]. eexists. split; [reflexivity|]. split; [|exact Sz]. unfold carries. cbn [nm_nlh nm_size set_nlh].
  split; [lia|]. split; [exact Hh|]. split; [lia|]. exists []. rewrite app_nil_r. reflexivity.
Qed.

(** ** Witnesses *)

(** Two attributes: a 32 bit number of type 1 and a string of type 2. *)
Definition two_attrs : list Z := [8; 0; 1; 0; 1; 2; 3; 4; 7; 0; 2; 0; 104; 105; 0; 0].
Definition two_policies : list nla_policy :=
  [{| np_type := NLA_UNSPEC; np_minlen := 0; np_maxlen := 0 |}; {| np_type := NLA_U32; np_minlen := 0; np_maxlen := 0 |};
   {| np_type := NLA_STRING; np_minlen := 0; np_maxlen := 3 |}].

Lemma two_attrs_ok : bytes_ok two_attrs.
Proof. repeat constructor; unfold byte_ok; lia. Qed.

Lemma policy_enforced_witness :
  nla_parse 2 two_attrs 0 16 (Some two_policies) = Ret [None; Some 0%nat; Some 8%nat] /\
  nla_type two_attrs 8 = Ret 2 /\
  exists bs, nla_payload two_attrs 8 = Ret bs /\
    policy_holds two_attrs 8 {| np_type := NLA_STRING; np_minlen := 0; np_maxlen := 3 |} (Z.of_nat (length bs)).
Proof.
  split; [vm_compute; reflexivity|].
  apply (policy_enforced two_attrs 0 16 2 two_policies [None; Some 0%nat; Some 8%nat] 2).
  - exact two_attrs_ok.
  - lia.
  - exists 4. reflexivity.
  - vm_compute. discriminate.
  - vm_compute. reflexivity.
  - lia.
  - reflexivity.
  - reflexivity.
Defined.

Lemma strlcpy_terminated_witness : nla_strlcpy [9; 9; 9; 9; 9] two_attrs 8 = Ret (2, [104; 105; 0; 0; 0]).
Proof.
  apply (strlcpy_terminated two_attrs 8 [9; 9; 9; 9; 9] [104; 105; 0]).
  - exact two_attrs_ok.
  - exists 7. vm_compute. split; [reflexivity | split; discriminate].
  - discriminate.
  - vm_compute. reflexivity.
Defined.

(** An empty message of 64 bytes. *)
Definition empty_message : nl_msg :=
  mkMsg (-1) 0 zero_addr zero_addr zero_creds (le_bytes 4 16 ++ replicate 60 0) 64 1.

Lemma empty_framed : framed empty_message (replicate 12 0) [].
Proof. split; [reflexivity|]. split; [reflexivity|]. split; [reflexivity|]. exists (replicate 48 0). reflexivity. Qed.

Lemma append_framed_witness :
  exists m', nlmsg_append empty_message [1; 2; 3] 4 = Ret m' /\ nm_size m' = 64 /\ framed m' (replicate 12 0) [1; 2; 3; 0].
Proof.
  apply (append_framed empty_message (replicate 12 0) [] [1; 2; 3] 4);
    [exact empty_framed | right; reflexivity | vm_compute; discriminate].
Defined.

Lemma header_put_witness :
  exists m' ok, nlmsg_put empty_message 77 5 16 1 3 = Ret (ok, m') /\ hdr_type (nm_nlh m') = Ret 16 /\
    hdr_pid (nm_nlh m') = Ret 77.
Proof.
  destruct (header_put empty_message (replicate 12 0) 77 5 16 1 3) as (m' & ok & E & _ & R1 & _ & _ & R4 & _);
    [exact empty_framed | lia | lia | lia | lia | lia |].
  exists m', ok. auto.
Defined.

Lemma convert_copies_witness :
  exists m', nlmsg_convert (nm_nlh sample) true = Ret (Some m') /\ carries m' (replicate 12 0) sample_attrs /\ nm_size m' = 24.
Proof. apply (convert_copies sample (replicate 12 0) sample_attrs). exact sample_carries. Defined.
