(* ===== verification/BindingStates.v ===== *)
(** * Binding states of leases

    The states of include/dhcpd.h, shared by the lease database of DHCPv6 and the
    failover protocol. *)

From S2P Require Import Prelude.

Definition FTS_FREE : Z := 1.
Definition FTS_ACTIVE : Z := 2.
Definition FTS_EXPIRED : Z := 3.
Definition FTS_RELEASED : Z := 4.
Definition FTS_ABANDONED : Z := 5.
Definition FTS_RESET : Z := 6.
Definition FTS_BACKUP : Z := 7.

(** The states a lease can be in. *)
Definition fts_valid (s : Z) : Prop := FTS_FREE <= s <= FTS_BACKUP.

#[export] Instance fts_valid_dec s : Decision (fts_valid s).
Proof. unfold fts_valid. apply _. Defined.

(** Case analysis over the states. *)
Lemma fts_cases s : fts_valid s ->
  s = FTS_FREE \/ s = FTS_ACTIVE \/ s = FTS_EXPIRED \/ s = FTS_RELEASED \/ s = FTS_ABANDONED \/ s = FTS_RESET \/ s = FTS_BACKUP.
Proof. unfold fts_valid, FTS_FREE, FTS_ACTIVE, FTS_EXPIRED, FTS_RELEASED, FTS_ABANDONED, FTS_RESET, FTS_BACKUP. lia. Qed.

Ltac fts_split H := destruct (fts_cases _ H) as [->|[->|[->|[->|[->|[->| ->]]]]]].
