(* ===== verification/V6Addr.v ===== *)
(** * IPv6 addresses and prefixes of the DHCPv6 server

    The functions of server/mdb6.c that make addresses out of hashes and cut
    addresses to their network part: [build_address6], [build_temporary6],
    [build_prefix6], [ipv6_network_portion] and the test of [ipv6_in_pool].

    An address is a list of 16 bytes.  MD5 and the random generator are arguments.  A
    result [None] is an access outside the address, or the process ended by
    [log_fatal]. *)

From S2P Require Import Prelude.

(** [struct in6_addr]. *)
Abbreviation in6_addr := (list Z).

(** [x[i] = f(x[i])] on an array of bytes. *)
Definition upd (i : nat) (f : Z -> Z) (a : list Z) : option (list Z) :=
  b ← a !! i; Some (<[i := f b]> a).

(** [for (i = 0; i < n; i++) str[i] = net_str[i];] *)
Fixpoint copy_bytes (n i : nat) (net str : list Z) : option (list Z) :=
  match n with
  | O => Some str
  | S n => b ← net !! i; str ← upd i (fun _ => b) str; copy_bytes n (S i) net str
  end.

(** The [switch] on the number of bits taken from the network's byte. *)
Definition merge_byte (k : Z) (s n : Z) : Z :=
  if k =? 1 then Z.lor (Z.land s 127) (Z.land n 128)
  else if k =? 2 then Z.lor (Z.land s 63) (Z.land n 192)
  else if k =? 3 then Z.lor (Z.land s 31) (Z.land n 224)
  else if k =? 4 then Z.lor (Z.land s 15) (Z.land n 240)
  else if k =? 5 then Z.lor (Z.land s 7) (Z.land n 248)
  else if k =? 6 then Z.lor (Z.land s 3) (Z.land n 252)
  else Z.lor (Z.land s 1) (Z.land n 254).

(** Copy the first [net_bits] bits of [net] over [str]. *)
Definition copy_net_bits (net_bits : Z) (net str : list Z) : option (list Z) :=
  let net_bytes := Z.to_nat (net_bits / 8) in
  str ← copy_bytes net_bytes 0 net str;
  if net_bits mod 8 =? 0 then Some str
  else n ← net !! net_bytes; upd net_bytes (fun s => merge_byte (net_bits mod 8) s n) str.

(** [x &= ~0x02] *)
Definition clear_u_bit (b : Z) : Z := Z.land b 253.

(** [D6O_IA_NA], [D6O_IA_TA], [D6O_IA_PD]. *)
Definition D6O_IA_NA : Z := 3.
Definition D6O_IA_TA : Z := 4.
Definition D6O_IA_PD : Z := 25.

(** The static variables of [build_temporary6]. *)
Record temporary := { history : list Z; counter : Z }.

Section Build.

(** [isc_md5_init], [isc_md5_update] and [isc_md5_final] on a string of bytes. *)
Context (md5 : list Z -> list Z).

Definition build_address6 (net_start_addr : in6_addr) (net_bits : Z) (input : list Z) : option in6_addr :=
  str ← copy_net_bits net_bits net_start_addr (md5 input);
  if net_bits =? 64 then upd 8 clear_u_bit str else Some str.

(** [addr]: what is in the address before; [random]: what two calls of
    [isc_random_get] give. *)
Definition build_temporary6 (addr net_start_addr : in6_addr) (net_bits : Z) (input random : list Z) (t : temporary) :
    option (in6_addr * temporary) :=
  let history := if counter t =? 0 then random else history t in
  let md := md5 (history ++ input) in
  addr ← (if net_bits =? 64 then
            net ← slice 0 8 net_start_addr; addr ← splice 0 net addr;
            host ← slice 0 8 md; addr ← splice 8 host addr;
            upd 8 clear_u_bit addr
          else
            let net_bytes := Z.to_nat (net_bits / 8) in
            str ← copy_bytes net_bytes 0 net_start_addr addr;
            host ← slice 0 (16 - net_bytes) md;
            str ← splice net_bytes host str;
            if net_bits mod 8 =? 0 then Some str
            else n ← net_start_addr !! net_bytes; upd net_bytes (fun s => merge_byte (net_bits mod 8) s n) str);
  h ← slice 8 8 md;
  Some (addr, Build_temporary h (u32 (counter t + 1))).

(** The [switch] that clears the bits behind a prefix. *)
Definition prefix_mask (k : Z) : Z :=
  if k =? 0 then 0 else if k =? 1 then 128 else if k =? 2 then 192 else if k =? 3 then 224
  else if k =? 4 then 240 else if k =? 5 then 248 else if k =? 6 then 252 else 254.

(** [for (i = i; i < 16; i++) str[i] = 0;] *)
Fixpoint zero_bytes (n i : nat) (str : list Z) : option (list Z) :=
  match n with
  | O => Some str
  | S n => str ← upd i (fun _ => 0) str; zero_bytes n (S i) str
  end.

Definition build_prefix6 (net_start_pref : in6_addr) (pool_bits pref_bits : Z) (input : list Z) : option in6_addr :=
  str ← copy_net_bits pool_bits net_start_pref (md5 input);
  let net_bytes := Z.to_nat (pref_bits / 8) in
  str ← zero_bytes (16 - (net_bytes + 1)) (net_bytes + 1) str;
  upd net_bytes (fun s => Z.land s (prefix_mask (pref_bits mod 8))) str.

End Build.

(** ** The network part *)

Definition bitmasks : list Z := [0; 254; 252; 248; 240; 224; 192; 128].

(** [for (i = 0; i < bytes; i++) { *addrp = 0; addrp--; }]; [addrp] is the offset
    reached. *)
Fixpoint clear_down (bytes : nat) (addrp : nat) (a : list Z) : option (list Z * nat) :=
  match bytes with
  | O => Some (a, addrp)
  | S bytes => a ← upd addrp (fun _ => 0) a; clear_down bytes (addrp - 1) a
  end.

Definition ipv6_network_portion (addr : in6_addr) (bits : Z) : option in6_addr :=
  if (bits <? 0) || (128 <? bits) then None
  else
    let mask_bits := 128 - bits in
    let bytes := Z.to_nat (mask_bits / 8) in
    let extra_bits := mask_bits mod 8 in
    '(r, addrp) ← clear_down bytes 15 addr;
    if negb (extra_bits =? 0) then m ← bitmasks !! Z.to_nat extra_bits; upd addrp (fun b => Z.land b m) r else Some r.

(** [ipv6_in_pool], with the members of the pool it looks at. *)
Definition in_network (addr start : in6_addr) (bits : Z) : option bool :=
  tmp ← ipv6_network_portion addr bits; Some (bool_decide (tmp = start)).

(** ** Bits of an address *)

(** Bit [i], counted from the first (most significant) bit of the first byte. *)
Definition abit (a : list Z) (i : nat) : bool :=
  match a !! (i / 8)%nat with Some b => Z.testbit b (Z.of_nat (7 - i mod 8)) | None => false end.

Definition addr_ok (a : list Z) : Prop := length a = 16%nat /\ bytes_ok a.

Lemma byte_ext a b : byte_ok a -> byte_ok b -> (forall j, (j < 8)%nat -> Z.testbit a (Z.of_nat j) = Z.testbit b (Z.of_nat j)) -> a = b.
Proof.
  intros Ha Hb E. apply Z.bits_inj'. intros n Hn. destruct (Z.lt_ge_cases n 8) as [H|H].
  - rewrite <- (Z2Nat.id n) by lia. apply E. lia.
  - unfold byte_ok in *. destruct (decide (a = 0)) as [->|]; destruct (decide (b = 0)) as [->|]; rewrite ?Z.bits_0; auto;
      rewrite ?Z.bits_above_log2; auto; try lia;
      match goal with |- Z.log2 ?x < _ => pose proof (Z.log2_lt_pow2 x 8); lia end.
Qed.

Lemma addr_ext a b : addr_ok a -> addr_ok b -> (forall i, (i < 128)%nat -> abit a i = abit b i) -> a = b.
Proof.
  intros [La Ha] [Lb Hb] E. apply list_eq_same_length with 16%nat; [assumption..|]. intros i x y Hi Hx Hy.
  apply byte_ext; [eapply Forall_lookup_1 in Ha; eauto | eapply Forall_lookup_1 in Hb; eauto|].
  intros j Hj. specialize (E (8 * i + (7 - j))%nat ltac:(lia)). unfold abit in E.
  replace ((8 * i + (7 - j)) / 8)%nat with i in E by (rewrite Nat.mul_comm, Nat.div_add_l, Nat.div_small by lia; lia).
  replace (7 - (8 * i + (7 - j)) mod 8)%nat with j in E
    by (rewrite Nat.add_comm, Nat.mul_comm, Nat.Div0.mod_add, Nat.mod_small by lia; lia).
  by rewrite Hx, Hy in E.
Qed.

Lemma upd_ok i f a : (i < length a)%nat -> bytes_ok a -> (forall b, byte_ok b -> byte_ok (f b)) ->
  exists a', upd i f a = Some a' /\ length a' = length a /\ bytes_ok a' /\ a' = alter f i a.
Proof.
  intros Hi Ha Hf. destruct (lookup_lt_is_Some_2 a i Hi) as [b E]. unfold upd. rewrite E. eexists. split; [reflexivity|].
  split; [apply length_insert|]. assert (<[i:=f b]> a = alter f i a) as ->.
  { apply list_eq. intros j. destruct (decide (j = i)) as [->|Hne].
    - rewrite list_lookup_insert_eq by assumption. by rewrite list_lookup_alter_eq, E.
    - by rewrite list_lookup_insert_ne, list_lookup_alter_ne. }
  split; [|reflexivity]. apply Forall_lookup_2. intros j x. destruct (decide (j = i)) as [->|Hne].
  - rewrite list_lookup_alter_eq, E. intros Q. injection Q as <-. apply Hf. by eapply Forall_lookup_1 in Ha.
  - rewrite list_lookup_alter_ne by congruence. by apply Forall_lookup_1.
Qed.

Lemma abit_alter f i a k :
  (i < length a)%nat -> abit (alter f i a) k =
  if (k / 8 =? i)%nat then Z.testbit (f (a !!! i)) (Z.of_nat (7 - k mod 8)) else abit a k.
Proof.
  intros Hi. unfold abit. destruct (lookup_lt_is_Some_2 a i Hi) as [b E]. destruct (Nat.eqb_spec (k / 8) i) as [->|Hne].
  - rewrite list_lookup_alter_eq, E. cbn. by rewrite (list_lookup_total_correct _ _ _ E).
  - by rewrite list_lookup_alter_ne.
Qed.

(** Masks of the high bits of a byte. *)
Ltac bits_of_masks :=
  rewrite ?Z.lor_spec, ?Z.land_spec;
  repeat match goal with |- context [Z.testbit (Zpos ?p) (Z.of_nat ?n)] =>
    let v := eval vm_compute in (Z.testbit (Zpos p) (Z.of_nat n)) in change (Z.testbit (Zpos p) (Z.of_nat n)) with v end;
  rewrite ?andb_true_r, ?andb_false_r, ?orb_false_r, ?orb_false_l.

Lemma merge_byte_bit k s n j :
  0 < k < 8 -> (j < 8)%nat ->
  Z.testbit (merge_byte k s n) (Z.of_nat (7 - j)) =
  if (Z.of_nat j <? k) then Z.testbit n (Z.of_nat (7 - j)) else Z.testbit s (Z.of_nat (7 - j)).
Proof.
  intros Hk Hj. assert (k = 1 \/ k = 2 \/ k = 3 \/ k = 4 \/ k = 5 \/ k = 6 \/ k = 7) as C by lia.
  destruct C as [->|[->|[->|[->|[->|[->| ->]]]]]]; do 8 (destruct j as [|j]; [cbn [merge_byte Z.eqb Pos.eqb]; unfold merge_byte;
    cbn [Z.eqb Pos.eqb]; bits_of_masks; reflexivity|]); lia.
Qed.

Lemma land_byte b m : byte_ok b -> 0 <= m -> byte_ok (Z.land b m).
Proof.
  unfold byte_ok. intros Hb Hm. assert (0 <= Z.land b m) by (apply Z.land_nonneg; lia). split; [assumption|].
  destruct (Z.eq_dec (Z.land b m) 0) as [->|]; [lia|]. apply Z.log2_lt_pow2 with (b := 8); [lia|].
  pose proof (Z.log2_land b m ltac:(lia) Hm). destruct (Z.eq_dec b 0) as [->|]; [rewrite Z.land_0_l in *; lia|].
  assert (Z.log2 b < 8) by (apply Z.log2_lt_pow2; lia). lia.
Qed.

Lemma lor_byte a b : byte_ok a -> byte_ok b -> byte_ok (Z.lor a b).
Proof.
  unfold byte_ok. intros Ha Hb. assert (0 <= Z.lor a b) by (apply Z.lor_nonneg; lia). split; [assumption|].
  destruct (Z.eq_dec (Z.lor a b) 0) as [->|]; [lia|]. apply Z.log2_lt_pow2 with (b := 8); [lia|].
  rewrite Z.log2_lor by lia. apply Z.max_lub_lt;
    match goal with |- Z.log2 ?x < _ => destruct (Z.eq_dec x 0) as [->|]; [cbn; lia | apply Z.log2_lt_pow2; lia] end.
Qed.

Lemma merge_byte_ok k s n : byte_ok s -> byte_ok n -> byte_ok (merge_byte k s n).
Proof. intros Hs Hn. unfold merge_byte. repeat case_match; apply lor_byte; apply land_byte; auto; lia. Qed.

Lemma copy_bytes_spec n i net str :
  (i + n <= length net)%nat -> (i + n <= length str)%nat ->
  exists r, copy_bytes n i net str = Some r /\ length r = length str /\
    forall k, r !! k = if ((i <=? k) && (k <? i + n))%nat then net !! k else str !! k.
Proof.
  revert i str. induction n as [|n IH]; intros i str Hn Hs.
  - exists str. split; [reflexivity|]. split; [reflexivity|]. intros k.
    destruct (Nat.leb_spec i k), (Nat.ltb_spec k (i + 0)); cbn; try reflexivity. lia.
  - cbn [copy_bytes]. destruct (lookup_lt_is_Some_2 net i ltac:(lia)) as [b Eb]. rewrite Eb. cbn [mbind option_bind].
    unfold upd. destruct (lookup_lt_is_Some_2 str i ltac:(lia)) as [c ->]. cbn [mbind option_bind].
    destruct (IH (S i) (<[i:=b]> str)) as (r & E & L & R); [lia | rewrite length_insert; lia|].
    exists r. split; [exact E|]. split; [by rewrite L, length_insert|]. intros k. rewrite R.
    destruct (Nat.leb_spec (S i) k), (Nat.ltb_spec k (S i + n)), (Nat.leb_spec i k), (Nat.ltb_spec k (i + S n)); cbn; try reflexivity; try lia.
    + rewrite list_lookup_insert_ne by lia. reflexivity.
    + replace k with i by lia. rewrite list_lookup_insert_eq by lia. symmetry. exact Eb.
    + rewrite list_lookup_insert_ne by lia. reflexivity.
Qed.

(** Positions of bits: facts on the quotients and remainders by eight. *)
Ltac div8 i bits :=
  pose proof (Nat.div_mod_eq i 8); pose proof (Nat.mod_upper_bound i 8 ltac:(lia));
  pose proof (Z.div_mod bits 8 ltac:(lia)); pose proof (Z.mod_pos_bound bits 8 ltac:(lia)).

Lemma copy_net_bits_spec bits net str :
  addr_ok net -> addr_ok str -> 0 <= bits <= 128 ->
  exists r, copy_net_bits bits net str = Some r /\ addr_ok r /\
    forall i, (i < 128)%nat -> abit r i = if Z.of_nat i <? bits then abit net i else abit str i.
Proof.
  intros [Ln Bn] [Ls Bs] Hb. unfold copy_net_bits. set (m := Z.to_nat (bits / 8)).
  assert (m <= 16)%nat as Hm by (unfold m; Z.to_euclidean_division_equations; lia).
  destruct (copy_bytes_spec m 0 net str) as (r & -> & L & R); [lia | lia|]. cbn [mbind option_bind].
  assert (bytes_ok r) as Br.
  { apply Forall_lookup_2. intros k x. rewrite R. case_match; intros E; [by eapply Forall_lookup_1 in Bn | by eapply Forall_lookup_1 in Bs]. }
  assert (forall i, (i < 128)%nat -> abit r i = if (i / 8 <? m)%nat then abit net i else abit str i) as A.
  { intros i Hi. unfold abit. rewrite R. rewrite (proj2 (Nat.leb_le 0 _)) by lia. cbn [andb Nat.add]. by destruct (i / 8 <? m)%nat. }
  destruct (Z.eqb_spec (bits mod 8) 0) as [Hz|Hz].
  - exists r. split; [reflexivity|]. split; [split; [lia | exact Br]|]. intros i Hi. rewrite A by exact Hi.
    destruct (Nat.ltb_spec (i / 8) m), (Z.ltb_spec (Z.of_nat i) bits); try reflexivity; exfalso; unfold m in *; div8 i bits; lia.
  - assert (m < 16)%nat as Hm' by (unfold m; Z.to_euclidean_division_equations; lia).
    destruct (lookup_lt_is_Some_2 net m ltac:(lia)) as [n En]. rewrite En. cbn [mbind option_bind].
    assert (byte_ok n) as Hn by (by eapply Forall_lookup_1 in Bn).
    destruct (upd_ok m (fun s => merge_byte (bits mod 8) s n) r) as (r' & -> & L' & B' & ->);
      [lia | exact Br | intros; by apply merge_byte_ok|].
    eexists. split; [reflexivity|]. split; [split; [lia | exact B']|]. intros i Hi. rewrite abit_alter by lia.
    pose proof (Nat.mod_upper_bound i 8 ltac:(lia)) as Hmod.
    destruct (Nat.eqb_spec (i / 8) m) as [Ei|Ei].
    + rewrite merge_byte_bit by (assumption || (pose proof (Z.mod_pos_bound bits 8); lia)).
      assert (r !! m = str !! m) as Em by (rewrite R, (proj2 (Nat.ltb_ge m (0 + m))) by lia; by rewrite andb_false_r).
      destruct (Z.ltb_spec (Z.of_nat (i mod 8)) (bits mod 8)), (Z.ltb_spec (Z.of_nat i) bits);
        try (exfalso; unfold m in *; div8 i bits; lia).
      * unfold abit. by rewrite Ei, En.
      * unfold abit. rewrite Ei. destruct (lookup_lt_is_Some_2 str m ltac:(lia)) as [c Ec]. rewrite Ec in Em |- *.
        by rewrite (list_lookup_total_correct _ _ _ Em).
    + rewrite A by exact Hi. destruct (Nat.ltb_spec (i / 8) m), (Z.ltb_spec (Z.of_nat i) bits); try reflexivity; exfalso; unfold m in *; div8 i bits; lia.
Qed.

(** Arrays described by their elements. *)
Lemma clear_down_spec n p a :
  (n <= p + 1)%nat -> (p < length a)%nat ->
  exists r, clear_down n p a = Some (r, (p - n)%nat) /\ length r = length a /\
    forall k, r !! k = if ((p + 1 - n <=? k) && (k <=? p))%nat then Some 0 else a !! k.
Proof.
  revert p a. induction n as [|n IH]; intros p a Hn Hp.
  - exists a. cbn [clear_down]. rewrite Nat.sub_0_r. split; [reflexivity|]. split; [reflexivity|]. intros k.
    destruct (Nat.leb_spec (p + 1 - 0) k), (Nat.leb_spec k p); cbn; try reflexivity. lia.
  - cbn [clear_down]. unfold upd. destruct (lookup_lt_is_Some_2 a p Hp) as [b ->]. cbn [mbind option_bind].
    destruct (decide (p = 0%nat)) as [->|Hp0].
    + assert (n = 0%nat) as -> by lia. cbn [clear_down]. eexists. split; [reflexivity|]. split; [apply length_insert|].
      intros [|k]; cbn [Nat.leb Nat.add Nat.sub andb]; [by rewrite list_lookup_insert_eq by lia | by rewrite list_lookup_insert_ne].
    + destruct (IH (p - 1)%nat (<[p:=0]> a)) as (r & -> & L & R); [lia | rewrite length_insert; lia|].
      exists r. split; [do 2 f_equal; lia|]. split; [by rewrite L, length_insert|]. intros k. rewrite R.
      destruct (Nat.leb_spec (p - 1 + 1 - n) k), (Nat.leb_spec k (p - 1)), (Nat.leb_spec (p + 1 - S n) k), (Nat.leb_spec k p); cbn;
        try reflexivity; try lia; try (rewrite list_lookup_insert_ne by lia; reflexivity).
      replace k with p by lia. by rewrite list_lookup_insert_eq by lia.
Qed.

Lemma zero_bytes_spec n i a :
  (i + n <= length a)%nat ->
  exists r, zero_bytes n i a = Some r /\ length r = length a /\
    forall k, r !! k = if ((i <=? k) && (k <? i + n))%nat then Some 0 else a !! k.
Proof.
  revert i a. induction n as [|n IH]; intros i a Hn.
  - exists a. split; [reflexivity|]. split; [reflexivity|]. intros k.
    destruct (Nat.leb_spec i k), (Nat.ltb_spec k (i + 0)); cbn; try reflexivity. lia.
  - cbn [zero_bytes]. unfold upd. destruct (lookup_lt_is_Some_2 a i ltac:(lia)) as [b ->]. cbn [mbind option_bind].
    destruct (IH (S i) (<[i:=0]> a)) as (r & -> & L & R); [rewrite length_insert; lia|].
    exists r. split; [reflexivity|]. split; [by rewrite L, length_insert|]. intros k. rewrite R.
    destruct (Nat.leb_spec (S i) k), (Nat.ltb_spec k (S i + n)), (Nat.leb_spec i k), (Nat.ltb_spec k (i + S n)); cbn;
      try reflexivity; try lia; try (rewrite list_lookup_insert_ne by lia; reflexivity).
    replace k with i by lia. by rewrite list_lookup_insert_eq by lia.
Qed.

(** A mask that keeps the first [k] bits of a byte. *)
Definition keeps (m : Z) (k : Z) : Prop :=
  0 <= m /\ forall b j, (j < 8)%nat ->
    Z.testbit (Z.land b m) (Z.of_nat (7 - j)) = (Z.of_nat j <? k) && Z.testbit b (Z.of_nat (7 - j)).

Ltac mask_bits := split; [lia|]; intros b j Hj; do 8 (destruct j as [|j]; [bits_of_masks; reflexivity|]); lia.

Lemma prefix_mask_keeps k : 0 <= k < 8 -> keeps (prefix_mask k) k.
Proof.
  intros Hk. assert (k = 0 \/ k = 1 \/ k = 2 \/ k = 3 \/ k = 4 \/ k = 5 \/ k = 6 \/ k = 7) as C by lia.
  destruct C as [->|[->|[->|[->|[->|[->|[->| ->]]]]]]]; unfold prefix_mask; cbn [Z.eqb Pos.eqb]; [|mask_bits..].
  split; [lia|]. intros b j Hj. rewrite Z.land_0_r, Z.testbit_0_l. destruct (Z.ltb_spec (Z.of_nat j) 0); [lia | reflexivity].
Qed.

Lemma bitmasks_keep e : 0 < e < 8 -> exists m, bitmasks !! Z.to_nat e = Some m /\ keeps m (8 - e).
Proof.
  intros He. assert (e = 1 \/ e = 2 \/ e = 3 \/ e = 4 \/ e = 5 \/ e = 6 \/ e = 7) as C by lia.
  destruct C as [->|[->|[->|[->|[->|[->| ->]]]]]]; eexists; (split; [reflexivity|]); mask_bits.
Qed.

(** Clearing the bytes behind [m] and masking byte [m]. *)
Lemma keep_bits m k msk a a' :
  addr_ok a -> length a' = 16%nat -> (m < 16)%nat -> keeps msk k ->
  (forall i, a' !! i = if (m <? i)%nat then (if (i <? 16)%nat then Some 0 else None) else a !! i) ->
  0 <= k <= 8 ->
  exists r, upd m (fun b => Z.land b msk) a' = Some r /\ addr_ok r /\
    forall i, (i < 128)%nat -> abit r i = (Z.of_nat i <? 8 * Z.of_nat m + k) && abit a i.
Proof.
  intros [La Ba] L' Hm [Hk0 Hk] R Hk8.
  assert (bytes_ok a') as B'.
  { apply Forall_lookup_2. intros i x. rewrite R. repeat case_match; intros E; simplify_eq; [unfold byte_ok; lia | by eapply Forall_lookup_1 in Ba]. }
  destruct (upd_ok m (fun b => Z.land b msk) a') as (r & -> & Lr & Br & ->); [lia | exact B' | intros; by apply land_byte|].
  eexists. split; [reflexivity|]. split; [split; [lia | exact Br]|]. intros i Hi. rewrite abit_alter by lia.
  pose proof (Nat.div_mod_eq i 8). pose proof (Nat.mod_upper_bound i 8 ltac:(lia)).
  assert (a' !! m = a !! m) as Em by (rewrite R, (proj2 (Nat.ltb_ge _ _)) by lia; reflexivity).
  destruct (lookup_lt_is_Some_2 a m ltac:(lia)) as [c Ec]. rewrite Ec in Em.
  destruct (Nat.eqb_spec (i / 8) m) as [Ei|Ei].
  - rewrite (list_lookup_total_correct _ _ _ Em), Hk by assumption. unfold abit. rewrite Ei, Ec. f_equal.
    destruct (Z.ltb_spec (Z.of_nat (i mod 8)) k), (Z.ltb_spec (Z.of_nat i) (8 * Z.of_nat m + k)); try reflexivity; lia.
  - unfold abit. rewrite R. destruct (Nat.ltb_spec m (i / 8)).
    + rewrite (proj2 (Nat.ltb_lt _ 16)) by lia. rewrite Z.testbit_0_l, (proj2 (Z.ltb_ge _ _)) by lia. reflexivity.
    + rewrite (proj2 (Z.ltb_lt _ _)) by lia. reflexivity.
Qed.

Lemma network_portion_bits a bits :
  addr_ok a -> 0 <= bits <= 128 ->
  exists r, ipv6_network_portion a bits = Some r /\ addr_ok r /\
    forall i, (i < 128)%nat -> abit r i = (Z.of_nat i <? bits) && abit a i.
Proof.
  intros Ha Hb. pose proof Ha as [La Ba]. unfold ipv6_network_portion.
  rewrite (proj2 (Z.ltb_ge bits 0)), (proj2 (Z.ltb_ge 128 bits)) by lia. cbn [orb].
  pose proof (Z.div_mod (128 - bits) 8 ltac:(lia)) as D. pose proof (Z.mod_pos_bound (128 - bits) 8 ltac:(lia)) as M.
  set (n := Z.to_nat ((128 - bits) / 8)). assert (n <= 16)%nat as Hn by (unfold n; lia).
  destruct (clear_down_spec n 15 a) as (r & -> & L & R); [lia | lia|]. cbn [mbind option_bind].
  destruct (Z.eqb_spec ((128 - bits) mod 8) 0) as [Hz|Hz]; cbn [negb].
  - exists r. split; [reflexivity|].
    assert (bytes_ok r) as Br.
    { apply Forall_lookup_2. intros i x. rewrite R. case_match; intros E; simplify_eq; [unfold byte_ok; lia | by eapply Forall_lookup_1 in Ba]. }
    split; [split; [lia | exact Br]|]. intros i Hi. unfold abit. rewrite R.
    pose proof (Nat.div_mod_eq i 8). pose proof (Nat.mod_upper_bound i 8 ltac:(lia)).
    destruct (Nat.leb_spec (15 + 1 - n) (i / 8)), (Nat.leb_spec (i / 8) 15), (Z.ltb_spec (Z.of_nat i) bits); cbn [andb];
      rewrite ?Z.testbit_0_l; try reflexivity; exfalso; unfold n in *; lia.
  - destruct (bitmasks_keep ((128 - bits) mod 8)) as (msk & -> & Hk); [lia|]. cbn [mbind option_bind].
    assert (n < 16)%nat by (unfold n; lia).
    destruct (keep_bits (15 - n) (8 - (128 - bits) mod 8) msk a r Ha ltac:(lia) ltac:(lia) Hk) as (r' & -> & A1 & A2); [|lia|].
    { intros i. rewrite R. destruct (Nat.leb_spec (15 + 1 - n) i), (Nat.leb_spec i 15), (Nat.ltb_spec (15 - n) i), (Nat.ltb_spec i 16);
        cbn; try reflexivity; try lia. rewrite lookup_ge_None_2 by lia. reflexivity. }
    eexists. split; [reflexivity|]. split; [exact A1|]. intros i Hi. rewrite A2 by exact Hi. do 2 f_equal. unfold n in *. lia.
Qed.

(** ** Addresses as numbers *)

(** The address as a 128 bit number, first byte first. *)
Definition be_val (a : list Z) : Z := le_val (rev a).

Lemma le_val_testbit l n :
  bytes_ok l -> Z.testbit (le_val l) (Z.of_nat n) =
  match l !! (n / 8)%nat with Some b => Z.testbit b (Z.of_nat (n mod 8)) | None => false end.
Proof.
  intros Hl. revert n. induction Hl as [|b l Hb Hl IH]; intros n; cbn [le_val].
  { apply Z.testbit_0_l. }
  assert (b + 256 * le_val l = Z.lor b (Z.shiftl (le_val l) 8)) as ->.
  { rewrite Z.shiftl_mul_pow2 by lia. change (2 ^ 8) with 256. pose proof (Z.add_lor_land b (le_val l * 256)) as E.
    assert (Z.land b (le_val l * 256) = 0) as E0; [|lia]. clear E.
    apply Z.bits_inj'. intros k Hk. rewrite Z.land_spec, Z.testbit_0_l. change 256 with (2 ^ 8).
    destruct (Z.lt_ge_cases k 8); [rewrite Z.mul_pow2_bits_low by lia; apply andb_false_r|].
    unfold byte_ok in Hb. destruct (Z.eq_dec b 0) as [->|]; [by rewrite Z.testbit_0_l|].
    rewrite Z.bits_above_log2; [reflexivity | lia | pose proof (Z.log2_lt_pow2 b 8); lia]. }
  rewrite Z.lor_spec, Z.shiftl_spec by lia. destruct (Nat.lt_ge_cases n 8) as [Hn|Hn].
  - rewrite Nat.div_small, Nat.mod_small by exact Hn. cbn. rewrite (Z.testbit_neg_r _ (Z.of_nat n - 8)) by lia. by rewrite orb_false_r.
  - replace (Z.of_nat n - 8) with (Z.of_nat (n - 8)) by lia. rewrite IH.
    assert (n = (n - 8) + 1 * 8)%nat as En by lia.
    replace (n / 8)%nat with (S ((n - 8) / 8)) by (rewrite En at 2; rewrite Nat.div_add by lia; lia).
    replace (n mod 8)%nat with ((n - 8) mod 8)%nat by (rewrite En at 2; by rewrite Nat.Div0.mod_add).
    cbn. unfold byte_ok in Hb. destruct (Z.eq_dec b 0) as [->|]; [by rewrite Z.testbit_0_l|].
    rewrite (Z.bits_above_log2 b); [reflexivity | lia | pose proof (Z.log2_lt_pow2 b 8); lia].
Qed.

Lemma be_val_testbit a i : addr_ok a -> (i < 128)%nat -> Z.testbit (be_val a) (Z.of_nat (127 - i)) = abit a i.
Proof.
  intros [La Ba] Hi. unfold be_val. rewrite le_val_testbit by (by apply Forall_rev). unfold abit.
  pose proof (Nat.div_mod_eq i 8). pose proof (Nat.mod_upper_bound i 8 ltac:(lia)).
  assert ((127 - i) / 8 = 15 - i / 8 /\ (127 - i) mod 8 = 7 - i mod 8)%nat as [-> ->].
  { apply Nat.div_mod_unique with (b := 8%nat); [|lia|]. { apply Nat.mod_upper_bound. lia. }
    rewrite <- Nat.div_mod_eq. lia. }
  rewrite rev_alt. fold (reverse a). rewrite reverse_lookup by lia. by replace (length a - S (15 - i / 8))%nat with (i / 8)%nat by lia.
Qed.

Lemma be_val_range a : addr_ok a -> 0 <= be_val a < 2 ^ 128.
Proof.
  intros [La Ba]. unfold be_val. pose proof (le_val_range (rev a) ltac:(by apply Forall_rev)) as H.
  rewrite length_rev, La in H. exact H.
Qed.

Lemma be_val_inj a b : addr_ok a -> addr_ok b -> be_val a = be_val b -> a = b.
Proof.
  intros Ha Hb E. apply addr_ext; [assumption..|]. intros i Hi. by rewrite <- !be_val_testbit, E.
Qed.

(** Two addresses agree on their first [bits] bits. *)
Definition same_network (bits : Z) (a b : in6_addr) : Prop :=
  forall i, (i < 128)%nat -> Z.of_nat i < bits -> abit a i = abit b i.

Lemma network_portion_val a bits r :
  addr_ok a -> 0 <= bits <= 128 -> ipv6_network_portion a bits = Some r ->
  be_val r = be_val a / 2 ^ (128 - bits) * 2 ^ (128 - bits).
Proof.
  intros Ha Hb E. destruct (network_portion_bits a bits Ha Hb) as (r' & E' & Hr & B). rewrite E in E'. injection E' as <-.
  rewrite <- Z.shiftr_div_pow2, <- Z.shiftl_mul_pow2, <- Z.ldiff_ones_r by lia. apply Z.bits_inj'. intros n Hn.
  destruct (Z.lt_ge_cases n 128) as [Hl|Hl].
  - set (i := Z.to_nat (127 - n)). replace n with (Z.of_nat (127 - i)) by (unfold i; lia).
    rewrite Z.ldiff_spec, !be_val_testbit, B by (assumption || (unfold i; lia)).
    destruct (Z.ltb_spec (Z.of_nat i) bits); [rewrite Z.ones_spec_high by (unfold i in *; lia) | rewrite Z.ones_spec_low by (unfold i in *; lia)];
      cbn; by rewrite ?andb_true_r, ?andb_false_r.
  - rewrite Z.ldiff_spec. assert (forall x, addr_ok x -> Z.testbit (be_val x) n = false) as T.
    { intros x Hx. pose proof (be_val_range x Hx) as Rx. destruct (Z.eq_dec (be_val x) 0) as [->|]; [apply Z.testbit_0_l|].
      apply Z.bits_above_log2; [lia|]. pose proof (Z.log2_lt_pow2 (be_val x) 128); lia. }
    by rewrite !T.
Qed.

Lemma same_network_in a start bits :
  addr_ok a -> addr_ok start -> 0 <= bits <= 128 -> ipv6_network_portion start bits = Some start ->
  same_network bits a start -> in_network a start bits = Some true.
Proof.
  intros Ha Hs Hb Es Hsame. unfold in_network. destruct (network_portion_bits a bits Ha Hb) as (r & -> & Hr & B).
  cbn [mbind option_bind]. rewrite bool_decide_eq_true_2; [reflexivity|].
  destruct (network_portion_bits start bits Hs Hb) as (s' & E' & _ & B'). rewrite Es in E'. injection E' as <-.
  apply addr_ext; [assumption..|]. intros i Hi. rewrite B, B' by exact Hi.
  destruct (Z.ltb_spec (Z.of_nat i) bits); [|reflexivity]. cbn. by apply Hsame.
Qed.

Section Built.
Context (md5 : list Z -> list Z).
(** A digest has sixteen bytes. *)
Hypothesis md5_digest : forall l, addr_ok (md5 l).

Lemma build_address6_spec start bits input :
  addr_ok start -> 0 <= bits <= 128 ->
  exists a, build_address6 md5 start bits input = Some a /\ addr_ok a /\ same_network bits a start.
Proof.
  intros Hs Hb. unfold build_address6. destruct (copy_net_bits_spec bits start (md5 input) Hs (md5_digest _) Hb) as (r & -> & [Lr Br] & R).
  cbn [mbind option_bind]. destruct (Z.eqb_spec bits 64) as [->|].
  - destruct (upd_ok 8 clear_u_bit r) as (r' & -> & L & B & ->); [lia | exact Br | intros; apply land_byte; [assumption | lia]|].
    eexists. split; [reflexivity|]. split; [split; [lia | exact B]|]. intros i Hi Hl. rewrite abit_alter by lia.
    destruct (Nat.eqb_spec (i / 8) 8) as [E8|]; [div8 i 0; lia|]. rewrite R by exact Hi. by rewrite (proj2 (Z.ltb_lt _ _)).
  - exists r. split; [reflexivity|]. split; [split; assumption|]. intros i Hi Hl. rewrite R by exact Hi. by rewrite (proj2 (Z.ltb_lt _ _)).
Qed.

Lemma build_prefix6_spec start pool_bits pref_bits input :
  addr_ok start -> 0 <= pool_bits <= pref_bits -> pref_bits < 128 ->
  exists a, build_prefix6 md5 start pool_bits pref_bits input = Some a /\ addr_ok a /\ same_network pool_bits a start /\
    forall i, (i < 128)%nat -> pref_bits <= Z.of_nat i -> abit a i = false.
Proof.
  intros Hs Hb Hp. unfold build_prefix6.
  destruct (copy_net_bits_spec pool_bits start (md5 input) Hs (md5_digest _) ltac:(lia)) as (r & -> & Hr & R).
  cbn [mbind option_bind]. pose proof Hr as [Lr Br]. set (m := Z.to_nat (pref_bits / 8)).
  pose proof (Z.div_mod pref_bits 8 ltac:(lia)) as D. pose proof (Z.mod_pos_bound pref_bits 8 ltac:(lia)) as M.
  assert (m < 16)%nat by (unfold m; lia).
  destruct (zero_bytes_spec (16 - (m + 1)) (m + 1) r) as (r1 & -> & L1 & R1); [lia|]. cbn [mbind option_bind].
  destruct (keep_bits m (pref_bits mod 8) (prefix_mask (pref_bits mod 8)) r r1 Hr) as (r2 & -> & H2 & B2);
    [lia | lia | by apply prefix_mask_keeps | | lia |].
  { intros i. rewrite R1. destruct (Nat.leb_spec (m + 1) i), (Nat.ltb_spec i (m + 1 + (16 - (m + 1)))), (Nat.ltb_spec m i), (Nat.ltb_spec i 16); cbn;
      try reflexivity; try lia. apply lookup_ge_None_2. lia. }
  exists r2. split; [reflexivity|]. split; [exact H2|]. split; intros i Hi Hl; rewrite B2 by exact Hi.
  - rewrite (proj2 (Z.ltb_lt _ _)) by (unfold m in *; lia). cbn. rewrite R by exact Hi. by rewrite (proj2 (Z.ltb_lt _ _)).
  - by rewrite (proj2 (Z.ltb_ge _ _)) by (unfold m in *; lia).
Qed.

Lemma splice_lookup off bs (l l' : list Z) k :
  splice off bs l = Some l' -> l' !! k = if ((off <=? k) && (k <? off + length bs))%nat then bs !! (k - off)%nat else l !! k.
Proof.
  unfold splice. destruct (Nat.leb_spec (off + length bs) (length l)) as [H|]; [|discriminate]. intros E. injection E as <-.
  assert (length (take off l) = off) as Lt by (rewrite length_take; lia).
  destruct (Nat.leb_spec off k) as [H1|H1].
  - rewrite lookup_app_r by lia. rewrite Lt. destruct (Nat.ltb_spec k (off + length bs)).
    + apply lookup_app_l. lia.
    + rewrite lookup_app_r by lia. rewrite lookup_drop. cbn. f_equal. lia.
  - cbn. rewrite lookup_app_l by lia. by apply lookup_take_lt.
Qed.

(** The network's bytes followed by bytes of a digest. *)
Lemma host_part_spec start addr nb md :
  addr_ok start -> length addr = 16%nat -> addr_ok md -> (nb <= 16)%nat ->
  exists str r, copy_bytes nb 0 start addr = Some str /\ (host ← slice 0 (16 - nb) md; splice nb host str) = Some r /\ addr_ok r /\
    forall k, (k < nb)%nat -> r !! k = start !! k.
Proof.
  intros [Ls Bs] La [Lm Bm] Hn. destruct (copy_bytes_spec nb 0 start addr) as (str & E & L & R); [lia | lia|].
  exists str. rewrite E. destruct (slice_is_Some 0 (16 - nb) md) as [host Eh]; [lia|].
  pose proof (length_slice _ _ _ _ Eh) as Lh. destruct (splice_is_Some nb host str) as [r Er]; [lia|].
  exists r. rewrite Eh. cbn [mbind option_bind]. split; [reflexivity|]. split; [exact Er|].
  assert (forall k, r !! k = if (k <? nb)%nat then start !! k else if (k <? 16)%nat then host !! (k - nb)%nat else None) as K.
  { intros k. rewrite (splice_lookup _ _ _ _ k Er), R. rewrite Lh.
    destruct (Nat.leb_spec nb k), (Nat.ltb_spec k (nb + (16 - nb))), (Nat.ltb_spec k nb), (Nat.leb_spec 0 k), (Nat.ltb_spec k (0 + nb)),
      (Nat.ltb_spec k 16); cbn; try reflexivity; try lia. apply lookup_ge_None_2. lia. }
  split; [split; [rewrite (length_splice _ _ _ _ Er); lia|]|].
  - apply Forall_lookup_2. intros k x. rewrite K. repeat case_match; intros Ek; simplify_eq; [by eapply Forall_lookup_1 in Bs|].
    eapply Forall_lookup_1 in Ek; [exact Ek | eapply slice_ok; eauto].
  - intros k Hk. by rewrite K, (proj2 (Nat.ltb_lt _ _)).
Qed.

Lemma build_temporary6_spec addr start bits input random t :
  length addr = 16%nat -> addr_ok start -> 0 <= bits <= 128 ->
  exists a t', build_temporary6 md5 addr start bits input random t = Some (a, t') /\ addr_ok a /\ same_network bits a start /\
    length (history t') = 8%nat /\ counter t' = u32 (counter t + 1).
Proof.
  intros La Hs Hb. unfold build_temporary6. set (md := md5 _). assert (addr_ok md) as Hm by apply md5_digest.
  destruct (slice_is_Some 8 8 md) as [h Eh]; [destruct Hm; lia|]. pose proof (length_slice _ _ _ _ Eh) as Lh. rewrite Eh.
  enough (exists a, (if bits =? 64 then _ else _) = Some a /\ addr_ok a /\ same_network bits a start) as (a & -> & Ha & Hn)
    by (eexists _, _; split; [reflexivity | auto]).
  destruct (Z.eqb_spec bits 64) as [->|Hne].
  - destruct (host_part_spec start addr 8 md Hs La Hm ltac:(lia)) as (str & r & Ec & Er & [Lr Br] & R).
    destruct (slice_is_Some 0 8 start) as [net En]; [destruct Hs; lia|]. rewrite En. cbn [mbind option_bind].
    pose proof (length_slice _ _ _ _ En) as Ln. destruct (splice_is_Some 0 net addr) as [a1 E1]; [lia|]. rewrite E1. cbn [mbind option_bind].
    assert (a1 = str) as ->.
    { destruct (copy_bytes_spec 8 0 start addr) as (str' & Ec' & L & Rs); [destruct Hs; lia | lia|]. rewrite Ec in Ec'. injection Ec' as <-.
      apply list_eq. intros k. rewrite (splice_lookup _ _ _ _ k E1), Rs, Ln. cbn [Nat.leb Nat.add andb].
      destruct (Nat.ltb_spec k 8); [|reflexivity]. unfold slice in En. destruct (_ <=? _)%nat; [|discriminate]. injection En as <-.
      rewrite lookup_take_lt by lia. rewrite drop_0. by rewrite Nat.sub_0_r. }
    change (16 - 8)%nat with 8%nat in Er. destruct (slice 0 8 md) as [host|]; [|discriminate]. cbn [mbind option_bind] in Er |- *. rewrite Er.
    cbn [mbind option_bind]. destruct (upd_ok 8 clear_u_bit r) as (r' & -> & L & B & ->); [lia | exact Br | intros; apply land_byte; [assumption | lia]|].
    eexists. split; [reflexivity|]. split; [split; [lia | exact B]|]. intros i Hi Hl. rewrite abit_alter by lia. div8 i 0.
    destruct (Nat.eqb_spec (i / 8) 8); [lia|]. unfold abit. by rewrite R by lia.
  - cbv zeta. set (nb := Z.to_nat (bits / 8)). div8 0%nat bits. assert (nb <= 16)%nat by (unfold nb; lia).
    destruct (host_part_spec start addr nb md Hs La Hm ltac:(lia)) as (str & r & -> & Er & [Lr Br] & R). cbn [mbind option_bind].
    destruct (slice 0 (16 - nb) md) as [host|]; [|discriminate]. cbn [mbind option_bind] in Er |- *. rewrite Er. cbn [mbind option_bind].
    destruct (Z.eqb_spec (bits mod 8) 0) as [Hz|Hz].
    + exists r. split; [reflexivity|]. split; [split; assumption|]. intros i Hi Hl. unfold abit. rewrite R; [reflexivity|]. unfold nb. div8 i bits. lia.
    + assert (nb < 16)%nat by (unfold nb; lia). destruct Hs as [Ls Bs]. destruct (lookup_lt_is_Some_2 start nb ltac:(lia)) as [n En]. rewrite En. cbn [mbind option_bind].
      destruct (upd_ok nb (fun s => merge_byte (bits mod 8) s n) r) as (r' & -> & L & B & ->);
        [lia | exact Br | intros; apply merge_byte_ok; [assumption | by eapply Forall_lookup_1 in Bs]|].
      eexists. split; [reflexivity|]. split; [split; [lia | exact B]|]. intros i Hi Hl. rewrite abit_alter by lia. div8 i bits.
      destruct (Nat.eqb_spec (i / 8) nb) as [Ei|]; [|unfold abit; rewrite R by (unfold nb in *; lia); reflexivity].
      rewrite merge_byte_bit by lia. rewrite (proj2 (Z.ltb_lt _ _)) by (unfold nb in *; lia). unfold abit. by rewrite Ei, En.
Qed.

End Built.

(** ** Claims *)

(** The byte and mask arithmetic of [ipv6_in_pool] decides membership in the
    network: read as 128 bit numbers, an address is in a pool of [bits] bits exactly
    when it equals the start of the pool after its last 128 - [bits] bits are
    cleared; other values of [bits] end the process. *)
Theorem in_pool_arithmetic addr start bits :
  addr_ok addr -> addr_ok start ->
  (0 <= bits <= 128 ->
   in_network addr start bits = Some (be_val addr / 2 ^ (128 - bits) * 2 ^ (128 - bits) =? be_val start)) /\
  (bits < 0 \/ 128 < bits -> in_network addr start bits = None).
Proof.
  intros Ha Hs. split; intros Hb; unfold in_network.
  - destruct (network_portion_bits addr bits Ha Hb) as (r & E & Hr & _). rewrite E. cbn [mbind option_bind]. f_equal.
    rewrite <- (network_portion_val addr bits r Ha Hb E). destruct (Z.eqb_spec (be_val r) (be_val start)) as [Ev|Ev].
    + apply bool_decide_eq_true_2. by apply be_val_inj.
    + apply bool_decide_eq_false_2. congruence.
  - unfold ipv6_network_portion. destruct (Z.ltb_spec bits 0), (Z.ltb_spec 128 bits); try reflexivity. lia.
Qed.

(** What the server makes up out of a hash belongs to its pool: the addresses,
    temporary addresses and prefixes it builds lie in the network of the pool,
    whatever the digest is, and a prefix has no bit set behind its length.  A prefix
    length of 128 makes [build_prefix6] write behind the address. *)
Theorem built_in_pool (md5 : list Z -> list Z) start bits input :
  (forall l, addr_ok (md5 l)) -> addr_ok start -> 0 <= bits <= 128 -> ipv6_network_portion start bits = Some start ->
  (exists a, build_address6 md5 start bits input = Some a /\ in_network a start bits = Some true) /\
  (forall addr random t, length addr = 16%nat ->
   exists a t', build_temporary6 md5 addr start bits input random t = Some (a, t') /\ in_network a start bits = Some true) /\
  (forall units, bits <= units < 128 ->
   exists a, build_prefix6 md5 start bits units input = Some a /\ in_network a start bits = Some true /\
     ipv6_network_portion a units = Some a) /\
  build_prefix6 md5 start bits 128 input = None.
Proof.
  intros Hmd Hs Hb Es. split; [|split; [|split]].
  - destruct (build_address6_spec md5 Hmd start bits input Hs Hb) as (a & E & Ha & Hn). exists a.
    split; [exact E | by apply same_network_in].
  - intros addr random t La. destruct (build_temporary6_spec md5 Hmd addr start bits input random t La Hs Hb) as (a & t' & E & Ha & Hn & _).
    exists a, t'. split; [exact E | by apply same_network_in].
  - intros units Hu. destruct (build_prefix6_spec md5 Hmd start bits units input Hs) as (a & E & Ha & Hn & Hz); [lia | lia|].
    exists a. split; [exact E|]. split; [by apply same_network_in|].
    destruct (network_portion_bits a units Ha ltac:(lia)) as (r & -> & Hr & B). f_equal. apply addr_ext; [assumption..|].
    intros i Hi. rewrite B by exact Hi. destruct (Z.ltb_spec (Z.of_nat i) units); [reflexivity|]. cbn. symmetry. by apply Hz.
  - unfold build_prefix6. destruct (copy_net_bits_spec bits start (md5 input) Hs (Hmd _) Hb) as (r & -> & [Lr _] & _).
    cbn [mbind option_bind]. change (Z.to_nat (128 / 8)) with 16%nat. cbn [Nat.add Nat.sub zero_bytes mbind option_bind].
    unfold upd. by rewrite lookup_ge_None_2 by lia.
Qed.

Lemma in_pool_arithmetic_witness :
  in_network [32; 1; 13; 184; 0; 0; 0; 7; 9; 0; 0; 0; 0; 0; 0; 1] [32; 1; 13; 184; 0; 0; 0; 4; 0; 0; 0; 0; 0; 0; 0; 0] 62 = Some true /\
  in_network [32; 1; 13; 184; 0; 0; 0; 7; 9; 0; 0; 0; 0; 0; 0; 1] [32; 1; 13; 184; 0; 0; 0; 4; 0; 0; 0; 0; 0; 0; 0; 0] 129 = None.
Proof.
  pose proof (in_pool_arithmetic [32; 1; 13; 184; 0; 0; 0; 7; 9; 0; 0; 0; 0; 0; 0; 1] [32; 1; 13; 184; 0; 0; 0; 4; 0; 0; 0; 0; 0; 0; 0; 0]) as P.
  split.
  - apply (P 62); [split; [reflexivity | repeat constructor; unfold byte_ok; lia].. | lia].
  - apply (P 129); [split; [reflexivity | repeat constructor; unfold byte_ok; lia].. | lia].
Defined.

Lemma built_in_pool_witness :
  exists a, build_address6 (fun _ => replicate 16 255) (32 :: replicate 15 0) 13 [1; 2] = Some a /\
    in_network a (32 :: replicate 15 0) 13 = Some true.
Proof.
  apply (built_in_pool (fun _ => replicate 16 255) (32 :: replicate 15 0) 13 [1; 2]).
  - intros l. split; [reflexivity | repeat constructor; unfold byte_ok; lia].
  - split; [reflexivity | repeat constructor; unfold byte_ok; lia].
  - lia.
  - reflexivity.
Defined.
