(* ===== verification/LeaseDb.v ===== *)
(** * The lease database of the DHCPv6 server

    server/mdb6.c: leases ([struct iasubopt]), identity associations ([struct ia_xx])
    and pools ([struct ipv6_pool]), their reference counts, and the operations on
    pools.

    The memory is one map per kind of object; a pointer is a key of the map, and NULL
    is [None].  A result [None] of an operation is the use of an object that was freed
    or never existed, or a heap index that is not the index of an element.  What the
    functions do outside (dynamic DNS, the lease file, timers) is a list of events; the
    reference to its pool that a timer holds is not counted.

    Hash tables (omapip/hash.c) and heaps (isc/heap.c) are interfaces: the tables are
    the classes [Hash] and [Heap], what is known about them [HashLaws] and
    [HeapLaws]. *)

From stdpp Require Export gmap.
From S2P Require Import Prelude BindingStates V6Addr.

Abbreviation id := positive.

(** ** Interfaces *)

(** A hash table from strings of bytes to pointers.  Taking and dropping the
    references the table holds is left to the operations below. *)
Class Hash := {
  table : Type;
  new_hash : table;
  hash_add : list Z -> id -> table -> table;
  hash_delete : list Z -> table -> table;
  hash_lookup : list Z -> table -> option id;
  hash_elems : table -> list (list Z * id)
}.

(** A heap: the first argument of an operation says which of two elements comes
    first; elements are numbered from 1. *)
Class Heap := {
  heap : Type;
  heap_create : heap;
  heap_insert : (id -> id -> bool) -> id -> heap -> heap;
  heap_delete : (id -> id -> bool) -> nat -> heap -> heap;
  heap_increased : (id -> id -> bool) -> nat -> heap -> heap;
  heap_decreased : (id -> id -> bool) -> nat -> heap -> heap;
  heap_array : heap -> list id
}.

(** ** Constants *)

Definition MAX_TIME : Z := 2147483647.
Definition EXPIRED_IPV6_CLEANUP_TIME : Z := 60 * 60.

Inductive isc_result := ISC_R_SUCCESS | ISC_R_NOMEMORY | ISC_R_NORESOURCES | ISC_R_NOTFOUND | ISC_R_FAILURE | ISC_R_ADDRNOTAVAIL | ISC_R_ADDRINUSE | DHCP_R_INVALIDARG.

#[export] Instance isc_result_eq_dec : EqDecision isc_result.
Proof. solve_decision. Defined.

(** ** Objects *)

Record iasubopt := mkSub {
  refcnt : Z; addr : list Z; plen : Z; state : Z; scope : bool;
  hard_lifetime_end_time : Z; soft_lifetime_end_time : Z;
  lease_ia : option id; lease_pool : option id; heap_index : Z
}.

(** [iasubopt] is the whole array, of [max_iasubopt] pointers. *)
Record ia_xx := mkIa {
  ia_refcnt : Z; iaid_duid : list Z; ia_type : Z; num_iasubopt : nat; iasubopt_array : list (option id)
}.

Definition set_refcnt v s := mkSub v (addr s) (plen s) (state s) (scope s) (hard_lifetime_end_time s)
  (soft_lifetime_end_time s) (lease_ia s) (lease_pool s) (heap_index s).
Definition set_addr v s := mkSub (refcnt s) v (plen s) (state s) (scope s) (hard_lifetime_end_time s)
  (soft_lifetime_end_time s) (lease_ia s) (lease_pool s) (heap_index s).
Definition set_plen v s := mkSub (refcnt s) (addr s) v (state s) (scope s) (hard_lifetime_end_time s)
  (soft_lifetime_end_time s) (lease_ia s) (lease_pool s) (heap_index s).
Definition set_state v s := mkSub (refcnt s) (addr s) (plen s) v (scope s) (hard_lifetime_end_time s)
  (soft_lifetime_end_time s) (lease_ia s) (lease_pool s) (heap_index s).
Definition set_scope v s := mkSub (refcnt s) (addr s) (plen s) (state s) v (hard_lifetime_end_time s)
  (soft_lifetime_end_time s) (lease_ia s) (lease_pool s) (heap_index s).
Definition set_hard v s := mkSub (refcnt s) (addr s) (plen s) (state s) (scope s) v
  (soft_lifetime_end_time s) (lease_ia s) (lease_pool s) (heap_index s).
Definition set_soft v s := mkSub (refcnt s) (addr s) (plen s) (state s) (scope s) (hard_lifetime_end_time s)
  v (lease_ia s) (lease_pool s) (heap_index s).
Definition set_ia v s := mkSub (refcnt s) (addr s) (plen s) (state s) (scope s) (hard_lifetime_end_time s)
  (soft_lifetime_end_time s) v (lease_pool s) (heap_index s).
Definition set_pool v s := mkSub (refcnt s) (addr s) (plen s) (state s) (scope s) (hard_lifetime_end_time s)
  (soft_lifetime_end_time s) (lease_ia s) v (heap_index s).
Definition set_index v s := mkSub (refcnt s) (addr s) (plen s) (state s) (scope s) (hard_lifetime_end_time s)
  (soft_lifetime_end_time s) (lease_ia s) (lease_pool s) v.

Definition set_ia_refcnt v i := mkIa v (iaid_duid i) (ia_type i) (num_iasubopt i) (iasubopt_array i).
Definition set_array n a i := mkIa (ia_refcnt i) (iaid_duid i) (ia_type i) n a.

Inductive event :=
| ddns_removals (lease : id)
| write_ia (ia : option id)
| add_timeout (tv_sec : Z) (pool : id).

Section Db.
Context `{Hash} `{Heap}.

Record ipv6_pool := mkPool {
  pool_refcnt : Z; pool_type : Z; start_addr : list Z; bits : Z; units : Z;
  leases : table;
  num_active : Z; active_timeouts : heap;
  num_inactive : Z; inactive_timeouts : heap
}.

Definition set_pool_refcnt v p := mkPool v (pool_type p) (start_addr p) (bits p) (units p) (leases p)
  (num_active p) (active_timeouts p) (num_inactive p) (inactive_timeouts p).
Definition set_leases v p := mkPool (pool_refcnt p) (pool_type p) (start_addr p) (bits p) (units p) v
  (num_active p) (active_timeouts p) (num_inactive p) (inactive_timeouts p).
Definition set_active n h p := mkPool (pool_refcnt p) (pool_type p) (start_addr p) (bits p) (units p) (leases p)
  n h (num_inactive p) (inactive_timeouts p).
Definition set_inactive n h p := mkPool (pool_refcnt p) (pool_type p) (start_addr p) (bits p) (units p) (leases p)
  (num_active p) (active_timeouts p) n h.

Record db := mkDb {
  subs : gmap id iasubopt; ias : gmap id ia_xx; pls : gmap id ipv6_pool;
  pools : list id;
  ia_na_active : table; ia_ta_active : table; ia_pd_active : table;
  temp : temporary;
  allocs : nat;
  events : list event
}.

Definition set_subs v d := mkDb v (ias d) (pls d) (pools d) (ia_na_active d) (ia_ta_active d) (ia_pd_active d) (temp d) (allocs d) (events d).
Definition set_ias v d := mkDb (subs d) v (pls d) (pools d) (ia_na_active d) (ia_ta_active d) (ia_pd_active d) (temp d) (allocs d) (events d).
Definition set_pls v d := mkDb (subs d) (ias d) v (pools d) (ia_na_active d) (ia_ta_active d) (ia_pd_active d) (temp d) (allocs d) (events d).
Definition set_pools v d := mkDb (subs d) (ias d) (pls d) v (ia_na_active d) (ia_ta_active d) (ia_pd_active d) (temp d) (allocs d) (events d).
Definition set_na v d := mkDb (subs d) (ias d) (pls d) (pools d) v (ia_ta_active d) (ia_pd_active d) (temp d) (allocs d) (events d).
Definition set_ta v d := mkDb (subs d) (ias d) (pls d) (pools d) (ia_na_active d) v (ia_pd_active d) (temp d) (allocs d) (events d).
Definition set_pd v d := mkDb (subs d) (ias d) (pls d) (pools d) (ia_na_active d) (ia_ta_active d) v (temp d) (allocs d) (events d).
Definition set_temp v d := mkDb (subs d) (ias d) (pls d) (pools d) (ia_na_active d) (ia_ta_active d) (ia_pd_active d) v (allocs d) (events d).
Definition set_allocs v d := mkDb (subs d) (ias d) (pls d) (pools d) (ia_na_active d) (ia_ta_active d) (ia_pd_active d) (temp d) v (events d).
Definition add_event e d := mkDb (subs d) (ias d) (pls d) (pools d) (ia_na_active d) (ia_ta_active d) (ia_pd_active d) (temp d) (allocs d) (events d ++ [e]).

(** ** The monad *)

Definition D (A : Type) : Type := db -> option (A * db).

#[export] Instance D_ret : MRet D := fun A a d => Some (a, d).
#[export] Instance D_bind : MBind D := fun A B f m d =>
  match m d with Some (a, d') => f a d' | None => None end.

Definition get {A} (f : db -> A) : D A := fun d => Some (f d, d).
Definition modify (f : db -> db) : D unit := fun d => Some (tt, f d).
Definition deref {A} (o : option A) : D A := fun d => match o with Some a => Some (a, d) | None => None end.

(** The object a pointer points to. *)
Definition lease (l : id) : D iasubopt := m ← get subs; deref (m !! l).
Definition ia (i : id) : D ia_xx := m ← get ias; deref (m !! i).
Definition pool (p : id) : D ipv6_pool := m ← get pls; deref (m !! p).
Definition set_lease (l : id) (f : iasubopt -> iasubopt) : D unit :=
  s ← lease l; modify (fun d => set_subs (<[l := f s]> (subs d)) d).
Definition set_the_ia (i : id) (f : ia_xx -> ia_xx) : D unit :=
  s ← ia i; modify (fun d => set_ias (<[i := f s]> (ias d)) d).
Definition set_the_pool (p : id) (f : ipv6_pool -> ipv6_pool) : D unit :=
  s ← pool p; modify (fun d => set_pls (<[p := f s]> (pls d)) d).

Context (mem : nat -> bool).

(** Whether the next allocation succeeds. *)
Definition dmalloc : D bool :=
  k ← get allocs; modify (set_allocs (S k)) ;; mret (mem k).

(** ** References *)

Definition iasubopt_allocate (p : option id) : D (isc_result * option id) :=
  match p with
  | Some _ => mret (DHCP_R_INVALIDARG, p)
  | None =>
      ok ← dmalloc;
      if (ok : bool) then
        m ← get subs;
        let l := fresh (dom m) in
        modify (set_subs (<[l := mkSub 1 (replicate 16 0) 255 FTS_FREE false 0 0 None None (-1)]> m)) ;;
        mret (ISC_R_SUCCESS, Some l)
      else mret (ISC_R_NOMEMORY, p)
  end.

(** [*iasubopt] before; the result and [*iasubopt] after. *)
Definition iasubopt_reference (p src : option id) : D (isc_result * option id) :=
  match p, src with
  | Some _, _ => mret (DHCP_R_INVALIDARG, p)
  | None, None => mret (DHCP_R_INVALIDARG, p)
  | None, Some l => set_lease l (fun s => set_refcnt (refcnt s + 1) s) ;; mret (ISC_R_SUCCESS, src)
  end.

Definition ia_make_key (iaid : Z) (duid : list Z) : list Z := le_bytes 4 iaid ++ duid.

Definition ia_allocate (p : option id) (iaid : Z) (duid : list Z) : D (isc_result * option id) :=
  match p with
  | Some _ => mret (DHCP_R_INVALIDARG, p)
  | None =>
      ok ← dmalloc;
      if (ok : bool) then
        ok ← dmalloc;
        if (ok : bool) then
          m ← get ias;
          let i := fresh (dom m) in
          modify (set_ias (<[i := mkIa 1 (ia_make_key iaid duid) 0 0 []]> m)) ;;
          mret (ISC_R_SUCCESS, Some i)
        else mret (ISC_R_NOMEMORY, p)
      else mret (ISC_R_NOMEMORY, p)
  end.

Definition ia_reference (p src : option id) : D (isc_result * option id) :=
  match p, src with
  | Some _, _ => mret (DHCP_R_INVALIDARG, p)
  | None, None => mret (DHCP_R_INVALIDARG, p)
  | None, Some i => set_the_ia i (fun s => set_ia_refcnt (ia_refcnt s + 1) s) ;; mret (ISC_R_SUCCESS, src)
  end.

Definition ipv6_pool_reference (p src : option id) : D (isc_result * option id) :=
  match p, src with
  | Some _, _ => mret (DHCP_R_INVALIDARG, p)
  | None, None => mret (DHCP_R_INVALIDARG, p)
  | None, Some q => set_the_pool q (fun s => set_pool_refcnt (pool_refcnt s + 1) s) ;; mret (ISC_R_SUCCESS, src)
  end.

(** [tmp->refcnt--; if (tmp->refcnt < 0) tmp->refcnt = 0;] *)
Definition count_down (n : Z) : Z := if n - 1 <? 0 then 0 else n - 1.

Definition for_each {A} (f : A -> D unit) (l : list A) : D unit :=
  foldr (fun a k => f a ;; k) (mret tt) l.

(** The pointer in slot [k] of an association, which becomes NULL. *)
Definition take_slot (i : id) (k : nat) : D (option id) :=
  s ← ia i;
  e ← deref (iasubopt_array s !! k);
  set_the_ia i (fun s => set_array (num_iasubopt s) (<[k := None]> (iasubopt_array s)) s) ;;
  mret e.

(** [x_dereference(&p)]; [p] is NULL afterwards.  The last reference frees the object
    and drops the references it holds; [fuel] bounds how deep that goes. *)
Fixpoint iasubopt_dereference (fuel : nat) (p : option id) : D isc_result :=
  match fuel, p with
  | O, _ => fun _ => None
  | _, None => mret DHCP_R_INVALIDARG
  | S fuel, Some l =>
      set_lease l (fun s => set_refcnt (count_down (refcnt s)) s) ;;
      s ← lease l;
      (if refcnt s =? 0 then
         match lease_ia s with
         | Some i => set_lease l (set_ia None) ;; ia_dereference fuel (Some i) ;; mret tt
         | None => mret tt
         end ;;
         match lease_pool s with
         | Some q => set_lease l (set_pool None) ;; ipv6_pool_dereference fuel (Some q) ;; mret tt
         | None => mret tt
         end ;;
         set_lease l (set_scope false) ;;
         modify (fun d => set_subs (delete l (subs d)) d)
       else mret tt) ;;
      mret ISC_R_SUCCESS
  end
with ia_dereference (fuel : nat) (p : option id) : D isc_result :=
  match fuel, p with
  | O, _ => fun _ => None
  | _, None => mret DHCP_R_INVALIDARG
  | S fuel, Some i =>
      set_the_ia i (fun s => set_ia_refcnt (count_down (ia_refcnt s)) s) ;;
      s ← ia i;
      (if ia_refcnt s =? 0 then
         for_each (fun k =>
           e ← take_slot i k;
           iasubopt_dereference fuel e ;; mret tt) (seq 0 (num_iasubopt s)) ;;
         modify (fun d => set_ias (delete i (ias d)) d)
       else mret tt) ;;
      mret ISC_R_SUCCESS
  end
with ipv6_pool_dereference (fuel : nat) (p : option id) : D isc_result :=
  match fuel, p with
  | O, _ => fun _ => None
  | _, None => mret DHCP_R_INVALIDARG
  | S fuel, Some q =>
      set_the_pool q (fun s => set_pool_refcnt (count_down (pool_refcnt s)) s) ;;
      s ← pool q;
      (if pool_refcnt s =? 0 then
         for_each (fun e => iasubopt_dereference fuel (Some e.2) ;; mret tt) (hash_elems (leases s)) ;;
         for_each (fun e => iasubopt_dereference fuel (Some e) ;; mret tt) (heap_array (active_timeouts s)) ;;
         for_each (fun e => iasubopt_dereference fuel (Some e) ;; mret tt) (heap_array (inactive_timeouts s)) ;;
         modify (fun d => set_pls (delete q (pls d)) d)
       else mret tt) ;;
      mret ISC_R_SUCCESS
  end.

Context (fuel : nat).

(** ** Tables and heaps *)

(** The tables hold a reference to what is in them. *)
Definition leases_lookup (q : id) (k : list Z) : D (option id) :=
  p ← pool q;
  match hash_lookup k (leases p) with
  | Some l => '(_, r) ← iasubopt_reference None (Some l); mret r
  | None => mret None
  end.

Definition leases_add (q : id) (k : list Z) (l : id) : D unit :=
  iasubopt_reference None (Some l) ;;
  set_the_pool q (fun p => set_leases (hash_add k l (leases p)) p).

Definition leases_delete (q : id) (k : list Z) : D unit :=
  p ← pool q;
  match hash_lookup k (leases p) with
  | Some l =>
      set_the_pool q (fun p => set_leases (hash_delete k (leases p)) p) ;;
      iasubopt_dereference fuel (Some l) ;; mret tt
  | None => mret tt
  end.

Definition lease_older (la lb : iasubopt) : bool :=
  if hard_lifetime_end_time la =? hard_lifetime_end_time lb
  then soft_lifetime_end_time la <? soft_lifetime_end_time lb
  else hard_lifetime_end_time la <? hard_lifetime_end_time lb.

(** [lease_older] through pointers; the elements of a heap are objects that exist. *)
Definition older_in (m : gmap id iasubopt) (a b : id) : bool :=
  let obj x := default (mkSub 0 [] 0 0 false 0 0 None None 0) (m !! x) in lease_older (obj a) (obj b).

(** [lease_index_changed], called for the elements of a heap with their positions. *)
Fixpoint reindex (k : Z) (l : list id) (m : gmap id iasubopt) : gmap id iasubopt :=
  match l with
  | [] => m
  | x :: l => reindex (k + 1) l (alter (set_index k) x m)
  end.

Inductive side := Active | Inactive.

Definition timeouts (w : side) (p : ipv6_pool) : heap :=
  match w with Active => active_timeouts p | Inactive => inactive_timeouts p end.
Definition set_timeouts (w : side) (h : heap) (p : ipv6_pool) : ipv6_pool :=
  match w with Active => set_active (num_active p) h p | Inactive => set_inactive (num_inactive p) h p end.

(** Run a heap operation and the callbacks it makes. *)
Definition on_heap (w : side) (q : id) (op : (id -> id -> bool) -> heap -> heap) : D unit :=
  p ← pool q; m ← get subs;
  let h := op (older_in m) (timeouts w p) in
  set_the_pool q (set_timeouts w h) ;;
  modify (fun d => set_subs (reindex 1 (heap_array h) (subs d)) d).

Definition isc_heap_insert (w : side) (q : id) (l : id) : D isc_result :=
  ok ← dmalloc;
  if (ok : bool) then on_heap w q (fun older => heap_insert older l) ;; mret ISC_R_SUCCESS
  else mret ISC_R_NOMEMORY.

(** [op] at an index, which must be that of an element. *)
Definition at_index (w : side) (q : id) (k : Z) (op : (id -> id -> bool) -> nat -> heap -> heap) : D unit :=
  p ← pool q;
  if (1 <=? k) && (k <=? Z.of_nat (length (heap_array (timeouts w p))))
  then on_heap w q (fun older => op older (Z.to_nat k)) else fun _ => None.

Definition isc_heap_delete (w : side) (q : id) (k : Z) : D unit := at_index w q k heap_delete.
Definition isc_heap_increased (w : side) (q : id) (k : Z) : D unit := at_index w q k heap_increased.
Definition isc_heap_decreased (w : side) (q : id) (k : Z) : D unit := at_index w q k heap_decreased.

(** [isc_heap_element(heap, 1)] *)
Definition isc_heap_top (w : side) (q : id) : D id :=
  p ← pool q; deref (heap_array (timeouts w p) !! 0%nat).

(** [pool->num_active += v], [pool->num_inactive += v] *)
Definition count (w : side) (q : id) (v : Z) : D unit :=
  set_the_pool q (fun p => match w with
    | Active => set_active (num_active p + v) (active_timeouts p) p
    | Inactive => set_inactive (num_inactive p + v) (inactive_timeouts p) p
    end).

(** ** Identity associations *)

Definition ia_add_iasubopt (i l : id) : D isc_result :=
  s ← ia i;
  ok ← (if (length (iasubopt_array s) <=? num_iasubopt s)%nat then
          ok ← dmalloc;
          if (ok : bool) then
            set_the_ia i (fun s => set_array (num_iasubopt s)
              (take (num_iasubopt s) (iasubopt_array s) ++ replicate (length (iasubopt_array s) + 4 - num_iasubopt s) None) s) ;;
            mret true
          else mret false
        else mret true);
  if (ok : bool) then
    s ← ia i;
    e ← deref (iasubopt_array s !! num_iasubopt s);
    '(_, e) ← iasubopt_reference e (Some l);
    set_the_ia i (fun s => set_array (S (num_iasubopt s)) (<[num_iasubopt s := e]> (iasubopt_array s)) s) ;;
    mret ISC_R_SUCCESS
  else mret ISC_R_NOMEMORY.

(** The first slot below [n] that points to [l]. *)
Fixpoint find_slot (n k : nat) (a : list (option id)) (l : id) : option nat :=
  match n with
  | O => None
  | S n => if bool_decide (a !! k = Some (Some l)) then Some k else find_slot n (S k) a l
  end.

(** [for (j = i+1; j < num; j++) a[j-1] = a[j];] *)
Definition move_down (k num : nat) (a : list (option id)) : list (option id) :=
  take k a ++ take (num - S k) (drop (S k) a) ++ drop (num - 1) a.

Definition ia_remove_iasubopt (i l : id) : D unit :=
  s ← ia i;
  match find_slot (num_iasubopt s) 0 (iasubopt_array s) l with
  | None => mret tt
  | Some k =>
      e ← take_slot i k;
      iasubopt_dereference fuel e ;;
      set_the_ia i (fun s => set_array (num_iasubopt s) (move_down k (num_iasubopt s) (iasubopt_array s)) s) ;;
      sl ← lease l;
      set_lease l (set_ia None) ;;
      ia_dereference fuel (lease_ia sl) ;;
      set_the_ia i (fun s => set_array (num_iasubopt s - 1) (iasubopt_array s) s)
  end.

Definition ia_remove_all_lease (i : id) : D unit :=
  s ← ia i;
  for_each (fun k =>
    s ← ia i; e ← deref (iasubopt_array s !! k); l ← deref e;
    sl ← lease l;
    set_lease l (set_ia None) ;;
    ia_dereference fuel (lease_ia sl) ;;
    e ← take_slot i k;
    iasubopt_dereference fuel e ;; mret tt) (seq 0 (num_iasubopt s)) ;;
  set_the_ia i (fun s => set_array 0 (iasubopt_array s) s).

(** [plen] is compared at the same position [i] in both, the address at [j]. *)
Definition ia_equal (a b : option id) : D bool :=
  match a, b with
  | None, None => mret true
  | None, Some _ => mret false
  | Some _, None => fun _ => None
  | Some a, Some b =>
      a ← ia a; b ← ia b;
      if negb (ia_type a =? ia_type b) then mret false
      else if negb (bool_decide (iaid_duid a = iaid_duid b)) then mret false
      else if negb (num_iasubopt a =? num_iasubopt b)%nat then mret false
      else
        let slot (s : ia_xx) (k : nat) : D iasubopt := e ← deref (iasubopt_array s !! k); l ← deref e; lease l in
        foldr (fun i k =>
          found ← foldr (fun j k =>
            ai ← slot a i; bi ← slot b i;
            if negb (plen ai =? plen bi) then k
            else bj ← slot b j; if bool_decide (addr ai = addr bj) then mret true else k)
            (mret false) (seq 0 (num_iasubopt a));
          if (found : bool) then k else mret false)
          (mret true) (seq 0 (num_iasubopt a))
  end.

(** ** Pools *)

Definition ipv6_pool_allocate (p : option id) (type : Z) (start : list Z) (bits units : Z) : D (isc_result * option id) :=
  match p with
  | Some _ => mret (DHCP_R_INVALIDARG, p)
  | None =>
      ok1 ← dmalloc;
      if negb ok1 then mret (ISC_R_NOMEMORY, p) else
      ok2 ← dmalloc;
      if negb ok2 then mret (ISC_R_NOMEMORY, p) else
      ok3 ← dmalloc;
      if negb ok3 then mret (ISC_R_NOMEMORY, p) else
      ok4 ← dmalloc;
      if negb ok4 then mret (ISC_R_NOMEMORY, p) else
      m ← get pls;
      let q := fresh (dom m) in
      modify (set_pls (<[q := mkPool 1 type start bits units new_hash 0 heap_create 0 heap_create]> m)) ;;
      mret (ISC_R_SUCCESS, Some q)
  end.

Definition add_ipv6_pool (q : id) : D isc_result :=
  ok ← dmalloc;
  if (ok : bool) then
    '(_, r) ← ipv6_pool_reference None (Some q);
    modify (fun d => set_pools (pools d ++ (match r with Some r => [r] | None => [] end)) d) ;;
    mret ISC_R_SUCCESS
  else mret ISC_R_NOMEMORY.

(** The heap a lease is on, by its state. *)
Definition on_active (state : Z) : bool := (state =? FTS_ACTIVE) || (state =? FTS_ABANDONED).
Definition side_of (state : Z) : side := if on_active state then Active else Inactive.

(** [add_lease6], first part: the lease that has address [a] now is put out of the
    pool. *)
Definition put_out (q : id) (a : list Z) : D unit :=
  test ← leases_lookup q a;
  match test with
  | Some t =>
      st ← lease t;
      isc_heap_delete (side_of (state st)) q (heap_index st) ;;
      count (side_of (state st)) q (-1) ;;
      leases_delete q (addr st) ;;
      iasubopt_dereference fuel (Some t) ;;
      iasubopt_dereference fuel (Some t) ;;
      mret tt
  | None => mret tt
  end.

(** Second part: the lease goes on a heap. *)
Definition enter_pool (q l : id) (valid_lifetime_end_time : Z) : D isc_result :=
  iasubopt_reference None (Some l) ;;
  s ← lease l;
  insert_result ← (if on_active (state s) then
      set_lease l (set_hard valid_lifetime_end_time) ;;
      leases_add q (addr s) l ;;
      isc_heap_insert Active q l
    else
      set_lease l (set_soft valid_lifetime_end_time) ;;
      isc_heap_insert Inactive q l);
  if bool_decide (insert_result = ISC_R_SUCCESS) then
    count (side_of (state s)) q 1 ;; mret ISC_R_SUCCESS
  else
    leases_delete q (addr s) ;;
    iasubopt_dereference fuel (Some l) ;;
    mret insert_result.

Definition add_lease6 (q l : id) (valid_lifetime_end_time : Z) : D isc_result :=
  s ← lease l;
  (if state s =? 0 then set_lease l (set_state FTS_ACTIVE) else mret tt) ;;
  s ← lease l;
  '(_, r) ← ipv6_pool_reference (lease_pool s) (Some q);
  set_lease l (set_pool r) ;;
  put_out q (addr s) ;;
  enter_pool q l valid_lifetime_end_time.

Definition lease6_exists (q : id) (a : list Z) : D bool :=
  test ← leases_lookup q a;
  match test with
  | Some _ => iasubopt_dereference fuel test ;; mret true
  | None => mret false
  end.

Definition prefix6_exists (q : id) (a : list Z) (plen : Z) : D bool :=
  p ← pool q;
  if negb (plen =? units p) then mret false else lease6_exists q a.

Section Create.
(** [random k]: what the generator gives after [k] allocations. *)
Context (md5 : list Z -> list Z) (random : nat -> list Z).

(** Reserved interface identifiers: the subnet router anycast address and the
    reserved anycast addresses. *)
Definition reserved_iid (a : list Z) : bool :=
  bool_decide (take 8 (drop 8 a) = replicate 8 0) ||
  (bool_decide (take 7 (drop 8 a) = 253 :: replicate 6 255) &&
   match a !! 15%nat with Some b => Z.land b 128 =? 128 | None => false end).

(** [build_address6] or [build_temporary6]; [tmp]: what is in the local variable. *)
Definition build_resource (p : ipv6_pool) (tmp ds : list Z) : D (isc_result * list Z) :=
  if pool_type p =? D6O_IA_NA then
    a ← deref (build_address6 md5 (start_addr p) (bits p) ds); mret (ISC_R_SUCCESS, a)
  else if pool_type p =? D6O_IA_TA then
    t ← get temp; k ← get allocs;
    '(a, t) ← deref (build_temporary6 md5 tmp (start_addr p) (bits p) ds (random k) t);
    modify (set_temp t) ;; mret (ISC_R_SUCCESS, a)
  else mret (DHCP_R_INVALIDARG, tmp).

(** The search for an address that is not in use: [n] attempts are left, [attempts]
    were made. *)
Fixpoint find_address (n : nat) (q : id) (attempts : Z) (tmp ds : list Z) : D (isc_result * Z * list Z) :=
  let attempts := attempts + 1 in
  match n with
  | O => mret (ISC_R_NORESOURCES, attempts, tmp)
  | S n =>
      p ← pool q;
      '(r, tmp) ← build_resource p tmp ds;
      if negb (bool_decide (r = ISC_R_SUCCESS)) then mret (r, attempts, tmp)
      else
        test ← (if reserved_iid tmp then mret None else leases_lookup q tmp);
        if negb (reserved_iid tmp) && bool_decide (test = None) then mret (ISC_R_SUCCESS, attempts, tmp)
        else
          match test with Some _ => iasubopt_dereference fuel test ;; mret tt | None => mret tt end ;;
          ok ← dmalloc;
          if (ok : bool) then find_address n q attempts tmp (ds ++ tmp) else mret (ISC_R_NOMEMORY, attempts, tmp)
  end.

(** A lease for [a]: [*addr] afterwards. *)
Definition lease_for (q : id) (out : option id) (a : list Z) (plen : Z) (end_time : Z) : D (isc_result * option id) :=
  '(r, l) ← iasubopt_allocate None;
  match l with
  | None => mret (r, out)
  | Some l =>
      set_lease l (set_plen plen) ;;
      set_lease l (set_addr a) ;;
      r ← add_lease6 q l end_time;
      out ← (if bool_decide (r = ISC_R_SUCCESS) then '(_, out) ← iasubopt_reference out (Some l); mret out else mret out);
      iasubopt_dereference fuel (Some l) ;;
      mret (r, out)
  end.

(** The result, [*addr] and [*attempts]. *)
Definition create_lease6 (q : id) (out : option id) (uid : list Z) (soft_lifetime_end_time : Z) :
    D (isc_result * option id * Z) :=
  '(r, attempts, tmp) ← find_address 100 q 0 (replicate 16 0) uid;
  if bool_decide (r = ISC_R_SUCCESS) then
    '(r, out) ← lease_for q out tmp 0 soft_lifetime_end_time;
    mret (r, out, attempts)
  else mret (r, out, attempts).

Fixpoint find_prefix (n : nat) (q : id) (attempts : Z) (ds : list Z) : D (isc_result * Z * list Z) :=
  let attempts := attempts + 1 in
  match n with
  | O => mret (ISC_R_NORESOURCES, attempts, [])
  | S n =>
      p ← pool q;
      tmp ← deref (build_prefix6 md5 (start_addr p) (bits p) (units p) ds);
      test ← leases_lookup q tmp;
      match test with
      | None => mret (ISC_R_SUCCESS, attempts, tmp)
      | Some _ =>
          iasubopt_dereference fuel test ;;
          ok ← dmalloc;
          if (ok : bool) then find_prefix n q attempts (ds ++ tmp) else mret (ISC_R_NOMEMORY, attempts, tmp)
      end
  end.

Definition create_prefix6 (q : id) (out : option id) (uid : list Z) (soft_lifetime_end_time : Z) :
    D (isc_result * option id * Z) :=
  '(r, attempts, tmp) ← find_prefix 10 q 0 uid;
  if bool_decide (r = ISC_R_SUCCESS) then
    p ← pool q;
    '(r, out) ← lease_for q out tmp (u8 (units p)) soft_lifetime_end_time;
    mret (r, out, attempts)
  else mret (r, out, attempts).

End Create.

Definition move_lease_to_active (q l : id) : D isc_result :=
  s ← lease l;
  let old_heap_index := heap_index s in
  insert_result ← isc_heap_insert Active q l;
  (if bool_decide (insert_result = ISC_R_SUCCESS) then
     leases_add q (addr s) l ;;
     isc_heap_delete Inactive q old_heap_index ;;
     count Active q 1 ;;
     count Inactive q (-1) ;;
     set_lease l (set_state FTS_ACTIVE)
   else mret tt) ;;
  mret insert_result.

Definition renew_lease6 (q l : id) : D isc_result :=
  s ← lease l;
  if state s =? FTS_ACTIVE then
    isc_heap_decreased Active q (heap_index s) ;; mret ISC_R_SUCCESS
  else if state s =? FTS_ABANDONED then
    set_lease l (set_state FTS_ACTIVE) ;;
    isc_heap_increased Active q (heap_index s) ;;
    mret ISC_R_SUCCESS
  else move_lease_to_active q l.

Definition move_lease_to_inactive (q l : id) (st : Z) : D isc_result :=
  s ← lease l;
  let old_heap_index := heap_index s in
  insert_result ← isc_heap_insert Inactive q l;
  (if bool_decide (insert_result = ISC_R_SUCCESS) then
     p ← pool q;
     (if negb (pool_type p =? D6O_IA_PD) then modify (add_event (ddns_removals l)) else mret tt) ;;
     set_lease l (set_scope false) ;;
     leases_delete q (addr s) ;;
     isc_heap_delete Active q old_heap_index ;;
     set_lease l (set_state st) ;;
     count Active q (-1) ;;
     count Inactive q 1
   else mret tt) ;;
  mret insert_result.

(** [leasep]: [*leasep] before; the result and [*leasep] after. *)
Definition expire_lease6 (leasep : option id) (q : id) (now : Z) : D (isc_result * option id) :=
  match leasep with
  | Some _ => mret (DHCP_R_INVALIDARG, leasep)
  | None =>
      p ← pool q;
      if 0 <? num_active p then
        tmp ← isc_heap_top Active q;
        s ← lease tmp;
        if hard_lifetime_end_time s <? now then
          result ← move_lease_to_inactive q tmp FTS_EXPIRED;
          if bool_decide (result = ISC_R_SUCCESS) then
            '(_, r) ← iasubopt_reference leasep (Some tmp); mret (result, r)
          else mret (result, leasep)
        else mret (ISC_R_SUCCESS, leasep)
      else mret (ISC_R_SUCCESS, leasep)
  end.

Definition decline_lease6 (q l : id) : D isc_result :=
  s ← lease l;
  result ← (if negb (state s =? FTS_ACTIVE) && negb (state s =? FTS_ABANDONED) then move_lease_to_active q l
            else mret ISC_R_SUCCESS);
  if bool_decide (result = ISC_R_SUCCESS) then
    set_lease l (set_state FTS_ABANDONED) ;;
    set_lease l (set_hard MAX_TIME) ;;
    s ← lease l;
    isc_heap_decreased Active q (heap_index s) ;;
    mret ISC_R_SUCCESS
  else mret result.

Definition release_lease6 (q l : id) : D isc_result :=
  s ← lease l;
  if state s =? FTS_ACTIVE then move_lease_to_inactive q l FTS_RELEASED else mret ISC_R_SUCCESS.

(** The reference in [dummy_iasubopt] is kept. *)
Definition mark_lease_unavailable (q : id) (a : list Z) : D isc_result :=
  '(r, l) ← iasubopt_allocate None;
  match l with
  | Some l => set_lease l (set_addr a) ;; leases_add q a l ;; mret r
  | None => mret r
  end.

(** ** Timers *)

Definition active_table (type : Z) (d : db) : table :=
  if type =? D6O_IA_NA then ia_na_active d else if type =? D6O_IA_TA then ia_ta_active d else ia_pd_active d.
Definition set_active_table (type : Z) (t : table) (d : db) : db :=
  if type =? D6O_IA_NA then set_na t d else if type =? D6O_IA_TA then set_ta t d else set_pd t d.

(** One of the three tests of [cleanup_old_expired]: [ia_hash_lookup] answers 0 when
    it finds nothing, and then leaves [ia_active] alone. *)
Definition forget_ia (type : Z) (i : id) (ia_active : option id) : D (option id) :=
  s ← ia i;
  if (ia_type s =? type) && (num_iasubopt s <=? 0)%nat then
    t ← get (active_table type);
    match hash_lookup (iaid_duid s) t with
    | Some j => '(_, r) ← ia_reference ia_active (Some j); mret r
    | None =>
        (if bool_decide (ia_active = Some i) then
           modify (set_active_table type (hash_delete (iaid_duid s) t))
         else mret tt) ;;
        mret ia_active
    end
  else mret ia_active.

(** When a lease on the inactive heap may be forgotten. *)
Definition cleanup_time (s : iasubopt) : Z :=
  if negb (hard_lifetime_end_time s =? 0) then hard_lifetime_end_time s + EXPIRED_IPV6_CLEANUP_TIME
  else soft_lifetime_end_time s.

(** [n] bounds the number of rounds. *)
Fixpoint cleanup_old_expired (n : nat) (q : id) (cur_time : Z) : D unit :=
  match n with
  | O => fun _ => None
  | S n =>
      p ← pool q;
      if 0 <? num_inactive p then
        tmp ← isc_heap_top Inactive q;
        s ← lease tmp;
        if cur_time <? cleanup_time s then mret tt
        else
          isc_heap_delete Inactive q (heap_index s) ;;
          count Inactive q (-1) ;;
          match lease_ia s with
          | Some i =>
              ia_reference None (Some i) ;;
              ia_remove_iasubopt i tmp ;;
              a ← forget_ia D6O_IA_NA i None;
              a ← forget_ia D6O_IA_TA i a;
              a ← forget_ia D6O_IA_PD i a;
              ia_dereference fuel (Some i) ;; mret tt
          | None => mret tt
          end ;;
          iasubopt_dereference fuel (Some tmp) ;;
          cleanup_old_expired n q cur_time
      else mret tt
  end.

Definition schedule_lease_timeout (q : id) : D unit :=
  p ← pool q;
  next ← (if 0 <? num_active p then
            tmp ← isc_heap_top Active q; s ← lease tmp;
            mret (if hard_lifetime_end_time s <? MAX_TIME then hard_lifetime_end_time s + 1 else MAX_TIME)
          else mret MAX_TIME);
  next ← (if 0 <? num_inactive p then
            tmp ← isc_heap_top Inactive q; s ← lease tmp;
            let timeout := if negb (hard_lifetime_end_time s =? 0) then hard_lifetime_end_time s + EXPIRED_IPV6_CLEANUP_TIME
                           else soft_lifetime_end_time s + 1 in
            mret (if timeout <? next then timeout else next)
          else mret next);
  if next <? MAX_TIME then modify (add_event (add_timeout next q)) else mret tt.

(** The loop over [expire_lease6]. *)
Fixpoint expire_all (n : nat) (q : id) (cur_time : Z) : D unit :=
  match n with
  | O => fun _ => None
  | S n =>
      '(r, l) ← expire_lease6 None q cur_time;
      if bool_decide (r = ISC_R_SUCCESS) then
        match l with
        | None => mret tt
        | Some l =>
            p ← pool q;
            (if negb (pool_type p =? D6O_IA_PD) then modify (add_event (ddns_removals l)) else mret tt) ;;
            s ← lease l;
            modify (add_event (write_ia (lease_ia s))) ;;
            iasubopt_dereference fuel (Some l) ;;
            expire_all n q cur_time
        end
      else mret tt
  end.

(** Every round of the two loops takes a lease off a heap. *)
Definition lease_timeout_support (q : id) (cur_time : Z) : D unit :=
  p ← pool q;
  expire_all (S (length (heap_array (active_timeouts p)))) q cur_time ;;
  p ← pool q;
  cleanup_old_expired (S (length (heap_array (inactive_timeouts p)))) q cur_time ;;
  schedule_lease_timeout q.

Definition schedule_all_ipv6_lease_timeouts : D unit :=
  l ← get pools; for_each schedule_lease_timeout l.

(** ** All pools *)

Definition ipv6_in_pool (a : list Z) (p : ipv6_pool) : D bool := deref (in_network a (start_addr p) (bits p)).

Fixpoint find_pool_in (l : list id) (type : Z) (a : list Z) : D (isc_result * option id) :=
  match l with
  | [] => mret (ISC_R_NOTFOUND, None)
  | q :: l =>
      p ← pool q;
      if negb (pool_type p =? type) then find_pool_in l type a
      else
        b ← ipv6_in_pool a p;
        if (b : bool) then '(_, r) ← ipv6_pool_reference None (Some q); mret (ISC_R_SUCCESS, r)
        else find_pool_in l type a
  end.

Definition find_ipv6_pool (out : option id) (type : Z) (a : list Z) : D (isc_result * option id) :=
  match out with
  | Some _ => mret (DHCP_R_INVALIDARG, out)
  | None => l ← get pools; find_pool_in l type a
  end.

(** The reference to the pool is not dropped. *)
Definition change_leases (i : id) (change_func : id -> id -> D isc_result) : D isc_result :=
  s ← ia i;
  foldr (fun k rest retval =>
    s ← ia i; e ← deref (iasubopt_array s !! k); l ← deref e; sl ← lease l;
    '(r, q) ← find_ipv6_pool None (ia_type s) (addr sl);
    retval ← (match q with
              | Some q => if bool_decide (r = ISC_R_SUCCESS)
                          then r ← change_func q l; mret (if bool_decide (r = ISC_R_SUCCESS) then retval else r)
                          else mret retval
              | None => mret retval
              end);
    rest retval) (fun retval => mret retval) (seq 0 (num_iasubopt s)) ISC_R_SUCCESS.

Definition renew_leases (i : id) : D isc_result := change_leases i renew_lease6.
Definition release_leases (i : id) : D isc_result := change_leases i release_lease6.
Definition decline_leases (i : id) : D isc_result := change_leases i decline_lease6.

(** [mark_hosts_unavailable_support] and [mark_interfaces_unavailable] on one
    address. *)
Definition mark_address (type : Z) (a : list Z) : D unit :=
  '(r, q) ← find_ipv6_pool None type a;
  match q with
  | Some q =>
      if bool_decide (r = ISC_R_SUCCESS)
      then mark_lease_unavailable q a ;; ipv6_pool_dereference fuel (Some q) ;; mret tt else mret tt
  | None => mret tt
  end.

Definition mark_host_unavailable (a : list Z) : D unit := mark_address D6O_IA_NA a ;; mark_address D6O_IA_TA a.
Definition mark_hosts_unavailable (hosts : list (list Z)) : D unit := for_each mark_host_unavailable hosts.
Definition mark_interfaces_unavailable (addresses : list (list Z)) : D unit := for_each mark_host_unavailable addresses.

Definition mark_phost_unavailable (pref : list Z) (plen : Z) : D unit :=
  '(r, q) ← find_ipv6_pool None D6O_IA_PD pref;
  match q with
  | Some q =>
      p ← pool q;
      (if plen =? units p then mark_lease_unavailable q pref ;; mret tt else mret tt) ;;
      ipv6_pool_dereference fuel (Some q) ;; mret tt
  | None => mret tt
  end.

End Db.
