(* ===== verification/LeaseLaws.v ===== *)
(** * What the lease database knows about hash tables and heaps

    The laws of the interfaces [Hash] and [Heap], and an instance of each: an
    association list, and a sorted list. *)

From stdpp Require Import sorting.
From S2P Require Import Prelude LeaseDb.

(** ** Laws *)

(** A table holds pairs; of several pairs with one key, [hash_lookup] and
    [hash_delete] agree on which is meant. *)
Class HashLaws `{Hash} : Prop := {
  new_hash_elems : hash_elems new_hash = [];
  hash_add_elems k v t : hash_elems (hash_add k v t) ≡ₚ (k, v) :: hash_elems t;
  hash_lookup_Some k v t : hash_lookup k t = Some v -> (k, v) ∈ hash_elems t;
  hash_lookup_None k v t : hash_lookup k t = None -> (k, v) ∉ hash_elems t;
  hash_delete_elems k v t : hash_lookup k t = Some v -> hash_elems t ≡ₚ (k, v) :: hash_elems (hash_delete k t);
  hash_delete_absent k t : hash_lookup k t = None -> hash_elems (hash_delete k t) = hash_elems t
}.

(** A strict order in which elements may be equivalent. *)
Record weak_order (older : id -> id -> bool) : Prop := {
  weak_asym a b : older a b = true -> older b a = false;
  weak_between a b c : older a c = true -> older a b = true \/ older b c = true
}.

(** [older] and [older'] agree except on [x]. *)
Definition agree_off (x : id) (older older' : id -> id -> bool) : Prop :=
  forall a b, a <> x -> b <> x -> older a b = older' a b.

Class HeapLaws `{Heap} := {
  heap_ok : (id -> id -> bool) -> heap -> Prop;
  heap_create_array : heap_array heap_create = [];
  heap_create_ok older : heap_ok older heap_create;
  heap_insert_array older x h : heap_array (heap_insert older x h) ≡ₚ x :: heap_array h;
  heap_delete_array older k x h :
    heap_array h !! k = Some x -> heap_array h ≡ₚ x :: heap_array (heap_delete older (S k) h);
  heap_increased_array older k x h : heap_array h !! k = Some x -> heap_array (heap_increased older (S k) h) ≡ₚ heap_array h;
  heap_decreased_array older k x h : heap_array h !! k = Some x -> heap_array (heap_decreased older (S k) h) ≡ₚ heap_array h;
  heap_ok_ext older older' h :
    (forall a b, a ∈ heap_array h -> b ∈ heap_array h -> older a b = older' a b) -> heap_ok older h -> heap_ok older' h;
  heap_insert_ok older x h : weak_order older -> heap_ok older h -> heap_ok older (heap_insert older x h);
  heap_delete_ok older k x h : weak_order older -> heap_array h !! k = Some x -> heap_ok older h -> heap_ok older (heap_delete older (S k) h);
  heap_increased_ok older older' k x h :
    weak_order older' -> NoDup (heap_array h) -> heap_array h !! k = Some x -> agree_off x older older' ->
    (forall y, older x y = true -> older' x y = true) -> (forall y, older' y x = true -> older y x = true) ->
    heap_ok older h -> heap_ok older' (heap_increased older' (S k) h);
  heap_decreased_ok older older' k x h :
    weak_order older' -> NoDup (heap_array h) -> heap_array h !! k = Some x -> agree_off x older older' ->
    (forall y, older y x = true -> older' y x = true) -> (forall y, older' x y = true -> older x y = true) ->
    heap_ok older h -> heap_ok older' (heap_decreased older' (S k) h);
  heap_top_first older x y h :
    weak_order older -> heap_ok older h -> heap_array h !! 0%nat = Some x -> y ∈ heap_array h -> older y x = false
}.

(** ** A table *)

Fixpoint assoc_lookup (k : list Z) (l : list (list Z * id)) : option id :=
  match l with
  | [] => None
  | (k', v) :: l => if bool_decide (k = k') then Some v else assoc_lookup k l
  end.

Fixpoint assoc_delete (k : list Z) (l : list (list Z * id)) : list (list Z * id) :=
  match l with
  | [] => []
  | (k', v) :: l => if bool_decide (k = k') then l else (k', v) :: assoc_delete k l
  end.

#[export] Instance assoc_hash : Hash := {|
  table := list (list Z * id); new_hash := []; hash_add k v t := (k, v) :: t;
  hash_delete := assoc_delete; hash_lookup := assoc_lookup; hash_elems t := t
|}.

#[export] Instance assoc_hash_laws : HashLaws.
Proof.
  split; cbn; [reflexivity | reflexivity | | | |].
  - intros k v. induction t as [|[k' v'] t IH]; cbn; [discriminate|]. case_bool_decide; intros E; simplify_eq; set_solver.
  - intros k v. induction t as [|[k' v'] t IH]; cbn; [set_solver|]. case_bool_decide; intros E; simplify_eq; set_solver.
  - intros k v. induction t as [|[k' v'] t IH]; cbn; [discriminate|]. case_bool_decide; intros E; simplify_eq; [reflexivity|].
    rewrite (IH E) at 1. apply Permutation_swap.
  - intros k. induction t as [|[k' v'] t IH]; cbn; [done|]. case_bool_decide; intros E; [done|]. by rewrite IH.
Qed.

(** ** A heap *)

Fixpoint sorted_insert (older : id -> id -> bool) (x : id) (h : list id) : list id :=
  match h with
  | [] => [x]
  | y :: h => if older x y then x :: y :: h else y :: sorted_insert older x h
  end.

(** Take element [k] out and put it in again. *)
Definition sorted_adjust (older : id -> id -> bool) (k : nat) (h : list id) : list id :=
  match h !! (k - 1)%nat with Some x => sorted_insert older x (delete (k - 1)%nat h) | None => h end.

#[export] Instance sorted_heap : Heap := {|
  heap := list id; heap_create := []; heap_insert := sorted_insert;
  heap_delete _ k h := delete (k - 1)%nat h;
  heap_increased := sorted_adjust; heap_decreased := sorted_adjust; heap_array h := h
|}.

Section Sorted.
Context (older : id -> id -> bool).

Definition not_after (a b : id) : Prop := older b a = false.

Lemma sorted_insert_perm x h : sorted_insert older x h ≡ₚ x :: h.
Proof.
  induction h as [|y h IH]; cbn; [reflexivity|]. destruct (older x y); [reflexivity|]. rewrite IH. apply Permutation_swap.
Qed.

Lemma sorted_insert_sorted x h :
  weak_order older -> StronglySorted not_after h -> StronglySorted not_after (sorted_insert older x h).
Proof.
  intros W. induction 1 as [|y h Hs IH Hy]; cbn; [repeat constructor|]. destruct (older x y) eqn:E.
  - constructor; [by constructor|]. constructor; [by apply (weak_asym _ W)|]. eapply Forall_impl; [exact Hy|].
    unfold not_after. intros z Hz. destruct (older z x) eqn:Ez; [|reflexivity].
    destruct (weak_between _ W z y x Ez) as [?|F]; [congruence|]. apply (weak_asym _ W) in E. congruence.
  - constructor; [exact IH|]. rewrite sorted_insert_perm. constructor; [exact E | exact Hy].
Qed.

Lemma elem_of_delete (k : nat) (z : id) (h : list id) : z ∈ delete k h -> z ∈ h.
Proof.
  revert k. induction h as [|y h IH]; intros [|k]; cbn; [done | done | by right|].
  rewrite !elem_of_cons. intros [->|Hz]; [by left | right; by eapply IH].
Qed.

Lemma sorted_delete k h : StronglySorted not_after h -> StronglySorted not_after (delete k h).
Proof.
  intros Hs. revert k. induction Hs as [|y h Hs IH Hy]; intros [|k]; cbn; [constructor | constructor | exact Hs|].
  constructor; [apply IH|]. rewrite list.Forall_forall in Hy |- *. intros z Hz. apply Hy. by eapply elem_of_delete.
Qed.

Lemma sorted_adjust_perm k h : sorted_adjust older k h ≡ₚ h.
Proof.
  unfold sorted_adjust. destruct (h !! (k - 1)%nat) as [x|] eqn:E; [|reflexivity]. rewrite sorted_insert_perm.
  symmetry. by apply delete_Permutation.
Qed.

End Sorted.

Lemma sorted_ext older older' h :
  (forall a b, a ∈ h -> b ∈ h -> older a b = older' a b) -> StronglySorted (not_after older) h -> StronglySorted (not_after older') h.
Proof.
  intros E Hs. induction Hs as [|y h Hs IH Hy]; constructor.
  - apply IH. set_solver.
  - rewrite list.Forall_forall in Hy |- *. intros z Hz. unfold not_after in *. rewrite <- E by set_solver. auto.
Qed.

Lemma sorted_adjust_sorted older older' k x h :
  weak_order older' -> NoDup h -> h !! k = Some x -> agree_off x older older' ->
  StronglySorted (not_after older) h -> StronglySorted (not_after older') (sorted_adjust older' (S k) h).
Proof.
  intros W Hn Hk Ha Hs. unfold sorted_adjust. replace (S k - 1)%nat with k by lia. rewrite Hk.
  apply sorted_insert_sorted; [exact W|]. apply (sorted_ext older); [|by apply sorted_delete].
  assert (x ∉ delete k h) as Hx by (apply delete_Permutation in Hk; rewrite Hk in Hn; by apply NoDup_cons in Hn as [? _]).
  intros a b Ha' Hb'. apply Ha; congruence.
Qed.

#[export] Instance sorted_heap_laws : HeapLaws.
Proof.
  refine {| heap_ok older h := StronglySorted (not_after older) h |}; cbn.
  - reflexivity.
  - constructor.
  - intros. apply sorted_insert_perm.
  - intros older k x h E. replace (k - 0)%nat with k by lia. by apply delete_Permutation.
  - intros. apply sorted_adjust_perm.
  - intros. apply sorted_adjust_perm.
  - apply sorted_ext.
  - intros. by apply sorted_insert_sorted.
  - intros. by apply sorted_delete.
  - intros. by eapply sorted_adjust_sorted.
  - intros. by eapply sorted_adjust_sorted.
  - intros older x y [|z h] W; [discriminate|]. intros Hs E Hy. cbn in E. injection E as ->. inversion_clear Hs as [|? ? _ Hf].
    apply elem_of_cons in Hy as [->|Hy]; [|rewrite list.Forall_forall in Hf; by apply Hf].
    destruct (older x x) eqn:Ex; [|reflexivity]. pose proof (weak_asym _ W _ _ Ex). congruence.
Qed.
