(* ===== verification/LeaseRefs.v ===== *)
(** * References between the objects of the lease database

    Which references each object of [LeaseDb] holds, what it means that the reference
    counts are right, and what dropping a reference does. *)

From S2P Require Import Prelude BindingStates V6Addr LeaseDb LeaseLaws.

#[local] Open Scope Z_scope.

(** ** Occurrences *)

Definition one (x y : id) : Z := if bool_decide (x = y) then 1 else 0.

Fixpoint occ (x : id) (l : list id) : Z :=
  match l with [] => 0 | y :: l => one x y + occ x l end.

Lemma one_same x : one x x = 1.
Proof. unfold one. by case_bool_decide. Qed.

Lemma one_other x y : x <> y -> one x y = 0.
Proof. unfold one. by case_bool_decide. Qed.

Lemma one_range x y : 0 <= one x y <= 1.
Proof. unfold one. case_bool_decide; lia. Qed.

Lemma occ_app x l l' : occ x (l ++ l') = occ x l + occ x l'.
Proof. induction l as [|y l IH]; cbn; [reflexivity|]. rewrite IH. lia. Qed.

Lemma occ_nonneg x l : 0 <= occ x l.
Proof. induction l as [|y l IH]; cbn; [lia|]. pose proof (one_range x y). lia. Qed.

Lemma occ_perm x l l' : l ≡ₚ l' -> occ x l = occ x l'.
Proof. induction 1; cbn; lia. Qed.

Lemma occ_elem x l : x ∈ l <-> 1 <= occ x l.
Proof.
  induction l as [|y l IH]; cbn; [set_solver by lia|]. rewrite elem_of_cons, IH. pose proof (occ_nonneg x l).
  unfold one. case_bool_decide; split; intros; try destruct_or?; subst; try tauto; try lia; right; lia.
Qed.

Lemma occ_NoDup x l : NoDup l -> x ∈ l -> occ x l = 1.
Proof.
  induction 1 as [|y l Hy Hl IH]; [set_solver|]. rewrite elem_of_cons. cbn. intros [->|Hx].
  - rewrite one_same. rewrite occ_elem in Hy. pose proof (occ_nonneg y l). lia.
  - rewrite one_other by (intros ->; done). rewrite IH by done. lia.
Qed.

(** What the objects of a map hold, together. *)
Definition gather {A} (f : A -> list id) (m : gmap id A) : list id := concat (f <$> (map_to_list m).*2).

Section Gather.
Context {A : Type} (f : A -> list id).
Implicit Types (m : gmap id A).

Lemma gather_new m k b x : m !! k = None -> occ x (gather f (<[k := b]> m)) = occ x (f b) + occ x (gather f m).
Proof.
  intros E. rewrite <- occ_app. apply occ_perm. unfold gather. by rewrite map_to_list_insert.
Qed.

Lemma gather_delete m k a x : m !! k = Some a -> occ x (gather f m) = occ x (f a) + occ x (gather f (delete k m)).
Proof.
  intros E. rewrite <- occ_app. apply occ_perm. unfold gather. by rewrite <- (map_to_list_delete m k a).
Qed.

Lemma gather_insert m k a b x :
  m !! k = Some a -> occ x (gather f (<[k := b]> m)) = occ x (gather f m) - occ x (f a) + occ x (f b).
Proof.
  intros E. rewrite <- insert_delete_eq, gather_new by apply lookup_delete_eq. pose proof (gather_delete m k a x E). lia.
Qed.

Lemma gather_elem m k a x : m !! k = Some a -> x ∈ f a -> x ∈ gather f m.
Proof.
  rewrite !occ_elem. intros E. rewrite (gather_delete m k a) by done. pose proof (occ_nonneg x (gather f (delete k m))). lia.
Qed.

Lemma gather_fmap (g : A -> A) m : (forall a, f (g a) = f a) -> gather f (g <$> m) = gather f m.
Proof.
  intros Hf. unfold gather. rewrite map_to_list_fmap. f_equal. rewrite <- !list_fmap_compose. apply list_fmap_ext.
  intros ? [k a] _. cbn. by rewrite Hf.
Qed.

(** The reference counts [rc] say how often the objects occur in [refs]. *)
Definition held (rc : A -> Z) m (x : id) : Z := match m !! x with Some a => rc a | None => 0 end.
Definition counted (rc : A -> Z) m (refs : list id) : Prop := forall x, occ x refs = held rc m x.

Lemma held_here rc m x a : m !! x = Some a -> held rc m x = rc a.
Proof. unfold held. by intros ->. Qed.

Lemma held_fmap rc (g : A -> A) m x : (forall a, rc (g a) = rc a) -> held rc (g <$> m) x = held rc m x.
Proof. intros Hg. unfold held. rewrite lookup_fmap. destruct (m !! x); cbn; auto. Qed.

Lemma held_insert rc m k b x : held rc (<[k := b]> m) x = if bool_decide (x = k) then rc b else held rc m x.
Proof.
  unfold held. case_bool_decide as E; [subst; by rewrite lookup_insert_eq | by rewrite lookup_insert_ne].
Qed.

Lemma held_delete rc m k x : held rc (delete k m) x = if bool_decide (x = k) then 0 else held rc m x.
Proof.
  unfold held. case_bool_decide as E; [subst; by rewrite lookup_delete_eq | by rewrite lookup_delete_ne].
Qed.

Lemma counted_alive rc m refs x : counted rc m refs -> x ∈ refs -> exists a, m !! x = Some a /\ 1 <= rc a.
Proof.
  intros C. rewrite occ_elem, (C x). unfold held. destruct (m !! x) as [a|]; [eauto | lia].
Qed.

End Gather.

(** ** What the objects hold *)

Section Refs.
Context `{HH : Hash} `{HP : Heap}.
Implicit Types (d : db) (p : ipv6_pool) (s : iasubopt) (i : ia_xx) (q l x : id).

Definition pool_leases p : list id :=
  heap_array (active_timeouts p) ++ heap_array (inactive_timeouts p) ++ (hash_elems (leases p)).*2.
Definition ia_leases i : list id := omap (fun e => e) (take (num_iasubopt i) (iasubopt_array i)).
Definition the_ia s : list id := option_list (lease_ia s).
Definition the_pool s : list id := option_list (lease_pool s).

Definition lease_refs d : list id := gather pool_leases (pls d) ++ gather ia_leases (ias d).
Definition ia_refs d : list id :=
  gather the_ia (subs d) ++ (hash_elems (ia_na_active d)).*2 ++ (hash_elems (ia_ta_active d)).*2 ++
  (hash_elems (ia_pd_active d)).*2.
Definition pool_refs d : list id := gather the_pool (subs d) ++ pools d.

(** References held outside the database: to leases, associations and pools. *)
Record held_out := Out { xl : list id; xi : list id; xp : list id }.

(** Every count is the number of references there are. *)
Record counts d (E : held_out) : Prop := {
  counts_subs : counted refcnt (subs d) (lease_refs d ++ xl E);
  counts_ias : counted ia_refcnt (ias d) (ia_refs d ++ xi E);
  counts_pls : counted pool_refcnt (pls d) (pool_refs d ++ xp E)
}.

(** Every pool is in the array [pools]. *)
Definition registered d : Prop := forall q p, pls d !! q = Some p -> q ∈ pools d.

(** The computation ends in a state and with a result that satisfy [Q]. *)
Definition runs {A} (m : D A) d (Q : A -> db -> Prop) : Prop :=
  match m d with Some (a, d') => Q a d' | None => False end.

Lemma db_ret {A} (a : A) d Q : Q a d -> runs (mret a) d Q.
Proof. exact (fun H => H). Qed.

Lemma db_bind {A B} (m : D A) (f : A -> D B) d Q : runs m d (fun a d' => runs (f a) d' Q) -> runs (m ≫= f) d Q.
Proof. unfold runs, mbind, D_bind. by destruct (m d) as [[a d']|]. Qed.

Lemma runs_mono {A} (m : D A) d (Q Q' : A -> db -> Prop) : runs m d Q -> (forall a d', Q a d' -> Q' a d') -> runs m d Q'.
Proof. unfold runs. destruct (m d) as [[a d']|]; [auto | contradiction]. Qed.

Lemma db_get {A} (f : db -> A) d Q : Q (f d) d -> runs (get f) d Q.
Proof. exact (fun H => H). Qed.

Lemma db_modify f d (Q : unit -> db -> Prop) : Q tt (f d) -> runs (modify f) d Q.
Proof. exact (fun H => H). Qed.

Lemma runs_deref {A} (o : option A) a d Q : o = Some a -> Q a d -> runs (deref o) d Q.
Proof. unfold runs, deref. by intros ->. Qed.

Lemma runs_lease l s d Q : subs d !! l = Some s -> Q s d -> runs (lease l) d Q.
Proof. intros E HQ. apply db_bind, db_get. by apply (runs_deref _ s). Qed.

Lemma runs_ia l (s : ia_xx) d Q : ias d !! l = Some s -> Q s d -> runs (ia l) d Q.
Proof. intros E HQ. apply db_bind, db_get. by apply (runs_deref _ s). Qed.

Lemma runs_pool l (s : ipv6_pool) d Q : pls d !! l = Some s -> Q s d -> runs (pool l) d Q.
Proof. intros E HQ. apply db_bind, db_get. by apply (runs_deref _ s). Qed.

Definition put_sub l s d : db := set_subs (<[l := s]> (subs d)) d.
Definition put_ia l i d : db := set_ias (<[l := i]> (ias d)) d.
Definition put_pool l p d : db := set_pls (<[l := p]> (pls d)) d.

Lemma runs_set_lease l f s d (Q : unit -> db -> Prop) :
  subs d !! l = Some s -> Q tt (put_sub l (f s) d) -> runs (set_lease l f) d Q.
Proof. intros E HQ. apply db_bind. by apply (runs_lease _ s). Qed.

Lemma runs_set_ia l f (s : ia_xx) d (Q : unit -> db -> Prop) :
  ias d !! l = Some s -> Q tt (put_ia l (f s) d) -> runs (set_the_ia l f) d Q.
Proof. intros E HQ. apply db_bind. by apply (runs_ia _ s). Qed.

Lemma runs_set_pool l f (s : ipv6_pool) d (Q : unit -> db -> Prop) :
  pls d !! l = Some s -> Q tt (put_pool l (f s) d) -> runs (set_the_pool l f) d Q.
Proof. intros E HQ. apply db_bind. by apply (runs_pool _ s). Qed.

(** ** Moving references *)

(** The object at [l] changes, and with it what it holds: the outside takes what the
    object gives up and the other way round. *)
Lemma counts_put_sub d E E' l s s' :
  subs d !! l = Some s -> counts d E ->
  (forall x, occ x (xl E') = occ x (xl E) + one x l * (refcnt s' - refcnt s)) ->
  (forall x, occ x (the_ia s') + occ x (xi E') = occ x (the_ia s) + occ x (xi E)) ->
  (forall x, occ x (the_pool s') + occ x (xp E') = occ x (the_pool s) + occ x (xp E)) ->
  counts (put_sub l s' d) E'.
Proof.
  intros Hl [C1 C2 C3] Hx Hi Hp. split; intros x; cbn.
  - specialize (C1 x). specialize (Hx x). unfold lease_refs in *. rewrite !occ_app in *. cbn. rewrite held_insert.
    unfold one in Hx. case_bool_decide; subst; [rewrite (held_here _ _ _ s) in C1 by done|]; lia.
  - specialize (C2 x). specialize (Hi x). unfold ia_refs in *. rewrite !occ_app in *. cbn.
    rewrite (gather_insert _ _ _ s) by done. lia.
  - specialize (C3 x). specialize (Hp x). unfold pool_refs in *. rewrite !occ_app in *. cbn.
    rewrite (gather_insert _ _ _ s) by done. lia.
Qed.

Lemma counts_put_ia d E E' l (s s' : ia_xx) :
  ias d !! l = Some s -> counts d E ->
  (forall x, occ x (xi E') = occ x (xi E) + one x l * (ia_refcnt s' - ia_refcnt s)) ->
  (forall x, occ x (ia_leases s') + occ x (xl E') = occ x (ia_leases s) + occ x (xl E)) ->
  (forall x, occ x (xp E') = occ x (xp E)) ->
  counts (put_ia l s' d) E'.
Proof.
  intros Hl [C1 C2 C3] Hx Hi Hp. split; intros x; cbn.
  - specialize (C1 x). specialize (Hi x). unfold lease_refs in *. rewrite !occ_app in *. cbn.
    rewrite (gather_insert _ _ _ s) by done. lia.
  - specialize (C2 x). specialize (Hx x). unfold ia_refs in *. rewrite !occ_app in *. cbn. rewrite held_insert.
    unfold one in Hx. case_bool_decide; subst; [rewrite (held_here _ _ _ s) in C2 by done|]; lia.
  - specialize (C3 x). specialize (Hp x). unfold pool_refs in *. rewrite !occ_app in *. cbn. lia.
Qed.

Lemma counts_put_pool d E E' l (s s' : ipv6_pool) :
  pls d !! l = Some s -> counts d E ->
  (forall x, occ x (xp E') = occ x (xp E) + one x l * (pool_refcnt s' - pool_refcnt s)) ->
  (forall x, occ x (pool_leases s') + occ x (xl E') = occ x (pool_leases s) + occ x (xl E)) ->
  (forall x, occ x (xi E') = occ x (xi E)) ->
  counts (put_pool l s' d) E'.
Proof.
  intros Hl [C1 C2 C3] Hx Hi Hp. split; intros x; cbn.
  - specialize (C1 x). specialize (Hi x). unfold lease_refs in *. rewrite !occ_app in *. cbn.
    rewrite (gather_insert _ _ _ s) by done. lia.
  - specialize (C2 x). specialize (Hp x). unfold ia_refs in *. rewrite !occ_app in *. cbn. lia.
  - specialize (C3 x). specialize (Hx x). unfold pool_refs in *. rewrite !occ_app in *. cbn. rewrite held_insert.
    unfold one in Hx. case_bool_decide; subst; [rewrite (held_here _ _ _ s) in C3 by done|]; lia.
Qed.

(** An object that nothing refers to and that holds nothing goes away. *)
Lemma counts_del_sub d E l s :
  subs d !! l = Some s -> refcnt s = 0 -> lease_ia s = None -> lease_pool s = None -> counts d E ->
  counts (set_subs (delete l (subs d)) d) E.
Proof.
  intros Hl Hr Hi Hp [C1 C2 C3]. split; intros x; cbn.
  - rewrite held_delete, <- C1. case_bool_decide; [|done]. subst. by rewrite C1, (held_here _ _ _ s).
  - rewrite <- C2. unfold ia_refs. cbn. rewrite !occ_app, (gather_delete _ (subs d) l s) by done.
    unfold the_ia. by rewrite Hi.
  - rewrite <- C3. unfold pool_refs. cbn. rewrite !occ_app, (gather_delete _ (subs d) l s) by done.
    unfold the_pool. by rewrite Hp.
Qed.

Lemma counts_del_ia d E l (s : ia_xx) :
  ias d !! l = Some s -> ia_refcnt s = 0 -> ia_leases s = [] -> counts d E ->
  counts (set_ias (delete l (ias d)) d) E.
Proof.
  intros Hl Hr Hi [C1 C2 C3]. split; intros x; cbn.
  - rewrite <- C1. unfold lease_refs. cbn. rewrite !occ_app, (gather_delete _ (ias d) l s) by done. by rewrite Hi.
  - rewrite held_delete, <- C2. case_bool_decide; [|done]. subst. by rewrite C2, (held_here _ _ _ s).
  - by rewrite <- C3.
Qed.

End Refs.

(** ** Objects in use *)

Section Live.
Context {A : Type} (rc : A -> Z).
Implicit Types (m : gmap id A).

(** The objects that are referred to. *)
Definition live m : gset id := dom (filter (fun ka => 0 < rc ka.2) m).

Lemma elem_of_live m x : x ∈ live m <-> exists a, m !! x = Some a /\ 0 < rc a.
Proof.
  unfold live. rewrite elem_of_dom. unfold is_Some. setoid_rewrite map_lookup_filter_Some. cbn. naive_solver.
Qed.

Lemma live_insert m l b : rc b <= 0 -> live (<[l := b]> m) = live m ∖ {[l]}.
Proof.
  intros Hb. apply set_eq. intros x. rewrite elem_of_difference, elem_of_singleton, !elem_of_live.
  destruct (decide (x = l)) as [->|]; [rewrite lookup_insert_eq; naive_solver lia | rewrite lookup_insert_ne by done; naive_solver].
Qed.

Lemma live_put m l a b : m !! l = Some a -> 0 < rc a -> 0 < rc b -> live (<[l := b]> m) = live m.
Proof.
  intros E Ha Hb. apply set_eq. intros x. rewrite !elem_of_live.
  destruct (decide (x = l)) as [->|]; [rewrite lookup_insert_eq; naive_solver | rewrite lookup_insert_ne by done; naive_solver].
Qed.

Lemma live_size m l a : m !! l = Some a -> 0 < rc a -> size (live m) = S (size (live m ∖ {[l]})).
Proof.
  intros E Ha. assert (l ∈ live m) as Hl by (rewrite elem_of_live; eauto).
  rewrite size_difference by set_solver. rewrite size_singleton.
  assert (size (live m) <> O) by (intros Z0; apply size_empty_inv in Z0; set_solver). lia.
Qed.

End Live.

(** ** What dropping a reference leaves *)

Section Dropped.
Context {A : Type} (rc : A -> Z) (set : Z -> A -> A).
Context (rc_set : forall n a, rc (set n a) = n) (set_rc : forall a, set (rc a) a = a).
Context (set_set : forall n n' a, set n (set n' a) = set n a).
Implicit Types (m : gmap id A).

(** An object stays as it is but for its count, or goes away; what nothing refers to
    is left alone. *)
Definition dropped1 (o o' : option A) : Prop :=
  match o, o' with
  | None, None => True
  | None, Some _ => False
  | Some a, None => 0 < rc a
  | Some a, Some b => b = set (rc b) a /\ (rc a <= 0 -> rc b = rc a) /\ (0 < rc a -> 0 < rc b)
  end.
Definition dropped m m' : Prop := forall x, dropped1 (m !! x) (m' !! x).

Lemma dropped_refl m : dropped m m.
Proof. intros x. destruct (m !! x) as [a|]; [|exact I]. split; [by rewrite set_rc | auto]. Qed.

Lemma dropped_trans m1 m2 m3 : dropped m1 m2 -> dropped m2 m3 -> dropped m1 m3.
Proof.
  intros H1 H2 x. specialize (H1 x). specialize (H2 x). unfold dropped1 in *.
  destruct (m1 !! x) as [a|], (m2 !! x) as [b|], (m3 !! x) as [c|]; try tauto; [|lia].
  destruct H1 as (E1 & ? & ?), H2 as (E2 & ? & ?). split; [|lia]. by rewrite E2 at 1; rewrite E1, set_set.
Qed.

Lemma dropped_here m m' x a : dropped m m' -> m !! x = Some a -> rc a <= 0 -> m' !! x = Some a.
Proof.
  intros H E Ha. specialize (H x). rewrite E in H. destruct (m' !! x) as [b|]; cbn in H; [|lia].
  destruct H as (Hb & H & _). by rewrite Hb, (H Ha), set_rc.
Qed.

Lemma dropped_back m m' x b : dropped m m' -> m' !! x = Some b ->
  exists a, m !! x = Some a /\ b = set (rc b) a /\ (0 < rc a -> 0 < rc b).
Proof.
  intros H E. specialize (H x). rewrite E in H. destruct (m !! x) as [a|]; cbn in H; [|contradiction].
  exists a. tauto.
Qed.

Lemma dropped_delete m m' l : dropped m m' -> dropped (delete l m) (delete l m').
Proof.
  intros H x. destruct (decide (x = l)) as [->|]; [by rewrite !lookup_delete_eq | rewrite !lookup_delete_ne by done; apply H].
Qed.

(** An object that was in use went away. *)
Lemma dropped_gone m m' l a : m !! l = Some a -> 0 < rc a -> dropped (delete l m) (delete l m') -> dropped m (delete l m').
Proof.
  intros E Ha H x. specialize (H x). destruct (decide (x = l)) as [->|].
  - by rewrite E, lookup_delete_eq.
  - by rewrite lookup_delete_ne in H.
Qed.

Lemma dropped_insert m l a n : m !! l = Some a -> 0 < rc a -> 0 < n -> dropped m (<[l := set n a]> m).
Proof.
  intros E Ha Hn x. destruct (decide (x = l)) as [->|].
  - rewrite E, lookup_insert_eq. cbn. rewrite rc_set. split; [done | lia].
  - rewrite lookup_insert_ne by done. apply dropped_refl.
Qed.

Lemma live_dropped m m' : dropped m m' -> live rc m' ⊆ live rc m.
Proof.
  intros H x. rewrite !elem_of_live. intros (b & E & Hb). specialize (H x). rewrite E in H.
  destruct (m !! x) as [a|]; cbn in H; [|contradiction]. exists a. split; [done | lia].
Qed.

End Dropped.
