(* ===== verification/LeaseDrop.v ===== *)
(** * Dropping references

    [iasubopt_dereference], [ia_dereference] and [ipv6_pool_dereference] end, free what
    nothing refers to any more and leave the rest alone. *)

From S2P Require Import Prelude BindingStates V6Addr LeaseDb LeaseLaws LeaseRefs.

#[local] Open Scope Z_scope.

Section Drop.
Context `{HH : Hash} `{HP : Heap}.
Implicit Types (d : db) (E : held_out) (l q : id).

(** ** The relation *)

(** What is not one of the three kinds of objects. *)
Definition rest d : db := set_subs ∅ (set_ias ∅ (set_pls ∅ d)).

Record drops d d' : Prop := {
  drops_subs : dropped refcnt set_refcnt (subs d) (subs d');
  drops_ias : dropped ia_refcnt set_ia_refcnt (ias d) (ias d');
  drops_pls : dropped pool_refcnt set_pool_refcnt (pls d) (pls d');
  drops_dom : forall q, is_Some (pls d !! q) -> is_Some (pls d' !! q);
  drops_rest : rest d' = rest d
}.

Definition shaped d : Prop := forall i s, ias d !! i = Some s -> (num_iasubopt s <= length (iasubopt_array s))%nat.

(** [registered] and [shaped]; how many objects are in use. *)
Definition ready d : Prop := registered d /\ shaped d.
Definition in_use d : nat := (size (live refcnt (subs d)) + size (live ia_refcnt (ias d)))%nat.

Definition del_sub l d : db := set_subs (delete l (subs d)) d.
Definition del_ia l d : db := set_ias (delete l (ias d)) d.

Lemma drops_refl d : drops d d.
Proof. split; [apply dropped_refl; by intros [] .. | done | done]. Qed.

Lemma drops_trans d1 d2 d3 : drops d1 d2 -> drops d2 d3 -> drops d1 d3.
Proof.
  intros [] []. split; [by eapply dropped_trans .. | auto | congruence].
Qed.

Lemma drops_rest_of {A} (f : db -> A) d d' : (forall d, f (rest d) = f d) -> drops d d' -> f d' = f d.
Proof. intros Hf [_ _ _ _ E]. by rewrite <- (Hf d), <- E, Hf. Qed.

Lemma drops_ready d d' : drops d d' -> ready d -> ready d'.
Proof.
  intros Hd [R S]. split.
  - intros q p E. rewrite (drops_rest_of pools _ _ (fun _ => eq_refl) Hd).
    destruct (dropped_back _ _ _ _ _ _ (drops_pls _ _ Hd) E) as (p0 & E0 & _). exact (R _ _ E0).
  - intros i s E. destruct (dropped_back _ _ _ _ _ _ (drops_ias _ _ Hd) E) as (s0 & E0 & Es & _).
    rewrite Es. exact (S _ _ E0).
Qed.

Lemma drops_in_use d d' : drops d d' -> (in_use d' <= in_use d)%nat.
Proof.
  intros Hd. unfold in_use. pose proof (live_dropped _ _ _ _ (drops_subs _ _ Hd)) as H1.
  pose proof (live_dropped _ _ _ _ (drops_ias _ _ Hd)) as H2. apply subseteq_size in H1, H2. lia.
Qed.

Lemma drops_del_sub d d' l : drops d d' -> drops (del_sub l d) (del_sub l d').
Proof. intros []. split; cbn; try done. by apply dropped_delete. Qed.

Lemma drops_del_ia d d' l : drops d d' -> drops (del_ia l d) (del_ia l d').
Proof. intros []. split; cbn; try done. by apply dropped_delete. Qed.

Lemma del_put_sub l s d : del_sub l (put_sub l s d) = del_sub l d.
Proof. unfold del_sub, put_sub. destruct d. cbn. by rewrite delete_insert_eq. Qed.

Lemma del_put_ia l (s : ia_xx) d : del_ia l (put_ia l s d) = del_ia l d.
Proof. unfold del_ia, put_ia. destruct d. cbn. by rewrite delete_insert_eq. Qed.

Lemma drops_gone_sub d d' l s :
  subs d !! l = Some s -> 0 < refcnt s -> drops (del_sub l d) (del_sub l d') -> drops d (del_sub l d').
Proof. intros E Hs []. split; cbn in *; try done. by eapply dropped_gone. Qed.

Lemma drops_gone_ia d d' l (s : ia_xx) :
  ias d !! l = Some s -> 0 < ia_refcnt s -> drops (del_ia l d) (del_ia l d') -> drops d (del_ia l d').
Proof. intros E Hs []. split; cbn in *; try done. by eapply dropped_gone. Qed.

(** ** Pools *)

Definition with_lease l E : held_out := Out (l :: xl E) (xi E) (xp E).
Definition with_ia l E : held_out := Out (xl E) (l :: xi E) (xp E).
Definition with_pool l E : held_out := Out (xl E) (xi E) (l :: xp E).

(** What a computation that gives up a reference does. *)
Definition gives_up {A} (m : D A) d E (r : A) : Prop := runs m d (fun a d' => a = r /\ counts d' E /\ drops d d').

Lemma pool_referred d E q :
  ready d -> counts d (with_pool q E) -> exists p, pls d !! q = Some p /\ 1 < pool_refcnt p.
Proof.
  intros [R _] [_ _ C]. destruct (counted_alive _ _ _ q C) as (p & Ep & Hp); [set_solver|].
  exists p. split; [done|]. specialize (C q). specialize (R q p Ep). rewrite occ_elem in R.
  rewrite (held_here _ _ _ p) in C by done. unfold pool_refs in C. cbn in C. rewrite !occ_app in C. cbn in C.
  rewrite one_same in C. pose proof (occ_nonneg q (gather the_pool (subs d))). pose proof (occ_nonneg q (xp E)). lia.
Qed.

Lemma pool_dereference_ok n d E q :
  (0 < n)%nat -> ready d -> counts d (with_pool q E) -> gives_up (ipv6_pool_dereference n (Some q)) d E ISC_R_SUCCESS.
Proof.
  intros Hn R C. destruct n as [|n]; [lia|]. destruct (pool_referred d E q R C) as (p & Ep & Hp).
  assert (count_down (pool_refcnt p) = pool_refcnt p - 1) as Hc by (unfold count_down; destruct (_ <? _) eqn:F; lia).
  apply db_bind, (runs_set_pool _ _ p), db_bind, (runs_pool _ (set_pool_refcnt (pool_refcnt p - 1) p)); [done|..].
  { cbn. by rewrite lookup_insert_eq, Hc. }
  cbn. destruct (_ =? 0) eqn:F; [lia|]. rewrite Hc. split; [done|]. split.
  - eapply counts_put_pool; [done | exact C | | done | done]. intros x. cbn. unfold one. case_bool_decide; lia.
  - split; cbn; try done.
    + apply dropped_refl. by intros [].
    + apply dropped_refl. by intros [].
    + apply dropped_insert; try done; [by intros [] | lia | lia].
    + intros x. rewrite lookup_insert_is_Some. destruct (decide (q = x)); tauto.
Qed.

(** ** Leases *)

Definition lease_ok n : Prop := forall d E l,
  ready d -> counts d (with_lease l E) -> (in_use d < n)%nat -> gives_up (iasubopt_dereference n (Some l)) d E ISC_R_SUCCESS.
Definition ia_ok n : Prop := forall d E l,
  ready d -> counts d (with_ia l E) -> (in_use d < n)%nat -> gives_up (ia_dereference n (Some l)) d E ISC_R_SUCCESS.

Lemma in_use_put_sub d l s : refcnt s = 0 -> (in_use (put_sub l s d) <= in_use d)%nat.
Proof.
  intros Hs. unfold in_use. cbn. rewrite live_insert by lia.
  assert (live refcnt (subs d) ∖ {[l]} ⊆ live refcnt (subs d)) as H by set_solver. apply subseteq_size in H. lia.
Qed.

Lemma in_use_put_ia d l (s : ia_xx) : ia_refcnt s = 0 -> (in_use (put_ia l s d) <= in_use d)%nat.
Proof.
  intros Hs. unfold in_use. cbn. rewrite live_insert by lia.
  assert (live ia_refcnt (ias d) ∖ {[l]} ⊆ live ia_refcnt (ias d)) as H by set_solver. apply subseteq_size in H. lia.
Qed.

Lemma ready_put_sub d l s : ready d -> ready (put_sub l s d).
Proof. exact (fun H => H). Qed.

(** A lease nothing refers to, on its way out: [d1] follows [d]. *)
Record fading l s n E d d1 : Prop := {
  fading_here : subs d1 !! l = Some s;
  fading_none : refcnt s = 0;
  fading_counts : counts d1 E;
  fading_drops : drops (del_sub l d) (del_sub l d1);
  fading_ready : ready d1;
  fading_in_use : (in_use d1 < n)%nat
}.

(** The lease changes, something it held is given up, and that leaves the lease alone. *)
Lemma fading_step {A} (m : D A) l s s' n E E' d d1 r :
  fading l s n E d d1 -> refcnt s' = 0 ->
  (forall x, occ x (the_ia s') + occ x (xi E') = occ x (the_ia s) + occ x (xi E)) ->
  (forall x, occ x (the_pool s') + occ x (xp E') = occ x (the_pool s) + occ x (xp E)) -> xl E' = xl E ->
  (forall d2, ready d2 -> counts d2 E' -> (in_use d2 < n)%nat -> gives_up m d2 E r) ->
  runs m (put_sub l s' d1) (fun _ d2 => fading l s' n E d d2).
Proof.
  intros [F1 F2 F3 F4 F5 F6] Hs Hi Hp Hl Hm. eapply runs_mono; [apply Hm|].
  - exact F5.
  - eapply counts_put_sub; [exact F1 | exact F3 | | exact Hi | exact Hp]. intros x. rewrite Hl. lia.
  - pose proof (in_use_put_sub d1 l s' Hs). lia.
  - intros a d2 (_ & C2 & D2). split; [|exact Hs | exact C2 | | by eapply drops_ready |].
    + eapply dropped_here; [| apply D2 | apply lookup_insert_eq | lia]. by intros [].
    + eapply drops_trans; [exact F4|]. apply (drops_del_sub _ _ l) in D2. by rewrite del_put_sub in D2.
    + pose proof (drops_in_use _ _ D2). pose proof (in_use_put_sub d1 l s' Hs). lia.
Qed.

Lemma lease_dereference_step n : ia_ok n -> lease_ok (S n).
Proof.
  intros IH d E l R C F. destruct (counted_alive _ _ _ l (counts_subs _ _ C)) as (s & Es & Hs); [set_solver|].
  assert (count_down (refcnt s) = refcnt s - 1) as Hc by (unfold count_down; destruct (_ <? _) eqn:G; lia).
  apply db_bind, (runs_set_lease _ _ s), db_bind, (runs_lease _ (set_refcnt (refcnt s - 1) s)); [done|..].
  { cbn. by rewrite lookup_insert_eq, Hc. }
  rewrite Hc. set (s0 := set_refcnt _ s). set (d0 := put_sub l s0 d).
  assert (counts d0 E) as C0.
  { eapply counts_put_sub; [done | exact C | | done | done]. intros x. cbn. unfold one. case_bool_decide; lia. }
  cbn. destruct (_ =? 0) eqn:G.
  2: { apply db_ret. split; [done|]. split; [exact C0|]. split; cbn; try done.
       - apply dropped_insert; try done; [by intros [] | lia | lia].
       - apply dropped_refl. by intros [].
       - apply dropped_refl. by intros []. }
  assert (fading l s0 n E d0 d0) as Fa.
  { split; [apply lookup_insert_eq | cbn; lia | exact C0 | apply drops_refl | exact R |].
    unfold in_use in *. cbn. rewrite live_insert by (cbn; lia). rewrite (live_size _ _ l s) in F by (done || lia). lia. }
  apply db_bind, db_bind. eapply runs_mono with (Q := fun _ d1 => fading l (set_ia None s0) n E d0 d1).
  { destruct (lease_ia s) as [i|] eqn:Ei.
    - apply db_bind, (runs_set_lease _ _ s0), db_bind; [by destruct Fa|].
      eapply (fading_step _ l s0 (set_ia None s0) n E (with_ia i E)); try done; [cbn; lia | | by intros; apply IH].
      intros x. cbn. unfold the_ia. cbn. rewrite Ei. cbn. lia.
    - apply db_ret. replace (set_ia None s0) with s0; [done|]. unfold s0, set_ia. cbn. by rewrite <- Ei. }
  intros _ d1 F1. apply db_bind. set (s1 := set_ia None s0) in *.
  eapply runs_mono with (Q := fun _ d1 => fading l (set_pool None s1) n E d0 d1).
  { destruct (lease_pool s) as [q|] eqn:Eq.
    - apply db_bind, (runs_set_lease _ _ s1), db_bind; [by destruct F1|].
      eapply (fading_step _ l s1 (set_pool None s1) n E (with_pool q E)); try done; [cbn; lia | | intros; apply pool_dereference_ok; (done || lia)].
      intros x. cbn. unfold the_pool. cbn. rewrite Eq. cbn. lia.
    - apply db_ret. replace (set_pool None s1) with s1; [done|]. unfold s1, s0, set_pool. cbn. by rewrite <- Eq. }
  intros _ d2 [G1 G2 G3 G4 _ _]. apply db_bind, (runs_set_lease _ _ _ _ _ G1), db_modify, db_ret.
  split; [done|]. fold (put_sub l (set_scope false (set_pool None s1)) d2) (del_sub l (put_sub l (set_scope false (set_pool None s1)) d2)).
  split; [eapply counts_del_sub; [apply lookup_insert_eq | done ..|] |].
  - by eapply counts_put_sub; [exact G1 | exact G3 | cbn; lia ..].
  - eapply drops_gone_sub; [done | lia|]. rewrite del_put_sub. unfold d0 in G4. by rewrite del_put_sub in G4.
Qed.

(** ** Associations *)

Lemma runs_for_seq (f : nat -> D unit) (I : nat -> db -> Prop) n : forall k d,
  I k d -> (forall j d, (k <= j < k + n)%nat -> I j d -> runs (f j) d (fun _ d' => I (S j) d')) ->
  runs (for_each f (seq k n)) d (fun _ d' => I (k + n)%nat d').
Proof.
  induction n as [|n IH]; intros k d H Hs; cbn; [by rewrite Nat.add_0_r|].
  apply db_bind. eapply runs_mono; [apply Hs; [lia | exact H]|]. cbn. intros _ d1 H1.
  replace (k + S n)%nat with (S k + n)%nat by lia. apply IH; [exact H1|]. intros j d2 Hj. apply Hs. lia.
Qed.

Lemma occ_omap_cons x (e : option id) (a : list (option id)) :
  occ x (omap (fun e => e) (e :: a)) = occ x (option_list e) + occ x (omap (fun e => e) a).
Proof. destruct e; cbn; lia. Qed.

Lemma occ_omap_insert x (e e' : option id) : forall (a : list (option id)) (k : nat), a !! k = Some e ->
  occ x (omap (fun e => e) (<[k := e']> a)) + occ x (option_list e) =
  occ x (omap (fun e => e) a) + occ x (option_list e').
Proof.
  induction a as [|y a IH]; intros [|k] Ek; cbn in Ek; try discriminate.
  - injection Ek as ->. change (<[0%nat := e']> (e :: a)) with (e' :: a). rewrite !occ_omap_cons. lia.
  - change (<[S k := e']> (y :: a)) with (y :: <[k := e']> a). specialize (IH k Ek). rewrite !occ_omap_cons. lia.
Qed.

Lemma ia_leases_insert x (s : ia_xx) k e e' :
  (k < num_iasubopt s)%nat -> iasubopt_array s !! k = Some e ->
  occ x (ia_leases (set_array (num_iasubopt s) (<[k := e']> (iasubopt_array s)) s)) + occ x (option_list e) =
  occ x (ia_leases s) + occ x (option_list e').
Proof.
  intros Hk Ek. unfold ia_leases. cbn. rewrite take_insert_lt by done. apply occ_omap_insert.
  by rewrite lookup_take_lt.
Qed.

Lemma omap_all_None (a : list (option id)) : (forall k e, a !! k = Some e -> e = None) -> omap (fun e => e) a = [].
Proof.
  induction a as [|y a IH]; intros Ha; [done|]. rewrite (Ha O y eq_refl). cbn. apply IH. intros k. apply (Ha (S k)).
Qed.

(** The association on its way out, the first [k] slots taken. *)
Record emptying i (s : ia_xx) n E d (k : nat) d1 : Prop := {
  emptying_here : exists a, ias d1 !! i = Some (set_array (num_iasubopt s) a s) /\
    length a = length (iasubopt_array s) /\ forall j, (j < k)%nat -> a !! j = Some None;
  emptying_counts : counts d1 E;
  emptying_drops : drops (del_ia i d) (del_ia i d1);
  emptying_ready : ready d1;
  emptying_in_use : (in_use d1 < n)%nat
}.

Lemma emptying_step n i s E d k d1 : lease_ok n ->
  (num_iasubopt s <= length (iasubopt_array s))%nat -> ia_refcnt s = 0 -> (k < num_iasubopt s)%nat ->
  emptying i s n E d k d1 ->
  runs (e ← take_slot i k; iasubopt_dereference n e ;; mret tt) d1 (fun _ d2 => emptying i s n E d (S k) d2).
Proof.
  intros IH Hn Hs Hk [(a & Ha & La & Na) F2 F3 F4 F5]. assert (is_Some (a !! k)) as [e Ee] by (apply lookup_lt_is_Some_2; lia).
  apply db_bind, db_bind, (runs_ia _ _ _ _ Ha), db_bind, (runs_deref _ e); [done|].
  apply db_bind, (runs_set_ia _ _ _ _ _ Ha), db_ret. cbn.
  set (s' := set_array _ (<[k:=None]> a) _). set (d2 := put_ia i s' d1).
  assert (forall j, (j < S k)%nat -> <[k:=None]> a !! j = Some (@None id)) as Na'.
  { intros j Hj. destruct (decide (j = k)) as [->|]; [apply list_lookup_insert_eq; by eapply lookup_lt_Some|].
    rewrite list_lookup_insert_ne by done. apply Na. lia. }
  assert (emptying i s n (match e with Some l => with_lease l E | None => E end) d (S k) d2) as [G1 G2 G3 G4 G5].
  { split.
    - exists (<[k:=None]> a). split; [apply lookup_insert_eq|]. by rewrite length_insert.
    - pose proof (fun x => ia_leases_insert x (set_array (num_iasubopt s) a s) k e None Hk Ee) as Hx. cbn in Hx.
      eapply counts_put_ia; [exact Ha | exact F2 | ..]; intros x; specialize (Hx x); destruct e; cbn in *; lia.
    - unfold d2. by rewrite del_put_ia.
    - destruct F4 as [R S]. split; [exact R|]. intros j t. cbn. rewrite lookup_insert. case_decide; [|apply S].
      intros [= <-]. cbn. rewrite length_insert. lia.
    - pose proof (in_use_put_ia d1 i s' Hs). fold d2 in H. lia. }
  destruct e as [l|]; cycle 1.
  { destruct n as [|n]; [lia|]. apply db_bind, db_ret, db_ret. by split. }
  apply db_bind. eapply runs_mono; [by apply IH|]. cbn. intros r d3 (_ & C3 & D3). apply db_ret. split.
  - exists (<[k:=None]> a). split; [|by rewrite length_insert].
    eapply dropped_here; [| apply D3 | apply lookup_insert_eq | cbn; lia]. by intros [].
  - exact C3.
  - eapply drops_trans; [exact G3 | by apply drops_del_ia].
  - by eapply drops_ready.
  - pose proof (drops_in_use _ _ D3). lia.
Qed.

Lemma ia_dereference_step n : lease_ok n -> ia_ok (S n).
Proof.
  intros IH d E i R C F. destruct (counted_alive _ _ _ i (counts_ias _ _ C)) as (s & Es & Hs); [set_solver|].
  assert (count_down (ia_refcnt s) = ia_refcnt s - 1) as Hc by (unfold count_down; destruct (_ <? _) eqn:G; lia).
  apply db_bind, (runs_set_ia _ _ s), db_bind, (runs_ia _ (set_ia_refcnt (ia_refcnt s - 1) s)); [done|..].
  { cbn. by rewrite lookup_insert_eq, Hc. }
  rewrite Hc. set (s0 := set_ia_refcnt _ s). set (d0 := put_ia i s0 d).
  assert (counts d0 E) as C0.
  { eapply counts_put_ia; [done | exact C | | done | done]. intros x. cbn. unfold one. case_bool_decide; lia. }
  cbn. destruct (_ =? 0) eqn:G.
  2: { apply db_ret. split; [done|]. split; [exact C0|]. split; cbn; try done.
       - apply dropped_refl. by intros [].
       - apply dropped_insert; try done; [by intros [] | lia | lia].
       - apply dropped_refl. by intros []. }
  assert ((num_iasubopt s <= length (iasubopt_array s))%nat) as Hn by by apply (proj2 R i).
  assert (emptying i s0 n E d0 0 d0) as Fa.
  { split; [| exact C0 | apply drops_refl | |].
    - exists (iasubopt_array s). split; [by unfold d0, s0; cbn; rewrite lookup_insert_eq; destruct s|]. split; [done | lia].
    - destruct R as [R S]. split; [exact R|]. intros j t. cbn. rewrite lookup_insert. case_decide; [by intros [= <-] | apply S].
    - unfold in_use in *. cbn. rewrite live_insert by (cbn; lia). rewrite (live_size _ (ias d) i s) in F by (done || lia). lia. }
  apply db_bind, db_bind. eapply runs_mono.
  { apply (runs_for_seq _ (emptying i s0 n E d0)); [exact Fa|]. intros j d1 Hj. apply emptying_step; try done; cbn; lia. }
  cbn. intros _ d1 [(a & Ha & La & Na) G2 G3 _ _]. split; [done|]. split.
  - eapply counts_del_ia; [exact Ha | cbn; lia | | exact G2]. apply omap_all_None. cbn. intros k e.
    intros (Ek & Hk)%lookup_take_Some. rewrite Na in Ek by done. congruence.
  - fold (del_ia i d1). eapply drops_gone_ia; [done | lia|]. unfold d0 in G3. by rewrite del_put_ia in G3.
Qed.

(** ** Enough fuel *)

Lemma dereferences_ok n : lease_ok n /\ ia_ok n.
Proof.
  induction n as [|n [IH1 IH2]]; [split; intros d E l R C F; lia|].
  split; [by apply lease_dereference_step | by apply ia_dereference_step].
Qed.

Lemma lease_dereference_ok n d E l :
  ready d -> counts d (with_lease l E) -> (in_use d < n)%nat ->
  gives_up (iasubopt_dereference n (Some l)) d E ISC_R_SUCCESS.
Proof. apply dereferences_ok. Qed.

Lemma ia_dereference_ok n d E l :
  ready d -> counts d (with_ia l E) -> (in_use d < n)%nat -> gives_up (ia_dereference n (Some l)) d E ISC_R_SUCCESS.
Proof. apply dereferences_ok. Qed.

End Drop.
