(* ===== verification/LeasePool.v ===== *)
(** * The contents of a pool

    Which leases may be on the two heaps and in the table of a pool, as a property of
    lists, and how it changes when a lease is put in, taken out or changed. *)

From S2P Require Import Prelude BindingStates V6Addr LeaseDb LeaseLaws LeaseRefs LeaseDrop.

#[local] Open Scope Z_scope.

(** ** Leases but for their positions *)

Definition body (s : iasubopt) : iasubopt := set_index 0 s.

(** Every element of a heap knows its position. *)
Definition indexed (m : gmap id iasubopt) (h : list id) : Prop :=
  forall k x, h !! k = Some x -> exists s, m !! x = Some s /\ heap_index s = Z.of_nat k + 1.

Lemma reindex_off l m x : forall k, x ∉ l -> reindex k l m !! x = m !! x.
Proof.
  revert m. induction l as [|y l IH]; intros m k Hx; cbn; [done|]. apply not_elem_of_cons in Hx as [Hy Hx].
  rewrite IH by done. by rewrite lookup_alter_ne.
Qed.

Lemma reindex_on l : forall m k j x, NoDup l -> l !! j = Some x ->
  reindex k l m !! x = set_index (k + Z.of_nat j) <$> m !! x.
Proof.
  induction l as [|y l IH]; intros m k j x Hn Hj; [done|]. apply NoDup_cons in Hn as [Hy Hn]. cbn. destruct j as [|j]; cbn in Hj.
  - injection Hj as ->. rewrite reindex_off by done. rewrite lookup_alter_eq. by replace (k + Z.of_nat 0) with k by lia.
  - rewrite (IH _ _ j) by done. rewrite lookup_alter_ne by (intros ->; apply Hy; by eapply list_elem_of_lookup_2).
    by replace (k + 1 + Z.of_nat j) with (k + Z.of_nat (S j)) by lia.
Qed.

Lemma reindex_body l m : forall k, body <$> reindex k l m = body <$> m.
Proof.
  revert m. induction l as [|y l IH]; intros m k; cbn; [done|]. rewrite IH. apply map_eq. intros x. rewrite !lookup_fmap.
  destruct (decide (x = y)) as [->|]; [rewrite lookup_alter_eq; by destruct (m !! y) | by rewrite lookup_alter_ne].
Qed.

Lemma indexed_reindex l m : NoDup l -> (forall x, x ∈ l -> is_Some (m !! x)) -> indexed (reindex 1 l m) l.
Proof.
  intros Hn Hl k x Hk. destruct (Hl x) as [s Es]; [by eapply list_elem_of_lookup_2|].
  rewrite (reindex_on _ _ _ k), Es by done. cbn. eexists. split; [done|]. cbn. lia.
Qed.

Lemma indexed_reindex_off l l' m k : (forall x, x ∈ l' -> x ∉ l) -> indexed m l' -> indexed (reindex k l m) l'.
Proof.
  intros Hd Hi j x Hj. rewrite reindex_off; [by apply Hi | apply Hd; by eapply list_elem_of_lookup_2].
Qed.

Lemma indexed_insert m l x s s' : m !! x = Some s -> heap_index s' = heap_index s -> indexed m l -> indexed (<[x := s']> m) l.
Proof.
  intros Ex Hs Hi j y Hj. destruct (Hi j y Hj) as (t & Et & Ht). destruct (decide (y = x)) as [->|].
  - rewrite lookup_insert_eq. eexists. split; [done|]. congruence.
  - rewrite lookup_insert_ne by done. eauto.
Qed.

Lemma indexed_dropped m m' l :
  dropped refcnt set_refcnt m m' -> (forall x, x ∈ l -> is_Some (m' !! x)) -> indexed m l -> indexed m' l.
Proof.
  intros Hd Hl Hi j x Hj. destruct (Hl x) as [s' Es']; [by eapply list_elem_of_lookup_2|].
  destruct (dropped_back _ _ _ _ _ _ Hd Es') as (s & Es & Hs & _). destruct (Hi j x Hj) as (t & Et & Ht).
  exists s'. split; [done|]. rewrite Hs. cbn. congruence.
Qed.

Lemma body_insert (m : gmap id iasubopt) (x : id) (s : iasubopt) : body <$> <[x := s]> m = <[x := body s]> (body <$> m).
Proof. apply fmap_insert. Qed.

(** ** Members of a pool *)

(** The heaps of pool [q] hold [A] and [I], its table holds [T]: the leases on the
    heap [A] are in use and in the table, each under its address and no two under one
    address; what is in the table besides marks an address that may not be used. *)
Record members (b : gmap id iasubopt) (q : id) (A I : list id) (T : list (list Z * id)) : Prop := {
  members_once : NoDup (A ++ I);
  members_active x : x ∈ A -> exists s, b !! x = Some s /\ lease_pool s = Some q /\ on_active (state s) = true /\
    hard_lifetime_end_time s <= MAX_TIME /\ (addr s, x) ∈ T;
  members_inactive x : x ∈ I -> exists s, b !! x = Some s /\ lease_pool s = Some q /\ on_active (state s) = false;
  members_keys : NoDup T.*1;
  members_table k x : (k, x) ∈ T -> exists s, b !! x = Some s /\ addr s = k /\ (x ∈ A \/ lease_pool s = None)
}.

#[export] Instance members_proper b q : Proper ((≡ₚ) ==> (≡ₚ) ==> (≡ₚ) ==> iff) (members b q).
Proof.
  assert (forall A A' I I' T T', A ≡ₚ A' -> I ≡ₚ I' -> T ≡ₚ T' -> members b q A I T -> members b q A' I' T') as H.
  { intros A A' I I' T T' HA HI HT [H1 H2 H3 H4 H5]. split.
    - by rewrite <- HA, <- HI.
    - intros x. rewrite <- HA. intros Hx. destruct (H2 x Hx) as (s & ? & ? & ? & ? & ?). exists s. by rewrite <- HT.
    - intros x. rewrite <- HI. apply H3.
    - by rewrite <- HT.
    - intros k x. rewrite <- HT. intros Hx. destruct (H5 k x Hx) as (s & ? & ? & ?). exists s. by rewrite <- HA. }
  intros A A' HA I I' HI T T' HT. split; apply H; by symmetry + by idtac.
Qed.

Section Members.
Context (b : gmap id iasubopt) (q x : id).
Implicit Types (A I : list id) (T : list (list Z * id)).

Definition outside A I T : Prop := x ∉ A ++ I ++ T.*2.

Lemma members_take_inactive A I T : members b q A (x :: I) T -> members b q A I T.
Proof.
  intros [H1 H2 H3 H4 H5]. split; try done.
  - rewrite <- Permutation_middle in H1. by apply NoDup_cons in H1 as [_ H1].
  - intros y Hy. apply H3. set_solver.
Qed.

Lemma outside_inactive A I T : members b q A (x :: I) T -> outside A I T.
Proof.
  intros [H1 H2 H3 H4 H5]. rewrite <- Permutation_middle in H1. apply NoDup_cons in H1 as [H1 _].
  unfold outside. rewrite !elem_of_app, list_elem_of_fmap in *. intros [Hx|[Hx|([k y] & Hk & Hy)]]; [tauto | tauto |].
  cbn in Hk. subst y. destruct (H5 k x Hy) as (s & Es & _ & [Hx|Hx]); [tauto|].
  destruct (H3 x) as (s' & Es' & Hq & _); [set_solver|]. congruence.
Qed.

Lemma members_take_active A I T k : members b q (x :: A) I ((k, x) :: T) -> members b q A I T.
Proof.
  intros [H1 H2 H3 H4 H5]. cbn in H1. apply NoDup_cons in H1 as [H1' H1]. cbn in H4. apply NoDup_cons in H4 as [H4' H4]. split; try done.
  - intros y Hy. destruct (H2 y) as (s & Es & Hs & Ha & Hm & Ht); [set_solver|]. exists s. repeat split; try done.
    apply elem_of_cons in Ht as [[= _ ->]|Ht]; [set_solver | done].
  - intros k' y Hy. destruct (H5 k' y) as (s & Es & Hs & Ha); [set_solver|]. exists s. repeat split; try done.
    destruct Ha as [[->|Ha]%elem_of_cons|Ha]; [|by left | by right]. exfalso.
    destruct (H5 k x) as (s' & Es' & Hs' & _); [set_solver|]. apply H4'. apply list_elem_of_fmap. exists (k', x). split; [|done].
    cbn. congruence.
Qed.

Lemma outside_active A I T k : members b q (x :: A) I ((k, x) :: T) -> outside A I T.
Proof.
  intros [H1 H2 H3 H4 H5]. cbn in H1. apply NoDup_cons in H1 as [H1 _]. cbn in H4. apply NoDup_cons in H4 as [H4' H4].
  unfold outside. rewrite !elem_of_app, list_elem_of_fmap in *. intros [Hx|[Hx|([k' y] & Hk & Hy)]]; [tauto | tauto |].
  cbn in Hk. subst y. destruct (H5 k' x) as (s & Es & Hs & _); [set_solver|]. destruct (H5 k x) as (s' & Es' & Hs' & _); [set_solver|].
  apply H4', list_elem_of_fmap. exists (k', x). split; [cbn; congruence | done].
Qed.

Lemma members_add_inactive A I T s :
  b !! x = Some s -> lease_pool s = Some q -> on_active (state s) = false -> outside A I T ->
  members b q A I T -> members b q A (x :: I) T.
Proof.
  intros Es Hq Ha Ho [H1 H2 H3 H4 H5]. unfold outside in Ho. split; try done.
  - rewrite <- Permutation_middle. apply NoDup_cons. split; [set_solver | done].
  - intros y [->|Hy]%elem_of_cons; [eauto | by apply H3].
Qed.

Lemma members_add_active A I T s :
  b !! x = Some s -> lease_pool s = Some q -> on_active (state s) = true -> hard_lifetime_end_time s <= MAX_TIME ->
  addr s ∉ T.*1 -> outside A I T -> members b q A I T -> members b q (x :: A) I ((addr s, x) :: T).
Proof.
  intros Es Hq Ha Hm Hk Ho [H1 H2 H3 H4 H5]. unfold outside in Ho. split; try done.
  - apply NoDup_cons. split; [set_solver | done].
  - intros y [->|Hy]%elem_of_cons; [exists s; set_solver|]. destruct (H2 y Hy) as (t & ? & ? & ? & ? & ?). exists t. set_solver.
  - by apply NoDup_cons.
  - intros k y [[= -> ->]|Hy]%elem_of_cons; [exists s; set_solver|]. destruct (H5 k y Hy) as (t & ? & ? & ?). exists t. set_solver.
Qed.

(** A mark. *)
Lemma members_mark A I T s :
  b !! x = Some s -> lease_pool s = None -> addr s ∉ T.*1 -> members b q A I T -> members b q A I ((addr s, x) :: T).
Proof.
  intros Es Hq Hk [H1 H2 H3 H4 H5]. split; try done.
  - intros y Hy. destruct (H2 y Hy) as (t & ? & ? & ? & ? & ?). exists t. set_solver.
  - by apply NoDup_cons.
  - intros k y [[= -> ->]|Hy]%elem_of_cons; [exists s; auto | by apply H5].
Qed.

Lemma members_off A I T s : outside A I T -> members b q A I T -> members (<[x := s]> b) q A I T.
Proof.
  unfold outside. intros Ho [H1 H2 H3 H4 H5]. split; try done.
  - intros y Hy. rewrite lookup_insert_ne by set_solver. by apply H2.
  - intros y Hy. rewrite lookup_insert_ne by set_solver. by apply H3.
  - intros k y Hy. rewrite lookup_insert_ne; [by apply H5|]. intros ->. apply Ho. rewrite !elem_of_app, list_elem_of_fmap.
    right. right. by exists (k, y).
Qed.

End Members.
