(* ===== verification/LeaseInv.v ===== *)
(** * The invariant of the lease database *)

From S2P Require Import Prelude BindingStates V6Addr LeaseDb LeaseLaws LeaseRefs LeaseDrop LeasePool.

#[local] Open Scope Z_scope.

(** Whether leases in use are renewed only for longer, and declined ones not for longer than they were; if so, the heap of leases in use stays in order. *)
Class Strict := strict : bool.

Section Inv.
Context `{HH : Hash, HL : !HashLaws} `{HP : Heap, PL : !HeapLaws} {ST : Strict}.
Implicit Types (d : db) (E : held_out) (p : ipv6_pool) (q l x : id) (b : gmap id iasubopt).

(** ** Definitions *)

Definition bodies d : gmap id iasubopt := body <$> subs d.

(** The heap is in order, if renewals keep it so. *)
Definition ordered (m : gmap id iasubopt) (h : heap) : Prop := strict = true -> heap_ok (older_in m) h.

Record pool_ok d q p : Prop := {
  pool_members : members (bodies d) q (heap_array (active_timeouts p)) (heap_array (inactive_timeouts p)) (hash_elems (leases p));
  pool_num_active : num_active p = Z.of_nat (length (heap_array (active_timeouts p)));
  pool_num_inactive : num_inactive p = Z.of_nat (length (heap_array (inactive_timeouts p)));
  pool_order : ordered (subs d) (active_timeouts p);
  pool_indexed w : indexed (subs d) (heap_array (timeouts w p))
}.

(** Counts are right, objects nothing refers to are gone, pools are registered and
    consistent. *)
Record Inv d E : Prop := {
  inv_ready : ready d;
  inv_counts : counts d E;
  inv_subs x s : subs d !! x = Some s -> 0 < refcnt s;
  inv_ias x s : ias d !! x = Some s -> 0 < ia_refcnt s;
  inv_pools q p : pls d !! q = Some p -> pool_ok d q p
}.

(** ** The order of leases *)

Lemma older_in_weak m : weak_order (older_in m).
Proof.
  split; unfold older_in, lease_older; intros.
  - repeat match goal with H : context [if ?c then _ else _] |- _ => destruct c eqn:? | |- context [if ?c then _ else _] => destruct c eqn:? end; lia.
  - repeat match goal with H : context [if ?c then _ else _] |- _ => destruct c eqn:? | |- context [if ?c then _ else _] => destruct c eqn:? end; lia.
Qed.

Definition key (s : iasubopt) : Z * Z := (hard_lifetime_end_time s, soft_lifetime_end_time s).

Lemma older_in_key m m' x y :
  key <$> m !! x = key <$> m' !! x -> key <$> m !! y = key <$> m' !! y -> older_in m x y = older_in m' x y.
Proof.
  assert (forall o o' : option iasubopt, key <$> o = key <$> o' ->
    key (default (mkSub 0 [] 0 0 false 0 0 None None 0) o) = key (default (mkSub 0 [] 0 0 false 0 0 None None 0) o')) as Ho.
  { intros [[]|] [[]|]; cbn; try done. by intros [= -> ->]. }
  unfold older_in. intros [= H1 H2]%Ho [= H3 H4]%Ho. unfold lease_older. by rewrite H1, H2, H3, H4.
Qed.

Lemma ordered_key m m' h :
  (forall x, x ∈ heap_array h -> key <$> m !! x = key <$> m' !! x) -> ordered m h -> ordered m' h.
Proof. intros Hb O S. eapply heap_ok_ext; [|exact (O S)]. intros x y Hx Hy. by apply older_in_key; apply Hb. Qed.

Lemma ordered_heap_insert m x h : ordered m h -> ordered m (heap_insert (older_in m) x h).
Proof. intros O S. apply heap_insert_ok; [apply older_in_weak | exact (O S)]. Qed.
Lemma ordered_heap_delete m k x h : heap_array h !! k = Some x -> ordered m h -> ordered m (heap_delete (older_in m) (S k) h).
Proof. intros Hk O S. eapply heap_delete_ok; [apply older_in_weak | exact Hk | exact (O S)]. Qed.

Lemma bodies_key d x : key <$> bodies d !! x = key <$> subs d !! x.
Proof. unfold bodies. rewrite lookup_fmap. by destruct (subs d !! x). Qed.

(** ** Operations on one pool *)

(** [d'] is [d] with pool [q] changed to [p] and the leases to [b]. *)
Record about q d p b d' : Prop := {
  about_pls : pls d' = <[q := p]> (pls d);
  about_bodies : bodies d' = b;
  about_ias : ias d' = ias d;
  about_pools : pools d' = pools d;
  about_na : ia_na_active d' = ia_na_active d;
  about_ta : ia_ta_active d' = ia_ta_active d;
  about_pd : ia_pd_active d' = ia_pd_active d
}.

Lemma about_refl q d p : pls d !! q = Some p -> about q d p (bodies d) d.
Proof. intros E. split; try done. by rewrite insert_id. Qed.

Lemma about_pool q d p b d' : about q d p b d' -> pls d' !! q = Some p.
Proof. intros [-> _ _ _ _ _ _]. apply lookup_insert_eq. Qed.

Lemma about_lease q d p b d' l s : about q d p b d' -> b !! l = Some s -> exists t, subs d' !! l = Some t /\ body t = s.
Proof.
  intros [_ <- _ _ _ _ _]. unfold bodies. rewrite lookup_fmap. destruct (subs d' !! l) as [t|]; cbn; [|done].
  intros [= <-]. eauto.
Qed.

Lemma about_some q d p b d' l : about q d p b d' -> is_Some (b !! l) -> is_Some (subs d' !! l).
Proof. intros Ha [s Es]. destruct (about_lease _ _ _ _ _ _ _ Ha Es) as (t & -> & _). eauto. Qed.

(** Heaps without the elements of [a] stay indexed. *)
Definition keeps (a : list id) d d' : Prop :=
  forall h, (forall x, x ∈ h -> x ∉ a) -> indexed (subs d) h -> indexed (subs d') h.

Lemma runs_set_the_pool q d p b d1 f (Q : unit -> db -> Prop) :
  about q d p b d1 -> (forall d2, about q d (f p) b d2 -> subs d2 = subs d1 -> Q tt d2) -> runs (set_the_pool q f) d1 Q.
Proof.
  intros Ha HQ. eapply runs_set_pool; [by eapply about_pool|]. apply HQ; [|done].
  destruct Ha. split; try done. cbn. rewrite about_pls0. apply insert_insert_eq.
Qed.

(** A setter of [struct iasubopt] other than the one of the position. *)
Class setter (f : iasubopt -> iasubopt) : Prop := {
  setter_body s : body (f s) = f (body s);
  setter_index s : heap_index (f s) = heap_index s
}.

#[local] Hint Extern 0 (setter _) => split; reflexivity : typeclass_instances.

Lemma runs_set_the_lease q d p b d1 l s f (Q : unit -> db -> Prop) `{!setter f} :
  about q d p b d1 -> b !! l = Some s ->
  (forall d2, about q d p (<[l := f s]> b) d2 -> (forall h, indexed (subs d1) h -> indexed (subs d2) h) -> Q tt d2) ->
  runs (set_lease l f) d1 Q.
Proof.
  intros Ha Hs HQ. destruct (about_lease _ _ _ _ _ _ _ Ha Hs) as (t & Et & Ht).
  eapply runs_set_lease; [exact Et|]. apply HQ.
  - destruct Ha as [H1 H2 H3 H4 H5 H6 H7]. split; try done. unfold bodies in *. cbn. by rewrite body_insert, H2, setter_body, Ht.
  - intros h. cbn. apply (indexed_insert _ _ _ t); [done|]. apply setter_index.
Qed.

Lemma runs_read q d p b d1 l s (Q : iasubopt -> db -> Prop) :
  about q d p b d1 -> b !! l = Some s -> (forall t, subs d1 !! l = Some t -> body t = s -> Q t d1) -> runs (lease l) d1 Q.
Proof.
  intros Ha Hs HQ. destruct (about_lease _ _ _ _ _ _ _ Ha Hs) as (t & Et & Ht).
  eapply runs_lease; [exact Et | by apply HQ].
Qed.

Lemma timeouts_set w h p : timeouts w (set_timeouts w h p) = h.
Proof. by destruct w. Qed.

Lemma runs_on_heap q d p b d1 w op (Q : unit -> db -> Prop) :
  about q d p b d1 -> let h := op (older_in (subs d1)) (timeouts w p) in
  NoDup (heap_array h) -> (forall x, x ∈ heap_array h -> is_Some (b !! x)) ->
  (forall d2, about q d (set_timeouts w h p) b d2 -> indexed (subs d2) (heap_array h) -> keeps (heap_array h) d1 d2 -> Q tt d2) ->
  runs (on_heap w q op) d1 Q.
Proof.
  intros Ha h Hn Hb HQ. apply db_bind. eapply runs_pool; [by eapply about_pool|]. apply db_bind, db_get, db_bind.
  eapply runs_set_the_pool; [exact Ha|]. intros d2 Hd Hm. fold h in Hd |- *. apply db_modify. apply HQ.
  - destruct Hd as [H1 H2 H3 H4 H5 H6 H7]. split; try done. unfold bodies in *. cbn. by rewrite reindex_body.
  - cbn. rewrite Hm. apply indexed_reindex; [done|]. intros x Hx. eapply about_some; [exact Ha | by apply Hb].
  - intros h' Hh Hi. cbn. rewrite Hm. by apply indexed_reindex_off.
Qed.

(** ** Back to the invariant *)

Lemma bodies_lookup d x s : bodies d !! x = Some s <-> exists t, subs d !! x = Some t /\ body t = s.
Proof. unfold bodies. rewrite lookup_fmap. destruct (subs d !! x); naive_solver. Qed.

Lemma Inv_same d d' E :
  subs d' = subs d -> pls d' = pls d -> ias d' = ias d -> pools d' = pools d ->
  ia_na_active d' = ia_na_active d -> ia_ta_active d' = ia_ta_active d -> ia_pd_active d' = ia_pd_active d ->
  Inv d E -> Inv d' E.
Proof.
  intros E1 E2 E3 E4 E5 E6 E7 [[R S] [C1 C2 C3] I3 I4 I5]. unfold registered, shaped in *.
  unfold lease_refs, ia_refs, pool_refs in *. split.
  - split; unfold registered, shaped; rewrite ?E2, ?E3, ?E4; done.
  - split; unfold lease_refs, ia_refs, pool_refs; rewrite ?E1, ?E2, ?E3, ?E4, ?E5, ?E6, ?E7; done.
  - by rewrite E1.
  - by rewrite E3.
  - rewrite E2. intros q p Hp. destruct (I5 q p Hp). split; unfold bodies; rewrite ?E1; done.
Qed.

Lemma about_same d d' E q p : pls d !! q = Some p -> about q d p (bodies d) d' -> subs d' = subs d -> Inv d E -> Inv d' E.
Proof. intros Hp [A1 A2 A3 A4 A5 A6 A7] Hs. apply Inv_same; try done. by rewrite A1, insert_id. Qed.

Lemma keeps_trans a d1 d2 d3 : keeps a d1 d2 -> keeps a d2 d3 -> keeps a d1 d3.
Proof. unfold keeps. auto. Qed.

Lemma keeps_mono a a' d d' : (forall x, x ∈ a -> x ∈ a') -> keeps a d d' -> keeps a' d d'.
Proof. intros Ha H h Hh. apply H. intros x Hx Hx'. by apply (Hh x), Ha. Qed.

Lemma keeps_all a d d' : (forall h, indexed (subs d) h -> indexed (subs d') h) -> keeps a d d'.
Proof. intros H h _. apply H. Qed.

(** A lease of pool [q] is in no other pool. *)
Lemma outside_other d E q q' p x s :
  Inv d E -> bodies d !! x = Some s -> lease_pool s = Some q -> q' <> q -> pls d !! q' = Some p ->
  outside x (heap_array (active_timeouts p)) (heap_array (inactive_timeouts p)) (hash_elems (leases p)).
Proof.
  intros I Hx Hs Hq Hp. destruct (pool_members _ _ _ (inv_pools _ _ I _ _ Hp)) as [_ M2 M3 _ M5].
  unfold outside. rewrite !elem_of_app, list_elem_of_fmap. intros [H|[H|([k y] & Hk & H)]].
  - destruct (M2 x H) as (t & Ht & Hpt & _). congruence.
  - destruct (M3 x H) as (t & Ht & Hpt & _). congruence.
  - cbn in Hk. subst y. destruct (M5 k x H) as (t & Ht & _ & [H'|H']); [|congruence].
    destruct (M2 x H') as (t' & Ht' & Hpt' & _). congruence.
Qed.

(** The elements of the heaps of a pool. *)
Definition on_heaps p : list id := heap_array (active_timeouts p) ++ heap_array (inactive_timeouts p).

Lemma on_heaps_mine d E q p x : Inv d E -> pls d !! q = Some p -> x ∈ on_heaps p ->
  exists s, bodies d !! x = Some s /\ lease_pool s = Some q.
Proof.
  intros I Hp. destruct (pool_members _ _ _ (inv_pools _ _ I _ _ Hp)) as [_ M2 M3 _ _].
  unfold on_heaps. rewrite elem_of_app. intros [H|H].
  - destruct (M2 x H) as (s & ? & ? & _). eauto.
  - destruct (M3 x H) as (s & ? & ? & _). eauto.
Qed.

Lemma others_indexed d E q p x s d' q' p' w :
  Inv d E -> pls d !! q = Some p -> bodies d !! x = Some s -> lease_pool s = Some q ->
  keeps (x :: on_heaps p) d d' -> q' <> q -> pls d !! q' = Some p' -> indexed (subs d') (heap_array (timeouts w p')).
Proof.
  intros I Hp Hx Hs Hk Hq Hp'. apply Hk; [|by apply (pool_indexed _ _ _ (inv_pools _ _ I _ _ Hp'))].
  intros y Hy Hm. assert (exists t, bodies d !! y = Some t /\ lease_pool t = Some q) as (t & Ht & Hpt).
  { apply elem_of_cons in Hm as [->|Hm]; [eauto | by eapply on_heaps_mine]. }
  eapply (outside_other d E q q' p' y); try done. destruct w; cbn in Hy; set_solver.
Qed.

(** The lease [x] of pool [q] and the pool changed. *)
Lemma about_Inv d E E' q p p' x s s' d' :
  Inv d E -> pls d !! q = Some p -> about q d p' (<[x := s']> (bodies d)) d' -> bodies d !! x = Some s ->
  lease_pool s = Some q -> lease_pool s' = lease_pool s -> lease_ia s' = lease_ia s -> 0 < refcnt s' ->
  (forall y, occ y (pool_leases p') + occ y (xl E') = occ y (pool_leases p) + occ y (xl E) + one y x * (refcnt s' - refcnt s)) ->
  pool_refcnt p' = pool_refcnt p -> xi E' = xi E -> xp E' = xp E ->
  keeps (x :: on_heaps p) d d' -> pool_ok d' q p' -> Inv d' E'.
Proof.
  intros I Hp [A1 A2 A3 A4 A5 A6 A7] Hx Hs Hs1 Hs2 Hs3 Ho Hr Hi Hxp Hk Hok.
  assert (forall f, (forall t, f (body t) = f t) -> f s' = f s -> forall y, occ y (gather f (subs d')) = occ y (gather f (subs d))) as G.
  { intros f Hf Hfs y. rewrite <- (gather_fmap f body (subs d')), <- (gather_fmap f body (subs d)) by done.
    fold (bodies d') (bodies d). rewrite A2, (gather_insert f _ _ s), Hfs by done. lia. }
  assert (forall y, held refcnt (subs d') y = held refcnt (subs d) y + one y x * (refcnt s' - refcnt s)) as Hh.
  { intros y. rewrite <- (held_fmap refcnt body (subs d')), <- (held_fmap refcnt body (subs d)) by done.
    fold (bodies d') (bodies d). rewrite A2, held_insert. unfold one. case_bool_decide; [subst; rewrite (held_here _ _ _ s) by done|]; lia. }
  pose proof (inv_ready _ _ I) as [R S]. destruct (inv_counts _ _ I) as [C1 C2 C3]. split.
  - split; unfold registered, shaped; rewrite ?A1, ?A3, ?A4; [|done]. intros q' p0. rewrite lookup_insert. case_decide; [|apply R].
    intros _. subst. by eapply R.
  - split; intros y.
    + specialize (C1 y). specialize (Ho y). rewrite Hh, <- C1. unfold lease_refs. rewrite A1, A3, !occ_app, (gather_insert _ _ _ p) by done. lia.
    + rewrite A3, Hi, <- C2. unfold ia_refs. rewrite A5, A6, A7, !occ_app, G by (unfold the_ia; try done; by rewrite Hs2). lia.
    + rewrite A1, Hxp. specialize (C3 y). unfold pool_refs in *. rewrite A4, !occ_app in *.
      rewrite G by (unfold the_pool; try done; by rewrite Hs1). rewrite held_insert, Hr. case_bool_decide; [subst|]; [|lia].
      rewrite (held_here _ _ _ p) in C3 by done. lia.
  - intros y t Ht. assert (bodies d' !! y = Some (body t)) as Hy by (apply bodies_lookup; eauto). rewrite A2, lookup_insert in Hy.
    case_decide; [by simplify_eq|]. apply bodies_lookup in Hy as (t' & Ht' & Et). change (0 < refcnt (body t)).
    rewrite <- Et. exact (inv_subs _ _ I y _ Ht').
  - rewrite A3. apply I.
  - rewrite A1. intros q' p0. rewrite lookup_insert. case_decide as Hq; [intros [= <-]; by subst|]. intros Hp0.
    pose proof (outside_other d E q q' p0 x s I Hx Hs (not_eq_sym Hq) Hp0) as Hout.
    destruct (inv_pools _ _ I _ _ Hp0) as [P1 P2 P3 P4 P5]. split; try done.
    + rewrite A2. by apply members_off.
    + eapply ordered_key; [|exact P4]. intros y Hy. rewrite <- !bodies_key, A2, lookup_insert_ne; [done|].
      intros ->. apply Hout. set_solver.
    + intros w. eapply (others_indexed d E q p x s); try done; by apply not_eq_sym.
Qed.

Lemma runs_heap_delete q d p b d1 w (k : nat) l (Q : unit -> db -> Prop) :
  about q d p b d1 -> NoDup (heap_array (timeouts w p)) -> (forall x, x ∈ heap_array (timeouts w p) -> is_Some (b !! x)) ->
  heap_array (timeouts w p) !! k = Some l ->
  (forall h d2, h = heap_delete (older_in (subs d1)) (S k) (timeouts w p) -> heap_array (timeouts w p) ≡ₚ l :: heap_array h ->
     about q d (set_timeouts w h p) b d2 -> indexed (subs d2) (heap_array h) -> keeps (heap_array h) d1 d2 -> Q tt d2) ->
  runs (isc_heap_delete w q (Z.of_nat k + 1)) d1 Q.
Proof.
  intros Ha Hn Hb Hk HQ. apply db_bind. eapply runs_pool; [by eapply about_pool|].
  apply lookup_lt_Some in Hk as Hl. destruct (_ && _) eqn:G; [|lia].
  pose proof (heap_delete_array (older_in (subs d1)) k l _ Hk) as Hperm. replace (Z.to_nat (Z.of_nat k + 1)) with (S k) by lia.
  eapply runs_on_heap; [exact Ha | | | intros; by eapply HQ].
  - rewrite Hperm in Hn. by apply NoDup_cons in Hn as [_ Hn].
  - intros x Hx. apply Hb. rewrite Hperm. set_solver.
Qed.

Lemma runs_heap_adjust q d p b d1 w (k : nat) op l (Q : unit -> db -> Prop) :
  about q d p b d1 -> NoDup (heap_array (timeouts w p)) -> (forall x, x ∈ heap_array (timeouts w p) -> is_Some (b !! x)) ->
  heap_array (timeouts w p) !! k = Some l -> (forall older h, heap_array h !! k = Some l -> heap_array (op older (S k) h) ≡ₚ heap_array h) ->
  (forall h d2, h = op (older_in (subs d1)) (S k) (timeouts w p) -> heap_array h ≡ₚ heap_array (timeouts w p) ->
     about q d (set_timeouts w h p) b d2 -> indexed (subs d2) (heap_array h) -> keeps (heap_array h) d1 d2 -> Q tt d2) ->
  runs (at_index w q (Z.of_nat k + 1) op) d1 Q.
Proof.
  intros Ha Hn Hb Hk Hop HQ. apply db_bind. eapply runs_pool; [by eapply about_pool|].
  apply lookup_lt_Some in Hk as Hl. destruct (_ && _) eqn:G; [|lia]. replace (Z.to_nat (Z.of_nat k + 1)) with (S k) by lia.
  pose proof (Hop (older_in (subs d1)) (timeouts w p) Hk) as Hperm.
  eapply runs_on_heap; [exact Ha | by rewrite Hperm | | intros; by eapply HQ]. intros x. rewrite Hperm. apply Hb.
Qed.

Section Memory.
Context (mem : nat -> bool).

Lemma runs_dmalloc q d p b d1 (Q : bool -> db -> Prop) :
  about q d p b d1 -> (forall ok d2, ok = mem (allocs d1) -> about q d p b d2 -> subs d2 = subs d1 -> Q ok d2) -> runs (dmalloc mem) d1 Q.
Proof. intros [] HQ. by apply HQ. Qed.

Lemma runs_heap_insert q d p b d1 w l (Q : isc_result -> db -> Prop) :
  about q d p b d1 -> NoDup (l :: heap_array (timeouts w p)) ->
  (forall x, x ∈ l :: heap_array (timeouts w p) -> is_Some (b !! x)) ->
  (forall d2, mem (allocs d1) = false -> about q d p b d2 -> subs d2 = subs d1 -> Q ISC_R_NOMEMORY d2) ->
  (forall h d2, h = heap_insert (older_in (subs d1)) l (timeouts w p) -> heap_array h ≡ₚ l :: heap_array (timeouts w p) ->
     about q d (set_timeouts w h p) b d2 -> indexed (subs d2) (heap_array h) -> keeps (heap_array h) d1 d2 -> Q ISC_R_SUCCESS d2) ->
  runs (isc_heap_insert mem w q l) d1 Q.
Proof.
  intros Ha Hn Hb Q1 Q2. apply db_bind. eapply runs_dmalloc; [exact Ha|]. intros [] d2 Hok Hd Hm; [|by apply db_ret, Q1].
  pose proof (heap_insert_array (older_in (subs d1)) l (timeouts w p)) as Hperm.
  apply db_bind. eapply runs_on_heap; [exact Hd | | |]; rewrite Hm; cbn.
  - by rewrite Hperm.
  - intros x. rewrite Hperm. apply Hb.
  - intros d3 H3 Hi Hk. apply db_ret. eapply Q2; eauto. intros h' Hh Hi'. apply Hk; [done|]. by rewrite Hm.
Qed.

End Memory.

(** ** Tables *)

Lemma runs_leases_add q d p b d1 k l s (Q : unit -> db -> Prop) :
  about q d p b d1 -> b !! l = Some s ->
  (forall d2, about q d (set_leases (hash_add k l (leases p)) p) (<[l := set_refcnt (refcnt s + 1) s]> b) d2 ->
     (forall h, indexed (subs d1) h -> indexed (subs d2) h) -> Q tt d2) ->
  runs (leases_add q k l) d1 Q.
Proof.
  intros Ha Hs HQ. apply db_bind, db_bind. eapply runs_set_the_lease; [apply _ | exact Ha | exact Hs|].
  intros d2 H2 Hi. apply db_ret. eapply runs_set_the_pool; [exact H2|]. intros d3 H3 Hm. apply HQ; [exact H3|].
  rewrite Hm. exact Hi.
Qed.

(** Another reference remains. *)
Lemma runs_dereference_keep (fuel : nat) q d p b d1 l s (Q : isc_result -> db -> Prop) :
  about q d p b d1 -> b !! l = Some s -> 2 <= refcnt s -> (0 < fuel)%nat ->
  (forall d2, about q d p (<[l := set_refcnt (refcnt s - 1) s]> b) d2 ->
     (forall h, indexed (subs d1) h -> indexed (subs d2) h) -> Q ISC_R_SUCCESS d2) ->
  runs (iasubopt_dereference fuel (Some l)) d1 Q.
Proof.
  intros Ha Hs Hr Hf HQ. destruct fuel as [|n]; [lia|].
  assert (count_down (refcnt s) = refcnt s - 1) as Hc by (unfold count_down; destruct (_ <? _) eqn:G; lia).
  apply db_bind. eapply runs_set_the_lease; [apply _ | exact Ha | exact Hs|]. rewrite Hc. intros d2 H2 Hi.
  apply db_bind. eapply runs_read; [exact H2 | apply lookup_insert_eq|]. intros t Ht Hb.
  assert (refcnt t = refcnt s - 1) as Hrt by (change (refcnt (body t) = refcnt s - 1); by rewrite Hb).
  destruct (refcnt t =? 0) eqn:G; [lia|]. by apply db_ret, HQ.
Qed.

Lemma runs_leases_delete (fuel : nat) q d p b d1 k l s (Q : unit -> db -> Prop) :
  about q d p b d1 -> hash_lookup k (leases p) = Some l -> b !! l = Some s -> 2 <= refcnt s -> (0 < fuel)%nat ->
  (forall d2, about q d (set_leases (hash_delete k (leases p)) p) (<[l := set_refcnt (refcnt s - 1) s]> b) d2 ->
     (forall h, indexed (subs d1) h -> indexed (subs d2) h) -> Q tt d2) ->
  runs (leases_delete fuel q k) d1 Q.
Proof.
  intros Ha Hk Hs Hr Hf HQ. apply db_bind. eapply runs_pool; [by eapply about_pool|]. rewrite Hk.
  apply db_bind. eapply runs_set_the_pool; [exact Ha|]. intros d2 H2 Hm. apply db_bind.
  eapply runs_dereference_keep; [exact H2 | exact Hs | done | done|]. intros d3 H3 Hi. apply db_ret, HQ; [exact H3|].
  rewrite Hm in Hi. exact Hi.
Qed.

Lemma hash_lookup_unique k x p :
  NoDup (hash_elems (leases p)).*1 -> (k, x) ∈ hash_elems (leases p) -> hash_lookup k (leases p) = Some x.
Proof.
  intros Hn Hx. destruct (hash_lookup k (leases p)) as [y|] eqn:E; [|by apply hash_lookup_None with (v := x) in E].
  apply hash_lookup_Some in E. f_equal. apply list_elem_of_lookup in Hx as [i Hi], E as [j Hj].
  assert (i = j) as ->; [|congruence]. eapply NoDup_lookup; [exact Hn | |]; rewrite list_lookup_fmap; [rewrite Hi | rewrite Hj]; done.
Qed.

(** ** A lease becomes active *)

Lemma runs_count q d p b d1 w v (Q : unit -> db -> Prop) :
  about q d p b d1 ->
  (forall d2, about q d (match w with Active => set_active (num_active p + v) (active_timeouts p) p
                         | Inactive => set_inactive (num_inactive p + v) (inactive_timeouts p) p end) b d2 ->
     subs d2 = subs d1 -> Q tt d2) ->
  runs (count w q v) d1 Q.
Proof. intros Ha HQ. eapply runs_set_the_pool; [exact Ha|]. by destruct w. Qed.

(** The lease keeps its times: heaps stay in order. *)
Lemma ordered_insert d d' x s s' h :
  bodies d' = <[x := s']> (bodies d) -> bodies d !! x = Some s -> key s' = key s ->
  ordered (subs d) h -> ordered (subs d') h.
Proof.
  intros Hb Hs Hk. apply ordered_key. intros y _. rewrite <- !bodies_key, Hb, lookup_insert. case_decide; [subst|done].
  rewrite Hs. cbn. by rewrite Hk.
Qed.

(** What is known of a lease on a heap. *)
Lemma lease_on_heap d E q p x w :
  Inv d E -> pls d !! q = Some p -> x ∈ heap_array (timeouts w p) ->
  exists k s, heap_array (timeouts w p) !! k = Some x /\ subs d !! x = Some s /\ heap_index s = Z.of_nat k + 1 /\
    bodies d !! x = Some (body s) /\ lease_pool s = Some q /\ side_of (state s) = w.
Proof.
  intros I Hp Hx. destruct (inv_pools _ _ I _ _ Hp) as [[_ M2 M3 _ _] _ _ _ P5].
  apply list_elem_of_lookup in Hx as Hk. destruct Hk as [k Hk]. destruct (P5 w k x Hk) as (s & Es & Hi).
  assert (bodies d !! x = Some (body s)) as Hb by (apply bodies_lookup; eauto). exists k, s.
  destruct w; cbn in Hx; [destruct (M2 x Hx) as (t & Ht & Hq & Ha & _) | destruct (M3 x Hx) as (t & Ht & Hq & Ha)];
    rewrite Hb in Ht; injection Ht as <-; repeat split; try done; unfold side_of; change (state (body s)) with (state s) in Ha; by rewrite Ha.
Qed.

Lemma on_heaps_NoDup d E q p : Inv d E -> pls d !! q = Some p -> NoDup (on_heaps p).
Proof. intros I Hp. apply (inv_pools _ _ I _ _ Hp). Qed.

Lemma on_heaps_some d E q p x : Inv d E -> pls d !! q = Some p -> x ∈ on_heaps p -> is_Some (bodies d !! x).
Proof. intros I Hp Hx. destruct (on_heaps_mine _ _ _ _ _ I Hp Hx) as (s & Hs & _). eauto. Qed.

(** ** Dropping a reference *)

Lemma members_dropped b b' q A I T :
  dropped refcnt set_refcnt b b' -> (forall x, x ∈ A ++ I ++ T.*2 -> is_Some (b' !! x)) ->
  members b q A I T -> members b' q A I T.
Proof.
  intros Hd Hsome [H1 H2 H3 H4 H5]. assert (forall x s, x ∈ A ++ I ++ T.*2 -> b !! x = Some s -> exists n, b' !! x = Some (set_refcnt n s)) as Hx.
  { intros x s Hx Hs. destruct (Hsome x Hx) as [s' Hs']. destruct (dropped_back _ _ _ _ _ _ Hd Hs') as (s0 & Hs0 & Heq & _).
    exists (refcnt s'). rewrite Hs'. congruence. }
  split; try done.
  - intros x Ha. destruct (H2 x Ha) as (s & Hs & R). destruct (Hx x s) as [n Hn]; [set_solver | done|]. by exists (set_refcnt n s).
  - intros x Ha. destruct (H3 x Ha) as (s & Hs & R). destruct (Hx x s) as [n Hn]; [set_solver | done|]. by exists (set_refcnt n s).
  - intros k x Ht. destruct (H5 k x Ht) as (s & Hs & R). destruct (Hx x s) as [n Hn]; [|done|by exists (set_refcnt n s)].
    rewrite !elem_of_app, list_elem_of_fmap. right. right. by exists (k, x).
Qed.

Lemma dropped_body m m' : dropped refcnt set_refcnt m m' -> dropped refcnt set_refcnt (body <$> m) (body <$> m').
Proof.
  intros Hd x. specialize (Hd x). rewrite !lookup_fmap. unfold dropped1 in *. destruct (m !! x), (m' !! x); cbn in *; try done.
  destruct Hd as (Heq & H1 & H2). split; [|done]. rewrite Heq at 1. done.
Qed.

Lemma Inv_drops d d' E E' : drops d d' -> counts d' E' -> Inv d E -> Inv d' E'.
Proof.
  intros Hd C I. pose proof (drops_ready _ _ Hd (inv_ready _ _ I)) as R. destruct Hd as [D1 D2 D3 D4 D5]. split; try done.
  - intros x s Hs. destruct (dropped_back _ _ _ _ _ _ D1 Hs) as (s0 & Hs0 & _ & Hp). by apply Hp, (inv_subs _ _ I x).
  - intros x s Hs. destruct (dropped_back _ _ _ _ _ _ D2 Hs) as (s0 & Hs0 & _ & Hp). by apply Hp, (inv_ias _ _ I x).
  - intros q p Hp. destruct (dropped_back _ _ _ _ _ _ D3 Hp) as (p0 & Hp0 & Heq & _).
    assert (forall x, x ∈ pool_leases p0 -> is_Some (subs d' !! x)) as Hsome.
    { intros x Hx. destruct (counted_alive _ _ _ x (counts_subs _ _ C)) as (s & Hs & _); [|by eexists].
      apply elem_of_app. left. unfold lease_refs. apply elem_of_app. left. eapply gather_elem; [exact Hp|]. by rewrite Heq. }
    destruct (inv_pools _ _ I _ _ Hp0) as [M N1 N2 O X]. rewrite Heq. split; cbn; try done.
    + eapply members_dropped; [by apply dropped_body | | exact M]. intros x Hx. unfold bodies. rewrite lookup_fmap.
      destruct (Hsome x Hx) as [s ->]. by eexists.
    + eapply ordered_key; [|exact O]. intros x Hx. destruct (Hsome x) as [s' Hs']; [unfold pool_leases; set_solver|].
      destruct (dropped_back _ _ _ _ _ _ D1 Hs') as (s & Hs & Hse & _). rewrite Hs, Hs'. cbn. by rewrite Hse.
    + intros w. replace (timeouts w (set_pool_refcnt (pool_refcnt p) p0)) with (timeouts w p0) by (by destruct w).
      eapply indexed_dropped; [exact D1 | | apply X]. intros x Hx. apply Hsome. unfold pool_leases. destruct w; cbn in Hx; set_solver.
Qed.

Lemma lease_drop_Inv fuel d E l : Inv d (with_lease l E) -> (in_use d < fuel)%nat ->
  runs (iasubopt_dereference fuel (Some l)) d (fun r d' => r = ISC_R_SUCCESS /\ Inv d' E /\ drops d d').
Proof.
  intros I F. eapply runs_mono; [apply lease_dereference_ok; [apply I | apply I | exact F]|].
  intros r d' (-> & C & D). split; [done|]. split; [by eapply Inv_drops | done].
Qed.

Lemma ia_drop_Inv fuel d E l : Inv d (with_ia l E) -> (in_use d < fuel)%nat ->
  runs (ia_dereference fuel (Some l)) d (fun r d' => r = ISC_R_SUCCESS /\ Inv d' E /\ drops d d').
Proof.
  intros I F. eapply runs_mono; [apply ia_dereference_ok; [apply I | apply I | exact F]|].
  intros r d' (-> & C & D). split; [done|]. split; [by eapply Inv_drops | done].
Qed.

Lemma pool_drop_Inv fuel d E q : Inv d (with_pool q E) -> (0 < fuel)%nat ->
  runs (ipv6_pool_dereference fuel (Some q)) d (fun r d' => r = ISC_R_SUCCESS /\ Inv d' E /\ drops d d').
Proof.
  intros I F. eapply runs_mono; [apply pool_dereference_ok; [exact F | apply I | apply I]|].
  intros r d' (-> & C & D). split; [done|]. split; [by eapply Inv_drops | done].
Qed.

(** ** Objects in use *)

Lemma live_bodies d : live refcnt (subs d) = live refcnt (bodies d).
Proof.
  apply set_eq. intros x. rewrite !elem_of_live. unfold bodies. rewrite lookup_fmap. destruct (subs d !! x) as [s|]; cbn; [|naive_solver].
  split; intros (t & [= <-] & Ht); eexists; split; done.
Qed.

Lemma in_use_bodies d d' : bodies d' = bodies d -> ias d' = ias d -> in_use d' = in_use d.
Proof. intros Hb Hi. unfold in_use. by rewrite Hi, !live_bodies, Hb. Qed.

Lemma in_use_insert d d' x s s' :
  bodies d' = <[x := s']> (bodies d) -> ias d' = ias d -> bodies d !! x = Some s -> 0 < refcnt s -> 0 < refcnt s' -> in_use d' = in_use d.
Proof. intros Hb Hi Hx Hs Hs'. unfold in_use. by rewrite Hi, !live_bodies, Hb, (live_put _ _ _ s). Qed.

Lemma in_use_new d l s : (in_use (put_sub l s d) <= in_use d + 1)%nat.
Proof.
  unfold in_use. cbn. assert (live refcnt (<[l := s]> (subs d)) ⊆ {[l]} ∪ live refcnt (subs d)) as Hsub.
  { intros y. rewrite elem_of_union, elem_of_singleton, !elem_of_live. intros (t & Ht & Hr). rewrite lookup_insert in Ht. case_decide; [by left|]. right. eauto. }
  apply subseteq_size in Hsub. rewrite size_union_alt, size_singleton in Hsub.
  assert (size (live refcnt (subs d) ∖ {[l]}) <= size (live refcnt (subs d)))%nat by (apply subseteq_size; set_solver). lia.
Qed.

End Inv.
