(* ===== verification/LeaseMoves.v ===== *)
(** * Operations on the leases of a pool keep the invariant *)

From S2P Require Import Prelude BindingStates V6Addr LeaseDb LeaseLaws LeaseRefs LeaseDrop LeasePool LeaseInv.

#[local] Open Scope Z_scope.
#[local] Hint Extern 0 (setter _) => split; reflexivity : typeclass_instances.

Section Moves.
Context `{HH : Hash, HL : !HashLaws} `{HP : Heap, PL : !HeapLaws} {ST : Strict}.
Implicit Types (d : db) (E : held_out) (p : ipv6_pool) (q l x : id).

(** The operation failed for lack of memory and changed nothing. *)
Definition unchanged d d' : Prop := subs d' = subs d /\ pls d' = pls d /\ in_use d' = in_use d /\
  forall type, active_table type d' = active_table type d.

(** ** To the active heap *)

Record to_active d q p x s d' : Prop := {
  ta_pool : exists p', about q d p' (<[x := body (set_state FTS_ACTIVE (set_refcnt (refcnt s + 1) s))]> (bodies d)) d' /\
    heap_array (active_timeouts p') ≡ₚ x :: heap_array (active_timeouts p) /\
    x :: heap_array (inactive_timeouts p') ≡ₚ heap_array (inactive_timeouts p) /\
    hash_elems (leases p') ≡ₚ (addr s, x) :: hash_elems (leases p)
}.

Lemma move_lease_to_active_ok (mem : nat -> bool) d E q p x s :
  Inv d E -> pls d !! q = Some p -> subs d !! x = Some s -> x ∈ heap_array (inactive_timeouts p) ->
  addr s ∉ (hash_elems (leases p)).*1 -> hard_lifetime_end_time s <= MAX_TIME ->
  runs (move_lease_to_active mem q x) d (fun r d' => Inv d' E /\
    ((r = ISC_R_NOMEMORY /\ mem (allocs d) = false /\ unchanged d d') \/ (r = ISC_R_SUCCESS /\ to_active d q p x s d'))).
Proof.
  intros I Hp Hs Hx Ht Hm. destruct (lease_on_heap d E q p x Inactive I Hp Hx) as (k & s0 & Hk & Es & Hi & Hb & Hq & Hst).
  rewrite Hs in Es. injection Es as <-. cbn in Hk, Hx.
  pose proof (on_heaps_NoDup _ _ _ _ I Hp) as Hn. apply NoDup_app in Hn as Hn'. destruct Hn' as (HnA & HnD & HnI).
  pose proof (fun y => on_heaps_some _ _ _ _ y I Hp) as Hsome. unfold on_heaps in Hsome.
  apply db_bind. eapply runs_lease; [exact Hs|]. apply db_bind.
  eapply runs_heap_insert; [by apply about_refl | | | |]; cbn.
  { apply NoDup_cons. split; [intros HA; by apply (HnD x HA) | done]. }
  { intros y Hy. apply Hsome. set_solver. }
  { intros d2 Hok H2 Hm2. apply db_ret. split; [by eapply about_same|]. left. split; [done|]. split; [done|]. split; [done|].
    split; [rewrite (about_pls _ _ _ _ _ H2); by apply insert_id|]. split; [unfold in_use; by rewrite Hm2, (about_ias _ _ _ _ _ H2)|].
    intros type. unfold active_table. by rewrite (about_na _ _ _ _ _ H2), (about_ta _ _ _ _ _ H2), (about_pd _ _ _ _ _ H2). }
  intros h d2 Hh HPh H2 Hi2 K2. apply db_bind, db_bind.
  eapply runs_leases_add; [exact H2 | exact Hb|]. intros d3 H3 Hi3. cbn in H3. apply db_bind. rewrite Hi.
  eapply runs_heap_delete; [exact H3 | exact HnI | | exact Hk |]; cbn.
  { intros y Hy. rewrite lookup_insert_is_Some. destruct (decide (x = y)); [by left|]. right. split; [done|]. apply Hsome. set_solver. }
  intros h' d4 Hh' HPh' H4 Hi4 K4. cbn in H4. apply db_bind. eapply runs_count; [exact H4|]. intros d5 H5 Hm5. cbn in H5.
  apply db_bind. eapply runs_count; [exact H5|]. intros d6 H6 Hm6. cbn in H6.
  eapply runs_set_the_lease; [apply _ | exact H6 | apply lookup_insert_eq|]. intros d7 H7 Hi7. cbn.
  rewrite insert_insert_eq in H7. cbn in H7. match type of H7 with about _ _ ?p0 (<[_ := ?s0]> _) _ => set (p' := p0) in *; set (s' := s0) in * end.
  rewrite Hm6, Hm5 in Hi7. assert (to_active d q p x s d7) as HT.
  { split. exists p'. split; [exact H7|]. cbn. split; [done|]. split; [by symmetry | apply hash_add_elems]. }
  split; [|by right]. eapply (about_Inv d E E q p p' x (body s) s' d7); try done.
  - unfold s'. cbn. pose proof (inv_subs _ _ I x s Hs). lia.
  - intros y. unfold pool_leases. cbn. rewrite !occ_app, (occ_perm _ _ _ HPh), (occ_perm _ _ _ HPh').
    rewrite (occ_perm y (hash_elems (hash_add _ _ _)).*2 ((addr s, x) :: hash_elems (leases p)).*2) by (by rewrite hash_add_elems).
    cbn. lia.
  - apply (keeps_trans _ d d2); [eapply keeps_mono; [|exact K2]; unfold on_heaps; intros y; rewrite HPh; set_solver|].
    apply (keeps_trans _ d2 d3); [by apply keeps_all|].
    apply (keeps_trans _ d3 d4); [|by apply keeps_all]. eapply keeps_mono; [|exact K4]. intros y Hy. unfold on_heaps. rewrite HPh'. set_solver.
  - destruct (inv_pools _ _ I _ _ Hp) as [M N1 N2 O X]. split; cbn.
    + rewrite (about_bodies _ _ _ _ _ H7), HPh, hash_add_elems. rewrite HPh' in M. change (addr s) with (addr s').
      apply (members_add_active _ _ _ _ _ _ s'); try done; [apply lookup_insert_eq | by apply outside_inactive with (b := bodies d) (q := q)|].
      apply members_off; [by apply outside_inactive with (b := bodies d) (q := q) | by apply members_take_inactive with (x := x)].
    + rewrite N1, HPh. cbn. lia.
    + rewrite N2, HPh'. cbn. lia.
    + eapply ordered_insert; [exact (about_bodies _ _ _ _ _ H7) | exact Hb | done|]. rewrite Hh. apply ordered_heap_insert. exact O.
    + intros []; cbn; apply Hi7; [|exact Hi4]. apply K4; [|by apply Hi3]. intros y. rewrite HPh. intros Hy Hy'.
      rewrite HPh' in HnI. apply NoDup_cons in HnI as [Hx' _]. apply elem_of_cons in Hy as [->|Hy]; [done|].
      apply (HnD y Hy). rewrite HPh'. set_solver.
Qed.

(** ** To the inactive heap *)

Lemma active_in_table d E q p x s :
  Inv d E -> pls d !! q = Some p -> subs d !! x = Some s -> x ∈ heap_array (active_timeouts p) ->
  (addr s, x) ∈ hash_elems (leases p) /\ hash_lookup (addr s) (leases p) = Some x.
Proof.
  intros I Hp Hs Hx. destruct (pool_members _ _ _ (inv_pools _ _ I _ _ Hp)) as [_ M2 _ M4 _].
  destruct (M2 x Hx) as (t & Ht & _ & _ & _ & Hin). apply bodies_lookup in Ht as (s' & Hs' & <-).
  rewrite Hs in Hs'. injection Hs' as <-. split; [exact Hin | by apply hash_lookup_unique].
Qed.

(** A lease on the active heap is also in the table: two references at least. *)
Lemma active_referred d E q p x s :
  Inv d E -> pls d !! q = Some p -> subs d !! x = Some s -> x ∈ heap_array (active_timeouts p) -> 2 <= refcnt s.
Proof.
  intros I Hp Hs Hx. destruct (active_in_table d E q p x s I Hp Hs Hx) as [Hin _].
  pose proof (counts_subs _ _ (inv_counts _ _ I) x) as C. rewrite (held_here _ _ _ s) in C by done. rewrite <- C.
  unfold lease_refs. rewrite !occ_app, (gather_delete _ _ q p) by done. unfold pool_leases. rewrite !occ_app.
  assert (x ∈ (hash_elems (leases p)).*2) as Hy by (apply list_elem_of_fmap; by exists (addr s, x)). rewrite occ_elem in Hx, Hy.
  pose proof (occ_nonneg x (heap_array (inactive_timeouts p))). pose proof (occ_nonneg x (gather ia_leases (ias d))).
  pose proof (occ_nonneg x (xl E)).
  match goal with |- context [gather ?f (delete ?k ?m)] => pose proof (occ_nonneg x (gather f (delete k m))) end. lia.
Qed.

Record to_inactive d q p x s st d' : Prop := {
  ti_pool : exists p', about q d p' (<[x := body (set_state st (set_refcnt (refcnt s - 1) (set_scope false s)))]> (bodies d)) d' /\
    x :: heap_array (active_timeouts p') ≡ₚ heap_array (active_timeouts p) /\
    heap_array (inactive_timeouts p') ≡ₚ x :: heap_array (inactive_timeouts p) /\
    (addr s, x) :: hash_elems (leases p') ≡ₚ hash_elems (leases p)
}.

Lemma runs_event q d p b d1 e (Q : unit -> db -> Prop) :
  about q d p b d1 -> (forall d2, about q d p b d2 -> subs d2 = subs d1 -> Q tt d2) -> runs (modify (add_event e)) d1 Q.
Proof. intros [] HQ. by apply HQ. Qed.

Lemma move_lease_to_inactive_ok (mem : nat -> bool) (fuel : nat) d E q p x s st :
  Inv d E -> pls d !! q = Some p -> subs d !! x = Some s -> x ∈ heap_array (active_timeouts p) ->
  on_active st = false -> (0 < fuel)%nat ->
  runs (move_lease_to_inactive mem fuel q x st) d (fun r d' => Inv d' E /\
    ((r = ISC_R_NOMEMORY /\ mem (allocs d) = false /\ unchanged d d') \/ (r = ISC_R_SUCCESS /\ to_inactive d q p x s st d'))).
Proof.
  intros I Hp Hs Hx Hst Hf. destruct (lease_on_heap d E q p x Active I Hp Hx) as (k & s0 & Hk & Es & Hi & Hb & Hq & _).
  rewrite Hs in Es. injection Es as <-. cbn in Hk, Hx.
  pose proof (on_heaps_NoDup _ _ _ _ I Hp) as Hn. apply NoDup_app in Hn as Hn'. destruct Hn' as (HnA & HnD & HnI).
  pose proof (fun y => on_heaps_some _ _ _ _ y I Hp) as Hsome. unfold on_heaps in Hsome.
  destruct (active_in_table _ _ _ _ _ _ I Hp Hs Hx) as [HT HTl]. pose proof (active_referred _ _ _ _ _ _ I Hp Hs Hx) as Hr.
  apply db_bind. eapply runs_lease; [exact Hs|]. apply db_bind.
  eapply runs_heap_insert; [by apply about_refl | | | |]; cbn.
  { apply NoDup_cons. split; [by apply HnD | done]. }
  { intros y Hy. apply Hsome. set_solver. }
  { intros d2 Hok H2 Hm2. apply db_ret. split; [by eapply about_same|]. left. split; [done|]. split; [done|]. split; [done|].
    split; [rewrite (about_pls _ _ _ _ _ H2); by apply insert_id|]. split; [unfold in_use; by rewrite Hm2, (about_ias _ _ _ _ _ H2)|].
    intros type. unfold active_table. by rewrite (about_na _ _ _ _ _ H2), (about_ta _ _ _ _ _ H2), (about_pd _ _ _ _ _ H2). }
  intros h d2 Hh HPh H2 Hi2 K2. cbn in H2. apply db_bind, db_bind. eapply runs_pool; [by eapply about_pool|].
  apply db_bind. eapply runs_mono with (Q := fun _ d3 => about q d (set_inactive (num_inactive p) h p) (bodies d) d3 /\ subs d3 = subs d2).
  { destruct (negb _); [|by apply db_ret]. by eapply runs_event. }
  intros _ d3 [H3 Hm3]. apply db_bind. eapply runs_set_the_lease; [apply _ | exact H3 | exact Hb|]. intros d4 H4 Hi4. rewrite Hm3 in Hi4.
  apply db_bind. eapply runs_leases_delete; [exact H4 | exact HTl | apply lookup_insert_eq | done | done|]. cbn.
  intros d5 H5 Hi5. rewrite insert_insert_eq in H5. apply db_bind. rewrite Hi.
  eapply runs_heap_delete; [exact H5 | exact HnA | | exact Hk |]; cbn.
  { intros y Hy. rewrite lookup_insert_is_Some. destruct (decide (x = y)); [by left|]. right. split; [done|]. apply Hsome. set_solver. }
  intros h' d6 Hh' HPh' H6 Hi6 K6. cbn in H6. apply db_bind.
  eapply runs_set_the_lease; [apply _ | exact H6 | apply lookup_insert_eq|]. intros d7 H7 Hi7. rewrite insert_insert_eq in H7.
  apply db_bind. eapply runs_count; [exact H7|]. intros d8 H8 Hm8. cbn in H8. eapply runs_count; [exact H8|]. intros d9 H9 Hm9. cbn in H9 |- *.
  match type of H9 with about _ _ ?p0 (<[_ := ?s0]> _) _ => set (p' := p0) in *; set (s' := s0) in * end.
  rewrite <- Hm8, <- Hm9 in Hi7. pose proof (hash_delete_elems _ _ _ HTl) as HPt. assert (to_inactive d q p x s st d9) as HTo.
  { split. exists p'. split; [exact H9|]. cbn. split; [by symmetry|]. split; [done | by symmetry]. }
  split; [|by right]. eapply (about_Inv d E E q p p' x (body s) s' d9); try done.
  - unfold s'. cbn. lia.
  - intros y. unfold pool_leases. cbn. rewrite !occ_app, (occ_perm _ _ _ HPh), (occ_perm _ _ _ HPh').
    rewrite (occ_perm y (hash_elems (leases p)).*2 ((addr s, x) :: hash_elems (hash_delete (addr s) (leases p))).*2) by (by rewrite <- HPt).
    cbn. lia.
  - apply (keeps_trans _ d d2); [eapply keeps_mono; [|exact K2]; unfold on_heaps; intros y; rewrite HPh; set_solver|].
    apply (keeps_trans _ d2 d4); [by apply keeps_all|]. apply (keeps_trans _ d4 d5); [by apply keeps_all|].
    apply (keeps_trans _ d5 d6); [|by apply keeps_all]. eapply keeps_mono; [|exact K6]. intros y Hy. unfold on_heaps. rewrite HPh'. set_solver.
  - destruct (inv_pools _ _ I _ _ Hp) as [M N1 N2 O X]. rewrite HPt in M. split; cbn.
    + rewrite (about_bodies _ _ _ _ _ H9), HPh. rewrite HPh' in M.
      apply (members_add_inactive _ _ _ _ _ _ s'); try done; [apply lookup_insert_eq | by eapply (outside_active (bodies d) q)|].
      apply members_off; [by eapply (outside_active (bodies d) q) | by eapply (members_take_active _ _ x)].
    + rewrite N1, HPh'. cbn. lia.
    + rewrite N2, HPh. cbn. lia.
    + apply (ordered_key (subs d5)).
      { intros y _. rewrite <- !bodies_key, (about_bodies _ _ _ _ _ H5), (about_bodies _ _ _ _ _ H9), !lookup_insert. by case_decide. }
      rewrite Hh'. eapply ordered_heap_delete; [exact Hk|].
      by eapply ordered_insert; [exact (about_bodies _ _ _ _ _ H5) | exact Hb | done|].
    + intros []; cbn; apply Hi7; [exact Hi6|]. apply K6; [|by apply Hi5, Hi4]. intros y. rewrite HPh. intros Hy Hy'.
      rewrite HPh' in HnA. apply NoDup_cons in HnA as [Hx' _]. apply elem_of_cons in Hy as [->|Hy]; [done|].
      apply (HnD y); [rewrite HPh'; set_solver | done].
Qed.

(** ** On the active heap *)

(** Lease [x] is now [s']; nothing came to or left the pool. *)
Record adjusted d q p x s' d' : Prop := {
  adjusted_pool : exists p', about q d p' (<[x := body s']> (bodies d)) d' /\
    heap_array (active_timeouts p') ≡ₚ heap_array (active_timeouts p) /\
    inactive_timeouts p' = inactive_timeouts p /\ leases p' = leases p
}.

(** Only the times, the state and the like of a lease differ. *)
Definition same_place (s s' : iasubopt) : Prop :=
  addr s' = addr s /\ refcnt s' = refcnt s /\ lease_ia s' = lease_ia s /\ lease_pool s' = lease_pool s.

Lemma older_in_lookup m x y s t : m !! x = Some s -> m !! y = Some t -> older_in m x y = lease_older s t.
Proof. unfold older_in. by intros -> ->. Qed.

Lemma lease_older_irrefl s : lease_older s s = false.
Proof. unfold lease_older. by rewrite Z.eqb_refl, Z.ltb_irrefl. Qed.

Lemma lease_older_mono_l s s' t : lease_older s' s = false -> lease_older s' t = true -> lease_older s t = true.
Proof. unfold lease_older. intros. repeat match goal with H : context [if ?c then _ else _] |- _ => destruct c eqn:? | |- context [if ?c then _ else _] => destruct c eqn:? end; lia. Qed.

Lemma lease_older_mono_r s s' t : lease_older s s' = false -> lease_older t s' = true -> lease_older t s = true.
Proof. unfold lease_older. intros. repeat match goal with H : context [if ?c then _ else _] |- _ => destruct c eqn:? | |- context [if ?c then _ else _] => destruct c eqn:? end; lia. Qed.

(** The order of leases before and after [x] becomes [s']. *)
Section Order.
Context (d d1 : db) (x : id) (s s' : iasubopt) (Hs : subs d !! x = Some s).
Context (Hb : bodies d1 = <[x := body s']> (bodies d)).

Lemma order_off : agree_off x (older_in (subs d)) (older_in (subs d1)).
Proof.
  intros a b Ha Hb'. apply older_in_key; rewrite <- !bodies_key, Hb, lookup_insert_ne by done; done.
Qed.

Definition obj (m : gmap id iasubopt) (y : id) : iasubopt := default (mkSub 0 [] 0 0 false 0 0 None None 0) (m !! y).

Lemma lease_older_key s1 s2 t1 t2 : key s1 = key s2 -> key t1 = key t2 -> lease_older s1 t1 = lease_older s2 t2.
Proof. intros [= H1 H2] [= H3 H4]. unfold lease_older. by rewrite H1, H2, H3, H4. Qed.

Lemma order_here y : y <> x ->
  older_in (subs d) x y = lease_older s (obj (subs d) y) /\ older_in (subs d) y x = lease_older (obj (subs d) y) s /\
  older_in (subs d1) x y = lease_older s' (obj (subs d) y) /\ older_in (subs d1) y x = lease_older (obj (subs d) y) s'.
Proof.
  intros Hy. assert (key (obj (subs d1) x) = key s') as H1.
  { pose proof (bodies_key d1 x) as K. rewrite Hb, lookup_insert_eq in K. unfold obj. destruct (subs d1 !! x); [|done].
    injection K as K1 K2. unfold key. cbn. congruence. }
  assert (key (obj (subs d1) y) = key (obj (subs d) y)) as H2.
  { pose proof (bodies_key d1 y) as K. rewrite Hb, lookup_insert_ne, bodies_key in K by done. unfold obj.
    destruct (subs d1 !! y), (subs d !! y); try done. injection K as K1 K2. unfold key. cbn. congruence. }
  unfold older_in. fold (obj (subs d) x) (obj (subs d) y) (obj (subs d1) x) (obj (subs d1) y).
  assert (obj (subs d) x = s) as -> by (unfold obj; by rewrite Hs). repeat split; by apply lease_older_key.
Qed.

Lemma order_same_false m : older_in m x x = false.
Proof. apply lease_older_irrefl. Qed.

Lemma order_later : lease_older s' s = false ->
  (forall y, older_in (subs d) y x = true -> older_in (subs d1) y x = true) /\
  (forall y, older_in (subs d1) x y = true -> older_in (subs d) x y = true).
Proof.
  intros Ho. split; intros y; (destruct (decide (y = x)) as [->|Hy]; [by rewrite order_same_false|]);
    destruct (order_here y Hy) as (O1 & O2 & O3 & O4); rewrite ?O1, ?O2, ?O3, ?O4.
  - by apply lease_older_mono_r.
  - by apply lease_older_mono_l.
Qed.

Lemma order_sooner : lease_older s s' = false ->
  (forall y, older_in (subs d) x y = true -> older_in (subs d1) x y = true) /\
  (forall y, older_in (subs d1) y x = true -> older_in (subs d) y x = true).
Proof.
  intros Ho. split; intros y; (destruct (decide (y = x)) as [->|Hy]; [by rewrite order_same_false|]);
    destruct (order_here y Hy) as (O1 & O2 & O3 & O4); rewrite ?O1, ?O2, ?O3, ?O4.
  - intros Hy'. by eapply lease_older_mono_l.
  - by apply lease_older_mono_r.
Qed.

End Order.

Lemma adjust_ok d E q p x s s' d1 (k : nat) op :
  Inv d E -> pls d !! q = Some p -> subs d !! x = Some s -> heap_array (active_timeouts p) !! k = Some x ->
  about q d p (<[x := body s']> (bodies d)) d1 -> (forall h, indexed (subs d) h -> indexed (subs d1) h) ->
  same_place s s' -> on_active (state s') = true -> hard_lifetime_end_time s' <= MAX_TIME ->
  (op = heap_decreased /\ (strict = true -> lease_older s' s = false)) \/ (op = heap_increased /\ (strict = true -> lease_older s s' = false)) ->
  runs (at_index Active q (Z.of_nat k + 1) op) d1 (fun _ d' => Inv d' E /\ adjusted d q p x s' d').
Proof.
  intros I Hp Hs Hk H1 Hi1 (Ha & Hr & Hia & Hpo) Hst Hm Hop. apply list_elem_of_lookup_2 in Hk as Hx.
  destruct (lease_on_heap d E q p x Active I Hp Hx) as (k0 & s0 & _ & Es & _ & Hb & Hq & _). rewrite Hs in Es. injection Es as <-.
  pose proof (on_heaps_NoDup _ _ _ _ I Hp) as Hn. apply NoDup_app in Hn as Hn'. destruct Hn' as (HnA & HnD & HnI).
  pose proof (fun y => on_heaps_some _ _ _ _ y I Hp) as Hsome. unfold on_heaps in Hsome.
  eapply runs_heap_adjust; [exact H1 | exact HnA | | exact Hk | |]; cbn.
  { intros y Hy. rewrite lookup_insert_is_Some. destruct (decide (x = y)); [by left|]. right. split; [done|]. apply Hsome. set_solver. }
  { destruct Hop as [[-> _]|[-> _]]; intros older h; [apply heap_decreased_array | apply heap_increased_array]. }
  intros h d2 Hh HPh H2 Hi2 K2. cbn in H2. set (p' := set_active _ h p) in *. split; [|by split; exists p'].
  eapply (about_Inv d E E q p p' x (body s) (body s') d2); try done.
  - cbn. rewrite Hr. by apply (inv_subs _ _ I x).
  - intros y. cbn. rewrite Hr. unfold pool_leases. cbn. rewrite !occ_app, (occ_perm _ _ _ HPh). lia.
  - apply (keeps_trans _ d d1); [by apply keeps_all|]. eapply keeps_mono; [|exact K2]. unfold on_heaps. intros y. rewrite HPh. set_solver.
  - destruct (inv_pools _ _ I _ _ Hp) as [M N1 N2 O X]. destruct (active_in_table _ _ _ _ _ _ I Hp Hs Hx) as [HT HTl].
    pose proof (hash_delete_elems _ _ _ HTl) as HPt. apply delete_Permutation in Hk as HPk.
    set (T' := hash_elems (hash_delete (addr s) (leases p))) in *. clearbody T'. split; cbn.
    + rewrite (about_bodies _ _ _ _ _ H2), HPh. rewrite HPt, HPk in M |- *. rewrite <- Ha.
      change (addr s') with (addr (body s')). apply (members_add_active _ _ _ _ _ _ (body s')); try done.
      * apply lookup_insert_eq.
      * cbn. congruence.
      * cbn. rewrite Ha. apply (members_keys _ _ _ _ _) in M. cbn in M. by apply NoDup_cons in M as [M _].
      * by eapply (outside_active (bodies d) q).
      * apply members_off; [by eapply (outside_active (bodies d) q) | by eapply (members_take_active _ _ x)].
    + rewrite N1, HPh. done.
    + done.
    + apply (ordered_key (subs d1)).
      { intros y _. by rewrite <- !bodies_key, (about_bodies _ _ _ _ _ H1), (about_bodies _ _ _ _ _ H2). }
      rewrite Hh. intros S. specialize (O S). pose proof (order_off d d1 x s' (about_bodies _ _ _ _ _ H1)) as Hoff. destruct Hop as [[-> Ho]|[-> Ho]]; specialize (Ho S).
      * destruct (order_later d d1 x s s' Hs (about_bodies _ _ _ _ _ H1) Ho). by eapply heap_decreased_ok; [apply older_in_weak | ..].
      * destruct (order_sooner d d1 x s s' Hs (about_bodies _ _ _ _ _ H1) Ho). by eapply heap_increased_ok; [apply older_in_weak | ..].
    + intros []; cbn; [exact Hi2|]. apply K2; [|by apply Hi1, (X Inactive)]. intros y Hy. rewrite HPh. intros Hy'. by apply (HnD y).
Qed.

End Moves.
