(* ===== verification/LeaseOps.v ===== *)
(** * The operations of the lease database keep its invariant *)

From S2P Require Import Prelude BindingStates V6Addr LeaseDb LeaseLaws LeaseRefs LeaseDrop LeasePool LeaseInv LeaseMoves.

#[local] Open Scope Z_scope.
#[local] Hint Extern 0 (setter _) => split; reflexivity : typeclass_instances.

Section Ops.
Context `{HH : Hash, HL : !HashLaws} `{HP : Heap, PL : !HeapLaws} {ST : Strict} (mem : nat -> bool).
Implicit Types (d : db) (E : held_out) (p : ipv6_pool) (q l x : id).

(** ** Taking references *)

Lemma drops_put_sub d l s n : subs d !! l = Some s -> 0 < refcnt s -> 0 < n -> drops d (put_sub l (set_refcnt n s) d).
Proof.
  intros Hs Hr Hn. split; cbn; try done.
  - apply dropped_insert; try done. by intros [].
  - apply dropped_refl. by intros [].
  - apply dropped_refl. by intros [].
Qed.

Lemma drops_put_ia d l (s : ia_xx) n : ias d !! l = Some s -> 0 < ia_refcnt s -> 0 < n -> drops d (put_ia l (set_ia_refcnt n s) d).
Proof.
  intros Hs Hr Hn. split; cbn; try done.
  - apply dropped_refl. by intros [].
  - apply dropped_insert; try done. by intros [].
  - apply dropped_refl. by intros [].
Qed.

Lemma drops_put_pool d q p n : pls d !! q = Some p -> 0 < pool_refcnt p -> 0 < n -> drops d (put_pool q (set_pool_refcnt n p) d).
Proof.
  intros Hs Hr Hn. split; cbn; try done.
  - apply dropped_refl. by intros [].
  - apply dropped_refl. by intros [].
  - apply dropped_insert; try done. by intros [].
  - intros y. rewrite lookup_insert_is_Some. destruct (decide (q = y)); tauto.
Qed.

Lemma take_lease d E l s : Inv d E -> subs d !! l = Some s -> Inv (put_sub l (set_refcnt (refcnt s + 1) s) d) (with_lease l E).
Proof.
  intros I Hs. pose proof (inv_subs _ _ I l s Hs). eapply Inv_drops; [apply (drops_put_sub d l s); (done || lia) | | exact I].
  eapply counts_put_sub; [done | apply I | | done | done]. intros y. cbn. lia.
Qed.

Lemma take_ia d E l (s : ia_xx) : Inv d E -> ias d !! l = Some s -> Inv (put_ia l (set_ia_refcnt (ia_refcnt s + 1) s) d) (with_ia l E).
Proof.
  intros I Hs. pose proof (inv_ias _ _ I l s Hs). eapply Inv_drops; [apply (drops_put_ia d l s); (done || lia) | | exact I].
  eapply counts_put_ia; [done | apply I | | done | done]. intros y. cbn. lia.
Qed.

Lemma pool_count d E q p : Inv d E -> pls d !! q = Some p -> 0 < pool_refcnt p.
Proof.
  intros I Hp. pose proof (proj1 (inv_ready _ _ I) q p Hp) as Hr. pose proof (counts_pls _ _ (inv_counts _ _ I) q) as C.
  rewrite (held_here _ _ _ p) in C by done. unfold pool_refs in C. rewrite !occ_app in C. rewrite occ_elem in Hr.
  pose proof (occ_nonneg q (gather the_pool (subs d))). pose proof (occ_nonneg q (xp E)). lia.
Qed.

Lemma take_pool d E q p : Inv d E -> pls d !! q = Some p -> Inv (put_pool q (set_pool_refcnt (pool_refcnt p + 1) p) d) (with_pool q E).
Proof.
  intros I Hp. pose proof (pool_count _ _ _ _ I Hp). eapply Inv_drops; [apply (drops_put_pool d q p); (done || lia) | | exact I].
  eapply counts_put_pool; [done | apply I | | done | done]. intros y. cbn. lia.
Qed.

(** ** Renewing, declining, releasing, expiring *)

(** Nothing but an inactive lease's own data changes. *)
Lemma set_times_inactive d E q p x s h t :
  Inv d E -> pls d !! q = Some p -> subs d !! x = Some s -> x ∈ heap_array (inactive_timeouts p) ->
  Inv (put_sub x (set_soft t (set_hard h s)) d) E.
Proof.
  intros I Hp Hs Hx. destruct (lease_on_heap d E q p x Inactive I Hp Hx) as (k & s0 & Hk & Es & Hi & Hb & Hq & Hst).
  rewrite Hs in Es. injection Es as <-. set (s' := set_soft t (set_hard h s)).
  eapply (about_Inv d E E q p p x (body s) (body s')); try done.
  - split; cbn; try done; [by rewrite insert_id|]. unfold bodies. cbn. by rewrite body_insert.
  - cbn. by apply (inv_subs _ _ I x).
  - intros y. cbn. lia.
  - apply keeps_all. intros hp. by eapply indexed_insert.
  - destruct (inv_pools _ _ I _ _ Hp) as [M N1 N2 O X]. apply elem_of_Permutation in Hx as [l Hl].
    assert (outside x (heap_array (active_timeouts p)) l (hash_elems (leases p))) as Hout by (rewrite Hl in M; by eapply outside_inactive).
    split; cbn; try done.
    + unfold bodies. cbn. rewrite body_insert. fold (bodies d). rewrite Hl in M |- *.
      apply (members_add_inactive _ _ _ _ _ _ (body s')); try done; [apply lookup_insert_eq | |].
      * cbn. unfold side_of in Hst. by destruct (on_active (state s)).
      * apply members_off; [done | by eapply members_take_inactive].
    + eapply ordered_key; [|exact O]. intros y Hy. rewrite lookup_insert_ne; [done|]. intros ->. apply Hout. set_solver.
    + intros w. by eapply indexed_insert.
Qed.

(** [renew_lease6] on a lease whose times the caller has set. *)
Definition renew_with q x (hard soft : Z) : D isc_result :=
  set_lease x (set_hard hard) ;; set_lease x (set_soft soft) ;; renew_lease6 mem q x.

(** When a lease may be renewed with new times: one that is in use or declined always
    (only for longer or not for longer, if that is how leases are renewed), and any other
    one only if its address is not in use. *)
Definition may_renew p x (s : iasubopt) (hard soft : Z) : Prop :=
  hard <= MAX_TIME /\
  ((x ∈ heap_array (active_timeouts p) /\ state s = FTS_ACTIVE /\ (strict = true -> lease_older (set_soft soft (set_hard hard s)) s = false)) \/
   (x ∈ heap_array (active_timeouts p) /\ state s = FTS_ABANDONED /\ (strict = true -> lease_older s (set_soft soft (set_hard hard s)) = false)) \/
   (x ∈ heap_array (inactive_timeouts p) /\ addr s ∉ (hash_elems (leases p)).*1)).

(** The addresses of a pool that are taken. *)
Definition taken p : gset (list Z) := list_to_set (hash_elems (leases p)).*1.
Definition taken_in q d : gset (list Z) := match pls d !! q with Some p => taken p | None => ∅ end.

Lemma taken_about q d p b d' : about q d p b d' -> taken_in q d' = taken p.
Proof. intros Ha. unfold taken_in. by rewrite (about_pool _ _ _ _ _ Ha). Qed.

Lemma taken_add p p' a x : hash_elems (leases p') ≡ₚ (a, x) :: hash_elems (leases p) -> taken p' = {[a]} ∪ taken p.
Proof. intros Hh. unfold taken. apply set_eq. intros k. rewrite elem_of_list_to_set, Hh. cbn. rewrite elem_of_cons, elem_of_union, elem_of_singleton, elem_of_list_to_set. done. Qed.

Lemma taken_remove p p' a x :
  NoDup (hash_elems (leases p)).*1 -> (a, x) :: hash_elems (leases p') ≡ₚ hash_elems (leases p) -> taken p' = taken p ∖ {[a]}.
Proof.
  intros Hn Hh. rewrite <- Hh in Hn. cbn in Hn. apply NoDup_cons in Hn as [Hn _]. unfold taken. apply set_eq. intros k.
  rewrite elem_of_difference, !elem_of_list_to_set, <- Hh, elem_of_singleton. cbn. rewrite elem_of_cons. split; [|tauto].
  intros Hk. split; [by right|]. by intros ->.
Qed.

Lemma taken_active d E q p x s :
  Inv d E -> pls d !! q = Some p -> subs d !! x = Some s -> x ∈ heap_array (active_timeouts p) -> taken p = {[addr s]} ∪ taken p.
Proof.
  intros I Hp Hs Hx. destruct (active_in_table _ _ _ _ _ _ I Hp Hs Hx) as [HT _].
  assert (addr s ∈ taken p); [|set_solver]. unfold taken. apply elem_of_list_to_set, list_elem_of_fmap. by exists (addr s, x).
Qed.

(** The lease is on the active heap in state [st]. *)
Definition held_as q x st d' : Prop :=
  exists p' s', pls d' !! q = Some p' /\ x ∈ heap_array (active_timeouts p') /\ subs d' !! x = Some s' /\ state s' = st.

Lemma about_put_sub q d p x (s' : iasubopt) : pls d !! q = Some p -> about q d p (<[x := body s']> (bodies d)) (put_sub x s' d).
Proof. intros Hp. split; cbn; try done; [by rewrite insert_id|]. unfold bodies. cbn. by rewrite body_insert. Qed.

Lemma about_state q d p b d' x s : about q d p b d' -> b !! x = Some s -> x ∈ heap_array (active_timeouts p) -> held_as q x (state s) d'.
Proof.
  intros Ha Hb Hx. destruct (about_lease _ _ _ _ _ _ _ Ha Hb) as (t & Ht & <-). exists p, t. split; [by eapply about_pool|]. done.
Qed.

Lemma adjusted_state d q p x s' d' : x ∈ heap_array (active_timeouts p) -> adjusted d q p x s' d' -> held_as q x (state s') d'.
Proof.
  intros Hx [(p' & Ha & HPa & _)]. change (state s') with (state (body s')). eapply about_state; [exact Ha | apply lookup_insert_eq|].
  by rewrite HPa.
Qed.

Lemma to_active_state d q p x s d' : to_active d q p x s d' -> held_as q x FTS_ACTIVE d'.
Proof.
  intros [(p' & Ha & HPa & _)]. change FTS_ACTIVE with (state (body (set_state FTS_ACTIVE (set_refcnt (refcnt s + 1) s)))).
  eapply about_state; [exact Ha | apply lookup_insert_eq|]. rewrite HPa. set_solver.
Qed.

Lemma adjusted_taken d q p x s' d' : adjusted d q p x s' d' -> taken_in q d' = taken p.
Proof. intros [(p' & Ha & _ & _ & Hl)]. rewrite (taken_about _ _ _ _ _ Ha). unfold taken. by rewrite Hl. Qed.

Lemma to_active_taken d q p x s d' : to_active d q p x s d' -> taken_in q d' = {[addr s]} ∪ taken p.
Proof. intros [(p' & Ha & _ & _ & Hl)]. rewrite (taken_about _ _ _ _ _ Ha). by eapply taken_add. Qed.

Lemma to_inactive_taken d E q p x s st d' :
  Inv d E -> pls d !! q = Some p -> to_inactive d q p x s st d' -> taken_in q d' = taken p ∖ {[addr s]}.
Proof.
  intros I Hp [(p' & Ha & _ & _ & Hl)]. rewrite (taken_about _ _ _ _ _ Ha). eapply taken_remove; [|exact Hl]. apply (inv_pools _ _ I q p Hp).
Qed.

Lemma put_put_sub x s1 s2 d : put_sub x s2 (put_sub x s1 d) = put_sub x s2 d.
Proof. unfold put_sub. cbn. by rewrite insert_insert_eq. Qed.

Lemma renew_ok d E q p x s hard soft :
  Inv d E -> pls d !! q = Some p -> subs d !! x = Some s -> may_renew p x s hard soft ->
  runs (renew_with q x hard soft) d (fun r d' => Inv d' E /\ (r = ISC_R_NOMEMORY /\ taken_in q d' = taken p \/
    (r = ISC_R_SUCCESS /\ held_as q x FTS_ACTIVE d' /\ taken_in q d' = {[addr s]} ∪ taken p))).
Proof.
  intros I Hp Hs [Hm Hc]. set (s' := set_soft soft (set_hard hard s)) in *.
  apply db_bind. eapply runs_set_lease; [exact Hs|]. apply db_bind. eapply runs_set_lease; [apply lookup_insert_eq|].
  rewrite put_put_sub. change (set_soft soft (set_hard hard s)) with s'.
  pose proof (about_put_sub q d p x s' Hp) as Ha. assert (forall h, indexed (subs d) h -> indexed (subs (put_sub x s' d)) h) as Hi.
  { intros h. by eapply indexed_insert. }
  apply db_bind. eapply runs_lease; [apply lookup_insert_eq|]. destruct Hc as [(Hx & Hst & Ho)|[(Hx & Hst & Ho)|(Hx & Hk)]].
  - change (state s') with (state s). rewrite Hst. cbn. apply db_bind.
    destruct (lease_on_heap d E q p x Active I Hp Hx) as (k & s0 & Hk & Es & Hix & _). rewrite Hs in Es. injection Es as <-. rewrite Hix.
    eapply runs_mono; [eapply (adjust_ok d E q p x s s'); try done; [cbn; by rewrite Hst | by left]|].
    intros _ d' [I' Had]. split; [done|]. right. split; [done|]. rewrite <- Hst. split; [by eapply (adjusted_state d q p x s')|].
    rewrite <- (taken_active d E q p x s) by done. by eapply adjusted_taken.
  - change (state s') with (state s). rewrite Hst. cbn. apply db_bind.
    destruct (lease_on_heap d E q p x Active I Hp Hx) as (k & s0 & Hk & Es & Hix & _). rewrite Hs in Es. injection Es as <-. rewrite Hix.
    eapply runs_set_the_lease; [apply _ | exact Ha | apply lookup_insert_eq|]. rewrite insert_insert_eq. intros d1 H1 Hi1. apply db_bind.
    eapply runs_mono; [eapply (adjust_ok d E q p x s (set_state FTS_ACTIVE s')); try done; [auto | by right]|].
    intros _ d' [I' Had]. split; [done|]. right. split; [done|].
    split; [by eapply (adjusted_state d q p x (set_state FTS_ACTIVE s'))|]. rewrite <- (taken_active d E q p x s) by done. by eapply adjusted_taken.
  - destruct (lease_on_heap d E q p x Inactive I Hp Hx) as (k & s0 & _ & Es & _ & _ & _ & Hst). rewrite Hs in Es. injection Es as <-.
    unfold side_of, on_active in Hst. change (state s') with (state s). destruct (state s =? FTS_ACTIVE); [done|]. destruct (state s =? FTS_ABANDONED); [done|].
    eapply runs_mono; [eapply (move_lease_to_active_ok mem (put_sub x s' d) E q p x s'); try done|].
    + by eapply set_times_inactive.
    + apply lookup_insert_eq.
    + intros r d' [I' [(-> & _ & _ & Hu & _)|[-> Hta]]]; (split; [done|]); [left | right].
      * split; [done|]. unfold taken_in. rewrite Hu. cbn. by rewrite Hp.
      * split; [done|]. split; [by eapply to_active_state | exact (to_active_taken _ _ _ _ _ _ Hta)].
Qed.

(** ** Declining and releasing *)

Lemma decline_active d E q p x s :
  Inv d E -> pls d !! q = Some p -> subs d !! x = Some s -> x ∈ heap_array (active_timeouts p) ->
  runs (set_lease x (set_state FTS_ABANDONED) ;; set_lease x (set_hard MAX_TIME) ;;
        s ← lease x; isc_heap_decreased Active q (heap_index s) ;; mret ISC_R_SUCCESS) d
    (fun r d' => Inv d' E /\ r = ISC_R_SUCCESS /\ held_as q x FTS_ABANDONED d' /\ taken_in q d' = taken p).
Proof.
  intros I Hp Hs Hx. destruct (lease_on_heap d E q p x Active I Hp Hx) as (k & s0 & Hk & Es & Hix & Hb & _). rewrite Hs in Es. injection Es as <-.
  set (s' := set_hard MAX_TIME (set_state FTS_ABANDONED s)).
  apply db_bind. eapply runs_set_lease; [exact Hs|]. apply db_bind. eapply runs_set_lease; [apply lookup_insert_eq|].
  rewrite put_put_sub. change (set_hard MAX_TIME (set_state FTS_ABANDONED s)) with s'. apply db_bind. eapply runs_lease; [apply lookup_insert_eq|].
  change (heap_index s') with (heap_index s). rewrite Hix. apply db_bind.
  destruct (members_active _ _ _ _ _ (pool_members _ _ _ (inv_pools _ _ I _ _ Hp)) x Hx) as (t & Ht & _ & _ & Hmax & _).
  rewrite Hb in Ht. injection Ht as <-. cbn in Hmax.
  eapply runs_mono; [eapply (adjust_ok d E q p x s s'); try done; [by apply about_put_sub | intros h; by eapply indexed_insert |]|].
  - left. split; [done|]. intros _. unfold lease_older. change (soft_lifetime_end_time s') with (soft_lifetime_end_time s).
    change (hard_lifetime_end_time s') with MAX_TIME. destruct (_ =? _); apply Z.ltb_ge; lia.
  - intros _ d' [I' Had]. split; [done|]. split; [done|]. split; [by eapply (adjusted_state d q p x s') | by eapply adjusted_taken].
Qed.

(** When a lease may be declined: it is in use, or its address is not. *)
Definition may_decline p x (s : iasubopt) : Prop :=
  x ∈ heap_array (active_timeouts p) \/
  (x ∈ heap_array (inactive_timeouts p) /\ addr s ∉ (hash_elems (leases p)).*1 /\ hard_lifetime_end_time s <= MAX_TIME).

Lemma decline_ok d E q p x s :
  Inv d E -> pls d !! q = Some p -> subs d !! x = Some s -> may_decline p x s ->
  runs (decline_lease6 mem q x) d (fun r d' => Inv d' E /\ (r = ISC_R_NOMEMORY /\ taken_in q d' = taken p \/
    (r = ISC_R_SUCCESS /\ held_as q x FTS_ABANDONED d' /\ taken_in q d' = {[addr s]} ∪ taken p))).
Proof.
  intros I Hp Hs Hc. apply db_bind. eapply runs_lease; [exact Hs|]. apply db_bind. destruct Hc as [Hx|(Hx & Hk & Hm)].
  - destruct (lease_on_heap d E q p x Active I Hp Hx) as (k & s0 & _ & Es & _ & _ & _ & Hst). rewrite Hs in Es. injection Es as <-.
    assert (negb (state s =? FTS_ACTIVE) && negb (state s =? FTS_ABANDONED) = false) as ->.
    { unfold side_of, on_active in Hst. destruct (state s =? FTS_ACTIVE), (state s =? FTS_ABANDONED); done. }
    apply db_ret. eapply runs_mono; [by eapply decline_active|]. cbn. intros r d' (I' & -> & Hh & Ht). split; [done|]. right. split; [done|]. split; [done|].
    by rewrite Ht, <- (taken_active d E q p x s).
  - destruct (lease_on_heap d E q p x Inactive I Hp Hx) as (k & s0 & _ & Es & _ & _ & _ & Hst). rewrite Hs in Es. injection Es as <-.
    assert (negb (state s =? FTS_ACTIVE) && negb (state s =? FTS_ABANDONED) = true) as ->.
    { unfold side_of, on_active in Hst. destruct (state s =? FTS_ACTIVE), (state s =? FTS_ABANDONED); done. }
    eapply runs_mono; [by eapply move_lease_to_active_ok|]. intros r d' [I' [(-> & _ & _ & Hu & _)|[-> Hta]]].
    { split; [done|]. left. split; [done|]. unfold taken_in. by rewrite Hu, Hp. }
    pose proof (to_active_taken _ _ _ _ _ _ Hta) as Ht1. apply to_active_state in Hta as (p' & s' & Hp' & Hx' & Hs' & _).
    eapply runs_mono; [by eapply decline_active|]. cbn. intros r d2 (I2 & -> & Hh & Ht). split; [done|]. right. split; [done|]. split; [done|].
    unfold taken_in in Ht1. rewrite Hp' in Ht1. congruence.
Qed.

Lemma release_ok fuel d E q p x s :
  Inv d E -> pls d !! q = Some p -> subs d !! x = Some s -> (state s = FTS_ACTIVE -> x ∈ heap_array (active_timeouts p)) -> (0 < fuel)%nat ->
  runs (release_lease6 mem fuel q x) d (fun r d' => Inv d' E /\
    ((r = ISC_R_NOMEMORY \/ (r = ISC_R_SUCCESS /\ state s <> FTS_ACTIVE)) /\ unchanged d d' \/ r = ISC_R_SUCCESS /\ to_inactive d q p x s FTS_RELEASED d')).
Proof.
  intros I Hp Hs Hx Hf. apply db_bind. eapply runs_lease; [exact Hs|]. destruct (state s =? FTS_ACTIVE) eqn:G; [|apply db_ret; split; [done|left; split; [right; split; [done | lia] | done]]].
  eapply runs_mono; [eapply move_lease_to_inactive_ok; try done; apply Hx; lia|]. cbn. intros r d' [I' H']. split; [done|]. tauto.
Qed.

(** The lease that is due, if there is one, is expired; the caller gets a reference. *)
Lemma expire_ok fuel d E q p now :
  Inv d E -> pls d !! q = Some p -> (0 < fuel)%nat ->
  runs (expire_lease6 mem fuel None q now) d (fun '(r, o) d' =>
    match o with
    | None => Inv d' E /\ unchanged d d' /\
        (r = ISC_R_NOMEMORY /\ mem (allocs d) = false \/ r = ISC_R_SUCCESS /\ (strict = true -> forall y t, y ∈ heap_array (active_timeouts p) -> subs d !! y = Some t -> now <= hard_lifetime_end_time t))
    | Some x => r = ISC_R_SUCCESS /\ exists s d1, subs d !! x = Some s /\ x ∈ heap_array (active_timeouts p) /\
        hard_lifetime_end_time s < now /\ to_inactive d q p x s FTS_EXPIRED d1 /\ Inv d1 E /\
        exists s1, subs d1 !! x = Some s1 /\ d' = put_sub x (set_refcnt (refcnt s1 + 1) s1) d1 /\ Inv d' (with_lease x E)
    end).
Proof.
  intros I Hp Hf. apply db_bind. eapply runs_pool; [exact Hp|]. destruct (inv_pools _ _ I _ _ Hp) as [M N1 N2 O X].
  destruct (0 <? num_active p) eqn:G; cycle 1.
  { apply db_ret. split; [done|]. split; [done|]. right. split; [done|]. intros _ y t Hy. destruct (heap_array (active_timeouts p)); [by apply not_elem_of_nil in Hy|]. cbn in N1. lia. }
  destruct (heap_array (active_timeouts p)) as [|x A] eqn:EA; [cbn in N1; lia|]. apply db_bind, db_bind. eapply runs_pool; [exact Hp|]. cbn. rewrite EA.
  eapply runs_deref; [done|]. destruct (lease_on_heap d E q p x Active I Hp) as (k & s & _ & Hs & _ & _); [cbn; rewrite EA; set_solver|].
  apply db_bind. eapply runs_lease; [exact Hs|]. destruct (_ <? now) eqn:G2; cycle 1.
  { apply db_ret. split; [done|]. split; [done|]. right. split; [done|]. intros S y t Hy Ht. specialize (O S).
    assert (older_in (subs d) y x = false) as Ho.
    { eapply heap_top_first; [apply older_in_weak | exact O | by rewrite EA | by rewrite EA]. }
    rewrite (older_in_lookup _ _ _ _ _ Ht Hs) in Ho. unfold lease_older in Ho. destruct (_ =? _) eqn:?; lia. }
  apply db_bind. assert (x ∈ heap_array (active_timeouts p)) as Hx by (rewrite EA; set_solver).
  eapply runs_mono; [by eapply move_lease_to_inactive_ok|]. intros r d1 [I1 [(-> & Hok & Hu)|[-> Ht]]]; [by split; [|split; [|left]]|].
  apply db_bind, db_bind. destruct (ti_pool _ _ _ _ _ _ _ Ht) as (p' & Ha & _).
  destruct (about_lease _ _ _ _ _ _ _ Ha (lookup_insert_eq _ _ _)) as (s1 & Hs1 & _). eapply runs_set_lease; [exact Hs1|]. apply db_ret.
  split; [done|]. exists s, d1. split; [done|]. split; [set_solver|]. split; [lia|]. split; [done|]. split; [done|]. exists s1. split; [done|]. split; [done|].
  by apply take_lease.
Qed.

End Ops.
