(* ===== verification/LeaseIa.v ===== *)
(** * Identity associations and the invariant *)

From S2P Require Import Prelude BindingStates V6Addr LeaseDb LeaseLaws LeaseRefs LeaseDrop LeasePool LeaseInv LeaseMoves LeaseOps.

#[local] Open Scope Z_scope.
#[local] Hint Extern 0 (setter _) => split; reflexivity : typeclass_instances.

Section Ia.
Context `{HH : Hash, HL : !HashLaws} `{HP : Heap, PL : !HeapLaws} {ST : Strict}.
Implicit Types (d : db) (E : held_out) (p : ipv6_pool) (q l x i : id).

(** ** Changes that pools do not see *)

Lemma members_same b b' q A I T :
  (forall x s, b !! x = Some s -> exists s', b' !! x = Some s' /\ addr s' = addr s /\ lease_pool s' = lease_pool s /\
     state s' = state s /\ hard_lifetime_end_time s' = hard_lifetime_end_time s) ->
  members b q A I T -> members b' q A I T.
Proof.
  intros Hb [H1 H2 H3 H4 H5]. split; try done.
  - intros x Hx. destruct (H2 x Hx) as (s & Hs & R). destruct (Hb x s Hs) as (s' & Hs' & E0 & E1 & E2 & E3). exists s'. by rewrite E0, E1, E2, E3.
  - intros x Hx. destruct (H3 x Hx) as (s & Hs & R). destruct (Hb x s Hs) as (s' & Hs' & _ & E1 & E2 & E3). exists s'. by rewrite E1, E2.
  - intros k x Hx. destruct (H5 k x Hx) as (s & Hs & R). destruct (Hb x s Hs) as (s' & Hs' & E0 & E1 & E2 & E3). exists s'. by rewrite E0, E1.
Qed.

Lemma Inv_put_link d E E' x s v : Inv d E -> subs d !! x = Some s -> counts (put_sub x (set_ia v s) d) E' -> Inv (put_sub x (set_ia v s) d) E'.
Proof.
  intros I Hs C. assert (forall y t, subs d !! y = Some t -> exists t', subs (put_sub x (set_ia v s) d) !! y = Some t' /\ set_ia None t' = set_ia None t) as Hsame.
  { intros y t Ht. cbn. rewrite lookup_insert. case_decide; [|eauto]. subst. eexists. split; [done|]. by rewrite Hs in Ht; injection Ht as <-. }
  split; [apply I | exact C | | apply I |].
  - intros y t. cbn. rewrite lookup_insert. case_decide; [intros [= <-]; exact (inv_subs _ _ I _ _ Hs) | apply (inv_subs _ _ I)].
  - intros q p Hp. destruct (inv_pools _ _ I q p Hp) as [M N1 N2 O X]. split; try done.
    + eapply members_same; [|exact M]. intros y t (t0 & Ht0 & <-)%bodies_lookup. destruct (Hsame y t0 Ht0) as (t' & Ht' & [=]).
      exists (body t'). split; [apply bodies_lookup; eauto | done].
    + eapply ordered_key; [|exact O]. intros y Hy. cbn. rewrite lookup_insert. case_decide; [subst; by rewrite Hs | done].
    + intros w. eapply indexed_insert; [exact Hs | done | apply X].
Qed.

Lemma Inv_put_ia d E E' i (s s' : ia_xx) :
  Inv d E -> ias d !! i = Some s -> counts (put_ia i s' d) E' -> 0 < ia_refcnt s' ->
  (num_iasubopt s' <= length (iasubopt_array s'))%nat -> Inv (put_ia i s' d) E'.
Proof.
  intros I Hs C Hr Hn. destruct (inv_ready _ _ I) as [R S]. split; [split; [exact R|] | exact C | apply I | |].
  - intros j t. cbn. rewrite lookup_insert. case_decide; [by intros [= <-] | apply S].
  - intros j t. cbn. rewrite lookup_insert. case_decide; [by intros [= <-] | apply (inv_ias _ _ I)].
  - intros q p Hp. destruct (inv_pools _ _ I q p Hp) as [M N1 N2 O X]. by split.
Qed.

(** ** Adding a lease to an association *)

(** The next slot is free: no pointer is left in it. *)
Definition next_free (s : ia_xx) : Prop := iasubopt_array s !! num_iasubopt s <> None -> iasubopt_array s !! num_iasubopt s = Some None.

Lemma occ_omap_app y (a a' : list (option id)) : occ y (omap (fun e => e) (a ++ a')) = occ y (omap (fun e => e) a) + occ y (omap (fun e => e) a').
Proof. induction a as [|e a IH]; [done|]. cbn [app]. rewrite !occ_omap_cons, IH. lia. Qed.

Lemma ia_leases_more y (s : ia_xx) (a : list (option id)) e :
  take (num_iasubopt s) a = take (num_iasubopt s) (iasubopt_array s) -> a !! num_iasubopt s = Some e ->
  occ y (ia_leases (set_array (S (num_iasubopt s)) a s)) = occ y (ia_leases s) + occ y (option_list e).
Proof.
  intros Ht He. unfold ia_leases. cbn [num_iasubopt iasubopt_array set_array]. rewrite (take_S_r _ _ _ He), Ht, occ_omap_app.
  by destruct e.
Qed.

Lemma runs_alloc (mem : nat -> bool) d (Q : bool -> db -> Prop) :
  Q (mem (allocs d)) (set_allocs (S (allocs d)) d) -> runs (dmalloc mem) d Q.
Proof. exact (fun H => H). Qed.

(** The second half of [ia_add_iasubopt]: the array has room. *)
Lemma ia_add_room d E i (si : ia_xx) l s :
  Inv d E -> ias d !! i = Some si -> iasubopt_array si !! num_iasubopt si = Some None -> subs d !! l = Some s ->
  runs (s ← ia i; e ← deref (iasubopt_array s !! num_iasubopt s); '(_, e) ← iasubopt_reference e (Some l);
        set_the_ia i (fun s => set_array (S (num_iasubopt s)) (<[num_iasubopt s := e]> (iasubopt_array s)) s) ;; mret ISC_R_SUCCESS) d
    (fun r d' => Inv d' E /\ r = ISC_R_SUCCESS /\ subs d' = <[l := set_refcnt (refcnt s + 1) s]> (subs d) /\
      ias d' = <[i := set_array (S (num_iasubopt si)) (<[num_iasubopt si := Some l]> (iasubopt_array si)) si]> (ias d) /\
      pls d' = pls d).
Proof.
  intros I Hi Hn Hs. apply db_bind. eapply runs_ia; [exact Hi|]. apply db_bind. eapply runs_deref; [exact Hn|].
  apply db_bind, db_bind. eapply runs_set_lease; [exact Hs|]. apply db_ret. cbn. apply db_bind.
  eapply runs_set_ia; [exact Hi|]. apply db_ret. split; [|done]. apply lookup_lt_Some in Hn as Hlen.
  pose proof (take_lease d E l s I Hs) as I1. eapply Inv_put_ia; [exact I1 | exact Hi | | exact (inv_ias _ _ I _ _ Hi) | cbn; rewrite length_insert; lia].
  eapply counts_put_ia; [exact Hi | apply I1 | | |]; intros y; [cbn; lia | | done].
  rewrite (ia_leases_more y si _ (Some l)); [cbn; lia | by rewrite take_insert_ge | by apply list_lookup_insert_eq].
Qed.

Lemma ia_add_ok (mem : nat -> bool) d E i (si : ia_xx) l s :
  Inv d E -> ias d !! i = Some si -> next_free si -> subs d !! l = Some s ->
  runs (ia_add_iasubopt mem i l) d (fun r d' => Inv d' E /\ pls d' = pls d /\
    ((r = ISC_R_NOMEMORY /\ subs d' = subs d /\ ias d' = ias d) \/
     (r = ISC_R_SUCCESS /\ subs d' = <[l := set_refcnt (refcnt s + 1) s]> (subs d) /\ exists si',
        ias d' = <[i := si']> (ias d) /\ ia_refcnt si' = ia_refcnt si /\ num_iasubopt si' = S (num_iasubopt si) /\
        iasubopt_array si' !! num_iasubopt si = Some (Some l) /\
        take (num_iasubopt si) (iasubopt_array si') = take (num_iasubopt si) (iasubopt_array si)))).
Proof.
  intros I Hi Hf Hs. pose proof (proj2 (inv_ready _ _ I) i si Hi) as Hlen.
  apply db_bind. eapply runs_ia; [exact Hi|]. apply db_bind. destruct (_ <=? _)%nat eqn:G.
  - apply db_bind, runs_alloc. set (d0 := set_allocs _ d). assert (Inv d0 E) as I0 by by apply (Inv_same d).
    destruct (mem (allocs d)); [|apply db_ret, db_ret; split; [done|]; split; [done | by left]].
    apply db_bind. eapply runs_set_ia; [exact Hi|]. apply db_ret. set (a := take _ _ ++ _).
    assert (length a = (length (iasubopt_array si) + 4)%nat) as La by (unfold a; rewrite length_app, length_take, length_replicate; lia).
    assert (take (num_iasubopt si) a = take (num_iasubopt si) (iasubopt_array si)) as Ta.
    { unfold a. rewrite take_app_le by (rewrite length_take; lia). by rewrite take_take, Nat.min_id. }
    assert (Inv (put_ia i (set_array (num_iasubopt si) a si) d0) E) as I1.
    { eapply Inv_put_ia; [exact I0 | exact Hi | | exact (inv_ias _ _ I _ _ Hi) | cbn; lia]. eapply counts_put_ia; [exact Hi | apply I0 | cbn; lia | | done].
      intros y. unfold ia_leases. cbn. by rewrite Ta. }
    eapply runs_mono; [eapply ia_add_room; [exact I1 | apply lookup_insert_eq | | exact Hs]|].
    { cbn. unfold a. rewrite lookup_app_r by (rewrite length_take; lia). rewrite length_take.
      replace (num_iasubopt si - _)%nat with O by lia. apply lookup_replicate_2. lia. }
    intros r d' (I' & -> & Hsubs & Hias & Hpls). split; [done|]. split; [exact Hpls|]. right. split; [done|]. split; [exact Hsubs|]. eexists.
    split; [rewrite Hias; cbn; by rewrite insert_insert_eq|]. cbn. split; [done|]. split; [done|].
    split; [apply list_lookup_insert_eq; lia | by rewrite take_insert_ge].
  - apply db_ret. eapply runs_mono; [eapply ia_add_room; [exact I | exact Hi | | exact Hs]|].
    { apply Hf. apply Nat.leb_gt in G. by apply lookup_lt_is_Some_2 in G as [e ->]. }
    intros r d' (I' & -> & Hsubs & Hias & Hpls). split; [done|]. split; [exact Hpls|]. right. split; [done|]. split; [exact Hsubs|]. eexists. split; [exact Hias|]. cbn. split; [done|]. split; [done|].
    apply Nat.leb_gt in G. split; [by apply list_lookup_insert_eq | by rewrite take_insert_ge].
Qed.

(** As the lease file is read: a lease becomes part of an association, and refers to it. *)
Definition attach (mem : nat -> bool) i l : D unit :=
  ia_add_iasubopt mem i l ;; s ← lease l; '(_, v) ← ia_reference (lease_ia s) (Some i); set_lease l (set_ia v).

Lemma attach_ok (mem : nat -> bool) d E i (si : ia_xx) l s :
  Inv d E -> ias d !! i = Some si -> next_free si -> subs d !! l = Some s -> lease_ia s = None ->
  runs (attach mem i l) d (fun _ d' => Inv d' E /\ pls d' = pls d /\ (in_use d' <= in_use d)%nat /\
    exists n, subs d' !! l = Some (set_ia (Some i) (set_refcnt n s))).
Proof.
  intros I Hi Hf Hs Hl. pose proof (inv_subs _ _ I l s Hs) as Hrl. pose proof (inv_ias _ _ I i si Hi) as Hri.
  apply db_bind. eapply runs_mono; [by eapply ia_add_ok|]. intros r d1 (I1 & P1 & Hr).
  assert (exists n (i1 : ia_xx), subs d1 !! l = Some (set_refcnt n s) /\ 0 < n /\ ias d1 !! i = Some i1 /\ (in_use d1 <= in_use d)%nat) as (n & i1 & Hs1 & Hn & Hi1 & F1).
  { destruct Hr as [(_ & Hsub & Hia)|(_ & Hsub & si' & Hia & Hrc & _)]; unfold in_use; rewrite Hsub, Hia.
    - exists (refcnt s), si. rewrite Hs. split; [by destruct s | done].
    - exists (refcnt s + 1), si'. rewrite !lookup_insert_eq. split; [done|]. split; [lia|]. split; [done|].
      rewrite (live_put _ _ _ s), (live_put _ _ _ si); try done; cbn; lia. }
  apply db_bind. eapply runs_lease; [exact Hs1|]. cbn [lease_ia set_refcnt]. rewrite Hl. apply db_bind, db_bind. eapply runs_set_ia; [exact Hi1|]. apply db_ret. cbn.
  eapply runs_set_lease; [exact Hs1|]. pose proof (take_ia d1 E i i1 I1 Hi1) as I2. split; [|split; [exact P1|]; split; [|exists n; apply lookup_insert_eq]].
  - eapply Inv_put_link; [exact I2 | exact Hs1|]. eapply counts_put_sub; [exact Hs1 | apply I2 | cbn; lia | | done]. intros y. unfold the_ia. cbn. rewrite Hl. cbn. lia.
  - pose proof (inv_ias _ _ I1 i i1 Hi1). unfold in_use in *. cbn. rewrite (live_put _ (subs d1) l (set_refcnt n s)), (live_put _ (ias d1) i i1); try done; cbn; lia.
Qed.

(** ** Removing a lease from an association *)

Lemma find_slot_Some n : forall k (a : list (option id)) l j, find_slot n k a l = Some j -> (k <= j < k + n)%nat /\ a !! j = Some (Some l).
Proof.
  induction n as [|n IH]; intros k a l j; cbn; [discriminate|]. case_bool_decide as G; [intros [= <-]; split; [lia | done]|].
  intros [H1 H2]%IH. split; [lia | done].
Qed.

Lemma move_down_take k num (a : list (option id)) : (k < num <= length a)%nat ->
  take (num - 1) (move_down k num a) = take k a ++ take (num - S k) (drop (S k) a).
Proof.
  intros Hk. unfold move_down. rewrite app_assoc. apply take_app_length'. rewrite length_app, !length_take, length_drop. lia.
Qed.

Lemma move_down_length k num (a : list (option id)) : (k < num <= length a)%nat -> length (move_down k num a) = length a.
Proof. intros Hk. unfold move_down. rewrite !length_app, !length_take, !length_drop. lia. Qed.

Lemma move_down_leases y k num (a : list (option id)) : (k < num <= length a)%nat -> a !! k = Some None ->
  occ y (omap (fun e => e) (take (num - 1) (move_down k num a))) = occ y (omap (fun e => e) (take num a)).
Proof.
  intros Hk Ha. rewrite move_down_take by done. replace num with (k + S (num - S k))%nat at 2 by lia.
  rewrite <- (take_drop k a) at 3. rewrite take_app_ge, length_take by (rewrite length_take; lia).
  replace (k + S (num - S k) - k `min` length a)%nat with (S (num - S k)) by lia. rewrite (drop_S _ _ _ Ha). cbn [take].
  rewrite !occ_omap_app, occ_omap_cons. cbn. lia.
Qed.

Lemma runs_ia_dereference_keep n i (s : ia_xx) d (Q : isc_result -> db -> Prop) :
  ias d !! i = Some s -> 2 <= ia_refcnt s -> (0 < n)%nat -> Q ISC_R_SUCCESS (put_ia i (set_ia_refcnt (ia_refcnt s - 1) s) d) ->
  runs (ia_dereference n (Some i)) d Q.
Proof.
  intros Hs Hr Hn HQ. destruct n as [|n]; [lia|]. assert (count_down (ia_refcnt s) = ia_refcnt s - 1) as Hc by (unfold count_down; destruct (_ <? _) eqn:G; lia).
  apply db_bind. eapply runs_set_ia; [exact Hs|]. rewrite Hc. apply db_bind. eapply runs_ia; [apply lookup_insert_eq|]. cbn.
  destruct (_ =? 0) eqn:G; [lia|]. by apply db_ret.
Qed.

Lemma put_put_ia i (s1 s2 : ia_xx) d : put_ia i s2 (put_ia i s1 d) = put_ia i s2 d.
Proof. unfold put_ia. cbn. by rewrite insert_insert_eq. Qed.

Lemma put_ia_sub i (s1 : ia_xx) x s2 d : put_ia i s1 (put_sub x s2 d) = put_sub x s2 (put_ia i s1 d).
Proof. done. Qed.

(** Pools are as before but for their counts. *)
Definition same_pools d d' : Prop := forall q p, pls d !! q = Some p -> exists n, pls d' !! q = Some (set_pool_refcnt n p).

Lemma same_pools_refl d d' : pls d' = pls d -> same_pools d d'.
Proof. intros E q p Hp. exists (pool_refcnt p). rewrite E, Hp. by destruct p. Qed.

Lemma same_pools_trans d1 d2 d3 : same_pools d1 d2 -> same_pools d2 d3 -> same_pools d1 d3.
Proof. intros H1 H2 q p Hp. destruct (H1 q p Hp) as [n Hn]. destruct (H2 _ _ Hn) as [m Hm]. by exists m. Qed.

Lemma drops_same_pools d d' : drops d d' -> same_pools d d'.
Proof.
  intros [_ _ D3 D4 _] q p Hp. destruct (D4 q) as [p' Hp']; [by eexists|]. exists (pool_refcnt p').
  destruct (dropped_back _ _ _ _ _ _ D3 Hp') as (p0 & Hp0 & Heq & _). rewrite Hp'. congruence.
Qed.

Lemma drops_rest_eq d d' : drops d d' -> rest d' = rest d.
Proof. by intros []. Qed.

(** No lease came, and those that are there have the times they had. *)
Definition same_keys d d' : Prop := forall x s', subs d' !! x = Some s' -> exists s, subs d !! x = Some s /\ key s' = key s.

Lemma same_keys_refl d d' : subs d' = subs d -> same_keys d d'.
Proof. intros E x s'. rewrite E. eauto. Qed.

Lemma same_keys_trans d1 d2 d3 : same_keys d1 d2 -> same_keys d2 d3 -> same_keys d1 d3.
Proof. intros H1 H2 x s Hs. destruct (H2 x s Hs) as (s2 & Hs2 & E2). destruct (H1 x s2 Hs2) as (s1 & Hs1 & E1). exists s1. split; [done | congruence]. Qed.

Lemma drops_same_keys d d' : drops d d' -> same_keys d d'.
Proof. intros [D _ _ _ _] x s' Hs'. destruct (dropped_back _ _ _ _ _ _ D Hs') as (s & Hs & Heq & _). exists s. by rewrite Heq. Qed.

(** An association that a lease and the outside refer to. *)
Lemma ia_referred_twice d E i (si : ia_xx) x s :
  counts d (with_ia i E) -> ias d !! i = Some si -> subs d !! x = Some s -> lease_ia s = Some i -> 2 <= ia_refcnt si.
Proof.
  intros C Hi Hs Hl. pose proof (counts_ias _ _ C i) as Ci. rewrite (held_here _ _ _ si) in Ci by done. unfold ia_refs in Ci. cbn in Ci.
  rewrite !occ_app in Ci. cbn in Ci. rewrite one_same in Ci.
  assert (i ∈ gather the_ia (subs d)) as Hin by (eapply gather_elem; [exact Hs|]; unfold the_ia; rewrite Hl; cbn; set_solver).
  rewrite occ_elem in Hin. pose proof (occ_nonneg i (xi E)). pose proof (occ_nonneg i (hash_elems (ia_na_active d)).*2).
  pose proof (occ_nonneg i (hash_elems (ia_ta_active d)).*2). pose proof (occ_nonneg i (hash_elems (ia_pd_active d)).*2). lia.
Qed.

(** The last part of [ia_remove_iasubopt]: slot [k] is empty. *)
Lemma ia_remove_rest d E i (si : ia_xx) x s k :
  Inv d (with_ia i E) -> ias d !! i = Some si -> subs d !! x = Some s -> lease_ia s = Some i ->
  (k < num_iasubopt si)%nat -> iasubopt_array si !! k = Some None ->
  Inv (put_ia i (set_array (num_iasubopt si - 1) (move_down k (num_iasubopt si) (iasubopt_array si)) (set_ia_refcnt (ia_refcnt si - 1) si))
        (put_sub x (set_ia None s) d)) (with_ia i E).
Proof.
  intros I Hi Hs Hl Hk Hn. pose proof (proj2 (inv_ready _ _ I) i si Hi) as Hlen.
  pose proof (ia_referred_twice d E i si x s (inv_counts _ _ I) Hi Hs Hl) as Hr.
  assert (Inv (put_sub x (set_ia None s) d) (with_ia i (with_ia i E))) as I1.
  { eapply Inv_put_link; [exact I | exact Hs|]. eapply counts_put_sub; [exact Hs | apply I | cbn; lia | | done].
    intros y. unfold the_ia. rewrite Hl. cbn. lia. }
  eapply Inv_put_ia; [exact I1 | exact Hi | | cbn; lia | cbn; rewrite move_down_length; lia].
  eapply counts_put_ia; [exact Hi | apply I1 | | | done]; intros y; [cbn; lia|].
  unfold ia_leases at 1. cbn [num_iasubopt iasubopt_array set_array]. rewrite move_down_leases by (done || lia). done.
Qed.

(** The caller refers to both. *)
Lemma ia_remove_ok fuel d E i (si : ia_xx) x s :
  Inv d (with_ia i (with_lease x E)) -> ias d !! i = Some si -> subs d !! x = Some s -> lease_ia s = Some i -> (in_use d < fuel)%nat ->
  runs (ia_remove_iasubopt fuel i x) d (fun _ d' => Inv d' (with_ia i (with_lease x E)) /\ (in_use d' <= in_use d)%nat /\
    same_pools d d' /\ rest d' = rest d /\ same_keys d d' /\
    forall k, find_slot (num_iasubopt si) 0 (iasubopt_array si) x = Some k -> exists n, ias d' !! i = Some (set_ia_refcnt n
      (set_array (num_iasubopt si - 1) (move_down k (num_iasubopt si) (<[k := None]> (iasubopt_array si))) si))).
Proof.
  intros I Hi Hs Hl F. apply db_bind. eapply runs_ia; [exact Hi|]. destruct (find_slot _ _ _ _) as [k|] eqn:Ek.
  2: { apply db_ret. split; [done|]. split; [lia|]. split; [by apply same_pools_refl|]. split; [done|]. split; [by apply same_keys_refl | done]. }
  apply find_slot_Some in Ek as [Hk Ek']. rename Ek' into Ek. pose proof (proj2 (inv_ready _ _ I) i si Hi) as Hlen. pose proof (inv_ias _ _ I i si Hi) as Hrc.
  set (E0 := with_ia i (with_lease x E)) in *. set (s1 := set_array (num_iasubopt si) (<[k := None]> (iasubopt_array si)) si).
  set (d1 := put_ia i s1 d). assert (Inv d1 (with_lease x E0)) as I1.
  { eapply Inv_put_ia; [exact I | exact Hi | | exact Hrc | cbn; rewrite length_insert; lia].
    eapply counts_put_ia; [exact Hi | apply I | cbn; lia | | done]. intros y.
    pose proof (ia_leases_insert y si k _ None ltac:(lia) Ek) as Hy. cbn in Hy |- *. fold s1 in Hy |- *. lia. }
  apply db_bind, db_bind. eapply runs_ia; [exact Hi|]. apply db_bind. eapply runs_deref; [exact Ek|].
  apply db_bind. eapply runs_set_ia; [exact Hi|]. apply db_ret. fold s1 d1. apply db_bind.
  assert (in_use d1 = in_use d) as F1 by (unfold in_use; cbn; by rewrite (live_put _ _ _ si)).
  eapply runs_mono; [apply lease_drop_Inv; [exact I1 | lia]|]. intros r d2 (_ & I2 & D2).
  destruct (counted_alive _ _ _ i (counts_ias _ _ (inv_counts _ _ I2))) as (i2 & Hi2 & _); [set_solver|].
  destruct (counted_alive _ _ _ x (counts_subs _ _ (inv_counts _ _ I2))) as (x2 & Hx2 & _); [set_solver|].
  destruct (dropped_back _ _ _ _ _ _ (drops_ias _ _ D2) Hi2) as (i1 & Hi1 & Ei & _). cbn in Hi1. rewrite lookup_insert_eq in Hi1. injection Hi1 as <-.
  destruct (dropped_back _ _ _ _ _ _ (drops_subs _ _ D2) Hx2) as (x1 & Hx1 & Ex & _). cbn in Hx1. rewrite Hs in Hx1. injection Hx1 as <-.
  assert (lease_ia x2 = Some i) as Hl2 by (by rewrite Ex). pose proof (ia_referred_twice d2 _ i i2 x x2 (inv_counts _ _ I2) Hi2 Hx2 Hl2) as Hr2.
  assert ((k < num_iasubopt i2)%nat /\ iasubopt_array i2 !! k = Some None) as [Hk2 Hn2].
  { rewrite Ei. cbn. split; [lia|]. apply list_lookup_insert_eq. by eapply lookup_lt_Some. }
  pose proof (ia_remove_rest d2 _ i i2 x x2 k I2 Hi2 Hx2 Hl2 Hk2 Hn2) as I3. pose proof (drops_in_use _ _ D2) as F2.
  apply db_bind. eapply runs_set_ia; [exact Hi2|]. apply db_bind. eapply runs_lease; [exact Hx2|]. rewrite Hl2.
  apply db_bind. eapply runs_set_lease; [exact Hx2|]. apply db_bind. eapply runs_ia_dereference_keep; [apply lookup_insert_eq | exact Hr2 | lia|].
  eapply runs_set_ia; [apply lookup_insert_eq|]. rewrite put_put_ia. rewrite <- put_ia_sub, put_put_ia. split; [exact I3|]. split; [|split; [|split; [|split]]].
  - unfold in_use in *. cbn. rewrite (live_put _ (subs d2) x x2), (live_put _ (ias d2) i i2); try done; cbn; [lia | by apply (inv_ias _ _ I2 i) | lia | by apply (inv_subs _ _ I2 x) ..].
  - apply (same_pools_trans _ d1); [by apply same_pools_refl|]. apply (same_pools_trans _ d2); [by apply drops_same_pools | by apply same_pools_refl].
  - cbn. by apply drops_rest_eq in D2.
  - apply (same_keys_trans _ d2); [by apply (drops_same_keys d1)|]. intros y t. cbn. rewrite lookup_insert. case_decide; [|by eauto].
    intros [= <-]. subst. by exists x2.
  - intros k' [= <-]. exists (ia_refcnt i2 - 1). cbn. rewrite lookup_insert_eq. f_equal. by rewrite Ei.
Qed.

End Ia.
