(* ===== verification/LeaseCleanup.v ===== *)
(** * Forgetting old leases

    [cleanup_old_expired] ends, takes leases that are long over off the inactive heap
    and keeps the invariant; what it does not do is take associations out of the tables
    of active associations. *)

From S2P Require Import Prelude BindingStates V6Addr LeaseDb LeaseLaws LeaseRefs LeaseDrop LeasePool LeaseInv LeaseMoves LeaseOps LeaseIa.

#[local] Open Scope Z_scope.

Section Cleanup.
Context `{HH : Hash, HL : !HashLaws} `{HP : Heap, PL : !HeapLaws} {ST : Strict} (fuel : nat).
Implicit Types (d : db) (E : held_out) (p : ipv6_pool) (q l x i : id).

Definition with_ias (L : list id) E : held_out := Out (xl E) (L ++ xi E) (xp E).

(** The tables of active associations hold what they held. *)
Definition same_tables d d' : Prop := forall type, hash_elems (active_table type d') = hash_elems (active_table type d).

Lemma rest_tables d d' : rest d' = rest d -> same_tables d d'.
Proof.
  intros E type. assert (active_table type d' = active_table type d) as ->; [|done].
  by rewrite <- (eq_refl : active_table type (rest d) = active_table type d), <- E.
Qed.

(** What a step of the loop may do. *)
Record quiet d d' : Prop := {
  quiet_pools : same_pools d d';
  quiet_tables : same_tables d d';
  quiet_keys : same_keys d d';
  quiet_in_use : (in_use d' <= in_use d)%nat
}.

Lemma quiet_trans d1 d2 d3 : quiet d1 d2 -> quiet d2 d3 -> quiet d1 d3.
Proof.
  intros [] []. split; [by eapply same_pools_trans | | by eapply same_keys_trans | lia].
  intros type. unfold same_tables in *. congruence.
Qed.

Lemma quiet_refl d : quiet d d.
Proof. split; [by apply same_pools_refl | done | by apply same_keys_refl | lia]. Qed.

Lemma drops_quiet d d' : drops d d' -> quiet d d'.
Proof.
  intros D. split; [by apply drops_same_pools | by apply rest_tables, drops_rest_eq | by apply drops_same_keys | by apply drops_in_use].
Qed.

Lemma Inv_tables d E type t : hash_elems t = hash_elems (active_table type d) -> Inv d E -> Inv (set_active_table type t d) E.
Proof.
  unfold active_table, set_active_table. intros Ht [R [C1 C2 C3] I3 I4 I5].
  destruct (type =? D6O_IA_NA); [|destruct (type =? D6O_IA_TA)]; (split; [exact R | | exact I3 | exact I4 | intros q p Hp; by destruct (I5 q p Hp)]); split; try done;
    intros y; specialize (C2 y); unfold ia_refs in *; cbn in *; by rewrite Ht.
Qed.

Lemma table_referred d E type k j : Inv d E -> hash_lookup k (active_table type d) = Some j -> exists sj, ias d !! j = Some sj.
Proof.
  intros I Hj. apply hash_lookup_Some in Hj. destruct (counted_alive _ _ _ j (counts_ias _ _ (inv_counts _ _ I))) as (sj & Hsj & _); [|eauto].
  assert (j ∈ (hash_elems (active_table type d)).*2) as Hin by (apply list_elem_of_fmap; by exists (k, j)).
  unfold ia_refs. rewrite !elem_of_app. unfold active_table in Hin. destruct (type =? D6O_IA_NA); [tauto|]. destruct (type =? D6O_IA_TA); tauto.
Qed.

Lemma forget_ok d E i type o :
  Inv d (with_ias (option_list o) (with_ia i E)) ->
  runs (forget_ia type i o) d (fun o' d' => Inv d' (with_ias (option_list o') (with_ia i E)) /\ quiet d d').
Proof.
  intros I. destruct (counted_alive _ _ _ i (counts_ias _ _ (inv_counts _ _ I))) as (si & Hi & _); [cbn; set_solver|].
  apply db_bind. eapply runs_ia; [exact Hi|]. destruct (_ && _); [|apply db_ret; split; [done | apply quiet_refl]].
  apply db_bind, db_get. destruct (hash_lookup _ _) as [j|] eqn:Ej.
  - apply db_bind. destruct o as [o|]; [apply db_ret, db_ret; split; [done | apply quiet_refl]|].
    destruct (table_referred _ _ _ _ _ I Ej) as (sj & Hj). apply db_bind. eapply runs_set_ia; [exact Hj|]. apply db_ret, db_ret.
    split; [exact (take_ia _ _ _ _ I Hj)|]. apply drops_quiet. pose proof (inv_ias _ _ I j sj Hj). apply drops_put_ia; (done || lia).
  - apply db_bind. destruct (bool_decide _); [|apply db_ret, db_ret; split; [done | apply quiet_refl]].
    apply db_modify, db_ret. pose proof (hash_delete_absent _ _ Ej) as Ht. split; [by apply Inv_tables|].
    split; [apply same_pools_refl | | apply same_keys_refl |]; unfold same_tables, set_active_table, active_table, in_use in *;
      try (destruct (type =? D6O_IA_NA); [|destruct (type =? D6O_IA_TA)]; done).
    intros type'. destruct (type =? D6O_IA_NA); [|destruct (type =? D6O_IA_TA)]; cbn; (destruct (type' =? D6O_IA_NA); [|destruct (type' =? D6O_IA_TA)]); done.
Qed.

(** ** One lease *)

Lemma take_off_inactive d E q p x (k : nat) :
  Inv d E -> pls d !! q = Some p -> heap_array (inactive_timeouts p) !! k = Some x ->
  runs (isc_heap_delete Inactive q (Z.of_nat k + 1) ;; count Inactive q (-1)) d (fun _ d' => Inv d' (with_lease x E) /\
    exists p', about q d p' (bodies d) d' /\ heap_array (inactive_timeouts p) ≡ₚ x :: heap_array (inactive_timeouts p') /\
      active_timeouts p' = active_timeouts p /\ leases p' = leases p).
Proof.
  intros I Hp Hk. apply list_elem_of_lookup_2 in Hk as Hx. destruct (lease_on_heap d E q p x Inactive I Hp Hx) as (_ & s & _ & Hs & _ & Hb & Hq & _).
  pose proof (on_heaps_NoDup _ _ _ _ I Hp) as Hn. apply NoDup_app in Hn as (HnA & HnD & HnI).
  apply db_bind. eapply runs_heap_delete; [by apply about_refl | exact HnI | | exact Hk|].
  { intros y Hy. apply (on_heaps_some d E q p); try done. apply elem_of_app. by right. }
  intros h d1 Hh HPh H1 Hi1 K1. cbn in H1, HPh. eapply runs_count; [exact H1|]. intros d2 H2 Hm. cbn in H2.
  match type of H2 with about _ _ ?p0 _ _ => set (p' := p0) in * end. split; [|by exists p'].
  eapply (about_Inv d E _ q p p' x (body s) (body s)); try done.
  - by rewrite insert_id.
  - cbn. by apply (inv_subs _ _ I x).
  - intros y. unfold pool_leases. cbn. rewrite !occ_app, (occ_perm _ _ _ HPh). cbn. lia.
  - intros hp Hhp. rewrite Hm. apply K1. intros y Hy Hy'. apply (Hhp y Hy). unfold on_heaps. rewrite HPh. set_solver.
  - destruct (inv_pools _ _ I _ _ Hp) as [M N1 N2 O X]. pose proof (about_bodies _ _ _ _ _ H2) as Hbd. split; cbn; try done.
    + rewrite Hbd. rewrite HPh in M. by eapply members_take_inactive.
    + rewrite N2, HPh. cbn. lia.
    + eapply ordered_key; [|exact O]. intros y _. by rewrite <- !bodies_key, Hbd.
    + rewrite Hm. intros []; cbn; [|exact Hi1]. apply K1; [|apply (X Active)]. intros y Hy Hy'. apply (HnD y Hy). rewrite HPh. set_solver.
Qed.

(** What is done with a lease that is off the heap. *)
Definition forget_lease (s : iasubopt) x : D unit :=
  match lease_ia s with
  | Some i =>
      ia_reference None (Some i) ;; ia_remove_iasubopt fuel i x ;;
      a ← forget_ia D6O_IA_NA i None; a ← forget_ia D6O_IA_TA i a; a ← forget_ia D6O_IA_PD i a;
      ia_dereference fuel (Some i) ;; mret tt
  | None => mret tt
  end.

Lemma forget_lease_ok d E x s :
  Inv d (with_lease x E) -> subs d !! x = Some s -> (in_use d < fuel)%nat ->
  runs (forget_lease s x) d (fun _ d' => exists L, Inv d' (with_ias L (with_lease x E)) /\ quiet d d').
Proof.
  intros I Hs F. unfold forget_lease. destruct (lease_ia s) as [i|] eqn:Hl; cycle 1.
  { apply db_ret. exists []. split; [by destruct E | apply quiet_refl]. }
  assert (exists si, ias d !! i = Some si) as [si Hi].
  { destruct (counted_alive _ _ _ i (counts_ias _ _ (inv_counts _ _ I))) as (si & Hi & _); [|eauto]. unfold ia_refs. rewrite !elem_of_app. left. left.
    eapply gather_elem; [exact Hs|]. unfold the_ia. rewrite Hl. cbn. set_solver. }
  apply db_bind, db_bind. eapply runs_set_ia; [exact Hi|]. apply db_ret. pose proof (take_ia _ _ _ _ I Hi) as I1.
  set (d1 := put_ia i _ d) in *. assert (quiet d d1) as Q1.
  { apply drops_quiet, drops_put_ia; try done; pose proof (inv_ias _ _ I i si Hi); lia. }
  apply db_bind. eapply runs_mono; [eapply ia_remove_ok; [exact I1 | apply lookup_insert_eq | exact Hs | exact Hl | pose proof (quiet_in_use _ _ Q1); lia]|].
  intros _ d2 (I2 & F2 & P2 & R2 & K2 & _).
  assert (quiet d d2) as Q2 by (eapply quiet_trans; [exact Q1 | split; [done | by apply rest_tables | done | done]]).
  apply db_bind. eapply runs_mono; [apply (forget_ok d2 (with_lease x E) i D6O_IA_NA None); exact I2|]. intros a3 d3 (I3 & Q3).
  apply db_bind. eapply runs_mono; [apply (forget_ok d3 (with_lease x E) i D6O_IA_TA a3); exact I3|]. intros a4 d4 (I4 & Q4).
  apply db_bind. eapply runs_mono; [apply (forget_ok d4 (with_lease x E) i D6O_IA_PD a4); exact I4|]. intros a5 d5 (I5 & Q5).
  assert (quiet d d5) as Q by eauto using quiet_trans.
  apply db_bind. eapply runs_mono; [apply (ia_drop_Inv _ d5 (with_ias (option_list a5) (with_lease x E)) i); [|pose proof (quiet_in_use _ _ Q); lia]|].
  { destruct I5 as [R [C1 C2 C3] ? ? ?]. split; try done. split; try done. intros y. specialize (C2 y). rewrite <- C2. cbn. rewrite !occ_app. cbn. rewrite occ_app. cbn. lia. }
  intros r d6 (_ & I6 & D6). apply db_ret. exists (option_list a5). split; [exact I6|]. eapply quiet_trans; [exact Q | by apply drops_quiet].
Qed.

(** ** The loop *)

Record cleaned (R : list id) q (now : Z) d p d' p' : Prop := {
  cleaned_pool : pls d' !! q = Some p';
  cleaned_inactive : heap_array (inactive_timeouts p) ≡ₚ R ++ heap_array (inactive_timeouts p');
  cleaned_active : active_timeouts p' = active_timeouts p;
  cleaned_leases : leases p' = leases p;
  cleaned_due x : x ∈ R -> exists s, subs d !! x = Some s /\ cleanup_time s <= now;
  cleaned_tables : same_tables d d';
  cleaned_keys : same_keys d d'
}.

Lemma cleanup_ok n : forall d E q p now,
  Inv d E -> pls d !! q = Some p -> (in_use d < fuel)%nat -> (length (heap_array (inactive_timeouts p)) < n)%nat ->
  runs (cleanup_old_expired fuel n q now) d (fun _ d' => exists L R p', Inv d' (with_ias L E) /\ cleaned R q now d p d' p' /\ (in_use d' <= in_use d)%nat).
Proof.
  induction n as [|n IH]; intros d E q p now I Hp F Hn; [lia|]. apply db_bind. eapply runs_pool; [exact Hp|].
  destruct (inv_pools _ _ I _ _ Hp) as [M N1 N2 O X].
  assert (exists L R p', Inv d (with_ias L E) /\ cleaned R q now d p d p' /\ (in_use d <= in_use d)%nat) as Hstop.
  { exists [], [], p. split; [by destruct E|]. split; [|lia]. split; try done; [set_solver | by apply same_keys_refl]. }
  destruct (0 <? num_inactive p) eqn:G; [|exact Hstop].
  destruct (heap_array (inactive_timeouts p)) as [|x A] eqn:EA; [cbn in N2; lia|].
  apply db_bind, db_bind. eapply runs_pool; [exact Hp|]. cbn [timeouts]. rewrite EA. eapply runs_deref; [done|].
  destruct (lease_on_heap d E q p x Inactive I Hp) as (k & s & _ & Hs & _ & Hb & _); [cbn; rewrite EA; set_solver|].
  destruct (X Inactive 0%nat x) as (s0 & Hs0 & Hix); [cbn; by rewrite EA|]. rewrite Hs in Hs0. injection Hs0 as <-.
  apply db_bind. eapply runs_lease; [exact Hs|]. destruct (now <? cleanup_time s) eqn:G2; [exact Hstop|]. rewrite Hix.
  assert (forall (m1 m2 : D unit) (m3 : D unit) Q, runs ((m1 ;; m2) ;; m3) d Q -> runs (m1 ;; m2 ;; m3) d Q) as Hassoc.
  { intros m1 m2 m3 Q. unfold runs, mbind, D_bind. by destruct (m1 d) as [[? ?]|]. }
  apply Hassoc, db_bind. eapply runs_mono; [eapply (take_off_inactive d E q p x 0); [done | done | by rewrite EA]|].
  intros _ d1 (I1 & p1 & Ha & HP1 & HA1 & HL1). pose proof (in_use_bodies _ _ (about_bodies _ _ _ _ _ Ha) (about_ias _ _ _ _ _ Ha)) as F1.
  destruct (about_lease _ _ _ _ _ _ _ Ha Hb) as (s1 & Hs1 & Hb1). assert (lease_ia s = lease_ia s1) as El by (change (lease_ia (body s) = lease_ia s1); by rewrite <- Hb1).
  apply db_bind. change (match lease_ia s with Some _ => _ | None => _ end) with (forget_lease s x). replace (forget_lease s x) with (forget_lease s1 x) by (unfold forget_lease; by rewrite El).
  eapply runs_mono; [apply (forget_lease_ok d1 E x s1 I1 Hs1); lia|]. intros _ d2 (L & I2 & Q2).
  apply db_bind. eapply runs_mono; [apply (lease_drop_Inv _ d2 (with_ias L E) x); [exact I2 | pose proof (quiet_in_use _ _ Q2); lia]|].
  intros r d3 (_ & I3 & D3). pose proof (quiet_trans _ _ _ Q2 (drops_quiet _ _ D3)) as [P3 T3 K3 F3].
  destruct (P3 q p1 (about_pool _ _ _ _ _ Ha)) as [m Hp3].
  eapply runs_mono; [apply (IH d3 (with_ias L E) q (set_pool_refcnt m p1) now I3 Hp3); [lia|]|].
  { cbn. apply Permutation_length in HP1. rewrite EA in HP1. cbn in HP1, Hn. lia. }
  intros _ d' (L' & R & p' & I' & [H1 H2 H3 H4 H5 H6 H7] & F'). exists (L' ++ L), (x :: R), p'. split; [|split; [|lia]].
  { by destruct E; unfold with_ias in *; cbn in *; rewrite app_assoc in I'. }
  assert (same_keys d d3) as K.
  { eapply same_keys_trans; [|exact K3]. intros y t Ht. assert (bodies d1 !! y = Some (body t)) as Hy by (apply bodies_lookup; eauto).
    rewrite (about_bodies _ _ _ _ _ Ha) in Hy. apply bodies_lookup in Hy as (t' & Ht' & Et). exists t'. split; [done|]. change (key (body t) = key (body t')). by rewrite Et. }
  split; try done; cbn in *.
  - by rewrite HP1, H2.
  - congruence.
  - congruence.
  - intros y [->|Hy]%elem_of_cons; [exists s; split; [done | lia]|]. destruct (H5 y Hy) as (t & Ht & Hc). destruct (K y t Ht) as (t0 & Ht0 & [= E1 E2]).
    exists t0. split; [done|]. unfold cleanup_time in *. by rewrite <- E1, <- E2.
  - intros type. rewrite H6, T3. destruct Ha. unfold active_table. by rewrite about_na, about_ta, about_pd.
  - by eapply same_keys_trans.
Qed.

End Cleanup.
