(* ===== verification/LeaseTimeout.v ===== *)
(** * Expiring leases

    [lease_timeout_support]: the loop over [expire_lease6] ends, moves exactly the
    leases that are due and leaves none of them on the active heap. *)

From S2P Require Import Prelude BindingStates V6Addr LeaseDb LeaseLaws LeaseRefs LeaseDrop LeasePool LeaseInv LeaseMoves LeaseOps LeaseIa LeaseCleanup.

#[local] Open Scope Z_scope.

Section Timeout.
Context `{HH : Hash, HL : !HashLaws} `{HP : Heap, PL : !HeapLaws} {ST : Strict} (mem : nat -> bool) (fuel : nat).
Implicit Types (d : db) (E : held_out) (p : ipv6_pool) (q l x : id).

(** What expiring the leases [L] of pool [q] does to the pool and to the leases. *)
Record expired (L : list id) q (now : Z) d p d' p' : Prop := {
  expired_pool : pls d' !! q = Some p';
  expired_active : heap_array (active_timeouts p) ≡ₚ L ++ heap_array (active_timeouts p');
  expired_inactive : heap_array (inactive_timeouts p') ≡ₚ L ++ heap_array (inactive_timeouts p);
  expired_due x : x ∈ L -> exists s, subs d !! x = Some s /\ hard_lifetime_end_time s < now;
  expired_lease x s : subs d !! x = Some s -> exists s', subs d' !! x = Some s' /\ addr s' = addr s /\ lease_ia s' = lease_ia s /\
    hard_lifetime_end_time s' = hard_lifetime_end_time s /\ soft_lifetime_end_time s' = soft_lifetime_end_time s /\
    state s' = (if bool_decide (x ∈ L) then FTS_EXPIRED else state s);
  expired_keys : same_keys d d';
  expired_tables : same_tables d d'
}.

Lemma expired_nil q now d p : pls d !! q = Some p -> expired [] q now d p d p.
Proof. intros Hp. split; try done; [set_solver | | by apply same_keys_refl]. intros x s Hs. exists s. by repeat split. Qed.

Lemma expired_cons x L q now d p d1 p1 d' p' s :
  to_inactive d q p x s FTS_EXPIRED d1 -> pls d1 !! q = Some p1 -> subs d !! x = Some s -> hard_lifetime_end_time s < now ->
  x ∉ L -> expired L q now d1 p1 d' p' -> expired (x :: L) q now d p d' p'.
Proof.
  intros [(p1' & Ha & P1 & P2 & _)] Hp1 Hs Hn HL' [H1 H2 H3 H4 H5 H6 H7]. rewrite (about_pool _ _ _ _ _ Ha) in Hp1. injection Hp1 as ->.
  assert (forall y t, subs d !! y = Some t -> bodies d1 !! y = Some (body (if bool_decide (y = x) then
    set_state FTS_EXPIRED (set_refcnt (refcnt s - 1) (set_scope false s)) else t))) as Hb.
  { intros y t Ht. rewrite (about_bodies _ _ _ _ _ Ha). case_bool_decide; [subst; apply lookup_insert_eq|]. rewrite lookup_insert_ne by done.
    apply bodies_lookup. eauto. }
  split.
  - exact H1.
  - by rewrite <- P1, H2.
  - rewrite H3, P2. cbn. symmetry. apply Permutation_middle.
  - intros y [->|Hy]%elem_of_cons; [eauto|]. destruct (H4 y Hy) as (t & Ht & Hh). destruct (subs d !! y) as [t0|] eqn:Et0.
    + exists t0. split; [done|]. specialize (Hb y t0 Et0). apply bodies_lookup in Hb as (t' & Ht' & Eb). rewrite Ht in Ht'. injection Ht' as <-.
      rewrite bool_decide_false in Eb by (intros ->; done). change (hard_lifetime_end_time (body t0) < now). rewrite <- Eb. exact Hh.
    + exfalso. assert (bodies d1 !! y = Some (body t)) as Hy1 by (apply bodies_lookup; eauto). rewrite (about_bodies _ _ _ _ _ Ha) in Hy1.
      rewrite lookup_insert_ne in Hy1 by (intros ->; done). apply bodies_lookup in Hy1 as (? & ? & _). congruence.
  - intros y t Ht. specialize (Hb y t Ht). apply bodies_lookup in Hb as (t1 & Ht1 & Eb). destruct (H5 y t1 Ht1) as (t2 & Ht2 & E1 & E2 & E3 & E4 & E5).
    exists t2. split; [done|]. rewrite E1, E2, E3, E4, E5.
    change (addr t1) with (addr (body t1)). change (lease_ia t1) with (lease_ia (body t1)). change (hard_lifetime_end_time t1) with (hard_lifetime_end_time (body t1)).
    change (soft_lifetime_end_time t1) with (soft_lifetime_end_time (body t1)). change (state t1) with (state (body t1)). rewrite Eb.
    destruct (decide (y = x)) as [->|Hyx].
    + rewrite (bool_decide_true (x = x)) by done. rewrite (bool_decide_true (x ∈ x :: L)) by set_solver.
      rewrite (bool_decide_false (x ∈ L)) by done. rewrite Hs in Ht. injection Ht as <-. by repeat split.
    + rewrite (bool_decide_false (y = x)) by done. rewrite (bool_decide_ext (y ∈ x :: L) (y ∈ L)) by set_solver. by repeat split.
  - eapply same_keys_trans; [|exact H6]. intros y t Ht. pose proof (bodies_key d1 y) as K. rewrite Ht, (about_bodies _ _ _ _ _ Ha), lookup_insert in K.
    case_decide; [subst; exists s; split; [done | injection K as K1 K2; unfold key; congruence] |]. rewrite bodies_key in K. destruct (subs d !! y) as [t0|]; [|done].
    exists t0. split; [done|]. injection K as K1 K2. unfold key. congruence.
  - intros type. rewrite H7. destruct Ha. unfold active_table. by rewrite about_na, about_ta, about_pd.
Qed.

(** Taking a reference and dropping it again changes nothing. *)
Lemma dereference_again d x s (Q : isc_result -> db -> Prop) :
  subs d !! x = Some s -> 0 < refcnt s -> (0 < fuel)%nat -> Q ISC_R_SUCCESS d ->
  runs (iasubopt_dereference fuel (Some x)) (put_sub x (set_refcnt (refcnt s + 1) s) d) Q.
Proof.
  intros Hs Hr Hf HQ. destruct fuel as [|n]; [lia|]. apply db_bind. eapply runs_set_lease; [apply lookup_insert_eq|].
  rewrite put_put_sub. assert (put_sub x (set_refcnt (count_down (refcnt s + 1)) s) d = d) as Ed.
  { unfold count_down. destruct (_ <? _) eqn:G; [lia|]. replace (refcnt s + 1 - 1) with (refcnt s) by lia.
    unfold put_sub. replace (set_refcnt (refcnt s) s) with s by (by destruct s). rewrite insert_id by done. by destruct d. }
  change (put_sub x _ d) with (put_sub x (set_refcnt (count_down (refcnt s + 1)) s) d). rewrite Ed.
  apply db_bind. eapply runs_lease; [exact Hs|]. destruct (refcnt s =? 0) eqn:G; [lia|]. by apply db_ret.
Qed.

Lemma expire_all_ok n : forall d E q p now,
  Inv d E -> pls d !! q = Some p -> (0 < fuel)%nat -> (length (heap_array (active_timeouts p)) < n)%nat ->
  runs (expire_all mem fuel n q now) d (fun _ d' => Inv d' E /\ in_use d' = in_use d /\ exists L p', expired L q now d p d' p' /\
    (strict = true -> (forall k, mem k = true) -> forall y t, y ∈ heap_array (active_timeouts p') -> subs d' !! y = Some t -> now <= hard_lifetime_end_time t)).
Proof.
  induction n as [|n IH]; intros d E q p now I Hp Hf Hl; [lia|]. apply db_bind.
  eapply runs_mono; [by eapply expire_ok|]. intros [r [x|]] d'; cycle 1.
  { intros (I' & (Hu1 & Hu2 & Hu3 & Hu4) & Hr). assert (expired [] q now d p d' p) as He.
    { pose proof (expired_nil q now d p Hp) as [H1 H2 H3 H4 H5 H6 H7]. split; try done; try by rewrite ?Hu1, ?Hu2. - by apply same_keys_refl. - intros type. by rewrite Hu4. }
    destruct (bool_decide (r = ISC_R_SUCCESS)) eqn:G; apply db_ret; (split; [done|]); (split; [exact Hu3|]); exists [], p; (split; [done|]); rewrite Hu1;
      intros S Hmem; (destruct Hr as [[Hr Hm]|[_ Hr]]; [by rewrite Hmem in Hm | exact (Hr S)]). }
  intros (-> & s & d1 & Hs & Hx & Hn & Ht & I1 & s1 & Hs1 & -> & I1'). rewrite bool_decide_true by done.
  destruct (ti_pool _ _ _ _ _ _ _ Ht) as (p1 & Ha & P1 & _). pose proof (about_pool _ _ _ _ _ Ha) as Hp1.
  apply db_bind. eapply runs_pool; [exact Hp1|]. apply db_bind.
  set (d2 := if negb (pool_type p1 =? D6O_IA_PD) then add_event (ddns_removals x) d1 else d1).
  eapply runs_mono with (Q := fun _ d' => d' = put_sub x (set_refcnt (refcnt s1 + 1) s1) d2).
  { unfold d2. by destruct (negb _); [apply db_modify | apply db_ret]. }
  intros _ ? ->. assert (subs d2 = subs d1 /\ pls d2 = pls d1) as [Hd2 Hd2'] by (unfold d2; by destruct (negb _)).
  apply db_bind. eapply runs_lease; [apply lookup_insert_eq|]. apply db_bind, db_modify, db_bind.
  set (d3 := add_event (write_ia (lease_ia (set_refcnt (refcnt s1 + 1) s1))) d2).
  change (add_event _ (put_sub x _ d2)) with (put_sub x (set_refcnt (refcnt s1 + 1) s1) d3).
  apply dereference_again; [by unfold d3; cbn; rewrite Hd2 | by apply (inv_subs _ _ I1 x) | done|].
  assert (Inv d3 E) as I3 by (apply (Inv_same d1); try done; unfold d3, d2; by destruct (negb _)).
  assert (to_inactive d q p x s FTS_EXPIRED d3) as Ht3.
  { destruct Ht as [(p' & [A1 A2 A3 A4 A5 A6 A7] & R)]. split. exists p'. split; [|done]. unfold d3, d2. by destruct (negb _). }
  assert (pls d3 !! q = Some p1) as Hp3 by (cbn; by rewrite Hd2').
  eapply runs_mono; [apply (IH d3 E q p1 now); try done; apply Permutation_length in P1; cbn in P1; lia|].
  intros _ d' (I' & F' & L & p' & He & Hdone). split; [done|]. split.
  { rewrite F'. destruct Ht3 as [(p3 & Ha3 & _)]. eapply in_use_insert; [exact (about_bodies _ _ _ _ _ Ha3) | exact (about_ias _ _ _ _ _ Ha3) | apply bodies_lookup; eauto | |].
    - exact (inv_subs _ _ I _ _ Hs).
    - pose proof (active_referred _ _ _ _ _ _ I Hp Hs Hx). cbn. lia. }
  exists (x :: L), p'. split; [|done].
  apply (expired_cons x L q now d p d3 p1 d' p' s); try done. intros HxL. pose proof (expired_active _ _ _ _ _ _ _ He) as P2.
  pose proof (on_heaps_NoDup _ _ _ _ I Hp) as Hnd. apply NoDup_app in Hnd as [Hnd _]. rewrite <- P1 in Hnd. apply NoDup_cons in Hnd as [Hnd _].
  apply Hnd. rewrite P2. set_solver.
Qed.

(** ** The timer *)

Lemma runs_top d E q p w (Q : id -> db -> Prop) :
  Inv d E -> pls d !! q = Some p -> (forall x A s, heap_array (timeouts w p) = x :: A -> subs d !! x = Some s -> Q x d) ->
  heap_array (timeouts w p) <> [] -> runs (isc_heap_top w q) d Q.
Proof.
  intros I Hp HQ Hne. apply db_bind. eapply runs_pool; [exact Hp|]. destruct (heap_array (timeouts w p)) as [|x A] eqn:EA; [done|].
  destruct (lease_on_heap d E q p x w I Hp) as (k & s & _ & Hs & _); [rewrite EA; set_solver|]. eapply runs_deref; [done|]. by eapply HQ.
Qed.

(** The timer of a pool fires at most one second after the first of its leases ends. *)
Lemma schedule_ok d E q p : Inv d E -> pls d !! q = Some p ->
  runs (schedule_lease_timeout q) d (fun _ d' => subs d' = subs d /\ pls d' = pls d /\ Inv d' E /\ same_tables d d' /\
    (strict = true -> forall y t, y ∈ heap_array (active_timeouts p) -> subs d !! y = Some t -> hard_lifetime_end_time t + 1 < MAX_TIME ->
      exists e, events d' = events d ++ [add_timeout e q] /\ e <= hard_lifetime_end_time t + 1)).
Proof.
  intros I Hp. destruct (inv_pools _ _ I q p Hp) as [M N1 N2 O X]. apply db_bind. eapply runs_pool; [exact Hp|]. apply db_bind.
  eapply runs_mono with (Q := fun next d' => d' = d /\ (strict = true -> forall y t, y ∈ heap_array (active_timeouts p) -> subs d !! y = Some t ->
    hard_lifetime_end_time t + 1 < MAX_TIME -> next <= hard_lifetime_end_time t + 1)).
  { destruct (0 <? num_active p) eqn:G; cycle 1.
    { apply db_ret. split; [done|]. intros _ y t Hy. destruct (heap_array (active_timeouts p)); [by apply not_elem_of_nil in Hy | cbn in N1; lia]. }
    apply db_bind. eapply (runs_top d E q p Active _ I Hp); [|intros EA; cbn in EA; rewrite EA in N1; cbn in N1; lia].
    intros x A s EA Hs. cbn in EA. apply db_bind. eapply runs_lease; [exact Hs|]. apply db_ret. split; [done|]. intros S y t Hy Ht Hmax. specialize (O S).
    assert (older_in (subs d) y x = false) as Ho by (eapply heap_top_first; [apply older_in_weak | exact O | by rewrite EA | done]).
    rewrite (older_in_lookup _ _ _ _ _ Ht Hs) in Ho. unfold lease_older in Ho. destruct (_ =? _) eqn:?, (_ <? MAX_TIME) eqn:?; lia. }
  intros next d' [-> Hnext]. apply db_bind. eapply runs_mono with (Q := fun next' d' => d' = d /\ next' <= next).
  { destruct (0 <? num_inactive p) eqn:G; [|apply db_ret; split; [done | lia]].
    apply db_bind. eapply (runs_top d E q p Inactive _ I Hp); [|intros EA; cbn in EA; rewrite EA in N2; cbn in N2; lia].
    intros x A s EA Hs. apply db_bind. eapply runs_lease; [exact Hs|]. apply db_ret. split; [done|]. destruct (_ <? next) eqn:?; lia. }
  intros next' d' [-> Hle]. destruct (next' <? MAX_TIME) eqn:G.
  - apply db_modify. split; [done|]. split; [done|]. split; [by apply (Inv_same d)|]. split; [done|].
    intros S y t Hy Ht Hmax. exists next'. split; [done|]. specialize (Hnext S y t Hy Ht Hmax). lia.
  - apply db_ret. split; [done|]. split; [done|]. split; [done|]. split; [done|]. intros S y t Hy Ht Hmax. specialize (Hnext S y t Hy Ht Hmax). lia.
Qed.

(** ** The timeout *)

(** What the timeout of pool [q] does: the leases [X] are expired, the leases [R] are
    forgotten. *)
Record timed_out (X R : list id) q (now : Z) d p d' p' : Prop := {
  to_pool : pls d' !! q = Some p';
  to_expired : heap_array (active_timeouts p) ≡ₚ X ++ heap_array (active_timeouts p');
  to_forgotten : X ++ heap_array (inactive_timeouts p) ≡ₚ R ++ heap_array (inactive_timeouts p');
  to_due x : x ∈ X -> exists s, subs d !! x = Some s /\ hard_lifetime_end_time s < now;
  to_long_over x : x ∈ R -> exists s, subs d !! x = Some s /\ cleanup_time s <= now;
  to_tables : same_tables d d';
  to_rest : strict = true -> (forall k, mem k = true) -> forall y t, y ∈ heap_array (active_timeouts p') -> subs d' !! y = Some t -> now <= hard_lifetime_end_time t;
  to_timer y t : strict = true -> y ∈ heap_array (active_timeouts p') -> subs d' !! y = Some t -> hard_lifetime_end_time t + 1 < MAX_TIME ->
    exists e es, events d' = es ++ [add_timeout e q] /\ e <= hard_lifetime_end_time t + 1
}.

Lemma timeout_ok d E q p now : Inv d E -> pls d !! q = Some p -> (in_use d < fuel)%nat ->
  runs (lease_timeout_support mem fuel q now) d (fun _ d' => exists L X R p', Inv d' (with_ias L E) /\ timed_out X R q now d p d' p').
Proof.
  intros I Hp F. apply db_bind. eapply runs_pool; [exact Hp|]. apply db_bind.
  eapply runs_mono; [apply (expire_all_ok _ d E q p now); try done; lia|]. intros _ d1 (I1 & F1 & X & p1 & [X1 X2 X3 X4 X5 X6 X7] & Hrest).
  apply db_bind. eapply runs_pool; [exact X1|]. apply db_bind.
  eapply runs_mono; [apply (cleanup_ok fuel _ d1 E q p1 now); try done; lia|]. intros _ d2 (L & R & p2 & I2 & [R1 R2 R3 R4 R5 R6 R7] & F2).
  eapply runs_mono; [apply (schedule_ok d2 (with_ias L E) q p2 I2 R1)|]. intros _ d3 (S1 & S2 & I3 & S3 & S4).
  exists L, X, R, p2. split; [exact I3|]. split.
  - by rewrite S2.
  - by rewrite X2, R3.
  - by rewrite <- R2, X3.
  - exact X4.
  - intros x Hx. destruct (R5 x Hx) as (s1 & Hs1 & Hc). destruct (X6 x s1 Hs1) as (s & Hs & [= E1 E2]). exists s. split; [done|].
    unfold cleanup_time in *. by rewrite <- E1, <- E2.
  - intros type. by rewrite S3, R6, X7.
  - rewrite S1, R3. intros S Hm y t Hy Ht. destruct (R7 y t Ht) as (t1 & Ht1 & [= E1 E2]). rewrite E1. by apply (Hrest S Hm y).
  - rewrite S1. intros y t S Hy Ht Hmax. destruct (S4 S y t Hy Ht Hmax) as (e & He & Hle). eauto.
Qed.

End Timeout.
