(* ===== verification/LeaseAdd.v ===== *)
(** * New leases

    [add_lease6], [create_lease6], [create_prefix6] and [mark_lease_unavailable] keep
    the invariant, and what they give out is in the pool and not in use. *)

From S2P Require Import Prelude BindingStates V6Addr LeaseDb LeaseLaws LeaseRefs LeaseDrop LeasePool LeaseInv LeaseMoves LeaseOps LeaseIa.

#[local] Open Scope Z_scope.
#[local] Hint Extern 0 (setter _) => split; reflexivity : typeclass_instances.

Section Add.
Context `{HH : Hash, HL : !HashLaws} `{HP : Heap, PL : !HeapLaws} {ST : Strict}.
Implicit Types (d : db) (E : held_out) (p : ipv6_pool) (q l x i : id).

(** ** Leases that are in no pool *)

Definition off_pools d x : Prop := forall q p, pls d !! q = Some p -> x ∉ pool_leases p.

Lemma Inv_put_off d E E' x s' :
  Inv d E -> off_pools d x -> counts (put_sub x s' d) E' -> 0 < refcnt s' -> Inv (put_sub x s' d) E'.
Proof.
  intros I Ho C Hr. split; [apply I | exact C | | apply I |].
  - intros y t. cbn. rewrite lookup_insert. case_decide; [by intros [= <-] | apply (inv_subs _ _ I)].
  - intros q p Hp. specialize (Ho q p Hp). destruct (inv_pools _ _ I q p Hp) as [M N1 N2 O X]. split; try done.
    + unfold bodies. cbn. rewrite body_insert. by apply members_off.
    + eapply ordered_key; [|exact O]. intros y Hy. cbn. rewrite lookup_insert_ne; [done|]. intros ->. apply Ho. unfold pool_leases. set_solver.
    + intros w k y Hk. destruct (X w k y Hk) as (t & Ht & Hi). exists t. split; [|done]. cbn. rewrite lookup_insert_ne; [done|].
      intros ->. apply Ho. apply list_elem_of_lookup_2 in Hk. unfold pool_leases. destruct w; cbn in Hk; set_solver.
Qed.

(** A pool has only leases that exist. *)
Lemma off_pools_fresh d E x : Inv d E -> subs d !! x = None -> off_pools d x.
Proof.
  intros I Hx q p Hp Hin. destruct (counted_alive _ _ _ x (counts_subs _ _ (inv_counts _ _ I))) as (s & Hs & _); [|congruence].
  unfold lease_refs. rewrite !elem_of_app. left. left. by eapply gather_elem.
Qed.

Lemma Inv_new_sub d E x s :
  Inv d E -> subs d !! x = None -> refcnt s = 1 -> lease_ia s = None -> lease_pool s = None -> Inv (put_sub x s d) (with_lease x E).
Proof.
  intros I Hx Hr Hi Hq. destruct (inv_counts _ _ I) as [C1 C2 C3]. eapply Inv_put_off; [exact I | by eapply off_pools_fresh | | lia].
  split; intros y; cbn.
  - specialize (C1 y). rewrite held_insert. unfold lease_refs in *. cbn in *. rewrite !occ_app in *. cbn. unfold one. case_bool_decide; [subst|lia].
    assert (held refcnt (subs d) x = 0) by (unfold held; by rewrite Hx). lia.
  - rewrite <- C2. unfold ia_refs. cbn. rewrite !occ_app, gather_new by done. unfold the_ia at 1. rewrite Hi. cbn. lia.
  - rewrite <- C3. unfold pool_refs. cbn. rewrite !occ_app, gather_new by done. unfold the_pool at 1. rewrite Hq. cbn. lia.
Qed.

(** Data of such a lease. *)
Lemma Inv_put_data d E x s s' :
  Inv d E -> off_pools d x -> subs d !! x = Some s -> refcnt s' = refcnt s -> lease_ia s' = lease_ia s -> lease_pool s' = lease_pool s ->
  Inv (put_sub x s' d) E.
Proof.
  intros I Ho Hs Hr Hi Hq. eapply Inv_put_off; [exact I | exact Ho | | rewrite Hr; by apply (inv_subs _ _ I x)].
  eapply counts_put_sub; [exact Hs | apply I | | |]; intros y; unfold the_ia, the_pool; rewrite ?Hr, ?Hi, ?Hq; lia.
Qed.

(** The lease comes to belong to the pool. *)
Lemma Inv_put_pool d E x s q p :
  Inv d E -> off_pools d x -> subs d !! x = Some s -> lease_pool s = None -> pls d !! q = Some p ->
  Inv (put_sub x (set_pool (Some q) s) (put_pool q (set_pool_refcnt (pool_refcnt p + 1) p) d)) E.
Proof.
  intros I Ho Hs Hq Hp. pose proof (take_pool d E q p I Hp) as I1.
  eapply Inv_put_off; [exact I1 | | | exact (inv_subs _ _ I _ _ Hs)].
  - intros q' p'. cbn. rewrite lookup_insert. case_decide; [intros [= <-]; subst; exact (Ho _ _ Hp) | apply Ho].
  - eapply counts_put_sub; [exact Hs | apply I1 | cbn; lia | done |]. intros y. unfold the_pool. rewrite Hq. cbn. lia.
Qed.

(** ** The lease that has the address now *)

(** [add_lease6] takes it off its heap and out of the table. *)
Lemma take_off_active fuel d E q p x s :
  Inv d E -> pls d !! q = Some p -> subs d !! x = Some s -> x ∈ heap_array (active_timeouts p) -> (0 < fuel)%nat ->
  runs (isc_heap_delete Active q (heap_index s) ;; count Active q (-1) ;; leases_delete fuel q (addr s)) d (fun _ d' =>
    Inv d' (with_lease x E) /\ exists p', about q d p' (<[x := body (set_refcnt (refcnt s - 1) s)]> (bodies d)) d' /\
      x :: heap_array (active_timeouts p') ≡ₚ heap_array (active_timeouts p) /\ inactive_timeouts p' = inactive_timeouts p /\
      (addr s, x) :: hash_elems (leases p') ≡ₚ hash_elems (leases p)).
Proof.
  intros I Hp Hs Hx Hf. destruct (lease_on_heap d E q p x Active I Hp Hx) as (k & s0 & Hk & Es & Hi & Hb & Hq & _).
  rewrite Hs in Es. injection Es as <-. cbn in Hk, Hx. pose proof (on_heaps_NoDup _ _ _ _ I Hp) as Hn. apply NoDup_app in Hn as (HnA & HnD & HnI).
  destruct (active_in_table _ _ _ _ _ _ I Hp Hs Hx) as [HT HTl]. pose proof (active_referred _ _ _ _ _ _ I Hp Hs Hx) as Hr.
  rewrite Hi. apply db_bind. eapply runs_heap_delete; [by apply about_refl | exact HnA | | exact Hk|].
  { intros y Hy. apply (on_heaps_some d E q p); try done. apply elem_of_app. by left. }
  intros h d1 Hh HPh H1 Hi1 K1. cbn in H1, HPh. apply db_bind. eapply runs_count; [exact H1|]. intros d2 H2 Hm2. cbn in H2.
  eapply runs_leases_delete; [exact H2 | exact HTl | exact Hb | done | done|]. intros d3 H3 Hi3. cbn in H3.
  match type of H3 with about _ _ ?p0 _ _ => set (p' := p0) in * end. pose proof (hash_delete_elems _ _ _ HTl) as HPt. rewrite Hm2 in Hi3.
  split; [|exists p'; split; [exact H3 | by repeat split]].
  eapply (about_Inv d E _ q p p' x (body s) (body (set_refcnt (refcnt s - 1) s))); try done.
  - cbn. lia.
  - intros y. unfold pool_leases. cbn. rewrite !occ_app, (occ_perm _ _ _ HPh).
    rewrite (occ_perm y (hash_elems (leases p)).*2 ((addr s, x) :: hash_elems (hash_delete (addr s) (leases p))).*2) by (by rewrite <- HPt). cbn. lia.
  - intros hp Hhp Hix. apply Hi3, K1; [|done]. intros y Hy Hy'. apply (Hhp y Hy). unfold on_heaps. rewrite HPh. set_solver.
  - destruct (inv_pools _ _ I _ _ Hp) as [M N1 N2 O X]. pose proof (about_bodies _ _ _ _ _ H3) as Hbd. rewrite HPt, HPh in M. split; cbn; try done.
    + rewrite Hbd. apply members_off; [by eapply (outside_active (bodies d) q) | by eapply (members_take_active _ _ x)].
    + rewrite N1, HPh. cbn. lia.
    + apply (ordered_key (subs d)).
      { intros y _. rewrite <- !bodies_key, Hbd, lookup_insert. case_decide; [subst; by rewrite Hb | done]. }
      rewrite Hh. eapply ordered_heap_delete; [ exact Hk | exact O].
    + intros []; cbn; apply Hi3; [exact Hi1|]. apply K1; [|apply (X Inactive)]. intros y Hy Hy'. apply (HnD y); [rewrite HPh; set_solver | done].
Qed.

(** ** Entering the pool *)

(** The lease is on the heap its state asks for. *)
Definition entered q l s v d' : Prop := exists p' s',
  pls d' !! q = Some p' /\ subs d' !! l = Some s' /\ addr s' = addr s /\ plen s' = plen s /\ state s' = state s /\ lease_pool s' = Some q /\
  l ∈ heap_array (timeouts (side_of (state s)) p') /\
  (if on_active (state s) then hard_lifetime_end_time s' = v else soft_lifetime_end_time s' = v).

Section Enter.
Context (mem : nat -> bool) (fuel : nat) (d : db) (E : held_out) (q l : id) (p : ipv6_pool) (s : iasubopt) (v : Z).
Context (I : Inv d (with_lease l E)) (Hp : pls d !! q = Some p) (Hs : subs d !! l = Some s) (Hq : lease_pool s = Some q).
Context (Ho : off_pools d l) (Hk : addr s ∉ (hash_elems (leases p)).*1) (F : (in_use d < fuel)%nat).

Lemma enter_outside : outside l (heap_array (active_timeouts p)) (heap_array (inactive_timeouts p)) (hash_elems (leases p)).
Proof. exact (Ho q p Hp). Qed.

Lemma enter_body : bodies d !! l = Some (body s).
Proof. apply bodies_lookup. eauto. Qed.

Lemma enter_NoDup w : NoDup (l :: heap_array (timeouts w p)) /\ (forall x, x ∈ l :: heap_array (timeouts w p) -> is_Some (bodies d !! x)).
Proof.
  pose proof enter_outside as Hout. pose proof enter_body as Hb.
  pose proof (on_heaps_NoDup _ _ _ _ I Hp) as Hn. pose proof Hout as Ho'. unfold outside in Ho'. apply NoDup_app in Hn as (HnA & HnD & HnI). split.
  - apply NoDup_cons. destruct w; cbn; (split; [set_solver | done]).
  - intros x [->|Hx]%elem_of_cons; [by eexists|]. apply (on_heaps_some _ _ q p x I Hp). unfold on_heaps. destruct w; cbn in Hx; set_solver.
Qed.

(** There was no memory for the heap: the lease is as it was but for its data, and so
    is the pool. *)
Lemma enter_failed d' t s' :
  about q d (set_leases t p) (<[l := s']> (bodies d)) d' -> (forall h, indexed (subs d) h -> indexed (subs d') h) ->
  hash_elems t ≡ₚ hash_elems (leases p) -> refcnt s' = refcnt s -> lease_pool s' = Some q -> lease_ia s' = lease_ia s ->
  runs (iasubopt_dereference fuel (Some l) ;; mret ISC_R_NOMEMORY) d' (fun r d' => Inv d' E /\ (in_use d' <= in_use d)%nat /\ (r = ISC_R_NOMEMORY \/ r = ISC_R_SUCCESS /\ entered q l s v d')).
Proof.
  pose proof enter_outside as Hout. pose proof enter_body as Hb.
  intros H4 Hi4 HPt Hr Hpool Hia. pose proof (inv_subs _ _ I l s Hs) as Hr0. apply db_bind.
  assert (in_use d' = in_use d) as F'.
  { eapply in_use_insert; [exact (about_bodies _ _ _ _ _ H4) | exact (about_ias _ _ _ _ _ H4) | exact Hb | exact Hr0 | lia]. }
  eapply runs_mono; [apply (lease_drop_Inv _ _ E)|].
  - eapply (about_Inv d (with_lease l E) _ q p (set_leases t p) l (body s) s'); try done.
    + cbn. congruence.
    + lia.
    + intros y. unfold pool_leases. cbn. rewrite !occ_app, (occ_perm y (hash_elems t).*2 _ (fmap_Permutation snd _ _ HPt)), Hr. lia.
    + by apply keeps_all.
    + destruct (inv_pools _ _ I q p Hp) as [M N1 N2 O X]. split; cbn; try done.
      * rewrite (about_bodies _ _ _ _ _ H4), HPt. by apply members_off.
      * eapply ordered_key; [|exact O]. intros y Hy. rewrite <- !bodies_key, (about_bodies _ _ _ _ _ H4), lookup_insert_ne; [done|]. intros ->. apply Hout. set_solver.
      * intros w. apply Hi4. destruct w; [apply (X Active) | apply (X Inactive)].
  - lia.
  - intros r d5 (_ & I5 & D5). apply db_ret. split; [done|]. split; [pose proof (drops_in_use _ _ D5); lia | by left].
Qed.

Lemma enter_active : on_active (state s) = true -> v <= MAX_TIME ->
  runs (r ← (set_lease l (set_hard v) ;; leases_add q (addr s) l ;; isc_heap_insert mem Active q l);
        if bool_decide (r = ISC_R_SUCCESS) then count Active q 1 ;; mret ISC_R_SUCCESS
        else leases_delete fuel q (addr s) ;; iasubopt_dereference fuel (Some l) ;; mret r) d
    (fun r d' => Inv d' E /\ (in_use d' <= in_use d)%nat /\ (r = ISC_R_NOMEMORY \/ r = ISC_R_SUCCESS /\ entered q l s v d')).
Proof.
  pose proof enter_outside as Hout. pose proof enter_body as Hb.
  intros Ha Hv. destruct (enter_NoDup Active) as [Hn Hsome]. pose proof (inv_subs _ _ I l s Hs) as Hr.
  apply db_bind, db_bind. eapply runs_set_the_lease; [apply _ | by apply about_refl | exact Hb|]. intros d1 H1 Hi1.
  apply db_bind. eapply runs_leases_add; [exact H1 | apply lookup_insert_eq|]. intros d2 H2 Hi2. rewrite insert_insert_eq in H2. cbn in H2.
  set (s2 := set_refcnt _ _) in H2. set (p2 := set_leases _ _) in H2.
  eapply runs_heap_insert; [exact H2 | exact Hn | | |].
  { intros x Hx. rewrite lookup_insert_is_Some. destruct (decide (l = x)); [by left | right; auto]. }
  - intros d3 _ H3 Hm3. cbn. apply db_bind.
    assert (hash_lookup (addr s) (leases p2) = Some l) as Hl.
    { apply hash_lookup_unique; cbn; rewrite hash_add_elems; [|set_solver]. apply NoDup_cons. split; [done|]. apply (inv_pools _ _ I q p Hp). }
    eapply runs_leases_delete; [exact H3 | exact Hl | apply lookup_insert_eq | cbn; lia | lia|]. intros d4 H4 Hi4. rewrite insert_insert_eq in H4. cbn in H4.
    pose proof (hash_delete_elems _ _ _ Hl) as HPt. cbn in HPt. rewrite hash_add_elems in HPt. apply Permutation_cons_inv in HPt. rewrite Hm3 in Hi4.
    eapply enter_failed; [exact H4 | auto | by symmetry | cbn; lia | done | done].
  - intros h d3 Hh HPh H3 Hi3 K3. cbn. apply db_bind. cbn in H3, HPh, Hh. eapply runs_count; [exact H3|]. intros d4 H4 Hm4. cbn in H4 |- *.
    match type of H4 with about _ _ ?p0 _ _ => set (p4 := p0) in * end. split.
    + eapply (about_Inv d (with_lease l E) E q p p4 l (body s) s2); try done.
      * unfold s2. cbn. lia.
      * intros y. unfold pool_leases. cbn. rewrite !occ_app, (occ_perm _ _ _ HPh).
        rewrite (occ_perm y (hash_elems (hash_add _ _ _)).*2 ((addr s, l) :: hash_elems (leases p)).*2) by (by rewrite hash_add_elems). cbn. lia.
      * intros hp Hhp Hix. rewrite Hm4. apply K3; [|by apply Hi2, Hi1]. intros y Hy. rewrite HPh. intros Hy'. apply (Hhp y Hy). unfold on_heaps. set_solver.
      * destruct (inv_pools _ _ I q p Hp) as [M N1 N2 O X]. split; cbn; try done.
        -- rewrite (about_bodies _ _ _ _ _ H4), HPh, hash_add_elems. change (addr s) with (addr s2).
           apply (members_add_active _ _ _ _ _ _ s2); try done; [apply lookup_insert_eq | by apply members_off].
        -- rewrite N1, HPh. cbn. lia.
        -- apply (ordered_key (subs d2)). { intros y _. by rewrite <- !bodies_key, (about_bodies _ _ _ _ _ H2), (about_bodies _ _ _ _ _ H4). }
           rewrite Hh. apply ordered_heap_insert. eapply ordered_key; [|exact O]. intros y Hy.
           rewrite <- !bodies_key, (about_bodies _ _ _ _ _ H2), lookup_insert_ne; [done|]. intros ->. apply Hout. set_solver.
        -- rewrite Hm4. intros []; cbn; [exact Hi3|]. apply K3; [|apply Hi2, Hi1, (X Inactive)]. intros y Hy. rewrite HPh. intros [->|Hy']%elem_of_cons; [apply Hout; set_solver|].
           pose proof (on_heaps_NoDup _ _ _ _ I Hp) as Hnd. apply NoDup_app in Hnd as (_ & HnD & _). by apply (HnD y).
    + split.
      { erewrite in_use_insert; [done | exact (about_bodies _ _ _ _ _ H4) | exact (about_ias _ _ _ _ _ H4) | exact Hb | exact Hr | cbn; lia]. }
      right. split; [done|]. destruct (about_lease _ _ _ _ _ _ _ H4 (lookup_insert_eq _ _ _)) as (t & Ht & Hbt). exists p4, t.
      unfold side_of. rewrite Ha. cbn. split; [by eapply about_pool|]. split; [done|]. destruct t. injection Hbt as -> -> -> -> -> -> -> -> ->. cbn.
      repeat split; try done. rewrite HPh. set_solver.
Qed.

Lemma enter_inactive : on_active (state s) = false ->
  runs (r ← (set_lease l (set_soft v) ;; isc_heap_insert mem Inactive q l);
        if bool_decide (r = ISC_R_SUCCESS) then count Inactive q 1 ;; mret ISC_R_SUCCESS
        else leases_delete fuel q (addr s) ;; iasubopt_dereference fuel (Some l) ;; mret r) d
    (fun r d' => Inv d' E /\ (in_use d' <= in_use d)%nat /\ (r = ISC_R_NOMEMORY \/ r = ISC_R_SUCCESS /\ entered q l s v d')).
Proof.
  pose proof enter_outside as Hout. pose proof enter_body as Hb.
  intros Ha. destruct (enter_NoDup Inactive) as [Hn Hsome]. pose proof (inv_subs _ _ I l s Hs) as Hr.
  apply db_bind, db_bind. eapply runs_set_the_lease; [apply _ | by apply about_refl | exact Hb|]. intros d1 H1 Hi1.
  eapply runs_heap_insert; [exact H1 | exact Hn | | |].
  { intros x Hx. rewrite lookup_insert_is_Some. destruct (decide (l = x)); [by left | right; auto]. }
  - intros d2 _ H2 Hm2. cbn. apply db_bind, db_bind. eapply runs_pool; [by eapply about_pool|].
    destruct (hash_lookup (addr s) (leases p)) as [t|] eqn:Hl.
    { exfalso. apply Hk, list_elem_of_fmap. exists (addr s, t). split; [done | by apply hash_lookup_Some]. }
    apply db_ret. eapply (enter_failed d2 (leases p)); [by destruct p; exact H2 | by rewrite Hm2 | done ..].
  - intros h d3 Hh HPh H3 Hi3 K3. cbn. apply db_bind. cbn in H3, HPh. eapply runs_count; [exact H3|]. intros d4 H4 Hm4. cbn in H4 |- *.
    match type of H4 with about _ _ ?p0 (<[_ := ?s0]> _) _ => set (p4 := p0) in *; set (s4 := s0) in * end. split.
    + eapply (about_Inv d (with_lease l E) E q p p4 l (body s) s4); try done.
      * intros y. unfold pool_leases. cbn. rewrite !occ_app, (occ_perm _ _ _ HPh). cbn. lia.
      * intros hp Hhp Hix. rewrite Hm4. apply K3; [|by apply Hi1]. intros y Hy. rewrite HPh. intros Hy'. apply (Hhp y Hy). unfold on_heaps. set_solver.
      * destruct (inv_pools _ _ I q p Hp) as [M N1 N2 O X]. split; cbn; try done.
        -- rewrite (about_bodies _ _ _ _ _ H4), HPh. apply (members_add_inactive _ _ _ _ _ _ s4); try done; [apply lookup_insert_eq | by apply members_off].
        -- rewrite N2, HPh. cbn. lia.
        -- eapply ordered_key; [|exact O]. intros y Hy. rewrite <- !bodies_key, (about_bodies _ _ _ _ _ H4), lookup_insert_ne; [done|]. intros ->. apply Hout. set_solver.
        -- rewrite Hm4. intros []; cbn; [|exact Hi3]. apply K3; [|apply Hi1, (X Active)]. intros y Hy. rewrite HPh. intros [->|Hy']%elem_of_cons; [apply Hout; set_solver|].
           pose proof (on_heaps_NoDup _ _ _ _ I Hp) as Hnd. apply NoDup_app in Hnd as (_ & HnD & _). by apply (HnD y).
    + split.
      { erewrite in_use_insert; [done | exact (about_bodies _ _ _ _ _ H4) | exact (about_ias _ _ _ _ _ H4) | exact Hb | exact Hr | cbn; lia]. }
      right. split; [done|]. destruct (about_lease _ _ _ _ _ _ _ H4 (lookup_insert_eq _ _ _)) as (t & Ht & Hbt). exists p4, t.
      unfold side_of. rewrite Ha. cbn. split; [by eapply about_pool|]. split; [done|]. destruct t. injection Hbt as -> -> -> -> -> -> -> -> ->. cbn.
      repeat split; try done. rewrite HPh. set_solver.
Qed.

End Enter.

(** ** Adding a lease *)

Section AddLease.
Context (mem : nat -> bool) (fuel : nat) (E : held_out) (q l : id) (v : Z).

(** The lease is set up for the pool, its address is free. *)
Definition can_enter (N : nat) s1 d : Prop := exists p s,
  Inv d E /\ pls d !! q = Some p /\ subs d !! l = Some s /\ addr s = addr s1 /\ plen s = plen s1 /\ state s = state s1 /\ lease_pool s = Some q /\
  off_pools d l /\ addr s ∉ (hash_elems (leases p)).*1 /\ (in_use d <= N)%nat.

Lemma enter_ok N s1 d : can_enter N s1 d -> (N < fuel)%nat -> (on_active (state s1) = true -> v <= MAX_TIME) ->
  runs (enter_pool mem fuel q l v) d
    (fun r d' => Inv d' E /\ (in_use d' <= N)%nat /\ (r = ISC_R_NOMEMORY \/ r = ISC_R_SUCCESS /\ entered q l s1 v d')).
Proof.
  intros (p & s & I & Hp & Hs & Ha & Hl & Hst & Hq & Ho & Hk & FN) F Hv. pose proof (inv_subs _ _ I l s Hs) as Hr.
  apply db_bind, db_bind. eapply runs_set_lease; [exact Hs|]. apply db_ret. apply db_bind. eapply runs_lease; [apply lookup_insert_eq|].
  set (s2 := set_refcnt (refcnt s + 1) s). set (d2 := put_sub l s2 d). pose proof (take_lease d E l s I Hs) as I2. fold s2 d2 in I2.
  assert (in_use d2 = in_use d) as F2.
  { eapply (in_use_insert d d2 l (body s) (body s2)); [unfold bodies; cbn; by rewrite body_insert | done | apply bodies_lookup; eauto | exact Hr | cbn; lia]. }
  assert (forall d', entered q l s2 v d' -> entered q l s1 v d') as Hent.
  { unfold entered. change (addr s2) with (addr s). change (plen s2) with (plen s). change (state s2) with (state s). by rewrite Ha, Hl, Hst. }
  assert (subs d2 !! l = Some s2) as Hs2 by apply lookup_insert_eq.
  unfold side_of. destruct (on_active (state s2)) eqn:G.
  - eapply runs_mono; [apply (enter_active mem fuel d2 E q l p s2 v); try done; [lia | apply Hv; by rewrite <- Hst]|].
    intros r d' (I' & F' & H'). split; [done|]. split; [lia | naive_solver].
  - eapply runs_mono; [apply (enter_inactive mem fuel d2 E q l p s2 v); try done; lia|].
    intros r d' (I' & F' & H'). split; [done|]. split; [lia | naive_solver].
Qed.

Lemma runs_assoc {A B} (m1 m2 m3 : D A) (m4 : D B) d Q : runs ((m1 ;; m2 ;; m3) ;; m4) d Q -> runs (m1 ;; m2 ;; m3 ;; m4) d Q.
Proof.
  unfold runs, mbind, D_bind. destruct (m1 d) as [[? d1]|]; [|done]. by destruct (m2 d1) as [[? d2]|].
Qed.

(** The lease that has the address is put out of the pool. *)
Lemma put_out_ok d p s t :
  Inv d E -> pls d !! q = Some p -> subs d !! l = Some s -> lease_pool s = Some q -> off_pools d l -> l ∈ xl E ->
  hash_lookup (addr s) (leases p) = Some t -> t ∈ heap_array (active_timeouts p) -> (in_use d < fuel)%nat ->
  runs (put_out fuel q (addr s)) d (fun _ d' => can_enter (in_use d) s d').
Proof.
  intros I Hp Hs Hq Ho Hlx Ht Hta F. apply db_bind, db_bind. eapply runs_pool; [exact Hp|]. rewrite Ht.
  destruct (lease_on_heap d E q p t Active I Hp Hta) as (k & st & _ & Hst & _ & Hbt & _ & Hside).
  apply db_bind, db_bind. eapply runs_set_lease; [exact Hst|]. apply db_ret, db_ret. cbn.
  set (t1 := set_refcnt (refcnt st + 1) st). set (d1 := put_sub t t1 d). pose proof (take_lease d E t st I Hst) as I1. fold t1 d1 in I1. pose proof (inv_subs _ _ I t st Hst) as Hrt.
  assert (l <> t) as Hlt by (intros ->; apply (Ho q p Hp); unfold pool_leases; set_solver).
  apply hash_lookup_Some in Ht as HT. assert (addr st = addr s) as Hadr.
  { destruct (members_table _ _ _ _ _ (pool_members _ _ _ (inv_pools _ _ I q p Hp)) _ _ HT) as (t0 & Ht0 & Ha & _). rewrite Hbt in Ht0. by injection Ht0 as <-. }
  apply db_bind. eapply runs_lease; [apply lookup_insert_eq|]. change (state t1) with (state st). rewrite Hside. apply runs_assoc, db_bind.
  eapply runs_mono; [apply (take_off_active fuel d1 (with_lease t E) q p t t1); try done; [apply lookup_insert_eq | lia]|].
  intros _ d2 (I2 & p2 & Ha2 & HP2 & HI2 & HT2). change (addr t1) with (addr st) in HT2.
  assert (in_use d2 = in_use d) as F2.
  { erewrite (in_use_insert d1 d2); [|exact (about_bodies _ _ _ _ _ Ha2) | exact (about_ias _ _ _ _ _ Ha2) | apply bodies_lookup; exists t1; split; [apply lookup_insert_eq | done] | cbn; lia | cbn; lia].
    eapply (in_use_insert d d1); [unfold bodies; cbn; by rewrite body_insert | done | exact Hbt | exact Hrt | cbn; lia]. }
  apply db_bind. eapply runs_mono; [apply lease_drop_Inv; [exact I2 | lia]|]. intros r3 d3 (_ & I3 & D3).
  apply db_bind. eapply runs_mono; [apply lease_drop_Inv; [exact I3 | pose proof (drops_in_use _ _ D3); lia]|]. intros r4 d4 (_ & I4 & D4). apply db_ret.
  pose proof (drops_trans _ _ _ D3 D4) as D. pose proof (drops_in_use _ _ D) as F4.
  destruct (drops_same_pools _ _ D q p2 (about_pool _ _ _ _ _ Ha2)) as [n Hp4].
  destruct (counted_alive _ _ _ l (counts_subs _ _ (inv_counts _ _ I4))) as (s4 & Hs4 & _); [set_solver|].
  destruct (dropped_back _ _ _ _ _ _ (drops_subs _ _ D) Hs4) as (s2 & Hs2 & E4 & _).
  assert (body s2 = body s) as Eb.
  { assert (bodies d2 !! l = Some (body s2)) as B by (apply bodies_lookup; eauto). rewrite (about_bodies _ _ _ _ _ Ha2), lookup_insert_ne in B by done.
    unfold bodies in B. cbn in B. rewrite lookup_fmap, lookup_insert_ne, Hs in B by done. by apply (inj Some) in B. }
  assert (addr s4 = addr s /\ plen s4 = plen s /\ state s4 = state s /\ lease_pool s4 = lease_pool s) as (Ea & Epl & Est & Epo).
  { rewrite E4. destruct s2, s. by injection Eb as -> -> -> -> -> -> -> -> ->. }
  exists (set_pool_refcnt n p2), s4. split; [exact I4|]. split; [exact Hp4|]. split; [exact Hs4|]. do 3 (split; [done|]). split; [congruence|]. split; [|split; [|lia]].
  - intros q' p' Hp'. destruct (dropped_back _ _ _ _ _ _ (drops_pls _ _ D) Hp') as (p0 & Hp0 & -> & _). rewrite (about_pls _ _ _ _ _ Ha2), lookup_insert in Hp0.
    case_decide; [|exact (Ho q' p0 Hp0)]. injection Hp0 as <-. intros Hin. apply (Ho q p Hp). unfold pool_leases in *. cbn in Hin. rewrite HI2 in Hin.
    rewrite <- HP2, <- HT2. rewrite !elem_of_app in *. cbn. set_solver.
  - cbn. pose proof (members_keys _ _ _ _ _ (pool_members _ _ _ (inv_pools _ _ I q p Hp))) as Hkeys. rewrite <- HT2 in Hkeys. cbn in Hkeys.
    apply NoDup_cons in Hkeys as [Hkeys _]. by rewrite Ea, <- Hadr.
Qed.

(** The state a new lease gets. *)
Definition entering (s : iasubopt) : iasubopt := if state s =? 0 then set_state FTS_ACTIVE s else s.

Lemma add_lease6_ok d p s :
  Inv d E -> pls d !! q = Some p -> subs d !! l = Some s -> lease_pool s = None -> off_pools d l -> l ∈ xl E ->
  (forall t, hash_lookup (addr s) (leases p) = Some t -> t ∈ heap_array (active_timeouts p)) ->
  (on_active (state (entering s)) = true -> v <= MAX_TIME) -> (in_use d < fuel)%nat ->
  runs (add_lease6 mem fuel q l v) d (fun r d' => Inv d' E /\ (in_use d' <= in_use d)%nat /\ (r = ISC_R_NOMEMORY \/ r = ISC_R_SUCCESS /\ entered q l (entering s) v d')).
Proof.
  intros I Hp Hs Hq Ho Hlx Ht Hv F. apply db_bind. eapply runs_lease; [exact Hs|]. apply db_bind.
  set (s1 := entering s) in *. assert (addr s1 = addr s /\ refcnt s1 = refcnt s /\ lease_ia s1 = lease_ia s /\ lease_pool s1 = None /\ heap_index s1 = heap_index s) as (Ea & Er & Ei & Eq & Ex).
  { unfold s1, entering. by destruct (state s =? 0). }
  eapply runs_mono with (Q := fun _ d1 => d1 = put_sub l s1 d).
  { unfold s1, entering. destruct (state s =? 0); [by eapply runs_set_lease|]. apply db_ret. unfold put_sub. rewrite insert_id by done. by destruct d. }
  intros _ ? ->. set (d1 := put_sub l s1 d). pose proof (Inv_put_data d E l s s1 I Ho Hs Er Ei ltac:(congruence)) as I1. fold d1 in I1.
  apply db_bind. eapply runs_lease; [apply lookup_insert_eq|]. rewrite Eq. apply db_bind, db_bind. eapply runs_set_pool; [exact Hp|]. apply db_ret. cbn.
  apply db_bind. eapply runs_set_lease; [apply lookup_insert_eq|]. set (p2 := set_pool_refcnt (pool_refcnt p + 1) p). set (s2 := set_pool (Some q) s1).
  set (d2 := put_sub l s2 (put_pool q p2 d1)). assert (Inv d2 E) as I2 by (apply (Inv_put_pool d1 E l s1 q p); try done; apply lookup_insert_eq).
  assert (off_pools d2 l) as Ho2. { intros q' p'. cbn. rewrite lookup_insert. case_decide; [intros [= <-]; exact (Ho _ _ Hp) | apply Ho]. }
  assert (in_use d2 = in_use d) as F2.
  { pose proof (inv_subs _ _ I l s Hs). unfold in_use. cbn. rewrite (live_put _ _ _ s1), (live_put _ _ _ s); try done; [lia | apply lookup_insert_eq | lia | cbn; lia]. }
  assert (subs d2 !! l = Some s2) as Hs2 by apply lookup_insert_eq. assert (pls d2 !! q = Some p2) as Hp2 by apply lookup_insert_eq.
  change (addr s1) with (addr s2). apply db_bind. eapply runs_mono with (Q := fun _ d' => can_enter (in_use d) s2 d'); [|intros _ d' Hc; by apply (enter_ok (in_use d) s2)].
  destruct (hash_lookup (addr s2) (leases p2)) as [t|] eqn:El.
  - rewrite <- F2. eapply put_out_ok; try done; [|lia]. apply Ht. by rewrite <- Ea.
  - apply db_bind, db_bind. eapply runs_pool; [exact Hp2|]. rewrite El. apply db_ret, db_ret. exists p2, s2.
    split; [exact I2|]. split; [exact Hp2|]. split; [exact Hs2|]. do 4 (split; [done|]). split; [exact Ho2|]. split; [|lia].
    intros ([k y] & Hk & Hy)%list_elem_of_fmap. apply (hash_lookup_None _ y _ El). by rewrite Hk.
Qed.

End AddLease.

End Add.
