(* ===== verification/LeaseCreate.v ===== *)
(** * Making up leases

    [create_lease6], [create_prefix6] and [mark_lease_unavailable]. *)

From S2P Require Import Prelude BindingStates V6Addr LeaseDb LeaseLaws LeaseRefs LeaseDrop LeasePool LeaseInv LeaseMoves LeaseOps LeaseIa LeaseAdd.
From S2P Require Import LeaseTimeout.

#[local] Open Scope Z_scope.

Section Create.
Context `{HH : Hash, HL : !HashLaws} `{HP : Heap, PL : !HeapLaws} {ST : Strict} (mem : nat -> bool) (fuel : nat).
Context (md5 : list Z -> list Z) (random : nat -> list Z) (Hmd : forall l, addr_ok (md5 l)).
Implicit Types (d : db) (E : held_out) (p : ipv6_pool) (q l x : id).

(** Only the generator of temporary addresses and the allocator moved on. *)
Definition calm d d' : Prop := exists t k, d' = set_temp t (set_allocs k d).

Lemma calm_refl d : calm d d.
Proof. exists (temp d), (allocs d). by destruct d. Qed.

Lemma calm_trans d1 d2 d3 : calm d1 d2 -> calm d2 d3 -> calm d1 d3.
Proof. intros (t & k & ->) (t' & k' & ->). by exists t', k'. Qed.

Lemma calm_Inv d d' E : calm d d' -> Inv d E -> Inv d' E.
Proof. intros (t & k & ->). by apply Inv_same. Qed.

(** A pool with a proper network. *)
Definition pool_valid p : Prop :=
  addr_ok (start_addr p) /\ 0 <= bits p <= 128 /\ ipv6_network_portion (start_addr p) (bits p) = Some (start_addr p).

(** An address of the pool that is not in its table. *)
Definition free_in p (a : list Z) : Prop :=
  addr_ok a /\ in_network a (start_addr p) (bits p) = Some true /\ a ∉ (hash_elems (leases p)).*1.

Lemma leases_lookup_None p (a : list Z) : hash_lookup a (leases p) = None -> a ∉ (hash_elems (leases p)).*1.
Proof. intros El ([k y] & -> & Hy)%list_elem_of_fmap. by apply (hash_lookup_None _ y _ El). Qed.

(** Looking an address up takes a reference. *)
Lemma lookup_taken d E q p a t (Q : option id -> db -> Prop) :
  Inv d E -> pls d !! q = Some p -> hash_lookup a (leases p) = Some t ->
  (forall s, subs d !! t = Some s -> 0 < refcnt s -> Q (Some t) (put_sub t (set_refcnt (refcnt s + 1) s) d)) ->
  runs (leases_lookup q a) d Q.
Proof.
  intros I Hp Ht HQ. apply db_bind. eapply runs_pool; [exact Hp|]. rewrite Ht. apply hash_lookup_Some in Ht.
  destruct (members_table _ _ _ _ _ (pool_members _ _ _ (inv_pools _ _ I q p Hp)) _ _ Ht) as (s0 & Hs0 & _). apply bodies_lookup in Hs0 as (s & Hs & _).
  apply db_bind, db_bind. eapply runs_set_lease; [exact Hs|]. apply db_ret, db_ret. apply HQ; [done | by apply (inv_subs _ _ I t)].
Qed.

Lemma lookup_free q d p a (Q : option id -> db -> Prop) :
  pls d !! q = Some p -> hash_lookup a (leases p) = None -> Q None d -> runs (leases_lookup q a) d Q.
Proof. intros Hp El HQ. apply db_bind. eapply runs_pool; [exact Hp|]. rewrite El. by apply db_ret. Qed.

Lemma build_resource_ok d p tmp ds (Q : isc_result * list Z -> db -> Prop) :
  pool_valid p -> length tmp = 16%nat ->
  (forall r a d', calm d d' -> r = ISC_R_SUCCESS -> (pool_type p = D6O_IA_NA \/ pool_type p = D6O_IA_TA) -> addr_ok a -> in_network a (start_addr p) (bits p) = Some true -> Q (r, a) d') ->
  ((pool_type p <> D6O_IA_NA /\ pool_type p <> D6O_IA_TA) -> Q (DHCP_R_INVALIDARG, tmp) d) ->
  runs (build_resource md5 random p tmp ds) d Q.
Proof.
  intros (Hs & Hb & Hn) Ht HQ HQ'. unfold build_resource. destruct (pool_type p =? D6O_IA_NA) eqn:G1; [|destruct (pool_type p =? D6O_IA_TA) eqn:G2].
  - destruct (build_address6_spec md5 Hmd (start_addr p) (bits p) ds Hs Hb) as (a & Ea & Ha & Hin). apply db_bind. eapply runs_deref; [exact Ea|]. apply db_ret.
    apply HQ; try done; [apply calm_refl | left; lia | by apply same_network_in].
  - apply db_bind, db_get, db_bind, db_get.
    destruct (build_temporary6_spec md5 Hmd tmp (start_addr p) (bits p) ds (random (allocs d)) (temp d) Ht Hs Hb) as (a & t' & Ea & Ha & Hin & _).
    apply db_bind. eapply runs_deref; [exact Ea|]. apply db_bind, db_modify, db_ret. apply HQ; try done; [|right; lia | by apply same_network_in].
    exists t', (allocs d). by destruct d.
  - apply db_ret, HQ'. split; lia.
Qed.

(** ** The search *)

(** How a search that makes up to [n] attempts ends. *)
Definition found p (n attempts : Z) (ok : list Z -> Prop) (r : isc_result) (att : Z) (a : list Z) : Prop :=
  (r = ISC_R_SUCCESS /\ attempts < att <= attempts + n /\ free_in p a /\ ok a) \/
  (r = ISC_R_NORESOURCES /\ att = attempts + n + 1) \/
  (r = ISC_R_NOMEMORY /\ attempts < att <= attempts + n /\ exists k, mem k = false).

Lemma found_later p n attempts ok r att a : found p n (attempts + 1) ok r att a -> found p (n + 1) attempts ok r att a.
Proof.
  unfold found. intros [(-> & H1 & H2)|[(-> & ->)|(-> & H1 & H2)]].
  - left. split; [done|]. split; [lia | done].
  - right. left. split; [done | lia].
  - right. right. split; [done|]. split; [lia | done].
Qed.

Lemma find_address_ok n : forall d E q p attempts tmp ds,
  (0 < fuel)%nat -> Inv d E -> pls d !! q = Some p -> pool_valid p -> pool_type p = D6O_IA_NA \/ pool_type p = D6O_IA_TA -> length tmp = 16%nat ->
  runs (find_address mem fuel md5 random n q attempts tmp ds) d (fun '(r, att, a) d' =>
    calm d d' /\ found p (Z.of_nat n) attempts (fun a => reserved_iid a = false) r att a).
Proof.
  induction n as [|n IH]; intros d E q p attempts tmp ds Hf I Hp Hv Hty Ht; cbn [find_address].
  { apply db_ret. split; [apply calm_refl|]. right. left. split; [done | lia]. }
  apply db_bind. eapply runs_pool; [exact Hp|]. apply db_bind. apply build_resource_ok; [done | done | | intros [? ?]; lia].
  intros r a d1 C1 -> _ Ha Hin. cbn. pose proof (calm_Inv _ _ _ C1 I) as I1. assert (pls d1 !! q = Some p) as Hp1 by (destruct C1 as (? & ? & ->); exact Hp).
  assert (forall d2, calm d1 d2 -> runs (ok ← dmalloc mem; if (ok : bool) then find_address mem fuel md5 random n q (attempts + 1) a (ds ++ a) else mret (ISC_R_NOMEMORY, attempts + 1, a)) d2
    (fun '(r, att, a) d' => calm d d' /\ found p (Z.of_nat (S n)) attempts (fun a => reserved_iid a = false) r att a)) as Hnext.
  { intros d2 C2. apply db_bind, runs_alloc. assert (calm d (set_allocs (S (allocs d2)) d2)) as C3.
    { eapply calm_trans; [exact C1|]. eapply calm_trans; [exact C2|]. exists (temp d2), (S (allocs d2)). by destruct d2. }
    destruct (mem (allocs d2)) eqn:Hm.
    - eapply runs_mono; [eapply (IH _ E q p); try done; [by eapply calm_Inv | by destruct C3 as (? & ? & ->) | by destruct Ha]|].
      intros [[r att] a'] d4 [C4 F4]. split; [by eapply calm_trans|]. replace (Z.of_nat (S n)) with (Z.of_nat n + 1) by lia. by apply found_later.
    - apply db_ret. split; [exact C3|]. right. right. split; [done|]. split; [lia | eauto]. }
  apply db_bind. destruct (reserved_iid a) eqn:Hr.
  { apply db_ret. cbn. by apply db_bind, db_ret, Hnext, calm_refl. }
  destruct (hash_lookup a (leases p)) as [t|] eqn:El.
  - eapply lookup_taken; [exact I1 | exact Hp1 | exact El|]. intros s Hs Hrc. rewrite bool_decide_false by done. cbn. apply db_bind, db_bind.
    apply dereference_again; try done. apply db_ret, Hnext, calm_refl.
  - eapply lookup_free; [exact Hp1 | exact El|]. rewrite bool_decide_true by done. cbn. split; [exact C1|]. left. split; [done|]. split; [lia|]. split; [|done].
    split; [done|]. split; [done | by apply leases_lookup_None].
Qed.

Lemma find_prefix_ok n : forall d E q p attempts ds,
  (0 < fuel)%nat -> Inv d E -> pls d !! q = Some p -> pool_valid p -> bits p <= units p < 128 ->
  runs (find_prefix mem fuel md5 n q attempts ds) d (fun '(r, att, a) d' =>
    calm d d' /\ found p (Z.of_nat n) attempts (fun a => ipv6_network_portion a (units p) = Some a) r att a).
Proof.
  induction n as [|n IH]; intros d E q p attempts ds Hf I Hp Hv Hu; pose proof Hv as (Hs & Hb & Hn); cbn [find_prefix].
  { apply db_ret. split; [apply calm_refl|]. right. left. split; [done | lia]. }
  apply db_bind. eapply runs_pool; [exact Hp|]. destruct (build_prefix6_spec md5 Hmd (start_addr p) (bits p) (units p) ds Hs) as (a & Ea & Ha & Hin & Hz); [lia | lia|].
  apply db_bind. eapply runs_deref; [exact Ea|]. apply db_bind. destruct (hash_lookup a (leases p)) as [t|] eqn:El.
  - eapply lookup_taken; [exact I | exact Hp | exact El|]. intros s Hs' Hrc. apply db_bind. apply dereference_again; try done.
    apply db_bind, runs_alloc. assert (calm d (set_allocs (S (allocs d)) d)) as C1 by (exists (temp d), (S (allocs d)); by destruct d). destruct (mem (allocs d)) eqn:Hm.
    + eapply runs_mono; [eapply (IH _ E q p); try done; by eapply calm_Inv|].
      intros [[r att] a'] d4 [C4 F4]. split; [exact (calm_trans _ _ _ C1 C4)|]. replace (Z.of_nat (S n)) with (Z.of_nat n + 1) by lia. by apply found_later.
    + apply db_ret. split; [exact C1|]. right. right. split; [done|]. split; [lia | eauto].
  - eapply lookup_free; [exact Hp | exact El|]. apply db_ret. split; [apply calm_refl|]. left. split; [done|]. split; [lia|]. split.
    + split; [done|]. split; [by apply same_network_in | by apply leases_lookup_None].
    + destruct (network_portion_bits a (units p) Ha ltac:(lia)) as (r & -> & Hr & B). f_equal. apply addr_ext; [done | done|].
      intros i Hi. rewrite B by exact Hi. destruct (Z.ltb_spec (Z.of_nat i) (units p)); [done|]. cbn. symmetry. by apply Hz.
Qed.

(** ** The lease *)

Lemma lease_for_ok d E q p a plen v :
  Inv d E -> pls d !! q = Some p -> a ∉ (hash_elems (leases p)).*1 -> (in_use d + 1 < fuel)%nat ->
  runs (lease_for mem fuel q None a plen v) d (fun '(r, o) d' =>
    match o with
    | Some l => r = ISC_R_SUCCESS /\ Inv d' (with_lease l E) /\ subs d !! l = None /\
        entered q l (set_addr a (set_plen plen (mkSub 1 (replicate 16 0) 255 FTS_FREE false 0 0 None None (-1)))) v d'
    | None => r = ISC_R_NOMEMORY /\ Inv d' E
    end).
Proof.
  intros I Hp Hk F. apply db_bind, db_bind, runs_alloc. set (d0 := set_allocs _ d). assert (Inv d0 E) as I0 by by apply (Inv_same d).
  destruct (mem (allocs d)); [|by apply db_ret, db_ret].
  apply db_bind, db_get, db_bind, db_modify, db_ret. set (l := fresh (dom (subs d0))). set (s0 := mkSub _ _ _ _ _ _ _ _ _ _).
  assert (subs d0 !! l = None) as Hl by (apply not_elem_of_dom, is_fresh). change (set_subs _ d0) with (put_sub l s0 d0).
  set (s1 := set_addr a (set_plen plen s0)). apply db_bind. eapply runs_set_lease; [apply lookup_insert_eq|]. apply db_bind. eapply runs_set_lease; [apply lookup_insert_eq|].
  rewrite !put_put_sub. change (set_addr a _) with s1. pose proof (Inv_new_sub d0 E l s1 I0 Hl eq_refl eq_refl eq_refl) as I1. set (d1 := put_sub l s1 d0) in *.
  assert (off_pools d1 l) as Ho by exact (off_pools_fresh d0 E l I0 Hl). assert (subs d1 !! l = Some s1) as Hs1 by apply lookup_insert_eq.
  assert ((in_use d1 < fuel)%nat) as F1 by (pose proof (in_use_new d0 l s1) as Hu; change (in_use d0) with (in_use d) in Hu; unfold d1; lia).
  apply db_bind. eapply runs_mono; [eapply (add_lease6_ok mem fuel (with_lease l E) q l v d1 p s1); try done; [set_solver|]|].
  { intros t Ht. exfalso. apply Hk, list_elem_of_fmap. exists (a, t). split; [done | by apply hash_lookup_Some]. }
  intros r d2 (I2 & F2 & [->|(-> & Hent)]).
  - cbn. apply db_bind, db_ret, db_bind.
    eapply runs_mono; [apply lease_drop_Inv; [exact I2 | lia]|]. intros r d3 (_ & I3 & _). by apply db_ret.
  - cbn. pose proof Hent as (p2 & s2 & Hp2 & Hs2 & R2). apply db_bind, db_bind, db_bind. eapply runs_set_lease; [exact Hs2|]. apply db_ret, db_ret, db_bind.
    apply dereference_again; [exact Hs2 | by apply (inv_subs _ _ I2 l) | lia|]. by apply db_ret.
Qed.

(** What is given out: nobody had it before, it is an address of the pool that was
    free, and it waits on the inactive heap until the client confirms. *)
Definition given q p l v (ok : list Z -> Prop) d d' : Prop :=
  subs d !! l = None /\ exists p' s', pls d' !! q = Some p' /\ subs d' !! l = Some s' /\ free_in p (addr s') /\ ok (addr s') /\
    state s' = FTS_FREE /\ lease_pool s' = Some q /\ soft_lifetime_end_time s' = v /\ l ∈ heap_array (inactive_timeouts p').

(** The results of [create_lease6] and [create_prefix6] after up to [n] attempts. *)
Definition creates q p v n (ok : list Z -> Prop) d E (o : option id) (r : isc_result) (att : Z) d' : Prop :=
  match o with
  | Some l => r = ISC_R_SUCCESS /\ 1 <= att <= n /\ Inv d' (with_lease l E) /\ given q p l v ok d d'
  | None => Inv d' E /\ (r = ISC_R_NORESOURCES /\ att = n + 1 \/ r = ISC_R_NOMEMORY /\ 1 <= att <= n)
  end.

(** The second half of both. *)
Lemma create_rest d d1 E q p a plen v n att ok (Q : isc_result * option id -> db -> Prop) :
  Inv d E -> calm d d1 -> pls d !! q = Some p -> (in_use d + 1 < fuel)%nat -> free_in p a -> ok a -> 1 <= att <= n ->
  (forall r o d', creates q p v n ok d E o r att d' -> Q (r, o) d') ->
  runs (lease_for mem fuel q None a plen v) d1 Q.
Proof.
  intros I C Hp F Hfree Hok Hatt HQ. assert (pls d1 = pls d /\ subs d1 = subs d /\ in_use d1 = in_use d) as (Ep & Es & Eu) by (destruct C as (? & ? & ->); done).
  eapply runs_mono; [apply (lease_for_ok d1 E q p a plen v); [by eapply calm_Inv | by rewrite Ep | apply Hfree | lia]|].
  intros [r [l|]] d2; [|intros [-> I2]; apply HQ; split; [done | by right]].
  intros (-> & I2 & Hl & p' & s' & Hp' & Hs' & Ha & _ & Hst & Hq & Hin & Hv). apply HQ. split; [done|]. split; [done|]. split; [done|]. split; [by rewrite <- Es|].
  exists p', s'. cbn in *. by rewrite Ha.
Qed.

Lemma create_lease6_ok d E q p uid v :
  Inv d E -> pls d !! q = Some p -> pool_valid p -> pool_type p = D6O_IA_NA \/ pool_type p = D6O_IA_TA -> (in_use d + 1 < fuel)%nat ->
  runs (create_lease6 mem fuel md5 random q None uid v) d (fun '(r, o, att) d' => creates q p v 100 (fun a => reserved_iid a = false) d E o r att d').
Proof.
  intros I Hp Hv Hty F. apply db_bind. eapply runs_mono; [eapply (find_address_ok 100 d E q p); try done; lia|].
  intros [[r att] a] d1 [C [(-> & Hatt & Hfree & Hr)|[(-> & ->)|(-> & Hatt & _)]]].
  - rewrite bool_decide_true by done. apply db_bind. eapply (create_rest d d1 E q p a 0 v 100 att (fun a => reserved_iid a = false)); try done. lia.
  - apply db_ret. split; [by eapply calm_Inv|]. by left.
  - apply db_ret. split; [by eapply calm_Inv|]. right. split; [done | lia].
Qed.

Lemma create_prefix6_ok d E q p uid v :
  Inv d E -> pls d !! q = Some p -> pool_valid p -> bits p <= units p < 128 -> (in_use d + 1 < fuel)%nat ->
  runs (create_prefix6 mem fuel md5 q None uid v) d (fun '(r, o, att) d' =>
    creates q p v 10 (fun a => ipv6_network_portion a (units p) = Some a) d E o r att d').
Proof.
  intros I Hp Hv Hu F. apply db_bind. eapply runs_mono; [eapply (find_prefix_ok 10 d E q p); try done; lia|].
  intros [[r att] a] d1 [C [(-> & Hatt & Hfree & Hr)|[(-> & ->)|(-> & Hatt & _)]]].
  - rewrite bool_decide_true by done. apply db_bind. eapply (runs_pool q p); [by destruct C as (? & ? & ->)|]. apply db_bind.
    eapply (create_rest d d1 E q p a _ v 10 att (fun a => ipv6_network_portion a (units p) = Some a)); try done. lia.
  - apply db_ret. split; [by eapply calm_Inv|]. by left.
  - apply db_ret. split; [by eapply calm_Inv|]. right. split; [done | lia].
Qed.

End Create.

(** ** Marks *)

Section Marks.
Context `{HH : Hash, HL : !HashLaws} `{HP : Heap, PL : !HeapLaws} {ST : Strict} (mem : nat -> bool).
Implicit Types (d : db) (E : held_out) (p : ipv6_pool) (q l x : id).

Lemma Inv_mark d E q p l s :
  Inv d (with_lease l E) -> pls d !! q = Some p -> subs d !! l = Some s -> lease_pool s = None -> addr s ∉ (hash_elems (leases p)).*1 ->
  Inv (put_pool q (set_leases (hash_add (addr s) l (leases p)) p) d) E.
Proof.
  intros I Hp Hs Hq Hk. destruct (inv_ready _ _ I) as [R S]. split; [split; [|exact S] | | apply I | apply I |].
  - intros q' p'. cbn. rewrite lookup_insert. case_decide; [intros [= <-]; subst; by eapply R | apply R].
  - eapply counts_put_pool; [exact Hp | apply I | cbn; lia | | done]. intros y. unfold pool_leases. cbn. rewrite !occ_app.
    rewrite (occ_perm y (hash_elems (hash_add _ _ _)).*2 ((addr s, l) :: hash_elems (leases p)).*2) by (by rewrite hash_add_elems). cbn. lia.
  - intros q' p'. cbn. rewrite lookup_insert. case_decide; [intros [= <-]; subst | intros Hp'; by destruct (inv_pools _ _ I q' p' Hp')].
    destruct (inv_pools _ _ I q' p Hp) as [M N1 N2 O X]. split; cbn; try done.
    + rewrite hash_add_elems. change (addr s) with (addr (body s)). apply (members_mark _ _ _ _ _ _ (body s)); try done. apply bodies_lookup. eauto.
Qed.

Lemma mark_ok d E q p a :
  Inv d E -> pls d !! q = Some p -> a ∉ (hash_elems (leases p)).*1 ->
  runs (mark_lease_unavailable mem q a) d (fun r d' => (r = ISC_R_NOMEMORY /\ Inv d' E) \/
    (r = ISC_R_SUCCESS /\ exists l p', Inv d' (with_lease l E) /\ pls d' !! q = Some p' /\ (a, l) ∈ hash_elems (leases p'))).
Proof.
  intros I Hp Hk. apply db_bind, db_bind, runs_alloc. set (d0 := set_allocs _ d). assert (Inv d0 E) as I0 by by apply (Inv_same d).
  destruct (mem (allocs d)); [|apply db_ret, db_ret; by left].
  apply db_bind, db_get, db_bind, db_modify, db_ret. set (l := fresh (dom (subs d0))). set (s0 := mkSub _ _ _ _ _ _ _ _ _ _).
  assert (subs d0 !! l = None) as Hl by (apply not_elem_of_dom, is_fresh). change (set_subs _ d0) with (put_sub l s0 d0).
  apply db_bind. eapply runs_set_lease; [apply lookup_insert_eq|]. rewrite put_put_sub. set (s1 := set_addr a s0).
  pose proof (Inv_new_sub d0 E l s1 I0 Hl eq_refl eq_refl eq_refl) as I1. apply db_bind, db_bind, db_bind. eapply runs_set_lease; [apply lookup_insert_eq|]. apply db_ret.
  pose proof (take_lease _ _ l s1 I1 (lookup_insert_eq _ _ _)) as I2. eapply runs_set_pool; [exact Hp|]. apply db_ret. right. split; [done|].
  exists l, (set_leases (hash_add a l (leases p)) p). split; [|split; [apply lookup_insert_eq | cbn; rewrite hash_add_elems; set_solver]].
  eapply (Inv_mark _ (with_lease l E) q p l (set_refcnt 2 s1)); [exact I2 | exact Hp | apply lookup_insert_eq | done | exact Hk].
Qed.

End Marks.
