(* ===== verification/LeaseTry.v ===== *)
(** * Addresses clients ask for

    server/dhcpv6.c: [try_client_v6_address], [try_client_v6_prefix] and the end of [temporary_is_available], which enter a lease into a pool themselves.  [cidr] is [is_cidr_mask_valid],
    whose source is not part of the repository; [end_time] is [cur_time + 120]. *)

From S2P Require Import Prelude BindingStates V6Addr LeaseDb LeaseLaws LeaseRefs LeaseDrop LeasePool LeaseInv LeaseMoves LeaseOps LeaseIa LeaseAdd.
From S2P Require Import LeaseTimeout LeaseCreate.

#[local] Open Scope Z_scope.

Section Try.
Context `{HH : Hash} `{HP : Heap} (mem : nat -> bool) (fuel : nat) (cidr : list Z -> Z -> bool).

(** A new lease with the address, entered into the pool; the caller has it, also if it could not be entered. *)
Definition new_lease (q : id) (a : list Z) (plen end_time : Z) : D (isc_result * option id) :=
  '(r, l) ← iasubopt_allocate mem None;
  match l with
  | None => mret (r, None)
  | Some l =>
      set_lease l (set_addr a) ;;
      set_lease l (set_plen plen) ;;
      r ← add_lease6 mem fuel q l end_time;
      mret (r, Some l)
  end.

(** If it could not be entered, it is given up. *)
Definition try_lease (q : id) (a : list Z) (plen end_time : Z) : D (isc_result * option id) :=
  '(r, l) ← new_lease q a plen end_time;
  if bool_decide (r = ISC_R_SUCCESS) then mret (r, l)
  else
    match l with Some l => iasubopt_dereference fuel (Some l) ;; mret tt | None => mret tt end ;;
    mret (r, None).

(** [IN6_IS_ADDR_UNSPECIFIED] *)
Definition unspecified (a : list Z) : bool := bool_decide (a = replicate 16 0).

(** The result and [*addr] *)
Definition try_client_v6_address (q : id) (requested_addr : list Z) (end_time : Z) : D (isc_result * option id) :=
  if (length requested_addr <? 16)%nat then mret (DHCP_R_INVALIDARG, None)
  else
    let tmp_addr := take 16 requested_addr in
    if unspecified tmp_addr then mret (ISC_R_FAILURE, None)
    else
      p ← pool q;
      b ← ipv6_in_pool tmp_addr p;
      if negb b then mret (ISC_R_ADDRNOTAVAIL, None)
      else
        b ← lease6_exists fuel q tmp_addr;
        if (b : bool) then mret (ISC_R_ADDRINUSE, None) else try_lease q tmp_addr 0 end_time.

Definition try_client_v6_prefix (q : id) (requested_pref : list Z) (end_time : Z) : D (isc_result * option id) :=
  match requested_pref with
  | tmp_plen :: data =>
      if (length data <? 16)%nat then mret (DHCP_R_INVALIDARG, None)
      else if (tmp_plen <? 3) || (128 <? tmp_plen) then mret (ISC_R_FAILURE, None)
      else
        let tmp_pref := take 16 data in
        if unspecified tmp_pref then mret (ISC_R_FAILURE, None)
        else if negb (cidr tmp_pref tmp_plen) then mret (ISC_R_FAILURE, None)
        else
          p ← pool q;
          b ← (if negb (tmp_plen =? units p) then mret false else ipv6_in_pool tmp_pref p);
          if negb b then mret (ISC_R_FAILURE, None)
          else
            b ← prefix6_exists fuel q tmp_pref tmp_plen;
            if (b : bool) then mret (ISC_R_ADDRINUSE, None) else try_lease q tmp_pref tmp_plen end_time
  | [] => mret (DHCP_R_INVALIDARG, None)
  end.

(** A temporary address in the pool: the answer, and [reply->lease], which keeps a lease that could not be entered. *)
Definition take_temporary (q : id) (tmp_addr : list Z) (end_time : Z) : D (bool * option id) :=
  b ← lease6_exists fuel q tmp_addr;
  if (b : bool) then mret (false, None)
  else
    '(r, l) ← new_lease q tmp_addr 0 end_time;
    mret (bool_decide (r = ISC_R_SUCCESS), l).

End Try.

Section TryOk.
Context `{HH : Hash, HL : !HashLaws} `{HP : Heap, PL : !HeapLaws} {ST : Strict} (mem : nat -> bool) (fuel : nat) (cidr : list Z -> Z -> bool).
Implicit Types (d : db) (E : held_out) (p : ipv6_pool) (q l x : id).

Lemma exists_ok d E q p a : Inv d E -> pls d !! q = Some p -> (0 < fuel)%nat ->
  runs (lease6_exists fuel q a) d (fun b d' => d' = d /\ (b = false -> a ∉ (hash_elems (leases p)).*1)).
Proof.
  intros I Hp Hf. apply db_bind. destruct (hash_lookup a (leases p)) as [t|] eqn:El.
  - eapply lookup_taken; [exact I | exact Hp | exact El|]. intros s Hs Hr. apply db_bind. apply dereference_again; try done.
  - eapply lookup_free; [exact Hp | exact El|]. apply db_ret. split; [done|]. intros _. by apply leases_lookup_None.
Qed.

(** A new lease before it is entered *)
Definition fresh_lease (a : list Z) (pl : Z) : iasubopt := set_plen pl (set_addr a (mkSub 1 (replicate 16 0) 255 FTS_FREE false 0 0 None None (-1))).

(** What the caller has: a lease that was not there before, with an address that was free, on the heap of the leases that wait for the client *)
Definition tried q p d E v (r : isc_result) (o : option id) d' : Prop :=
  match o with
  | Some l => Inv d' (with_lease l E) /\ subs d !! l = None /\ (r = ISC_R_NOMEMORY \/ r = ISC_R_SUCCESS /\ exists a pl, free_in p a /\ entered q l (fresh_lease a pl) v d')
  | None => r <> ISC_R_SUCCESS /\ Inv d' E
  end.

Lemma new_lease_ok d E q p a pl v : Inv d E -> pls d !! q = Some p -> free_in p a -> (in_use d + 1 < fuel)%nat ->
  runs (new_lease mem fuel q a pl v) d (fun '(r, o) d' => tried q p d E v r o d' /\ (in_use d' < fuel)%nat).
Proof.
  intros I Hp Hfree F. pose proof Hfree as (_ & _ & Hk). apply db_bind, db_bind, runs_alloc. set (d0 := set_allocs _ d). assert (Inv d0 E) as I0 by by apply (Inv_same d).
  destruct (mem (allocs d)); [|apply db_ret, db_ret; split; [done | unfold d0, in_use in *; cbn; lia]]. apply db_bind, db_get, db_bind, db_modify, db_ret. set (l := fresh (dom (subs d0))). set (s0 := mkSub _ _ _ _ _ _ _ _ _ _).
  assert (subs d0 !! l = None) as Hl by (apply not_elem_of_dom, is_fresh). change (set_subs _ d0) with (put_sub l s0 d0).
  apply db_bind. eapply runs_set_lease; [apply lookup_insert_eq|]. apply db_bind. eapply runs_set_lease; [apply lookup_insert_eq|].
  rewrite !put_put_sub. change (set_plen pl _) with (fresh_lease a pl). set (s1 := fresh_lease a pl). pose proof (Inv_new_sub d0 E l s1 I0 Hl eq_refl eq_refl eq_refl) as I1. set (d1 := put_sub l s1 d0) in *.
  assert (off_pools d1 l) as Ho by exact (off_pools_fresh d0 E l I0 Hl). assert (subs d1 !! l = Some s1) as Hs1 by apply lookup_insert_eq.
  assert ((in_use d1 < fuel)%nat) as F1 by (pose proof (in_use_new d0 l s1) as Hu; change (in_use d0) with (in_use d) in Hu; unfold d1; lia).
  apply db_bind. eapply runs_mono; [eapply (add_lease6_ok mem fuel (with_lease l E) q l v d1 p s1); try done; [set_solver|]|].
  { intros t Ht. exfalso. apply Hk, list_elem_of_fmap. exists (a, t). split; [done | by apply hash_lookup_Some]. }
  intros r d2 (I2 & F2 & H2). apply db_ret. split; [|lia]. split; [done|]. split; [done|]. destruct H2 as [->|(-> & Hent)]; [by left | right; split; [done|]]. by exists a, pl.
Qed.

Lemma try_lease_ok d E q p a pl v : Inv d E -> pls d !! q = Some p -> free_in p a -> (in_use d + 1 < fuel)%nat ->
  runs (try_lease mem fuel q a pl v) d (fun '(r, o) d' => tried q p d E v r o d').
Proof.
  intros I Hp Hfree F. apply db_bind. eapply runs_mono; [by eapply new_lease_ok|]. intros [r o] d1 [H F1]. destruct (bool_decide (r = ISC_R_SUCCESS)) eqn:G.
  - by apply db_ret.
  - apply bool_decide_eq_false in G. apply db_bind. destruct o as [l|]; [|by apply db_ret, db_ret].
    destruct H as (I1 & _). apply db_bind. eapply runs_mono; [by apply lease_drop_Inv|]. intros r2 d2 (_ & I2 & _). by apply db_ret, db_ret.
Qed.

(** The address is in the network of the pool, or not. *)
Lemma in_pool_ok d p a : pool_valid p -> addr_ok a -> runs (ipv6_in_pool a p) d (fun b d' => d' = d /\ in_network a (start_addr p) (bits p) = Some b).
Proof.
  intros (Hs & Hb & _) Ha. destruct (network_portion_bits a (bits p) Ha Hb) as (r & Er & _). unfold ipv6_in_pool. eapply runs_deref; [|split; [done|]]; unfold in_network; by rewrite Er.
Qed.

Lemma addr_taken data : bytes_ok data -> (16 <= length data)%nat -> addr_ok (take 16 data).
Proof. intros Hb Hl. split; [rewrite length_take; lia | by apply Forall_take]. Qed.

Lemma try_address_ok d E q p data v : Inv d E -> pls d !! q = Some p -> pool_valid p -> bytes_ok data -> (in_use d + 1 < fuel)%nat ->
  runs (try_client_v6_address mem fuel q data v) d (fun '(r, o) d' => tried q p d E v r o d').
Proof.
  intros I Hp Hv Hb F. unfold try_client_v6_address. destruct (Nat.ltb_spec (length data) 16) as [|Hl]; [by apply db_ret|]. pose proof (addr_taken data Hb Hl) as Ha. set (a := take 16 data) in *.
  destruct (unspecified a); [by apply db_ret|]. apply db_bind. eapply runs_pool; [exact Hp|]. apply db_bind. eapply runs_mono; [by apply in_pool_ok|]. intros b ? [-> Hin]. destruct b; [|by apply db_ret]. cbn [negb].
  apply db_bind. eapply runs_mono; [eapply exists_ok; [exact I | exact Hp | lia]|]. intros b ? [-> Hk]. destruct b; [by apply db_ret|]. apply try_lease_ok; try done. split; [done|]. split; [done | by apply Hk].
Qed.

Lemma try_prefix_ok d E q p data v : Inv d E -> pls d !! q = Some p -> pool_valid p -> bytes_ok data -> (in_use d + 1 < fuel)%nat ->
  runs (try_client_v6_prefix mem fuel cidr q data v) d (fun '(r, o) d' => tried q p d E v r o d').
Proof.
  intros I Hp Hv Hb F. unfold try_client_v6_prefix. destruct data as [|pl data]; [by apply db_ret|]. apply Forall_cons in Hb as [_ Hb]. destruct (Nat.ltb_spec (length data) 16) as [|Hl]; [by apply db_ret|].
  destruct (_ || _); [by apply db_ret|]. pose proof (addr_taken data Hb Hl) as Ha. set (a := take 16 data) in *. destruct (unspecified a); [by apply db_ret|]. destruct (negb _); [by apply db_ret|].
  apply db_bind. eapply runs_pool; [exact Hp|]. apply db_bind. destruct (pl =? units p) eqn:Gu; cbn [negb]; [|by apply db_ret, db_ret].
  eapply runs_mono; [by apply in_pool_ok|]. intros b ? [-> Hin]. destruct b; [|by apply db_ret]. cbn [negb]. apply db_bind. unfold prefix6_exists. apply db_bind. eapply runs_pool; [exact Hp|]. rewrite Gu. cbn [negb].
  eapply runs_mono; [eapply exists_ok; [exact I | exact Hp | lia]|]. intros b ? [-> Hk]. destruct b; [by apply db_ret|]. apply try_lease_ok; try done. split; [done|]. split; [done | by apply Hk].
Qed.

Lemma take_temporary_ok d E q p a v : Inv d E -> pls d !! q = Some p -> addr_ok a -> in_network a (start_addr p) (bits p) = Some true -> (in_use d + 1 < fuel)%nat ->
  runs (take_temporary mem fuel q a v) d (fun '(b, o) d' => match o with Some l => Inv d' (with_lease l E) | None => Inv d' E end).
Proof.
  intros I Hp Ha Hin F. apply db_bind. eapply runs_mono; [eapply exists_ok; [exact I | exact Hp | lia]|]. intros b ? [-> Hk]. destruct b; [by apply db_ret|].
  apply db_bind. eapply runs_mono; [apply new_lease_ok; [exact I | exact Hp | split; [done|]; split; [done | by apply Hk] | done]|]. intros [r [l|]] d' [H _]; apply db_ret; apply H.
Qed.

End TryOk.
