(* ===== verification/LeaseLoad.v ===== *)
(** * Filling the lease database

    What server/confpars.c does with the lease database: declaring a pool, reading an
    address of an association from the lease file, and putting the association into the
    table of active associations. *)

From S2P Require Import Prelude BindingStates V6Addr LeaseDb LeaseLaws LeaseRefs LeaseDrop LeasePool LeaseInv LeaseMoves LeaseOps LeaseIa LeaseAdd.
From S2P Require Import LeaseCleanup.

#[local] Open Scope Z_scope.

Section Load.
Context `{HH : Hash} `{HP : Heap} (mem : nat -> bool) (fuel : nat).

(** [log_fatal] *)
Definition fatal {A} : D A := fun _ => None.

(** [add_ipv6_pool_to_subnet] up to the links to the network, which are not modelled;
    no memory is fatal. *)
Definition declare_pool (type : Z) (start : list Z) (bits units : Z) : D id :=
  '(r, q) ← ipv6_pool_allocate mem None type start bits units;
  if bool_decide (r = ISC_R_SUCCESS) then
    q ← deref q; r ← add_ipv6_pool mem q;
    if bool_decide (r = ISC_R_SUCCESS) then mret q else fatal
  else fatal.

(** The end of the loop over the addresses of an association ([iaaddr], read so far as
    [addr], [state] and [end_time]). *)
Definition load_address (i : id) (type : Z) (addr : list Z) (plen state end_time : Z) : D bool :=
  '(r, l) ← iasubopt_allocate mem None;
  l ← deref l;
  set_lease l (set_addr addr) ;; set_lease l (set_plen plen) ;; set_lease l (set_state state) ;;
  (if state =? FTS_RELEASED then set_lease l (set_hard end_time) else mret tt) ;;
  attach mem i l ;;
  '(r, q) ← find_ipv6_pool None type addr;
  match q with
  | None => mret false
  | Some q =>
      add_lease6 mem fuel q l end_time ;;
      ipv6_pool_dereference fuel (Some q) ;;
      iasubopt_dereference fuel (Some l) ;;
      mret true
  end.

(** The end of [parse_ia_na_declaration] and its siblings: the association replaces an
    older one with its identifier, if it has addresses. *)
Definition publish_ia (type : Z) (i : id) : D unit :=
  s ← ia i;
  t ← get (active_table type);
  match hash_lookup (iaid_duid s) t with
  | Some j =>
      ia_reference None (Some j) ;;
      modify (set_active_table type (hash_delete (iaid_duid s) t)) ;;
      ia_dereference fuel (Some j) ;;
      ia_dereference fuel (Some j) ;; mret tt
  | None => mret tt
  end ;;
  s ← ia i;
  (if (0 <? num_iasubopt s)%nat then
     set_the_ia i (fun s => set_ia_refcnt (ia_refcnt s + 1) s) ;;
     modify (fun d => set_active_table type (hash_add (iaid_duid s) i (active_table type d)) d)
   else mret tt) ;;
  ia_dereference fuel (Some i) ;; mret tt.

End Load.

Section LoadOk.
Context `{HH : Hash, HL : !HashLaws} `{HP : Heap, PL : !HeapLaws} {ST : Strict}.
Implicit Types (d : db) (E : held_out) (p : ipv6_pool) (q l x i : id).

(** ** Pools *)

Lemma Inv_new_pool d E q type start bits units :
  Inv d E -> pls d !! q = None ->
  Inv (set_pools (pools d ++ [q]) (put_pool q (mkPool 2 type start bits units new_hash 0 heap_create 0 heap_create) d)) (with_pool q E).
Proof.
  intros I Hq. destruct (inv_ready _ _ I) as [R S]. destruct (inv_counts _ _ I) as [C1 C2 C3]. split; [split; [|exact S] | split; intros y; cbn | apply I | apply I |].
  - intros q' p'. cbn. rewrite lookup_insert, elem_of_app. case_decide; [intros _; right; set_solver | left; by eapply R].
  - rewrite <- C1. unfold lease_refs. cbn. rewrite !occ_app, gather_new by done. unfold pool_leases at 1. cbn. rewrite !heap_create_array, new_hash_elems. cbn. lia.
  - by rewrite <- C2.
  - specialize (C3 y). unfold pool_refs in *. cbn. rewrite held_insert, !occ_app in *. cbn. unfold one. case_bool_decide; [subst | lia].
    assert (held pool_refcnt (pls d) q = 0) by (unfold held; by rewrite Hq). cbn. lia.
  - intros q' p'. cbn. rewrite lookup_insert. case_decide; [intros [= <-]; subst | intros Hp'; by destruct (inv_pools _ _ I q' p' Hp')].
    split; cbn; rewrite ?heap_create_array, ?new_hash_elems; try done.
    + split; [constructor | set_solver | set_solver | constructor | set_solver].
    + intros _. apply heap_create_ok.
    + intros []; cbn; rewrite heap_create_array; by intros k x.
Qed.

Lemma declare_pool_ok (mem : nat -> bool) d E type start bits units :
  Inv d E -> (forall j, (j < 5)%nat -> mem (allocs d + j)%nat = true) ->
  runs (declare_pool mem type start bits units) d (fun q d' => Inv d' (with_pool q E) /\ pls d !! q = None /\
    exists p, pls d' = <[q := p]> (pls d) /\ pool_type p = type /\ start_addr p = start /\ LeaseDb.bits p = bits /\ LeaseDb.units p = units).
Proof.
  intros I Hm. pose proof (Hm 0%nat ltac:(lia)) as M0. pose proof (Hm 1%nat ltac:(lia)) as M1. pose proof (Hm 2%nat ltac:(lia)) as M2.
  pose proof (Hm 3%nat ltac:(lia)) as M3. pose proof (Hm 4%nat ltac:(lia)) as M4.
  replace (allocs d + 0)%nat with (allocs d) in M0 by lia. replace (allocs d + 1)%nat with (S (allocs d)) in M1 by lia.
  replace (allocs d + 2)%nat with (S (S (allocs d))) in M2 by lia. replace (allocs d + 3)%nat with (S (S (S (allocs d)))) in M3 by lia.
  replace (allocs d + 4)%nat with (S (S (S (S (allocs d))))) in M4 by lia.
  apply db_bind, db_bind, runs_alloc. rewrite M0. apply db_bind, runs_alloc. cbn [allocs set_allocs]. rewrite M1.
  apply db_bind, runs_alloc. cbn [allocs set_allocs]. rewrite M2. apply db_bind, runs_alloc. cbn [allocs set_allocs]. rewrite M3.
  cbn [negb]. apply db_bind, db_get, db_bind, db_modify, db_ret. cbn [pls set_allocs]. set (q := fresh (dom (pls d))).
  assert (pls d !! q = None) as Hq by (apply not_elem_of_dom, is_fresh). rewrite bool_decide_true by done. apply db_bind. eapply runs_deref; [done|].
  apply db_bind, db_bind, runs_alloc. cbn [allocs set_allocs set_pls]. rewrite M4. apply db_bind, db_bind. eapply runs_set_pool; [apply lookup_insert_eq|].
  apply db_ret, db_bind, db_modify, db_ret. rewrite bool_decide_true by done. apply db_ret. split; [|split; [exact Hq|]].
  - eapply Inv_same; [.. | exact (Inv_new_pool d E q type start bits units I Hq)]; try done. cbn. by rewrite insert_insert_eq.
  - eexists. cbn. rewrite insert_insert_eq. done.
Qed.

(** ** Finding a pool *)

Definition pools_valid d : Prop := forall q p, pls d !! q = Some p -> 0 <= bits p <= 128.

Lemma find_pool_in_ok d E type a : forall L, (forall q, q ∈ L -> q ∈ pools d) -> Inv d E -> pools_valid d -> addr_ok a ->
  runs (find_pool_in L type a) d (fun '(r, o) d' =>
    match o with
    | None => r = ISC_R_NOTFOUND /\ d' = d
    | Some q => r = ISC_R_SUCCESS /\ exists p, pls d !! q = Some p /\ pool_type p = type /\ in_network a (start_addr p) (bits p) = Some true /\
        d' = put_pool q (set_pool_refcnt (pool_refcnt p + 1) p) d /\ Inv d' (with_pool q E)
    end).
Proof.
  induction L as [|q L IH]; intros HL' I Hv Ha; cbn [find_pool_in]; [by apply db_ret|].
  destruct (counted_alive _ _ _ q (counts_pls _ _ (inv_counts _ _ I))) as (p & Hp & _).
  { unfold pool_refs. rewrite !elem_of_app. left. right. apply HL'. set_solver. }
  assert (forall q, q ∈ L -> q ∈ pools d) as HL'' by (intros ? ?; apply HL'; set_solver).
  apply db_bind. eapply runs_pool; [exact Hp|]. destruct (pool_type p =? type) eqn:G; cbn [negb]; [|by apply IH].
  destruct (network_portion_bits a (bits p) Ha (Hv q p Hp)) as (r & Er & _).
  apply db_bind. eapply runs_deref; [unfold in_network; by rewrite Er|]. destruct (bool_decide _) eqn:Gb; [|by apply IH].
  apply db_bind, db_bind. eapply runs_set_pool; [exact Hp|]. apply db_ret, db_ret. split; [done|]. exists p. split; [done|]. split; [lia|].
  split; [unfold in_network; rewrite Er; cbn; by rewrite Gb|]. split; [done | by apply take_pool].
Qed.

(** ** An address from the lease file *)

(** Addresses that are marked in a pool are not in the lease file. *)
Definition not_marked d (type : Z) (a : list Z) : Prop :=
  forall q p t, pls d !! q = Some p -> hash_lookup a (leases p) = Some t -> t ∈ heap_array (active_timeouts p).

Lemma load_address_ok (mem : nat -> bool) (fuel : nat) d E i (si : ia_xx) type a plen st v :
  Inv d E -> ias d !! i = Some si -> next_free si -> pools_valid d -> addr_ok a -> not_marked d type a -> mem (allocs d) = true -> v <= MAX_TIME ->
  (in_use d + 1 < fuel)%nat ->
  runs (load_address mem fuel i type a plen st v) d (fun b d' => if (b : bool) then Inv d' E else exists l, Inv d' (with_lease l E)).
Proof.
  intros I Hi Hf Hv Ha Hnm Hm Hmax F. apply db_bind, db_bind, runs_alloc. rewrite Hm. set (d0 := set_allocs _ d). assert (Inv d0 E) as I0 by by apply (Inv_same d).
  apply db_bind, db_get, db_bind, db_modify, db_ret. set (l := fresh (dom (subs d0))). set (s0 := mkSub _ _ _ _ _ _ _ _ _ _).
  assert (subs d0 !! l = None) as Hl by (apply not_elem_of_dom, is_fresh). change (set_subs _ d0) with (put_sub l s0 d0).
  apply db_bind. eapply runs_deref; [done|]. do 3 (apply db_bind; eapply runs_set_lease; [apply lookup_insert_eq|]). rewrite !put_put_sub.
  set (s1 := set_state st (set_plen plen (set_addr a s0))). set (s2 := if st =? FTS_RELEASED then set_hard v s1 else s1).
  apply db_bind. eapply runs_mono with (Q := fun _ d1 => d1 = put_sub l s2 d0).
  { unfold s2. destruct (st =? FTS_RELEASED); [|by apply db_ret]. eapply runs_set_lease; [apply lookup_insert_eq | by rewrite put_put_sub]. }
  intros _ ? ->. assert (addr s2 = a /\ state s2 = st /\ refcnt s2 = 1 /\ lease_ia s2 = None /\ lease_pool s2 = None) as (E1 & E2 & E3 & E4 & E5) by (unfold s2; by destruct (st =? _)).
  pose proof (Inv_new_sub d0 E l s2 I0 Hl E3 E4 E5) as I1. set (d1 := put_sub l s2 d0) in *. assert ((in_use d1 < fuel)%nat) as F1 by (pose proof (in_use_new d0 l s2) as Hu; change (in_use d0) with (in_use d) in Hu; unfold d1; lia).
  apply db_bind. eapply runs_mono; [eapply (attach_ok mem d1 _ i si l s2 I1); try done; apply lookup_insert_eq|]. intros _ d2 (I2 & P2 & F2 & n & Hs2).
  assert (pools_valid d2) as Hv2 by (unfold pools_valid; by rewrite P2).
  apply db_bind, db_bind, db_get. eapply runs_mono; [apply (find_pool_in_ok d2 (with_lease l E) type a); done|].
  intros [r [q|]] d3; [|intros [_ ->]; apply db_ret; by exists l].
  intros (-> & p & Hp & Hty & Hin & -> & I3). set (p3 := set_pool_refcnt (pool_refcnt p + 1) p) in *. set (d3 := put_pool q p3 d2) in *.
  assert (off_pools d3 l) as Ho.
  { intros q' p'. cbn. rewrite lookup_insert, P2. case_decide; [intros [= <-] | apply (off_pools_fresh d0 E l I0 Hl)].
    rewrite P2 in Hp. exact (off_pools_fresh d0 E l I0 Hl q p Hp). }
  apply db_bind. eapply runs_mono; [apply (add_lease6_ok mem fuel (with_pool q (with_lease l E)) q l v d3 p3 (set_ia (Some i) (set_refcnt n s2)))|]; try done.
  - apply lookup_insert_eq.
  - cbn. set_solver.
  - cbn. rewrite E1. rewrite P2 in Hp. exact (fun t => Hnm q p t Hp).
  - unfold d3, in_use in *. cbn. lia.
  - intros r4 d4 (I4 & F4 & _). apply db_bind. eapply runs_mono; [apply pool_drop_Inv; [exact I4 | lia]|]. intros r5 d5 (_ & I5 & D5).
    pose proof (drops_in_use _ _ D5). assert (in_use d3 = in_use d2) by done.
    apply db_bind. eapply runs_mono; [apply lease_drop_Inv; [exact I5 | lia]|]. intros r6 d6 (_ & I6 & _). by apply db_ret.
Qed.

(** ** The tables of active associations *)

Lemma Inv_table d E E' type t :
  Inv d E -> xl E' = xl E -> xp E' = xp E ->
  (forall y, occ y (hash_elems t).*2 + occ y (xi E') = occ y (hash_elems (active_table type d)).*2 + occ y (xi E)) ->
  Inv (set_active_table type t d) E'.
Proof.
  unfold active_table, set_active_table. intros [R [C1 C2 C3] I3 I4 I5] Hl Hp Ht.
  destruct (type =? D6O_IA_NA); [|destruct (type =? D6O_IA_TA)]; (split; [exact R | | exact I3 | exact I4 | intros q p Hq; by destruct (I5 q p Hq)]);
    (split; intros y; cbn; rewrite ?Hl, ?Hp; [apply C1 | | apply C3]); rewrite <- C2; specialize (Ht y); unfold ia_refs; cbn; rewrite !occ_app; lia.
Qed.

Lemma in_use_table d type t : in_use (set_active_table type t d) = in_use d.
Proof. unfold set_active_table. destruct (type =? D6O_IA_NA); [|destruct (type =? D6O_IA_TA)]; done. Qed.

Lemma publish_ok (fuel : nat) d E type i :
  Inv d (with_ia i E) -> (in_use d < fuel)%nat -> runs (publish_ia fuel type i) d (fun _ d' => Inv d' E).
Proof.
  intros I F. destruct (counted_alive _ _ _ i (counts_ias _ _ (inv_counts _ _ I))) as (si & Hi & _); [cbn; set_solver|].
  apply db_bind. eapply runs_ia; [exact Hi|]. apply db_bind, db_get, db_bind.
  eapply runs_mono with (Q := fun _ d1 => Inv d1 (with_ia i E) /\ (in_use d1 <= in_use d)%nat).
  { destruct (hash_lookup _ _) as [j|] eqn:Ej; [|by apply db_ret]. destruct (table_referred _ _ _ _ _ I Ej) as (sj & Hj).
    pose proof (inv_ias _ _ I j sj Hj) as Hrj. apply db_bind, db_bind. eapply runs_set_ia; [exact Hj|]. apply db_ret. pose proof (take_ia _ _ _ _ I Hj) as I1. set (d1 := put_ia j _ d) in *.
    assert (in_use d1 = in_use d) as F1 by (unfold in_use; cbn; rewrite (live_put _ (ias d) j sj); try done; cbn; lia).
    apply db_bind, db_modify. set (t := hash_delete _ _). assert (Inv (set_active_table type t d1) (with_ia j (with_ia j (with_ia i E)))) as I2.
    { eapply Inv_table; [exact I1 | done | done|]. intros y. cbn. replace (active_table type d1) with (active_table type d) by done.
      pose proof (hash_delete_elems _ _ _ Ej) as HPt. rewrite (occ_perm y _ _ (fmap_Permutation snd _ _ HPt)). cbn. fold t. lia. }
    apply db_bind. eapply runs_mono; [apply ia_drop_Inv; [exact I2 | rewrite in_use_table; lia]|]. intros r d3 (_ & I3 & D3). pose proof (drops_in_use _ _ D3) as F3. rewrite in_use_table in F3.
    apply db_bind. eapply runs_mono; [apply ia_drop_Inv; [exact I3 | lia]|]. intros r' d4 (_ & I4 & D4). pose proof (drops_in_use _ _ D4). apply db_ret. split; [done | lia]. }
  intros _ d1 [I1 F1]. destruct (counted_alive _ _ _ i (counts_ias _ _ (inv_counts _ _ I1))) as (s1 & Hi1 & _); [cbn; set_solver|].
  pose proof (inv_ias _ _ I1 i s1 Hi1) as Hr1. apply db_bind. eapply runs_ia; [exact Hi1|]. apply db_bind.
  eapply runs_mono with (Q := fun _ d2 => Inv d2 (with_ia i E) /\ (in_use d2 <= in_use d)%nat).
  { destruct (0 <? _)%nat; [|by apply db_ret]. apply db_bind. eapply runs_set_ia; [exact Hi1|]. pose proof (take_ia _ _ _ _ I1 Hi1) as I2. set (d2 := put_ia i _ d1) in *.
    assert (in_use d2 = in_use d1) as F2 by (unfold in_use; cbn; rewrite (live_put _ (ias d1) i s1); try done; cbn; lia).
    apply db_modify. split; [|rewrite in_use_table; lia]. eapply Inv_table; [exact I2 | done | done|]. intros y. cbn.
    rewrite (occ_perm y _ _ (fmap_Permutation snd _ _ (hash_add_elems _ _ _))). cbn. lia. }
  intros _ d2 [I2 F2]. apply db_bind. eapply runs_mono; [apply ia_drop_Inv; [exact I2 | lia]|]. intros r d3 (_ & I3 & _). by apply db_ret.
Qed.

(** A new association. *)
Lemma ia_allocate_ok (mem : nat -> bool) d E iaid duid :
  Inv d E -> runs (ia_allocate mem None iaid duid) d (fun '(r, o) d' =>
    match o with Some i => r = ISC_R_SUCCESS /\ Inv d' (with_ia i E) | None => r = ISC_R_NOMEMORY /\ Inv d' E end).
Proof.
  intros I. apply db_bind, runs_alloc. destruct (mem (allocs d)); [|apply db_ret; split; [done | by apply (Inv_same d)]].
  apply db_bind, runs_alloc. cbn [allocs set_allocs]. destruct (mem _); [|apply db_ret; split; [done | by apply (Inv_same d)]].
  apply db_bind, db_get, db_bind, db_modify, db_ret. split; [done|]. set (d0 := set_allocs _ _). set (i := fresh (dom (ias d0))).
  assert (ias d0 !! i = None) as Hi by (apply not_elem_of_dom, is_fresh). assert (Inv d0 E) as [R [C1 C2 C3] I3 I4 I5] by by apply (Inv_same d).
  split; [split; [apply R|] | split; intros y; cbn | exact I3 | | intros q p Hp; by destruct (I5 q p Hp)].
  - intros j t. cbn. rewrite lookup_insert. case_decide; [by intros [= <-] | apply R].
  - rewrite <- C1. unfold lease_refs. cbn. rewrite !occ_app, (gather_new _ (ias d)) by done. cbn. lia.
  - specialize (C2 y). unfold ia_refs in *. cbn in *. rewrite held_insert, !occ_app in *. cbn. unfold one. case_bool_decide; [subst|lia].
    assert (held ia_refcnt (ias d) i = 0) by (unfold held; by rewrite Hi). lia.
  - apply C3.
  - intros j t. cbn. rewrite lookup_insert. case_decide; [by intros [= <-] | apply I4].
Qed.

End LoadOk.
