(* ===== verification/LeaseSystem.v ===== *)
(** * The lease database as a system

    The calls the rest of the server makes, the conditions under which it may make
    them, and what holds in every state they lead to. *)

From S2P Require Import Prelude BindingStates V6Addr LeaseDb LeaseLaws LeaseRefs LeaseDrop LeasePool LeaseInv LeaseMoves LeaseOps LeaseIa LeaseAdd.
From S2P Require Import LeaseCleanup LeaseTimeout LeaseCreate LeaseTry LeaseLoad.

#[local] Open Scope Z_scope.

(** ** References held outside *)

Fixpoint remove_one (x : id) (l : list id) : list id :=
  match l with [] => [] | y :: l => if bool_decide (x = y) then l else y :: remove_one x l end.

Lemma remove_one_perm x l : x ∈ l -> l ≡ₚ x :: remove_one x l.
Proof.
  induction l as [|y l IH]; [set_solver|]. cbn. case_bool_decide; [by subst|]. intros [?|Hx]%elem_of_cons; [done|].
  rewrite (IH Hx) at 1. apply Permutation_swap.
Qed.

Definition join (E L : held_out) : held_out := Out (xl E ++ xl L) (xi E ++ xi L) (xp E ++ xp L).

(** ** Calls *)

Inductive call :=
| DeclarePool (type : Z) (start : list Z) (bits units : Z)
| NewIa (iaid : Z) (duid : list Z)
| LoadAddress (i : id) (type : Z) (addr : list Z) (plen state end_time : Z)
| Publish (type : Z) (i : id)
| CreateLease (q : id) (uid : list Z) (soft : Z)
| CreatePrefix (q : id) (uid : list Z) (soft : Z)
| TryAddress (q : id) (requested : list Z) (soft : Z)
| TryPrefix (q : id) (requested : list Z) (soft : Z)
| TakeTemporary (q : id) (a : list Z) (soft : Z)
| Attach (i l : id)
| Renew (q x : id) (hard soft : Z)
| Decline (q x : id)
| Release (q x : id)
| Timeout (q : id) (now : Z)
| Mark (q : id) (a : list Z)
| DropLease (l : id)
| DropIa (i : id)
| DropPool (q : id).

Section System.
Context `{HH : Hash, HL : !HashLaws} `{HP : Heap, PL : !HeapLaws} {ST : Strict} (mem : nat -> bool).
Context (md5 : list Z -> list Z) (random : nat -> list Z) (cidr : list Z -> Z -> bool).
Implicit Types (d : db) (E : held_out) (q l x i : id).

Definition drop_lease l E : held_out := Out (remove_one l (xl E)) (xi E) (xp E).
Definition drop_ia l E : held_out := Out (xl E) (remove_one l (xi E)) (xp E).
Definition drop_pool l E : held_out := Out (xl E) (xi E) (remove_one l (xp E)).

(** Make the call; the result is what the caller refers to afterwards. *)
Definition exec (c : call) E : D held_out := fun d =>
  let fuel := (in_use d + 2)%nat in
  (match c with
   | DeclarePool type start bits units => q ← declare_pool mem type start bits units; mret (with_pool q E)
   | NewIa iaid duid => '(_, o) ← ia_allocate mem None iaid duid; mret (match o with Some i => with_ia i E | None => E end)
   | LoadAddress i type addr plen state end_time => load_address mem fuel i type addr plen state end_time ;; mret E
   | Publish type i => publish_ia fuel type i ;; mret (drop_ia i E)
   | CreateLease q uid soft => '(_, o, _) ← create_lease6 mem fuel md5 random q None uid soft; mret (match o with Some l => with_lease l E | None => E end)
   | CreatePrefix q uid soft => '(_, o, _) ← create_prefix6 mem fuel md5 q None uid soft; mret (match o with Some l => with_lease l E | None => E end)
   | TryAddress q a soft => '(_, o) ← try_client_v6_address mem fuel q a soft; mret (match o with Some l => with_lease l E | None => E end)
   | TryPrefix q a soft => '(_, o) ← try_client_v6_prefix mem fuel cidr q a soft; mret (match o with Some l => with_lease l E | None => E end)
   | TakeTemporary q a soft => '(_, o) ← take_temporary mem fuel q a soft; mret (match o with Some l => with_lease l E | None => E end)
   | Attach i l => attach mem i l ;; mret E
   | Renew q x hard soft => renew_with mem q x hard soft ;; mret E
   | Decline q x => decline_lease6 mem q x ;; mret E
   | Release q x => release_lease6 mem fuel q x ;; mret E
   | Timeout q now => lease_timeout_support mem fuel q now ;; mret E
   | Mark q a => mark_lease_unavailable mem q a ;; mret E
   | DropLease l => iasubopt_dereference fuel (Some l) ;; mret (drop_lease l E)
   | DropIa i => ia_dereference fuel (Some i) ;; mret (drop_ia i E)
   | DropPool q => ipv6_pool_dereference fuel (Some q) ;; mret (drop_pool q E)
   end) d.

(** When the call may be made. *)
Definition may (c : call) d E : Prop :=
  match c with
  | DeclarePool _ _ _ _ => forall j, (j < 5)%nat -> mem (allocs d + j)%nat = true
  | NewIa _ _ => True
  | LoadAddress i type a _ _ v => (exists si, ias d !! i = Some si /\ next_free si) /\ pools_valid d /\ addr_ok a /\ not_marked d type a /\
      mem (allocs d) = true /\ v <= MAX_TIME
  | Publish _ i => i ∈ xi E
  | CreateLease q _ _ => exists p, pls d !! q = Some p /\ pool_valid p /\ (pool_type p = D6O_IA_NA \/ pool_type p = D6O_IA_TA)
  | CreatePrefix q _ _ => exists p, pls d !! q = Some p /\ pool_valid p /\ bits p <= units p < 128
  | TryAddress q a _ | TryPrefix q a _ => exists p, pls d !! q = Some p /\ pool_valid p /\ bytes_ok a
  | TakeTemporary q a _ => exists p, pls d !! q = Some p /\ addr_ok a /\ in_network a (start_addr p) (bits p) = Some true
  | Attach i l => exists si s, ias d !! i = Some si /\ next_free si /\ subs d !! l = Some s /\ lease_ia s = None
  | Renew q x hard soft => exists p s, pls d !! q = Some p /\ subs d !! x = Some s /\ may_renew p x s hard soft
  | Decline q x => exists p s, pls d !! q = Some p /\ subs d !! x = Some s /\ may_decline p x s
  | Release q x => exists p s, pls d !! q = Some p /\ subs d !! x = Some s /\ (state s = FTS_ACTIVE -> x ∈ heap_array (active_timeouts p))
  | Timeout q _ => is_Some (pls d !! q)
  | Mark q a => exists p, pls d !! q = Some p /\ a ∉ (hash_elems (leases p)).*1
  | DropLease l => l ∈ xl E
  | DropIa i => i ∈ xi E
  | DropPool q => q ∈ xp E
  end.

Definition empty_db : db := mkDb ∅ ∅ ∅ [] new_hash new_hash new_hash {| history := replicate 8 0; counter := 0 |} 0 [].

(** The states calls lead to, with what is held outside. *)
Inductive reachable : db -> held_out -> Prop :=
| reachable_empty : reachable empty_db (Out [] [] [])
| reachable_call d E c d' E' : reachable d E -> may c d E -> exec c E d = Some (E', d') -> reachable d' E'.

(** ** Consistency *)

(** The invariant, but for references nobody has any more. *)
Definition consistent d E : Prop := exists L, Inv d (join E L).

Lemma Inv_perm d E E' : xl E ≡ₚ xl E' -> xi E ≡ₚ xi E' -> xp E ≡ₚ xp E' -> Inv d E -> Inv d E'.
Proof.
  intros H1 H2 H3 [R [C1 C2 C3] I3 I4 I5]. split; try done. split; intros y; [rewrite <- C1 | rewrite <- C2 | rewrite <- C3]; rewrite !occ_app; f_equal; by apply occ_perm.
Qed.

Lemma consistent_more d E L L' : Inv d (Out (xl L' ++ xl (join E L)) (xi L' ++ xi (join E L)) (xp L' ++ xp (join E L))) -> consistent d E.
Proof.
  intros I. exists (join L' L). eapply Inv_perm; [.. | exact I]; cbn; rewrite !app_assoc; (apply Permutation_app; [apply Permutation_app_comm | done]).
Qed.

Lemma Inv_consistent d E L : Inv d (join E L) -> consistent d E.
Proof. by exists L. Qed.

Lemma with_lease_join l E L : with_lease l (join E L) = join (with_lease l E) L.
Proof. done. Qed.

Lemma exec_runs {A} (m : D A) (f : A -> held_out) d (Q : held_out -> db -> Prop) :
  runs m d (fun a d' => Q (f a) d') -> exists E' d', (m ≫= fun a => mret (f a)) d = Some (E', d') /\ Q E' d'.
Proof. unfold runs, mbind, D_bind. destruct (m d) as [[a d']|]; [|done]. intros HQ. by exists (f a), d'. Qed.

Lemma runs_exists {A} (m : D A) d (Q : A -> db -> Prop) : runs m d Q -> exists a d', m d = Some (a, d') /\ Q a d'.
Proof. unfold runs. destruct (m d) as [[a d']|]; [|done]. intros HQ. by exists a, d'. Qed.

Context (Hmd : forall bs : list Z, addr_ok (md5 bs)).

(** The caller gives up what it holds. *)
Lemma drop_lease_join d l E L : l ∈ xl E -> Inv d (join E L) -> Inv d (with_lease l (join (drop_lease l E) L)).
Proof. intros Hl. apply Inv_perm; cbn; [|done | done]. by rewrite (remove_one_perm l (xl E)) at 1. Qed.

Lemma drop_ia_join d l E L : l ∈ xi E -> Inv d (join E L) -> Inv d (with_ia l (join (drop_ia l E) L)).
Proof. intros Hl. apply Inv_perm; cbn; [done | | done]. by rewrite (remove_one_perm l (xi E)) at 1. Qed.

Lemma drop_pool_join d l E L : l ∈ xp E -> Inv d (join E L) -> Inv d (with_pool l (join (drop_pool l E) L)).
Proof. intros Hl. apply Inv_perm; cbn; [done | done |]. by rewrite (remove_one_perm l (xp E)) at 1. Qed.

(** A permitted call returns, and the state it leads to is consistent. *)
Lemma exec_consistent c d E : consistent d E -> may c d E -> exists E' d', exec c E d = Some (E', d') /\ consistent d' E'.
Proof.
  intros [L I] Hm. destruct c; cbn in Hm; unfold exec.
  - apply exec_runs. eapply runs_mono; [by eapply declare_pool_ok|]. intros q d' (I' & _). by exists L.
  - apply runs_exists, db_bind. eapply runs_mono; [by eapply ia_allocate_ok|]. intros [r [i|]] d' [_ I']; by exists L.
  - destruct Hm as ((si & Hi & Hf) & Hv & Ha & Hn & Hmem & Hmax). apply (exec_runs _ (fun _ => E)).
    eapply runs_mono; [eapply load_address_ok; try done; lia|]. intros [] d'; [intros I'; by exists L|]. intros [l I']. by apply (consistent_more d' E L (Out [l] [] [])).
  - apply (exec_runs _ (fun _ => drop_ia i E)). eapply runs_mono; [apply (publish_ok _ d (join (drop_ia i E) L)); [by apply drop_ia_join | lia]|]. intros ? d' I'. by exists L.
  - destruct Hm as (p & Hp & Hv & Hty). apply runs_exists, db_bind. eapply runs_mono; [eapply create_lease6_ok; try done; lia|].
    intros [[r [l|]] att] d'; [intros (_ & _ & I' & _) | intros [I' _]]; by exists L.
  - destruct Hm as (p & Hp & Hv & Hu). apply runs_exists, db_bind. eapply runs_mono; [eapply create_prefix6_ok; try done; lia|].
    intros [[r [l|]] att] d'; [intros (_ & _ & I' & _) | intros [I' _]]; by exists L.
  - destruct Hm as (p & Hp & Hv & Hb). apply runs_exists, db_bind. eapply runs_mono; [eapply try_address_ok; try done; lia|]. intros [r [l|]] d' H; [destruct H as (I' & _) | destruct H as [_ I']]; by exists L.
  - destruct Hm as (p & Hp & Hv & Hb). apply runs_exists, db_bind. eapply runs_mono; [eapply try_prefix_ok; try done; lia|]. intros [r [l|]] d' H; [destruct H as (I' & _) | destruct H as [_ I']]; by exists L.
  - destruct Hm as (p & Hp & Ha & Hin). apply runs_exists, db_bind. eapply runs_mono; [eapply take_temporary_ok; try done; lia|]. intros [r [l|]] d' I'; by exists L.
  - destruct Hm as (si & s & Hi & Hf & Hs & Hl). apply (exec_runs _ (fun _ => E)). eapply runs_mono; [by eapply attach_ok|]. intros _ d' (I' & _). by exists L.
  - destruct Hm as (p & s & Hp & Hs & Hr). apply (exec_runs _ (fun _ => E)). eapply runs_mono; [by eapply renew_ok|]. intros r d' (I' & _). by exists L.
  - destruct Hm as (p & s & Hp & Hs & Hr). apply (exec_runs _ (fun _ => E)). eapply runs_mono; [by eapply decline_ok|]. intros r d' (I' & _). by exists L.
  - destruct Hm as (p & s & Hp & Hs & Hr). apply (exec_runs _ (fun _ => E)). eapply runs_mono; [eapply release_ok; try done; lia|]. intros r d' (I' & _). by exists L.
  - destruct Hm as [p Hp]. apply (exec_runs _ (fun _ => E)). eapply runs_mono; [eapply timeout_ok; try done; lia|]. intros r d' (K & X & R & p' & I' & _).
    by apply (consistent_more d' E L (Out [] K [])).
  - destruct Hm as (p & Hp & Ha). apply (exec_runs _ (fun _ => E)). eapply runs_mono; [by eapply mark_ok|]. intros r d' [[_ I']|(_ & l & p' & I' & _)]; [by exists L|].
    by apply (consistent_more d' E L (Out [l] [] [])).
  - apply (exec_runs _ (fun _ => drop_lease l E)). eapply runs_mono; [apply (lease_drop_Inv _ d (join (drop_lease l E) L)); [by apply drop_lease_join | lia]|]. intros r d' (_ & I' & _). by exists L.
  - apply (exec_runs _ (fun _ => drop_ia i E)). eapply runs_mono; [apply (ia_drop_Inv _ d (join (drop_ia i E) L)); [by apply drop_ia_join | lia]|]. intros r d' (_ & I' & _). by exists L.
  - apply (exec_runs _ (fun _ => drop_pool q E)). eapply runs_mono; [apply (pool_drop_Inv _ d (join (drop_pool q E) L)); [by apply drop_pool_join | lia]|]. intros r d' (_ & I' & _). by exists L.
Qed.

Lemma empty_consistent : consistent empty_db (Out [] [] []).
Proof.
  exists (Out [] [] []). split; [split; [done | done] | | done | done | done].
  split; intros y; unfold lease_refs, ia_refs, pool_refs; cbn; rewrite ?new_hash_elems; done.
Qed.

Lemma reachable_consistent d E : reachable d E -> consistent d E.
Proof.
  induction 1 as [|d E c d' E' _ IH Hm He]; [apply empty_consistent|].
  destruct (exec_consistent c d E IH Hm) as (E2 & d2 & He2 & C2). rewrite He in He2. by injection He2 as <- <-.
Qed.

End System.
