(* ===== verification/LeaseClaims.v ===== *)
(** * What the lease database guarantees *)

From S2P Require Import Prelude BindingStates V6Addr LeaseDb LeaseLaws LeaseRefs LeaseDrop LeasePool LeaseInv LeaseMoves LeaseOps LeaseIa LeaseAdd.
From S2P Require Import LeaseCleanup LeaseTimeout LeaseCreate LeaseTry LeaseLoad LeaseSystem.

#[local] Open Scope Z_scope.

(** ** Reference counts *)

(** Dropping a reference to a lease ends (the recursion through associations and
    pools is no deeper than there are objects in use) and leaves every count equal to
    the number of references that remain; what is still referred to is as it was but
    for its count, and nothing else changes. *)
Theorem drop_exact `{HH : Hash} `{HP : Heap} n d E l :
  ready d -> counts d (with_lease l E) -> (in_use d < n)%nat ->
  exists d', iasubopt_dereference n (Some l) d = Some (ISC_R_SUCCESS, d') /\ counts d' E /\
    (forall x s, subs d !! x = Some s -> x ∈ lease_refs d' ++ xl E -> exists k, subs d' !! x = Some (set_refcnt k s)) /\
    (forall i s, ias d !! i = Some s -> i ∈ ia_refs d' ++ xi E -> exists k, ias d' !! i = Some (set_ia_refcnt k s)) /\
    (forall q p, pls d !! q = Some p -> exists k, pls d' !! q = Some (set_pool_refcnt k p)) /\
    (forall x, is_Some (subs d' !! x) -> is_Some (subs d !! x)) /\ (forall i, is_Some (ias d' !! i) -> is_Some (ias d !! i)) /\ rest d' = rest d.
Proof.
  intros R C F. destruct (runs_exists _ _ _ (lease_dereference_ok n d E l R C F)) as (r & d' & Ed & -> & C' & D). exists d'. split; [done|]. split; [done|].
  destruct D as [D1 D2 D3 D4 D5] eqn:ED. repeat split; try done.
  - intros x s Hs Hx. destruct (counted_alive _ _ _ x (counts_subs _ _ C') Hx) as (s' & Hs' & _).
    destruct (dropped_back _ _ _ _ _ _ D1 Hs') as (s0 & Hs0 & Heq & _). exists (refcnt s'). rewrite Hs'. congruence.
  - intros x s Hs Hx. destruct (counted_alive _ _ _ x (counts_ias _ _ C') Hx) as (s' & Hs' & _).
    destruct (dropped_back _ _ _ _ _ _ D2 Hs') as (s0 & Hs0 & Heq & _). exists (ia_refcnt s'). rewrite Hs'. congruence.
  - by apply drops_same_pools.
  - intros x [s' Hs']. destruct (dropped_back _ _ _ _ _ _ D1 Hs') as (s0 & Hs0 & _). by eexists.
  - intros x [s' Hs']. destruct (dropped_back _ _ _ _ _ _ D2 Hs') as (s0 & Hs0 & _). by eexists.
Qed.

Section Claims.
Context `{HH : Hash, HL : !HashLaws} `{HP : Heap, PL : !HeapLaws} {ST : Strict} (mem : nat -> bool).
Context (md5 : list Z -> list Z) (random : nat -> list Z) (cidr : list Z -> Z -> bool) (Hmd : forall bs, addr_ok (md5 bs)).
Implicit Types (d : db) (E : held_out) (p : ipv6_pool) (q l x i : id).

(** ** Consistency *)


(** ** New leases *)

(** C29: in a reachable state [create_lease6] ends after at most 100 attempts: with a
    lease nobody had, for an address of the pool that has no reserved identifier and is
    not in use, on the inactive heap, with a reference for the caller; or without
    resources after 100 attempts; or without memory. *)
Theorem created_lease_free d E q p uid soft :
  reachable mem md5 random cidr d E -> pls d !! q = Some p -> pool_valid p -> pool_type p = D6O_IA_NA \/ pool_type p = D6O_IA_TA ->
  exists r o att d', create_lease6 mem (in_use d + 2) md5 random q None uid soft d = Some (r, o, att, d') /\
    match o with
    | Some l => r = ISC_R_SUCCESS /\ 1 <= att <= 100 /\ consistent d' (with_lease l E) /\ given q p l soft (fun a => reserved_iid a = false) d d'
    | None => consistent d' E /\ (r = ISC_R_NORESOURCES /\ att = 101 \/ r = ISC_R_NOMEMORY /\ 1 <= att <= 100)
    end.
Proof.
  intros [L I]%reachable_consistent Hp Hv Hty; [|exact Hmd].
  destruct (runs_exists _ _ _ (create_lease6_ok mem (in_use d + 2) md5 random Hmd d _ q p uid soft I Hp Hv Hty ltac:(lia))) as ([[r o] att] & d' & Ed & H).
  exists r, o, att, d'. split; [done|]. destruct o as [l|].
  - destruct H as (-> & Hatt & I' & Hg). split; [done|]. split; [done|]. split; [by exists L | done].
  - destruct H as (I' & Hr). split; [by exists L|]. destruct Hr as [[-> ->]|[-> ?]]; [by left | by right].
Qed.

(** ** Timeouts *)

(** C21: in every state that permitted calls lead to (as for the consistency of the database), the timeout of a pool ends.  Only leases that are over leave the active heap.  Only leases whose time to be cleaned up has come leave the inactive
    heap: that is one hour after the end of the lease, and for an offer that was never confirmed (its lease has no end) the end of the offer itself.  No association leaves the tables of active associations, also when its
    last lease is forgotten.  If leases in use were only renewed for longer and declined ones not for longer ([strict]), then (with memory) no lease that is over stays on the active heap, and the timer is set to fire at most one second after the next one is over. *)
Theorem timeout_expires_due d E q p now :
  reachable mem md5 random cidr d E -> pls d !! q = Some p ->
  exists d' X R p', lease_timeout_support mem (in_use d + 1) q now d = Some (tt, d') /\ consistent d' E /\ timed_out mem X R q now d p d' p'.
Proof.
  intros [L I]%reachable_consistent Hp; [|exact Hmd].
  destruct (runs_exists _ _ _ (timeout_ok mem (in_use d + 1) d _ q p now I Hp ltac:(lia))) as ([] & d' & Ed & K & X & R & p' & I' & H).
  exists d', X, R, p'. split; [done|]. split; [|done]. by apply (consistent_more d' E L (Out [] K [])).
Qed.

(** ** Addresses *)

(** What a call means for the set of addresses that are taken in the pool. *)
Inductive use := Take (a : list Z) | Give (a : list Z).
Definition uses (u : use) (S : gset (list Z)) : gset (list Z) := match u with Take a => {[a]} ∪ S | Give a => S ∖ {[a]} end.


(** ** Associations *)

(** Removing a lease that is not the last of an association leaves a pointer behind
    the last one; the next [ia_add_iasubopt] finds it, reports success, and counts the
    old pointer again while the new lease is neither stored nor referred to. *)
Theorem removed_slot_stays d E i (si : ia_xx) x s k y l :
  reachable mem md5 random cidr d E -> i ∈ xi E -> x ∈ xl E -> ias d !! i = Some si -> subs d !! x = Some s -> lease_ia s = Some i ->
  find_slot (num_iasubopt si) 0 (iasubopt_array si) x = Some k -> (S k < num_iasubopt si)%nat ->
  iasubopt_array si !! (num_iasubopt si - 1)%nat = Some (Some y) ->
  exists d1 d2 si2, ia_remove_iasubopt (in_use d + 1) i x d = Some (tt, d1) /\ ia_add_iasubopt mem i l d1 = Some (ISC_R_SUCCESS, d2) /\
    subs d2 = subs d1 /\ ias d2 !! i = Some si2 /\ num_iasubopt si2 = num_iasubopt si /\
    iasubopt_array si2 !! (num_iasubopt si - 1)%nat = Some (Some y) /\ iasubopt_array si2 !! (num_iasubopt si - 2)%nat = Some (Some y).
Proof.
  intros [L I]%reachable_consistent Hi Hx Hsi Hs Hl Hk Hlt Hy; [|exact Hmd].
  assert (Inv d (with_ia i (with_lease x (join (drop_ia i (drop_lease x E)) L)))) as I'.
  { apply (Inv_perm d (join E L)); [cbn .. | exact I]; [by rewrite (remove_one_perm x (xl E)) at 1 | by rewrite (remove_one_perm i (xi E)) at 1 | done]. }
  destruct (runs_exists _ _ _ (ia_remove_ok (in_use d + 1) d _ i si x s I' Hsi Hs Hl ltac:(lia))) as ([] & d1 & Ed & _ & _ & _ & _ & _ & Hia).
  destruct (Hia k Hk) as [n Hd1]. apply find_slot_Some in Hk as [_ Hka]. apply lookup_lt_Some in Hy as Hlen. set (num := num_iasubopt si) in *.
  set (a := move_down k num (<[k := None]> (iasubopt_array si))) in *.
  assert (length (<[k := None]> (iasubopt_array si)) = length (iasubopt_array si)) as La by apply length_insert.
  assert (a !! (num - 1)%nat = Some (Some y) /\ a !! (num - 2)%nat = Some (Some y)) as [Ha1 Ha2].
  { unfold a, move_down. rewrite app_assoc. split.
    - rewrite lookup_app_r by (rewrite length_app, !length_take, length_drop; lia). rewrite length_app, !length_take, length_drop, lookup_drop, list_lookup_insert_ne by lia.
      rewrite <- Hy. f_equal. lia.
    - rewrite lookup_app_l by (rewrite length_app, !length_take, length_drop; lia). rewrite lookup_app_r by (rewrite length_take; lia).
      rewrite length_take, lookup_take_lt, lookup_drop, list_lookup_insert_ne by lia. rewrite <- Hy. f_equal. lia. }
  assert (length a = length (iasubopt_array si)) as Lena by (unfold a; rewrite move_down_length; lia).
  set (si1 := set_ia_refcnt n (set_array (num - 1) a si)) in *.
  assert (runs (ia_add_iasubopt mem i l) d1 (fun r d2 => r = ISC_R_SUCCESS /\ subs d2 = subs d1 /\
    ias d2 !! i = Some (set_array (S (num - 1)) (<[(num - 1)%nat := Some y]> a) si1))) as Hadd.
  { apply db_bind. eapply runs_ia; [exact Hd1|]. cbn [iasubopt_array num_iasubopt si1 set_ia_refcnt set_array]. apply db_bind.
    destruct (_ <=? _)%nat eqn:G; [apply Nat.leb_le in G; lia|]. apply db_ret, db_bind. eapply runs_ia; [exact Hd1|].
    apply db_bind. eapply runs_deref; [exact Ha1|]. apply db_bind, db_ret, db_bind. eapply runs_set_ia; [exact Hd1|]. apply db_ret. split; [done|]. split; [done|].
    apply lookup_insert_eq. }
  destruct (runs_exists _ _ _ Hadd) as (r & d2 & Ed2 & -> & Hs2 & Hi2). exists d1, d2. eexists. split; [exact Ed|]. split; [exact Ed2|]. split; [done|]. split; [exact Hi2|].
  cbn. split; [lia|]. split; [apply list_lookup_insert_eq; lia | rewrite list_lookup_insert_ne by lia; exact Ha2].
Qed.

End Claims.

(** ** A run of the system *)

Section Example_run.
#[local] Existing Instances assoc_hash sorted_heap.

Definition m : nat -> bool := fun _ => true.
Definition digest (bs : list Z) : list Z := replicate 16 (Z.of_nat (length bs) mod 256).
Definition noise : nat -> list Z := fun _ => replicate 8 0.
Definition aligned (a : list Z) (plen : Z) : bool := bool_decide (ipv6_network_portion a plen = Some a).
Definition net : list Z := [32; 1; 13; 184; 0; 0; 0; 0; 0; 0; 0; 0; 0; 0; 0; 0].

Lemma digest_ok bs : addr_ok (digest bs).
Proof.
  split; [done|]. apply Forall_replicate. pose proof (Z.mod_pos_bound (Z.of_nat (length bs)) 256 ltac:(lia)). unfold byte_ok. lia.
Qed.

(** A pool, an association, and two leases of it; one is renewed, and then for less time than before. *)
Definition calls : list call :=
  [DeclarePool D6O_IA_NA net 64 128; NewIa 7 [1; 2; 3]; CreateLease 1 [1; 2; 3] 100; CreateLease 1 [1; 2; 3; 4] 100; Attach 1 1; Attach 1 2; Renew 1 1 50 0; Renew 1 1 20 0].

Fixpoint run (cs : list call) (E : held_out) (d : db) : option (held_out * db) :=
  match cs with [] => Some (E, d) | c :: cs => match exec m digest noise aligned c E d with Some (E', d') => run cs E' d' | None => None end end.

Definition after (k : nat) : held_out * db := default (Out [] [] [], empty_db) (run (take k calls) (Out [] [] []) empty_db).

Abbreviation reaches st k := (reachable (ST := st) m digest noise aligned (after k).2 (after k).1).

(** The next state is reachable if the call may be made. *)
Ltac reach st k c R := apply (reachable_call (ST := st) m digest noise aligned (after k).2 (after k).1 c); [exact R | | vm_compute; reflexivity].

Lemma reach0 st : reaches st 0. Proof. exact (reachable_empty (ST := st) m digest noise aligned). Qed.
Lemma reach1 st : reaches st 1. Proof. reach st 0%nat (DeclarePool D6O_IA_NA net 64 128) (reach0 st). done. Qed.
Lemma reach2 st : reaches st 2. Proof. reach st 1%nat (NewIa 7 [1; 2; 3]) (reach1 st). done. Qed.
Lemma reach3 st : reaches st 3.
Proof. reach st 2%nat (CreateLease 1 [1; 2; 3] 100) (reach2 st). eexists. split; [vm_compute; reflexivity|]. split; [|by left]. repeat split; vm_compute; try done. repeat constructor; done. Qed.
Lemma reach4 st : reaches st 4.
Proof. reach st 3%nat (CreateLease 1 [1; 2; 3; 4] 100) (reach3 st). eexists. split; [vm_compute; reflexivity|]. split; [|by left]. repeat split; vm_compute; try done. repeat constructor; done. Qed.
Lemma reach5 st : reaches st 5.
Proof. reach st 4%nat (Attach 1 1) (reach4 st). eexists _, _. split; [vm_compute; reflexivity|]. split; [vm_compute; done|]. split; vm_compute; reflexivity. Qed.
Lemma reach6 st : reaches st 6.
Proof. reach st 5%nat (Attach 1 2) (reach5 st). eexists _, _. split; [vm_compute; reflexivity|]. split; [vm_compute; done|]. split; vm_compute; reflexivity. Qed.
Lemma reach7 st : reaches st 7.
Proof.
  reach st 6%nat (Renew 1 1 50 0) (reach6 st). eexists _, _. split; [vm_compute; reflexivity|]. split; [vm_compute; reflexivity|]. split; [vm_compute; done|].
  right. right. split; apply (bool_decide_unpack _); vm_compute; exact I.
Qed.

(** The lease is renewed for less time than it had. *)
Lemma reach8 : reaches false 8.
Proof.
  reach false 7%nat (Renew 1 1 20 0) (reach7 false). eexists _, _. split; [vm_compute; reflexivity|]. split; [vm_compute; reflexivity|]. split; [vm_compute; done|].
  left. split; [apply (bool_decide_unpack _); vm_compute; exact I|]. split; [vm_compute; reflexivity | done].
Qed.

(** ** Witnesses *)

Lemma counted_check {A} (rc : A -> Z) (t : gmap id A) refs :
  Forall (fun x => occ x refs = held rc t x) (refs ++ (map_to_list t).*1) -> counted rc t refs.
Proof.
  rewrite list.Forall_forall. intros H x. destruct (decide (x ∈ refs ++ (map_to_list t).*1)) as [Hx|Hx]; [by apply H|].
  rewrite elem_of_app in Hx. assert (t !! x = None) as Ht.
  { apply eq_None_not_Some. intros [a Ha]. apply Hx. right. apply list_elem_of_fmap. exists (x, a). split; [done | by apply elem_of_map_to_list]. }
  unfold held. rewrite Ht. pose proof (occ_nonneg x refs). assert (~ 1 <= occ x refs) by (rewrite <- occ_elem; tauto). lia.
Qed.

(** Lease 1 refers to an association, which refers to lease 2. *)
Definition chain : db := mkDb
  {[1%positive := mkSub 1 net 0 FTS_ACTIVE false 0 0 (Some 1%positive) None (-1); 2%positive := mkSub 1 net 0 FTS_ACTIVE false 0 0 None None (-1)]}
  {[1%positive := mkIa 1 [] D6O_IA_NA 1 [Some 2%positive]]} ∅ [] [] [] [] {| history := []; counter := 0 |} 0 [].

Lemma drop_exact_witness : exists d', iasubopt_dereference 4 (Some 1%positive) chain = Some (ISC_R_SUCCESS, d') /\ counts d' (Out [] [] []).
Proof.
  destruct (drop_exact 4 chain (Out [] [] []) 1%positive) as (d' & H1 & H2 & _).
  - split; [intros q p Hq; cbn in Hq; by rewrite lookup_empty in Hq|]. intros i s. cbn. rewrite lookup_singleton. case_decide; [by intros [= <-] | done].
  - split; apply counted_check; vm_compute; repeat constructor.
  - vm_compute. lia.
  - by exists d'.
Defined.


Lemma created_lease_free_witness : exists r o att d', create_lease6 m (in_use (after 2).2 + 2) digest noise 1 None [1; 2; 3] 100 (after 2).2 = Some (r, o, att, d').
Proof.
  edestruct (created_lease_free (ST := true) m digest noise aligned digest_ok (after 2).2 (after 2).1 1) with (uid := [1; 2; 3]) (soft := 100) as (r & o & att & d' & He & _).
  - exact (reach2 true).
  - vm_compute. reflexivity.
  - repeat split; vm_compute; try done. repeat constructor; done.
  - by left.
  - by exists r, o, att, d'.
Defined.

Lemma timeout_expires_due_witness : exists d', lease_timeout_support m (in_use (after 7).2 + 1) 1 60 (after 7).2 = Some (tt, d').
Proof.
  edestruct (timeout_expires_due (ST := true) m digest noise aligned digest_ok (after 7).2 (after 7).1 1) with (now := 60) as (d' & X & R & p' & He & _).
  - exact (reach7 true).
  - vm_compute. reflexivity.
  - by exists d'.
Defined.


Lemma removed_slot_stays_witness : exists d1 d2, ia_remove_iasubopt (in_use (after 6).2 + 1) 1 1 (after 6).2 = Some (tt, d1) /\
  ia_add_iasubopt m 1 1 d1 = Some (ISC_R_SUCCESS, d2) /\ subs d2 = subs d1.
Proof.
  edestruct (removed_slot_stays (ST := true) m digest noise aligned digest_ok (after 6).2 (after 6).1 1) with (x := 1%positive) (k := 0%nat) (y := 2%positive) (l := 1%positive)
    as (d1 & d2 & si2 & H1 & H2 & H3 & _).
  - exact (reach6 true).
  - apply (bool_decide_unpack _). vm_compute. exact I.
  - apply (bool_decide_unpack _). vm_compute. exact I.
  - vm_compute. reflexivity.
  - vm_compute. reflexivity.
  - reflexivity.
  - reflexivity.
  - vm_compute. lia.
  - reflexivity.
  - exact (ex_intro _ d1 (ex_intro _ d2 (conj H1 (conj H2 H3)))).
Defined.

End Example_run.
