(* ===== verification/FailoverLeases.v ===== *)
(** * Failover: which server may do what with a lease

    The decisions of server/failover.c about single leases: which updates of the peer
    are accepted, who wins when updates cross, who may hand a lease out again, and which
    server answers a client.  Two servers, a primary and a secondary, run the same code,
    and the theorems put their decisions side by side.

    A lease and a failover relationship are records of the members these functions read.
    A result [None] is the end of the process in [log_fatal], or a read outside an array;
    times are unbounded. *)

From S2P Require Import Prelude BindingStates.

(** ** Data *)

Inductive role := primary | secondary.

#[export] Instance role_eq_dec : EqDecision role.
Proof. solve_decision. Defined.

Inductive service := unknown_service_state | cooperating | not_cooperating | service_partner_down | not_responding | service_startup.

#[export] Instance service_eq_dec : EqDecision service.
Proof. solve_decision. Defined.

(** [dhcp_failover_state_t] *)
Record failover_state := {
  i_am : role; service_state : service; me_stos : Z; mclt : Z;
  hba : option (list Z); load_balance_max_secs : Z
}.

(** [struct lease]; [lease_pool] is the pool, of which only its failover peer matters,
    [hbuf] the used part of [hardware_addr.hbuf]. *)
Record lease4 := {
  binding_state : Z; desired_binding_state : Z; rewind_binding_state : Z;
  ends : Z; tsfp : Z; cltt : Z;
  uid : list Z; hbuf : list Z;
  lease_pool4 : option (option failover_state)
}.

Definition FTB_CLTT : Z := 64.

(** [failover_message_t] *)
Record bndupd := { options_present : Z; msg_cltt : Z; binding_status : Z }.

(** The members of a packet: [secs] in host order, and what [lookup_option] and
    [evaluate_option_cache] give for the client identifier. *)
Record packet := { secs : Z; client_identifier : option (list Z); chaddr : list Z; hlen : nat }.

(** [switch (x)] with the labels [l]. *)
Definition case_of (x : Z) (l : list Z) : bool := existsb (Z.eqb x) l.

(** ** Accepting an update of the peer *)

(** [binding_state] is the state the peer puts the lease into. *)
Definition normal_binding_state_transition_check (lease : lease4) (state : failover_state) (to tsfp cur_time : Z) : option Z :=
  let from := binding_state lease in
  if to =? from then Some to
  else if case_of from [FTS_FREE; FTS_ABANDONED] then
    if case_of to [FTS_ACTIVE; FTS_ABANDONED; FTS_BACKUP; FTS_EXPIRED; FTS_RELEASED; FTS_RESET] then
      if bool_decide (i_am state = secondary) then Some to else Some to
    else if case_of to [FTS_FREE] then Some to
    else None
  else if case_of from [FTS_ACTIVE] then
    if bool_decide (i_am state = primary) then
      if to =? FTS_RELEASED then Some to else Some from
    else if case_of to [FTS_FREE; FTS_BACKUP] then
      if cur_time <? tsfp then Some from else Some to
    else if case_of to [FTS_EXPIRED] then
      if cur_time <? ends lease - 65 then Some from else Some to
    else if case_of to [FTS_RELEASED; FTS_ABANDONED; FTS_RESET; FTS_ACTIVE] then Some to
    else None
  else if case_of from [FTS_EXPIRED] then
    if case_of to [FTS_BACKUP; FTS_FREE] then
      if cur_time <? tsfp then Some from else Some to
    else if case_of to [FTS_ACTIVE; FTS_RELEASED; FTS_ABANDONED; FTS_RESET; FTS_EXPIRED] then Some to
    else None
  else if case_of from [FTS_RELEASED] then
    if case_of to [FTS_FREE; FTS_BACKUP; FTS_EXPIRED; FTS_ABANDONED; FTS_RESET; FTS_ACTIVE; FTS_RELEASED] then Some to
    else None
  else if case_of from [FTS_RESET] then
    if case_of to [FTS_FREE; FTS_BACKUP] then
      if cur_time <? tsfp then Some from else Some to
    else if case_of to [FTS_ACTIVE; FTS_EXPIRED; FTS_RELEASED; FTS_ABANDONED; FTS_RESET] then Some to
    else None
  else if case_of from [FTS_BACKUP] then
    if case_of to [FTS_ACTIVE; FTS_ABANDONED; FTS_EXPIRED; FTS_RELEASED; FTS_RESET] then
      if bool_decide (i_am state = primary) then Some to else Some to
    else if case_of to [FTS_FREE] then Some to
    else if case_of to [FTS_BACKUP] then Some from
    else None
  else None.

Definition conflict_binding_state_transition_check (lease : lease4) (to cur_time : Z) : option Z :=
  let from := binding_state lease in
  if to =? from then Some to
  else if case_of from [FTS_FREE; FTS_ABANDONED; FTS_EXPIRED; FTS_RELEASED; FTS_RESET; FTS_BACKUP] then Some to
  else if case_of from [FTS_ACTIVE] then
    if case_of to [FTS_FREE; FTS_BACKUP] then Some from
    else if case_of to [FTS_EXPIRED] then
      if cur_time <? ends lease - 65 then Some from else Some to
    else if case_of to [FTS_RELEASED; FTS_RESET; FTS_ABANDONED] then Some to
    else None
  else None.

(** [true]: the lease of this server is preferred to the update it gets. *)
Definition failover_lease_is_better (state : failover_state) (lease : lease4) (msg : bndupd) : option bool :=
  let local_state := if negb (binding_state lease =? desired_binding_state lease) then desired_binding_state lease else binding_state lease in
  let msg_cltt := if negb (Z.land (options_present msg) FTB_CLTT =? 0) then msg_cltt msg else 0 in
  let rest :=
    if binding_status msg =? FTS_ACTIVE then Some false
    else if bool_decide (i_am state = primary) then Some true
    else Some false in
  if case_of local_state [FTS_ACTIVE] then
    if binding_status msg =? FTS_ACTIVE then
      if msg_cltt <? cltt lease then Some true
      else if cltt lease <? msg_cltt then Some false
      else if bool_decide (i_am state = primary) then Some true
      else Some false
    else if binding_status msg =? FTS_EXPIRED then Some false
    else rest
  else if case_of local_state [FTS_FREE; FTS_BACKUP; FTS_EXPIRED; FTS_RELEASED; FTS_ABANDONED; FTS_RESET] then rest
  else None.

(** ** Handing a lease out again *)

Definition lease_mine_to_reallocate (lease : option lease4) (cur_time : Z) : option bool :=
  match lease with
  | Some l =>
      match lease_pool4 l with
      | Some (Some peer) =>
          let alone := bool_decide (service_state peer = service_partner_down) in
          let waited := if tsfp l <? me_stos peer then me_stos peer + mclt peer <? cur_time else tsfp l + mclt peer <? cur_time in
          if case_of (binding_state l) [FTS_ACTIVE] then Some false
          else if case_of (binding_state l) [FTS_FREE; FTS_ABANDONED] then
            if bool_decide (i_am peer = primary) then Some true else Some (alone && waited)
          else if case_of (binding_state l) [FTS_RELEASED; FTS_EXPIRED; FTS_RESET] then
            if case_of (binding_state l) [FTS_RELEASED; FTS_EXPIRED] &&
               bool_decide (i_am peer = primary) && (rewind_binding_state l =? FTS_FREE) then Some true
            else if case_of (binding_state l) [FTS_RELEASED; FTS_EXPIRED] &&
               bool_decide (i_am peer = secondary) && (rewind_binding_state l =? FTS_BACKUP) then Some true
            else Some (alone && (tsfp l <? cur_time))
          else if case_of (binding_state l) [FTS_BACKUP] then
            if bool_decide (i_am peer = secondary) then Some true else Some (alone && waited)
          else None
      | _ => Some ((binding_state l =? FTS_FREE) || (binding_state l =? FTS_BACKUP))
      end
  | None => Some false
  end.

(** ** Load balancing *)

Definition loadb_mx_tbl : list Z :=
  [ 251; 175; 119; 215;  81;  14;  79; 191; 103;  49;
    181; 143; 186; 157;   0; 232;  31;  32;  55;  60;
    152;  58;  17; 237; 174;  70; 160; 144; 220;  90;
    57;  223;  59;   3;  18; 140; 111; 166; 203; 196;
    134; 243; 124;  95; 222; 179; 197;  65; 180;  48;
     36;  15; 107;  46; 233; 130; 165;  30; 123; 161;
    209;  23;  97;  16;  40;  91; 219;  61; 100;  10;
    210; 109; 250; 127;  22; 138;  29; 108; 244;  67;
    207;   9; 178; 204;  74;  98; 126; 249; 167; 116;
    34;   77; 193; 200; 121;   5;  20; 113;  71;  35;
    128;  13; 182;  94;  25; 226; 227; 199;  75;  27;
     41; 245; 230; 224;  43; 225; 177;  26; 155; 150;
    212; 142; 218; 115; 241;  73;  88; 105;  39; 114;
     62; 255; 192; 201; 145; 214; 168; 158; 221; 148;
    154; 122;  12;  84;  82; 163;  44; 139; 228; 236;
    205; 242; 217;  11; 187; 146; 159;  64;  86; 239;
    195;  42; 106; 198; 118; 112; 184; 172;  87;   2;
    173; 117; 176; 229; 247; 253; 137; 185;  99; 164;
    102; 147;  45;  66; 231;  52; 141; 211; 194; 206;
    246; 238;  56; 110;  78; 248;  63; 240; 189;  93;
     92;  51;  53; 183;  19; 171;  72;  50;  33; 104;
    101;  69;   8; 252;  83; 120;  76; 135;  85;  54;
    202; 125; 188; 213;  96; 235; 136; 208; 162; 129;
    190; 132; 156;  38;  47;   1;   7; 254;  24;   4;
    216; 131;  89;  21;  28; 133;  37; 153; 149;  80;
    170;  68;   6; 169; 234; 151 ].

(** The loop of [loadb_p_hash] from index [i] down. *)
Fixpoint p_hash_loop (key : list Z) (i : nat) (hash : Z) : option Z :=
  match i with
  | O => Some hash
  | S i => k ← key !! i; hash ← loadb_mx_tbl !! Z.to_nat (Z.lxor hash k); p_hash_loop key i hash
  end.

Definition loadb_p_hash (key : list Z) (len : nat) : option Z := p_hash_loop key len (u8 (Z.of_nat len)).

(** [hba[(hbaix >> 3) & 0x1F] & (1 << (hbaix & 0x07))] *)
Definition hash_bucket (hba : list Z) (hbaix : Z) : option Z :=
  b ← hba !! Z.to_nat (Z.land (Z.shiftr hbaix 3) 31); Some (Z.land b (Z.shiftl 1 (Z.land hbaix 7))).

(** [!x] *)
Definition not_int (x : Z) : Z := if x =? 0 then 1 else 0.

Definition load_balance_mine (p : packet) (state : failover_state) : option Z :=
  if load_balance_max_secs state <? secs p then Some 1
  else match hba state with
  | None => Some 0
  | Some hba =>
      hbaix ← (match client_identifier p with
               | Some ds => loadb_p_hash ds (length ds)
               | None => loadb_p_hash (chaddr p) (hlen p)
               end);
      hm ← hash_bucket hba hbaix;
      if bool_decide (i_am state = primary) then Some hm else Some (not_int hm)
  end.

Definition peer_wants_lease (lp : lease4) : option Z :=
  match lease_pool4 lp with
  | Some (Some state) =>
      match hba state with
      | None => Some 0
      | Some hba =>
          if negb (length (uid lp) =? 0)%nat then
            hbaix ← loadb_p_hash (uid lp) (length (uid lp));
            hm ← hash_bucket hba hbaix;
            if bool_decide (i_am state = primary) then Some (not_int hm) else Some hm
          else if (1 <? length (hbuf lp))%nat then
            hbaix ← loadb_p_hash (drop 1 (hbuf lp)) (length (hbuf lp) - 1);
            hm ← hash_bucket hba hbaix;
            if bool_decide (i_am state = primary) then Some (not_int hm) else Some hm
          else Some 0
      end
  | _ => Some 0
  end.

(** What [dhcp_failover_send_bind_update] puts into its message of these members. *)
Definition bndupd_of (l : lease4) : bndupd :=
  {| options_present := if negb (cltt l =? 0) then FTB_CLTT else 0; msg_cltt := cltt l; binding_status := desired_binding_state l |}.

(** ** Updates of the peer *)

(** The transitions a server in normal state refuses: the secondary cannot touch what the
    primary has given out, except to release it; nothing becomes available before the time
    the peer has agreed to; and nothing expires more than 65 seconds early. *)
Definition refused (am : role) (from to ends tsfp now : Z) : bool :=
  (bool_decide (am = primary) && (from =? FTS_ACTIVE) && negb (case_of to [FTS_ACTIVE; FTS_RELEASED])) ||
  (case_of from [FTS_ACTIVE; FTS_EXPIRED; FTS_RESET] && case_of to [FTS_FREE; FTS_BACKUP] && (now <? tsfp)) ||
  ((from =? FTS_ACTIVE) && (to =? FTS_EXPIRED) && (now <? ends - 65)).

(** The ones it refuses while there may be a conflict. *)
Definition refused_in_conflict (from to ends now : Z) : bool :=
  (from =? FTS_ACTIVE) && (case_of to [FTS_FREE; FTS_BACKUP] || (to =? FTS_EXPIRED) && (now <? ends - 65)).

Lemma normal_check_spec (l : lease4) (st : failover_state) to tsfp now :
  fts_valid (binding_state l) -> fts_valid to ->
  normal_binding_state_transition_check l st to tsfp now =
  Some (if refused (i_am st) (binding_state l) to (ends l) tsfp now then binding_state l else to).
Proof.
  intros Hf Ht. unfold normal_binding_state_transition_check. revert Hf. generalize (binding_state l) as from. intros from Hf.
  unfold refused. destruct (now <? tsfp), (now <? ends l - 65), (i_am st); fts_split Hf; fts_split Ht; reflexivity.
Qed.

Lemma conflict_check_spec (l : lease4) to now :
  fts_valid (binding_state l) -> fts_valid to ->
  conflict_binding_state_transition_check l to now = Some (if refused_in_conflict (binding_state l) to (ends l) now then binding_state l else to).
Proof.
  intros Hf Ht. unfold conflict_binding_state_transition_check. revert Hf. generalize (binding_state l) as from. intros from Hf.
  unfold refused_in_conflict. destruct (now <? ends l - 65); fts_split Hf; fts_split Ht; reflexivity.
Qed.

(** A status that is none of the seven. *)
Lemma case_of_invalid to l : ~ fts_valid to -> Forall fts_valid l -> case_of to l = false.
Proof.
  intros Hn Hl. unfold case_of. apply not_true_iff_false. intros [x [Hx E]]%existsb_exists. apply Z.eqb_eq in E. subst x.
  apply list_elem_of_In in Hx. rewrite Forall_forall in Hl. by apply Hn, Hl.
Qed.

Lemma invalid_status_fatal (l : lease4) (st : failover_state) to tsfp now :
  fts_valid (binding_state l) -> ~ fts_valid to ->
  normal_binding_state_transition_check l st to tsfp now =
    (if bool_decide (i_am st = primary) && (binding_state l =? FTS_ACTIVE) then Some FTS_ACTIVE else None) /\
  conflict_binding_state_transition_check l to now = (if binding_state l =? FTS_ACTIVE then None else Some to).
Proof.
  intros Hf Hn. unfold normal_binding_state_transition_check, conflict_binding_state_transition_check. revert Hf.
  generalize (binding_state l) as from. intros from Hf.
  assert ((to =? from) = false) as -> by (apply Z.eqb_neq; by intros ->).
  assert ((to =? FTS_RELEASED) = false) as -> by (apply Z.eqb_neq; intros ->; apply Hn; by vm_compute).
  rewrite !(case_of_invalid to) by (done || (repeat constructor; by vm_compute)).
  destruct (i_am st); fts_split Hf; done.
Qed.

(** ** Crossing updates *)

(** A lease of this server against the update for a lease of the other. *)
Lemma is_better_spec (st : failover_state) (l r : lease4) :
  fts_valid (desired_binding_state l) ->
  failover_lease_is_better st l (bndupd_of r) = Some (
    match bool_decide (desired_binding_state l = FTS_ACTIVE), bool_decide (desired_binding_state r = FTS_ACTIVE) with
    | true, true => (cltt r <? cltt l) || (cltt r =? cltt l) && bool_decide (i_am st = primary)
    | true, false => bool_decide (i_am st = primary) && negb (bool_decide (desired_binding_state r = FTS_EXPIRED))
    | false, true => false
    | false, false => bool_decide (i_am st = primary)
    end).
Proof.
  intros Hv. unfold failover_lease_is_better.
  assert ((if negb (binding_state l =? desired_binding_state l) then desired_binding_state l else binding_state l) = desired_binding_state l) as ->
    by (destruct (Z.eqb_spec (binding_state l) (desired_binding_state l)); done).
  assert ((if negb (Z.land (options_present (bndupd_of r)) FTB_CLTT =? 0) then msg_cltt (bndupd_of r) else 0) = cltt r) as ->
    by (unfold bndupd_of; cbn; destruct (Z.eqb_spec (cltt r) 0) as [E|E]; [by rewrite E | done]).
  cbn [binding_status bndupd_of]. revert Hv. generalize (desired_binding_state l) as a. intros a Hv.
  assert (forall x y, (x =? y) = bool_decide (x = y)) as Eq by (intros x y; by destruct (Z.eqb_spec x y); case_bool_decide).
  rewrite (Eq _ FTS_ACTIVE), (Eq _ FTS_EXPIRED). destruct (decide (a = FTS_ACTIVE)) as [->|Ha].
  - change (case_of FTS_ACTIVE [FTS_ACTIVE]) with true. cbv iota. rewrite (bool_decide_true (FTS_ACTIVE = FTS_ACTIVE)) by done.
    destruct (bool_decide (desired_binding_state r = FTS_ACTIVE)); [|destruct (bool_decide (desired_binding_state r = FTS_EXPIRED)), (i_am st); done].
    destruct (Z.ltb_spec (cltt r) (cltt l)); [done|]. destruct (Z.ltb_spec (cltt l) (cltt r)), (Z.eqb_spec (cltt r) (cltt l)), (i_am st); try done; lia.
  - rewrite (bool_decide_false _ Ha). fts_split Hv; try done; destruct (bool_decide (desired_binding_state r = FTS_ACTIVE)), (i_am st); done.
Qed.

(** ** Who may hand out a lease *)

(** The server a lease belongs to while both servers run. *)
Definition owns (am : role) (st rewind : Z) : bool :=
  match am with
  | primary => case_of st [FTS_FREE; FTS_ABANDONED] || case_of st [FTS_RELEASED; FTS_EXPIRED] && (rewind =? FTS_FREE)
  | secondary => (st =? FTS_BACKUP) || case_of st [FTS_RELEASED; FTS_EXPIRED] && (rewind =? FTS_BACKUP)
  end.

(** When a server that runs alone may take a lease over. *)
Definition waited (peer : failover_state) (l : lease4) (now : Z) : bool :=
  if case_of (binding_state l) [FTS_FREE; FTS_ABANDONED; FTS_BACKUP] then Z.max (tsfp l) (me_stos peer) + mclt peer <? now
  else case_of (binding_state l) [FTS_RELEASED; FTS_EXPIRED; FTS_RESET] && (tsfp l <? now).

Lemma mine_spec (l : lease4) (peer : failover_state) now :
  lease_pool4 l = Some (Some peer) -> fts_valid (binding_state l) ->
  lease_mine_to_reallocate (Some l) now =
  Some (owns (i_am peer) (binding_state l) (rewind_binding_state l) ||
        bool_decide (service_state peer = service_partner_down) && waited peer l now).
Proof.
  intros Hp Hv. unfold lease_mine_to_reallocate, waited, owns. rewrite Hp.
  assert ((if tsfp l <? me_stos peer then me_stos peer + mclt peer <? now else tsfp l + mclt peer <? now) =
          (Z.max (tsfp l) (me_stos peer) + mclt peer <? now)) as ->
    by (destruct (Z.ltb_spec (tsfp l) (me_stos peer)); [rewrite Z.max_r by lia | rewrite Z.max_l by lia]; done).
  destruct (bool_decide (service_state peer = service_partner_down)), (i_am peer), (rewind_binding_state l =? FTS_FREE), (rewind_binding_state l =? FTS_BACKUP);
    fts_split Hv; done.
Qed.

Lemma owns_exclusive st rewind : owns primary st rewind = true -> owns secondary st rewind = false.
Proof.
  unfold owns, case_of. cbn. rewrite !orb_false_r. intros H. destruct (Z.eqb_spec st FTS_BACKUP) as [->|]; [done|]. cbn in *.
  destruct (Z.eqb_spec rewind FTS_BACKUP) as [->|]; [|by rewrite andb_false_r]. rewrite andb_true_r, andb_false_r, orb_false_r in *.
  apply orb_true_iff in H as [->%Z.eqb_eq| ->%Z.eqb_eq]; done.
Qed.

(** ** The hash *)

Lemma lxor_byte a b : byte_ok a -> byte_ok b -> byte_ok (Z.lxor a b).
Proof.
  unfold byte_ok. intros Ha Hb. assert (0 <= Z.lxor a b) by (apply Z.lxor_nonneg; lia). split; [assumption|].
  destruct (Z.eq_dec (Z.lxor a b) 0) as [->|]; [lia|]. apply Z.log2_lt_pow2 with (b := 8); [lia|].
  pose proof (Z.log2_lxor a b ltac:(lia) ltac:(lia)). enough (Z.max (Z.log2 a) (Z.log2 b) < 8) by lia.
  apply Z.max_lub_lt; match goal with |- Z.log2 ?x < _ => destruct (Z.eq_dec x 0) as [->|]; [cbn; lia | apply Z.log2_lt_pow2; lia] end.
Qed.

(** The mixing table has every byte once. *)
Lemma mx_tbl_bytes : bytes_ok loadb_mx_tbl /\ length loadb_mx_tbl = 256%nat.
Proof. split; [apply (bool_decide_unpack (Forall byte_ok loadb_mx_tbl)); by vm_compute | done]. Qed.

Lemma mx_tbl_NoDup : NoDup loadb_mx_tbl.
Proof. apply (bool_decide_unpack _). by vm_compute. Qed.

Lemma mx_tbl_all y : byte_ok y -> y ∈ loadb_mx_tbl.
Proof.
  intros Hy. assert (Forall (fun k => Z.of_nat k ∈ loadb_mx_tbl) (seq 0 256)) as H by (apply (bool_decide_unpack _); by vm_compute).
  rewrite Forall_forall in H. specialize (H (Z.to_nat y)). rewrite Z2Nat.id in H by (unfold byte_ok in Hy; lia). apply H. unfold byte_ok in Hy. apply elem_of_seq. lia.
Qed.

(** One round, as a function of either byte, is a bijection of bytes. *)
Definition mix (h k : Z) : Z := loadb_mx_tbl !!! Z.to_nat (Z.lxor h k).

Lemma mix_round h k : byte_ok h -> byte_ok k -> loadb_mx_tbl !! Z.to_nat (Z.lxor h k) = Some (mix h k) /\ byte_ok (mix h k).
Proof.
  intros Hh Hk. pose proof (lxor_byte h k Hh Hk) as Hx. destruct mx_tbl_bytes as [Hb Hl].
  destruct (lookup_lt_is_Some_2 loadb_mx_tbl (Z.to_nat (Z.lxor h k))) as [y Hy]; [rewrite Hl; unfold byte_ok in Hx; lia|].
  unfold mix. rewrite (list_lookup_total_correct _ _ _ Hy). split; [done|]. by eapply Forall_lookup_1 in Hb.
Qed.

Lemma mix_comm h k : mix h k = mix k h.
Proof. unfold mix. by rewrite Z.lxor_comm. Qed.

Lemma mix_inj h h' k : byte_ok h -> byte_ok h' -> byte_ok k -> mix h k = mix h' k -> h = h'.
Proof.
  intros Hh Hh' Hk E. destruct (mix_round h k Hh Hk) as [H1 _], (mix_round h' k Hh' Hk) as [H2 _]. rewrite E in H1.
  pose proof (lxor_byte h k Hh Hk) as B1. pose proof (lxor_byte h' k Hh' Hk) as B2. unfold byte_ok in B1, B2.
  pose proof (NoDup_lookup _ _ _ _ mx_tbl_NoDup H1 H2) as En. assert (Z.lxor h k = Z.lxor h' k) as El by lia.
  apply (f_equal (fun x => Z.lxor x k)) in El. by rewrite !Z.lxor_assoc, Z.lxor_nilpotent, !Z.lxor_0_r in El.
Qed.

Lemma mix_surj y k : byte_ok y -> byte_ok k -> exists h, byte_ok h /\ mix h k = y.
Proof.
  intros Hy Hk. destruct (list_elem_of_lookup_1 _ _ (mx_tbl_all y Hy)) as [i Hi]. pose proof (lookup_lt_Some _ _ _ Hi) as Hlt.
  destruct mx_tbl_bytes as [_ Hl]. rewrite Hl in Hlt. assert (byte_ok (Z.of_nat i)) as Hb by (unfold byte_ok; lia).
  exists (Z.lxor (Z.of_nat i) k). split; [by apply lxor_byte|]. unfold mix. rewrite Z.lxor_assoc, Z.lxor_nilpotent, Z.lxor_0_r, Nat2Z.id.
  by apply list_lookup_total_correct.
Qed.

Lemma p_hash_total key i h : bytes_ok key -> (i <= length key)%nat -> byte_ok h ->
  exists y, p_hash_loop key i h = Some y /\ byte_ok y.
Proof.
  intros Hk. revert h. induction i as [|i IH]; intros h Hi Hh; [by exists h|]. cbn.
  destruct (lookup_lt_is_Some_2 key i) as [k E]; [lia|]. assert (byte_ok k) as Hb by (by eapply Forall_lookup_1 in Hk).
  destruct (mix_round h k Hh Hb) as [Em Hm]. rewrite E. cbn. rewrite Em. cbn. apply IH; [lia | done].
Qed.

(** Below [i] the loop is a bijection of the hash it starts with. *)
Lemma p_hash_bij key i y : bytes_ok key -> (i <= length key)%nat -> byte_ok y ->
  exists h, byte_ok h /\ p_hash_loop key i h = Some y /\ forall h', byte_ok h' -> p_hash_loop key i h' = Some y -> h' = h.
Proof.
  intros Hk. revert y. induction i as [|i IH]; intros y Hi Hy.
  - exists y. split; [done|]. split; [done|]. cbn. congruence.
  - destruct (lookup_lt_is_Some_2 key i) as [k E]; [lia|]. assert (byte_ok k) as Hb by (by eapply Forall_lookup_1 in Hk).
    destruct (IH y) as (g & Hg & Eg & Ug); [lia | done|]. destruct (mix_surj g k Hg Hb) as (h & Hh & Eh). exists h. split; [done|].
    assert (forall h', byte_ok h' -> p_hash_loop key (S i) h' = p_hash_loop key i (mix h' k)) as St.
    { intros h' Hh'. cbn. rewrite E. cbn. by rewrite (proj1 (mix_round h' k Hh' Hb)). }
    rewrite St, Eh by done. split; [done|]. intros h' Hh'. rewrite St by done. intros E'. apply (mix_inj h' h k); try done.
    rewrite Eh. apply Ug; [by apply mix_round | done].
Qed.

(** What is above the part of the key a loop reads does not matter. *)
Lemma p_hash_insert key i j b h : (i <= j)%nat -> p_hash_loop (<[j := b]> key) i h = p_hash_loop key i h.
Proof.
  revert h. induction i as [|i IH]; intros h Hij; [done|]. cbn. rewrite list_lookup_insert_ne by lia.
  destruct (key !! i); [cbn|done]. destruct (loadb_mx_tbl !! _); [cbn; apply IH; lia | done].
Qed.

(** The hash as a function of one byte of the key is a bijection. *)
Lemma p_hash_byte key n j h y : bytes_ok key -> (n <= length key)%nat -> (j < n)%nat -> byte_ok h -> byte_ok y ->
  exists b, byte_ok b /\ p_hash_loop (<[j := b]> key) n h = Some y /\ forall b', byte_ok b' -> p_hash_loop (<[j := b']> key) n h = Some y -> b' = b.
Proof.
  intros Hk. revert h. induction n as [|n IH]; intros h Hn Hj Hh Hy; [lia|]. destruct (decide (j = n)) as [->|Hne].
  - destruct (p_hash_bij key n y) as (g & Hg & Eg & Ug); [done | lia | done|]. destruct (mix_surj g h Hg Hh) as (b & Hb & Eb). rewrite mix_comm in Eb.
    assert (forall b', byte_ok b' -> p_hash_loop (<[n := b']> key) (S n) h = p_hash_loop key n (mix h b')) as St.
    { intros b' Hb'. cbn. rewrite list_lookup_insert_eq by lia. cbn. rewrite (proj1 (mix_round h b' Hh Hb')). cbn. by apply p_hash_insert. }
    exists b. split; [done|]. rewrite St, Eb by done. split; [done|]. intros b' Hb'. rewrite St by done. intros E'.
    apply (mix_inj b' b h); try done. rewrite !(mix_comm _ h), Eb. apply Ug; [by apply mix_round | done].
  - destruct (lookup_lt_is_Some_2 key n) as [k E]; [lia|]. assert (byte_ok k) as Hb by (by eapply Forall_lookup_1 in Hk).
    assert (forall b', p_hash_loop (<[j := b']> key) (S n) h = p_hash_loop (<[j := b']> key) n (mix h k)) as St.
    { intros b'. cbn. rewrite list_lookup_insert_ne, E by lia. cbn. by rewrite (proj1 (mix_round h k Hh Hb)). }
    destruct (IH (mix h k)) as (b & Hbb & Eb & Ub); [lia | lia | by apply mix_round | done|]. exists b. rewrite St.
    split; [done|]. split; [done|]. intros b' Hb'. rewrite St. by apply Ub.
Qed.

Lemma bucket_exists t h : length t = 32%nat -> exists hm, hash_bucket t h = Some hm.
Proof.
  intros Hl. unfold hash_bucket. change 31 with (Z.ones 5). rewrite Z.land_ones by lia. pose proof (Z.mod_pos_bound (Z.shiftr h 3) (2 ^ 5) ltac:(lia)).
  destruct (lookup_lt_is_Some_2 t (Z.to_nat (Z.shiftr h 3 mod 2 ^ 5))) as [b ->]; [rewrite Hl; change (2 ^ 5) with 32 in *; lia|]. by eexists.
Qed.

(** What is hashed for a client. *)
Definition key_of (p : packet) : list Z := match client_identifier p with Some ds => ds | None => take (hlen p) (chaddr p) end.

Lemma p_hash_take key n h : p_hash_loop (take n key) n h = p_hash_loop key n h.
Proof.
  assert (forall i h, (i <= n)%nat -> p_hash_loop (take n key) i h = p_hash_loop key i h) as H; [|by apply H].
  induction i as [|i IH]; intros g Hi; [done|]. cbn. rewrite lookup_take_lt by lia. destruct (key !! i); [cbn|done].
  destruct (loadb_mx_tbl !! _); [cbn; apply IH; lia | done].
Qed.

Lemma key_hashed (p : packet) : (hlen p <= length (chaddr p))%nat ->
  match client_identifier p with Some ds => loadb_p_hash ds (length ds) | None => loadb_p_hash (chaddr p) (hlen p) end = loadb_p_hash (key_of p) (length (key_of p)).
Proof.
  intros Hh. unfold key_of. destruct (client_identifier p); [done|]. rewrite length_take, Nat.min_l by done. unfold loadb_p_hash. by rewrite p_hash_take.
Qed.

Lemma hash_total key : bytes_ok key -> exists h, loadb_p_hash key (length key) = Some h /\ byte_ok h.
Proof. intros Hk. apply p_hash_total; [done | done|]. unfold byte_ok, u8, wrap. apply Z.mod_pos_bound. lia. Qed.

(** The answer of either server to a client within the time limit. *)
Lemma balance_spec (p : packet) (st : failover_state) t h hm :
  secs p <= load_balance_max_secs st -> hba st = Some t -> (hlen p <= length (chaddr p))%nat ->
  loadb_p_hash (key_of p) (length (key_of p)) = Some h -> hash_bucket t h = Some hm ->
  load_balance_mine p st = Some (if bool_decide (i_am st = primary) then hm else not_int hm).
Proof.
  intros Hs Ht Hl Hh Hm. unfold load_balance_mine. destruct (Z.ltb_spec (load_balance_max_secs st) (secs p)); [lia|]. rewrite Ht, key_hashed, Hh by done. cbn.
  rewrite Hm. cbn. by destruct (i_am st).
Qed.

(** A lease belongs to the client that sends [p]. *)
Definition lease_of (l : lease4) (p : packet) : Prop :=
  match client_identifier p with Some ds => uid l = ds /\ ds <> [] | None => uid l = [] /\ exists htype, hbuf l = htype :: key_of p /\ key_of p <> [] end.

Lemma wants_spec (p : packet) (l : lease4) (st : failover_state) t h hm :
  lease_pool4 l = Some (Some st) -> hba st = Some t -> lease_of l p ->
  loadb_p_hash (key_of p) (length (key_of p)) = Some h -> hash_bucket t h = Some hm ->
  peer_wants_lease l = Some (if bool_decide (i_am st = primary) then not_int hm else hm).
Proof.
  intros Hp Ht Hl Hh Hm. unfold peer_wants_lease, lease_of in *. rewrite Hp, Ht. unfold key_of in *. destruct (client_identifier p) as [ds|].
  - destruct Hl as [-> Hne]. destruct ds as [|d ds]; [done|]. change (negb (length (d :: ds) =? 0)%nat) with true. cbv iota. rewrite Hh. cbn. rewrite Hm. cbn. by destruct (i_am st).
  - destruct Hl as [-> (ht & Hb & Hne)]. rewrite Hb. destruct (take (hlen p) (chaddr p)) as [|d ds] eqn:E; [done|]. 
    change (loadb_p_hash (drop 1 (ht :: d :: ds)) (length (ht :: d :: ds) - 1)) with (loadb_p_hash (d :: ds) (length (d :: ds))).
    rewrite Hh. cbn. rewrite Hm. cbn. by destruct (i_am st).
Qed.

(** ** Claims *)

(** C28: an update of the peer is either taken as it is or leaves the lease in its state,
    and which of the two is decided by [refused] in the normal state and by
    [refused_in_conflict] in the others.  In particular, for a lease in use: in the normal
    state the primary accepts nothing but its release, and the secondary lets it become
    free or backup only if the potential expiry in the message is over, a time the peer
    chooses; in the other states it never becomes free or backup; and in no state does it
    expire more than 65 seconds before its end.  A status the protocol does not have ends
    the process, unless the primary has the lease in use, and in conflict it is accepted
    for a lease that is not in use. *)
Theorem peer_updates_checked (l : lease4) (st : failover_state) to tsfp now :
  fts_valid (binding_state l) ->
  (fts_valid to ->
   normal_binding_state_transition_check l st to tsfp now = Some (if refused (i_am st) (binding_state l) to (ends l) tsfp now then binding_state l else to) /\
   conflict_binding_state_transition_check l to now = Some (if refused_in_conflict (binding_state l) to (ends l) now then binding_state l else to)) /\
  (binding_state l = FTS_ACTIVE -> fts_valid to ->
   (i_am st = primary -> to <> FTS_RELEASED -> normal_binding_state_transition_check l st to tsfp now = Some FTS_ACTIVE) /\
   (to = FTS_FREE \/ to = FTS_BACKUP ->
    (i_am st = secondary -> normal_binding_state_transition_check l st to tsfp now = Some (if now <? tsfp then FTS_ACTIVE else to)) /\
    conflict_binding_state_transition_check l to now = Some FTS_ACTIVE) /\
   (to = FTS_EXPIRED -> now < ends l - 65 ->
    normal_binding_state_transition_check l st to tsfp now = Some FTS_ACTIVE /\ conflict_binding_state_transition_check l to now = Some FTS_ACTIVE)) /\
  (~ fts_valid to ->
   normal_binding_state_transition_check l st to tsfp now = (if bool_decide (i_am st = primary) && (binding_state l =? FTS_ACTIVE) then Some FTS_ACTIVE else None) /\
   conflict_binding_state_transition_check l to now = (if binding_state l =? FTS_ACTIVE then None else Some to)).
Proof.
  intros Hf. split; [|split].
  - intros Ht. by rewrite normal_check_spec, conflict_check_spec.
  - intros Ha Hv. rewrite normal_check_spec, conflict_check_spec by done. rewrite Ha. unfold refused, refused_in_conflict. split; [|split].
    + intros -> Hr. fts_split Hv; done.
    + intros Ht. split; [intros ->|]; destruct Ht as [-> | ->]; by destruct (now <? tsfp).
    + intros -> He. rewrite (proj2 (Z.ltb_lt now (ends l - 65)) He). by destruct (i_am st).
  - intros Hn. by apply invalid_status_fatal.
Qed.

(** When the updates of two servers for the same lease cross, they never both insist on
    their own.  The secondary insists only if both have the lease in use and its client
    spoke to it last.  Both give way exactly if only the secondary has the lease in use,
    or the primary has it in use and the secondary has it expired. *)
Theorem duel_decided (p s : failover_state) (lp ls : lease4) :
  i_am p = primary -> i_am s = secondary -> fts_valid (desired_binding_state lp) -> fts_valid (desired_binding_state ls) ->
  exists bp bs, failover_lease_is_better p lp (bndupd_of ls) = Some bp /\ failover_lease_is_better s ls (bndupd_of lp) = Some bs /\
    ~ (bp = true /\ bs = true) /\
    (bs = true <-> desired_binding_state lp = FTS_ACTIVE /\ desired_binding_state ls = FTS_ACTIVE /\ cltt lp < cltt ls) /\
    (bp = false /\ bs = false <->
     desired_binding_state lp <> FTS_ACTIVE /\ desired_binding_state ls = FTS_ACTIVE \/
     desired_binding_state lp = FTS_ACTIVE /\ desired_binding_state ls = FTS_EXPIRED).
Proof.
  intros Hp Hs Vp Vs. rewrite !is_better_spec by done. rewrite Hp, Hs. do 2 eexists. split; [reflexivity|]. split; [reflexivity|].
  rewrite (bool_decide_true (primary = primary)), (bool_decide_false (secondary = primary)) by done.
  assert (FTS_EXPIRED <> FTS_ACTIVE) by done.
  destruct (bool_decide_reflect (desired_binding_state lp = FTS_ACTIVE)) as [Ap|Ap], (bool_decide_reflect (desired_binding_state ls = FTS_ACTIVE)) as [As|As].
  - destruct (Z.ltb_spec (cltt ls) (cltt lp)), (Z.eqb_spec (cltt ls) (cltt lp)), (Z.ltb_spec (cltt lp) (cltt ls)), (Z.eqb_spec (cltt lp) (cltt ls));
      cbn; try lia; intuition (congruence || lia).
  - destruct (bool_decide_reflect (desired_binding_state ls = FTS_EXPIRED)); cbn; intuition congruence.
  - cbn. intuition congruence.
  - intuition congruence.
Qed.

(** C23: who may hand a lease out again.  A server may if the lease is its own (free and
    abandoned ones are the primary's, backup ones the secondary's, released and expired
    ones belong to the server that had them before they were in use), or if it runs
    without its partner and has waited: for a free, abandoned or backup lease until the
    maximal client lead time has passed both since it runs alone and since the time it has
    from its partner, for a released, expired or reset lease only until the time it has from
    its partner is over.  Two servers that agree on the state of a lease never own it both, nor
    may both hand it out while neither runs without its partner; a lease in use is never
    handed out. *)
Theorem reallocation_exclusive (p s : failover_state) (lp ls : lease4) now now' :
  i_am p = primary -> i_am s = secondary -> lease_pool4 lp = Some (Some p) -> lease_pool4 ls = Some (Some s) ->
  fts_valid (binding_state lp) -> binding_state ls = binding_state lp -> rewind_binding_state ls = rewind_binding_state lp ->
  lease_mine_to_reallocate (Some lp) now =
    Some (owns primary (binding_state lp) (rewind_binding_state lp) || bool_decide (service_state p = service_partner_down) && waited p lp now) /\
  lease_mine_to_reallocate (Some ls) now' =
    Some (owns secondary (binding_state ls) (rewind_binding_state ls) || bool_decide (service_state s = service_partner_down) && waited s ls now') /\
  (service_state p <> service_partner_down -> service_state s <> service_partner_down ->
   ~ (lease_mine_to_reallocate (Some lp) now = Some true /\ lease_mine_to_reallocate (Some ls) now' = Some true)) /\
  (binding_state lp = FTS_ACTIVE -> lease_mine_to_reallocate (Some lp) now = Some false /\ lease_mine_to_reallocate (Some ls) now' = Some false).
Proof.
  intros Hp Hs Lp Ls V E Er. rewrite (mine_spec lp p), (mine_spec ls s), Hp, Hs by congruence. split; [done|]. split; [done|]. rewrite E, Er. split.
  - intros Np Ns. rewrite (bool_decide_false _ Np), (bool_decide_false _ Ns), !orb_false_r. intros [H1%(inj Some) H2%(inj Some)].
    by rewrite (owns_exclusive _ _ H1) in H2.
  - intros Ha. unfold waited. rewrite E, Ha. by rewrite !andb_false_r.
Qed.

(** C35: two servers with the same hash buckets share the clients: within the time limit
    exactly one of them answers, whoever the client is.  For a
    lease of the client, [peer_wants_lease] at either server is the answer of the other.
    And any one byte of what is hashed can be chosen, in exactly one way, to give any hash. *)
Theorem load_shared (p s : failover_state) (t : list Z) (pk : packet) :
  i_am p = primary -> i_am s = secondary -> hba p = Some t -> hba s = Some t -> length t = 32%nat ->
  secs pk <= load_balance_max_secs p -> secs pk <= load_balance_max_secs s -> bytes_ok (key_of pk) -> (hlen pk <= length (chaddr pk))%nat ->
  exists a b, load_balance_mine pk p = Some a /\ load_balance_mine pk s = Some b /\ (a = 0 <-> b <> 0) /\
    (forall l, lease_of l pk -> lease_pool4 l = Some (Some p) -> peer_wants_lease l = Some b) /\
    (forall l, lease_of l pk -> lease_pool4 l = Some (Some s) -> peer_wants_lease l = Some a) /\
    (forall j y, (j < length (key_of pk))%nat -> byte_ok y ->
     exists! x, byte_ok x /\ loadb_p_hash (<[j := x]> (key_of pk)) (length (key_of pk)) = Some y).
Proof.
  intros Hp Hs Tp Ts Lt Sp Ss Hk Hl. destruct (hash_total (key_of pk) Hk) as (h & Hh & _). destruct (bucket_exists t h Lt) as [hm Hm].
  exists hm, (not_int hm). rewrite (balance_spec pk p t h hm), (balance_spec pk s t h hm), Hp, Hs by done. split; [done|]. split; [done|]. split; [|split; [|split]].
  - unfold not_int. destruct (Z.eqb_spec hm 0); lia.
  - intros l Ho Hpl. by rewrite (wants_spec pk l p t h hm), Hp.
  - intros l Ho Hpl. by rewrite (wants_spec pk l s t h hm), Hs.
  - intros j y Hj Hy. destruct (p_hash_byte (key_of pk) (length (key_of pk)) j (u8 (Z.of_nat (length (key_of pk)))) y) as (x & Hx & Ex & Ux); try done.
    { unfold byte_ok, u8, wrap. apply Z.mod_pos_bound. lia. }
    exists x. split; [done|]. intros x' [Hx' Ex']. symmetry. by apply Ux.
Qed.

(** ** Instances *)

Definition server (am : role) : failover_state :=
  {| i_am := am; service_state := cooperating; me_stos := 1000; mclt := 3600; hba := Some (replicate 16 255 ++ replicate 16 0); load_balance_max_secs := 3 |}.
Definition some_lease (am : role) (st : Z) : lease4 :=
  {| binding_state := st; desired_binding_state := st; rewind_binding_state := FTS_FREE; ends := 5000; tsfp := 5600; cltt := 4000;
     uid := [1; 2; 3]; hbuf := []; lease_pool4 := Some (Some (server am)) |}.
Definition request : packet := {| secs := 0; client_identifier := Some [1; 2; 3]; chaddr := replicate 16 0; hlen := 6 |}.

Lemma peer_updates_checked_witness :
  normal_binding_state_transition_check (some_lease secondary FTS_ACTIVE) (server secondary) FTS_FREE 5600 4900 = Some FTS_ACTIVE.
Proof.
  edestruct (peer_updates_checked (some_lease secondary FTS_ACTIVE) (server secondary) FTS_FREE 5600 4900) as (_ & H & _); [by vm_compute|].
  destruct H as (_ & H & _); [reflexivity | by vm_compute|]. exact (proj1 (H (or_introl eq_refl)) eq_refl).
Defined.

Lemma duel_decided_witness : exists bp bs,
  failover_lease_is_better (server primary) (some_lease primary FTS_FREE) (bndupd_of (some_lease secondary FTS_RESET)) = Some bp /\
  failover_lease_is_better (server secondary) (some_lease secondary FTS_RESET) (bndupd_of (some_lease primary FTS_FREE)) = Some bs /\ ~ (bp = true /\ bs = true).
Proof.
  edestruct (duel_decided (server primary) (server secondary) (some_lease primary FTS_FREE) (some_lease secondary FTS_RESET)) as (bp & bs & H1 & H2 & H3 & _);
    [reflexivity | reflexivity | by vm_compute | by vm_compute |]. exact (ex_intro _ bp (ex_intro _ bs (conj H1 (conj H2 H3)))).
Defined.

Lemma reallocation_exclusive_witness :
  ~ (lease_mine_to_reallocate (Some (some_lease primary FTS_EXPIRED)) 6000 = Some true /\
     lease_mine_to_reallocate (Some (some_lease secondary FTS_EXPIRED)) 6000 = Some true).
Proof.
  edestruct (reallocation_exclusive (server primary) (server secondary) (some_lease primary FTS_EXPIRED) (some_lease secondary FTS_EXPIRED) 6000 6000)
    as (_ & _ & H & _); try reflexivity; [by vm_compute|]. apply H; discriminate.
Defined.

Lemma load_shared_witness : exists a b, load_balance_mine request (server primary) = Some a /\ load_balance_mine request (server secondary) = Some b /\ (a = 0 <-> b <> 0).
Proof.
  edestruct (load_shared (server primary) (server secondary) (replicate 16 255 ++ replicate 16 0) request) as (a & b & H1 & H2 & H3 & _);
    try reflexivity; try (cbn; lia); [repeat constructor; unfold byte_ok; lia |].
  exact (ex_intro _ a (ex_intro _ b (conj H1 (conj H2 H3)))).
Defined.
