(* ===== verification/V4State.v ===== *)
(** * The DHCPv4 server with a failover partner: state

    The lease database of server/mdb.c and the failover relationship of
    server/failover.c, as one state: leases, pools, hash tables and the failover
    object, with the monad the operations are written in.

    A pointer is a key of a map, NULL is [None]; the lists of the code are linked through
    members of the leases, as in the code.  Leases and pools are never freed while the
    server runs, so reference counts are left out.  A result [None] is the end of the process
    ([log_fatal], [abort]), a NULL pointer followed, a variable read before it is set, or fuel that ran out.

    There is one failover relationship, and a pool belongs to it or to none.  What is outside
    (the lease file, the connection to the partner, timers, dynamic DNS) is a list of
    events; whether writing to the lease file succeeds and the random numbers are
    arguments.  The connection takes every message; that it breaks is an event of its own. *)

From stdpp Require Export gmap.
From S2P Require Import Prelude BindingStates FailoverLeases.

#[local] Open Scope Z_scope.

Abbreviation id := positive.

(** ** Constants *)

(** [(int)v] *)
Definition to_int (v : Z) : Z := (v + 2147483648) mod 4294967296 - 2147483648.

Definition STATIC_LEASE : Z := 1.
Definition BOOTP_LEASE : Z := 2.
Definition RESERVED_LEASE : Z := 4.
Definition ON_UPDATE_QUEUE : Z := 16.
Definition ON_ACK_QUEUE : Z := 32.
Definition ON_QUEUE : Z := Z.lor ON_UPDATE_QUEUE ON_ACK_QUEUE.
Definition PERSISTENT_FLAGS : Z := Z.lor ON_ACK_QUEUE ON_UPDATE_QUEUE.
(** [MS_NULL_TERMINATION | UNICAST_BROADCAST_HACK | RESERVED_LEASE | BOOTP_LEASE] *)
Definition EPHEMERAL_FLAGS : Z := Z.lor (Z.lor 8 64) (Z.lor RESERVED_LEASE BOOTP_LEASE).
Definition MIN_TIME : Z := 0.
Definition MAX_TIME4 : Z := 2147483647.

(** [enum failover_state]; a partner may send any other byte. *)
Definition unknown_state : Z := 0.
Definition startup : Z := 1.
Definition normal : Z := 2.
Definition communications_interrupted : Z := 3.
Definition partner_down : Z := 4.
Definition potential_conflict : Z := 5.
Definition recover : Z := 6.
Definition paused : Z := 7.
Definition shut_down : Z := 8.
Definition recover_done : Z := 9.
Definition resolution_interrupted : Z := 10.
Definition conflict_done : Z := 11.
Definition recover_wait : Z := 254.

Definition FTF_SERVER_STARTUP : Z := 1.
Definition FTM_POOLREQ : Z := 1.
Definition FTM_POOLRESP : Z := 2.
Definition FTM_BNDUPD : Z := 3.
Definition FTM_BNDACK : Z := 4.
Definition FTM_CONNECT : Z := 5.
Definition FTM_CONNECTACK : Z := 6.
Definition FTM_UPDREQALL : Z := 7.
Definition FTM_UPDDONE : Z := 8.
Definition FTM_UPDREQ : Z := 9.
Definition FTM_STATE : Z := 10.
Definition FTM_CONTACT : Z := 11.
Definition FTM_DISCONNECT : Z := 12.

Definition FTR_ILLEGAL_IP_ADDR : Z := 1.
Definition FTR_FATAL_CONFLICT : Z := 2.
Definition FTR_MISSING_BINDINFO : Z := 3.
Definition FTR_TIMEMISMATCH : Z := 4.
Definition FTR_INVALID_MCLT : Z := 5.
Definition FTR_MISC_REJECT : Z := 6.
Definition FTR_DUP_CONNECTION : Z := 7.
Definition FTR_INVALID_PARTNER : Z := 8.
Definition FTR_LESS_CRIT_BIND_INFO : Z := 16.
Definition FTR_IP_NOT_RESERVED : Z := 19.

Definition FTF_IP_FLAG_RESERVE : Z := 1.
Definition FTF_IP_FLAG_BOOTP : Z := 2.

(** Which options a message has. *)
Definition FTB_ASSIGNED_IP_ADDRESS : Z := 4.
Definition FTB_BINDING_STATUS : Z := 8.
Definition FTB_CLIENT_IDENTIFIER : Z := 16.
Definition FTB_CHADDR : Z := 32.
Definition FTB_IP_FLAGS : Z := 4096.
Definition FTB_LEASE_EXPIRY : Z := 8192.
Definition FTB_MAX_UNACKED : Z := 16384.
Definition FTB_MCLT : Z := 32768.
Definition FTB_POTENTIAL_EXPIRY : Z := 262144.
Definition FTB_RECEIVE_TIMER : Z := 524288.
Definition FTB_REJECT_REASON : Z := 2097152.
Definition FTB_RELATIONSHIP_NAME : Z := 4194304.
Definition FTB_STOS : Z := 33554432.
(** The number of the option, not its bit. *)
Definition FTO_POTENTIAL_EXPIRY : Z := 18.

(** ** Data *)

(** The lists of a pool. *)
Inductive queue := Free | Active | Expired | Abandoned | Backup | Reserved.

#[export] Instance queue_eq_dec : EqDecision queue.
Proof. solve_decision. Defined.

(** [struct lease] *)
Record lease := mkLease {
  l_starts : Z; l_ends : Z; l_sort_time : Z; l_cltt : Z; l_tstp : Z; l_tsfp : Z; l_atsfp : Z; l_flags : Z;
  l_binding_state : Z; l_next_binding_state : Z; l_desired_binding_state : Z; l_rewind_binding_state : Z;
  l_last_xid : Z; l_uid : option (list Z); l_hbuf : list Z; l_scope : bool; l_pool : option id;
  l_next : option id; l_n_uid : option id; l_n_hw : option id; l_next_pending : option id
}.

Definition set_l_starts v s := mkLease v (l_ends s) (l_sort_time s) (l_cltt s) (l_tstp s) (l_tsfp s) (l_atsfp s)
  (l_flags s) (l_binding_state s) (l_next_binding_state s) (l_desired_binding_state s) (l_rewind_binding_state s)
  (l_last_xid s) (l_uid s) (l_hbuf s) (l_scope s) (l_pool s) (l_next s) (l_n_uid s) (l_n_hw s) (l_next_pending s).
Definition set_l_ends v s := mkLease (l_starts s) v (l_sort_time s) (l_cltt s) (l_tstp s) (l_tsfp s) (l_atsfp s)
  (l_flags s) (l_binding_state s) (l_next_binding_state s) (l_desired_binding_state s) (l_rewind_binding_state s)
  (l_last_xid s) (l_uid s) (l_hbuf s) (l_scope s) (l_pool s) (l_next s) (l_n_uid s) (l_n_hw s) (l_next_pending s).
Definition set_l_sort_time v s := mkLease (l_starts s) (l_ends s) v (l_cltt s) (l_tstp s) (l_tsfp s) (l_atsfp s)
  (l_flags s) (l_binding_state s) (l_next_binding_state s) (l_desired_binding_state s) (l_rewind_binding_state s)
  (l_last_xid s) (l_uid s) (l_hbuf s) (l_scope s) (l_pool s) (l_next s) (l_n_uid s) (l_n_hw s) (l_next_pending s).
Definition set_l_cltt v s := mkLease (l_starts s) (l_ends s) (l_sort_time s) v (l_tstp s) (l_tsfp s) (l_atsfp s)
  (l_flags s) (l_binding_state s) (l_next_binding_state s) (l_desired_binding_state s) (l_rewind_binding_state s)
  (l_last_xid s) (l_uid s) (l_hbuf s) (l_scope s) (l_pool s) (l_next s) (l_n_uid s) (l_n_hw s) (l_next_pending s).
Definition set_l_tstp v s := mkLease (l_starts s) (l_ends s) (l_sort_time s) (l_cltt s) v (l_tsfp s) (l_atsfp s)
  (l_flags s) (l_binding_state s) (l_next_binding_state s) (l_desired_binding_state s) (l_rewind_binding_state s)
  (l_last_xid s) (l_uid s) (l_hbuf s) (l_scope s) (l_pool s) (l_next s) (l_n_uid s) (l_n_hw s) (l_next_pending s).
Definition set_l_tsfp v s := mkLease (l_starts s) (l_ends s) (l_sort_time s) (l_cltt s) (l_tstp s) v (l_atsfp s)
  (l_flags s) (l_binding_state s) (l_next_binding_state s) (l_desired_binding_state s) (l_rewind_binding_state s)
  (l_last_xid s) (l_uid s) (l_hbuf s) (l_scope s) (l_pool s) (l_next s) (l_n_uid s) (l_n_hw s) (l_next_pending s).
Definition set_l_atsfp v s := mkLease (l_starts s) (l_ends s) (l_sort_time s) (l_cltt s) (l_tstp s) (l_tsfp s) v
  (l_flags s) (l_binding_state s) (l_next_binding_state s) (l_desired_binding_state s) (l_rewind_binding_state s)
  (l_last_xid s) (l_uid s) (l_hbuf s) (l_scope s) (l_pool s) (l_next s) (l_n_uid s) (l_n_hw s) (l_next_pending s).
Definition set_l_flags v s := mkLease (l_starts s) (l_ends s) (l_sort_time s) (l_cltt s) (l_tstp s) (l_tsfp s)
  (l_atsfp s) v (l_binding_state s) (l_next_binding_state s) (l_desired_binding_state s) (l_rewind_binding_state s)
  (l_last_xid s) (l_uid s) (l_hbuf s) (l_scope s) (l_pool s) (l_next s) (l_n_uid s) (l_n_hw s) (l_next_pending s).
Definition set_l_binding_state v s := mkLease (l_starts s) (l_ends s) (l_sort_time s) (l_cltt s) (l_tstp s) (l_tsfp s)
  (l_atsfp s) (l_flags s) v (l_next_binding_state s) (l_desired_binding_state s) (l_rewind_binding_state s)
  (l_last_xid s) (l_uid s) (l_hbuf s) (l_scope s) (l_pool s) (l_next s) (l_n_uid s) (l_n_hw s) (l_next_pending s).
Definition set_l_next_binding_state v s := mkLease (l_starts s) (l_ends s) (l_sort_time s) (l_cltt s) (l_tstp s)
  (l_tsfp s) (l_atsfp s) (l_flags s) (l_binding_state s) v (l_desired_binding_state s) (l_rewind_binding_state s)
  (l_last_xid s) (l_uid s) (l_hbuf s) (l_scope s) (l_pool s) (l_next s) (l_n_uid s) (l_n_hw s) (l_next_pending s).
Definition set_l_desired_binding_state v s := mkLease (l_starts s) (l_ends s) (l_sort_time s) (l_cltt s) (l_tstp s)
  (l_tsfp s) (l_atsfp s) (l_flags s) (l_binding_state s) (l_next_binding_state s) v (l_rewind_binding_state s)
  (l_last_xid s) (l_uid s) (l_hbuf s) (l_scope s) (l_pool s) (l_next s) (l_n_uid s) (l_n_hw s) (l_next_pending s).
Definition set_l_rewind_binding_state v s := mkLease (l_starts s) (l_ends s) (l_sort_time s) (l_cltt s) (l_tstp s)
  (l_tsfp s) (l_atsfp s) (l_flags s) (l_binding_state s) (l_next_binding_state s) (l_desired_binding_state s) v
  (l_last_xid s) (l_uid s) (l_hbuf s) (l_scope s) (l_pool s) (l_next s) (l_n_uid s) (l_n_hw s) (l_next_pending s).
Definition set_l_last_xid v s := mkLease (l_starts s) (l_ends s) (l_sort_time s) (l_cltt s) (l_tstp s) (l_tsfp s)
  (l_atsfp s) (l_flags s) (l_binding_state s) (l_next_binding_state s) (l_desired_binding_state s)
  (l_rewind_binding_state s) v (l_uid s) (l_hbuf s) (l_scope s) (l_pool s) (l_next s) (l_n_uid s) (l_n_hw s)
  (l_next_pending s).
Definition set_l_uid v s := mkLease (l_starts s) (l_ends s) (l_sort_time s) (l_cltt s) (l_tstp s) (l_tsfp s) (l_atsfp
  s) (l_flags s) (l_binding_state s) (l_next_binding_state s) (l_desired_binding_state s) (l_rewind_binding_state s)
  (l_last_xid s) v (l_hbuf s) (l_scope s) (l_pool s) (l_next s) (l_n_uid s) (l_n_hw s) (l_next_pending s).
Definition set_l_hbuf v s := mkLease (l_starts s) (l_ends s) (l_sort_time s) (l_cltt s) (l_tstp s) (l_tsfp s) (l_atsfp
  s) (l_flags s) (l_binding_state s) (l_next_binding_state s) (l_desired_binding_state s) (l_rewind_binding_state s)
  (l_last_xid s) (l_uid s) v (l_scope s) (l_pool s) (l_next s) (l_n_uid s) (l_n_hw s) (l_next_pending s).
Definition set_l_scope v s := mkLease (l_starts s) (l_ends s) (l_sort_time s) (l_cltt s) (l_tstp s) (l_tsfp s)
  (l_atsfp s) (l_flags s) (l_binding_state s) (l_next_binding_state s) (l_desired_binding_state s)
  (l_rewind_binding_state s) (l_last_xid s) (l_uid s) (l_hbuf s) v (l_pool s) (l_next s) (l_n_uid s) (l_n_hw s)
  (l_next_pending s).
Definition set_l_next v s := mkLease (l_starts s) (l_ends s) (l_sort_time s) (l_cltt s) (l_tstp s) (l_tsfp s) (l_atsfp
  s) (l_flags s) (l_binding_state s) (l_next_binding_state s) (l_desired_binding_state s) (l_rewind_binding_state s)
  (l_last_xid s) (l_uid s) (l_hbuf s) (l_scope s) (l_pool s) v (l_n_uid s) (l_n_hw s) (l_next_pending s).
Definition set_l_n_uid v s := mkLease (l_starts s) (l_ends s) (l_sort_time s) (l_cltt s) (l_tstp s) (l_tsfp s)
  (l_atsfp s) (l_flags s) (l_binding_state s) (l_next_binding_state s) (l_desired_binding_state s)
  (l_rewind_binding_state s) (l_last_xid s) (l_uid s) (l_hbuf s) (l_scope s) (l_pool s) (l_next s) v (l_n_hw s)
  (l_next_pending s).
Definition set_l_n_hw v s := mkLease (l_starts s) (l_ends s) (l_sort_time s) (l_cltt s) (l_tstp s) (l_tsfp s) (l_atsfp
  s) (l_flags s) (l_binding_state s) (l_next_binding_state s) (l_desired_binding_state s) (l_rewind_binding_state s)
  (l_last_xid s) (l_uid s) (l_hbuf s) (l_scope s) (l_pool s) (l_next s) (l_n_uid s) v (l_next_pending s).
Definition set_l_next_pending v s := mkLease (l_starts s) (l_ends s) (l_sort_time s) (l_cltt s) (l_tstp s) (l_tsfp s)
  (l_atsfp s) (l_flags s) (l_binding_state s) (l_next_binding_state s) (l_desired_binding_state s)
  (l_rewind_binding_state s) (l_last_xid s) (l_uid s) (l_hbuf s) (l_scope s) (l_pool s) (l_next s) (l_n_uid s) (l_n_hw
  s) v.

(** [struct pool]: [p_heads] are its six lists. *)
Record pool := mkPool {
  p_failover_peer : bool; p_heads : queue -> option id; p_next_event_time : Z; p_lease_count : Z;
  p_free_leases : Z; p_backup_leases : Z
}.

Definition set_p_heads v s := mkPool (p_failover_peer s) v (p_next_event_time s) (p_lease_count s) (p_free_leases s)
  (p_backup_leases s).
Definition set_p_next_event_time v s := mkPool (p_failover_peer s) (p_heads s) v (p_lease_count s) (p_free_leases s)
  (p_backup_leases s).
Definition set_p_lease_count v s := mkPool (p_failover_peer s) (p_heads s) (p_next_event_time s) v (p_free_leases s)
  (p_backup_leases s).
Definition set_p_free_leases v s := mkPool (p_failover_peer s) (p_heads s) (p_next_event_time s) (p_lease_count s) v
  (p_backup_leases s).
Definition set_p_backup_leases v s := mkPool (p_failover_peer s) (p_heads s) (p_next_event_time s) (p_lease_count s)
  (p_free_leases s) v.

(** A message of the partner, with the members that are read; [m_relationship] is whether it
    names this relationship. *)
Record message := mkMessage {
  m_type : Z; m_options_present : Z; m_time : Z; m_xid : Z; m_assigned_addr : Z; m_binding_status : Z; m_cltt : Z; m_expiry : Z;
  m_potential_expiry : Z; m_stos : Z; m_ip_flags : Z; m_chaddr : list Z; m_client_identifier : list Z;
  m_server_state : Z; m_server_flags : Z; m_max_unacked : Z; m_receive_timer : Z; m_mclt : Z; m_relationship : bool
}.

Definition set_m_binding_status v s := mkMessage (m_type s) (m_options_present s) (m_time s) (m_xid s) (m_assigned_addr s) v
  (m_cltt s) (m_expiry s) (m_potential_expiry s) (m_stos s) (m_ip_flags s) (m_chaddr s) (m_client_identifier s)
  (m_server_state s) (m_server_flags s) (m_max_unacked s) (m_receive_timer s) (m_mclt s) (m_relationship s).

(** Head and tail of a queue of leases. *)
Record qends := mkEnds { q_head : option id; q_tail : option id }.
Definition set_q_head v s := mkEnds v (q_tail s).
Definition set_q_tail v s := mkEnds (q_head s) v.

(** [dhcp_failover_state_t]: [f_link_to_peer] is the next transaction id of the link. *)
Record failover := mkFailover {
  f_i_am : role; f_me_state : Z; f_me_stos : Z; f_me_max_response_delay : Z; f_partner_state : Z;
  f_partner_max_flying_updates : Z; f_partner_max_response_delay : Z; f_saved_state : Z; f_mclt : Z;
  f_hba : option (list Z); f_max_lease_misbalance : Z; f_max_lease_ownership : Z; f_max_balance : Z;
  f_min_balance : Z; f_last_balance : Z; f_sched_balance : Z; f_auto_partner_down : Z;
  f_service_state : service; f_link_to_peer : option Z; f_update_queue : qends; f_ack_queue : qends;
  f_send_update_done : option id; f_cur_unacked_updates : Z; f_toack_queue : list message; f_pending_acks : Z;
  f_curUPD : Z; f_updxid : Z
}.

Definition set_f_me_state v s := mkFailover (f_i_am s) v (f_me_stos s) (f_me_max_response_delay s) (f_partner_state s)
  (f_partner_max_flying_updates s) (f_partner_max_response_delay s) (f_saved_state s) (f_mclt s) (f_hba s)
  (f_max_lease_misbalance s) (f_max_lease_ownership s) (f_max_balance s) (f_min_balance s) (f_last_balance s)
  (f_sched_balance s) (f_auto_partner_down s) (f_service_state s) (f_link_to_peer s) (f_update_queue s) (f_ack_queue
  s) (f_send_update_done s) (f_cur_unacked_updates s) (f_toack_queue s) (f_pending_acks s) (f_curUPD s) (f_updxid s).
Definition set_f_me_stos v s := mkFailover (f_i_am s) (f_me_state s) v (f_me_max_response_delay s) (f_partner_state s)
  (f_partner_max_flying_updates s) (f_partner_max_response_delay s) (f_saved_state s) (f_mclt s) (f_hba s)
  (f_max_lease_misbalance s) (f_max_lease_ownership s) (f_max_balance s) (f_min_balance s) (f_last_balance s)
  (f_sched_balance s) (f_auto_partner_down s) (f_service_state s) (f_link_to_peer s) (f_update_queue s) (f_ack_queue
  s) (f_send_update_done s) (f_cur_unacked_updates s) (f_toack_queue s) (f_pending_acks s) (f_curUPD s) (f_updxid s).
Definition set_f_partner_state v s := mkFailover (f_i_am s) (f_me_state s) (f_me_stos s) (f_me_max_response_delay s) v
  (f_partner_max_flying_updates s) (f_partner_max_response_delay s) (f_saved_state s) (f_mclt s) (f_hba s)
  (f_max_lease_misbalance s) (f_max_lease_ownership s) (f_max_balance s) (f_min_balance s) (f_last_balance s)
  (f_sched_balance s) (f_auto_partner_down s) (f_service_state s) (f_link_to_peer s) (f_update_queue s) (f_ack_queue
  s) (f_send_update_done s) (f_cur_unacked_updates s) (f_toack_queue s) (f_pending_acks s) (f_curUPD s) (f_updxid s).
Definition set_f_partner_max_flying_updates v s := mkFailover (f_i_am s) (f_me_state s) (f_me_stos s)
  (f_me_max_response_delay s) (f_partner_state s) v (f_partner_max_response_delay s) (f_saved_state s) (f_mclt s)
  (f_hba s) (f_max_lease_misbalance s) (f_max_lease_ownership s) (f_max_balance s) (f_min_balance s) (f_last_balance
  s) (f_sched_balance s) (f_auto_partner_down s) (f_service_state s) (f_link_to_peer s) (f_update_queue s)
  (f_ack_queue s) (f_send_update_done s) (f_cur_unacked_updates s) (f_toack_queue s) (f_pending_acks s) (f_curUPD s)
  (f_updxid s).
Definition set_f_partner_max_response_delay v s := mkFailover (f_i_am s) (f_me_state s) (f_me_stos s)
  (f_me_max_response_delay s) (f_partner_state s) (f_partner_max_flying_updates s) v (f_saved_state s) (f_mclt s)
  (f_hba s) (f_max_lease_misbalance s) (f_max_lease_ownership s) (f_max_balance s) (f_min_balance s) (f_last_balance
  s) (f_sched_balance s) (f_auto_partner_down s) (f_service_state s) (f_link_to_peer s) (f_update_queue s)
  (f_ack_queue s) (f_send_update_done s) (f_cur_unacked_updates s) (f_toack_queue s) (f_pending_acks s) (f_curUPD s)
  (f_updxid s).
Definition set_f_saved_state v s := mkFailover (f_i_am s) (f_me_state s) (f_me_stos s) (f_me_max_response_delay s)
  (f_partner_state s) (f_partner_max_flying_updates s) (f_partner_max_response_delay s) v (f_mclt s) (f_hba s)
  (f_max_lease_misbalance s) (f_max_lease_ownership s) (f_max_balance s) (f_min_balance s) (f_last_balance s)
  (f_sched_balance s) (f_auto_partner_down s) (f_service_state s) (f_link_to_peer s) (f_update_queue s) (f_ack_queue
  s) (f_send_update_done s) (f_cur_unacked_updates s) (f_toack_queue s) (f_pending_acks s) (f_curUPD s) (f_updxid s).
Definition set_f_mclt v s := mkFailover (f_i_am s) (f_me_state s) (f_me_stos s) (f_me_max_response_delay s)
  (f_partner_state s) (f_partner_max_flying_updates s) (f_partner_max_response_delay s) (f_saved_state s) v (f_hba s)
  (f_max_lease_misbalance s) (f_max_lease_ownership s) (f_max_balance s) (f_min_balance s) (f_last_balance s)
  (f_sched_balance s) (f_auto_partner_down s) (f_service_state s) (f_link_to_peer s) (f_update_queue s) (f_ack_queue
  s) (f_send_update_done s) (f_cur_unacked_updates s) (f_toack_queue s) (f_pending_acks s) (f_curUPD s) (f_updxid s).
Definition set_f_last_balance v s := mkFailover (f_i_am s) (f_me_state s) (f_me_stos s) (f_me_max_response_delay s)
  (f_partner_state s) (f_partner_max_flying_updates s) (f_partner_max_response_delay s) (f_saved_state s) (f_mclt s)
  (f_hba s) (f_max_lease_misbalance s) (f_max_lease_ownership s) (f_max_balance s) (f_min_balance s) v
  (f_sched_balance s) (f_auto_partner_down s) (f_service_state s) (f_link_to_peer s) (f_update_queue s) (f_ack_queue
  s) (f_send_update_done s) (f_cur_unacked_updates s) (f_toack_queue s) (f_pending_acks s) (f_curUPD s) (f_updxid s).
Definition set_f_sched_balance v s := mkFailover (f_i_am s) (f_me_state s) (f_me_stos s) (f_me_max_response_delay s)
  (f_partner_state s) (f_partner_max_flying_updates s) (f_partner_max_response_delay s) (f_saved_state s) (f_mclt s)
  (f_hba s) (f_max_lease_misbalance s) (f_max_lease_ownership s) (f_max_balance s) (f_min_balance s) (f_last_balance
  s) v (f_auto_partner_down s) (f_service_state s) (f_link_to_peer s) (f_update_queue s) (f_ack_queue s)
  (f_send_update_done s) (f_cur_unacked_updates s) (f_toack_queue s) (f_pending_acks s) (f_curUPD s) (f_updxid s).
Definition set_f_service_state v s := mkFailover (f_i_am s) (f_me_state s) (f_me_stos s) (f_me_max_response_delay s)
  (f_partner_state s) (f_partner_max_flying_updates s) (f_partner_max_response_delay s) (f_saved_state s) (f_mclt s)
  (f_hba s) (f_max_lease_misbalance s) (f_max_lease_ownership s) (f_max_balance s) (f_min_balance s) (f_last_balance
  s) (f_sched_balance s) (f_auto_partner_down s) v (f_link_to_peer s) (f_update_queue s) (f_ack_queue s)
  (f_send_update_done s) (f_cur_unacked_updates s) (f_toack_queue s) (f_pending_acks s) (f_curUPD s) (f_updxid s).
Definition set_f_link_to_peer v s := mkFailover (f_i_am s) (f_me_state s) (f_me_stos s) (f_me_max_response_delay s)
  (f_partner_state s) (f_partner_max_flying_updates s) (f_partner_max_response_delay s) (f_saved_state s) (f_mclt s)
  (f_hba s) (f_max_lease_misbalance s) (f_max_lease_ownership s) (f_max_balance s) (f_min_balance s) (f_last_balance
  s) (f_sched_balance s) (f_auto_partner_down s) (f_service_state s) v (f_update_queue s) (f_ack_queue s)
  (f_send_update_done s) (f_cur_unacked_updates s) (f_toack_queue s) (f_pending_acks s) (f_curUPD s) (f_updxid s).
Definition set_f_update_queue v s := mkFailover (f_i_am s) (f_me_state s) (f_me_stos s) (f_me_max_response_delay s)
  (f_partner_state s) (f_partner_max_flying_updates s) (f_partner_max_response_delay s) (f_saved_state s) (f_mclt s)
  (f_hba s) (f_max_lease_misbalance s) (f_max_lease_ownership s) (f_max_balance s) (f_min_balance s) (f_last_balance
  s) (f_sched_balance s) (f_auto_partner_down s) (f_service_state s) (f_link_to_peer s) v (f_ack_queue s)
  (f_send_update_done s) (f_cur_unacked_updates s) (f_toack_queue s) (f_pending_acks s) (f_curUPD s) (f_updxid s).
Definition set_f_ack_queue v s := mkFailover (f_i_am s) (f_me_state s) (f_me_stos s) (f_me_max_response_delay s)
  (f_partner_state s) (f_partner_max_flying_updates s) (f_partner_max_response_delay s) (f_saved_state s) (f_mclt s)
  (f_hba s) (f_max_lease_misbalance s) (f_max_lease_ownership s) (f_max_balance s) (f_min_balance s) (f_last_balance
  s) (f_sched_balance s) (f_auto_partner_down s) (f_service_state s) (f_link_to_peer s) (f_update_queue s) v
  (f_send_update_done s) (f_cur_unacked_updates s) (f_toack_queue s) (f_pending_acks s) (f_curUPD s) (f_updxid s).
Definition set_f_send_update_done v s := mkFailover (f_i_am s) (f_me_state s) (f_me_stos s) (f_me_max_response_delay
  s) (f_partner_state s) (f_partner_max_flying_updates s) (f_partner_max_response_delay s) (f_saved_state s) (f_mclt
  s) (f_hba s) (f_max_lease_misbalance s) (f_max_lease_ownership s) (f_max_balance s) (f_min_balance s)
  (f_last_balance s) (f_sched_balance s) (f_auto_partner_down s) (f_service_state s) (f_link_to_peer s)
  (f_update_queue s) (f_ack_queue s) v (f_cur_unacked_updates s) (f_toack_queue s) (f_pending_acks s) (f_curUPD s)
  (f_updxid s).
Definition set_f_cur_unacked_updates v s := mkFailover (f_i_am s) (f_me_state s) (f_me_stos s)
  (f_me_max_response_delay s) (f_partner_state s) (f_partner_max_flying_updates s) (f_partner_max_response_delay s)
  (f_saved_state s) (f_mclt s) (f_hba s) (f_max_lease_misbalance s) (f_max_lease_ownership s) (f_max_balance s)
  (f_min_balance s) (f_last_balance s) (f_sched_balance s) (f_auto_partner_down s) (f_service_state s) (f_link_to_peer
  s) (f_update_queue s) (f_ack_queue s) (f_send_update_done s) v (f_toack_queue s) (f_pending_acks s) (f_curUPD s)
  (f_updxid s).
Definition set_f_toack_queue v s := mkFailover (f_i_am s) (f_me_state s) (f_me_stos s) (f_me_max_response_delay s)
  (f_partner_state s) (f_partner_max_flying_updates s) (f_partner_max_response_delay s) (f_saved_state s) (f_mclt s)
  (f_hba s) (f_max_lease_misbalance s) (f_max_lease_ownership s) (f_max_balance s) (f_min_balance s) (f_last_balance
  s) (f_sched_balance s) (f_auto_partner_down s) (f_service_state s) (f_link_to_peer s) (f_update_queue s)
  (f_ack_queue s) (f_send_update_done s) (f_cur_unacked_updates s) v (f_pending_acks s) (f_curUPD s) (f_updxid s).
Definition set_f_pending_acks v s := mkFailover (f_i_am s) (f_me_state s) (f_me_stos s) (f_me_max_response_delay s)
  (f_partner_state s) (f_partner_max_flying_updates s) (f_partner_max_response_delay s) (f_saved_state s) (f_mclt s)
  (f_hba s) (f_max_lease_misbalance s) (f_max_lease_ownership s) (f_max_balance s) (f_min_balance s) (f_last_balance
  s) (f_sched_balance s) (f_auto_partner_down s) (f_service_state s) (f_link_to_peer s) (f_update_queue s)
  (f_ack_queue s) (f_send_update_done s) (f_cur_unacked_updates s) (f_toack_queue s) v (f_curUPD s) (f_updxid s).
Definition set_f_curUPD v s := mkFailover (f_i_am s) (f_me_state s) (f_me_stos s) (f_me_max_response_delay s)
  (f_partner_state s) (f_partner_max_flying_updates s) (f_partner_max_response_delay s) (f_saved_state s) (f_mclt s)
  (f_hba s) (f_max_lease_misbalance s) (f_max_lease_ownership s) (f_max_balance s) (f_min_balance s) (f_last_balance
  s) (f_sched_balance s) (f_auto_partner_down s) (f_service_state s) (f_link_to_peer s) (f_update_queue s)
  (f_ack_queue s) (f_send_update_done s) (f_cur_unacked_updates s) (f_toack_queue s) (f_pending_acks s) v (f_updxid
  s).
Definition set_f_updxid v s := mkFailover (f_i_am s) (f_me_state s) (f_me_stos s) (f_me_max_response_delay s)
  (f_partner_state s) (f_partner_max_flying_updates s) (f_partner_max_response_delay s) (f_saved_state s) (f_mclt s)
  (f_hba s) (f_max_lease_misbalance s) (f_max_lease_ownership s) (f_max_balance s) (f_min_balance s) (f_last_balance
  s) (f_sched_balance s) (f_auto_partner_down s) (f_service_state s) (f_link_to_peer s) (f_update_queue s)
  (f_ack_queue s) (f_send_update_done s) (f_cur_unacked_updates s) (f_toack_queue s) (f_pending_acks s) (f_curUPD s)
  v.

(** The functions timers call. *)
Inductive timer :=
| T_pool_timer (p : id) | T_pool_rebalance | T_toack_queue_timeout | T_send_contact | T_timeout | T_startup_timeout
| T_keepalive | T_reconnect | T_link_startup_timeout | T_auto_partner_down | T_recover_done | T_commit_leases.

(** What goes to the partner. *)
Inductive sent :=
| S_state (xid state flags stos : Z)
| S_bndupd (xid : Z) (l : id) (status flags : Z)
| S_bndack (msg : message) (reason : Z)
| S_updreq (xid : Z) | S_updreqall (xid : Z) | S_upddone (xid : Z)
| S_poolreq (xid : Z) | S_poolresp (xid n : Z) | S_contact (xid : Z)
| S_connectack (xid reason : Z) | S_disconnect (reason : Z).

(** What the server does outside, with the answer it gets; a lease is written with what it holds then. *)
Inductive event :=
| write_lease_ev (l : id) (s : lease) (ok : bool) | commit_leases_ev (ok : bool) | write_failover_state_ev
| send_ev (m : sent)
| add_timeout_ev (tv_sec : Z) (t : timer) | cancel_timeout_ev (t : timer)
| ddns_removals_ev (l : id) | disconnect_ev.

(** The server.  [outside] counts the calls that have an answer. *)
Record srv := mkSrv {
  leases : gmap id lease; pools : gmap id pool; pool_order : list id; peer : failover;
  lease_ip_addr_hash : gmap Z id; lease_uid_hash : gmap (list Z) id; lease_hw_addr_hash : gmap (list Z) id;
  ss_nosync : bool; ss_qfollow : bool; last_lq : option (id * queue); last_insert_point : option id;
  outside : nat; events : list event
}.

Definition set_leases v s := mkSrv v (pools s) (pool_order s) (peer s) (lease_ip_addr_hash s) (lease_uid_hash s)
  (lease_hw_addr_hash s) (ss_nosync s) (ss_qfollow s) (last_lq s) (last_insert_point s) (outside s) (events s).
Definition set_pools v s := mkSrv (leases s) v (pool_order s) (peer s) (lease_ip_addr_hash s) (lease_uid_hash s)
  (lease_hw_addr_hash s) (ss_nosync s) (ss_qfollow s) (last_lq s) (last_insert_point s) (outside s) (events s).
Definition set_peer v s := mkSrv (leases s) (pools s) (pool_order s) v (lease_ip_addr_hash s) (lease_uid_hash s)
  (lease_hw_addr_hash s) (ss_nosync s) (ss_qfollow s) (last_lq s) (last_insert_point s) (outside s) (events s).
Definition set_lease_uid_hash v s := mkSrv (leases s) (pools s) (pool_order s) (peer s) (lease_ip_addr_hash s) v
  (lease_hw_addr_hash s) (ss_nosync s) (ss_qfollow s) (last_lq s) (last_insert_point s) (outside s) (events s).
Definition set_lease_hw_addr_hash v s := mkSrv (leases s) (pools s) (pool_order s) (peer s) (lease_ip_addr_hash s)
  (lease_uid_hash s) v (ss_nosync s) (ss_qfollow s) (last_lq s) (last_insert_point s) (outside s) (events s).
Definition set_ss_nosync v s := mkSrv (leases s) (pools s) (pool_order s) (peer s) (lease_ip_addr_hash s)
  (lease_uid_hash s) (lease_hw_addr_hash s) v (ss_qfollow s) (last_lq s) (last_insert_point s) (outside s) (events s).
Definition set_ss_qfollow v s := mkSrv (leases s) (pools s) (pool_order s) (peer s) (lease_ip_addr_hash s)
  (lease_uid_hash s) (lease_hw_addr_hash s) (ss_nosync s) v (last_lq s) (last_insert_point s) (outside s) (events s).
Definition set_last_lq v s := mkSrv (leases s) (pools s) (pool_order s) (peer s) (lease_ip_addr_hash s)
  (lease_uid_hash s) (lease_hw_addr_hash s) (ss_nosync s) (ss_qfollow s) v (last_insert_point s) (outside s) (events
  s).
Definition set_last_insert_point v s := mkSrv (leases s) (pools s) (pool_order s) (peer s) (lease_ip_addr_hash s)
  (lease_uid_hash s) (lease_hw_addr_hash s) (ss_nosync s) (ss_qfollow s) (last_lq s) v (outside s) (events s).
Definition set_outside v s := mkSrv (leases s) (pools s) (pool_order s) (peer s) (lease_ip_addr_hash s)
  (lease_uid_hash s) (lease_hw_addr_hash s) (ss_nosync s) (ss_qfollow s) (last_lq s) (last_insert_point s) v (events
  s).
Definition set_events v s := mkSrv (leases s) (pools s) (pool_order s) (peer s) (lease_ip_addr_hash s) (lease_uid_hash
  s) (lease_hw_addr_hash s) (ss_nosync s) (ss_qfollow s) (last_lq s) (last_insert_point s) (outside s) v.

(** ** The monad *)

Definition M4 (A : Type) : Type := srv -> option (A * srv).

#[export] Instance M4_ret : MRet M4 := fun A a d => Some (a, d).
#[export] Instance M4_bind : MBind M4 := fun A B f m d =>
  match m d with Some (a, d') => f a d' | None => None end.

Definition get4 {A} (f : srv -> A) : M4 A := fun d => Some (f d, d).
Definition modify4 (f : srv -> srv) : M4 unit := fun d => Some (tt, f d).
Definition log_fatal {A} : M4 A := fun _ => None.
Definition follow {A} (o : option A) : M4 A := fun d => match o with Some a => Some (a, d) | None => None end.
Definition when4 (b : bool) (m : M4 unit) : M4 unit := if b then m else mret tt.
Definition each4 {A} (f : A -> M4 unit) (l : list A) : M4 unit := foldr (fun a k => f a ;; k) (mret tt) l.

(** The object a pointer points to, and changing it. *)
Definition lease_at (l : id) : M4 lease := m ← get4 leases; follow (m !! l).
Definition set_lease4 (l : id) (f : lease -> lease) : M4 unit :=
  s ← lease_at l; modify4 (fun d => set_leases (<[l := f s]> (leases d)) d).
Definition pool_at (p : id) : M4 pool := m ← get4 pools; follow (m !! p).
Definition set_pool4 (p : id) (f : pool -> pool) : M4 unit :=
  s ← pool_at p; modify4 (fun d => set_pools (<[p := f s]> (pools d)) d).
Definition set_peer4 (f : failover -> failover) : M4 unit := modify4 (fun d => set_peer (f (peer d)) d).
Definition emit (e : event) : M4 unit := modify4 (fun d => set_events (events d ++ [e]) d).

Definition flag (s : lease) (b : Z) : bool := negb (Z.land (l_flags s) b =? 0).
Definition set_flag (b : Z) (s : lease) : lease := set_l_flags (Z.lor (l_flags s) b) s.
(** [flags &= ~b] *)
Definition clear_flag (b : Z) (s : lease) : lease := set_l_flags (Z.ldiff (l_flags s) b) s.

Definition set_p_head (w : queue) (v : option id) (p : pool) : pool :=
  set_p_heads (fun w' => if decide (w' = w) then v else p_heads p w') p.

(** The failover peer of the pool a lease is in. *)
Definition failover_peer (s : lease) : M4 (option failover) :=
  match l_pool s with
  | None => mret None
  | Some q => p ← pool_at q; f ← get4 peer; mret (if p_failover_peer p then Some f else None)
  end.

Section Outside.
Context (io : nat -> bool).

(** The answer of the next call to the outside. *)
Definition ask : M4 bool := k ← get4 outside; modify4 (set_outside (S k)) ;; mret (io k).

(** The lease as it is now goes to the lease file; [commit_leases] brings the file to the disk. *)
Definition write_lease (l : id) : M4 bool := s ← lease_at l; ok ← ask; emit (write_lease_ev l s ok) ;; mret ok.
Definition commit_leases : M4 bool := ok ← ask; emit (commit_leases_ev ok) ;; mret ok.
Definition write_failover_state : M4 bool := emit write_failover_state_ev ;; ask.

End Outside.

Definition add_timeout4 (tv_sec : Z) (t : timer) : M4 unit := emit (add_timeout_ev tv_sec t).
Definition cancel_timeout4 (t : timer) : M4 unit := emit (cancel_timeout_ev t).
