(* ===== verification/V4Queues.v ===== *)
(** * Failover: messages and queues of updates

    The part of server/failover.c below the lease database: sending messages, the queue
    of updates that wait to be sent, the queue of updates that wait for an
    acknowledgement, the queue of acknowledgements, and when a pool is balanced next.

    The two queues of leases are linked through [next_pending], with a head and a tail
    pointer each. *)

From S2P Require Import Prelude BindingStates FailoverLeases V4State.

#[local] Open Scope Z_scope.

Inductive result := R_SUCCESS | R_INVALIDARG | R_ALREADYRUNNING | R_IOERROR.

#[export] Instance result_eq_dec : EqDecision result.
Proof. solve_decision. Defined.

Section Queues.
Context (io : nat -> bool) (random : nat -> Z) (cur_time : Z).

(** ** Messages *)

Definition dhcp_failover_put_message (m : sent) : M4 unit :=
  emit (send_ev m) ;;
  f ← get4 peer;
  add_timeout4 (cur_time + Z.quot (to_int (f_partner_max_response_delay f)) 3) T_send_contact.

(** The link to the partner with the transaction id [xid]; [link->xid++]. *)
Definition with_link (k : Z -> M4 result) : M4 result :=
  f ← get4 peer;
  match f_link_to_peer f with
  | None => mret R_INVALIDARG
  | Some xid => k xid
  end.
Definition next_xid (xid : Z) : M4 unit := set_peer4 (set_f_link_to_peer (Some (u32 (xid + 1)))).

Definition dhcp_failover_send_contact : M4 result :=
  with_link (fun xid => next_xid xid ;; dhcp_failover_put_message (S_contact xid) ;; mret R_SUCCESS).

Definition dhcp_failover_send_state : M4 result :=
  with_link (fun xid =>
    f ← get4 peer;
    next_xid xid ;;
    dhcp_failover_put_message (S_state xid (if f_me_state f =? startup then f_saved_state f else f_me_state f)
      (if bool_decide (f_service_state f = service_startup) then FTF_SERVER_STARTUP else 0) (f_me_stos f)) ;;
    mret R_SUCCESS).

Definition dhcp_failover_send_bind_update (l : id) : M4 result :=
  with_link (fun xid =>
    s ← lease_at l;
    let flags := Z.lor (if flag s RESERVED_LEASE then FTF_IP_FLAG_RESERVE else 0) (if flag s BOOTP_LEASE then FTF_IP_FLAG_BOOTP else 0) in
    let xid := if xid =? 0 then 1 else xid in
    next_xid xid ;;
    set_lease4 l (set_l_last_xid xid) ;;
    (if negb (l_rewind_binding_state s =? l_binding_state s) then
       set_lease4 l (set_l_rewind_binding_state (l_binding_state s)) ;;
       write_lease io l ;; commit_leases io ;; mret tt
     else mret tt) ;;
    dhcp_failover_put_message (S_bndupd xid l (l_desired_binding_state s) flags) ;;
    mret R_SUCCESS).

Definition dhcp_failover_send_bind_ack (msg : message) (reason : Z) : M4 result :=
  with_link (fun _ => dhcp_failover_put_message (S_bndack msg reason) ;; mret R_SUCCESS).

Definition dhcp_failover_send_poolreq : M4 result :=
  with_link (fun xid => next_xid xid ;; dhcp_failover_put_message (S_poolreq xid) ;; mret R_SUCCESS).

(** [imsg_xid]: the transaction id of the message that is answered. *)
Definition dhcp_failover_send_poolresp (imsg_xid n : Z) : M4 result :=
  with_link (fun _ => dhcp_failover_put_message (S_poolresp imsg_xid n) ;; mret R_SUCCESS).

Definition dhcp_failover_send_update_request : M4 result :=
  with_link (fun xid =>
    f ← get4 peer;
    if negb (f_curUPD f =? 0) then mret R_ALREADYRUNNING
    else next_xid xid ;; dhcp_failover_put_message (S_updreq xid) ;; set_peer4 (set_f_curUPD FTM_UPDREQ) ;; mret R_SUCCESS).

Definition dhcp_failover_send_update_request_all : M4 result :=
  with_link (fun xid =>
    f ← get4 peer;
    if negb (f_curUPD f =? 0) && negb (f_curUPD f =? FTM_UPDREQ) then mret R_ALREADYRUNNING
    else next_xid xid ;; dhcp_failover_put_message (S_updreqall xid) ;; set_peer4 (set_f_curUPD FTM_UPDREQALL) ;; mret R_SUCCESS).

Definition dhcp_failover_send_update_done : M4 result :=
  with_link (fun _ =>
    f ← get4 peer;
    dhcp_failover_put_message (S_upddone (f_updxid f)) ;;
    set_peer4 (fun f => set_f_updxid (u32 (f_updxid f - 1)) f) ;;
    commit_leases io ;; mret R_SUCCESS).

(** ** Acknowledgements *)

Definition dhcp_failover_send_acks : M4 bool :=
  ok ← commit_leases io;
  if negb ok then mret false else
  f ← get4 peer;
  each4 (fun msg => set_peer4 (fun f => set_f_toack_queue (tail (f_toack_queue f)) f) ;; dhcp_failover_send_bind_ack msg 0 ;; mret tt)
    (f_toack_queue f) ;;
  set_peer4 (set_f_pending_acks 0) ;;
  mret true.

Definition dhcp_failover_toack_queue_timeout : M4 unit := dhcp_failover_send_acks ;; mret tt.

Definition dhcp_failover_queue_ack (msg : message) : M4 unit :=
  set_peer4 (fun f => set_f_toack_queue (f_toack_queue f ++ [msg]) f) ;;
  set_peer4 (fun f => set_f_pending_acks (f_pending_acks f + 1) f) ;;
  f ← get4 peer;
  (if f_partner_max_flying_updates f / 2 <=? u32 (f_pending_acks f) then dhcp_failover_send_acks ;; mret tt else mret tt) ;;
  f ← get4 peer;
  when4 (0 <? f_pending_acks f) (add_timeout4 (cur_time + 2) T_toack_queue_timeout).

(** ** Updates *)

(** The loop of [dhcp_failover_send_updates]; every round takes a lease off the update
    queue. *)
Fixpoint send_loop (n : nat) : M4 result :=
  match n with
  | O => log_fatal
  | S n =>
      f ← get4 peer;
      match q_head (f_update_queue f) with
      | Some lp =>
          if u32 (f_cur_unacked_updates f) <? f_partner_max_flying_updates f then
            status ← dhcp_failover_send_bind_update lp;
            if negb (bool_decide (status = R_SUCCESS)) then mret status else
            set_lease4 lp (clear_flag ON_UPDATE_QUEUE) ;;
            s ← lease_at lp;
            match l_next_pending s with
            | Some nx =>
                set_peer4 (fun f => set_f_update_queue (set_q_head (Some nx) (f_update_queue f)) f) ;;
                set_lease4 lp (set_l_next_pending None)
            | None => set_peer4 (fun f => set_f_update_queue (mkEnds None None) f)
            end ;;
            f ← get4 peer;
            match q_head (f_ack_queue f) with
            | Some _ =>
                t ← follow (q_tail (f_ack_queue f));
                set_lease4 t (set_l_next_pending (Some lp))
            | None => set_peer4 (fun f => set_f_ack_queue (set_q_head (Some lp) (f_ack_queue f)) f)
            end ;;
            set_peer4 (fun f => set_f_ack_queue (set_q_tail (Some lp) (f_ack_queue f)) f) ;;
            set_lease4 lp (set_flag ON_ACK_QUEUE) ;;
            set_peer4 (fun f => set_f_cur_unacked_updates (f_cur_unacked_updates f + 1) f) ;;
            send_loop n
          else mret R_SUCCESS
      | None => mret R_SUCCESS
      end
  end.

Definition dhcp_failover_send_updates : M4 result :=
  f ← get4 peer;
  match f_link_to_peer f with
  | None => mret R_SUCCESS
  | Some _ =>
      (if negb (bool_decide (f_toack_queue f = [])) then dhcp_failover_send_acks ;; mret tt else mret tt) ;;
      m ← get4 leases;
      send_loop (S (size m))
  end.

(** [for (; lp && lp->next_pending != lease; lp = lp->next_pending)] *)
Fixpoint before_pending (n : nat) (lp : option id) (l : id) : M4 (option id) :=
  match n with
  | O => log_fatal
  | S n =>
      match lp with
      | None => mret None
      | Some x => s ← lease_at x; if bool_decide (l_next_pending s = Some l) then mret lp else before_pending n (l_next_pending s) l
      end
  end.

(** The end of [dhcp_failover_ack_queue_remove]. *)
Definition forget_ack (l : id) : M4 unit :=
  set_lease4 l (clear_flag ON_ACK_QUEUE) ;;
  set_lease4 l (set_l_last_xid 0) ;;
  set_peer4 (fun f => set_f_cur_unacked_updates (f_cur_unacked_updates f - 1) f) ;;
  f ← get4 peer;
  (if f_cur_unacked_updates f =? 0 then commit_leases io ;; mret tt else mret tt).

Definition dhcp_failover_ack_queue_remove (l : id) : M4 unit :=
  s ← lease_at l;
  if negb (flag s ON_ACK_QUEUE) then mret tt else
  f ← get4 peer;
  if bool_decide (q_head (f_ack_queue f) = Some l) then
    match l_next_pending s with
    | Some nx =>
        set_peer4 (fun f => set_f_ack_queue (set_q_head (Some nx) (f_ack_queue f)) f) ;;
        set_lease4 l (set_l_next_pending None)
    | None => set_peer4 (fun f => set_f_ack_queue (mkEnds None None) f)
    end ;;
    forget_ack l
  else
    m ← get4 leases;
    lp ← before_pending (S (size m)) (q_head (f_ack_queue f)) l;
    match lp with
    | None => mret tt
    | Some lp =>
        match l_next_pending s with
        | Some nx => set_lease4 lp (set_l_next_pending (Some nx)) ;; set_lease4 l (set_l_next_pending None)
        | None =>
            set_lease4 lp (set_l_next_pending None) ;;
            set_peer4 (fun f => set_f_ack_queue (set_q_tail (Some lp) (f_ack_queue f)) f)
        end ;;
        forget_ack l
    end.

Definition dhcp_failover_queue_update (l : id) (immediate : bool) : M4 bool :=
  s ← lease_at l;
  p ← failover_peer s;
  match p with
  | None => mret true
  | Some _ =>
      if flag s ON_UPDATE_QUEUE then mret true else
      (if flag s ON_ACK_QUEUE then dhcp_failover_ack_queue_remove l else mret tt) ;;
      f ← get4 peer;
      match q_head (f_update_queue f) with
      | Some _ =>
          t ← follow (q_tail (f_update_queue f));
          set_lease4 t (set_l_next_pending (Some l))
      | None => set_peer4 (fun f => set_f_update_queue (set_q_head (Some l) (f_update_queue f)) f)
      end ;;
      set_peer4 (fun f => set_f_update_queue (set_q_tail (Some l) (f_update_queue f)) f) ;;
      set_lease4 l (set_flag ON_UPDATE_QUEUE) ;;
      (if immediate then dhcp_failover_send_updates ;; mret tt else mret tt) ;;
      mret true
  end.

(** ** When to balance *)

(** How long the oldest lease of a list has been over. *)
Definition estimate (h : option id) : M4 Z :=
  match h with
  | Some x => s ← lease_at x; mret (if l_ends s <? cur_time then cur_time - l_ends s else 0)
  | None => mret 0
  end.

(** [random] is asked with the number of calls so far. *)
Definition dhcp_failover_pool_check (q : id) : M4 unit :=
  p ← pool_at q;
  f ← get4 peer;
  if negb (p_failover_peer p) || negb (f_me_state f =? normal) then mret tt else
  e1 ← estimate (p_heads p Free);
  e2 ← estimate (p_heads p Backup);
  let est1 := (e1 * f_max_lease_misbalance f + 50) / 100 in
  let est2 := (e2 * f_max_lease_misbalance f + 50) / 100 in
  let est1 := if bool_decide (f_i_am f = primary) then est1 * 2 else est1 in
  let est2 := if bool_decide (f_i_am f = primary) then est2 else est2 * 2 in
  let est1 := if est2 <? est1 then est2 else est1 in
  let est1 := if f_max_balance f <? est1 then f_max_balance f else est1 in
  let est1 := est1 + cur_time in
  let est2 := f_last_balance f + f_min_balance f in
  let est1 := if negb (f_last_balance f =? 0) && (est1 <? est2) then est2 else est1 in
  k ← get4 outside; modify4 (set_outside (S k)) ;;
  let est1 := est1 + Z.rem (random k) 5 in
  if negb (f_sched_balance f =? 0) && (f_sched_balance f <=? est1) then mret tt else
  when4 (negb (f_sched_balance f =? 0)) (cancel_timeout4 T_pool_rebalance) ;;
  set_peer4 (set_f_sched_balance est1) ;;
  add_timeout4 est1 T_pool_rebalance.

Definition dhcp_failover_state_pool_check : M4 unit :=
  l ← get4 pool_order;
  each4 (fun q => p ← pool_at q; when4 (p_failover_peer p) (dhcp_failover_pool_check q)) l.

End Queues.
