(* ===== verification/V4Leases.v ===== *)
(** * The lease database of the DHCPv4 server

    server/mdb.c: the lists of leases of a pool, moving a lease from one state and list
    to the next ([supersede_lease]), the timer of a pool, releasing and abandoning leases,
    the tables of leases by client, and the startup of the database.

    The billing of classes, host declarations, agent options, host names and the
    statements to execute on expiry and release are not modelled. *)

From S2P Require Import Prelude BindingStates FailoverLeases V4State V4Queues.

#[local] Open Scope Z_scope.

(** ** Tables by client *)

(** The two tables: by client identifier and by hardware address. *)
Inductive table_by := ByUid | ByHw.

Definition n_of (t : table_by) (s : lease) : option id := match t with ByUid => l_n_uid s | ByHw => l_n_hw s end.
Definition set_n (t : table_by) (v : option id) (s : lease) : lease := match t with ByUid => set_l_n_uid v s | ByHw => set_l_n_hw v s end.
Definition key_by (t : table_by) (s : lease) : list Z := match t with ByUid => default [] (l_uid s) | ByHw => l_hbuf s end.
Definition hash_by (t : table_by) (d : srv) : gmap (list Z) id := match t with ByUid => lease_uid_hash d | ByHw => lease_hw_addr_hash d end.
Definition set_hash_by (t : table_by) (h : gmap (list Z) id) (d : srv) : srv :=
  match t with ByUid => set_lease_uid_hash h d | ByHw => set_lease_hw_addr_hash h d end.

Definition client_lease_preferred (cand lease : lease) : bool :=
  if l_binding_state cand =? FTS_ACTIVE then
    (l_binding_state lease =? FTS_ACTIVE) && (l_ends cand <=? l_ends lease)
  else if case_of (l_binding_state cand) [FTS_EXPIRED; FTS_RELEASED] then
    (l_binding_state lease =? FTS_ACTIVE) ||
    (case_of (l_binding_state lease) [FTS_EXPIRED; FTS_RELEASED] && (l_cltt cand <=? l_cltt lease))
  else if negb (l_binding_state cand =? FTS_ABANDONED) then
    case_of (l_binding_state lease) [FTS_ACTIVE; FTS_EXPIRED; FTS_RELEASED] ||
    (negb (l_binding_state lease =? FTS_ABANDONED) && (l_cltt cand <=? l_cltt lease))
  else
    negb (l_binding_state lease =? FTS_ABANDONED) || (l_cltt cand <=? l_cltt lease).

(** [find_lease_by_uid], [find_lease_by_hw_addr] *)
Definition find_lease_by (t : table_by) (key : list Z) : M4 (option id) :=
  if bool_decide (key = []) then mret None else h ← get4 (hash_by t); mret (h !! key).

Definition hash_put (t : table_by) (key : list Z) (l : id) : M4 unit := modify4 (fun d => set_hash_by t (<[key := l]> (hash_by t d)) d).
Definition hash_remove (t : table_by) (key : list Z) : M4 unit := modify4 (fun d => set_hash_by t (delete key (hash_by t d)) d).

(** The lease behind which to insert; [None] at the head. *)
Fixpoint place_by (n : nat) (t : table_by) (cand prev : option id) (l : lease) : M4 (option id) :=
  match n with
  | O => log_fatal
  | S n =>
      match cand with
      | None => mret prev
      | Some c => s ← lease_at c; if client_lease_preferred s l then mret prev else place_by n t (n_of t s) cand l
      end
  end.

(** [uid_hash_add], [hw_hash_add] *)
Definition table_add (t : table_by) (l : id) : M4 unit :=
  s ← lease_at l;
  head ← find_lease_by t (key_by t s);
  match head with
  | None => hash_put t (key_by t s) l
  | Some _ =>
      m ← get4 leases;
      prev ← place_by (S (size m)) t head None s;
      match prev with
      | None =>
          set_lease4 l (set_n t head) ;;
          hash_remove t (key_by t s) ;; hash_put t (key_by t s) l
      | Some p =>
          sp ← lease_at p;
          (match n_of t sp with
           | Some nx => set_lease4 l (set_n t (Some nx)) ;; set_lease4 p (set_n t None)
           | None => mret tt
           end) ;;
          set_lease4 p (set_n t (Some l))
      end
  end.

(** [for (scan = head; scan->n; scan = scan->n) if (scan->n == lease) ...] *)
Fixpoint unlink_by (n : nat) (t : table_by) (scan l : id) : M4 unit :=
  match n with
  | O => log_fatal
  | S n =>
      s ← lease_at scan;
      match n_of t s with
      | None => mret tt
      | Some x =>
          if bool_decide (x = l) then
            sl ← lease_at l;
            match n_of t sl with
            | Some nx => set_lease4 scan (set_n t (Some nx)) ;; set_lease4 l (set_n t None)
            | None => set_lease4 scan (set_n t None)
            end
          else unlink_by n t x l
      end
  end.

(** [uid_hash_delete], [hw_hash_delete] *)
Definition table_delete (t : table_by) (l : id) : M4 unit :=
  s ← lease_at l;
  head ← find_lease_by t (key_by t s);
  match head with
  | None => set_lease4 l (set_n t None)
  | Some h =>
      if bool_decide (h = l) then
        hash_remove t (key_by t s) ;;
        match n_of t s with
        | Some nx => sn ← lease_at nx; hash_put t (key_by t sn) nx ;; set_lease4 l (set_n t None)
        | None => mret tt
        end
      else
        m ← get4 leases; unlink_by (S (size m)) t h l
  end.

(** ** Lists of a pool *)

(** The list a lease belongs on. *)
Definition queue_of (s : lease) : option queue :=
  let b := l_binding_state s in
  if b =? FTS_FREE then Some (if flag s RESERVED_LEASE then Reserved else Free)
  else if b =? FTS_ACTIVE then Some Active
  else if case_of b [FTS_EXPIRED; FTS_RELEASED; FTS_RESET] then Some Expired
  else if b =? FTS_ABANDONED then Some Abandoned
  else if b =? FTS_BACKUP then Some (if flag s RESERVED_LEASE then Reserved else Backup)
  else None.

(** [free_leases += v] or [backup_leases += v], if the list is counted. *)
Definition count4 (w : queue) (v : Z) (p : pool) : pool :=
  match w with
  | Free => set_p_free_leases (p_free_leases p + v) p
  | Backup => set_p_backup_leases (p_backup_leases p + v) p
  | _ => p
  end.

Definition sort_time_of (f : option failover) (s : lease) : Z :=
  match f with
  | Some f =>
      if case_of (l_binding_state s) [FTS_EXPIRED; FTS_RELEASED; FTS_RESET] && (f_me_state f =? partner_down)
      then (if l_ends s <? l_tsfp s then l_tsfp s else l_ends s) else l_ends s
  | None => l_ends s
  end.

(** The insertion sort: the lease behind which to insert. *)
Fixpoint place_at (n : nat) (lp prev : option id) (time : Z) : M4 (option id) :=
  match n with
  | O => log_fatal
  | S n =>
      match lp with
      | None => mret prev
      | Some x => s ← lease_at x; if time <=? l_sort_time s then mret prev else place_at n (l_next s) lp time
      end
  end.

(** Put [l] behind [prev], or at the head. *)
Definition link_in (q : id) (w : queue) (prev : option id) (l : id) : M4 unit :=
  match prev with
  | Some x =>
      s ← lease_at x;
      (match l_next s with Some nx => set_lease4 l (set_l_next (Some nx)) | None => mret tt end) ;;
      set_lease4 x (set_l_next (Some l))
  | None =>
      p ← pool_at q;
      (match p_heads p w with Some h => set_lease4 l (set_l_next (Some h)) | None => mret tt end) ;;
      set_pool4 q (set_p_head w (Some l))
  end.

Definition lease_enqueue (l : id) : M4 bool :=
  s ← lease_at l;
  match l_pool s with
  | None => mret false
  | Some q =>
      match queue_of s with
      | None => mret false
      | Some w =>
          set_pool4 q (count4 w 1) ;;
          f ← failover_peer s;
          let time := sort_time_of f s in
          set_lease4 l (set_l_sort_time time) ;;
          p ← pool_at q;
          qfollow ← get4 ss_qfollow; lq ← get4 last_lq; ip ← get4 last_insert_point;
          start ← (match ip with
                   | Some x =>
                       if qfollow && bool_decide (lq = Some (q, w)) && negb (bool_decide (x = l)) then
                         sx ← lease_at x;
                         mret (if l_sort_time sx <=? time then (Some x, l_next sx) else (None, p_heads p w))
                       else mret (None, p_heads p w)
                   | None => mret (None, p_heads p w)
                   end);
          m ← get4 leases;
          prev ← place_at (S (size m)) (snd start) (fst start) time;
          link_in q w prev l ;;
          modify4 (set_last_insert_point (Some l)) ;;
          modify4 (set_last_lq (Some (q, w))) ;;
          mret true
      end
  end.

(** The lease in front of [l] on a list. *)
Fixpoint find_on (n : nat) (lp prev : option id) (l : id) : M4 (option id) :=
  match n with
  | O => log_fatal
  | S n =>
      match lp with
      | None => log_fatal
      | Some x => if bool_decide (x = l) then mret prev else s ← lease_at x; find_on n (l_next s) lp l
      end
  end.

(** Take [l] off a list; it is fatal if it is not on it. *)
Definition take_off (q : id) (w : queue) (l : id) : M4 unit :=
  p ← pool_at q;
  m ← get4 leases;
  prev ← find_on (S (size m)) (p_heads p w) None l;
  s ← lease_at l;
  match prev with
  | Some x => set_lease4 x (set_l_next (l_next s))
  | None => set_pool4 q (set_p_head w (l_next s))
  end ;;
  set_lease4 l (set_l_next None).

(** ** State transitions *)

(** The lease is no longer in use; [tstp] is what the partner is told. *)
Definition transition_ends (s : lease) (f : option failover) : bool :=
  let b := l_binding_state s in let n := l_next_binding_state s in
  match f with
  | Some _ => case_of b [FTS_EXPIRED; FTS_ACTIVE; FTS_RELEASED] && case_of n [FTS_FREE; FTS_BACKUP]
  | None => b =? FTS_ACTIVE
  end.

(** The state that follows by itself. *)
Definition follows (f : option failover) (b : Z) (n : Z) : Z :=
  if b =? FTS_ACTIVE then match f with Some _ => FTS_EXPIRED | None => FTS_FREE end
  else if case_of b [FTS_EXPIRED; FTS_RELEASED; FTS_ABANDONED; FTS_RESET] then FTS_FREE
  else if case_of b [FTS_FREE; FTS_BACKUP] then b
  else n.

Definition make_binding_state_transition (l : id) : M4 unit :=
  s ← lease_at l;
  f ← failover_peer s;
  when4 (negb (l_next_binding_state s =? l_binding_state s) && transition_ends s f)
    (emit (ddns_removals_ev l) ;; set_lease4 l (fun s => set_l_tstp (l_ends s) s)) ;;
  let b := l_next_binding_state s in
  set_lease4 l (set_l_binding_state b) ;;
  set_lease4 l (set_l_next_binding_state (follows f b b)) ;;
  match f with
  | Some f =>
      when4 (case_of b [FTS_EXPIRED; FTS_RELEASED; FTS_ABANDONED; FTS_RESET] && (f_me_state f =? partner_down))
        (set_lease4 l (set_l_tsfp (f_me_stos f + f_mclt f)))
  | None => mret tt
  end.

(** The first part of [supersede_lease]: the data of [t] goes into the lease. *)
Definition copy_data (l : id) (t : lease) : M4 unit :=
  s ← lease_at l;
  (match l_uid s with Some _ => table_delete ByUid l ;; set_lease4 l (set_l_uid None) | None => mret tt end) ;;
  when4 (negb (bool_decide (l_hbuf s = []))) (table_delete ByHw l) ;;
  set_lease4 l (set_l_starts (l_starts t)) ;;
  set_lease4 l (set_l_uid (l_uid t)) ;;
  set_lease4 l (set_l_hbuf (l_hbuf t)) ;;
  set_lease4 l (fun s => set_l_flags (Z.lor (Z.ldiff (l_flags t) PERSISTENT_FLAGS) (Z.ldiff (l_flags s) EPHEMERAL_FLAGS)) s) ;;
  set_lease4 l (set_l_scope (l_scope t)) ;;
  (match l_uid t with Some _ => table_add ByUid l | None => mret tt end) ;;
  when4 (negb (bool_decide (l_hbuf t = []))) (table_add ByHw l) ;;
  set_lease4 l (set_l_cltt (l_cltt t)) ;;
  set_lease4 l (set_l_tstp (l_tstp t)) ;;
  set_lease4 l (set_l_tsfp (l_tsfp t)) ;;
  set_lease4 l (set_l_atsfp (l_atsfp t)) ;;
  set_lease4 l (set_l_ends (l_ends t)) ;;
  set_lease4 l (set_l_next_binding_state (l_next_binding_state t)).

Section Leases.
Context (io : nat -> bool) (random : nat -> Z) (cur_time : Z).

(** Write the lease, and step the rewind state forward if the partner is about to
    know. *)
Definition commit_lease (l : id) (propogate : bool) : M4 bool :=
  s ← lease_at l;
  f ← failover_peer s;
  (match f with
   | Some f =>
       when4 (propogate && (bool_decide (f_service_state f = cooperating) || bool_decide (f_service_state f = not_responding)))
         (set_lease4 l (fun s => set_l_rewind_binding_state (l_binding_state s) s))
   | None => mret tt
   end) ;;
  ok ← write_lease io l;
  if negb ok then mret false else
  nosync ← get4 ss_nosync;
  if (nosync : bool) then mret true else commit_leases io.

(** Set the timer of the pool if the lease is the next to change. *)
Definition next_event (q l : id) : M4 unit :=
  s ← lease_at l; p ← pool_at q;
  when4 (negb (l_sort_time s =? MIN_TIME) && (cur_time <? l_sort_time s) &&
         ((l_sort_time s <? p_next_event_time p) || (p_next_event_time p =? MIN_TIME)))
    (set_pool4 q (set_p_next_event_time (l_sort_time s)) ;; add_timeout4 (l_sort_time s) (T_pool_timer q)).

(** [supersede_lease] from [just_move_it] to the tests that may end it. *)
Definition move_lease (l q : id) (w : queue) (commit propogate pimmediate : bool) : M4 bool :=
  set_pool4 q (count4 w (-1)) ;;
  take_off q w l ;;
  when4 (commit || negb pimmediate) (make_binding_state_transition l) ;;
  ok ← lease_enqueue l;
  if negb ok then mret false else
  when4 (commit || negb pimmediate) (next_event q l) ;;
  ok ← (if commit then commit_lease l propogate else mret true);
  if negb ok then mret false else
  if propogate then
    set_lease4 l (fun s => set_l_desired_binding_state (l_binding_state s) s) ;;
    dhcp_failover_queue_update io cur_time l pimmediate
  else mret true.

(** Whether the timer leaves a list alone. *)
Definition timer_skips (p : pool) (f : failover) (w : queue) : bool :=
  p_failover_peer p && negb (f_me_state f =? partner_down) &&
  (bool_decide (w = Active) && bool_decide (f_i_am f = secondary) && (f_me_state f =? normal) || bool_decide (w = Expired)).

(** Whether a lease that is over may be rewound to a free state. *)
Definition rewinds (f : failover) (s : lease) : bool :=
  bool_decide (f_service_state f = not_cooperating) && (l_next_binding_state s =? FTS_EXPIRED) &&
  (bool_decide (f_i_am f = primary) && (l_rewind_binding_state s =? FTS_FREE) ||
   bool_decide (f_i_am f = secondary) && (l_rewind_binding_state s =? FTS_BACKUP)).

(** [fuel] bounds the depth of the calls and the length of the walks. *)
Fixpoint supersede_lease (fuel : nat) (comp : id) (lease : option lease) (commit propogate pimmediate : bool) : M4 bool :=
  match fuel with
  | O => log_fatal
  | S n =>
      if pimmediate && negb commit then mret false else
      let just_move_it :=
        when4 propogate (set_lease4 comp (set_l_atsfp 0)) ;;
        s ← lease_at comp;
        match l_pool s, queue_of s with
        | Some q, Some w =>
            ok ← move_lease comp q w commit propogate pimmediate;
            if negb ok then mret false else
            p ← pool_at q;
            when4 (case_of (l_binding_state s) [FTS_FREE; FTS_BACKUP] && p_failover_peer p) (dhcp_failover_pool_check random cur_time q) ;;
            s ← lease_at comp;
            when4 ((commit || negb pimmediate) && (l_sort_time s <? cur_time) && negb (l_next_binding_state s =? l_binding_state s))
              (pool_timer n q) ;;
            mret true
        | _, _ => mret false
        end in
      match lease with
      | None => just_move_it
      | Some t => if flag t STATIC_LEASE then mret true else copy_data comp t ;; just_move_it
      end
  end
with pool_timer (fuel : nat) (q : id) : M4 unit :=
  match fuel with
  | O => log_fatal
  | S n =>
      next_expiry ← foldr (fun w (k : Z -> M4 Z) next_expiry =>
          p ← pool_at q; f ← get4 peer;
          if bool_decide (p_heads p w = None) || timer_skips p f w then k next_expiry
          else next_expiry ← timer_walk n (p_heads p w) next_expiry; k next_expiry)
        (fun next_expiry => mret next_expiry) [Free; Active; Expired; Abandoned; Backup; Reserved] MAX_TIME4;
      if negb (next_expiry =? MAX_TIME4) then
        set_pool4 q (set_p_next_event_time next_expiry) ;; add_timeout4 next_expiry (T_pool_timer q)
      else set_pool4 q (set_p_next_event_time MIN_TIME)
  end
with timer_walk (fuel : nat) (lease : option id) (next_expiry : Z) : M4 Z :=
  match fuel with
  | O => log_fatal
  | S n =>
      match lease with
      | None => mret next_expiry
      | Some x =>
          s ← lease_at x;
          let next := l_next s in
          if cur_time <? l_sort_time s then mret (if l_sort_time s <? next_expiry then l_sort_time s else next_expiry)
          else
            (if negb (l_next_binding_state s =? l_binding_state s) then
               f ← failover_peer s;
               (match f with
                | Some f => when4 (rewinds f s) (set_lease4 x (fun s => set_l_next_binding_state (l_rewind_binding_state s) s))
                | None => mret tt
                end) ;;
               supersede_lease n x None true true true ;; mret tt
             else mret tt) ;;
            timer_walk n next next_expiry
      end
  end.

(** ** Giving a lease up *)

(** [lease_copy]: what is not copied is as [lease_allocate] leaves it. *)
Definition lease_copy (s : lease) : lease :=
  mkLease (l_starts s) (l_ends s) 0 (l_cltt s) (l_tstp s) (l_tsfp s) (l_atsfp s) (l_flags s) (l_binding_state s) (l_next_binding_state s)
    0 (l_rewind_binding_state s) 0 (l_uid s) (l_hbuf s) (l_scope s) (l_pool s) None None None None.

Definition release_lease (fuel : nat) (l : id) : M4 unit :=
  emit (ddns_removals_ev l) ;;
  s ← lease_at l;
  if case_of (l_binding_state s) [FTS_FREE; FTS_BACKUP; FTS_RELEASED; FTS_EXPIRED; FTS_RESET] then mret tt
  else
    set_lease4 l (set_l_scope false) ;;
    set_lease4 l (set_l_ends cur_time) ;;
    set_lease4 l (set_l_tstp cur_time) ;;
    f ← failover_peer s;
    set_lease4 l (set_l_next_binding_state
      match f with
      | Some f =>
          if bool_decide (f_service_state f = not_cooperating) &&
             (bool_decide (f_i_am f = primary) && (l_rewind_binding_state s =? FTS_FREE) ||
              bool_decide (f_i_am f = secondary) && (l_rewind_binding_state s =? FTS_BACKUP))
          then l_rewind_binding_state s else FTS_RELEASED
      | None => FTS_FREE
      end) ;;
    supersede_lease fuel l None true true true ;; mret tt.

Definition abandon_lease (fuel : nat) (l : id) : M4 unit :=
  emit (ddns_removals_ev l) ;;
  s ← lease_at l;
  let lt := set_l_uid None (set_l_hbuf [] (set_l_next_binding_state FTS_ABANDONED (set_l_ends cur_time (set_l_scope false (lease_copy s))))) in
  supersede_lease fuel l (Some lt) true true true ;; mret tt.

Definition dissociate_lease (fuel : nat) (l : id) : M4 unit :=
  emit (ddns_removals_ev l) ;;
  s ← lease_at l;
  f ← failover_peer s;
  let lt := set_l_uid None (set_l_hbuf [] (set_l_ends cur_time
    (set_l_next_binding_state (match f with Some _ => FTS_RESET | None => FTS_FREE end) (lease_copy s)))) in
  supersede_lease fuel l (Some lt) true true true ;; mret tt.

(** ** Startup *)

Definition lease_instantiate (l : id) : M4 unit :=
  s ← lease_at l;
  match l_pool s with
  | None => mret tt
  | Some _ =>
      ok ← lease_enqueue l;
      if negb ok then mret tt else
      (match l_uid s with Some _ => table_add ByUid l | None => mret tt end) ;;
      when4 (negb (bool_decide (l_hbuf s = []))) (table_add ByHw l)
  end.

(** Count the leases of a list, and queue what the partner does not know. *)
Fixpoint count_list (n : nat) (q : id) (w : queue) (l : option id) : M4 unit :=
  match n with
  | O => log_fatal
  | S n =>
      match l with
      | None => mret tt
      | Some x =>
          set_pool4 q (fun p => set_p_lease_count (p_lease_count p + 1) p) ;;
          s ← lease_at x;
          (if l_ends s <=? cur_time then
             if l_binding_state s =? FTS_FREE then
               if bool_decide (w = Free) then set_pool4 q (count4 Free 1) else if bool_decide (w = Reserved) then mret tt else log_fatal
             else if l_binding_state s =? FTS_BACKUP then
               if bool_decide (w = Backup) then set_pool4 q (count4 Backup 1) else if bool_decide (w = Reserved) then mret tt else log_fatal
             else mret tt
           else mret tt) ;;
          p ← pool_at q;
          (if p_failover_peer p && (l_atsfp s <? l_tstp s) && negb (flag s ON_UPDATE_QUEUE) then
             set_lease4 x (fun s => set_l_desired_binding_state (l_binding_state s) s) ;;
             dhcp_failover_queue_update io cur_time x true ;; mret tt
           else mret tt) ;;
          s ← lease_at x;
          count_list n q w (l_next s)
      end
  end.

(** [order]: the leases in the order of the table by address. *)
Definition expire_all_pools (fuel : nat) (order : list id) : M4 unit :=
  modify4 (set_ss_nosync true) ;; modify4 (set_ss_qfollow true) ;;
  each4 lease_instantiate order ;;
  modify4 (set_ss_qfollow false) ;;
  ps ← get4 pool_order;
  each4 (fun q =>
    pool_timer fuel q ;;
    set_pool4 q (fun p => set_p_backup_leases 0 (set_p_free_leases 0 (set_p_lease_count 0 p))) ;;
    each4 (fun w => p ← pool_at q; m ← get4 leases; count_list (S (size m)) q w (p_heads p w))
      [Free; Active; Expired; Abandoned; Backup; Reserved]) ps ;;
  modify4 (set_ss_nosync false).

End Leases.
