(* ===== verification/V4Machine.v ===== *)
(** * Failover: the state machine

    The rest of the running failover relationship of server/failover.c: the state of
    this server and what follows from the partner's, the service a client gets, balancing of
    pools, and the handling of the partner's messages.

    A state is a number, since a partner may send any byte. *)

From S2P Require Import Prelude BindingStates FailoverLeases V4State V4Queues V4Leases.

#[local] Open Scope Z_scope.

(** The members the decisions about single leases read. *)
Definition view_failover (f : failover) : failover_state :=
  {| i_am := f_i_am f; service_state := f_service_state f; me_stos := f_me_stos f; mclt := f_mclt f;
     hba := f_hba f; load_balance_max_secs := 0 |}.
Definition view_lease (s : lease) (f : option failover) : lease4 :=
  {| binding_state := l_binding_state s; desired_binding_state := l_desired_binding_state s;
     rewind_binding_state := l_rewind_binding_state s; ends := l_ends s; tsfp := l_tsfp s; cltt := l_cltt s;
     uid := default [] (l_uid s); hbuf := l_hbuf s; lease_pool4 := (fun _ => view_failover <$> f) <$> l_pool s |}.
Definition view_message (m : message) : bndupd :=
  {| options_present := m_options_present m; msg_cltt := m_cltt m; binding_status := m_binding_status m |}.

Definition has_option (m : message) (b : Z) : bool := negb (Z.land (m_options_present m) b =? 0).

(** [peer_wants_lease (l)] *)
Definition peer_wants (s : lease) : M4 bool :=
  f ← failover_peer s; v ← follow (peer_wants_lease (view_lease s f)); mret (negb (v =? 0)).

(** [((total * percent) + 50) / 100] *)
Definition percent_of (total percent : Z) : Z := to_int (u32 (u32 (total * percent) + 50) / 100).

Definition secondary_not_hoarding (f : failover) (p : pool) : bool :=
  let total := p_free_leases p + p_backup_leases p in
  let hold := percent_of total (f_max_lease_ownership f) in
  let lts := Z.quot (p_free_leases p - p_backup_leases p) 2 in
  - hold <? lts.

(** ** Service *)

Definition dhcp_failover_set_service_state : M4 unit :=
  f ← get4 peer;
  let me := f_me_state f in
  v ← (if me =? partner_down then mret service_partner_down
       else if me =? normal then mret cooperating
       else if me =? communications_interrupted then mret not_cooperating
       else if me =? startup then mret service_startup
       else if case_of me [unknown_state; resolution_interrupted; potential_conflict; conflict_done; recover; shut_down; paused;
                           recover_wait; recover_done] then mret not_responding
       else log_fatal);
  set_peer4 (set_f_service_state v) ;;
  when4 (negb (bool_decide (v = not_responding)) &&
         case_of (f_partner_state f) [partner_down; potential_conflict; conflict_done; resolution_interrupted])
    (set_peer4 (set_f_service_state not_responding)).

Section Machine.
Context (io : nat -> bool) (random : nat -> Z) (cur_time : Z) (fuel : nat).

(** ** Balancing *)

(** Give [lp] to the partner. *)
Definition give_away (peer_lease_state : Z) (lp : id) : M4 unit :=
  set_lease4 lp (set_l_next_binding_state peer_lease_state) ;;
  set_lease4 lp (set_l_tstp cur_time) ;;
  set_lease4 lp (set_l_starts cur_time) ;;
  ok ← supersede_lease io random cur_time fuel lp None false true false;
  if (ok : bool) then write_lease io lp ;; mret tt else mret tt.

(** The loop of [dhcp_failover_pool_dobalance]; the result is [lts] and how many leases went. *)
Fixpoint balance_walk (n : nat) (q : id) (lq : queue) (peer_lease_state hold : Z) (pass : bool) (lp : option id) (lts leases_queued : Z) : M4 (Z * Z) :=
  match n with
  | O => log_fatal
  | S n =>
      match lp with
      | None => mret (lts, leases_queued)
      | Some x =>
          s ← lease_at x;
          let next := l_next s in
          if (if pass then (if negb (l_ends s =? 0) then lts <=? hold else lts <=? 0) else lts <=? - hold)
          then mret (lts, leases_queued) else
          gives ← (if pass then mret true else peer_wants s);
          (if (gives : bool) then give_away peer_lease_state x else mret tt) ;;
          let lts := if (gives : bool) then lts - 1 else lts in
          let leases_queued := if (gives : bool) then leases_queued + 1 else leases_queued in
          match next with
          | Some _ => balance_walk n q lq peer_lease_state hold pass next lts leases_queued
          | None =>
              if pass then mret (lts, leases_queued)
              else p ← pool_at q; balance_walk n q lq peer_lease_state hold true (p_heads p lq) lts leases_queued
          end
      end
  end.

(** The result says whether a POOLREQ is called for, and how many leases were queued. *)
Definition dhcp_failover_pool_dobalance : M4 (bool * Z) :=
  f ← get4 peer;
  if negb (f_me_state f =? normal) then mret (false, 0) else
  set_peer4 (set_f_last_balance cur_time) ;;
  ps ← get4 pool_order;
  r ← foldr (fun q (k : bool * Z -> M4 (bool * Z)) r =>
      p ← pool_at q;
      if negb (p_failover_peer p) then k r else
      let prim := bool_decide (f_i_am f = primary) in
      let lts := Z.quot (if prim then p_free_leases p - p_backup_leases p else p_backup_leases p - p_free_leases p) 2 in
      let total := p_backup_leases p + p_free_leases p in
      let thresh := percent_of total (f_max_lease_misbalance f) in
      let hold := percent_of total (f_max_lease_ownership f) in
      let panic := if thresh * -2 =? 0 then -1 else thresh * -2 in
      m ← get4 leases;
      w ← balance_walk (2 * S (size m)) q (if prim then Free else Backup) (if prim then FTS_BACKUP else FTS_FREE) hold false
            (p_heads p (if prim then Free else Backup)) lts (snd r);
      dhcp_failover_pool_check random cur_time q ;;
      k (fst r || (lts <? panic), snd w))
    (fun r => mret r) ps (false, 0);
  (if negb (snd r =? 0) then commit_leases io ;; mret tt else mret tt) ;;
  mret r.

Definition dhcp_failover_pool_balance : M4 unit :=
  cancel_timeout4 T_pool_rebalance ;;
  set_peer4 (set_f_sched_balance 0) ;;
  dhcp_failover_pool_dobalance ;; mret tt.

Definition dhcp_failover_pool_rebalance : M4 unit :=
  set_peer4 (set_f_sched_balance 0) ;;
  r ← dhcp_failover_pool_dobalance;
  (if negb (snd r =? 0) then dhcp_failover_send_updates io cur_time ;; mret tt else mret tt) ;;
  (if (fst r : bool) then dhcp_failover_send_poolreq cur_time ;; mret tt else mret tt).

(** [imsg_xid]: the transaction id of the POOLREQ. *)
Definition dhcp_failover_pool_reqbalance (imsg_xid : Z) : M4 unit :=
  cancel_timeout4 T_pool_rebalance ;;
  set_peer4 (set_f_sched_balance 0) ;;
  r ← dhcp_failover_pool_dobalance;
  dhcp_failover_send_poolresp cur_time imsg_xid (snd r) ;;
  (if negb (snd r =? 0) then dhcp_failover_send_updates io cur_time ;; mret tt else mret tt).

(** ** Updates for everything *)

(** Queue the leases of a list the partner may not know. *)
Fixpoint update_list (n : nat) (everythingp : bool) (w : queue) (l : option id) : M4 unit :=
  match n with
  | O => log_fatal
  | S n =>
      match l with
      | None => mret tt
      | Some x =>
          s ← lease_at x;
          (if negb (flag s ON_QUEUE) && (everythingp || (l_atsfp s <? l_tstp s) || bool_decide (w = Expired)) then
             set_lease4 x (fun s => set_l_desired_binding_state (l_binding_state s) s) ;;
             dhcp_failover_queue_update io cur_time x false ;; mret tt
           else mret tt) ;;
          s ← lease_at x;
          update_list n everythingp w (l_next s)
      end
  end.

Definition dhcp_failover_generate_update_queue (everythingp : bool) : M4 unit :=
  ps ← get4 pool_order;
  each4 (fun q =>
    p ← pool_at q;
    when4 (p_failover_peer p)
      (each4 (fun w => p ← pool_at q; m ← get4 leases; update_list (S (size m)) everythingp w (p_heads p w))
        [Free; Active; Expired; Abandoned; Backup; Reserved])) ps.

(** ** Entering a state *)

(** [for (lp = ack_queue_head; lp; lp = lp->next_pending)] of [dhcp_failover_set_state] *)
Fixpoint zap_flags (n : nat) (lp : option id) : M4 unit :=
  match n with
  | O => log_fatal
  | S n =>
      match lp with
      | None => mret tt
      | Some x =>
          set_lease4 x (fun s => set_flag ON_UPDATE_QUEUE (clear_flag ON_ACK_QUEUE s)) ;;
          s ← lease_at x; zap_flags n (l_next_pending s)
      end
  end.

(** What waits for an acknowledgement is sent again, before everything else. *)
Definition resend_unacked : M4 unit :=
  f ← get4 peer;
  (match q_tail (f_ack_queue f) with
   | Some t =>
       m ← get4 leases;
       zap_flags (S (size m)) (q_head (f_ack_queue f)) ;;
       (match q_head (f_update_queue f) with
        | Some h => set_lease4 t (set_l_next_pending (Some h))
        | None => mret tt
        end) ;;
       set_peer4 (set_f_update_queue (mkEnds (q_head (f_ack_queue f))
         (match q_tail (f_update_queue f) with Some u => Some u | None => Some t end))) ;;
       set_peer4 (set_f_ack_queue (mkEnds None None)) ;;
       set_peer4 (set_f_cur_unacked_updates 0)
   | None => mret tt
   end) ;;
  cancel_timeout4 T_keepalive.

(** Every expired lease of a pool becomes free when the partner's promises are over. *)
Fixpoint expired_alone (n : nat) (f : failover) (l : option id) : M4 unit :=
  match n with
  | O => log_fatal
  | S n =>
      match l with
      | None => mret tt
      | Some x =>
          set_lease4 x (set_l_tsfp (f_me_stos f + f_mclt f)) ;;
          set_lease4 x (fun s => set_l_sort_time (if l_ends s <? l_tsfp s then l_tsfp s else l_ends s) s) ;;
          s ← lease_at x; expired_alone n f (l_next s)
      end
  end.

Definition pools_alone : M4 unit :=
  ps ← get4 pool_order;
  each4 (fun q =>
    p ← pool_at q;
    if p_failover_peer p then
      f ← get4 peer; m ← get4 leases;
      expired_alone (S (size m)) f (p_heads p Expired) ;;
      match p_heads p Expired with
      | Some x =>
          s ← lease_at x;
          when4 (l_sort_time s <? p_next_event_time p)
            (set_pool4 q (set_p_next_event_time (l_sort_time s)) ;; add_timeout4 (l_sort_time s) (T_pool_timer q))
      | None => mret tt
      end
    else mret tt) ps.

(** What happens in the new state; [done] is [dhcp_failover_recover_done]. *)
Definition enter_state (done : M4 unit) (new_state : Z) : M4 unit :=
  f ← get4 peer;
  if new_state =? communications_interrupted then
    when4 (negb (f_auto_partner_down f =? 0)) (add_timeout4 (cur_time + f_auto_partner_down f) T_auto_partner_down)
  else if new_state =? normal then
    dhcp_failover_pool_balance ;;
    dhcp_failover_generate_update_queue false ;;
    f ← get4 peer;
    (if negb (bool_decide (q_tail (f_update_queue f) = None)) then dhcp_failover_send_updates io cur_time ;; mret tt else mret tt)
  else if new_state =? potential_conflict then
    (if bool_decide (f_i_am f = primary) then dhcp_failover_send_update_request cur_time ;; mret tt else mret tt)
  else if new_state =? startup then add_timeout4 (cur_time + 15) T_startup_timeout
  else if new_state =? recover_wait then
    if cur_time <? f_me_stos f + f_mclt f then add_timeout4 (to_int (f_me_stos f + f_mclt f)) T_recover_done else done
  else if new_state =? recover then
    (if negb (bool_decide (f_link_to_peer f = None)) then dhcp_failover_send_update_request_all cur_time ;; mret tt else mret tt)
  else if new_state =? partner_down then pools_alone
  else mret tt.

(** The time the new state begins. *)
Definition new_stos (f : failover) (new_state : Z) : Z :=
  if (new_state =? recover) && (f_me_state f =? shut_down) && (f_partner_state f =? partner_down) &&
     bool_decide (q_head (f_update_queue f) = None) && bool_decide (q_head (f_ack_queue f) = None)
  then cur_time - f_mclt f
  else if negb (new_state =? recover_wait) && negb (new_state =? startup) && negb (f_me_state f =? startup)
  then cur_time else f_me_stos f.

Definition set_state_with (done : M4 unit) (new_state : Z) : M4 result :=
  f0 ← get4 peer;
  when4 (case_of (f_me_state f0) [normal; potential_conflict; partner_down]) resend_unacked ;;
  f ← get4 peer;
  let saved_state := f_me_state f in
  set_peer4 (set_f_me_stos (new_stos f new_state)) ;;
  set_peer4 (set_f_me_state new_state) ;;
  when4 ((new_state =? startup) && negb (saved_state =? startup)) (set_peer4 (set_f_saved_state saved_state)) ;;
  ok ← (w ← write_failover_state io; if (w : bool) then commit_leases io else mret false);
  if negb ok then
    set_peer4 (set_f_me_state saved_state) ;; set_peer4 (set_f_me_stos (f_me_stos f)) ;; mret R_IOERROR
  else
    when4 (negb (new_state =? startup) && (saved_state =? startup)) (cancel_timeout4 T_startup_timeout) ;;
    cancel_timeout4 T_auto_partner_down ;;
    dhcp_failover_set_service_state ;;
    (if negb (bool_decide (f_link_to_peer f = None)) then dhcp_failover_send_state cur_time ;; mret tt else mret tt) ;;
    enter_state done new_state ;;
    mret R_SUCCESS.

(** [dhcp_failover_recover_done] enters a state in which nothing follows. *)
Definition dhcp_failover_recover_done : M4 unit := set_state_with (mret tt) recover_done ;; mret tt.

Definition dhcp_failover_set_state (new_state : Z) : M4 result := set_state_with dhcp_failover_recover_done new_state.

(** [dhcp_failover_set_state (...)] as a statement *)
Definition goto_state (new_state : Z) : M4 unit := dhcp_failover_set_state new_state ;; mret tt.

Definition dhcp_failover_auto_partner_down : M4 unit := goto_state partner_down.

(** ** Transitions *)

Inductive transition := Disconnect | Connect | Startup | ConnectTimeout.

Definition dhcp_failover_state_transition (name : transition) : M4 result :=
  f ← get4 peer;
  match name with
  | Disconnect =>
      set_peer4 (set_f_link_to_peer None) ;;
      cancel_timeout4 T_send_contact ;; cancel_timeout4 T_timeout ;; cancel_timeout4 T_startup_timeout ;;
      let st := if f_me_state f =? startup then f_saved_state f else f_me_state f in
      if case_of st [communications_interrupted; conflict_done; partner_down; paused; recover; recover_done; recover_wait;
                     resolution_interrupted; shut_down] then
        if f_me_state f =? startup then dhcp_failover_set_state (f_saved_state f) else mret R_SUCCESS
      else if st =? potential_conflict then dhcp_failover_set_state resolution_interrupted
      else if st =? normal then dhcp_failover_set_state communications_interrupted
      else if st =? unknown_state then dhcp_failover_set_state resolution_interrupted
      else log_fatal
  | Connect =>
      if f_me_state f =? communications_interrupted then
        status ← dhcp_failover_set_state normal; dhcp_failover_send_updates io cur_time ;; mret status
      else if f_me_state f =? resolution_interrupted then dhcp_failover_set_state potential_conflict
      else if case_of (f_me_state f) [conflict_done; partner_down; potential_conflict; normal; recover; shut_down; paused; unknown_state;
                                      recover_done; startup; recover_wait] then dhcp_failover_send_state cur_time
      else log_fatal
  | Startup => dhcp_failover_set_state startup ;; mret R_SUCCESS
  | ConnectTimeout =>
      if case_of (f_me_state f) [communications_interrupted; partner_down; resolution_interrupted; paused; startup; shut_down; conflict_done]
      then mret R_SUCCESS
      else if case_of (f_me_state f) [normal; recover; recover_wait; recover_done; unknown_state]
      then dhcp_failover_set_state communications_interrupted
      else if f_me_state f =? potential_conflict then dhcp_failover_set_state resolution_interrupted
      else log_fatal
  end.

Definition dhcp_failover_startup_timeout : M4 unit := dhcp_failover_state_transition Disconnect ;; mret tt.

(** ** The partner's state *)

(** The thirteen states. *)
Definition state_names : list Z :=
  [unknown_state; startup; normal; communications_interrupted; partner_down; potential_conflict; recover; paused; shut_down;
   recover_done; resolution_interrupted; conflict_done; recover_wait].

(** The transition the partner's state requires: [st] is the state of this server, or the
    one it is starting up to; [me] its state. *)
Definition react_to (st me previous_state new_state : Z) (startupp : bool) : M4 unit :=
  if st =? normal then
    if new_state =? normal then dhcp_failover_state_pool_check random cur_time
    else if new_state =? partner_down then goto_state (if me =? startup then recover else potential_conflict)
    else if case_of new_state [potential_conflict; resolution_interrupted; conflict_done] then goto_state shut_down
    else if case_of new_state [recover; shut_down] then goto_state partner_down
    else if new_state =? paused then goto_state communications_interrupted
    else mret tt
  else if st =? recover then
    if case_of new_state [recover; partner_down; communications_interrupted] then
      (if me =? recover then dhcp_failover_send_update_request_all cur_time ;; mret tt else mret tt)
    else if case_of new_state [potential_conflict; resolution_interrupted; conflict_done; normal] then goto_state potential_conflict
    else if new_state =? shut_down then goto_state partner_down
    else mret tt
  else if st =? potential_conflict then
    if new_state =? normal then goto_state shut_down
    else if new_state =? conflict_done then
      (if previous_state =? potential_conflict then dhcp_failover_send_update_request cur_time ;; mret tt else mret tt)
    else if new_state =? recover then goto_state recover
    else if new_state =? shut_down then goto_state partner_down
    else mret tt
  else if st =? conflict_done then
    if case_of new_state [normal; shut_down] then goto_state new_state else log_fatal
  else if st =? partner_down then
    if startupp then mret tt
    else if new_state =? recover_done then goto_state normal
    else if case_of new_state [normal; potential_conflict; partner_down; communications_interrupted; resolution_interrupted; conflict_done]
    then goto_state potential_conflict
    else mret tt
  else if st =? communications_interrupted then
    if new_state =? recover then goto_state partner_down
    else if case_of new_state [normal; communications_interrupted; recover_done; recover_wait] then
      dhcp_failover_send_updates io cur_time ;; goto_state normal
    else if case_of new_state [potential_conflict; partner_down; resolution_interrupted; conflict_done] then goto_state potential_conflict
    else if new_state =? shut_down then goto_state partner_down
    else mret tt
  else if st =? resolution_interrupted then
    if case_of new_state [normal; recover; potential_conflict; partner_down; communications_interrupted; resolution_interrupted;
                          conflict_done; recover_done; recover_wait] then goto_state potential_conflict
    else if new_state =? shut_down then goto_state partner_down
    else mret tt
  else if st =? recover_done then
    if case_of new_state [recover_done; normal] then goto_state normal
    else if new_state =? shut_down then goto_state partner_down
    else mret tt
  else if case_of st [recover_wait; shut_down; paused; unknown_state] then mret tt
  else log_fatal.

(** The part behind the check whether anything has changed. *)
Definition peer_state_news (new_state : Z) (startupp : bool) : M4 unit :=
  f ← get4 peer;
  let previous_state := f_partner_state f in
  set_peer4 (set_f_partner_state new_state) ;;
  w ← write_failover_state io;
  (if (w : bool) then commit_leases io ;; mret tt else mret tt) ;;
  if negb (case_of new_state state_names) then goto_state shut_down
  else
    f ← get4 peer;
    react_to (if f_me_state f =? startup then f_saved_state f else f_me_state f) (f_me_state f) previous_state new_state startupp ;;
    f ← get4 peer;
    (if (f_me_state f =? startup) && negb (f_saved_state f =? startup) then goto_state (f_saved_state f) else mret tt) ;;
    dhcp_failover_set_service_state.

Definition dhcp_failover_peer_state_changed (msg : message) : M4 unit :=
  f ← get4 peer;
  let new_state := m_server_state msg in
  let startupp := negb (Z.land (m_server_flags msg) FTF_SERVER_STARTUP =? 0) in
  if (f_partner_state f =? new_state) && negb (f_me_state f =? 0) then
    if f_me_state f =? startup then goto_state (f_saved_state f)
    else if case_of (f_me_state f) [unknown_state; normal; potential_conflict; recover_done; shut_down; paused; recover_wait] then mret tt
    else if case_of (f_me_state f) [partner_down; communications_interrupted; resolution_interrupted; recover; conflict_done]
    then peer_state_news new_state startupp
    else log_fatal
  else peer_state_news new_state startupp.

End Machine.
