(* ===== verification/V4Handlers.v ===== *)
(** * Failover: messages of the partner

    The handlers of server/failover.c for updates of leases, acknowledgements, requests for
    updates, and the dispatch of the messages of a connection.

    A connection that the server closes is an event; that it is closed is an operation of
    its own. *)

From S2P Require Import Prelude BindingStates FailoverLeases V4State V4Queues V4Leases V4Machine.

#[local] Open Scope Z_scope.

(** ** The lease an update describes *)

(** Why an update is refused, or the lease with the update in it and whether it has another
    client now. *)
Definition update_client (msg : message) (lt : lease) : Z + (lease * bool) :=
  let status := m_binding_status msg in
  let client :=
    if has_option msg FTB_CHADDR then
      if status =? FTS_ABANDONED then inl FTR_MISC_REJECT
      else if (17 <? length (m_chaddr msg))%nat then inl FTR_MISC_REJECT
      else inr (set_l_hbuf (m_chaddr msg) lt, negb (bool_decide (l_hbuf lt = m_chaddr msg)))
    else if case_of status [FTS_ACTIVE; FTS_EXPIRED; FTS_RELEASED] then inl FTR_MISSING_BINDINFO
    else if status =? FTS_ABANDONED then inr (set_l_scope false (set_l_hbuf [] lt), true)
    else inr (lt, false) in
  match client with
  | inl reason => inl reason
  | inr (lt, chaddr_changed) =>
      if has_option msg FTB_CLIENT_IDENTIFIER then
        if status =? FTS_ABANDONED then inl FTR_MISC_REJECT
        else inr (set_l_uid (Some (m_client_identifier msg)) lt,
                  chaddr_changed || negb (bool_decide (l_uid lt = Some (m_client_identifier msg))))
      else if negb (bool_decide (l_uid lt = None)) && negb (case_of status [FTS_RESET; FTS_FREE; FTS_BACKUP]) then
        inr (set_l_uid None lt, true)
      else inr (lt, chaddr_changed)
  end.

Definition update_times (msg : message) (lt : lease) : lease :=
  let lt := if has_option msg FTB_STOS then set_l_starts (m_stos msg) lt else lt in
  let lt := if has_option msg FTB_LEASE_EXPIRY then set_l_ends (m_expiry msg) lt else lt in
  if has_option msg FTB_POTENTIAL_EXPIRY then set_l_atsfp (m_potential_expiry msg) (set_l_tsfp (m_potential_expiry msg) lt) else lt.

(** [ours]: the lease is free and this server's to give out; [s] is the lease itself. *)
Definition update_flags (msg : message) (am : role) (s lt : lease) : Z + lease :=
  let ours := bool_decide (am = primary) && (l_binding_state s =? FTS_FREE) || bool_decide (am = secondary) && (l_binding_state s =? FTS_BACKUP) in
  if has_option msg FTB_IP_FLAGS then
    let reserve := negb (Z.land (m_ip_flags msg) FTF_IP_FLAG_RESERVE =? 0) in
    let bootp := negb (Z.land (m_ip_flags msg) FTF_IP_FLAG_BOOTP =? 0) in
    if reserve && ours && negb (flag s RESERVED_LEASE) then inl FTR_IP_NOT_RESERVED
    else if bootp && ours && negb (flag s BOOTP_LEASE) then inl FTR_MISC_REJECT
    else
      let lt := if reserve then set_flag RESERVED_LEASE lt else clear_flag RESERVED_LEASE lt in
      inr (if bootp then set_flag BOOTP_LEASE lt else clear_flag BOOTP_LEASE lt)
  else inr (clear_flag (Z.lor RESERVED_LEASE BOOTP_LEASE) lt).

Section Handlers.
Context (io : nat -> bool) (random : nat -> Z) (cur_time : Z) (fuel : nat).

(** [goto bad] *)
Definition refuse (msg : message) (reason : Z) : M4 unit := dhcp_failover_send_bind_ack cur_time msg reason ;; mret tt.

(** Give a lease to the secondary, for a client it serves. *)
Definition send_lease_to_backup (l : id) : M4 unit :=
  set_lease4 l (set_l_next_binding_state FTS_BACKUP) ;;
  set_lease4 l (set_l_tstp cur_time) ;;
  set_lease4 l (set_l_starts cur_time) ;;
  ok ← supersede_lease io random cur_time fuel l None false true false;
  if (ok : bool) then write_lease io l ;; mret tt else mret tt.

(** The part of [dhcp_failover_process_bind_update] behind its checks: [lt] goes into the
    lease [l], which is to be [new_binding_state]. *)
Definition install_update (msg : message) (l : id) (lt : lease) (new_binding_state : Z) : M4 unit :=
  f ← get4 peer;
  let over := case_of new_binding_state [FTS_EXPIRED; FTS_RELEASED; FTS_RESET] in
  let lt := set_l_next_binding_state (if over then FTS_FREE else new_binding_state) lt in
  send_to_backup ← (if over && bool_decide (f_i_am f = primary) && negb (flag lt (Z.lor RESERVED_LEASE BOOTP_LEASE))
                    then peer_wants lt else mret false);
  let msg := set_m_binding_status (l_next_binding_state lt) msg in
  set_lease4 l (set_l_rewind_binding_state (l_next_binding_state lt)) ;;
  ok ← supersede_lease io random cur_time fuel l (Some lt) false false false;
  ok ← (if (ok : bool) then write_lease io l else mret false);
  if negb ok then refuse msg FTR_MISC_REJECT
  else
    dhcp_failover_queue_ack io cur_time msg ;;
    if (send_to_backup : bool) then
      s ← lease_at l; q ← follow (l_pool s); p ← pool_at q; f ← get4 peer;
      if secondary_not_hoarding f p then send_lease_to_backup l ;; dhcp_failover_send_updates io cur_time ;; mret tt
      else mret tt
    else mret tt.

Definition dhcp_failover_process_bind_update (msg : message) : M4 unit :=
  if negb (has_option msg FTB_ASSIGNED_IP_ADDRESS && has_option msg FTB_BINDING_STATUS) then
    refuse msg FTR_MISSING_BINDINFO ;; log_fatal
  else
  h ← get4 lease_ip_addr_hash;
  match h !! m_assigned_addr msg with
  | None => refuse msg FTR_ILLEGAL_IP_ADDR
  | Some l =>
      s ← lease_at l;
      fp ← failover_peer s;
      match fp with
      | None => refuse msg FTR_ILLEGAL_IP_ADDR
      | Some f =>
          better ← (if flag s ON_ACK_QUEUE
                    then follow (failover_lease_is_better (view_failover f) (view_lease s (Some f)) (view_message msg)) else mret false);
          if (better : bool) then refuse msg FTR_LESS_CRIT_BIND_INFO else
          (if flag s ON_ACK_QUEUE then dhcp_failover_ack_queue_remove io l else mret tt) ;;
          s ← lease_at l;
          match update_client msg (lease_copy s) with
          | inl reason => refuse msg reason
          | inr (lt, other_client) =>
              when4 ((m_binding_status msg =? FTS_ACTIVE) && other_client) (emit (ddns_removals_ev l) ;; set_lease4 l (set_l_scope false)) ;;
              s ← lease_at l;
              match update_flags msg (f_i_am f) s (update_times msg lt) with
              | inl reason => refuse msg reason
              | inr lt =>
                  new_binding_state ← follow
                    (if f_me_state f =? normal
                     then normal_binding_state_transition_check (view_lease s (Some f)) (view_failover f) (m_binding_status msg)
                            (m_potential_expiry msg) cur_time
                     else conflict_binding_state_transition_check (view_lease s (Some f)) (m_binding_status msg) cur_time);
                  if negb (new_binding_state =? m_binding_status msg) then refuse msg FTR_FATAL_CONFLICT
                  else install_update msg l lt new_binding_state
              end
          end
      end
  end.

(** ** Acknowledgements *)

(** What an acknowledgement changes on its lease; the result is whether to send it to
    backup. *)
Definition acknowledge (msg : message) (l : id) : M4 bool :=
  f ← get4 peer;
  s ← lease_at l;
  let pot_expire := if has_option msg FTO_POTENTIAL_EXPIRY then m_potential_expiry msg else u32 (l_tstp s) in
  set_lease4 l (set_l_tsfp pot_expire) ;;
  set_lease4 l (set_l_atsfp pot_expire) ;;
  if case_of (l_desired_binding_state s) [FTS_EXPIRED; FTS_RESET; FTS_RELEASED] then
    let n := if bool_decide (f_i_am f = secondary) && flag s RESERVED_LEASE then FTS_BACKUP else FTS_FREE in
    set_lease4 l (set_l_next_binding_state n) ;;
    set_lease4 l (set_l_desired_binding_state n) ;;
    set_lease4 l (set_l_rewind_binding_state n) ;;
    supersede_lease io random cur_time fuel l None false false false ;;
    write_lease io l ;;
    s ← lease_at l;
    send_to_backup ← (if bool_decide (f_i_am f = primary) && negb (flag s (Z.lor RESERVED_LEASE BOOTP_LEASE)) then peer_wants s else mret false);
    f ← get4 peer;
    (if negb send_to_backup && (f_me_state f =? normal) then commit_leases io ;; mret tt else mret tt) ;;
    mret send_to_backup
  else
    (if negb (l_desired_binding_state s =? l_binding_state s) then
       set_lease4 l (set_l_next_binding_state (l_desired_binding_state s)) ;;
       supersede_lease io random cur_time fuel l None false false false ;; mret tt
     else mret tt) ;;
    write_lease io l ;;
    add_timeout4 (cur_time + 2) T_commit_leases ;;
    mret false.

(** From [unqueue] on. *)
Definition after_ack (l : id) (send_to_backup : bool) : M4 unit :=
  dhcp_failover_ack_queue_remove io l ;;
  f ← get4 peer;
  (if bool_decide (f_send_update_done f = Some l) then
     set_peer4 (set_f_send_update_done None) ;; dhcp_failover_send_update_done io cur_time ;; mret tt
   else mret tt) ;;
  (if send_to_backup then
     s ← lease_at l; q ← follow (l_pool s); p ← pool_at q; f ← get4 peer;
     if secondary_not_hoarding f p then
       send_lease_to_backup l ;;
       f ← get4 peer;
       if f_me_state f =? normal then commit_leases io ;; mret tt else mret tt
     else mret tt
   else mret tt) ;;
  dhcp_failover_send_updates io cur_time ;; mret tt.

Definition dhcp_failover_process_bind_ack (msg : message) : M4 unit :=
  h ← get4 lease_ip_addr_hash;
  match h !! m_assigned_addr msg with
  | None => mret tt
  | Some l =>
      s ← lease_at l;
      if has_option msg FTB_REJECT_REASON then after_ack l false
      else if l_last_xid s =? 0 then after_ack l false
      else if negb (l_last_xid s =? m_xid msg) then mret tt
      else send_to_backup ← acknowledge msg l; after_ack l send_to_backup
  end.

(** ** Requests for updates *)

(** [dhcp_failover_process_update_request], [dhcp_failover_process_update_request_all] *)
Definition process_update_request (everythingp : bool) (msg : message) : M4 unit :=
  set_peer4 (set_f_send_update_done None) ;;
  dhcp_failover_generate_update_queue io cur_time everythingp ;;
  set_peer4 (set_f_updxid (m_xid msg)) ;;
  f ← get4 peer;
  match q_tail (f_update_queue f) with
  | Some t => set_peer4 (set_f_send_update_done (Some t)) ;; dhcp_failover_send_updates io cur_time ;; mret tt
  | None => dhcp_failover_send_update_done io cur_time ;; mret tt
  end.

Definition dhcp_failover_process_update_done : M4 unit :=
  set_peer4 (set_f_curUPD 0) ;;
  f ← get4 peer;
  if f_me_state f =? potential_conflict then
    if f_partner_state f =? conflict_done then goto_state io random cur_time fuel (if bool_decide (f_i_am f = secondary) then normal else shut_down)
    else if bool_decide (f_i_am f = primary) then goto_state io random cur_time fuel conflict_done else mret tt
  else if f_me_state f =? recover then
    if (cur_time <? f_me_stos f + f_mclt f) && negb (f_partner_state f =? recover) && negb (f_partner_state f =? recover_done) then
      goto_state io random cur_time fuel recover_wait ;;
      f ← get4 peer;
      add_timeout4 (to_int (f_me_stos f + f_mclt f)) T_recover_done
    else dhcp_failover_recover_done io random cur_time fuel
  else mret tt.

(** ** Signals *)

(** The two clocks differ by more than a minute. *)
Definition time_offset (msg : message) : bool := 60 <? Z.abs (cur_time - m_time msg).

(** What a CONNECT or a CONNECTACK says about the partner. *)
Definition partner_limits (msg : message) : M4 unit :=
  when4 (has_option msg FTB_MAX_UNACKED) (set_peer4 (set_f_partner_max_flying_updates (m_max_unacked msg))) ;;
  when4 (has_option msg FTB_RECEIVE_TIMER) (set_peer4 (set_f_partner_max_response_delay (m_receive_timer msg))).

(** A CONNECT on a connection whose next transaction id is [xid]; the result is whether it is
    the link now. *)
Definition signal_connect (xid : Z) (msg : message) : M4 bool :=
  f ← get4 peer;
  if negb (bool_decide (f_link_to_peer f = None)) then
    emit (send_ev (S_connectack (m_xid msg) FTR_DUP_CONNECTION)) ;; emit disconnect_ev ;; mret false
  else if negb (has_option msg FTB_MCLT) then
    emit (send_ev (S_connectack (m_xid msg) FTR_INVALID_MCLT)) ;; emit disconnect_ev ;; mret false
  else
    set_peer4 (set_f_link_to_peer (Some xid)) ;;
    dhcp_failover_put_message cur_time (S_connectack (m_xid msg) 0) ;;
    partner_limits msg ;;
    set_peer4 (set_f_mclt (m_mclt msg)) ;;
    dhcp_failover_send_state cur_time ;;
    cancel_timeout4 T_link_startup_timeout ;; mret true.

Definition signal_connectack (xid : Z) (msg : message) : M4 bool :=
  let badconnectack reason := emit (send_ev (S_disconnect reason)) ;; emit disconnect_ev ;; mret false in
  cancel_timeout4 T_link_startup_timeout ;;
  f ← get4 peer;
  if negb (has_option msg FTB_RELATIONSHIP_NAME) then badconnectack FTR_INVALID_PARTNER
  else if has_option msg FTB_REJECT_REASON then emit disconnect_ev ;; mret false
  else if negb (m_relationship msg) then badconnectack FTR_INVALID_PARTNER
  else if negb (bool_decide (f_link_to_peer f = None)) then badconnectack FTR_DUP_CONNECTION
  else if time_offset msg then badconnectack FTR_TIMEMISMATCH
  else
    set_peer4 (set_f_link_to_peer (Some xid)) ;;
    dhcp_failover_send_state cur_time ;;
    partner_limits msg ;;
    f ← get4 peer;
    add_timeout4 (cur_time + Z.quot (to_int (f_partner_max_response_delay f)) 3) T_send_contact ;;
    add_timeout4 (cur_time + to_int (f_me_max_response_delay f)) T_timeout ;; mret true.

(** The signal "message" of a connection with the next transaction id [xid]; [is_link] is whether
    it is the link to the peer. *)
Definition signal_message (is_link : bool) (xid : Z) (msg : message) : M4 unit :=
  let t := m_type msg in
  r ← (if t =? FTM_CONNECT then ok ← signal_connect xid msg; mret (ok, ok)
       else if t =? FTM_CONNECTACK then ok ← signal_connectack xid msg; mret (ok, ok)
       else if t =? FTM_DISCONNECT then emit disconnect_ev ;; mret (false, false)
       else
         (if t =? FTM_BNDUPD then dhcp_failover_process_bind_update msg
          else if t =? FTM_BNDACK then dhcp_failover_process_bind_ack msg
          else if t =? FTM_UPDREQ then process_update_request false msg
          else if t =? FTM_UPDREQALL then process_update_request true msg
          else if t =? FTM_UPDDONE then dhcp_failover_process_update_done
          else if t =? FTM_POOLREQ then dhcp_failover_pool_reqbalance io random cur_time fuel (m_xid msg)
          else if t =? FTM_STATE then dhcp_failover_peer_state_changed io random cur_time fuel msg
          else mret tt) ;;
         mret (true, is_link));
  f ← get4 peer;
  when4 (fst r && snd r && negb (bool_decide (f_link_to_peer f = None)))
    (add_timeout4 (cur_time + to_int (f_me_max_response_delay f)) T_timeout).

(** The signal "disconnect" of the relationship. *)
Definition signal_disconnect : M4 unit :=
  set_peer4 (set_f_link_to_peer None) ;;
  dhcp_failover_state_transition io random cur_time fuel Disconnect ;;
  f ← get4 peer;
  when4 (bool_decide (f_i_am f = primary)) (add_timeout4 (cur_time + 90) T_reconnect).

(** The signal "disconnect" of a connection. *)
Definition link_signal_disconnect (is_link : bool) : M4 unit :=
  (if is_link then dhcp_failover_state_transition io random cur_time fuel Disconnect ;; mret tt else mret tt) ;;
  add_timeout4 (cur_time + 5) T_reconnect.

(** [dhcp_failover_timeout] *)
Definition dhcp_failover_timeout : M4 unit :=
  f ← get4 peer; when4 (negb (bool_decide (f_link_to_peer f = None))) (emit disconnect_ev).

End Handlers.
