(* ===== verification/V4Chain.v ===== *)
(** * Chains of leases

    A list of the code is a head pointer and a member of each lease that points to the next.
    [seg nx h l e] says that from [h] the pointers [nx] lead through the leases [l] to
    [e]. *)

From S2P Require Import Prelude V4State.

Fixpoint seg (nx : id -> option (option id)) (h : option id) (l : list id) (e : option id) : Prop :=
  match l with
  | [] => h = e
  | x :: l => h = Some x /\ exists t, nx x = Some t /\ seg nx t l e
  end.

Section Seg.
Implicit Types (nx : id -> option (option id)) (l : list id).

Lemma seg_app nx h l1 l2 e : seg nx h (l1 ++ l2) e <-> exists m, seg nx h l1 m /\ seg nx m l2 e.
Proof.
  revert h. induction l1 as [|x l1 IH]; intros h; simpl.
  - split; [by exists h | by intros (m & -> & H)].
  - split.
    + intros (-> & t & Ht & (m & H1 & H2)%IH). exists m. eauto.
    + intros (m & (-> & t & Ht & H1) & H2). split; [done|]. exists t. rewrite IH. eauto.
Qed.

Lemma seg_snoc nx h l x e : seg nx h (l ++ [x]) e <-> seg nx h l (Some x) /\ nx x = Some e.
Proof. rewrite seg_app. simpl. split; [intros (m & ? & -> & t & ? & <-); eauto | intros [? ?]; eauto 6]. Qed.

Lemma seg_ext nx nx' h l e : (forall x, x ∈ l -> nx' x = nx x) -> seg nx h l e -> seg nx' h l e.
Proof.
  revert h. induction l as [|x l IH]; intros h E; simpl; [done|]. intros (-> & t & Ht & Hs). split; [done|]. exists t.
  rewrite E by set_solver. split; [done|]. apply IH; [|done]. intros y Hy. apply E. set_solver.
Qed.

Lemma seg_head nx h l e : seg nx h l e -> h = match l with [] => e | x :: _ => Some x end.
Proof. destruct l; simpl; [done | by intros [? _]]. Qed.

Lemma seg_in nx h l e x : seg nx h l e -> x ∈ l -> is_Some (nx x).
Proof.
  revert h. induction l as [|y l IH]; intros h; simpl; [by intros _ ?%not_elem_of_nil|].
  intros (-> & t & Ht & Hs) [->|Hx]%elem_of_cons; [by exists t | by eapply IH].
Qed.

(** From one pointer there is only one way to the end. *)
Lemma seg_det nx h l l' : seg nx h l None -> seg nx h l' None -> l = l'.
Proof.
  revert h l'. induction l as [|x l IH]; intros h [|y l']; simpl; intros; destruct_and?; naive_solver.
Qed.

Lemma seg_NoDup nx h l : seg nx h l None -> NoDup l.
Proof.
  revert h. induction l as [|x l IH]; intros h H; [constructor|]. pose proof H as (-> & t & Ht & Hs). constructor; [|by eapply IH].
  intros (l1 & l2 & ->)%list_elem_of_split. apply seg_app in Hs as (m & H1 & (-> & H2)).
  assert (E := seg_det nx _ _ (x :: l2) H (conj eq_refl H2)). apply (f_equal length) in E. rewrite length_cons, length_app, !length_cons in E. lia.
Qed.

(** Every lease of a chain is at one place. *)
Lemma seg_split nx h l x : seg nx h l None -> x ∈ l -> exists l1 l2, l = l1 ++ x :: l2 /\ x ∉ l1 /\ x ∉ l2 /\ seg nx h l1 (Some x).
Proof.
  intros Hs (l1 & l2 & ->)%list_elem_of_split. pose proof (seg_NoDup _ _ _ Hs) as HN. exists l1, l2.
  apply NoDup_app in HN as (HN1 & HN2 & [HN3 _]%NoDup_cons). apply seg_app in Hs as (m & H1 & (-> & _)).
  split_and!; [done | intros ?; apply (HN2 x); [done | set_solver] | done | done].
Qed.

(** One lease off a chain, and one more on it. *)
Lemma seg_unlink_first nx nx' x t l : seg nx (Some x) (x :: l) None -> nx x = Some t -> (forall z, z <> x -> nx' z = nx z) -> seg nx' t l None.
Proof.
  intros H Ht E. pose proof (seg_NoDup _ _ _ H) as [Hx _]%NoDup_cons. destruct H as (_ & t' & Ht' & H). simplify_eq.
  eapply seg_ext; [|exact H]. intros z Hz. apply E. by intros ->.
Qed.

Lemma seg_unlink_behind nx nx' h l0 y x t l :
  seg nx h (l0 ++ y :: x :: l) None -> nx x = Some t -> nx' y = Some t -> (forall z, z <> x -> z <> y -> nx' z = nx z) ->
  seg nx' h (l0 ++ y :: l) None.
Proof.
  intros H Ht Hy E. pose proof (seg_NoDup _ _ _ H) as (_ & H0 & [Hy1 [Hx1 _]%NoDup_cons]%NoDup_cons)%NoDup_app.
  apply seg_app in H as (m & Hm & -> & t1 & Ht1 & -> & t2 & Ht2 & H). rewrite Ht in Ht2. injection Ht2 as <-. apply seg_app. exists (Some y). split.
  - eapply seg_ext; [|exact Hm]. intros z Hz. apply E; intros ->; apply (H0 _ Hz); set_solver.
  - split; [done|]. exists t. split; [done|]. eapply seg_ext; [|exact H]. intros z Hz. apply E; set_solver.
Qed.

Lemma seg_link_first nx nx' h x l : seg nx h l None -> x ∉ l -> nx' x = Some h -> (forall z, z <> x -> nx' z = nx z) -> seg nx' (Some x) (x :: l) None.
Proof. intros H Hx Ex E. split; [done|]. exists h. split; [done|]. eapply seg_ext; [|exact H]. intros z Hz. apply E. by intros ->. Qed.

Lemma seg_link_behind nx nx' h l0 y x l :
  seg nx h (l0 ++ y :: l) None -> x ∉ l0 ++ y :: l -> nx' y = Some (Some x) -> nx' x = nx y -> (forall z, z <> x -> z <> y -> nx' z = nx z) ->
  seg nx' h (l0 ++ y :: x :: l) None.
Proof.
  intros H Hx Hy Ex E. pose proof (seg_NoDup _ _ _ H) as (_ & H0 & [Hy1 _]%NoDup_cons)%NoDup_app.
  apply seg_app in H as (m & Hm & -> & t & Ht & H). apply seg_app. exists (Some y). split.
  - eapply seg_ext; [|exact Hm]. intros z Hz. apply E; [set_solver|]. intros ->. apply (H0 _ Hz). set_solver.
  - split; [done|]. exists (Some x). split; [done|]. split; [done|]. exists t. split; [congruence|]. eapply seg_ext; [|exact H].
    intros z Hz. apply E; set_solver.
Qed.

End Seg.
