(* ===== verification/V4Laws.v ===== *)
(** * Reasoning about the DHCPv4 server

    Inversion of the monad's operations, relations that an operation keeps between the states before and after
    it, and what of the state the lists of pools and the failover queues depend on. *)

From S2P Require Import Prelude BindingStates FailoverLeases V4State V4Queues V4Leases V4Machine V4Handlers.

#[local] Open Scope Z_scope.

(** ** Runs *)

Lemma bind4_inv {A B} (m : M4 A) (f : A -> M4 B) d r :
  (m ≫= f) d = Some r -> exists a d1, m d = Some (a, d1) /\ f a d1 = Some r.
Proof. unfold mbind, M4_bind. destruct (m d) as [[a d1]|]; [eauto | done]. Qed.

Lemma bind4_eq {A B} (m : M4 A) (f : A -> M4 B) d a d1 : m d = Some (a, d1) -> (m ≫= f) d = f a d1.
Proof. unfold mbind, M4_bind. by intros ->. Qed.

Lemma get4_bind {A B} (f : srv -> A) (k : A -> M4 B) d : (get4 f ≫= k) d = k (f d) d.
Proof. done. Qed.

(** Writing a lease *)
Lemma write_lease_eq io l d s : leases d !! l = Some s ->
  write_lease io l d = Some (io (outside d), set_events (events d ++ [write_lease_ev l s (io (outside d))]) (set_outside (S (outside d)) d)).
Proof. intros Hs. unfold write_lease, lease_at, get4, follow, mbind, M4_bind. by rewrite Hs. Qed.

Lemma lease_at_eq x d s : leases d !! x = Some s -> lease_at x d = Some (s, d).
Proof. intros E. unfold lease_at, get4, follow, mbind, M4_bind. by rewrite E. Qed.

Lemma lease_at_inv x d s d' : lease_at x d = Some (s, d') -> leases d !! x = Some s /\ d' = d.
Proof. unfold lease_at, get4, follow, mbind, M4_bind. destruct (leases d !! x); naive_solver. Qed.

Lemma pool_at_eq q d p : pools d !! q = Some p -> pool_at q d = Some (p, d).
Proof. intros E. unfold pool_at, get4, follow, mbind, M4_bind. by rewrite E. Qed.

Lemma pool_at_inv q d p d' : pool_at q d = Some (p, d') -> pools d !! q = Some p /\ d' = d.
Proof. unfold pool_at, get4, follow, mbind, M4_bind. destruct (pools d !! q); naive_solver. Qed.

(** The state with one lease, or one pool, or the relationship changed. *)
Definition upd_lease (x : id) (s : lease) (d : srv) : srv := set_leases (<[x := s]> (leases d)) d.
Definition upd_pool (q : id) (p : pool) (d : srv) : srv := set_pools (<[q := p]> (pools d)) d.
Definition upd_peer (f : failover -> failover) (d : srv) : srv := set_peer (f (peer d)) d.

Lemma set_lease4_eq x f d s : leases d !! x = Some s -> set_lease4 x f d = Some (tt, upd_lease x (f s) d).
Proof. intros E. unfold set_lease4. by rewrite (bind4_eq _ _ _ _ _ (lease_at_eq _ _ _ E)). Qed.

Lemma set_lease4_inv x f d u d' : set_lease4 x f d = Some (u, d') -> exists s, leases d !! x = Some s /\ d' = upd_lease x (f s) d.
Proof.
  unfold set_lease4. intros (s & d1 & [E ->]%lease_at_inv & H)%bind4_inv. exists s. split; [done|]. unfold modify4 in H. by simplify_eq.
Qed.

Lemma set_pool4_eq q f d p : pools d !! q = Some p -> set_pool4 q f d = Some (tt, upd_pool q (f p) d).
Proof. intros E. unfold set_pool4. by rewrite (bind4_eq _ _ _ _ _ (pool_at_eq _ _ _ E)). Qed.

Lemma set_pool4_inv q f d u d' : set_pool4 q f d = Some (u, d') -> exists p, pools d !! q = Some p /\ d' = upd_pool q (f p) d.
Proof.
  unfold set_pool4. intros (p & d1 & [E ->]%pool_at_inv & H)%bind4_inv. exists p. split; [done|]. unfold modify4 in H. by simplify_eq.
Qed.

Lemma set_peer4_eq f d : set_peer4 f d = Some (tt, upd_peer f d).
Proof. done. Qed.

(** Take one step off a run in hypothesis [H]. *)
Ltac step4 H :=
  let a := fresh "a" in let d1 := fresh "d" in let Hm := fresh "Hm" in
  apply bind4_inv in H; destruct H as (a & d1 & Hm & H);
  first [ apply lease_at_inv in Hm; destruct Hm as [Hm ->]
        | apply pool_at_inv in Hm; destruct Hm as [Hm ->]
        | let s := fresh "s" in let Hs := fresh "Hs" in apply set_lease4_inv in Hm; destruct Hm as (s & Hs & ->)
        | let p := fresh "p" in let Hp := fresh "Hp" in apply set_pool4_inv in Hm; destruct Hm as (p & Hp & ->)
        | rewrite set_peer4_eq in Hm; injection Hm as <- <-
        | unfold get4 in Hm; injection Hm as <- <-
        | idtac ].

(** ** What an operation keeps *)

Definition Keeps (R : relation srv) {A} (m : M4 A) : Prop := forall d a d', m d = Some (a, d') -> R d d'.

Section Keeps.
Context (R : relation srv) `{!PreOrder R}.

Lemma keeps_ret {A} (a : A) : Keeps R (mret a).
Proof. intros d b d' H. unfold mret, M4_ret in H. by simplify_eq. Qed.

Lemma keeps_bind {A B} (m : M4 A) (f : A -> M4 B) : Keeps R m -> (forall a, Keeps R (f a)) -> Keeps R (m ≫= f).
Proof. intros Hm Hf d b d' (a & d1 & H1 & H2)%bind4_inv. etrans; [by eapply Hm | by eapply Hf]. Qed.

Lemma keeps_get {A} (f : srv -> A) : Keeps R (get4 f).
Proof. intros d b d' H. unfold get4 in H. by simplify_eq. Qed.

Lemma keeps_fatal {A} : Keeps R (@log_fatal A).
Proof. by intros d b d' H. Qed.

Lemma keeps_follow {A} (o : option A) : Keeps R (follow o).
Proof. intros d b d' H. unfold follow in H. destruct o; by simplify_eq. Qed.

Lemma keeps_when b m : Keeps R m -> Keeps R (when4 b m).
Proof. destruct b; [done | intros _; apply keeps_ret]. Qed.

Lemma keeps_each {A} (f : A -> M4 unit) l : (forall a, Keeps R (f a)) -> Keeps R (each4 f l).
Proof. intros Hf. induction l as [|a l IH]; simpl; [apply keeps_ret | by apply keeps_bind]. Qed.

Lemma keeps_lease_at x : Keeps R (lease_at x).
Proof. intros d a d' [_ ->]%lease_at_inv. done. Qed.

Lemma keeps_pool_at q : Keeps R (pool_at q).
Proof. intros d a d' [_ ->]%pool_at_inv. done. Qed.

Lemma keeps_failover_peer s : Keeps R (failover_peer s).
Proof. unfold failover_peer. destruct (l_pool s); [|apply keeps_ret]. repeat (apply keeps_bind; [apply keeps_pool_at || apply keeps_get | intros ?]). apply keeps_ret. Qed.

(** A fold in continuation-passing style, as the loops over lists that pass a value on. *)
Lemma keeps_foldr {A B} (g : A -> (B -> M4 B) -> B -> M4 B) (k : B -> M4 B) l :
  (forall a k, (forall b, Keeps R (k b)) -> forall b, Keeps R (g a k b)) -> (forall b, Keeps R (k b)) -> forall b, Keeps R (foldr g k l b).
Proof. intros Hg Hk. induction l as [|a l IH]; simpl; [done|]. by apply Hg. Qed.

End Keeps.

Lemma keeps_sub (R R' : relation srv) {A} (m : M4 A) : (forall d d', R d d' -> R' d d') -> Keeps R m -> Keeps R' m.
Proof. intros Hsub Hm d a d' H. by eapply Hsub, Hm. Qed.

(** An invariant, as a relation. *)
Definition inv_rel (I : srv -> Prop) : relation srv := fun d d' => I d -> I d'.

#[export] Instance inv_rel_pre I : PreOrder (inv_rel I).
Proof. split; [by intros ? ? | intros x y z H1 H2 ?; by apply H2, H1]. Qed.

Create HintDb keeps.

(** One step of a [Keeps] goal; the leaves come from the hint database. *)
Ltac keeps_step :=
  match goal with
  | |- Keeps _ (mbind _ _) => apply keeps_bind; [apply _ | | intros ?]
  | |- Keeps _ (mret _) => apply keeps_ret; apply _
  | |- Keeps _ (get4 _) => apply keeps_get; apply _
  | |- Keeps _ log_fatal => apply keeps_fatal
  | |- Keeps _ (follow _) => apply keeps_follow; apply _
  | |- Keeps _ (lease_at _) => apply keeps_lease_at; apply _
  | |- Keeps _ (pool_at _) => apply keeps_pool_at; apply _
  | |- Keeps _ (failover_peer _) => apply keeps_failover_peer; apply _
  | |- Keeps _ (each4 _ _) => apply keeps_each; [apply _ | intros ?]
  | _ => solve [auto with keeps nocore]
  | |- Keeps _ (when4 _ _) => apply keeps_when; [apply _ |]
  | |- Keeps _ (match ?x with _ => _ end) => destruct x
  | |- Keeps _ (let _ := _ in _) => cbv zeta
  end.
Ltac keeps := repeat keeps_step.

(** ** What the lists of pools depend on *)

Definition lview (s : lease) : option id * option id := (l_pool s, l_next s).
Definition pview (p : pool) : (queue -> option id) * Z * Z := (p_heads p, p_free_leases p, p_backup_leases p).

Record same_lists (d d' : srv) : Prop := {
  sl_leases : forall x, lview <$> leases d' !! x = lview <$> leases d !! x;
  sl_pools : forall q, pview <$> pools d' !! q = pview <$> pools d !! q;
  sl_qfollow : ss_qfollow d' = ss_qfollow d
}.

(** The same lists, and every lease but those of [Y] belongs on the same one. *)
Definition same_but (Y : id -> Prop) (d d' : srv) : Prop :=
  same_lists d d' /\ forall x, ~ Y x -> queue_of <$> leases d' !! x = queue_of <$> leases d !! x.

Definition same_files : relation srv := same_but (fun _ => False).

#[export] Instance same_lists_pre : PreOrder same_lists.
Proof. split; [by split | intros x y z [A B C] [A' B' C']; split; intros; [by rewrite A', A | by rewrite B', B | by rewrite C', C]]. Qed.

#[export] Instance same_but_pre Y : PreOrder (same_but Y).
Proof. split; [by split | intros x y z [? H1] [? H2]; split; [by trans y | intros; etrans; [by apply H2 | by apply H1]]]. Qed.

#[export] Instance same_files_pre : PreOrder same_files.
Proof. apply same_but_pre. Qed.

(** ** What the failover queues depend on *)

Definition qview (s : lease) : option id * bool * bool := (l_next_pending s, flag s ON_UPDATE_QUEUE, flag s ON_ACK_QUEUE).
Definition fview (f : failover) : qends * qends * Z := (f_update_queue f, f_ack_queue f, f_cur_unacked_updates f).

Record same_queues (d d' : srv) : Prop := {
  sq_leases : forall x, qview <$> leases d' !! x = qview <$> leases d !! x;
  sq_peer : fview (peer d') = fview (peer d)
}.

#[export] Instance same_queues_pre : PreOrder same_queues.
Proof. split; [by split | intros x y z [A B] [A' B']; split; intros; [by rewrite A', A | by rewrite B', B]]. Qed.

(** ** Both at once *)

(** Relations that allow a change of a lease that no [view] sees, of a pool's timer, and of everything
    outside the lists. *)
Class Quiet (R : relation srv) (lv : lease -> lease -> Prop) (pv : pool -> pool -> Prop) (fv : failover -> failover -> Prop) : Prop := {
  quiet_pre :: PreOrder R;
  quiet_lease d x s s' : leases d !! x = Some s -> lv s s' -> R d (upd_lease x s' d);
  quiet_pool d q p p' : pools d !! q = Some p -> pv p p' -> R d (upd_pool q p' d);
  quiet_peer d f : fv (peer d) (f (peer d)) -> R d (upd_peer f d);
  quiet_rest d d' : leases d' = leases d -> pools d' = pools d -> peer d' = peer d -> ss_qfollow d' = ss_qfollow d -> R d d'
}.

Section Quiet.
Context {R lv pv fv} `{!Quiet R lv pv fv}.

Lemma keeps_set_lease x f : (forall s, lv s (f s)) -> Keeps R (set_lease4 x f).
Proof. intros Hf d a d' (s & Hs & ->)%set_lease4_inv. by eapply quiet_lease. Qed.

Lemma keeps_set_pool q f : (forall p, pv p (f p)) -> Keeps R (set_pool4 q f).
Proof. intros Hf d a d' (p & Hp & ->)%set_pool4_inv. by eapply quiet_pool. Qed.

Lemma keeps_set_peer f : (forall g, fv g (f g)) -> Keeps R (set_peer4 f).
Proof. intros Hf d a d' H. rewrite set_peer4_eq in H. simplify_eq. by apply quiet_peer. Qed.

Lemma keeps_modify (f : srv -> srv) :
  (forall d, leases (f d) = leases d) -> (forall d, pools (f d) = pools d) -> (forall d, peer (f d) = peer d) ->
  (forall d, ss_qfollow (f d) = ss_qfollow d) -> Keeps R (modify4 f).
Proof. intros H1 H2 H3 H4 d a d' H. unfold modify4 in H. simplify_eq. by apply quiet_rest. Qed.

End Quiet.

Lemma lookup_upd_lease x s d y : leases (upd_lease x s d) !! y = if decide (y = x) then Some s else leases d !! y.
Proof. unfold upd_lease. simpl. rewrite lookup_insert. by repeat case_decide; simplify_eq. Qed.

Lemma lookup_upd_pool q p d y : pools (upd_pool q p d) !! y = if decide (y = q) then Some p else pools d !! y.
Proof. unfold upd_pool. simpl. rewrite lookup_insert. by repeat case_decide; simplify_eq. Qed.

#[export] Instance same_lists_quiet : Quiet same_lists (fun s s' => lview s' = lview s) (fun p p' => pview p' = pview p) (fun _ _ => True).
Proof.
  split; [apply _ | | | | ].
  - intros d x s s' Hs E. split; [|done..]. intros y. rewrite lookup_upd_lease. case_decide; [subst; by rewrite Hs; simpl; rewrite E | done].
  - intros d q p p' Hp E. split; [done| |done]. intros y. rewrite lookup_upd_pool. case_decide; [subst; by rewrite Hp; simpl; rewrite E | done].
  - by split.
  - intros d d' El Ep _ Eq. split; intros; by rewrite ?El, ?Ep, ?Eq.
Qed.

#[export] Instance same_files_quiet :
  Quiet same_files (fun s s' => lview s' = lview s /\ queue_of s' = queue_of s) (fun p p' => pview p' = pview p) (fun _ _ => True).
Proof.
  split; [apply _ | | | | ].
  - intros d x s s' Hs [E1 E2]. split; [by eapply quiet_lease|]. intros y _. rewrite lookup_upd_lease. case_decide; [subst; by rewrite Hs; simpl; rewrite E2 | done].
  - intros d q p p' Hp E. split; [by eapply quiet_pool | done].
  - intros d f _. split; [by eapply quiet_peer | done].
  - intros d d' El Ep Ef Eq. split; [by eapply quiet_rest | by rewrite El].
Qed.

#[export] Instance same_queues_quiet :
  Quiet same_queues (fun s s' => qview s' = qview s) (fun p p' => True) (fun f f' => fview f' = fview f).
Proof.
  split; [apply _ | | | | ].
  - intros d x s s' Hs E. split; [|done]. intros y. rewrite lookup_upd_lease. case_decide; [subst; by rewrite Hs; simpl; rewrite E | done].
  - by split.
  - intros d f E. by split.
  - intros d d' El Ep Ef Eq. split; [intros; by rewrite El | by rewrite Ef].
Qed.

(** A member, or what a function computes from a lease, stays as it is on every lease. *)
Definition same_of {A} (g : lease -> A) (d d' : srv) : Prop := forall x, g <$> leases d' !! x = g <$> leases d !! x.

#[export] Instance same_of_quiet {A} (g : lease -> A) : Quiet (same_of g) (fun s s' => g s' = g s) (fun _ _ => True) (fun _ _ => True).
Proof.
  split; [split; [done | intros x y z H1 H2 u; by rewrite H2, H1] | | done | done | intros d d' El _ _ _ x; by rewrite El].
  intros d x s s' Hs E y. rewrite lookup_upd_lease. case_decide; [subst; by rewrite Hs; simpl; rewrite E | done].
Qed.

#[export] Instance same_of_pre {A} (g : lease -> A) : PreOrder (same_of g) := quiet_pre.

Lemma same_of_some {A} (g : lease -> A) d d' x s : same_of g d d' -> leases d !! x = Some s -> exists s', leases d' !! x = Some s' /\ g s' = g s.
Proof. intros H Hs. specialize (H x). rewrite Hs in H. destruct (leases d' !! x) as [s'|]; [|done]. exists s'. split; [done|]. by apply (inj Some). Qed.

Lemma same_of_back {A} (g : lease -> A) d d' x s' : same_of g d d' -> leases d' !! x = Some s' -> exists s, leases d !! x = Some s /\ g s' = g s.
Proof. intros H Hs. specialize (H x). rewrite Hs in H. destruct (leases d !! x) as [s|]; [|done]. exists s. split; [done|]. by apply (inj Some). Qed.

(** The same leases and pools are there. *)
Definition same_dom (d d' : srv) : Prop :=
  (forall x, is_Some (leases d' !! x) <-> is_Some (leases d !! x)) /\ (forall q, is_Some (pools d' !! q) <-> is_Some (pools d !! q)).

#[export] Instance same_dom_pre : PreOrder same_dom.
Proof. split; [by split | intros x y z [H1 H2] [H3 H4]; split; intros; by rewrite ?H3, ?H4]. Qed.

Lemma same_dom_lease d x s s' : leases d !! x = Some s -> same_dom d (upd_lease x s' d).
Proof. intros Hs. split; [|done]. intros y. rewrite lookup_upd_lease. case_decide; [subst; rewrite Hs|done]. by split; intros; eexists. Qed.

Lemma same_dom_pool d q p p' : pools d !! q = Some p -> same_dom d (upd_pool q p' d).
Proof. intros Hp. split; [done|]. intros y. rewrite lookup_upd_pool. case_decide; [subst; rewrite Hp|done]. by split; intros; eexists. Qed.

Lemma same_dom_size d d' : same_dom d d' -> size (leases d') = size (leases d).
Proof. intros [H _]. rewrite <- !size_dom. f_equal. apply set_eq. intros x. rewrite !elem_of_dom. apply H. Qed.
