(* ===== verification/V4Frames.v ===== *)
(** * What the operations of the DHCPv4 server leave alone

    Operations on failover queues do not touch the lists of pools, operations on lists do not
    touch the queues, and the rest touches neither. *)

From S2P Require Import Prelude BindingStates FailoverLeases V4State V4Queues V4Leases V4Machine V4Handlers V4Laws.

#[local] Open Scope Z_scope.

(** ** Flags *)

Lemma flag_set_other b c s : Z.land b c = 0 -> flag (set_flag b s) c = flag s c.
Proof. intros E. unfold flag, set_flag. simpl. by rewrite Z.land_lor_distr_l, E, Z.lor_0_r. Qed.

Lemma flag_clear_other b c s : Z.land b c = 0 -> flag (clear_flag b s) c = flag s c.
Proof.
  intros E. unfold flag, clear_flag. simpl. f_equal. f_equal. apply Z.bits_inj'. intros n Hn. rewrite !Z.land_spec, Z.ldiff_spec.
  assert (Z.testbit (Z.land b c) n = false) as H by (rewrite E; apply Z.bits_0). rewrite Z.land_spec in H.
  destruct (Z.testbit (l_flags s) n), (Z.testbit b n), (Z.testbit c n); done.
Qed.

Lemma flag_set_same b s : b <> 0 -> flag (set_flag b s) b = true.
Proof.
  intros Hb. unfold flag, set_flag. simpl. rewrite Z.land_lor_distr_l, Z.land_diag.
  assert (Z.lor (Z.land (l_flags s) b) b = b) as ->; [|by apply negb_true_iff, Z.eqb_neq].
  apply Z.bits_inj'. intros n Hn. rewrite Z.lor_spec, Z.land_spec. by destruct (Z.testbit (l_flags s) n), (Z.testbit b n).
Qed.

Lemma flag_clear_same b s : flag (clear_flag b s) b = false.
Proof. unfold flag, clear_flag. simpl. by rewrite Z.land_ldiff. Qed.

(** ** Neither lists nor queues *)

Definition same_all (d d' : srv) : Prop := same_files d d' /\ same_queues d d'.

#[export] Instance same_all_pre : PreOrder same_all.
Proof. split; [by split | intros x y z [? ?] [? ?]; split; by trans y]. Qed.

#[export] Instance same_all_quiet :
  Quiet same_all (fun s s' => (lview s' = lview s /\ queue_of s' = queue_of s) /\ qview s' = qview s)
    (fun p p' => pview p' = pview p) (fun f f' => fview f' = fview f).
Proof.
  split; [apply _ | | | | ].
  - intros d x s s' Hs [E1 E2]. split; by eapply quiet_lease.
  - intros d q p p' Hp E. split; by eapply quiet_pool.
  - intros d f E. split; by eapply quiet_peer.
  - intros. split; by apply quiet_rest.
Qed.

Lemma all_files {A} (m : M4 A) : Keeps same_all m -> Keeps same_files m.
Proof. apply keeps_sub. by intros ? ? []. Qed.

Lemma all_queues {A} (m : M4 A) : Keeps same_all m -> Keeps same_queues m.
Proof. apply keeps_sub. by intros ? ? []. Qed.

Lemma files_lists {A} (m : M4 A) : Keeps same_files m -> Keeps same_lists m.
Proof. apply keeps_sub. by intros ? ? []. Qed.

Lemma files_but {A} Y (m : M4 A) : Keeps same_files m -> Keeps (same_but Y) m.
Proof. apply keeps_sub. intros d d' [H1 H2]. split; [done|]. intros x _. apply H2; by intros []. Qed.

#[export] Hint Resolve all_files all_queues : keeps.

(** Closes a change that no view sees. *)
Ltac unseen := intros ?; repeat split; reflexivity.

#[export] Hint Extern 1 (Keeps _ (set_lease4 _ _)) => (apply keeps_set_lease; unseen) : keeps.
#[export] Hint Extern 1 (Keeps _ (set_pool4 _ _)) => (apply keeps_set_pool; unseen) : keeps.
#[export] Hint Extern 1 (Keeps _ (set_peer4 _)) => (apply keeps_set_peer; unseen) : keeps.
#[export] Hint Extern 1 (Keeps _ (modify4 _)) => (apply keeps_modify; intros; reflexivity) : keeps.

Lemma k_emit e : Keeps same_all (emit e).
Proof. unfold emit. keeps. Qed.

#[export] Hint Resolve k_emit : keeps.

Lemma k_ask io : Keeps same_all (ask io).
Proof. unfold ask. keeps. Qed.

#[export] Hint Resolve k_ask : keeps.

(** ** Messages *)

Section Frames.
Context (io : nat -> bool) (random : nat -> Z) (cur_time : Z).

Lemma k_write_lease l : Keeps same_all (write_lease io l).
Proof. unfold write_lease. keeps. Qed.
Lemma k_commit_leases : Keeps same_all (commit_leases io).
Proof. unfold commit_leases. keeps. Qed.
Lemma k_write_failover_state : Keeps same_all (write_failover_state io).
Proof. unfold write_failover_state. keeps. Qed.
Lemma k_add_timeout t x : Keeps same_all (add_timeout4 t x).
Proof. unfold add_timeout4. keeps. Qed.
Lemma k_cancel_timeout x : Keeps same_all (cancel_timeout4 x).
Proof. unfold cancel_timeout4. keeps. Qed.
Hint Resolve k_write_lease k_commit_leases k_write_failover_state k_add_timeout k_cancel_timeout : keeps.

Lemma k_put_message m : Keeps same_all (dhcp_failover_put_message cur_time m).
Proof. unfold dhcp_failover_put_message. keeps. Qed.
Lemma k_next_xid x : Keeps same_all (next_xid x).
Proof. unfold next_xid. keeps. Qed.
Hint Resolve k_put_message k_next_xid : keeps.

Lemma k_with_link k : (forall x, Keeps same_all (k x)) -> Keeps same_all (with_link k).
Proof. intros H. unfold with_link. keeps. Qed.

Lemma k_send_contact : Keeps same_all (dhcp_failover_send_contact cur_time).
Proof. apply k_with_link. intros. keeps. Qed.
Lemma k_send_state : Keeps same_all (dhcp_failover_send_state cur_time).
Proof. apply k_with_link. intros. keeps. Qed.
Lemma k_send_bind_update l : Keeps same_all (dhcp_failover_send_bind_update io cur_time l).
Proof. apply k_with_link. intros. keeps. Qed.
Lemma k_send_bind_ack m r : Keeps same_all (dhcp_failover_send_bind_ack cur_time m r).
Proof. apply k_with_link. intros. keeps. Qed.
Lemma k_send_poolreq : Keeps same_all (dhcp_failover_send_poolreq cur_time).
Proof. apply k_with_link. intros. keeps. Qed.
Lemma k_send_poolresp x n : Keeps same_all (dhcp_failover_send_poolresp cur_time x n).
Proof. apply k_with_link. intros. keeps. Qed.
Lemma k_send_update_request : Keeps same_all (dhcp_failover_send_update_request cur_time).
Proof. apply k_with_link. intros. keeps. Qed.
Lemma k_send_update_request_all : Keeps same_all (dhcp_failover_send_update_request_all cur_time).
Proof. apply k_with_link. intros. keeps. Qed.
Lemma k_send_update_done : Keeps same_all (dhcp_failover_send_update_done io cur_time).
Proof. apply k_with_link. intros. keeps. Qed.
Hint Resolve k_send_contact k_send_state k_send_bind_update k_send_bind_ack k_send_poolreq k_send_poolresp
  k_send_update_request k_send_update_request_all k_send_update_done : keeps.

Lemma k_send_acks : Keeps same_all (dhcp_failover_send_acks io cur_time).
Proof. unfold dhcp_failover_send_acks. keeps. Qed.
Hint Resolve k_send_acks : keeps.
Lemma k_toack_queue_timeout : Keeps same_all (dhcp_failover_toack_queue_timeout io cur_time).
Proof. unfold dhcp_failover_toack_queue_timeout. keeps. Qed.
Lemma k_queue_ack m : Keeps same_all (dhcp_failover_queue_ack io cur_time m).
Proof. unfold dhcp_failover_queue_ack. keeps. Qed.
Lemma k_pool_check q : Keeps same_all (dhcp_failover_pool_check random cur_time q).
Proof. unfold dhcp_failover_pool_check, estimate. keeps. Qed.
Hint Resolve k_pool_check : keeps.
Lemma k_state_pool_check : Keeps same_all (dhcp_failover_state_pool_check random cur_time).
Proof. unfold dhcp_failover_state_pool_check. keeps. Qed.
Lemma k_set_service_state : Keeps same_all dhcp_failover_set_service_state.
Proof. unfold dhcp_failover_set_service_state. keeps. Qed.

End Frames.

#[export] Hint Resolve k_write_lease k_commit_leases k_write_failover_state k_add_timeout k_cancel_timeout k_put_message k_next_xid
  k_send_contact k_send_state k_send_bind_update k_send_bind_ack k_send_poolreq k_send_poolresp k_send_update_request
  k_send_update_request_all k_send_update_done k_send_acks k_toack_queue_timeout k_queue_ack k_pool_check k_state_pool_check
  k_set_service_state : keeps.

(** ** Queues, not lists *)

Lemma queue_of_flags s s' :
  l_binding_state s' = l_binding_state s -> flag s' RESERVED_LEASE = flag s RESERVED_LEASE -> queue_of s' = queue_of s.
Proof. intros E1 E2. unfold queue_of. by rewrite E1, E2. Qed.

Lemma kf_set_flag x b : Z.land b RESERVED_LEASE = 0 -> Keeps same_files (set_lease4 x (set_flag b)).
Proof. intros Hb. apply keeps_set_lease. intros s. split; [done|]. apply queue_of_flags; [done | by apply flag_set_other]. Qed.

Lemma kf_clear_flag x b : Z.land b RESERVED_LEASE = 0 -> Keeps same_files (set_lease4 x (clear_flag b)).
Proof. intros Hb. apply keeps_set_lease. intros s. split; [done|]. apply queue_of_flags; [done | by apply flag_clear_other]. Qed.

#[export] Hint Extern 1 (Keeps _ (set_lease4 _ (set_flag _))) => (apply kf_set_flag; reflexivity) : keeps.
#[export] Hint Extern 1 (Keeps _ (set_lease4 _ (clear_flag _))) => (apply kf_clear_flag; reflexivity) : keeps.

Section QueueFrames.
Context (io : nat -> bool) (cur_time : Z).

Lemma kf_send_loop n : Keeps same_files (send_loop io cur_time n).
Proof. induction n as [|n IH]; cbn [send_loop]; [apply keeps_fatal|]. keeps. Qed.
Hint Resolve kf_send_loop : keeps.

Lemma kf_send_updates : Keeps same_files (dhcp_failover_send_updates io cur_time).
Proof. unfold dhcp_failover_send_updates. keeps. Qed.
Hint Resolve kf_send_updates : keeps.

Lemma kf_before_pending n lp l : Keeps same_files (before_pending n lp l).
Proof. revert lp. induction n as [|n IH]; intros lp; cbn [before_pending]; [apply keeps_fatal|]. keeps. Qed.
Hint Resolve kf_before_pending : keeps.

Lemma kf_forget_ack l : Keeps same_files (forget_ack io l).
Proof. unfold forget_ack. keeps. Qed.
Hint Resolve kf_forget_ack : keeps.

Lemma kf_ack_queue_remove l : Keeps same_files (dhcp_failover_ack_queue_remove io l).
Proof. unfold dhcp_failover_ack_queue_remove. keeps. Qed.
Hint Resolve kf_ack_queue_remove : keeps.

Lemma kf_queue_update l b : Keeps same_files (dhcp_failover_queue_update io cur_time l b).
Proof. unfold dhcp_failover_queue_update. keeps. Qed.
Hint Resolve kf_queue_update : keeps.

Lemma kf_update_list n e w l : Keeps same_files (update_list io cur_time n e w l).
Proof. revert l. induction n as [|n IH]; intros l; cbn [update_list]; [apply keeps_fatal|]. keeps. Qed.
Hint Resolve kf_update_list : keeps.

Lemma kf_generate_update_queue e : Keeps same_files (dhcp_failover_generate_update_queue io cur_time e).
Proof. unfold dhcp_failover_generate_update_queue. keeps. Qed.

Lemma kf_zap_flags n l : Keeps same_files (zap_flags n l).
Proof.
  revert l. induction n as [|n IH]; intros l; cbn [zap_flags]; [apply keeps_fatal|]. destruct l; [|keeps]. apply keeps_bind; [apply _ | | intros; keeps].
  apply keeps_set_lease. intros s. split; [done|]. apply queue_of_flags; [done|]. by rewrite flag_set_other, flag_clear_other.
Qed.
Hint Resolve kf_zap_flags : keeps.

Lemma kf_resend_unacked : Keeps same_files resend_unacked.
Proof. unfold resend_unacked. keeps. Qed.

Lemma kf_expired_alone n f l : Keeps same_all (expired_alone n f l).
Proof. revert l. induction n as [|n IH]; intros l; cbn [expired_alone]; [apply keeps_fatal|]. keeps. Qed.
Hint Resolve kf_expired_alone : keeps.

Lemma k_pools_alone : Keeps same_all pools_alone.
Proof. unfold pools_alone. keeps. Qed.

End QueueFrames.

#[export] Hint Resolve kf_send_updates kf_ack_queue_remove kf_queue_update kf_generate_update_queue kf_resend_unacked k_pools_alone : keeps.

(** ** Lists, not queues *)

(** Bits that are kept when the others come from somewhere else. *)
Lemma land_kept t s P E c : Z.ldiff c P = 0 -> Z.land E c = 0 -> Z.land (Z.lor (Z.ldiff t P) (Z.ldiff s E)) c = Z.land s c.
Proof.
  intros HP HE. apply Z.bits_inj'. intros n Hn. rewrite !Z.land_spec, Z.lor_spec, !Z.ldiff_spec.
  assert (Z.testbit (Z.ldiff c P) n = false) as H1 by (rewrite HP; apply Z.bits_0). rewrite Z.ldiff_spec in H1.
  assert (Z.testbit (Z.land E c) n = false) as H2 by (rewrite HE; apply Z.bits_0). rewrite Z.land_spec in H2.
  destruct (Z.testbit t n), (Z.testbit s n), (Z.testbit c n), (Z.testbit P n), (Z.testbit E n); done.
Qed.

Lemma kq_copy_flags x t : Keeps same_queues (set_lease4 x (fun s => set_l_flags (Z.lor (Z.ldiff (l_flags t) PERSISTENT_FLAGS) (Z.ldiff (l_flags s) EPHEMERAL_FLAGS)) s)).
Proof. apply keeps_set_lease. intros s. unfold qview, flag. simpl. by rewrite !land_kept by reflexivity. Qed.

#[export] Hint Resolve kq_copy_flags : keeps.

(** Changes of one lease move no other lease. *)
Lemma kb_set_lease (Y : id -> Prop) x f : Y x -> (forall s, lview (f s) = lview s) -> Keeps (same_but Y) (set_lease4 x f).
Proof.
  intros HY Hf d a d' (s & Hs & ->)%set_lease4_inv. split; [by eapply quiet_lease|]. intros y Hy. rewrite lookup_upd_lease.
  case_decide; [by subst | done].
Qed.

Lemma all_but {A} Y (m : M4 A) : Keeps same_all m -> Keeps (same_but Y) m.
Proof. intros H. by apply files_but, all_files. Qed.

#[export] Hint Resolve all_but : keeps.
#[export] Hint Extern 1 (Keeps (same_but (eq _)) (set_lease4 _ _)) => (apply kb_set_lease; [reflexivity | unseen]) : keeps.

Lemma k_set_n t x v : Keeps same_all (set_lease4 x (set_n t v)).
Proof. destruct t; simpl; keeps. Qed.
Lemma k_hash_put t key l : Keeps same_all (hash_put t key l).
Proof. destruct t; apply keeps_modify; done. Qed.
Lemma k_hash_remove t key : Keeps same_all (hash_remove t key).
Proof. destruct t; apply keeps_modify; done. Qed.
#[export] Hint Resolve k_set_n k_hash_put k_hash_remove : keeps.

Lemma k_find_lease_by t key : Keeps same_all (find_lease_by t key).
Proof. unfold find_lease_by. keeps. Qed.
Lemma k_place_by n t c p l : Keeps same_all (place_by n t c p l).
Proof. revert c p. induction n as [|n IH]; intros c p; cbn [place_by]; [apply keeps_fatal|]. keeps. Qed.
Lemma k_unlink_by n t x l : Keeps same_all (unlink_by n t x l).
Proof. revert x. induction n as [|n IH]; intros x; cbn [unlink_by]; [apply keeps_fatal|]. keeps. Qed.
#[export] Hint Resolve k_find_lease_by k_place_by k_unlink_by : keeps.

Lemma k_table_add t l : Keeps same_all (table_add t l).
Proof. unfold table_add. keeps. Qed.
Lemma k_table_delete t l : Keeps same_all (table_delete t l).
Proof. unfold table_delete. keeps. Qed.
#[export] Hint Resolve k_table_add k_table_delete : keeps.

Lemma kb_copy_data x t : Keeps (same_but (eq x)) (copy_data x t).
Proof. unfold copy_data. keeps. Qed.
Lemma kq_copy_data x t : Keeps same_queues (copy_data x t).
Proof. unfold copy_data. keeps. Qed.
Lemma kb_transition x : Keeps (same_but (eq x)) (make_binding_state_transition x).
Proof. unfold make_binding_state_transition. keeps. Qed.
Lemma kq_transition x : Keeps same_queues (make_binding_state_transition x).
Proof. unfold make_binding_state_transition. keeps. Qed.

(** Walking along a list changes nothing. *)
Lemma k_place_at R `{!PreOrder R} n lp prev time : Keeps R (place_at n lp prev time).
Proof. revert lp prev. induction n as [|n IH]; intros lp prev; cbn [place_at]; [apply keeps_fatal|]. keeps. Qed.
Lemma k_find_on R `{!PreOrder R} n lp prev l : Keeps R (find_on n lp prev l).
Proof. revert lp prev. induction n as [|n IH]; intros lp prev; cbn [find_on]; [apply keeps_fatal|]. keeps. Qed.
#[export] Hint Extern 1 (Keeps _ (place_at _ _ _ _)) => (apply k_place_at; apply _) : keeps.
#[export] Hint Extern 1 (Keeps _ (find_on _ _ _ _)) => (apply k_find_on; apply _) : keeps.

Lemma kq_link_in q w prev l : Keeps same_queues (link_in q w prev l).
Proof. unfold link_in. keeps. Qed.
#[export] Hint Resolve kq_link_in kq_copy_data kq_transition : keeps.
Lemma kq_lease_enqueue l : Keeps same_queues (lease_enqueue l).
Proof. unfold lease_enqueue. keeps. Qed.
Lemma kq_take_off q w l : Keeps same_queues (take_off q w l).
Proof. unfold take_off. keeps. Qed.
#[export] Hint Resolve kq_lease_enqueue kq_take_off : keeps.

Lemma k_commit_lease io l b : Keeps same_all (commit_lease io l b).
Proof. unfold commit_lease. keeps. Qed.
Lemma k_next_event now q l : Keeps same_all (next_event now q l).
Proof. unfold next_event. keeps. Qed.
#[export] Hint Resolve k_commit_lease k_next_event : keeps.
