(* ===== verification/V4Lists.v ===== *)
(** * The lists of a pool

    Every lease of a pool is on the list of the pool that belongs to its state, and the counts of
    free and backup leases are the lengths of two of them.  [lists d Q on] says which
    leases are on which list; [files_ok] that they are where they belong. *)

From S2P Require Import Prelude BindingStates FailoverLeases V4State V4Queues V4Leases V4Machine V4Handlers V4Chain V4Laws V4Frames.

#[local] Open Scope Z_scope.

Definition nx (d : srv) (x : id) : option (option id) := l_next <$> leases d !! x.

(** Where a lease belongs. *)
Definition place (s : lease) : option (id * queue) := q ← l_pool s; w ← queue_of s; Some (q, w).

(** [Q q w] are the leases of list [w] of pool [q], in order; [on x] is the list [x] is on. *)
Record lists (d : srv) (Q : id -> queue -> list id) (on : id -> option (id * queue)) : Prop := {
  ls_seg q p w : pools d !! q = Some p -> seg (nx d) (p_heads p w) (Q q w) None;
  ls_none q w : pools d !! q = None -> Q q w = [];
  ls_on x q w : x ∈ Q q w <-> on x = Some (q, w);
  ls_off x s : leases d !! x = Some s -> on x = None -> l_next s = None;
  ls_pool x s q : leases d !! x = Some s -> l_pool s = Some q -> is_Some (pools d !! q);
  ls_count q p : pools d !! q = Some p ->
    p_free_leases p = Z.of_nat (length (Q q Free)) /\ p_backup_leases p = Z.of_nat (length (Q q Backup));
  ls_qfollow : ss_qfollow d = false
}.

Definition files_ok (d : srv) : Prop :=
  exists Q on, lists d Q on /\ forall x s, leases d !! x = Some s -> on x = place s.

(** ** What does not change it *)

Lemma nx_same d d' x : same_lists d d' -> nx d' x = nx d x.
Proof. intros [H _ _]. specialize (H x). unfold nx. destruct (leases d !! x), (leases d' !! x); simpl in *; [|done..]. injection H as _ ->. done. Qed.

Lemma same_lists_lease d d' x s' : same_lists d d' -> leases d' !! x = Some s' -> exists s, leases d !! x = Some s /\ lview s = lview s'.
Proof. intros [H _ _] E. specialize (H x). rewrite E in H. destruct (leases d !! x) as [s|]; [|done]. injection H as E1 E2. exists s. unfold lview. by rewrite E1, E2. Qed.

Lemma same_lists_pool d d' q p' : same_lists d d' -> pools d' !! q = Some p' -> exists p, pools d !! q = Some p /\ pview p = pview p'.
Proof. intros [_ H _] E. specialize (H q). rewrite E in H. destruct (pools d !! q) as [p|]; [|done]. injection H as E1 E2 E3. exists p. unfold pview. by rewrite E1, E2, E3. Qed.

Lemma same_lists_sym d d' : same_lists d d' -> same_lists d' d.
Proof. intros [A B C]. split; intros; [by rewrite A | by rewrite B | done]. Qed.

Lemma lists_same d d' Q on : same_lists d d' -> lists d Q on -> lists d' Q on.
Proof.
  intros Hd [H1 H2 H3 H4 H5 H6 H7]. split.
  - intros q p w (p0 & Hp & E)%(same_lists_pool d); [|done]. injection E as <- _ _. eapply seg_ext; [|by apply H1].
    intros x _. by apply nx_same.
  - intros q w Hq. apply H2. destruct (pools d !! q) eqn:E; [|done].
    apply (same_lists_pool d' d q) in E as (? & ? & _); [congruence | by apply same_lists_sym].
  - done.
  - intros x s (s0 & Hs & E)%(same_lists_lease d) Hx; [|done]. injection E as _ <-. by eapply H4.
  - intros x s q (s0 & Hs & E)%(same_lists_lease d) Hq; [|done]. injection E as E _.
    destruct (H5 x s0 q) as [p Hp]; [done | congruence |]. apply (same_lists_pool d' d) in Hp as (p' & ? & _); [by exists p' | by apply same_lists_sym].
  - intros q p (p0 & Hp & E)%(same_lists_pool d); [|done]. injection E as _ <- <-. by apply H6.
  - destruct Hd. congruence.
Qed.

Lemma place_same s s' : lview s' = lview s -> queue_of s' = queue_of s -> place s' = place s.
Proof. unfold lview, place. intros [= -> _] ->. done. Qed.

Lemma files_same d d' : same_files d d' -> files_ok d -> files_ok d'.
Proof.
  intros [Hl Hq] (Q & on & HL & Hon). exists Q, on. split; [by eapply lists_same|]. intros x s' E.
  destruct (same_lists_lease _ _ _ _ Hl E) as (s & Hs & Ev). rewrite (Hon x s Hs). apply place_same; [done|].
  specialize (Hq x). rewrite E, Hs in Hq. specialize (Hq (fun H => H)). by injection Hq.
Qed.

Lemma keeps_files_ok {A} (m : M4 A) : Keeps same_files m -> Keeps (inv_rel files_ok) m.
Proof. apply keeps_sub. intros d d' H Hd. by eapply files_same. Qed.

(** ** Changing one list *)

Definition with_list (Q : id -> queue -> list id) (q : id) (w : queue) (l : list id) : id -> queue -> list id :=
  fun q' w' => if decide ((q', w') = (q, w)) then l else Q q' w'.
Definition with_on (on : id -> option (id * queue)) (x : id) (v : option (id * queue)) : id -> option (id * queue) :=
  fun y => if decide (y = x) then v else on y.

(** How a pool changes when list [w] does: its head, and the count by [n]. *)
Definition repooled (w : queue) (n : Z) (p p' : pool) : Prop :=
  (forall w', w' <> w -> p_heads p' w' = p_heads p w') /\
  p_free_leases p' = p_free_leases p + match w with Free => n | _ => 0 end /\
  p_backup_leases p' = p_backup_leases p + match w with Backup => n | _ => 0 end.

(** The states around a change of list [w] of pool [q] to [l]: lease [x] goes on it, or off it. *)
Record relinked (d d' : srv) (Q : id -> queue -> list id) (x q : id) (w : queue) (l : list id) (v : option (id * queue)) : Prop := {
  rl_pool p : pools d !! q = Some p -> exists p', pools d' !! q = Some p' /\ seg (nx d') (p_heads p' w) l None /\
    repooled w (Z.of_nat (length l) - Z.of_nat (length (Q q w))) p p';
  rl_pools q' : q' <> q -> pools d' !! q' = pools d !! q';
  rl_v : v = None \/ v = Some (q, w);
  rl_in y : y ∈ l <-> (if decide (y = x) then v = Some (q, w) else y ∈ Q q w);
  rl_nx y : y <> x -> y ∉ Q q w -> nx d' y = nx d y;
  rl_off s : leases d' !! x = Some s -> v = None -> l_next s = None;
  rl_leases y : l_pool <$> leases d' !! y = l_pool <$> leases d !! y;
  rl_qfollow : ss_qfollow d' = ss_qfollow d
}.

Lemma lists_relinked d d' Q on x q w l v :
  lists d Q on -> (on x = None \/ on x = Some (q, w)) -> is_Some (pools d !! q) -> relinked d d' Q x q w l v ->
  lists d' (with_list Q q w l) (with_on on x v).
Proof.
  intros HL Hx [p Hp] HR. destruct (rl_pool _ _ _ _ _ _ _ _ HR p Hp) as (p' & Hp' & Hseg & Hh & Hf & Hb).
  assert (forall q' w', (q', w') <> (q, w) -> forall y, y ∈ Q q' w' -> y <> x /\ y ∉ Q q w) as Hother.
  { intros q' w' Hne y Hy. apply (ls_on _ _ _ HL) in Hy. split; [intros ->; naive_solver|]. intros Hy'%(ls_on _ _ _ HL). congruence. }
  split.
  - intros q' p0 w' H0. unfold with_list. case_decide as Hd; [injection Hd as -> ->; rewrite Hp' in H0; by injection H0 as <-|].
    assert (exists p1, pools d !! q' = Some p1 /\ p_heads p0 w' = p_heads p1 w') as (p1 & H1 & ->).
    { destruct (decide (q' = q)) as [->|Hq]; [|rewrite (rl_pools _ _ _ _ _ _ _ _ HR) in H0; eauto].
      simplify_eq. exists p. split; [done|]. apply Hh. naive_solver. }
    eapply seg_ext; [|by apply (ls_seg _ _ _ HL)]. intros y Hy. destruct (Hother _ _ Hd y Hy). by apply (rl_nx _ _ _ _ _ _ _ _ HR).
  - intros q' w' Hq. unfold with_list. case_decide; [naive_solver|]. apply (ls_none _ _ _ HL).
    destruct (decide (q' = q)) as [->|Hne]; [congruence|]. by rewrite <- (rl_pools _ _ _ _ _ _ _ _ HR).
  - intros y q' w'. unfold with_list, with_on. case_decide as Hd.
    + simplify_eq. rewrite (rl_in _ _ _ _ _ _ _ _ HR). case_decide; [done | apply (ls_on _ _ _ HL)].
    + case_decide as Hy; [subst y|apply (ls_on _ _ _ HL)]. split; [intros Hin; by destruct (Hother _ _ Hd _ Hin)|].
      intros ->. destruct (rl_v _ _ _ _ _ _ _ _ HR); naive_solver.
  - intros y s Hs. unfold with_on. case_decide as Hd; [subst; by eapply (rl_off _ _ _ _ _ _ _ _ HR)|]. intros Hon.
    assert (nx d' y = nx d y) as E.
    { apply (rl_nx _ _ _ _ _ _ _ _ HR); [done|]. intros Hin%(ls_on _ _ _ HL). congruence. }
    unfold nx in E. rewrite Hs in E. destruct (leases d !! y) as [s0|] eqn:E0; [|done]. injection E as ->. by eapply (ls_off _ _ _ HL).
  - intros y s q' Hs Hq'. pose proof (rl_leases _ _ _ _ _ _ _ _ HR y) as E. rewrite Hs in E. destruct (leases d !! y) as [s0|] eqn:E0; [|done].
    injection E as E. rewrite E in Hq'. pose proof (ls_pool _ _ _ HL y s0 q' E0 Hq') as Hs'.
    destruct (decide (q' = q)) as [->|Hne]; [by exists p' | by rewrite (rl_pools _ _ _ _ _ _ _ _ HR)].
  - intros q' p0 H0. unfold with_list. destruct (decide (q' = q)) as [->|Hne].
    + simplify_eq. destruct (ls_count _ _ _ HL _ _ Hp) as [E1 E2]. rewrite Hf, Hb, E1, E2.
      destruct w; repeat (case_decide; try (simplify_eq; fail)); simplify_eq; split; lia.
    + rewrite !decide_False by congruence. apply (ls_count _ _ _ HL). by rewrite <- (rl_pools _ _ _ _ _ _ _ _ HR).
  - rewrite (rl_qfollow _ _ _ _ _ _ _ _ HR). apply (ls_qfollow _ _ _ HL).
Qed.

(** ** Walking a list *)

Lemma nx_inv d x t : nx d x = Some t -> exists s, leases d !! x = Some s /\ l_next s = t.
Proof. unfold nx. destruct (leases d !! x) as [s|]; [|done]. intros [= <-]. by exists s. Qed.

Lemma seg_short d h l : seg (nx d) h l None -> (length l <= size (leases d))%nat.
Proof.
  intros Hs. rewrite <- size_dom, <- (size_list_to_set (C := gset id)) by (by eapply seg_NoDup). apply subseteq_size.
  intros x Hx%elem_of_list_to_set. apply elem_of_dom. destruct (seg_in _ _ _ _ _ Hs Hx) as [t (s & E & _)%nx_inv]. by exists s.
Qed.

(** The last lease of a list, or what was before it. *)
Definition last_or (l : list id) (prev : option id) : option id := match last l with Some y => Some y | None => prev end.

Lemma last_or_cons x l prev : last_or (x :: l) prev = last_or l (Some x).
Proof. unfold last_or. rewrite last_cons. by destruct (last l). Qed.

Lemma find_on_eq n h prev l x d :
  seg (nx d) h l (Some x) -> x ∉ l -> (length l < n)%nat -> find_on n h prev x d = Some (last_or l prev, d).
Proof.
  revert h prev l. induction n as [|n IH]; intros h prev [|y l] Hs Hx Hn; simpl in Hn; try lia.
  - simpl in Hs. subst h. simpl. by rewrite bool_decide_true.
  - destruct Hs as (-> & t & (s & Hy & <-)%nx_inv & Hs). simpl. apply not_elem_of_cons in Hx as [Hxy Hx]. rewrite bool_decide_false by done.
    rewrite (bind4_eq _ _ _ _ _ (lease_at_eq _ _ _ Hy)), (IH _ _ l) by (done || lia). by rewrite last_or_cons.
Qed.

Lemma find_on_not n h prev l x d : seg (nx d) h l None -> x ∉ l -> find_on n h prev x d = None.
Proof.
  revert h prev l. induction n as [|n IH]; intros h prev [|y l] Hs Hx; simpl; try done; [by simpl in Hs; subst|].
  destruct Hs as (-> & t & (s & Hy & <-)%nx_inv & Hs). apply not_elem_of_cons in Hx as [Hxy Hx]. rewrite bool_decide_false by done.
  rewrite (bind4_eq _ _ _ _ _ (lease_at_eq _ _ _ Hy)). by apply (IH _ _ l).
Qed.

Definition sorts_before (d : srv) (time : Z) (y : id) : Prop := exists s, leases d !! y = Some s /\ l_sort_time s < time.

Lemma place_at_eq n h prev l time d :
  seg (nx d) h l None -> (length l < n)%nat -> exists l1 l2, l = l1 ++ l2 /\ place_at n h prev time d = Some (last_or l1 prev, d) /\
  Forall (sorts_before d time) l1 /\ (forall y l3, l2 = y :: l3 -> ~ sorts_before d time y).
Proof.
  revert h prev l. induction n as [|n IH]; intros h prev [|y l] Hs Hn; simpl in Hn; try lia.
  - simpl in Hs. subst h. by exists [], [].
  - destruct Hs as (-> & t & (s & Hy & <-)%nx_inv & Hs). simpl. rewrite (bind4_eq _ _ _ _ _ (lease_at_eq _ _ _ Hy)).
    destruct (Z.leb_spec time (l_sort_time s)).
    + exists [], (y :: l). split_and!; [done | done | constructor |]. intros z l3 [= <- <-] (s' & E & ?). simplify_eq. lia.
    + destruct (IH _ (Some y) l Hs) as (l1 & l2 & -> & -> & H1 & H2); [lia|]. exists (y :: l1), l2. rewrite last_or_cons.
      split_and!; [done | done | by constructor; [exists s|] | done].
Qed.

(** ** Off a list *)

Lemma nx_upd d x s y : nx (upd_lease x s d) y = if decide (y = x) then Some (l_next s) else nx d y.
Proof. unfold nx. rewrite lookup_upd_lease. by case_decide. Qed.

(** The rest of every lease stays as it is. *)
Definition apart (s : lease) : lease := set_l_next None (set_l_sort_time 0 s).

(** Every lease as before but for its link and its sort time. *)
Definition only_links : relation srv := same_of apart.

#[export] Instance only_links_pre : PreOrder only_links := same_of_pre apart.

Lemma only_links_upd d d1 x s s' : only_links d d1 -> leases d1 !! x = Some s -> apart s' = apart s -> only_links d (upd_lease x s' d1).
Proof. intros H Hs E. transitivity d1; [done|]. by eapply quiet_lease. Qed.

(** [free_leases--], and [l] off its list. *)
Definition unfile (q : id) (w : queue) (l : id) : M4 unit := set_pool4 q (count4 w (-1)) ;; take_off q w l.

Lemma heads_count4 w n p : p_heads (count4 w n p) = p_heads p.
Proof. by destruct w. Qed.

(** What the pool looks like behind it, if its head becomes [h]. *)
Lemma repooled_count w n (p : pool) : repooled w n p (count4 w n p).
Proof. split; [by rewrite heads_count4 | destruct w; simpl; lia]. Qed.

Lemma repooled_head w n h (p p' : pool) : repooled w n p p' -> repooled w n p (set_p_head w h p').
Proof. intros (H & E1 & E2). split_and!; [|done..]. intros w' Hw. simpl. by rewrite decide_False; [apply H|]. Qed.

Section Unlink.
Context (d : srv) (Q : id -> queue -> list id) (q : id) (w : queue) (x : id) (p p1 : pool) (s : lease).
Context (Hp : pools d !! q = Some p) (Hs : leases d !! x = Some s) (Hp1 : repooled w (-1) p p1) (Hh : p_heads p1 = p_heads p).

Lemma unlink_first l : p_heads p w = Some x -> seg (nx d) (Some x) (x :: l) None -> Q q w = x :: l ->
  relinked d (upd_lease x (set_l_next None s) (upd_pool q (set_p_head w (l_next s) p1) (upd_pool q p1 d))) Q x q w l None.
Proof.
  intros Eh Hl El. pose proof (seg_NoDup _ _ _ Hl) as [Hx _]%NoDup_cons. split.
  - intros p0 H0. rewrite Hp in H0. injection H0 as <-. eexists. split_and!; [by apply lookup_insert_eq | |].
    + simpl. rewrite decide_True by done. eapply seg_unlink_first; [exact Hl | unfold nx; by rewrite Hs|]. intros z Hz. by rewrite nx_upd, decide_False.
    + rewrite El. simpl. replace (Z.of_nat (length l) - Z.of_nat (S (length l))) with (-1) by lia. by apply repooled_head.
  - intros q' Hq'. simpl. by rewrite !lookup_insert_ne.
  - by left.
  - intros z. rewrite El. case_decide; set_solver.
  - intros z Hz _. by rewrite nx_upd, decide_False.
  - intros s' H _. rewrite lookup_upd_lease, decide_True in H by done. by injection H as <-.
  - intros z. rewrite lookup_upd_lease. case_decide; subst; by rewrite ?Hs.
  - done.
Qed.

Lemma unlink_behind l0 y sy l : leases d !! y = Some sy -> seg (nx d) (p_heads p w) (l0 ++ y :: x :: l) None -> Q q w = l0 ++ y :: x :: l ->
  relinked d (upd_lease x (set_l_next None s) (upd_lease y (set_l_next (l_next s) sy) (upd_pool q p1 d))) Q x q w (l0 ++ y :: l) None.
Proof.
  intros Hy Hl El. pose proof (seg_NoDup _ _ _ Hl) as HN. rewrite NoDup_app, !NoDup_cons in HN.
  assert (y <> x) by set_solver. split.
  - intros p0 H0. rewrite Hp in H0. injection H0 as <-. eexists. split_and!; [by apply lookup_insert_eq | |].
    + rewrite Hh. eapply seg_unlink_behind; [exact Hl | unfold nx; by rewrite Hs | by rewrite nx_upd, decide_False, nx_upd, decide_True |].
      intros z Hz Hzy. by rewrite !nx_upd, !decide_False.
    + rewrite El, !length_app. simpl. by replace (_ - _) with (-1) by lia.
  - intros q' Hq'. simpl. by rewrite !lookup_insert_ne.
  - by left.
  - intros z. rewrite El. case_decide; set_solver.
  - intros z Hz Hzn. rewrite El in Hzn. by rewrite !nx_upd, !decide_False by set_solver.
  - intros s' H1 _. rewrite lookup_upd_lease, decide_True in H1 by done. by injection H1 as <-.
  - intros z. rewrite !lookup_upd_lease. repeat case_decide; subst; by rewrite ?Hs, ?Hy.
  - done.
Qed.

End Unlink.

Lemma unfile_eq d Q on q w x :
  lists d Q on -> on x = Some (q, w) -> exists l d', unfile q w x d = Some (tt, d') /\
  lists d' (with_list Q q w l) (with_on on x None) /\ only_links d d' /\ peer d' = peer d.
Proof.
  intros HL Hon. pose proof Hon as Hin%(ls_on _ _ _ HL). destruct (pools d !! q) as [p|] eqn:Hp; [|rewrite (ls_none _ _ _ HL) in Hin by done; by apply not_elem_of_nil in Hin].
  pose proof (ls_seg _ _ _ HL q p w Hp) as Hseg. destruct (seg_split _ _ _ _ Hseg Hin) as (l1 & l2 & El & Hx1 & Hx2 & Hs1).
  pose proof (seg_short _ _ _ Hseg) as Hlen. destruct (seg_in _ _ _ _ _ Hseg Hin) as [t (s & Hs & _)%nx_inv].
  rewrite El in Hseg, Hlen. rewrite length_app in Hlen. simpl in Hlen.
  pose proof (fun d' l H => lists_relinked d d' Q on x q w l None HL (or_intror Hon) (mk_is_Some _ _ Hp) H) as HR.
  unfold unfile. rewrite (bind4_eq _ _ _ _ _ (set_pool4_eq _ _ _ _ Hp)). unfold take_off.
  rewrite (bind4_eq _ _ _ (count4 w (-1) p) (upd_pool q (count4 w (-1) p) d)) by (apply pool_at_eq; simpl; apply lookup_insert_eq).
  rewrite get4_bind, heads_count4.
  erewrite bind4_eq; [|apply find_on_eq; [exact Hs1 | done | simpl; lia]].
  erewrite bind4_eq by (apply lease_at_eq; exact Hs).
  destruct (decide (l1 = [])) as [->|Hne].
  - rewrite app_nil_l in Hseg, El. pose proof (seg_head _ _ _ _ Hseg) as Eh. simpl in Eh. eexists l2, _. split_and!.
    + simpl. erewrite bind4_eq by (apply set_pool4_eq; simpl; apply lookup_insert_eq). by apply set_lease4_eq.
    + apply HR. eapply (unlink_first _ _ _ _ _ p); [done | done | apply repooled_count | apply heads_count4 | done | by rewrite <- Eh | done].
    + by apply (only_links_upd _ _ x s).
    + done.
  - destruct (exists_last Hne) as (l0 & y & ->). assert (y <> x) as Hyx by set_solver. rewrite <- app_assoc in Hseg, El. cbn [app] in Hseg, El.
    destruct (seg_in _ _ _ _ y Hseg ltac:(set_solver)) as [ty (sy & Hy & _)%nx_inv]. unfold last_or. rewrite last_snoc. eexists (l0 ++ y :: l2), _. split_and!.
    + simpl. erewrite bind4_eq by (by apply set_lease4_eq). apply set_lease4_eq. by rewrite lookup_upd_lease, decide_False.
    + apply HR. eapply unlink_behind; [exact Hp | done | apply repooled_count | apply heads_count4 | done..].
    + apply (only_links_upd _ _ x s); [by apply (only_links_upd _ _ y sy) | by rewrite lookup_upd_lease, decide_False | done].
    + done.
Qed.

Lemma unfile_inv d Q on q w x u d' :
  lists d Q on -> unfile q w x d = Some (u, d') -> on x = Some (q, w).
Proof.
  intros HL H. apply (ls_on _ _ _ HL). destruct (decide (x ∈ Q q w)) as [|Hn]; [done|]. exfalso. unfold unfile in H. step4 H.
  unfold take_off in H. do 2 step4 H. step4 H. simpl in Hm. rewrite lookup_insert_eq in Hm. simplify_eq. rewrite heads_count4 in Hm0.
  erewrite find_on_not in Hm0; [done | by apply (ls_seg _ _ _ HL) | done].
Qed.

(** ** On a list *)

Lemma linked d d' Q q w x p p' l1 l2 :
  pools d !! q = Some p -> pools d' !! q = Some p' -> (forall q', q' <> q -> pools d' !! q' = pools d !! q') -> repooled w 1 p p' ->
  seg (nx d') (p_heads p' w) (l1 ++ x :: l2) None -> Q q w = l1 ++ l2 -> (forall z, z <> x -> z ∉ l1 ++ l2 -> nx d' z = nx d z) ->
  only_links d d' -> ss_qfollow d' = ss_qfollow d -> relinked d d' Q x q w (l1 ++ x :: l2) (Some (q, w)).
Proof.
  intros Hp Hp' Hps HR Hseg El Hnx Hlk Hqf. split; [|done|by right| | | | |done].
  - intros p0 H0. rewrite Hp in H0. injection H0 as <-. exists p'. split_and!; [done..|]. rewrite El, !length_app. simpl.
    by replace (_ - _) with 1 by lia.
  - intros y. rewrite El. case_decide; set_solver.
  - intros y Hy Hn. apply Hnx; [done | by rewrite <- El].
  - done.
  - intros y. specialize (Hlk y). destruct (leases d !! y), (leases d' !! y); simpl in *; [|done..]. f_equal. apply (inj Some) in Hlk.
    by apply (f_equal l_pool) in Hlk.
Qed.

(** [x] points to what follows, if anything does. *)
Lemma set_next_eq d x s t : leases d !! x = Some s -> l_next s = None -> exists d',
  (match t with Some h => set_lease4 x (set_l_next (Some h)) | None => mret tt end) d = Some (tt, d') /\
  nx d' x = Some t /\ (forall z, z <> x -> leases d' !! z = leases d !! z) /\ only_links d d' /\
  pools d' = pools d /\ peer d' = peer d /\ ss_qfollow d' = ss_qfollow d.
Proof.
  intros Hs Hn. destruct t as [h|].
  - eexists. split; [by apply set_lease4_eq|]. split_and!; try done; [by rewrite nx_upd, decide_True | | by apply (only_links_upd _ _ x s)].
    intros z Hz. by rewrite lookup_upd_lease, decide_False.
  - exists d. split_and!; try done. unfold nx. by rewrite Hs, <- Hn.
Qed.

(** Link [x] in, in a state [d2] where only its count and its sort time have been set. *)
Section LinkIn.
Context (d d2 : srv) (Q : id -> queue -> list id) (q : id) (w : queue) (x : id) (p : pool) (s2 : lease).
Context (Hp : pools d !! q = Some p) (Ed2 : d2 = upd_lease x s2 (upd_pool q (count4 w 1 p) d)).
Context (Hlk : only_links d d2) (Hn2 : l_next s2 = None).

Lemma link_in_first l : seg (nx d) (p_heads p w) l None -> Q q w = l -> x ∉ l ->
  exists d', link_in q w None x d2 = Some (tt, d') /\ relinked d d' Q x q w (x :: l) (Some (q, w)) /\ only_links d d' /\ peer d' = peer d.
Proof.
  intros Hseg El Hx. destruct (set_next_eq d2 x s2 (p_heads p w)) as (d3 & H3 & Hnx & Hl & Hlk3 & Hps & Hpe & Hqf); [subst; apply lookup_insert_eq | done |].
  assert (pools d2 !! q = Some (count4 w 1 p)) as Hp2 by (subst; apply lookup_insert_eq). set (p' := set_p_head w (Some x) (count4 w 1 p)).
  assert (forall z, z <> x -> nx d3 z = nx d z) as Hz by (intros z Hz; unfold nx; rewrite Hl by done; subst; by rewrite lookup_upd_lease, decide_False).
  assert (only_links d d3) by (by transitivity d2). exists (upd_pool q p' d3). split_and!; [| |done|by simpl; rewrite Hpe, Ed2].
  - unfold link_in. rewrite (bind4_eq _ _ _ _ _ (pool_at_eq _ _ _ Hp2)), heads_count4, (bind4_eq _ _ _ _ _ H3). apply set_pool4_eq. by rewrite Hps.
  - apply (linked _ _ _ _ _ _ p p' [] l); try done.
    + apply lookup_insert_eq.
    + intros q' Hq'. simpl. rewrite lookup_insert_ne, Hps, Ed2 by done. simpl. by rewrite lookup_insert_ne.
    + apply repooled_head, repooled_count.
    + simpl. rewrite decide_True by done. by apply (seg_link_first (nx d) _ (p_heads p w)).
    + intros z ? _. by apply Hz.
    + simpl. by rewrite Hqf, Ed2.
Qed.

Lemma link_in_behind l0 y l : seg (nx d) (p_heads p w) (l0 ++ y :: l) None -> Q q w = l0 ++ y :: l -> x ∉ l0 ++ y :: l ->
  exists d', link_in q w (Some y) x d2 = Some (tt, d') /\ relinked d d' Q x q w ((l0 ++ [y]) ++ x :: l) (Some (q, w)) /\ only_links d d' /\ peer d' = peer d.
Proof.
  intros Hseg El Hx. assert (y <> x) as Hyx by set_solver. destruct (seg_in _ _ _ _ y Hseg ltac:(set_solver)) as [t (sy & Hy & Ht)%nx_inv].
  destruct (set_next_eq d2 x s2 t) as (d3 & H3 & Hnx & Hl & Hlk3 & Hps & Hpe & Hqf); [subst; apply lookup_insert_eq | done |].
  assert (leases d2 !! y = Some sy) as Hy2 by (subst; by rewrite lookup_upd_lease, decide_False).
  assert (leases d3 !! y = Some sy) as Hy3 by (by rewrite Hl).
  assert (forall z, z <> x -> nx d3 z = nx d z) as Hz by (intros z Hz; unfold nx; rewrite Hl by done; subst; by rewrite lookup_upd_lease, decide_False).
  assert (only_links d d3) by (by transitivity d2).
  exists (upd_lease y (set_l_next (Some x) sy) d3). split_and!; [| |by apply (only_links_upd _ _ y sy)|by simpl; rewrite Hpe, Ed2].
  - simpl. rewrite (bind4_eq _ _ _ _ _ (lease_at_eq _ _ _ Hy2)), Ht, (bind4_eq _ _ _ _ _ H3). by apply set_lease4_eq.
  - apply (linked _ _ _ _ _ _ p (count4 w 1 p) (l0 ++ [y]) l); rewrite <- ?app_assoc; cbn [app]; try done.
    + simpl. rewrite Hps, Ed2. apply lookup_insert_eq.
    + intros q' Hq'. simpl. rewrite Hps, Ed2. simpl. by rewrite lookup_insert_ne.
    + apply repooled_count.
    + rewrite heads_count4. apply (seg_link_behind (nx d)); [done | done | by rewrite nx_upd, decide_True | |].
      * rewrite nx_upd, decide_False, Hnx by done. unfold nx. by rewrite Hy, <- Ht.
      * intros z Hzx Hzy. rewrite nx_upd, decide_False by done. by apply Hz.
    + intros z Hzx Hn. rewrite nx_upd, decide_False by set_solver. by apply Hz.
    + by apply (only_links_upd _ _ y sy).
    + simpl. by rewrite Hqf, Ed2.
Qed.

Lemma link_in_eq l1 l2 : seg (nx d) (p_heads p w) (l1 ++ l2) None -> Q q w = l1 ++ l2 -> x ∉ l1 ++ l2 ->
  exists d', link_in q w (last_or l1 None) x d2 = Some (tt, d') /\ relinked d d' Q x q w (l1 ++ x :: l2) (Some (q, w)) /\ only_links d d' /\ peer d' = peer d.
Proof.
  destruct (decide (l1 = [])) as [->|Hne]; [apply link_in_first|]. destruct (exists_last Hne) as (l0 & y & ->). unfold last_or. rewrite last_snoc.
  rewrite <- (app_assoc l0 [y] l2). apply link_in_behind.
Qed.

End LinkIn.

Lemma ks_link_in q w prev l : Keeps (same_of l_sort_time) (link_in q w prev l).
Proof. unfold link_in. keeps. Qed.

Lemma ks_unfile q w l : Keeps (same_of l_sort_time) (unfile q w l).
Proof. unfold unfile, take_off. keeps. Qed.

Lemma failover_peer_eq d s q p : l_pool s = Some q -> pools d !! q = Some p ->
  failover_peer s d = Some (if p_failover_peer p then Some (peer d) else None, d).
Proof. intros Hq Hp. unfold failover_peer. rewrite Hq, (bind4_eq _ _ _ _ _ (pool_at_eq _ _ _ Hp)). done. Qed.

Lemma peer_count4 w n p : p_failover_peer (count4 w n p) = p_failover_peer p.
Proof. by destruct w. Qed.

(** A lease that is on no list goes onto the list of its state, behind the leases that sort before it. *)
Lemma lease_enqueue_eq d Q on x s q w p :
  lists d Q on -> on x = None -> leases d !! x = Some s -> l_pool s = Some q -> queue_of s = Some w -> pools d !! q = Some p ->
  let time := sort_time_of (if p_failover_peer p then Some (peer d) else None) s in
  exists l1 l2 d', Q q w = l1 ++ l2 /\ lease_enqueue x d = Some (true, d') /\
  lists d' (with_list Q q w (l1 ++ x :: l2)) (with_on on x (Some (q, w))) /\ only_links d d' /\ peer d' = peer d /\
  Forall (sorts_before d time) l1 /\ (forall y l3, l2 = y :: l3 -> ~ sorts_before d time y) /\
  same_of l_sort_time (upd_lease x (set_l_sort_time time s) d) d'.
Proof.
  intros HL Hon Hs Hq Hw Hp time. pose proof (ls_seg _ _ _ HL q p w Hp) as Hseg. pose proof (ls_off _ _ _ HL x s Hs Hon) as Hn.
  assert (x ∉ Q q w) as Hx by (intros ?%(ls_on _ _ _ HL); congruence). set (s2 := set_l_sort_time time s).
  set (d2 := upd_lease x s2 (upd_pool q (count4 w 1 p) d)).
  assert (forall z, nx d2 z = nx d z) as Hnx2 by (intros z; unfold d2; rewrite nx_upd; case_decide; [subst z; unfold nx; by rewrite Hs | done]).
  assert (only_links d d2) as Hlk by (by apply (only_links_upd _ _ x s)).
  destruct (place_at_eq (S (size (leases d2))) (p_heads p w) None (Q q w) time d2) as (l1 & l2 & El & Hpl & H1 & H2).
  { eapply seg_ext; [|exact Hseg]. intros z _. apply Hnx2. }
  { apply seg_short in Hseg. unfold d2. simpl. rewrite map_size_insert_Some by (by exists s). lia. }
  assert (forall y, y ∈ Q q w -> sorts_before d2 time y <-> sorts_before d time y) as Hsb.
  { intros y Hy. unfold sorts_before, d2. rewrite lookup_upd_lease, decide_False by (by intros ->). done. }
  destruct (link_in_eq d d2 Q q w x p s2 Hp eq_refl Hlk Hn l1 l2) as (d' & Hl & HR & Hlk' & Hpe); [by rewrite <- El | done | by rewrite <- El |].
  set (d3 := set_last_lq (Some (q, w)) (set_last_insert_point (Some x) d')). exists l1, l2, d3. split_and!.
  - done.
  - unfold lease_enqueue. rewrite (bind4_eq _ _ _ _ _ (lease_at_eq _ _ _ Hs)), Hq, Hw, (bind4_eq _ _ _ _ _ (set_pool4_eq _ _ _ _ Hp)).
    rewrite (bind4_eq _ _ _ (if p_failover_peer p then Some (peer d) else None) (upd_pool q (count4 w 1 p) d))
      by (rewrite <- (peer_count4 w 1); by apply (failover_peer_eq (upd_pool q (count4 w 1 p) d) s q); [|apply lookup_insert_eq]).
    cbv zeta. fold time. rewrite (bind4_eq _ _ _ tt d2) by (by apply set_lease4_eq).
    rewrite (bind4_eq _ _ _ (count4 w 1 p) d2) by (apply pool_at_eq, lookup_insert_eq). rewrite heads_count4.
    rewrite !get4_bind. simpl (ss_qfollow d2). rewrite (ls_qfollow _ _ _ HL).
    rewrite (bind4_eq _ _ _ (None, p_heads p w) d2) by (destruct (last_insert_point d2); done). rewrite get4_bind. simpl fst. simpl snd.
    by rewrite (bind4_eq _ _ _ _ _ Hpl), (bind4_eq _ _ _ _ _ Hl).
  - apply (lists_same d'); [by apply quiet_rest|]. apply (lists_relinked d); [done | by left | by exists p | done].
  - done.
  - done.
  - eapply Forall_impl; [apply Forall_and; split; [exact H1 | by apply (Forall_forall (fun y => y ∈ Q q w)); intros; rewrite El; set_solver]|].
    intros y [Hy ?]. by apply Hsb.
  - intros y l3 E Hy. apply (H2 y l3 E), Hsb; [rewrite El, E; set_solver | done].
  - apply ks_link_in in Hl. transitivity d2; [done|]. transitivity d'; [exact Hl | done].
Qed.

Lemma lease_enqueue_none d x s : leases d !! x = Some s -> place s = None -> lease_enqueue x d = Some (false, d).
Proof.
  intros Hs Hp. unfold lease_enqueue, place in *. rewrite (bind4_eq _ _ _ _ _ (lease_at_eq _ _ _ Hs)). destruct (l_pool s); [|done].
  simpl in Hp. by destruct (queue_of s).
Qed.
