(* ===== verification/V4Moves.v ===== *)
(** * Leases stay on their lists

    [supersede_lease] and what calls it keep every lease on the list of its state. *)

From S2P Require Import Prelude BindingStates FailoverLeases V4State V4Queues V4Leases V4Machine V4Handlers V4Chain V4Laws V4Frames V4Lists.

#[local] Open Scope Z_scope.

(** Every lease but [x] is where it belongs; and [x] is on no list. *)
Definition filed_but (x : id) (d : srv) : Prop :=
  exists Q on, lists d Q on /\ forall y s, y <> x -> leases d !! y = Some s -> on y = place s.
Definition off_lists (x : id) (d : srv) : Prop :=
  exists Q on, lists d Q on /\ on x = None /\ forall y s, y <> x -> leases d !! y = Some s -> on y = place s.

Lemma files_filed_but x d : files_ok d -> filed_but x d.
Proof. intros (Q & on & HL & H). exists Q, on. eauto. Qed.

Lemma off_filed_but x d : off_lists x d -> filed_but x d.
Proof. intros (Q & on & HL & _ & H). by exists Q, on. Qed.

(** The place of another lease. *)
Lemma same_but_place x d d' y s' : same_but (eq x) d d' -> y <> x -> leases d' !! y = Some s' -> exists s, leases d !! y = Some s /\ place s = place s'.
Proof.
  intros [Hl Hq] Hy E. destruct (same_lists_lease _ _ _ _ Hl E) as (s & Hs & Ev). exists s. split; [done|]. symmetry. apply place_same; [done|].
  specialize (Hq y). rewrite E, Hs in Hq. specialize (Hq ltac:(by intros <-)). by apply (inj Some).
Qed.

Lemma filed_but_same x d d' : same_but (eq x) d d' -> filed_but x d -> filed_but x d'.
Proof.
  intros Hd (Q & on & HL & H). exists Q, on. split; [eapply lists_same; [apply Hd | done]|]. intros y s' Hy E.
  destruct (same_but_place _ _ _ _ _ Hd Hy E) as (s & Hs & <-). by apply H.
Qed.

Lemma off_lists_same x d d' : same_but (eq x) d d' -> off_lists x d -> off_lists x d'.
Proof.
  intros Hd (Q & on & HL & Hx & H). exists Q, on. split; [eapply lists_same; [apply Hd | done]|]. split; [done|]. intros y s' Hy E.
  destruct (same_but_place _ _ _ _ _ Hd Hy E) as (s & Hs & <-). by apply H.
Qed.

Lemma apart_place s s' : apart s' = apart s -> place s' = place s.
Proof. intros E. change (place (apart s') = place (apart s)). by rewrite E. Qed.

Lemma unfile_off q w x d u d' : filed_but x d -> unfile q w x d = Some (u, d') -> off_lists x d'.
Proof.
  intros (Q & on & HL & H) E. pose proof (unfile_inv _ _ _ _ _ _ _ _ HL E) as Hx.
  destruct (unfile_eq _ _ _ _ _ _ HL Hx) as (l & d1 & E1 & HL' & Hlk & _). rewrite E in E1. injection E1 as _ <-.
  eexists _, _. split; [exact HL'|]. unfold with_on. split; [by rewrite decide_True|]. intros y s' Hy Hs'. rewrite decide_False by done.
  destruct (same_of_back _ _ _ _ _ Hlk Hs') as (s & Hs & Ea). rewrite (apart_place _ _ Ea). by apply H.
Qed.

Lemma enqueue_files x d b d' : off_lists x d -> lease_enqueue x d = Some (b, d') -> files_ok d'.
Proof.
  intros (Q & on & HL & Hx & H) E. assert (exists s, leases d !! x = Some s) as [s Hs].
  { unfold lease_enqueue in E. step4 E. eauto. }
  destruct (place s) as [[q w]|] eqn:Epl.
  - unfold place in Epl. destruct (l_pool s) as [q'|] eqn:Hq; [|done]. destruct (queue_of s) as [w'|] eqn:Hw; [|done]. simpl in Epl. injection Epl as -> ->.
    destruct (ls_pool _ _ _ HL x s q Hs Hq) as [p Hp].
    destruct (lease_enqueue_eq d Q on x s q w p HL Hx Hs Hq Hw Hp) as (l1 & l2 & d1 & _ & E1 & HL' & Hlk & _). rewrite E in E1. injection E1 as _ <-.
    eexists _, _. split; [exact HL'|]. intros y s' Hs'. destruct (same_of_back _ _ _ _ _ Hlk Hs') as (s0 & Hs0 & Ea).
    rewrite (apart_place _ _ Ea). unfold with_on. case_decide as Hy; [|by apply H]. subst y. rewrite Hs in Hs0. injection Hs0 as <-.
    unfold place. by rewrite Hq, Hw.
  - rewrite (lease_enqueue_none _ _ _ Hs Epl) in E. injection E as _ <-. exists Q, on. split; [done|]. intros y s' Hs'.
    destruct (decide (y = x)) as [->|Hy]; [|by apply H]. rewrite Hs in Hs'. injection Hs' as <-. congruence.
Qed.

#[export] Hint Resolve kb_copy_data kb_transition : keeps.

(** What only the queues see keeps the lists. *)
Lemma files_ok_keep {A} (m : M4 A) d a d' : Keeps same_files m -> m d = Some (a, d') -> files_ok d -> files_ok d'.
Proof. intros Hm E. by apply (keeps_files_ok m Hm d a d'). Qed.

Section Moves.
Context (io : nat -> bool) (random : nat -> Z) (cur_time : Z).

Lemma move_lease_files x q w commit propogate pimmediate d b d' :
  filed_but x d -> move_lease io cur_time x q w commit propogate pimmediate d = Some (b, d') -> files_ok d'.
Proof.
  intros Hd H. unfold move_lease in H. apply bind4_inv in H as (u1 & d1 & H1 & H). apply bind4_inv in H as (u2 & d2 & H2 & H).
  assert (off_lists x d2) as Hd2 by (eapply unfile_off; [exact Hd|]; unfold unfile; rewrite (bind4_eq _ _ _ _ _ H1); exact H2).
  apply bind4_inv in H as (u3 & d3 & H3 & H). assert (off_lists x d3) as Hd3.
  { eapply off_lists_same; [|exact Hd2]. revert H3. assert (Keeps (same_but (eq x)) (when4 (commit || negb pimmediate) (make_binding_state_transition x))) as K by keeps. apply K. }
  apply bind4_inv in H as (ok & d4 & H4 & H). pose proof (enqueue_files _ _ _ _ Hd3 H4) as Hd4. revert H Hd4. apply keeps_files_ok. keeps.
Qed.

Definition no_queue (s : lease) : bool := bool_decide (queue_of s = None).

Lemma all_no_queue {A} (m : M4 A) : Keeps same_all m -> Keeps (same_of no_queue) m.
Proof.
  apply keeps_sub. intros d d' [[_ H] _] x. specialize (H x ltac:(by intros [])). unfold no_queue.
  destruct (leases d !! x), (leases d' !! x); simpl in *; try done. apply (inj Some) in H. by rewrite H.
Qed.
Hint Resolve all_no_queue : keeps.

Lemma no_queue_binding s s' : l_binding_state s' = l_binding_state s -> no_queue s' = no_queue s.
Proof.
  intros E. unfold no_queue, queue_of. rewrite E. apply bool_decide_ext.
  repeat (case_match; try done).
Qed.

Lemma kn_copy_data x t : Keeps (same_of no_queue) (copy_data x t).
Proof. unfold copy_data. keeps. apply keeps_set_lease. intros s. by apply no_queue_binding. Qed.

(** Between the changes of its members and its move: if [x] belongs nowhere, it is nowhere. *)
Definition to_move (x : id) (d : srv) : Prop :=
  filed_but x d /\ forall s, leases d !! x = Some s -> place s = None -> files_ok d.

Lemma files_to_move x d : files_ok d -> to_move x d.
Proof. intros H. split; [by apply files_filed_but | done]. Qed.

Lemma place_none s s' : lview s' = lview s -> no_queue s' = no_queue s -> place s' = None -> place s = None.
Proof.
  unfold place, no_queue, lview. intros [= -> _] E. destruct (l_pool s); [|done]. simpl.
  destruct (queue_of s'), (queue_of s); try done; by rewrite !bool_decide_false in E || (rewrite bool_decide_true, bool_decide_false in E).
Qed.

Lemma to_move_same x d d' : same_but (eq x) d d' -> same_of no_queue d d' -> to_move x d -> to_move x d'.
Proof.
  intros Hd Hn [H1 H2]. split; [by eapply filed_but_same|]. intros s' Hs' Hp'. destruct Hd as [Hl Hq].
  destruct (same_lists_lease _ _ _ _ Hl Hs') as (s & Hs & Ev). destruct (same_of_some _ _ _ _ _ Hn Hs) as (s1 & Hs1 & En).
  rewrite Hs' in Hs1. injection Hs1 as <-. pose proof (place_none s s' (eq_sym Ev) En Hp') as Hp.
  destruct (H2 s Hs Hp) as (Q & on & HL & Hon). exists Q, on. split; [by eapply lists_same|]. intros y sy Hy.
  destruct (decide (y = x)) as [->|Hyx]; [rewrite Hs' in Hy; injection Hy as <-; by rewrite (Hon x s Hs), Hp, Hp'|].
  destruct (same_but_place x d d' y sy) as (s0 & Hs0 & <-); [by split | done | done | by apply Hon].
Qed.

Lemma copy_data_to_move x t d u d' : files_ok d -> copy_data x t d = Some (u, d') -> to_move x d'.
Proof. intros Hd H. eapply to_move_same; [by eapply kb_copy_data | by eapply kn_copy_data | by apply files_to_move]. Qed.

(** The two functions that call each other. *)
Lemma supersede_files n :
  (forall x t c p i, Keeps (inv_rel files_ok) (supersede_lease io random cur_time n x t c p i)) /\
  (forall q, Keeps (inv_rel files_ok) (pool_timer io random cur_time n q)) /\
  (forall l e, Keeps (inv_rel files_ok) (timer_walk io random cur_time n l e)).
Proof.
  induction n as [|n (IHs & IHp & IHw)]; [split_and!; intros; apply keeps_fatal|]. split_and!.
  - intros x t c p i d b d' H Hd. cbn [supersede_lease pool_timer timer_walk] in H. destruct (i && negb c); [by injection H as _ <-|].
    match type of H with context [match t with Some t => if _ then _ else copy_data _ _ ;; ?m | None => _ end] => set (move := m) in H end.
    assert (forall d b d', move d = Some (b, d') -> to_move x d -> files_ok d') as Hmove.
    { clear d b d' H Hd. intros d b d' H Hd. unfold move in H. apply bind4_inv in H as (u & d1 & H1 & H).
      assert (to_move x d1) as [Hd1 Hd1'].
      { eapply to_move_same; [| |exact Hd]; revert H1; [assert (K : Keeps (same_but (eq x)) (when4 p (set_lease4 x (set_l_atsfp 0)))) by keeps |
          assert (K : Keeps (same_of no_queue) (when4 p (set_lease4 x (set_l_atsfp 0)))) by keeps]; apply K. }
      step4 H. destruct (l_pool a) as [q|] eqn:Hq, (queue_of a) as [w|] eqn:Hw;
        try (injection H as _ <-; apply (Hd1' a Hm); unfold place; by rewrite Hq; simpl; rewrite ?Hw).
      apply bind4_inv in H as (ok & d2 & H2 & H). pose proof (move_lease_files _ _ _ _ _ _ _ _ _ Hd1 H2) as Hd2. revert H Hd2.
      match goal with |- ?m d2 = _ -> _ => enough (Keeps (inv_rel files_ok) m) as K by apply K end.
      destruct ok; [|apply keeps_ret; apply _]. cbn [negb]. keeps; apply keeps_files_ok; keeps. }
    destruct t as [t|]; [|by eapply Hmove; [|apply files_to_move]]. destruct (flag t STATIC_LEASE); [by injection H as _ <-|].
    apply bind4_inv in H as (u & d1 & H1 & H). eapply Hmove; [exact H|]. by eapply copy_data_to_move.
  - intros q. cbn [supersede_lease pool_timer timer_walk]. apply keeps_bind; [apply _| |intros e; apply keeps_files_ok; keeps].
    apply keeps_foldr; [|intros; keeps]. intros w k Hk e. keeps.
  - intros l e. cbn [supersede_lease pool_timer timer_walk]. keeps. apply keeps_files_ok. keeps.
Qed.

End Moves.
