(* ===== verification/V4Pending.v ===== *)
(** * The two failover queues

    The queue of updates to send and the queue of updates without acknowledgement are two lists
    of leases, [U] and [A]: [pending d U A] relates them to the pointers and flags of the code. *)

From S2P Require Import Prelude BindingStates FailoverLeases V4State V4Queues V4Leases V4Machine V4Handlers V4Chain V4Laws V4Frames V4Lists.

#[local] Open Scope Z_scope.

Definition np (d : srv) (x : id) : option (option id) := l_next_pending <$> leases d !! x.
Definition fl (b : Z) (d : srv) (x : id) : option bool := (fun s => flag s b) <$> leases d !! x.

Definition ends_of (l : list id) : qends := mkEnds (head l) (last l).

Record pending (d : srv) (U A : list id) : Prop := {
  pd_peer : fview (peer d) = (ends_of U, ends_of A, Z.of_nat (length A));
  pd_segU : seg (np d) (head U) U None;
  pd_segA : seg (np d) (head A) A None;
  pd_disj x : x ∈ U -> x ∉ A;
  pd_flagU x b : fl ON_UPDATE_QUEUE d x = Some b -> b = bool_decide (x ∈ U);
  pd_flagA x b : fl ON_ACK_QUEUE d x = Some b -> b = bool_decide (x ∈ A);
  pd_off x t : x ∉ U -> x ∉ A -> np d x = Some t -> t = None
}.

Definition queues_ok (d : srv) : Prop := exists U A, pending d U A.

(** ** What does not change it *)

Lemma qview_same d d' x : same_queues d d' ->
  np d' x = np d x /\ fl ON_UPDATE_QUEUE d' x = fl ON_UPDATE_QUEUE d x /\ fl ON_ACK_QUEUE d' x = fl ON_ACK_QUEUE d x.
Proof.
  intros [H _]. specialize (H x). unfold np, fl. destruct (leases d !! x), (leases d' !! x); simpl in *; [|done..].
  injection H as -> -> ->. done.
Qed.

Lemma pending_same d d' U A : same_queues d d' -> pending d U A -> pending d' U A.
Proof.
  intros Hd [H1 H2 H3 H4 H5 H6 H7]. pose proof (fun x => qview_same d d' x Hd) as Hv. split.
  - by rewrite (sq_peer _ _ Hd).
  - eapply seg_ext; [|exact H2]. intros x _. apply Hv.
  - eapply seg_ext; [|exact H3]. intros x _. apply Hv.
  - done.
  - intros x b. destruct (Hv x) as (_ & -> & _). apply H5.
  - intros x b. destruct (Hv x) as (_ & _ & ->). apply H6.
  - intros x t Hu Ha. destruct (Hv x) as (-> & _ & _). by apply H7.
Qed.

Lemma keeps_queues_ok {A} (m : M4 A) : Keeps same_queues m -> Keeps (inv_rel queues_ok) m.
Proof. apply keeps_sub. intros d d' H (U & A' & Hd). exists U, A'. by eapply pending_same. Qed.

(** ** Changes of the two lists *)

Lemma head_snoc (l : list id) x : head (l ++ [x]) = match head l with Some h => Some h | None => Some x end.
Proof. by destruct l. Qed.

(** [x] behind a chain. *)
Lemma seg_push nx nx' l x :
  seg nx (head l) l None -> x ∉ l -> nx' x = Some None -> (forall y, y <> x -> nx' y = if decide (last l = Some y) then Some (Some x) else nx y) ->
  seg nx' (head (l ++ [x])) (l ++ [x]) None.
Proof.
  intros H Hx Ex E. destruct (decide (l = [])) as [->|Hne]; [simpl; eauto|]. destruct (exists_last Hne) as (l0 & y & ->).
  rewrite head_snoc. assert (head (l0 ++ [y]) = match head (l0 ++ [y]) with Some h => Some h | None => Some x end) as <- by (by destruct l0).
  rewrite <- app_assoc. cbn [app]. rewrite last_snoc in E. assert (y <> x) by set_solver. pose proof H as [_ Hy]%seg_snoc.
  eapply seg_link_behind; [exact H | done | by rewrite E, decide_True | by rewrite Ex | ].
  intros z Hz Hzy. rewrite E by done. by rewrite decide_False by congruence.
Qed.

(** A lease off the front, and from the middle. *)
Lemma seg_pop nx nx' x l : seg nx (Some x) (x :: l) None -> (forall y, y <> x -> nx' y = nx y) -> nx x = Some (head l) /\ seg nx' (head l) l None.
Proof.
  intros H E. pose proof H as (_ & t & Ht & Hs). pose proof (seg_head _ _ _ _ Hs) as Eh. assert (t = head l) as -> by (by destruct l).
  split; [done|]. by eapply seg_unlink_first.
Qed.

(** The queue [x] goes on; the other queue is not concerned. *)
Lemma seg_other nx nx' h l : seg nx h l None -> (forall y, y ∈ l -> nx' y = nx y) -> seg nx' h l None.
Proof. intros H E. by eapply seg_ext. Qed.

(** Push [x] on one queue: [u] is whether it is the queue of updates. *)
Lemma pending_push (u : bool) d d' U A x :
  pending d U A -> x ∉ U -> x ∉ A -> is_Some (leases d !! x) ->
  let U' := if u then U ++ [x] else U in let A' := if u then A else A ++ [x] in
  fview (peer d') = (ends_of U', ends_of A', Z.of_nat (length A')) ->
  (forall y, np d' y = if decide (last (if u then U else A) = Some y) then Some (Some x) else np d y) ->
  (forall y, fl ON_UPDATE_QUEUE d' y = if u then (if decide (y = x) then Some true else fl ON_UPDATE_QUEUE d y) else fl ON_UPDATE_QUEUE d y) ->
  (forall y, fl ON_ACK_QUEUE d' y = if u then fl ON_ACK_QUEUE d y else (if decide (y = x) then Some true else fl ON_ACK_QUEUE d y)) ->
  pending d' U' A'.
Proof.
  intros Hd Hu Ha [s Hs] U' A' Hf Hnp HfU HfA.
  assert (forall y, last (if u then U else A) = Some y -> y ∈ (if u then U else A)) as Hlast.
  { intros y [l ->]%last_Some. set_solver. }
  assert (x ∉ (if u then U else A)) as Hx by (by destruct u).
  assert (np d' x = Some None) as Ex.
  { rewrite Hnp, decide_False by (intros ?%Hlast; done). unfold np. rewrite Hs. simpl. f_equal.
    apply (pd_off _ _ _ Hd x); [done | done |]. unfold np. by rewrite Hs. }
  split; [done| | | | | | ].
  - destruct u; [apply (seg_push (np d)); [apply Hd | done | done | intros; apply Hnp]|]. eapply seg_other; [apply Hd|].
    intros y Hy. rewrite Hnp, decide_False; [done|]. intros E%Hlast. by apply (pd_disj _ _ _ Hd y).
  - destruct u; [|apply (seg_push (np d)); [apply Hd | done | done | intros; apply Hnp]]. eapply seg_other; [apply Hd|].
    intros y Hy. rewrite Hnp, decide_False; [done|]. intros E%Hlast. by apply (pd_disj _ _ _ Hd y).
  - intros y Hy. pose proof (pd_disj _ _ _ Hd y) as Hdj. unfold U', A' in *. destruct u; set_solver.
  - intros y b. rewrite HfU. unfold U'. destruct u; [case_decide|]; [intros [= <-]; symmetry; apply bool_decide_true; set_solver | |apply (pd_flagU _ _ _ Hd)].
    intros E. rewrite (pd_flagU _ _ _ Hd _ _ E). apply bool_decide_ext. set_solver.
  - intros y b. rewrite HfA. unfold A'. destruct u; [apply (pd_flagA _ _ _ Hd)|]. case_decide; [intros [= <-]; symmetry; apply bool_decide_true; set_solver |].
    intros E. rewrite (pd_flagA _ _ _ Hd _ _ E). apply bool_decide_ext. set_solver.
  - intros y t HyU HyA. rewrite Hnp. rewrite decide_False; [apply (pd_off _ _ _ Hd); unfold U', A' in *; destruct u; set_solver|].
    intros E%Hlast. unfold U', A' in *. destruct u; set_solver.
Qed.

Lemma seg_remove nx nx' l1 x l2 :
  seg nx (head (l1 ++ x :: l2)) (l1 ++ x :: l2) None -> (forall y, y <> x -> nx' y = if decide (last l1 = Some y) then nx x else nx y) ->
  seg nx' (head (l1 ++ l2)) (l1 ++ l2) None.
Proof.
  intros H E. pose proof (seg_NoDup _ _ _ H) as HN. destruct (decide (l1 = [])) as [->|Hne].
  - apply (seg_pop nx nx' x l2); [done|]. intros y Hy. rewrite E by done. done.
  - destruct (exists_last Hne) as (l0 & y & ->). rewrite last_snoc in E. rewrite <- app_assoc in H |- *. cbn [app] in *.
    assert (x ∈ l0 ++ y :: x :: l2) as Hin by set_solver. destruct (seg_in _ _ _ _ x H Hin) as [t Ht].
    rewrite <- app_assoc in HN. cbn [app] in HN. rewrite NoDup_app, !NoDup_cons in HN. assert (y <> x) by set_solver.
    assert (head (l0 ++ y :: l2) = head (l0 ++ y :: x :: l2)) as -> by (by destruct l0).
    eapply seg_unlink_behind; [exact H | exact Ht | by rewrite E, decide_True |]. intros z Hz Hzy. rewrite E by done. by rewrite decide_False by congruence.
Qed.

Lemma pending_remove (u : bool) d d' U A l1 x l2 :
  pending d U A -> (if u then U else A) = l1 ++ x :: l2 ->
  let U' := if u then l1 ++ l2 else U in let A' := if u then A else l1 ++ l2 in
  fview (peer d') = (ends_of U', ends_of A', Z.of_nat (length A')) ->
  (forall y, np d' y = if decide (y = x) then Some None else if decide (last l1 = Some y) then np d x else np d y) ->
  (forall y, fl ON_UPDATE_QUEUE d' y = if u then (if decide (y = x) then Some false else fl ON_UPDATE_QUEUE d y) else fl ON_UPDATE_QUEUE d y) ->
  (forall y, fl ON_ACK_QUEUE d' y = if u then fl ON_ACK_QUEUE d y else (if decide (y = x) then Some false else fl ON_ACK_QUEUE d y)) ->
  pending d' U' A'.
Proof.
  intros Hd El U' A' Hf Hnp HfU HfA.
  assert (NoDup (l1 ++ x :: l2)) as HN by (rewrite <- El; destruct u; eapply seg_NoDup; apply Hd).
  rewrite NoDup_app, NoDup_cons in HN. destruct HN as (HN1 & HN2 & Hx2 & HN3).
  assert (x ∉ l1) as Hx1 by (intros Hin; apply (HN2 _ Hin); set_solver).
  assert (forall y, last l1 = Some y -> y ∈ l1) as Hlast by (intros y [l ->]%last_Some; set_solver).
  assert (forall y, y ∈ l1 ++ x :: l2 -> y ∉ (if u then A else U)) as Hdj.
  { intros y Hy Hy'. rewrite <- El in Hy. destruct u; [by apply (pd_disj _ _ _ Hd y) | by apply (pd_disj _ _ _ Hd y)]. }
  assert (seg (np d') (head (l1 ++ l2)) (l1 ++ l2) None) as Hsub.
  { apply (seg_remove (np d) _ _ x); [rewrite <- El; destruct u; apply Hd|]. intros y Hy. by rewrite Hnp, decide_False. }
  assert (forall h, seg (np d) h (if u then A else U) None -> seg (np d') h (if u then A else U) None) as Hoth.
  { intros h H. eapply seg_other; [exact H|]. intros y Hy. rewrite Hnp. rewrite !decide_False; [done | |]; [intros E%Hlast; apply (Hdj y) | intros ->; apply (Hdj x)]; done || set_solver. }
  split; [done | | | | | |].
  - destruct u; [done | apply Hoth; apply Hd].
  - destruct u; [apply Hoth; apply Hd | done].
  - intros y Hy Hy'. unfold U', A' in *. destruct u; [apply (Hdj y); set_solver | apply (Hdj y); set_solver].
  - intros y b. rewrite HfU. unfold U'. destruct u; [case_decide|]; [intros [= <-]; symmetry; apply bool_decide_false; set_solver | |apply (pd_flagU _ _ _ Hd)].
    intros E. rewrite (pd_flagU _ _ _ Hd _ _ E). apply bool_decide_ext. set_solver.
  - intros y b. rewrite HfA. unfold A'. destruct u; [apply (pd_flagA _ _ _ Hd)|]. case_decide; [intros [= <-]; symmetry; apply bool_decide_false; set_solver |].
    intros E. rewrite (pd_flagA _ _ _ Hd _ _ E). apply bool_decide_ext. set_solver.
  - intros y t HyU HyA. rewrite Hnp. case_decide as Hyx; [by intros [= <-]|]. case_decide as Hyl.
    + apply Hlast in Hyl. unfold U', A' in *. destruct u; set_solver.
    + apply (pd_off _ _ _ Hd); unfold U', A' in *; destruct u; set_solver.
Qed.

(** ** The lease of a run *)

Lemma np_upd d x s y : np (upd_lease x s d) y = if decide (y = x) then Some (l_next_pending s) else np d y.
Proof. unfold np. rewrite lookup_upd_lease. by case_decide. Qed.

Lemma fl_upd b d x s y : fl b (upd_lease x s d) y = if decide (y = x) then Some (flag s b) else fl b d y.
Proof. unfold fl. rewrite lookup_upd_lease. by case_decide. Qed.

Lemma pending_flags d U A x s : pending d U A -> leases d !! x = Some s ->
  flag s ON_UPDATE_QUEUE = bool_decide (x ∈ U) /\ flag s ON_ACK_QUEUE = bool_decide (x ∈ A) /\ np d x = Some (l_next_pending s).
Proof.
  intros Hd Hs. split_and!; [apply (pd_flagU _ _ _ Hd x) | apply (pd_flagA _ _ _ Hd x) |]; unfold fl, np; by rewrite Hs.
Qed.

Lemma pending_in d U A x : pending d U A -> x ∈ U \/ x ∈ A -> exists s, leases d !! x = Some s.
Proof.
  intros Hd H. assert (is_Some (np d x)) as [t Ht] by (destruct H; [by eapply seg_in; [apply (pd_segU _ _ _ Hd)|] | by eapply seg_in; [apply (pd_segA _ _ _ Hd)|]]).
  unfold np in Ht. destruct (leases d !! x) as [s|]; [eauto | done].
Qed.

(** ** Removing an acknowledged update *)

Lemma before_pending_eq n h l x d :
  seg (np d) h l (Some x) -> x ∉ l -> l <> [] -> (length l <= n)%nat ->
  before_pending n h x d = Some (last l, d).
Proof.
  revert h l. induction n as [|n IH]; intros h [|y l] Hseg Hx Hne Hn; simpl in Hn; [done | lia | done |].
  destruct Hseg as (-> & t & Ht & Hseg). unfold np in Ht. destruct (leases d !! y) as [s|] eqn:Hs; [|done]. injection Ht as Ht.
  simpl. rewrite (bind4_eq _ _ _ _ _ (lease_at_eq _ _ _ Hs)), Ht. destruct l as [|z l].
  - simpl in Hseg. subst t. by rewrite bool_decide_true.
  - pose proof Hseg as [-> _]. rewrite bool_decide_false by (intros [= ->]; set_solver). rewrite (IH _ (z :: l)); [|done | set_solver | done | simpl in Hn |- *; lia].
    by rewrite last_cons_cons.
Qed.

Lemma np_short d h l : seg (np d) h l None -> (length l <= size (leases d))%nat.
Proof.
  intros Hs. rewrite <- size_dom, <- (size_list_to_set (C := gset id)) by (by eapply seg_NoDup). apply subseteq_size.
  intros x Hx%elem_of_list_to_set. apply elem_of_dom. destruct (seg_in _ _ _ _ _ Hs Hx) as [t Ht]. unfold np in Ht.
  by destruct (leases d !! x).
Qed.

(** The end of the removal: the flag, the transaction id, the count. *)
Lemma forget_ack_eq io d x s : leases d !! x = Some s -> exists d',
  forget_ack io x d = Some (tt, d') /\
  same_queues (upd_peer (fun f => set_f_cur_unacked_updates (f_cur_unacked_updates f - 1) f) (upd_lease x (clear_flag ON_ACK_QUEUE s) d)) d'.
Proof.
  intros Hs. unfold forget_ack. rewrite (bind4_eq _ _ _ _ _ (set_lease4_eq _ _ _ _ Hs)).
  rewrite (bind4_eq _ _ _ tt (upd_lease x (set_l_last_xid 0 (clear_flag ON_ACK_QUEUE s)) (upd_lease x (clear_flag ON_ACK_QUEUE s) d)))
    by (apply set_lease4_eq; by rewrite lookup_upd_lease, decide_True).
  rewrite (bind4_eq _ _ _ _ _ (set_peer4_eq _ _)), get4_bind.
  set (d1 := upd_peer _ _). set (d0 := upd_peer _ (upd_lease x (clear_flag ON_ACK_QUEUE s) d)).
  assert (same_queues d0 d1) as H.
  { split; [|done]. intros y. unfold d0, d1. simpl. rewrite !lookup_insert. by repeat case_decide. }
  case_match; [|by exists d1]. eexists. split; [done|]. transitivity d1; [done|].
  by apply quiet_rest.
Qed.

Lemma ends_remove_first x (l : list id) : ends_of l = match head l with Some h => mkEnds (Some h) (last (x :: l)) | None => mkEnds None None end.
Proof. destruct l; [done|]. unfold ends_of. by rewrite last_cons_cons. Qed.

Lemma np_peer d f y : np (upd_peer f d) y = np d y.
Proof. done. Qed.
Lemma fl_peer b d f y : fl b (upd_peer f d) y = fl b d y.
Proof. done. Qed.

(** Reads the links and flags of a state that a run has built. *)
Ltac links :=
  repeat first [ rewrite np_peer | rewrite fl_peer | rewrite np_upd | rewrite fl_upd ].

(** [x] loses its flag, and its link is gone: the state behind a removal from the queue of acknowledgements. *)
Section AckRemove.
Context (io : nat -> bool) (d : srv) (U A1 A2 : list id) (x : id) (s : lease).
Context (Hd : pending d U (A1 ++ x :: A2)) (Hs : leases d !! x = Some s).

Lemma removed_pending d1 d' s1 :
  leases d1 !! x = Some s1 -> l_next_pending s1 = None -> flag s1 ON_UPDATE_QUEUE = flag s ON_UPDATE_QUEUE ->
  fview (peer d1) = (ends_of U, ends_of (A1 ++ A2), Z.of_nat (length (A1 ++ x :: A2))) ->
  (forall y, y <> x -> np d1 y = if decide (last A1 = Some y) then np d x else np d y) ->
  (forall b y, y <> x -> fl b d1 y = fl b d y) -> forget_ack io x d1 = Some (tt, d') -> pending d' U (A1 ++ A2).
Proof.
  intros Hs1 Hn Hu Hf Hnp Hfl E. destruct (forget_ack_eq io d1 x s1 Hs1) as (d2 & E2 & Hsame). rewrite E in E2. injection E2 as <-.
  eapply pending_same; [exact Hsame|]. apply (pending_remove false d _ U (A1 ++ x :: A2) A1 x A2); [done | done | | | |].
  - unfold fview in *. simpl in *. injection Hf as -> -> ->. rewrite !length_app. simpl. repeat f_equal; lia.
  - intros y. links. case_decide; [by simpl; rewrite Hn|]. by apply Hnp.
  - intros y. links. case_decide; [|by apply Hfl]. subst y. rewrite flag_clear_other by done. unfold fl. by rewrite Hs, Hu.
  - intros y. links. case_decide; [by rewrite flag_clear_same|]. by apply Hfl.
Qed.

Lemma forget_runs d1 s1 : leases d1 !! x = Some s1 -> exists d', forget_ack io x d1 = Some (tt, d').
Proof. intros H. destruct (forget_ack_eq io d1 x s1 H) as (d' & E & _). eauto. Qed.

End AckRemove.

Lemma remove_first io d U A2 x s : pending d U (x :: A2) -> leases d !! x = Some s ->
  exists d', dhcp_failover_ack_queue_remove io x d = Some (tt, d') /\ pending d' U A2.
Proof.
  intros Hd Hs. destruct (pending_flags _ _ _ _ _ Hd Hs) as (_ & HfA & Hnp). rewrite bool_decide_true in HfA by set_solver.
  pose proof (pd_peer _ _ _ Hd) as Hf. pose proof Hf as E. unfold fview in E. injection E as Eu Ea Ec.
  destruct (seg_pop (np d) (np d) x A2) as [Hx _]; [apply Hd | done |]. rewrite Hnp in Hx. injection Hx as Hx.
  unfold dhcp_failover_ack_queue_remove. rewrite (bind4_eq _ _ _ _ _ (lease_at_eq _ _ _ Hs)), HfA. cbn [negb]. rewrite get4_bind, Ea.
  rewrite bool_decide_true by done. rewrite Hx. destruct A2 as [|z A2']; cbn [head].
  - rewrite (bind4_eq _ _ _ _ _ (set_peer4_eq _ _)). destruct (forget_runs io x (upd_peer (fun f => set_f_ack_queue (mkEnds None None) f) d) s Hs) as [d' E].
    exists d'. split; [done|]. eapply (removed_pending io d U [] [] x s Hd Hs); [| | | | | |exact E]; try done.
    unfold fview. simpl. by rewrite Eu, Ec.
  - set (d1 := upd_lease x (set_l_next_pending None s) (upd_peer (fun f => set_f_ack_queue (set_q_head (Some z) (f_ack_queue f)) f) d)).
    assert (leases d1 !! x = Some (set_l_next_pending None s)) as Hx1 by apply lookup_insert_eq.
    destruct (forget_runs io x d1 _ Hx1) as [d' E]. exists d'. split.
    + rewrite (bind4_eq _ _ _ tt d1); [done|]. rewrite (bind4_eq _ _ _ _ _ (set_peer4_eq _ _)). by apply set_lease4_eq.
    + eapply (removed_pending io d U [] (z :: A2') x s Hd Hs); [exact Hx1 | done.. | | | |exact E].
      * unfold fview. simpl. rewrite Eu, Ec, Ea. done.
      * intros y Hy. unfold d1. links. by rewrite decide_False.
      * intros b y Hy. unfold d1. links. by rewrite decide_False.
Qed.

Lemma remove_behind io d U A1 A2 x s l0 y : pending d U (A1 ++ x :: A2) -> leases d !! x = Some s -> A1 = l0 ++ [y] ->
  exists d', dhcp_failover_ack_queue_remove io x d = Some (tt, d') /\ pending d' U (A1 ++ A2).
Proof.
  intros Hd Hs EA. destruct (pending_flags _ _ _ _ _ Hd Hs) as (_ & HfA & Hnp). rewrite bool_decide_true in HfA by set_solver.
  pose proof (pd_peer _ _ _ Hd) as Hf. pose proof Hf as E. unfold fview in E. injection E as Eu Ea Ec. pose proof (pd_segA _ _ _ Hd) as Hseg.
  pose proof (seg_NoDup _ _ _ Hseg) as (HN1 & HN2 & [Hx2 _]%NoDup_cons)%NoDup_app. pose proof (np_short _ _ _ Hseg) as Hlen.
  assert (x ∉ A1) as Hx1 by (intros Hin; apply (HN2 _ Hin); set_solver). pose proof Hseg as (m & Hs1 & -> & t & Ht & Hs2)%seg_app.
  rewrite Hnp in Ht. injection Ht as Ht. pose proof (seg_head _ _ _ _ Hs2) as Eh. rewrite <- Ht in Eh. clear t Ht Hs2.
  assert (y <> x) as Hyx by (rewrite EA in Hx1; set_solver).
  destruct (pending_in _ _ _ y Hd) as [sy Hy]; [right; rewrite EA; set_solver|].
  unfold dhcp_failover_ack_queue_remove. rewrite (bind4_eq _ _ _ _ _ (lease_at_eq _ _ _ Hs)), HfA. cbn [negb]. rewrite get4_bind, Ea. cbn [q_head ends_of].
  rewrite bool_decide_false by (rewrite EA in Hx1 |- *; destruct l0; simpl; intros [= ->]; set_solver).
  rewrite get4_bind, (bind4_eq _ _ _ (last A1) d) by (apply before_pending_eq; [done | done | by rewrite EA; destruct l0 | rewrite length_app in Hlen; lia]).
  assert (last A1 = Some y) as El by (rewrite EA; apply last_snoc). rewrite El, Eh. destruct A2 as [|z A2'].
  - set (d1 := upd_peer (fun f => set_f_ack_queue (set_q_tail (Some y) (f_ack_queue f)) f) (upd_lease y (set_l_next_pending None sy) d)).
    assert (leases d1 !! x = Some s) as Hx1' by (unfold d1; simpl; by rewrite lookup_insert_ne).
    destruct (forget_runs io x d1 _ Hx1') as [d' E]. exists d'. split.
    + rewrite (bind4_eq _ _ _ tt d1); [done|]. by rewrite (bind4_eq _ _ _ _ _ (set_lease4_eq _ _ _ _ Hy)).
    + eapply (removed_pending io d U A1 [] x s Hd Hs); [exact Hx1' | done.. | | | |exact E].
      * unfold fview. simpl. rewrite Eu, Ec, Ea. unfold set_q_tail, ends_of. simpl. rewrite app_nil_r, El.
        by assert (head (A1 ++ [x]) = head A1) as -> by (rewrite EA; by destruct l0).
      * intros z Hz. unfold d1. links. rewrite El, Hnp, Eh. repeat case_decide; by simplify_eq/=.
      * intros b z Hz. unfold d1. links. case_decide; [|done]. subst z. unfold fl. by rewrite Hy.
  - set (d1 := upd_lease x (set_l_next_pending None s) (upd_lease y (set_l_next_pending (Some z) sy) d)).
    assert (leases d1 !! x = Some (set_l_next_pending None s)) as Hx1' by apply lookup_insert_eq.
    destruct (forget_runs io x d1 _ Hx1') as [d' E]. exists d'. split.
    + rewrite (bind4_eq _ _ _ tt d1); [done|]. rewrite (bind4_eq _ _ _ _ _ (set_lease4_eq _ _ _ _ Hy)). apply set_lease4_eq. by rewrite lookup_upd_lease, decide_False.
    + eapply (removed_pending io d U A1 (z :: A2') x s Hd Hs); [exact Hx1' | done.. | | | |exact E].
      * unfold fview. simpl. rewrite Eu, Ec, Ea. unfold ends_of.
        assert (head (A1 ++ x :: z :: A2') = head (A1 ++ z :: A2')) as -> by (rewrite EA; by destruct l0). by rewrite !last_app_cons, last_cons_cons.
      * intros u Hu. unfold d1. links. rewrite (decide_False (P := u = x)) by done. rewrite El, Hnp, Eh. repeat case_decide; by simplify_eq/=.
      * intros b u Hu. unfold d1. links. rewrite (decide_False (P := u = x)) by done. case_decide; [|done]. subst u. unfold fl. by rewrite Hy.
Qed.

Lemma ack_queue_remove_eq io d U A1 x A2 : pending d U (A1 ++ x :: A2) ->
  exists d', dhcp_failover_ack_queue_remove io x d = Some (tt, d') /\ pending d' U (A1 ++ A2).
Proof.
  intros Hd. destruct (pending_in _ _ _ x Hd) as [s Hs]; [set_solver|]. destruct (decide (A1 = [])) as [->|Hne]; [by eapply remove_first|].
  destruct (exists_last Hne) as (l0 & y & E). by eapply remove_behind.
Qed.

Lemma ack_queue_remove_none io d U A x s : pending d U A -> leases d !! x = Some s -> x ∉ A -> dhcp_failover_ack_queue_remove io x d = Some (tt, d).
Proof.
  intros Hd Hs Hx. destruct (pending_flags _ _ _ _ _ Hd Hs) as (_ & HfA & _). rewrite bool_decide_false in HfA by done.
  unfold dhcp_failover_ack_queue_remove. by rewrite (bind4_eq _ _ _ _ _ (lease_at_eq _ _ _ Hs)), HfA.
Qed.

(** ** Queueing and sending *)

(** The tail of a queue points to the lease that follows it, in both queues. *)
Lemma last_in (l : list id) y : last l = Some y -> y ∈ l.
Proof. intros [l' ->]%last_Some. set_solver. Qed.

Lemma ends_snoc (l : list id) x : ends_of (l ++ [x]) = set_q_tail (Some x) (match head l with Some _ => ends_of l | None => set_q_head (Some x) (ends_of l) end).
Proof. unfold ends_of. rewrite last_snoc. by destruct l. Qed.

(** The queue of updates, or that of acknowledgements. *)
Definition q_of (u : bool) (f : failover) : qends := if u then f_update_queue f else f_ack_queue f.
Definition set_q_of (u : bool) (v : qends) (f : failover) : failover := if u then set_f_update_queue v f else set_f_ack_queue v f.
Definition bit_of (u : bool) : Z := if u then ON_UPDATE_QUEUE else ON_ACK_QUEUE.
Definition one_more (f : failover) : failover := set_f_cur_unacked_updates (f_cur_unacked_updates f + 1) f.

Lemma push_eq (u : bool) d U A x : pending d U A -> x ∉ U -> x ∉ A -> is_Some (leases d !! x) ->
  exists d', pending (if u then d' else upd_peer one_more d') (if u then U ++ [x] else U) (if u then A else A ++ [x]) /\
  forall B (k : M4 B),
  (f ← get4 peer;
   match q_head (q_of u f) with
   | Some _ => t ← follow (q_tail (q_of u f)); set_lease4 t (set_l_next_pending (Some x))
   | None => set_peer4 (fun f => set_q_of u (set_q_head (Some x) (q_of u f)) f)
   end ;;
   set_peer4 (fun f => set_q_of u (set_q_tail (Some x) (q_of u f)) f) ;;
   set_lease4 x (set_flag (bit_of u)) ;; k) d = k d'.
Proof.
  intros Hd Hu Ha [s Hs]. pose proof (pd_peer _ _ _ Hd) as E. unfold fview in E. injection E as Eu Ea Ec. set (L := if u then U else A).
  assert (q_of u (peer d) = ends_of L) as Eq by (by destruct u). destruct (pending_flags _ _ _ _ _ Hd Hs) as (_ & _ & Hnp).
  assert (forall d1 sx, fview (peer d1) = (f_update_queue (set_q_of u (ends_of (L ++ [x])) (peer d)), f_ack_queue (set_q_of u (ends_of (L ++ [x])) (peer d)), f_cur_unacked_updates (peer d)) ->
      sx = set_flag (bit_of u) s -> (forall y, y <> x -> np d1 y = if decide (last L = Some y) then Some (Some x) else np d y) ->
      (forall b y, y <> x -> fl b d1 y = fl b d y) ->
      pending (if u then upd_lease x sx d1 else upd_peer one_more (upd_lease x sx d1)) (if u then U ++ [x] else U) (if u then A else A ++ [x])) as HP.
  { intros d1 sx Hf -> Hn Hfl. assert (last L <> Some x) as Hlx by (intros ?%last_in; by destruct u).
    apply (pending_push u d _ U A x); [done | done | done | by exists s | | | |].
    - unfold fview in *. destruct u; simpl in *; [by injection Hf as -> -> ->; rewrite Ea, Ec|]. injection Hf as -> -> ->.
      rewrite Eu, Ec, length_app. simpl. repeat f_equal. lia.
    - intros y. fold L. destruct u; links; (case_decide; [subst; rewrite decide_False by done; done | by apply Hn]).
    - intros y. destruct u; links; (case_decide; [subst y | by apply Hfl]); simpl; [by rewrite flag_set_same|]. rewrite flag_set_other by done. unfold fl. by rewrite Hs.
    - intros y. destruct u; links; (case_decide; [subst y | by apply Hfl]); simpl; [|by rewrite flag_set_same]. rewrite flag_set_other by done. unfold fl. by rewrite Hs. }
  destruct (decide (L = [])) as [EL|Hne].
  - set (d1 := upd_peer (fun f => set_q_of u (set_q_tail (Some x) (q_of u f)) f) (upd_peer (fun f => set_q_of u (set_q_head (Some x) (q_of u f)) f) d)).
    exists (upd_lease x (set_flag (bit_of u) s) d1). split.
    + apply HP; [|done|intros y Hy; by rewrite EL|done]. unfold fview, d1. simpl. rewrite EL in *. unfold ends_of in Eq. simpl in Eq. destruct u; simpl in *; by rewrite Eq.
    + intros B k. rewrite get4_bind, Eq, EL. simpl. rewrite (bind4_eq _ _ _ _ _ (set_peer4_eq _ _)), (bind4_eq _ _ _ _ _ (set_peer4_eq _ _)).
      fold d1. by erewrite bind4_eq by (by apply set_lease4_eq).
  - destruct (exists_last Hne) as (l0 & y & EL). assert (last L = Some y) as El by (rewrite EL; apply last_snoc). pose proof (last_in _ _ El) as Hin.
    assert (y <> x) as Hyx by (intros ->; by destruct u). destruct (pending_in _ _ _ y Hd) as [sy Hy]; [unfold L in Hin; destruct u; eauto|].
    set (d1 := upd_peer (fun f => set_q_of u (set_q_tail (Some x) (q_of u f)) f) (upd_lease y (set_l_next_pending (Some x) sy) d)).
    assert (leases d1 !! x = Some s) as Hx1 by (unfold d1; simpl; by rewrite lookup_insert_ne). exists (upd_lease x (set_flag (bit_of u) s) d1). split.
    + apply HP; [|done| |].
      * unfold fview, d1. simpl. rewrite ends_snoc, Eq. assert (exists h, head L = Some h) as [h ->] by (destruct L; [done | by eexists]). by destruct u.
      * intros z Hz. unfold d1. links. rewrite El. repeat case_decide; by simplify_eq/=.
      * intros b z Hz. unfold d1. links. case_decide; [subst; unfold fl; by rewrite Hy | done].
    + intros B k. rewrite get4_bind, Eq. assert (exists h, q_head (ends_of L) = Some h) as [h ->] by (destruct L; [done | by eexists]).
      simpl q_tail. rewrite El. rewrite (bind4_eq _ _ _ tt (upd_lease y (set_l_next_pending (Some x) sy) d)) by (by apply set_lease4_eq).
      rewrite (bind4_eq _ _ _ _ _ (set_peer4_eq _ _)). fold d1. by erewrite bind4_eq by (by apply set_lease4_eq).
Qed.

(** [A] without [x]. *)
Definition without (x : id) (l : list id) : list id := filter (fun y => y <> x) l.

Lemma without_not x l : x ∉ l -> without x l = l.
Proof.
  unfold without. induction l as [|y l IH]; [done|]. intros [Hy Hl]%not_elem_of_cons. rewrite filter_cons_True by done. by rewrite IH.
Qed.

Lemma without_split x l1 l2 : x ∉ l1 -> x ∉ l2 -> without x (l1 ++ x :: l2) = l1 ++ l2.
Proof.
  intros H1 H2. unfold without. rewrite filter_app, filter_cons_False by (by intros []). fold (without x l1) (without x l2).
  by rewrite !without_not.
Qed.

(** The first lease of the queue of updates off it. *)
Lemma pop_update_eq d U A x s : pending d (x :: U) A -> leases d !! x = Some s -> exists d', pending d' U A /\ is_Some (leases d' !! x) /\
  forall B (k : M4 B),
  (set_lease4 x (clear_flag ON_UPDATE_QUEUE) ;;
   s ← lease_at x;
   match l_next_pending s with
   | Some nx =>
       set_peer4 (fun f => set_f_update_queue (set_q_head (Some nx) (f_update_queue f)) f) ;;
       set_lease4 x (set_l_next_pending None)
   | None => set_peer4 (fun f => set_f_update_queue (mkEnds None None) f)
   end ;; k) d = k d'.
Proof.
  intros Hd Hs. destruct (pending_flags _ _ _ _ _ Hd Hs) as (_ & _ & Hnp). pose proof (pd_peer _ _ _ Hd) as E. unfold fview in E. injection E as Eu Ea Ec.
  destruct (seg_pop (np d) (np d) x U) as [Hx _]; [apply Hd | done |]. rewrite Hnp in Hx. injection Hx as Hx.
  set (s1 := clear_flag ON_UPDATE_QUEUE s). set (d1 := upd_lease x s1 d). assert (leases d1 !! x = Some s1) as Hx1 by apply lookup_insert_eq.
  assert (forall d' s', leases d' = <[x := s']> (leases d) -> qview s' = (None, false, flag s ON_ACK_QUEUE) ->
      fview (peer d') = (ends_of U, ends_of A, Z.of_nat (length A)) -> pending d' U A) as HP.
  { intros d' s' El Hv Hf. unfold qview in Hv. injection Hv as Hv1 Hv2 Hv3. apply (pending_remove true d _ (x :: U) A [] x U); [done..| | |].
    - intros y. unfold np. rewrite El, lookup_insert. repeat case_decide; simplify_eq/=; try done. by rewrite Hv1.
    - intros y. unfold fl. rewrite El, lookup_insert. repeat case_decide; simplify_eq/=; try done. by rewrite Hv2.
    - intros y. unfold fl. rewrite El, lookup_insert. repeat case_decide; simplify_eq/=; try done. by rewrite Hv3, Hs. }
  assert (flag s1 ON_UPDATE_QUEUE = false) as F1 by apply flag_clear_same.
  assert (flag s1 ON_ACK_QUEUE = flag s ON_ACK_QUEUE) as F2 by (by apply flag_clear_other). destruct U as [|z U].
  - set (d2 := upd_peer (fun f => set_f_update_queue (mkEnds None None) f) d1). exists d2. split_and!.
    + apply (HP d2 s1); [done | |unfold fview; simpl; by rewrite Ea, Ec]. unfold qview. rewrite F1, F2. simpl. by rewrite Hx.
    + by exists s1.
    + intros B k. rewrite (bind4_eq _ _ _ _ _ (set_lease4_eq _ _ _ _ Hs)). fold s1 d1. rewrite (bind4_eq _ _ _ _ _ (lease_at_eq _ _ _ Hx1)).
      simpl (l_next_pending s1). rewrite Hx. done.
  - set (d2 := upd_lease x (set_l_next_pending None s1) (upd_peer (fun f => set_f_update_queue (set_q_head (Some z) (f_update_queue f)) f) d1)).
    exists d2. split_and!.
    + apply (HP d2 (set_l_next_pending None s1)); [apply insert_insert_eq | |unfold fview; simpl; rewrite Ea, Ec, Eu; done].
      unfold qview. change (flag (set_l_next_pending None s1)) with (flag s1). by rewrite F1, F2.
    + exists (set_l_next_pending None s1). apply lookup_insert_eq.
    + intros B k. rewrite (bind4_eq _ _ _ _ _ (set_lease4_eq _ _ _ _ Hs)). fold s1 d1. rewrite (bind4_eq _ _ _ _ _ (lease_at_eq _ _ _ Hx1)).
      simpl (l_next_pending s1). rewrite Hx. cbn [head]. rewrite (bind4_eq _ _ _ tt d2); [done|]. rewrite (bind4_eq _ _ _ _ _ (set_peer4_eq _ _)). by apply set_lease4_eq.
Qed.
