(* ===== verification/V4Sending.v ===== *)
(** * Sending the queued updates

    What [dhcp_failover_send_updates] sends and what it leaves, and what happens to the queues when the
    server changes its state. *)

From S2P Require Import Prelude BindingStates FailoverLeases V4State V4Queues V4Leases V4Machine V4Handlers V4Chain V4Laws V4Frames V4Lists V4Pending.

#[local] Open Scope Z_scope.

(** The leases for which an update was sent. *)
Definition updates_in (es : list event) : list id :=
  omap (fun e => match e with send_ev (S_bndupd _ l _ _) => Some l | _ => None end) es.

Lemma updates_in_app es es' : updates_in (es ++ es') = updates_in es ++ updates_in es'.
Proof. apply omap_app. Qed.

(** Updates sent between two states; the link and the partner's limit stay. *)
Record sending (l : list id) (d d' : srv) : Prop := {
  sd_events : updates_in (events d') = updates_in (events d) ++ l;
  sd_link : is_Some (f_link_to_peer (peer d)) <-> is_Some (f_link_to_peer (peer d'));
  sd_limit : f_partner_max_flying_updates (peer d') = f_partner_max_flying_updates (peer d)
}.

#[export] Instance sending_pre : PreOrder (sending []).
Proof.
  split; [split; by rewrite ?app_nil_r|]. intros x y z [A B C] [A' B' C']. split; [by rewrite A', A, !app_nil_r | by rewrite B | by rewrite C', C].
Qed.

Lemma sending_trans l l' x y z : sending l x y -> sending l' y z -> sending (l ++ l') x z.
Proof. intros [A B C] [A' B' C']. split; [by rewrite A', A, app_assoc | by rewrite B | by rewrite C', C]. Qed.

(** Nothing is sent by what changes leases and pools, or the relationship elsewhere. *)
Lemma sending_lease x f : Keeps (sending []) (set_lease4 x f).
Proof. intros d a d' (s & _ & ->)%set_lease4_inv. split; by rewrite ?app_nil_r. Qed.

Lemma sending_peer f :
  (forall g, f_link_to_peer (f g) = f_link_to_peer g) ->
  (forall g, f_partner_max_flying_updates (f g) = f_partner_max_flying_updates g) -> Keeps (sending []) (set_peer4 f).
Proof. intros H1 H2 d a d' H. rewrite set_peer4_eq in H. injection H as _ <-. split; [by rewrite app_nil_r | simpl; by rewrite H1 | apply H2]. Qed.

Lemma sending_emit e : updates_in [e] = [] -> Keeps (sending []) (emit e).
Proof.
  intros He d a d' H. unfold emit, modify4 in H. injection H as _ <-. split; [|done..]. simpl. by rewrite updates_in_app, He.
Qed.

#[export] Hint Resolve sending_lease : keeps.
#[export] Hint Extern 1 (Keeps (sending []) (set_peer4 _)) => (apply sending_peer; reflexivity) : keeps.
#[export] Hint Extern 1 (Keeps (sending []) (emit _)) => (apply sending_emit; reflexivity) : keeps.
#[export] Hint Extern 1 (Keeps (sending []) (modify4 _)) => (intros d ? ? [= _ <-]; split; [by rewrite app_nil_r | done..]) : keeps.

Section Sending.
Context (io : nat -> bool) (cur_time : Z).

Lemma sending_ask : Keeps (sending []) (ask io).
Proof. unfold ask. keeps. Qed.
Hint Resolve sending_ask : keeps.

Lemma sending_put m : updates_in [send_ev m] = [] -> Keeps (sending []) (dhcp_failover_put_message cur_time m).
Proof. intros Hm. unfold dhcp_failover_put_message, add_timeout4. keeps. by apply sending_emit. Qed.

Lemma sending_acks : Keeps (sending []) (dhcp_failover_send_acks io cur_time).
Proof.
  unfold dhcp_failover_send_acks, commit_leases, dhcp_failover_send_bind_ack, with_link. keeps. by apply sending_put.
Qed.

Lemma sending_before n lp x : Keeps (sending []) (before_pending n lp x).
Proof. revert lp. induction n as [|n IH]; intros lp; cbn [before_pending]; [apply keeps_fatal|]. keeps. Qed.
Hint Resolve sending_before : keeps.

Lemma sending_ack_remove x : Keeps (sending []) (dhcp_failover_ack_queue_remove io x).
Proof. unfold dhcp_failover_ack_queue_remove, forget_ack, commit_leases. keeps. Qed.
Hint Resolve sending_ack_remove : keeps.

(** [dhcp_failover_queue_update]; [x] belongs to a pool with a partner. *)
Lemma queue_update_eq d U A x s imm : pending d U A -> leases d !! x = Some s -> (exists f, failover_peer s d = Some (Some f, d)) ->
  if decide (x ∈ U) then dhcp_failover_queue_update io cur_time x imm d = Some (true, d)
  else exists d', pending d' (U ++ [x]) (without x A) /\ same_files d d' /\ sending [] d d' /\
    dhcp_failover_queue_update io cur_time x imm d =
    ((if imm then dhcp_failover_send_updates io cur_time ;; mret tt else mret tt) ;; mret true) d'.
Proof.
  intros Hd Hs (f & Hf). destruct (pending_flags _ _ _ _ _ Hd Hs) as (HfU & HfA & _). unfold dhcp_failover_queue_update.
  rewrite (bind4_eq _ _ _ _ _ (lease_at_eq _ _ _ Hs)), (bind4_eq _ _ _ _ _ Hf), HfU, HfA.
  destruct (decide (x ∈ U)) as [Hu|Hu]; [by rewrite bool_decide_true by done|]. rewrite bool_decide_false by done.
  assert (exists d1, (if bool_decide (x ∈ A) then dhcp_failover_ack_queue_remove io x else mret tt) d = Some (tt, d1) /\ pending d1 U (without x A)) as (d1 & H1 & Hd1).
  { case_bool_decide as Ha; [|exists d; by rewrite without_not by done].
    destruct (seg_split _ _ _ _ (pd_segA _ _ _ Hd) Ha) as (l1 & l2 & -> & Hl1 & Hl2 & _). rewrite without_split by done. by apply ack_queue_remove_eq. }
  assert (same_files d d1) as Hf1 by (revert H1; match goal with |- ?m d = _ -> _ => enough (Keeps same_files m) as K by apply K end; keeps).
  assert (is_Some (leases d1 !! x)) as Hx1.
  { destruct Hf1 as [Hl _]. destruct (same_lists_lease d1 d x s) as (s1 & ? & _); [by apply same_lists_sym | done | by exists s1]. }
  rewrite (bind4_eq _ _ _ _ _ H1). destruct (push_eq true d1 U (without x A) x) as (d2 & Hd2 & H2); [done | done | | done |].
  { unfold without. by intros [Hx _]%list_elem_of_filter. }
  exists d2. split_and!; [done | | |exact (H2 _ _)].
  - transitivity d1; [done|]. specialize (H2 _ (mret tt)). cbn [q_of set_q_of bit_of] in H2. revert H2.
    match goal with |- ?m d1 = _ -> _ => enough (Keeps same_files m) as K by apply K end. keeps.
  - transitivity d1; [revert H1 | specialize (H2 _ (mret tt)); cbn [q_of set_q_of bit_of] in H2; revert H2];
      match goal with |- ?m _ = _ -> _ => enough (Keeps (sending []) m) as K by apply K end; keeps.
Qed.

(** An update for [x] goes out. *)
Lemma send_bind_update_eq d x s :
  leases d !! x = Some s -> is_Some (f_link_to_peer (peer d)) ->
  exists d', dhcp_failover_send_bind_update io cur_time x d = Some (R_SUCCESS, d') /\ sending [x] d d'.
Proof.
  intros Hs [xid Hx]. unfold dhcp_failover_send_bind_update, with_link. rewrite get4_bind, Hx, (bind4_eq _ _ _ _ _ (lease_at_eq _ _ _ Hs)). cbv zeta.
  set (xid' := if xid =? 0 then 1 else xid). set (d1 := upd_peer (set_f_link_to_peer (Some (u32 (xid' + 1)))) d).
  rewrite (bind4_eq _ _ _ tt d1) by done. set (d2 := upd_lease x (set_l_last_xid xid' s) d1).
  rewrite (bind4_eq _ _ _ tt d2) by (by apply set_lease4_eq).
  assert (sending [] d d2) as Hd2 by (split; [by rewrite app_nil_r | by eexists | done]).
  match goal with |- context [((if ?b then ?m else mret tt) ≫= _) d2] =>
    assert (exists d3, (if b then m else mret tt) d2 = Some (tt, d3) /\ sending [] d2 d3) as (d3 & H3 & Hd3) end.
  { case_match; [|by exists d2]. set (d3 := upd_lease x (set_l_rewind_binding_state (l_binding_state s) (set_l_last_xid xid' s)) d2).
    eexists. split; [by rewrite (bind4_eq _ _ _ tt d3), (bind4_eq _ _ _ _ _ (write_lease_eq _ _ d3 _ (lookup_insert_eq _ _ _))) by (apply set_lease4_eq, lookup_insert_eq)|].
    split; [simpl; by rewrite !updates_in_app, !app_nil_r | done | done]. }
  rewrite (bind4_eq _ _ _ _ _ H3). eexists. split; [done|]. change [x] with ([] ++ [x]).
  eapply sending_trans; [by etrans|]. split; [simpl; by rewrite !updates_in_app, app_nil_r | done | done].
Qed.

(** One round: an update for the first lease goes out, and the lease waits for an acknowledgement. *)
Lemma send_round d U A x :
  pending d (x :: U) A -> is_Some (f_link_to_peer (peer d)) -> u32 (Z.of_nat (length A)) < f_partner_max_flying_updates (peer d) ->
  exists d', (forall n, send_loop io cur_time (S n) d = send_loop io cur_time n d') /\ pending d' U (A ++ [x]) /\ sending [x] d d'.
Proof.
  intros Hd Hl Hlt. pose proof (pd_peer _ _ _ Hd) as E. unfold fview in E. injection E as Eu Ea Ec.
  destruct (pending_in _ _ _ x Hd) as [s Hs]; [set_solver|]. destruct (send_bind_update_eq d x s Hs Hl) as (d1 & H1 & Hsd1).
  destruct (k_send_bind_update io cur_time x _ _ _ H1) as [_ Hq1]. pose proof (pending_same _ _ _ _ Hq1 Hd) as Hd1.
  destruct (pending_in _ _ _ x Hd1) as [s1 Hs1]; [set_solver|]. destruct (pop_update_eq d1 U A x s1 Hd1 Hs1) as (d2 & Hd2 & Hx2 & H2).
  pose proof (seg_NoDup _ _ _ (pd_segU _ _ _ Hd)) as [HxU _]%NoDup_cons.
  destruct (push_eq false d2 U A x) as (d3 & Hd3 & H3); [done | done | by apply (pd_disj _ _ _ Hd x); set_solver | done |].
  exists (upd_peer one_more d3). split_and!; [|done|].
  - intros n. cbn [send_loop]. rewrite get4_bind, Eu, Ec. cbn [q_head ends_of head]. apply Z.ltb_lt in Hlt. rewrite Hlt, (bind4_eq _ _ _ _ _ H1).
    rewrite bool_decide_true by done. cbn [negb]. rewrite H2.
    specialize (H3 _ (set_peer4 (fun f => set_f_cur_unacked_updates (f_cur_unacked_updates f + 1) f) ;; send_loop io cur_time n)). cbn [q_of set_q_of bit_of] in H3. by rewrite H3.
  - apply (sending_trans [x] [] _ d1); [done|]. transitivity d2; [specialize (H2 _ (mret tt)); clear H3 | transitivity d3; [specialize (H3 _ (mret tt)); clear H2|by split; rewrite ?app_nil_r]].
    + revert H2. match goal with |- ?m d1 = _ -> _ => enough (Keeps (sending []) m) as K by apply K end. keeps.
    + cbn [q_of set_q_of bit_of] in H3. revert H3. match goal with |- ?m d2 = _ -> _ => enough (Keeps (sending []) m) as K by apply K end. keeps.
Qed.

(** The loop ends at once. *)
Lemma send_loop_end n d U A : pending d U A -> U = [] \/ f_partner_max_flying_updates (peer d) <= u32 (Z.of_nat (length A)) ->
  send_loop io cur_time (S n) d = Some (R_SUCCESS, d).
Proof.
  intros Hd H. pose proof (pd_peer _ _ _ Hd) as E. unfold fview in E. injection E as Eu Ea Ec. cbn [send_loop]. rewrite get4_bind, Eu, Ec.
  destruct U as [|x U]; [done|]. destruct H as [?|H]; [done|]. apply Z.ltb_ge in H. cbn [q_head ends_of head]. by rewrite H.
Qed.

(** As many updates go out as the partner takes, in the order of the queue. *)
Lemma send_loop_eq n d U A :
  pending d U A -> is_Some (f_link_to_peer (peer d)) -> (length U < n)%nat -> Z.of_nat (length A + length U) < 2 ^ 32 ->
  exists U1 U2 d', U = U1 ++ U2 /\ send_loop io cur_time n d = Some (R_SUCCESS, d') /\ pending d' U2 (A ++ U1) /\ sending U1 d d' /\
  (U2 = [] \/ f_partner_max_flying_updates (peer d) <= Z.of_nat (length (A ++ U1))) /\
  (U1 = [] \/ Z.of_nat (length (A ++ U1)) <= f_partner_max_flying_updates (peer d)).
Proof.
  revert d U A. induction n as [|n IH]; intros d U A Hd Hl Hn Hsz; [lia|].
  assert (u32 (Z.of_nat (length A)) = Z.of_nat (length A)) as Ew by (apply (wrap_small 32); lia).
  destruct U as [|x U]; [exists [], [], d; rewrite !app_nil_r; rewrite (send_loop_end n d [] A) by auto; split_and!; try done; by left|].
  destruct (Z.lt_ge_cases (Z.of_nat (length A)) (f_partner_max_flying_updates (peer d))) as [Hlt|Hge].
  2:{ exists [], (x :: U), d. rewrite app_nil_r, (send_loop_end n d (x :: U) A) by (rewrite ?Ew; auto). split_and!; try done; [by right | by left]. }
  simpl in Hsz. destruct (send_round d U A x Hd Hl) as (d1 & H1 & Hd1 & Hsd); [by rewrite Ew|].
  destruct (IH d1 U (A ++ [x]) Hd1) as (U1 & U2 & d' & -> & E & Hd' & Hs' & Hend & Hmax); [by apply Hsd | simpl in Hn; lia | rewrite length_app; simpl; lia |].
  rewrite (sd_limit _ _ _ Hsd) in Hend, Hmax. rewrite <- app_assoc in Hd', Hend, Hmax. exists (x :: U1), U2, d'. rewrite H1. split_and!; [done..| | done |].
  - exact (sending_trans [x] U1 _ _ _ Hsd Hs').
  - right. destruct Hmax as [->|?]; [|done]. rewrite length_app. simpl. lia.
Qed.

(** It always ends. *)
Lemma send_loop_runs n d U A : pending d U A -> is_Some (f_link_to_peer (peer d)) -> (length U < n)%nat -> exists d', send_loop io cur_time n d = Some (R_SUCCESS, d') /\ queues_ok d'.
Proof.
  revert d U A. induction n as [|n IH]; intros d U A Hd Hl Hn; [lia|].
  destruct U as [|x U]; [exists d; rewrite (send_loop_end n d [] A) by auto; split; [done | by eexists _, _]|].
  destruct (Z.lt_ge_cases (u32 (Z.of_nat (length A))) (f_partner_max_flying_updates (peer d))) as [Hlt|Hge].
  - destruct (send_round d U A x Hd Hl Hlt) as (d1 & H1 & Hd1 & Hsd). rewrite H1. eapply IH; [exact Hd1 | by apply Hsd | simpl in Hn; lia].
  - exists d. rewrite (send_loop_end n d (x :: U) A) by auto. split; [done | by eexists _, _].
Qed.

Lemma each4_runs {B} (f : B -> M4 unit) l d : (forall a d, exists d', f a d = Some (tt, d')) -> exists d', each4 f l d = Some (tt, d').
Proof.
  intros Hf. revert d. induction l as [|a l IH]; intros d; [by exists d|]. destruct (Hf a d) as [d1 H1]. destruct (IH d1) as [d2 H2].
  exists d2. simpl. by rewrite (bind4_eq _ _ _ _ _ H1).
Qed.

Lemma send_acks_runs d : exists b d', dhcp_failover_send_acks io cur_time d = Some (b, d').
Proof.
  unfold dhcp_failover_send_acks. destruct (commit_leases io d) as [[ok d1]|] eqn:E; [|done].
  rewrite (bind4_eq _ _ _ _ _ E). destruct ok; cbn [negb]; [|by exists false, d1]. rewrite get4_bind.
  match goal with |- context [each4 ?f ?l ≫= _] => destruct (each4_runs f l d1) as [d2 H2] end.
  { intros a d0. unfold dhcp_failover_send_bind_ack, with_link. unfold mbind, M4_bind, get4, set_peer4, modify4. simpl.
    destruct (f_link_to_peer (peer d0)); by eexists. }
  rewrite (bind4_eq _ _ _ _ _ H2). by eexists _, _.
Qed.

(** The acknowledgements before the updates. *)
Lemma acks_first d : exists d1, (if negb (bool_decide (f_toack_queue (peer d) = [])) then dhcp_failover_send_acks io cur_time ;; mret tt else mret tt) d = Some (tt, d1) /\
  same_all d d1 /\ sending [] d d1.
Proof.
  case_match; [|by exists d]. destruct (send_acks_runs d) as (b & d1 & E). exists d1. rewrite (bind4_eq _ _ _ _ _ E).
  split_and!; [done | by eapply k_send_acks | by eapply sending_acks].
Qed.

(** [dhcp_failover_send_updates] over a link. *)
Lemma send_updates_eq d U A :
  pending d U A -> is_Some (f_link_to_peer (peer d)) -> Z.of_nat (length A + length U) < 2 ^ 32 ->
  exists U1 U2 d', U = U1 ++ U2 /\ dhcp_failover_send_updates io cur_time d = Some (R_SUCCESS, d') /\ pending d' U2 (A ++ U1) /\ sending U1 d d' /\
  (U2 = [] \/ f_partner_max_flying_updates (peer d) <= Z.of_nat (length (A ++ U1))) /\
  (U1 = [] \/ Z.of_nat (length (A ++ U1)) <= f_partner_max_flying_updates (peer d)).
Proof.
  intros Hd Hl Hsz. pose proof Hl as [xid Hx]. unfold dhcp_failover_send_updates. rewrite get4_bind, Hx.
  destruct (acks_first d) as (d1 & H1 & [_ Hq1] & Hs1).
  rewrite (bind4_eq _ _ _ _ _ H1), get4_bind. pose proof (pending_same _ _ _ _ Hq1 Hd) as Hd1.
  destruct (send_loop_eq (S (size (leases d1))) d1 U A) as (U1 & U2 & d' & -> & E & Hd' & Hs' & Hend & Hmax); [done | by apply Hs1 | | done |].
  { pose proof (np_short _ _ _ (pd_segU _ _ _ Hd1)). lia. }
  rewrite (sd_limit _ _ _ Hs1) in Hend, Hmax. exists U1, U2, d'. split_and!; try done. exact (sending_trans [] U1 _ _ _ Hs1 Hs').
Qed.

(** ** Sending again *)

Lemma zap_flags_eq n h A d : seg (np d) h A None -> (length A < n)%nat ->
  exists d', zap_flags n h d = Some (tt, d') /\ peer d' = peer d /\ (forall y, np d' y = np d y) /\
  (forall y, fl ON_UPDATE_QUEUE d' y = if decide (y ∈ A) then Some true else fl ON_UPDATE_QUEUE d y) /\
  (forall y, fl ON_ACK_QUEUE d' y = if decide (y ∈ A) then Some false else fl ON_ACK_QUEUE d y).
Proof.
  revert h A d. induction n as [|n IH]; intros h A d Hseg Hn; [lia|]. destruct A as [|x A]; cbn [zap_flags].
  { simpl in Hseg. subst h. exists d. split_and!; try done. }
  destruct Hseg as (-> & t & Ht & Hseg). unfold np in Ht. destruct (leases d !! x) as [s|] eqn:Hs; [|done]. injection Ht as Ht.
  set (s1 := set_flag ON_UPDATE_QUEUE (clear_flag ON_ACK_QUEUE s)). set (d1 := upd_lease x s1 d).
  assert (forall y, np d1 y = np d y) as Hnp by (intros y; unfold d1; links; case_decide; [subst; unfold np; by rewrite Hs | done]).
  rewrite (bind4_eq _ _ _ _ _ (set_lease4_eq _ _ _ _ Hs)). fold s1 d1. rewrite (bind4_eq _ _ _ s1 d1) by (apply lease_at_eq, lookup_insert_eq).
  change (l_next_pending s1) with (l_next_pending s). rewrite Ht.
  destruct (IH t A d1) as (d' & E & Hpe & Hn' & HU & HA); [eapply seg_ext; [|exact Hseg]; intros; apply Hnp | simpl in Hn; lia |].
  exists d'. split_and!; [done | done | intros y; by rewrite Hn', Hnp | |]; intros y.
  - rewrite HU. unfold d1. links. repeat case_decide; try done; try set_solver. unfold s1. by rewrite flag_set_same.
  - rewrite HA. unfold d1. links. repeat case_decide; try done; try set_solver. unfold s1. by rewrite flag_set_other, flag_clear_same.
Qed.

Lemma last_or_none {B} (l : list B) : last l = None -> l = [].
Proof. by intros ?%last_None. Qed.

(** The lists behind a splice. *)
Lemma pending_splice d d' U A :
  pending d U A -> A <> [] -> fview (peer d') = (ends_of (A ++ U), ends_of [], 0) ->
  (forall y, np d' y = if decide (last A = Some y) then Some (head U) else np d y) ->
  (forall y, fl ON_UPDATE_QUEUE d' y = if decide (y ∈ A) then Some true else fl ON_UPDATE_QUEUE d y) ->
  (forall y, fl ON_ACK_QUEUE d' y = if decide (y ∈ A) then Some false else fl ON_ACK_QUEUE d y) ->
  pending d' (A ++ U) [].
Proof.
  intros Hd Hne Hf Hnp HU HA. destruct (exists_last Hne) as (l0 & y & EA). rewrite EA, last_snoc in Hnp. split; [done | | done | set_solver | | |].
  - pose proof (pd_segA _ _ _ Hd) as Hs. pose proof (seg_NoDup _ _ _ Hs) as HN. rewrite EA in *. apply NoDup_app in HN as (_ & HN & _).
    apply seg_snoc in Hs as [Hs _]. rewrite <- app_assoc. assert (head (l0 ++ [y] ++ U) = head (l0 ++ [y])) as -> by (by destruct l0).
    apply seg_app. exists (Some y). split; [|split; [done|exists (head U); split; [by rewrite Hnp, decide_True|]]].
    + eapply seg_ext; [|exact Hs]. intros z Hz. rewrite Hnp, decide_False; [done|]. intros [= <-]. apply (HN _ Hz). set_solver.
    + eapply seg_ext; [|apply Hd]. intros z Hz. rewrite Hnp, decide_False; [done|]. intros [= <-]. apply (pd_disj _ _ _ Hd _ Hz). set_solver.
  - intros z b. rewrite HU. case_decide as Hz; [intros [= <-]; symmetry; apply bool_decide_true; set_solver|]. intros E%(pd_flagU _ _ _ Hd). subst b.
    apply bool_decide_ext. set_solver.
  - intros z b. rewrite HA. case_decide as Hz; [by intros [= <-]|]. intros E%(pd_flagA _ _ _ Hd). subst b. by rewrite !bool_decide_false by set_solver.
  - intros z t Hz _. rewrite Hnp, decide_False by (intros [= <-]; apply Hz; rewrite EA; set_solver). apply (pd_off _ _ _ Hd); set_solver.
Qed.

(** [dhcp_failover_set_state] puts what is not acknowledged back, before what is queued. *)
Lemma resend_unacked_eq d U A : pending d U A -> exists d', resend_unacked d = Some (tt, d') /\ pending d' (A ++ U) [].
Proof.
  intros Hd. pose proof (pd_peer _ _ _ Hd) as E. unfold fview in E. injection E as Eu Ea Ec. unfold resend_unacked. rewrite get4_bind, Ea, Eu. cbn [q_tail q_head ends_of].
  destruct (last A) as [t|] eqn:El.
  2:{ apply last_or_none in El as ->. eexists. split; [done|]. apply (pending_same d); [|done]. by apply quiet_rest. }
  pose proof (last_in _ _ El) as Hin. assert (A <> []) as Hne by (by intros ->). pose proof (np_short _ _ _ (pd_segA _ _ _ Hd)) as Hlen.
  destruct (zap_flags_eq (S (size (leases d))) (head A) A d (pd_segA _ _ _ Hd) ltac:(lia)) as (d1 & H1 & Hpe & Hnp & HU & HA).
  destruct (pending_in _ _ _ t Hd) as [s Hs]; [by right|]. pose proof (Hnp t) as Ht. unfold np in Ht. rewrite Hs in Ht.
  destruct (leases d1 !! t) as [s1|] eqn:Hs1; [|done]. injection Ht as Ht.
  set (d2 := match head U with Some h => upd_lease t (set_l_next_pending (Some h) s1) d1 | None => d1 end).
  assert ((match head U with Some h => set_lease4 t (set_l_next_pending (Some h)) | None => mret tt end) d1 = Some (tt, d2)) as H2
    by (unfold d2; destruct (head U); [by apply set_lease4_eq | done]).
  eexists. split; [erewrite bind4_eq; [reflexivity|]; rewrite get4_bind, (bind4_eq _ _ _ _ _ H1), (bind4_eq _ _ _ _ _ H2); reflexivity|].
  apply (pending_splice d _ U A Hd Hne).
  - unfold fview. simpl. repeat f_equal. unfold ends_of. destruct A as [|a A']; [done|]. simpl head. repeat f_equal.
    destruct U as [|u U]; [by rewrite app_nil_r|]. rewrite last_app_cons. by destruct (last (u :: U)) eqn:E; [|apply last_None in E].
  - intros y. rewrite El. assert (np d1 t = Some (l_next_pending s1)) as Hnt by (unfold np; by rewrite Hs1).
    assert (np d t = Some None) as Hdt by (pose proof (pd_segA _ _ _ Hd) as Hseg; apply last_Some in El as [l' ->]; by apply seg_snoc in Hseg as [_ ->]).
    change (np d2 y = if decide (Some t = Some y) then Some (head U) else np d y). unfold d2. destruct (head U) eqn:EU; [links; repeat case_decide; simplify_eq/=; congruence|].
    rewrite Hnp. case_decide; [|done]. simplify_eq. done.
  - intros y. rewrite <- HU. change (fl ON_UPDATE_QUEUE d2 y = fl ON_UPDATE_QUEUE d1 y). unfold d2. destruct (head U); [|done]. links. case_decide; [|done]. subst. unfold fl. by rewrite Hs1.
  - intros y. rewrite <- HA. change (fl ON_ACK_QUEUE d2 y = fl ON_ACK_QUEUE d1 y). unfold d2. destruct (head U); [|done]. links. case_decide; [|done]. subst. unfold fl. by rewrite Hs1.
Qed.

(** ** The queues stay queues *)

Lemma send_updates_runs d : queues_ok d -> exists d', dhcp_failover_send_updates io cur_time d = Some (R_SUCCESS, d') /\ queues_ok d'.
Proof.
  intros (U & A & Hd). unfold dhcp_failover_send_updates. rewrite get4_bind. destruct (f_link_to_peer (peer d)) as [xid|] eqn:Hl; [|exists d; split; [done | by eexists _, _]].
  destruct (acks_first d) as (d1 & H1 & [_ Hq1] & Hs1).
  rewrite (bind4_eq _ _ _ _ _ H1), get4_bind. pose proof (pending_same _ _ _ _ Hq1 Hd) as Hd1.
  apply (send_loop_runs _ _ U A Hd1); [apply Hs1; by exists xid|]. pose proof (np_short _ _ _ (pd_segU _ _ _ Hd1)). lia.
Qed.

Lemma queues_send_updates : Keeps (inv_rel queues_ok) (dhcp_failover_send_updates io cur_time).
Proof. intros d r d' H Hd. destruct (send_updates_runs d Hd) as (d1 & E & Hd1). rewrite H in E. by injection E as _ <-. Qed.
Hint Resolve queues_send_updates : keeps.

Lemma queues_ack_queue_remove x : Keeps (inv_rel queues_ok) (dhcp_failover_ack_queue_remove io x).
Proof.
  intros d u d' H (U & A & Hd). assert (exists s, leases d !! x = Some s) as [s Hs] by (unfold dhcp_failover_ack_queue_remove in H; step4 H; eauto).
  destruct (decide (x ∈ A)) as [Hx|Hx].
  - destruct (seg_split _ _ _ _ (pd_segA _ _ _ Hd) Hx) as (l1 & l2 & -> & _). destruct (ack_queue_remove_eq io d U l1 x l2 Hd) as (d1 & E & Hd1).
    rewrite H in E. injection E as _ <-. by exists U, (l1 ++ l2).
  - rewrite (ack_queue_remove_none io d U A x s Hd Hs Hx) in H. injection H as _ <-. by exists U, A.
Qed.

Lemma queues_queue_update x imm : Keeps (inv_rel queues_ok) (dhcp_failover_queue_update io cur_time x imm).
Proof.
  intros d b d' H (U & A & Hd). pose proof H as H0. unfold dhcp_failover_queue_update in H0. step4 H0. apply bind4_inv in H0 as (fo & d1 & Hf & H0).
  assert (d1 = d) as -> by (symmetry; by eapply (keeps_failover_peer eq)). destruct fo as [f|]; [|injection H0 as _ <-; by exists U, A]. clear H0.
  pose proof (queue_update_eq d U A x a imm Hd Hm (ex_intro _ f Hf)) as E. case_decide; [rewrite E in H; injection H as _ <-; by exists U, A|].
  destruct E as (d1 & Hd1 & _ & _ & E). rewrite E in H. assert (queues_ok d1) as Hq by (by eexists _, _). revert H Hq.
  match goal with |- ?m _ = _ -> _ => enough (Keeps (inv_rel queues_ok) m) as K by apply K end.
  destruct imm; keeps.
Qed.

Lemma queues_resend_unacked : Keeps (inv_rel queues_ok) resend_unacked.
Proof.
  intros d u d' H (U & A & Hd). destruct (resend_unacked_eq d U A Hd) as (d1 & E & Hd1). rewrite H in E. injection E as _ <-. by exists (A ++ U), [].
Qed.

End Sending.

#[export] Hint Resolve queues_send_updates queues_ack_queue_remove queues_queue_update queues_resend_unacked : keeps.
