(* ===== verification/V4System.v ===== *)
(** * The running DHCPv4 server

    The invariant of lists and queues over every operation of the running server, and the states it can reach. *)

From S2P Require Import Prelude BindingStates FailoverLeases V4State V4Queues V4Leases V4Machine V4Handlers V4Chain V4Laws V4Frames V4Lists V4Moves V4Pending V4Sending.

#[local] Open Scope Z_scope.

(** Every lease is on the list of its state, and the two queues are queues. *)
Definition ok4 (d : srv) : Prop := files_ok d /\ queues_ok d.

Lemma keeps_ok4 {A} (m : M4 A) : Keeps (inv_rel files_ok) m -> Keeps (inv_rel queues_ok) m -> Keeps (inv_rel ok4) m.
Proof. intros H1 H2 d a d' E [Hf Hq]. split; [by eapply H1 | by eapply H2]. Qed.

Lemma all_ok4 {A} (m : M4 A) : Keeps same_all m -> Keeps (inv_rel ok4) m.
Proof. intros H. apply keeps_ok4; [by apply keeps_files_ok, all_files | by apply keeps_queues_ok, all_queues]. Qed.

#[export] Hint Resolve all_ok4 : keeps.

Section System.
Context (io : nat -> bool) (random : nat -> Z) (cur_time : Z).

(** ** Leases *)

Hint Resolve keeps_queues_ok : keeps.

Lemma supersede_queues n :
  (forall x t c p i, Keeps (inv_rel queues_ok) (supersede_lease io random cur_time n x t c p i)) /\
  (forall q, Keeps (inv_rel queues_ok) (pool_timer io random cur_time n q)) /\
  (forall l e, Keeps (inv_rel queues_ok) (timer_walk io random cur_time n l e)).
Proof.
  induction n as [|n (IHs & IHp & IHw)]; [split_and!; intros; apply keeps_fatal|]. split_and!.
  - intros x t c p i. cbn [supersede_lease pool_timer timer_walk]. unfold move_lease. keeps.
  - intros q. cbn [supersede_lease pool_timer timer_walk]. apply keeps_bind; [apply _ | | intros; keeps]. apply keeps_foldr; [|intros; keeps]. intros w k Hk e. keeps.
  - intros l e. cbn [supersede_lease pool_timer timer_walk]. keeps.
Qed.

Lemma ok4_supersede n x t c p i : Keeps (inv_rel ok4) (supersede_lease io random cur_time n x t c p i).
Proof. apply keeps_ok4; [apply supersede_files | apply supersede_queues]. Qed.
Lemma ok4_pool_timer n q : Keeps (inv_rel ok4) (pool_timer io random cur_time n q).
Proof. apply keeps_ok4; [apply supersede_files | apply supersede_queues]. Qed.
Lemma ok4_send_updates : Keeps (inv_rel ok4) (dhcp_failover_send_updates io cur_time).
Proof. apply keeps_ok4; [apply keeps_files_ok; keeps | keeps]. Qed.
Lemma ok4_ack_queue_remove x : Keeps (inv_rel ok4) (dhcp_failover_ack_queue_remove io x).
Proof. apply keeps_ok4; [apply keeps_files_ok; keeps | keeps]. Qed.
Lemma ok4_queue_update x b : Keeps (inv_rel ok4) (dhcp_failover_queue_update io cur_time x b).
Proof. apply keeps_ok4; [apply keeps_files_ok; keeps | keeps]. Qed.
Lemma ok4_resend_unacked : Keeps (inv_rel ok4) resend_unacked.
Proof. apply keeps_ok4; [apply keeps_files_ok; keeps | keeps]. Qed.
Hint Resolve ok4_supersede ok4_pool_timer ok4_send_updates ok4_ack_queue_remove ok4_queue_update ok4_resend_unacked : keeps.

Lemma ok4_release n l : Keeps (inv_rel ok4) (release_lease io random cur_time n l).
Proof. unfold release_lease. keeps. Qed.
Lemma ok4_abandon n l : Keeps (inv_rel ok4) (abandon_lease io random cur_time n l).
Proof. unfold abandon_lease. keeps. Qed.
Lemma ok4_dissociate n l : Keeps (inv_rel ok4) (dissociate_lease io random cur_time n l).
Proof. unfold dissociate_lease. keeps. Qed.

(** ** The state machine *)

Context (fuel : nat).

Lemma ok4_balance_walk n q lq st hold pass lp lts k : Keeps (inv_rel ok4) (balance_walk io random cur_time fuel n q lq st hold pass lp lts k).
Proof.
  revert pass lp lts k. induction n as [|n IH]; intros pass lp lts k; cbn [balance_walk]; [apply keeps_fatal|].
  unfold give_away, peer_wants. keeps.
Qed.
Hint Resolve ok4_balance_walk : keeps.

Lemma ok4_dobalance : Keeps (inv_rel ok4) (dhcp_failover_pool_dobalance io random cur_time fuel).
Proof.
  unfold dhcp_failover_pool_dobalance. apply keeps_bind; [apply _ | keeps | intros f]. case_match; [keeps|]. apply keeps_bind; [apply _ | keeps | intros _].
  apply keeps_bind; [apply _ | keeps | intros ps]. apply keeps_bind; [apply _ | | intros r; keeps]. apply keeps_foldr; [|intros; keeps]. intros q k Hk r. keeps.
Qed.
Hint Resolve ok4_dobalance : keeps.

Lemma ok4_pool_balance : Keeps (inv_rel ok4) (dhcp_failover_pool_balance io random cur_time fuel).
Proof. unfold dhcp_failover_pool_balance. keeps. Qed.
Lemma ok4_pool_rebalance : Keeps (inv_rel ok4) (dhcp_failover_pool_rebalance io random cur_time fuel).
Proof. unfold dhcp_failover_pool_rebalance. keeps. Qed.
Lemma ok4_pool_reqbalance x : Keeps (inv_rel ok4) (dhcp_failover_pool_reqbalance io random cur_time fuel x).
Proof. unfold dhcp_failover_pool_reqbalance. keeps. Qed.

Lemma ok4_update_list n e w l : Keeps (inv_rel ok4) (update_list io cur_time n e w l).
Proof. revert l. induction n as [|n IH]; intros l; cbn [update_list]; [apply keeps_fatal|]. keeps. Qed.
Hint Resolve ok4_pool_balance ok4_update_list : keeps.

Lemma ok4_generate e : Keeps (inv_rel ok4) (dhcp_failover_generate_update_queue io cur_time e).
Proof. unfold dhcp_failover_generate_update_queue. keeps. Qed.
Hint Resolve ok4_generate : keeps.

Lemma ok4_set_state_with done st : Keeps (inv_rel ok4) done -> Keeps (inv_rel ok4) (set_state_with io random cur_time fuel done st).
Proof. intros Hd. unfold set_state_with, enter_state. keeps. Qed.

Lemma ok4_recover_done : Keeps (inv_rel ok4) (dhcp_failover_recover_done io random cur_time fuel).
Proof. unfold dhcp_failover_recover_done. apply keeps_bind; [apply _ | apply ok4_set_state_with; keeps | intros; keeps]. Qed.
Hint Resolve ok4_recover_done : keeps.

Lemma ok4_set_state st : Keeps (inv_rel ok4) (dhcp_failover_set_state io random cur_time fuel st).
Proof. apply ok4_set_state_with. keeps. Qed.
Hint Resolve ok4_set_state : keeps.

Lemma ok4_goto st : Keeps (inv_rel ok4) (goto_state io random cur_time fuel st).
Proof. unfold goto_state. keeps. Qed.
Hint Resolve ok4_goto : keeps.

Lemma ok4_transition t : Keeps (inv_rel ok4) (dhcp_failover_state_transition io random cur_time fuel t).
Proof. unfold dhcp_failover_state_transition. keeps. Qed.
Hint Resolve ok4_transition : keeps.

Lemma ok4_react st me prev new b : Keeps (inv_rel ok4) (react_to io random cur_time fuel st me prev new b).
Proof. unfold react_to. keeps. Qed.
Hint Resolve ok4_react : keeps.

Lemma ok4_news new b : Keeps (inv_rel ok4) (peer_state_news io random cur_time fuel new b).
Proof. unfold peer_state_news. keeps. Qed.
Hint Resolve ok4_news : keeps.

Lemma ok4_peer_state_changed m : Keeps (inv_rel ok4) (dhcp_failover_peer_state_changed io random cur_time fuel m).
Proof. unfold dhcp_failover_peer_state_changed. keeps. Qed.
Hint Resolve ok4_peer_state_changed ok4_pool_reqbalance : keeps.

(** ** Messages *)

Lemma ok4_install m l lt st : Keeps (inv_rel ok4) (install_update io random cur_time fuel m l lt st).
Proof. unfold install_update, peer_wants, refuse, send_lease_to_backup. keeps. Qed.
Hint Resolve ok4_install : keeps.

Lemma ok4_bind_update m : Keeps (inv_rel ok4) (dhcp_failover_process_bind_update io random cur_time fuel m).
Proof. unfold dhcp_failover_process_bind_update, refuse. keeps. Qed.

Lemma ok4_bind_ack m : Keeps (inv_rel ok4) (dhcp_failover_process_bind_ack io random cur_time fuel m).
Proof. unfold dhcp_failover_process_bind_ack, acknowledge, after_ack, peer_wants, send_lease_to_backup. keeps. Qed.

Lemma ok4_update_request b m : Keeps (inv_rel ok4) (process_update_request io cur_time b m).
Proof. unfold process_update_request. keeps. Qed.

Lemma ok4_update_done : Keeps (inv_rel ok4) (dhcp_failover_process_update_done io random cur_time fuel).
Proof. unfold dhcp_failover_process_update_done. keeps. Qed.
Hint Resolve ok4_bind_update ok4_bind_ack ok4_update_request ok4_update_done : keeps.

Lemma ok4_message b x m : Keeps (inv_rel ok4) (signal_message io random cur_time fuel b x m).
Proof. unfold signal_message, signal_connect, signal_connectack, partner_limits. keeps. Qed.

Lemma ok4_signal_disconnect : Keeps (inv_rel ok4) (signal_disconnect io random cur_time fuel).
Proof. unfold signal_disconnect. keeps. Qed.

Lemma ok4_link_disconnect b : Keeps (inv_rel ok4) (link_signal_disconnect io random cur_time fuel b).
Proof. unfold link_signal_disconnect. keeps. Qed.

End System.

(** ** Reachable states *)

(** What happens to the running server: messages and the end of a connection, timers, and what the rest of the server does
    to leases. *)
Inductive op4 :=
| Message (is_link : bool) (xid : Z) (msg : message)
| LinkClosed (is_link : bool)
| Timer (t : timer)
| Transition (t : transition)
| Administer (state : Z)
| Supersede (l : id) (sample : option lease) (commit propogate pimmediate : bool)
| Release (l : id) | Abandon (l : id) | Dissociate (l : id).

Definition run_op (io : nat -> bool) (random : nat -> Z) (cur_time : Z) (fuel : nat) (o : op4) : M4 unit :=
  match o with
  | Message b xid msg => signal_message io random cur_time fuel b xid msg
  | LinkClosed b => link_signal_disconnect io random cur_time fuel b
  | Timer (T_pool_timer q) => pool_timer io random cur_time fuel q
  | Timer T_pool_rebalance => dhcp_failover_pool_rebalance io random cur_time fuel
  | Timer T_toack_queue_timeout => dhcp_failover_toack_queue_timeout io cur_time
  | Timer T_send_contact => dhcp_failover_send_contact cur_time ;; mret tt
  | Timer T_timeout => dhcp_failover_timeout
  | Timer T_startup_timeout => dhcp_failover_startup_timeout io random cur_time fuel
  | Timer T_auto_partner_down => dhcp_failover_auto_partner_down io random cur_time fuel
  | Timer T_recover_done => dhcp_failover_recover_done io random cur_time fuel
  | Timer T_commit_leases => commit_leases io ;; mret tt
  | Timer (T_keepalive | T_reconnect | T_link_startup_timeout) => mret tt
  | Transition t => dhcp_failover_state_transition io random cur_time fuel t ;; mret tt
  | Administer st => goto_state io random cur_time fuel st
  | Supersede l t c p i => supersede_lease io random cur_time fuel l t c p i ;; mret tt
  | Release l => release_lease io random cur_time fuel l
  | Abandon l => abandon_lease io random cur_time fuel l
  | Dissociate l => dissociate_lease io random cur_time fuel l
  end.

(** One operation, at any time. *)
Definition step_srv (io : nat -> bool) (random : nat -> Z) (d d' : srv) : Prop :=
  exists cur_time fuel o, run_op io random cur_time fuel o d = Some (tt, d').

Lemma ok4_run_op io random now fuel o : Keeps (inv_rel ok4) (run_op io random now fuel o).
Proof.
  pose proof (ok4_message io random now fuel). pose proof (ok4_link_disconnect io random now fuel). pose proof (ok4_pool_timer io random now fuel).
  pose proof (ok4_pool_rebalance io random now fuel). pose proof (ok4_transition io random now fuel). pose proof (ok4_goto io random now fuel).
  pose proof (ok4_recover_done io random now fuel). pose proof (ok4_supersede io random now fuel). pose proof (ok4_release io random now fuel).
  pose proof (ok4_abandon io random now fuel). pose proof (ok4_dissociate io random now fuel).
  destruct o as [| |[]| | | | | |]; simpl; try solve [auto]; unfold dhcp_failover_timeout, dhcp_failover_startup_timeout, dhcp_failover_auto_partner_down; keeps.
Qed.
