(* ===== verification/V4Tables.v ===== *)
(** * The tables of leases by client

    server/mdb.c finds the leases of a client by its identifier and by its hardware address, in two hash tables whose entries are chains through the leases.
    [table_ok] says that the chain of a key holds exactly the leases that have it; every operation of the running server keeps both tables this way.
    The empty key is an exception: it is never looked up, and the entry under it is of no use. *)

From S2P Require Import Prelude BindingStates FailoverLeases V4State V4Queues V4Leases V4Machine V4Handlers V4Chain V4Laws V4Frames V4Lists V4System.

#[local] Open Scope Z_scope.

(** ** Who the leases belong to *)

(** The client of a lease, its pool, and the links of the tables by client *)
Definition client_view (s : lease) : option (list Z) * list Z * option id * option id * option id := (l_uid s, l_hbuf s, l_pool s, l_n_uid s, l_n_hw s).
Definition tables (d : srv) : gmap Z id * gmap (list Z) id * gmap (list Z) id := (lease_ip_addr_hash d, lease_uid_hash d, lease_hw_addr_hash d).

Definition lease_view (s : lease) : option (list Z) * list Z * option id * option id * option id * (Z * Z * Z) * (Z * Z * Z) :=
  (client_view s, (l_binding_state s, l_next_binding_state s, l_rewind_binding_state s), (l_starts s, l_ends s, l_cltt s)).
Definition peer_view (f : failover) : role * option (list Z) := (f_i_am f, f_hba f).

(** Relations that are kept by all changes that do not touch a lease's client, states and times *)
Class Still (R : relation srv) : Prop := {
  still_pre :: PreOrder R;
  still_set_lease x f : (forall s, (lease_view (f s), l_sort_time (f s), flag (f s) STATIC_LEASE) = (lease_view s, l_sort_time s, flag s STATIC_LEASE)) -> Keeps R (set_lease4 x f);
  still_set_pool q f : Keeps R (set_pool4 q f);
  still_set_peer f : (forall g, peer_view (f g) = peer_view g) -> Keeps R (set_peer4 f);
  still_modify f : (forall d, leases (f d) = leases d) -> (forall d, tables (f d) = tables d) -> (forall d, peer (f d) = peer d) -> (forall d, (events (f d), ss_nosync (f d)) = (events d, ss_nosync d)) -> Keeps R (modify4 f);
  still_emit e : (forall l s ok, e <> write_lease_ev l s ok) -> Keeps R (emit e);
  still_write_lease io x : Keeps R (write_lease io x);
  still_send_bind_update io cur_time x : Keeps R (dhcp_failover_send_bind_update io cur_time x);
  still_stepped x : Keeps R (set_lease4 x (fun s => set_l_rewind_binding_state (l_binding_state s) s))
}.

(** They are also kept by the steps from one state to the next. *)
Class Calm (R : relation srv) : Prop := {
  calm_still :: Still R;
  calm_sort_time x t : Keeps R (set_lease4 x (set_l_sort_time t));
  calm_transition x : Keeps R (make_binding_state_transition x);
  calm_rewound x : Keeps R (set_lease4 x (fun s => set_l_next_binding_state (l_rewind_binding_state s) s))
}.

(** Closes a change of a lease that a still relation does not see; a flag of a queue may change. *)
Ltac still_unseen := intros ?; first [reflexivity | rewrite (flag_set_other _ STATIC_LEASE) by reflexivity; reflexivity | rewrite (flag_clear_other _ STATIC_LEASE) by reflexivity; reflexivity].

(** Unfolds what only sends, writes or sets timers. *)
Ltac open_ops := unfold dhcp_failover_send_contact, dhcp_failover_send_state, dhcp_failover_send_bind_update, dhcp_failover_send_bind_ack,
  dhcp_failover_send_poolreq, dhcp_failover_send_poolresp, dhcp_failover_send_update_request, dhcp_failover_send_update_request_all,
  dhcp_failover_send_update_done, dhcp_failover_put_message, with_link, next_xid, commit_leases, write_failover_state, add_timeout4,
  cancel_timeout4.

Section Still.
Context (R : relation srv) `{!Still R} (io : nat -> bool) (random : nat -> Z) (cur_time : Z).

#[local] Hint Extern 0 (Keeps R (set_lease4 _ _)) => (first [apply still_stepped | apply still_set_lease; still_unseen]) : keeps.
#[local] Hint Extern 0 (Keeps R (set_pool4 _ _)) => (apply still_set_pool) : keeps.
#[local] Hint Extern 0 (Keeps R (set_peer4 _)) => (apply still_set_peer; unseen) : keeps.
#[local] Hint Extern 0 (Keeps R (modify4 _)) => (apply still_modify; intros; reflexivity) : keeps.
#[local] Hint Extern 0 (Keeps R (emit _)) => (apply still_emit; discriminate) : keeps.
#[local] Hint Extern 0 (Keeps R (write_lease _ _)) => (apply still_write_lease) : keeps.
#[local] Hint Extern 0 (Keeps R (dhcp_failover_send_bind_update _ _ _)) => (apply still_send_bind_update) : keeps.
Lemma calm_ask : Keeps R (ask io).
Proof. unfold ask. keeps. Qed.
Hint Resolve calm_ask : keeps.

Lemma calm_send_acks : Keeps R (dhcp_failover_send_acks io cur_time).
Proof. unfold dhcp_failover_send_acks. open_ops. keeps. Qed.
Hint Resolve calm_send_acks : keeps.
Lemma calm_send_loop n : Keeps R (send_loop io cur_time n).
Proof. induction n as [|n IH]; cbn [send_loop]; [apply keeps_fatal|]. keeps. Qed.
Hint Resolve calm_send_loop : keeps.
Lemma calm_send_updates : Keeps R (dhcp_failover_send_updates io cur_time).
Proof. unfold dhcp_failover_send_updates. keeps. Qed.
Lemma calm_before_pending n lp l : Keeps R (before_pending n lp l).
Proof. revert lp. induction n as [|n IH]; intros lp; cbn [before_pending]; [apply keeps_fatal|]. keeps. Qed.
Hint Resolve calm_send_updates calm_before_pending : keeps.

Lemma calm_ack_queue_remove l : Keeps R (dhcp_failover_ack_queue_remove io l).
Proof. unfold dhcp_failover_ack_queue_remove, forget_ack. open_ops. keeps. Qed.
Hint Resolve calm_ack_queue_remove : keeps.
Lemma calm_queue_update l b : Keeps R (dhcp_failover_queue_update io cur_time l b).
Proof. unfold dhcp_failover_queue_update. keeps. Qed.
Lemma calm_pool_check q : Keeps R (dhcp_failover_pool_check random cur_time q).
Proof. unfold dhcp_failover_pool_check, estimate. open_ops. keeps. Qed.
Lemma calm_commit_lease l b : Keeps R (commit_lease io l b).
Proof. unfold commit_lease. open_ops. keeps. Qed.
Lemma calm_next_event q l : Keeps R (next_event cur_time q l).
Proof. unfold next_event, add_timeout4. keeps. Qed.
Lemma calm_take_off q w l : Keeps R (take_off q w l).
Proof. unfold take_off. keeps. Qed.

End Still.

(** What a still relation keeps *)
Ltac still_leaf := first [apply still_stepped | apply still_set_lease; still_unseen | apply still_set_pool | apply still_set_peer; unseen | apply still_modify; intros; reflexivity | apply still_emit; discriminate | apply still_write_lease
  | apply calm_ask | apply still_send_bind_update | apply calm_send_acks | apply calm_send_updates | apply calm_before_pending | apply calm_ack_queue_remove | apply calm_queue_update | apply calm_pool_check
  | apply calm_commit_lease | apply calm_next_event | apply calm_take_off]; apply _.

Section Frames.
Context (R : relation srv) `{!Calm R} (io : nat -> bool) (random : nat -> Z) (cur_time : Z).

#[local] Hint Extern 0 (Keeps R (set_lease4 _ _)) => (first [apply calm_rewound | apply calm_sort_time]; apply _) : keeps.
#[local] Hint Extern 0 (Keeps R (make_binding_state_transition _)) => (apply calm_transition) : keeps.
#[local] Hint Extern 1 (Keeps R _) => still_leaf : keeps.

Lemma calm_enqueue l : Keeps R (lease_enqueue l).
Proof. unfold lease_enqueue, link_in. keeps. Qed.
Hint Resolve calm_enqueue : keeps.

(** Without new data *)
Lemma calm_supersede n :
  (forall x c p i, Keeps R (supersede_lease io random cur_time n x None c p i)) /\ (forall q, Keeps R (pool_timer io random cur_time n q)) /\
  (forall l e, Keeps R (timer_walk io random cur_time n l e)).
Proof.
  induction n as [|n (IHs & IHp & IHw)]; [split_and!; intros; apply keeps_fatal|]. split_and!.
  - intros x c p i. cbn [supersede_lease]. unfold move_lease. keeps.
  - intros q. cbn [pool_timer]. unfold add_timeout4. apply keeps_bind; [apply _ | | intros; keeps]. apply keeps_foldr; [|intros; keeps]. intros w k Hk e. keeps.
  - intros l e. cbn [timer_walk]. keeps.
Qed.

End Frames.

(** ** A lease keeps its client *)

Definition same_clients (d d' : srv) : Prop := same_of client_view d d' /\ tables d' = tables d /\ peer_view (peer d') = peer_view (peer d).

#[export] Instance same_clients_pre : PreOrder same_clients.
Proof. split; [by repeat split|]. intros x y z (H1 & H2 & H3) (E1 & E2 & E3). split; [by trans y|]. split; congruence. Qed.

Lemma sc_set_lease x f : (forall s, client_view (f s) = client_view s) -> Keeps same_clients (set_lease4 x f).
Proof. intros Hf d a d' (s & Hs & ->)%set_lease4_inv. split; [|done]. by eapply quiet_lease. Qed.

#[export] Hint Extern 0 (Keeps same_clients (set_lease4 _ _)) => (apply sc_set_lease; unseen) : keeps.

#[export] Instance same_clients_still : Still same_clients.
Proof.
  assert (forall f, (forall d, leases (f d) = leases d) -> (forall d, tables (f d) = tables d) -> (forall d, peer (f d) = peer d) -> Keeps same_clients (modify4 f)) as Hm.
  { intros f H1 H2 H3 d a d' H. unfold modify4 in H. simplify_eq. split; [intros x; by rewrite H1|]. by rewrite H2, H3. }
  assert (forall f, (forall g, peer_view (f g) = peer_view g) -> Keeps same_clients (set_peer4 f)) as Hp.
  { intros f Hf d a d' H. rewrite set_peer4_eq in H. simplify_eq. split; [done|]. split; [done|apply Hf]. }
  assert (forall e, Keeps same_clients (emit e)) by (intros e; by apply Hm). assert (forall io, Keeps same_clients (ask io)) by (intros io; unfold ask; keeps; by apply Hm).
  assert (forall io x, Keeps same_clients (write_lease io x)) by (intros io x; unfold write_lease; keeps).
  split; [apply _| | |done|intros f ? ? ? _; by apply Hm|done|done| |].
  - intros x f Hf. apply sc_set_lease. intros s. specialize (Hf s). unfold lease_view in Hf. congruence.
  - intros q f d a d' (p & Hq & ->)%set_pool4_inv. split; [|done]. by eapply (quiet_pool (R := same_of client_view)).
  - intros io now x. open_ops. keeps; (by apply Hp) || by apply Hm.
  - intros x. keeps.
Qed.

#[export] Instance same_clients_calm : Calm same_clients.
Proof. split; [apply _|intros; keeps| |intros; keeps]. assert (forall l, Keeps same_clients (emit (ddns_removals_ev l))) by (intros l; by apply still_emit). intros x. unfold make_binding_state_transition. keeps. Qed.

(** What a calm relation keeps *)
Ltac calm_leaf := first [still_leaf | first [apply calm_transition | apply calm_enqueue]; apply _].
#[export] Hint Extern 1 (Keeps same_clients _) => calm_leaf : keeps.

Lemma sc_release io random cur_time n l : Keeps same_clients (release_lease io random cur_time n l).
Proof. pose proof (proj1 (calm_supersede same_clients io random cur_time n)). unfold release_lease. keeps. Qed.

(** ** Chains *)

Definition tnx (t : table_by) (d : srv) (x : id) : option (option id) := n_of t <$> leases d !! x.

(** [T key] are the leases of the chain of [key], in order; [on x] is the key under which [x] is filed, [[]] if under none. *)
Record filed (t : table_by) (d : srv) (T : list Z -> list id) (on : id -> list Z) : Prop := {
  fi_seg key : key <> [] -> seg (tnx t d) (hash_by t d !! key) (T key) None;
  fi_on x key : key <> [] -> x ∈ T key <-> on x = key;
  fi_off x s : leases d !! x = Some s -> on x = [] -> n_of t s = None
}.

Definition table_ok (t : table_by) (d : srv) : Prop := exists T on, filed t d T on /\ forall x s, leases d !! x = Some s -> on x = key_by t s.

(** All but [x] are filed; [x] is on no chain. *)
Definition off_table (t : table_by) (x : id) (d : srv) : Prop :=
  exists T on, filed t d T on /\ on x = [] /\ forall y s, y <> x -> leases d !! y = Some s -> on y = key_by t s.

(** ** What does not change a table *)

Definition same_table (t : table_by) (d d' : srv) : Prop := same_of (n_of t) d d' /\ hash_by t d' = hash_by t d.
Definition same_keys (x : id) (t : table_by) (d d' : srv) : Prop := forall y, y <> x -> key_by t <$> leases d' !! y = key_by t <$> leases d !! y.

#[export] Instance same_table_pre t : PreOrder (same_table t).
Proof. split; [by split|]. intros x y z [H1 H2] [E1 E2]. split; [by trans y|congruence]. Qed.

Lemma filed_same t d d' T on : same_table t d d' -> filed t d T on -> filed t d' T on.
Proof.
  intros [Hn Hh] [H1 H2 H3]. split; [|done|].
  - intros key Hk. rewrite Hh. eapply seg_ext; [|by apply H1]. intros x _. apply Hn.
  - intros x s' (s & Hs & ->)%(same_of_back _ _ _ _ _ Hn) Ho. by eapply H3.
Qed.

Lemma off_same t x d d' : same_table t d d' -> same_keys x t d d' -> off_table t x d -> off_table t x d'.
Proof.
  intros Ht Hk (T & on & Hf & Hx & H). exists T, on. split; [by eapply filed_same|]. split; [done|]. intros y s' Hy Hs'. specialize (Hk y Hy). rewrite Hs' in Hk.
  destruct (leases d !! y) as [s|] eqn:Hs; [|done]. injection Hk as ->. by apply H.
Qed.

Lemma ok_off t x d s : leases d !! x = Some s -> key_by t s = [] -> table_ok t d -> off_table t x d.
Proof. intros Hs Hk (T & on & Hf & H). exists T, on. split; [done|]. split; [by rewrite <- Hk; apply H|]. intros y s' _. apply H. Qed.

Lemma off_ok t x d s : leases d !! x = Some s -> key_by t s = [] -> off_table t x d -> table_ok t d.
Proof. intros Hs Hk (T & on & Hf & Hx & H). exists T, on. split; [done|]. intros y s' Hs'. destruct (decide (y = x)) as [->|]; [|by apply H]. congruence. Qed.

(** ** What the operations of a table leave alone *)

Section Frame.
Context (R : relation srv) `{!PreOrder R} (t : table_by) (Hn : forall x v, Keeps R (set_lease4 x (set_n t v)))
  (Hh : forall h, Keeps R (modify4 (fun d => set_hash_by t (h d) d))).

Hint Resolve Hn Hh : keeps.
Lemma frame_place_by n c p l : Keeps R (place_by n t c p l).
Proof using Type*. revert c p. induction n as [|n IH]; intros c p; cbn [place_by]; [apply keeps_fatal|]. keeps. Qed.
Lemma frame_unlink_by n x l : Keeps R (unlink_by n t x l).
Proof using Type*. revert x. induction n as [|n IH]; intros x; cbn [unlink_by]; [apply keeps_fatal|]. keeps. Qed.
Hint Resolve frame_place_by frame_unlink_by : keeps.
Lemma frame_table_add l : Keeps R (table_add t l).
Proof using Type*. unfold table_add, find_lease_by, hash_put, hash_remove. keeps. Qed.
Lemma frame_table_delete l : Keeps R (table_delete t l).
Proof using Type*. unfold table_delete, find_lease_by, hash_put, hash_remove. keeps. Qed.

End Frame.

Section Others.
Context {A} (g : lease -> A) (Hg : forall t v s, g (set_n t v s) = g s).

Lemma of_hash t h : Keeps (same_of g) (modify4 (fun d => set_hash_by t (h d) d)).
Proof. destruct t; by apply keeps_modify. Qed.
Lemma of_set_n x t v : Keeps (same_of g) (set_lease4 x (set_n t v)).
Proof using Hg. apply keeps_set_lease. intros. apply Hg. Qed.
Lemma of_table_add t l : Keeps (same_of g) (table_add t l).
Proof using Hg. apply frame_table_add; [apply _|intros; apply of_set_n|apply of_hash]. Qed.
Lemma of_table_delete t l : Keeps (same_of g) (table_delete t l).
Proof using Hg. apply frame_table_delete; [apply _|intros; apply of_set_n|apply of_hash]. Qed.

End Others.

(** The other table *)
Lemma other_set_n t t' x v : t' <> t -> Keeps (same_table t) (set_lease4 x (set_n t' v)).
Proof. intros Ht d a d' (s & Hs & ->)%set_lease4_inv. split; [|by destruct t]. eapply quiet_lease; [done|]. by destruct t, t'. Qed.
Lemma other_hash t t' h : t' <> t -> Keeps (same_table t) (modify4 (fun d => set_hash_by t' (h d) d)).
Proof. intros Ht d a d' H. unfold modify4 in H. injection H as _ <-. by destruct t, t'. Qed.
Lemma other_add t t' l : t' <> t -> Keeps (same_table t) (table_add t' l).
Proof. intros Ht. apply frame_table_add; [apply _|intros; by apply other_set_n|intros; by apply other_hash]. Qed.
Lemma other_delete t t' l : t' <> t -> Keeps (same_table t) (table_delete t' l).
Proof. intros Ht. apply frame_table_delete; [apply _|intros; by apply other_set_n|intros; by apply other_hash]. Qed.

(** ** One chain changes *)

Definition file_at (x : id) (key : list Z) (on : id -> list Z) (y : id) : list Z := if decide (y = x) then key else on y.

Lemma filed_change t d d' T on x k L v :
  k <> [] -> v = [] \/ v = k -> on x = [] \/ on x = k -> filed t d T on ->
  (forall key, key <> [] -> key <> k -> hash_by t d' !! key = hash_by t d !! key) -> seg (tnx t d') (hash_by t d' !! k) L None ->
  (forall y, on y <> k -> y <> x -> tnx t d' y = tnx t d y) -> (forall y, y ∈ L <-> file_at x v on y = k) -> (v = [] -> forall s, leases d' !! x = Some s -> n_of t s = None) ->
  filed t d' (fun key => if decide (key = k) then L else T key) (file_at x v on).
Proof.
  intros Hk Hv Hx [H1 H2 H3] Hh HL Hn HLin Hoff. unfold file_at in *. split.
  - intros key Hkey. case_decide as E; [by subst|]. rewrite Hh by done. eapply seg_ext; [|by apply H1]. intros y Hy%H2; [|done]. apply Hn; [congruence|]. intros ->. destruct Hx; congruence.
  - intros y key Hkey. case_decide as E; [subst; apply HLin|]. rewrite H2 by done. case_decide as Ey; [|done]. subst. split; [destruct Hx; congruence|destruct Hv; congruence].
  - intros y s Hs. case_decide as Ey; [subst; intros ->; by apply Hoff|]. intros Ho. assert (Hk' : on y <> k) by congruence. specialize (Hn y Hk' Ey). unfold tnx in Hn. rewrite Hs in Hn.
    destruct (leases d !! y) as [s0|] eqn:Hs0; [|done]. injection Hn as ->. by eapply H3.
Qed.

Lemma tnx_upd t x s d y : tnx t (upd_lease x s d) y = if decide (y = x) then Some (n_of t s) else tnx t d y.
Proof. unfold tnx. rewrite lookup_upd_lease. by case_decide. Qed.

Lemma tnx_inv t d x o : tnx t d x = Some o -> exists s, leases d !! x = Some s /\ n_of t s = o.
Proof. unfold tnx. destruct (leases d !! x) as [s|]; [|done]. intros [= <-]. by exists s. Qed.

Lemma n_of_set t v s : n_of t (set_n t v s) = v.
Proof. by destruct t. Qed.
Lemma hash_by_set t h d : hash_by t (set_hash_by t h d) = h.
Proof. by destruct t. Qed.
Lemma leases_set_hash t h d : leases (set_hash_by t h d) = leases d.
Proof. by destruct t. Qed.
Lemma hash_upd t x s d : hash_by t (upd_lease x s d) = hash_by t d.
Proof. by destruct t. Qed.
Lemma tnx_set_hash t t' h d x : tnx t (set_hash_by t' h d) x = tnx t d x.
Proof. unfold tnx. by rewrite leases_set_hash. Qed.

(** A chain is not longer than there are leases. *)
Lemma chain_length t d h l : seg (tnx t d) h l None -> (length l < S (size (leases d)))%nat.
Proof.
  intros H. apply Nat.lt_succ_r. rewrite <- (size_list_to_set (C := gset id)) by (by eapply seg_NoDup). rewrite <- size_dom. apply subseteq_size.
  intros x [s Hs]%elem_of_list_to_set%(seg_in _ _ _ _ _ H). apply elem_of_dom. unfold tnx in Hs. by destruct (leases d !! x).
Qed.

Lemma place_by_eq n t h prev l s d : seg (tnx t d) h l None -> (length l < n)%nat -> exists l1 l2, l = l1 ++ l2 /\ place_by n t h prev s d = Some (last_or l1 prev, d).
Proof.
  revert h prev l. induction n as [|n IH]; intros h prev [|y l] Hs Hn; simpl in Hn; try lia; [simpl in Hs; subst h; by exists [], []|].
  destruct Hs as (-> & o & (sy & Hy & <-)%tnx_inv & Hs). cbn [place_by]. rewrite (bind4_eq _ _ _ _ _ (lease_at_eq _ _ _ Hy)). destruct (client_lease_preferred sy s); [by exists [], (y :: l)|].
  destruct (IH _ (Some y) l Hs) as (l1 & l2 & -> & ->); [lia|]. exists (y :: l1), l2. by rewrite last_or_cons.
Qed.

(** [x] behind [p] is taken out. *)
Definition cut_out (t : table_by) (p x : id) (d d' : srv) : Prop :=
  hash_by t d' = hash_by t d /\ tnx t d' p = tnx t d x /\ tnx t d' x = Some None /\ forall z, z <> x -> z <> p -> tnx t d' z = tnx t d z.

Lemma unlink_by_eq n t y l0 p x l d : seg (tnx t d) (Some y) (l0 ++ p :: x :: l) None -> (length l0 < n)%nat -> exists d', unlink_by n t y x d = Some (tt, d') /\ cut_out t p x d d'.
Proof.
  revert y l0. induction n as [|n IH]; intros y l0 Hs Hn; [lia|]. pose proof (seg_NoDup _ _ _ Hs) as (_ & Hno & [Hpx _]%NoDup_cons)%NoDup_app. cbn [unlink_by]. destruct l0 as [|z l0].
  - destruct Hs as ([= <-] & o & (sy & Hy & Ho)%tnx_inv & Hx). pose proof Hx as (-> & o' & (sx & Hsx & <-)%tnx_inv & _). rewrite (bind4_eq _ _ _ _ _ (lease_at_eq _ _ _ Hy)), Ho.
    rewrite bool_decide_true, (bind4_eq _ _ _ _ _ (lease_at_eq _ _ _ Hsx)) by done. assert (Hxy : x <> y) by set_solver. unfold cut_out. destruct (n_of t sx) as [nx|] eqn:Hnx.
    + rewrite (bind4_eq _ _ _ _ _ (set_lease4_eq _ _ _ _ Hy)). erewrite set_lease4_eq by (by rewrite lookup_upd_lease, decide_False). eexists. split; [done|]. rewrite !hash_upd. split; [done|].
      rewrite !tnx_upd, decide_False, !decide_True, !n_of_set by done. split; [unfold tnx; by rewrite Hsx; cbn; rewrite Hnx|]. split; [done|]. intros z Hz1 Hz2. by rewrite !tnx_upd, !decide_False.
    + rewrite (set_lease4_eq _ _ _ _ Hy). eexists. split; [done|]. rewrite hash_upd. split; [done|]. rewrite !tnx_upd, decide_True, n_of_set, decide_False by done.
      assert (Hx0 : tnx t d x = Some None) by (unfold tnx; by rewrite Hsx; cbn; rewrite Hnx). split; [done|]. split; [done|]. intros z Hz1 Hz2. by rewrite tnx_upd, decide_False.
  - destruct Hs as ([= <-] & o & (sy & Hy & Ho)%tnx_inv & Hs). rewrite (bind4_eq _ _ _ _ _ (lease_at_eq _ _ _ Hy)), Ho. cbn in Hn.
    assert (exists y', o = Some y' /\ y' <> x) as (y' & -> & Hne).
    { pose proof (seg_NoDup _ _ _ Hs) as (_ & H0 & [? _]%NoDup_cons)%NoDup_app. destruct l0 as [|y' l0]; destruct Hs as [-> _]; eexists; (split; [done|]); [set_solver|]. intros ->. apply (H0 x); set_solver. }
    rewrite bool_decide_false by done. apply (IH y' l0); [done|lia].
Qed.

(** ** Out of a table *)

(** The empty key is looked up without a result. *)
Lemma find_by_eq t key d : find_lease_by t key d = Some (if decide (key = []) then None else hash_by t d !! key, d).
Proof. unfold find_lease_by. case_bool_decide; by case_decide. Qed.

Lemma hash_put_eq t key x d : hash_put t key x d = Some (tt, set_hash_by t (<[key := x]> (hash_by t d)) d).
Proof. done. Qed.
Lemma hash_remove_eq t key d : hash_remove t key d = Some (tt, set_hash_by t (delete key (hash_by t d)) d).
Proof. done. Qed.

Lemma key_set_n t v s : key_by t (set_n t v s) = key_by t s.
Proof. by destruct t. Qed.

Lemma keys_delete t x d d' : table_delete t x d = Some (tt, d') -> forall t', same_of (key_by t') d d'.
Proof. intros H t'. eapply of_table_delete; [|exact H]. by intros [] v s; destruct t'. Qed.
Lemma keys_add t x d d' : table_add t x d = Some (tt, d') -> forall t', same_of (key_by t') d d'.
Proof. intros H t'. eapply of_table_add; [|exact H]. by intros [] v s; destruct t'. Qed.

(** The lease at the head of its chain *)
Lemma delete_head t x l d s T on : filed t d T on -> (forall y sy, leases d !! y = Some sy -> on y = key_by t sy) -> leases d !! x = Some s -> key_by t s <> [] -> T (key_by t s) = x :: l ->
  exists d', table_delete t x d = Some (tt, d') /\ seg (tnx t d') (hash_by t d' !! key_by t s) l None /\ tnx t d' x = Some None /\
    (forall key, key <> key_by t s -> hash_by t d' !! key = hash_by t d !! key) /\ forall z, z <> x -> tnx t d' z = tnx t d z.
Proof.
  intros Hf Hon Hs Hk HT. set (k := key_by t s) in *. pose proof (fi_seg _ _ _ _ Hf k Hk) as Hseg. rewrite HT in Hseg. pose proof Hseg as (Hh & o & (s' & Hs' & Ho)%tnx_inv & Hl).
  assert (s' = s) as -> by congruence. unfold table_delete. rewrite (bind4_eq _ _ _ _ _ (lease_at_eq _ _ _ Hs)), (bind4_eq _ _ _ _ _ (find_by_eq _ _ _)). fold k.
  rewrite decide_False, Hh, bool_decide_true, (bind4_eq _ _ _ _ _ (hash_remove_eq _ _ _)), Ho by done.
  assert (Hrest : forall d', (forall z, z <> x -> tnx t d' z = tnx t d z) -> seg (tnx t d') o l None).
  { intros d' Hz. eapply (seg_unlink_first (tnx t d)); [by rewrite <- Hh|unfold tnx; by rewrite Hs; cbn; rewrite Ho|done]. }
  destruct o as [y|].
  - destruct l as [|y' l]; [done|]. pose proof Hl as ([= <-] & _ & (sy & Hy & _)%tnx_inv & _). assert (Hky : key_by t sy = k) by (rewrite <- (Hon _ _ Hy); apply (fi_on _ _ _ _ Hf y k Hk); rewrite HT; set_solver).
    erewrite bind4_eq by (apply lease_at_eq; by rewrite leases_set_hash). rewrite Hky, (bind4_eq _ _ _ _ _ (hash_put_eq _ _ _ _)).
    erewrite set_lease4_eq by (by rewrite !leases_set_hash). eexists. split; [done|]. rewrite hash_upd, !hash_by_set, lookup_insert_eq.
    assert (Hz : forall z, z <> x -> tnx t (upd_lease x (set_n t None s) (set_hash_by t (<[k:=y]> (delete k (hash_by t d))) (set_hash_by t (delete k (hash_by t d)) d))) z = tnx t d z)
      by (intros z Hz; by rewrite tnx_upd, decide_False, !tnx_set_hash by done).
    split; [by apply Hrest|]. split; [by rewrite tnx_upd, decide_True, n_of_set by done|]. split; [|done]. intros key Hkey. by rewrite lookup_insert_ne, lookup_delete_ne.
  - eexists. split; [done|]. rewrite hash_by_set, lookup_delete_eq. split; [apply Hrest; intros; by rewrite tnx_set_hash|]. split; [rewrite tnx_set_hash; unfold tnx; by rewrite Hs; cbn; rewrite Ho|].
    split; [intros key Hkey; by rewrite lookup_delete_ne|]. intros z _. by rewrite tnx_set_hash.
Qed.

(** A lease behind another one *)
Lemma delete_behind t x l0 p l d s T on : filed t d T on -> leases d !! x = Some s -> key_by t s <> [] -> T (key_by t s) = l0 ++ p :: x :: l ->
  exists d', table_delete t x d = Some (tt, d') /\ cut_out t p x d d' /\ seg (tnx t d') (hash_by t d' !! key_by t s) (l0 ++ p :: l) None.
Proof.
  intros Hf Hs Hk HT. set (k := key_by t s) in *. pose proof (fi_seg _ _ _ _ Hf k Hk) as Hseg. rewrite HT in Hseg. unfold table_delete.
  rewrite (bind4_eq _ _ _ _ _ (lease_at_eq _ _ _ Hs)), (bind4_eq _ _ _ _ _ (find_by_eq _ _ _)). fold k. rewrite decide_False by done.
  pose proof (seg_NoDup _ _ _ Hseg) as Hnd. pose proof (chain_length _ _ _ _ Hseg) as Hlen. rewrite length_app in Hlen. cbn in Hlen.
  assert (exists y, hash_by t d !! k = Some y /\ y <> x) as (y & Hy & Hne).
  { pose proof (seg_head _ _ _ _ Hseg) as Hh. apply NoDup_app in Hnd as (_ & H0 & [H1 _]%NoDup_cons). destruct l0 as [|y l0]; eexists; (split; [exact Hh|]); [set_solver|]. intros ->. apply (H0 x); set_solver. }
  rewrite Hy, bool_decide_false, get4_bind by done. rewrite Hy in Hseg. destruct (unlink_by_eq (S (size (leases d))) t y l0 p x l d Hseg) as (d' & E & Hc); [lia|]. exists d'. split; [done|]. split; [done|].
  destruct Hc as (Hh & H1 & H2 & H3). rewrite Hh, Hy. apply seg_app in Hseg as Hm. destruct Hm as (m & _ & -> & o & Ho & -> & o' & Ho' & _).
  eapply (seg_unlink_behind (tnx t d)); [exact Hseg|exact Ho'|by rewrite H1|done].
Qed.

Lemma table_delete_ok t x d s : table_ok t d -> leases d !! x = Some s -> exists d', table_delete t x d = Some (tt, d') /\ off_table t x d'.
Proof.
  intros (T & on & Hf & Hon) Hs. pose proof (Hon x s Hs) as Hx. destruct (decide (key_by t s = [])) as [Hk|Hk].
  - assert (E : table_delete t x d = Some (tt, upd_lease x (set_n t None s) d)).
    { unfold table_delete. rewrite (bind4_eq _ _ _ _ _ (lease_at_eq _ _ _ Hs)), (bind4_eq _ _ _ _ _ (find_by_eq _ _ _)), decide_True by done. by apply set_lease4_eq. }
    exists (upd_lease x (set_n t None s) d). split; [done|]. apply (off_same t x d); [|intros y _; apply (keys_delete _ _ _ _ E)|apply (ok_off _ _ _ s Hs Hk); by exists T, on].
    split; [|apply hash_upd]. eapply quiet_lease; [done|]. rewrite n_of_set. symmetry. apply (fi_off _ _ _ _ Hf x s Hs). congruence.
  - assert (HxT : x ∈ T (key_by t s)) by (by apply (fi_on _ _ _ _ Hf)). destruct (seg_split _ _ _ _ (fi_seg _ _ _ _ Hf _ Hk) HxT) as (l1 & l2 & HT & H1 & H2 & _).
    assert (exists d' L, table_delete t x d = Some (tt, d') /\ seg (tnx t d') (hash_by t d' !! key_by t s) L None /\ tnx t d' x = Some None /\
      (forall key, key <> [] -> key <> key_by t s -> hash_by t d' !! key = hash_by t d !! key) /\ (forall z, on z <> key_by t s -> z <> x -> tnx t d' z = tnx t d z) /\
      forall y, y ∈ L <-> y ∈ l1 ++ l2) as (d' & L & E & Hseg & Hnx & Hh & Hz & HL).
    { destruct (decide (l1 = [])) as [->|(l0 & p & ->)%exists_last].
      - destruct (delete_head t x l2 d s T on Hf Hon Hs Hk HT) as (d' & E & Hseg & Hnx & Hh & Hz). exists d', l2. split_and!; try done; auto.
      - rewrite <- app_assoc in HT. cbn in HT. destruct (delete_behind t x l0 p l2 d s T on Hf Hs Hk HT) as (d' & E & (Hh & _ & Hnx & Hz) & Hseg).
        exists d', (l0 ++ p :: l2). split_and!; try done; [intros; by rewrite Hh| |set_solver]. intros z Hon' Hzx. apply Hz; [done|]. intros ->. apply Hon'. apply (fi_on _ _ _ _ Hf p); [done|]. rewrite HT. set_solver. }
    exists d'. split; [done|]. eexists _, (file_at x [] on). split; [eapply (filed_change t d d' T on x (key_by t s) L []); try done; auto|split].
    + intros y. rewrite HL. unfold file_at. case_decide as Ey; [subst; split; [set_solver|congruence]|]. rewrite <- (fi_on _ _ _ _ Hf) by done. rewrite HT. set_solver.
    + intros _ sx Hsx. apply tnx_inv in Hnx as (sx' & ? & ?). congruence.
    + unfold file_at. by rewrite decide_True.
    + intros y sy Hy Hsy. unfold file_at. rewrite decide_False by done. destruct (same_of_back _ _ _ _ _ (keys_delete _ _ _ _ E t) Hsy) as (s0 & Hs0 & ->). by apply Hon.
Qed.

(** ** Into a table *)

(** [x] is on the chain of [k] now. *)
Definition put_in (t : table_by) (x : id) (k : list Z) (T : list Z -> list id) (d d' : srv) : Prop :=
  exists L, seg (tnx t d') (hash_by t d' !! k) L None /\ (forall y, y ∈ L <-> y = x \/ y ∈ T k) /\
    (forall key, key <> k -> hash_by t d' !! key = hash_by t d !! key) /\ forall z, z ∉ T k -> z <> x -> tnx t d' z = tnx t d z.

Lemma add_chain t x d s T on : filed t d T on -> on x = [] -> leases d !! x = Some s -> key_by t s <> [] -> exists d', table_add t x d = Some (tt, d') /\ put_in t x (key_by t s) T d d'.
Proof.
  intros Hf Hx Hs Hk. set (k := key_by t s) in *. pose proof (fi_seg _ _ _ _ Hf k Hk) as Hseg. pose proof (fi_off _ _ _ _ Hf x s Hs Hx) as Hnx.
  assert (HxT : x ∉ T k) by (intros ?%(fi_on _ _ _ _ Hf); congruence). unfold table_add. rewrite (bind4_eq _ _ _ _ _ (lease_at_eq _ _ _ Hs)), (bind4_eq _ _ _ _ _ (find_by_eq _ _ _)).
  fold k. rewrite decide_False by done. unfold put_in. destruct (hash_by t d !! k) as [h|] eqn:Hh.
  - rewrite get4_bind. destruct (place_by_eq (S (size (leases d))) t (Some h) None (T k) s d Hseg) as (l1 & l2 & HT & Hpl); [by eapply chain_length|].
    rewrite (bind4_eq _ _ _ _ _ Hpl). rewrite HT in *. destruct (decide (l1 = [])) as [->|(l0 & p & ->)%exists_last].
    + cbn [last_or last app] in *. rewrite (bind4_eq _ _ _ _ _ (set_lease4_eq _ _ _ _ Hs)), (bind4_eq _ _ _ _ _ (hash_remove_eq _ _ _)), hash_put_eq. eexists. split; [done|]. exists (x :: l2).
      rewrite !hash_by_set, lookup_insert_eq, hash_upd. split; [|split_and!].
      * eapply (seg_link_first (tnx t d)); [exact Hseg|done|rewrite !tnx_set_hash, tnx_upd, decide_True by done; by rewrite n_of_set|]. intros z Hz. by rewrite !tnx_set_hash, tnx_upd, decide_False.
      * set_solver.
      * intros key Hkey. by rewrite lookup_insert_ne, lookup_delete_ne.
      * intros z _ Hz. by rewrite !tnx_set_hash, tnx_upd, decide_False.
    + unfold last_or. rewrite last_snoc. rewrite <- app_assoc in *. cbn [app] in *. apply seg_app in Hseg as Hm. destruct Hm as (m & _ & -> & o & (sp & Hp & Ho)%tnx_inv & _).
      assert (Hpx : p <> x) by set_solver. assert (Hxp : x <> p) by done. rewrite (bind4_eq _ _ _ _ _ (lease_at_eq _ _ _ Hp)), Ho.
      assert (exists d', ((match o with Some nx => set_lease4 x (set_n t (Some nx)) ;; set_lease4 p (set_n t None) | None => mret tt end) ;; set_lease4 p (set_n t (Some x))) d = Some (tt, d') /\
        hash_by t d' = hash_by t d /\ tnx t d' p = Some (Some x) /\ tnx t d' x = Some o /\ forall z, z <> x -> z <> p -> tnx t d' z = tnx t d z) as (d' & E & Hh' & Hp' & Hx' & Hz).
      { destruct o as [nx|].
        - erewrite bind4_eq; [|rewrite (bind4_eq _ _ _ _ _ (set_lease4_eq _ _ _ _ Hs)); apply set_lease4_eq; by rewrite lookup_upd_lease, decide_False].
          erewrite set_lease4_eq by (by rewrite lookup_upd_lease, decide_True). eexists. split; [done|]. rewrite !hash_upd, !tnx_upd, (decide_True (P := p = p)), !(decide_False (P := x = p)), (decide_True (P := x = x)), !n_of_set by done. split_and!; try done. intros z Hz1 Hz2. by rewrite !tnx_upd, !decide_False.
        - rewrite (bind4_eq (mret tt) _ _ tt d) by done. rewrite (set_lease4_eq _ _ _ _ Hp). eexists. split; [done|]. rewrite hash_upd, !tnx_upd, decide_True, n_of_set, decide_False by done.
          split_and!; try done; [unfold tnx; by rewrite Hs; cbn; rewrite Hnx|]. intros z Hz1 Hz2. by rewrite tnx_upd, decide_False. }
      exists d'. split; [exact E|]. exists (l0 ++ p :: x :: l2). rewrite Hh', Hh. split_and!; [|set_solver|done|intros z Hz1 Hz2; apply Hz; set_solver].
      eapply (seg_link_behind (tnx t d)); [exact Hseg|done|done| |done]. rewrite Hx'. unfold tnx. by rewrite Hp; cbn; rewrite Ho.
  - rewrite hash_put_eq. eexists. split; [done|]. exists [x]. rewrite hash_by_set, lookup_insert_eq. assert (T k = []) as -> by (destruct (T k); [done|by destruct Hseg]).
    split_and!; [|set_solver|intros key Hkey; by rewrite lookup_insert_ne|intros; by rewrite tnx_set_hash]. split; [done|]. exists None. split; [|done]. rewrite tnx_set_hash. unfold tnx. by rewrite Hs; cbn; rewrite Hnx.
Qed.

Lemma table_add_ok t x d s : off_table t x d -> leases d !! x = Some s -> exists d', table_add t x d = Some (tt, d') /\ table_ok t d'.
Proof.
  intros (T & on & Hf & Hx & Hon) Hs. destruct (decide (key_by t s = [])) as [Hk|Hk].
  - assert (E : table_add t x d = Some (tt, set_hash_by t (<[[] := x]> (hash_by t d)) d)).
    { unfold table_add. rewrite (bind4_eq _ _ _ _ _ (lease_at_eq _ _ _ Hs)), (bind4_eq _ _ _ _ _ (find_by_eq _ _ _)), decide_True, Hk by done. apply hash_put_eq. }
    eexists. split; [exact E|]. destruct Hf as [H1 H2 H3]. exists T, on. rewrite leases_set_hash. split; [split|].
    + intros key Hkey. rewrite hash_by_set, lookup_insert_ne by done. eapply seg_ext; [|by apply H1]. intros. by rewrite tnx_set_hash.
    + done.
    + intros y sy. rewrite leases_set_hash. apply H3.
    + intros y sy Hy. destruct (decide (y = x)) as [->|]; [congruence|by apply Hon].
  - destruct (add_chain t x d s T on Hf Hx Hs Hk) as (d' & E & L & Hseg & HL & Hh & Hz). exists d'. split; [done|].
    eexists _, (file_at x (key_by t s) on). split; [eapply (filed_change t d d' T on x (key_by t s) L (key_by t s)); try done; auto|].
    + intros y Hy Hyx. apply Hz; [|done]. by intros ?%(fi_on _ _ _ _ Hf).
    + intros y. rewrite HL. unfold file_at. case_decide; [naive_solver|]. rewrite (fi_on _ _ _ _ Hf) by done. naive_solver.
    + intros y sy Hsy. destruct (same_of_back _ _ _ _ _ (keys_add _ _ _ _ E t) Hsy) as (s0 & Hs0 & ->). unfold file_at. case_decide; [congruence|by apply Hon].
Qed.

(** ** The running server *)

Definition tables_good (d : srv) : Prop := forall t, table_ok t d.

Lemma clients_table d d' : same_clients d d' -> forall t, same_table t d d' /\ same_of (key_by t) d d'.
Proof.
  intros (Hc & Ht & _) t. unfold tables in Ht. injection Ht as _ Hu Hh. split; [split|]; [| |].
  - intros x. specialize (Hc x). destruct (leases d' !! x), (leases d !! x); try done. injection Hc as _ _ _ H1 H2. destruct t; cbn; congruence.
  - by destruct t.
  - intros x. specialize (Hc x). destruct (leases d' !! x), (leases d !! x); try done. injection Hc as H1 H2 _ _ _. destruct t; cbn; congruence.
Qed.

Lemma table_ok_same t d d' : same_table t d d' -> same_of (key_by t) d d' -> table_ok t d -> table_ok t d'.
Proof.
  intros Ht Hk (T & on & Hf & Hon). exists T, on. split; [by eapply filed_same|]. intros x s' (s & Hs & ->)%(same_of_back _ _ _ _ _ Hk). by apply Hon.
Qed.

Lemma keeps_tables {A} (m : M4 A) : Keeps same_clients m -> Keeps (inv_rel tables_good) m.
Proof. apply keeps_sub. intros d d' H Hd t. destruct (clients_table _ _ H t). by eapply table_ok_same. Qed.

Lemma tables_set_peer f : Keeps (inv_rel tables_good) (set_peer4 f).
Proof. intros d a d' H Hd t. rewrite set_peer4_eq in H. injection H as _ <-. by apply (table_ok_same t d); [split; [|by destruct t]|..]. Qed.

(** Data of the lease itself, without its links *)
Lemma set_off t x s s' d : leases d !! x = Some s -> n_of t s' = n_of t s -> off_table t x d -> off_table t x (upd_lease x s' d).
Proof.
  intros Hs Hf. apply off_same; [split; [by eapply quiet_lease|apply hash_upd]|]. intros y Hy. by rewrite lookup_upd_lease, decide_False.
Qed.

(** Only one table is changed. *)
Definition other_same (t : table_by) (d d' : srv) : Prop := forall t', t' <> t -> same_table t' d d' /\ same_of (key_by t') d d'.

Lemma delete_inv t x d u d' : table_delete t x d = Some (u, d') -> table_ok t d -> off_table t x d' /\ other_same t d d'.
Proof.
  intros E Hok. destruct u. assert (exists s, leases d !! x = Some s) as [s Hs] by (unfold table_delete in E; step4 E; eauto). destruct (table_delete_ok t x d s Hok Hs) as (d1 & E1 & H).
  rewrite E in E1. injection E1 as <-. split; [done|]. intros t' Ht. split; [by eapply other_delete|by eapply keys_delete].
Qed.

Lemma add_inv t x d u d' : table_add t x d = Some (u, d') -> off_table t x d -> table_ok t d' /\ other_same t d d'.
Proof.
  intros E Hok. destruct u. assert (exists s, leases d !! x = Some s) as [s Hs] by (unfold table_add in E; step4 E; eauto). destruct (table_add_ok t x d s Hok Hs) as (d1 & E1 & H).
  rewrite E in E1. injection E1 as <-. split; [done|]. intros t' Ht. split; [by eapply other_add|by eapply keys_add].
Qed.

Lemma off_other t t' x d d' : other_same t d d' -> t' <> t -> off_table t' x d -> off_table t' x d'.
Proof. intros H Ht. destruct (H t' Ht) as [H1 H2]. apply off_same; [done|]. intros y _. apply H2. Qed.

Lemma ok_other t t' d d' : other_same t d d' -> t' <> t -> table_ok t' d -> table_ok t' d'.
Proof. intros H Ht. destruct (H t' Ht). by apply table_ok_same. Qed.

(** A lease leaves the tables, first the one by identifier. *)
Lemma leave_uid x s d u d' : tables_good d -> leases d !! x = Some s ->
  (match l_uid s with Some _ => table_delete ByUid x ;; set_lease4 x (set_l_uid None) | None => mret tt end) d = Some (u, d') ->
  off_table ByUid x d' /\ table_ok ByHw d' /\ exists s', leases d' !! x = Some s' /\ l_hbuf s' = l_hbuf s.
Proof.
  intros Hd Hs E. destruct (l_uid s) as [uid|] eqn:Hu; [|injection E as _ <-; split; [apply (ok_off _ _ _ s); [done|by cbn; rewrite Hu|apply Hd]|split; [apply Hd|eauto]]].
  apply bind4_inv in E as (u2 & d2 & E2 & (s2 & Hs2 & ->)%set_lease4_inv). destruct u2. pose proof (keys_delete _ _ _ _ E2 ByHw) as Hk. destruct (same_of_back _ _ _ _ _ Hk Hs2) as (s0 & Hs0 & Hb).
  assert (s0 = s) as -> by congruence. destruct (delete_inv _ _ _ _ _ E2 (Hd ByUid)) as [Ho Hother]. split; [by apply (set_off ByUid x s2)|]. split.
  - eapply (table_ok_same ByHw d2); [split; [by eapply quiet_lease|done]|by eapply quiet_lease|]. by apply (ok_other ByUid _ d); [| |apply Hd].
  - rewrite lookup_upd_lease, decide_True by done. by eexists.
Qed.

Lemma leave_hw x s d u d' : off_table ByUid x d -> table_ok ByHw d -> leases d !! x = Some s -> when4 (negb (bool_decide (l_hbuf s = []))) (table_delete ByHw x) d = Some (u, d') -> forall t, off_table t x d'.
Proof.
  intros Hu Hh Hs E. case_bool_decide as Hn; cbn [negb when4] in E.
  - injection E as _ <-. intros []; [done|]. by apply (ok_off _ _ _ s).
  - destruct (delete_inv _ _ _ _ _ E Hh) as [Ho Hother]. intros []; [by apply (off_other ByHw _ _ d)|done].
Qed.

(** It enters the tables of what it has then. *)
Lemma enter_uid x t s d u d' : (forall t, off_table t x d) -> leases d !! x = Some s -> l_uid s = l_uid t -> (match l_uid t with Some _ => table_add ByUid x | None => mret tt end) d = Some (u, d') ->
  table_ok ByUid d' /\ off_table ByHw x d' /\ exists s', leases d' !! x = Some s' /\ l_hbuf s' = l_hbuf s.
Proof.
  intros Hd Hs Hu E. destruct (l_uid t) as [uid|] eqn:Ht; [|injection E as _ <-; split; [apply (off_ok _ x _ s); [done|by cbn; rewrite Hu|apply Hd]|split; [apply Hd|eauto]]].
  destruct u, (add_inv _ _ _ _ _ E (Hd ByUid)) as [Ho Hother]. split; [done|]. split; [by apply (off_other ByUid _ _ d)|]. exact (same_of_some _ _ _ _ _ (keys_add _ _ _ _ E ByHw) Hs).
Qed.

Lemma enter_hw x t s d u d' : table_ok ByUid d -> off_table ByHw x d -> leases d !! x = Some s -> l_hbuf s = l_hbuf t -> when4 (negb (bool_decide (l_hbuf t = []))) (table_add ByHw x) d = Some (u, d') -> tables_good d'.
Proof.
  intros Hok Hoff Hs Hb E. case_bool_decide as Hn; cbn [negb when4] in E.
  - injection E as _ <-. intros []; [done|]. apply (off_ok _ x _ s); [done|by cbn; rewrite Hb|done].
  - destruct (add_inv _ _ _ _ _ E Hoff) as [Ho Hother]. intros []; [by apply (ok_other ByHw _ d)|done].
Qed.

(** Between leaving and entering, the lease gets the data of [t]. *)
Definition write_data (x : id) (t : lease) : M4 unit :=
  set_lease4 x (set_l_starts (l_starts t)) ;; set_lease4 x (set_l_uid (l_uid t)) ;; set_lease4 x (set_l_hbuf (l_hbuf t)) ;;
  set_lease4 x (fun s => set_l_flags (Z.lor (Z.ldiff (l_flags t) PERSISTENT_FLAGS) (Z.ldiff (l_flags s) EPHEMERAL_FLAGS)) s) ;; set_lease4 x (set_l_scope (l_scope t)).

Lemma write_data_ok x t d s : leases d !! x = Some s -> (forall t, off_table t x d) ->
  exists d' s', write_data x t d = Some (tt, d') /\ leases d' !! x = Some s' /\ l_uid s' = l_uid t /\ l_hbuf s' = l_hbuf t /\ forall t, off_table t x d'.
Proof.
  intros Hs Hoff. unfold write_data. do 4 (erewrite bind4_eq by (apply set_lease4_eq; first [exact Hs | by rewrite lookup_upd_lease, decide_True])).
  erewrite set_lease4_eq by (by rewrite lookup_upd_lease, decide_True). eexists _, _. split; [done|]. rewrite lookup_upd_lease, decide_True by done. do 3 (split; [done|]). intros t'.
  do 5 (eapply set_off; [first [exact Hs | by rewrite lookup_upd_lease, decide_True]|by destruct t'|]). done.
Qed.

Definition write_rest (x : id) (t : lease) : M4 unit :=
  set_lease4 x (set_l_cltt (l_cltt t)) ;; set_lease4 x (set_l_tstp (l_tstp t)) ;; set_lease4 x (set_l_tsfp (l_tsfp t)) ;; set_lease4 x (set_l_atsfp (l_atsfp t)) ;;
  set_lease4 x (set_l_ends (l_ends t)) ;; set_lease4 x (set_l_next_binding_state (l_next_binding_state t)).

(** [copy_data] has a result, and keeps both tables exact. *)
Lemma copy_data_ok x t d s : tables_good d -> leases d !! x = Some s -> exists d', copy_data x t d = Some (tt, d') /\ tables_good d'.
Proof.
  intros Hd Hs. assert (exists d1, (match l_uid s with Some _ => table_delete ByUid x ;; set_lease4 x (set_l_uid None) | None => mret tt end) d = Some (tt, d1)) as [d1 E1].
  { destruct (l_uid s); [|by exists d]. destruct (table_delete_ok ByUid x d s (Hd ByUid) Hs) as (d1 & E & _). rewrite (bind4_eq _ _ _ _ _ E).
    destruct (same_of_some _ _ _ _ _ (keys_delete _ _ _ _ E ByUid) Hs) as (s1 & Hs1 & _). eexists. by apply set_lease4_eq. }
  destruct (leave_uid x s d tt d1 Hd Hs E1) as (Hu & Hh & s1 & Hs1 & Hb).
  assert (exists d2, when4 (negb (bool_decide (l_hbuf s = []))) (table_delete ByHw x) d1 = Some (tt, d2)) as [d2 E2].
  { destruct (negb _); [|by exists d1]. destruct (table_delete_ok ByHw x d1 s1 Hh Hs1) as (d2 & E & _). by exists d2. }
  assert (exists s2, leases d2 !! x = Some s2) as [s2 Hs2].
  { revert E2. destruct (negb _); cbn [when4]; [intros E|intros [= <-]; eauto]. destruct (same_of_some _ _ _ _ _ (keys_delete _ _ _ _ E ByHw) Hs1) as (s2 & Hs2 & _). eauto. }
  rewrite <- Hb in E2. pose proof (leave_hw x s1 d1 tt d2 Hu Hh Hs1 E2) as Hoff. rewrite Hb in E2. destruct (write_data_ok x t d2 s2 Hs2 Hoff) as (d3 & s3 & E3 & Hs3 & Hu3 & Hb3 & Hoff3).
  assert (exists d4, (match l_uid t with Some _ => table_add ByUid x | None => mret tt end) d3 = Some (tt, d4)) as [d4 E4].
  { destruct (l_uid t); [|by exists d3]. destruct (table_add_ok ByUid x d3 s3 (Hoff3 ByUid) Hs3) as (d4 & E & _). by exists d4. }
  destruct (enter_uid x t s3 d3 tt d4 Hoff3 Hs3 Hu3 E4) as (Hok4 & Hoff4 & s4 & Hs4 & Hb4). rewrite Hb3 in Hb4.
  assert (exists d5, when4 (negb (bool_decide (l_hbuf t = []))) (table_add ByHw x) d4 = Some (tt, d5)) as [d5 E5].
  { destruct (negb (bool_decide (l_hbuf t = []))); [|by exists d4]. destruct (table_add_ok ByHw x d4 s4 Hoff4 Hs4) as (d5 & E & _). by exists d5. }
  pose proof (enter_hw x t s4 d4 tt d5 Hok4 Hoff4 Hs4 Hb4 E5) as Hgood. assert (exists s5, leases d5 !! x = Some s5) as [s5 Hs5].
  { revert E5. destruct (negb (bool_decide (l_hbuf t = []))); cbn [when4]; [intros E|intros [= <-]; eauto]. destruct (same_of_some _ _ _ _ _ (keys_add _ _ _ _ E ByHw) Hs4) as (s5 & Hs5 & _). eauto. }
  assert (exists d6, write_rest x t d5 = Some (tt, d6)) as [d6 E6].
  { unfold write_rest. do 5 (erewrite bind4_eq by (apply set_lease4_eq; first [exact Hs5 | by rewrite lookup_upd_lease, decide_True])). eexists. apply set_lease4_eq. by rewrite lookup_upd_lease, decide_True. }
  exists d6. split.
  - unfold copy_data. rewrite (bind4_eq _ _ _ _ _ (lease_at_eq _ _ _ Hs)), (bind4_eq _ _ _ _ _ E1), (bind4_eq _ _ _ _ _ E2). unfold write_data in E3.
    do 4 (let u := fresh in let F := fresh "F" in apply bind4_inv in E3 as (u & ? & F & E3); rewrite (bind4_eq _ _ _ _ _ F)). by rewrite (bind4_eq _ _ _ _ _ E3), (bind4_eq _ _ _ _ _ E4), (bind4_eq _ _ _ _ _ E5).
  - revert E6 Hgood. enough (Keeps (inv_rel tables_good) (write_rest x t)) as K by apply K. apply keeps_tables. unfold write_rest. keeps.
Qed.

Lemma tables_copy_data x t : Keeps (inv_rel tables_good) (copy_data x t).
Proof.
  intros d [] d' E Hd. assert (exists s, leases d !! x = Some s) as [s Hs] by (unfold copy_data in E; step4 E; eauto). destruct (copy_data_ok x t d s Hd Hs) as (d1 & E1 & H). rewrite E in E1. by injection E1 as ->.
Qed.

Section System.
Context (io : nat -> bool) (random : nat -> Z) (cur_time : Z).

Hint Resolve keeps_tables tables_set_peer tables_copy_data : keeps.

Lemma tables_supersede n :
  (forall x t c p i, Keeps (inv_rel tables_good) (supersede_lease io random cur_time n x t c p i)) /\
  (forall q, Keeps (inv_rel tables_good) (pool_timer io random cur_time n q)) /\
  (forall l e, Keeps (inv_rel tables_good) (timer_walk io random cur_time n l e)).
Proof.
  induction n as [|n (IHs & IHp & IHw)]; [split_and!; intros; apply keeps_fatal|]. split_and!.
  - intros x t c p i. cbn [supersede_lease pool_timer timer_walk]. unfold move_lease. keeps.
  - intros q. cbn [supersede_lease pool_timer timer_walk]. unfold add_timeout4. apply keeps_bind; [apply _ | | intros; keeps]. apply keeps_foldr; [|intros; keeps]. intros w k Hk e. keeps.
  - intros l e. cbn [supersede_lease pool_timer timer_walk]. keeps.
Qed.

Lemma tables_supersede_lease n x t c p i : Keeps (inv_rel tables_good) (supersede_lease io random cur_time n x t c p i).
Proof. apply tables_supersede. Qed.
Lemma tables_pool_timer n q : Keeps (inv_rel tables_good) (pool_timer io random cur_time n q).
Proof. apply tables_supersede. Qed.
Hint Resolve tables_supersede_lease tables_pool_timer : keeps.

Lemma tables_release n l : Keeps (inv_rel tables_good) (release_lease io random cur_time n l).
Proof. unfold release_lease. keeps. Qed.
Lemma tables_abandon n l : Keeps (inv_rel tables_good) (abandon_lease io random cur_time n l).
Proof. unfold abandon_lease. keeps. Qed.
Lemma tables_dissociate n l : Keeps (inv_rel tables_good) (dissociate_lease io random cur_time n l).
Proof. unfold dissociate_lease. keeps. Qed.

Context (fuel : nat).

Lemma sc_resend_unacked : Keeps same_clients resend_unacked.
Proof.
  unfold resend_unacked. open_ops. assert (forall n l, Keeps same_clients (zap_flags n l)) by (induction n as [|n IH]; intros l; cbn [zap_flags]; [apply keeps_fatal|]; keeps). keeps.
Qed.
Lemma tables_balance_walk n q lq st hold pass lp lts k : Keeps (inv_rel tables_good) (balance_walk io random cur_time fuel n q lq st hold pass lp lts k).
Proof.
  revert pass lp lts k. induction n as [|n IH]; intros pass lp lts k; cbn [balance_walk]; [apply keeps_fatal|]. unfold give_away, peer_wants. open_ops. keeps.
Qed.
Hint Resolve sc_resend_unacked tables_balance_walk : keeps.

Lemma tables_dobalance : Keeps (inv_rel tables_good) (dhcp_failover_pool_dobalance io random cur_time fuel).
Proof.
  unfold dhcp_failover_pool_dobalance. open_ops. apply keeps_bind; [apply _ | keeps | intros f]. case_match; [keeps|]. apply keeps_bind; [apply _ | keeps | intros _].
  apply keeps_bind; [apply _ | keeps | intros ps]. apply keeps_bind; [apply _ | | intros r; keeps]. apply keeps_foldr; [|intros; keeps]. intros q k Hk r. keeps.
Qed.
Hint Resolve tables_dobalance : keeps.

Lemma sc_generate e : Keeps same_clients (dhcp_failover_generate_update_queue io cur_time e).
Proof.
  unfold dhcp_failover_generate_update_queue.
  assert (forall n w l, Keeps same_clients (update_list io cur_time n e w l)) by (induction n as [|n IH]; intros w l; cbn [update_list]; [apply keeps_fatal|]; keeps). keeps.
Qed.
Lemma sc_pools_alone : Keeps same_clients pools_alone.
Proof.
  unfold pools_alone. open_ops. assert (forall n f l, Keeps same_clients (expired_alone n f l)) by (induction n as [|n IH]; intros f l; cbn [expired_alone]; [apply keeps_fatal|]; keeps). keeps.
Qed.
Hint Resolve sc_generate sc_pools_alone : keeps.

Lemma tables_set_state_with done st : Keeps (inv_rel tables_good) done -> Keeps (inv_rel tables_good) (set_state_with io random cur_time fuel done st).
Proof. intros Hd. unfold set_state_with, enter_state, dhcp_failover_set_service_state, dhcp_failover_pool_balance. open_ops. keeps. Qed.
Lemma tables_recover_done : Keeps (inv_rel tables_good) (dhcp_failover_recover_done io random cur_time fuel).
Proof. unfold dhcp_failover_recover_done. apply keeps_bind; [apply _ | apply tables_set_state_with; keeps | intros; keeps]. Qed.
Hint Resolve tables_recover_done : keeps.
Lemma tables_set_state st : Keeps (inv_rel tables_good) (dhcp_failover_set_state io random cur_time fuel st).
Proof. apply tables_set_state_with. keeps. Qed.
Hint Resolve tables_set_state : keeps.

Lemma tables_transition t : Keeps (inv_rel tables_good) (dhcp_failover_state_transition io random cur_time fuel t).
Proof. unfold dhcp_failover_state_transition, goto_state. open_ops. keeps. Qed.
Hint Resolve tables_transition : keeps.

Lemma tables_peer_state_changed m : Keeps (inv_rel tables_good) (dhcp_failover_peer_state_changed io random cur_time fuel m).
Proof. unfold dhcp_failover_peer_state_changed, peer_state_news, react_to, goto_state, dhcp_failover_set_service_state, dhcp_failover_state_pool_check. open_ops. keeps. Qed.
Hint Resolve tables_peer_state_changed : keeps.

Lemma tables_bind_update m : Keeps (inv_rel tables_good) (dhcp_failover_process_bind_update io random cur_time fuel m).
Proof. unfold dhcp_failover_process_bind_update, install_update, peer_wants, refuse, send_lease_to_backup, dhcp_failover_queue_ack. open_ops. keeps. Qed.
Lemma tables_bind_ack m : Keeps (inv_rel tables_good) (dhcp_failover_process_bind_ack io random cur_time fuel m).
Proof. unfold dhcp_failover_process_bind_ack, acknowledge, after_ack, peer_wants, send_lease_to_backup. open_ops. keeps. Qed.
Hint Resolve tables_bind_update tables_bind_ack : keeps.

Lemma tables_message b x m : Keeps (inv_rel tables_good) (signal_message io random cur_time fuel b x m).
Proof.
  unfold signal_message, signal_connect, signal_connectack, partner_limits, dhcp_failover_pool_reqbalance, process_update_request, dhcp_failover_process_update_done, goto_state,
    dhcp_failover_set_service_state.
  open_ops. keeps.
Qed.
Lemma tables_link_disconnect b : Keeps (inv_rel tables_good) (link_signal_disconnect io random cur_time fuel b).
Proof. unfold link_signal_disconnect, signal_disconnect, goto_state. open_ops. keeps. Qed.
Lemma tables_pool_rebalance : Keeps (inv_rel tables_good) (dhcp_failover_pool_rebalance io random cur_time fuel).
Proof. unfold dhcp_failover_pool_rebalance. open_ops. keeps. Qed.
Hint Resolve tables_message tables_link_disconnect tables_pool_rebalance tables_release tables_abandon tables_dissociate : keeps.

Lemma tables_run_op o : Keeps (inv_rel tables_good) (run_op io random cur_time fuel o).
Proof.
  destruct o as [| |[]| | | | | |]; cbn [run_op];
    unfold dhcp_failover_timeout, dhcp_failover_startup_timeout, dhcp_failover_auto_partner_down, dhcp_failover_toack_queue_timeout, goto_state; open_ops; keeps.
Qed.
End System.
