(* ===== verification/V4Spared.v ===== *)
(** * Which leases a release changes

    Releasing a lease may start the timer of its pool, which moves other leases on; but only those whose time has come.  Every other lease stays in its state. *)

From stdpp Require Import gmap relations.
From S2P Require Import Prelude BindingStates FailoverLeases V4State V4Queues V4Leases V4Machine V4Handlers V4Chain V4Laws V4Frames V4Tables.

#[local] Open Scope Z_scope.

Section Spared.
Context (io : nat -> bool) (random : nat -> Z) (cur_time : Z).

(** The state of a lease, the one that follows by itself, and when *)
Definition fate (s : lease) : Z * Z * Z := (l_binding_state s, l_next_binding_state s, l_sort_time s).

(** The next state is due. *)
Definition due (s : lease) : Prop := l_sort_time s <= cur_time /\ l_next_binding_state s <> l_binding_state s.
Definition due_in (d : srv) (x : id) : Prop := exists s, leases d !! x = Some s /\ due s.

(** Of the leases outside [P], only those that were due have changed. *)
Definition spared (P : id -> Prop) (d d' : srv) : Prop := forall x, P x \/ fate <$> leases d' !! x = fate <$> leases d !! x \/ due_in d x.

Lemma due_fate d d' x : fate <$> leases d' !! x = fate <$> leases d !! x -> due_in d' x -> due_in d x.
Proof.
  intros E (s' & Hs' & H1 & H2). rewrite Hs' in E. destruct (leases d !! x) as [s|] eqn:Hs; [|done]. injection E as E1 E2 E3. exists s. split; [done|].
  split; congruence.
Qed.

#[export] Instance spared_pre P : PreOrder (spared P).
Proof.
  split; [intros d x; auto|]. intros d1 d2 d3 H1 H2 x. destruct (H1 x) as [|[E1|]]; [by left| |auto]. destruct (H2 x) as [|[E2|Hd]]; [by left| |].
  - right. left. by rewrite E2.
  - right. right. by eapply due_fate.
Qed.

Lemma spared_of P d d' : same_of fate d d' -> spared P d d'.
Proof. intros H x. right. left. apply H. Qed.

Lemma keeps_spared P {A} (m : M4 A) : Keeps (same_of fate) m -> Keeps (spared P) m.
Proof. apply keeps_sub. apply spared_of. Qed.

(** More leases may change; a lease that is due may. *)
Lemma spared_more (P P' : id -> Prop) d d' : (forall x, P x -> P' x) -> spared P d d' -> spared P' d d'.
Proof. intros H Hs x. destruct (Hs x) as [|]; auto. Qed.

Lemma spared_due P x d d' : due_in d x -> spared (fun y => P y \/ y = x) d d' -> spared P d d'.
Proof. intros Hd Hs y. destruct (Hs y) as [[| ->]|]; auto. Qed.

Lemma spared_set P x f : P x -> Keeps (spared P) (set_lease4 x f).
Proof. intros Hx d u d' (s & Hs & ->)%set_lease4_inv y. rewrite lookup_upd_lease. case_decide; [subst; by left|auto]. Qed.

#[export] Instance spared_still P : Still (spared P).
Proof.
  assert (forall e, Keeps (same_of fate) (emit e)) by (intros e; by apply keeps_modify). assert (forall io, Keeps (same_of fate) (ask io)) by (intros io'; unfold ask; keeps).
  assert (forall io x, Keeps (same_of fate) (write_lease io x)) by (intros io' x; unfold write_lease; keeps). split; [apply _| | | | | |by intros; apply keeps_spared| |].
  - intros x f Hf. apply keeps_spared, keeps_set_lease. intros s. specialize (Hf s). unfold lease_view in Hf. unfold fate. congruence.
  - intros q f. apply keeps_spared. by apply keeps_set_pool.
  - intros f _. apply keeps_spared. by apply keeps_set_peer.
  - intros f Hl _ _ _ d u d' E. unfold modify4 in E. injection E as _ <-. apply spared_of. intros x. by rewrite Hl.
  - intros e _. by apply keeps_spared.
  - intros io' now x. apply keeps_spared. open_ops. keeps; apply keeps_set_lease; intros s; reflexivity.
  - intros x. apply keeps_spared, keeps_set_lease. intros s. reflexivity.
Qed.

#[local] Hint Extern 1 (Keeps (spared _) _) => still_leaf : keeps.
#[local] Hint Extern 0 (Keeps (spared _) (set_lease4 _ _)) => (apply spared_set; assumption) : keeps.

Lemma spared_transition P x : P x -> Keeps (spared P) (make_binding_state_transition x).
Proof. intros Hx. unfold make_binding_state_transition. keeps. Qed.

Lemma spared_enqueue P x : P x -> Keeps (spared P) (lease_enqueue x).
Proof. intros Hx. unfold lease_enqueue, link_in. keeps. Qed.

#[local] Hint Resolve spared_transition spared_enqueue : keeps.

Lemma spared_supersede n :
  (forall P x c p i, P x -> Keeps (spared P) (supersede_lease io random cur_time n x None c p i)) /\ (forall P q, Keeps (spared P) (pool_timer io random cur_time n q)) /\
  (forall P l e, Keeps (spared P) (timer_walk io random cur_time n l e)).
Proof.
  induction n as [|n (IHs & IHp & IHw)]; [split_and!; intros; apply keeps_fatal|]. split_and!.
  - intros P x c p i Hx. cbn [supersede_lease]. unfold move_lease. keeps.
  - intros P q. cbn [pool_timer]. unfold add_timeout4. apply keeps_bind; [apply _ | | intros; keeps]. apply keeps_foldr; [|intros; keeps]. intros w k Hk e. keeps.
  - intros P l e. cbn [timer_walk]. destruct l as [x|]; [|keeps]. intros d a d' E. step4 E. rename a0 into s, Hm into Hs. cbv zeta in E.
    destruct (Z.ltb_spec cur_time (l_sort_time s)); [by injection E as _ <-|]. apply bind4_inv in E as (? & d1 & E1 & E). trans d1; [|by eapply IHw].
    destruct (Z.eqb_spec (l_next_binding_state s) (l_binding_state s)); cbn [negb] in E1; [by injection E1 as _ <-|].
    apply (spared_due P x); [by exists s|]. revert E1. match goal with |- ?m _ = _ -> _ => enough (Keeps (spared (fun y => P y \/ y = x)) m) as K by apply K end.
    assert (P x \/ x = x) as Hx by auto. keeps.
Qed.

Lemma spared_release n P x : P x -> Keeps (spared P) (release_lease io random cur_time n x).
Proof. intros Hx. pose proof (proj1 (spared_supersede n) P x). unfold release_lease. keeps. Qed.

End Spared.
