(* ===== verification/V4Service.v ===== *)
(** * When the server answers clients

    The service state that decides whether clients are answered, against the states of the two servers:
    over every operation of the running server. *)

From S2P Require Import Prelude BindingStates FailoverLeases V4State V4Queues V4Leases V4Machine V4Handlers V4Laws V4Frames V4System V4Tables.

#[local] Open Scope Z_scope.

(** ** What leaves the states alone *)

Definition mode (f : failover) : Z * Z * Z * service * Z * Z :=
  (f_me_state f, f_saved_state f, f_partner_state f, f_service_state f, f_me_stos f, f_mclt f).
Definition same_mode (d d' : srv) : Prop := mode (peer d') = mode (peer d) /\ same_dom d d'.

#[export] Instance same_mode_quiet : Quiet same_mode (fun _ _ => True) (fun _ _ => True) (fun f f' => mode f' = mode f).
Proof.
  split.
  - split; [by split | intros x y z [H1 D1] [H2 D2]; split; [congruence | by trans y]].
  - intros d x s s' Hs _. split; [done | by eapply same_dom_lease].
  - intros d q p p' Hp _. split; [done | by eapply same_dom_pool].
  - intros d f E. by split.
  - intros d d' El Ep E _. split; [by rewrite E | by split; rewrite ?El, ?Ep].
Qed.

#[export] Instance same_mode_pre : PreOrder same_mode := quiet_pre.

Section Modes.
Context (io : nat -> bool) (random : nat -> Z) (cur_time : Z).

Lemma m_emit e : Keeps same_mode (emit e).
Proof. unfold emit. keeps. Qed.
Hint Resolve m_emit : keeps.
Lemma m_ask : Keeps same_mode (ask io).
Proof. unfold ask. keeps. Qed.
Lemma m_write_lease l : Keeps same_mode (write_lease io l).
Proof. unfold write_lease. pose proof m_ask. keeps. Qed.
Hint Resolve m_ask m_write_lease : keeps.

Lemma m_send_bind_update l : Keeps same_mode (dhcp_failover_send_bind_update io cur_time l).
Proof. open_ops. keeps. Qed.
Lemma m_send_acks : Keeps same_mode (dhcp_failover_send_acks io cur_time).
Proof. unfold dhcp_failover_send_acks. open_ops. keeps. Qed.
Hint Resolve m_send_bind_update m_send_acks : keeps.
Lemma m_send_loop n : Keeps same_mode (send_loop io cur_time n).
Proof. induction n as [|n IH]; cbn [send_loop]; [apply keeps_fatal|]. keeps. Qed.
Hint Resolve m_send_loop : keeps.
Lemma m_send_updates : Keeps same_mode (dhcp_failover_send_updates io cur_time).
Proof. unfold dhcp_failover_send_updates. keeps. Qed.
Lemma m_before_pending n lp l : Keeps same_mode (before_pending n lp l).
Proof. revert lp. induction n as [|n IH]; intros lp; cbn [before_pending]; [apply keeps_fatal|]. keeps. Qed.
Hint Resolve m_send_updates m_before_pending : keeps.
Lemma m_ack_queue_remove l : Keeps same_mode (dhcp_failover_ack_queue_remove io l).
Proof. unfold dhcp_failover_ack_queue_remove, forget_ack. open_ops. keeps. Qed.
Hint Resolve m_ack_queue_remove : keeps.
Lemma m_queue_update l b : Keeps same_mode (dhcp_failover_queue_update io cur_time l b).
Proof. unfold dhcp_failover_queue_update. keeps. Qed.
Lemma m_pool_check q : Keeps same_mode (dhcp_failover_pool_check random cur_time q).
Proof. unfold dhcp_failover_pool_check, estimate. open_ops. keeps. Qed.
Hint Resolve m_queue_update m_pool_check : keeps.

Lemma m_hash t h : Keeps same_mode (modify4 (fun d => set_hash_by t (h d) d)).
Proof. destruct t; apply keeps_modify; done. Qed.
Hint Resolve m_hash : keeps.
Lemma m_place_by n t c p l : Keeps same_mode (place_by n t c p l).
Proof. revert c p. induction n as [|n IH]; intros c p; cbn [place_by]; [apply keeps_fatal|]. keeps. Qed.
Lemma m_unlink_by n t x l : Keeps same_mode (unlink_by n t x l).
Proof. revert x. induction n as [|n IH]; intros x; cbn [unlink_by]; [apply keeps_fatal|]. keeps. Qed.
Hint Resolve m_place_by m_unlink_by : keeps.
Lemma m_copy_data x t : Keeps same_mode (copy_data x t).
Proof. unfold copy_data, table_add, table_delete, find_lease_by, hash_put, hash_remove. keeps. Qed.
Lemma m_lease_enqueue x : Keeps same_mode (lease_enqueue x).
Proof. unfold lease_enqueue, link_in. keeps. Qed.
Hint Resolve m_copy_data m_lease_enqueue : keeps.
Lemma m_move_lease x q w c p i : Keeps same_mode (move_lease io cur_time x q w c p i).
Proof. unfold move_lease, take_off, make_binding_state_transition, next_event, commit_lease. open_ops. keeps. Qed.
Hint Resolve m_move_lease : keeps.

Lemma m_supersede n :
  (forall x t c p i, Keeps same_mode (supersede_lease io random cur_time n x t c p i)) /\
  (forall q, Keeps same_mode (pool_timer io random cur_time n q)) /\
  (forall l e, Keeps same_mode (timer_walk io random cur_time n l e)).
Proof.
  induction n as [|n (IHs & IHp & IHw)]; [split_and!; intros; apply keeps_fatal|]. split_and!.
  - intros x t c p i. cbn [supersede_lease pool_timer timer_walk]. keeps.
  - intros q. cbn [supersede_lease pool_timer timer_walk]. apply keeps_bind; [apply _ | | intros; open_ops; keeps]. apply keeps_foldr; [|intros; keeps]. intros w k Hk e. keeps.
  - intros l e. cbn [supersede_lease pool_timer timer_walk]. keeps.
Qed.

End Modes.

(** ** The service for a pair of states *)

Definition service_for (me partner : Z) : service :=
  let own := if me =? partner_down then service_partner_down else if me =? normal then cooperating
             else if me =? communications_interrupted then not_cooperating else if me =? startup then service_startup else not_responding in
  if case_of partner [partner_down; potential_conflict; conflict_done; resolution_interrupted] then not_responding else own.

Definition states_ok (f : failover) : Prop := case_of (f_me_state f) state_names = true /\ case_of (f_saved_state f) state_names = true.
Definition serves (f : failover) : Prop := f_service_state f = service_for (f_me_state f) (f_partner_state f) \/ f_service_state f = not_responding.
Definition mode_ok (d : srv) : Prop := states_ok (peer d) /\ serves (peer d).

Lemma mode_ok_same d d' : same_mode d d' -> mode_ok d -> mode_ok d'.
Proof. unfold same_mode, mode, mode_ok, states_ok, serves. intros [[= -> -> -> -> _ _] _]. done. Qed.

Lemma keeps_mode_ok {A} (m : M4 A) : Keeps same_mode m -> Keeps (inv_rel mode_ok) m.
Proof. apply keeps_sub. intros d d' H Hd. by eapply mode_ok_same. Qed.

(** One switch has the labels of another. *)
Lemma case_of_sub x l l' : forallb (fun y => case_of y l') l = true -> case_of x l = true -> case_of x l' = true.
Proof. intros Hl (y & Hy & <-%Z.eqb_eq)%existsb_exists. by eapply (proj1 (forallb_forall _ _) Hl). Qed.

Lemma set_service_state_inv d u d' : dhcp_failover_set_service_state d = Some (u, d') ->
  case_of (f_me_state (peer d)) state_names = true /\
  mode (peer d') = (f_me_state (peer d), f_saved_state (peer d), f_partner_state (peer d), service_for (f_me_state (peer d)) (f_partner_state (peer d)), f_me_stos (peer d), f_mclt (peer d)).
Proof.
  unfold dhcp_failover_set_service_state, service_for. rewrite get4_bind. set (f := peer d). intros (v & d1 & Hv & H)%bind4_inv.
  match goal with |- _ /\ _ = (_, _, _, if _ then not_responding else ?o, _, _) => assert (d1 = d /\ case_of (f_me_state f) state_names = true /\ v = o) as (-> & Hc & Ev) end.
  { destruct (Z.eqb_spec (f_me_state f) partner_down) as [->|_]; [by injection Hv as <- <-|].
    destruct (Z.eqb_spec (f_me_state f) normal) as [->|_]; [by injection Hv as <- <-|].
    destruct (Z.eqb_spec (f_me_state f) communications_interrupted) as [->|_]; [by injection Hv as <- <-|].
    destruct (Z.eqb_spec (f_me_state f) startup) as [->|_]; [by injection Hv as <- <-|].
    destruct (case_of (f_me_state f) _) eqn:E; [|done]. injection Hv as <- <-. split_and!; [done | by eapply case_of_sub; [|exact E] | done]. }
  split; [done|]. rewrite (bind4_eq _ _ _ _ _ (set_peer4_eq _ _)) in H. rewrite <- Ev.
  destruct (case_of (f_partner_state f) _); [|rewrite andb_false_r in H; by injection H as _ <-].
  rewrite andb_true_r in H. case_bool_decide as Hv0; [rewrite Hv0 in H; by injection H as _ <-|]. cbn [negb when4] in H. rewrite set_peer4_eq in H. by injection H as _ <-.
Qed.

Lemma set_service_state_ok d u d' : case_of (f_saved_state (peer d)) state_names = true -> dhcp_failover_set_service_state d = Some (u, d') -> mode_ok d'.
Proof.
  intros Hs [H1 H2]%set_service_state_inv. unfold mode_ok, states_ok, serves. unfold mode in H2. injection H2 as -> -> -> -> _ _. split; [done | by left].
Qed.

(** ** Changing the state *)

(** Only [me.state] changed, for a state that was written down. *)
Section SetState.
Context (io : nat -> bool) (random : nat -> Z) (cur_time : Z) (fuel : nat).

Lemma m_resend_unacked : Keeps same_mode resend_unacked.
Proof.
  unfold resend_unacked, cancel_timeout4. pose proof m_emit.
  assert (forall n l, Keeps same_mode (zap_flags n l)) by (induction n as [|n IH]; intros l; cbn [zap_flags]; [apply keeps_fatal|]; keeps). keeps.
Qed.

Lemma m_balance_walk n q lq st hold pass lp lts k : Keeps same_mode (balance_walk io random cur_time fuel n q lq st hold pass lp lts k).
Proof.
  pose proof (proj1 (m_supersede io random cur_time fuel)). pose proof m_emit. pose proof (m_ask io).
  revert pass lp lts k. induction n as [|n IH]; intros pass lp lts k; cbn [balance_walk]; [apply keeps_fatal|]. unfold give_away, peer_wants, write_lease. keeps.
Qed.

Lemma m_pool_dobalance : Keeps same_mode (dhcp_failover_pool_dobalance io random cur_time fuel).
Proof.
  pose proof m_emit. pose proof (m_ask io). pose proof m_balance_walk. pose proof (m_pool_check random cur_time).
  unfold dhcp_failover_pool_dobalance, commit_leases. apply keeps_bind; [apply _ | keeps | intros f]. case_match; [keeps|].
  apply keeps_bind; [apply _ | keeps | intros _].
  apply keeps_bind; [apply _ | keeps | intros ps]. apply keeps_bind; [apply _ | | intros r; keeps]. apply keeps_foldr; [|intros; keeps]. intros q k Hk r. keeps.
Qed.

Lemma m_generate e : Keeps same_mode (dhcp_failover_generate_update_queue io cur_time e).
Proof.
  pose proof (m_queue_update io cur_time). unfold dhcp_failover_generate_update_queue.
  assert (forall n w l, Keeps same_mode (update_list io cur_time n e w l)) by (induction n as [|n IH]; intros w l; cbn [update_list]; [apply keeps_fatal|]; keeps). keeps.
Qed.

Lemma m_pools_alone : Keeps same_mode pools_alone.
Proof.
  pose proof m_emit. unfold pools_alone, add_timeout4.
  assert (forall n f l, Keeps same_mode (expired_alone n f l)) by (induction n as [|n IH]; intros f l; cbn [expired_alone]; [apply keeps_fatal|]; keeps). keeps.
Qed.

Lemma m_send m : Keeps same_mode (dhcp_failover_put_message cur_time m).
Proof. pose proof m_emit. unfold dhcp_failover_put_message, add_timeout4. keeps. Qed.

Lemma mode_enter_state done st : Keeps (inv_rel mode_ok) done -> Keeps (inv_rel mode_ok) (enter_state io random cur_time fuel done st).
Proof.
  intros Hd. pose proof m_emit. pose proof m_pool_dobalance. pose proof m_generate. pose proof m_pools_alone. pose proof m_send. pose proof (m_send_updates io cur_time).
  unfold enter_state, dhcp_failover_pool_balance, add_timeout4, cancel_timeout4, dhcp_failover_send_update_request, dhcp_failover_send_update_request_all, with_link, next_xid.
  apply keeps_bind; [apply _ | keeps | intros f]. repeat (case_match; try solve [exact Hd | apply keeps_mode_ok; keeps]).
Qed.

(** Nothing changes the state again, but the end of a wait. *)
Lemma m_enter_state done st : st <> recover_wait -> Keeps same_mode (enter_state io random cur_time fuel done st).
Proof.
  intros Hst. pose proof m_emit. pose proof m_pool_dobalance. pose proof m_generate. pose proof m_pools_alone. pose proof m_send. pose proof (m_send_updates io cur_time).
  unfold enter_state, dhcp_failover_pool_balance, add_timeout4, cancel_timeout4, dhcp_failover_send_update_request, dhcp_failover_send_update_request_all, with_link, next_xid.
  assert ((st =? recover_wait) = false) as -> by (by apply Z.eqb_neq). keeps.
Qed.

Lemma enter_wait done d u d' : cur_time < f_me_stos (peer d) + f_mclt (peer d) -> enter_state io random cur_time fuel done recover_wait d = Some (u, d') -> same_mode d d'.
Proof. intros Ht H. unfold enter_state in H. rewrite get4_bind in H. apply Z.ltb_lt in Ht. simpl in H. rewrite Ht in H. by eapply m_emit. Qed.

(** A state that cannot be written down is not entered; otherwise what the state brings with it is done in the new state. *)
Lemma set_state_with_split done st d r d' :
  states_ok (peer d) -> set_state_with io random cur_time fuel done st d = Some (r, d') ->
  (r = R_IOERROR /\ states_ok (peer d') /\ f_me_state (peer d') = f_me_state (peer d) /\ f_me_stos (peer d') = f_me_stos (peer d) /\
   f_partner_state (peer d') = f_partner_state (peer d) /\ f_service_state (peer d') = f_service_state (peer d) /\ f_mclt (peer d') = f_mclt (peer d)) \/
  (r = R_SUCCESS /\ exists f d1, mode_ok d1 /\ mode f = mode (peer d) /\ mode (peer d1) = (st, f_saved_state (peer d1), f_partner_state (peer d), service_for st (f_partner_state (peer d)),
     new_stos cur_time f st, f_mclt (peer d)) /\ enter_state io random cur_time fuel done st d1 = Some (tt, d')).
Proof.
  intros [Hs1 Hs2] H. unfold set_state_with in H. rewrite get4_bind in H. apply bind4_inv in H as (u0 & d0 & H0 & H).
  assert (same_mode d d0) as Hm0 by (eapply (keeps_when same_mode _ _ m_resend_unacked); exact H0).
  rewrite get4_bind in H. cbv zeta in H. destruct Hm0 as [Hm0 _]. pose proof Hm0 as Hm0'. unfold mode in Hm0. injection Hm0 as E1 E2 E3 E4 E5 E6.
  rewrite <- E1, <- E3, <- E4, <- E5, <- E6. rewrite <- E1 in Hs1. rewrite <- E2 in Hs2.
  do 2 rewrite (bind4_eq _ _ _ _ _ (set_peer4_eq _ _)) in H. apply bind4_inv in H as (u1 & d1 & H1 & H).
  assert (mode (peer d1) = (st, f_saved_state (peer d1), f_partner_state (peer d0), f_service_state (peer d0), new_stos cur_time (peer d0) st, f_mclt (peer d0)) /\
    case_of (f_saved_state (peer d1)) state_names = true) as [Hm1 Hsv] by (destruct (_ && _); by injection H1 as _ <-).
  apply bind4_inv in H as (ok & d2 & H2 & H). assert (same_mode d1 d2) as Hm2.
  { revert H2. match goal with |- ?m _ = _ -> _ => enough (Keeps same_mode m) as K by apply K end. pose proof m_emit. pose proof (m_ask io).
    unfold write_failover_state, commit_leases. keeps. }
  destruct Hm2 as [Hm2 _]. rewrite Hm1 in Hm2. unfold mode in Hm2. injection Hm2 as F1 F2 F3 F4 F5 F6. destruct ok; cbn [negb] in H.
  - right. apply bind4_inv in H as (u6 & d6 & H6 & H). apply bind4_inv in H as (u7 & d7 & H7 & H). apply bind4_inv in H as (u3 & d3 & H3 & H).
    apply bind4_inv in H as (u4 & d4 & H4 & H). apply bind4_inv in H as ([] & d5 & H5 & H). injection H as <- <-.
    assert (mode (peer d7) = mode (peer d2)) as Hm7 by (injection H7 as _ <-; simpl; destruct (_ && _) in H6; by injection H6 as _ <-).
    unfold mode in Hm7. injection Hm7 as G1 G2 G3 G4 G5 G6. destruct (set_service_state_inv _ _ _ H3) as [_ Hm3]. rewrite G1, G2, G3, G5, G6, F1, F2, F3, F5, F6 in Hm3.
    assert (same_mode d3 d4) as Hm4 by (revert H4; match goal with |- ?m _ = _ -> _ => enough (Keeps same_mode m) as K by apply K end; pose proof m_send;
      unfold dhcp_failover_send_state, with_link, next_xid; keeps).
    split; [done|]. exists (peer d0), d4. split; [eapply mode_ok_same; [exact Hm4|]; eapply set_service_state_ok; [|exact H3]; by rewrite G2, F2|]. destruct Hm4 as [Hm4 _].
    split_and!; [done | | done]. rewrite Hm4, Hm3. unfold mode in Hm4. injection Hm4 as _ I2 _ _ _ _. unfold mode in Hm3. injection Hm3 as _ J2 _ _ _ _. by rewrite I2, J2.
  - left. do 2 rewrite (bind4_eq _ _ _ _ _ (set_peer4_eq _ _)) in H. injection H as <- <-. unfold states_ok. simpl. rewrite F2, F3, F4, F6. done.
Qed.

Lemma set_state_with_inv done st d r d' :
  Keeps (inv_rel mode_ok) done -> states_ok (peer d) -> set_state_with io random cur_time fuel done st d = Some (r, d') ->
  (r = R_SUCCESS /\ mode_ok d') \/
  (r = R_IOERROR /\ states_ok (peer d') /\ f_me_state (peer d') = f_me_state (peer d) /\ f_me_stos (peer d') = f_me_stos (peer d) /\
   f_partner_state (peer d') = f_partner_state (peer d) /\ f_service_state (peer d') = f_service_state (peer d)).
Proof.
  intros Hdone Hst H. destruct (set_state_with_split _ _ _ _ _ Hst H) as [(? & ? & ? & ? & ? & ? & _)|(-> & f & d1 & Hd1 & _ & _ & He)]; [by right|]. left. split; [done|].
  by eapply mode_enter_state.
Qed.

Definition states_rel : relation srv := inv_rel (fun d => states_ok (peer d)).

Lemma keeps_states {A} (m : M4 A) : Keeps same_mode m -> Keeps states_rel m.
Proof. apply keeps_sub. unfold same_mode, mode, states_rel, inv_rel, states_ok. intros d d' [[= -> -> _ _ _ _] _]. done. Qed.

#[local] Instance states_rel_pre : PreOrder states_rel := inv_rel_pre _.

Lemma set_state_with_mode done st : Keeps (inv_rel mode_ok) done -> Keeps (inv_rel mode_ok) (set_state_with io random cur_time fuel done st).
Proof.
  intros Hdone d r d' H [H1 H2]. destruct (set_state_with_inv _ _ _ _ _ Hdone H1 H) as [[_ ?]|(_ & ? & E1 & _ & E3 & E4)]; [done|].
  split; [done|]. unfold serves in *. by rewrite E1, E3, E4.
Qed.

Lemma set_state_with_states done st : Keeps (inv_rel mode_ok) done -> Keeps states_rel (set_state_with io random cur_time fuel done st).
Proof. intros Hdone d r d' H H1. destruct (set_state_with_inv _ _ _ _ _ Hdone H1 H) as [[_ [? _]]|(_ & ? & _)]; done. Qed.

Lemma mode_recover_done : Keeps (inv_rel mode_ok) (dhcp_failover_recover_done io random cur_time fuel).
Proof. unfold dhcp_failover_recover_done. apply keeps_bind; [apply _ | apply set_state_with_mode; keeps | intros; keeps]. Qed.

Lemma mode_set_state st : Keeps (inv_rel mode_ok) (dhcp_failover_set_state io random cur_time fuel st).
Proof. apply set_state_with_mode, mode_recover_done. Qed.
Lemma states_set_state st : Keeps states_rel (dhcp_failover_set_state io random cur_time fuel st).
Proof. apply set_state_with_states, mode_recover_done. Qed.
Lemma mode_goto st : Keeps (inv_rel mode_ok) (goto_state io random cur_time fuel st).
Proof. apply keeps_bind; [apply _ | apply mode_set_state | intros; keeps]. Qed.
Lemma states_goto st : Keeps states_rel (goto_state io random cur_time fuel st).
Proof. apply keeps_bind; [apply _ | apply states_set_state | intros; keeps]. Qed.
Hint Resolve mode_recover_done mode_set_state states_set_state mode_goto states_goto keeps_states : keeps.

Lemma m_with_link k : (forall x, Keeps same_mode (k x)) -> Keeps same_mode (with_link k).
Proof. intros H. unfold with_link. keeps. Qed.

Lemma m_request : Keeps same_mode (dhcp_failover_send_update_request cur_time).
Proof. pose proof m_send. apply m_with_link. intros. unfold next_xid. keeps. Qed.
Lemma m_request_all : Keeps same_mode (dhcp_failover_send_update_request_all cur_time).
Proof. pose proof m_send. apply m_with_link. intros. unfold next_xid. keeps. Qed.
Lemma m_send_state : Keeps same_mode (dhcp_failover_send_state cur_time).
Proof. pose proof m_send. apply m_with_link. intros. unfold next_xid. keeps. Qed.
Lemma m_state_pool_check : Keeps same_mode (dhcp_failover_state_pool_check random cur_time).
Proof. pose proof (m_pool_check random cur_time). unfold dhcp_failover_state_pool_check. keeps. Qed.
Lemma m_send_updates' : Keeps same_mode (dhcp_failover_send_updates io cur_time).
Proof. apply m_send_updates. Qed.
Hint Resolve m_request m_request_all m_send_state m_state_pool_check m_send_updates' m_emit : keeps.

Lemma states_react st me prev new b : Keeps states_rel (react_to io random cur_time fuel st me prev new b).
Proof. unfold react_to. keeps. Qed.

Lemma serves_unknown (f : failover) new : serves f -> case_of new state_names = false -> serves (set_f_partner_state new f).
Proof.
  intros H Hn. unfold serves, service_for in *. cbn [f_service_state f_me_state f_partner_state set_f_partner_state].
  destruct (case_of new [partner_down; potential_conflict; conflict_done; resolution_interrupted]) eqn:E.
  { apply (case_of_sub _ _ state_names) in E; [congruence | done]. }
  destruct (case_of (f_partner_state f) _); [destruct H; by right | done].
Qed.

Lemma mode_news new b : Keeps (inv_rel mode_ok) (peer_state_news io random cur_time fuel new b).
Proof.
  intros d u d' H [Hst Hsv]. unfold peer_state_news in H. rewrite get4_bind in H. cbv zeta in H. rewrite (bind4_eq _ _ _ _ _ (set_peer4_eq _ _)) in H.
  apply bind4_inv in H as (w & d1 & H1 & H). apply bind4_inv in H as (u2 & d2 & H2 & H). set (d0 := upd_peer (set_f_partner_state new) d) in *.
  assert (same_mode d0 d2) as Hm.
  { transitivity d1; [revert H1 | revert H2]; match goal with |- ?m _ = _ -> _ => enough (Keeps same_mode m) as K by apply K end;
      pose proof (m_ask io); unfold write_failover_state, commit_leases; keeps. }
  assert (states_ok (peer d2)) as Hst2 by (pose proof (proj1 Hm) as E; unfold mode in E; injection E as E1 E2 _ _ _ _; unfold states_ok; by rewrite E1, E2).
  destruct (case_of new state_names) eqn:Hn; cbn [negb] in H.
  - rewrite get4_bind in H. apply bind4_inv in H as (u3 & d3 & H3 & H). pose proof (states_react _ _ _ _ _ _ _ _ H3 Hst2) as Hst3.
    rewrite get4_bind in H. apply bind4_inv in H as (u4 & d4 & H4 & H). assert (states_ok (peer d4)) as [_ Hs4].
    { revert H4 Hst3. match goal with |- ?m _ = _ -> _ => enough (Keeps states_rel m) as K by apply K end. keeps. }
    by eapply set_service_state_ok.
  - eapply mode_goto; [exact H|]. eapply mode_ok_same; [exact Hm|]. split; [done|]. by apply serves_unknown.
Qed.

Lemma mode_peer_state_changed m : Keeps (inv_rel mode_ok) (dhcp_failover_peer_state_changed io random cur_time fuel m).
Proof. pose proof mode_news. unfold dhcp_failover_peer_state_changed. keeps. Qed.
Hint Resolve mode_peer_state_changed keeps_mode_ok : keeps.

Lemma mode_transition t : Keeps (inv_rel mode_ok) (dhcp_failover_state_transition io random cur_time fuel t).
Proof. unfold dhcp_failover_state_transition, cancel_timeout4. keeps. Qed.

(** ** The other operations *)

Lemma m_supersede' n x t c p i : Keeps same_mode (supersede_lease io random cur_time n x t c p i).
Proof. apply m_supersede. Qed.
Lemma m_pool_timer n q : Keeps same_mode (pool_timer io random cur_time n q).
Proof. apply m_supersede. Qed.
Lemma m_bind_ack m r : Keeps same_mode (dhcp_failover_send_bind_ack cur_time m r).
Proof. pose proof m_send. apply m_with_link. intros. keeps. Qed.
Lemma m_update_done : Keeps same_mode (dhcp_failover_send_update_done io cur_time).
Proof. pose proof m_send. pose proof (m_ask io). apply m_with_link. intros. unfold commit_leases. keeps. Qed.
Lemma m_poolreq : Keeps same_mode (dhcp_failover_send_poolreq cur_time).
Proof. pose proof m_send. apply m_with_link. intros. unfold next_xid. keeps. Qed.
Lemma m_poolresp x n : Keeps same_mode (dhcp_failover_send_poolresp cur_time x n).
Proof. pose proof m_send. apply m_with_link. intros. keeps. Qed.
Lemma m_contact : Keeps same_mode (dhcp_failover_send_contact cur_time).
Proof. pose proof m_send. apply m_with_link. intros. unfold next_xid. keeps. Qed.
Lemma m_ask' : Keeps same_mode (ask io).
Proof. apply m_ask. Qed.
Lemma m_ack_remove x : Keeps same_mode (dhcp_failover_ack_queue_remove io x).
Proof. apply m_ack_queue_remove. Qed.
Lemma m_acks : Keeps same_mode (dhcp_failover_send_acks io cur_time).
Proof. apply m_send_acks. Qed.
Hint Resolve m_supersede' m_pool_timer m_bind_ack m_update_done m_poolreq m_poolresp m_contact m_ask' m_ack_remove m_acks m_send m_generate m_pool_dobalance mode_transition : keeps.

Lemma m_bind_update m : Keeps same_mode (dhcp_failover_process_bind_update io random cur_time fuel m).
Proof.
  unfold dhcp_failover_process_bind_update, install_update, refuse, dhcp_failover_queue_ack, send_lease_to_backup, peer_wants, write_lease, add_timeout4. keeps.
Qed.
Lemma m_process_bind_ack m : Keeps same_mode (dhcp_failover_process_bind_ack io random cur_time fuel m).
Proof.
  unfold dhcp_failover_process_bind_ack, acknowledge, after_ack, send_lease_to_backup, peer_wants, write_lease, commit_leases, add_timeout4. keeps.
Qed.
Lemma m_update_request b m : Keeps same_mode (process_update_request io cur_time b m).
Proof. unfold process_update_request. keeps. Qed.
Lemma m_reqbalance x : Keeps same_mode (dhcp_failover_pool_reqbalance io random cur_time fuel x).
Proof. unfold dhcp_failover_pool_reqbalance, cancel_timeout4. keeps. Qed.
Lemma mode_process_update_done : Keeps (inv_rel mode_ok) (dhcp_failover_process_update_done io random cur_time fuel).
Proof. unfold dhcp_failover_process_update_done, add_timeout4. keeps. Qed.
Lemma mode_set_mclt v : Keeps (inv_rel mode_ok) (set_peer4 (set_f_mclt v)).
Proof. intros d u d' H Hd. rewrite set_peer4_eq in H. by injection H as _ <-. Qed.
Hint Resolve mode_set_mclt m_bind_update m_process_bind_ack m_update_request m_reqbalance mode_process_update_done : keeps.

Lemma mode_message b x m : Keeps (inv_rel mode_ok) (signal_message io random cur_time fuel b x m).
Proof. unfold signal_message, signal_connect, signal_connectack, partner_limits, cancel_timeout4, add_timeout4. keeps. Qed.
Hint Resolve mode_message : keeps.

Lemma mode_run_op o : Keeps (inv_rel mode_ok) (run_op io random cur_time fuel o).
Proof.
  destruct o as [| |[]| | | | | |]; cbn [run_op]; unfold dhcp_failover_timeout, dhcp_failover_startup_timeout, dhcp_failover_auto_partner_down,
    link_signal_disconnect, dhcp_failover_pool_rebalance, dhcp_failover_toack_queue_timeout, release_lease, abandon_lease, dissociate_lease,
    commit_leases, add_timeout4; keeps.
Qed.

End SetState.
