(* ===== verification/V4Timers.v ===== *)
(** * The timer of a pool returns

    [pool_timer] and [supersede_lease] call each other.  Every lease has only so many transitions before it that happen by
    themselves, so the calls end; and with the invariant of lists and queues nothing on the way is fatal. *)

From S2P Require Import Prelude BindingStates FailoverLeases V4State V4Queues V4Leases V4Machine V4Handlers V4Chain V4Laws V4Frames V4Lists V4Moves V4Pending V4Sending V4System V4Service.

#[local] Open Scope Z_scope.

(** ** Transitions to come *)

Definition after_state (b : Z) : nat :=
  if b =? FTS_ACTIVE then 2 else if case_of b [FTS_EXPIRED; FTS_RELEASED; FTS_ABANDONED; FTS_RESET] then 1 else 0.
Definition transitions (s : lease) : nat :=
  if l_next_binding_state s =? l_binding_state s then 0 else S (after_state (l_next_binding_state s)).

Lemma after_follows f s : l_next_binding_state s = follows f (l_binding_state s) (l_binding_state s) ->
  (transitions s <= after_state (l_binding_state s))%nat.
Proof.
  unfold transitions. intros ->. generalize (l_binding_state s) as b. intros b. unfold follows. destruct (Z.eqb_spec b FTS_ACTIVE) as [->|Ha]; [destruct f; vm_compute; lia|].
  destruct (case_of b [FTS_EXPIRED; FTS_RELEASED; FTS_ABANDONED; FTS_RESET]) eqn:E.
  - unfold after_state at 2. rewrite E. destruct (Z.eqb_spec b FTS_ACTIVE); [done|]. destruct (FTS_FREE =? b); vm_compute; lia.
  - destruct (case_of b [FTS_FREE; FTS_BACKUP]); rewrite Z.eqb_refl; lia.
Qed.

(** Of all leases together. *)
Definition sum_of (m : gmap id nat) : nat := map_fold (fun _ => Nat.add) 0%nat m.
Definition to_come (d : srv) : nat := sum_of (transitions <$> leases d).

Lemma sum_of_split m x n : m !! x = Some n -> sum_of m = (n + sum_of (delete x m))%nat.
Proof. intros H. apply (map_fold_delete_L (fun _ => Nat.add) 0%nat x n m); [intros; lia | done]. Qed.

Lemma sum_of_insert m x n n' : m !! x = Some n -> (sum_of (<[x := n']> m) + n = sum_of m + n')%nat.
Proof.
  intros H. rewrite (sum_of_split m x n H), (sum_of_split (<[x := n']> m) x n') by apply lookup_insert_eq. rewrite delete_insert_eq. lia.
Qed.

Lemma to_come_upd d x s s' : leases d !! x = Some s -> (to_come (upd_lease x s' d) + transitions s = to_come d + transitions s')%nat.
Proof. intros H. unfold to_come. simpl. rewrite fmap_insert. apply sum_of_insert. by rewrite lookup_fmap, H. Qed.

(** The states of the leases. *)
Definition states (s : lease) : Z * Z := (l_binding_state s, l_next_binding_state s).

Lemma to_come_same d d' : same_of states d d' -> to_come d' = to_come d.
Proof.
  intros H. unfold to_come. f_equal. apply map_eq. intros x. rewrite !lookup_fmap. specialize (H x).
  destruct (leases d !! x), (leases d' !! x); simpl in *; try done. injection H as E1 E2. unfold transitions. by rewrite E1, E2.
Qed.

Lemma to_come_bound d : (to_come d <= 3 * size (leases d))%nat.
Proof.
  assert (forall m : gmap id nat, (forall x n, m !! x = Some n -> n <= 3)%nat -> (sum_of m <= 3 * size m)%nat) as H.
  { intros m. induction m as [|x n m Hx Hf IH] using map_first_key_ind; intros Hm; [done|]. rewrite (sum_of_split _ x n) by apply lookup_insert_eq.
    rewrite delete_insert_id by done. rewrite map_size_insert_None by done. specialize (Hm x n (lookup_insert_eq _ _ _)) as Hn.
    assert (sum_of m <= 3 * size m)%nat; [|lia]. apply IH. intros y k Hy. apply (Hm y). rewrite lookup_insert_ne; [done|]. intros ->. congruence. }
  unfold to_come. rewrite <- (map_size_fmap transitions). apply H. intros x n. rewrite lookup_fmap. destruct (leases d !! x) as [s|]; [|done]. intros [= <-].
  unfold transitions, after_state. repeat case_match; lia.
Qed.

(** ** What leaves the states of leases alone *)

Section States.
Context (io : nat -> bool) (random : nat -> Z) (cur_time : Z).

Lemma st_emit e : Keeps (same_of states) (emit e).
Proof. unfold emit. keeps. Qed.
Lemma st_ask : Keeps (same_of states) (ask io).
Proof. unfold ask. keeps. Qed.
Hint Resolve st_emit st_ask : keeps.
Lemma st_send_bind_update l : Keeps (same_of states) (dhcp_failover_send_bind_update io cur_time l).
Proof. unfold dhcp_failover_send_bind_update, with_link, next_xid, dhcp_failover_put_message, write_lease, commit_leases, add_timeout4. keeps. Qed.
Lemma st_send_acks : Keeps (same_of states) (dhcp_failover_send_acks io cur_time).
Proof. unfold dhcp_failover_send_acks, dhcp_failover_send_bind_ack, with_link, dhcp_failover_put_message, commit_leases, add_timeout4. keeps. Qed.
Hint Resolve st_send_bind_update st_send_acks : keeps.
Lemma st_send_loop n : Keeps (same_of states) (send_loop io cur_time n).
Proof. induction n as [|n IH]; cbn [send_loop]; [apply keeps_fatal|]. keeps. Qed.
Hint Resolve st_send_loop : keeps.
Lemma st_send_updates : Keeps (same_of states) (dhcp_failover_send_updates io cur_time).
Proof. unfold dhcp_failover_send_updates. keeps. Qed.
Lemma st_before_pending n lp l : Keeps (same_of states) (before_pending n lp l).
Proof. revert lp. induction n as [|n IH]; intros lp; cbn [before_pending]; [apply keeps_fatal|]. keeps. Qed.
Hint Resolve st_send_updates st_before_pending : keeps.
Lemma st_queue_update l b : Keeps (same_of states) (dhcp_failover_queue_update io cur_time l b).
Proof. unfold dhcp_failover_queue_update, dhcp_failover_ack_queue_remove, forget_ack, commit_leases. keeps. Qed.
Lemma st_pool_check q : Keeps (same_of states) (dhcp_failover_pool_check random cur_time q).
Proof. unfold dhcp_failover_pool_check, estimate, add_timeout4, cancel_timeout4. keeps. Qed.
Lemma st_commit_lease l b : Keeps (same_of states) (commit_lease io l b).
Proof. unfold commit_lease, write_lease, commit_leases. keeps. Qed.
Lemma st_next_event q l : Keeps (same_of states) (next_event cur_time q l).
Proof. unfold next_event, add_timeout4. keeps. Qed.

End States.

#[export] Hint Resolve st_emit st_queue_update st_pool_check st_commit_lease st_next_event : keeps.

(** ** Runs that do not end in a fatal error *)

Definition runs {A} (m : M4 A) (d : srv) : Prop := exists a d', m d = Some (a, d').

Lemma returns_bind {A B} (m : M4 A) (f : A -> M4 B) d : runs m d -> (forall a d1, m d = Some (a, d1) -> runs (f a) d1) -> runs (m ≫= f) d.
Proof. intros (a & d1 & H) Hf. destruct (Hf a d1 H) as (b & d2 & H2). exists b, d2. by rewrite (bind4_eq _ _ _ _ _ H). Qed.

Lemma returns_ret {A} (a : A) d : runs (mret a) d.
Proof. by exists a, d. Qed.

Lemma returns_emit e d : runs (emit e) d.
Proof. by eexists _, _. Qed.
Lemma returns_ask io d : runs (ask io) d.
Proof. by eexists _, _. Qed.

Lemma returns_write io l d : is_Some (leases d !! l) -> runs (write_lease io l) d.
Proof. intros [s Hs]. unfold write_lease, runs. rewrite (bind4_eq _ _ _ _ _ (lease_at_eq _ _ _ Hs)). by eexists _, _. Qed.
Lemma returns_commit io d : runs (commit_leases io) d.
Proof. by eexists _, _. Qed.

Lemma returns_when b m d : (b = true -> runs m d) -> runs (when4 b m) d.
Proof. destruct b; [auto | intros _; apply returns_ret]. Qed.

Lemma returns_set_lease x f d : is_Some (leases d !! x) -> runs (set_lease4 x f) d.
Proof. intros [s Hs]. exists tt. eexists. by apply set_lease4_eq. Qed.
Lemma returns_set_pool q f d : is_Some (pools d !! q) -> runs (set_pool4 q f) d.
Proof. intros [s Hs]. exists tt. eexists. by apply set_pool4_eq. Qed.
Lemma returns_lease_at x d : is_Some (leases d !! x) -> runs (lease_at x) d.
Proof. intros [s Hs]. exists s, d. by apply lease_at_eq. Qed.
Lemma returns_pool_at q d : is_Some (pools d !! q) -> runs (pool_at q) d.
Proof. intros [s Hs]. exists s, d. by apply pool_at_eq. Qed.

(** Every lease's pool exists. *)
Definition pooled (d : srv) : Prop := forall x s q, leases d !! x = Some s -> l_pool s = Some q -> is_Some (pools d !! q).

Lemma files_pooled d : files_ok d -> pooled d.
Proof. intros (Q & on & HL & _). exact (ls_pool _ _ _ HL). Qed.

Lemma returns_failover_peer d x s : pooled d -> leases d !! x = Some s -> exists f, failover_peer s d = Some (f, d).
Proof.
  intros Hp Hs. unfold failover_peer. destruct (l_pool s) as [q|] eqn:Hq; [|by eexists]. destruct (Hp _ _ _ Hs Hq) as [p Hq'].
  rewrite (bind4_eq _ _ _ _ _ (pool_at_eq _ _ _ Hq')). by eexists.
Qed.

Section Runs.
Context (io : nat -> bool) (random : nat -> Z) (cur_time : Z).

Lemma returns_queue_update d x s imm : queues_ok d -> pooled d -> leases d !! x = Some s -> runs (dhcp_failover_queue_update io cur_time x imm) d.
Proof.
  intros (U & A & Hd) Hp Hs. destruct (returns_failover_peer d x s Hp Hs) as ([f|] & Hf).
  - pose proof (queue_update_eq io cur_time d U A x s imm Hd Hs (ex_intro _ f Hf)) as E. case_decide; [by eexists _, _|].
    destruct E as (d1 & Hd1 & _ & _ & E). unfold runs. rewrite E. destruct imm; [|by eexists _, _].
    destruct (send_updates_runs io cur_time d1) as (d2 & E2 & _); [by eexists _, _|]. exists true, d2. unfold mbind, M4_bind. by rewrite E2.
  - unfold dhcp_failover_queue_update. exists true, d. by rewrite (bind4_eq _ _ _ _ _ (lease_at_eq _ _ _ Hs)), (bind4_eq _ _ _ _ _ Hf).
Qed.

Lemma head_there d q p w x : files_ok d -> pools d !! q = Some p -> p_heads p w = Some x -> is_Some (leases d !! x).
Proof.
  intros (Q & on & HL & _) Hp Hx. pose proof (ls_seg _ _ _ HL q p w Hp) as Hs. rewrite Hx in Hs. pose proof (seg_head _ _ _ _ Hs) as E.
  destruct (Q q w) as [|y l]; [done|]. injection E as <-. destruct (seg_in _ _ _ _ x Hs) as [t (s & Hs' & _)%nx_inv]; [set_solver | by exists s].
Qed.

Lemma returns_estimate d q p w : files_ok d -> pools d !! q = Some p -> exists v, estimate cur_time (p_heads p w) d = Some (v, d).
Proof.
  intros Hd Hp. unfold estimate. destruct (p_heads p w) as [x|] eqn:E; [|by eexists]. destruct (head_there _ _ _ _ _ Hd Hp E) as [s Hs].
  rewrite (bind4_eq _ _ _ _ _ (lease_at_eq _ _ _ Hs)). by eexists.
Qed.

Lemma returns_pool_check d q : files_ok d -> is_Some (pools d !! q) -> runs (dhcp_failover_pool_check random cur_time q) d.
Proof.
  intros Hd [p Hp]. unfold dhcp_failover_pool_check. unfold runs. rewrite (bind4_eq _ _ _ _ _ (pool_at_eq _ _ _ Hp)), get4_bind. case_match; [by eexists _, _|].
  destruct (returns_estimate d q p Free Hd Hp) as [v1 E1]. destruct (returns_estimate d q p Backup Hd Hp) as [v2 E2].
  rewrite (bind4_eq _ _ _ _ _ E1), (bind4_eq _ _ _ _ _ E2). cbv zeta. rewrite get4_bind. rewrite (bind4_eq _ _ _ tt (set_outside (S (outside d)) d)) by done.
  match goal with |- exists a d', (if ?c then _ else _) _ = _ => destruct c end; [by eexists _, _|].
  apply (returns_bind (when4 _ _)); [apply returns_when; intros; apply returns_emit|]. intros _ d1 _. by eexists _, _.
Qed.

Lemma returns_commit_lease d x s b : pooled d -> leases d !! x = Some s -> runs (commit_lease io x b) d.
Proof.
  intros Hp Hs. unfold commit_lease. destruct (returns_failover_peer d x s Hp Hs) as [f Hf]. unfold runs.
  rewrite (bind4_eq _ _ _ _ _ (lease_at_eq _ _ _ Hs)), (bind4_eq _ _ _ _ _ Hf). change (runs ((match f with
   | Some f => when4 (b && (bool_decide (f_service_state f = cooperating) || bool_decide (f_service_state f = not_responding)))
         (set_lease4 x (fun s => set_l_rewind_binding_state (l_binding_state s) s))
   | None => mret tt end) ≫= fun _ => ok ← write_lease io x; if negb ok then mret false else nosync ← get4 ss_nosync; if (nosync : bool) then mret true else commit_leases io) d).
  apply returns_bind; [destruct f; [apply returns_when; intros _; apply returns_set_lease; by exists s | apply returns_ret]|]. intros u d1 E1.
  apply returns_bind; [apply returns_write|].
  { destruct f as [f|]; [|injection E1 as _ <-; by exists s]. unfold when4 in E1. case_match; [|injection E1 as _ <-; by exists s].
    apply set_lease4_inv in E1 as (s0 & _ & ->). rewrite lookup_upd_lease, decide_True by done. by eexists. }
  intros ok d2 _. destruct ok; cbn [negb]; [|apply returns_ret]. unfold runs. rewrite get4_bind. destruct (ss_nosync d2); [by eexists _, _ | apply returns_commit].
Qed.

Lemma returns_next_event d q x : is_Some (leases d !! x) -> is_Some (pools d !! q) -> runs (next_event cur_time q x) d.
Proof.
  intros [s Hs] [p Hp]. unfold next_event, runs. rewrite (bind4_eq _ _ _ _ _ (lease_at_eq _ _ _ Hs)), (bind4_eq _ _ _ _ _ (pool_at_eq _ _ _ Hp)).
  apply returns_when. intros _. apply returns_bind; [apply returns_set_pool; by exists p|]. intros. apply returns_emit.
Qed.

(** A transition: the states behind it. *)
Lemma transition_eq d x s : pooled d -> leases d !! x = Some s -> exists f d' s', make_binding_state_transition x d = Some (tt, d') /\ leases d' !! x = Some s' /\
  l_binding_state s' = l_next_binding_state s /\ l_next_binding_state s' = follows f (l_next_binding_state s) (l_next_binding_state s) /\
  (forall y, y <> x -> leases d' !! y = leases d !! y).
Proof.
  intros Hp Hs. destruct (returns_failover_peer d x s Hp Hs) as [f Hf]. exists f.
  unfold make_binding_state_transition. rewrite (bind4_eq _ _ _ _ _ (lease_at_eq _ _ _ Hs)), (bind4_eq _ _ _ _ _ Hf). cbv zeta.
  match goal with |- context [when4 ?b ?m ≫= _] =>
    assert (exists d1 s1, when4 b m d = Some (tt, d1) /\ leases d1 !! x = Some s1 /\ (forall y, y <> x -> leases d1 !! y = leases d !! y)) as (d1 & s1 & H1 & Hs1 & Ho1) end.
  { unfold when4. case_match; [|by exists d, s]. rewrite (bind4_eq _ _ _ tt (set_events (events d ++ [ddns_removals_ev x]) d)) by done.
    eexists _, _. split; [by apply set_lease4_eq|]. split; [apply lookup_insert_eq|]. intros y Hy. simpl. by rewrite lookup_insert_ne. }
  set (b := l_next_binding_state s) in *. rewrite (bind4_eq _ _ _ _ _ H1), (bind4_eq _ _ _ _ _ (set_lease4_eq _ _ _ _ Hs1)).
  set (s2 := set_l_next_binding_state (follows f b b) (set_l_binding_state b s1)). set (d2 := upd_lease x s2 (upd_lease x (set_l_binding_state b s1) d1)).
  assert (leases d2 !! x = Some s2) as Hs2 by apply lookup_insert_eq. rewrite (bind4_eq _ _ _ tt d2) by (apply set_lease4_eq, lookup_insert_eq).
  assert (forall y, y <> x -> leases d2 !! y = leases d !! y) as Ho2 by (intros y Hy; unfold d2; simpl; by rewrite !lookup_insert_ne, Ho1).
  destruct f as [f|]; [|by exists d2, s2]. unfold when4. case_match; [|by exists d2, s2]. eexists _, _. split; [by apply set_lease4_eq|].
  split; [apply lookup_insert_eq|]. split; [done|]. split; [done|]. intros y Hy. simpl. rewrite lookup_insert_ne by done. by apply Ho2.
Qed.

End Runs.

(** ** One move *)

Lemma only_links_states d d' : only_links d d' -> same_of states d d'.
Proof.
  intros H x. specialize (H x). destruct (leases d !! x), (leases d' !! x); simpl in *; try done. apply (inj Some) in H.
  f_equal. by apply (f_equal states) in H.
Qed.

Lemma to_come_one d d' x s s' : leases d !! x = Some s -> leases d' !! x = Some s' -> (forall y, y <> x -> leases d' !! y = leases d !! y) ->
  (to_come d' + transitions s = to_come d + transitions s')%nat.
Proof.
  intros Hs Hs' Ho. rewrite <- (to_come_upd d x s s' Hs). f_equal. unfold to_come. do 2 f_equal. apply map_eq. intros y. rewrite lookup_upd_lease.
  case_decide; [by subst | by apply Ho].
Qed.

Section Timers.
Context (io : nat -> bool) (random : nat -> Z) (cur_time : Z).

(** Behind an operation that no list and no queue sees. *)
Lemma after_quiet {A} (m : M4 A) d a d' x s : m d = Some (a, d') -> Keeps same_all m -> ok4 d -> leases d !! x = Some s ->
  ok4 d' /\ exists s', leases d' !! x = Some s' /\ l_pool s' = l_pool s /\ queue_of s' = queue_of s.
Proof.
  intros E K Hd Hs. split; [by eapply all_ok4|]. destruct (K _ _ _ E) as [[Hl Hq] _].
  destruct (same_lists_lease d' d x s) as (s' & Hs' & Ev); [by apply same_lists_sym | done |]. exists s'. split; [done|]. split; [by injection Ev|].
  specialize (Hq x ltac:(by intros [])). rewrite Hs, Hs' in Hq. by apply (inj Some).
Qed.

(** The end of a move, behind its place on the list. *)
Definition finish_move (x q : id) (commit propogate pimmediate : bool) : M4 bool :=
  when4 (commit || negb pimmediate) (next_event cur_time q x) ;;
  ok ← (if commit then commit_lease io x propogate else mret true);
  if negb ok then mret false else
  if propogate then
    set_lease4 x (fun s => set_l_desired_binding_state (l_binding_state s) s) ;;
    dhcp_failover_queue_update io cur_time x pimmediate
  else mret true.

Lemma finish_move_ok4 x q c p i : Keeps (inv_rel ok4) (finish_move x q c p i).
Proof. pose proof (ok4_queue_update io cur_time). unfold finish_move. keeps. Qed.

Lemma finish_move_states x q c p i : Keeps (same_of states) (finish_move x q c p i).
Proof. unfold finish_move. keeps. Qed.

Lemma finish_move_pools x q c p i : Keeps (same_of l_pool) (finish_move x q c p i).
Proof.
  intros d b d' E. assert (Keeps same_files (finish_move x q c p i)) as K by (unfold finish_move; keeps). destruct (K _ _ _ E) as [[H _ _] _].
  intros y. specialize (H y). destruct (leases d !! y), (leases d' !! y); simpl in *; try done. by injection H as -> _.
Qed.

Lemma finish_move_runs d x s q c p i : ok4 d -> leases d !! x = Some s -> l_pool s = Some q -> runs (finish_move x q c p i) d.
Proof.
  intros Hd Hs Hq. unfold finish_move. apply returns_bind.
  { apply returns_when. intros _. apply returns_next_event; [by exists s | by eapply files_pooled; [apply Hd | |]]. }
  intros u1 d1 H1. destruct (after_quiet _ _ _ _ _ _ H1 ltac:(keeps) Hd Hs) as (Hd1 & s1 & Hs1 & _).
  apply returns_bind; [destruct c; [by eapply returns_commit_lease; [apply files_pooled, Hd1|] | apply returns_ret]|].
  intros ok d2 H2. destruct (after_quiet _ _ _ _ _ _ H2 ltac:(destruct c; keeps) Hd1 Hs1) as (Hd2 & s2 & Hs2 & _).
  destruct ok; cbn [negb]; [|apply returns_ret]. destruct p; [|apply returns_ret]. apply returns_bind; [apply returns_set_lease; by exists s2|].
  intros u3 d3 H3. destruct (after_quiet _ _ _ _ _ _ H3 ltac:(keeps) Hd2 Hs2) as (Hd3 & s3 & Hs3 & _).
  eapply returns_queue_update; [apply Hd3 | apply files_pooled, Hd3 | exact Hs3].
Qed.

(** Off the list, through the transition, and back on a list. *)
Definition relist (x q : id) (w : queue) : M4 bool := unfile q w x ;; make_binding_state_transition x ;; lease_enqueue x.

Lemma relist_runs d x s q w : ok4 d -> leases d !! x = Some s -> l_pool s = Some q -> queue_of s = Some w ->
  exists ok d' s', relist x q w d = Some (ok, d') /\ ok4 d' /\ leases d' !! x = Some s' /\ l_pool s' = Some q /\
  (to_come d' + transitions s <= to_come d + after_state (l_next_binding_state s))%nat.
Proof.
  intros [Hf Hq] Hs Hpq Hw. pose proof Hf as (Q & on & HL & Hon).
  destruct (unfile_eq d Q on q w x HL) as (l & d2 & E2 & HL2 & Hlk2 & _); [rewrite (Hon x s Hs); unfold place; by rewrite Hpq, Hw|].
  destruct (same_of_some _ _ _ _ _ Hlk2 Hs) as (s2 & Hs2 & Ea2). pose proof (f_equal states Ea2) as Est. injection Est as Eb2 En2.
  destruct (transition_eq d2 x s2 (ls_pool _ _ _ HL2) Hs2) as (f & d3 & s3 & E3 & Hs3 & Eb3 & En3 & Ho3).
  pose proof (unfile_off _ _ _ _ _ _ (files_filed_but x d Hf) E2) as Hoff. pose proof (off_lists_same _ _ _ (kb_transition x _ _ _ E3) Hoff) as Hoff3.
  assert (to_come d3 + transitions s <= to_come d + after_state (l_next_binding_state s))%nat as Hcome.
  { pose proof (to_come_one d2 d3 x s2 s3 Hs2 Hs3 Ho3) as E. rewrite (to_come_same d d2) in E by (by apply only_links_states).
    assert (transitions s2 = transitions s) as Et by (unfold transitions; by rewrite Eb2, En2). rewrite Et in E.
    pose proof (after_follows f s3) as Hf3. rewrite Eb3, En3, En2 in Hf3. specialize (Hf3 eq_refl). lia. }
  assert (exists ok d4, lease_enqueue x d3 = Some (ok, d4) /\ only_links d3 d4) as (ok & d4 & E4 & Hlk4).
  { destruct Hoff3 as (Q3 & on3 & HL3 & Hx3 & _). destruct (place s3) as [[q3 w3]|] eqn:Ep3; [|exists false, d3; by rewrite (lease_enqueue_none _ _ _ Hs3 Ep3)].
    unfold place in Ep3. destruct (l_pool s3) eqn:Hq3; [|done]. destruct (queue_of s3) eqn:Hw3; [|done]. destruct (ls_pool _ _ _ HL3 _ _ _ Hs3 Hq3) as [p3 Hp3].
    destruct (lease_enqueue_eq d3 Q3 on3 x s3 _ _ p3 HL3 Hx3 Hs3 Hq3 Hw3 Hp3) as (_ & _ & d4 & _ & E4 & _ & Hlk4 & _). by exists true, d4. }
  destruct (same_of_some _ _ _ _ _ Hlk4 Hs3) as (s4 & Hs4 & Ea4). exists ok, d4, s4. split_and!; try done.
  - unfold relist. by rewrite (bind4_eq _ _ _ _ _ E2), (bind4_eq _ _ _ _ _ E3).
  - split; [by eapply enqueue_files|].
    assert (Keeps same_queues (relist x q w)) as K by (unfold relist, unfile; keeps). destruct Hq as (U & A & Hq). exists U, A.
    eapply pending_same; [|exact Hq]. apply (K d ok d4). unfold relist. by rewrite (bind4_eq _ _ _ _ _ E2), (bind4_eq _ _ _ _ _ E3).
  - pose proof (f_equal l_pool Ea4) as E. simpl in E. pose proof (f_equal l_pool Ea2) as E'. simpl in E'. rewrite E, <- Hpq, <- E'.
    destruct (proj1 (kb_transition x _ _ _ E3)) as [H _ _]. specialize (H x). rewrite Hs2, Hs3 in H. by injection H.
  - by rewrite (to_come_same d3 d4) by (by apply only_links_states).
Qed.

Lemma move_lease_runs d x s q w c p i :
  ok4 d -> leases d !! x = Some s -> l_pool s = Some q -> queue_of s = Some w -> c || negb i = true ->
  exists b d' s', move_lease io cur_time x q w c p i d = Some (b, d') /\ ok4 d' /\ leases d' !! x = Some s' /\ l_pool s' = Some q /\
  (to_come d' + transitions s <= to_come d + after_state (l_next_binding_state s))%nat.
Proof.
  intros Hd Hs Hpq Hw Hc. destruct (relist_runs d x s q w Hd Hs Hpq Hw) as (ok & d1 & s1 & E1 & Hd1 & Hs1 & Hp1 & Hcome).
  assert (forall k : bool -> M4 bool, (set_pool4 q (count4 w (-1)) ;; take_off q w x ;; when4 (c || negb i) (make_binding_state_transition x) ;; ok ← lease_enqueue x; k ok) d = k ok d1) as Hk.
  { intros k. unfold relist, unfile in E1. rewrite Hc. cbn [when4]. apply bind4_inv in E1 as (? & ? & Ea & E1). apply bind4_inv in Ea as (? & ? & Ea & Eb).
    apply bind4_inv in E1 as (? & ? & Ed & Ee). by rewrite (bind4_eq _ _ _ _ _ Ea), (bind4_eq _ _ _ _ _ Eb), (bind4_eq _ _ _ _ _ Ed), (bind4_eq _ _ _ _ _ Ee). }
  unfold move_lease. rewrite Hk. destruct ok; cbn [negb]; [|by exists false, d1, s1].
  destruct (finish_move_runs d1 x s1 q c p i Hd1 Hs1 Hp1) as (b & d' & E'). pose proof (finish_move_ok4 x q c p i _ _ _ E' Hd1) as Hd'.
  pose proof (finish_move_states x q c p i _ _ _ E') as Hst. 
  destruct (same_of_some _ _ _ _ _ (finish_move_pools x q c p i _ _ _ E') Hs1) as (s' & Hs' & Ep). exists b, d', s'.
  split_and!; [exact E' | done | done | by rewrite Ep | by rewrite (to_come_same d1 d')].
Qed.

(** ** The calls end *)

(** From every lease the links lead to an end. *)
Lemma chain_of d y : files_ok d -> is_Some (leases d !! y) -> exists l, seg (nx d) (Some y) l None /\ (length l <= size (leases d))%nat.
Proof.
  intros (Q & on & HL & Hon) [s Hs]. enough (exists l, seg (nx d) (Some y) l None) as [l Hl] by (exists l; split; [done | by eapply seg_short]).
  destruct (on y) as [[q w]|] eqn:Hy.
  - apply (ls_on _ _ _ HL) in Hy as Hin. destruct (pools d !! q) as [p|] eqn:Hp; [|rewrite (ls_none _ _ _ HL) in Hin by done; by apply not_elem_of_nil in Hin].
    pose proof (ls_seg _ _ _ HL q p w Hp) as Hseg. apply list_elem_of_split in Hin as (l1 & l2 & E). rewrite E in Hseg.
    apply seg_app in Hseg as (m & _ & Hseg). exists (y :: l2). pose proof (seg_head _ _ _ _ Hseg) as ->. done.
  - exists [y]. split; [done|]. exists None. split; [|done]. unfold nx. rewrite Hs. simpl. f_equal. by eapply (ls_off _ _ _ HL).
Qed.

Lemma off_next d x s : files_ok d -> leases d !! x = Some s -> place s = None -> l_next s = None.
Proof. intros (Q & on & HL & Hon) Hs Hp. eapply (ls_off _ _ _ HL); [exact Hs|]. by rewrite (Hon _ _ Hs). Qed.

Section Fuel.
Context (N : nat).

Definition there (d : srv) : Prop := ok4 d /\ size (leases d) = N.

Definition supersede_ends (n : nat) : Prop := forall d x s c p i, there d -> leases d !! x = Some s -> c || negb i = true ->
  ((to_come d + after_state (l_next_binding_state s) - transitions s) * (N + 3) + N + 3 <= n)%nat ->
  exists b d', supersede_lease io random cur_time n x None c p i d = Some (b, d') /\
  ((place s = None /\ to_come d' = to_come d) \/ (to_come d' + transitions s <= to_come d + after_state (l_next_binding_state s))%nat).
Definition timer_ends (n : nat) : Prop := forall d q, there d -> is_Some (pools d !! q) -> (to_come d * (N + 3) + N + 2 <= n)%nat ->
  exists d', pool_timer io random cur_time n q d = Some (tt, d') /\ (to_come d' <= to_come d)%nat.
Definition walk_ends (n : nat) : Prop := forall d l L e, there d -> seg (nx d) l L None -> (to_come d * (N + 3) + length L + 1 <= n)%nat ->
  exists v d', timer_walk io random cur_time n l e d = Some (v, d') /\ (to_come d' <= to_come d)%nat.

Lemma there_mode {A} (m : M4 A) d a d' : Keeps (inv_rel ok4) m -> Keeps same_mode m -> m d = Some (a, d') -> there d -> there d' /\ same_dom d d'.
Proof. intros K1 K2 E [H1 H2]. destruct (K2 _ _ _ E) as [_ Hdom]. split; [split; [by eapply K1 | by rewrite (same_dom_size _ _ Hdom)] | done]. Qed.

Lemma transitions_le d x s : leases d !! x = Some s -> (transitions s <= to_come d)%nat.
Proof. intros H. unfold to_come. rewrite (sum_of_split _ x (transitions s)) by (by rewrite lookup_fmap, H). lia. Qed.

Lemma supersede_step n : timer_ends n -> supersede_ends (S n).
Proof.
  intros IH d x s c p i [Hd HN] Hs Hc Hn. assert (i && negb c = false) as Hic by (by destruct c, i). cbn [supersede_lease pool_timer timer_walk]. rewrite Hic.
  assert (exists d1, when4 p (set_lease4 x (set_l_atsfp 0)) d = Some (tt, d1)) as [d1 E1] by (destruct p; [eexists; by apply set_lease4_eq | by exists d]).
  rewrite (bind4_eq _ _ _ _ _ E1). destruct (after_quiet _ _ _ _ _ _ E1 ltac:(keeps) Hd Hs) as (Hd1 & s1 & Hs1 & Ep1 & Eq1).
  assert (same_of states d d1) as Hst1 by (revert E1; assert (Keeps (same_of states) (when4 p (set_lease4 x (set_l_atsfp 0)))) as K by keeps; apply K).
  pose proof (to_come_same _ _ Hst1) as Hc1. destruct (same_of_some _ _ _ _ _ Hst1 Hs) as (s1' & Hs1' & Est1). rewrite Hs1 in Hs1'. injection Hs1' as <-.
  injection Est1 as Eb1 En1. assert (transitions s1 = transitions s) as Et1 by (unfold transitions; by rewrite Eb1, En1).
  assert (place s1 = place s) as Epl by (unfold place; by rewrite Ep1, Eq1).
  rewrite (bind4_eq _ _ _ _ _ (lease_at_eq _ _ _ Hs1)). destruct (l_pool s1) as [q|] eqn:Hq1; [destruct (queue_of s1) as [w|] eqn:Hw1|].
  2,3: exists false, d1; split; [done | left; split; [|done]]; rewrite <- Epl; unfold place; rewrite Hq1; simpl; by rewrite ?Hw1.
  destruct (move_lease_runs d1 x s1 q w c p i Hd1 Hs1 Hq1 Hw1 Hc) as (b & d2 & s2 & E2 & Hd2 & Hs2 & Hp2 & Hc2). rewrite (bind4_eq _ _ _ _ _ E2).
  rewrite Et1, En1, Hc1 in Hc2. destruct b; cbn [negb]; [|exists false, d2; auto]. destruct (files_pooled d2 (proj1 Hd2) _ _ _ Hs2 Hp2) as [p2 Hq2].
  rewrite (bind4_eq _ _ _ _ _ (pool_at_eq _ _ _ Hq2)).
  match goal with |- context [when4 ?b (dhcp_failover_pool_check random cur_time q) ≫= _] => destruct (returns_when b (dhcp_failover_pool_check random cur_time q) d2) as (u3 & d3 & E3) end.
  { intros _. apply returns_pool_check; [apply Hd2 | by exists p2]. }
  rewrite (bind4_eq _ _ _ _ _ E3). destruct (after_quiet _ _ _ _ _ _ E3 ltac:(keeps) Hd2 Hs2) as (Hd3 & s3 & Hs3 & Ep3 & _).
  assert (to_come d3 = to_come d2) as Hc3.
  { apply to_come_same. revert E3. match goal with |- ?m _ = _ -> _ => enough (Keeps (same_of states) m) as K by apply K end. keeps. }
  rewrite (bind4_eq _ _ _ _ _ (lease_at_eq _ _ _ Hs3)).
  assert (size (leases d3) = N) as HN3.
  { pose proof (m_move_lease io cur_time x q w c p i) as K2. pose proof (m_pool_check random cur_time q) as K3.
    assert (same_mode d d3) as [_ Hdom]; [|by rewrite (same_dom_size _ _ Hdom)]. transitivity d1; [|transitivity d2; [by eapply K2|]].
    - revert E1. assert (Keeps same_mode (when4 p (set_lease4 x (set_l_atsfp 0)))) as K by keeps. apply K.
    - revert E3. match goal with |- ?m _ = _ -> _ => enough (Keeps same_mode m) as K by apply K end. keeps. }
  pose proof (transitions_le d x s Hs) as Hle.
  destruct (IH d3 q) as (d4 & E4 & Hc4); [by split | by eapply files_pooled; [apply Hd3 | exact Hs3 | by rewrite Ep3] | |].
  { assert (to_come d3 <= to_come d + after_state (l_next_binding_state s) - transitions s)%nat by lia. nia. }
  match goal with |- context [when4 ?b _ ≫= _] => destruct b end; cbn [when4]; [rewrite (bind4_eq _ _ _ _ _ E4); exists true, d4 | exists true, d3]; (split; [done | right; lia]).
Qed.

Lemma walk_step n : supersede_ends n -> walk_ends n -> walk_ends (S n).
Proof.
  intros IHs IHw d l L e Ht Hseg Hn. cbn [supersede_lease pool_timer timer_walk]. destruct L as [|x L]; [simpl in Hseg; subst l; by exists e, d|].
  destruct Hseg as (-> & t & (s & Hs & <-)%nx_inv & Hseg). simpl in Hn. rewrite (bind4_eq _ _ _ _ _ (lease_at_eq _ _ _ Hs)). cbv zeta.
  destruct (cur_time <? l_sort_time s); [by eexists _, _|]. destruct (Z.eqb_spec (l_next_binding_state s) (l_binding_state s)) as [Hb|Hb]; cbn [negb].
  { rewrite (bind4_eq _ _ _ tt d) by done. destruct (IHw d (l_next s) L e Ht Hseg) as (v & d' & E & Hle); [lia | eauto]. }
  pose proof (files_pooled d (proj1 (proj1 Ht))) as Hpool. destruct (returns_failover_peer d x s Hpool Hs) as [f Hf].
  set (rewound := match f with Some f => rewinds f s | None => false end).
  set (s1 := if rewound then set_l_next_binding_state (l_rewind_binding_state s) s else s). set (d1 := if rewound then upd_lease x s1 d else d).
  assert ((match f with Some f => when4 (rewinds f s) (set_lease4 x (fun s => set_l_next_binding_state (l_rewind_binding_state s) s)) | None => mret tt end) d = Some (tt, d1)) as E1.
  { unfold d1, s1, rewound. destruct f as [f|]; [|done]. destruct (rewinds f s); [|done]. exact (set_lease4_eq _ _ _ _ Hs). }
  assert (leases d1 !! x = Some s1) as Hs1 by (unfold d1, s1; destruct rewound; [apply lookup_insert_eq | done]).
  assert (to_come d1 + after_state (l_next_binding_state s1) - transitions s1 <= to_come d - 1 /\ to_come d1 <= to_come d /\ 1 <= to_come d)%nat as (Hc1 & Hc1' & Hpos).
  { pose proof (transitions_le d x s Hs) as Hle. assert (transitions s = S (after_state (l_next_binding_state s))) as Ht0 by (unfold transitions; by rewrite (proj2 (Z.eqb_neq _ _) Hb)).
    unfold d1, s1. destruct rewound eqn:Er; [|lia]. pose proof (to_come_upd d x s (set_l_next_binding_state (l_rewind_binding_state s) s) Hs) as Hu.
    unfold rewound in Er. destruct f as [f|]; [|done]. unfold rewinds in Er. bool_to_prop.
    assert (after_state (l_rewind_binding_state s) = 0)%nat as Ha by (match goal with H : (_ || _)%bool = true |- _ => apply orb_prop in H as [H|H] end; bool_to_prop;
      match goal with H : l_rewind_binding_state s = _ |- _ => rewrite H end; done).
    match goal with H : l_next_binding_state s = FTS_EXPIRED |- _ => rewrite H in Ht0; change (after_state FTS_EXPIRED) with 1%nat in Ht0 end.
    unfold transitions at 2 in Hu. simpl in Hu |- *. rewrite Ha in *. unfold transitions at 1. simpl. rewrite Ha. case_match; lia. }
  assert (there d1) as Ht1.
  { destruct Ht as [Hd HN]. unfold d1. destruct rewound; [|by split]. split; [|simpl; by rewrite map_size_insert_Some by (by exists s)].
    eapply (all_ok4 (set_lease4 x (fun s => set_l_next_binding_state (l_rewind_binding_state s) s))); [keeps | exact (set_lease4_eq _ _ _ _ Hs) | done]. }
  destruct (IHs d1 x s1 true true true Ht1 Hs1 eq_refl) as (b & d2 & E2 & Hor); [nia|].
  destruct (there_mode _ _ _ _ (ok4_supersede io random cur_time n x None true true true) (proj1 (m_supersede io random cur_time n) x None true true true) E2 Ht1) as [Ht2 Hdom2].
  rewrite (bind4_eq _ _ _ tt d2) by (by rewrite (bind4_eq _ _ _ _ _ Hf), (bind4_eq _ _ _ _ _ E1), (bind4_eq _ _ _ _ _ E2)).
  assert (exists L2, seg (nx d2) (l_next s) L2 None /\ (to_come d2 * (N + 3) + length L2 + 1 <= n)%nat /\ (to_come d2 <= to_come d)%nat) as (L2 & Hs2 & Hn2 & Hc2).
  { destruct Hor as [[Hpl Hc2]|Hc2].
    - exists []. split_and!; [|rewrite Hc2; simpl; nia | lia]. simpl. eapply off_next; [apply Ht | exact Hs |].
      rewrite <- Hpl. unfold s1. by destruct rewound.
    - pose proof (transitions_le d1 x s1 Hs1). assert (to_come d2 <= to_come d - 1)%nat by lia. destruct (l_next s) as [y|] eqn:Hy; [|exists []; split_and!; [done | simpl; nia | lia]].
      destruct (chain_of d2 y) as (L2 & HL2 & Hlen); [apply Ht2 | | exists L2; rewrite (proj2 Ht2) in Hlen; split_and!; [done | nia | lia]].
      destruct L as [|y' L]; [done|]. destruct Hseg as ([= <-] & t & (sy & Hsy & _)%nx_inv & _). apply Hdom2. unfold d1. destruct rewound; [|by exists sy].
      rewrite lookup_upd_lease. case_decide; by eexists. }
  destruct (IHw d2 (l_next s) L2 e Ht2 Hs2 Hn2) as (v & d' & E & Hle). exists v, d'. split; [done | lia].
Qed.

Lemma timer_step n : walk_ends n -> timer_ends (S n).
Proof.
  intros IHw d q Ht Hq Hn. cbn [supersede_lease pool_timer timer_walk].
  match goal with |- context [foldr ?g ?k ?ws MAX_TIME4 ≫= _] => set (step := g); set (last := k); set (all := ws) end.
  assert (forall ws e d, there d -> is_Some (pools d !! q) -> (to_come d * (N + 3) + N + 1 <= n)%nat ->
    exists v d', foldr step last ws e d = Some (v, d') /\ is_Some (pools d' !! q) /\ (to_come d' <= to_come d)%nat) as Hall.
  { clear d Ht Hq Hn. intros ws. induction ws as [|w ws IH]; intros e d Ht Hq Hn; [by exists e, d|]. destruct Hq as [p Hp]. cbn [foldr].
    set (rest := foldr step last ws) in *. unfold step. rewrite (bind4_eq _ _ _ _ _ (pool_at_eq _ _ _ Hp)), get4_bind. case_match; [apply IH; [done | by exists p | done]|].
    pose proof (proj1 Ht) as [(Q & on & HL & _) _]. pose proof (ls_seg _ _ _ HL q p w Hp) as Hseg. pose proof (seg_short _ _ _ Hseg) as Hlen. rewrite (proj2 Ht) in Hlen.
    destruct (IHw d (p_heads p w) (Q q w) e Ht Hseg) as (v & d1 & E & Hle); [lia|]. rewrite (bind4_eq _ _ _ _ _ E).
    destruct (there_mode _ _ _ _ (keeps_ok4 _ (proj2 (proj2 (supersede_files io random cur_time n)) _ e) (proj2 (proj2 (supersede_queues io random cur_time n)) _ e))
      (proj2 (proj2 (m_supersede io random cur_time n)) _ e) E Ht) as [Ht1 [_ Hdom]].
    destruct (IH v d1 Ht1) as (v' & d' & E' & Hp' & Hle'); [apply Hdom; by exists p | nia |]. exists v', d'. split_and!; [done | done | lia]. }
  destruct (Hall all MAX_TIME4 d Ht Hq) as (v & d1 & E & [p1 Hp1] & Hle); [lia|]. rewrite (bind4_eq _ _ _ _ _ E).
  case_match; [rewrite (bind4_eq _ _ _ _ _ (set_pool4_eq _ _ _ _ Hp1)) | rewrite (set_pool4_eq _ _ _ _ Hp1)]; eexists; (split; [done | exact Hle]).
Qed.

Lemma timers_end n : supersede_ends n /\ timer_ends n /\ walk_ends n.
Proof.
  induction n as [|n (IHs & IHp & IHw)].
  - split_and!; intros d; intros; nia.
  - split_and!; [by apply supersede_step | by apply timer_step | by apply walk_step].
Qed.

End Fuel.

End Timers.
