(* ===== verification/V4Claims.v ===== *)
(** * Theorems about the DHCPv4 server and its failover relationship

    What the operations of the running server promise: leases are on the lists of their states, the queues of updates
    are queues, timers end, the service follows the states of the two servers; and where the code does not do
    what it means to.  The servers at the end are the examples. *)

From S2P Require Import Prelude BindingStates FailoverLeases V4State V4Queues V4Leases V4Machine V4Handlers V4Chain V4Laws V4Frames V4Lists V4Moves V4Pending V4Sending V4System V4Tables V4Service V4Timers.

#[local] Open Scope Z_scope.

(** ** The queues as lists *)

(** The operations on the two queues, with the lease they are for. *)
Inductive q_op := QueueUpdate (l : id) (immediate : bool) | AckRemove (l : id) | SendUpdates | ResendUnacked.

Definition run_q (io : nat -> bool) (cur_time : Z) (o : q_op) : M4 unit :=
  match o with
  | QueueUpdate l immediate => dhcp_failover_queue_update io cur_time l immediate ;; mret tt
  | AckRemove l => dhcp_failover_ack_queue_remove io l
  | SendUpdates => dhcp_failover_send_updates io cur_time ;; mret tt
  | ResendUnacked => resend_unacked
  end.

(** The lists behind an operation, and the updates it sends: [up] is whether there is a link, [limit] how many updates the
    partner takes without an acknowledgement. *)
Definition spec_send (up : bool) (limit : Z) (U A : list id) : list id * list id * list id :=
  let n := if up then Z.to_nat (limit - Z.of_nat (length A)) else 0%nat in (drop n U, A ++ take n U, take n U).
Definition spec_q (up : bool) (limit : Z) (o : q_op) (U A : list id) : list id * list id * list id :=
  match o with
  | QueueUpdate l immediate =>
      if decide (l ∈ U) then (U, A, [])
      else if immediate then spec_send up limit (U ++ [l]) (without l A) else (U ++ [l], without l A, [])
  | AckRemove l => (U, without l A, [])
  | SendUpdates => spec_send up limit U A
  | ResendUnacked => (A ++ U, [], [])
  end.

(** The lease of an operation is there, and has a partner. *)
Definition q_ready (d : srv) (o : q_op) : Prop :=
  match o with
  | QueueUpdate l _ => exists s q p, leases d !! l = Some s /\ l_pool s = Some q /\ pools d !! q = Some p /\ p_failover_peer p = true
  | AckRemove l => is_Some (leases d !! l)
  | _ => True
  end.

Definition link_up (d : srv) : bool := bool_decide (is_Some (f_link_to_peer (peer d))).

Lemma sending_resend : Keeps (sending []) resend_unacked.
Proof.
  assert (forall n l, Keeps (sending []) (zap_flags n l)) by (induction n as [|n IH]; intros l; cbn [zap_flags]; [apply keeps_fatal|]; keeps).
  unfold resend_unacked, cancel_timeout4. keeps; by apply sending_peer.
Qed.

Lemma length_without x l : (length (without x l) <= length l)%nat.
Proof. unfold without. apply length_filter. Qed.

Section Queues.
Context (io : nat -> bool) (cur_time : Z).

Lemma send_updates_spec d U A :
  pending d U A -> Z.of_nat (length A + length U) < 2 ^ 32 ->
  let '(U', A', sent) := spec_send (link_up d) (f_partner_max_flying_updates (peer d)) U A in
  exists d', dhcp_failover_send_updates io cur_time d = Some (R_SUCCESS, d') /\ pending d' U' A' /\ sending sent d d'.
Proof.
  intros Hd Hlen. unfold spec_send, link_up. case_bool_decide as Hup.
  - destruct (send_updates_eq io cur_time d U A Hd Hup Hlen) as (U1 & U2 & d' & -> & E & Hd' & Hs & H2 & H1). rewrite length_app in H1, H2.
    set (n := Z.to_nat _). assert (Z.of_nat n = Z.max 0 (f_partner_max_flying_updates (peer d) - Z.of_nat (length A))) as Hn by lia. clearbody n.
    assert (take n (U1 ++ U2) = U1 /\ drop n (U1 ++ U2) = U2) as [-> ->]; [|by exists d'].
    destruct H1 as [->|H1]; [destruct H2 as [->|H2]; [by destruct n | simpl in H2; assert (n = 0%nat) as -> by lia; done]|].
    destruct H2 as [->|H2]; [rewrite app_nil_r, take_ge, drop_ge by lia; done|]. assert (n = length U1) as -> by lia. by rewrite take_app_length, drop_app_length.
  - rewrite take_0, app_nil_r, drop_0. unfold dhcp_failover_send_updates. rewrite get4_bind. destruct (f_link_to_peer (peer d)); [exfalso; eauto|].
    exists d. split_and!; done.
Qed.

Lemma queue_update_spec d U A l imm :
  pending d U A -> q_ready d (QueueUpdate l imm) -> Z.of_nat (length A + length U) < 2 ^ 32 - 1 ->
  let '(U', A', sent) := spec_q (link_up d) (f_partner_max_flying_updates (peer d)) (QueueUpdate l imm) U A in
  exists d', dhcp_failover_queue_update io cur_time l imm d = Some (true, d') /\ pending d' U' A' /\ sending sent d d'.
Proof.
  intros Hd (s & q & p & Hs & Hq & Hp & Hf) Hlen. assert (exists f, failover_peer s d = Some (Some f, d)) as Hpeer.
  { rewrite (failover_peer_eq d s q p Hq Hp), Hf. eauto. }
  pose proof (queue_update_eq io cur_time d U A l s imm Hd Hs Hpeer) as HQ. cbn [spec_q]. destruct (decide (l ∈ U)) as [Hin|Hin]; [by exists d|].
  destruct HQ as (d1 & Hd1 & _ & Hs1 & E). destruct imm; [|exists d1; by rewrite E].
  pose proof (length_without l A) as Hw. pose proof (send_updates_spec d1 _ _ Hd1) as HS. rewrite length_app in HS. specialize (HS ltac:(simpl; lia)).
  assert (link_up d1 = link_up d) as El by (apply bool_decide_ext; symmetry; apply Hs1). rewrite El, (sd_limit _ _ _ Hs1) in HS.
  destruct (spec_send _ _ _ _) as [[U' A'] sent]. destruct HS as (d2 & E2 & Hd2 & Hs2). exists d2. split_and!; [|done|exact (sending_trans _ _ _ _ _ Hs1 Hs2)].
  rewrite E. by rewrite (bind4_eq _ _ _ tt d2) by (by rewrite (bind4_eq _ _ _ _ _ E2)).
Qed.

Lemma ack_remove_spec d U A l : pending d U A -> is_Some (leases d !! l) ->
  exists d', dhcp_failover_ack_queue_remove io l d = Some (tt, d') /\ pending d' U (without l A) /\ sending [] d d'.
Proof.
  intros Hd [s Hs]. destruct (decide (l ∈ A)) as [Hin|Hn].
  - pose proof (seg_NoDup _ _ _ (pd_segA _ _ _ Hd)) as HN. apply list_elem_of_split in Hin as (A1 & A2 & ->). apply NoDup_app in HN as (_ & H1 & [H2 _]%NoDup_cons).
    destruct (ack_queue_remove_eq io d U A1 l A2 Hd) as (d' & E & Hd'). exists d'. rewrite without_split by (set_solver || done).
    split_and!; [done | done | by eapply sending_ack_remove].
  - exists d. rewrite (without_not l A) by done. split_and!; [by eapply ack_queue_remove_none | done | done].
Qed.

(** C18: the queues of updates that wait to be sent and of updates that wait for an acknowledgement, linked through the leases, with a flag on each lease
    and a count, are two lists: queueing a lease appends it to the first and takes it off the second, an acknowledgement removes it from the second,
    sending moves as many leases from the front of the first to the end of the second as the partner takes, in order and each with one message, and
    when the state changes the second list goes in front of the first. *)
Theorem failover_queues_refine d U A o :
  pending d U A -> q_ready d o -> Z.of_nat (length A + length U) < 2 ^ 32 - 1 ->
  let '(U', A', sent) := spec_q (link_up d) (f_partner_max_flying_updates (peer d)) o U A in
  exists d', run_q io cur_time o d = Some (tt, d') /\ pending d' U' A' /\ updates_in (events d') = updates_in (events d) ++ sent.
Proof.
  intros Hd Ho Hlen. destruct o as [l imm|l| |]; cbn [run_q].
  - pose proof (queue_update_spec d U A l imm Hd Ho Hlen) as H. destruct (spec_q _ _ _ _ _) as [[U' A'] sent]. destruct H as (d' & E & Hd' & Hs).
    exists d'. rewrite (bind4_eq _ _ _ _ _ E). split_and!; [done | done | apply Hs].
  - destruct (ack_remove_spec d U A l Hd Ho) as (d' & E & Hd' & Hs). exists d'. split_and!; [done | done | apply Hs].
  - pose proof (send_updates_spec d U A Hd ltac:(lia)) as H. cbn [spec_q]. destruct (spec_send _ _ _ _) as [[U' A'] sent]. destruct H as (d' & E & Hd' & Hs).
    exists d'. rewrite (bind4_eq _ _ _ _ _ E). split_and!; [done | done | apply Hs].
  - destruct (resend_unacked_eq io d U A Hd) as (d' & E & Hd'). exists d'. split_and!; [done | done | by eapply sending_resend].
Qed.

End Queues.

(** ** Recovery *)

(** Operations that always return. *)
Definition Total {A} (m : M4 A) : Prop := forall d, runs m d.

Lemma total_bind {A B} (m : M4 A) (f : A -> M4 B) : Total m -> (forall a, Total (f a)) -> Total (m ≫= f).
Proof. intros Hm Hf d. apply returns_bind; [done | intros; apply Hf]. Qed.
Lemma total_ret {A} (a : A) : Total (mret a).
Proof. intros d. by eexists _, _. Qed.
Lemma total_get {A} (f : srv -> A) : Total (get4 f).
Proof. intros d. by eexists _, _. Qed.
Lemma total_modify f : Total (modify4 f).
Proof. intros d. by eexists _, _. Qed.
Lemma total_when b m : Total m -> Total (when4 b m).
Proof. intros H. destruct b; [done | apply total_ret]. Qed.

Ltac total := repeat first [ apply total_bind; [|intros ?] | apply total_ret | apply total_get | apply total_modify | apply total_when | case_match ].

Section Recovery.
Context (io : nat -> bool) (random : nat -> Z) (cur_time : Z) (fuel : nat).

Lemma total_record : Total (w ← write_failover_state io; if (w : bool) then commit_leases io else mret false).
Proof. unfold write_failover_state, commit_leases, ask, emit. total. Qed.

Lemma total_send_state : Total (dhcp_failover_send_state cur_time).
Proof. unfold dhcp_failover_send_state, with_link, next_xid, dhcp_failover_put_message, add_timeout4, emit. total. Qed.

Lemma returns_service d : case_of (f_me_state (peer d)) state_names = true -> runs dhcp_failover_set_service_state d.
Proof.
  intros H. unfold dhcp_failover_set_service_state. apply returns_bind; [by eexists _, _|]. intros f d1 E. injection E as <- <-. apply returns_bind.
  - apply existsb_exists in H as (y & Hy & E%Z.eqb_eq). rewrite E. repeat (destruct Hy as [<-|Hy]; [by eexists _, _|]). done.
  - intros v d1 _. apply returns_bind; [by eexists _, _ | intros; apply total_when, total_modify].
Qed.

Lemma returns_eq {A B} (m : M4 A) (f : A -> M4 B) d a d1 : m d = Some (a, d1) -> runs (f a) d1 -> runs (m ≫= f) d.
Proof. intros E (b & d2 & H). exists b, d2. by rewrite (bind4_eq _ _ _ _ _ E). Qed.

(** The state is written down, and the waiting begins. *)
Lemma returns_wait d : f_me_state (peer d) = recover -> cur_time < f_me_stos (peer d) + f_mclt (peer d) -> runs (dhcp_failover_set_state io random cur_time fuel recover_wait) d.
Proof.
  intros Hme Ht. unfold dhcp_failover_set_state, set_state_with.
  do 2 (eapply returns_eq; [unfold get4, when4; rewrite ?Hme; reflexivity|]). do 4 (eapply returns_eq; [reflexivity|]). match goal with |- runs _ ?x => set (d1 := x) end.
  destruct (total_record d1) as (ok & d2 & E2). assert (same_mode d1 d2) as [Hm _].
  { revert E2. match goal with |- ?m _ = _ -> _ => enough (Keeps same_mode m) as K by apply K end. pose proof m_emit. pose proof (m_ask io).
    unfold write_failover_state, commit_leases. keeps. }
  unfold mode in Hm. injection Hm as M1 M2 M3 M4 M5 M6. eapply returns_eq; [exact E2|]. destruct ok; cbn [negb]; [|repeat (eapply returns_eq; [reflexivity|]); apply total_ret].
  do 2 (eapply returns_eq; [unfold when4; simpl; rewrite ?Hme; reflexivity|]).
  destruct (returns_service (set_events (events d2 ++ [cancel_timeout_ev T_auto_partner_down]) d2)) as ([] & d3 & E3); [simpl; by rewrite M1|].
  eapply returns_eq; [exact E3|]. apply set_service_state_inv in E3 as [_ Hm3].
  assert (Total (if negb (bool_decide (f_link_to_peer (peer d) = None)) then dhcp_failover_send_state cur_time ;; mret tt else mret tt)) as Hsend
    by (destruct (negb _); [apply total_bind; [apply total_send_state | intros; apply total_ret] | apply total_ret]).
  destruct (Hsend d3) as ([] & d4 & E4). eapply returns_eq; [exact E4|]. apply returns_bind; [|intros; apply total_ret].
  assert (same_mode d3 d4) as [Hm4 _].
  { revert E4. match goal with |- ?m _ = _ -> _ => enough (Keeps same_mode m) as K by apply K end. pose proof (m_send_state cur_time). keeps. }
  unfold mode in Hm3, Hm4. injection Hm3 as _ _ _ _ N5 N6. injection Hm4 as _ _ _ _ O5 O6.
  unfold enter_state. eapply returns_eq; [reflexivity|]. simpl. assert (f_me_stos (peer d4) + f_mclt (peer d4) = f_me_stos (peer d) + f_mclt (peer d)) as ->.
  { rewrite O5, O6, N5, N6. simpl. rewrite M5, M6. done. }
  apply Z.ltb_lt in Ht. rewrite Ht. apply total_modify.
Qed.

(** C39: a server that has heard everything from its partner waits out the partner's promises.  In a state with [mode_ok] (the own
    states are states of the protocol and the service state answers to them, as they do in every state the running server gets to),
    when the server is in [recover], the partner is neither in [recover] nor in [recover_done], and the lead time MCLT has not passed
    since the server got into its state, the end of the updates (an UPDDONE) is handled to the end, and it leaves the server in
    [recover] or [recover_wait], answering no client, the time of its state unchanged, and the last thing done is to set the timer
    for the end of the wait, the time of the state plus MCLT (as an [int]). *)
Theorem recover_waits d :
  mode_ok d -> f_me_state (peer d) = recover -> cur_time < f_me_stos (peer d) + f_mclt (peer d) ->
  case_of (f_partner_state (peer d)) [recover; recover_done] = false ->
  exists d', dhcp_failover_process_update_done io random cur_time fuel d = Some (tt, d') /\
  case_of (f_me_state (peer d')) [recover; recover_wait] = true /\ f_service_state (peer d') = not_responding /\
  f_me_stos (peer d') = f_me_stos (peer d) /\
  last (events d') = Some (add_timeout_ev (to_int (f_me_stos (peer d) + f_mclt (peer d))) T_recover_done).
Proof.
  intros [Hst Hsv] Hme Ht Hp. unfold dhcp_failover_process_update_done. rewrite (bind4_eq _ _ _ _ _ (set_peer4_eq _ _)), get4_bind.
  set (d0 := upd_peer (set_f_curUPD 0) d). assert (mode (peer d0) = mode (peer d)) as Hm0 by done.
  change (f_me_state (peer d0)) with (f_me_state (peer d)). rewrite Hme.
  change (f_me_stos (peer d0)) with (f_me_stos (peer d)). change (f_mclt (peer d0)) with (f_mclt (peer d)). change (f_partner_state (peer d0)) with (f_partner_state (peer d)).
  assert ((cur_time <? f_me_stos (peer d) + f_mclt (peer d)) && negb (f_partner_state (peer d) =? recover) && negb (f_partner_state (peer d) =? recover_done) = true) as Hb.
  { rewrite (proj2 (Z.ltb_lt _ _) Ht). unfold case_of in Hp. simpl in Hp. apply orb_false_elim in Hp as [Hp1 Hp2]. rewrite orb_false_r in Hp2.
    by rewrite Hp1, Hp2. }
  simpl. rewrite Hb. destruct (returns_wait d0 Hme Ht) as (r & d1 & E1). unfold goto_state.
  rewrite (bind4_eq _ _ _ tt d1) by (by rewrite (bind4_eq _ _ _ _ _ E1)). rewrite get4_bind. eexists. split; [reflexivity|].
  enough (case_of (f_me_state (peer d1)) [recover; recover_wait] = true /\ f_service_state (peer d1) = not_responding /\
    f_me_stos (peer d1) = f_me_stos (peer d) /\ f_mclt (peer d1) = f_mclt (peer d)) as (H1 & H2 & H3 & H4).
  { simpl. rewrite last_snoc, H3, H4. done. }
  assert (f_service_state (peer d) = not_responding) as Hnr.
  { destruct Hsv as [Hsv|Hsv]; [|done]. rewrite Hsv, Hme. unfold service_for. by case_match. }
  destruct (set_state_with_split _ _ _ _ _ _ d0 r d1 Hst E1) as [(_ & _ & E2 & E3 & _ & E5 & E6)|(_ & f & d2 & Hd2 & Hf & Hm2 & E2)].
  - rewrite E2, E3, E5, E6. split_and!; [unfold d0; simpl; by rewrite Hme | exact Hnr | done | done].
  - unfold mode in Hf, Hm2. injection Hf as F1 _ _ _ F5 F6. injection Hm2 as G1 _ G4 G5 G6.
    assert (new_stos cur_time f recover_wait = f_me_stos (peer d)) as En by (unfold new_stos; simpl; by rewrite F5).
    apply enter_wait in E2 as [Hm _]; [|by rewrite G5, G6, En]. unfold mode in Hm. injection Hm as I1 _ _ I4 I5 I6.
    rewrite I1, I4, I5, I6, G1, G4, G5, G6, En. split_and!; [done | | done | done]. unfold service_for. by case_match.
Qed.

End Recovery.

(** ** Changing the state *)

(** How often the outside was asked. *)
Definition same_asked (d d' : srv) : Prop := outside d' = outside d.

#[local] Instance same_asked_pre : PreOrder same_asked.
Proof. split; [done | intros x y z H1 H2; unfold same_asked in *; congruence]. Qed.

Lemma asked_lease x f : Keeps same_asked (set_lease4 x f).
Proof. intros d a d' (s & _ & ->)%set_lease4_inv. done. Qed.
Lemma asked_peer f : Keeps same_asked (set_peer4 f).
Proof. intros d a d' H. by injection H as _ <-. Qed.
Lemma asked_emit e : Keeps same_asked (emit e).
Proof. intros d a d' H. by injection H as _ <-. Qed.

Lemma asked_resend : Keeps same_asked resend_unacked.
Proof.
  pose proof asked_lease. pose proof asked_peer. pose proof asked_emit.
  assert (forall n l, Keeps same_asked (zap_flags n l)) by (induction n as [|n IH]; intros l; cbn [zap_flags]; [apply keeps_fatal|]; keeps).
  unfold resend_unacked, cancel_timeout4. keeps.
Qed.

(** A new state has to be written down. *)
Lemma set_state_asks io random cur_time fuel done st d r d' :
  set_state_with io random cur_time fuel done st d = Some (r, d') ->
  r = if io (outside d) && io (S (outside d)) then R_SUCCESS else R_IOERROR.
Proof.
  intros H. unfold set_state_with in H. rewrite get4_bind in H. apply bind4_inv in H as (u0 & d0 & H0 & H).
  assert (outside d0 = outside d) as <- by (eapply (keeps_when same_asked _ _ asked_resend); exact H0).
  rewrite get4_bind in H. cbv zeta in H. do 2 rewrite (bind4_eq _ _ _ _ _ (set_peer4_eq _ _)) in H. apply bind4_inv in H as (u1 & d1 & H1 & H).
  assert (outside d1 = outside d0) as <- by (destruct (_ && _); by injection H1 as _ <-).
  apply bind4_inv in H as (ok & d2 & H2 & H). assert (ok = io (outside d1) && io (S (outside d1))) as <-.
  { unfold write_failover_state, commit_leases, ask, emit, modify4, get4, mbind, M4_bind, mret, M4_ret in H2. simpl in H2.
    destruct (io (outside d1)); injection H2 as <- _; done. }
  destruct ok; cbn [negb] in H; [do 5 (apply bind4_inv in H as (? & ? & _ & H))|do 2 (apply bind4_inv in H as (? & ? & _ & H))]; by injection H as <- _.
Qed.

Section Claims.
Context (io : nat -> bool) (random : nat -> Z).

(** What every operation keeps holds in every state that is reached. *)
Lemma reach_inv (I : srv -> Prop) d0 d :
  (forall cur_time fuel o, Keeps (inv_rel I) (run_op io random cur_time fuel o)) -> I d0 -> rtc (step_srv io random) d0 d -> I d.
Proof. intros HI H0 Hrun. induction Hrun as [|x y z (t & n & o & E) _ IH]; [done|]. by eapply IH, HI. Qed.

(** A state is entered only if it could be written down: if the two writes succeed, [dhcp_failover_set_state] leaves the server in
    the new state, its service the one for the two states; if one fails, the state, its time, the partner's state and the service
    stay, and the caller is told. *)
Theorem set_state_recorded cur_time fuel d st r d' :
  states_ok (peer d) -> st <> recover_wait -> dhcp_failover_set_state io random cur_time fuel st d = Some (r, d') ->
  f_partner_state (peer d') = f_partner_state (peer d) /\
  if io (outside d) && io (S (outside d))
  then r = R_SUCCESS /\ f_me_state (peer d') = st /\ f_service_state (peer d') = service_for st (f_partner_state (peer d))
  else r = R_IOERROR /\ f_me_state (peer d') = f_me_state (peer d) /\ f_me_stos (peer d') = f_me_stos (peer d) /\
       f_service_state (peer d') = f_service_state (peer d).
Proof.
  intros Hst Hne H. pose proof (set_state_asks _ _ _ _ _ _ _ _ _ H) as Hr.
  destruct (set_state_with_split _ _ _ _ _ _ _ _ _ Hst H) as [(Er & _ & E1 & E2 & E3 & E4 & _)|(Er & f & d1 & _ & _ & Hm & He)]; rewrite Er in Hr.
  - destruct (_ && _); [done|]. done.
  - destruct (_ && _); [|done]. apply m_enter_state in He as [Hm' _]; [|done]. rewrite Hm in Hm'. unfold mode in Hm'. injection Hm' as -> _ -> -> _ _. done.
Qed.

(** C33: whatever happens to the running server, its failover state and the one it saved at startup stay among the thirteen states, though
    a partner may send any byte as its own. *)
Theorem failover_state_valid d0 d :
  mode_ok d0 -> rtc (step_srv io random) d0 d ->
  case_of (f_me_state (peer d)) state_names = true /\ case_of (f_saved_state (peer d)) state_names = true.
Proof.
  intros H0 Hrun. by destruct (reach_inv mode_ok d0 d (mode_run_op io random) H0 Hrun) as [[? ?] _].
Qed.

(** C10: at every time the server answers clients only as the states allow: with its partner in the state normal, alone in the states
    communications-interrupted and partner-down, and not at all while the partner is in partner-down or resolves a conflict. *)
Theorem service_safe d0 d :
  mode_ok d0 -> rtc (step_srv io random) d0 d ->
  let f := peer d in
  (f_service_state f = cooperating -> f_me_state f = normal) /\
  (f_service_state f = not_cooperating -> f_me_state f = communications_interrupted) /\
  (f_service_state f = service_partner_down -> f_me_state f = partner_down) /\
  (case_of (f_partner_state f) [partner_down; potential_conflict; conflict_done; resolution_interrupted] = true -> f_service_state f = not_responding).
Proof.
  intros H0 Hrun f. destruct (reach_inv mode_ok d0 d (mode_run_op io random) H0 Hrun) as [_ Hs]. fold f in Hs.
  destruct Hs as [->| ->]; [|done]. unfold service_for.
  destruct (case_of (f_partner_state f) _); [done|]. split_and!; try done;
    repeat (match goal with |- context [?x =? ?y] => destruct (Z.eqb_spec x y) end; try done).
Qed.

(** C3: every lease of a pool is on the list of the pool its state asks for, and on no other, whatever happens to the running server:
    the pointers of each list lead through its leases to the end, each lease is on the list of its pool and state exactly, and the pool's
    counts of free and backup leases are the lengths of these lists. *)
Theorem leases_stay_filed d0 d :
  ok4 d0 -> rtc (step_srv io random) d0 d ->
  exists Q : id -> queue -> list id,
  (forall q p w, pools d !! q = Some p -> seg (nx d) (p_heads p w) (Q q w) None /\ NoDup (Q q w)) /\
  (forall x s q w, leases d !! x = Some s -> x ∈ Q q w <-> l_pool s = Some q /\ queue_of s = Some w) /\
  (forall q p, pools d !! q = Some p ->
     p_free_leases p = Z.of_nat (length (Q q Free)) /\ p_backup_leases p = Z.of_nat (length (Q q Backup))).
Proof.
  intros H0 Hrun. destruct (reach_inv ok4 d0 d (ok4_run_op io random) H0 Hrun) as [(Q & on & HL & Hon) _].
  exists Q. split_and!.
  - intros q p w Hp. pose proof (ls_seg _ _ _ HL q p w Hp) as Hs. split; [done | by eapply seg_NoDup].
  - intros x s q w Hs. rewrite (ls_on _ _ _ HL), (Hon x s Hs). unfold place. destruct (l_pool s), (queue_of s); simpl; naive_solver.
  - apply (ls_count _ _ _ HL).
Qed.

(** C27: the updates for the partner stay in two queues, whatever happens to the running server: the leases flagged as
    waiting to be sent and those waiting for an acknowledgement are the two chains between head and tail, no lease is on both,
    and the count of unacknowledged updates is the length of the second. *)
Theorem updates_stay_queued d0 d :
  ok4 d0 -> rtc (step_srv io random) d0 d ->
  exists U A, seg (np d) (q_head (f_update_queue (peer d))) U None /\ q_tail (f_update_queue (peer d)) = last U /\
  seg (np d) (q_head (f_ack_queue (peer d))) A None /\ q_tail (f_ack_queue (peer d)) = last A /\
  f_cur_unacked_updates (peer d) = Z.of_nat (length A) /\ (forall x, x ∈ U -> x ∉ A) /\
  forall x s, leases d !! x = Some s -> flag s ON_UPDATE_QUEUE = bool_decide (x ∈ U) /\ flag s ON_ACK_QUEUE = bool_decide (x ∈ A).
Proof.
  intros H0 Hrun. destruct (reach_inv ok4 d0 d (ok4_run_op io random) H0 Hrun) as [_ (U & A & Hd)].
  exists U, A. pose proof (pd_peer _ _ _ Hd) as Hp. unfold fview in Hp. injection Hp as -> -> ->. split_and!; try apply Hd; try done.
  intros x s Hs. by destruct (pending_flags _ _ _ _ _ Hd Hs) as (? & ? & _).
Qed.

(** C20: the timer of a pool ends, although the walk over a list of leases calls [supersede_lease] and that calls the timer again: each call
    takes a lease one state further, and there are at most three states to come for each lease. *)
Theorem pool_timer_returns cur_time fuel q d :
  ok4 d -> is_Some (pools d !! q) -> (3 * size (leases d) * (size (leases d) + 3) + size (leases d) + 2 <= fuel)%nat ->
  exists d', pool_timer io random cur_time fuel q d = Some (tt, d') /\ ok4 d' /\ (to_come d' <= to_come d)%nat.
Proof.
  intros Hd Hq Hn. pose proof (to_come_bound d) as Hb. destruct (timers_end io random cur_time (size (leases d)) fuel) as (_ & Ht & _).
  destruct (Ht d q) as (d' & E & Hle); [by split | done | nia |]. exists d'. split_and!; [done | by eapply ok4_pool_timer | done].
Qed.

(** Balancing a pool leaves a server its share: a round gives leases to the partner one by one, and never goes below the number of
    leases the server may hold more than its partner, [max-lease-ownership] percent. *)
Theorem balance_keeps_share cur_time fuel n q lq st hold pass lp lts k d lts' k' d' :
  0 <= hold -> balance_walk io random cur_time fuel n q lq st hold pass lp lts k d = Some (lts', k', d') ->
  k <= k' /\ lts' = lts - (k' - k) /\ (k' = k \/ - hold <= lts').
Proof.
  intros Hh. revert pass lp lts k d. induction n as [|n IH]; intros pass lp lts k d H; cbn [balance_walk] in H; [done|].
  destruct lp as [x|]; [|injection H as <- <- _; lia]. step4 H. cbv zeta in H.
  match type of H with (if ?b then _ else _) _ = _ => destruct b eqn:Hb end; [injection H as <- <- _; lia|].
  assert (- hold < lts) as Hlts by (destruct pass; [destruct (negb _)|]; apply Z.leb_gt in Hb; lia).
  apply bind4_inv in H as (gives & d1 & _ & H). apply bind4_inv in H as (u & d2 & _ & H).
  assert (forall pass lp d, balance_walk io random cur_time fuel n q lq st hold pass lp (if gives then lts - 1 else lts) (if gives then k + 1 else k) d = Some (lts', k', d') ->
    k <= k' /\ lts' = lts - (k' - k) /\ (k' = k \/ - hold <= lts')) as Hrec by (intros ? ? ? E; apply IH in E; destruct gives; lia).
  destruct (l_next a); [by eapply Hrec|]. destruct pass; [injection H as <- <- _; destruct gives; lia|]. step4 H. by eapply Hrec.
Qed.

(** The flags of a lease that is superseded: those of the sample, but for the ones of the queues. *)
Lemma reserved_copied a b : negb (Z.land (Z.lor (Z.ldiff a PERSISTENT_FLAGS) (Z.ldiff b EPHEMERAL_FLAGS)) RESERVED_LEASE =? 0) = negb (Z.land a RESERVED_LEASE =? 0).
Proof.
  f_equal. f_equal. apply Z.bits_inj'. intros n Hn. rewrite !Z.land_spec, Z.lor_spec, !Z.ldiff_spec. destruct (decide (n = 2)) as [->|H2].
  - change (Z.testbit PERSISTENT_FLAGS 2) with false. change (Z.testbit EPHEMERAL_FLAGS 2) with true. by rewrite !andb_true_r, andb_false_r, orb_false_r.
  - change RESERVED_LEASE with (2 ^ 2). rewrite Z.pow2_bits_false by lia. by rewrite !andb_false_r.
Qed.

Definition kept (s : lease) : Z * option id := (l_binding_state s, l_pool s).

Lemma copy_data_flag x t d u d' s : copy_data x t d = Some (u, d') -> leases d !! x = Some s ->
  exists s', leases d' !! x = Some s' /\ l_binding_state s' = l_binding_state s /\ l_pool s' = l_pool s /\ flag s' RESERVED_LEASE = flag t RESERVED_LEASE.
Proof.
  intros H Hs. assert (Keeps (same_of kept) (copy_data x t)) as K.
  { assert (forall t v s, kept (set_n t v s) = kept s) as Hk by (by intros []). pose proof (of_table_add kept Hk). pose proof (of_table_delete kept Hk). unfold copy_data. keeps. }
  destruct (same_of_some _ _ _ _ _ (K _ _ _ H) Hs) as (s' & Hs' & E). injection E as E1 E2. exists s'. split_and!; try done.
  unfold copy_data in H. rewrite (bind4_eq _ _ _ _ _ (lease_at_eq _ _ _ Hs)) in H.
  apply bind4_inv in H as (u1 & d1 & _ & H). apply bind4_inv in H as (u2 & d2 & _ & H). do 4 step4 H. revert H.
  match goal with |- ?m ?d3 = _ -> _ => assert (Keeps (same_of (fun s => flag s RESERVED_LEASE)) m) as K2; [|set (dd := d3)] end.
  { set (g := fun s => flag s RESERVED_LEASE). assert (forall t v s, g (set_n t v s) = g s) as Hk by (by intros []). pose proof (of_table_add g Hk). keeps. }
  intros H. destruct (same_of_back _ _ _ _ _ (K2 _ _ _ H) Hs') as (sx & Hsx & ->). unfold dd in Hsx. rewrite lookup_upd_lease, decide_True in Hsx by done.
  injection Hsx as <-. apply reserved_copied.
Qed.

(** A lease that is free or backup cannot change whether it is reserved: [supersede_lease] puts the flags of the sample into the lease before it
    looks for the lease, so it looks on the wrong list, does not find it, and the server ends, for every sample whose RESERVED flag differs, such
    as the one an update from the partner with other flags gives. *)
Theorem reserved_change_fatal cur_time fuel d x s q t commit propogate pimmediate :
  files_ok d -> leases d !! x = Some s -> l_pool s = Some q -> case_of (l_binding_state s) [FTS_FREE; FTS_BACKUP] = true ->
  flag t STATIC_LEASE = false -> flag t RESERVED_LEASE = negb (flag s RESERVED_LEASE) -> pimmediate && negb commit = false ->
  supersede_lease io random cur_time fuel x (Some t) commit propogate pimmediate d = None.
Proof.
  intros Hd Hs Hq Hb Ht Hr Hpc. destruct (supersede_lease _ _ _ _ _ _ _ _ _ d) as [[b d']|] eqn:H; [|done]. exfalso.
  destruct fuel as [|n]; [done|]. cbn [supersede_lease pool_timer timer_walk] in H. rewrite Hpc, Ht in H. apply bind4_inv in H as (u & d1 & H1 & H).
  destruct (copy_data_flag _ _ _ _ _ _ H1 Hs) as (s1 & Hs1 & Eb & Ep & Ef). apply bind4_inv in H as (u2 & d2 & H2 & H).
  destruct Hd as (Q & on & HL & Hon). assert (same_lists d d2) as Hsl.
  { transitivity d1; [by apply (kb_copy_data _ _ _ _ _ H1)|]. revert H2. assert (Keeps same_lists (when4 propogate (set_lease4 x (set_l_atsfp 0)))) as K by keeps. apply K. }
  apply (lists_same d d2) in HL; [|done]. step4 H.
  assert (l_binding_state a = l_binding_state s /\ l_pool a = Some q /\ flag a RESERVED_LEASE = negb (flag s RESERVED_LEASE)) as (Ea1 & Ea2 & Ea3).
  { destruct propogate; cbn [when4] in H2; [|injection H2 as _ <-; rewrite Hs1 in Hm; injection Hm as <-; by rewrite Eb, Ep, Ef].
    apply set_lease4_inv in H2 as (s1' & E & ->). rewrite Hs1 in E. injection E as <-. rewrite lookup_upd_lease, decide_True in Hm by done. injection Hm as <-.
    simpl. split_and!; [done | by rewrite Ep | exact (eq_trans Ef Hr)]. }
  rewrite Ea2 in H. assert (exists w, queue_of a = Some w /\ queue_of s <> Some w) as (w & Hw & Hne).
  { unfold queue_of. rewrite Ea1, Ea3. unfold case_of in Hb. simpl in Hb. rewrite orb_false_r in Hb. apply orb_prop in Hb as [->%Z.eqb_eq| ->%Z.eqb_eq]; simpl;
      destruct (flag s RESERVED_LEASE); eexists; done. }
  rewrite Hw in H. unfold move_lease in H. apply bind4_inv in H as (ok & d3 & H & _). apply bind4_inv in H as (u3 & d4 & H3 & H). apply bind4_inv in H as (u4 & d5 & H4 & _).
  assert (on x = Some (q, w)) as Hx by (eapply (unfile_inv d2 Q on q w x u4 d5 HL); unfold unfile; rewrite (bind4_eq _ _ _ _ _ H3); exact H4).
  rewrite (Hon x s Hs) in Hx. unfold place in Hx. rewrite Hq in Hx. simpl in Hx. destruct (queue_of s); [|done]. simpl in Hx. by injection Hx as ->.
Qed.

End Claims.

(** ** Examples *)

(** Two leases that are over at 100, on the list of active leases of one pool; this server is the primary, in the state normal,
    with a link to the partner. *)
Definition ex_lease (next : option id) : lease :=
  mkLease 0 100 100 0 100 0 0 0 FTS_ACTIVE FTS_EXPIRED FTS_ACTIVE FTS_FREE 0 None [] false (Some 1%positive) next None None None.
Definition ex_peer : failover :=
  mkFailover primary normal 0 60 normal 10 60 normal 3600 None 15 10 3600 60 0 0 0 cooperating (Some 1) (mkEnds None None) (mkEnds None None)
    None 0 [] 0 0 0.
Definition ex_pool : pool := mkPool true (fun w => if decide (w = Active) then Some 1%positive else None) 100 2 0 0.
Definition ex_srv : srv :=
  mkSrv (<[1%positive := ex_lease (Some 2%positive)]> (<[2%positive := ex_lease None]> ∅)) (<[1%positive := ex_pool]> ∅) [1%positive] ex_peer
    (<[1 := 1%positive]> (<[2 := 2%positive]> ∅)) ∅ ∅ false false None None 0 [].
Definition ex_io : nat -> bool := fun _ => true.
Definition ex_random : nat -> Z := fun _ => 0.

(** A server with one lease that is free or backup, and a relationship. *)
Definition ex_one (f : failover) (state : Z) (w : queue) : srv :=
  mkSrv (<[1%positive := set_l_binding_state state (set_l_next_binding_state state (ex_lease None))]> ∅)
    (<[1%positive := mkPool true (fun w' => if decide (w' = w) then Some 1%positive else None) 0 1
        (if decide (w = Free) then 1 else 0) (if decide (w = Backup) then 1 else 0)]> ∅) [1%positive] f
    (<[1 := 1%positive]> ∅) ∅ ∅ false false None None 0 [].

Lemma ex_pending (d : srv) : fview (peer d) = (mkEnds None None, mkEnds None None, 0) ->
  (forall x s, leases d !! x = Some s -> qview s = (None, false, false)) -> pending d [] [].
Proof.
  intros Hp Hl. split; simpl; try done.
  - intros x []%not_elem_of_nil.
  - intros x b. unfold fl. destruct (leases d !! x) as [s|] eqn:E; cbn; [|intros H; discriminate H]. intros [= <-]. specialize (Hl _ _ E). unfold qview in Hl. by injection Hl.
  - intros x b. unfold fl. destruct (leases d !! x) as [s|] eqn:E; cbn; [|intros H; discriminate H]. intros [= <-]. specialize (Hl _ _ E). unfold qview in Hl. by injection Hl.
  - intros x t _ _. unfold np. destruct (leases d !! x) as [s|] eqn:E; cbn; [|intros H; discriminate H]. intros [= <-]. specialize (Hl _ _ E). unfold qview in Hl. by injection Hl.
Qed.

(** All leases of the only pool are on one list. *)
Lemma ex_files (d : srv) w L p : pools d = <[1%positive := p]> ∅ -> ss_qfollow d = false -> (forall x, x ∈ L <-> is_Some (leases d !! x)) ->
  (forall x s, leases d !! x = Some s -> l_pool s = Some 1%positive /\ queue_of s = Some w) ->
  seg (nx d) (p_heads p w) L None -> (forall w', w' <> w -> p_heads p w' = None) ->
  p_free_leases p = (if decide (w = Free) then Z.of_nat (length L) else 0) -> p_backup_leases p = (if decide (w = Backup) then Z.of_nat (length L) else 0) -> files_ok d.
Proof.
  intros Hp Hqf Hin Hs Hseg Hw Hf Hb.
  exists (fun q w' => if decide (q = 1%positive /\ w' = w) then L else []), (fun x => match leases d !! x with Some _ => Some (1%positive, w) | None => None end).
  split; [|intros x s E; rewrite E; destruct (Hs x s E) as [H1 H2]; unfold place; by rewrite H1; simpl; rewrite H2].
  split.
  - intros q p' w' E. rewrite Hp in E. apply lookup_insert_Some in E as [[<- <-]|[_ E]]; [|by rewrite lookup_empty in E].
    destruct (decide (1%positive = 1%positive /\ w' = w)) as [[_ ->]|Hn]; [done|]. simpl. apply Hw. naive_solver.
  - intros q w' E. rewrite decide_False; [done|]. intros [-> _]. by rewrite Hp, lookup_insert_eq in E.
  - intros x q w'. specialize (Hin x). destruct (decide (q = 1%positive /\ w' = w)) as [[-> ->]|Hd].
    + rewrite Hin. split; [by intros [y ->]|]. destruct (leases d !! x); [by eexists | intros Hy; discriminate Hy].
    + split; [by intros ?%not_elem_of_nil|]. destruct (leases d !! x); [intros [= <- <-]; by destruct Hd | intros Hy; discriminate Hy].
  - intros x s E. by rewrite E.
  - intros x s q E Eq. destruct (Hs x s E) as [H1 _]. rewrite Eq in H1. injection H1 as ->. rewrite Hp, lookup_insert_eq. by eexists.
  - intros q p' E. rewrite Hp in E. apply lookup_insert_Some in E as [[<- <-]|[_ E]]; [|by rewrite lookup_empty in E].
    rewrite Hf, Hb. split; repeat case_decide; naive_solver.
  - done.
Qed.

Lemma ex_srv_ok : ok4 ex_srv.
Proof.
  assert (forall x s, leases ex_srv !! x = Some s -> x = 1%positive /\ s = ex_lease (Some 2%positive) \/ x = 2%positive /\ s = ex_lease None) as Hl.
  { intros x s E. simpl in E. apply lookup_insert_Some in E as [[<- <-]|[_ E]]; [by left|]. apply lookup_insert_Some in E as [[<- <-]|[_ E]]; [by right | by rewrite lookup_empty in E]. }
  split.
  - apply (ex_files _ Active [1%positive; 2%positive] ex_pool); try done.
    + intros x. split; [|intros [s [[-> _]|[-> _]]%Hl]; set_solver]. intros [-> | [-> | []%not_elem_of_nil]%elem_of_cons]%elem_of_cons; by eexists.
    + by intros x s [[-> ->]|[-> ->]]%Hl.
    + simpl. split; [done|]. eexists. split; [done|]. split; [done|]. by eexists.
    + intros w' Hw. simpl. by rewrite decide_False.
  - exists [], []. apply ex_pending; [done|]. by intros x s [[-> ->]|[-> ->]]%Hl.
Qed.

Lemma ex_one_ok f state w : fview f = (mkEnds None None, mkEnds None None, 0) ->
  queue_of (set_l_binding_state state (ex_lease None)) = Some w -> ok4 (ex_one f state w).
Proof.
  intros Hf Hw. assert (forall x s, leases (ex_one f state w) !! x = Some s -> x = 1%positive /\ s = set_l_binding_state state (set_l_next_binding_state state (ex_lease None))) as Hl.
  { intros x s E. simpl in E. apply lookup_insert_Some in E as [[<- <-]|[_ E]]; [done | by rewrite lookup_empty in E]. }
  split.
  - eapply (ex_files _ w [1%positive]); try done.
    + intros x. split; [|intros [s [-> _]%Hl]; set_solver]. intros [-> | []%not_elem_of_nil]%elem_of_cons; by eexists.
    + by intros x s [-> ->]%Hl.
    + simpl. rewrite decide_True by done. split; [done|]. by eexists.
    + intros w' Hw'. simpl. by rewrite decide_False.
  - exists [], []. apply ex_pending; [done|]. by intros x s [-> ->]%Hl.
Qed.

Lemma ex_mode_ok f : case_of (f_me_state f) state_names = true -> case_of (f_saved_state f) state_names = true ->
  f_service_state f = service_for (f_me_state f) (f_partner_state f) -> forall state w, mode_ok (ex_one f state w).
Proof. intros. by split; [|left]. Qed.

(** The timer of the pool runs at 200. *)
Definition ex_run : srv := default ex_srv (snd <$> run_op ex_io ex_random 200 50 (Timer (T_pool_timer 1%positive)) ex_srv).

Lemma ex_reach : rtc (step_srv ex_io ex_random) ex_srv ex_run.
Proof. apply rtc_once. exists 200, 50%nat, (Timer (T_pool_timer 1%positive)). vm_compute. reflexivity. Qed.

Lemma failover_queues_refine_witness :
  exists d', run_q ex_io 200 (QueueUpdate 1%positive true) ex_srv = Some (tt, d') /\ pending d' [] [1%positive] /\ updates_in (events d') = [1%positive].
Proof.
  destruct ex_srv_ok as [_ _]. apply (failover_queues_refine ex_io 200 ex_srv [] [] (QueueUpdate 1%positive true)); [|by do 3 eexists|done].
  apply ex_pending; [done|]. intros x s E. simpl in E. apply lookup_insert_Some in E as [[<- <-]|[_ E]]; [done|].
  apply lookup_insert_Some in E as [[<- <-]|[_ E]]; [done | by rewrite lookup_empty in E].
Defined.

(** A recovering server. *)
Definition ex_recover : failover := set_f_me_state recover (set_f_service_state not_responding ex_peer).

Lemma recover_waits_witness :
  exists d', dhcp_failover_process_update_done ex_io ex_random 200 10 (ex_one ex_recover FTS_FREE Free) = Some (tt, d') /\
  case_of (f_me_state (peer d')) [recover; recover_wait] = true /\ f_service_state (peer d') = not_responding.
Proof.
  destruct (recover_waits ex_io ex_random 200 10 (ex_one ex_recover FTS_FREE Free)) as (d' & E & H1 & H2 & _); [by apply ex_mode_ok | done | done | done |].
  by exists d'.
Defined.

Lemma set_state_recorded_witness : exists d',
  dhcp_failover_set_state ex_io ex_random 200 50 communications_interrupted ex_srv = Some (R_SUCCESS, d') /\
  f_me_state (peer d') = communications_interrupted /\ f_service_state (peer d') = not_cooperating.
Proof.
  eexists. split; [vm_compute; reflexivity|].
  edestruct (set_state_recorded ex_io ex_random 200 50 ex_srv communications_interrupted R_SUCCESS) as (_ & _ & H1 & H2); [done | done | vm_compute; reflexivity |].
  by rewrite H1, H2.
Defined.

Lemma failover_state_valid_witness : case_of (f_me_state (peer ex_run)) state_names = true /\ case_of (f_saved_state (peer ex_run)) state_names = true.
Proof. apply (failover_state_valid ex_io ex_random ex_srv); [by split; [|left] | apply ex_reach]. Defined.

Lemma service_safe_witness : f_service_state (peer ex_run) = cooperating /\ f_me_state (peer ex_run) = normal.
Proof.
  split; [by vm_compute|]. destruct (service_safe ex_io ex_random ex_srv ex_run) as [H _]; [by split; [|left] | apply ex_reach |]. apply H. by vm_compute.
Defined.

Lemma leases_stay_filed_witness : exists Q : id -> queue -> list id,
  (forall q p, pools ex_run !! q = Some p -> p_free_leases p = Z.of_nat (length (Q q Free))) /\ 1%positive ∈ Q 1%positive Free.
Proof.
  destruct (leases_stay_filed ex_io ex_random ex_srv ex_run ex_srv_ok ex_reach) as (Q & _ & H2 & H3). exists Q. split; [intros q p Hp; by apply (H3 q p Hp)|].
  destruct (leases ex_run !! 1%positive) as [s|] eqn:E; [|by vm_compute in E]. apply (H2 _ s _ _ E). vm_compute in E. injection E as <-. done.
Defined.

Lemma updates_stay_queued_witness : exists U A : list id, f_cur_unacked_updates (peer ex_run) = Z.of_nat (length A) /\ forall x, x ∈ U -> x ∉ A.
Proof. destruct (updates_stay_queued ex_io ex_random ex_srv ex_run ex_srv_ok ex_reach) as (U & A & _ & _ & _ & _ & H1 & H2 & _). exact (ex_intro _ U (ex_intro _ A (conj H1 H2))). Defined.

Lemma pool_timer_returns_witness : exists d', pool_timer ex_io ex_random 200 34 1%positive ex_srv = Some (tt, d') /\ ok4 d'.
Proof.
  assert (3 * size (leases ex_srv) * (size (leases ex_srv) + 3) + size (leases ex_srv) + 2 <= 34)%nat as Hn by (apply Nat.leb_le; vm_compute; reflexivity).
  destruct (pool_timer_returns ex_io ex_random 200 34 1%positive ex_srv ex_srv_ok (mk_is_Some _ _ eq_refl) Hn) as (d' & E & H & _). exact (ex_intro _ d' (conj E H)).
Defined.

Lemma balance_keeps_share_witness : exists d',
  balance_walk ex_io ex_random 200 50 4 1%positive Free FTS_BACKUP 0 true (Some 1%positive) 1 0 (ex_one ex_peer FTS_FREE Free) = Some (0, 1, d') /\ 0 = 1 - (1 - 0).
Proof.
  eexists. split; [vm_compute; reflexivity|].
  refine (proj1 (proj2 (balance_keeps_share ex_io ex_random 200 50 4 1%positive Free FTS_BACKUP 0 true (Some 1%positive) 1 0 (ex_one ex_peer FTS_FREE Free) 0 1 _ _ _)));
    [done | vm_compute; reflexivity].
Defined.

(** The update of a partner that has reserved one of its backup leases. *)
Definition ex_reserve : message :=
  mkMessage FTM_BNDUPD (Z.lor (Z.lor FTB_ASSIGNED_IP_ADDRESS FTB_BINDING_STATUS) FTB_IP_FLAGS) 0 7 1 FTS_BACKUP 0 0 0 0 FTF_IP_FLAG_RESERVE [] [] 0 0 0 0 0 false.

Lemma reserved_change_fatal_witness :
  supersede_lease ex_io ex_random 200 50 1%positive (Some (set_flag RESERVED_LEASE (lease_copy (set_l_binding_state FTS_BACKUP (ex_lease None))))) false false false
    (ex_one ex_peer FTS_BACKUP Backup) = None /\
  dhcp_failover_process_bind_update ex_io ex_random 200 50 ex_reserve (ex_one ex_peer FTS_BACKUP Backup) = None.
Proof. split; [eapply (reserved_change_fatal _ _ _ _ _ 1%positive); [by apply ex_one_ok | done..] | vm_compute; reflexivity]. Defined.

(** The timer of a pool makes leases free that the partner has not been told about: although "leases in an expired state don't move to free because of
    a timeout unless we're in partner_down", the first of two active leases that are over is made expired and starts the timer again, which expires the second;
    the walk goes on with the second lease, which it had remembered as the next one and which is on the list of expired leases now, and with
    what follows there, and makes both free.  No acknowledgement has come, and the server is in the state normal. *)
Theorem timer_frees_unacknowledged :
  l_binding_state <$> leases ex_run !! 1%positive = Some FTS_FREE /\ l_binding_state <$> leases ex_run !! 2%positive = Some FTS_FREE /\
  f_me_state (peer ex_run) = normal /\ run_op ex_io ex_random 200 50 (Timer (T_pool_timer 1%positive)) ex_srv = Some (tt, ex_run).
Proof. vm_compute. split_and!; reflexivity. Qed.
