(* ===== verification/V4Wire.v ===== *)
(** * Failover: the wire format

    The messages between the two servers as bytes: the tables of server/stables.c, and of
    server/failover.c the writing of options and messages, the options of each message, the reading
    of options and messages, and the state of a connection between messages.

    The connection is an object of a library that is not in the repository: the class [Connection] has what is
    called of it, [ConnectionLaws] what is relied on.  Allocation succeeds.

    A member of [struct failover_message] is named by the code of its option (the table gives each option
    the offset of its own member); its contents are a list: of bytes, or of the numbers of
    an option with a fixed count. *)

From S2P Require Import Prelude BindingStates FailoverLeases V4State.

#[local] Open Scope Z_scope.

(** ** Tables *)

Inductive ft_type :=
| FT_UINT8 | FT_IPADDR | FT_UINT32 | FT_BYTES | FT_TEXT_OR_BYTES | FT_DDNS | FT_DDNS1 | FT_UINT16 | FT_TEXT | FT_UNDEF | FT_DIGEST.

#[export] Instance ft_type_eq_dec : EqDecision ft_type.
Proof. solve_decision. Defined.

Definition ft_sizes (t : ft_type) : Z :=
  match t with
  | FT_UINT8 => 1 | FT_IPADDR => 4 | FT_UINT32 => 4 | FT_BYTES => 1 | FT_TEXT_OR_BYTES => 1 | FT_DDNS => 0 | FT_DDNS1 => 0 | FT_UINT16 => 2
  | FT_TEXT => 1 | FT_UNDEF => 0 | FT_DIGEST => 0
  end.

Definition FTB_ADDRESSES_TRANSFERRED : Z := 2.
Definition FTB_REPLY_OPTIONS : Z := 128.
Definition FTB_REQUEST_OPTIONS : Z := 256.
Definition FTB_DDNS : Z := 512.
Definition FTB_DELAYED_SERVICE : Z := 1024.
Definition FTB_HBA : Z := 2048.
Definition FTB_MESSAGE : Z := 65536.
Definition FTB_MESSAGE_DIGEST : Z := 131072.
Definition FTB_PROTOCOL_VERSION : Z := 1048576.
Definition FTB_SERVER_FLAGS : Z := 8388608.
Definition FTB_SERVER_STATE : Z := 16777216.
Definition FTB_TLS_REPLY : Z := 67108864.
Definition FTB_TLS_REQUEST : Z := 134217728.
Definition FTB_VENDOR_CLASS : Z := 268435456.
Definition FTB_VENDOR_OPTIONS : Z := 536870912.

(** [struct failover_option_info], without the name. *)
Record option_info := mkInfo { oi_type : ft_type; oi_num_present : Z; oi_bit : Z }.

Definition ft_options : list option_info :=
  [mkInfo FT_UNDEF 0 0; mkInfo FT_UINT32 1 FTB_ADDRESSES_TRANSFERRED; mkInfo FT_IPADDR 1 FTB_ASSIGNED_IP_ADDRESS;
   mkInfo FT_UINT8 1 FTB_BINDING_STATUS; mkInfo FT_BYTES 0 FTB_CLIENT_IDENTIFIER; mkInfo FT_BYTES 0 FTB_CHADDR;
   mkInfo FT_UINT32 1 FTB_CLTT; mkInfo FT_BYTES 0 FTB_REPLY_OPTIONS; mkInfo FT_BYTES 0 FTB_REQUEST_OPTIONS;
   mkInfo FT_DDNS 1 FTB_DDNS; mkInfo FT_UINT8 1 FTB_DELAYED_SERVICE; mkInfo FT_BYTES 0 FTB_HBA; mkInfo FT_UINT16 1 FTB_IP_FLAGS;
   mkInfo FT_UINT32 1 FTB_LEASE_EXPIRY; mkInfo FT_UINT32 1 FTB_MAX_UNACKED; mkInfo FT_UINT32 1 FTB_MCLT; mkInfo FT_TEXT 0 FTB_MESSAGE;
   mkInfo FT_BYTES 0 FTB_MESSAGE_DIGEST; mkInfo FT_UINT32 1 FTB_POTENTIAL_EXPIRY; mkInfo FT_UINT32 1 FTB_RECEIVE_TIMER;
   mkInfo FT_UINT8 1 FTB_PROTOCOL_VERSION; mkInfo FT_UINT8 1 FTB_REJECT_REASON; mkInfo FT_BYTES 0 FTB_RELATIONSHIP_NAME;
   mkInfo FT_UINT8 1 FTB_SERVER_FLAGS; mkInfo FT_UINT8 1 FTB_SERVER_STATE; mkInfo FT_UINT32 1 FTB_STOS; mkInfo FT_UINT8 1 FTB_TLS_REPLY;
   mkInfo FT_UINT8 1 FTB_TLS_REQUEST; mkInfo FT_BYTES 0 FTB_VENDOR_CLASS; mkInfo FT_BYTES 0 FTB_VENDOR_OPTIONS].

(** [|] over a list *)
Definition any_of (l : list Z) : Z := foldr Z.lor 0 l.

Definition BNDUPD_options : list Z :=
  [FTB_ASSIGNED_IP_ADDRESS; FTB_BINDING_STATUS; FTB_CLIENT_IDENTIFIER; FTB_CHADDR; FTB_DDNS; FTB_IP_FLAGS; FTB_LEASE_EXPIRY;
   FTB_POTENTIAL_EXPIRY; FTB_STOS; FTB_CLTT; FTB_REQUEST_OPTIONS; FTB_REPLY_OPTIONS].

Definition fto_allowed : list Z :=
  [0; 0; FTB_ADDRESSES_TRANSFERRED; any_of BNDUPD_options; any_of (BNDUPD_options ++ [FTB_REJECT_REASON; FTB_MESSAGE]);
   any_of [FTB_RELATIONSHIP_NAME; FTB_MAX_UNACKED; FTB_RECEIVE_TIMER; FTB_VENDOR_CLASS; FTB_PROTOCOL_VERSION; FTB_TLS_REQUEST; FTB_MCLT; FTB_HBA];
   any_of [FTB_RELATIONSHIP_NAME; FTB_MAX_UNACKED; FTB_RECEIVE_TIMER; FTB_VENDOR_CLASS; FTB_PROTOCOL_VERSION; FTB_TLS_REPLY;
           FTB_REJECT_REASON; FTB_MESSAGE];
   0; 0; 0; any_of [FTB_SERVER_STATE; FTB_SERVER_FLAGS; FTB_STOS]; 0; any_of [FTB_REJECT_REASON; FTB_MESSAGE]].

(** [t[i]] of a table; [None] behind its end. *)
Definition entry {A} (t : list A) (i : Z) : option A := t !! Z.to_nat i.

Definition DHCP_FAILOVER_MIN_MESSAGE_SIZE : Z := 12.
Definition DHCP_FAILOVER_MAX_MESSAGE_SIZE : Z := 2048.
Definition FTR_HBA_CONFLICT : Z := 18.

(** ** The connection *)

(** Network byte order. *)
Definition net_bytes (n : nat) (v : Z) : list Z := reverse (le_bytes n v).
Definition net_val (l : list Z) : Z := le_val (reverse l).

Class Connection (C : Type) := {
  omapi_connection_copyout : nat -> C -> option (list Z * C);
  omapi_connection_get_uint16 : C -> option (Z * C);
  omapi_connection_get_uint32 : C -> option (Z * C);
  omapi_connection_require : nat -> C -> bool;
  omapi_connection_copyin : list Z -> C -> C;
  omapi_connection_put_uint16 : Z -> C -> C;
  omapi_connection_put_uint32 : Z -> C -> C;
  (** Bytes arrive from the network. *)
  conn_arrive : list Z -> C -> C;
  (** The bytes that have arrived and were not read, and those that were written. *)
  conn_in : C -> list Z;
  conn_out : C -> list Z
}.

(** The buffers are queues of bytes; reading what is not there fails and leaves them alone. *)
Class ConnectionLaws (C : Type) `{Connection C} : Prop := {
  copyout_there n (c : C) : (n <= length (conn_in c))%nat ->
    exists c', omapi_connection_copyout n c = Some (take n (conn_in c), c') /\ conn_in c' = drop n (conn_in c) /\ conn_out c' = conn_out c;
  copyout_short n (c : C) : (length (conn_in c) < n)%nat -> omapi_connection_copyout n c = None;
  get16_copyout (c : C) : omapi_connection_get_uint16 c = match omapi_connection_copyout 2 c with Some (l, c') => Some (net_val l, c') | None => None end;
  get32_copyout (c : C) : omapi_connection_get_uint32 c = match omapi_connection_copyout 4 c with Some (l, c') => Some (net_val l, c') | None => None end;
  require_there n (c : C) : omapi_connection_require n c = bool_decide (n <= length (conn_in c))%nat;
  copyin_out l (c : C) : conn_out (omapi_connection_copyin l c) = conn_out c ++ l /\ conn_in (omapi_connection_copyin l c) = conn_in c;
  put16_copyin v (c : C) : omapi_connection_put_uint16 v c = omapi_connection_copyin (net_bytes 2 v) c;
  put32_copyin v (c : C) : omapi_connection_put_uint32 v c = omapi_connection_copyin (net_bytes 4 v) c;
  arrive_in l (c : C) : conn_in (conn_arrive l c) = conn_in c ++ l /\ conn_out (conn_arrive l c) = conn_out c
}.

(** ** Writing *)

(** What is handed to [dhcp_failover_make_option] behind the code. *)
Inductive oarg := AInts (vs : list Z) | ABytes (data : list Z) | AAddr (ilen : Z) (iaddr : list Z) | ADdns (codes data : list Z).

(** [null_failover_option], [skip_failover_option], or an option as bytes. *)
Inductive out_option := Null | Skip | Opt (data : list Z).

(** [count] elements of an argument list; there have to be as many. *)
Definition va_ints (count : Z) (vs : list Z) : option (list Z) := if count <=? Z.of_nat (length vs) then Some (take (Z.to_nat count) vs) else None.

(** The data of an option; [None] if the arguments do not fit the type, and [Some None] for an address that is not four bytes. *)
Definition option_data (info : option_info) (a : oarg) : option (option (list Z)) :=
  match oi_type info, a with
  | FT_UINT8, AInts vs => option_map (fun l => Some (map u8 l)) (va_ints (oi_num_present info) vs)
  | FT_UINT16, AInts vs => option_map (fun l => Some (flat_map (net_bytes 2) l)) (va_ints (oi_num_present info) vs)
  | FT_UINT32, AInts vs => option_map (fun l => Some (flat_map (net_bytes 4) l)) (va_ints (oi_num_present info) vs)
  | FT_IPADDR, AAddr ilen iaddr => if negb (ilen =? 4) then Some None else if (length iaddr =? 4)%nat then Some (Some iaddr) else None
  | (FT_BYTES | FT_DIGEST | FT_TEXT_OR_BYTES | FT_TEXT), ABytes data => Some (Some data)
  | FT_DDNS, ADdns [c] data => Some (Some (u8 c :: data))
  | FT_DDNS1, ADdns [c; c'] data => Some (Some (u8 c :: u8 c' :: data))
  | _, _ => None
  end.

Definition dhcp_failover_make_option (code : Z) (a : oarg) : option out_option :=
  match entry ft_options code with
  | None => Some Null
  | Some info =>
      if (code <? 1) || bool_decide (oi_type info = FT_UNDEF) then Some Null
      else
        data ← option_data info a;
        match data with
        | None => Some Null
        | Some data => Some (Opt (net_bytes 2 code ++ net_bytes 2 (Z.of_nat (length data)) ++ data))
        end
  end.

(** [failover_message_t] *)
Record imsg := mkImsg { i_type : Z; i_time : Z; i_xid : Z; i_options_present : Z; i_members : gmap Z (list Z) }.

(** [Undefined]: the code goes on with something that is not there (a number that was not read from the connection, an entry behind the
    end of a table, the quotient of a division by zero).  [ProtocolError]: DHCP_R_PROTOCOLERROR. *)
Inductive outcome (A : Type) := Undefined | ProtocolError | Done (a : A).
Arguments Undefined {A}.
Arguments ProtocolError {A}.
Arguments Done {A} a.

#[export] Instance outcome_ret : MRet outcome := fun A a => Done a.
#[export] Instance outcome_bind : MBind outcome := fun A B f m => match m with Undefined => Undefined | ProtocolError => ProtocolError | Done a => f a end.

(** The bytes an option adds to a message. *)
Definition option_bytes (o : out_option) : list Z := match o with Opt data => data | _ => [] end.

Section Wire.
Context {C : Type} `{Connection C}.

(** The bytes of [dhcp_failover_put_message]; [None] is DHCP_R_INVALIDARG. *)
Definition put_message (msg_type xid cur_time : Z) (options : list out_option) (c : C) : option C :=
  if existsb (fun o => match o with Null => true | _ => false end) options then None
  else
    let opbuf := flat_map option_bytes options in
    let c := omapi_connection_put_uint16 (Z.of_nat (length opbuf) + 12) c in
    let c := omapi_connection_copyin [u8 msg_type] c in
    let c := omapi_connection_copyin [12] c in
    let c := omapi_connection_put_uint32 cur_time c in
    let c := omapi_connection_put_uint32 xid c in
    Some (omapi_connection_copyin opbuf c).

(** ** Reading *)

(** A value that has to be there. *)
Definition got {A} (o : option A) : outcome A := match o with Some a => Done a | None => Undefined end.

(** [omapi_connection_copyout (0, c, n)]: nobody looks at the result. *)
Definition discard (n : Z) (c : C) : C := match omapi_connection_copyout (Z.to_nat n) c with Some (_, c') => c' | None => c end.

(** [for (i = 0; i < op_count; i++)]: values that require swapping. *)
Fixpoint read_swapped (n : nat) (t : ft_type) (c : C) : outcome (list Z * C) :=
  match n with
  | O => Done ([], c)
  | S n =>
      r ← match t with
          | FT_UINT32 => got (omapi_connection_get_uint32 c)
          | FT_UINT16 => got (omapi_connection_get_uint16 c)
          | _ => ProtocolError
          end;
      rest ← read_swapped n t (snd r); Done (fst r :: fst rest, snd rest)
  end.

(** The end of [do_a_failover_option]: [op_count] elements of [option_len] bytes go into the member of [code]. *)
Definition read_member (code option_len op_count : Z) (info : option_info) (count : Z) (m : imsg) (c : C) : outcome (Z * imsg * C) :=
  r ← (if (ft_sizes (oi_type info) =? 1) || bool_decide (oi_type info = FT_IPADDR) then got (omapi_connection_copyout (Z.to_nat option_len) c)
       else read_swapped (Z.to_nat op_count) (oi_type info) c);
  Done (count + (if (ft_sizes (oi_type info) =? 1) || bool_decide (oi_type info = FT_IPADDR) then option_len else op_count * ft_sizes (oi_type info)),
        mkImsg (i_type m) (i_time m) (i_xid m) (Z.lor (i_options_present m) (oi_bit info)) (<[code := fst r]> (i_members m)), snd r).

(** The special case of FT_DDNS1: the count leaves out the data behind the codes. *)
Definition read_ddns1 (code option_len : Z) (info : option_info) (count : Z) (m : imsg) (c : C) : outcome (Z * imsg * C) :=
  codes ← got (omapi_connection_copyout 1 c);
  data ← got (omapi_connection_copyout (Z.to_nat (u32 (option_len - 1))) (snd codes));
  Done (count + 1,
        mkImsg (i_type m) (i_time m) (i_xid m) (Z.lor (i_options_present m) (oi_bit info)) (<[code := fst codes ++ fst data]> (i_members m)), snd data).

(** The data of an option of [option_len] bytes, in a message of [imsg_len] bytes of which [count] were read. *)
Definition option_body (imsg_len count option_code option_len : Z) (m : imsg) (c : C) : outcome (Z * imsg * C) :=
  let skipped := Done (count + option_len, m, discard option_len c) in
  match entry ft_options option_code with
  | None => skipped
  | Some info =>
      if bool_decide (oi_type info = FT_UNDEF) then skipped
      else if bool_decide (oi_type info = FT_DIGEST) then (if negb (count + option_len =? imsg_len) then ProtocolError else skipped)
      else if negb (Z.land (i_options_present m) (oi_bit info) =? 0) then ProtocolError
      else
        allowed ← (if negb (oi_bit info =? 0) then got (entry fto_allowed (i_type m)) else Done 0);
        if negb (oi_bit info =? 0) && (Z.land allowed (oi_bit info) =? 0) then skipped
        else
          let op_size := ft_sizes (oi_type info) in
          if negb (oi_num_present info =? 0) then
            if negb (option_len =? op_size * oi_num_present info) then ProtocolError
            else read_member option_code option_len (oi_num_present info) info count m c
          else if bool_decide (oi_type info = FT_DDNS1) then read_ddns1 option_code option_len info count m c
          else if (1 <? op_size) && negb (option_len mod op_size =? 0) then ProtocolError
          else if op_size =? 0 then Undefined
          else read_member option_code option_len (option_len / op_size) info count m c
  end.

Definition do_a_failover_option (imsg_len count : Z) (m : imsg) (c : C) : outcome (Z * imsg * C) :=
  if imsg_len <? count + 2 then ProtocolError else
  r ← got (omapi_connection_get_uint16 c);
  let option_code := fst r in let c := snd r in let count := count + 2 in
  if imsg_len <? count + 2 then ProtocolError else
  r ← got (omapi_connection_get_uint16 c);
  let option_len := fst r in let c := snd r in let count := count + 2 in
  if imsg_len <? count + option_len then ProtocolError else option_body imsg_len count option_code option_len m c.

(** [while (link -> imsg_count < link -> imsg_len)] *)
Fixpoint read_options (n : nat) (imsg_len count : Z) (m : imsg) (c : C) : outcome (imsg * C) :=
  match n with
  | O => Undefined
  | S n =>
      if count <? imsg_len then r ← do_a_failover_option imsg_len count m c; read_options n imsg_len (fst (fst r)) (snd (fst r)) (snd r)
      else Done (m, c)
  end.

(** The case [dhcp_flink_message_wait], up to the options: every option takes at least four bytes. *)
Definition read_message (imsg_len : Z) (c : C) : outcome (imsg * C) :=
  ty ← got (omapi_connection_copyout 1 c);
  payoff ← got (omapi_connection_copyout 1 (snd ty));
  time ← got (omapi_connection_get_uint32 (snd payoff));
  xid ← got (omapi_connection_get_uint32 (snd time));
  let off := default 0 (head (fst payoff)) in
  let m := mkImsg (default 0 (head (fst ty))) (fst time) (fst xid) 0 ∅ in
  read_options (S (Z.to_nat imsg_len)) imsg_len off m (if negb (off - 12 =? 0) then discard (u32 (off - 12)) (snd xid) else snd xid).

End Wire.

(** ** The messages *)

Definition FTO_ADDRESSES_TRANSFERRED : Z := 1.
Definition FTO_ASSIGNED_IP_ADDRESS : Z := 2.
Definition FTO_BINDING_STATUS : Z := 3.
Definition FTO_CLIENT_IDENTIFIER : Z := 4.
Definition FTO_CHADDR : Z := 5.
Definition FTO_CLTT : Z := 6.
Definition FTO_HBA : Z := 11.
Definition FTO_IP_FLAGS : Z := 12.
Definition FTO_LEASE_EXPIRY : Z := 13.
Definition FTO_MAX_UNACKED : Z := 14.
Definition FTO_MCLT : Z := 15.
Definition FTO_MESSAGE : Z := 16.
Definition FTO_RECEIVE_TIMER : Z := 19.
Definition FTO_PROTOCOL_VERSION : Z := 20.
Definition FTO_REJECT_REASON : Z := 21.
Definition FTO_RELATIONSHIP_NAME : Z := 22.
Definition FTO_SERVER_FLAGS : Z := 23.
Definition FTO_SERVER_STATE : Z := 24.
Definition FTO_STOS : Z := 25.
Definition FTO_TLS_REPLY : Z := 26.
Definition FTO_TLS_REQUEST : Z := 27.
Definition FTO_VENDOR_CLASS : Z := 28.
Definition DHCP_FAILOVER_VERSION : Z := 1.

(** An option of a message: made from a code and arguments, or an option structure handed on as it is. *)
Inductive message_option := Make (code : Z) (a : oarg) | Raw (data : list Z).

Definition put_option (o : message_option) : option out_option :=
  match o with Make code a => dhcp_failover_make_option code a | Raw data => Some (Opt data) end.

(** [b ? option : &skip_failover_option] *)
Definition only_if (b : bool) (o : message_option) : list message_option := if b then [o] else [].

(** The options of each message, as the functions that send them list them. *)
Definition state_options (state flags stos : Z) : list message_option :=
  [Make FTO_SERVER_STATE (AInts [state]); Make FTO_SERVER_FLAGS (AInts [flags]); Make FTO_STOS (AInts [stos])].

Definition bndupd_options (ip_addr : list Z) (s : lease) (flags : Z) : list message_option :=
  [Make FTO_ASSIGNED_IP_ADDRESS (AAddr (Z.of_nat (length ip_addr)) ip_addr); Make FTO_BINDING_STATUS (AInts [l_desired_binding_state s])] ++
  only_if (negb (bool_decide (default [] (l_uid s) = []))) (Make FTO_CLIENT_IDENTIFIER (ABytes (default [] (l_uid s)))) ++
  only_if (negb (bool_decide (l_hbuf s = []))) (Make FTO_CHADDR (ABytes (l_hbuf s))) ++
  [Make FTO_LEASE_EXPIRY (AInts [l_ends s]); Make FTO_POTENTIAL_EXPIRY (AInts [l_tstp s]); Make FTO_STOS (AInts [l_starts s])] ++
  only_if (negb (l_cltt s =? 0)) (Make FTO_CLTT (AInts [l_cltt s])) ++
  only_if (negb (flags =? 0)) (Make FTO_IP_FLAGS (AInts [flags])).

(** The options that [DO_BNDACK_SHOULD_NOT] would add are not compiled: the macro is defined nowhere. *)
Definition bndack_options (msg : message) (reason : Z) (text : list Z) : list message_option :=
  [Make FTO_ASSIGNED_IP_ADDRESS (AAddr 4 (net_bytes 4 (m_assigned_addr msg)))] ++
  only_if (negb (reason =? 0)) (Make FTO_REJECT_REASON (AInts [reason])) ++
  only_if (negb (reason =? 0)) (Make FTO_MESSAGE (ABytes text)).

Definition connect_options (name : list Z) (max_flying_updates max_response_delay : Z) (vendor : list Z) (mclt : Z) (hba : option (list Z)) :
  list message_option :=
  [Make FTO_RELATIONSHIP_NAME (ABytes name); Make FTO_MAX_UNACKED (AInts [max_flying_updates]); Make FTO_RECEIVE_TIMER (AInts [max_response_delay]);
   Make FTO_VENDOR_CLASS (ABytes vendor); Make FTO_PROTOCOL_VERSION (AInts [DHCP_FAILOVER_VERSION]); Make FTO_TLS_REQUEST (AInts [0; 0]);
   Make FTO_MCLT (AInts [mclt])] ++
  match hba with Some h => [Make FTO_HBA (ABytes h)] | None => [] end.

(** [state]: the relationship, if there is one; else the name in the message that is answered, if it has one. *)
Definition connectack_options (state : option (list Z * Z * Z)) (msg_name : option (list Z)) (vendor : list Z) (tls : bool) (reason : Z) (errmsg : option (list Z)) :
  list message_option :=
  match state with
  | Some (name, _, _) => [Make FTO_RELATIONSHIP_NAME (ABytes name)]
  | None => match msg_name with Some name => [Raw name] | None => [] end
  end ++
  match state with
  | Some (_, max_flying_updates, max_response_delay) => [Make FTO_MAX_UNACKED (AInts [max_flying_updates]); Make FTO_RECEIVE_TIMER (AInts [max_response_delay])]
  | None => []
  end ++
  [Make FTO_VENDOR_CLASS (ABytes vendor); Make FTO_PROTOCOL_VERSION (AInts [DHCP_FAILOVER_VERSION])] ++
  only_if tls (Make FTO_TLS_REPLY (AInts [0; 0])) ++
  only_if (negb (reason =? 0)) (Make FTO_REJECT_REASON (AInts [reason])) ++
  match errmsg with Some text => only_if (negb (reason =? 0)) (Make FTO_MESSAGE (ABytes text)) | None => [] end.

Definition disconnect_options (reason : Z) (text : option (list Z)) : list message_option :=
  Make FTO_REJECT_REASON (AInts [reason]) :: match text with Some t => [Make FTO_MESSAGE (ABytes t)] | None => [] end.

Definition poolresp_options (leases : Z) : list message_option := [Make FTO_ADDRESSES_TRANSFERRED (AInts [leases])].

(** [dhcp_failover_put_message] on the options it is given. *)
Definition send_message {C} `{Connection C} (msg_type xid cur_time : Z) (options : list message_option) (c : C) : option C :=
  l ← mapM put_option options; put_message msg_type xid cur_time l c.

(** The message as its handlers read it; [name] is the relationship of the server. *)
Definition to_message (name : list Z) (m : imsg) : message :=
  let bytes code := default [] (i_members m !! code) in
  let num code := default 0 (head (bytes code)) in
  mkMessage (i_type m) (i_options_present m) (i_time m) (i_xid m) (net_val (bytes FTO_ASSIGNED_IP_ADDRESS)) (num FTO_BINDING_STATUS) (num FTO_CLTT)
    (num FTO_LEASE_EXPIRY) (num FTO_POTENTIAL_EXPIRY) (num FTO_STOS) (num FTO_IP_FLAGS) (bytes FTO_CHADDR) (bytes FTO_CLIENT_IDENTIFIER)
    (num FTO_SERVER_STATE) (num FTO_SERVER_FLAGS) (num FTO_MAX_UNACKED) (num FTO_RECEIVE_TIMER) (num FTO_MCLT)
    (bool_decide (bytes FTO_RELATIONSHIP_NAME = name)).

(** ** The link *)

Inductive flink_state := flink_start | flink_message_length_wait | flink_message_wait (imsg_len : Z) | flink_disconnected.

(** Of a failover relationship, [dhcp_failover_state_t], what a link looks at. *)
Record relation := mkRelation { r_name : list Z; r_max_flying_updates : Z; r_max_response_delay : Z; r_hba : option (list Z) }.

(** [dhcp_failover_link_t] with the list [failover_states] and the connection: [lk_state_object] is the place of a relationship in the list,
    [lk_signals] the messages that were passed on, each with the relationship it was passed to.  [imsg_len] belongs to the state. *)
Record link (C : Type) := mkLink {
  lk_state : flink_state; lk_state_object : option nat; lk_failover_states : list relation; lk_connection : C; lk_signals : list (nat * imsg) }.
Arguments mkLink {C}.
Arguments lk_state {C}.
Arguments lk_state_object {C}.
Arguments lk_failover_states {C}.
Arguments lk_connection {C}.
Arguments lk_signals {C}.

Definition dhcp_failover_state_match_by_name (s : relation) (name : list Z) : bool := bool_decide (r_name s = name).

(** [for (s = failover_states; s; s = s -> next)]: the last one that matches. *)
Fixpoint find_state (i : nat) (l : list relation) (name : list Z) : option nat :=
  match l with
  | [] => None
  | s :: l => match find_state (S i) l name with
              | Some j => Some j
              | None => if dhcp_failover_state_match_by_name s name then Some i else None
              end
  end.

(** The checks of a CONNECT: [inl] with the relationship, the reason and the text of the refusal, or the relationship and its hash buckets. *)
Definition check_connect (cur_time : Z) (states : list relation) (m : imsg) : option nat * Z * string + nat * list Z :=
  if Z.land (i_options_present m) FTB_RELATIONSHIP_NAME =? 0 then inl (None, FTR_INVALID_PARTNER, "missing relationship-name"%string)
  else
    match find_state 0 states (default [] (i_members m !! FTO_RELATIONSHIP_NAME)) with
    | None => inl (None, FTR_INVALID_PARTNER, "unknown failover relationship name"%string)
    | Some i =>
        if ((i_time m <? cur_time) && (60 <? cur_time - i_time m)) || ((cur_time <? i_time m) && (60 <? i_time m - cur_time)) then
          inl (Some i, FTR_TIMEMISMATCH, "time offset too large"%string)
        else if (Z.land (i_options_present m) FTB_HBA =? 0) || negb (length (default [] (i_members m !! FTO_HBA)) =? 32)%nat then
          inl (Some i, FTR_HBA_CONFLICT, "invalid HBA"%string)
        else inr (i, default [] (i_members m !! FTO_HBA))
    end.

Definition set_r_hba (h : list Z) (s : relation) : relation := mkRelation (r_name s) (r_max_flying_updates s) (r_max_response_delay s) (Some h).

(** [dhcp_failover_send_connectack] in answer to [m]. *)
Definition dhcp_failover_send_connectack {C} `{Connection C} (cur_time : Z) (vendor : list Z) (m : imsg) (state : option relation) (reason : Z) (errmsg : option (list Z))
  (c : C) : option C :=
  send_message FTM_CONNECTACK (i_xid m) cur_time
    (connectack_options ((fun s => (r_name s, r_max_flying_updates s, r_max_response_delay s)) <$> state)
       (if Z.land (i_options_present m) FTB_RELATIONSHIP_NAME =? 0 then None else i_members m !! FTO_RELATIONSHIP_NAME)
       vendor (negb (Z.land (i_options_present m) FTB_TLS_REQUEST =? 0)) reason errmsg) c.

Section Link.
Context {C : Type} `{Connection C} (cur_time : Z) (vendor : list Z).

Definition with_state (st : flink_state) (c : C) (lk : link C) : link C := mkLink st (lk_state_object lk) (lk_failover_states lk) c (lk_signals lk).

(** A CONNECT is matched with a relationship; true: it was refused and the link is closed.  Only a refusal is sent here. *)
Definition associate (m : imsg) (lk : link C) : link C * bool :=
  if negb (i_type m =? FTM_CONNECT) then (lk, false)
  else
    match check_connect cur_time (lk_failover_states lk) m with
    | inl (state, reason, errmsg) =>
        let c := lk_connection lk in
        (with_state flink_disconnected
           (default c (dhcp_failover_send_connectack cur_time vendor m (i ← state; lk_failover_states lk !! i) reason (Some (bytes_of_string errmsg)) c)) lk,
         true)
    | inr (i, hba) =>
        (mkLink (lk_state lk) (Some (default i (lk_state_object lk))) (alter (set_r_hba hba) i (lk_failover_states lk)) (lk_connection lk)
           (lk_signals lk), false)
    end.

(** A message that was read goes to the relationship of the link; true: the link is closed. *)
Definition pass_on (m : imsg) (lk : link C) : link C * bool :=
  let '(lk, closed) := associate m lk in
  if closed then (lk, true)
  else
    match lk_state_object lk with
    | None => (with_state flink_disconnected (lk_connection lk) lk, true)
    | Some i =>
        (mkLink flink_message_length_wait (lk_state_object lk) (lk_failover_states lk) (lk_connection lk) (lk_signals lk ++ [(i, m)]), false)
    end.

(** [dhcp_failover_link_signal], the signal "ready": messages are read as long as there are enough bytes. *)
Fixpoint link_ready (n : nat) (lk : link C) : outcome (link C) :=
  match n with
  | O => Undefined
  | S n =>
      let c := lk_connection lk in
      match lk_state lk with
      | flink_start =>
          if omapi_connection_require 2 c then link_ready n (with_state flink_message_length_wait c lk)
          else Done (with_state flink_message_length_wait c lk)
      | flink_message_length_wait =>
          r ← got (omapi_connection_get_uint16 c);
          if (fst r <? DHCP_FAILOVER_MIN_MESSAGE_SIZE) || (DHCP_FAILOVER_MAX_MESSAGE_SIZE <? fst r) then
            Done (with_state flink_disconnected (snd r) lk)
          else if omapi_connection_require (Z.to_nat (fst r - 2)) (snd r) then link_ready n (with_state (flink_message_wait (fst r)) (snd r) lk)
          else Done (with_state (flink_message_wait (fst r)) (snd r) lk)
      | flink_message_wait imsg_len =>
          match read_message imsg_len c with
          | Undefined => Undefined
          | ProtocolError => Done (with_state flink_disconnected c lk)
          | Done (m, c) =>
              let '(lk, closed) := pass_on m (with_state (lk_state lk) c lk) in
              if closed then Done lk
              else if omapi_connection_require 2 (lk_connection lk) then link_ready n lk
              else Done lk
          end
      | flink_disconnected => Undefined
      end
  end.

(** How many bytes the connection was asked to wait for. *)
Definition wanted (st : flink_state) : nat :=
  match st with flink_start => 0 | flink_message_length_wait => 2 | flink_message_wait imsg_len => Z.to_nat (imsg_len - 2) | flink_disconnected => 0 end.

(** Bytes arrive: the link is woken up if there are as many as it waits for.  Every message takes two rounds and at least two bytes. *)
Definition on_arrival (lk : link C) (chunk : list Z) : outcome (link C) :=
  let c := conn_arrive chunk (lk_connection lk) in
  let lk := with_state (lk_state lk) c lk in
  match lk_state lk with
  | flink_disconnected => Done lk
  | st => if (wanted st <=? length (conn_in c))%nat then link_ready (3 + length (conn_in c)) lk else Done lk
  end.

Definition arrivals (lk : link C) (chunks : list (list Z)) : outcome (link C) := foldl (fun r chunk => lk ← r; on_arrival lk chunk) (Done lk) chunks.

End Link.

(** ** A connection over lists *)

#[export] Instance list_connection : Connection (list Z * list Z) := {
  omapi_connection_copyout n c := if (n <=? length (fst c))%nat then Some (take n (fst c), (drop n (fst c), snd c)) else None;
  omapi_connection_get_uint16 c := if (2 <=? length (fst c))%nat then Some (net_val (take 2 (fst c)), (drop 2 (fst c), snd c)) else None;
  omapi_connection_get_uint32 c := if (4 <=? length (fst c))%nat then Some (net_val (take 4 (fst c)), (drop 4 (fst c), snd c)) else None;
  omapi_connection_require n c := bool_decide (n <= length (fst c))%nat;
  omapi_connection_copyin l c := (fst c, snd c ++ l);
  omapi_connection_put_uint16 v c := (fst c, snd c ++ net_bytes 2 v);
  omapi_connection_put_uint32 v c := (fst c, snd c ++ net_bytes 4 v);
  conn_arrive l c := (fst c ++ l, snd c);
  conn_in := fst; conn_out := snd }.

#[export] Instance list_connection_laws : ConnectionLaws (list Z * list Z).
Proof.
  split; try done; simpl.
  - intros n [i o] Hn. simpl in *. rewrite (proj2 (Nat.leb_le _ _) Hn). by eexists.
  - intros n [i o] Hn. simpl in *. by rewrite (proj2 (Nat.leb_gt _ _) Hn).
  - intros [i o]. simpl. by case_match.
  - intros [i o]. simpl. by case_match.
Qed.
