(* ===== verification/V4WireProofs.v ===== *)
(** * Failover: writing and reading messages

    The numbers and byte strings of an option come back as they were written; a message is read up to its last byte and no further; and what
    one server writes, the link of the other passes on, however the network cuts it up. *)

From S2P Require Import Prelude BindingStates FailoverLeases V4State V4Wire.

#[local] Open Scope Z_scope.

(** ** Network byte order *)

Lemma net_bytes_length n v : length (net_bytes n v) = n.
Proof. unfold net_bytes. by rewrite length_reverse, length_le_bytes. Qed.

Lemma net_bytes_val n v : 0 <= v < 256 ^ Z.of_nat n -> net_val (net_bytes n v) = v.
Proof. intros. unfold net_val, net_bytes. rewrite reverse_involutive, le_val_le_bytes. by apply Z.mod_small. Qed.

Lemma net_val_range l : bytes_ok l -> 0 <= net_val l < 256 ^ Z.of_nat (length l).
Proof. intros. unfold net_val. rewrite <- (length_reverse l). apply le_val_range. by apply Forall_reverse. Qed.

(** ** Bits *)

Lemma ft_options_bit code info : entry ft_options code = Some info -> 1 <= code -> oi_bit info = 2 ^ code /\ code <= 29 /\ oi_type info <> FT_UNDEF.
Proof.
  intros Hi Hc. unfold entry in Hi.
  assert (Hr : code <= 29). { apply lookup_lt_Some in Hi. simpl in Hi. lia. }
  assert (Hall : forallb (fun i => match ft_options !! i with
    Some info => (oi_bit info =? 2 ^ Z.of_nat i) && negb (bool_decide (oi_type info = FT_UNDEF)) | None => false end) (seq 1 29) = true)
    by (vm_compute; reflexivity).
  assert (H := proj1 (forallb_forall _ _) Hall (Z.to_nat code)). cbv beta in H. rewrite Hi in H.
  rewrite Z2Nat.id in H by lia. destruct (andb_prop _ _ (H ltac:(apply in_seq; lia))) as [H1 H2].
  split; [by apply Z.eqb_eq|]. split; [done|]. apply negb_true_iff, bool_decide_eq_false in H2. done.
Qed.

(** How options look: any number of bytes, or one element.  The one DDNS option has elements of no size. *)
Definition shape_ok (info : option_info) : bool :=
  match oi_type info with
  | FT_UNDEF => (oi_num_present info =? 0) && (oi_bit info =? 0)
  | FT_BYTES | FT_TEXT => oi_num_present info =? 0
  | FT_UINT8 | FT_UINT16 | FT_UINT32 | FT_IPADDR | FT_DDNS => oi_num_present info =? 1
  | _ => false
  end.

Lemma ft_options_shape code info : entry ft_options code = Some info -> shape_ok info = true.
Proof.
  intros Hi. assert (Hall : forallb shape_ok ft_options = true) by (vm_compute; reflexivity).
  apply (proj1 (forallb_forall _ _) Hall). apply list_elem_of_In. by eapply list_elem_of_lookup_2.
Qed.

(** The bits of a list of codes *)
Definition bits (codes : list Z) : Z := any_of (map (Z.pow 2) codes).

Lemma bits_testbit codes k : Forall (Z.le 0) codes -> 0 <= k -> Z.testbit (bits codes) k = bool_decide (k ∈ codes).
Proof.
  intros Hc Hk. induction Hc as [|c codes Hc _ IH]; unfold bits in *; cbn [map any_of foldr].
  - rewrite Z.bits_0. symmetry. apply bool_decide_eq_false. set_solver.
  - rewrite Z.lor_spec, Z.pow2_bits_eqb by done. fold (any_of (map (Z.pow 2) codes)). rewrite IH.
    destruct (Z.eqb_spec c k) as [->|Hne]; [symmetry; apply bool_decide_eq_true; set_solver|].
    simpl. apply bool_decide_ext. set_solver.
Qed.

Lemma land_pow2 x k : 0 <= k -> (Z.land x (2 ^ k) =? 0) = negb (Z.testbit x k).
Proof.
  intros Hk. destruct (Z.testbit x k) eqn:Hb; simpl.
  - apply Z.eqb_neq. intros H0. assert (Hb' : Z.testbit (Z.land x (2 ^ k)) k = true) by (rewrite Z.land_spec, Hb, Z.pow2_bits_true; done).
    by rewrite H0, Z.bits_0 in Hb'.
  - apply Z.eqb_eq, Z.bits_inj'. intros j Hj. rewrite Z.land_spec, Z.bits_0, Z.pow2_bits_eqb by done.
    destruct (Z.eqb_spec k j) as [<-|]; [by rewrite Hb|apply andb_false_r].
Qed.

(** ** Reading what is there *)

Section Reading.
Context {C : Type} `{Hlaws : ConnectionLaws C}.

(** [c'] is [c] after [l] was read. *)
Definition took (l : list Z) (c c' : C) : Prop := conn_in c = l ++ conn_in c' /\ conn_out c' = conn_out c.

Lemma took_trans l l' c c' c'' : took l c c' -> took l' c' c'' -> took (l ++ l') c c''.
Proof. intros [H1 H2] [H3 H4]. split; [by rewrite H1, H3, (assoc_L (++))|congruence]. Qed.

Lemma copyout_took n c : (n <= length (conn_in c))%nat ->
  exists c', omapi_connection_copyout n c = Some (take n (conn_in c), c') /\ took (take n (conn_in c)) c c' /\ conn_in c' = drop n (conn_in c).
Proof.
  intros Hn. destruct (copyout_there n c Hn) as (c' & Hc & Hin & Hout). exists c'. split; [done|]. split; [|done].
  split; [|done]. by rewrite Hin, take_drop.
Qed.

Lemma copyout_app l rest c : conn_in c = l ++ rest ->
  exists c', omapi_connection_copyout (length l) c = Some (l, c') /\ took l c c' /\ conn_in c' = rest.
Proof.
  intros Hin. destruct (copyout_took (length l) c) as (c' & H1 & H2 & H3); [rewrite Hin, length_app; lia|].
  rewrite Hin, take_app_length in H1, H2. rewrite Hin, drop_app_length in H3. eauto.
Qed.

Lemma get16_app v rest c : 0 <= v < 65536 -> conn_in c = net_bytes 2 v ++ rest ->
  exists c', omapi_connection_get_uint16 c = Some (v, c') /\ took (net_bytes 2 v) c c' /\ conn_in c' = rest.
Proof.
  intros Hv Hin. destruct (copyout_app _ _ _ Hin) as (c' & H1 & H2 & H3). exists c'. split; [|done].
  rewrite net_bytes_length in H1. rewrite get16_copyout, H1, net_bytes_val; done.
Qed.

Lemma get32_app v rest c : 0 <= v < 4294967296 -> conn_in c = net_bytes 4 v ++ rest ->
  exists c', omapi_connection_get_uint32 c = Some (v, c') /\ took (net_bytes 4 v) c c' /\ conn_in c' = rest.
Proof.
  intros Hv Hin. destruct (copyout_app _ _ _ Hin) as (c' & H1 & H2 & H3). exists c'. split; [|done].
  rewrite net_bytes_length in H1. rewrite get32_copyout, H1, net_bytes_val; done.
Qed.

(** On any bytes *)
Lemma get16_took c : (2 <= length (conn_in c))%nat ->
  exists c', omapi_connection_get_uint16 c = Some (net_val (take 2 (conn_in c)), c') /\ took (take 2 (conn_in c)) c c'.
Proof. intros Hn. destruct (copyout_took 2 c Hn) as (c' & H1 & H2 & _). exists c'. by rewrite get16_copyout, H1. Qed.

Lemma get32_took c : (4 <= length (conn_in c))%nat ->
  exists c', omapi_connection_get_uint32 c = Some (net_val (take 4 (conn_in c)), c') /\ took (take 4 (conn_in c)) c c'.
Proof. intros Hn. destruct (copyout_took 4 c Hn) as (c' & H1 & H2 & _). exists c'. by rewrite get32_copyout, H1. Qed.

Lemma discard_took n c : (Z.to_nat n <= length (conn_in c))%nat -> took (take (Z.to_nat n) (conn_in c)) c (discard n c).
Proof. intros Hn. unfold discard. destruct (copyout_took _ c Hn) as (c' & -> & Ht & _). done. Qed.

(** ** Any bytes *)

Ltac took_done Htk := eexists _, _, _; split; [done|]; split; [exact Htk|]; split; [rewrite length_take; lia|done].

Lemma read_member_took code option_len op_count info count m c :
  shape_ok info = true -> oi_type info <> FT_UNDEF -> oi_type info <> FT_DDNS -> 0 <= option_len -> option_len = ft_sizes (oi_type info) * op_count ->
  (oi_num_present info <> 0 -> op_count = 1) -> (Z.to_nat option_len <= length (conn_in c))%nat ->
  exists m' c' l, read_member code option_len op_count info count m c = Done (count + option_len, m', c') /\ took l c c' /\
    Z.of_nat (length l) = option_len /\ i_type m' = i_type m.
Proof.
  intros Hs Hu Hd Hl Hn Hone Hin. unfold read_member, shape_ok in *. rewrite Hn in *.
  destruct (oi_type info) eqn:Ht; try done; simpl in *.
  all: try (destruct (copyout_took (Z.to_nat (1 * op_count)) c) as (c' & Hc & Htk & _); [lia|]; rewrite Hc; simpl;
            took_done Htk).
  all: rewrite (Hone ltac:(lia)) in *.
  - destruct (copyout_took (Z.to_nat (4 * 1)) c) as (c' & Hc & Htk & _); [lia|]. simpl in *. rewrite Hc. simpl. took_done Htk.
  - destruct (get32_took c) as (c' & Hc & Htk); [lia|]. simpl. rewrite Hc. simpl. took_done Htk.
  - destruct (get16_took c) as (c' & Hc & Htk); [lia|]. simpl. rewrite Hc. simpl. took_done Htk.
Qed.

Lemma allowed_there t : 0 <= t < 13 -> is_Some (entry fto_allowed t).
Proof. intros. apply lookup_lt_is_Some. simpl. lia. Qed.

(** What reading an option may come to: an error, or all of its bytes read. *)
Definition option_read (imsg_len count : Z) (m : imsg) (c : C) (r : outcome (Z * imsg * C)) : Prop :=
  r = ProtocolError \/
  exists l m' c', r = Done (count + Z.of_nat (length l), m', c') /\ took l c c' /\ 4 <= Z.of_nat (length l) <= imsg_len - count /\ i_type m' = i_type m.

Lemma option_body_safe imsg_len count m c option_code option_len hd c0 :
  took hd c0 c -> length hd = 4%nat -> 0 <= i_type m < 13 -> 0 <= option_len <= imsg_len - (count + 4) -> imsg_len - (count + 4) <= Z.of_nat (length (conn_in c)) ->
  option_read imsg_len count m c0 (option_body imsg_len (count + 4) option_code option_len m c).
Proof.
  intros Hhd Hl4 Hty Hol Hin.
  assert (Hdone : forall l m' c', took l c c' -> Z.of_nat (length l) = option_len -> i_type m' = i_type m ->
    option_read imsg_len count m c0 (Done (count + 4 + option_len, m', c'))).
  { intros l m' c' Htk Hlen Hm. right. exists (hd ++ l), m', c'. rewrite length_app, Hl4.
    split; [f_equal; f_equal; f_equal; lia|]. split; [by eapply took_trans|]. split; [lia|done]. }
  assert (Hskip : option_read imsg_len count m c0 (Done (count + 4 + option_len, m, discard option_len c))).
  { eapply Hdone; [apply discard_took; lia| |done]. rewrite length_take. lia. }
  unfold option_body. destruct (entry ft_options option_code) as [info|] eqn:Hinfo; [|done].
  apply ft_options_shape in Hinfo. case_bool_decide as Hu; [done|]. case_bool_decide; [case_match; [by left|done]|].
  case_match; [by left|]. destruct (allowed_there _ Hty) as [a Ha]. rewrite Ha.
  assert (Hmem : forall op_count, option_len = ft_sizes (oi_type info) * op_count -> (oi_num_present info <> 0 -> op_count = 1) -> oi_type info <> FT_DDNS ->
    option_read imsg_len count m c0 (read_member option_code option_len op_count info (count + 4) m c)).
  { intros k Hk Hk1 Hd. destruct (read_member_took option_code option_len k info (count + 4) m c) as (m' & c' & l & -> & Htk & Hlen & Hm);
      [done|done|done|lia|done|done|lia|]. eauto. }
  destruct (if negb (oi_bit info =? 0) then got (Some a) else Done 0) as [| |allowed] eqn:Hgot; [by case_match|by left|]. simpl.
  destruct (negb (oi_bit info =? 0) && _); [done|]. destruct (oi_num_present info =? 0) eqn:Hnp; simpl.
  - case_bool_decide as Hd1; [unfold shape_ok in Hinfo; by rewrite Hd1 in Hinfo|].
    destruct ((1 <? ft_sizes (oi_type info)) && _); [by left|]. unfold shape_ok in Hinfo. apply Z.eqb_eq in Hnp. rewrite Hnp in *.
    destruct (oi_type info) eqn:Ht; try done; simpl in *; apply Hmem; simpl; try done; rewrite Z.div_1_r; lia.
  - destruct (option_len =? _) eqn:Hlen; simpl; [|by left]. apply Z.eqb_eq in Hlen. unfold shape_ok in Hinfo.
    destruct (decide (oi_type info = FT_DDNS)) as [Ht|Ht].
    + unfold read_member. rewrite Ht in *. assert (Hn1 : oi_num_present info = 1) by lia. rewrite Hn1. by left.
    + apply Hmem; [done| |done]. intros _. destruct (oi_type info); try done; lia.
Qed.

Lemma option_safe imsg_len count m c :
  bytes_ok (conn_in c) -> imsg_len - count <= Z.of_nat (length (conn_in c)) -> 0 <= i_type m < 13 ->
  option_read imsg_len count m c (do_a_failover_option imsg_len count m c).
Proof.
  intros Hok Hin Hty. unfold do_a_failover_option. case_match; [by left|]. destruct (get16_took c) as (c1 & -> & Ht1); [lia|]. simpl.
  case_match; [by left|]. pose proof Ht1 as [Hc1 _].
  assert (Hl1 : length (conn_in c) = (2 + length (conn_in c1))%nat) by (rewrite Hc1 at 1; rewrite length_app, length_take; lia).
  destruct (get16_took c1) as (c2 & -> & Ht2); [lia|]. simpl. pose proof Ht2 as [Hc2 _].
  assert (Hl2 : length (conn_in c1) = (2 + length (conn_in c2))%nat) by (rewrite Hc2 at 1; rewrite length_app, length_take; lia).
  assert (Hpos : 0 <= net_val (take 2 (conn_in c1))).
  { apply net_val_range. rewrite Hc1 in Hok. apply Forall_app in Hok as [_ Hok]. by apply Forall_take. }
  case_match; [by left|]. rewrite <- !(Z.add_assoc count 2 2) in *. change (2 + 2) with 4 in *.
  eapply option_body_safe; [eapply took_trans; eassumption|rewrite length_app, !length_take; lia|done|lia|lia].
Qed.

Lemma took_bytes l c c' : took l c c' -> bytes_ok (conn_in c) -> bytes_ok l /\ bytes_ok (conn_in c').
Proof. intros [H1 _]. rewrite H1. unfold bytes_ok. apply Forall_app. Qed.

Lemma took_length l c c' : took l c c' -> length (conn_in c) = (length l + length (conn_in c'))%nat.
Proof. intros [H1 _]. by rewrite H1, length_app. Qed.

Lemma read_options_safe n imsg_len count m c :
  bytes_ok (conn_in c) -> count <= imsg_len <= count + Z.of_nat (length (conn_in c)) -> 0 <= i_type m < 13 -> imsg_len - count < Z.of_nat n ->
  read_options n imsg_len count m c = ProtocolError \/
  exists l m' c', read_options n imsg_len count m c = Done (m', c') /\ took l c c' /\ Z.of_nat (length l) = imsg_len - count /\ i_type m' = i_type m.
Proof.
  revert count m c. induction n as [|n IH]; intros count m c Hok Hin Hty Hn; [lia|]. simpl. destruct (Z.ltb_spec count imsg_len).
  - destruct (option_safe imsg_len count m c Hok) as [Hr|(l & m' & c' & Hr & Htk & Hl & Hm)]; [lia|done|by rewrite Hr; left|]. rewrite Hr. simpl.
    destruct (took_bytes _ _ _ Htk Hok) as [_ Hok']. pose proof (took_length _ _ _ Htk).
    destruct (IH (count + Z.of_nat (length l)) m' c') as [Hr'|(l' & m'' & c'' & Hr' & Htk' & Hl' & Hm')]; [done|lia|by rewrite Hm|lia|by left|].
    right. exists (l ++ l'), m'', c''. split; [done|]. split; [by eapply took_trans|]. split; [rewrite length_app; lia|congruence].
  - right. exists [], m, c. split; [done|]. split; [done|]. split; [simpl; lia|done].
Qed.

(** The type, the payload offset, the time and the transaction id *)
Lemma header_took ty off c rest : conn_in c = ty :: off :: rest -> (8 <= length rest)%nat ->
  exists time xid c' l, took l c c' /\ length l = 10%nat /\
    forall imsg_len, read_message imsg_len c =
      read_options (S (Z.to_nat imsg_len)) imsg_len off (mkImsg ty time xid 0 ∅) (if negb (off - 12 =? 0) then discard (u32 (off - 12)) c' else c').
Proof.
  intros Hin Hrest.
  destruct (copyout_app [ty] (off :: rest) c Hin) as (c1 & H1 & T1 & Hin1). destruct (copyout_app [off] rest c1 Hin1) as (c2 & H2 & T2 & Hin2).
  destruct (get32_took c2) as (c3 & H3 & T3); [rewrite Hin2; lia|]. pose proof (took_length _ _ _ T3) as L3. rewrite Hin2, length_take in L3.
  destruct (get32_took c3) as (c4 & H4 & T4); [lia|].
  exists (net_val (take 4 (conn_in c2))), (net_val (take 4 (conn_in c3))), c4, ([ty] ++ [off] ++ take 4 (conn_in c2) ++ take 4 (conn_in c3)).
  split; [by repeat (eapply took_trans; [eassumption|])|]. split; [rewrite !length_app, !length_take, Hin2; cbn [length]; lia|].
  intros imsg_len. unfold read_message. simpl in H1, H2. rewrite H1. simpl. rewrite H2. simpl. rewrite H3. simpl. rewrite H4. done.
Qed.

Lemma read_message_safe imsg_len ty off c rest :
  bytes_ok (conn_in c) -> conn_in c = ty :: off :: rest -> ty < 13 -> 12 <= off <= imsg_len -> imsg_len - 2 <= Z.of_nat (length (conn_in c)) ->
  read_message imsg_len c = ProtocolError \/
  exists l m c', read_message imsg_len c = Done (m, c') /\ took l c c' /\ Z.of_nat (length l) = imsg_len - 2 /\ i_type m = ty.
Proof.
  intros Hok Hin Hty Hoff Hlen.
  assert (Hb : byte_ok ty /\ byte_ok off). { rewrite Hin in Hok. inversion Hok as [|? ? ? Hok']. by inversion Hok'. } unfold byte_ok in Hb.
  destruct (header_took ty off c rest Hin) as (time & xid & c1 & l1 & T1 & L1 & ->); [rewrite Hin in Hlen; simpl in Hlen; lia|].
  pose proof (took_length _ _ _ T1) as Hl1. destruct (took_bytes _ _ _ T1 Hok) as [_ Hok1].
  assert (exists l2 c2, (if negb (off - 12 =? 0) then discard (u32 (off - 12)) c1 else c1) = c2 /\ took l2 c1 c2 /\ Z.of_nat (length l2) = off - 12) as (l2 & c2 & -> & T2 & L2).
  { destruct (Z.eqb_spec (off - 12) 0); simpl; [exists [], c1; split; [done|]; split; [done|]; simpl; lia|].
    assert (Hu : u32 (off - 12) = off - 12) by (apply (wrap_small 32); lia). rewrite Hu.
    eexists _, _. split; [done|]. split; [apply discard_took; lia|]. rewrite length_take. lia. }
  pose proof (took_length _ _ _ T2) as Hl2. destruct (took_bytes _ _ _ T2 Hok1) as [_ Hok2].
  destruct (read_options_safe (S (Z.to_nat imsg_len)) imsg_len off (mkImsg ty time xid 0 ∅) c2 Hok2)
    as [Hr|(l3 & m & c3 & -> & T3 & L3 & Hm)]; [lia|simpl; lia|lia|by left|].
  right. exists (l1 ++ l2 ++ l3), m, c3. split; [done|]. split; [by repeat (eapply took_trans; [eassumption|])|].
  split; [rewrite !length_app; lia|done].
Qed.

(** ** What was written *)

Definition fits (b v : Z) : bool := (0 <=? v) && (v <? b).

(** What is read of an option that was made from [a]. *)
Definition option_value (info : option_info) (a : oarg) : option (list Z) :=
  match oi_type info, a with
  | FT_UINT8, AInts vs => l ← va_ints (oi_num_present info) vs; if forallb (fits 256) l then Some l else None
  | FT_UINT16, AInts vs => l ← va_ints (oi_num_present info) vs; if forallb (fits 65536) l then Some l else None
  | FT_UINT32, AInts vs => l ← va_ints (oi_num_present info) vs; if forallb (fits 4294967296) l then Some l else None
  | FT_IPADDR, AAddr ilen iaddr => if (ilen =? 4) && (length iaddr =? 4)%nat && forallb (fits 256) iaddr then Some iaddr else None
  | (FT_BYTES | FT_TEXT), ABytes data => if forallb (fits 256) data then Some data else None
  | _, _ => None
  end.

Lemma va_one vs l : va_ints 1 vs = Some l -> exists v, l = [v].
Proof. unfold va_ints. destruct vs as [|v vs]; simpl; [done|]. case_match; [|done]. intros [= <-]. eauto. Qed.

Lemma one_fits b v : forallb (fits b) [v] = true -> 0 <= v < b.
Proof. unfold fits. simpl. rewrite andb_true_r. intros Hv. apply andb_prop in Hv as [H1 H2]. lia. Qed.

(** The member of an option after it was read. *)
Definition stored (code : Z) (info : option_info) (vals : list Z) (m : imsg) : imsg :=
  mkImsg (i_type m) (i_time m) (i_xid m) (Z.lor (i_options_present m) (oi_bit info)) (<[code := vals]> (i_members m)).

(** [data] is read as [vals]. *)
Definition reads_as (code : Z) (info : option_info) (data vals : list Z) (op_count : Z) : Prop :=
  forall count m c rest, conn_in c = data ++ rest ->
  exists c', took data c c' /\ conn_in c' = rest /\
    read_member code (Z.of_nat (length data)) op_count info count m c = Done (count + Z.of_nat (length data), stored code info vals m, c').

Lemma bytes_read_as code info data op_count : ft_sizes (oi_type info) = 1 \/ oi_type info = FT_IPADDR -> reads_as code info data data op_count.
Proof.
  intros Ht count m c rest Hin. destruct (copyout_app _ _ _ Hin) as (c' & Hc & Htk & Hr). exists c'. split; [done|]. split; [done|].
  unfold read_member. assert (Hb : (ft_sizes (oi_type info) =? 1) || bool_decide (oi_type info = FT_IPADDR) = true).
  { destruct Ht as [->| ->]; done. }
  by rewrite Hb, Nat2Z.id, Hc.
Qed.

Lemma u16_reads_as code info v : oi_type info = FT_UINT16 -> 0 <= v < 65536 -> reads_as code info (net_bytes 2 v) [v] 1.
Proof.
  intros Ht Hv count m c rest Hin. destruct (get16_app _ _ _ Hv Hin) as (c' & Hc & Htk & Hr). exists c'. split; [done|]. split; [done|].
  unfold read_member. rewrite Ht. simpl. by rewrite Hc.
Qed.

Lemma u32_reads_as code info v : oi_type info = FT_UINT32 -> 0 <= v < 4294967296 -> reads_as code info (net_bytes 4 v) [v] 1.
Proof.
  intros Ht Hv count m c rest Hin. destruct (get32_app _ _ _ Hv Hin) as (c' & Hc & Htk & Hr). exists c'. split; [done|]. split; [done|].
  unfold read_member. rewrite Ht. simpl. by rewrite Hc.
Qed.

(** The sizes agree with the table. *)
Definition sized (info : option_info) (data : list Z) (op_count : Z) : Prop :=
  oi_num_present info = 1 /\ op_count = 1 /\ Z.of_nat (length data) = ft_sizes (oi_type info) \/
  oi_num_present info = 0 /\ op_count = Z.of_nat (length data) /\ ft_sizes (oi_type info) = 1.

(** An option with a value is written and read back. *)
Lemma member_value code info a vals :
  shape_ok info = true -> option_value info a = Some vals ->
  exists data op_count, option_data info a = Some (Some data) /\ (length data <= 4 + length vals)%nat /\ sized info data op_count /\ reads_as code info data vals op_count.
Proof.
  unfold shape_ok, option_value, option_data, sized. intros Hs Hv.
  destruct (oi_type info) eqn:Ht; try done; apply Z.eqb_eq in Hs; rewrite Hs in *; destruct a as [vs|data|ilen iaddr|]; try done.
  4,6: destruct (forallb _ data); [|done]; injection Hv as <-; exists data, (Z.of_nat (length data)); split; [done|]; split; [lia|]; split; [by right|];
       apply bytes_read_as; rewrite Ht; by left.
  2: { destruct ((ilen =? 4) && (length iaddr =? 4)%nat) eqn:Hil; [|done]. simpl in Hv. destruct (forallb _ iaddr); [|done]. injection Hv as <-.
       apply andb_prop in Hil as [H1 H2]. rewrite H1, H2. apply Nat.eqb_eq in H2. exists iaddr, 1. split; [done|]. split; [lia|].
       split; [left; rewrite H2; done|]. apply bytes_read_as. by right. }
  all: destruct (va_ints 1 vs) as [l|] eqn:Hl; [|done]; destruct (va_one _ _ Hl) as [v ->]; cbn [mbind option_bind option_map] in *;
       destruct (forallb _ [v]) eqn:Hf in Hv; [|done]; injection Hv as <-; apply one_fits in Hf.
  - exists [v], 1. cbn [map]. rewrite (u8_id v) by done. split; [done|]. split; [simpl; lia|]. split; [by left|]. apply bytes_read_as. rewrite Ht. by left.
  - exists (net_bytes 4 v), 1. cbn [flat_map]. rewrite app_nil_r. split; [done|]. rewrite net_bytes_length. split; [simpl; lia|]. split; [by left|].
    by apply u32_reads_as.
  - exists (net_bytes 2 v), 1. cbn [flat_map]. rewrite app_nil_r. split; [done|]. rewrite net_bytes_length. split; [simpl; lia|]. split; [by left|].
    by apply u16_reads_as.
Qed.

(** What a reader keeps of an option in a message of type [ty]. *)
Definition accepted_value (ty code : Z) (a : oarg) : option (list Z) :=
  info ← entry ft_options code; allowed ← entry fto_allowed ty;
  if (1 <=? code) && negb (Z.land allowed (oi_bit info) =? 0) then option_value info a else None.

Definition with_option (code : Z) (vals : list Z) (m : imsg) : imsg :=
  mkImsg (i_type m) (i_time m) (i_xid m) (Z.lor (i_options_present m) (2 ^ code)) (<[code := vals]> (i_members m)).

Lemma option_body_reads code info allowed data vals op_count imsg_len count m c rest :
  entry ft_options code = Some info -> 1 <= code -> entry fto_allowed (i_type m) = Some allowed -> Z.land allowed (oi_bit info) <> 0 ->
  Z.testbit (i_options_present m) code = false -> sized info data op_count -> reads_as code info data vals op_count -> conn_in c = data ++ rest ->
  exists c', took data c c' /\ conn_in c' = rest /\
    option_body imsg_len count code (Z.of_nat (length data)) m c = Done (count + Z.of_nat (length data), with_option code vals m, c').
Proof.
  intros Hinfo Hc Hal Hbit Hnew Hsz Hread Hin. destruct (ft_options_bit _ _ Hinfo Hc) as (Hb & Hc29 & Hu).
  pose proof (ft_options_shape _ _ Hinfo) as Hs.
  destruct (Hread count m c rest Hin) as (c' & Htk & Hrest & Hr). exists c'. split; [done|]. split; [done|].
  unfold option_body. rewrite Hinfo. rewrite (bool_decide_eq_false_2 _ Hu).
  assert (Hdig : oi_type info <> FT_DIGEST /\ (oi_num_present info = 0 -> oi_type info <> FT_DDNS1)).
  { unfold shape_ok in Hs. destruct (oi_type info); done. }
  destruct Hdig as [Hdig Hdd]. rewrite (bool_decide_eq_false_2 _ Hdig).
  unfold stored in Hr. rewrite Hb in *. rewrite land_pow2, Hnew by lia. simpl. rewrite (proj2 (Z.eqb_neq (2 ^ code) 0)) by lia.
  rewrite Hal. simpl. rewrite (proj2 (Z.eqb_neq _ _) Hbit).
  destruct Hsz as [(Hnp & -> & Hlen)|(Hnp & -> & Hsize)]; rewrite Hnp.
  - simpl. rewrite Z.mul_1_r, Hlen, Z.eqb_refl. simpl. by rewrite Hlen in Hr.
  - simpl. rewrite (bool_decide_eq_false_2 _ (Hdd Hnp)), Hsize. simpl. by rewrite Z.div_1_r.
Qed.

Lemma option_reads ty code a vals : accepted_value ty code a = Some vals ->
  exists bytes, dhcp_failover_make_option code a = Some (Opt bytes) /\ 1 <= code <= 29 /\ (4 <= length bytes <= 8 + length vals)%nat /\
    forall imsg_len count m c rest, i_type m = ty -> Z.testbit (i_options_present m) code = false -> conn_in c = bytes ++ rest ->
      Z.of_nat (length bytes) < 65536 -> count + Z.of_nat (length bytes) <= imsg_len ->
      exists c', took bytes c c' /\ conn_in c' = rest /\
        do_a_failover_option imsg_len count m c = Done (count + Z.of_nat (length bytes), with_option code vals m, c').
Proof.
  unfold accepted_value, dhcp_failover_make_option. intros Hv.
  destruct (entry ft_options code) as [info|] eqn:Hinfo; [|done]. destruct (entry fto_allowed ty) as [allowed|] eqn:Hal; [|done]. simpl in Hv.
  destruct (1 <=? code) eqn:Hc; [|done]. destruct (Z.land allowed (oi_bit info) =? 0) eqn:Hbit; [done|]. simpl in Hv.
  apply Z.leb_le in Hc. apply Z.eqb_neq in Hbit. destruct (ft_options_bit _ _ Hinfo Hc) as (Hb & Hc29 & Hu).
  rewrite (proj2 (Z.ltb_ge code 1)) by lia. rewrite (bool_decide_eq_false_2 _ Hu). simpl.
  destruct (member_value code info a vals (ft_options_shape _ _ Hinfo) Hv) as (data & op_count & -> & Hdl & Hsz & Hread). cbn [mbind option_bind].
  exists (net_bytes 2 code ++ net_bytes 2 (Z.of_nat (length data)) ++ data). split; [reflexivity|]. split; [lia|]. split; [rewrite !length_app, !net_bytes_length; lia|].
  intros imsg_len count m c rest Hty Hnew Hin Hlen Hfit. rewrite !length_app, !net_bytes_length in *. rewrite <- !(assoc_L (++)) in Hin.
  unfold do_a_failover_option. rewrite (proj2 (Z.ltb_ge _ _)) by lia.
  destruct (get16_app code _ c ltac:(lia) Hin) as (c1 & -> & T1 & Hin1). simpl. rewrite (proj2 (Z.ltb_ge _ _)) by lia.
  destruct (get16_app (Z.of_nat (length data)) _ c1 ltac:(lia) Hin1) as (c2 & -> & T2 & Hin2). simpl. rewrite (proj2 (Z.ltb_ge _ _)) by lia.
  subst ty. destruct (option_body_reads code info allowed data vals op_count imsg_len (count + 2 + 2) m c2 rest) as (c3 & T3 & Hin3 & ->); [done..|].
  exists c3. split; [exact (took_trans _ _ _ _ _ T1 (took_trans _ _ _ _ _ T2 T3))|]. split; [done|]. f_equal. f_equal. f_equal. lia.
Qed.

(** The values of a list of options, by code *)
Definition accepted (ty : Z) (o : message_option) : option (Z * list Z) :=
  match o with Make code a => v ← accepted_value ty code a; Some (code, v) | Raw _ => None end.

Definition with_options (vals : list (Z * list Z)) (m : imsg) : imsg :=
  mkImsg (i_type m) (i_time m) (i_xid m) (Z.lor (i_options_present m) (bits vals.*1)) (list_to_map vals ∪ i_members m).

Lemma with_options_cons code v vals m : code ∉ vals.*1 -> with_options vals (with_option code v m) = with_options ((code, v) :: vals) m.
Proof.
  intros Hn. unfold with_options, with_option. simpl. f_equal; [by rewrite <- Z.lor_assoc|].
  rewrite <- insert_union_r by (by apply not_elem_of_list_to_map_1). by rewrite insert_union_l.
Qed.

Lemma with_options_empty ty time xid vals : with_options vals (mkImsg ty time xid 0 ∅) = mkImsg ty time xid (bits vals.*1) (list_to_map vals).
Proof. unfold with_options. cbn [i_type i_time i_xid i_options_present i_members]. by rewrite Z.lor_0_l, (right_id_L ∅ (∪)). Qed.

(** [bytes] are read as [vals]. *)
Definition options_read (ty : Z) (vals : list (Z * list Z)) (bytes : list Z) : Prop :=
  forall n imsg_len count m c rest, i_type m = ty -> (forall code, code ∈ vals.*1 -> Z.testbit (i_options_present m) code = false) ->
    conn_in c = bytes ++ rest -> imsg_len = count + Z.of_nat (length bytes) -> Z.of_nat (length bytes) < 65536 -> Z.of_nat (length bytes) < Z.of_nat n ->
    exists c', took bytes c c' /\ conn_in c' = rest /\ read_options n imsg_len count m c = Done (with_options vals m, c').

Lemma no_options_read ty : options_read ty [] [].
Proof.
  intros n imsg_len count m c rest Hty _ Hin -> _ Hn. exists c. split; [done|]. split; [done|]. destruct n as [|n]; [simpl in Hn; lia|]. simpl.
  rewrite (proj2 (Z.ltb_ge _ _)) by lia. unfold with_options. simpl. unfold bits. simpl. rewrite Z.lor_0_r, (left_id_L ∅ (∪)). by destruct m.
Qed.

Lemma options_are_read ty opts vals : mapM (accepted ty) opts = Some vals -> NoDup vals.*1 ->
  exists outs, mapM put_option opts = Some outs /\ Forall (fun o => o <> Null) outs /\ Forall (fun code => 1 <= code <= 29) vals.*1 /\
    (length (flat_map option_bytes outs) <= sum_list_with (fun p => 8 + length (snd p)) vals)%nat /\
    options_read ty vals (flat_map option_bytes outs).
Proof.
  intros Hv. apply mapM_Some in Hv. induction Hv as [|[code a|data] [code' v] opts vals Ha Hv IH]; intros Hnd; [| |done].
  - exists []. split; [done|]. split; [done|]. split; [done|]. split; [done|]. apply no_options_read.
  - unfold accepted in Ha. apply bind_Some in Ha as (v' & Ha & [= <- ->]). cbn [fmap list_fmap fst] in Hnd.
    apply NoDup_cons in Hnd as [Hnot Hnd]. destruct (IH Hnd) as (outs & Houts & Hnn & Hcodes & Hsum & Hread).
    destruct (option_reads _ _ _ _ Ha) as (bytes & Hmk & Hc & Hlb & Hone). exists (Opt bytes :: outs). cbn [mapM put_option].
    rewrite Hmk. cbn [mbind option_bind]. rewrite Houts. split; [done|]. split; [by constructor|]. split; [by constructor|].
    split; [cbn [flat_map option_bytes sum_list_with snd]; rewrite length_app; lia|].
    intros n imsg_len count m c rest Hty Hnew Hin Hlen Hbig Hn. cbn [flat_map option_bytes] in *. rewrite length_app in *. rewrite <- (assoc_L (++)) in Hin.
    destruct n as [|n]; [lia|]. cbn [read_options]. rewrite (proj2 (Z.ltb_lt _ _)) by lia.
    destruct (Hone imsg_len count m c _ Hty (Hnew code ltac:(set_solver)) Hin) as (c1 & T1 & Hin1 & ->); [lia|lia|]. cbn [mbind outcome_bind fst snd].
    destruct (Hread n imsg_len (count + Z.of_nat (length bytes)) (with_option code v m) c1 rest) as (c2 & T2 & Hin2 & ->); [exact Hty| |exact Hin1|lia|lia|lia|].
    { intros k Hk. unfold with_option. cbn [i_options_present]. rewrite Z.lor_spec, (Hnew k) by set_solver.
      rewrite Forall_forall in Hcodes. rewrite Z.pow2_bits_false; [done|]. intros ->. done. }
    exists c2. split; [exact (took_trans _ _ _ _ _ T1 T2)|]. split; [done|]. by rewrite with_options_cons.
Qed.

(** ** Messages *)

(** [bytes] are a message that is read as [m]. *)
Definition frame (bytes : list Z) (m : imsg) : Prop :=
  let imsg_len := Z.of_nat (length bytes) in
  exists payload, bytes = net_bytes 2 imsg_len ++ payload /\ DHCP_FAILOVER_MIN_MESSAGE_SIZE <= imsg_len <= DHCP_FAILOVER_MAX_MESSAGE_SIZE /\
    forall c rest, conn_in c = payload ++ rest -> exists c', took payload c c' /\ conn_in c' = rest /\ read_message imsg_len c = Done (m, c').

(** What [dhcp_failover_put_message] writes *)
Definition message_bytes (ty time xid : Z) (opbuf : list Z) : list Z :=
  net_bytes 2 (Z.of_nat (length opbuf) + 12) ++ [u8 ty] ++ [12] ++ net_bytes 4 time ++ net_bytes 4 xid ++ opbuf.

Lemma message_bytes_length ty time xid opbuf : length (message_bytes ty time xid opbuf) = (12 + length opbuf)%nat.
Proof. unfold message_bytes. rewrite !length_app, !net_bytes_length. simpl. lia. Qed.

Lemma message_frame ty time xid vals opbuf :
  byte_ok ty -> 0 <= time < 4294967296 -> 0 <= xid < 4294967296 -> Z.of_nat (length opbuf) + 12 <= DHCP_FAILOVER_MAX_MESSAGE_SIZE ->
  options_read ty vals opbuf -> frame (message_bytes ty time xid opbuf) (with_options vals (mkImsg ty time xid 0 ∅)).
Proof.
  intros Hty Htime Hxid Hlen Hread. unfold frame. rewrite message_bytes_length. unfold DHCP_FAILOVER_MAX_MESSAGE_SIZE in *.
  replace (Z.of_nat (12 + length opbuf)) with (Z.of_nat (length opbuf) + 12) by lia.
  exists ([u8 ty] ++ [12] ++ net_bytes 4 time ++ net_bytes 4 xid ++ opbuf). split; [done|]. unfold DHCP_FAILOVER_MIN_MESSAGE_SIZE. split; [lia|].
  intros c rest Hin. rewrite (u8_id ty Hty) in *. rewrite <- !(assoc_L (++)) in Hin.
  destruct (copyout_app [ty] _ c Hin) as (c1 & H1 & T1 & Hin1). destruct (copyout_app [12] _ c1 Hin1) as (c2 & H2 & T2 & Hin2).
  destruct (get32_app time _ c2 Htime Hin2) as (c3 & H3 & T3 & Hin3). destruct (get32_app xid _ c3 Hxid Hin3) as (c4 & H4 & T4 & Hin4).
  destruct (Hread (S (Z.to_nat (Z.of_nat (length opbuf) + 12))) (Z.of_nat (length opbuf) + 12) 12 (mkImsg ty time xid 0 ∅) c4 rest)
    as (c5 & T5 & Hin5 & Hr); [done|intros; apply Z.bits_0|done|lia|lia|lia|].
  exists c5. split; [exact (took_trans _ _ _ _ _ T1 (took_trans _ _ _ _ _ T2 (took_trans _ _ _ _ _ T3 (took_trans _ _ _ _ _ T4 T5))))|].
  split; [done|]. unfold read_message. simpl in H1, H2. rewrite H1. cbn [got mbind outcome_bind fst snd]. rewrite H2.
  cbn [got mbind outcome_bind fst snd]. rewrite H3. cbn [got mbind outcome_bind fst snd]. rewrite H4. exact Hr.
Qed.

(** A message that is to be sent *)
Record outgoing := mkOut { out_type : Z; out_time : Z; out_xid : Z; out_options : list message_option }.

(** What the other server reads, if it is a message that this one may send. *)
Definition deliverable (o : outgoing) : option imsg :=
  vals ← mapM (accepted (out_type o)) (out_options o); outs ← mapM put_option (out_options o);
  if bool_decide (NoDup vals.*1) && fits 256 (out_type o) && fits 4294967296 (out_time o) && fits 4294967296 (out_xid o)
     && (Z.of_nat (length (flat_map option_bytes outs)) + 12 <=? DHCP_FAILOVER_MAX_MESSAGE_SIZE)
  then Some (mkImsg (out_type o) (out_time o) (out_xid o) (bits vals.*1) (list_to_map vals)) else None.

Lemma fits_range b v : fits b v = true -> 0 <= v < b.
Proof. unfold fits. intros H'. apply andb_prop in H' as [? ?]. lia. Qed.

Lemma deliverable_frame o m : deliverable o = Some m ->
  exists outs, mapM put_option (out_options o) = Some outs /\ Forall (fun o => o <> Null) outs /\
    frame (message_bytes (out_type o) (out_time o) (out_xid o) (flat_map option_bytes outs)) m.
Proof.
  unfold deliverable. intros Hd. apply bind_Some in Hd as (vals & Hv & Hd). apply bind_Some in Hd as (outs & Ho & Hd).
  destruct (bool_decide (NoDup vals.*1) && fits 256 (out_type o) && fits 4294967296 (out_time o) && fits 4294967296 (out_xid o)
     && (Z.of_nat (length (flat_map option_bytes outs)) + 12 <=? DHCP_FAILOVER_MAX_MESSAGE_SIZE)) eqn:Hb; [|done]. injection Hd as <-.
  repeat (apply andb_prop in Hb as [Hb ?]). apply bool_decide_eq_true in Hb.
  destruct (options_are_read _ _ _ Hv Hb) as (outs' & Ho' & Hnn & _ & _ & Hread). rewrite Ho in Ho'. injection Ho' as <-.
  exists outs. split; [done|]. split; [done|].
  apply (message_frame _ (out_time o) (out_xid o)) in Hread; [|first [by apply (fits_range 256)|by apply fits_range|by apply Z.leb_le]..].
  rewrite with_options_empty in Hread. exact Hread.
Qed.

Lemma deliverable_intro o vals :
  mapM (accepted (out_type o)) (out_options o) = Some vals -> NoDup vals.*1 -> fits 256 (out_type o) = true -> fits 4294967296 (out_time o) = true ->
  fits 4294967296 (out_xid o) = true -> (sum_list_with (fun p => 8 + length (snd p)) vals <= 2036)%nat ->
  deliverable o = Some (mkImsg (out_type o) (out_time o) (out_xid o) (bits vals.*1) (list_to_map vals)).
Proof.
  intros Hv Hnd H1 H2 H3 Hsz. destruct (options_are_read _ _ _ Hv Hnd) as (outs & Ho & _ & _ & Hlen & _). unfold deliverable.
  rewrite Hv. cbn [mbind option_bind]. rewrite Ho. cbn [mbind option_bind]. rewrite (bool_decide_eq_true_2 _ Hnd), H1, H2, H3. simpl.
  unfold DHCP_FAILOVER_MAX_MESSAGE_SIZE. rewrite (proj2 (Z.leb_le _ _)); [done|lia].
Qed.

(** ** The link *)

Section Delivery.
Context (cur_time : Z) (vendor : list Z) (i : nat).

Definition stream (l : list (list Z * imsg)) : list Z := concat l.*1.

(** A link of relationship [i] that has [l] still to pass on; [f] is on its way. *)
Definition due (f : list Z) (l : list (list Z * imsg)) (lk : link C) : Prop :=
  lk_state_object lk = Some i /\ Forall (fun p => frame (fst p) (snd p) /\ i_type (snd p) <> FTM_CONNECT) l /\
  match lk_state lk with
  | flink_start | flink_message_length_wait => conn_in (lk_connection lk) ++ f = stream l
  | flink_message_wait imsg_len =>
      match l with
      | [] => False
      | p :: l => imsg_len = Z.of_nat (length (fst p)) /\ conn_in (lk_connection lk) ++ f = drop 2 (fst p) ++ stream l
      end
  | flink_disconnected => False
  end.

(** The link waits for more. *)
Definition waits (lk : link C) : Prop :=
  (lk_state lk = flink_start /\ conn_in (lk_connection lk) = []) \/ (length (conn_in (lk_connection lk)) < wanted (lk_state lk))%nat.

(** The link has passed on a part of [l]. *)
Definition passed (f : list Z) (l : list (list Z * imsg)) (lk lk' : link C) : Prop :=
  exists l1 l2, l = l1 ++ l2 /\ lk_signals lk' = lk_signals lk ++ map (fun p => (i, snd p)) l1 /\ due f l2 lk' /\ waits lk'.

Lemma passed_same f l lk lk' : lk_signals lk' = lk_signals lk -> due f l lk' -> waits lk' -> passed f l lk lk'.
Proof. intros Hs Hd Hw. exists [], l. split; [done|]. split; [by rewrite app_nil_r|done]. Qed.

Lemma passed_next f p l lk lk1 lk' : lk_signals lk1 = lk_signals lk ++ [(i, snd p)] -> passed f l lk1 lk' -> passed f (p :: l) lk lk'.
Proof.
  intros Hs (l1 & l2 & -> & Hs' & Hd). exists (p :: l1), l2. split; [done|]. split; [|done]. rewrite Hs', Hs, <- (assoc_L (++)). done.
Qed.

Lemma passed_shift f l lk lk1 lk' : lk_signals lk1 = lk_signals lk -> passed f l lk1 lk' -> passed f l lk lk'.
Proof. intros Hs (l1 & l2 & -> & Hs' & Hd). exists l1, l2. split; [done|]. split; [|done]. by rewrite Hs', Hs. Qed.

(** The length of the first message is read. *)
Lemma length_wait_reads f l lk : due f l lk -> lk_state lk = flink_message_length_wait -> (2 <= length (conn_in (lk_connection lk)))%nat ->
  exists p l' c', l = p :: l' /\ omapi_connection_get_uint16 (lk_connection lk) = Some (Z.of_nat (length (fst p)), c') /\
    length (conn_in (lk_connection lk)) = (2 + length (conn_in c'))%nat /\ due f l (with_state (flink_message_wait (Z.of_nat (length (fst p)))) c' lk).
Proof.
  intros (Hobj & Hl & Hst) Hs H2. rewrite Hs in Hst. destruct l as [|p l].
  { apply (f_equal length) in Hst. rewrite length_app in Hst. simpl in Hst. lia. }
  inversion Hl as [|? ? [(payload & Hb & Hlen & _) _] Hl' Heq]; subst. unfold stream in Hst. cbn [fmap list_fmap concat] in Hst.
  fold (stream l) in Hst. pose proof Hst as Hst0. rewrite Hb, <- (assoc_L (++)) in Hst.
  assert (Hin : conn_in (lk_connection lk) = net_bytes 2 (Z.of_nat (length (fst p))) ++ drop 2 (conn_in (lk_connection lk))).
  { rewrite <- (take_drop 2 (conn_in (lk_connection lk))) at 1. f_equal.
    apply (f_equal (take 2)) in Hst. rewrite take_app_le in Hst by done. rewrite Hst, take_app_le by (rewrite net_bytes_length; done).
    apply take_ge. by rewrite net_bytes_length. }
  unfold DHCP_FAILOVER_MAX_MESSAGE_SIZE, DHCP_FAILOVER_MIN_MESSAGE_SIZE in Hlen.
  assert (Hlen16 : 0 <= Z.of_nat (length (fst p)) < 65536) by lia. destruct (get16_app _ _ _ Hlen16 Hin) as (c' & Hc & Htk & Hin').
  exists p, l, c'. split; [done|]. split; [done|]. split; [rewrite Hin', length_drop; lia|].
  split; [done|]. split; [done|]. simpl. split; [done|]. rewrite Hin'.
  apply (f_equal (drop 2)) in Hst0. rewrite !drop_app_le in Hst0; [done| |done]. lia.
Qed.

(** A message that is there is passed on. *)
Lemma message_wait_reads f p l lk : due f (p :: l) lk -> lk_state lk = flink_message_wait (Z.of_nat (length (fst p))) ->
  (wanted (lk_state lk) <= length (conn_in (lk_connection lk)))%nat ->
  exists c' lk', read_message (Z.of_nat (length (fst p))) (lk_connection lk) = Done (snd p, c') /\
    pass_on cur_time vendor (snd p) (with_state (lk_state lk) c' lk) = (lk', false) /\ lk_signals lk' = lk_signals lk ++ [(i, snd p)] /\
    lk_state lk' = flink_message_length_wait /\ (length (conn_in (lk_connection lk')) + 2 <= length (conn_in (lk_connection lk)))%nat /\ due f l lk'.
Proof.
  intros (Hobj & Hl & Hst) Hs Hw. rewrite Hs in Hst, Hw. destruct Hst as [_ Hst]. simpl in Hw.
  inversion Hl as [|? ? [(payload & Hb & Hlen & Hread) Hty] Hl' Heq]; subst. unfold DHCP_FAILOVER_MAX_MESSAGE_SIZE, DHCP_FAILOVER_MIN_MESSAGE_SIZE in Hlen.
  assert (Hpl : drop 2 (fst p) = payload). { rewrite Hb. apply drop_app_length'. by rewrite net_bytes_length. }
  assert (Hlp : (length (fst p) = 2 + length payload)%nat) by (rewrite <- Hpl, length_drop; lia).
  rewrite Hpl in Hst.
  assert (Hin : conn_in (lk_connection lk) = payload ++ drop (length payload) (conn_in (lk_connection lk))).
  { rewrite <- (take_drop (length payload) (conn_in (lk_connection lk))) at 1. f_equal.
    apply (f_equal (take (length payload))) in Hst. rewrite take_app_le in Hst by lia. by rewrite Hst, take_app_length. }
  destruct (Hread _ _ Hin) as (c' & Htk & Hin' & Hr). eexists c', _. split; [exact Hr|].
  unfold pass_on, associate. rewrite (proj2 (Z.eqb_neq _ _) Hty). simpl. rewrite Hobj. split; [done|]. split; [done|]. split; [done|].
  simpl. split; [rewrite Hin', length_drop; lia|]. split; [done|]. split; [done|]. simpl. rewrite Hin'.
  apply (f_equal (drop (length payload))) in Hst. rewrite drop_app_le, drop_app_length in Hst by lia. done.
Qed.

(** Rounds that are enough *)
Definition rounds (lk : link C) : nat := length (conn_in (lk_connection lk)) + match lk_state lk with flink_start => 2 | _ => 1 end.

Lemma ready_delivers n f l lk : due f l lk -> (wanted (lk_state lk) <= length (conn_in (lk_connection lk)))%nat -> (rounds lk <= n)%nat ->
  exists lk', link_ready cur_time vendor n lk = Done lk' /\ passed f l lk lk'.
Proof.
  revert l lk. induction n as [|n IH]; intros l lk Hdue Hw Hn; [unfold rounds in Hn; destruct (lk_state lk); lia|].
  cbn [link_ready]. unfold rounds in Hn. destruct (lk_state lk) as [| |len|] eqn:Hs; [| | |by destruct Hdue as (_ & _ & Hd); rewrite Hs in Hd].
  - assert (Hd : due f l (with_state flink_message_length_wait (lk_connection lk) lk)).
    { destruct Hdue as (H1 & H2 & H3). rewrite Hs in H3. done. }
    rewrite require_there. case_bool_decide as Hlen.
    + destruct (IH l (with_state flink_message_length_wait (lk_connection lk) lk)) as (lk' & -> & Hp); [done|done|unfold rounds; simpl; lia|].
      exists lk'. split; [done|]. by eapply passed_shift; [|exact Hp].
    + eexists. split; [done|]. apply passed_same; [done|done|right; simpl; lia].
  - destruct (length_wait_reads f l lk Hdue Hs Hw) as (p & l' & c' & -> & -> & Hlen & Hd). cbn [got mbind outcome_bind fst snd].
    assert (Hb : DHCP_FAILOVER_MIN_MESSAGE_SIZE <= Z.of_nat (length (fst p)) <= DHCP_FAILOVER_MAX_MESSAGE_SIZE).
    { destruct Hdue as (_ & Hl & _). inversion Hl as [|? ? [(? & _ & Hb & _) _] _]. exact Hb. }
    rewrite (proj2 (Z.ltb_ge _ _)) by lia. rewrite (proj2 (Z.ltb_ge _ _)) by lia. cbn [orb]. rewrite require_there. case_bool_decide as Hin.
    + destruct (IH (p :: l') (with_state (flink_message_wait (Z.of_nat (length (fst p)))) c' lk)) as (lk' & -> & Hp); [done|done|unfold rounds; simpl; lia|].
      exists lk'. split; [done|]. by eapply passed_shift; [|exact Hp].
    + eexists. split; [done|]. apply passed_same; [done|done|right; simpl; lia].
  - destruct l as [|p l]; [by destruct Hdue as (_ & _ & Hd); rewrite Hs in Hd|].
    assert (len = Z.of_nat (length (fst p))) as -> by (destruct Hdue as (_ & _ & Hd); rewrite Hs in Hd; apply Hd).
    destruct (message_wait_reads f p l lk Hdue Hs) as (c' & lk1 & -> & Hpass & Hsig & Hst & Hlen & Hd); [by rewrite Hs|].
    rewrite Hs in Hpass. rewrite Hpass, require_there. case_bool_decide as Hin.
    + destruct (IH l lk1) as (lk' & -> & Hp); [done|by rewrite Hst|unfold rounds; rewrite Hst; lia|].
      exists lk'. split; [done|]. by eapply passed_next.
    + eexists. split; [done|]. eapply passed_next; [done|]. apply passed_same; [done|done|right; rewrite Hst; simpl; lia].
Qed.

Lemma due_arrive chunk f l lk : due (chunk ++ f) l lk -> due f l (with_state (lk_state lk) (conn_arrive chunk (lk_connection lk)) lk).
Proof.
  unfold due. simpl. destruct (arrive_in chunk (lk_connection lk)) as [-> _]. rewrite <- (assoc_L (++)). done.
Qed.

Lemma arrival_delivers chunk f l lk : due (chunk ++ f) l lk -> exists lk', on_arrival cur_time vendor lk chunk = Done lk' /\ passed f l lk lk'.
Proof.
  intros Hdue. apply due_arrive in Hdue. unfold on_arrival. set (lk1 := with_state _ _ lk) in *.
  change (conn_arrive chunk (lk_connection lk)) with (lk_connection lk1).
  assert (Hgo : exists lk', (if (wanted (lk_state lk1) <=? length (conn_in (lk_connection lk1)))%nat
    then link_ready cur_time vendor (3 + length (conn_in (lk_connection lk1))) lk1 else Done lk1) = Done lk' /\ passed f l lk lk').
  { destruct (Nat.leb_spec (wanted (lk_state lk1)) (length (conn_in (lk_connection lk1)))) as [Hw|Hw].
    - destruct (ready_delivers (3 + length (conn_in (lk_connection lk1))) f l lk1 Hdue Hw) as (lk' & -> & Hp); [unfold rounds; case_match; lia|].
      exists lk'. split; [done|]. by eapply passed_shift; [|exact Hp].
    - exists lk1. split; [done|]. by apply passed_same; [..|right]. }
  destruct (lk_state lk1) eqn:Hs; try exact Hgo. by destruct Hdue as (_ & _ & Hd); rewrite Hs in Hd.
Qed.

Lemma arrivals_cons lk chunk chunks lk1 : on_arrival cur_time vendor lk chunk = Done lk1 ->
  arrivals cur_time vendor lk (chunk :: chunks) = arrivals cur_time vendor lk1 chunks.
Proof. unfold arrivals. simpl. by intros ->. Qed.

Lemma arrivals_deliver chunks f l lk : due (concat chunks ++ f) l lk -> waits lk ->
  exists lk', arrivals cur_time vendor lk chunks = Done lk' /\ passed f l lk lk'.
Proof.
  revert l lk. induction chunks as [|chunk chunks IH]; intros l lk Hdue Hw; simpl in Hdue.
  - exists lk. split; [done|]. by apply passed_same.
  - rewrite <- (assoc_L (++)) in Hdue. destruct (arrival_delivers _ _ _ _ Hdue) as (lk1 & Ha & (l1 & l2 & -> & Hs1 & Hd1 & Hw1)).
    destruct (IH l2 lk1 Hd1 Hw1) as (lk2 & Hr & (l3 & l4 & -> & Hs2 & Hd2 & Hw2)). exists lk2. split; [by erewrite arrivals_cons|].
    exists (l1 ++ l3), l4. split; [by rewrite (assoc_L (++))|]. split; [|done]. by rewrite Hs2, Hs1, map_app, (assoc_L (++)).
Qed.

(** Nothing on its way: everything was passed on. *)
Lemma due_nothing l lk : due [] l lk -> waits lk -> l = [] /\ conn_in (lk_connection lk) = [].
Proof.
  intros (_ & Hl & Hst) Hw. rewrite app_nil_r in Hst. unfold waits in Hw.
  assert (Hstream : conn_in (lk_connection lk) = stream l -> (length (conn_in (lk_connection lk)) < 2)%nat -> l = [] /\ conn_in (lk_connection lk) = []).
  { intros He Hlt. destruct l as [|p l]; [done|]. inversion Hl as [|? ? [(? & _ & Hb & _) _] _]. exfalso. unfold DHCP_FAILOVER_MIN_MESSAGE_SIZE in Hb.
    apply (f_equal length) in He. unfold stream in He. cbn [fmap list_fmap concat] in He. rewrite length_app in He. lia. }
  destruct (lk_state lk) as [| |len|]; [| | |done].
  - apply Hstream; [done|]. destruct Hw as [[_ ->]|Hw]; simpl in *; lia.
  - apply Hstream; [done|]. destruct Hw as [[? _]|Hw]; [done|]. simpl in Hw. lia.
  - destruct l as [|p l]; [done|]. destruct Hst as [-> Hin], Hw as [[? _]|Hw]; [done|]. simpl in Hw. exfalso.
    apply (f_equal length) in Hin. rewrite length_app, length_drop in Hin. lia.
Qed.

End Delivery.

End Reading.
