(* ===== verification/V4WireClaims.v ===== *)
(** * Failover: what one server tells the other

    The messages of one server, written to a connection and cut up by the network, are the ones the link of the other passes on; what
    the failover machine sends, the machine of the partner reads; and what happens to bytes that no server of this kind has sent. *)

From S2P Require Import Prelude BindingStates FailoverLeases V4State V4Wire V4WireProofs.

#[local] Open Scope Z_scope.

(** ** Sending *)

Section Sending.
Context {D : Type} `{Hlaws : ConnectionLaws D}.

Definition send_all (msgs : list outgoing) (c : D) : option D :=
  foldl (fun r o => c ← r; send_message (out_type o) (out_xid o) (out_time o) (out_options o) c) (Some c) msgs.

Lemma no_null outs : Forall (fun o => o <> Null) outs -> existsb (fun o => match o with Null => true | _ => false end) outs = false.
Proof. induction 1 as [|o outs Ho _ IH]; [done|]. simpl. rewrite IH. by destruct o. Qed.

Lemma send_message_bytes ty xid time opts outs c : mapM put_option opts = Some outs -> Forall (fun o => o <> Null) outs ->
  exists c', send_message ty xid time opts c = Some c' /\ conn_in c' = conn_in c /\
    conn_out c' = conn_out c ++ message_bytes ty time xid (flat_map option_bytes outs).
Proof.
  intros Ho Hnn. unfold send_message, put_message, message_bytes. rewrite Ho. cbn [mbind option_bind]. rewrite (no_null _ Hnn). eexists. split; [done|].
  rewrite put16_copyin, !put32_copyin. split; [by rewrite !(fun l c => proj2 (copyin_out l c))|].
  rewrite !(fun l c => proj1 (copyin_out l c)), <- !(assoc_L (++)). done.
Qed.

Lemma send_all_frames {C} `{ConnectionLaws C} msgs ms c : mapM deliverable msgs = Some ms ->
  exists c' l, send_all msgs c = Some c' /\ conn_in c' = conn_in c /\ conn_out c' = conn_out c ++ stream l /\ l.*2 = ms /\
    Forall (fun p => frame (C := C) (fst p) (snd p)) l.
Proof.
  intros Hd. apply mapM_Some in Hd. revert c. induction Hd as [|o m msgs ms Ho Hd IH]; intros c.
  - exists c, []. split; [done|]. split; [done|]. split; [symmetry; apply app_nil_r|done].
  - destruct (deliverable_frame (C := C) o m Ho) as (outs & Houts & Hnn & Hf).
    destruct (send_message_bytes (out_type o) (out_xid o) (out_time o) (out_options o) outs c Houts Hnn) as (c1 & Hs & Hin & Hout).
    destruct (IH c1) as (c' & l & Hall & Hin' & Hout' & Hl & Hfr).
    exists c', ((message_bytes (out_type o) (out_time o) (out_xid o) (flat_map option_bytes outs), m) :: l). unfold send_all in *. cbn [foldl].
    cbn [mbind option_bind]. rewrite Hs. split; [done|]. split; [congruence|]. split; [|split; [by rewrite fmap_cons, Hl|by constructor]].
    rewrite Hout', Hout, <- (assoc_L (++)). done.
Qed.

End Sending.

(** ** What the machine sends *)

(** The message of an event of the failover machine: [ip_addr] has the addresses of leases, [text] the texts of refusals. *)
Definition outgoing_of (cur_time : Z) (ip_addr : id -> list Z) (text : Z -> list Z) (ls : gmap id lease) (m : sent) : option outgoing :=
  match m with
  | S_state xid state flags stos => Some (mkOut FTM_STATE cur_time xid (state_options state flags stos))
  | S_bndupd xid l _ flags => s ← ls !! l; Some (mkOut FTM_BNDUPD cur_time xid (bndupd_options (ip_addr l) s flags))
  | S_bndack msg reason => Some (mkOut FTM_BNDACK cur_time (m_xid msg) (bndack_options msg reason (text reason)))
  | S_updreq xid => Some (mkOut FTM_UPDREQ cur_time xid [])
  | S_updreqall xid => Some (mkOut FTM_UPDREQALL cur_time xid [])
  | S_upddone xid => Some (mkOut FTM_UPDDONE cur_time xid [])
  | S_poolreq xid => Some (mkOut FTM_POOLREQ cur_time xid [])
  | S_poolresp xid n => Some (mkOut FTM_POOLRESP cur_time xid (poolresp_options n))
  | S_contact xid => Some (mkOut FTM_CONTACT cur_time xid [])
  | S_connectack _ _ | S_disconnect _ => None
  end.

(** Numbers and strings that fit their options *)
Definition u32_fits (l : list Z) : Prop := Forall (fun v => 0 <= v < 4294967296) l.
Definition bytes_fit (n : nat) (l : list Z) : Prop := bytes_ok l /\ (length l <= n)%nat.

Definition sendable (ip_addr : id -> list Z) (text : Z -> list Z) (ls : gmap id lease) (m : sent) : Prop :=
  match m with
  | S_state xid state flags stos => byte_ok state /\ byte_ok flags /\ u32_fits [xid; stos]
  | S_bndupd xid l _ flags =>
      exists s, ls !! l = Some s /\ byte_ok (l_desired_binding_state s) /\ 0 <= flags < 65536 /\ u32_fits [xid; l_ends s; l_tstp s; l_starts s; l_cltt s] /\
        bytes_ok (ip_addr l) /\ length (ip_addr l) = 4%nat /\ bytes_fit 800 (default [] (l_uid s)) /\ bytes_fit 20 (l_hbuf s)
  | S_bndack msg reason =>
      byte_ok reason /\ u32_fits [m_xid msg; m_assigned_addr msg] /\ bytes_fit 400 (text reason)
  | S_updreq xid | S_updreqall xid | S_upddone xid | S_poolreq xid | S_contact xid => u32_fits [xid]
  | S_poolresp xid n => u32_fits [xid; n]
  | S_connectack _ _ | S_disconnect _ => False
  end.

Definition present (msg : message) (b : Z) : bool := negb (Z.land (m_options_present msg) b =? 0).

(** What the partner reads of an event *)
Definition heard (ip_addr : id -> list Z) (ls : gmap id lease) (m : sent) (msg : message) : Prop :=
  match m with
  | S_state xid state flags stos =>
      m_type msg = FTM_STATE /\ m_xid msg = xid /\ m_server_state msg = state /\ m_server_flags msg = flags /\ m_stos msg = stos
  | S_bndupd xid l _ flags =>
      exists s, ls !! l = Some s /\ m_type msg = FTM_BNDUPD /\ m_xid msg = xid /\ m_assigned_addr msg = net_val (ip_addr l) /\
        m_binding_status msg = l_desired_binding_state s /\ m_client_identifier msg = default [] (l_uid s) /\ m_chaddr msg = l_hbuf s /\
        m_expiry msg = l_ends s /\ m_potential_expiry msg = l_tstp s /\ m_stos msg = l_starts s /\ m_cltt msg = l_cltt s /\ m_ip_flags msg = flags /\
        present msg FTB_CLIENT_IDENTIFIER = negb (bool_decide (default [] (l_uid s) = [])) /\ present msg FTB_CHADDR = negb (bool_decide (l_hbuf s = []))
  | S_bndack up reason =>
      m_type msg = FTM_BNDACK /\ m_xid msg = m_xid up /\ m_assigned_addr msg = m_assigned_addr up /\
      m_options_present msg = Z.lor FTB_ASSIGNED_IP_ADDRESS (if reason =? 0 then 0 else Z.lor FTB_REJECT_REASON FTB_MESSAGE)
  | S_updreq xid => m_type msg = FTM_UPDREQ /\ m_xid msg = xid
  | S_updreqall xid => m_type msg = FTM_UPDREQALL /\ m_xid msg = xid
  | S_upddone xid => m_type msg = FTM_UPDDONE /\ m_xid msg = xid
  | S_poolreq xid => m_type msg = FTM_POOLREQ /\ m_xid msg = xid
  | S_poolresp xid n => m_type msg = FTM_POOLRESP /\ m_xid msg = xid
  | S_contact xid => m_type msg = FTM_CONTACT /\ m_xid msg = xid
  | S_connectack _ _ | S_disconnect _ => False
  end.

Lemma fits_intro b v : 0 <= v < b -> fits b v = true.
Proof. intros. unfold fits. rewrite (proj2 (Z.leb_le _ _)), (proj2 (Z.ltb_lt _ _)); [done|lia..]. Qed.

Lemma all_fits l : bytes_ok l -> forallb (fits 256) l = true.
Proof. intros Hl. apply forallb_forall. intros b Hb. apply fits_intro. apply list_elem_of_In in Hb. revert b Hb. by apply Forall_forall. Qed.

(** One option *)
Lemma accepts_int ty code info allowed v :
  entry ft_options code = Some info -> entry fto_allowed ty = Some allowed -> (1 <=? code) && negb (Z.land allowed (oi_bit info) =? 0) = true ->
  oi_num_present info = 1 ->
  match oi_type info with FT_UINT8 => 0 <= v < 256 | FT_UINT16 => 0 <= v < 65536 | FT_UINT32 => 0 <= v < 4294967296 | _ => False end ->
  accepted ty (Make code (AInts [v])) = Some (code, [v]).
Proof.
  intros H1 H2 H3 H4 H5. unfold accepted, accepted_value, option_value. rewrite H1. cbn [mbind option_bind]. rewrite H2. cbn [mbind option_bind].
  rewrite H3, H4. destruct (oi_type info); try done; change (va_ints 1 [v]) with (Some [v]); cbn [mbind option_bind forallb]; by rewrite fits_intro.
Qed.

Lemma accepts_bytes ty code info allowed l :
  entry ft_options code = Some info -> entry fto_allowed ty = Some allowed -> (1 <=? code) && negb (Z.land allowed (oi_bit info) =? 0) = true ->
  (oi_type info = FT_BYTES \/ oi_type info = FT_TEXT) -> bytes_ok l -> accepted ty (Make code (ABytes l)) = Some (code, l).
Proof.
  intros H1 H2 H3 H4 H5. unfold accepted, accepted_value, option_value. rewrite H1. cbn [mbind option_bind]. rewrite H2. cbn [mbind option_bind].
  rewrite H3. destruct H4 as [->| ->]; by rewrite all_fits.
Qed.

Lemma accepts_addr ty info allowed l :
  entry ft_options FTO_ASSIGNED_IP_ADDRESS = Some info -> entry fto_allowed ty = Some allowed -> negb (Z.land allowed (oi_bit info) =? 0) = true ->
  bytes_ok l -> length l = 4%nat -> accepted ty (Make FTO_ASSIGNED_IP_ADDRESS (AAddr 4 l)) = Some (FTO_ASSIGNED_IP_ADDRESS, l).
Proof.
  intros H1 H2 H3 H4 H5. injection H1 as <-. unfold accepted, accepted_value. rewrite H2. cbn [mbind option_bind]. unfold entry.
  change (ft_options !! Z.to_nat FTO_ASSIGNED_IP_ADDRESS) with (Some (mkInfo FT_IPADDR 1 FTB_ASSIGNED_IP_ADDRESS)). cbn [mbind option_bind].
  cbn [oi_bit] in *. rewrite H3. unfold option_value. cbn [oi_type]. by rewrite H5, all_fits.
Qed.

Ltac accept := first [ eapply accepts_int; [reflexivity|reflexivity|reflexivity|reflexivity|cbn; unfold byte_ok in *; lia]
                     | eapply accepts_bytes; [reflexivity|reflexivity|reflexivity|cbn; auto|done]
                     | eapply accepts_addr; [reflexivity|reflexivity|reflexivity|done|done] ].

Lemma accept_if ty b o p : accepted ty o = Some p -> mapM (accepted ty) (only_if b o) = Some (if b then [p] else []).
Proof. intros Ho. destruct b; [|done]. simpl. by rewrite Ho. Qed.

Lemma accept_cons ty o p opts vals : accepted ty o = Some p -> mapM (accepted ty) opts = Some vals -> mapM (accepted ty) (o :: opts) = Some (p :: vals).
Proof. intros Ho Hv. simpl. by rewrite Ho, Hv. Qed.

Lemma accept_app ty opts opts' vals vals' :
  mapM (accepted ty) opts = Some vals -> mapM (accepted ty) opts' = Some vals' -> mapM (accepted ty) (opts ++ opts') = Some (vals ++ vals').
Proof. rewrite !mapM_Some. apply Forall2_app. Qed.

(** The message of a list of values *)
Definition read_back (name : list Z) (ty time xid : Z) (vals : list (Z * list Z)) : message :=
  to_message name (mkImsg ty time xid (bits vals.*1) (list_to_map vals)).

Lemma deliver_vals ty time xid opts vals :
  mapM (accepted ty) opts = Some vals -> NoDup vals.*1 -> 0 <= ty < 256 -> u32_fits [time; xid] ->
  (sum_list_with (fun p => 8 + length (snd p)) vals <= 2036)%nat ->
  deliverable (mkOut ty time xid opts) = Some (mkImsg ty time xid (bits vals.*1) (list_to_map vals)).
Proof.
  intros Hv Hnd Hty Hu Hs. inversion Hu as [|? ? Ht Hu']. inversion Hu' as [|? ? Hx _]. subst.
  by apply (deliverable_intro (C := list Z * list Z) (mkOut ty time xid opts)); [done..| | | |]; [apply fits_intro..|].
Qed.

Definition bndupd_vals (ip : list Z) (s : lease) (flags : Z) : list (Z * list Z) :=
  [(FTO_ASSIGNED_IP_ADDRESS, ip); (FTO_BINDING_STATUS, [l_desired_binding_state s])] ++
  (if negb (bool_decide (default [] (l_uid s) = [])) then [(FTO_CLIENT_IDENTIFIER, default [] (l_uid s))] else []) ++
  (if negb (bool_decide (l_hbuf s = [])) then [(FTO_CHADDR, l_hbuf s)] else []) ++
  [(FTO_LEASE_EXPIRY, [l_ends s]); (FTO_POTENTIAL_EXPIRY, [l_tstp s]); (FTO_STOS, [l_starts s])] ++
  (if negb (l_cltt s =? 0) then [(FTO_CLTT, [l_cltt s])] else []) ++ (if negb (flags =? 0) then [(FTO_IP_FLAGS, [flags])] else []).

Ltac accept_all := repeat first [apply accept_app | apply accept_if | eapply accept_cons | reflexivity | accept].

Lemma bndupd_accepted ip s flags :
  byte_ok (l_desired_binding_state s) -> 0 <= flags < 65536 -> u32_fits [l_ends s; l_tstp s; l_starts s; l_cltt s] ->
  bytes_ok ip -> length ip = 4%nat -> bytes_ok (default [] (l_uid s)) -> bytes_ok (l_hbuf s) ->
  mapM (accepted FTM_BNDUPD) (bndupd_options ip s flags) = Some (bndupd_vals ip s flags).
Proof.
  intros Hst Hfl Hu Hip Hlen Huid Hhw. unfold u32_fits in Hu. rewrite !Forall_cons in Hu. destruct Hu as (? & ? & ? & ? & _).
  unfold bndupd_options, bndupd_vals. rewrite Hlen. accept_all.
Qed.

(** Codes that stand once in a list *)
Ltac each_once := repeat case_match; apply (bool_decide_unpack _); vm_compute; reflexivity.

Lemma bndupd_once ip s flags : NoDup (bndupd_vals ip s flags).*1.
Proof. unfold bndupd_vals. each_once. Qed.

Lemma bndupd_size ip s flags : length ip = 4%nat -> (length (default [] (l_uid s)) <= 800)%nat -> (length (l_hbuf s) <= 20)%nat ->
  (sum_list_with (fun p => 8 + length (snd p)) (bndupd_vals ip s flags) <= 2036)%nat.
Proof. intros. unfold bndupd_vals. repeat case_match; simpl; lia. Qed.

Lemma bndupd_read name time xid ip s flags :
  let msg := read_back name FTM_BNDUPD time xid (bndupd_vals ip s flags) in
  m_type msg = FTM_BNDUPD /\ m_xid msg = xid /\ m_assigned_addr msg = net_val ip /\
  m_binding_status msg = l_desired_binding_state s /\ m_client_identifier msg = default [] (l_uid s) /\ m_chaddr msg = l_hbuf s /\
  m_expiry msg = l_ends s /\ m_potential_expiry msg = l_tstp s /\ m_stos msg = l_starts s /\ m_cltt msg = l_cltt s /\ m_ip_flags msg = flags /\
  present msg FTB_CLIENT_IDENTIFIER = negb (bool_decide (default [] (l_uid s) = [])) /\ present msg FTB_CHADDR = negb (bool_decide (l_hbuf s = [])).
Proof.
  unfold bndupd_vals.
  destruct (bool_decide (default [] (l_uid s) = [])) eqn:H1, (bool_decide (l_hbuf s = [])) eqn:H2, (l_cltt s =? 0) eqn:H3, (flags =? 0) eqn:H4;
    try apply bool_decide_eq_true in H1; try apply bool_decide_eq_true in H2; try apply Z.eqb_eq in H3; try apply Z.eqb_eq in H4;
    simpl app; split_and!; try reflexivity; try (symmetry; assumption).
Qed.

Definition bndack_vals (up : message) (reason : Z) (text : list Z) : list (Z * list Z) :=
  [(FTO_ASSIGNED_IP_ADDRESS, net_bytes 4 (m_assigned_addr up))] ++
  (if negb (reason =? 0) then [(FTO_REJECT_REASON, [reason])] else []) ++ (if negb (reason =? 0) then [(FTO_MESSAGE, text)] else []).

Lemma net_bytes_ok n v : bytes_ok (net_bytes n v).
Proof. apply Forall_reverse, le_bytes_ok. Qed.

Lemma bndack_accepted up reason text : byte_ok reason -> bytes_ok text ->
  mapM (accepted FTM_BNDACK) (bndack_options up reason text) = Some (bndack_vals up reason text).
Proof.
  intros Hr Htx. pose proof (net_bytes_ok 4 (m_assigned_addr up)). pose proof (net_bytes_length 4 (m_assigned_addr up)).
  unfold bndack_options, bndack_vals. accept_all.
Qed.

Lemma bndack_once up reason text : NoDup (bndack_vals up reason text).*1.
Proof. unfold bndack_vals. destruct (negb (reason =? 0)); each_once. Qed.

Lemma bndack_size up reason text : (length text <= 400)%nat -> (sum_list_with (fun p => 8 + length (snd p)) (bndack_vals up reason text) <= 2036)%nat.
Proof. intros. unfold bndack_vals. destruct (negb (reason =? 0)); simpl; lia. Qed.

Lemma bndack_read name time up reason text : 0 <= m_assigned_addr up < 4294967296 ->
  let msg := read_back name FTM_BNDACK time (m_xid up) (bndack_vals up reason text) in
  m_type msg = FTM_BNDACK /\ m_xid msg = m_xid up /\ m_assigned_addr msg = m_assigned_addr up /\
  m_options_present msg = Z.lor FTB_ASSIGNED_IP_ADDRESS (if reason =? 0 then 0 else Z.lor FTB_REJECT_REASON FTB_MESSAGE).
Proof.
  intros Ha. assert (He : net_val (net_bytes 4 (m_assigned_addr up)) = m_assigned_addr up) by (by apply net_bytes_val).
  unfold bndack_vals. destruct (reason =? 0); split_and!; first [exact He | reflexivity].
Qed.

Lemma u32_two a b : 0 <= a < 4294967296 -> 0 <= b < 4294967296 -> u32_fits [a; b].
Proof. intros. constructor; [done|]. by constructor. Qed.

(** Every event of the machine is written as a message that the partner reads as it was meant. *)
Lemma sent_heard name cur_time ip_addr text ls m : 0 <= cur_time < 4294967296 -> sendable ip_addr text ls m ->
  exists o im, outgoing_of cur_time ip_addr text ls m = Some o /\ deliverable o = Some im /\ i_type im <> FTM_CONNECT /\ heard ip_addr ls m (to_message name im).
Proof.
  intros Ht Hs.
  assert (Hplain : forall ty xid, 0 <= ty < 256 -> u32_fits [xid] -> deliverable (mkOut ty cur_time xid []) = Some (mkImsg ty cur_time xid 0 ∅)).
  { intros ty xid Hty Hx. apply (deliver_vals ty cur_time xid [] []); [done|constructor|done| |simpl; lia]. by constructor. }
  destruct m as [xid st fl stos|xid l st fl|up reason|xid|xid|xid|xid|xid n|xid|?|?]; simpl in Hs; try done;
    try solve [eexists _, _; split; [reflexivity|]; split; [by apply Hplain|]; split; [discriminate|]; split; reflexivity].
  - destruct Hs as (H1 & H2 & Hu). unfold u32_fits in Hu. rewrite !Forall_cons in Hu. destruct Hu as (? & ? & _). eexists _, _. split; [reflexivity|].
    split; [apply (deliver_vals _ _ _ _ [(FTO_SERVER_STATE, [st]); (FTO_SERVER_FLAGS, [fl]); (FTO_STOS, [stos])]); [unfold state_options; accept_all|each_once|done|by apply u32_two|simpl; lia]|].
    split; [discriminate|]. split_and!; reflexivity.
  - destruct Hs as (s & Hs & H1 & H2 & Hu & H3 & H4 & [H5 H6] & H7 & H8). apply Forall_cons in Hu as [Hx Hu]. eexists _, _. simpl. rewrite Hs.
    split; [reflexivity|]. split; [apply (deliver_vals _ _ _ _ (bndupd_vals (ip_addr l) s fl)); [by apply bndupd_accepted|apply bndupd_once|done|by apply u32_two|by apply bndupd_size]|].
    split; [discriminate|]. exists s. split; [done|]. apply bndupd_read.
  - destruct Hs as (H3 & Hu & [H8 H9]). apply Forall_cons in Hu as [Hx Hu]. apply Forall_cons in Hu as [Ha Hu]. eexists _, _.
    split; [reflexivity|]. split; [apply (deliver_vals _ _ _ _ (bndack_vals up reason (text reason))); [by apply bndack_accepted|apply bndack_once|done|by apply u32_two|by apply bndack_size]|].
    split; [discriminate|]. by apply bndack_read.
  - unfold u32_fits in Hs. rewrite !Forall_cons in Hs. destruct Hs as (? & ? & _). eexists _, _. split; [reflexivity|].
    split; [apply (deliver_vals _ _ _ _ [(FTO_ADDRESSES_TRANSFERRED, [n])]); [unfold poolresp_options; accept_all|each_once|done|by apply u32_two|simpl; lia]|].
    split; [discriminate|]. split; reflexivity.
Qed.

(** ** CONNECT *)

Definition connect_vals (name : list Z) (max_flying_updates max_response_delay : Z) (vendor : list Z) (mclt : Z) (hba : option (list Z)) : list (Z * list Z) :=
  [(FTO_RELATIONSHIP_NAME, name); (FTO_MAX_UNACKED, [max_flying_updates]); (FTO_RECEIVE_TIMER, [max_response_delay]); (FTO_VENDOR_CLASS, vendor);
   (FTO_PROTOCOL_VERSION, [DHCP_FAILOVER_VERSION]); (FTO_TLS_REQUEST, [0]); (FTO_MCLT, [mclt])] ++
  match hba with Some h => [(FTO_HBA, h)] | None => [] end.

Lemma connect_delivered name mfu mrd vendor mclt hba time xid :
  bytes_fit 800 name -> bytes_fit 200 vendor -> bytes_fit 400 (default [] hba) -> u32_fits [mfu; mrd; mclt] -> u32_fits [time; xid] ->
  deliverable (mkOut FTM_CONNECT time xid (connect_options name mfu mrd vendor mclt hba)) =
    Some (mkImsg FTM_CONNECT time xid (bits (connect_vals name mfu mrd vendor mclt hba).*1) (list_to_map (connect_vals name mfu mrd vendor mclt hba))).
Proof.
  intros [Hn Hnl] [Hv Hvl] [Hh Hhl] Hu Htx. unfold u32_fits in Hu. rewrite !Forall_cons in Hu. destruct Hu as (? & ? & ? & _).
  assert (Hver : 0 <= DHCP_FAILOVER_VERSION < 256) by done. apply deliver_vals; [| | done | done |].
  - unfold connect_options, connect_vals. apply accept_app; [accept_all|]. destruct hba; accept_all.
  - unfold connect_vals. destruct hba; each_once.
  - unfold connect_vals. destruct hba; simpl in *; lia.
Qed.

(** The refusal of a CONNECT for a relationship that is not there, without the name *)
Lemma refusal_accepted vendor tls reason text : bytes_ok vendor -> bytes_ok text -> byte_ok reason -> reason <> 0 ->
  mapM (accepted FTM_CONNECTACK) (connectack_options None None vendor tls reason (Some text)) =
    Some ([(FTO_VENDOR_CLASS, vendor); (FTO_PROTOCOL_VERSION, [DHCP_FAILOVER_VERSION])] ++ (if tls then [(FTO_TLS_REPLY, [0])] else []) ++
          [(FTO_REJECT_REASON, [reason]); (FTO_MESSAGE, text)]).
Proof.
  intros Hv Ht Hr Hne. unfold connectack_options. cbn [app]. rewrite (proj2 (Z.eqb_neq _ _) Hne). cbn [negb only_if app].
  assert (Hver : 0 <= DHCP_FAILOVER_VERSION < 256) by done. do 2 (eapply accept_cons; [accept|]).
  apply accept_app; [destruct tls; reflexivity|]. accept_all.
Qed.

(** ** Claims *)

Section Claims.
Context {C D : Type} `{HC : ConnectionLaws C} `{HD : ConnectionLaws D} (cur_time : Z) (vendor : list Z) (i : nat).

(** A link of relationship [i] between two messages *)
Definition idle (lk : link C) : Prop :=
  (lk_state lk = flink_start \/ lk_state lk = flink_message_length_wait) /\ lk_state_object lk = Some i /\ conn_in (lk_connection lk) = [].

Lemma delivered msgs ms (c : D) : mapM deliverable msgs = Some ms -> Forall (fun m => i_type m <> FTM_CONNECT) ms -> conn_out c = [] ->
  exists c', send_all msgs c = Some c' /\
    forall chunks lk, idle lk -> concat chunks = conn_out c' ->
    exists lk', arrivals cur_time vendor lk chunks = Done lk' /\ lk_signals lk' = lk_signals lk ++ map (pair i) ms /\ idle lk'.
Proof.
  intros Hd Hty Hc. destruct (send_all_frames (C := C) msgs ms c Hd) as (c' & l & Hs & _ & Hout & Hl & Hf). exists c'. split; [done|].
  intros chunks lk (H1 & H2 & H3) Hch. rewrite Hout, Hc, (left_id_L [] (++)) in Hch.
  destruct (arrivals_deliver cur_time vendor i chunks [] l lk) as (lk' & Ha & (l1 & l2 & -> & Hsig & Hdue & Hw)).
  - split; [done|]. split; [|by destruct H1 as [-> | ->]; rewrite H3, Hch, app_nil_r].
    rewrite <- Hl in Hty. rewrite Forall_fmap in Hty. apply Forall_and. split; [exact Hf|exact Hty].
  - destruct H1 as [H1|H1]; [by left|right]. rewrite H1, H3. simpl. lia.
  - destruct (due_nothing i l2 lk' Hdue Hw) as [-> Hin]. exists lk'. split; [done|]. split.
    + rewrite Hsig, app_nil_r in *. rewrite <- Hl, <- list_fmap_compose. done.
    + destruct Hdue as (Ho & _ & Hst). split; [|done]. destruct (lk_state lk'); auto; done.
Qed.

(** C9: messages whose options are made from values that fit them (known codes, allowed in messages of that type, each at most once, together
    no longer than a message may be), other than CONNECT, that are written to a connection one after the other are passed on by the link of
    the other server exactly and in their order, however the network cuts them up, and nothing of them is left over.  The link is one
    of a known relationship that waits for a message.  A message with an option handed on as bare bytes, as the refusal of an unknown
    relationship has it, is not such a message. *)
Theorem messages_delivered msgs ms (c : D) :
  mapM deliverable msgs = Some ms -> Forall (fun m => i_type m <> FTM_CONNECT) ms -> conn_out c = [] ->
  exists c', send_all msgs c = Some c' /\
    forall chunks lk, idle lk -> concat chunks = conn_out c' ->
    exists lk', arrivals cur_time vendor lk chunks = Done lk' /\ lk_signals lk' = lk_signals lk ++ map (pair i) ms /\ idle lk'.
Proof. apply delivered. Qed.

Section Hearing.
Context (name : list Z) (ip_addr : id -> list Z) (text : Z -> list Z).

(** What is sent, with the time and the leases when it is sent *)
Definition outgoing_at (p : Z * gmap id lease * sent) : option outgoing := outgoing_of p.1.1 ip_addr text p.1.2 p.2.

Lemma all_heard l : Forall (fun p => 0 <= p.1.1 < 4294967296 /\ sendable ip_addr text p.1.2 p.2) l ->
  exists msgs ms, mapM outgoing_at l = Some msgs /\ mapM deliverable msgs = Some ms /\ Forall (fun m => i_type m <> FTM_CONNECT) ms /\
    Forall2 (fun p m => heard ip_addr p.1.2 p.2 (to_message name m)) l ms.
Proof.
  setoid_rewrite mapM_Some. induction 1 as [|[[now ls] m] l [Ht Hs] _ (msgs & ms & H1 & H2 & H3 & H4)].
  - exists [], []. done.
  - destruct (sent_heard name now ip_addr text ls m Ht Hs) as (o & im & Ho & Hd & Hty & Hh). exists (o :: msgs), (im :: ms).
    split_and!; by constructor.
Qed.


End Hearing.

(** C16: whatever bytes a partner sends, a message of a known type whose payload starts within it is either refused or read up to its last
    byte and not a byte further; nothing is read that is not there. *)
Theorem reading_total imsg_len ty off (c : C) rest :
  bytes_ok (conn_in c) -> conn_in c = ty :: off :: rest -> ty < 13 -> 12 <= off <= imsg_len -> imsg_len - 2 <= Z.of_nat (length (conn_in c)) ->
  read_message imsg_len c = ProtocolError \/
  exists m c', read_message imsg_len c = Done (m, c') /\ conn_in c' = drop (Z.to_nat (imsg_len - 2)) (conn_in c) /\ conn_out c' = conn_out c /\ i_type m = ty.
Proof.
  intros H1 H2 H3 H4 H5. destruct (read_message_safe imsg_len ty off c rest H1 H2 H3 H4 H5) as [Hr|(l & m & c' & Hr & [Hin Hout] & Hl & Hm)]; [by left|right].
  exists m, c'. split; [done|]. split; [|done]. rewrite Hin. replace (Z.to_nat (imsg_len - 2)) with (length l) by lia. by rewrite drop_app_length.
Qed.

Ltac closes := cbn; split; [done|intros _; split_and!; done].

(** A CONNECT of the primary is taken by a secondary that has the relationship, if the clocks are at most a minute apart and there are
    hash buckets with it: the buckets are stored and the message is passed on; any other CONNECT closes the link, and nothing else changes. *)
Theorem connect_checked name mfu mrd vendor' mclt hba time xid (lk : link C) :
  bytes_fit 800 name -> bytes_fit 200 vendor' -> bytes_fit 400 (default [] hba) -> u32_fits [mfu; mrd; mclt] -> u32_fits [time; xid] ->
  exists m, deliverable (mkOut FTM_CONNECT time xid (connect_options name mfu mrd vendor' mclt hba)) = Some m /\
    let '(lk', closed) := pass_on cur_time vendor m lk in
    match find_state 0 (lk_failover_states lk) name, hba with
    | Some j, Some h =>
        if (Z.abs (cur_time - time) <=? 60) && (length h =? 32)%nat then
          closed = false /\ lk_connection lk' = lk_connection lk /\ lk_failover_states lk' = alter (set_r_hba h) j (lk_failover_states lk) /\
          lk_signals lk' = lk_signals lk ++ [(default j (lk_state_object lk), m)]
        else closed = true
    | _, _ => closed = true
    end /\
    (closed = true -> lk_state lk' = flink_disconnected /\ lk_failover_states lk' = lk_failover_states lk /\ lk_signals lk' = lk_signals lk).
Proof.
  intros H1 H2 H3 H4 H5. eexists. split; [by apply connect_delivered|]. unfold pass_on, associate, check_connect. cbn [i_type i_options_present i_members i_time].
  change (negb (FTM_CONNECT =? FTM_CONNECT)) with false. cbv iota.
  assert (Hb : (Z.land (bits (connect_vals name mfu mrd vendor' mclt hba).*1) FTB_RELATIONSHIP_NAME =? 0) = false) by (destruct hba; reflexivity).
  assert (Hn : (list_to_map (connect_vals name mfu mrd vendor' mclt hba) : gmap Z (list Z)) !! FTO_RELATIONSHIP_NAME = Some name) by (destruct hba; reflexivity).
  rewrite Hb, Hn. change (default [] (Some name)) with name. destruct (find_state 0 (lk_failover_states lk) name) as [j|] eqn:Hj; [|closes].
  assert (Htime : ((time <? cur_time) && (60 <? cur_time - time)) || ((cur_time <? time) && (60 <? time - cur_time)) = negb (Z.abs (cur_time - time) <=? 60)).
  { destruct (Z.ltb_spec time cur_time), (Z.ltb_spec cur_time time), (Z.ltb_spec 60 (cur_time - time)), (Z.ltb_spec 60 (time - cur_time)),
      (Z.leb_spec (Z.abs (cur_time - time)) 60); simpl; try done; lia. }
  rewrite Htime. destruct (Z.abs (cur_time - time) <=? 60); cbn [negb andb]; [|destruct hba; closes].
  destruct hba as [h|]; [|closes].
  change (Z.land (bits (connect_vals name mfu mrd vendor' mclt (Some h)).*1) FTB_HBA =? 0) with false.
  assert (Hh : (list_to_map (connect_vals name mfu mrd vendor' mclt (Some h)) : gmap Z (list Z)) !! FTO_HBA = Some h) by done.
  rewrite Hh. change (default [] (Some h)) with h. cbn [orb]. destruct (length h =? 32)%nat; simpl; [|closes]. split; [|done]. by destruct (lk_state_object lk).
Qed.

(** Bytes of text where the code and the length of an option should be *)
Lemma text_is_no_option imsg_len count m (c : C) n0 n1 n2 n3 rest :
  conn_in c = n0 :: n1 :: n2 :: n3 :: rest -> 32 <= n2 -> 0 <= n3 -> imsg_len <= 2048 -> 0 <= count -> count + 4 <= imsg_len ->
  do_a_failover_option imsg_len count m c = ProtocolError.
Proof.
  intros Hin H2 H3 Hlen Hc Hfit. unfold do_a_failover_option. rewrite (proj2 (Z.ltb_ge _ _)) by lia.
  destruct (copyout_app [n0; n1] (n2 :: n3 :: rest) c Hin) as (c1 & Hc1 & _ & Hin1).
  destruct (copyout_app [n2; n3] rest c1 Hin1) as (c2 & Hc2 & _ & _). rewrite get16_copyout. simpl in Hc1, Hc2. rewrite Hc1.
  cbn [got mbind outcome_bind fst snd]. rewrite (proj2 (Z.ltb_ge _ _)) by lia. rewrite get16_copyout, Hc2. cbn [got mbind outcome_bind fst snd].
  rewrite (proj2 (Z.ltb_lt _ _)); [done|]. unfold net_val. cbn [reverse rev_append le_val]. lia.
Qed.

(** A message that begins with text *)
Lemma text_unreadable ty time xid n0 n1 n2 n3 more :
  32 <= n2 -> 0 <= n3 -> let opbuf := n0 :: n1 :: n2 :: n3 :: more in
  Z.of_nat (length opbuf) + 12 <= 2048 ->
  forall (c : C) rest, conn_in c = ([ty] ++ [12] ++ net_bytes 4 time ++ net_bytes 4 xid ++ opbuf) ++ rest ->
  read_message (Z.of_nat (length opbuf) + 12) c = ProtocolError.
Proof.
  intros H2 H3 opbuf Hlen c rest Hc.
  destruct (header_took ty 12 c (net_bytes 4 time ++ net_bytes 4 xid ++ opbuf ++ rest)) as (time' & xid' & c1 & l & [Hl _] & Hl10 & ->).
  - rewrite Hc. by rewrite <- !(assoc_L (++)).
  - rewrite !length_app, !net_bytes_length. lia.
  - change (negb (12 - 12 =? 0)) with false. cbv iota. cbn [read_options]. rewrite (proj2 (Z.ltb_lt _ _)) by (unfold opbuf; simpl; lia).
    assert (Hin1 : conn_in c1 = opbuf ++ rest).
    { rewrite Hc in Hl. apply (f_equal (drop 10)) in Hl. rewrite (drop_app_length' l) in Hl by done. rewrite <- Hl, !(assoc_L (++)), <- (assoc_L (++)).
      apply drop_app_length'. by rewrite !length_app, !net_bytes_length. }
    rewrite (text_is_no_option _ _ _ _ _ _ _ _ _ Hin1); [done|done|done|lia|lia|]. unfold opbuf. simpl. lia.
Qed.

(** A server that refuses a CONNECT because it does not know the relationship answers with a CONNECTACK that has the bare name where an option should
    be: for any name in text no partner can read it, so none ever learns the reason. *)
Theorem refusal_unreadable m name n0 n1 n2 n3 tl (lk : link C) :
  i_type m = FTM_CONNECT -> Z.land (i_options_present m) FTB_RELATIONSHIP_NAME <> 0 -> i_members m !! FTO_RELATIONSHIP_NAME = Some name ->
  find_state 0 (lk_failover_states lk) name = None ->
  name = n0 :: n1 :: n2 :: n3 :: tl -> 32 <= n2 -> 0 <= n3 -> (length name <= 800)%nat -> bytes_fit 200 vendor ->
  exists lk' payload, pass_on cur_time vendor m lk = (lk', true) /\
    let imsg_len := Z.of_nat (length payload) + 2 in
    conn_out (lk_connection lk') = conn_out (lk_connection lk) ++ net_bytes 2 imsg_len ++ payload /\
    forall (c : C) rest, conn_in c = payload ++ rest -> read_message imsg_len c = ProtocolError.
Proof.
  intros Hty Hbit Hname Hfind Hn H2 H3 Hlen [Hv Hvl]. unfold pass_on, associate, check_connect. rewrite Hty. change (negb (FTM_CONNECT =? FTM_CONNECT)) with false.
  cbv iota. rewrite (proj2 (Z.eqb_neq _ _) Hbit), Hname. change (default [] (Some name)) with name. rewrite Hfind.
  set (text := bytes_of_string "unknown failover relationship name"). assert (Ht : bytes_ok text) by (apply (bool_decide_unpack _); vm_compute; reflexivity).
  set (tls := negb (Z.land (i_options_present m) FTB_TLS_REQUEST =? 0)).
  assert (Hacc := refusal_accepted vendor tls FTR_INVALID_PARTNER text Hv Ht ltac:(done) ltac:(done)).
  destruct (options_are_read (C := C) _ _ _ Hacc) as (outs & Ho & Hnn & _ & Hsz & _); [destruct tls; each_once|].
  destruct (send_message_bytes FTM_CONNECTACK (i_xid m) cur_time (Raw name :: connectack_options None None vendor tls FTR_INVALID_PARTNER (Some text))
    (Opt name :: outs) (lk_connection lk)) as (c' & Hs & Hin & Hout); [cbn [mapM put_option]; cbn [mbind option_bind]; by rewrite Ho|by constructor|].
  assert (Hob : flat_map option_bytes (Opt name :: outs) = n0 :: n1 :: n2 :: n3 :: (tl ++ flat_map option_bytes outs)) by (rewrite Hn; done).
  rewrite Hob in Hout. clear Hob. set (more := tl ++ flat_map option_bytes outs) in *.
  assert (Hb : (length more <= 1200)%nat).
  { unfold more. rewrite length_app. assert (length tl <= 796)%nat by (rewrite Hn in Hlen; simpl in Hlen; lia). destruct tls; simpl in Hsz; lia. }
  exists (with_state flink_disconnected c' lk), ([u8 FTM_CONNECTACK] ++ [12] ++ net_bytes 4 cur_time ++ net_bytes 4 (i_xid m) ++ n0 :: n1 :: n2 :: n3 :: more).
  cbv zeta. rewrite !length_app, !net_bytes_length. cbn [length].
  replace (Z.of_nat (1 + (1 + (4 + (4 + S (S (S (S (length more)))))))) + 2) with (Z.of_nat (length (n0 :: n1 :: n2 :: n3 :: more)) + 12) by (simpl; lia).
  split; [|split; [exact Hout|apply text_unreadable; [done|done|simpl; lia]]].
  unfold dhcp_failover_send_connectack. cbn [mbind option_bind fmap option_fmap option_map]. rewrite (proj2 (Z.eqb_neq _ _) Hbit), Hname. fold tls. fold text.
  change (connectack_options None (Some name) vendor tls FTR_INVALID_PARTNER (Some text))
    with (Raw name :: connectack_options None None vendor tls FTR_INVALID_PARTNER (Some text)). by rewrite Hs.
Qed.

(** The code and the length of an option *)
Lemma option_starts imsg_len count m (c : C) code len rest :
  conn_in c = net_bytes 2 code ++ net_bytes 2 len ++ rest -> 0 <= code < 65536 -> 0 <= len < 65536 -> count + 4 + len <= imsg_len ->
  exists c', conn_in c' = rest /\ do_a_failover_option imsg_len count m c = option_body imsg_len (count + 4) code len m c'.
Proof.
  intros Hin Hc Hl Hfit. unfold do_a_failover_option. rewrite (proj2 (Z.ltb_ge _ _)) by lia.
  destruct (get16_app code _ c Hc Hin) as (c1 & -> & _ & Hin1). cbn [got mbind outcome_bind fst snd]. rewrite (proj2 (Z.ltb_ge _ _)) by lia.
  destruct (get16_app len _ c1 Hl Hin1) as (c2 & -> & _ & Hin2). cbn [got mbind outcome_bind fst snd]. rewrite (proj2 (Z.ltb_ge _ _)) by lia.
  exists c2. split; [done|]. f_equal. lia.
Qed.

(** The type of a message is not checked before it is used as an index: the first option that is known, in a message of a type that is not, is looked up
    behind the end of the table of allowed options. *)
Theorem type_unchecked imsg_len count m (c : C) code len rest :
  conn_in c = net_bytes 2 code ++ net_bytes 2 len ++ rest -> 1 <= code <= 29 -> 0 <= len < 65536 -> count + 4 + len <= imsg_len ->
  13 <= i_type m -> i_options_present m = 0 -> do_a_failover_option imsg_len count m c = Undefined.
Proof.
  intros Hin Hc Hl Hfit Hty Hp. destruct (option_starts imsg_len count m c code len rest Hin) as (c' & _ & ->); [lia|lia|lia|].
  unfold option_body. destruct (lookup_lt_is_Some_2 ft_options (Z.to_nat code)) as [info Hinfo]; [simpl; lia|]. change (entry ft_options code = Some info) in Hinfo.
  rewrite Hinfo. destruct (ft_options_bit code info Hinfo) as (Hb & _ & Hu); [lia|]. rewrite (bool_decide_eq_false_2 _ Hu).
  assert (Hd : oi_type info <> FT_DIGEST) by (apply ft_options_shape in Hinfo; unfold shape_ok in Hinfo; by destruct (oi_type info)).
  rewrite (bool_decide_eq_false_2 _ Hd), Hp, Z.land_0_l. simpl. rewrite Hb, (proj2 (Z.eqb_neq (2 ^ code) 0)) by lia. simpl.
  assert (Hal : entry fto_allowed (i_type m) = None) by (apply lookup_ge_None_2; simpl; lia). by rewrite Hal.
Qed.

(** The option for the names of a client in the DNS ends the connection whatever it has in it, though updates may carry it: its
    elements have no size in the table, and one of them is expected. *)
Theorem ddns_refused imsg_len count m (c : C) len rest :
  conn_in c = net_bytes 2 9 ++ net_bytes 2 len ++ rest -> 0 <= len < 65536 -> count + 4 + len <= imsg_len ->
  i_type m = FTM_BNDUPD \/ i_type m = FTM_BNDACK -> do_a_failover_option imsg_len count m c = ProtocolError.
Proof.
  intros Hin Hl Hfit Hty. destruct (option_starts imsg_len count m c 9 len rest Hin) as (c' & _ & ->); [lia|lia|lia|].
  unfold option_body. change (entry ft_options 9) with (Some (mkInfo FT_DDNS 1 FTB_DDNS)). cbn [oi_type oi_bit oi_num_present].
  rewrite !bool_decide_eq_false_2 by done. destruct (negb _); [done|]. destruct Hty as [-> | ->]; cbn; by destruct len.
Qed.

End Claims.

(** ** Examples *)

Definition ex_conn : list Z * list Z := ([], []).
Definition ex_name : list Z := bytes_of_string "pool".
Definition ex_link : link (list Z * list Z) := mkLink flink_message_length_wait (Some 0%nat) [mkRelation ex_name 10 60 None] ex_conn [].
Definition ex_wire_lease : lease := mkLease 100 400 400 100 700 400 0 0 2 2 2 2 7 (Some [1; 2; 3]) [1; 170; 187; 204; 221; 238; 255] false (Some 1%positive) None None None None.
Definition ex_ip (_ : id) : list Z := [10; 0; 0; 5].
Definition ex_sent : list (Z * gmap id lease * sent) := [((200, ∅), S_state 7 2 0 100); ((201, {[1%positive := ex_wire_lease]}), S_bndupd 8 1%positive 2 0)].

Lemma messages_delivered_witness :
  exists c', send_all [mkOut FTM_CONTACT 200 7 []; mkOut FTM_STATE 200 8 (state_options 2 0 100)] ex_conn = Some c' /\
    exists lk', arrivals 201 [] ex_link (map (fun b => [b]) (conn_out c')) = Done lk' /\ length (lk_signals lk') = 2%nat.
Proof.
  destruct (messages_delivered (C := list Z * list Z) (D := list Z * list Z) 201 [] 0
    [mkOut FTM_CONTACT 200 7 []; mkOut FTM_STATE 200 8 (state_options 2 0 100)]
    [mkImsg FTM_CONTACT 200 7 0 ∅; mkImsg FTM_STATE 200 8 (bits [24; 23; 25]) (list_to_map [(24, [2]); (23, [0]); (25, [100])])] ex_conn)
    as (c' & Hs & Hd); [vm_compute; reflexivity | by repeat constructor | reflexivity |].
  exists c'. split; [exact Hs|]. destruct (Hd (map (fun b => [b]) (conn_out c')) ex_link) as (lk' & Ha & Hsig & _).
  - split_and!; auto.
  - clear. induction (conn_out c') as [|b l IH]; simpl; congruence.
  - exists lk'. split; [exact Ha|]. by rewrite Hsig.
Defined.


Lemma reading_total_witness :
  read_message 16 ([11; 12; 0; 0; 0; 1; 0; 0; 0; 2; 0; 3; 0; 9; 1; 1], []) = ProtocolError \/
  exists m c', read_message 16 ([11; 12; 0; 0; 0; 1; 0; 0; 0; 2; 0; 3; 0; 9; 1; 1], []) = Done (m, c') /\ conn_in c' = [1; 1] /\ i_type m = 11.
Proof.
  destruct (reading_total 16 11 12 (([11; 12; 0; 0; 0; 1; 0; 0; 0; 2; 0; 3; 0; 9; 1; 1], []) : list Z * list Z) [0; 0; 0; 1; 0; 0; 0; 2; 0; 3; 0; 9; 1; 1])
    as [Hr|(m & c' & Hr & Hin & _ & Hm)]; [apply (bool_decide_unpack _); vm_compute; reflexivity | reflexivity | lia | lia | simpl; lia | by left | right].
  exists m, c'. split; [exact Hr|]. split; [exact Hin|exact Hm].
Defined.

Lemma connect_checked_witness :
  exists m, deliverable (mkOut FTM_CONNECT 200 1 (connect_options ex_name 10 60 [105] 300 (Some (replicate 32 255)))) = Some m /\
    snd (pass_on 230 [] m ex_link) = false.
Proof.
  destruct (connect_checked (C := list Z * list Z) 230 [] ex_name 10 60 [105] 300 (Some (replicate 32 255)) 200 1 ex_link) as (m & Hm & Hp).
  1,2,3: split; [apply (bool_decide_unpack _); vm_compute; reflexivity|simpl; lia].
  - constructor; [done|]. by apply u32_two.
  - by apply u32_two.
  - exists m. split; [exact Hm|]. destruct (pass_on 230 [] m ex_link) as [lk' closed]. destruct Hp as [Hp _]. simpl in Hp. apply Hp.
Defined.

Lemma refusal_unreadable_witness :
  let m := mkImsg FTM_CONNECT 200 1 FTB_RELATIONSHIP_NAME {[FTO_RELATIONSHIP_NAME := bytes_of_string "other"]} in
  exists lk' payload, pass_on 200 [] m ex_link = (lk', true) /\ read_message (Z.of_nat (length payload) + 2) (payload, []) = ProtocolError.
Proof.
  intros m. destruct (refusal_unreadable (C := list Z * list Z) 200 [] m (bytes_of_string "other") 111 116 104 101 [114] ex_link)
    as (lk' & payload & Hp & _ & Hr); try done; try (simpl; lia).
  - split; [constructor|simpl; lia].
  - exists lk', payload. split; [exact Hp|]. apply (Hr (payload, []) []). symmetry. apply app_nil_r.
Defined.

Lemma type_unchecked_witness :
  do_a_failover_option 20 12 (mkImsg 13 0 0 0 ∅) ([0; 3; 0; 1; 2], [] : list Z) = Undefined.
Proof. apply (type_unchecked (C := list Z * list Z) 20 12 (mkImsg 13 0 0 0 ∅) ([0; 3; 0; 1; 2], []) 3 1 [2]); try done; simpl; lia. Defined.

Lemma ddns_refused_witness :
  do_a_failover_option 20 12 (mkImsg FTM_BNDUPD 0 0 0 ∅) ([0; 9; 0; 3; 1; 97; 0], [] : list Z) = ProtocolError.
Proof. apply (ddns_refused (C := list Z * list Z) 20 12 (mkImsg FTM_BNDUPD 0 0 0 ∅) ([0; 9; 0; 3; 1; 97; 0], []) 3 [1; 97; 0]); try done; by left. Defined.
