(* ===== verification/V4Pair.v ===== *)
(** * Failover: two servers

    The state a server sends, over the wire, is the state its partner records. *)

From S2P Require Import Prelude BindingStates FailoverLeases V4State V4Queues V4Leases V4Machine V4Handlers V4Laws V4Frames V4System V4Service V4Claims V4Wire V4WireProofs V4WireClaims.

#[local] Open Scope Z_scope.

(** ** What is known of the partner *)

Definition same_partner (d d' : srv) : Prop := f_partner_state (peer d') = f_partner_state (peer d).

#[export] Instance same_partner_quiet :
  Quiet same_partner (fun _ _ => True) (fun _ _ => True) (fun f f' => f_partner_state f' = f_partner_state f).
Proof.
  split.
  - split; [done | intros x y z H1 H2; unfold same_partner in *; congruence].
  - done.
  - done.
  - done.
  - intros d d' _ _ E _. unfold same_partner. by rewrite E.
Qed.

#[export] Instance same_partner_pre : PreOrder same_partner := quiet_pre.

Lemma mode_partner {A} (m : M4 A) : Keeps same_mode m -> Keeps same_partner m.
Proof. apply keeps_sub. unfold same_mode, same_partner, mode. intros d d' [[= _ _ H _ _ _] _]. done. Qed.

Section Partner.
Context (io : nat -> bool) (random : nat -> Z) (cur_time : Z) (fuel : nat).

Hint Resolve mode_partner m_supersede' m_ask' m_emit m_send_state m_request m_request_all m_state_pool_check m_send_updates' m_generate m_pool_dobalance m_send : keeps.

Lemma partner_zap_flags n lp : Keeps same_partner (zap_flags n lp).
Proof. revert lp. induction n as [|n IH]; intros lp; cbn [zap_flags]; [apply keeps_fatal|]. keeps. Qed.
Lemma partner_expired_alone n f l : Keeps same_partner (expired_alone n f l).
Proof. revert l. induction n as [|n IH]; intros l; cbn [expired_alone]; [apply keeps_fatal|]. keeps. Qed.
Hint Resolve partner_zap_flags partner_expired_alone : keeps.

Lemma partner_set_service_state : Keeps same_partner dhcp_failover_set_service_state.
Proof. unfold dhcp_failover_set_service_state. keeps. Qed.
Lemma partner_enter_state done st : Keeps same_partner done -> Keeps same_partner (enter_state io random cur_time fuel done st).
Proof. intros Hd. unfold enter_state, dhcp_failover_pool_balance, pools_alone, cancel_timeout4, add_timeout4. keeps. Qed.
Hint Resolve partner_set_service_state : keeps.

Lemma partner_set_state_with done st : Keeps same_partner done -> Keeps same_partner (set_state_with io random cur_time fuel done st).
Proof.
  intros Hd. pose proof (partner_enter_state done st Hd). unfold set_state_with, resend_unacked, write_failover_state, commit_leases, cancel_timeout4. keeps.
Qed.

Lemma partner_goto st : Keeps same_partner (goto_state io random cur_time fuel st).
Proof.
  unfold goto_state, dhcp_failover_set_state. apply keeps_bind; [apply _| |intros; keeps]. apply partner_set_state_with. unfold dhcp_failover_recover_done.
  apply keeps_bind; [apply _| |intros; keeps]. apply partner_set_state_with. keeps.
Qed.
Hint Resolve partner_goto : keeps.

Lemma partner_news new b d u d' : peer_state_news io random cur_time fuel new b d = Some (u, d') -> f_partner_state (peer d') = new.
Proof.
  unfold peer_state_news. rewrite get4_bind. cbv zeta. rewrite (bind4_eq _ _ _ _ _ (set_peer4_eq _ _)).
  intros H. change (same_partner (upd_peer (set_f_partner_state new) d) d'). revert H.
  match goal with |- ?m _ = _ -> _ => enough (Keeps same_partner m) as K by apply K end.
  unfold write_failover_state, commit_leases, react_to. keeps.
Qed.

Lemma partner_state_changed msg d u d' :
  dhcp_failover_peer_state_changed io random cur_time fuel msg d = Some (u, d') -> f_partner_state (peer d') = m_server_state msg.
Proof.
  unfold dhcp_failover_peer_state_changed. rewrite get4_bind. cbv zeta.
  destruct (Z.eqb_spec (f_partner_state (peer d)) (m_server_state msg)) as [He|]; cbn [andb]; [|apply partner_news].
  destruct (f_me_state (peer d) =? 0); cbn [negb]; [apply partner_news|]. rewrite <- He.
  case_match; [apply partner_goto|]. case_match; [by intros [= _ <-]|]. case_match; [|done]. intros H'. by apply partner_news in H' as ->.
Qed.

Lemma partner_message is_link xid msg d u d' : m_type msg = FTM_STATE ->
  signal_message io random cur_time fuel is_link xid msg d = Some (u, d') -> f_partner_state (peer d') = m_server_state msg.
Proof.
  intros Ht. unfold signal_message. rewrite Ht. cbn [Z.eqb]. intros (r & d1 & H1 & H2)%bind4_inv.
  change (FTM_STATE =? FTM_CONNECT) with false in H1. change (FTM_STATE =? FTM_CONNECTACK) with false in H1. change (FTM_STATE =? FTM_DISCONNECT) with false in H1.
  cbv iota in H1. apply bind4_inv in H1 as (u1 & d2 & H1 & [= _ <-]). apply partner_state_changed in H1. rewrite <- H1.
  revert H2. match goal with |- ?m _ = _ -> _ => enough (Keeps same_partner m) as K by apply K end. unfold add_timeout4. keeps.
Qed.

(** ** Sending the state *)

(** The state a server tells: the one before a restart until it has found its place. *)
Definition told_state (f : failover) : Z := if f_me_state f =? startup then f_saved_state f else f_me_state f.

Lemma send_state_sends d xid : f_link_to_peer (peer d) = Some xid ->
  exists fl d', dhcp_failover_send_state cur_time d = Some (R_SUCCESS, d') /\ byte_ok fl /\
    exists more, events d' = events d ++ send_ev (S_state xid (told_state (peer d)) fl (f_me_stos (peer d))) :: more.
Proof.
  intros Hx. unfold dhcp_failover_send_state, with_link. rewrite get4_bind, Hx.
  exists (if bool_decide (f_service_state (peer d) = service_startup) then FTF_SERVER_STARTUP else 0). eexists. split; [reflexivity|].
  split; [by destruct (bool_decide _)|]. eexists. simpl. rewrite <- !(assoc_L (++)). reflexivity.
Qed.
End Partner.

Lemma state_is_byte st : case_of st state_names = true -> byte_ok st.
Proof.
  unfold case_of. intros (x & Hx & <-%Z.eqb_eq)%existsb_exists.
  assert (Hall : forallb (fits 256) state_names = true) by reflexivity. apply fits_range. by apply (proj1 (forallb_forall _ _) Hall).
Qed.

(** C32: a server with a link that sends its state is believed: the bytes it writes, however they are cut up, make the link of the partner pass on one
    message, and when the partner has handled it, the state it has recorded for this server is the one this server is in, or was in before it
    started up. *)
Theorem state_believed {C D : Type} `{ConnectionLaws C} `{ConnectionLaws D} io random now now' fuel vendor name ip_addr text i xid (d : srv) (c : D) :
  f_link_to_peer (peer d) = Some xid -> states_ok (peer d) -> u32_fits [now; xid; f_me_stos (peer d)] -> conn_out c = [] ->
  exists m d' o c', dhcp_failover_send_state now d = Some (R_SUCCESS, d') /\ send_ev m ∈ events d' /\
    outgoing_of now ip_addr text (leases d') m = Some o /\ send_all [o] c = Some c' /\
    forall chunks (lk : link C), idle i lk -> concat chunks = conn_out c' ->
    exists lk' im, arrivals now' vendor lk chunks = Done lk' /\ lk_signals lk' = lk_signals lk ++ [(i, im)] /\
      forall is_link x e u e', signal_message io random now' fuel is_link x (to_message name im) e = Some (u, e') ->
        f_partner_state (peer e') = told_state (peer d).
Proof.
  intros Hx [Hs1 Hs2] Hu Hc. unfold u32_fits in Hu. rewrite !Forall_cons in Hu. destruct Hu as (Hn & Hxr & Hst & _).
  destruct (send_state_sends now d xid Hx) as (fl & d' & Hsend & Hfl & more & Hev).
  assert (Htold : byte_ok (told_state (peer d))) by (apply state_is_byte; unfold told_state; by case_match).
  set (m := S_state xid (told_state (peer d)) fl (f_me_stos (peer d))) in *.
  destruct (sent_heard name now ip_addr text (leases d') m Hn) as (o & im & Ho & Hd & Hty & Hheard); [split_and!; [done|done|by apply u32_two]|].
  destruct (delivered (C := C) now' vendor i [o] [im] c) as (c' & Hsa & Hlk); [by simpl; rewrite Hd|by constructor|done|].
  exists m, d', o, c'. split; [done|]. split; [rewrite Hev; set_solver|]. split; [done|]. split; [done|].
  intros chunks lk Hi Hch. destruct (Hlk chunks lk Hi Hch) as (lk' & Ha & Hsig & _). exists lk', im. split; [done|]. split; [done|].
  intros is_link x e u e' Hm. destruct Hheard as (Hmt & _ & Hms & _). apply partner_message in Hm; [by rewrite Hm|done].
Qed.

(** ** Example *)

Definition ex_alone : srv := set_peer (set_f_me_state communications_interrupted (set_f_service_state not_cooperating ex_peer)) ex_srv.

Lemma state_believed_witness :
  exists im e', signal_message ex_io ex_random 201 50 true 1 (to_message ex_name im) ex_srv = Some (tt, e') /\
    f_partner_state (peer e') = communications_interrupted.
Proof.
  destruct (state_believed (C := list Z * list Z) (D := list Z * list Z) ex_io ex_random 200 201 50 [] ex_name ex_ip (fun _ => []) 0 1 ex_alone ex_conn)
    as (m & d' & o & c' & H1 & H2 & H3 & H4 & H5); [reflexivity | by split | constructor; [done|by apply u32_two] | reflexivity |].
  vm_compute in H1. injection H1 as <-.
  assert (m = S_state 1 communications_interrupted 0 0) as ->.
  { apply list_elem_of_In in H2. destruct H2 as [H2|[H2|[]]]; [by injection H2 as <-|done]. }
  injection H3 as <-. vm_compute in H4. injection H4 as <-.
  match type of H5 with context [conn_out ?x] => destruct (H5 [conn_out x] ex_link) as (lk' & im & Ha & Hsig & Hb); [split_and!; auto | apply app_nil_r |] end.
  vm_compute in Ha. injection Ha as <-. cbn [lk_signals ex_link app] in Hsig. injection Hsig as <-.
  match type of Hb with context [to_message _ ?x] => exists x end. eexists. split; [vm_compute; reflexivity|]. eapply (Hb true 1 ex_srv tt). vm_compute. reflexivity.
Defined.
