(* ===== verification/V4Serve.v ===== *)
(** * The DHCPv4 server and its clients

    server/dhcp.c: finding the lease of a client ([find_lease]), choosing a free one ([allocate_lease]), and the messages DISCOVER, REQUEST,
    RELEASE and DECLINE, on the lease database of V4State.v; with the searches for hosts and subnets of server/mdb.c.

    An answer is the call of [ack_lease] or [nak_lease] that is made (V4Ack.v).  What the configuration
    says is an argument ([site]): subnets, networks, permissions, host declarations.  An address is a number; an option that has to have an
    address in it and is shorter has no result.  [cp_broadcast] is
    the flag of the client.  The declaration of a host that hangs on a lease, agent options and log messages are left out. *)

From stdpp Require Import gmap.
From S2P Require Import Prelude BindingStates FailoverLeases V4State V4Queues V4Leases V4Machine.

#[local] Open Scope Z_scope.

(** ** Data *)

Definition DHCPDISCOVER4 : Z := 1.
Definition DHCPREQUEST4 : Z := 3.
Definition DHCPDECLINE4 : Z := 4.
Definition DHCPRELEASE4 : Z := 7.
Definition DHCPINFORM4 : Z := 8.
Definition DHCPLEASEQUERY4 : Z := 10.
Definition DHO_DHCP_REQUESTED_ADDRESS : Z := 50.
Definition DHO_DHCP_CLIENT_IDENTIFIER : Z := 61.
Definition DHO_SUBNET_SELECTION : Z := 118.

(** [struct permit] *)
Inductive permit :=
| permit_unknown_clients | permit_known_clients | permit_authenticated_clients | permit_unauthenticated_clients | permit_all_clients
| permit_dynamic_bootp_clients | permit_class (class : Z) | permit_after (after : Z).

(** [struct packet], with [struct dhcp_packet]; [cp_chaddr] is as long as [hlen] says, a class comes with its superclass, and
    [cp_options] is what looking an option up and evaluating it gives. *)
Record client_packet := mkClientPacket {
  cp_type : Z; cp_ciaddr : Z; cp_giaddr : Z; cp_htype : Z; cp_chaddr : list Z; cp_secs : Z; cp_options : gmap Z (list Z);
  cp_link_select : option (list Z); cp_agent_options : bool; cp_known : bool; cp_authenticated : bool; cp_options_valid : bool;
  cp_classes : list (Z * option Z); cp_shared_network : option id; cp_broadcast : bool
}.
Definition set_known (p : client_packet) : client_packet :=
  mkClientPacket (cp_type p) (cp_ciaddr p) (cp_giaddr p) (cp_htype p) (cp_chaddr p) (cp_secs p) (cp_options p) (cp_link_select p)
    (cp_agent_options p) true (cp_authenticated p) (cp_options_valid p) (cp_classes p) (cp_shared_network p) (cp_broadcast p).
Definition set_shared_network (n : option id) (p : client_packet) : client_packet :=
  mkClientPacket (cp_type p) (cp_ciaddr p) (cp_giaddr p) (cp_htype p) (cp_chaddr p) (cp_secs p) (cp_options p) (cp_link_select p)
    (cp_agent_options p) (cp_known p) (cp_authenticated p) (cp_options_valid p) (cp_classes p) n (cp_broadcast p).

(** [struct host_decl], with its addresses evaluated; a chain through [n_ipaddr] is a list. *)
Record host_decl := mkHost { h_fixed_addr : option (list Z) }.

(** [struct subnet] and [struct shared_network] *)
Record subnet := mkSubnet { sub_net : Z; sub_netmask : Z; sub_shared_network : id; sub_authoritative : bool }.
Record shared_network := mkNetwork { net_pools : list id; net_subnets : list subnet; net_authoritative : bool }.

(** The configuration; [ip_addr] and [network_of] are the address of a lease and the network of its subnet. *)
Record site := mkSite {
  subnets : list subnet; networks : gmap id shared_network; ip_addr : id -> Z; network_of : id -> id;
  permit_list : id -> list permit; prohibit_list : id -> list permit;
  host_uid_hash : gmap (list Z) (list host_decl); host_hw_addr_hash : gmap (list Z) (list host_decl);
  host_id_info : list (Z * gmap (list Z) (list host_decl)); interface_network : option id; load_balance_secs : Z; take_declines : bool
}.

(** What is handed out: an address of a host declaration, or a lease. *)
Inductive handout := Fixed (addr : Z) | Dynamic (l : id).

Inductive answer := Silent | Offer (h : handout) (when : Z) | Ack (h : handout) | Nak (cip : Z) | Other.

(** The hardware address as leases have it *)
Definition hardware (p : client_packet) : list Z := cp_htype p :: cp_chaddr p.
Definition client_id (p : client_packet) : option (list Z) := cp_options p !! DHO_DHCP_CLIENT_IDENTIFIER.

(** The four octets of an address *)
Definition address_in (data : list Z) : M4 Z := if (length data <? 4)%nat then log_fatal else mret (le_val (reverse (take 4 data))).

Section Serve.
Context (io : nat -> bool) (random : nat -> Z) (cur_time : Z) (fuel : nat) (cf : site).

(** ** Searching *)

Definition find_in (l : list subnet) (addr : Z) : option subnet := List.find (fun s => Z.land addr (sub_netmask s) =? sub_net s) l.
Definition find_subnet (addr : Z) : option subnet := find_in (subnets cf) addr.
Definition find_grouped_subnet (share : shared_network) (addr : Z) : option subnet := find_in (net_subnets share) addr.

(** The first address of a host that is on the network *)
Fixpoint find_host_for_network (hosts : list host_decl) (share : shared_network) : option Z :=
  match hosts with
  | [] => None
  | hp :: hosts =>
      match List.find (fun a => bool_decide (is_Some (find_grouped_subnet share a))) (default [] (h_fixed_addr hp)) with
      | Some a => Some a
      | None => find_host_for_network hosts share
      end
  end.

(** [mockup_lease] *)
Definition mockup_lease (share : shared_network) (hosts : list host_decl) : option Z := find_host_for_network hosts share.

Definition find_hosts_by_uid (uid : list Z) : option (list host_decl) := host_uid_hash cf !! uid.
Definition find_hosts_by_haddr (p : client_packet) : option (list host_decl) := host_hw_addr_hash cf !! hardware p.
(** An option that is there has a value. *)
Fixpoint by_option (info : list (Z * gmap (list Z) (list host_decl))) (p : client_packet) : option (list host_decl) :=
  match info with
  | [] => None
  | (code, values) :: info =>
      match cp_options p !! code with
      | Some data => match values !! data with Some h => Some h | None => by_option info p end
      | None => by_option info p
      end
  end.
Definition find_hosts_by_option (p : client_packet) : option (list host_decl) := by_option (host_id_info cf) p.

(** One clause of a list *)
Definition permits (p : client_packet) (c : permit) : bool :=
  match c with
  | permit_unknown_clients => negb (cp_known p)
  | permit_known_clients => cp_known p
  | permit_authenticated_clients => cp_authenticated p
  | permit_unauthenticated_clients => negb (cp_authenticated p)
  | permit_all_clients => true
  | permit_dynamic_bootp_clients => negb (cp_options_valid p) || (cp_type p =? 0)
  | permit_class k => existsb (fun '(c, super) => (k =? c) || bool_decide (super = Some k)) (cp_classes p)
  | permit_after t => t <? cur_time
  end.
Definition permitted (p : client_packet) (l : list permit) : bool := existsb (permits p) l.

(** A pool does not take this client. *)
Definition pool_denies (p : client_packet) (q : id) : bool :=
  permitted p (prohibit_list cf q) || (negb (bool_decide (permit_list cf q = [])) && negb (permitted p (permit_list cf q))).
Definition denies (p : client_packet) (s : lease) : M4 bool := q ← follow (l_pool s); mret (pool_denies p q).

Definition mine (s : lease) : M4 bool := f ← failover_peer s; follow (lease_mine_to_reallocate (Some (view_lease s f)) cur_time).

(** Active, last active, or ours to hand out *)
Definition usable (s : lease) : M4 bool :=
  if (l_binding_state s =? FTS_ACTIVE) || (l_rewind_binding_state s =? FTS_ACTIVE) then mret true else mine s.

Definition release (p : client_packet) (l : id) : M4 unit := when4 (cp_ciaddr p =? 0) (release_lease io random cur_time fuel l).

(** ** [find_lease] *)

(** The address a client asks for *)
Definition wanted_address (p : client_packet) : M4 (option Z) :=
  if negb (cp_ciaddr p =? 0) then mret (Some (cp_ciaddr p))
  else match cp_options p !! DHO_DHCP_REQUESTED_ADDRESS with Some data => a ← address_in data; mret (Some a) | None => mret None end.

(** The search for a host declaration: the address it gives, and whether the client is known now. *)
Definition search_hosts (p : client_packet) (share : shared_network) : option Z * client_packet :=
  let by_uid := match client_id p with Some uid => find_hosts_by_uid uid | None => None end in
  match by_uid with
  | Some hosts => (mockup_lease share hosts, set_known p)
  | None =>
      match find_hosts_by_haddr p with
      | Some hosts => (mockup_lease share hosts, set_known p)
      | None =>
          match find_hosts_by_option p with
          | Some hosts => (mockup_lease share hosts, set_known p)
          | None => (None, p)
          end
      end
  end.

(** [while (uid_lease)] *)
Fixpoint uid_loop (n : nat) (p : client_packet) (share : id) (l : option id) : M4 (option id) :=
  match n with
  | O => log_fatal
  | S n =>
      match l with
      | None => mret None
      | Some x =>
          s ← lease_at x;
          ok ← usable s;
          skip ← (if negb ok then mret true else if negb (bool_decide (network_of cf x = share)) then mret true else denies p s);
          if (skip : bool) then release p x ;; uid_loop n p share (l_n_uid s) else mret (Some x)
      end
  end.

(** The identifier of a lease is not the one of the client. *)
Definition other_uid (p : client_packet) (s : lease) : bool :=
  match l_uid s with Some u => negb (bool_decide (client_id p = Some u)) | None => false end.

Definition is_free (s : lease) : bool := (l_binding_state s =? FTS_FREE) || (l_binding_state s =? FTS_BACKUP).

(** [while (hw_lease)] *)
Fixpoint hw_loop (n : nat) (p : client_packet) (share : id) (l : option id) : M4 (option id) :=
  match n with
  | O => log_fatal
  | S n =>
      match l with
      | None => mret None
      | Some x =>
          s ← lease_at x;
          ok ← usable s;
          if negb ok || (negb (is_free s) && other_uid p s) || negb (bool_decide (network_of cf x = share)) then hw_loop n p share (l_n_hw s)
          else
            no ← denies p s;
            if (no : bool) then release p x ;; s ← lease_at x; hw_loop n p share (l_n_hw s) else mret (Some x)
      end
  end.

(** The leases that were found, and whether the address is one of ours *)
Record cands := mkCands { k_fixed : option Z; k_uid : option id; k_hw : option id; k_ip : option id; k_ours : bool }.

(** The lease is identified to a different client. *)
Definition other_client (p : client_packet) (s : lease) : bool :=
  match l_uid s with Some u => negb (bool_decide (client_id p = Some u)) | None => negb (bool_decide (l_hbuf s = hardware p)) end.

(** The lease on the address that was asked for, as far as it can be granted. *)
Definition check_ip (p : client_packet) (share : id) (ip : option id) (other : bool) : M4 (option id * bool) :=
  match ip with
  | None => mret (None, false)
  | Some x =>
      if negb (bool_decide (network_of cf x = share)) then mret (None, true)
      else
        s ← lease_at x;
        if other_client p s && negb (is_free s) then mret (None, l_binding_state s =? FTS_ACTIVE)
        else
          forget ← (if other && negb (l_binding_state s =? FTS_ACTIVE) && negb (l_rewind_binding_state s =? FTS_ACTIVE) then
                      m ← mine s; mret (negb m && (cp_type p =? DHCPDISCOVER4))
                    else mret false);
          mret (if (forget : bool) then None else Some x, true)
  end.

(** The client has more than one lease with its identifier. *)
Definition duplicates (p : client_packet) (share : id) (k : cands) : M4 cands :=
  match k_ip k with
  | None => mret k
  | Some x =>
      s ← lease_at x;
      if (l_binding_state s =? FTS_ACTIVE) && bool_decide (is_Some (l_uid s)) && negb (bool_decide (k_uid k = Some x)) then
        uid ← (match k_uid k with
               | Some u =>
                   if bool_decide (client_id p = l_uid s) then
                     su ← lease_at u;
                     when4 ((l_binding_state su =? FTS_ACTIVE) && bool_decide (network_of cf u = share) && (cp_type p =? DHCPREQUEST4)) (release p u) ;;
                     mret (Some x)
                   else mret (Some u)
               | None => mret None
               end);
        let fixed := if cp_type p =? DHCPREQUEST4 then None else k_fixed k in
        mret (mkCands fixed uid (k_hw k) (if bool_decide (uid = Some x) then Some x else None) (k_ours k))
      else mret k
  end.

(** A static and a dynamic lease for the same address, and pointers to the same lease *)
Definition toss (p : client_packet) (k : cands) : cands :=
  let ip := if (cp_type p =? DHCPREQUEST4) && bool_decide (is_Some (k_fixed k)) then None else k_ip k in
  let hw := if bool_decide (k_hw k = k_uid k) then None else k_hw k in
  let hw := if bool_decide (hw = ip) then None else hw in
  let uid := if bool_decide (k_uid k = ip) then None else k_uid k in
  mkCands (k_fixed k) uid hw ip (k_ours k).

(** A lease the client may not have is given up; [only_active]: if it is in use. *)
Definition drop_denied (p : client_packet) (only_active : bool) (l : option id) : M4 (option id) :=
  match l with
  | None => mret None
  | Some x =>
      s ← lease_at x;
      no ← denies p s;
      if (no : bool) then when4 (negb only_active || (l_binding_state s =? FTS_ACTIVE)) (release p x) ;; mret None else mret (Some x)
  end.

(** The choice among what is left; a lease that is not chosen may be given up. *)
Definition choose (p : client_packet) (k : cands) : M4 (option handout) :=
  let lease := Fixed <$> k_fixed k in
  lease ← (match k_ip k, lease with
           | Some x, Some _ => release p x ;; mret lease
           | Some x, None => mret (Some (Dynamic x))
           | None, _ => mret lease
           end);
  lease ← (match k_uid k, lease with
           | Some x, Some _ =>
               s ← lease_at x;
               when4 ((cp_type p =? DHCPREQUEST4) && (l_binding_state s =? FTS_ACTIVE)) (release p x) ;; mret lease
           | Some x, None => mret (Some (Dynamic x))
           | None, _ => mret lease
           end);
  match k_hw k, lease with
  | Some x, None =>
      s ← lease_at x;
      let uid := default [] (l_uid s) in
      mret (if bool_decide (uid = []) ||
               match client_id p with Some id => bool_decide (uid = id) | None => cp_type p =? 0 end
            then Some (Dynamic x) else None)
  | _, _ => mret lease
  end.

(** The last part: an abandoned lease is not returned.  ([ip_lease] is NULL by then.) *)
Definition not_abandoned (l : option handout) (ours : bool) : M4 (option handout * bool) :=
  match l with
  | Some (Dynamic x) => s ← lease_at x; mret (if l_binding_state s =? FTS_ABANDONED then (None, true) else (l, ours))
  | _ => mret (l, ours)
  end.

(** The leases that have the client's identifier, its hardware address, and the address it asks for *)
Definition find_candidates (p : client_packet) (share : id) (ip_lease_in : option id) (fixed cip : option Z) : M4 cands :=
  uid ← (match client_id p with Some id => find_lease_by ByUid id | None => mret None end);
  m ← get4 leases;
  uid ← uid_loop (S (size m)) p share uid;
  hw ← find_lease_by ByHw (hardware p);
  hw ← hw_loop (S (size m)) p share hw;
  h ← get4 lease_ip_addr_hash;
  let ip := match ip_lease_in, cip with Some x, _ => Some x | None, Some a => h !! a | None, None => None end in
  r ← check_ip p share ip (bool_decide (is_Some uid) || bool_decide (is_Some hw));
  mret (mkCands fixed uid hw (fst r) (snd r)).

(** The candidates the client may have *)
Definition drop_all (p : client_packet) (k : cands) : M4 cands :=
  ip ← drop_denied p true (k_ip k);
  uid ← drop_denied p false (k_uid k);
  hw ← drop_denied p false (k_hw k);
  mret (mkCands (k_fixed k) uid hw ip (k_ours k)).

(** The result is the lease, [*ours], and the packet with [known]. *)
Definition find_lease (p : client_packet) (share : id) (ip_lease_in : option id) : M4 (option handout * bool * client_packet) :=
  net ← follow (networks cf !! share);
  cip ← wanted_address p;
  let '(fixed, p) := search_hosts p net in
  if (cp_type p =? DHCPREQUEST4) && bool_decide (is_Some fixed) && negb (bool_decide (fixed = cip)) then mret (None, true, p)
  else
    k ← find_candidates p share ip_lease_in fixed cip;
    k ← duplicates p share k;
    k ← drop_all p (toss p k);
    if (cp_type p =? DHCPREQUEST4) && bool_decide (k_ip k = None) && bool_decide (k_fixed k = None) then mret (None, k_ours k, p)
    else
      l ← choose p k;
      r ← not_abandoned l (k_ours k);
      mret (fst r, snd r, p).

(** ** [allocate_lease] *)

Definition ends_of (l : option id) : M4 (option Z) := match l with Some x => s ← lease_at x; mret (Some (l_ends s)) | None => mret None end.

(** The best lease of a list of the partner's, if it is older than [own] and may be taken; true if the partner keeps it. *)
Definition of_partner (own theirs : option id) : M4 (option id * bool) :=
  match theirs with
  | None => mret (own, false)
  | Some x =>
      s ← lease_at x; e ← ends_of own;
      take ← (if match e with None => true | Some e => l_ends s <? e end then mine s else mret false);
      mret (if (take : bool) then (Some x, false) else (own, true))
  end.

(** The lease of a pool that may be handed out, and whether the partner has one. *)
Definition candidate (q : id) : M4 (option id * bool) :=
  pl ← pool_at q; f ← get4 peer;
  if p_failover_peer pl then
    r ← (if bool_decide (f_i_am f = primary) then of_partner (p_heads pl Free) (p_heads pl Backup)
         else of_partner (p_heads pl Backup) (p_heads pl Free));
    match fst r, p_heads pl Abandoned with
    | None, Some x => s ← lease_at x; m ← mine s; mret (if (m : bool) then Some x else None, snd r)
    | _, _ => mret r
    end
  else mret (match p_heads pl Free with Some x => Some x | None => p_heads pl Abandoned end, false).

Definition used (s : lease) : bool := negb (bool_decide (default [] (l_uid s) = [])) || negb (bool_decide (l_hbuf s = [])).

(** The candidate is better than the lease that was selected so far. *)
Definition better (candl lease : lease) : bool :=
  if (l_binding_state lease =? FTS_ABANDONED) && (negb (l_binding_state candl =? FTS_ABANDONED) || (l_ends candl <? l_ends lease)) then true
  else if l_binding_state candl =? FTS_ABANDONED then false
  else if used lease && (negb (used candl) || (l_ends candl <? l_ends lease)) then true
  else if used candl then false
  else l_ends candl <? l_ends lease.

(** [for (; pool; pool = pool -> next)] *)
Fixpoint allocate_loop (p : client_packet) (pools : list id) (lease : option id) (peer_has_leases : bool) : M4 (option id * bool) :=
  match pools with
  | [] => mret (lease, peer_has_leases)
  | q :: pools =>
      if pool_denies p q then allocate_loop p pools lease peer_has_leases
      else
        r ← candidate q;
        let has := peer_has_leases || snd r in
        match fst r with
        | None => allocate_loop p pools lease has
        | Some x =>
            s ← lease_at x;
            if cur_time <? l_ends s then allocate_loop p pools lease has
            else
              match lease with
              | None => allocate_loop p pools (Some x) has
              | Some y => t ← lease_at y; allocate_loop p pools (if better s t then Some x else Some y) has
              end
        end
  end.

Definition allocate_lease (p : client_packet) (pools : list id) (peer_has_leases : bool) : M4 (option id * bool) := allocate_loop p pools None peer_has_leases.

(** ** Messages *)

(** The quick check of [find_lease]: the partner has leases. *)
Fixpoint peer_leases (pools : list id) : M4 bool :=
  match pools with
  | [] => mret false
  | q :: pools =>
      pl ← pool_at q; f ← get4 peer;
      if p_failover_peer pl && (bool_decide (f_i_am f = primary) && negb (p_backup_leases pl =? 0) || bool_decide (f_i_am f = secondary) && negb (p_free_leases pl =? 0))
      then mret true else peer_leases pools
  end.

(** The failover peer of the pool of what is handed out *)
Definition peer_of (h : handout) : M4 (option failover) := match h with Dynamic x => s ← lease_at x; failover_peer s | Fixed _ => mret None end.

Definition silent_service (f : failover) : bool := bool_decide (f_service_state f = not_responding) || bool_decide (f_service_state f = service_startup).

Definition load_balanced (p : client_packet) (f : failover) : M4 bool :=
  v ← follow (load_balance_mine {| secs := cp_secs p; client_identifier := client_id p; chaddr := cp_chaddr p; hlen := length (cp_chaddr p) |}
    {| i_am := f_i_am f; service_state := f_service_state f; me_stos := f_me_stos f; mclt := f_mclt f; hba := f_hba f; load_balance_max_secs := load_balance_secs cf |});
  mret (negb (v =? 0)).

(** A lease that was found is kept if it may be handed out. *)
Definition keep_found (h : option handout) : M4 (option handout) :=
  match h with
  | Some (Dynamic x) =>
      s ← lease_at x; f ← failover_peer s;
      match f with
      | Some _ => ok ← usable s; mret (if (ok : bool) then h else None)
      | None => mret h
      end
  | _ => mret h
  end.

(** [ends]; a mocked up lease has none. *)
Definition handout_ends (h : handout) : M4 Z := match h with Dynamic x => s ← lease_at x; mret (l_ends s) | Fixed _ => mret MIN_TIME end.

Definition forget_scope (h : handout) : M4 unit :=
  match h with Dynamic x => s ← lease_at x; when4 (l_ends s <? cur_time) (set_lease4 x (set_l_scope false)) | Fixed _ => mret tt end.

Definition dhcpdiscover (p : client_packet) : M4 answer :=
  share ← follow (cp_shared_network p);
  net ← follow (networks cf !! share);
  has ← peer_leases (net_pools net);
  r ← find_lease p share None;
  let '(h, _, p) := r in
  h ← keep_found h;
  r ← (match h with
       | Some _ => mret (h, has)
       | None => r ← allocate_lease p (net_pools net) has; mret (Dynamic <$> fst r, snd r)
       end);
  match fst r with
  | None => mret Silent
  | Some h =>
      f ← peer_of h;
      go ← (match f with
            | None => mret true
            | Some f =>
                if silent_service f then mret false
                else if bool_decide (f_service_state f = cooperating) then b ← load_balanced p f; mret (b || negb (snd r))
                else mret true
            end);
      if negb go then mret Silent
      else
        forget_scope h ;;
        e ← handout_ends h;
        mret (Offer h (if cur_time + 120 <? e then e else cur_time + 120))
  end.

(** The tests of [dhcprequest] for a lease of a pool with a partner; the result is the answer, if there is one already. *)
Definition request_failover (h : option handout) (cip : Z) : M4 (option answer) :=
  match h with
  | Some (Dynamic x) =>
      s ← lease_at x; f ← failover_peer s;
      match f with
      | None => mret None
      | Some f =>
          if silent_service f then mret (Some Silent)
          else if is_free s then m ← mine s; mret (if (m : bool) then None else Some Silent)
          else if case_of (l_binding_state s) [FTS_RELEASED; FTS_EXPIRED] && negb (l_rewind_binding_state s =? FTS_ACTIVE) then
            m ← mine s; mret (if (m : bool) then None else Some Silent)
          else if l_binding_state s =? FTS_RESET then m ← mine s; mret (if (m : bool) then None else Some (Nak cip))
          else mret None
      end
  | _ => mret None
  end.

(** The client is on the wrong network. *)
Definition wrong_network (p : client_packet) (cip : Z) (sub : option subnet) (have_requested : bool) : M4 (option answer) :=
  if bool_decide (cp_shared_network p = None) || (negb (cp_ciaddr p =? 0) && negb (cp_giaddr p =? 0)) || (have_requested && (cp_ciaddr p =? 0)) then
    match cp_shared_network p with
    | None => mret (Some (match sub with Some s => if sub_authoritative s then Nak cip else Silent | None => Silent end))
    | Some share =>
        net ← follow (networks cf !! share);
        mret (match find_grouped_subnet net cip with
              | Some _ => None
              | None => Some (if net_authoritative net then Nak cip else Silent)
              end)
    end
  else mret None.

Definition dhcprequest (p : client_packet) (ip_lease : option id) : M4 answer :=
  let requested := cp_options p !! DHO_DHCP_REQUESTED_ADDRESS in
  cip ← (match requested with Some data => address_in data | None => mret (cp_ciaddr p) end);
  let sub := find_subnet cip in
  r ← (match sub with Some s => find_lease p (sub_shared_network s) ip_lease | None => mret (None, false, p) end);
  let '(h, ours, p) := r in
  a ← request_failover h cip;
  match a with
  | Some a => mret a
  | None =>
      a ← wrong_network p cip sub (bool_decide (is_Some requested));
      match a with
      | Some a => mret a
      | None => mret (match h with Some h => Ack h | None => if (ours : bool) then Nak cip else Silent end)
      end
  end.

(** [while (lease)] of [dhcprelease] *)
Fixpoint release_loop (n : nat) (ciaddr : Z) (l : option id) : M4 (option id) :=
  match n with
  | O => log_fatal
  | S n =>
      match l with
      | None => mret None
      | Some x => if ip_addr cf x =? ciaddr then mret (Some x) else s ← lease_at x; release_loop n ciaddr (l_n_uid s)
      end
  end.

Definition dhcprelease (p : client_packet) : M4 unit :=
  m ← get4 leases;
  l ← (match client_id p with Some id => l ← find_lease_by ByUid id; release_loop (S (size m)) (cp_ciaddr p) l | None => mret None end);
  h ← get4 lease_ip_addr_hash;
  match (match l with Some x => Some x | None => h !! cp_ciaddr p end) with
  | None => mret tt
  | Some x =>
      s ← lease_at x;
      if negb (bool_decide (l_hbuf s = hardware p)) then mret tt
      else
        f ← failover_peer s;
        if match f with Some f => silent_service f | None => false end then mret tt
        else when4 (cur_time <? l_ends s) (release_lease io random cur_time fuel x)
  end.

Definition dhcpdecline (p : client_packet) : M4 unit :=
  match cp_options p !! DHO_DHCP_REQUESTED_ADDRESS with
  | None => mret tt
  | Some data =>
      cip ← address_in data;
      h ← get4 lease_ip_addr_hash;
      match h !! cip with
      | Some x =>
          if negb (take_declines cf) then mret tt
          else
            s ← lease_at x; f ← failover_peer s;
            if match f with Some f => silent_service f | None => false end then mret tt
            else abandon_lease io random cur_time fuel x
      | None => mret tt
      end
  end.

(** The network a packet came from *)
Definition locate_network (p : client_packet) : M4 (option id) :=
  match (match cp_link_select p with Some d => Some d | None => cp_options p !! DHO_SUBNET_SELECTION end) with
  | Some data => if negb (length data =? 4)%nat then mret None else a ← address_in data; mret (sub_shared_network <$> find_subnet a)
  | None =>
      if cp_giaddr p =? 0 then mret (interface_network cf)
      else mret (sub_shared_network <$> find_subnet (cp_giaddr p))
  end.

(** [dhcp]; [classify_client] has done its work, and the other messages are not modelled. *)
Definition dhcp4 (p : client_packet) : M4 answer :=
  net ← locate_network p;
  if bool_decide (net = None) && negb (case_of (cp_type p) [DHCPREQUEST4; DHCPINFORM4; DHCPLEASEQUERY4]) then mret Silent
  else
    let p := set_shared_network net p in
    h ← get4 lease_ip_addr_hash;
    let lease := if (cp_type p =? DHCPREQUEST4) && negb (cp_ciaddr p =? 0) && (cp_giaddr p =? 0) && negb (cp_agent_options p) then h !! cp_ciaddr p else None in
    if cp_type p =? DHCPDISCOVER4 then dhcpdiscover p
    else if cp_type p =? DHCPREQUEST4 then dhcprequest p lease
    else if cp_type p =? DHCPRELEASE4 then dhcprelease p ;; mret Silent
    else if cp_type p =? DHCPDECLINE4 then dhcpdecline p ;; mret Silent
    else mret Other.

End Serve.
