(* ===== verification/V4ServeProofs.v ===== *)
(** * What serving a client does to the lease database

    Releasing a lease changes no lease's client and no table; the searches of [find_lease] end with leases of this client, on this network, that the
    client may have. *)

From stdpp Require Import gmap relations.
From S2P Require Import Prelude BindingStates FailoverLeases V4State V4Queues V4Leases V4Machine V4Handlers V4Chain V4Laws V4Frames V4Tables V4Spared V4Serve.

#[local] Open Scope Z_scope.

(** ** Tables by client *)

(** The leases of a chain: from the head in the table along the links *)
Inductive on_chain (t : table_by) (d : srv) (key : list Z) : id -> Prop :=
| oc_head x : hash_by t d !! key = Some x -> on_chain t d key x
| oc_next x s y : on_chain t d key x -> leases d !! x = Some s -> n_of t s = Some y -> on_chain t d key y.

(** Whoever is found by an identifier or a hardware address has it. *)
Definition tables_ok (d : srv) : Prop := forall t key x s, key <> [] -> on_chain t d key x -> leases d !! x = Some s -> key_by t s = key.

Lemma chain_in t d key T on x : filed t d T on -> key <> [] -> on_chain t d key x -> x ∈ T key.
Proof.
  intros Hf Hk H. pose proof (fi_seg _ _ _ _ Hf key Hk) as Hs. induction H as [x H|x s y _ IH Hx Hy].
  - apply seg_head in Hs. rewrite H in Hs. destruct (T key) as [|z l]; [done|]. injection Hs as ->. set_solver.
  - apply list_elem_of_split in IH as (l1 & l2 & E). rewrite E in Hs |- *. apply seg_app in Hs as (m & _ & _ & o & (s' & Hs' & <-)%tnx_inv & Hl).
    assert (s' = s) as -> by congruence. rewrite Hy in Hl. apply seg_head in Hl. destruct l2 as [|z l2]; [done|]. injection Hl as ->. set_solver.
Qed.

Lemma good_tables d : tables_good d -> tables_ok d.
Proof.
  intros Hd t key x s Hk H Hs. destruct (Hd t) as (T & on & Hf & Hon). rewrite <- (Hon _ _ Hs). apply (fi_on _ _ _ _ Hf); [done|]. by eapply chain_in.
Qed.

Section Find.
Context (io : nat -> bool) (random : nat -> Z) (cur_time : Z) (fuel : nat) (cf : site).

Lemma pure_mine s : Keeps eq (mine cur_time s).
Proof. unfold mine. keeps. Qed.
Lemma pure_usable s : Keeps eq (usable cur_time s).
Proof. pose proof (pure_mine s). unfold usable. keeps. Qed.
Lemma pure_denies p s : Keeps eq (denies cur_time cf p s).
Proof. unfold denies. keeps. Qed.

#[local] Hint Resolve pure_mine pure_usable pure_denies : keeps.

Lemma denies_inv p s d b d' : denies cur_time cf p s d = Some (b, d') -> exists q, l_pool s = Some q /\ b = pool_denies cur_time cf p q /\ d' = d.
Proof. unfold denies, follow. destruct (l_pool s) as [q|]; [|done]. intros [= <- <-]. eauto. Qed.

Lemma same_clients_lease d d' x s : same_clients d d' -> leases d' !! x = Some s -> exists s0, leases d !! x = Some s0 /\ client_view s0 = client_view s.
Proof. intros (H & _) Hs. destruct (same_of_back _ _ _ _ _ H Hs) as (s0 & Hs0 & E). eauto. Qed.

Lemma other_client_view p s s' : client_view s = client_view s' -> other_client p s = other_client p s'.
Proof. intros [= E1 E2 _ _ _]. unfold other_client. by rewrite E1, E2. Qed.

(** ** What may be handed out *)

(** What the client may be given of the leases of [d]: a lease that belongs to it, that is free, or whose state has run out. *)
Definition available (p : client_packet) (d : srv) (x : id) : Prop :=
  exists s, leases d !! x = Some s /\ (other_client p s = false \/ is_free s = true \/ due cur_time s).
Definition held (p : client_packet) (share : id) (d : srv) (x : id) : Prop := network_of cf x = share /\ available p d x.

(** Only leases of [P] were released. *)
Definition frees (P : id -> Prop) : relation srv := rtc (fun d d' => exists x u, P x /\ release_lease io random cur_time fuel x d = Some (u, d')).

Lemma frees_clients P d d' : frees P d d' -> same_clients d d'.
Proof. induction 1 as [|d1 d2 d3 (x & u & _ & H) _ IH]; [done|]. etrans; [by eapply sc_release|done]. Qed.
Lemma frees_spared P d d' : frees P d d' -> spared cur_time P d d'.
Proof. induction 1 as [|d1 d2 d3 (x & u & Hx & H) _ IH]; [done|]. etrans; [by eapply spared_release|done]. Qed.
Lemma frees_keeps (R : relation srv) `{!PreOrder R} P d d' : (forall l, Keeps R (release_lease io random cur_time fuel l)) -> frees P d d' -> R d d'.
Proof. intros HR. induction 1 as [|d1 d2 d3 (x & u & _ & H) _ IH]; [done|]. etrans; [by eapply HR|done]. Qed.

Lemma f_release P p x d0 d u d' : frees P d0 d -> P x -> release io random cur_time fuel p x d = Some (u, d') -> frees P d0 d'.
Proof. intros Hf Hx E. unfold release, when4 in E. case_match; [|by injection E as _ <-]. eapply rtc_r; [exact Hf|]. eauto. Qed.

(** A lease that is the client's or free now was available before. *)
Lemma available_back p d0 d x s : frees (available p d0) d0 d -> leases d !! x = Some s -> other_client p s = false \/ is_free s = true -> available p d0 x.
Proof.
  intros Hf Hs Ho. destruct (same_clients_lease _ _ _ _ (frees_clients _ _ _ Hf) Hs) as (s0 & Hs0 & E). destruct (frees_spared _ _ _ Hf x) as [H|[H|(s1 & Hs1 & Hd)]]; [done| |by exists s1; auto].
  exists s0. split; [done|]. destruct Ho as [Ho|Ho]; [left; by rewrite (other_client_view p _ _ E)|right; left]. rewrite Hs, Hs0 in H. injection H as Hb _ _. unfold is_free in *. by rewrite <- Hb.
Qed.

(** The pool takes the client. *)
Definition allowed (p : client_packet) (d : srv) (x : id) : Prop := exists s q, leases d !! x = Some s /\ l_pool s = Some q /\ pool_denies cur_time cf p q = false.

Lemma allowed_back p d d' x s q : same_clients d d' -> leases d' !! x = Some s -> l_pool s = Some q -> pool_denies cur_time cf p q = false -> allowed p d x.
Proof. intros H Hs Hq Hd. destruct (same_clients_lease _ _ _ _ H Hs) as (s0 & Hs0 & [= _ _ E _ _]). exists s0, q. split_and!; [done|congruence|done]. Qed.

Lemma chain_next t d d' key x s y : same_clients d d' -> on_chain t d key x -> leases d' !! x = Some s -> n_of t s = Some y -> on_chain t d key y.
Proof.
  intros H Hx Hs Hy. destruct (same_clients_lease _ _ _ _ H Hs) as (s0 & Hs0 & [= _ _ _ E1 E2]). eapply oc_next; [done|done|].
  destruct t; cbn in *; congruence.
Qed.

Lemma chain_key t d d' key x s : key <> [] -> same_clients d d' -> tables_ok d -> on_chain t d key x -> leases d' !! x = Some s -> key_by t s = key.
Proof.
  intros Hk H Ht Hx Hs. destruct (same_clients_lease _ _ _ _ H Hs) as (s0 & Hs0 & [= E1 E2 _ _ _]). rewrite <- (Ht _ _ _ _ Hk Hx Hs0).
  destruct t; cbn; congruence.
Qed.

(** The leases in the chain of the client's identifier are its own; so are those in the chain of its hardware address that have no identifier or its identifier. *)
Lemma uid_available p key d0 d y s : tables_ok d0 -> client_id p = Some key -> key <> [] -> frees (available p d0) d0 d -> on_chain ByUid d0 key y -> leases d !! y = Some s -> available p d0 y.
Proof.
  intros Ht Hid Hne Hf Hl Hs. eapply available_back; [done..|left]. pose proof (chain_key ByUid _ _ _ _ _ Hne (frees_clients _ _ _ Hf) Ht Hl Hs) as Hk. cbn in Hk. unfold other_client.
  destruct (l_uid s) as [u|]; cbn in Hk; [|congruence]. rewrite bool_decide_eq_true_2; [done|congruence].
Qed.
Lemma hw_available p d0 d y s : tables_ok d0 -> frees (available p d0) d0 d -> on_chain ByHw d0 (hardware p) y -> leases d !! y = Some s -> negb (is_free s) && other_uid p s = false -> available p d0 y.
Proof.
  intros Ht Hf Hl Hs Hskip. eapply available_back; [done..|]. apply andb_false_iff in Hskip as [Hfr|Ho]; [right; by apply negb_false_iff|left].
  pose proof (chain_key ByHw _ _ (hardware p) _ _ ltac:(unfold hardware; discriminate) (frees_clients _ _ _ Hf) Ht Hl Hs) as Hk. cbn in Hk. unfold other_uid in Ho. unfold other_client.
  destruct (l_uid s); [done|]. by rewrite bool_decide_eq_true_2.
Qed.

(** The first loop ends with a lease that has the client's identifier. *)
Lemma uid_loop_ok n p share key d0 : tables_ok d0 -> client_id p = Some key -> key <> [] -> forall l d r d', frees (available p d0) d0 d -> (forall y, l = Some y -> on_chain ByUid d0 key y) ->
  uid_loop io random cur_time fuel cf n p share l d = Some (r, d') -> frees (available p d0) d0 d' /\ forall x, r = Some x -> held p share d0 x.
Proof.
  intros Ht Hid Hne. induction n as [|n IH]; intros l d r d' Hr Hl E; [done|]. cbn [uid_loop] in E. destruct l as [y|]; [|by injection E as <- <-].
  pose proof (frees_clients _ _ _ Hr) as Hc. specialize (Hl y eq_refl). step4 E. rename a into s, Hm into Hs. step4 E. apply pure_usable in Hm as <-.
  pose proof (uid_available _ _ _ _ _ _ Ht Hid Hne Hr Hl Hs) as Hav. apply bind4_inv in E as (skip & d2 & E1 & E).
  assert (d2 = d) as ->.
  { assert (Keeps eq (if negb a then mret true else if negb (bool_decide (network_of cf y = share)) then mret true else denies cur_time cf p s)) as K by keeps.
    by rewrite <- (K _ _ _ E1). }
  destruct skip.
  - step4 E. apply (IH _ _ _ _ (f_release _ _ _ _ _ _ _ Hr Hav Hm)) in E; [done|]. intros z Hz. by eapply (chain_next ByUid).
  - injection E as <- <-. split; [done|]. intros x [= <-]. destruct a; [|done]. cbn in E1. case_bool_decide as Hn; [|done]. done.
Qed.

(** The second one ends with a lease that has its hardware address. *)
Lemma hw_loop_ok n p share d0 : tables_ok d0 -> forall l d r d', frees (available p d0) d0 d -> (forall y, l = Some y -> on_chain ByHw d0 (hardware p) y) ->
  hw_loop io random cur_time fuel cf n p share l d = Some (r, d') -> frees (available p d0) d0 d' /\ forall x, r = Some x -> held p share d0 x.
Proof.
  intros Ht. induction n as [|n IH]; intros l d r d' Hr Hl E; [done|]. cbn [hw_loop] in E. destruct l as [y|]; [|by injection E as <- <-].
  pose proof (frees_clients _ _ _ Hr) as Hc. specialize (Hl y eq_refl). step4 E. rename a into s, Hm into Hs. step4 E. apply pure_usable in Hm as <-.
  destruct (negb a || (negb (is_free s) && other_uid p s) || negb (bool_decide (network_of cf y = share))) eqn:Hskip.
  - apply (IH _ _ _ _ Hr) in E; [done|]. intros z Hz. by eapply (chain_next ByHw).
  - apply orb_false_elim in Hskip as [Hskip Hn]. apply orb_false_elim in Hskip as [_ Hskip]. pose proof (hw_available _ _ _ _ _ Ht Hr Hl Hs Hskip) as Hav.
    step4 E. apply denies_inv in Hm as (q & Hq & -> & ->). destruct (pool_denies cur_time cf p q) eqn:Hd.
    + step4 E. pose proof (f_release _ _ _ _ _ _ _ Hr Hav Hm) as Hr1. step4 E. apply (IH _ _ _ _ Hr1) in E; [done|].
      intros z Hz. eapply (chain_next ByHw); [by eapply frees_clients|done..].
    + injection E as <- <-. split; [done|]. intros x [= <-]. apply negb_false_iff, bool_decide_eq_true in Hn. done.
Qed.

(** ** The candidates *)

Lemma pure_check_ip p share ip b : Keeps eq (check_ip cur_time cf p share ip b).
Proof. unfold check_ip. keeps. Qed.

Lemma check_ip_ok p share ip b d0 d x ours d' : frees (available p d0) d0 d -> check_ip cur_time cf p share ip b d = Some ((Some x, ours), d') -> ip = Some x /\ held p share d0 x.
Proof.
  intros Hr E. unfold check_ip in E. destruct ip as [y|]; [|done].
  case_bool_decide as Hn; [cbn in E|done]. step4 E. rename a into s, Hm into Hs. destruct (other_client p s && negb (is_free s)) eqn:Ho; [done|].
  apply bind4_inv in E as (forget & d1 & _ & E). destruct forget; [done|]. apply (inj Some), pair_equal_spec in E as [[= <- <-] _].
  split; [done|]. split; [done|]. eapply available_back; [done..|]. apply andb_false_iff in Ho as [Ho|Hf]; [by left|right; by apply negb_false_iff].
Qed.

Definition all_held (p : client_packet) (share : id) (d : srv) (k : cands) : Prop :=
  (forall x, k_ip k = Some x -> held p share d x) /\ (forall x, k_uid k = Some x -> held p share d x) /\ (forall x, k_hw k = Some x -> held p share d x).

(** What a step does to the candidates: the requested lease is kept or dropped, and so is the fixed address. *)
Definition fewer (k k' : cands) : Prop := (forall x, k_ip k' = Some x -> k_ip k = Some x) /\ (forall a, k_fixed k' = Some a -> k_fixed k = Some a) /\ k_ours k' = k_ours k.

Lemma duplicates_ok p share k d0 d k' d' : frees (available p d0) d0 d -> all_held p share d0 k -> duplicates io random cur_time fuel cf p share k d = Some (k', d') ->
  frees (available p d0) d0 d' /\ all_held p share d0 k' /\ fewer k k'.
Proof.
  intros Hr Hall E. assert (Hsame : all_held p share d0 k /\ fewer k k) by done. destruct Hall as (Hip & Huid & Hhw). unfold duplicates in E.
  destruct (k_ip k) as [x|] eqn:Hk; [|by injection E as <- <-]. step4 E. destruct (_ && _ && _) eqn:Hb; [|by injection E as <- <-]. clear Hb Hsame. unfold fewer. rewrite Hk.
  apply bind4_inv in E as (uid & d1 & E1 & E). injection E as <- <-.
  assert (Hu : frees (available p d0) d0 d1 /\ forall y, uid = Some y -> held p share d0 y).
  { destruct (k_uid k) as [u|]; [|by injection E1 as <- <-]. destruct (bool_decide (client_id p = l_uid a)); [|injection E1 as <- <-; split; [done|]; by intros y [= <-]; apply Huid].
    apply bind4_inv in E1 as (su & d2 & Ea & E1). apply lease_at_inv in Ea as [_ ->]. apply bind4_inv in E1 as (v & d3 & Ev & E1). injection E1 as <- <-. split; [|intros y [= <-]; by apply Hip].
    unfold when4 in Ev. destruct (_ && _ && _); [|by injection Ev as _ <-]. eapply f_release; [done| |exact Ev]. by apply (Huid u). }
  assert (Hx : forall y, (if bool_decide (uid = Some x) then Some x else None) = Some y -> Some x = Some y) by (intros y; by destruct (bool_decide (uid = Some x))).
  destruct Hu as [Hr1 Hu]. split; [done|]. split; split_and!; cbn; [intros y Hy; apply Hip; by apply Hx|done|done|done|by destruct (cp_type p =? DHCPREQUEST4)|done].
Qed.

Lemma toss_ok p share k d0 : all_held p share d0 k -> all_held p share d0 (toss p k) /\ fewer k (toss p k).
Proof.
  intros (Hip & Huid & Hhw). unfold toss. split; split_and!; cbn; try done; intros x; repeat case_match; intros; simplify_eq; auto.
Qed.

Lemma drop_ok p b l d0 d r d' : frees (available p d0) d0 d -> (forall x, l = Some x -> available p d0 x) -> drop_denied io random cur_time fuel cf p b l d = Some (r, d') ->
  frees (available p d0) d0 d' /\ forall x, r = Some x -> l = Some x /\ allowed p d0 x.
Proof.
  intros Hr Hl E. unfold drop_denied in E. destruct l as [y|]; [|by injection E as <- <-]. step4 E. rename a into s, Hm into Hs. step4 E. apply denies_inv in Hm as (q & Hq & -> & ->).
  destruct (pool_denies cur_time cf p q) eqn:Hd.
  - apply bind4_inv in E as (u & d1 & E1 & E). injection E as <- <-. split; [|done]. unfold when4 in E1. destruct (_ || _); [|by injection E1 as _ <-]. eapply f_release; [done|by apply Hl|exact E1].
  - injection E as <- <-. split; [done|]. intros x [= <-]. split; [done|]. eapply allowed_back; [by eapply frees_clients|done..].
Qed.

Lemma choose_frees p k share d0 d r d' : frees (available p d0) d0 d -> all_held p share d0 k -> choose io random cur_time fuel p k d = Some (r, d') -> frees (available p d0) d0 d'.
Proof.
  intros Hr (Hip & Huid & _) E. unfold choose in E. apply bind4_inv in E as (l1 & d1 & E1 & E). apply bind4_inv in E as (l2 & d2 & E2 & E).
  assert (frees (available p d0) d0 d1) as Hr1.
  { destruct (k_ip k) as [x|]; [|by injection E1 as _ <-]. destruct (Fixed <$> k_fixed k); [|by injection E1 as _ <-]. apply bind4_inv in E1 as (u & d3 & E1 & E1'). injection E1' as _ <-.
    eapply f_release; [done| |exact E1]. by apply (Hip x). }
  assert (frees (available p d0) d0 d2) as Hr2.
  { destruct (k_uid k) as [x|]; [|by injection E2 as _ <-]. destruct l1; [|by injection E2 as _ <-]. step4 E2. apply bind4_inv in E2 as (u & d3 & E2 & E2'). injection E2' as _ <-.
    unfold when4 in E2. destruct (_ && _); [|by injection E2 as _ <-]. eapply f_release; [done| |exact E2]. by apply (Huid x). }
  assert (d2 = d') as <-; [|done]. revert E. match goal with |- ?m _ = _ -> _ => enough (Keeps eq m) as K by apply K end. keeps.
Qed.

(** The choice is one of the candidates; the fixed address comes first, then the requested one. *)
Lemma choose_ok p k d h d' : choose io random cur_time fuel p k d = Some (Some h, d') ->
  match h with
  | Fixed a => k_fixed k = Some a
  | Dynamic x => k_fixed k = None /\ (k_ip k = Some x \/ k_ip k = None /\ (k_uid k = Some x \/ k_hw k = Some x))
  end.
Proof.
  intros E. unfold choose in E. apply bind4_inv in E as (l1 & d1 & E1 & E). apply bind4_inv in E as (l2 & d2 & E2 & E).
  assert (H1 : l1 = match k_fixed k with Some a => Some (Fixed a) | None => Dynamic <$> k_ip k end).
  { destruct (k_ip k), (k_fixed k); cbn in E1; try (apply bind4_inv in E1 as (? & ? & _ & E1)); by injection E1 as <- _. }
  assert (H2 : l2 = match l1 with Some _ => l1 | None => Dynamic <$> k_uid k end).
  { destruct (k_uid k), l1; cbn in E2; try (apply bind4_inv in E2 as (? & ? & _ & E2); apply bind4_inv in E2 as (? & ? & _ & E2)); by injection E2 as <- _. }
  assert (H3 : l2 = Some h \/ l2 = None /\ exists x, k_hw k = Some x /\ h = Dynamic x).
  { unfold mret, M4_ret in E. destruct (k_hw k) as [x|], l2 as [h2|]; try (simplify_eq; by left). apply bind4_inv in E as (s & d3 & _ & E). right. split; [done|]. exists x. split; [done|].
    destruct (_ || _); by simplify_eq. }
  subst l2 l1. destruct (k_fixed k) as [a|]; cbn in H3; [destruct H3 as [[= <-]|[[=] _]]; done|].
  destruct (k_ip k) as [y|]; cbn in H3; [destruct H3 as [[= <-]|[[=] _]]; by auto|].
  destruct (k_uid k) as [y|]; cbn in H3; [destruct H3 as [[= <-]|[[=] _]]; by auto|]. destruct H3 as [[=]|(_ & x & Hx & ->)]. auto.
Qed.

(** ** Hosts *)

Lemma search_known p net : snd (search_hosts cf p net) = p \/ snd (search_hosts cf p net) = set_known p.
Proof. unfold search_hosts. repeat case_match; auto. Qed.

Lemma pure_wanted p : Keeps eq (wanted_address p).
Proof. unfold wanted_address, address_in. keeps. Qed.

Lemma find_by_chain t key d x d' : find_lease_by t key d = Some (Some x, d') -> on_chain t d key x /\ key <> [] /\ d' = d.
Proof. unfold find_lease_by. case_bool_decide; [done|]. rewrite get4_bind. intros [= H2 <-]. split_and!; [by apply oc_head|done..]. Qed.

Lemma pure_find_by t key : Keeps eq (find_lease_by t key).
Proof. unfold find_lease_by. keeps. Qed.

Lemma chain_back t d d' key x : same_clients d d' -> on_chain t d' key x -> on_chain t d key x.
Proof.
  intros H. pose proof H as (_ & [= _ Hu Hh] & _). induction 1 as [z Hz|z s y _ IH Hz Hy]; [apply oc_head; destruct t; cbn in *; congruence|].
  by eapply chain_next.
Qed.

(** What was asked for *)
Definition asked (d : srv) (ip_in : option id) (cip : option Z) (x : id) : Prop :=
  ip_in = Some x \/ ip_in = None /\ exists a, cip = Some a /\ lease_ip_addr_hash d !! a = Some x.

Lemma candidates_ok p share ip_in fixed cip d k d' : tables_ok d -> find_candidates io random cur_time fuel cf p share ip_in fixed cip d = Some (k, d') ->
  frees (available p d) d d' /\ all_held p share d k /\ k_fixed k = fixed /\ forall x, k_ip k = Some x -> asked d ip_in cip x.
Proof.
  intros Ht E. unfold find_candidates in E. apply bind4_inv in E as (uid0 & d1 & E1 & E). rewrite get4_bind in E.
  assert (Hu0 : d1 = d /\ forall y, uid0 = Some y -> exists key, client_id p = Some key /\ key <> [] /\ on_chain ByUid d key y).
  { destruct (client_id p) as [key|]; [|by injection E1 as <- <-]. pose proof (pure_find_by _ _ _ _ _ E1) as <-. split; [done|]. intros y ->.
    apply find_by_chain in E1 as (? & ? & _). eauto. }
  destruct Hu0 as [-> Hu0]. apply bind4_inv in E as (uid & d1 & Euid & E).
  assert (frees (available p d) d d1 /\ forall y, uid = Some y -> held p share d y) as [Hr1 Huid].
  { destruct uid0 as [u|]; [|by injection Euid as <- <-]. destruct (Hu0 u eq_refl) as (key & Hid & Hne & Hch).
    refine (uid_loop_ok _ _ _ key d Ht Hid Hne _ d uid _ (rtc_refl _ d) _ Euid). by intros z [= <-]. }
  apply bind4_inv in E as (hw0 & d2 & E2 & E). pose proof (pure_find_by _ _ _ _ _ E2) as <-.
  apply bind4_inv in E as (hw & d2 & Ehw & E).
  assert (frees (available p d) d d2 /\ forall y, hw = Some y -> held p share d y) as [Hr Hhw].
  { refine (hw_loop_ok _ _ _ d Ht _ d1 hw _ Hr1 _ Ehw). intros z ->. apply find_by_chain in E2 as (Hch & _). by apply (chain_back _ _ _ _ _ (frees_clients _ _ _ Hr1)). }
  rewrite get4_bind in E. destruct (frees_clients _ _ _ Hr) as (_ & [= Hh _ _] & _).
  apply bind4_inv in E as ([ip ours] & d3 & Eip & E). pose proof (pure_check_ip _ _ _ _ _ _ _ Eip) as <-. injection E as <- <-.
  split; [done|]. cbn [k_ip k_fixed fst]. split; [|split; [done|]].
  - split_and!; cbn; [|done..]. intros y ->. by eapply check_ip_ok.
  - intros y ->. apply (check_ip_ok _ _ _ _ d _ _ _ _ Hr) in Eip as [Hi _]. unfold asked. destruct ip_in as [z|]; [by left|right]. split; [done|].
    destruct cip as [a|]; [|done]. exists a. by rewrite <- Hh.
Qed.

Lemma drop_all_ok p share k d0 d k' d' : frees (available p d0) d0 d -> all_held p share d0 k -> drop_all io random cur_time fuel cf p k d = Some (k', d') ->
  frees (available p d0) d0 d' /\ fewer k k' /\ all_held p share d0 k' /\ forall x, k_ip k' = Some x \/ k_uid k' = Some x \/ k_hw k' = Some x -> allowed p d0 x.
Proof.
  intros Hr (A1 & A2 & A3) E. unfold drop_all in E. apply bind4_inv in E as (ip2 & d4 & E4 & E). apply (drop_ok _ _ _ d0) in E4 as [Hr4 H1]; [|done|intros x Hx; by apply (A1 x)].
  apply bind4_inv in E as (uid2 & d5 & E5 & E). apply (drop_ok _ _ _ d0) in E5 as [Hr5 H2]; [|done|intros x Hx; by apply (A2 x)].
  apply bind4_inv in E as (hw2 & d6 & E6 & E). apply (drop_ok _ _ _ d0) in E6 as [Hr6 H3]; [|done|intros x Hx; by apply (A3 x)]. injection E as <- <-.
  split; [done|]. split; [split_and!; [apply H1|done..]|]. split.
  - split_and!; cbn; intros x Hx; [by apply A1, H1|by apply A2, H2|by apply A3, H3].
  - cbn. intros x [Hx|[Hx|Hx]]; [by apply H1|by apply H2|by apply H3].
Qed.

Lemma not_abandoned_inv l ours d h ours' d' : not_abandoned l ours d = Some ((Some h, ours'), d') -> d' = d /\ l = Some h /\
  match h with Dynamic x => exists s', leases d !! x = Some s' /\ l_binding_state s' <> FTS_ABANDONED | Fixed _ => True end.
Proof.
  intros E. unfold not_abandoned in E. destruct l as [[a|x]|]; [by injection E as <- <- <-| |done]. step4 E. destruct (l_binding_state a =? FTS_ABANDONED) eqn:Hab; [done|].
  injection E as <- <- <-. split_and!; [done|done|]. exists a. split; [done|]. by apply Z.eqb_neq.
Qed.

(** What [find_lease] does, with what it is based on: only leases that are available to the client are given up; the result is a fixed address of a host declaration of the client, or a lease. *)
Lemma find_lease_inv p share ip_in d r ours p' d' : tables_ok d -> find_lease io random cur_time fuel cf p share ip_in d = Some ((r, ours, p'), d') ->
  exists net cip, networks cf !! share = Some net /\ wanted_address p d = Some (cip, d) /\ p' = snd (search_hosts cf p net) /\ frees (available p d) d d' /\
  match r with
  | None => True
  | Some (Fixed a) => fst (search_hosts cf p net) = Some a /\ (cp_type p = DHCPREQUEST4 -> cip = Some a)
  | Some (Dynamic x) => held p share d x /\ allowed p' d x /\ (exists s', leases d' !! x = Some s' /\ l_binding_state s' <> FTS_ABANDONED) /\
      (cp_type p = DHCPREQUEST4 -> asked d ip_in cip x)
  end.
Proof.
  intros Ht E. unfold find_lease in E. apply bind4_inv in E as (net & d1 & E1 & E). unfold follow in E1. destruct (networks cf !! share) as [net'|] eqn:Hnet; [|done].
  injection E1 as -> <-. apply bind4_inv in E as (cip & d1 & Hcip & E). pose proof (pure_wanted _ _ _ _ Hcip) as <-. exists net, cip.
  split; [done|]. split; [done|]. pose proof (search_known p net) as Hp. destruct (search_hosts cf p net) as [fixed q] eqn:Hsh. cbn [snd fst] in Hp |- *.
  assert (Hty : cp_type q = cp_type p) by (by destruct Hp as [-> | ->]). assert (Hav : available q d = available p d) by (by destruct Hp as [-> | ->]). assert (Hheld : forall x, held q share d x -> held p share d x) by (by destruct Hp as [-> | ->]).
  destruct ((cp_type q =? DHCPREQUEST4) && bool_decide (is_Some fixed) && negb (bool_decide (fixed = cip))) eqn:Hearly; [injection E as <- _ <- <-; split_and!; [done|apply rtc_refl|done]|].
  apply bind4_inv in E as (k0 & d2 & E0 & E). apply (candidates_ok _ _ _ _ _ _ _ _ Ht) in E0 as (Hr & Hall0 & Hfx0 & Hask).
  apply bind4_inv in E as (k & d3 & Edup & E). destruct (duplicates_ok _ _ _ _ _ _ _ Hr Hall0 Edup) as (Hr3 & Hall & Hf1). destruct (toss_ok q _ _ _ Hall) as [Hall2 Hf2].
  apply bind4_inv in E as (k3 & d6 & E3 & E). apply (drop_all_ok _ _ _ _ _ _ _ Hr3 Hall2) in E3 as (Hr6 & Hf3 & Hall3 & Hallow).
  destruct ((cp_type q =? DHCPREQUEST4) && bool_decide (k_ip k3 = None) && bool_decide (k_fixed k3 = None)) eqn:Hnone; [injection E as <- _ <- <-; split_and!; [done|by rewrite <- Hav|done]|].
  apply bind4_inv in E as (l & d7 & E7 & E). pose proof (choose_frees _ _ _ _ _ _ _ Hr6 Hall3 E7) as Hr7. apply bind4_inv in E as ([l2 ours2] & d8 & E8 & E). injection E as -> <- <- <-. split; [done|].
  assert (d7 = d8) as <- by (assert (Keeps eq (not_abandoned l (k_ours k3))) as K by (unfold not_abandoned; keeps); by apply (K _ _ _ E8)).
  split; [by rewrite <- Hav|]. destruct r as [h|]; [|done]. apply not_abandoned_inv in E8 as (_ & -> & Hab). apply choose_ok in E7. destruct h as [a|x].
  - assert (k_fixed k0 = Some a) as Hk0 by (by apply Hf1, Hf2, Hf3). rewrite Hfx0 in Hk0. split; [done|]. intros Hreq. rewrite Hty, Hreq, Hk0 in Hearly. cbn in Hearly.
    by apply negb_false_iff, bool_decide_eq_true in Hearly as <-.
  - destruct E7 as [Hfx Hx]. destruct Hall3 as (Ha1 & Ha2 & Ha3). split_and!; [..|done|].
    + apply Hheld. destruct Hx as [Hx|[_ [Hx|Hx]]]; auto.
    + apply Hallow. tauto.
    + intros Hreq. rewrite Hty, Hreq, Hfx in Hnone. cbn in Hnone. destruct Hx as [Hx|[Hx _]]; [|by rewrite Hx in Hnone].
      by apply Hask, Hf1, Hf2, Hf3.
Qed.

End Find.
