(* ===== verification/V4Allocate.v ===== *)
(** * Choosing a free lease

    [allocate_lease] takes the best of the leases the pools offer, in the order of [rank]; every lease it may take is this server's to hand out. *)

From stdpp Require Import gmap.
From S2P Require Import Prelude BindingStates FailoverLeases V4State V4Queues V4Leases V4Machine V4Handlers V4Chain V4Laws V4Frames V4Lists V4Serve V4ServeProofs.

#[local] Open Scope Z_scope.

(** ** The order of leases *)

(** Abandoned leases come last, then leases that had a client; older ones first. *)
Definition rank (s : lease) : Z * Z * Z :=
  if l_binding_state s =? FTS_ABANDONED then (1, 0, l_ends s) else (0, if used s then 1 else 0, l_ends s).

Definition rank_le (a b : Z * Z * Z) : Prop :=
  let '(a1, a2, a3) := a in let '(b1, b2, b3) := b in a1 < b1 \/ a1 = b1 /\ (a2 < b2 \/ a2 = b2 /\ a3 <= b3).

#[export] Instance rank_le_pre : PreOrder rank_le.
Proof. split; [intros [[]]; cbn; lia | intros [[]] [[]] [[]]; cbn; lia]. Qed.

Lemma better_rank c l : if better c l then rank_le (rank c) (rank l) else rank_le (rank l) (rank c).
Proof.
  unfold better, rank. destruct (l_binding_state l =? FTS_ABANDONED), (l_binding_state c =? FTS_ABANDONED), (used l), (used c), (Z.ltb_spec (l_ends c) (l_ends l)); cbn; lia.
Qed.

Section Allocate.
Context (cur_time : Z) (cf : site).

#[local] Hint Resolve pure_mine : keeps.

Lemma pure_of_partner a b : Keeps eq (of_partner cur_time a b).
Proof. unfold of_partner, ends_of. keeps. Qed.
#[local] Hint Resolve pure_of_partner : keeps.
Lemma pure_candidate q : Keeps eq (candidate cur_time q).
Proof. unfold candidate. keeps. Qed.
#[local] Hint Resolve pure_candidate : keeps.
Lemma pure_allocate p ps l b : Keeps eq (allocate_loop cur_time cf p ps l b).
Proof. revert l b. induction ps as [|q ps IH]; intros l b; cbn [allocate_loop]; keeps. Qed.

(** *** What a pool offers *)

(** The list this server hands leases out from, and the partner's *)
Definition own_list (i_am : role) : queue := match i_am with primary => Free | secondary => Backup end.
Definition their_list (i_am : role) : queue := match i_am with primary => Backup | secondary => Free end.

(** The first lease of the partner's list, if this server may hand it out and it is over for longer than the first one of its own list *)
Definition lent (d : srv) (pl : pool) (x : id) : Prop :=
  exists s, p_heads pl (their_list (f_i_am (peer d))) = Some x /\ leases d !! x = Some s /\ mine cur_time s d = Some (true, d) /\
  forall y t, p_heads pl (own_list (f_i_am (peer d))) = Some y -> leases d !! y = Some t -> l_ends s < l_ends t.

(** Which lease of its lists a pool puts forward.  Without a partner: the first free one, and an abandoned one only if there is none.  With a partner: the first one of this server's list, unless
    one of the partner's list goes before it; an abandoned one, which has to be this server's, only if there is neither. *)
Inductive picks (d : srv) (pl : pool) (x : id) : Prop :=
| picks_free : p_failover_peer pl = false -> p_heads pl Free = Some x -> picks d pl x
| picks_abandoned : p_failover_peer pl = false -> p_heads pl Free = None -> p_heads pl Abandoned = Some x -> picks d pl x
| picks_lent : p_failover_peer pl = true -> lent d pl x -> picks d pl x
| picks_own : p_failover_peer pl = true -> (forall y, ~ lent d pl y) -> p_heads pl (own_list (f_i_am (peer d))) = Some x -> picks d pl x
| picks_recovered s : p_failover_peer pl = true -> (forall y, ~ lent d pl y) -> p_heads pl (own_list (f_i_am (peer d))) = None ->
    p_heads pl Abandoned = Some x -> leases d !! x = Some s -> mine cur_time s d = Some (true, d) -> picks d pl x.

(** A pool that takes the client offers it the lease it puts forward, if that is over. *)
Definition offers (p : client_packet) (d : srv) (q x : id) : Prop :=
  pool_denies cur_time cf p q = false /\ exists pl s, pools d !! q = Some pl /\ picks d pl x /\ leases d !! x = Some s /\ l_ends s <= cur_time.

Lemma of_partner_picks pl d r b d' :
  of_partner cur_time (p_heads pl (own_list (f_i_am (peer d)))) (p_heads pl (their_list (f_i_am (peer d)))) d = Some ((r, b), d') ->
  forall x, r = Some x <-> lent d pl x \/ (forall y, ~ lent d pl y) /\ p_heads pl (own_list (f_i_am (peer d))) = Some x.
Proof.
  intros E x. unfold of_partner in E. set (own := p_heads pl (own_list _)) in *. destruct (p_heads pl (their_list _)) as [z|] eqn:Hth.
  2: { injection E as <- _ _. assert (forall y, ~ lent d pl y) as Hno by (intros y (s & Hy & _); congruence). split; [by right|]. intros [Hx|[_ Hx]]; [by destruct (Hno x)|done]. }
  step4 E. rename a into s, Hm into Hs. apply bind4_inv in E as (e & d1 & Ee & E).
  assert (Hown : d1 = d /\ e = match own with Some o => l_ends <$> leases d !! o | None => None end).
  { unfold ends_of in Ee. destruct own as [o|]; [|by injection Ee as <- <-]. step4 Ee. injection Ee as <- <-. by rewrite Hm. }
  destruct Hown as [-> He]. apply bind4_inv in E as (take & d1 & Et & E).
  assert (Hold : (match e with None => true | Some e => l_ends s <? e end) = true <-> forall y t, own = Some y -> leases d !! y = Some t -> l_ends s < l_ends t).
  { subst e. destruct own as [o|]; [|by split]. unfold ends_of in Ee. step4 Ee. rename a into so, Hm into Hso. rewrite Hso. cbn. rewrite Z.ltb_lt. split; [by intros H y t [= <-] Ht; simplify_eq|]. eauto. }
  destruct take; injection E as <- _ _.
  - assert (lent d pl z) as Hz.
    { destruct (match e with None => true | Some e => l_ends s <? e end); [|done]. pose proof (pure_mine _ _ _ _ _ Et) as <-. exists s. split_and!; [done|done|done|by apply Hold]. }
    split; [intros [= <-]; by left|]. intros [(t & Hx & _)|[Hno _]]; [congruence|by destruct (Hno z)].
  - assert (forall y, ~ lent d pl y) as Hno.
    { intros y (t & Hy & Ht & Hm & Hlt). assert (y = z) as -> by congruence. assert (t = s) as -> by congruence. apply Hold in Hlt. rewrite Hlt in Et. rewrite Hm in Et. done. }
    split; [by right|]. intros [Hx|[_ Hx]]; [by destruct (Hno x)|done].
Qed.

(** [candidate] finds what the pool puts forward. *)
Lemma candidate_picks q d r b d' : candidate cur_time q d = Some ((r, b), d') -> exists pl, pools d !! q = Some pl /\ forall x, r = Some x <-> picks d pl x.
Proof.
  intros E. unfold candidate in E. apply bind4_inv in E as (pl & d1 & E1 & E). apply pool_at_inv in E1 as [Hp ->]. rewrite get4_bind in E. exists pl. split; [done|]. intros x. destruct (p_failover_peer pl) eqn:Hf.
  - apply bind4_inv in E as ([r1 has] & d1 & E1 & E). cbn [fst snd] in E.
    assert (E1' : of_partner cur_time (p_heads pl (own_list (f_i_am (peer d)))) (p_heads pl (their_list (f_i_am (peer d)))) d = Some ((r1, has), d1)) by (by destruct (f_i_am (peer d))).
    pose proof (pure_of_partner _ _ _ _ _ E1') as <-. pose proof (of_partner_picks _ _ _ _ _ E1') as Hr. clear E1 E1'. destruct r1 as [y|].
    + assert (r = Some y) as -> by (destruct (p_heads pl Abandoned); by injection E as <- _ _). rewrite Hr. pose proof (proj1 (Hr y) eq_refl) as Hy. split; [intros [H|[H1 H2]]; [by apply picks_lent|by apply picks_own]|].
      intros [H|H|? H|? H1 H2|s ? H1 H2]; try congruence; [by left|by right|]. destruct Hy as [Hy|[_ Hy]]; [by destruct (H1 y)|congruence].
    + assert (Hno : forall y, ~ lent d pl y) by (intros y Hy; by pose proof (proj2 (Hr y) (or_introl Hy))). assert (Hown : p_heads pl (own_list (f_i_am (peer d))) = None).
      { destruct (p_heads pl (own_list _)) as [y|] eqn:Hy; [|done]. by pose proof (proj2 (Hr y) (or_intror (conj Hno eq_refl))). }
      destruct (p_heads pl Abandoned) as [z|] eqn:Hab; [|injection E as <- _ _; split; [done|intros [H|H|? H|? H1 H2|s ? H1 H2]; by try congruence; destruct (Hno x)]].
      step4 E. rename a into s, Hm into Hs. apply bind4_inv in E as (m & d1 & Em & E). pose proof (pure_mine _ _ _ _ _ Em) as <-. injection E as <- _ _. split.
      * destruct m; [|done]. intros [= <-]. by eapply picks_recovered.
      * intros [H|H|? H|? H1 H2|t ? H1 H2 H3 Ht Hmt]; try congruence; [by destruct (Hno x)|]. assert (x = z) as -> by congruence. assert (t = s) as -> by congruence. rewrite Hmt in Em. by injection Em as <-.
  - injection E as <- _ _. split; [destruct (p_heads pl Free) as [y|] eqn:Hfr; [intros [= <-]; by apply picks_free|by apply picks_abandoned]|].
    intros [? H|? H1 H2|H|H|s H]; try congruence; by rewrite ?H, ?H1.
Qed.

(** [r] is the best of [P], if there is one. *)
Definition best_of (d : srv) (P : id -> Prop) (r : option id) : Prop :=
  match r with
  | None => forall y, ~ P y
  | Some x => P x /\ exists s, leases d !! x = Some s /\ forall y t, P y -> leases d !! y = Some t -> rank_le (rank s) (rank t)
  end.

(** Leases that are no better than others do not matter. *)
Lemma best_of_more d (P P' : id -> Prop) r : best_of d P' r -> (forall y, P' y -> P y) ->
  (forall y, P y -> exists t, leases d !! y = Some t /\ exists z u, P' z /\ leases d !! z = Some u /\ rank_le (rank u) (rank t)) -> best_of d P r.
Proof.
  intros Hb Hsub Hdom. destruct r as [x|].
  - destruct Hb as [Hx (s & Hs & Hb)]. split; [auto|]. exists s. split; [done|]. intros y t Hy Ht. destruct (Hdom y Hy) as (t' & Ht' & z & u & Hz & Hu & Hle).
    simplify_eq. etrans; [by apply (Hb z)|done].
  - intros y Hy. destruct (Hdom y Hy) as (_ & _ & z & _ & Hz & _). by apply (Hb z).
Qed.

(** The loop keeps the best of what it started with and what the pools offer. *)
Lemma allocate_loop_best p ps d : forall cur has r has' d', (forall y, cur = Some y -> is_Some (leases d !! y)) ->
  allocate_loop cur_time cf p ps cur has d = Some ((r, has'), d') -> best_of d (fun y => cur = Some y \/ exists q, q ∈ ps /\ offers p d q y) r.
Proof.
  induction ps as [|q ps IH]; intros cur has r has' d' Hcur E; cbn [allocate_loop] in E.
  - injection E as <- <- <-. destruct cur as [x|]; [|by intros y [[=]|(q & Hq%not_elem_of_nil & _)]].
    split; [by left|]. destruct (Hcur x eq_refl) as [s Hs]. exists s. split; [done|]. intros y t [[= <-]|(q & Hq%not_elem_of_nil & _)] Ht; [by simplify_eq|done].
  - assert (Hsame : forall y, (cur = Some y \/ exists q0, q0 ∈ ps /\ offers p d q0 y) ->
      exists t, leases d !! y = Some t /\ exists z u, (cur = Some z \/ exists q0, q0 ∈ ps /\ offers p d q0 z) /\ leases d !! z = Some u /\ rank_le (rank u) (rank t)).
    { intros y Hy. assert (is_Some (leases d !! y)) as [t Ht] by (destruct Hy as [Hy|(q0 & _ & _ & pl & t & _ & _ & ? & _)]; [by apply Hcur|by eexists]). exists t. split; [done|]. by exists y, t. }
    assert (Hskip : forall has0, (forall y, ~ offers p d q y) -> allocate_loop cur_time cf p ps cur has0 d = Some ((r, has'), d') ->
      best_of d (fun y => cur = Some y \/ exists q0, q0 ∈ q :: ps /\ offers p d q0 y) r).
    { intros has0 Hno E0. eapply best_of_more; [by eapply IH|intros y [|(q0 & ? & ?)]; [by left|right; exists q0; set_solver]|].
      intros y [Hy|(q0 & [-> |Hq0]%elem_of_cons & Hy)]; [apply Hsame; by left|by destruct (Hno y)|apply Hsame; right; by exists q0]. }
    destruct (pool_denies cur_time cf p q) eqn:Hd; [apply (Hskip has); [|done]; intros y (Hd' & _); congruence|].
    apply bind4_inv in E as ([c b] & d1 & Ec & E). pose proof (pure_candidate _ _ _ _ Ec) as <-. cbn [fst snd] in E. apply candidate_picks in Ec as (pl & Hp & Hpick).
    assert (Hof : forall y, offers p d q y -> c = Some y) by (intros y (_ & pl' & t & Hp' & Hy & _); simplify_eq; by apply Hpick).
    destruct c as [x|]; [|apply Hskip in E; [done|]; by intros y Hy%Hof].
    step4 E. rename a into s, Hm into Hs. destruct (Z.ltb_spec cur_time (l_ends s)) as [Hlt|Hge].
    { apply Hskip in E; [done|]. intros y Hy. pose proof (Hof y Hy) as [= ->]. destruct Hy as (_ & pl' & t & _ & _ & Ht & Hle). simplify_eq. lia. }
    assert (Hx : offers p d q x) by (split; [done|]; exists pl, s; split_and!; [done|by apply Hpick|done|done]). assert (Honly : forall y, offers p d q y -> y = x) by (intros y Hy; by pose proof (Hof y Hy) as [= ->]).
    (** [best] is no worse than both. *)
    assert (Hgo : forall best sb, leases d !! best = Some sb -> (best = x \/ cur = Some best) -> rank_le (rank sb) (rank s) ->
      (forall y t, cur = Some y -> leases d !! y = Some t -> rank_le (rank sb) (rank t)) ->
      allocate_loop cur_time cf p ps (Some best) (has || b) d = Some ((r, has'), d') -> best_of d (fun y => cur = Some y \/ exists q0, q0 ∈ q :: ps /\ offers p d q0 y) r).
    { intros best sb Hsb Hwhich Hbs Hbc E0. eapply best_of_more; [eapply IH; [|done]; intros y [= <-]; by eexists|..].
      - intros y [[= <-]|(q0 & ? & ?)]; [destruct Hwhich as [-> |]; [right; exists q; set_solver|by left]|right; exists q0; set_solver].
      - intros y [Hy|(q0 & [-> |Hq0]%elem_of_cons & Hy)].
        + destruct (Hcur y Hy) as [t Ht]. exists t. split; [done|]. exists best, sb. split_and!; [by left|done|by eapply Hbc].
        + apply Honly in Hy as ->. exists s. split; [done|]. exists best, sb. split_and!; [by left|done..].
        + pose proof Hy as (_ & pl' & t & _ & _ & Ht & _). exists t. split; [done|]. exists y, t. split_and!; [right; by exists q0|done|done]. }
    destruct cur as [y|]; [|apply (Hgo x s) in E; [done|done|by left|done|by intros]]. step4 E. rename a into t, Hm into Ht0. pose proof (better_rank s t) as Hbt.
    destruct (better s t); [apply (Hgo x s) in E|apply (Hgo y t) in E]; try done; try (by left); try (by right); intros z u [= <-] Hu; by simplify_eq.
Qed.

(** ** Whose leases they are *)

Lemma head_filed d q pl w x : files_ok d -> pools d !! q = Some pl -> p_heads pl w = Some x -> exists s, leases d !! x = Some s /\ l_pool s = Some q /\ queue_of s = Some w.
Proof.
  intros (Q & on & Hl & Hon) Hp Hh. pose proof (ls_seg _ _ _ Hl _ _ w Hp) as Hseg. pose proof (seg_head _ _ _ _ Hseg) as Hhd. rewrite Hh in Hhd.
  destruct (Q q w) as [|y l] eqn:HQ; [done|]. injection Hhd as <-. assert (Hin : x ∈ Q q w) by (rewrite HQ; constructor).
  apply (seg_in _ _ _ _ x) in Hseg as [t Ht]; [|constructor]. unfold nx in Ht. destruct (leases d !! x) as [s|] eqn:Hs; [|done]. exists s. split; [done|].
  apply (ls_on _ _ _ Hl) in Hin. rewrite (Hon _ _ Hs) in Hin. unfold place in Hin. destruct (l_pool s); [|done]. cbn in Hin. by destruct (queue_of s); simplify_eq/=.
Qed.

Lemma queue_state s w : queue_of s = Some w -> match w with Free => l_binding_state s = FTS_FREE | Backup => l_binding_state s = FTS_BACKUP | Abandoned => l_binding_state s = FTS_ABANDONED | _ => True end.
Proof.
  unfold queue_of, case_of. cbn [existsb]. repeat match goal with |- context [Z.eqb ?a ?b] => destruct (Z.eqb_spec a b) end; cbn; destruct (flag s RESERVED_LEASE); intros; by simplify_eq.
Qed.

Lemma own_list_mine d s q pl : pools d !! q = Some pl -> p_failover_peer pl = true -> l_pool s = Some q -> queue_of s = Some (own_list (f_i_am (peer d))) -> mine cur_time s d = Some (true, d).
Proof.
  intros Hp Hf Hq Hw. unfold mine. erewrite bind4_eq; [|unfold failover_peer; rewrite Hq; erewrite bind4_eq by (by apply pool_at_eq); rewrite get4_bind, Hf; reflexivity].
  apply queue_state in Hw. unfold follow, lease_mine_to_reallocate, view_lease. cbn. rewrite Hq. cbn. destruct (f_i_am (peer d)); cbn in Hw; rewrite Hw; done.
Qed.

(** A lease that is put forward is free or abandoned; in a pool with a partner, it is this server's to hand out. *)
Lemma picks_filed q d pl x : files_ok d -> pools d !! q = Some pl -> picks d pl x ->
  exists s, leases d !! x = Some s /\ l_pool s = Some q /\ (exists w, w ∈ [Free; Backup; Abandoned] /\ queue_of s = Some w) /\ (p_failover_peer pl = true -> mine cur_time s d = Some (true, d)).
Proof.
  intros Hok Hp Hx. assert (Hin : forall w, w ∈ [Free; Backup; Abandoned] -> p_heads pl w = Some x -> (forall s, leases d !! x = Some s -> l_pool s = Some q -> queue_of s = Some w -> p_failover_peer pl = true -> mine cur_time s d = Some (true, d)) ->
    exists s, leases d !! x = Some s /\ l_pool s = Some q /\ (exists w, w ∈ [Free; Backup; Abandoned] /\ queue_of s = Some w) /\ (p_failover_peer pl = true -> mine cur_time s d = Some (true, d))).
  { intros w Hw Hh Hm. destruct (head_filed _ _ _ _ _ Hok Hp Hh) as (s & Hs & Hq & Hqw). exists s. split_and!; eauto. }
  destruct Hx as [Hf H|Hf _ H|Hf (s & H & Hs & Hm & _)|Hf _ H|s Hf _ _ H Hs Hm]; (eapply Hin; [|exact H|]; [try (destruct (f_i_am (peer d))); set_solver|]); intros t Ht Hq Hw Hf'; try congruence.
  - by eapply own_list_mine.
Qed.

(** A pool that has a free lease has a first one. *)
Lemma free_head d q pl x s w : files_ok d -> pools d !! q = Some pl -> leases d !! x = Some s -> l_pool s = Some q -> queue_of s = Some w -> is_Some (p_heads pl w).
Proof.
  intros (Q & on & Hl & Hon) Hp Hs Hq Hw. pose proof (seg_head _ _ _ _ (ls_seg _ _ _ Hl _ _ w Hp)) as Hh. assert (x ∈ Q q w) as Hin.
  { apply (ls_on _ _ _ Hl). rewrite (Hon _ _ Hs). unfold place. by rewrite Hq, Hw. }
  rewrite Hh. destruct (Q q w) as [|y l]; [by apply not_elem_of_nil in Hin|by eexists].
Qed.

(** An abandoned lease that is the best one: no pool offers another. *)
Lemma abandoned_worst s t : rank_le (rank s) (rank t) -> l_binding_state s = FTS_ABANDONED -> l_binding_state t = FTS_ABANDONED.
Proof. intros H Hs. unfold rank in H. rewrite Hs in H. destruct (Z.eqb_spec (l_binding_state t) FTS_ABANDONED); [done|]. cbn in H. lia. Qed.

(** If a pool without a partner offers no lease that is free, it has none, or the first of them is not over yet. *)
Lemma free_first p d q pl x s : files_ok d -> pool_denies cur_time cf p q = false -> pools d !! q = Some pl -> p_failover_peer pl = false -> leases d !! x = Some s -> l_pool s = Some q -> queue_of s = Some Free ->
  exists y t, p_heads pl Free = Some y /\ leases d !! y = Some t /\ l_binding_state t = FTS_FREE /\ (l_ends t <= cur_time -> offers p d q y).
Proof.
  intros Hok Hd Hp Hf Hs Hq Hw. destruct (free_head _ _ _ _ _ _ Hok Hp Hs Hq Hw) as [y Hy]. destruct (head_filed _ _ _ _ _ Hok Hp Hy) as (t & Ht & _ & Hqt). exists y, t.
  split; [done|]. split; [done|]. split; [by apply queue_state in Hqt|]. intros He. split; [done|]. exists pl, t. split_and!; try done. by apply picks_free.
Qed.

End Allocate.
