(* ===== verification/V4ServeClaims.v ===== *)
(** * What clients of the DHCPv4 server are given

    The theorems about server/dhcp.c, and a server with a pool that instantiates them. *)

From stdpp Require Import gmap relations.
From S2P Require Import Prelude BindingStates FailoverLeases V4State V4Queues V4Leases V4Machine V4Handlers V4Chain V4Laws V4Frames V4Lists V4Sending V4System V4Tables V4Spared V4Claims V4Serve V4ServeProofs V4Allocate.

#[local] Open Scope Z_scope.

Section Claims.
Context (io : nat -> bool) (random : nat -> Z) (cur_time : Z) (fuel : nat) (cf : site).

(** C26: a new lease is the best there is.  [allocate_lease] changes nothing.  It returns a lease that is over and that a pool which takes the client offers, and no such pool offers a better one:
    abandoned leases come last, then leases that had a client, and among equals the one that is over for longest comes first; it returns none only if no pool offers one.  A pool without a partner offers the first
    lease of its free list, and an abandoned one only if it has no free one; with a partner, it offers the first one of this server's own list or an older one of the partner's that this server may hand out, and an
    abandoned one only if there is neither, and the lease is always this server's to hand out.  So an abandoned lease is returned only if every pool without a partner that takes the client and has a free lease has one first that is not over. *)
Theorem allocate_best p ps has d r has' d' : files_ok d -> allocate_lease cur_time cf p ps has d = Some ((r, has'), d') ->
  d' = d /\
  match r with
  | None => forall q x, q ∈ ps -> ~ offers cur_time cf p d q x
  | Some x => exists q s pl, q ∈ ps /\ offers cur_time cf p d q x /\ leases d !! x = Some s /\ pools d !! q = Some pl /\
      (p_failover_peer pl = true -> mine cur_time s d = Some (true, d)) /\
      (forall q' y t, q' ∈ ps -> offers cur_time cf p d q' y -> leases d !! y = Some t -> rank_le (rank s) (rank t)) /\
      (l_binding_state s = FTS_ABANDONED -> forall q' pl' y t, q' ∈ ps -> pool_denies cur_time cf p q' = false -> pools d !! q' = Some pl' -> p_failover_peer pl' = false ->
        leases d !! y = Some t -> l_pool t = Some q' -> queue_of t = Some Free -> exists z u, p_heads pl' Free = Some z /\ leases d !! z = Some u /\ cur_time < l_ends u)
  end.
Proof.
  intros Hok E. split; [by rewrite (pure_allocate _ _ _ _ _ _ _ _ _ E)|]. apply allocate_loop_best in E; [|done]. destruct r as [x|].
  - destruct E as [[[=]|(q & Hq & Hx)] (s & Hs & Hb)]. pose proof Hx as (_ & pl & s' & Hp & Hpick & _). destruct (picks_filed _ _ _ _ _ Hok Hp Hpick) as (s1 & Hs1 & _ & _ & Hm).
    assert (s1 = s) as -> by congruence. assert (Hbest : forall q' y t, q' ∈ ps -> offers cur_time cf p d q' y -> leases d !! y = Some t -> rank_le (rank s) (rank t)) by (intros; eapply Hb; eauto).
    exists q, s, pl. split_and!; try done. intros Hab q' pl' y t Hq' Hd Hp' Hf Hy Hpool Hfree.
    destruct (free_first cur_time cf p d q' pl' y t Hok Hd Hp' Hf Hy Hpool Hfree) as (z & u & Hz & Hu & Hst & Ho). exists z, u. split_and!; [done|done|].
    apply Z.lt_nge. intros Hle. pose proof (abandoned_worst _ _ (Hbest _ _ _ Hq' (Ho Hle) Hu) Hab) as H. by rewrite H in Hst.
  - intros q x Hq Hx. apply (E x). eauto.
Qed.

(** ** Answers *)

#[local] Hint Resolve pure_mine pure_usable pure_wanted : keeps.

Lemma pure_request_failover h cip : Keeps eq (request_failover cur_time h cip).
Proof. unfold request_failover. keeps. Qed.
Lemma pure_wrong_network p cip sub b : Keeps eq (wrong_network cf p cip sub b).
Proof. unfold wrong_network. keeps. Qed.
Lemma pure_locate p : Keeps eq (locate_network cf p).
Proof. unfold locate_network, address_in. keeps. Qed.
Lemma pure_keep_found h : Keeps eq (keep_found cur_time h).
Proof. unfold keep_found. keeps. Qed.
Lemma pure_peer_leases ps : Keeps eq (peer_leases ps).
Proof. induction ps as [|q ps IH]; cbn [peer_leases]; keeps. Qed.
Lemma pure_peer_of h : Keeps eq (peer_of h).
Proof. unfold peer_of. keeps. Qed.

(** A lease that is handed out in a pool with a partner: this server answers, and may hand it out. *)
Definition partner_agrees (d : srv) (s : lease) : Prop :=
  forall f, failover_peer s d = Some (Some f, d) -> silent_service f = false /\ (is_free s = true -> mine cur_time s d = Some (true, d)).

Lemma request_agrees x cip d d' : request_failover cur_time (Some (Dynamic x)) cip d = Some (None, d') -> exists s, leases d !! x = Some s /\ partner_agrees d s.
Proof.
  intros E. unfold request_failover in E. step4 E. rename a into s, Hm into Hs. exists s. split; [done|]. intros f Hf. apply bind4_inv in E as (f' & d1 & E1 & E).
  rewrite Hf in E1. injection E1 as <- <-. destruct (silent_service f); [done|]. split; [done|]. intros Hfree. rewrite Hfree in E.
  apply bind4_inv in E as (m & d1 & E1 & E). pose proof (pure_mine _ _ _ _ _ E1) as <-. by destruct m.
Qed.

(** *** Requests *)

(** The tests before an answer refuse, or say nothing. *)
Definition refusal (a : answer) : Prop := a = Silent \/ exists cip, a = Nak cip.

Lemma failover_refuses h cip d a d' : request_failover cur_time h cip d = Some (Some a, d') -> refusal a.
Proof.
  unfold refusal, request_failover. destruct h as [[|x]|]; [done| |done]. intros E. step4 E. apply bind4_inv in E as (f & d2 & _ & E). destruct f as [f|]; [|done].
  repeat (case_match; [first [injection E as <- _; by left | apply bind4_inv in E as (m & d3 & _ & E); destruct m; [done|injection E as <- _; eauto]]|]). done.
Qed.

Lemma network_refuses p cip sub b d a d' : wrong_network cf p cip sub b d = Some (Some a, d') -> refusal a.
Proof.
  unfold refusal, wrong_network. destruct (_ || _ || _); [|done]. destruct (cp_shared_network p) as [share|].
  - intros E. apply bind4_inv in E as (net & d2 & _ & E). destruct (find_grouped_subnet net cip); [done|]. injection E as <- _. destruct (net_authoritative net); eauto.
  - intros [= <- _]. destruct sub as [sub|]; [destruct (sub_authoritative sub)|]; eauto.
Qed.

Lemma request_inv p ip_lease d h d' : dhcprequest io random cur_time fuel cf p ip_lease d = Some (Ack h, d') ->
  exists share ours p' cip, find_lease io random cur_time fuel cf p share ip_lease d = Some ((Some h, ours, p'), d') /\ request_failover cur_time (Some h) cip d' = Some (None, d').
Proof.
  intros E. unfold dhcprequest in E. apply bind4_inv in E as (cip & d1 & E1 & E).
  assert (d = d1) as <- by (assert (Keeps eq (match cp_options p !! DHO_DHCP_REQUESTED_ADDRESS with Some data => address_in data | None => mret (cp_ciaddr p) end)) as K by (unfold address_in; keeps); by apply (K _ _ _ E1)).
  apply bind4_inv in E as ([[h0 ours] p'] & d1 & Ef & E). apply bind4_inv in E as (a & d2 & Ea & E). pose proof (pure_request_failover _ _ _ _ _ Ea) as <-.
  destruct a as [a|]; [injection E as -> _; apply failover_refuses in Ea as [|[? ?]]; done|].
  apply bind4_inv in E as (w & d2 & Ew & E). pose proof (pure_wrong_network _ _ _ _ _ _ _ Ew) as <-.
  destruct w as [w|]; [injection E as -> _; apply network_refuses in Ew as [|[? ?]]; done|].
  destruct h0 as [h0|]; [|by destruct ours]. injection E as -> <-. destruct (find_subnet cf cip) as [sub|]; [|done]. eauto 10.
Qed.

Lemma discover_no_ack p d h d' : dhcpdiscover io random cur_time fuel cf p d <> Some (Ack h, d').
Proof.
  intros E. unfold dhcpdiscover in E. do 3 apply bind4_inv in E as (? & ? & _ & E). apply bind4_inv in E as ([[h0 ours] p'] & d1 & _ & E).
  do 2 apply bind4_inv in E as (? & ? & _ & E). destruct (fst _); [|done]. do 2 apply bind4_inv in E as (? & ? & _ & E). destruct (negb _); [done|]. by do 2 apply bind4_inv in E as (? & ? & _ & E).
Qed.

(** The lease that [dhcp] has looked up is the one on the address of the client. *)
Lemma dhcp4_ack_inv p d h d' : dhcp4 io random cur_time fuel cf p d = Some (Ack h, d') -> cp_type p = DHCPREQUEST4 /\
  exists n ip_in, dhcprequest io random cur_time fuel cf (set_shared_network n p) ip_in d = Some (Ack h, d') /\
    forall x, ip_in = Some x -> cp_ciaddr p <> 0 /\ lease_ip_addr_hash d !! cp_ciaddr p = Some x.
Proof.
  intros E. unfold dhcp4 in E. apply bind4_inv in E as (net & d1 & E1 & E). pose proof (pure_locate _ _ _ _ E1) as <-. clear E1.
  destruct (_ && negb _); [done|]. rewrite get4_bind in E. cbv zeta in E. cbn [cp_type cp_ciaddr cp_giaddr cp_agent_options set_shared_network] in E.
  destruct (cp_type p =? DHCPDISCOVER4); [by apply discover_no_ack in E|]. destruct (Z.eqb_spec (cp_type p) DHCPREQUEST4) as [Hty|].
  - split; [done|]. do 2 eexists. split; [exact E|]. intros x. rewrite andb_true_l. destruct (Z.eqb_spec (cp_ciaddr p) 0); [done|]. cbn. destruct (_ && _); [done|done].
  - destruct (_ =? _); [by apply bind4_inv in E as (? & ? & _ & E)|]. destruct (_ =? _); [by apply bind4_inv in E as (? & ? & _ & E)|done].
Qed.

Lemma search_network n p net : search_hosts cf (set_shared_network n p) net = (fst (search_hosts cf p net), set_shared_network n (snd (search_hosts cf p net))).
Proof.
  unfold search_hosts. change (client_id (set_shared_network n p)) with (client_id p). change (find_hosts_by_haddr cf (set_shared_network n p)) with (find_hosts_by_haddr cf p).
  assert (find_hosts_by_option cf (set_shared_network n p) = find_hosts_by_option cf p) as ->; [|by repeat case_match].
  unfold find_hosts_by_option. induction (host_id_info cf) as [|[c v] l IH]; cbn; [done|]. by rewrite IH.
Qed.

(** C5: an ACK answers a REQUEST with the address it asks for, and only leases that were available to the client have been given up before.  The address is the fixed one of a host declaration of the client; or
    it is a lease that was available to the client when the message came (its own, a free one, or one whose state had run out), it is not abandoned, and it is in a pool that takes the client, which is known if it has a host declaration.
    If the pool has a partner, this server answers clients, and the lease is its own to hand out if it is free. *)
Theorem ack_granted p d h d' : tables_good d -> dhcp4 io random cur_time fuel cf p d = Some (Ack h, d') ->
  cp_type p = DHCPREQUEST4 /\ frees io random cur_time fuel (available cur_time p d) d d' /\ exists a, wanted_address p d = Some (Some a, d) /\
  match h with
  | Fixed b => b = a /\ exists share net, networks cf !! share = Some net /\ fst (search_hosts cf p net) = Some a
  | Dynamic x => lease_ip_addr_hash d !! a = Some x /\ available cur_time p d x /\
      (exists net, networks cf !! network_of cf x = Some net /\ allowed cur_time cf (snd (search_hosts cf p net)) d x) /\
      exists s, leases d' !! x = Some s /\ l_binding_state s <> FTS_ABANDONED /\ partner_agrees d' s
  end.
Proof.
  intros Ht%good_tables E. apply dhcp4_ack_inv in E as (Hty & n & ip_in & E & Hin). split; [done|]. apply request_inv in E as (share & ours & p' & cip & Ef & Er).
  destruct (find_lease_inv _ _ _ _ _ _ _ _ _ _ _ _ _ Ht Ef) as (net & w & Hnet & Hw & Hp' & Hrel & H). split; [done|]. change (wanted_address p d = Some (w, d)) in Hw.
  rewrite search_network in H, Hp'. cbn [fst snd] in H, Hp'. destruct h as [a|x].
  - destruct H as [Hfix Ha]. rewrite (Ha Hty) in Hw. exists a. split; [done|]. eauto.
  - destruct H as ((Hn & Ho) & Hal & (s & Hs & Hab) & Hask). apply request_agrees in Er as (s' & Hs' & Hpa). assert (s' = s) as -> by congruence.
    assert (exists a, w = Some a /\ lease_ip_addr_hash d !! a = Some x) as (a & -> & Hx).
    { destruct (Hask Hty) as [->|(_ & a & ? & ?)]; [|eauto]. destruct (Hin x eq_refl) as [H0 Hx]. exists (cp_ciaddr p). split; [|done].
      unfold wanted_address in Hw. apply Z.eqb_neq in H0. rewrite H0 in Hw. by injection Hw as <-. }
    exists a. split_and!; [done|done|done|exists net; split; [by rewrite Hn|]; by rewrite Hp' in Hal|by exists s].
Qed.

(** *** Offers *)

Lemma frees_ok4 P d d' : frees io random cur_time fuel P d d' -> ok4 d -> ok4 d'.
Proof. apply (frees_keeps _ _ _ _ (inv_rel ok4)). apply ok4_release. Qed.

(** A lease that was found, or a new one *)
Definition chosen (p' : client_packet) (ps : list id) (h0 : option handout) (d1 : srv) (h : handout) : Prop :=
  keep_found cur_time h0 d1 = Some (Some h, d1) \/ exists x has has', h = Dynamic x /\ allocate_lease cur_time cf p' ps has d1 = Some ((Some x, has'), d1).

Lemma discover_inv p d h w d' : dhcpdiscover io random cur_time fuel cf p d = Some (Offer h w, d') ->
  exists share net h0 ours p' d1 f e, cp_shared_network p = Some share /\ networks cf !! share = Some net /\ find_lease io random cur_time fuel cf p share None d = Some ((h0, ours, p'), d1) /\
    chosen p' (net_pools net) h0 d1 h /\ peer_of h d1 = Some (f, d1) /\ (forall g, f = Some g -> silent_service g = false) /\
    handout_ends h d1 = Some (e, d1) /\ w = Z.max e (cur_time + 120).
Proof.
  intros E. unfold dhcpdiscover in E. apply bind4_inv in E as (share & d0 & E0 & E). unfold follow in E0. destruct (cp_shared_network p) as [share'|] eqn:Hshare; [|done]. injection E0 as -> <-.
  apply bind4_inv in E as (net & d0 & E0 & E). unfold follow in E0. destruct (networks cf !! share) as [net'|] eqn:Hnet; [|done]. injection E0 as -> <-.
  apply bind4_inv in E as (has & d0 & E0 & E). pose proof (pure_peer_leases _ _ _ _ E0) as <-. apply bind4_inv in E as ([[h0 ours] p'] & d1 & Ef & E).
  apply bind4_inv in E as (h1 & d2 & Ek & E). pose proof (pure_keep_found _ _ _ _ Ek) as <-. apply bind4_inv in E as ([h2 has2] & d2 & Ea & E). cbn [fst snd] in E.
  assert (Hch : d2 = d1 /\ forall h, h2 = Some h -> chosen p' (net_pools net) h0 d1 h).
  { destruct h1 as [h1|]; [injection Ea as <- <- <-; split; [done|]; intros h' [= <-]; by left|]. apply bind4_inv in Ea as ([x has'] & d3 & Ea & E2).
    pose proof (pure_allocate _ _ _ _ _ _ _ _ _ Ea) as <-. injection E2 as <- <- <-. split; [done|]. intros h' Hh'. destruct x as [x|]; [|done]. injection Hh' as <-. right. eauto. }
  destruct Hch as [-> Hch]. destruct h2 as [h2|]; [|done]. apply bind4_inv in E as (f & d2 & Ep & E). pose proof (pure_peer_of _ _ _ _ Ep) as <-.
  apply bind4_inv in E as (go & d2 & Eg & E). destruct go; [|done]. cbn [negb] in E.
  assert (Hg : d2 = d1 /\ forall g, f = Some g -> silent_service g = false).
  { destruct f as [f|]; [|by injection Eg as <-]. destruct (silent_service f) eqn:Hsil; [done|]. split; [|by intros g [= <-]].
    destruct (bool_decide _); [|by injection Eg as <-]. unfold load_balanced in Eg. apply bind4_inv in Eg as (b & d3 & Eg & E2). injection E2 as _ <-.
    apply bind4_inv in Eg as (v & d4 & Eg & E2). injection E2 as _ <-. unfold follow in Eg. destruct (load_balance_mine _ _); [|done]. by injection Eg as _ <-. }
  destruct Hg as [-> Hg]. apply bind4_inv in E as ([] & d3 & Es & E). apply bind4_inv in E as (e & d4 & Ee & E). injection E as <- <- <-.
  exists share, net, h0, ours, p', d1, f, e. split_and!; try done; [by apply Hch| |destruct (Z.ltb_spec (cur_time + 120) e); lia].
  unfold forget_scope in Es. unfold handout_ends in *. destruct h2 as [b|y]; [by injection Ee as <- _|]. step4 Es. rename a into s, Hm into Hs. erewrite bind4_eq by (by apply lease_at_eq).
  assert (Hs3 : exists s3, leases d3 !! y = Some s3 /\ l_ends s3 = l_ends s).
  { destruct (l_ends s <? cur_time); [|injection Es as <-; eauto]. cbn [when4] in Es. apply set_lease4_inv in Es as (s0 & Hs0 & ->). rewrite lookup_upd_lease, decide_True by done.
    eexists. split; [done|]. cbn. congruence. }
  destruct Hs3 as (s3 & Hs3 & He). erewrite bind4_eq in Ee by (by apply lease_at_eq). injection Ee as <- _. by rewrite He.
Qed.

Lemma discover_offer_inv p d h w d' : dhcp4 io random cur_time fuel cf p d = Some (Offer h w, d') ->
  cp_type p = DHCPDISCOVER4 /\ exists n, locate_network cf p d = Some (n, d) /\ dhcpdiscover io random cur_time fuel cf (set_shared_network n p) d = Some (Offer h w, d').
Proof.
  intros E. unfold dhcp4 in E. apply bind4_inv in E as (net & d1 & E1 & E). pose proof (pure_locate _ _ _ _ E1) as <-. destruct (_ && negb _); [done|]. rewrite get4_bind in E. cbv zeta in E.
  cbn [cp_type cp_ciaddr cp_giaddr cp_agent_options set_shared_network] in E. destruct (Z.eqb_spec (cp_type p) DHCPDISCOVER4); [by eauto|]. exfalso.
  destruct (cp_type p =? DHCPREQUEST4).
  { unfold dhcprequest in E. apply bind4_inv in E as (? & ? & _ & E). apply bind4_inv in E as ([[h0 ours] p'] & ? & _ & E). apply bind4_inv in E as (a & ? & Ea & E).
    destruct a as [a|]; [injection E as -> _; apply failover_refuses in Ea as [|[? ?]]; done|]. apply bind4_inv in E as (b & ? & Eb & E).
    destruct b as [b|]; [injection E as -> _; apply network_refuses in Eb as [|[? ?]]; done|]. by repeat case_match. }
  destruct (_ =? _); [by apply bind4_inv in E as (? & ? & _ & E)|]. destruct (_ =? _); [by apply bind4_inv in E as (? & ? & _ & E)|done].
Qed.

(** What a lease that is offered is like: it is in a pool that takes the client; it was available to the client, or else it is abandoned and over, and no pool of the network that takes the client offers another one;
    and with a partner, this server may hand it out. *)
Definition offerable (p : client_packet) (share : id) (net : shared_network) (d d1 : srv) (x : id) (s : lease) : Prop :=
  let p' := snd (search_hosts cf p net) in
  leases d1 !! x = Some s /\ allowed cur_time cf p' d x /\ (network_of cf x = share \/ exists q, l_pool s = Some q /\ q ∈ net_pools net) /\
  (l_binding_state s <> FTS_ABANDONED /\ available cur_time p d x \/
   l_binding_state s = FTS_ABANDONED /\ l_ends s <= cur_time /\
   forall q y t, q ∈ net_pools net -> offers cur_time cf p' d1 q y -> leases d1 !! y = Some t -> l_binding_state t = FTS_ABANDONED) /\
  forall f, failover_peer s d1 = Some (Some f, d1) -> usable cur_time s d1 = Some (true, d1).

Lemma kept_offerable n p share net d h0 x ours d1 :
  tables_ok d -> networks cf !! share = Some net -> find_lease io random cur_time fuel cf (set_shared_network n p) share None d = Some ((h0, ours, set_shared_network n (snd (search_hosts cf p net))), d1) ->
  keep_found cur_time h0 d1 = Some (Some (Dynamic x), d1) -> exists s, offerable p share net d d1 x s.
Proof.
  intros Ht Hnet Ef Ek. unfold keep_found in Ek. destruct h0 as [[a|y]|]; [done| |done]. step4 Ek. rename a into s, Hm into Hs. apply bind4_inv in Ek as (f & d2 & Efp & Ek).
  assert (d1 = d2) as <- by (by apply (keeps_failover_peer eq _ _ _ _ Efp)).
  assert (Hx : y = x /\ forall g, f = Some g -> usable cur_time s d1 = Some (true, d1)).
  { destruct f as [g|]; [|injection Ek as <-; by split]. apply bind4_inv in Ek as (b & d2 & Eu & Ek). pose proof (pure_usable _ _ _ _ _ Eu) as <-. destruct b; [|done]. injection Ek as <-. split; [done|]. by intros. }
  destruct Hx as [-> Hu]. apply (find_lease_inv _ _ _ _ _ _ _ _ _ _ _ _ _ Ht) in Ef as (net' & cip & _ & _ & _ & _ & (Hn & Ho) & Hal & (s' & Hs' & Hab) & _).
  assert (s' = s) as -> by congruence. exists s. split; [done|]. split; [done|]. split; [by left|]. split; [by left|].
  intros g Hg. rewrite Efp in Hg. injection Hg as ->. by apply (Hu g).
Qed.

Lemma new_offerable n p share net d d1 x has has' : frees io random cur_time fuel (available cur_time p d) d d1 -> ok4 d ->
  allocate_lease cur_time cf (set_shared_network n (snd (search_hosts cf p net))) (net_pools net) has d1 = Some ((Some x, has'), d1) -> exists s, offerable p share net d d1 x s.
Proof.
  intros Hr Hok E. pose proof (frees_ok4 _ _ _ Hr Hok) as [Hf _]. apply allocate_loop_best in E; [|done]. destruct E as [[[=]|(q & Hin & Hd & pl & s0 & Hp & Hpick & Hs0 & He)] (s & Hs & Hbest)].
  assert (s0 = s) as -> by congruence. destruct (picks_filed _ _ _ _ _ Hf Hp Hpick) as (s' & Hs' & Hq & (w & Hw & Hqw) & Hm). assert (s' = s) as -> by congruence. exists s. split; [done|].
  split; [eapply allowed_back; [by eapply frees_clients|done..]|]. split; [right; by exists q|]. split.
  - apply queue_state in Hqw. destruct (Z.eq_dec (l_binding_state s) FTS_ABANDONED) as [Hab|Hab].
    + right. split_and!; [done|done|]. intros q' y t Hq' Hy Ht. eapply abandoned_worst; [eapply Hbest; [right; eauto|done]|done].
    + left. split; [done|]. eapply available_back; [done..|right]. rewrite !elem_of_cons in Hw. unfold is_free. destruct Hw as [-> |[-> |[-> |Hw%not_elem_of_nil]]]; [| |done|done]; by rewrite Hqw.
  - intros f Hfp. unfold usable. destruct (_ || _); [done|]. destruct (p_failover_peer pl) eqn:Hpl; [by apply Hm|].
    exfalso. unfold failover_peer in Hfp. rewrite Hq in Hfp. erewrite bind4_eq in Hfp by (by apply pool_at_eq). rewrite get4_bind, Hpl in Hfp. done.
Qed.


(** *** What serving clients keeps *)

Section Keep.
Context (R : relation srv) `{!PreOrder R} (Hrel : forall l, Keeps R (release_lease io random cur_time fuel l)) (Hab : forall l, Keeps R (abandon_lease io random cur_time fuel l))
  (Hscope : forall x, Keeps R (set_lease4 x (set_l_scope false))).

Lemma keeps_pure {A} (m : M4 A) : Keeps eq m -> Keeps R m.
Proof using PreOrder0. apply keeps_sub. by intros ? ? ->. Qed.
Lemma keeps_uid_loop n p share l : Keeps R (uid_loop io random cur_time fuel cf n p share l).
Proof using Hrel PreOrder0. pose proof (fun s => keeps_pure _ (pure_usable cur_time s)). pose proof (fun p s => keeps_pure _ (pure_denies cur_time cf p s)). revert l. induction n as [|n IH]; intros l; cbn [uid_loop]; [apply keeps_fatal|]. unfold release. keeps. Qed.
Lemma keeps_hw_loop n p share l : Keeps R (hw_loop io random cur_time fuel cf n p share l).
Proof using Hrel PreOrder0. pose proof (fun s => keeps_pure _ (pure_usable cur_time s)). pose proof (fun p s => keeps_pure _ (pure_denies cur_time cf p s)). revert l. induction n as [|n IH]; intros l; cbn [hw_loop]; [apply keeps_fatal|]. unfold release. keeps. Qed.
#[local] Hint Resolve keeps_uid_loop keeps_hw_loop : keeps.
Lemma keeps_find_lease p share ip : Keeps R (find_lease io random cur_time fuel cf p share ip).
Proof using Hrel PreOrder0.
  pose proof (fun p => keeps_pure _ (pure_wanted p)). pose proof (fun p s => keeps_pure _ (pure_denies cur_time cf p s)). pose proof (fun p s i b => keeps_pure _ (pure_check_ip cur_time cf p s i b)).
  unfold find_lease, find_candidates, duplicates, drop_all, drop_denied, choose, not_abandoned, find_lease_by, release. keeps.
Qed.

#[local] Hint Resolve keeps_find_lease : keeps.

Lemma keeps_release_loop n a l : Keeps R (release_loop cf n a l).
Proof using PreOrder0. revert l. induction n as [|n IH]; intros l; cbn [release_loop]; [apply keeps_fatal|]. keeps. Qed.
#[local] Hint Resolve keeps_release_loop : keeps.

Lemma keeps_dhcp4 p : Keeps R (dhcp4 io random cur_time fuel cf p).
Proof using All.
  pose proof (fun h => keeps_pure _ (pure_keep_found h)). pose proof (fun ps => keeps_pure _ (pure_peer_leases ps)). pose proof (fun h => keeps_pure _ (pure_peer_of h)).
  pose proof (fun p ps l b => keeps_pure _ (pure_allocate cur_time cf p ps l b)). pose proof (fun h c => keeps_pure _ (pure_request_failover h c)).
  pose proof (fun p c s b => keeps_pure _ (pure_wrong_network p c s b)). pose proof (fun p => keeps_pure _ (pure_locate p)).
  unfold dhcp4, dhcpdiscover, dhcprequest, dhcprelease, dhcpdecline, allocate_lease, load_balanced, forget_scope, handout_ends, address_in, find_lease_by. keeps.
Qed.

End Keep.

Lemma tables_dhcp4 p : Keeps (inv_rel tables_good) (dhcp4 io random cur_time fuel cf p).
Proof. apply keeps_dhcp4; [apply _|apply tables_release|apply tables_abandon|]. intros x. apply keeps_tables. keeps. Qed.
Lemma ok4_dhcp4 p : Keeps (inv_rel ok4) (dhcp4 io random cur_time fuel cf p).
Proof. apply keeps_dhcp4; [apply _|apply ok4_release|apply ok4_abandon|]. intros x. keeps. Qed.

End Claims.

(** ** The leases of a client *)

(** What happens to the running server, with its clients *)
Definition step_served (io : nat -> bool) (random : nat -> Z) (cf : site) (d d' : srv) : Prop :=
  step_srv io random d d' \/ exists cur_time fuel p a, dhcp4 io random cur_time fuel cf p d = Some (a, d').

(** C6: whatever clients, the partner, timers and the administrator do, the tables by client identifier and by hardware address stay exact: the chain of every
    key ends, it has no lease twice, and it has exactly the leases with that identifier or hardware address. *)
Theorem clients_found io random cf d0 d t key : tables_good d0 -> rtc (step_served io random cf) d0 d -> key <> [] ->
  exists L, seg (tnx t d) (hash_by t d !! key) L None /\ NoDup L /\ forall x s, leases d !! x = Some s -> x ∈ L <-> key_by t s = key.
Proof.
  intros H0 Hrun Hk. assert (tables_good d) as Hd.
  { induction Hrun as [|d1 d2 d3 [(now & fuel & o & E)|(now & fuel & p & a & E)] _ IH]; [done|apply IH; by eapply tables_run_op|apply IH; by eapply tables_dhcp4]. }
  destruct (Hd t) as (T & on & Hf & Hon). pose proof (fi_seg _ _ _ _ Hf key Hk) as Hs. exists (T key). split_and!; [done|by eapply seg_NoDup|].
  intros x s Hx. rewrite (fi_on _ _ _ _ Hf) by done. by rewrite (Hon _ _ Hx).
Qed.

(** ** A server with a pool *)

(** One subnet with sixteen addresses, its network with one pool that takes everybody *)
Definition ex_subnet : subnet := mkSubnet 0 4294967280 1%positive true.
Definition ex_site : site :=
  mkSite [ex_subnet] (<[1%positive := mkNetwork [1%positive] [ex_subnet] true]> ∅) Z.pos (fun _ => 1%positive) (fun _ => []) (fun _ => [])
    ∅ ∅ [] (Some 1%positive) 3 true.

(** A client; it asks for the address 1 if it requests. *)
Definition ex_client (type : Z) : client_packet :=
  mkClientPacket type 0 0 1 [2; 0; 0; 0; 0; 7] 10 (<[DHO_DHCP_CLIENT_IDENTIFIER := [9]]> (if type =? DHCPREQUEST4 then <[DHO_DHCP_REQUESTED_ADDRESS := [0; 0; 0; 1]]> ∅ else ∅))
    None false false false true [] None false.

Definition ex_free : srv := ex_one ex_peer FTS_FREE Free.

(** The lease is given to the client. *)
Definition ex_given : lease :=
  set_l_uid (Some [9]) (set_l_hbuf (hardware (ex_client DHCPDISCOVER4)) (set_l_next_binding_state FTS_ACTIVE (lease_copy (ex_lease None)))).
Definition ex_held : srv := default ex_free (snd <$> run_op ex_io ex_random 50 50 (Supersede 1%positive (Some ex_given) true true true) ex_free).

Lemma ex_free_tables : tables_good ex_free.
Proof.
  intros t. exists (fun _ => []), (fun _ => []). split; [split|]; [by intros; destruct t|set_solver| |];
    intros x s Hs; cbn in Hs; apply lookup_insert_Some in Hs as [[<- <-]|[_ Hs]]; [by destruct t|by rewrite lookup_empty in Hs|by destruct t|by rewrite lookup_empty in Hs].
Qed.

Lemma allocate_best_witness : exists q, q ∈ [1%positive] /\ offers 200 ex_site (ex_client DHCPDISCOVER4) ex_free q 1%positive.
Proof.
  edestruct (allocate_best 200 ex_site (ex_client DHCPDISCOVER4) [1%positive] false ex_free (Some 1%positive)) as [_ (q & s & pl & Hq & Ho & _)];
    [by apply ex_one_ok|vm_compute; reflexivity|]. exists q. split; [exact Hq|exact Ho].
Defined.

Lemma ack_granted_witness : exists d', dhcp4 ex_io ex_random 200 10 ex_site (ex_client DHCPREQUEST4) ex_free = Some (Ack (Dynamic 1%positive), d') /\
  available 200 (ex_client DHCPREQUEST4) ex_free 1%positive /\ exists s, leases d' !! 1%positive = Some s /\ partner_agrees 200 d' s.
Proof.
  eexists. split; [vm_compute; reflexivity|]. edestruct (ack_granted ex_io ex_random 200 10 ex_site (ex_client DHCPREQUEST4) ex_free (Dynamic 1%positive)) as (_ & _ & a & _ & _ & H0 & _ & s & H1 & _ & H2);
    [apply ex_free_tables|vm_compute; reflexivity|exact (conj H0 (ex_intro _ s (conj H1 H2)))].
Defined.


Lemma clients_found_witness : exists L, seg (tnx ByUid ex_held) (hash_by ByUid ex_held !! [9]) L None /\ NoDup L.
Proof.
  assert (rtc (step_served ex_io ex_random ex_site) ex_free ex_held) as Hrun.
  { apply rtc_once. left. exists 50, 50%nat, (Supersede 1%positive (Some ex_given) true true true). vm_compute. reflexivity. }
  destruct (clients_found ex_io ex_random ex_site ex_free ex_held ByUid [9] ex_free_tables Hrun ltac:(done)) as (L & H1 & H2 & _). exact (ex_intro _ L (conj H1 H2)).
Defined.
