(* ===== verification/V4Answers.v ===== *)
(** * Every client gets an answer

    The server does not fail on a message of a client: with leases in known states, exact tables and enough fuel, [dhcp4] has a result.
    [ends] says that a computation has a result in every state that serving may lead to; the searches along the tables end because the chains do. *)

From stdpp Require Import gmap relations.
From S2P Require Import Prelude BindingStates FailoverLeases V4State V4Queues V4Leases V4Machine V4Handlers V4Chain V4Laws V4Frames V4Lists V4Pending V4Sending V4System V4Tables V4Service V4Timers V4Claims V4Serve V4ServeProofs V4Allocate V4ServeClaims.

#[local] Open Scope Z_scope.

(** ** Leases in known states *)

Definition lease_states : list Z := [FTS_FREE; FTS_ACTIVE; FTS_EXPIRED; FTS_RELEASED; FTS_ABANDONED; FTS_RESET; FTS_BACKUP].
Definition known_state (b : Z) : Prop := case_of b lease_states = true.

(** The lease is in a pool, and in a state with a list of the pool. *)
Definition fit (s : lease) : Prop :=
  is_Some (l_pool s) /\ known_state (l_binding_state s) /\ known_state (l_next_binding_state s) /\ known_state (l_rewind_binding_state s).
Definition all_fit (d : srv) : Prop := forall x s, leases d !! x = Some s -> fit s.

Lemma fit_set x f d u d' : (forall s, leases d !! x = Some s -> fit s -> fit (f s)) -> set_lease4 x f d = Some (u, d') -> all_fit d -> all_fit d'.
Proof. intros Hf (s & Hs & ->)%set_lease4_inv Hd y sy. rewrite lookup_upd_lease. case_decide as E; [|apply Hd]. intros [= <-]. subst. by eapply Hf, Hd. Qed.

Lemma fit_keeps x f : (forall s, fit s -> fit (f s)) -> Keeps (inv_rel all_fit) (set_lease4 x f).
Proof. intros Hf d u d' E. unfold inv_rel. eapply fit_set; [|done]. auto. Qed.

Lemma known_follows f b : known_state b -> known_state (follows f b b).
Proof. intros H. unfold follows. repeat (case_match; try done). Qed.

Lemma fit_modify f : (forall d, leases (f d) = leases d) -> Keeps (inv_rel all_fit) (modify4 f).
Proof. intros Hf d u d' H Hd x s. unfold modify4 in H. injection H as _ <-. rewrite Hf. apply Hd. Qed.

#[local] Hint Extern 0 (Keeps (inv_rel all_fit) (modify4 _)) => (apply fit_modify; intros; reflexivity) : keeps.
#[local] Hint Extern 0 (Keeps (inv_rel all_fit) (set_lease4 _ _)) => (apply fit_keeps; intros; assumption) : keeps.

Lemma fit_set_peer f : Keeps (inv_rel all_fit) (set_peer4 f).
Proof. intros d u d' H. rewrite set_peer4_eq in H. injection H as _ <-. exact (fun Hd => Hd). Qed.
#[local] Hint Resolve fit_set_peer : keeps.

Lemma fit_emit e : Keeps (inv_rel all_fit) (emit e).
Proof. unfold emit. keeps. Qed.
Lemma fit_ask io : Keeps (inv_rel all_fit) (ask io).
Proof. unfold ask. keeps. Qed.
#[local] Hint Resolve fit_emit fit_ask : keeps.
Lemma fit_write_lease io x : Keeps (inv_rel all_fit) (write_lease io x).
Proof. unfold write_lease. keeps. Qed.
#[local] Hint Resolve fit_write_lease : keeps.

(** The lease is what was read, in what a computation does to others. *)
Lemma fit_transition x : Keeps (inv_rel all_fit) (make_binding_state_transition x).
Proof.
  intros d u d' E Hd. unfold make_binding_state_transition in E. step4 E. rename a into s, Hm into Hs. destruct (Hd _ _ Hs) as (_ & _ & Hn & _).
  apply bind4_inv in E as (f & d1 & Ef & E). assert (d = d1) as <- by (by apply (keeps_failover_peer eq _ _ _ _ Ef)). revert E Hd.
  match goal with |- ?m _ = _ -> _ => enough (Keeps (inv_rel all_fit) m) as K by apply K end.
  keeps; apply fit_keeps; intros s' (H1 & H2 & H3 & H4); split_and!; try done; by apply known_follows.
Qed.

Lemma fit_send_bind_update io now x : Keeps (inv_rel all_fit) (dhcp_failover_send_bind_update io now x).
Proof.
  open_ops. apply keeps_bind; [apply _|keeps|]. intros f. case_match; [|keeps]. intros d u d' E Hd. step4 E. rename a into s, Hm into Hs. destruct (Hd _ _ Hs) as (_ & Hb & _ & _). revert E Hd.
  match goal with |- ?m _ = _ -> _ => enough (Keeps (inv_rel all_fit) m) as K by apply K end. keeps. apply fit_keeps. intros s' (H1 & H2 & H3 & H4). by split_and!.
Qed.

#[export] Instance fit_calm : Calm (inv_rel all_fit).
Proof.
  assert (forall x f, (forall s, lease_view (f s) = lease_view s) -> Keeps (inv_rel all_fit) (set_lease4 x f)) as Hset.
  { intros x f Hf. apply fit_keeps. intros s. specialize (Hf s). unfold lease_view, client_view in Hf. injection Hf as H1 H2 H3 H4 H5 H6 H7 H8 _ _ _. unfold fit. by rewrite H3, H6, H7, H8. }
  split; [|intros; by apply Hset|apply fit_transition|].
  - split; [apply _|intros x f Hf; apply Hset; intros s; specialize (Hf s); congruence|intros q f d u d' (p & Hp & ->)%set_pool4_inv; exact (fun Hd => Hd)|intros; keeps|intros f H1 _ _ _; by apply fit_modify|
      intros; keeps|intros; keeps|apply fit_send_bind_update|].
    intros x. apply fit_keeps. intros s (H1 & H2 & H3 & H4). by split_and!.
  - intros x. apply fit_keeps. intros s (H1 & H2 & H3 & H4). by split_and!.
Qed.

Lemma fit_release io random now n l : Keeps (inv_rel all_fit) (release_lease io random now n l).
Proof.
  pose proof (proj1 (calm_supersede (inv_rel all_fit) io random now n)) as Hs0. unfold release_lease. apply keeps_bind; [apply _|keeps|intros _]. intros d u d' E Hd. step4 E.
  rename a into s, Hm into Hs. destruct (Hd _ _ Hs) as (_ & Hb & _ & Hr). revert E Hd. match goal with |- ?m _ = _ -> _ => enough (Keeps (inv_rel all_fit) m) as K by apply K end.
  keeps; apply fit_keeps; intros s' (H1 & H2 & H3 & H4); split_and!; try done; cbn; by repeat case_match.
Qed.

(** ** Computations that end *)

Create HintDb ends.

(** Fuel for one release in a server with [n] leases *)
Definition release_fuel (n : nat) : nat := (3 * n + 2) * (n + 3) + n + 3.

Section Ends.
Context (io : nat -> bool) (random : nat -> Z) (cur_time : Z) (fuel : nat) (cf : site) (d0 : srv).
Context (Hfuel : (release_fuel (size (leases d0)) <= fuel)%nat).

(** What serving a client may lead to *)
Definition served (d : srv) : Prop := ok4 d /\ all_fit d /\ same_clients d0 d /\ same_dom d0 d.

Definition ends {A} (m : M4 A) (Q : A -> Prop) : Prop := forall d, served d -> exists a d', m d = Some (a, d') /\ served d' /\ Q a.

Lemma ends_bind {A B} (m : M4 A) (f : A -> M4 B) Q Q' : ends m Q -> (forall a, Q a -> ends (f a) Q') -> ends (m ≫= f) Q'.
Proof. intros Hm Hf d Hd. destruct (Hm d Hd) as (a & d1 & E & H1 & Ha). rewrite (bind4_eq _ _ _ _ _ E). by apply Hf. Qed.
Lemma ends_ret {A} (a : A) (Q : A -> Prop) : Q a -> ends (mret a) Q.
Proof. intros Ha d Hd. by exists a, d. Qed.
Lemma ends_weaken {A} (m : M4 A) (Q Q' : A -> Prop) : ends m Q -> (forall a, Q a -> Q' a) -> ends m Q'.
Proof. intros Hm H d Hd. destruct (Hm d Hd) as (a & d' & E & H' & Ha). exists a, d'. auto. Qed.
Lemma ends_and {A} (m : M4 A) (Q P : A -> Prop) : ends m Q -> (forall d a d', m d = Some (a, d') -> P a) -> ends m (fun a => Q a /\ P a).
Proof. intros Hm H d Hd. destruct (Hm d Hd) as (a & d' & E & H' & Ha). exists a, d'. eauto. Qed.
Lemma ends_when b m : (b = true -> ends m (fun _ => True)) -> ends (when4 b m) (fun _ => True).
Proof. destruct b; [by intros H; apply H|intros _; by apply ends_ret]. Qed.
(** Reading, with what is read *)
Lemma ends_read {A} (m : M4 A) (Q : A -> Prop) : (forall d, served d -> exists a, m d = Some (a, d) /\ Q a) -> ends m Q.
Proof. intros H d Hd. destruct (H d Hd) as (a & E & Ha). by exists a, d. Qed.

Definition there0 (x : id) : Prop := is_Some (leases d0 !! x).
(** The lease [s] is [x], as it was when the message came. *)
Definition still (x : id) (s : lease) : Prop := fit s /\ client_view <$> leases d0 !! x = Some (client_view s).

Lemma ends_lease_at x : there0 x -> ends (lease_at x) (still x).
Proof.
  intros Hx. apply ends_read. intros d (_ & Hfit & (Hc & _) & [Hdom _]). destruct (proj2 (Hdom x) Hx) as [s Hs]. exists s. split; [by apply lease_at_eq|]. split; [by eapply Hfit|].
  specialize (Hc x). rewrite Hs in Hc. by rewrite <- Hc.
Qed.

Lemma ends_get {A} (f : srv -> A) (Q : A -> Prop) : (forall d, served d -> Q (f d)) -> ends (get4 f) Q.
Proof. intros H. apply ends_read. intros d Hd. exists (f d). split; [done|by apply H]. Qed.

Lemma served_pooled d x s : served d -> leases d0 !! x = Some s -> is_Some (l_pool s) -> forall q, l_pool s = Some q -> is_Some (pools d !! q).
Proof.
  intros ([Hf _] & _ & (Hc & _) & _) Hs _ q Hq. destruct (same_of_some _ _ _ _ _ Hc Hs) as (s' & Hs' & E). unfold client_view in E. injection E as _ _ E _ _. eapply (files_pooled _ Hf); [exact Hs'|congruence].
Qed.

Lemma ends_failover_peer x s : still x s -> ends (failover_peer s) (fun f => match f with Some f => peer_view f = peer_view (peer d0) | None => True end).
Proof.
  intros ((Hp & _) & Hx). apply ends_read. intros d Hd. destruct Hp as [q Hq]. destruct (leases d0 !! x) as [s0|] eqn:Hs0; [|done]. injection Hx as _ _ E _ _.
  destruct (served_pooled d x s0 Hd Hs0 ltac:(rewrite E, Hq; by eexists) q ltac:(congruence)) as [p Hpl]. unfold failover_peer. rewrite Hq, (bind4_eq _ _ _ _ _ (pool_at_eq _ _ _ Hpl)), get4_bind.
  eexists. split; [done|]. destruct (p_failover_peer p); [|done]. destruct Hd as (_ & _ & (_ & _ & H) & _). exact H.
Qed.

Lemma known_cases b : known_state b -> b = FTS_FREE \/ b = FTS_ACTIVE \/ b = FTS_EXPIRED \/ b = FTS_RELEASED \/ b = FTS_ABANDONED \/ b = FTS_RESET \/ b = FTS_BACKUP.
Proof. unfold known_state, case_of. intros (y & Hy & E)%existsb_exists. apply Z.eqb_eq in E. cbn in Hy. naive_solver. Qed.

Lemma mine_total s f : fit s -> exists b, lease_mine_to_reallocate (Some (view_lease s f)) cur_time = Some b.
Proof.
  intros (_ & Hb & _). unfold lease_mine_to_reallocate. case_match; [|by eexists]. case_match; [|by eexists]. change (binding_state (view_lease s f)) with (l_binding_state s).
  repeat (case_match; try by eexists). exfalso. apply known_cases in Hb as [E|[E|[E|[E|[E|[E|E]]]]]]; rewrite E in *; done.
Qed.

Lemma ends_mine x s : still x s -> ends (mine cur_time s) (fun _ => True).
Proof.
  intros Hs. eapply ends_bind; [by eapply ends_failover_peer|]. intros f _. apply ends_read. intros d _. destruct (mine_total s f (proj1 Hs)) as [b E]. exists b. split; [|done]. unfold follow. by rewrite E.
Qed.
Lemma ends_usable x s : still x s -> ends (usable cur_time s) (fun _ => True).
Proof. intros Hs. unfold usable. case_match; [by apply ends_ret|by eapply ends_mine]. Qed.
Lemma ends_denies x s p : still x s -> ends (denies cur_time cf p s) (fun _ => True).
Proof. intros (([q Hq] & _) & _). unfold denies. rewrite Hq. intros d Hd. by eexists _, d. Qed.

(** *** Releasing *)

Definition carried (x : id) (d : srv) : Prop := ok4 d /\ same_dom d0 d /\ is_Some (leases d !! x).

Lemma carry {A} (m : M4 A) x d a d' : Keeps same_all m -> Keeps same_mode m -> m d = Some (a, d') ->
  carried x d -> carried x d'.
Proof.
  intros K1 K2 E (H1 & H2 & H3). destruct (K2 _ _ _ E) as [_ Hd]. split; [by eapply (all_ok4 m)|]. split; [by trans d|]. by apply Hd.
Qed.

Lemma after_state_le b : (after_state b <= 2)%nat.
Proof. unfold after_state. repeat case_match; lia. Qed.

Lemma supersede_runs d x c p i : carried x d -> c || negb i = true -> runs (supersede_lease io random cur_time fuel x None c p i) d.
Proof using Hfuel.
  intros (H1 & H2 & [s Hs]) Hc. destruct (timers_end io random cur_time (size (leases d0)) fuel) as (Hend & _). destruct (Hend d x s c p i) as (b & d' & E & _); [split; [done|by apply same_dom_size]|done|done| |by exists b, d'].
  pose proof (to_come_bound d) as Hb. rewrite (same_dom_size _ _ H2) in Hb. pose proof (after_state_le (l_next_binding_state s)). unfold release_fuel in Hfuel. nia.
Qed.

Lemma set_carried x f (k : unit -> M4 unit) d : Keeps same_all (set_lease4 x f) -> Keeps same_mode (set_lease4 x f) -> carried x d -> (forall d', carried x d' -> runs (k tt) d') -> runs (set_lease4 x f ≫= k) d.
Proof.
  intros K1 K2 Hd Hk. apply returns_bind; [apply returns_set_lease, Hd|]. intros [] d' E. apply Hk. by eapply (carry _ x).
Qed.

Lemma peer_runs x d e s : leases d !! x = Some s -> carried x d -> carried x e -> runs (failover_peer s) e /\ forall f e', failover_peer s e = Some (f, e') -> e' = e.
Proof.
  intros Hs ([Hf _] & Hd & _) (_ & He & _). split; [|intros f e' E; symmetry; by apply (keeps_failover_peer eq _ _ _ _ E)]. unfold failover_peer. destruct (l_pool s) as [q|] eqn:Hq; [|apply returns_ret].
  apply returns_bind; [apply returns_pool_at|intros p d' _; by eexists _, _]. apply He, Hd. by eapply (files_pooled _ Hf).
Qed.

Lemma release_runs d x : carried x d -> runs (release_lease io random cur_time fuel x) d.
Proof using Hfuel.
  intros Hd. pose proof (fun e => m_emit e) as Hme. unfold release_lease. apply returns_bind; [apply returns_emit|]. intros [] d1 E1. apply (carry _ x) in E1; [|keeps|keeps|done].
  apply returns_bind; [apply returns_lease_at, E1|]. intros s d2 [Hs ->]%lease_at_inv. case_match; [apply returns_ret|].
  do 3 (apply set_carried; [keeps|keeps|done|]; clear Hd; let e := fresh "e" in intros e Hd). destruct (peer_runs x d1 _ s Hs E1 Hd) as [Hp Hp']. apply returns_bind; [done|]. intros f e' Ef. rewrite (Hp' _ _ Ef). clear e' Ef.
  apply set_carried; [keeps|keeps|done|]. clear Hd. intros e' Hd. apply returns_bind; [by apply supersede_runs|]. intros b e'' _. apply returns_ret.
Qed.

Lemma release_dom l : Keeps same_mode (release_lease io random cur_time fuel l).
Proof. pose proof (proj1 (m_supersede io random cur_time fuel)). pose proof (fun e => m_emit e). unfold release_lease. keeps. Qed.

Lemma served_release l d u d' : release_lease io random cur_time fuel l d = Some (u, d') -> served d -> served d'.
Proof.
  intros E (H1 & H2 & H3 & H4). split; [by eapply ok4_release|]. split; [by eapply fit_release|]. split; [transitivity d; [done|by eapply sc_release]|]. transitivity d; [done|]. by eapply release_dom.
Qed.

Lemma ends_release_lease x : there0 x -> ends (release_lease io random cur_time fuel x) (fun _ => True).
Proof using Hfuel.
  intros Hx d Hd. destruct (release_runs d x) as (u & d' & E); [|exists u, d'; split; [done|]; split; [by eapply served_release|done]].
  destruct Hd as (H1 & _ & _ & H4). split; [done|]. split; [done|]. by apply H4.
Qed.
Lemma ends_release p x : there0 x -> ends (release io random cur_time fuel p x) (fun _ => True).
Proof using Hfuel. intros Hx. apply ends_when. intros _. by apply ends_release_lease. Qed.

(** *** Searching *)

Context (Htables : tables_good d0) (Haddresses : forall a x, lease_ip_addr_hash d0 !! a = Some x -> there0 x).

Definition there_if (r : option id) : Prop := forall x, r = Some x -> there0 x.

Lemma there_some x : there0 x -> there_if (Some x).
Proof. by intros H y [= <-]. Qed.
Lemma there_none : there_if None.
Proof. done. Qed.
Lemma still_next t x s o : still x s -> tnx t d0 x = Some o -> n_of t s = o.
Proof. intros [_ H] (s0 & Hs0 & <-)%tnx_inv. rewrite Hs0 in H. injection H as _ _ _ H1 H2. destruct t; cbn; congruence. Qed.
Lemma chain_there t x o : tnx t d0 x = Some o -> there0 x.
Proof. intros (s & Hs & _)%tnx_inv. by exists s. Qed.

Hint Resolve there_some there_none : ends.

(** A known call in front *)
Ltac ends_leaf := solve [eapply ends_lease_at; eauto | eapply ends_usable; eauto | eapply ends_denies; eauto | eapply ends_mine; eauto | eapply ends_release; eauto | eapply ends_failover_peer; eauto].
Ltac ends_step :=
  match goal with
  | |- ends (mbind _ _) _ => eapply ends_bind; [ends_leaf | intros ? ?]
  | |- ends (mbind _ _) _ => eapply (ends_bind _ _ (fun _ => True)); [ | intros ? ?]
  | |- ends (mret _) _ => apply ends_ret
  | |- ends (when4 _ _) _ => apply ends_when; intros _
  | |- ends (match ?x with _ => _ end) _ => destruct x eqn:?
  | _ => ends_leaf
  end.
Ltac ends_go := repeat ends_step; eauto with ends.

Lemma ends_uid_loop n p share l L : seg (tnx ByUid d0) l L None -> (length L < n)%nat -> ends (uid_loop io random cur_time fuel cf n p share l) there_if.
Proof using Hfuel.
  revert l L. induction n as [|n IH]; intros l [|x L] Hs Hn; cbn in Hn; try lia; cbn [uid_loop]; [simpl in Hs; subst l; ends_go|].
  destruct Hs as (-> & o & Ho & Hs). pose proof (chain_there _ _ _ Ho) as Hx. eapply ends_bind; [ends_leaf|]. intros s Hst. pose proof (still_next ByUid _ _ _ Hst Ho) as Hnext. cbn in Hnext. rewrite Hnext.
  ends_go. apply (IH o L); [done|lia].
Qed.

Lemma ends_hw_loop n p share l L : seg (tnx ByHw d0) l L None -> (length L < n)%nat -> ends (hw_loop io random cur_time fuel cf n p share l) there_if.
Proof using Hfuel.
  revert l L. induction n as [|n IH]; intros l [|x L] Hs Hn; cbn in Hn; try lia; cbn [hw_loop]; [simpl in Hs; subst l; ends_go|].
  destruct Hs as (-> & o & Ho & Hs). pose proof (chain_there _ _ _ Ho) as Hx. assert (Hgo : forall s, still x s -> ends (hw_loop io random cur_time fuel cf n p share (l_n_hw s)) there_if).
  { intros s Hst. pose proof (still_next ByHw _ _ _ Hst Ho) as Hnext. cbn in Hnext. rewrite Hnext. apply (IH o L); [done|lia]. }
  ends_go.
Qed.

Lemma ends_find_by t key : ends (find_lease_by t key) (fun r => exists L, seg (tnx t d0) r L None).
Proof using Htables.
  apply ends_read. intros d (_ & _ & (_ & Ht & _) & _). rewrite find_by_eq. eexists. split; [done|]. case_decide as Hk; [by exists []|]. destruct (Htables t) as (T & on & Hf & _). exists (T key).
  assert (hash_by t d = hash_by t d0) as -> by (unfold tables in Ht; destruct t; cbn; congruence). by apply (fi_seg _ _ _ _ Hf).
Qed.

Lemma ends_check_ip p share ip other : there_if ip -> ends (check_ip cur_time cf p share ip other) (fun r => there_if (fst r)).
Proof. intros Hip. unfold check_ip. destruct ip as [x|]; [|by apply ends_ret]. pose proof (Hip x eq_refl). ends_go; cbn; repeat case_match; eauto with ends. Qed.

Definition cands_there (k : cands) : Prop := there_if (k_uid k) /\ there_if (k_hw k) /\ there_if (k_ip k).

Lemma ends_candidates p share ip_in fixed cip : there_if ip_in -> ends (find_candidates io random cur_time fuel cf p share ip_in fixed cip) cands_there.
Proof using All.
  intros Hip. unfold find_candidates. apply (ends_bind _ _ (fun r => exists L, seg (tnx ByUid d0) r L None)); [destruct (client_id p); [apply ends_find_by|apply ends_ret; by exists []]|].
  intros uid (Lu & Hu). apply (ends_bind _ _ (fun m => size m = size (leases d0))); [apply ends_get; intros d (_ & _ & _ & Hd); by rewrite (same_dom_size _ _ Hd)|]. intros m Hm. rewrite Hm.
  eapply ends_bind; [by eapply ends_uid_loop; [exact Hu|eapply chain_length]|]. intros uid' Hu'. eapply ends_bind; [apply ends_find_by|]. intros hw (Lh & Hh).
  eapply ends_bind; [by eapply ends_hw_loop; [exact Hh|eapply chain_length]|]. intros hw' Hh'.
  apply (ends_bind _ _ (fun h => forall a x, h !! a = Some x -> there0 x)); [apply ends_get; intros d (_ & _ & (_ & Ht & _) & _); unfold tables in Ht; injection Ht as -> _ _; exact Haddresses|].
  intros h Hha. eapply ends_bind; [apply ends_check_ip; destruct ip_in; [done|]; destruct cip; [|done]; intros x; apply Hha|]. intros r Hr. by apply ends_ret.
Qed.

Lemma ends_duplicates p share k : cands_there k -> ends (duplicates io random cur_time fuel cf p share k) cands_there.
Proof using Hfuel.
  intros (Hu & Hh & Hi). unfold duplicates. destruct (k_ip k) as [x|] eqn:Hk; [|apply ends_ret; by split_and!; rewrite ?Hk]. pose proof (Hi x eq_refl) as Hx.
  eapply ends_bind; [ends_leaf|]. intros s Hs. case_match; [|apply ends_ret; by split_and!; rewrite ?Hk]. apply (ends_bind _ _ there_if).
  - destruct (k_uid k) as [u|]; [|by apply ends_ret]. pose proof (Hu u eq_refl). ends_go.
  - intros uid Huid. apply ends_ret. split_and!; [done|done|]. cbn. case_match; [by apply there_some|done].
Qed.

Lemma toss_there p k : cands_there k -> cands_there (toss p k).
Proof. intros (Hu & Hh & Hi). unfold toss. split_and!; cbn; repeat case_match; done. Qed.

Lemma ends_drop p b l : there_if l -> ends (drop_denied io random cur_time fuel cf p b l) there_if.
Proof using Hfuel. intros Hl. unfold drop_denied. destruct l as [x|]; [|by apply ends_ret]. pose proof (Hl x eq_refl). ends_go. Qed.

Lemma ends_drop_all p k : cands_there k -> ends (drop_all io random cur_time fuel cf p k) cands_there.
Proof using Hfuel.
  intros (Hu & Hh & Hi). unfold drop_all. eapply ends_bind; [by apply ends_drop|]. intros ip Hip. eapply ends_bind; [by apply ends_drop|]. intros uid Huid.
  eapply ends_bind; [by apply ends_drop|]. intros hw Hhw. by apply ends_ret.
Qed.

Definition handout_there (h : option handout) : Prop := forall x, h = Some (Dynamic x) -> there0 x.

Lemma handout_some x : there0 x -> handout_there (Some (Dynamic x)).
Proof. by intros H y [= <-]. Qed.

Lemma ends_choose p k : cands_there k -> ends (choose io random cur_time fuel p k) handout_there.
Proof using Hfuel.
  intros (Hu & Hh & Hi). unfold choose. cbv zeta. eapply (ends_bind _ _ handout_there).
  { assert (handout_there (Fixed <$> k_fixed k)) as Hfix by (by destruct (k_fixed k)). destruct (k_ip k) as [x|]; [|by apply ends_ret]. pose proof (Hi x eq_refl). destruct (Fixed <$> k_fixed k); [|by apply ends_ret, handout_some].
    eapply ends_bind; [ends_leaf|]. intros _ _. by apply ends_ret. }
  intros l Hl. eapply (ends_bind _ _ handout_there).
  { destruct (k_uid k) as [x|]; [|by apply ends_ret]. pose proof (Hu x eq_refl). destruct l; [|by apply ends_ret, handout_some]. ends_go. }
  intros l2 Hl2. destruct (k_hw k) as [x|]; [|by apply ends_ret]. pose proof (Hh x eq_refl). destruct l2; [by apply ends_ret|]. ends_go. case_match; [by apply handout_some|done].
Qed.

Lemma ends_not_abandoned l b : handout_there l -> ends (not_abandoned l b) (fun r => handout_there (fst r)).
Proof.
  intros Hl. unfold not_abandoned. destruct l as [[a|x]|]; [by apply ends_ret| |by apply ends_ret]. pose proof (Hl x eq_refl). ends_go. case_match; done.
Qed.

Definition short_option (p : client_packet) : bool := match cp_options p !! DHO_DHCP_REQUESTED_ADDRESS with Some data => (length data <? 4)%nat | None => false end.

Lemma ends_address data : (length data <? 4)%nat = false -> ends (address_in data) (fun _ => True).
Proof. intros H. unfold address_in. rewrite H. by apply ends_ret. Qed.

Lemma ends_wanted p : short_option p = false -> ends (wanted_address p) (fun _ => True).
Proof.
  unfold short_option, wanted_address. intros H. destruct (negb _); [by apply ends_ret|]. destruct (_ !! _) as [data|]; [|by apply ends_ret]. eapply ends_bind; [by apply ends_address|]. intros. by apply ends_ret.
Qed.

Lemma ends_find_lease p share ip : short_option p = false -> is_Some (networks cf !! share) -> there_if ip -> ends (find_lease io random cur_time fuel cf p share ip) (fun r => handout_there (fst (fst r)) /\ (snd r = p \/ snd r = set_known p)).
Proof using All.
  intros Hshort [net Hnet] Hip. unfold find_lease. rewrite Hnet. apply (ends_bind _ _ (fun n => n = net)); [by apply ends_ret|]. intros ? ->. eapply ends_bind; [by apply ends_wanted|]. intros cip _.
  pose proof (search_known cf p net) as Hkn. destruct (search_hosts cf p net) as [fixed q]. cbn in Hkn. case_match; [by apply ends_ret|]. eapply ends_bind; [by apply ends_candidates|]. intros k Hk. eapply ends_bind; [by apply ends_duplicates|]. intros k2 Hk2.
  eapply ends_bind; [by apply ends_drop_all, toss_there|]. intros k3 Hk3. case_match; [by apply ends_ret|]. eapply ends_bind; [by apply ends_choose|]. intros l Hl.
  eapply ends_bind; [by apply ends_not_abandoned|]. intros r Hr. by apply ends_ret.
Qed.

(** *** New leases *)

Context (Hpools : forall n net q, networks cf !! n = Some net -> q ∈ net_pools net -> is_Some (pools d0 !! q)).

Lemma ends_pool_at q : is_Some (pools d0 !! q) -> ends (pool_at q) (fun pl => forall w, there_if (p_heads pl w)).
Proof.
  intros Hq. apply ends_read. intros d ([Hf _] & _ & _ & [Hl Hp]). destruct (proj2 (Hp q) Hq) as [pl Hpl]. exists pl. split; [by apply pool_at_eq|]. intros w x Hx. apply Hl. by eapply head_there.
Qed.

Lemma ends_peer : ends (get4 peer) (fun f => peer_view f = peer_view (peer d0)).
Proof. apply ends_get. by intros d (_ & _ & (_ & _ & H) & _). Qed.

Lemma ends_peer_leases ps : (forall q, q ∈ ps -> is_Some (pools d0 !! q)) -> ends (peer_leases ps) (fun _ => True).
Proof.
  induction ps as [|q ps IH]; intros Hps; cbn [peer_leases]; [by apply ends_ret|]. eapply ends_bind; [apply ends_pool_at, Hps; set_solver|]. intros pl _. eapply ends_bind; [apply ends_peer|]. intros f _.
  case_match; [by apply ends_ret|]. apply IH. set_solver.
Qed.

Lemma ends_of_partner own theirs : there_if own -> there_if theirs -> ends (of_partner cur_time own theirs) (fun r => there_if (fst r)).
Proof.
  intros Ho Ht. unfold of_partner. destruct theirs as [x|]; [|by apply ends_ret]. pose proof (Ht x eq_refl). eapply ends_bind; [ends_leaf|]. intros s Hs. eapply (ends_bind _ _ (fun _ => True)).
  { unfold ends_of. destruct own as [y|]; [|by apply ends_ret]. pose proof (Ho y eq_refl). ends_go. }
  intros e _. eapply (ends_bind _ _ (fun _ => True)).
  { match goal with |- ends (if ?b then _ else _) _ => destruct b end; [ends_leaf|by apply ends_ret]. }
  intros b _. apply ends_ret. destruct b; cbn; eauto with ends.
Qed.

Lemma ends_candidate q : is_Some (pools d0 !! q) -> ends (candidate cur_time q) (fun r => there_if (fst r)).
Proof.
  intros Hq. unfold candidate. eapply ends_bind; [by apply ends_pool_at|]. intros pl Hpl. eapply ends_bind; [apply ends_peer|]. intros f _. destruct (p_failover_peer pl).
  - eapply ends_bind; [case_bool_decide; by apply ends_of_partner|]. intros [own b] Hr. cbn [fst snd] in *. destruct own as [y|]; [by apply ends_ret|]. destruct (p_heads pl Abandoned) as [x|] eqn:Hx; [|by apply ends_ret].
    pose proof (Hpl _ _ Hx). eapply ends_bind; [ends_leaf|]. intros s Hs. eapply ends_bind; [ends_leaf|]. intros m _. apply ends_ret. cbn. destruct m; eauto with ends.
  - apply ends_ret. cbn. destruct (p_heads pl Free) eqn:E; [rewrite <- E|]; apply Hpl.
Qed.

Lemma ends_allocate p ps l b : (forall q, q ∈ ps -> is_Some (pools d0 !! q)) -> there_if l -> ends (allocate_loop cur_time cf p ps l b) (fun r => there_if (fst r)).
Proof.
  revert l b. induction ps as [|q ps IH]; intros l b Hps Hl; cbn [allocate_loop]; [by apply ends_ret|]. assert (Hps' : forall q, q ∈ ps -> is_Some (pools d0 !! q)) by (intros; apply Hps; set_solver).
  destruct (pool_denies _ _ _ _); [by apply IH|]. eapply ends_bind; [apply ends_candidate, Hps; set_solver|]. intros [[x|] b'] Hr; cbn [fst snd] in *; cbv zeta; [|by apply IH]. pose proof (Hr x eq_refl) as Hx.
  eapply ends_bind; [ends_leaf|]. intros s Hs. destruct (cur_time <? l_ends s); [by apply IH|]. destruct l as [y|]; [|apply IH; eauto with ends]. pose proof (Hl y eq_refl). eapply ends_bind; [ends_leaf|].
  intros t Ht. apply IH; [done|]. destruct (better s t); eauto with ends.
Qed.

(** *** Messages *)

(** The hash of the client can be computed. *)
Definition load_ok (p : client_packet) : Prop :=
  bytes_ok (default (cp_chaddr p) (client_id p)) /\ forall h, f_hba (peer d0) = Some h -> length h = 32%nat.

Lemma ends_load_balanced p f : load_ok p -> peer_view f = peer_view (peer d0) -> ends (load_balanced cf p f) (fun _ => True).
Proof.
  intros [Hb Hh] Hf. unfold peer_view in Hf. injection Hf as _ Hf. unfold load_balanced. apply (ends_bind _ _ (fun _ => True)); [|intros; by apply ends_ret]. apply ends_read. intros d _.
  unfold load_balance_mine. cbn [load_balance_max_secs secs hba client_identifier chaddr hlen i_am]. case_match; [by eexists|]. rewrite Hf. destruct (f_hba (peer d0)) as [h|]; [|by eexists].
  destruct (hash_total (default (cp_chaddr p) (client_id p)) Hb) as (ix & Hix & _). destruct (bucket_exists h ix (Hh h eq_refl)) as [hm Hhm].
  assert (match client_id p with Some ds => loadb_p_hash ds (length ds) | None => loadb_p_hash (cp_chaddr p) (length (cp_chaddr p)) end = Some ix) as -> by (by destruct (client_id p)).
  cbn [mbind option_bind]. rewrite Hhm. cbn [mbind option_bind]. case_bool_decide; by eexists.
Qed.

Lemma ends_keep_found h : handout_there h -> ends (keep_found cur_time h) handout_there.
Proof. intros Hh. unfold keep_found. destruct h as [[a|x]|]; [by apply ends_ret| |by apply ends_ret]. pose proof (Hh x eq_refl). ends_go. case_match; done. Qed.

Lemma ends_forget_scope h : handout_there (Some h) -> ends (forget_scope cur_time h) (fun _ => True).
Proof.
  intros Hh. unfold forget_scope. destruct h as [a|x]; [by apply ends_ret|]. pose proof (Hh x eq_refl) as Hx. eapply ends_bind; [ends_leaf|]. intros s _. apply ends_when. intros _ d Hd.
  destruct Hd as (H1 & H2 & H3 & H4). destruct (proj2 (proj1 H4 x) Hx) as [sx Hsx]. eexists _, _. split; [by apply set_lease4_eq|]. split; [|done]. pose proof (set_lease4_eq x (set_l_scope false) d sx Hsx) as E.
  split; [by eapply (all_ok4 (set_lease4 x (set_l_scope false)) ltac:(keeps) _ _ _ E)|]. split; [eapply (still_set_lease (R := inv_rel all_fit)); [|exact E|done]; done|]. split; [transitivity d; [done|]; eapply sc_set_lease; [|exact E]; done|].
  transitivity d; [done|]. by eapply same_dom_lease.
Qed.

Definition network_ok (p : client_packet) : Prop := forall share, cp_shared_network p = Some share -> is_Some (networks cf !! share).

(** A lease that the answer hands out is there. *)
Definition answer_there (a : answer) : Prop := match a with Offer (Dynamic x) _ | Ack (Dynamic x) => there0 x | _ => True end.

Lemma ends_dhcpdiscover p : is_Some (cp_shared_network p) -> network_ok p -> short_option p = false -> load_ok p -> ends (dhcpdiscover io random cur_time fuel cf p) answer_there.
Proof using All.
  intros [share Hshare] Hnet Hshort Hload. unfold dhcpdiscover. rewrite Hshare. destruct (Hnet share Hshare) as [net Hn]. apply (ends_bind _ _ (fun n => n = share)); [by apply ends_ret|]. intros ? ->. rewrite Hn.
  apply (ends_bind _ _ (fun n => n = net)); [by apply ends_ret|]. intros ? ->. eapply ends_bind; [apply ends_peer_leases; intros q; by eapply Hpools|]. intros has _.
  eapply ends_bind; [apply ends_find_lease; [done|by exists net|done]|]. intros [[h ours] p'] [Hh Hp']. cbn [fst snd] in *. assert (Hload' : load_ok p') by (by destruct Hp' as [-> | ->]).
  eapply ends_bind; [by apply ends_keep_found|]. intros h1 Hh1. apply (ends_bind _ _ (fun r => handout_there (fst r))).
  { destruct h1; [by apply ends_ret|]. eapply ends_bind; [apply ends_allocate; [intros q; by eapply Hpools|done]|]. intros [[x|] b] Hx; apply ends_ret; cbn in *; [apply handout_some; by apply Hx|done]. }
  intros [[h2|] b] Hh2; cbn [fst snd] in *; [|by apply ends_ret]. apply (ends_bind _ _ (fun f => match f with Some f => peer_view f = peer_view (peer d0) | None => True end)).
  { unfold peer_of. destruct h2 as [a|x]; [by apply ends_ret|]. pose proof (Hh2 x eq_refl). ends_go. }
  intros f Hf. apply (ends_bind _ _ (fun _ => True)).
  { destruct f as [f|]; [|by apply ends_ret]. destruct (silent_service f); [by apply ends_ret|]. destruct (bool_decide _); [|by apply ends_ret]. eapply ends_bind; [by apply ends_load_balanced|]. intros; by apply ends_ret. }
  intros go _. destruct (negb go); [by apply ends_ret|]. eapply ends_bind; [by apply ends_forget_scope|]. intros _ _. apply (ends_bind _ _ (fun _ => True)); [|intros; apply ends_ret; destruct h2; [done|by apply Hh2]].
  unfold handout_ends. destruct h2 as [a|x]; [by apply ends_ret|]. pose proof (Hh2 x eq_refl). ends_go.
Qed.

Lemma refusal_there a : refusal a -> answer_there a.
Proof. intros [-> |[cip ->]]; done. Qed.

Lemma ends_request_failover h cip : handout_there h -> ends (request_failover cur_time h cip) (fun _ => True).
Proof.
  intros Hh. unfold request_failover. destruct h as [[a|x]|]; [by apply ends_ret| |by apply ends_ret]. pose proof (Hh x eq_refl) as Hx. eapply ends_bind; [ends_leaf|]. intros s Hs.
  eapply ends_bind; [ends_leaf|]. intros [f|] _; [|by apply ends_ret]. repeat (match goal with |- ends (if ?b then _ else _) _ => destruct b end); try by apply ends_ret.
  all: eapply ends_bind; [ends_leaf|]; intros; by apply ends_ret.
Qed.

Lemma ends_wrong_network p cip sub b : network_ok p -> ends (wrong_network cf p cip sub b) (fun _ => True).
Proof.
  intros Hn. unfold wrong_network. destruct (_ || _ || _); [|by apply ends_ret]. destruct (cp_shared_network p) as [share|] eqn:Hs; [|by apply ends_ret]. destruct (Hn share Hs) as [net ->].
  apply (ends_bind _ _ (fun _ => True)); [by apply ends_ret|]. intros. by apply ends_ret.
Qed.

Lemma ends_dhcprequest p ip : (forall s, s ∈ subnets cf -> is_Some (networks cf !! sub_shared_network s)) -> network_ok p -> short_option p = false -> there_if ip -> ends (dhcprequest io random cur_time fuel cf p ip) answer_there.
Proof using All.
  intros Hsub Hnet Hshort Hip. unfold dhcprequest. apply (ends_bind _ _ (fun _ => True)).
  { pose proof Hshort as Hs. unfold short_option in Hs. destruct (_ !! _) as [data|]; [by apply ends_address|by apply ends_ret]. }
  intros cip _. cbv zeta. apply (ends_bind _ _ (fun r => handout_there (fst (fst r)) /\ (snd r = p \/ snd r = set_known p))).
  { unfold find_subnet, find_in. destruct (List.find _ _) as [s|] eqn:Hf; [|apply ends_ret; split; [done|by left]]. apply List.find_some in Hf as [Hin _]. apply ends_find_lease; [done|apply Hsub; by apply list_elem_of_In|done]. }
  intros [[h ours] p'] [Hh Hp']. cbn [fst snd] in *. assert (Hnet' : network_ok p') by (by destruct Hp' as [-> | ->]). pose (refuses := fun a => forall b, a = Some b -> refusal b).
  eapply ends_bind; [apply (ends_and _ (fun _ => True) refuses); [by apply ends_request_failover|intros d a d' E b ->; by eapply failover_refuses]|]. intros [a|] [_ Ha]; [apply ends_ret, refusal_there; by apply Ha|].
  eapply ends_bind; [apply (ends_and _ (fun _ => True) refuses); [by apply ends_wrong_network|intros d a d' E b ->; by eapply network_refuses]|]. intros [a|] [_ Hb]; [apply ends_ret, refusal_there; by apply Hb|].
  apply ends_ret. destruct h as [[|x]|]; [done|by apply Hh|by destruct ours].
Qed.

Lemma ends_release_loop n a l L : seg (tnx ByUid d0) l L None -> (length L < n)%nat -> ends (release_loop cf n a l) there_if.
Proof.
  revert l L. induction n as [|n IH]; intros l [|x L] Hs Hn; cbn in Hn; try lia; cbn [release_loop]; [simpl in Hs; subst l; by apply ends_ret|]. destruct Hs as (-> & o & Ho & Hs).
  pose proof (chain_there _ _ _ Ho) as Hx. destruct (_ =? _); [by apply ends_ret, there_some|]. eapply ends_bind; [ends_leaf|]. intros s Hst. pose proof (still_next ByUid _ _ _ Hst Ho) as Hnext. cbn in Hnext. rewrite Hnext.
  apply (IH o L); [done|lia].
Qed.

Lemma ends_addresses : ends (get4 lease_ip_addr_hash) (fun h => forall a x, h !! a = Some x -> there0 x).
Proof using Haddresses. apply ends_get. intros d (_ & _ & (_ & Ht & _) & _). unfold tables in Ht. injection Ht as -> _ _. exact Haddresses. Qed.

Lemma ends_dhcprelease p : ends (dhcprelease io random cur_time fuel cf p) (fun _ => True).
Proof using All.
  unfold dhcprelease. apply (ends_bind _ _ (fun m => size m = size (leases d0))); [apply ends_get; intros d (_ & _ & _ & Hd); by rewrite (same_dom_size _ _ Hd)|]. intros m ->.
  apply (ends_bind _ _ there_if).
  { destruct (client_id p) as [key|]; [|by apply ends_ret]. eapply ends_bind; [apply ends_find_by|]. intros l (L & HL). by eapply ends_release_loop; [exact HL|eapply chain_length]. }
  intros l Hl. eapply ends_bind; [apply ends_addresses|]. intros h Hh. assert (Hx : there_if (match l with Some x => Some x | None => h !! cp_ciaddr p end)) by (destruct l; [done|intros x; apply Hh]).
  destruct (match l with Some x => Some x | None => h !! cp_ciaddr p end) as [x|]; [|by apply ends_ret]. pose proof (Hx x eq_refl) as Hx'. eapply ends_bind; [ends_leaf|]. intros s Hs.
  destruct (negb _); [by apply ends_ret|]. eapply ends_bind; [ends_leaf|]. intros f _. match goal with |- ends (if ?b then _ else _) _ => destruct b end; [by apply ends_ret|]. apply ends_when. intros _. by apply ends_release_lease.
Qed.

(** *** Declining *)

Lemma returns_get {A B} (f : srv -> A) (k : A -> M4 B) d : runs (k (f d)) d -> runs (get4 f ≫= k) d.
Proof. done. Qed.

(** The copy of a lease goes back into it: the lease stays on its list. *)
Lemma copy_back_ok4 x s t d u d' : ok4 d -> leases d !! x = Some s -> flag t RESERVED_LEASE = flag s RESERVED_LEASE -> copy_data x t d = Some (u, d') -> ok4 d'.
Proof.
  intros [Hf Hq] Hs Hr E. split; [|eapply (keeps_queues_ok _ (kq_copy_data x t)); [exact E|done]]. destruct (copy_data_flag _ _ _ _ _ _ E Hs) as (s' & Hs' & Hb & Hp & Hr').
  eapply files_same; [|exact Hf]. destruct (kb_copy_data x t _ _ _ E) as [Hl Hqu]. split; [done|]. intros y _. destruct (decide (y = x)) as [->|]; [|by apply Hqu]. rewrite Hs, Hs'. cbn. f_equal.
  unfold queue_of. by rewrite Hb, Hr', Hr.
Qed.

Lemma abandon_runs d x : tables_good d -> carried x d -> runs (abandon_lease io random cur_time fuel x) d.
Proof using Hfuel.
  intros Ht Hd. unfold abandon_lease. apply returns_bind; [apply returns_emit|]. intros [] d1 E1. assert (Ht1 : tables_good d1) by (eapply (keeps_tables (emit (ddns_removals_ev x)) ltac:(keeps)); done).
  pose proof (fun e => m_emit e). apply (carry _ x) in E1; [|keeps|keeps|done]. apply returns_bind; [apply returns_lease_at, E1|]. intros s d2 [Hs ->]%lease_at_inv. cbv zeta.
  set (lt := set_l_uid None _). apply returns_bind; [|intros; apply returns_ret]. destruct (copy_data_ok x lt d1 s Ht1 Hs) as (d2 & E2 & _).
  assert (Hd2 : carried x d2).
  { destruct E1 as (H1 & H2 & _). destruct (m_copy_data x lt _ _ _ E2) as [_ Hdom]. split; [by eapply (copy_back_ok4 x s lt)|]. split; [by trans d1|]. apply Hdom. by exists s. }
  destruct (supersede_runs d2 x true true true Hd2 eq_refl) as (b & d3 & E3). destruct fuel as [|n]; [done|]. cbn [supersede_lease andb negb] in E3 |- *.
  destruct (flag lt STATIC_LEASE); [apply returns_ret|]. exists b, d3. by rewrite (bind4_eq _ _ _ _ _ E2).
Qed.

Lemma runs_dhcpdecline p : served d0 -> short_option p = false -> runs (dhcpdecline io random cur_time fuel cf p) d0.
Proof using Hfuel Htables Haddresses.
  intros Hd Hshort. unfold dhcpdecline. unfold short_option in Hshort. destruct (_ !! _) as [data|]; [|apply returns_ret]. apply returns_bind; [unfold address_in; rewrite Hshort; apply returns_ret|].
  intros cip d1 E1. assert (d0 = d1) as <- by (unfold address_in in E1; rewrite Hshort in E1; by injection E1). apply returns_get. destruct (lease_ip_addr_hash d0 !! cip) as [x|] eqn:Hx; [|apply returns_ret].
  pose proof (Haddresses _ _ Hx) as Hthere. destruct (negb _); [apply returns_ret|]. destruct (ends_lease_at x Hthere d0 Hd) as (s & d1 & E & _ & Hs). apply lease_at_inv in E as Hl. destruct Hl as [_ ->].
  apply returns_bind; [by exists s, d0|]. intros s' d1 E'. rewrite E in E'. injection E' as <- <-. destruct (ends_failover_peer x s Hs d0 Hd) as (f & d1 & Ef & _). apply returns_bind; [by exists f, d1|].
  intros f' d2 Ef'. assert (d0 = d2) as <- by (by apply (keeps_failover_peer eq _ _ _ _ Ef')). match goal with |- runs (if ?b then _ else _) _ => destruct b end; [apply returns_ret|].
  apply abandon_runs; [done|]. split; [apply Hd|]. by split.
Qed.

End Ends.

(** ** The answer *)

(** A server that is ready for clients: its lists, queues and tables are as they are kept, its leases are in known states, its tables and its configuration refer to
    what there is, and there is fuel for the timers. *)
Record ready (cf : site) (fuel : nat) (d : srv) : Prop := {
  rd_ok : ok4 d;
  rd_fit : all_fit d;
  rd_tables : tables_good d;
  rd_addresses a x : lease_ip_addr_hash d !! a = Some x -> is_Some (leases d !! x);
  rd_interface n : interface_network cf = Some n -> is_Some (networks cf !! n);
  rd_subnets s : s ∈ subnets cf -> is_Some (networks cf !! sub_shared_network s);
  rd_pools n net q : networks cf !! n = Some net -> q ∈ net_pools net -> is_Some (pools d !! q);
  rd_fuel : (release_fuel (size (leases d)) <= fuel)%nat
}.

Lemma located cf p d n d' : locate_network cf p d = Some (Some n, d') -> interface_network cf = Some n \/ exists s, s ∈ subnets cf /\ sub_shared_network s = n.
Proof.
  assert (Hfind : forall a, sub_shared_network <$> find_subnet cf a = Some n -> exists s, s ∈ subnets cf /\ sub_shared_network s = n).
  { intros a (s & Hs & ->)%fmap_Some. apply List.find_some in Hs as [Hs _]. exists s. split; [by apply list_elem_of_In|done]. }
  unfold locate_network. destruct (match cp_link_select p with Some d => Some d | None => cp_options p !! DHO_SUBNET_SELECTION end) as [data|].
  - destruct (negb _); [done|]. intros (a & d1 & _ & E)%bind4_inv. right. injection E as E _. by eapply Hfind.
  - destruct (cp_giaddr p =? 0); intros E; injection E as E _; [by left|right; by eapply Hfind].
Qed.

Lemma locates cf p d : exists n, locate_network cf p d = Some (n, d).
Proof.
  unfold locate_network. destruct (match cp_link_select p with Some d => Some d | None => cp_options p !! DHO_SUBNET_SELECTION end) as [data|].
  - destruct (Nat.eqb_spec (length data) 4) as [E|]; cbn [negb]; [|by eexists]. unfold address_in. rewrite E. by eexists.
  - case_match; by eexists.
Qed.

Section Answered.
Context (io : nat -> bool) (random : nat -> Z) (cur_time : Z) (fuel : nat) (cf : site).

(** Whatever the message says, [dhcp4] has a result: no lease or pool is missing that it looks for, the
    searches for the client's leases end, and so do the timers that releasing a lease may start. *)
Lemma dhcp4_answers p d : ready cf fuel d -> short_option p = false -> load_ok d p -> exists a d', dhcp4 io random cur_time fuel cf p d = Some (a, d') /\ answer_there d a.
Proof.
  intros [Hok Hfit Htab Haddr Hint Hsub Hpool Hfuel] Hshort Hload. assert (Hd : served d d) by (by split_and!).
  unfold dhcp4. destruct (locates cf p d) as [n Hn]. rewrite (bind4_eq _ _ _ _ _ Hn).
  assert (Hnet : network_ok cf (set_shared_network n p)).
  { intros share E. cbn in E. subst n. apply located in Hn as [Hn|(s & Hs & <-)]; [by apply Hint|by apply Hsub]. }
  destruct (bool_decide (n = None) && _) eqn:Hq; [by eexists _, _|]. cbv zeta. rewrite get4_bind. cbn [cp_type set_shared_network].
  match goal with |- context [dhcprequest _ _ _ _ _ _ ?l] => set (lease := l) end. assert (Hlease : there_if d lease) by (unfold lease; case_match; [intros x; apply Haddr|done]).
  destruct (Z.eqb_spec (cp_type p) DHCPDISCOVER4) as [Hty|].
  { destruct (ends_dhcpdiscover io random cur_time fuel cf d Hfuel Htab Haddr Hpool (set_shared_network n p)) with (d := d) as (a & d' & E & _ & Ha); [|done..|by exists a, d'].
    rewrite Hty in Hq. destruct n; [by eexists|done]. }
  destruct (_ =? DHCPREQUEST4); [destruct (ends_dhcprequest io random cur_time fuel cf d Hfuel Htab Haddr Hpool (set_shared_network n p) lease) with (d := d) as (a & d' & E & _ & Ha); [done..|by exists a, d']|].
  destruct (_ =? DHCPRELEASE4); [destruct (ends_dhcprelease io random cur_time fuel cf d Hfuel Htab Haddr Hpool (set_shared_network n p)) with (d := d) as (a & d' & E & _); [done|];
    exists Silent, d'; by rewrite (bind4_eq _ _ _ _ _ E)|].
  destruct (_ =? DHCPDECLINE4); [|by eexists _, _]. destruct (runs_dhcpdecline io random cur_time fuel cf d Hfuel Htab Haddr (set_shared_network n p) Hd Hshort) as ([] & d' & E). exists Silent, d'. by rewrite (bind4_eq _ _ _ _ _ E).
Qed.

End Answered.

Lemma ex_free_ready : ready ex_site 24 ex_free.
Proof.
  assert (Hone : forall x s, leases ex_free !! x = Some s -> x = 1%positive /\ s = set_l_binding_state FTS_FREE (set_l_next_binding_state FTS_FREE (ex_lease None))).
  { intros x s E. cbn in E. apply lookup_insert_Some in E as [[<- <-]|[_ E]]; [done|by rewrite lookup_empty in E]. }
  split.
  - by apply ex_one_ok.
  - intros x s [-> ->]%Hone. by split; [eexists|].
  - apply ex_free_tables.
  - intros a x E. cbn in E. apply lookup_insert_Some in E as [[_ <-]|[_ E]]; [by eexists|by rewrite lookup_empty in E].
  - intros n [= <-]. by eexists.
  - intros s [->|E%not_elem_of_nil]%elem_of_cons; [by eexists|done].
  - intros n net q E. cbn in E. apply lookup_insert_Some in E as [[_ <-]|[_ E]]; [|by rewrite lookup_empty in E]. intros [->|E%not_elem_of_nil]%elem_of_cons; [by eexists|done].
  - apply Nat.leb_le. vm_compute. reflexivity.
Qed.
