(* ===== verification/V4Ack.v ===== *)
(** * The answers of the DHCPv4 server

    server/dhcp.c: how long a lease is given and what is recorded of it ([ack_lease]), the packet a client gets ([dhcp_reply], [nak_lease]), the ping
    before an offer (with [lease_pinged] and [lease_ping_timeout] of server/dhcpd.c), and server/bootp.c.

    What the statements in scope make of the options for this client and this lease is an argument ([terms]): the value of each server option that is set, before and after the
    statements of a host declaration, and the options for the client.  [lease->state] is a map from leases to their states, as is the timer of a ping.
    A client's billing, agent options, statements on commit and dynamic DNS are left out; so are [xid], [secs] and [hops], which are copied.
    Putting the options into the packet is [cons_options]: the answer has the options that go in. *)

From stdpp Require Import gmap.
From S2P Require Import Prelude BindingStates FailoverLeases V4State V4Queues V4Leases V4Machine V4Serve.

#[local] Open Scope Z_scope.

(** ** Constants *)

Definition DHCPOFFER4 : Z := 2.
Definition DHCPACK4 : Z := 5.
Definition DHCPNAK4 : Z := 6.
Definition DHO_SUBNET_MASK : Z := 1.
Definition DHO_ROUTERS : Z := 3.
Definition DHO_HOST_NAME : Z := 12.
Definition DHO_DHCP_LEASE_TIME : Z := 51.
Definition DHO_DHCP_MESSAGE_TYPE : Z := 53.
Definition DHO_DHCP_SERVER_IDENTIFIER : Z := 54.
Definition DHO_DHCP_PARAMETER_REQUEST_LIST : Z := 55.
Definition DHO_DHCP_MESSAGE : Z := 56.
Definition DHO_DHCP_MAX_MESSAGE_SIZE : Z := 57.
Definition DHO_DHCP_RENEWAL_TIME : Z := 58.
Definition DHO_DHCP_REBINDING_TIME : Z := 59.

Definition SV_DEFAULT_LEASE_TIME : Z := 1.
Definition SV_MAX_LEASE_TIME : Z := 2.
Definition SV_MIN_LEASE_TIME : Z := 3.
Definition SV_BOOTP_LEASE_CUTOFF : Z := 4.
Definition SV_BOOTP_LEASE_LENGTH : Z := 5.
Definition SV_BOOT_UNKNOWN_CLIENTS : Z := 6.
Definition SV_ALLOW_BOOTP : Z := 8.
Definition SV_ALLOW_BOOTING : Z := 9.
Definition SV_ONE_LEASE_PER_CLIENT : Z := 10.
Definition SV_GET_LEASE_HOSTNAMES : Z := 11.
Definition SV_USE_HOST_DECL_NAMES : Z := 12.
Definition SV_USE_LEASE_ADDR_FOR_DEFAULT_ROUTE : Z := 13.
Definition SV_MIN_SECS : Z := 14.
Definition SV_FILENAME : Z := 15.
Definition SV_SERVER_NAME : Z := 16.
Definition SV_NEXT_SERVER : Z := 17.
Definition SV_ALWAYS_REPLY_RFC1048 : Z := 20.
Definition SV_SITE_OPTION_SPACE : Z := 21.
Definition SV_ALWAYS_BROADCAST : Z := 22.
Definition SV_DUPLICATES : Z := 28.
Definition SV_PING_CHECKS : Z := 42.
Definition SV_PING_TIMEOUT : Z := 46.
Definition SV_RESERVE_INFINITE : Z := 47.
Definition SV_ADAPTIVE_LEASE_TIME_THRESHOLD : Z := 50.

Definition DEFAULT_DEFAULT_LEASE_TIME : Z := 43200.
Definition DEFAULT_MIN_LEASE_TIME : Z := 300.
Definition DEFAULT_MAX_LEASE_TIME : Z := 86400.
Definition DEFAULT_PING_TIMEOUT : Z := 1.
Definition MS_NULL_TERMINATION : Z := 8.
Definition UNICAST_BROADCAST_HACK : Z := 64.
Definition DHCP_FILE_LEN : nat := 128.
Definition DHCP_SNAME_LEN : nat := 64.
Definition INT_MAX4 : Z := 2147483647.
Definition INADDR_LOOPBACK : Z := 2130706433.
Definition INADDR_BROADCAST : Z := 4294967295.

(** ** Data *)

(** The server options that are set: the truth of those that are flags, and the values of the others *)
Record server_options := mkServerOptions { flag_of : gmap Z bool; value_of : gmap Z (list Z) }.

(** What an answer is made with.  [t_host] is the host declaration of the lease, if it has one: its client identifier; [t_host_name] is the name of the declaration the lease has in the
    end, [t_resolved] what the resolver says.  [t_valid_from] and [t_valid_until] are of the pool.  [t_before] is before the statements of a host declaration. *)
Record terms := mkTerms {
  t_before : server_options; t_server : server_options; t_options : gmap Z (list Z); t_host : option (list Z); t_host_name : option (list Z);
  t_resolved : option (list Z); t_netmask : list Z; t_valid_from : Z; t_valid_until : Z; t_spaces : list (list Z); t_mock : lease; t_nulltp : bool
}.

(** The interface a packet came from, and [fallback_interface] *)
Record interface := mkInterface { if_addresses : list (list Z); if_unicast_without_arp : bool; if_fallback : bool }.

(** [struct lease_state] *)
Record lease_state := mkLeaseState {
  ls_packet : client_packet; ls_offer : Z; ls_offered_expiry : Z; ls_broadcast : bool; ls_from : list Z; ls_siaddr : list Z; ls_max_message_size : Z;
  ls_options : gmap Z (list Z); ls_filename : list Z; ls_server_name : list Z; ls_parameter_request_list : list Z
}.

Inductive port := local_port | remote_port.

(** A packet that is sent: its fields and options, and where it goes.  [r_via_fallback] says through which interface, [r_hto] is the hardware address it is sent to.
    [r_htype], [r_hlen] and [r_chaddr] are the fields with the client's hardware address; the octets of a field that the address does not fill are not modelled, and so are all of them for a lease that has no address.
    [r_raw_options]: the area for options is as the client sent it. *)
Record reply := mkReply {
  r_type : Z; r_raw_options : bool; r_ciaddr : Z; r_yiaddr : Z; r_siaddr : list Z; r_giaddr : Z; r_broadcast : bool; r_htype : option Z; r_hlen : Z; r_chaddr : list Z; r_file : list Z; r_sname : list Z;
  r_overload : Z; r_null_terminated : bool; r_options : gmap Z (list Z); r_max_message_size : Z; r_parameter_request_list : list Z;
  r_via_fallback : bool; r_from : list Z; r_to : Z; r_port : port; r_hto : option (list Z)
}.

(** The server with the answers it prepares: [lease->state], the timers of [lease_ping_timeout], and what was sent; [sent_after] has for each answer how many events of the server came before it. *)
Record server4 := mkServer4 {
  base : srv; lease_states : gmap id lease_state; ping_timers : gmap id Z; outstanding_pings : Z; echo_requests : list Z; replies : list reply; sent_after : list nat
}.
Definition set_base v s := mkServer4 v (lease_states s) (ping_timers s) (outstanding_pings s) (echo_requests s) (replies s) (sent_after s).
Definition set_lease_states v s := mkServer4 (base s) v (ping_timers s) (outstanding_pings s) (echo_requests s) (replies s) (sent_after s).
Definition set_ping_timers v s := mkServer4 (base s) (lease_states s) v (outstanding_pings s) (echo_requests s) (replies s) (sent_after s).
Definition set_outstanding_pings v s := mkServer4 (base s) (lease_states s) (ping_timers s) v (echo_requests s) (replies s) (sent_after s).
Definition set_echo_requests v s := mkServer4 (base s) (lease_states s) (ping_timers s) (outstanding_pings s) v (replies s) (sent_after s).
Definition set_replies v s := mkServer4 (base s) (lease_states s) (ping_timers s) (outstanding_pings s) (echo_requests s) v (sent_after s).
Definition set_sent_after v s := mkServer4 (base s) (lease_states s) (ping_timers s) (outstanding_pings s) (echo_requests s) (replies s) v.

#[export] Instance handout_eq_dec : EqDecision handout.
Proof. solve_decision. Defined.

(** ** Options *)

(** [getULong], [putULong] *)
Definition getULong (data : list Z) : Z := le_val (reverse data).
Definition putULong (v : Z) : list Z := reverse (le_bytes 4 v).

(** The value of an option that is a number, if it is as long as one *)
Definition ulong_or (d : Z) (o : option (list Z)) : Z :=
  match o with Some data => if (length data =? 4)%nat then getULong data else d | None => d end.

(** [oc && evaluate_boolean_option_cache (...)], [oc && !evaluate_...], [!oc || evaluate_...] *)
Definition set_and_true (o : server_options) (code : Z) : bool := default false (flag_of o !! code).
Definition set_and_false (o : server_options) (code : Z) : bool := match flag_of o !! code with Some b => negb b | None => false end.
Definition unset_or_true (o : server_options) (code : Z) : bool := default true (flag_of o !! code).

(** [get_server_source_address] *)
Definition get_server_source_address (itf : interface) (o : gmap Z (list Z)) : list Z * gmap Z (list Z) :=
  match o !! DHO_DHCP_SERVER_IDENTIFIER, if_addresses itf with
  | Some data, [] => (if (length data =? 4)%nat then data else [0; 0; 0; 0], o)
  | Some data, a :: _ => if (length data =? 4)%nat then (data, o) else (a, <[DHO_DHCP_SERVER_IDENTIFIER := a]> o)
  | None, [] => ([0; 0; 0; 0], o)
  | None, a :: _ => (a, <[DHO_DHCP_SERVER_IDENTIFIER := a]> o)
  end.

(** An option with a time has to be before [limit], or it is dropped; the result has the limit for the next one. *)
Definition bounded_time (code limit : Z) (o : gmap Z (list Z)) : M4 (gmap Z (list Z) * Z) :=
  match o !! code with
  | None => mret (o, limit)
  | Some data =>
      if (length data <? 4)%nat then log_fatal
      else let t := getULong (take 4 data) in mret (if limit <=? t then (delete code o, limit) else (o, t))
  end.

(** An option is put in if there is none. *)
Definition if_missing (code : Z) (v : option (list Z)) (o : gmap Z (list Z)) : gmap Z (list Z) :=
  match o !! code, v with None, Some data => <[code := data]> o | _, _ => o end.

(** [lease_allocate] *)
Definition lease_allocate : lease := mkLease 0 0 0 0 0 0 0 0 0 0 0 0 0 None [] false None None None None None.

(** The flag for clients that terminate strings with NUL *)
Definition null_flag (b : bool) (s : lease) : lease := if b then set_flag MS_NULL_TERMINATION s else clear_flag MS_NULL_TERMINATION s.

(** [total / count], which has to be something *)
Definition divide (a b : Z) : M4 Z := if b =? 0 then log_fatal else mret (Z.quot a b).

(** What [ack_lease] has when the lease is recorded: nothing for the client, a NAK, or the answer, with [cltt] as it was. *)
Inductive prepared := Dropped | Refused | Ready (st : lease_state) (lease_cltt : Z).

Section Ack.
Context (io : nat -> bool) (random : nat -> Z) (cur_time : Z) (fuel : nat) (cf : site) (itf : interface).

(** ** One lease per client *)

Definition in_use (s : lease) : bool := negb (case_of (l_binding_state s) [FTS_RELEASED; FTS_EXPIRED; FTS_RESET; FTS_FREE; FTS_BACKUP]).

(** [while (seek)] *)
Fixpoint seek_loop (n : nat) (t : table_by) (h : handout) (seek : option id) : M4 (option id) :=
  match n with
  | O => log_fatal
  | S n =>
      match seek with
      | None => mret None
      | Some x => s ← lease_at x; if negb (bool_decide (h = Dynamic x)) && in_use s then mret (Some x) else seek_loop n t h (n_of t s)
      end
  end.

(** [do ... while (1)] *)
Fixpoint release_others (n : nat) (t : table_by) (h : handout) (key : list Z) : M4 unit :=
  match n with
  | O => log_fatal
  | S n =>
      seek ← find_lease_by t key;
      match seek with
      | None => mret tt
      | Some x =>
          s ← lease_at x;
          if bool_decide (h = Dynamic x) && bool_decide (n_of t s = None) then mret tt
          else
            m ← get4 leases;
            y ← seek_loop (S (size m)) t h seek;
            match y with
            | Some y => release_lease io random cur_time fuel y ;; release_others n t h key
            | None => mret tt
            end
      end
  end.

Definition one_lease (p : client_packet) (h : handout) (tm : terms) (s : lease) : M4 unit :=
  if (cp_type p =? DHCPREQUEST4) && set_and_true (t_before tm) SV_ONE_LEASE_PER_CLIENT then
    m ← get4 leases;
    let uid := default [] (l_uid s) in
    when4 (negb (bool_decide (uid = []))) (release_others (S (S (size m))) ByUid h uid) ;;
    when4 (bool_decide (uid = []) || bool_decide (t_host tm = Some []) && set_and_false (t_before tm) SV_DUPLICATES)
      (release_others (S (S (size m))) ByHw h (l_hbuf s))
  else mret tt.

(** ** Who is refused *)

Definition no_fixed (hosts : option (list host_decl)) : bool := existsb (fun h => bool_decide (h_fixed_addr h = None)) (default [] hosts).

(** The lease has a host declaration, or there is one without a fixed address. *)
Definition has_host (p : client_packet) (tm : terms) : bool :=
  bool_decide (is_Some (t_host tm)) || no_fixed (client_id p ≫= find_hosts_by_uid cf) || no_fixed (find_hosts_by_haddr cf p) || no_fixed (find_hosts_by_option cf p).

Definition turned_away (p : client_packet) (offer : Z) (tm : terms) : bool :=
  (offer =? DHCPOFFER4) && match value_of (t_before tm) !! SV_MIN_SECS with Some (b :: _) => cp_secs p <? b | _ => false end ||
  negb (has_host p tm) && set_and_false (t_server tm) SV_BOOT_UNKNOWN_CLIENTS ||
  (offer =? 0) && set_and_false (t_server tm) SV_ALLOW_BOOTP ||
  set_and_false (t_server tm) SV_ALLOW_BOOTING.

(** ** How long *)

(** A pool with few free leases has short ones; but a client keeps its lease. *)
Definition adaptive_time (tm : terms) (s : lease) (min_time lease_time : Z) : M4 Z :=
  match l_pool s, value_of (t_server tm) !! SV_ADAPTIVE_LEASE_TIME_THRESHOLD with
  | Some q, Some [threshold] =>
      if (0 <? threshold) && (threshold <? 100) then
        let adaptive := if min_time =? 0 then DEFAULT_MIN_LEASE_TIME else min_time in
        let adaptive := if adaptive <? l_ends s - cur_time then l_ends s - cur_time else adaptive in
        pl ← pool_at q;
        let count := p_lease_count pl in
        let total := count - (p_free_leases pl + p_backup_leases pl) in
        filled ← (if INT_MAX4 / 100 <? total then divide total (Z.quot count 100) else divide (total * 100) count);
        mret (if (threshold <=? filled) && (adaptive <? lease_time) then adaptive else lease_time)
      else mret lease_time
  | _, _ => mret lease_time
  end.

(** The dates of the pool; [None] is a NAK. *)
Definition pool_dates (tm : terms) (s : lease) (lease_time : Z) : option Z :=
  match l_pool s with
  | None => Some lease_time
  | Some _ =>
      if negb (t_valid_from tm =? 0) && (cur_time <? t_valid_from tm) then None
      else if negb (t_valid_until tm =? 0) then
        if t_valid_until tm <=? cur_time then None
        else Some (if t_valid_until tm - cur_time <? lease_time then t_valid_until tm - cur_time else lease_time)
      else Some lease_time
  end.

Definition default_lease_time (tm : terms) : Z := ulong_or DEFAULT_DEFAULT_LEASE_TIME (value_of (t_server tm) !! SV_DEFAULT_LEASE_TIME).
Definition max_lease_time (tm : terms) : Z := ulong_or DEFAULT_MAX_LEASE_TIME (value_of (t_server tm) !! SV_MAX_LEASE_TIME).
Definition min_lease_time (tm : terms) : Z :=
  ulong_or (if max_lease_time tm <? DEFAULT_MIN_LEASE_TIME then max_lease_time tm else DEFAULT_MIN_LEASE_TIME) (value_of (t_server tm) !! SV_MIN_LEASE_TIME).

Definition duration (p : client_packet) (tm : terms) (s : lease) : M4 (option Z) :=
  let lease_time := ulong_or (default_lease_time tm) (cp_options p !! DHO_DHCP_LEASE_TIME) in
  let lease_time := if (lease_time <? 0) || (max_lease_time tm <? lease_time) then max_lease_time tm else lease_time in
  lease_time ← adaptive_time tm s (min_lease_time tm) lease_time;
  mret (match pool_dates tm s lease_time with
        | None => None
        | Some lease_time =>
            Some (if lease_time <? min_lease_time tm then (if min_lease_time tm =? 0 then default_lease_time tm else min_lease_time tm) else lease_time)
        end).

(** The time with a partner, and what the partner is told: [lt] has [tsfp], [atsfp] and [tstp]. *)
Definition failover_time (f : failover) (offer : Z) (s lt : lease) (lease_time : Z) : Z * lease :=
  let lt := set_l_atsfp (l_atsfp s) (set_l_tsfp (l_tsfp s) lt) in
  let new_lease_time :=
    if f_mclt f <? lease_time then
      if l_tsfp lt <=? cur_time then f_mclt f
      else if l_tsfp lt + f_mclt f <? cur_time + lease_time then (l_tsfp lt - cur_time) + f_mclt f
      else lease_time
    else lease_time in
  let lt :=
    if offer =? DHCPACK4 then
      let lt := set_l_tstp (cur_time + lease_time + Z.quot new_lease_time 2) lt in
      if l_tstp lt <? l_tsfp lt then set_l_tsfp (l_tstp lt) lt else lt
    else set_l_tstp (l_tstp s) lt in
  (new_lease_time, lt).

(** The lease a DHCP client gets, with [offered_expiry]; [None] is a NAK. *)
Definition dhcp_terms (p : client_packet) (offer when : Z) (tm : terms) (s lt : lease) : M4 (option (lease * Z)) :=
  let lt := clear_flag BOOTP_LEASE lt in
  t ← duration p tm s;
  let lt :=
    match cp_options p !! DHO_DHCP_LEASE_TIME with
    | Some data => if bool_decide (data = [255; 255; 255; 255]) && set_and_true (t_server tm) SV_RESERVE_INFINITE then set_flag RESERVED_LEASE lt else lt
    | None => lt
    end in
  match t with
  | None => mret None
  | Some lease_time =>
      f ← failover_peer s;
      let '(lease_time, lt) := match f with Some f => failover_time f offer s lt lease_time | None => (lease_time, lt) end in
      let offered_expiry := if cur_time + lease_time <? cur_time then MAX_TIME4 - 1 else cur_time + lease_time in
      let lt := set_l_ends (if when =? 0 then offered_expiry else when) lt in
      let lt := set_l_next_binding_state (if offer =? DHCPACK4 then FTS_ACTIVE else l_binding_state s) lt in
      mret (Some (lt, offered_expiry))
  end.

(** The lease a BOOTP client gets *)
Definition bootp_terms (tm : terms) (lt : lease) : lease * Z :=
  let lt := set_flag BOOTP_LEASE lt in
  let lease_time := ulong_or (MAX_TIME4 - cur_time) (value_of (t_server tm) !! SV_BOOTP_LEASE_LENGTH) in
  let lease_time := match value_of (t_server tm) !! SV_BOOTP_LEASE_CUTOFF with
                    | Some data => if (length data =? 4)%nat then getULong data - cur_time else lease_time
                    | None => lease_time
                    end in
  (set_l_next_binding_state FTS_ACTIVE (set_l_ends (cur_time + lease_time) lt), cur_time + lease_time).

(** ** The answer *)

Definition address_of (h : handout) : Z := match h with Fixed a => a | Dynamic x => ip_addr cf x end.

Definition max_message_size (p : client_packet) (tm : terms) : Z :=
  let short o := match o with Some data => if (length data =? 2)%nat then le_val (reverse data) else 0 | None => 0 end in
  match cp_options p !! DHO_DHCP_MAX_MESSAGE_SIZE with Some data => short (Some data) | None => short (t_options tm !! DHO_DHCP_MAX_MESSAGE_SIZE) end.

(** The options of the answer, and [state->from] *)
Definition reply_options (p : client_packet) (h : handout) (offer offered_expiry : Z) (tm : terms) : M4 (list Z * gmap Z (list Z)) :=
  let o := t_options tm in
  let o := match cp_options p !! DHO_SUBNET_SELECTION with Some data => <[DHO_SUBNET_SELECTION := data]> o | None => o end in
  r ← (if negb (offer =? 0) then
         let o := <[DHO_DHCP_MESSAGE_TYPE := [offer]]> o in
         let '(from, o) := get_server_source_address itf o in
         let offered_lease_time := offered_expiry - cur_time in
         let o := <[DHO_DHCP_LEASE_TIME := putULong offered_lease_time]> o in
         r ← bounded_time DHO_DHCP_REBINDING_TIME offered_lease_time o;
         r ← bounded_time DHO_DHCP_RENEWAL_TIME (snd r) (fst r);
         mret (from, fst r)
       else mret (match if_addresses itf with a :: _ => a | [] => [0; 0; 0; 0] end, o));
  let '(from, o) := r in
  let o := if_missing DHO_SUBNET_MASK (Some (t_netmask tm)) o in
  let o := if set_and_true (t_server tm) SV_USE_HOST_DECL_NAMES then if_missing DHO_HOST_NAME (t_host_name tm) o else o in
  let o := if set_and_true (t_server tm) SV_GET_LEASE_HOSTNAMES then if_missing DHO_HOST_NAME ((fun n => n ++ [0]) <$> t_resolved tm) o else o in
  let o := if set_and_true (t_server tm) SV_USE_LEASE_ADDR_FOR_DEFAULT_ROUTE then if_missing DHO_ROUTERS (Some (putULong (address_of h))) o else o in
  mret (from, o).

(** The lease, or the one that was made up for a fixed address *)
Definition lease_of (h : handout) (tm : terms) : M4 lease := match h with Dynamic x => lease_at x | Fixed _ => mret (t_mock tm) end.

(** What is known of the client goes into [lt], and [lt] into the lease; false if the database could not be updated. *)
Definition record_lease (p : client_packet) (h : handout) (offer : Z) (tm : terms) (lt : lease) : M4 bool :=
  let lt := set_l_uid (client_id p) (set_l_cltt cur_time lt) in
  match h with
  | Fixed _ => mret true
  | Dynamic x =>
      set_lease4 x (null_flag (t_nulltp tm)) ;;
      s ← lease_at x;
      let lt := set_l_scope (l_scope s) lt in
      set_lease4 x (set_l_scope false) ;;
      let lt := set_l_flags (Z.ldiff (l_flags s) PERSISTENT_FLAGS) (set_l_hbuf (hardware p) lt) in
      if flag s STATIC_LEASE then set_lease4 x (set_l_hbuf (hardware p)) ;; mret true
      else supersede_lease io random cur_time fuel x (Some lt) ((offer =? 0) || (offer =? DHCPACK4)) (offer =? DHCPACK4) (offer =? DHCPACK4)
  end.

(** [ack_lease] up to [lease->state = state] *)
Definition prepare (p : client_packet) (h : handout) (offer when : Z) (tm : terms) : M4 prepared :=
  s ← lease_of h tm;
  let lease_cltt := l_cltt s in
  one_lease p h tm s ;;
  if turned_away p offer tm then mret Dropped
  else
    s ← lease_of h tm;
    let lt := set_l_starts cur_time lease_allocate in
    t ← (if negb (offer =? 0) then dhcp_terms p offer when tm s lt else mret (Some (bootp_terms tm lt)));
    match t with
    | None => mret Refused
    | Some (lt, offered_expiry) =>
        ok ← record_lease p h offer tm lt;
        if negb ok then mret Dropped
        else
          r ← reply_options p h offer offered_expiry tm;
          let '(from, o) := r in
          if match value_of (t_server tm) !! SV_SITE_OPTION_SPACE with Some name => negb (bool_decide (name ∈ t_spaces tm)) | None => false end then mret Dropped
          else
            mret (Ready (mkLeaseState p offer offered_expiry (cp_broadcast p || set_and_true (t_server tm) SV_ALWAYS_BROADCAST) from
              (match value_of (t_server tm) !! SV_NEXT_SERVER with Some data => if (4 <=? length data)%nat then take 4 data else [0; 0; 0; 0] | None => [0; 0; 0; 0] end)
              (max_message_size p tm) o (default [] (value_of (t_server tm) !! SV_FILENAME)) (default [] (value_of (t_server tm) !! SV_SERVER_NAME))
              (default [] (match o !! DHO_DHCP_PARAMETER_REQUEST_LIST with Some l => Some l | None => cp_options p !! DHO_DHCP_PARAMETER_REQUEST_LIST end))) lease_cltt)
    end.

(** A field of fixed length *)
Definition field (n : nat) (data : list Z) : list Z := take n (data ++ repeat 0 n).

(** [raw.hlen = lease -> hardware_addr.hlen - 1], an octet: it is 255 if the lease has no address. *)
Definition hlen_of (hbuf : list Z) : Z := (Z.of_nat (length hbuf) - 1) mod 256.

(** [dhcp_reply], for a lease [s] with address [ip] in the network [net]: where the packet goes *)
Definition reply_for (ip : Z) (net : id) (s : lease) (st : lease_state) : reply :=
  let p := ls_packet st in
  let raw via from to prt hto :=
    mkReply (ls_offer st) false (cp_ciaddr p) ip (ls_siaddr st) (cp_giaddr p) (ls_broadcast st) (head (l_hbuf s)) (hlen_of (l_hbuf s)) (tail (l_hbuf s))
      (if bool_decide (ls_filename st = []) then repeat 0 DHCP_FILE_LEN else field DHCP_FILE_LEN (ls_filename st))
      (if bool_decide (ls_server_name st = []) then repeat 0 DHCP_SNAME_LEN else field DHCP_SNAME_LEN (ls_server_name st))
      (Z.lor (if bool_decide (ls_filename st = []) then 1 else 0) (if bool_decide (ls_server_name st = []) then 2 else 0))
      (flag s MS_NULL_TERMINATION) (ls_options st) (ls_max_message_size st) (ls_parameter_request_list st) via from to prt hto in
  let got_server_identifier := bool_decide (is_Some (cp_options p !! DHO_DHCP_SERVER_IDENTIFIER)) in
  if negb (cp_giaddr p =? 0) then
    let prt := if cp_giaddr p =? INADDR_LOOPBACK then remote_port else local_port in
    if if_fallback itf then raw true (ls_siaddr st) (cp_giaddr p) prt None
    else raw false (ls_from st) (cp_giaddr p) prt (Some (l_hbuf s))
  else if negb (cp_ciaddr p =? 0) && negb ((got_server_identifier || ls_broadcast st) && bool_decide (interface_network cf = Some net)) && (ls_offer st =? DHCPACK4) then
    if if_fallback itf then raw true (ls_siaddr st) (cp_ciaddr p) remote_port None
    else raw false (ls_from st) (cp_ciaddr p) remote_port (Some (l_hbuf s))
  else if negb (ls_broadcast st) && if_unicast_without_arp itf then raw false (ls_from st) ip remote_port (Some (l_hbuf s))
  else raw false (ls_from st) INADDR_BROADCAST remote_port (if flag s UNICAST_BROADCAST_HACK then Some (l_hbuf s) else None).

Definition send_reply (r : reply) (v : server4) : server4 := set_replies (replies v ++ [r]) (set_sent_after (sent_after v ++ [length (events (base v))]) v).

(** [dhcp_reply]: it is fatal if there is no state. *)
Definition dhcp_reply (x : id) (v : server4) : option server4 :=
  st ← lease_states v !! x;
  s ← leases (base v) !! x;
  Some (set_lease_states (delete x (lease_states v)) (send_reply (reply_for (ip_addr cf x) (network_of cf x) s st) v)).

Context (dhcp_message : list Z).

Definition nak_lease (p : client_packet) (v : server4) : server4 :=
  let '(from, o) := get_server_source_address itf (<[DHO_DHCP_MESSAGE := dhcp_message]> {[DHO_DHCP_MESSAGE_TYPE := [DHCPNAK4]]}) in
  let raw via to prt :=
    mkReply DHCPNAK4 false 0 0 (match if_addresses itf with a :: _ => a | [] => [0; 0; 0; 0] end) (cp_giaddr p) true (Some (cp_htype p)) (Z.of_nat (length (cp_chaddr p))) (cp_chaddr p) (repeat 0 DHCP_FILE_LEN) (repeat 0 DHCP_SNAME_LEN)
      0 false o 0 [] via from to prt None in
  send_reply (if negb (cp_giaddr p =? 0) then raw (if_fallback itf) (cp_giaddr p) (if cp_giaddr p =? INADDR_LOOPBACK then remote_port else local_port)
              else raw false INADDR_BROADCAST remote_port) v.

(** The address is asked whether somebody has it. *)
Definition ping (x : id) (tm : terms) (v : server4) : server4 :=
  let timeout := ulong_or DEFAULT_PING_TIMEOUT (value_of (t_server tm) !! SV_PING_TIMEOUT) in
  set_ping_timers (<[x := cur_time + timeout]> (ping_timers v)) (set_outstanding_pings (outstanding_pings v + 1) (set_echo_requests (echo_requests v ++ [ip_addr cf x]) v)).

(** [ack_lease]; [net] is the network of the subnet a fixed address is in. *)
Definition ack_lease (p : client_packet) (h : handout) (net : id) (offer when : Z) (tm : terms) (v : server4) : option server4 :=
  if match h with Dynamic x => bool_decide (is_Some (lease_states v !! x)) | Fixed _ => false end then Some v
  else
    '(r, d) ← prepare p h offer when tm (base v);
    let v := set_base d v in
    match r with
    | Dropped => Some v
    | Refused => Some (nak_lease p v)
    | Ready st lease_cltt =>
        match h with
        | Fixed a => Some (send_reply (reply_for a net (set_l_hbuf (hardware p) (null_flag (t_nulltp tm) (t_mock tm))) st) v)
        | Dynamic x =>
            s ← leases d !! x;
            let v := set_lease_states (<[x := st]> (lease_states v)) v in
            if (offer =? DHCPOFFER4) && negb (flag s STATIC_LEASE) && (60 <? cur_time - lease_cltt) && unset_or_true (t_server tm) SV_PING_CHECKS then
              Some (ping x tm v)
            else
              '(_, d) ← set_lease4 x (set_l_cltt cur_time) d;
              dhcp_reply x (set_base d v)
        end
    end.

(** ** Pings *)

(** Somebody has the address. *)
Definition lease_pinged (from : Z) (v : server4) : option server4 :=
  if outstanding_pings v =? 0 then Some v
  else
    match lease_ip_addr_hash (base v) !! from with
    | None => Some v
    | Some x =>
        match lease_states v !! x with
        | None => Some v
        | Some _ =>
            '(_, d) ← abandon_lease io random cur_time fuel x (base v);
            Some (set_base d (set_lease_states (delete x (lease_states v)) (set_ping_timers (delete x (ping_timers v)) (set_outstanding_pings (outstanding_pings v - 1) v))))
        end
    end.

(** The timer of a ping *)
Definition lease_ping_timeout (x : id) (v : server4) : option server4 :=
  dhcp_reply x (set_ping_timers (delete x (ping_timers v)) (set_outstanding_pings (outstanding_pings v - 1) v)).

(** ** Packets *)

(** The terms for a packet, what it is given, and the kind of the answer; and the network a fixed address is in. *)
Context (terms_of : client_packet -> handout -> Z -> terms) (fixed_network : client_packet -> Z -> id).

Definition network_for (p : client_packet) (h : handout) : id := match h with Fixed a => fixed_network p a | Dynamic x => network_of cf x end.

(** [dhcp], with the answer *)
Definition dhcp (p : client_packet) (v : server4) : option server4 :=
  '(a, d) ← dhcp4 io random cur_time fuel cf p (base v);
  let v := set_base d v in
  match a with
  | Silent | Other => Some v
  | Nak _ => Some (nak_lease p v)
  | Offer h when => ack_lease p h (network_for p h) DHCPOFFER4 when (terms_of p h DHCPOFFER4) v
  | Ack h => ack_lease p h (network_for p h) DHCPACK4 0 (terms_of p h DHCPACK4) v
  end.

(** ** [bootp] *)

(** The lease for a BOOTP client, if it is answered *)
Definition bootp_lease (p : client_packet) : M4 (option handout * client_packet) :=
  net ← locate_network cf p;
  match net with
  | None => mret (None, p)
  | Some share =>
      r ← find_lease io random cur_time fuel cf (set_shared_network (Some share) p) share None;
      let '(h, _, p) := r in
      h ← (match h with
           | Some _ => mret h
           | None => net ← follow (networks cf !! share); r ← allocate_lease cur_time cf p (net_pools net) false; mret (Dynamic <$> fst r)
           end);
      match h with
      | Some (Dynamic x) =>
          s ← lease_at x; f ← failover_peer s;
          go ← (match f with
                | None => mret true
                | Some f => if silent_service f then mret false else if bool_decide (f_service_state f = cooperating) then load_balanced cf p f else mret true
                end);
          mret (if (go : bool) then h else None, p)
      | _ => mret (h, p)
      end
  end.

(** The answer with a fixed address; [file] is the one the client sent, [net_address] an address of the interface of the network. *)
Definition bootp_reply (p : client_packet) (file : list Z) (net_address : option (list Z)) (a : Z) (tm : terms) : option reply :=
  if set_and_false (t_server tm) SV_ALLOW_BOOTP || set_and_false (t_server tm) SV_ALLOW_BOOTING then None
  else
    match if_addresses itf with
    | [] => None
    | from :: _ =>
        let raw_options := negb (cp_options_valid p) && negb (set_and_true (t_server tm) SV_ALWAYS_REPLY_RFC1048) in
        let o := if raw_options then ∅ else if_missing DHO_SUBNET_MASK (Some (t_netmask tm)) (t_options tm) in
        let broadcast := cp_broadcast p || set_and_true (t_server tm) SV_ALWAYS_BROADCAST in
        let siaddr := match value_of (t_server tm) !! SV_NEXT_SERVER with
                      | Some data => if (4 <=? length data)%nat then take 4 data else [0; 0; 0; 0]
                      | None => match net_address with Some ad => ad | None => from end
                      end in
        let raw via to prt :=
          mkReply 0 raw_options (cp_ciaddr p) a siaddr (cp_giaddr p) broadcast (Some (cp_htype p)) (Z.of_nat (length (cp_chaddr p))) (cp_chaddr p)
            (match value_of (t_server tm) !! SV_FILENAME with Some data => field DHCP_FILE_LEN data | None => file end)
            (match value_of (t_server tm) !! SV_SERVER_NAME with Some data => field DHCP_SNAME_LEN data | None => repeat 0 DHCP_SNAME_LEN end)
            0 false o 0 [] via from to prt (Some (hardware p)) in
        Some (if negb (cp_giaddr p =? 0) then raw (if_fallback itf) (cp_giaddr p) local_port
              else if negb broadcast && if_unicast_without_arp itf then raw false a remote_port
              else raw false INADDR_BROADCAST remote_port)
    end.

Definition BOOTREQUEST : Z := 1.

Definition bootp (op : Z) (file : list Z) (net_address : option (list Z)) (p : client_packet) (v : server4) : option server4 :=
  if negb (op =? BOOTREQUEST) then Some v
  else
    '(r, d) ← bootp_lease p (base v);
    let v := set_base d v in
    match fst r with
    | None => Some v
    | Some (Fixed a) => Some (match bootp_reply p file net_address a (terms_of p (Fixed a) 0) with Some r => send_reply r v | None => v end)
    | Some (Dynamic x) => ack_lease p (Dynamic x) (network_of cf x) 0 0 (terms_of p (Dynamic x) 0) v
    end.

End Ack.
