(* ===== verification/V4AckProofs.v ===== *)
(** * What an answer does to the lease database

    A lease that [supersede_lease] has committed is in the lease file the way it is in memory, and active; the operations of server/dhcp.c that answer a client keep the lists, the
    queues, the tables and the states of the leases, and have a result. *)

From stdpp Require Import gmap relations.
From S2P Require Import Prelude BindingStates FailoverLeases V4State V4Queues V4Leases V4Machine V4Handlers V4Chain V4Laws V4Frames V4Lists V4Pending V4Sending V4System V4Tables V4Service V4Timers V4Claims V4Serve V4ServeProofs V4Allocate V4ServeClaims V4Answers V4Ack.

#[local] Open Scope Z_scope.

(** ** Relations *)

(** Events were added, and leases are committed the way they were. *)
Definition grown (d d' : srv) : Prop := events d `prefix_of` events d' /\ ss_nosync d' = ss_nosync d.

#[export] Instance grown_pre : PreOrder grown.
Proof. unfold grown. split; [intros d; by split|]. intros d1 d2 d3 [H1 N1] [H2 N2]. split; [by etrans|congruence]. Qed.

Lemma grown_lease x f : Keeps grown (set_lease4 x f).
Proof. intros d u d' (s & _ & ->)%set_lease4_inv. unfold grown. done. Qed.
Lemma grown_modify f : (forall d, (events (f d), ss_nosync (f d)) = (events d, ss_nosync d)) -> Keeps grown (modify4 f).
Proof. intros Hf d u d' H. unfold modify4 in H. injection H as _ <-. specialize (Hf d). injection Hf as H1 H2. unfold grown. by rewrite H1, H2. Qed.
Lemma grown_emit e : Keeps grown (emit e).
Proof. intros d u d' H. unfold emit, modify4 in H. injection H as _ <-. unfold grown. cbn. split; [by apply prefix_app_r|done]. Qed.
Lemma grown_peer f : Keeps grown (set_peer4 f).
Proof. intros d u d' H. rewrite set_peer4_eq in H. injection H as _ <-. unfold grown. done. Qed.
#[local] Hint Resolve grown_lease grown_emit grown_peer : keeps.
#[local] Hint Extern 0 (Keeps grown (modify4 _)) => (apply grown_modify; intros; reflexivity) : keeps.

#[export] Instance grown_calm : Calm grown.
Proof.
  assert (forall io x, Keeps grown (write_lease io x)) by (intros; unfold write_lease, ask; keeps). split; [split|intros; keeps| |intros; keeps]; try (intros; keeps; fail).
  - apply _.
  - intros q f d u d' (p & _ & ->)%set_pool4_inv. unfold grown. done.
  - intros f _ _ _ Hf. by apply grown_modify.
  - intros io now x. open_ops. unfold ask. keeps.
  - intros x. unfold make_binding_state_transition. keeps.
Qed.
#[export] Hint Extern 1 (Keeps grown _) => calm_leaf : keeps.

(** What was given to the client *)
Definition given (s : lease) : Z * Z * Z * option (list Z) * list Z := (l_starts s, l_ends s, l_cltt s, l_uid s, l_hbuf s).

(** Functions of a lease that are seen by [Still] *)
Lemma still_of {A} (g : lease -> A) : (forall s s', (lease_view s', l_sort_time s', flag s' STATIC_LEASE) = (lease_view s, l_sort_time s, flag s STATIC_LEASE) -> g s' = g s) ->
  (forall s b, g (set_l_rewind_binding_state b s) = g s) -> Still (same_of g).
Proof.
  intros Hg Hr. assert (forall e, Keeps (same_of g) (emit e)) by (intros e; by apply keeps_modify). assert (forall io, Keeps (same_of g) (ask io)) by (intros io; unfold ask; keeps).
  assert (forall io x, Keeps (same_of g) (write_lease io x)) by (intros io x; unfold write_lease; keeps).
  split; [apply _| |intros; by apply keeps_set_pool|intros; by apply keeps_set_peer| |done|done| |].
  - intros x f Hf. apply keeps_set_lease. intros s. by apply Hg.
  - intros f Hl _ _ _ d u d' E1. unfold modify4 in E1. injection E1 as _ <-. intros x. by rewrite Hl.
  - intros io now x. open_ops. keeps; apply keeps_set_lease; intros s'; first [apply Hr | by apply Hg].
  - intros x. apply keeps_set_lease. intros s. apply Hr.
Qed.

(** What is given stays, and so does the state, until the next transition. *)
Definition given_in (s : lease) : Z * Z * Z * option (list Z) * list Z * Z * Z := (given s, l_binding_state s, l_sort_time s).

#[export] Instance given_in_still : Still (same_of given_in).
Proof. apply still_of; [|done]. intros s s' [=]. unfold given_in, given. congruence. Qed.

#[export] Instance given_calm : Calm (same_of given).
Proof.
  split; [apply still_of; [|done]; intros s s' [=]; unfold given; congruence|intros; keeps| |intros; keeps].
  pose proof (fun e => keeps_modify (R := same_of given) (fun d => set_events (events d ++ [e]) d)) as He. intros x. unfold make_binding_state_transition, emit. keeps.
Qed.

Definition static (s : lease) : bool := flag s STATIC_LEASE.

#[export] Instance static_calm : Calm (same_of static).
Proof.
  split; [apply still_of; [|done]; intros s s' [=]; unfold static; congruence|intros; keeps| |intros; keeps]. intros x. unfold make_binding_state_transition, emit. keeps.
Qed.

#[local] Hint Extern 1 (Keeps (same_of given_in) _) => still_leaf : keeps.
#[local] Hint Extern 1 (Keeps (same_of given) _) => calm_leaf : keeps.
#[local] Hint Extern 1 (Keeps (same_of static) _) => calm_leaf : keeps.

Lemma static_release io random now n l : Keeps (same_of static) (release_lease io random now n l).
Proof. pose proof (proj1 (calm_supersede (same_of static) io random now n)). unfold release_lease. keeps. Qed.
Lemma grown_release io random now n l : Keeps grown (release_lease io random now n l).
Proof. pose proof (proj1 (calm_supersede grown io random now n)). unfold release_lease. keeps. Qed.

(** ** What is committed *)

(** A change of the lease that is looked at *)
Lemma set_lease4_at x f d u d' : set_lease4 x f d = Some (u, d') -> exists s, leases d !! x = Some s /\ leases d' !! x = Some (f s).
Proof. intros (s & Hs & ->)%set_lease4_inv. exists s. rewrite lookup_upd_lease, decide_True by done. done. Qed.

(** [copy_data]: the lease has the data. *)
Lemma copy_data_given x t d u d' : copy_data x t d = Some (u, d') -> exists s, leases d' !! x = Some s /\ given s = given t /\ l_next_binding_state s = l_next_binding_state t.
Proof.
  intros E. unfold copy_data in E. step4 E. do 2 (apply bind4_inv in E as (? & ? & _ & E)).
  apply bind4_inv in E as (? & d1 & (s1 & _ & Hs1)%set_lease4_at & E).
  do 4 (let H := fresh in let s := fresh in let Hs := fresh in apply bind4_inv in E as (? & ? & (s & H & Hs)%set_lease4_at & E); rewrite H in Hs1; injection Hs1 as ->; rename Hs into Hs1; clear H).
  apply bind4_inv in E as (? & d2 & Ea & E). apply bind4_inv in E as (? & d3 & Eb & E).
  assert (exists s3, leases d3 !! x = Some s3 /\ (l_starts s3, l_uid s3, l_hbuf s3) = (l_starts t, l_uid t, l_hbuf t)) as (s3 & Hs3 & E3).
  { set (g := fun s => (l_starts s, l_uid s, l_hbuf s)). assert (forall t' l, Keeps (same_of g) (table_add t' l)) as Ka by (intros; apply of_table_add; by intros []).
    assert (same_of g d2 d3) as H3 by (revert Eb; destruct (negb _); cbn [when4]; [apply Ka|by intros [= _ <-]]).
    match type of Hs1 with leases ?d0 !! _ = _ => assert (same_of g d0 d2) as H2 by (revert Ea; destruct (l_uid t); [apply Ka|by intros [= _ <-]]) end.
    destruct (same_of_some _ _ _ _ _ (transitivity H2 H3) Hs1) as (s3 & Hs3 & E3). exists s3. split; [done|]. exact E3. }
  do 5 (let H := fresh in let s := fresh in let Hs := fresh in apply bind4_inv in E as (? & ? & (s & H & Hs)%set_lease4_at & E); rewrite H in Hs3; injection Hs3 as ->; rename Hs into Hs3; clear H).
  apply set_lease4_at in E as (s & H & Hs). rewrite H in Hs3. injection Hs3 as ->. eexists. split; [exact Hs|]. unfold given in *. cbn. split; [congruence|done].
Qed.

Lemma grown_copy_data x t : Keeps grown (copy_data x t).
Proof.
  assert (forall t' h, Keeps grown (modify4 (fun d => set_hash_by t' (h d) d))) by (intros [] h; by apply grown_modify).
  assert (forall t' l, Keeps grown (table_add t' l)) by (intros; apply frame_table_add; [apply _|intros; keeps|done]).
  assert (forall t' l, Keeps grown (table_delete t' l)) by (intros; apply frame_table_delete; [apply _|intros; keeps|done]). unfold copy_data. keeps.
Qed.

Lemma transition_binding x d s u d' : leases d !! x = Some s -> make_binding_state_transition x d = Some (u, d') -> exists s', leases d' !! x = Some s' /\ given s' = given s /\ l_binding_state s' = l_next_binding_state s.
Proof.
  intros Hs E. pose proof (calm_transition (R := same_of given) x _ _ _ E) as Hg. destruct (same_of_some _ _ _ _ _ Hg Hs) as (s' & Hs' & Eg). exists s'. split; [done|]. split; [done|]. clear Hg Eg.
  unfold make_binding_state_transition in E. step4 E. rename a into s0, Hm into Hs0. assert (s0 = s) as -> by congruence. do 2 (apply bind4_inv in E as (? & ? & _ & E)). cbv zeta in E.
  apply bind4_inv in E as (? & d1 & (s1 & _ & Hs1)%set_lease4_at & E). revert E. match goal with |- ?m _ = _ -> _ => assert (Keeps (same_of l_binding_state) m) as K by keeps end.
  intros E. specialize (K _ _ _ E). destruct (same_of_some _ _ _ _ _ K Hs1) as (s2 & Hs2 & E2). assert (s2 = s') as -> by congruence. by rewrite E2.
Qed.

Lemma enqueue_sorted x d s d' : leases d !! x = Some s -> lease_enqueue x d = Some (true, d') -> exists f s', leases d' !! x = Some s' /\ given s' = given s /\ l_binding_state s' = l_binding_state s /\ l_sort_time s' = sort_time_of f s.
Proof.
  intros Hs E. assert (same_of (fun s => (given s, l_binding_state s)) d d') as Hg by (revert E; assert (Keeps (same_of (fun s => (given s, l_binding_state s))) (lease_enqueue x)) as K by (unfold lease_enqueue, link_in; keeps); apply K).
  destruct (same_of_some _ _ _ _ _ Hg Hs) as (s' & Hs' & [= Eg1 Eg2 Eg3 Eg4 Eg5 Eb]). unfold lease_enqueue in E. step4 E. rename a into s0, Hm into Hs0. assert (s0 = s) as -> by congruence. destruct (l_pool s); [|done]. destruct (queue_of s); [|done].
  apply bind4_inv in E as (? & ? & _ & E). apply bind4_inv in E as (f & ? & _ & E). cbv zeta in E. exists f, s'. split; [done|]. split; [unfold given; congruence|]. split; [done|].
  apply bind4_inv in E as (? & d1 & (s1 & _ & Hs1)%set_lease4_at & E). revert E. match goal with |- ?m _ = _ -> _ => assert (Keeps (same_of l_sort_time) m) as K by (unfold link_in; keeps) end.
  intros E. specialize (K _ _ _ E). destruct (same_of_some _ _ _ _ _ K Hs1) as (s2 & Hs2 & E2). assert (s2 = s') as -> by congruence. by rewrite E2.
Qed.

Section Commit.
Context (io : nat -> bool) (random : nat -> Z) (cur_time : Z).

(** What an event says of the lease [x], if it writes it *)
Definition says (x : id) (P : lease -> Prop) (e : event) : Prop := match e with write_lease_ev y s _ => y = x -> P s | _ => True end.

(** The lease went to the lease file with what [P] says of it; the file was brought to the disk after that, if [sync]; and nothing else was written of the lease since. *)
Definition written (x : id) (P : lease -> Prop) (sync : bool) (tr : list event) : Prop :=
  exists t1 s t2, tr = t1 ++ write_lease_ev x s true :: t2 /\ P s /\ Forall (says x P) t2 /\ (sync = true -> commit_leases_ev true ∈ t2).

(** It happened between two states. *)
Definition recorded (x : id) (P : lease -> Prop) (d d' : srv) : Prop := exists tr, events d' = events d ++ tr /\ written x P (negb (ss_nosync d)) tr.

(** While a lease stays what it is, whatever is written of it says so. *)
Definition steady (x : id) (v : Z * Z * Z * option (list Z) * list Z * Z * Z) (d d' : srv) : Prop :=
  given_in <$> leases d !! x = Some v -> given_in <$> leases d' !! x = Some v /\ exists t, events d' = events d ++ t /\ Forall (says x (fun s => given_in s = v)) t.

#[export] Instance steady_pre x v : PreOrder (steady x v).
Proof.
  split; [intros d H; split; [done|]; exists []; by rewrite app_nil_r|]. intros d1 d2 d3 H1 H2 H. destruct (H1 H) as (V2 & t1 & E1 & F1). destruct (H2 V2) as (V3 & t2 & E2 & F2). split; [done|].
  exists (t1 ++ t2). split; [by rewrite E2, E1, app_assoc|by apply Forall_app].
Qed.

Lemma steady_same x v d d' : same_of given_in d d' -> events d' = events d -> steady x v d d'.
Proof. intros H E Hv. split; [by rewrite H|]. exists []. by rewrite app_nil_r. Qed.

Lemma steady_emit x v e : (forall l s ok, e <> write_lease_ev l s ok) -> Keeps (steady x v) (emit e).
Proof.
  intros He d u d' H. unfold emit, modify4 in H. injection H as _ <-. intros Hv. split; [done|]. exists [e]. split; [done|]. constructor; [|done]. destruct e; try done. by destruct (He l s ok).
Qed.
Lemma steady_set x v y f : (forall s, given_in (f s) = given_in s) -> Keeps (steady x v) (set_lease4 y f).
Proof. intros Hf d u d' E. apply steady_same; [by eapply (keeps_set_lease (R := same_of given_in)), E|]. by apply set_lease4_inv in E as (s & _ & ->). Qed.

Lemma steady_write x v y : Keeps (steady x v) (write_lease io y).
Proof.
  intros d b d' E Hv. destruct (leases d !! y) as [s|] eqn:Hs; [|unfold write_lease, lease_at, get4, follow, mbind, M4_bind in E; by rewrite Hs in E].
  rewrite (write_lease_eq _ _ _ _ Hs) in E. injection E as _ <-. split; [done|]. eexists. split; [reflexivity|]. constructor; [|done]. intros ->. rewrite Hs in Hv. by injection Hv.
Qed.
End Commit.

#[export] Instance steady_still x v : Still (steady x v).
Proof.
  assert (forall f, (forall d, leases (f d) = leases d) -> (forall d, events (f d) = events d) -> Keeps (steady x v) (modify4 f)) as Hm.
  { intros f H1 H2 d u d' H. unfold modify4 in H. injection H as _ <-. apply steady_same; [intros y; by rewrite H1|done]. }
  assert (forall f, Keeps (steady x v) (set_peer4 f)) by (intros f d u d' H; rewrite set_peer4_eq in H; injection H as _ <-; by apply steady_same). assert (forall io, Keeps (steady x v) (ask io)) by (intros io; unfold ask; keeps; by apply Hm).
  split; [apply _| | |done| |apply steady_emit|intros; apply steady_write| |].
  - intros y f Hf. apply steady_set. intros s. specialize (Hf s). unfold lease_view, client_view in Hf. unfold given_in, given. congruence.
  - intros q f d u d' (p & _ & ->)%set_pool4_inv. by apply steady_same.
  - intros f H1 _ _ H4. apply Hm; [done|]. intros d. specialize (H4 d). by injection H4.
  - intros io now y. pose proof (steady_write io x v). pose proof (steady_emit x v). open_ops. keeps; first [by apply steady_emit | by apply steady_set].
  - intros y. by apply steady_set.
Qed.
#[local] Hint Extern 1 (Keeps (steady _ _) _) => still_leaf : keeps.

Section Committed.
Context (io : nat -> bool) (random : nat -> Z) (cur_time : Z).

Lemma commit_leases_eq d : commit_leases io d = Some (io (outside d), set_events (events d ++ [commit_leases_ev (io (outside d))]) (set_outside (S (outside d)) d)).
Proof. done. Qed.

Lemma commit_written x b d s d' : leases d !! x = Some s -> commit_lease io x b d = Some (true, d') -> recorded x (fun s' => given_in s' = given_in s) d d'.
Proof.
  intros Hs E. unfold commit_lease in E. step4 E. apply bind4_inv in E as (f & d0 & Ef & E). assert (d = d0) as <- by (by apply (keeps_failover_peer eq _ _ _ _ Ef)). apply bind4_inv in E as (? & d1 & E1 & E).
  assert (grown d d1 /\ same_of given_in d d1) as [[[t1 Hg] Hn] Hv].
  { revert E1. match goal with |- ?m _ = _ -> _ => enough (forall R, Still R -> Keeps R m) as K by (intros E1; split; (eapply K; [apply _|exact E1])) end.
    intros R HR. destruct f; [apply keeps_when; [apply _|apply still_stepped]|apply keeps_ret; apply _]. }
  destruct (same_of_some _ _ _ _ _ Hv Hs) as (s1 & Hs1 & E1'). rewrite (bind4_eq _ _ _ _ _ (write_lease_eq io x d1 s1 Hs1)) in E. destruct (io (outside d1)); [|done]. cbn [negb] in E. rewrite get4_bind in E. cbn in E.
  unfold recorded. rewrite <- Hn. destruct (ss_nosync d1).
  - injection E as <-. exists (t1 ++ [write_lease_ev x s1 true]). split; [cbn; by rewrite Hg, app_assoc|]. exists t1, s1, []. by split_and!.
  - rewrite commit_leases_eq in E. injection E as Hok <-. cbn in Hok |- *. rewrite Hok. exists (t1 ++ [write_lease_ev x s1 true; commit_leases_ev true]). split; [by rewrite Hg, <- !app_assoc|].
    exists t1, s1, [commit_leases_ev true]. split_and!; [done|done|by repeat constructor|set_solver].
Qed.

(** What happens before does not matter, nor what happens after, as far as it says the same. *)
Lemma recorded_after x P d0 d d' : grown d0 d -> recorded x P d d' -> recorded x P d0 d'.
Proof.
  intros [[t Ht] Hn] (tr & E & t1 & s & t2 & -> & H). exists (t ++ t1 ++ write_lease_ev x s true :: t2). split; [by rewrite E, Ht, <- app_assoc|]. exists (t ++ t1), s, t2. rewrite <- Hn. split; [by rewrite app_assoc|done].
Qed.
Lemma recorded_before x P t d d' d1 : recorded x P d d' -> events d1 = events d' ++ t -> Forall (says x P) t -> recorded x P d d1.
Proof.
  intros (tr & E & t1 & s & t2 & -> & HP & Ht2 & Hc) E1 Ht. exists ((t1 ++ write_lease_ev x s true :: t2) ++ t). split; [by rewrite E1, E, <- app_assoc|]. exists t1, s, (t2 ++ t).
  split_and!; [by rewrite <- app_assoc|done|by apply Forall_app|]. intros Hs. apply elem_of_app. left. by apply Hc.
Qed.
Lemma recorded_weaken x (P Q : lease -> Prop) d d' : (forall s, P s -> Q s) -> recorded x P d d' -> recorded x Q d d'.
Proof.
  intros H (tr & E & t1 & s & t2 & Et & HP & Ht2 & Hc). exists tr. split; [done|]. exists t1, s, t2. split_and!; [done|by apply H| |done]. eapply Forall_impl; [exact Ht2|]. intros [] He; try done. intros Hy. by apply H, He.
Qed.
Lemma recorded_steady x v d d' d1 : given_in <$> leases d' !! x = Some v -> steady x v d' d1 -> recorded x (fun s => given_in s = v) d d' -> recorded x (fun s => given_in s = v) d d1.
Proof. intros Hv Hs Hr. destruct (Hs Hv) as (_ & t & Et & Ht). by eapply recorded_before. Qed.

(** The end of a move that is committed *)
Lemma finish_move_written x q p i d s d' : leases d !! x = Some s -> finish_move io cur_time x q true p i d = Some (true, d') ->
  recorded x (fun s' => given_in s' = given_in s) d d' /\ exists s', leases d' !! x = Some s' /\ given_in s' = given_in s.
Proof.
  intros Hs E. assert (same_of given_in d d') as Hv by (revert E; assert (Keeps (same_of given_in) (finish_move io cur_time x q true p i)) as K by (unfold finish_move; keeps); apply K).
  split; [|by eapply same_of_some]. clear Hv. unfold finish_move in E. apply bind4_inv in E as (? & d1 & E1 & E). apply bind4_inv in E as (ok & d2 & E2 & E). destruct ok; [|done].
  assert (same_of given_in d d1 /\ grown d d1) as [Hv Hg] by (revert E1; match goal with |- ?m _ = _ -> _ => enough (forall R, Still R -> Keeps R m) as K by (intros E1; split; (eapply K; [apply _|exact E1])) end;
    intros R HR; apply keeps_when; [apply _|by apply calm_next_event]).
  destruct (same_of_some _ _ _ _ _ Hv Hs) as (s1 & Hs1 & E1'). rewrite <- E1'. eapply recorded_after; [exact Hg|]. assert (same_of given_in d1 d2) as Hv2 by (revert E2; apply calm_commit_lease; apply _).
  eapply recorded_steady; [by rewrite (Hv2 x), Hs1| |by eapply commit_written]. revert E. cbn [negb]. match goal with |- ?m _ = _ -> _ => assert (Keeps (steady x (given_in s1)) m) as K by keeps end. apply K.
Qed.

Lemma move_written x q w p i d s d' : leases d !! x = Some s -> l_next_binding_state s = FTS_ACTIVE -> move_lease io cur_time x q w true p i d = Some (true, d') ->
  exists s', leases d' !! x = Some s' /\ given s' = given s /\ l_binding_state s' = FTS_ACTIVE /\ l_sort_time s' = l_ends s /\ recorded x (fun s1 => given_in s1 = given_in s') d d'.
Proof.
  intros Hs Hact E. unfold move_lease in E. apply bind4_inv in E as (? & d1 & E1 & E). apply bind4_inv in E as (? & d2 & E2 & E).
  assert (same_of (fun s => (given s, l_next_binding_state s)) d d2) as Hv.
  { trans d1; [revert E1|revert E2]; match goal with |- ?m _ = _ -> _ => enough (Keeps (same_of (fun s => (given s, l_next_binding_state s))) m) as K by apply K end; unfold take_off; keeps. }
  assert (grown d d2) as Hg2 by (trans d1; [revert E1|revert E2]; match goal with |- ?m _ = _ -> _ => enough (Keeps grown m) as K by apply K end; keeps).
  destruct (same_of_some _ _ _ _ _ Hv Hs) as (s2 & Hs2 & [= Eg1 Eg2 Eg3 Eg4 Eg5 En]). cbn [orb when4] in E. apply bind4_inv in E as (? & d3 & E3 & E). destruct (transition_binding _ _ _ _ _ Hs2 E3) as (s3 & Hs3 & Eg & Eb).
  apply bind4_inv in E as (ok & d4 & E4 & E). destruct ok; [|done]. destruct (enqueue_sorted _ _ _ _ Hs3 E4) as (f & s4 & Hs4 & Eg4' & Eb4 & Et4). cbn [negb] in E.
  change (finish_move io cur_time x q true p i d4 = Some (true, d')) in E. destruct (finish_move_written _ _ _ _ _ _ _ Hs4 E) as (Hw & s' & Hs' & Ev). exists s'. split; [done|].
  pose proof (f_equal (fun v => fst (fst v)) Ev) as Ev1. pose proof (f_equal (fun v => snd (fst v)) Ev) as Ev2. pose proof (f_equal snd Ev) as Ev3. cbn in Ev1, Ev2, Ev3. unfold given in *.
  split; [congruence|]. split; [congruence|]. split.
  - rewrite Ev3, Et4. unfold sort_time_of. rewrite Eb, En, Hact. destruct f; cbn; congruence.
  - eapply recorded_after; [|eapply recorded_weaken; [|exact Hw]; cbn; congruence]. trans d2; [done|]. trans d3; [revert E3|revert E4]; match goal with |- ?m _ = _ -> _ => enough (Keeps grown m) as K by apply K end; keeps.
Qed.

(** A lease that was made active and committed *)
Lemma supersede_written n x t p i d d' : flag t STATIC_LEASE = false -> l_next_binding_state t = FTS_ACTIVE -> cur_time <= l_ends t ->
  supersede_lease io random cur_time n x (Some t) true p i d = Some (true, d') ->
  exists s, leases d' !! x = Some s /\ given s = given t /\ l_binding_state s = FTS_ACTIVE /\ recorded x (fun s1 => given s1 = given t /\ l_binding_state s1 = FTS_ACTIVE) d d'.
Proof.
  intros Hst Hact Hends E. destruct n as [|n]; [done|]. cbn [supersede_lease] in E. rewrite andb_false_r, Hst in E. apply bind4_inv in E as (? & d1 & E1 & E). destruct (copy_data_given _ _ _ _ _ E1) as (s1 & Hs1 & Eg1 & En1).
  apply bind4_inv in E as (? & d2 & E2 & E). assert (same_of (fun s => (given s, l_next_binding_state s)) d1 d2 /\ grown d1 d2) as [Hv2 Hg2].
  { split; revert E2; match goal with |- ?m _ = _ -> ?R _ _ => enough (Keeps R m) as K by apply K end; keeps. }
  destruct (same_of_some _ _ _ _ _ Hv2 Hs1) as (s2 & Hs2 & E2'). pose proof (f_equal fst E2') as Eg2. pose proof (f_equal snd E2') as En2. cbn [fst snd] in Eg2, En2. step4 E. rename a into s2', Hm into Hs2'. assert (s2' = s2) as -> by congruence.
  destruct (l_pool s2) as [q|]; [|done]. destruct (queue_of s2) as [w|]; [|done]. apply bind4_inv in E as (ok & d3 & E3 & E). destruct ok; [|done].
  destruct (move_written _ _ _ _ _ _ _ _ Hs2 ltac:(congruence) E3) as (s3 & Hs3 & Eg3 & Eb3 & Et3 & Hw). cbn [negb] in E. step4 E. apply bind4_inv in E as (? & d4 & E4 & E).
  assert (same_of given_in d3 d4 /\ steady x (given_in s3) d3 d4) as [Hv4 Hg4] by (split; revert E4; match goal with |- ?m _ = _ -> ?R _ _ => enough (Keeps R m) as K by apply K end; keeps).
  destruct (same_of_some _ _ _ _ _ Hv4 Hs3) as (s4 & Hs4 & Ev4). step4 E. rename a0 into s4', Hm0 into Hs4'. assert (s4' = s4) as -> by congruence.
  assert (Hends' : l_ends s2 = l_ends t) by (unfold given in *; congruence).
  pose proof (f_equal (fun v => fst (fst v)) Ev4) as Ev1. pose proof (f_equal (fun v => snd (fst v)) Ev4) as Ev2. pose proof (f_equal snd Ev4) as Ev3. cbn in Ev1, Ev2, Ev3.
  rewrite Ev3, Et3, Hends' in E. destruct (Z.ltb_spec (l_ends t) cur_time); [lia|]. rewrite andb_false_r in E. injection E as <-. exists s4. split; [done|]. split; [congruence|]. split; [congruence|].
  eapply recorded_after; [trans d1; [by eapply grown_copy_data|done]|]. eapply recorded_weaken; [|eapply (recorded_steady x (given_in s3)); [by rewrite Hs3|exact Hg4|exact Hw]]. cbn. intros s5 E5.
  pose proof (f_equal (fun v => fst (fst v)) E5) as E51. pose proof (f_equal (fun v => snd (fst v)) E5) as E52. cbn in E51, E52. split; congruence.
Qed.

End Committed.

(** ** A server that stays ready *)

(** The table by address, and what never changes of the failover relationship *)
Definition same_addresses (d d' : srv) : Prop := lease_ip_addr_hash d' = lease_ip_addr_hash d /\ peer_view (peer d') = peer_view (peer d).

#[export] Instance same_addresses_pre : PreOrder same_addresses.
Proof. unfold same_addresses. split; [done|]. intros d1 d2 d3 [H1 H2] [H3 H4]. split; congruence. Qed.

Lemma addresses_lease x f : Keeps same_addresses (set_lease4 x f).
Proof. by intros d u d' (s & _ & ->)%set_lease4_inv. Qed.
Lemma addresses_modify f : (forall d, lease_ip_addr_hash (f d) = lease_ip_addr_hash d) -> (forall d, peer (f d) = peer d) -> Keeps same_addresses (modify4 f).
Proof. intros Hf Hp d u d' H. unfold modify4 in H. injection H as _ <-. split; [apply Hf|by rewrite Hp]. Qed.
Lemma addresses_peer f : (forall g, peer_view (f g) = peer_view g) -> Keeps same_addresses (set_peer4 f).
Proof. intros Hf d u d' H. rewrite set_peer4_eq in H. injection H as _ <-. split; [done|apply Hf]. Qed.
#[local] Hint Resolve addresses_lease : keeps.
#[local] Hint Extern 0 (Keeps same_addresses (modify4 _)) => (apply addresses_modify; intros; reflexivity) : keeps.
#[local] Hint Extern 0 (Keeps same_addresses (set_peer4 _)) => (apply addresses_peer; intros; reflexivity) : keeps.

#[export] Instance same_addresses_calm : Calm same_addresses.
Proof.
  assert (forall e, Keeps same_addresses (emit e)) by (intros; unfold emit; keeps). assert (forall io x, Keeps same_addresses (write_lease io x)) by (intros; unfold write_lease, ask; keeps). split; [split|intros; keeps| |intros; keeps]; try (intros; keeps; fail).
  - apply _.
  - by intros q f d u d' (p & _ & ->)%set_pool4_inv.
  - intros f. apply addresses_peer.
  - intros f _ Ht Hp _. apply addresses_modify; [|done]. intros d. specialize (Ht d). unfold tables in Ht. by injection Ht.
  - intros io now x. open_ops. unfold ask. keeps.
  - intros x. unfold make_binding_state_transition. keeps.
Qed.
#[local] Hint Extern 1 (Keeps same_addresses _) => calm_leaf : keeps.

Lemma addresses_copy_data x t : Keeps same_addresses (copy_data x t).
Proof.
  assert (forall t' h, Keeps same_addresses (modify4 (fun d => set_hash_by t' (h d) d))) by (intros [] h; by apply addresses_modify).
  assert (forall t' l, Keeps same_addresses (table_add t' l)) by (intros; apply frame_table_add; [apply _|intros; keeps|done]).
  assert (forall t' l, Keeps same_addresses (table_delete t' l)) by (intros; apply frame_table_delete; [apply _|intros; keeps|done]). unfold copy_data. keeps.
Qed.

(** No lease of the database is one that was made up. *)
Definition no_static (d : srv) : Prop := forall x s, leases d !! x = Some s -> flag s STATIC_LEASE = false.

Lemma static_kept d d' : same_of static d d' -> inv_rel no_static d d'.
Proof. intros H Hd x s Hs. destruct (same_of_back _ _ _ _ _ H Hs) as (s0 & Hs0 & E). unfold static in E. rewrite E. by eapply Hd. Qed.

Lemma static_keeps x f : (forall s, flag s STATIC_LEASE = false -> flag (f s) STATIC_LEASE = false) -> Keeps (inv_rel no_static) (set_lease4 x f).
Proof. intros Hf d u d' (s & Hs & ->)%set_lease4_inv Hd y sy. rewrite lookup_upd_lease. case_decide; [|apply Hd]. intros [= <-]. by eapply Hf, Hd. Qed.

Lemma copied_static t s : Z.land (l_flags t) STATIC_LEASE = 0 -> Z.land (l_flags s) STATIC_LEASE = 0 ->
  Z.land (Z.lor (Z.ldiff (l_flags t) PERSISTENT_FLAGS) (Z.ldiff (l_flags s) EPHEMERAL_FLAGS)) STATIC_LEASE = 0.
Proof.
  intros H1 H2. apply Z.bits_inj'. intros n Hn. rewrite Z.bits_0. pose proof (f_equal (fun v => Z.testbit v n) H1) as B1. pose proof (f_equal (fun v => Z.testbit v n) H2) as B2. cbv beta in B1, B2.
  rewrite Z.bits_0, Z.land_spec in B1, B2. rewrite Z.land_spec, Z.lor_spec, !Z.ldiff_spec. destruct (Z.testbit (l_flags t) n), (Z.testbit (l_flags s) n), (Z.testbit STATIC_LEASE n); cbn in *; try done; apply andb_false_r.
Qed.

Lemma static_copy_data x t : flag t STATIC_LEASE = false -> Keeps (inv_rel no_static) (copy_data x t).
Proof.
  intros Ht. assert (forall x f, (forall s, flag (f s) STATIC_LEASE = flag s STATIC_LEASE) -> Keeps (inv_rel no_static) (set_lease4 x f)) as Hset by (intros y f Hf; apply static_keeps; intros s; by rewrite Hf).
  assert (forall t' l v, Keeps (inv_rel no_static) (set_lease4 l (set_n t' v))) by (intros [] l v; by apply Hset).
  assert (forall t' h, Keeps (inv_rel no_static) (modify4 (fun d => set_hash_by t' (h d) d))) by (intros [] h d u d' E Hd; unfold modify4 in E; by injection E as _ <-).
  assert (forall t' l, Keeps (inv_rel no_static) (table_add t' l)) by (intros; apply frame_table_add; [apply _|done|done]).
  assert (forall t' l, Keeps (inv_rel no_static) (table_delete t' l)) by (intros; apply frame_table_delete; [apply _|done|done]).
  unfold copy_data. keeps; try by apply Hset. apply static_keeps. intros s' Hs'. unfold flag in *. cbn. apply negb_false_iff, Z.eqb_eq in Ht, Hs'. apply negb_false_iff, Z.eqb_eq. by apply copied_static.
Qed.

Lemma static_sub {A} (m : M4 A) : Keeps (same_of static) m -> Keeps (inv_rel no_static) m.
Proof. apply keeps_sub, static_kept. Qed.

#[export] Instance no_static_calm : Calm (inv_rel no_static).
Proof.
  split; [split|..]; [apply _|..]; intros; apply static_sub; first [by apply still_set_lease | by apply still_set_pool | by apply still_set_peer | by apply still_modify | by apply still_emit | apply still_write_lease | apply still_send_bind_update
    | apply still_stepped | apply calm_sort_time | apply calm_transition | apply calm_rewound]; apply _.
Qed.

(** With new data *)
Lemma calm_supersede_data R `{!Calm R} io random now n x t c p i : (flag t STATIC_LEASE = false -> Keeps R (copy_data x t)) -> Keeps R (supersede_lease io random now n x (Some t) c p i).
Proof.
  intros Hc d b d' E. destruct n as [|n]; [done|]. pose proof (proj1 (calm_supersede R io random now (S n)) x c p i) as Hs. cbn [supersede_lease] in E, Hs. destruct (i && negb c); [by injection E as _ <-|].
  destruct (flag t STATIC_LEASE) eqn:Ht; [by injection E as _ <-|]. apply bind4_inv in E as (? & d1 & E1 & E). transitivity d1; [by eapply Hc|by eapply Hs].
Qed.

Lemma fit_copy_data x t : known_state (l_next_binding_state t) -> Keeps (inv_rel all_fit) (copy_data x t).
Proof.
  intros Ht. assert (forall x f, (forall s, fit (f s) = fit s) -> Keeps (inv_rel all_fit) (set_lease4 x f)) as Hset by (intros y f Hf; apply fit_keeps; intros s; by rewrite Hf).
  assert (forall t' l v, Keeps (inv_rel all_fit) (set_lease4 l (set_n t' v))) by (intros [] l v; by apply Hset).
  assert (forall t' h, Keeps (inv_rel all_fit) (modify4 (fun d => set_hash_by t' (h d) d))) by (intros [] h; by apply fit_modify).
  assert (forall t' l, Keeps (inv_rel all_fit) (table_add t' l)) by (intros; apply frame_table_add; [apply _|done|done]).
  assert (forall t' l, Keeps (inv_rel all_fit) (table_delete t' l)) by (intros; apply frame_table_delete; [apply _|done|done]).
  unfold copy_data. keeps; first [by apply Hset | apply fit_keeps; intros s' (F1 & F2 & F3 & F4); by split_and!].
Qed.

Lemma fit_supersede_data io random now n x t c p i : known_state (l_next_binding_state t) -> Keeps (inv_rel all_fit) (supersede_lease io random now n x (Some t) c p i).
Proof. intros Ht. apply calm_supersede_data; [apply _|intros _; by apply fit_copy_data]. Qed.
Lemma fit_abandon io random now n l : Keeps (inv_rel all_fit) (abandon_lease io random now n l).
Proof.
  unfold abandon_lease. apply keeps_bind; [apply _|apply fit_emit|intros _]. apply keeps_bind; [apply _|keeps|intros s]. apply keeps_bind; [apply _|by apply fit_supersede_data|intros; keeps].
Qed.
Lemma addresses_release io random now n l : Keeps same_addresses (release_lease io random now n l).
Proof. pose proof (proj1 (calm_supersede same_addresses io random now n)). unfold release_lease. keeps. Qed.
Lemma addresses_supersede_data io random now n x t c p i : Keeps same_addresses (supersede_lease io random now n x (Some t) c p i).
Proof. apply calm_supersede_data; [apply _|intros _; apply addresses_copy_data]. Qed.
Lemma addresses_abandon io random now n l : Keeps same_addresses (abandon_lease io random now n l).
Proof. pose proof (addresses_supersede_data io random now n). unfold abandon_lease. keeps. Qed.

Section Ready.
Context (io : nat -> bool) (random : nat -> Z) (cur_time : Z) (fuel : nat) (cf : site).

(** What an operation has to keep for the server to stay ready *)
Record stays (d d' : srv) : Prop := {
  st_ok : inv_rel ok4 d d'; st_fit : inv_rel all_fit d d'; st_tables : inv_rel tables_good d d'; st_mode : same_mode d d'; st_addresses : same_addresses d d';
  st_static : inv_rel no_static d d'
}.

#[export] Instance stays_pre : PreOrder stays.
Proof. split; [by split|]. intros d1 d2 d3 [A1 A2 A3 A4 A5 A6] [B1 B2 B3 B4 B5 B6]. split; etrans; eauto. Qed.

Lemma stays_ready d d' : stays d d' -> ready cf fuel d -> ready cf fuel d'.
Proof.
  intros [H1 H2 H3 [_ H4] [H5 _] _] [R1 R2 R3 R4 R5 R6 R7 R8]. split; auto.
  - rewrite H5. intros a x E. apply H4. by eapply R4.
  - intros n net q En Hq. apply H4. by eapply R7.
  - by rewrite (same_dom_size _ _ H4).
Qed.

Lemma stays_release l : Keeps stays (release_lease io random cur_time fuel l).
Proof.
  intros d u d' E. split; [by eapply ok4_release|by eapply fit_release|by eapply tables_release|by eapply release_dom|by eapply addresses_release|].
  eapply static_kept, static_release, E.
Qed.
Lemma stays_supersede x t c p i : known_state (l_next_binding_state t) -> Keeps stays (supersede_lease io random cur_time fuel x (Some t) c p i).
Proof.
  intros Ht d u d' E. split; [by eapply ok4_supersede|by eapply fit_supersede_data|by eapply tables_supersede_lease|by eapply m_supersede'|by eapply addresses_supersede_data|].
  eapply (calm_supersede_data (inv_rel no_static)); [apply static_copy_data|exact E].
Qed.
Lemma stays_abandon l : Keeps stays (abandon_lease io random cur_time fuel l).
Proof.
  intros d u d' E. split; [by eapply ok4_abandon|by eapply fit_abandon|by eapply tables_abandon| |by eapply addresses_abandon|].
  2: { revert E. match goal with |- ?m _ = _ -> ?R _ _ => enough (Keeps R m) as K by apply K end. unfold abandon_lease. apply keeps_bind; [apply _|by apply still_emit|intros _]. apply keeps_bind; [apply _|keeps|intros s].
    apply keeps_bind; [apply _|apply calm_supersede_data; [apply _|apply static_copy_data]|intros; keeps]. }
  revert E. match goal with |- ?m _ = _ -> ?R _ _ => enough (Keeps R m) as K by apply K end. pose proof (fun e => m_emit e). pose proof (m_supersede' io random cur_time fuel). unfold abandon_lease. keeps.
Qed.

(** A change of one lease that no list, queue or table sees *)
Lemma stays_set x f :
  (forall s, lview (f s) = lview s /\ queue_of (f s) = queue_of s /\ qview (f s) = qview s /\ client_view (f s) = client_view s /\ fit (f s) = fit s /\ flag (f s) STATIC_LEASE = flag s STATIC_LEASE) -> Keeps stays (set_lease4 x f).
Proof.
  intros Hf d u d' E. pose proof E as (s & Hs & ->)%set_lease4_inv. destruct (Hf s) as (H1 & H2 & H3 & H4 & H5 & H6). split.
  - eapply (all_ok4 (set_lease4 x f)); [|exact E]. apply keeps_set_lease. intros s'. destruct (Hf s') as (? & ? & ? & _). done.
  - eapply fit_keeps; [|exact E]. intros s'. destruct (Hf s') as (_ & _ & _ & _ & -> & _). done.
  - eapply (keeps_tables (set_lease4 x f)); [|exact E]. apply sc_set_lease. intros s'. by destruct (Hf s') as (_ & _ & _ & ? & _).
  - split; [done|]. by eapply same_dom_lease.
  - done.
  - eapply static_keeps; [|exact E]. intros s'. by destruct (Hf s') as (_ & _ & _ & _ & _ & ->).
Qed.

Lemma stays_dhcp4 p : Keeps stays (dhcp4 io random cur_time fuel cf p).
Proof. apply keeps_dhcp4; [apply _|apply stays_release|apply stays_abandon|]. intros x. by apply stays_set. Qed.


Lemma stays_null x b : Keeps stays (set_lease4 x (null_flag b)).
Proof.
  apply stays_set. intros s. assert (forall c, Z.land MS_NULL_TERMINATION c = 0 -> flag (null_flag b s) c = flag s c) as Hf by (intros c Hc; destruct b; [by apply flag_set_other|by apply flag_clear_other]).
  assert (forall {A} (g : lease -> A), (forall v, g (set_l_flags v s) = g s) -> g (null_flag b s) = g s) as Hg by (intros A g H; destruct b; apply H).
  split_and!; [by apply Hg| | |by apply Hg|by apply Hg|by apply Hf].
  - apply queue_of_flags; [by apply Hg|by apply Hf].
  - unfold qview. rewrite !Hf by done. by rewrite (Hg _ l_next_pending).
Qed.

(** New data for a lease that stays reserved or not reserved *)
Lemma supersede_data_runs d x s t c p i : ready cf fuel d -> leases d !! x = Some s -> flag t RESERVED_LEASE = flag s RESERVED_LEASE -> c || negb i = true -> runs (supersede_lease io random cur_time fuel x (Some t) c p i) d.
Proof.
  intros [Hok _ Htab _ _ _ _ Hfuel] Hs Hr Hc. destruct (copy_data_ok x t d s Htab Hs) as (d2 & E2 & _). assert (Hd2 : carried d x d2).
  { destruct (m_copy_data x t _ _ _ E2) as [_ Hdom]. split; [by eapply (copy_back_ok4 x s t)|]. split; [done|]. apply Hdom. by exists s. }
  destruct (supersede_runs io random cur_time fuel d Hfuel d2 x c p i Hd2 Hc) as (b & d3 & E3). destruct fuel as [|n]; [done|]. cbn [supersede_lease] in E3 |- *.
  destruct (i && negb c); [by eexists _, _|]. destruct (flag t STATIC_LEASE); [apply returns_ret|]. exists b, d3. by rewrite (bind4_eq _ _ _ _ _ E2).
Qed.

End Ready.
