(* ===== verification/V4AckClaims.v ===== *)
(** * What the answers of the DHCPv4 server promise

    The theorems about [ack_lease] and what comes after it, with examples. *)

From stdpp Require Import gmap relations.
From S2P Require Import Prelude BindingStates FailoverLeases V4State V4Queues V4Leases V4Machine V4Handlers V4Chain V4Laws V4Frames V4Lists V4Pending V4Sending V4System V4Tables V4Service V4Timers V4Claims V4Serve V4ServeProofs V4Allocate V4ServeClaims V4Answers V4Ack V4AckProofs.

#[local] Open Scope Z_scope.

Section Answers.
Context (io : nat -> bool) (random : nat -> Z) (cur_time : Z) (fuel : nat) (cf : site) (itf : interface).

(** ** Times *)

(** The values of options are octets. *)
Definition values_ok (o : gmap Z (list Z)) : Prop := forall code data, o !! code = Some data -> bytes_ok data.

Lemma ulong_nonneg v o : 0 <= v -> (forall data, o = Some data -> bytes_ok data) -> 0 <= ulong_or v o.
Proof.
  intros Hv Ho. unfold ulong_or, getULong. destruct o as [data|]; [|done]. case_match; [|done]. apply le_val_range. apply Forall_reverse. by apply Ho.
Qed.

Lemma max_nonneg tm : values_ok (value_of (t_server tm)) -> 0 <= max_lease_time tm.
Proof. intros H. apply ulong_nonneg; [done|]. intros data. apply H. Qed.
Lemma min_nonneg tm : values_ok (value_of (t_server tm)) -> 0 <= min_lease_time tm.
Proof. intros H. apply ulong_nonneg; [pose proof (max_nonneg tm H); by case_match|]. intros data. apply H. Qed.

Lemma adaptive_bounds tm s m t d t' d' : 0 <= m -> 0 <= t -> adaptive_time cur_time tm s m t d = Some (t', d') -> d' = d /\ 0 <= t' <= t.
Proof.
  intros Hm Ht E. assert (d = d') as <- by (assert (Keeps eq (adaptive_time cur_time tm s m t)) as K by (unfold adaptive_time, divide; keeps); by apply (K _ _ _ E)). split; [done|].
  unfold adaptive_time in E. destruct (l_pool s) as [q|]; [|by injection E as <-]. destruct (_ !! _) as [[|b [|]]|]; try by injection E as <-. destruct (_ && _); [|by injection E as <-].
  step4 E. apply bind4_inv in E as (fill & d1 & _ & E). injection E as <- _. destruct (_ && _) eqn:Hlt; [|by split; [|apply Z.le_refl]]. apply andb_true_iff in Hlt as [_ Hlt%Z.ltb_lt]. split; [|by apply Z.lt_le_incl]. clear -Hm.
  set (a := if m =? 0 then DEFAULT_MIN_LEASE_TIME else m). assert (0 <= a) by (unfold a, DEFAULT_MIN_LEASE_TIME; destruct (Z.eqb_spec m 0); lia). destruct (Z.ltb_spec a (l_ends s - cur_time)); lia.
Qed.

Lemma dates_bounds tm s t t' : 0 <= t -> pool_dates cur_time tm s t = Some t' -> 0 <= t' <= t.
Proof.
  intros Ht. unfold pool_dates. destruct (l_pool s); [|intros [= <-]; lia]. destruct (_ && _); [done|]. destruct (negb _); [|intros [= <-]; lia].
  destruct (Z.leb_spec (t_valid_until tm) cur_time); [done|]. intros [= <-]. destruct (Z.ltb_spec (t_valid_until tm - cur_time) t); lia.
Qed.

Lemma duration_bounds p tm s d t d' : values_ok (value_of (t_server tm)) -> values_ok (cp_options p) -> duration cur_time p tm s d = Some (Some t, d') ->
  d' = d /\ min_lease_time tm <= t <= Z.max (min_lease_time tm) (max_lease_time tm).
Proof.
  intros Hv Hp E. pose proof (max_nonneg tm Hv) as H1. pose proof (min_nonneg tm Hv) as H2. unfold duration in E. apply bind4_inv in E as (t1 & d1 & E1 & E).
  apply adaptive_bounds in E1 as [-> Ht1]; [|done|]; cycle 1.
  { destruct (_ || _) eqn:Hc; [done|]. apply orb_false_iff in Hc as [Hc%Z.ltb_ge _]. lia. }
  assert (Hle : t1 <= max_lease_time tm).
  { destruct (_ || _) eqn:Hc in Ht1; [lia|]. apply orb_false_iff in Hc as [_ Hc%Z.ltb_ge]. lia. }
  destruct (pool_dates cur_time tm s t1) as [t2|] eqn:Hd; [|done]. apply dates_bounds in Hd; [|lia]. injection E as <- <-. split; [done|].
  destruct (Z.ltb_spec t2 (min_lease_time tm)), (Z.eqb_spec (min_lease_time tm) 0); lia.
Qed.

(** What [dhcp_terms] gives *)
Lemma dhcp_terms_inv p offer when tm s lt d lt' e d' : dhcp_terms cur_time p offer when tm s lt d = Some (Some (lt', e), d') ->
  exists t f lt0, d' = d /\ duration cur_time p tm s d = Some (Some t, d) /\ failover_peer s d = Some (f, d) /\
  (l_starts lt0, flag lt0 STATIC_LEASE) = (l_starts lt, flag lt STATIC_LEASE) /\
  let r := match f with Some f => failover_time cur_time f offer s lt0 t | None => (t, lt0) end in
  e = (if cur_time + fst r <? cur_time then MAX_TIME4 - 1 else cur_time + fst r) /\
  lt' = set_l_next_binding_state (if offer =? DHCPACK4 then FTS_ACTIVE else l_binding_state s) (set_l_ends (if when =? 0 then e else when) (snd r)).
Proof.
  intros E. unfold dhcp_terms in E. cbv zeta in E. apply bind4_inv in E as (t & d1 & Et & E). assert (d = d1) as <-.
  { assert (Keeps eq (duration cur_time p tm s)) as K by (unfold duration, adaptive_time, divide; keeps). by apply (K _ _ _ Et). }
  destruct t as [t|]; [|done]. apply bind4_inv in E as (f & d1 & Ef & E). assert (d = d1) as <- by (by apply (keeps_failover_peer eq _ _ _ _ Ef)).
  match type of E with context [failover_time _ _ _ _ ?l _] => set (lt0 := l) in * end. exists t, f, lt0.
  destruct (match f with Some f => failover_time cur_time f offer s lt0 t | None => (t, lt0) end) as [t' lt1] eqn:Er. injection E as <- <- <-. split; [done|]. split; [done|]. split; [done|]. split; [|done].
  unfold lt0. assert (forall l, (l_starts l, flag l STATIC_LEASE) = (l_starts (set_flag RESERVED_LEASE l), flag (set_flag RESERVED_LEASE l) STATIC_LEASE)) as Hr by (intros l; by rewrite flag_set_other).
  assert ((l_starts (clear_flag BOOTP_LEASE lt), flag (clear_flag BOOTP_LEASE lt) STATIC_LEASE) = (l_starts lt, flag lt STATIC_LEASE)) as <- by (by rewrite flag_clear_other).
  destruct (_ !! _); [|done]. destruct (_ && _); [by rewrite <- Hr|done].
Qed.


(** The time with a partner *)
Lemma mclt_time f offer s lt t : 0 <= t -> 0 <= f_mclt f -> let r := failover_time cur_time f offer s lt t in
  0 <= fst r <= t /\ cur_time + fst r <= Z.max cur_time (l_tsfp s) + f_mclt f /\
  (offer = DHCPACK4 -> cur_time + fst r <= l_tstp (snd r) /\ l_tsfp (snd r) = Z.min (l_tsfp s) (l_tstp (snd r))).
Proof.
  intros Ht Hm. unfold failover_time. cbv zeta. cbn [fst snd l_tsfp set_l_tsfp set_l_atsfp].
  match goal with |- context [Z.quot ?n 2] => set (new := n) end. assert (Hnew : 0 <= new <= t /\ cur_time + new <= Z.max cur_time (l_tsfp s) + f_mclt f).
  { unfold new. destruct (Z.ltb_spec (f_mclt f) t); [|lia]. destruct (Z.leb_spec (l_tsfp s) cur_time); [lia|]. destruct (Z.ltb_spec (l_tsfp s + f_mclt f) (cur_time + t)); lia. }
  split; [lia|]. split; [lia|]. intros ->. rewrite Z.eqb_refl. assert (0 <= Z.quot new 2) by (apply Z.quot_pos; lia).
  cbn [l_tstp l_tsfp set_l_tstp set_l_tsfp set_l_atsfp]. destruct (Z.ltb_spec (cur_time + t + Z.quot new 2) (l_tsfp s)); cbn; lia.
Qed.

(** C17: how long a client gets a lease.  The time that [ack_lease] computes lies between the configured minimum and maximum, whatever the client asks for.  If the pool has a failover partner, the
    client's lease ends no later than the maximum client lead time (MCLT) after the time the partner has acknowledged, or after now; and what the partner is told with an ACK is no earlier than the end of the client's lease. *)
Theorem lease_time_bounds p offer when tm s lt d lt' e d' :
  values_ok (value_of (t_server tm)) -> values_ok (cp_options p) -> dhcp_terms cur_time p offer when tm s lt d = Some (Some (lt', e), d') ->
  d' = d /\ exists t f, failover_peer s d = Some (f, d) /\ min_lease_time tm <= t <= Z.max (min_lease_time tm) (max_lease_time tm) /\
  match f with
  | None => e = cur_time + t
  | Some f => 0 <= f_mclt f -> cur_time <= e <= cur_time + t /\ e <= Z.max cur_time (l_tsfp s) + f_mclt f /\
      (offer = DHCPACK4 -> e <= l_tstp lt' /\ l_tsfp lt' = Z.min (l_tsfp s) (l_tstp lt'))
  end.
Proof.
  intros Hv Hp E. pose proof (min_nonneg tm Hv) as Hmin. apply dhcp_terms_inv in E as (t & f & lt0 & -> & Ht & Hf & _ & He & ->). destruct (duration_bounds _ _ _ _ _ _ Hv Hp Ht) as [_ Hb].
  split; [done|]. exists t, f. split; [done|]. split; [done|]. destruct f as [f|]; cbn [fst snd] in He; [|destruct (Z.ltb_spec (cur_time + t) cur_time); lia]. intros Hm.
  destruct (mclt_time f offer s lt0 t) as (H1 & H2 & H3); [lia|done|]. revert He H1 H2 H3. destruct (failover_time cur_time f offer s lt0 t) as [t' lt1]. cbn [fst snd]. intros He H1 H2 H3.
  destruct (Z.ltb_spec (cur_time + t') cur_time); [lia|]. subst e. split; [lia|]. split; [lia|]. intros Ho. destruct (H3 Ho) as [H4 H5]. cbn [l_tstp l_tsfp set_l_next_binding_state set_l_ends]. split; [lia|done].
Qed.

(** ** Options of the answer *)

Lemma if_missing_other code v o c : c <> code -> if_missing code v o !! c = o !! c.
Proof. intros H. unfold if_missing. destruct (o !! code), v; try done. by rewrite lookup_insert_ne. Qed.
Lemma if_missing_there code v o : is_Some (if_missing code (Some v) o !! code).
Proof. unfold if_missing. destruct (o !! code) as [w|] eqn:E; [by exists w|]. rewrite lookup_insert_eq. by eexists. Qed.

(** A time in an option *)
Definition time_in (o : gmap Z (list Z)) (code t : Z) : Prop := exists data, o !! code = Some data /\ getULong (take 4 data) = t.

Lemma time_same o o' code t : o' !! code = o !! code -> time_in o' code t -> time_in o code t.
Proof. intros E (data & H & Ht). exists data. by rewrite <- E. Qed.

Lemma bounded_time_inv code limit o d o' l d' : bounded_time code limit o d = Some ((o', l), d') ->
  d' = d /\ l <= limit /\ (forall c, c <> code -> o' !! c = o !! c) /\ (forall t, time_in o' code t -> t = l /\ t < limit).
Proof.
  unfold bounded_time. destruct (o !! code) as [data|] eqn:Hc.
  - destruct (_ <? _)%nat; [done|]. destruct (Z.leb_spec limit (getULong (take 4 data))); intros [= <- <- <-].
    + split; [done|]. split; [done|]. split; [intros c Hn; by rewrite lookup_delete_ne|]. intros t (data' & E & _). by rewrite lookup_delete_eq in E.
    + split; [done|]. split; [lia|]. split; [done|]. intros t (data' & E & Ht). rewrite Hc in E. injection E as <-. lia.
  - intros [= <- <- <-]. split; [done|]. split; [done|]. split; [done|]. intros t (data' & E & _). congruence.
Qed.

(** What [ack_lease] adds at the end *)
Definition extras (h : handout) (tm : terms) (o : gmap Z (list Z)) : gmap Z (list Z) :=
  let o := if_missing DHO_SUBNET_MASK (Some (t_netmask tm)) o in
  let o := if set_and_true (t_server tm) SV_USE_HOST_DECL_NAMES then if_missing DHO_HOST_NAME (t_host_name tm) o else o in
  let o := if set_and_true (t_server tm) SV_GET_LEASE_HOSTNAMES then if_missing DHO_HOST_NAME ((fun n => n ++ [0]) <$> t_resolved tm) o else o in
  if set_and_true (t_server tm) SV_USE_LEASE_ADDR_FOR_DEFAULT_ROUTE then if_missing DHO_ROUTERS (Some (putULong (address_of cf h))) o else o.

Lemma extras_other h tm o c : c <> DHO_SUBNET_MASK -> c <> DHO_HOST_NAME -> c <> DHO_ROUTERS -> extras h tm o !! c = o !! c.
Proof. intros H1 H2 H3. unfold extras. cbv zeta. repeat case_match; by rewrite ?if_missing_other. Qed.
Lemma extras_mask h tm o : is_Some (extras h tm o !! DHO_SUBNET_MASK).
Proof.
  pose proof (if_missing_there DHO_SUBNET_MASK (t_netmask tm) o) as H. unfold extras. cbv zeta. repeat case_match; rewrite ?(if_missing_other DHO_ROUTERS), ?(if_missing_other DHO_HOST_NAME) by done; done.
Qed.

Lemma server_address o c : c <> DHO_DHCP_SERVER_IDENTIFIER -> snd (get_server_source_address itf o) !! c = o !! c.
Proof. intros H. unfold get_server_source_address. repeat case_match; cbn; by rewrite ?lookup_insert_ne. Qed.
Lemma server_identified o : if_addresses itf <> [] -> is_Some (snd (get_server_source_address itf o) !! DHO_DHCP_SERVER_IDENTIFIER).
Proof.
  intros H. unfold get_server_source_address. destruct (o !! DHO_DHCP_SERVER_IDENTIFIER) as [data|] eqn:Ho, (if_addresses itf); try done; [case_match|]; cbn; rewrite ?lookup_insert_eq, ?Ho; by eexists.
Qed.

(** The options of an OFFER or an ACK: it says what it is and how long the lease is, it names the server if the interface has an address, and it has a subnet mask; a time to rebind comes before the end of
    the lease, and a time to renew before both.  A configured time that does not is left out. *)
Lemma reply_options_inv p h offer e tm d from o d' : offer <> 0 -> reply_options cur_time cf itf p h offer e tm d = Some ((from, o), d') ->
  d' = d /\ o !! DHO_DHCP_MESSAGE_TYPE = Some [offer] /\ o !! DHO_DHCP_LEASE_TIME = Some (putULong (e - cur_time)) /\ is_Some (o !! DHO_SUBNET_MASK) /\
  (if_addresses itf <> [] -> is_Some (o !! DHO_DHCP_SERVER_IDENTIFIER)) /\
  (forall t, time_in o DHO_DHCP_REBINDING_TIME t -> t < e - cur_time) /\
  (forall t, time_in o DHO_DHCP_RENEWAL_TIME t -> t < e - cur_time /\ forall t', time_in o DHO_DHCP_REBINDING_TIME t' -> t < t').
Proof.
  intros Ho E. unfold reply_options in E. apply Z.eqb_neq in Ho. rewrite Ho in E. cbn [negb] in E. apply bind4_inv in E as ([from' o5] & d5 & E5 & E). cbv zeta in E5.
  match type of E5 with context [get_server_source_address itf ?o1] => set (o1' := o1) in *; pose proof (server_identified o1') as Hid; pose proof (server_address o1') as Hsame end.
  destruct (get_server_source_address itf o1') as [from2 o2]. cbn [snd] in Hid, Hsame. apply bind4_inv in E5 as ([o3 l3] & d3 & E3 & E5). apply bind4_inv in E5 as ([o4 l4] & d4 & E4 & E5).
  injection E5 as <- <- <-. change (Some ((from2, extras h tm o4), d4) = Some ((from, o), d')) in E. injection E as <- <- <-.
  apply bounded_time_inv in E3 as (-> & Hl3 & Ho3 & Ht3). apply bounded_time_inv in E4 as (-> & Hl4 & Ho4 & Ht4). cbn [fst snd] in *. split; [done|].
  assert (Hall : forall c, c <> DHO_DHCP_REBINDING_TIME -> c <> DHO_DHCP_RENEWAL_TIME -> c <> DHO_SUBNET_MASK -> c <> DHO_HOST_NAME -> c <> DHO_ROUTERS ->
    extras h tm o4 !! c = <[DHO_DHCP_LEASE_TIME := putULong (e - cur_time)]> o2 !! c) by (intros; by rewrite extras_other, Ho4, Ho3).
  split; [rewrite Hall, lookup_insert_ne, Hsame by done; unfold o1'; by rewrite lookup_insert_eq|]. split; [by rewrite Hall, lookup_insert_eq by done|]. split; [apply extras_mask|].
  split; [intros Ha; rewrite Hall, lookup_insert_ne by done; by apply Hid|]. assert (Hreb : forall t, time_in (extras h tm o4) DHO_DHCP_REBINDING_TIME t -> t = l3 /\ t < e - cur_time).
  { intros t Ht. apply Ht3. eapply time_same; [|exact Ht]. by rewrite extras_other, Ho4. }
  split; [intros t Ht; by apply Hreb|]. intros t Ht. destruct (Ht4 t) as [_ Hlt]; [eapply time_same; [|exact Ht]; by rewrite extras_other|]. split; [lia|]. intros t' [-> _]%Hreb. done.
Qed.

(** ** What is recorded of a lease *)

Section One.
Context (R : relation srv) `{!PreOrder R} (Hrel : forall l, Keeps R (release_lease io random cur_time fuel l)).
#[local] Hint Resolve Hrel : keeps.
Lemma keeps_seek n t h l : Keeps R (seek_loop n t h l).
Proof using PreOrder0. revert l. induction n as [|n IH]; intros l; cbn [seek_loop]; [apply keeps_fatal|]. keeps. Qed.
#[local] Hint Resolve keeps_seek : keeps.
Lemma keeps_release_others n t h key : Keeps R (release_others io random cur_time fuel n t h key).
Proof using PreOrder0 Hrel. induction n as [|n IH]; cbn [release_others]; [apply keeps_fatal|]. unfold find_lease_by. keeps. Qed.
#[local] Hint Resolve keeps_release_others : keeps.
Lemma keeps_one_lease p h tm s : Keeps R (one_lease io random cur_time fuel p h tm s).
Proof using PreOrder0 Hrel. unfold one_lease. keeps. Qed.
End One.

Lemma pure_reply_options p h offer e tm : Keeps eq (reply_options cur_time cf itf p h offer e tm).
Proof. unfold reply_options, bounded_time. keeps. Qed.

(** The client has the lease until [e]. *)
Definition granted (p : client_packet) (e : Z) (s : lease) : Prop := given s = (cur_time, e, cur_time, client_id p, hardware p) /\ l_binding_state s = FTS_ACTIVE.

(** A lease that was recorded with an ACK *)
Lemma record_granted p x tm lt e d d' s : leases d !! x = Some s -> flag s STATIC_LEASE = false ->
  l_starts lt = cur_time -> l_ends lt = e -> l_next_binding_state lt = FTS_ACTIVE -> cur_time <= e ->
  record_lease io random cur_time fuel p (Dynamic x) DHCPACK4 tm lt d = Some (true, d') ->
  recorded x (granted p e) d d' /\ exists s', leases d' !! x = Some s' /\ granted p e s'.
Proof.
  intros Hs Hst Hs1 He Hn Hle E. unfold record_lease in E. apply bind4_inv in E as (? & d1 & E1 & E). pose proof E1 as (s0 & Hs0 & Hx1)%set_lease4_at. assert (s0 = s) as -> by congruence.
  step4 E. rename a into s1, Hm into Hs1'. rewrite Hs1' in Hx1. injection Hx1 as ->. apply bind4_inv in E as (? & d2 & E2 & E).
  assert (Hfl : flag (null_flag (t_nulltp tm) s) STATIC_LEASE = false) by (unfold null_flag; destruct (t_nulltp tm); by rewrite ?flag_set_other, ?flag_clear_other). rewrite Hfl in E.
  match type of E with supersede_lease _ _ _ _ _ (Some ?l) _ _ _ _ = _ => set (lt' := l) in * end. change ((DHCPACK4 =? 0) || (DHCPACK4 =? DHCPACK4)) with true in E.
  assert (Hg : given lt' = (cur_time, e, cur_time, client_id p, hardware p)) by (unfold given, lt'; cbn; congruence).
  destruct (supersede_written io random cur_time fuel x lt' (DHCPACK4 =? DHCPACK4) (DHCPACK4 =? DHCPACK4) d2 d') with (4 := E) as (s' & Hs' & Eg & Eb & Hw).
  - transitivity (flag (clear_flag PERSISTENT_FLAGS (null_flag (t_nulltp tm) s)) STATIC_LEASE); [done|]. by rewrite flag_clear_other.
  - exact Hn.
  - cbn. lia.
  - split; [|by exists s'; split; [done|split; [congruence|done]]]. eapply recorded_after; [trans d1; by eapply grown_lease|]. eapply recorded_weaken; [|exact Hw].
    intros s2 [Ea Ec]. split; [congruence|done].
Qed.

Lemma pure_lease_of h tm : Keeps eq (lease_of h tm).
Proof. unfold lease_of. keeps. Qed.

Lemma prepare_inv p h offer when tm d r d' : prepare io random cur_time fuel cf itf p h offer when tm d = Some (r, d') ->
  exists s0 d1, lease_of h tm d = Some (s0, d) /\ one_lease io random cur_time fuel p h tm s0 d = Some (tt, d1) /\
  match r with
  | Ready st c => exists s lt e from, lease_of h tm d1 = Some (s, d1) /\
      (if offer =? 0 then mret (Some (bootp_terms cur_time tm (set_l_starts cur_time lease_allocate))) else dhcp_terms cur_time p offer when tm s (set_l_starts cur_time lease_allocate)) d1 = Some (Some (lt, e), d1) /\
      record_lease io random cur_time fuel p h offer tm lt d1 = Some (true, d') /\ reply_options cur_time cf itf p h offer e tm d' = Some ((from, ls_options st), d') /\
      ls_packet st = p /\ ls_offer st = offer /\ ls_offered_expiry st = e /\ c = l_cltt s0
  | _ => True
  end.
Proof.
  intros E. unfold prepare in E. apply bind4_inv in E as (s0 & d0 & E0 & E). pose proof (pure_lease_of _ _ _ _ _ E0) as <-. cbv zeta in E. apply bind4_inv in E as ([] & d1 & E1 & E). exists s0, d1. split; [done|]. split; [done|].
  destruct r as [| |st c]; [done..|]. destruct (turned_away _ _ _ _); [done|]. apply bind4_inv in E as (s & d2 & E2 & E). pose proof (pure_lease_of _ _ _ _ _ E2) as <-.
  apply bind4_inv in E as (t & d2 & Et & E). assert (d1 = d2) as <-.
  { assert (Keeps eq (if negb (offer =? 0) then dhcp_terms cur_time p offer when tm s (set_l_starts cur_time lease_allocate) else mret (Some (bootp_terms cur_time tm (set_l_starts cur_time lease_allocate))))) as K
      by (unfold dhcp_terms, duration, adaptive_time, divide; keeps). by apply (K _ _ _ Et). }
  destruct t as [[lt e]|]; [|done]. apply bind4_inv in E as (ok & d3 & E3 & E). destruct ok; [|done]. cbn [negb] in E. apply bind4_inv in E as ([from o] & d4 & E4 & E). pose proof (pure_reply_options _ _ _ _ _ _ _ _ E4) as <-.
  destruct (match value_of (t_server tm) !! SV_SITE_OPTION_SPACE with Some name => negb (bool_decide (name ∈ t_spaces tm)) | None => false end); [done|]. injection E as <- <- <-.
  exists s, lt, e, from. split; [done|]. split; [by destruct (offer =? 0)|]. done.
Qed.

(** The hardware address in an answer: the length has one octet, and a lease without an address makes it 255. *)
Definition carries (hbuf : list Z) (r : reply) : Prop := r_htype r = head hbuf /\ r_chaddr r = tail hbuf /\ r_hlen r = (Z.of_nat (length hbuf) - 1) mod 256.

(** The answer has the client's hardware address. *)
Definition addressed (p : client_packet) (r : reply) : Prop := r_htype r = Some (cp_htype p) /\ r_chaddr r = cp_chaddr p /\ r_hlen r = Z.of_nat (length (cp_chaddr p)) mod 256.

Lemma carries_addressed p r : carries (hardware p) r -> addressed p r.
Proof. intros (H1 & H2 & H3). split_and!; [done|done|]. rewrite H3. cbn [hardware length]. f_equal. lia. Qed.

Lemma reply_fields ip net s st : r_type (reply_for cf itf ip net s st) = ls_offer st /\ r_yiaddr (reply_for cf itf ip net s st) = ip /\
  r_options (reply_for cf itf ip net s st) = ls_options st /\ carries (l_hbuf s) (reply_for cf itf ip net s st).
Proof.
  unfold reply_for. cbv zeta. destruct (negb (cp_giaddr _ =? 0)); [by destruct (if_fallback itf)|]. destruct (_ && _ && _); [by destruct (if_fallback itf)|]. by destruct (_ && _).
Qed.

(** C7: an ACK is recorded before it is sent.  If a client gets an ACK for a lease of the database, then the lease is active and has the client's identifier and hardware address and ends when the answer says.  Of the events between
    the call and the answer, one writes the lease with exactly this to the lease file, successfully; later ones that write the lease again write the same; and one after it brings the file to the disk, successfully, unless the server is still
    reading its database (SS_NOSYNC).  So a crash after the answer does not lose the lease.  Otherwise the client gets a NAK or nothing. *)
Theorem ack_recorded dm p x net tm v v' s : cur_time < MAX_TIME4 -> leases (base v) !! x = Some s -> flag s STATIC_LEASE = false -> lease_states v !! x = None ->
  ack_lease io random cur_time fuel cf itf dm p (Dynamic x) net DHCPACK4 0 tm v = Some v' ->
  replies v' = replies v \/ (exists r, replies v' = replies v ++ [r] /\ r_type r = DHCPNAK4) \/
  exists r e s' tr, replies v' = replies v ++ [r] /\ r_type r = DHCPACK4 /\ r_yiaddr r = ip_addr cf x /\ addressed p r /\ r_options r !! DHO_DHCP_LEASE_TIME = Some (putULong (e - cur_time)) /\
    leases (base v') !! x = Some s' /\ granted p e s' /\ events (base v') = events (base v) ++ tr /\ written x (granted p e) (negb (ss_nosync (base v))) tr /\
    sent_after v' = sent_after v ++ [length (events (base v) ++ tr)].
Proof.
  intros Hnow Hs Hst Hno E. unfold ack_lease in E. rewrite Hno, bool_decide_eq_false_2 in E by (by intros [? [=]]). destruct (prepare _ _ _ _ _ _ _ _ _ _ _ _) as [[r d]|] eqn:Ep; [|done]. cbn [mbind option_bind] in E.
  destruct r as [| |st c]; [left; by injection E as <-|right; left|right; right].
  { injection E as <-. unfold nak_lease. destruct (get_server_source_address _ _). eexists. split; [done|]. by destruct (negb _). }
  apply prepare_inv in Ep as (s0 & d1 & E0 & E1 & s1 & lt & e & from & E2 & Et & Er & Eo & Hpk & Hoff & _ & _). cbn [lease_of] in E2. apply lease_at_inv in E2 as [Hs1 _].
  assert (Hst1 : flag s1 STATIC_LEASE = false).
  { pose proof (keeps_one_lease (same_of static) (static_release io random cur_time fuel) _ _ _ _ _ _ _ E1) as Hv. destruct (same_of_back _ _ _ _ _ Hv Hs1) as (s2 & Hs2 & Ev). unfold static in Ev. congruence. }
  pose proof (keeps_one_lease grown (grown_release io random cur_time fuel) _ _ _ _ _ _ _ E1) as Hg. change (DHCPACK4 =? 0) with false in Et. cbn iota in Et. apply dhcp_terms_inv in Et as (t & f & lt0 & _ & _ & _ & Hst0 & He & Hlt).
  match type of He with e = (if cur_time + ?a <? cur_time then _ else _) => assert (cur_time <= e) as Hle by (rewrite He; destruct (Z.ltb_spec (cur_time + a) cur_time); lia) end.
  destruct (record_granted p x tm lt e d1 d s1 Hs1 Hst1) as (Hw & s2 & Hs2 & Hgr); [| |by rewrite Hlt|done|exact Er|].
  { rewrite Hlt. cbn. apply (f_equal fst) in Hst0. cbn in Hst0. destruct f as [f|]; [|exact Hst0]. unfold failover_time. cbv zeta. cbn [snd]. rewrite Z.eqb_refl. match goal with |- context [if ?b then set_l_tsfp _ _ else _] => destruct b end; exact Hst0. }
  { by rewrite Hlt. }
  apply reply_options_inv in Eo as (_ & _ & Hopt & _); [|done]. rewrite Hs2 in E. cbn [mbind option_bind] in E. change (DHCPACK4 =? DHCPOFFER4) with false in E. cbn [andb] in E.
  rewrite (set_lease4_eq x (set_l_cltt cur_time) d s2 Hs2) in E. unfold dhcp_reply in E. cbn [mbind option_bind lease_states set_base set_lease_states base] in E. rewrite lookup_insert_eq in E. cbn [mbind option_bind] in E.
  rewrite lookup_upd_lease, decide_True in E by done. cbn [mbind option_bind] in E. injection E as <-. destruct (recorded_after _ _ _ _ _ Hg Hw) as (tr & Etr & Hw'). eexists _, e, _, tr. split; [reflexivity|]. cbn [base set_lease_states send_reply set_replies set_base sent_after set_sent_after].
  assert (Hgr' : granted p e (set_l_cltt cur_time s2)) by (destruct Hgr as [Ha Hb]; split; [|done]; unfold given in *; cbn; injection Ha as -> -> _ -> ->; done).
  destruct (reply_fields (ip_addr cf x) (network_of cf x) (set_l_cltt cur_time s2) st) as (R1 & R2 & R3 & R4). split_and!; [by rewrite R1|done| |by rewrite R3|by rewrite lookup_upd_lease, decide_True by done|done|exact Etr|exact Hw'|cbn; by rewrite Etr].
  destruct Hgr as [Ha _]. unfold given in Ha. injection Ha as _ _ _ _ Hh. apply carries_addressed. rewrite <- Hh. exact R4.
Qed.

(** ** Answers have a result *)

(** Terms under which an answer has a result: one client may have many leases, times do not depend on how full the pool is, configured times are as long as they should be, and a lease that is made up is in no pool. *)
Record terms_fine (tm : terms) : Prop := {
  tf_many : set_and_true (t_before tm) SV_ONE_LEASE_PER_CLIENT = false;
  tf_fixed : value_of (t_server tm) !! SV_ADAPTIVE_LEASE_TIME_THRESHOLD = None;
  tf_times code data : t_options tm !! code = Some data -> code = DHO_DHCP_REBINDING_TIME \/ code = DHO_DHCP_RENEWAL_TIME -> (4 <= length data)%nat;
  tf_mock : l_pool (t_mock tm) = None
}.

Lemma duration_total p tm s d : terms_fine tm -> exists t, duration cur_time p tm s d = Some (t, d).
Proof. intros [_ H _ _]. unfold duration, adaptive_time. rewrite H. destruct (l_pool s); by eexists. Qed.

Lemma dhcp_terms_total p offer when tm s lt d : terms_fine tm -> (exists f, failover_peer s d = Some (f, d)) -> exists r, dhcp_terms cur_time p offer when tm s lt d = Some (r, d).
Proof.
  intros Htm [f Hf]. unfold dhcp_terms. cbv zeta. destruct (duration_total p tm s d Htm) as [t Ht]. rewrite (bind4_eq _ _ _ _ _ Ht). destruct t as [t|]; [|by eexists]. rewrite (bind4_eq _ _ _ _ _ Hf).
  destruct f as [f|]; [destruct (failover_time _ _ _ _ _ _)|]; by eexists.
Qed.

Lemma bounded_time_total code limit o d : (forall data, o !! code = Some data -> (4 <= length data)%nat) -> exists r, bounded_time code limit o d = Some (r, d).
Proof. intros H. unfold bounded_time. destruct (o !! code) as [data|]; [|by eexists]. destruct (Nat.ltb_spec (length data) 4); [specialize (H data eq_refl); lia|by eexists]. Qed.

Lemma reply_options_total p h offer e tm d : terms_fine tm -> exists r, reply_options cur_time cf itf p h offer e tm d = Some (r, d).
Proof.
  intros Htm. unfold reply_options. destruct (negb (offer =? 0)); [|by eexists]. cbv zeta.
  match goal with |- context [get_server_source_address itf ?o1] => set (o1' := o1); pose proof (server_address o1') as Hsame end. destruct (get_server_source_address itf o1') as [from o2]. cbn [snd] in Hsame.
  assert (Ho1 : forall c, c <> DHO_DHCP_MESSAGE_TYPE -> c <> DHO_SUBNET_SELECTION -> o1' !! c = t_options tm !! c).
  { intros c H1 H2. unfold o1'. rewrite lookup_insert_ne by done. destruct (_ !! _); [by rewrite lookup_insert_ne|done]. }
  set (o3 := <[DHO_DHCP_LEASE_TIME := putULong (e - cur_time)]> o2). assert (Ho3 : forall c, c = DHO_DHCP_REBINDING_TIME \/ c = DHO_DHCP_RENEWAL_TIME -> forall data, o3 !! c = Some data -> (4 <= length data)%nat).
  { intros c Hc data Hd. apply (tf_times tm Htm c data); [|done]. rewrite <- Hd. unfold o3. destruct Hc as [-> | ->]; by rewrite lookup_insert_ne, Hsame, Ho1 by done. }
  destruct (bounded_time_total DHO_DHCP_REBINDING_TIME (e - cur_time) o3 d (Ho3 _ (or_introl eq_refl))) as [[o4 l4] E4]. pose proof (bounded_time_inv _ _ _ _ _ _ _ E4) as (_ & _ & Hsame4 & _).
  destruct (bounded_time_total DHO_DHCP_RENEWAL_TIME l4 o4 d) as [[o5 l5] E5]; [intros data Hd; apply (Ho3 DHO_DHCP_RENEWAL_TIME (or_intror eq_refl)); by rewrite <- Hsame4|].
  match goal with |- exists r, (?m ≫= _) d = _ => assert (m d = Some ((from, o5), d)) as E6 by (rewrite (bind4_eq _ _ _ _ _ E4); cbn [fst snd]; by rewrite (bind4_eq _ _ _ _ _ E5)) end.
  rewrite (bind4_eq _ _ _ _ _ E6). by eexists.
Qed.

Definition handed (h : handout) (d : srv) : Prop := match h with Dynamic x => is_Some (leases d !! x) | Fixed _ => True end.

Lemma record_total p h offer tm lt d : ready cf fuel d -> no_static d -> handed h d -> (h <> Fixed (address_of cf h) -> known_state (l_next_binding_state lt)) ->
  exists ok d', record_lease io random cur_time fuel p h offer tm lt d = Some (ok, d') /\ stays d d'.
Proof.
  intros Hd Hst Hh Hlt. unfold record_lease. destruct h as [a|x]; [by eexists _, _|]. destruct Hh as [s Hs]. pose proof (set_lease4_eq x (null_flag (t_nulltp tm)) d s Hs) as E1. pose proof (stays_null _ _ _ _ _ E1) as St1.
  rewrite (bind4_eq _ _ _ _ _ E1). set (s1 := null_flag (t_nulltp tm) s) in *. set (d1 := upd_lease x s1 d) in *. assert (Hs1 : leases d1 !! x = Some s1) by (unfold d1; by rewrite lookup_upd_lease, decide_True).
  rewrite (bind4_eq _ _ _ _ _ (lease_at_eq _ _ _ Hs1)). cbv zeta. pose proof (set_lease4_eq x (set_l_scope false) d1 s1 Hs1) as E2. rewrite (bind4_eq _ _ _ _ _ E2).
  assert (St2 : stays d1 (upd_lease x (set_l_scope false s1) d1)) by (eapply (stays_set x (set_l_scope false)); [done|exact E2]). set (d2 := upd_lease x (set_l_scope false s1) d1) in *.
  assert (Hs2 : leases d2 !! x = Some (set_l_scope false s1)) by (unfold d2; by rewrite lookup_upd_lease, decide_True). rewrite (st_static _ _ St1 Hst x s1 Hs1).
  match goal with |- context [supersede_lease _ _ _ _ _ (Some ?l) _ _ _] => set (lt' := l) end.
  destruct (supersede_data_runs io random cur_time fuel cf d2 x (set_l_scope false s1) lt' ((offer =? 0) || (offer =? DHCPACK4)) (offer =? DHCPACK4) (offer =? DHCPACK4)) as (ok & d3 & E3).
  - eapply stays_ready; [exact St2|]. by eapply stays_ready.
  - done.
  - exact (flag_clear_other PERSISTENT_FLAGS RESERVED_LEASE s1 eq_refl).
  - by destruct (offer =? 0), (offer =? DHCPACK4).
  - exists ok, d3. split; [done|]. transitivity d1; [done|]. transitivity d2; [done|]. eapply stays_supersede; [|exact E3]. by apply Hlt.
Qed.

Lemma one_lease_none p h tm s d : terms_fine tm -> one_lease io random cur_time fuel p h tm s d = Some (tt, d).
Proof. intros [H _ _ _]. unfold one_lease. by rewrite H, andb_false_r. Qed.

Lemma lease_of_total h tm d : handed h d -> exists s, lease_of h tm d = Some (s, d).
Proof. destruct h as [a|x]; [by eexists|]. intros [s Hs]. exists s. by apply lease_at_eq. Qed.

Lemma prepare_total p h offer when tm d : ready cf fuel d -> no_static d -> handed h d -> terms_fine tm ->
  exists r d', prepare io random cur_time fuel cf itf p h offer when tm d = Some (r, d') /\ stays d d'.
Proof.
  intros Hd Hst Hh Htm. destruct (lease_of_total h tm d Hh) as [s Hs]. unfold prepare. rewrite (bind4_eq _ _ _ _ _ Hs). cbv zeta. rewrite (bind4_eq _ _ _ _ _ (one_lease_none _ _ _ _ _ Htm)).
  destruct (turned_away _ _ _ _); [by eexists _, _|]. rewrite (bind4_eq _ _ _ _ _ Hs).
  assert (exists t, (if negb (offer =? 0) then dhcp_terms cur_time p offer when tm s (set_l_starts cur_time lease_allocate) else mret (Some (bootp_terms cur_time tm (set_l_starts cur_time lease_allocate)))) d = Some (t, d) /\
    forall lt e, t = Some (lt, e) -> h <> Fixed (address_of cf h) -> known_state (l_next_binding_state lt)) as (t & Et & Ht).
  { destruct (negb (offer =? 0)); [|eexists; split; [done|]; by intros lt e [= <- _] _]. destruct (dhcp_terms_total p offer when tm s (set_l_starts cur_time lease_allocate) d Htm) as [t Et].
    - destruct h as [a|x]; cbn in Hs; [injection Hs as <-; unfold failover_peer; rewrite (tf_mock _ Htm); by eexists|]. apply lease_at_inv in Hs as [Hs _]. eapply returns_failover_peer; [|exact Hs]. apply files_pooled, (rd_ok _ _ _ Hd).
    - exists t. split; [done|]. intros lt e -> Hdyn. apply dhcp_terms_inv in Et as (t & f & lt0 & _ & _ & _ & _ & _ & ->). cbn. destruct (offer =? DHCPACK4) eqn:Ho; [done|].
      destruct h as [a|x]; cbn in Hs. { done. } apply lease_at_inv in Hs as [Hs _]. by destruct (rd_fit _ _ _ Hd _ _ Hs) as (_ & ? & _). }
  rewrite (bind4_eq _ _ _ _ _ Et). destruct t as [[lt e]|]; [|by eexists _, _]. destruct (record_total p h offer tm lt d Hd Hst Hh (Ht _ _ eq_refl)) as (ok & d' & Er & St). rewrite (bind4_eq _ _ _ _ _ Er).
  destruct ok; cbn [negb]; [|by eexists _, _]. destruct (reply_options_total p h offer e tm d' Htm) as [[from o] Eo]. rewrite (bind4_eq _ _ _ _ _ Eo). 
  destruct (match value_of (t_server tm) !! SV_SITE_OPTION_SPACE with Some name => negb (bool_decide (name ∈ t_spaces tm)) | None => false end); by eexists _, _.
Qed.

(** ** A server that goes on *)

(** An offer that waits for a ping has a timer, and the other way around. *)
Record pings_ok (v : server4) : Prop := {
  pg_timers x : is_Some (lease_states v !! x) <-> is_Some (ping_timers v !! x);
  pg_count : outstanding_pings v = Z.of_nat (size (ping_timers v));
  pg_there x st : lease_states v !! x = Some st -> is_Some (leases (base v) !! x) /\ ls_offer st = DHCPOFFER4
}.

Record attending (v : server4) : Prop := {
  at_ready : ready cf fuel (base v);
  at_static : no_static (base v);
  at_hba h : f_hba (peer (base v)) = Some h -> length h = 32%nat;
  at_pings : pings_ok v
}.

Lemma attending_base d v : stays (base v) d -> attending v -> attending (set_base d v).
Proof.
  intros Hst [H1 H2 H3 [P1 P2 P3]]. pose proof Hst as [_ _ _ [_ Hdom] [_ Hpv] H6]. split; [by eapply stays_ready|by apply H6| |].
  - intros h Hh. apply H3. unfold peer_view in Hpv. injection Hpv as _ Hpv. cbn in Hh. congruence.
  - split; [exact P1|exact P2|]. intros x st Hx. destruct (P3 x st Hx) as [Ha Hb]. split; [by apply Hdom|done].
Qed.

Lemma attending_send r v : attending v -> attending (send_reply r v).
Proof. intros [H1 H2 H3 [P1 P2 P3]]. by split. Qed.

Lemma attending_ping x st tm v : attending v -> lease_states v !! x = None -> is_Some (leases (base v) !! x) -> ls_offer st = DHCPOFFER4 ->
  attending (ping cur_time cf x tm (set_lease_states (<[x := st]> (lease_states v)) v)).
Proof.
  intros [H1 H2 H3 [P1 P2 P3]] Hno Hx Ho. split; [done..|]. assert (Hnt : ping_timers v !! x = None) by (apply eq_None_not_Some; intros Ht%P1; rewrite Hno in Ht; by destruct Ht). split; cbn.
  - intros y. destruct (decide (y = x)) as [->|Hy]; [rewrite !lookup_insert_eq; by split|]. rewrite !lookup_insert_ne by done. apply P1.
  - rewrite map_size_insert_None by done. lia.
  - intros y sy. destruct (decide (y = x)) as [->|Hy]; [rewrite lookup_insert_eq; by intros [= <-]|]. rewrite lookup_insert_ne by done. apply P3.
Qed.

(** An offer stops waiting. *)
Lemma attending_done x v : attending v -> is_Some (lease_states v !! x) ->
  attending (set_lease_states (delete x (lease_states v)) (set_ping_timers (delete x (ping_timers v)) (set_outstanding_pings (outstanding_pings v - 1) v))).
Proof.
  intros [H1 H2 H3 [P1 P2 P3]] Hx. split; [done..|]. split; cbn.
  - intros y. destruct (decide (y = x)) as [->|Hy]; [rewrite !lookup_delete_eq; by split; intros [? [=]]|]. rewrite !lookup_delete_ne by done. apply P1.
  - apply P1 in Hx. rewrite map_size_delete_Some by done. destruct Hx as [t Ht]. assert (size (ping_timers v) <> 0%nat) by (intros E; apply map_size_empty_inv in E; rewrite E in Ht; by rewrite lookup_empty in Ht). lia.
  - intros y sy. destruct (decide (y = x)) as [->|Hy]; [by rewrite lookup_delete_eq|]. rewrite lookup_delete_ne by done. apply P3.
Qed.

Context (dm : list Z).

Lemma ack_attends p h net offer when tm v : attending v -> handed h (base v) -> terms_fine tm -> exists v', ack_lease io random cur_time fuel cf itf dm p h net offer when tm v = Some v' /\ attending v'.
Proof.
  intros Hv Hh Htm. unfold ack_lease. destruct (match h with Dynamic x => bool_decide (is_Some (lease_states v !! x)) | Fixed _ => false end) eqn:Hs; [by eexists|].
  destruct (prepare_total p h offer when tm (base v) (at_ready v Hv) (at_static v Hv) Hh Htm) as (r & d & Ep & St). rewrite Ep. cbn [mbind option_bind]. pose proof (attending_base d v St Hv) as Hv1.
  destruct r as [| |st c]; [by eexists|eexists; split; [done|]; unfold nak_lease; destruct (get_server_source_address _ _); by apply attending_send|].
  apply prepare_inv in Ep as (s0 & d1 & _ & _ & s1 & lt & e & from & _ & _ & _ & _ & _ & Ho & _). destruct h as [a|x]; [eexists; split; [done|]; by apply attending_send|].
  apply bool_decide_eq_false, eq_None_not_Some in Hs. destruct (proj2 (proj1 (proj2 (st_mode _ _ St)) x) Hh) as [s Hsx]. rewrite Hsx. cbn [mbind option_bind].
  destruct (_ && _ && _ && _) eqn:Hping.
  - eexists. split; [done|]. apply attending_ping; [done..|by exists s|]. rewrite Ho. apply andb_true_iff in Hping as [Hping _]. apply andb_true_iff in Hping as [Hping _]. apply andb_true_iff in Hping as [Hping _]. by apply Z.eqb_eq in Hping.
  - pose proof (set_lease4_eq x (set_l_cltt cur_time) d s Hsx) as Es. rewrite Es. cbn [mbind option_bind]. unfold dhcp_reply. cbn. rewrite lookup_insert_eq. cbn. rewrite lookup_insert_eq. cbn. eexists. split; [reflexivity|].
    assert (St2 : stays d (upd_lease x (set_l_cltt cur_time s) d)) by (eapply (stays_set x (set_l_cltt cur_time)); [done|exact Es]).
    pose proof (attending_base _ (set_base d v) St2 Hv1) as Hv2. rewrite delete_insert_id by done. exact (attending_send _ _ Hv2).
Qed.

Context (terms_of : client_packet -> handout -> Z -> terms) (fixed_network : client_packet -> Z -> id) (Hterms : forall p h offer, terms_fine (terms_of p h offer)).

(** The option with the requested address is as long as an address, and the client is one whose hash can be computed. *)
Definition packet_fine (p : client_packet) : Prop := short_option p = false /\ bytes_ok (default (cp_chaddr p) (client_id p)).

Lemma handed_stays h d d' : stays d d' -> handed h d -> handed h d'.
Proof. destruct h as [a|x]; [done|]. intros [_ _ _ [_ [Hdom _]] _ _]. apply Hdom. Qed.

Lemma dhcp_attends p v : attending v -> packet_fine p -> exists v', dhcp io random cur_time fuel cf itf dm terms_of fixed_network p v = Some v' /\ attending v'.
Proof using Hterms.
  intros Hv [Hshort Hb]. destruct (dhcp4_answers io random cur_time fuel cf p (base v) (at_ready v Hv) Hshort) as (a & d & E & Ha); [split; [done|apply (at_hba v Hv)]|].
  unfold dhcp. rewrite E. cbn [mbind option_bind]. pose proof (stays_dhcp4 _ _ _ _ _ _ _ _ _ E) as St. pose proof (attending_base d v St Hv) as Hv1.
  assert (Hhand : forall h, handed h (base v) -> handed h (base (set_base d v))) by (intros h; by apply handed_stays).
  destruct a as [|h w|h|cip|]; [by eexists| | |eexists; split; [done|]; unfold nak_lease; destruct (get_server_source_address _ _); by apply attending_send|by eexists].
  - apply ack_attends; [done| |apply Hterms]. apply Hhand. by destruct h.
  - apply ack_attends; [done| |apply Hterms]. apply Hhand. by destruct h.
Qed.

Lemma pinged_attends from v : attending v -> exists v', lease_pinged io random cur_time fuel from v = Some v' /\ attending v'.
Proof.
  intros Hv. unfold lease_pinged. destruct (_ =? 0); [by eexists|]. destruct (_ !! from) as [x|]; [|by eexists]. destruct (lease_states v !! x) as [st|] eqn:Hx; [|by eexists].
  pose proof (at_ready v Hv) as Hr. pose proof (pg_there v (at_pings v Hv) x st Hx) as [Hthere _]. destruct (abandon_runs io random cur_time fuel (base v) (rd_fuel _ _ _ Hr) (base v) x) as ([] & d & E); [apply Hr|split; [apply Hr|done]|].
  rewrite E. cbn [mbind option_bind]. eexists. split; [done|]. apply attending_base; [by eapply stays_abandon|]. apply attending_done; [done|by exists st].
Qed.

(** The OFFER of the lease [x] that waited for a ping, to the hardware address the lease has now, with what was prepared *)
Definition offer_sent (x : id) (v v' : server4) : Prop :=
  exists st s r, lease_states v !! x = Some st /\ leases (base v) !! x = Some s /\ replies v' = replies v ++ [r] /\ r_type r = DHCPOFFER4 /\ r_yiaddr r = ip_addr cf x /\ r_options r = ls_options st /\
  carries (l_hbuf s) r /\ (l_hbuf s = hardware (ls_packet st) -> addressed (ls_packet st) r).

Lemma timeout_attends x v : attending v -> is_Some (ping_timers v !! x) -> exists v', lease_ping_timeout cf itf x v = Some v' /\ attending v' /\ offer_sent x v v'.
Proof.
  intros Hv Hx%(pg_timers v (at_pings v Hv)). destruct Hx as [st Hx]. destruct (pg_there v (at_pings v Hv) x st Hx) as [[s Hs] Ho]. unfold lease_ping_timeout, dhcp_reply. cbn. rewrite Hx. cbn. rewrite Hs. cbn.
  eexists. split; [reflexivity|]. destruct (reply_fields (ip_addr cf x) (network_of cf x) s st) as (R1 & R2 & R3 & R4). split.
  - pose proof (attending_done x v Hv ltac:(by exists st)) as Hd. exact (attending_send _ _ Hd).
  - exists st, s. eexists. split; [done|]. split; [done|]. split; [reflexivity|]. split_and!; [by rewrite R1|done|done|done|]. intros E. apply carries_addressed. rewrite <- E. exact R4.
Qed.

Lemma stays_bootp_lease p : Keeps stays (bootp_lease io random cur_time fuel cf p).
Proof.
  pose proof (keeps_find_lease io random cur_time fuel cf stays (stays_release io random cur_time fuel)). pose proof (fun p => keeps_pure stays _ (pure_locate cf p)).
  pose proof (fun p ps l b => keeps_pure stays _ (pure_allocate cur_time cf p ps l b)). unfold bootp_lease, load_balanced, allocate_lease. keeps.
Qed.

Lemma bootp_lease_total p d : ready cf fuel d -> packet_fine p -> (forall h, f_hba (peer d) = Some h -> length h = 32%nat) ->
  exists r d', bootp_lease io random cur_time fuel cf p d = Some (r, d') /\ forall x, fst r = Some (Dynamic x) -> is_Some (leases d !! x).
Proof.
  intros Hr [Hshort Hb] Hhba. destruct Hr as [Hok Hfit Htab Haddr Hint Hsub Hpool Hfuel]. assert (Hd : served d d) by (by split_and!). unfold bootp_lease. destruct (locates cf p d) as [n Hn]. rewrite (bind4_eq _ _ _ _ _ Hn).
  destruct n as [share|]; [|by eexists _, _]. assert (Hnet : is_Some (networks cf !! share)) by (apply located in Hn as [Hn|(s & Hs & <-)]; [by apply Hint|by apply Hsub]).
  match goal with |- exists r d', ?m d = _ /\ _ => enough (ends d m (fun r => handout_there d (fst r))) as K by (destruct (K d Hd) as (r & d' & E & _ & H); by exists r, d') end.
  eapply ends_bind; [by apply (ends_find_lease io random cur_time fuel cf d Hfuel Htab Haddr)|]. intros [[h ours] p'] [Hh Hp']. cbn [fst snd] in *. apply (ends_bind d _ _ (handout_there d)).
  { destruct h; [by apply ends_ret|]. destruct Hnet as [net Hnet]. rewrite Hnet. apply (ends_bind d _ _ (fun m => m = net)); [by apply ends_ret|]. intros ? ->.
    eapply ends_bind; [apply (ends_allocate io random cur_time fuel cf d Hfuel Htab Haddr Hpool); [intros q; by eapply Hpool|done]|]. intros [[x|] b] Hx; apply ends_ret; [by apply handout_some, Hx|done]. }
  intros h1 Hh1. destruct h1 as [[a|x]|]; [by apply ends_ret| |by apply ends_ret]. eapply ends_bind; [by apply ends_lease_at, Hh1|]. intros s Hs. eapply ends_bind; [by eapply ends_failover_peer|]. intros f Hf.
  apply (ends_bind d _ _ (fun _ => True)).
  { destruct f as [f|]; [|by apply ends_ret]. destruct (silent_service f); [by apply ends_ret|]. case_bool_decide; [|by apply ends_ret]. apply ends_load_balanced; [|done]. by destruct Hp' as [-> | ->]. }
  intros go _. apply ends_ret. cbn. by destruct go.
Qed.

Lemma bootp_attends op file na p v : attending v -> packet_fine p -> exists v', bootp io random cur_time fuel cf itf dm terms_of op file na p v = Some v' /\ attending v'.
Proof using Hterms.
  intros Hv Hp. unfold bootp. destruct (negb _); [by eexists|]. destruct (bootp_lease_total p (base v) (at_ready v Hv) Hp (at_hba v Hv)) as ([h p'] & d & E & Hh). rewrite E. cbn [mbind option_bind fst].
  pose proof (stays_bootp_lease _ _ _ _ E) as St. pose proof (attending_base d v St Hv) as Hv1. destruct h as [[a|x]|]; [| |by eexists].
  - eexists. split; [done|]. destruct (bootp_reply _ _ _ _ _ _); [by apply attending_send|done].
  - apply ack_attends; [done| |apply Hterms]. eapply handed_stays; [exact St|]. by apply Hh.
Qed.

End Answers.

(** *** Runs *)

(** What comes to the server, with the time; a timer that is not set does not fire. *)
Inductive client_event := Packet (p : client_packet) | Request (op : Z) (file : list Z) (net_address : option (list Z)) (p : client_packet) | Echo (from : Z) | Tick (x : id).

Section Run.
Context (io : nat -> bool) (random : nat -> Z) (fuel : nat) (cf : site) (itf : interface) (dm : list Z)
  (terms_of : client_packet -> handout -> Z -> terms) (fixed_network : client_packet -> Z -> id).

Definition attend (now : Z) (ev : client_event) (v : server4) : option server4 :=
  match ev with
  | Packet p => dhcp io random now fuel cf itf dm terms_of fixed_network p v
  | Request op file na p => bootp io random now fuel cf itf dm terms_of op file na p v
  | Echo from => lease_pinged io random now fuel from v
  | Tick x => if bool_decide (is_Some (ping_timers v !! x)) then lease_ping_timeout cf itf x v else Some v
  end.

Fixpoint attend_all (evs : list (Z * client_event)) (v : server4) : option server4 :=
  match evs with [] => Some v | (now, ev) :: evs => v ← attend now ev v; attend_all evs v end.

Definition event_fine (ev : client_event) : Prop := match ev with Packet p | Request _ _ _ p => packet_fine p | _ => True end.

(** C12: the server goes on serving clients.  Whatever DHCP and BOOTP messages, answers to pings and timers of pings come, in whatever order, every one has a result, and the server stays as it should be: lists, queues and tables
    are right, leases are in known states, and the offers that wait for a ping are those with a timer.  When such a timer fires, the OFFER that was prepared is sent, with the address of the lease, to the hardware address the lease has then;
    that is the client it was prepared for, if the lease still has that client's address (a DECLINE in between takes it away).  Conditions: the option with the requested address is as long as an address in every packet; one-lease-per-client is
    off, the adaptive threshold of lease times is not set, configured renewal and rebinding times have four octets or more, and the lease made up for a fixed address is in no pool.  Other timers, the partner and the administrator are not part of such a run. *)
Theorem service_goes_on evs v : (forall p h offer, terms_fine (terms_of p h offer)) -> (forall now ev, (now, ev) ∈ evs -> event_fine ev) -> attending fuel cf v ->
  exists v', attend_all evs v = Some v' /\ attending fuel cf v' /\
  forall x, is_Some (ping_timers v' !! x) -> exists v2, lease_ping_timeout cf itf x v' = Some v2 /\ attending fuel cf v2 /\ offer_sent cf x v' v2.
Proof.
  intros Ht Hevs Hv. assert (exists v', attend_all evs v = Some v' /\ attending fuel cf v') as (v' & E & Hv').
  { revert v Hv. induction evs as [|[now ev] evs IH]; intros v Hv; [by exists v|]. assert (event_fine ev) as Hev by (apply (Hevs now); set_solver). cbn.
    assert (exists v1, attend now ev v = Some v1 /\ attending fuel cf v1) as (v1 & -> & Hv1); [|apply IH; [intros n e H; apply (Hevs n); set_solver|done]].
    destruct ev as [p|op file na p|from|x]; cbn [attend]; [by apply dhcp_attends|by apply bootp_attends|by apply pinged_attends|]. case_bool_decide as Hx; [|by exists v].
    destruct (timeout_attends fuel cf itf x v Hv Hx) as (v1 & E1 & Hv1 & _). by exists v1. }
  exists v'. split; [done|]. split; [done|]. intros x Hx. exact (timeout_attends fuel cf itf x v' Hv' Hx).
Qed.

End Run.

(** ** Examples *)

Definition ex_terms : terms :=
  mkTerms (mkServerOptions ∅ ∅) (mkServerOptions ∅ {[SV_MAX_LEASE_TIME := [0; 0; 7; 8]]}) {[DHO_DHCP_REBINDING_TIME := [0; 0; 0; 40]]} None None None [255; 255; 255; 0] 0 0 []
    (set_flag STATIC_LEASE lease_allocate) false.
Definition ex_itf : interface := mkInterface [[10; 0; 0; 1]] true false.
Definition ex_server : server4 := mkServer4 ex_free ∅ ∅ 0 [] [] [].
Definition ex_lease_free : lease := set_l_binding_state FTS_FREE (set_l_next_binding_state FTS_FREE (ex_lease None)).

Definition values_okb (o : gmap Z (list Z)) : bool := forallb (fun e => forallb (fun b => (0 <=? b) && (b <? 256)) (snd e)) (map_to_list o).

Lemma values_check o : values_okb o = true -> values_ok o.
Proof.
  unfold values_okb. rewrite forallb_forall. intros H code data E. apply elem_of_map_to_list, list_elem_of_In in E. apply H in E. cbn in E. rewrite forallb_forall in E. apply Forall_forall. intros b Hb%list_elem_of_In%E.
  apply andb_true_iff in Hb as [H1%Z.leb_le H2%Z.ltb_lt]. unfold byte_ok. lia.
Qed.

Lemma ex_terms_fine : terms_fine ex_terms.
Proof.
  split; [done|done| |done]. intros code data E _. cbn in E. apply lookup_singleton_Some in E as [_ <-]. cbn. lia.
Qed.

Lemma ex_attending : attending 24 ex_site ex_server.
Proof.
  split; [apply ex_free_ready| |by intros h [=]|].
  - intros x s E. cbn in E. apply lookup_insert_Some in E as [[_ <-]|[_ E]]; [done|by rewrite lookup_empty in E].
  - split; [intros x; cbn; rewrite !lookup_empty; by split; intros [? [=]]|done|]. intros x st E. cbn in E. by rewrite lookup_empty in E.
Qed.

Lemma lease_time_bounds_witness : exists lt' e, dhcp_terms 200 (ex_client DHCPREQUEST4) DHCPACK4 0 ex_terms ex_lease_free lease_allocate ex_free = Some (Some (lt', e), ex_free) /\
  200 <= e <= Z.max 200 0 + f_mclt ex_peer.
Proof.
  destruct (dhcp_terms 200 (ex_client DHCPREQUEST4) DHCPACK4 0 ex_terms ex_lease_free lease_allocate ex_free) as [[[[lt' e]|] d']|] eqn:E; [|vm_compute in E; discriminate E..].
  destruct (lease_time_bounds 200 (ex_client DHCPREQUEST4) DHCPACK4 0 ex_terms ex_lease_free lease_allocate ex_free lt' e d') as (-> & t & f & Hf & Ht & H); [by apply values_check; vm_compute|by apply values_check; vm_compute|exact E|]. exists lt', e. split; [reflexivity|].
  destruct f as [f|]; [|vm_compute in Hf; discriminate Hf]. assert (f = ex_peer) as -> by (vm_compute in Hf; by injection Hf as <-). destruct H as (H1 & H2 & _); [by vm_compute|]. split; [apply H1|exact H2].
Defined.

Lemma ack_recorded_witness : exists v', ack_lease ex_io ex_random 200 24 ex_site ex_itf [] (ex_client DHCPREQUEST4) (Dynamic 1) 1%positive DHCPACK4 0 ex_terms ex_server = Some v' /\
  exists r e s' tr, replies v' = [r] /\ r_type r = DHCPACK4 /\ leases (base v') !! 1%positive = Some s' /\ granted 200 (ex_client DHCPREQUEST4) e s' /\
    events (base v') = events ex_free ++ tr /\ written 1%positive (granted 200 (ex_client DHCPREQUEST4) e) true tr.
Proof.
  destruct (ack_lease ex_io ex_random 200 24 ex_site ex_itf [] (ex_client DHCPREQUEST4) (Dynamic 1) 1%positive DHCPACK4 0 ex_terms ex_server) as [v'|] eqn:E; [|vm_compute in E; discriminate E].
  exists v'. split; [reflexivity|]. assert (Hr : r_type <$> replies v' = [DHCPACK4]) by (vm_compute in E; injection E as <-; vm_compute; reflexivity).
  destruct (ack_recorded ex_io ex_random 200 24 ex_site ex_itf [] (ex_client DHCPREQUEST4) 1%positive 1%positive ex_terms ex_server v' ex_lease_free) as [H|[(r & H & Ht)|(r & e & s' & tr & H & Ht & _ & _ & _ & Hs & Hg & He & Hw & _)]];
    [vm_compute; reflexivity|vm_compute; reflexivity|vm_compute; reflexivity|vm_compute; reflexivity|exact E| | |].
  - rewrite H in Hr. discriminate Hr.
  - rewrite H in Hr. cbn in Hr. rewrite Ht in Hr. discriminate Hr.
  - exists r, e, s', tr. split_and!; [exact H|exact Ht|exact Hs|exact Hg|exact He|exact Hw].
Defined.

Definition ex_events : list (Z * client_event) := [(200, Packet (ex_client DHCPDISCOVER4)); (200, Echo 77); (200, Request 1 [] None (ex_client 0))].

Lemma service_goes_on_witness : exists v', attend_all ex_io ex_random 24 ex_site ex_itf [] (fun _ _ _ => ex_terms) (fun _ _ => 1%positive) ex_events ex_server = Some v' /\ attending 24 ex_site v'.
Proof.
  destruct (service_goes_on ex_io ex_random 24 ex_site ex_itf [] (fun _ _ _ => ex_terms) (fun _ _ => 1%positive) ex_events ex_server) as (v' & E & Hv & _).
  - intros. apply ex_terms_fine.
  - assert (packet_fine (ex_client DHCPDISCOVER4)) by (split; [reflexivity|]; change (bytes_ok [9]); repeat constructor; vm_compute; discriminate).
    assert (packet_fine (ex_client 0)) by (split; [reflexivity|]; change (bytes_ok [9]); repeat constructor; vm_compute; discriminate).
    intros now ev. unfold ex_events. rewrite !elem_of_cons. intros [[= -> ->]|[[= -> ->]|[[= -> ->]|E%not_elem_of_nil]]]; done.
  - apply ex_attending.
  - exists v'. split; [exact E|exact Hv].
Defined.
