(* ===== verification/DhcpClient.v ===== *)
(** * The DHCPv4 client

    The state machine of client/dhclient.c: discovering a server, selecting an offer, requesting, binding, renewing and losing a lease, the
    timers that drive it, and the calls of the other programs ([init_session], [terminate_session], [request_info]).

    There is one client on one interface.  The library the client is linked with comes in binary form; what the client uses of it is an argument: the
    timers are the class [Timeouts], and the rest is in [outside] (random numbers, the results of the script, whether a lease could be
    written, which servers are rejected, and what parsing and statements do to options).  The options of a message or a lease are the
    data that looking them up and evaluating them gives.  Memory is not exhausted.  Of an outgoing packet the members that depend on the
    state are kept, and which address and server it names, in host order; random numbers fit in their members; DNS updates, the environment of the script and the alias are left out. *)

From stdpp Require Import gmap.
From S2P Require Import Prelude MosOptions.

#[local] Open Scope Z_scope.

(** ** Data *)

Inductive dhcp_state := S_REBOOTING | S_INIT | S_SELECTING | S_REQUESTING | S_BOUND | S_RENEWING | S_REBINDING | S_STOPPED | S_INFORM.

#[export] Instance dhcp_state_eq_dec : EqDecision dhcp_state.
Proof. solve_decision. Defined.

(** The functions timers call, and the others that call each other. *)
Inductive func := state_reboot | state_init | state_selecting | send_discover | state_panic | send_request | state_bound | bind_lease.

#[export] Instance func_eq_dec : EqDecision func.
Proof. solve_decision. Defined.

(** [struct client_lease]; [lease_id] stands for its address, and a list of strings for a pointer into the list of media. *)
Record client_lease := mkClientLease {
  lease_id : positive; expiry : Z; renewal : Z; rebind : Z; address : list Z; server_name : option (list Z); filename : option (list Z);
  lease_medium : list string; is_bootp : bool; options : gmap Z (list Z)
}.
Definition set_times (e r b : Z) (l : client_lease) : client_lease :=
  mkClientLease (lease_id l) e r b (address l) (server_name l) (filename l) (lease_medium l) (is_bootp l) (options l).
Definition set_lease_medium (m : list string) (l : client_lease) : client_lease :=
  mkClientLease (lease_id l) (expiry l) (renewal l) (rebind l) (address l) (server_name l) (filename l) m (is_bootp l) (options l).
Definition set_is_bootp (b : bool) (l : client_lease) : client_lease :=
  mkClientLease (lease_id l) (expiry l) (renewal l) (rebind l) (address l) (server_name l) (filename l) (lease_medium l) b (options l).

(** [client -> packet] *)
Record out_packet := mkOutPacket { o_type : Z; o_xid : Z; o_secs : Z; o_flags : Z; o_ciaddr : list Z; o_giaddr : list Z; o_requested : option (list Z); o_server_id : option (list Z) }.
Definition set_o_secs (v : Z) (p : out_packet) : out_packet := mkOutPacket (o_type p) (o_xid p) v (o_flags p) (o_ciaddr p) (o_giaddr p) (o_requested p) (o_server_id p).

(** [struct packet] with [struct dhcp_packet]; the options of the two MIH universes are apart. *)
Record packet := mkPacket {
  packet_type : Z; options_valid : bool; client_addr : list Z; packet_options : gmap Z (list Z);
  raw_op : Z; raw_xid : Z; raw_hlen : Z; raw_chaddr : list Z; raw_yiaddr : list Z; raw_sname : list Z; raw_file : list Z;
  mos_ip : universe; mos_fqdn : universe
}.

(** [struct client_config], and of the interface its hardware address, its type first, and whether it takes unicast. *)
Record client_config := mkConfig {
  timeout : Z; initial_interval : Z; retry_interval : Z; select_interval : Z; reboot_timeout : Z; backoff_cutoff : Z;
  media : list string; required_options : list Z; vendor_space_name : bool; onetry : bool;
  hw_address : list Z; can_receive_unicast_unconfigured : bool; giaddr : list Z
}.

Record outside := mkOutside {
  random : nat -> Z; script_result : nat -> Z; write_ok : nat -> bool; reject_list : list Z -> bool;
  parse_encapsulated_suboptions : list Z -> gmap Z (list Z) -> gmap Z (list Z); on_receipt : gmap Z (list Z) -> gmap Z (list Z)
}.

Inductive event :=
| script (reason : string) | send_packet (p : out_packet) (from to : list Z) | write_client_lease (l : client_lease) (release : bool)
| app_callback (l : list mih_options).

Definition DHCPDISCOVER : Z := 1.
Definition DHCPOFFER : Z := 2.
Definition DHCPREQUEST : Z := 3.
Definition DHCPDECLINE : Z := 4.
Definition DHCPACK : Z := 5.
Definition DHCPNAK : Z := 6.
Definition DHCPRELEASE : Z := 7.
Definition DHCPINFORM : Z := 8.
Definition DHO_VENDOR_ENCAPSULATED_OPTIONS : Z := 43.
Definition DHO_DHCP_LEASE_TIME : Z := 51.
Definition DHO_DHCP_OPTION_OVERLOAD : Z := 52.
Definition DHO_DHCP_SERVER_IDENTIFIER : Z := 54.
Definition DHO_DHCP_RENEWAL_TIME : Z := 58.
Definition DHO_DHCP_REBINDING_TIME : Z := 59.
Definition BOOTREPLY : Z := 2.
Definition BOOTP_BROADCAST : Z := 32768.
Definition TIME_MAX : Z := 2147483647.
Definition iaddr_broadcast : list Z := [255; 255; 255; 255].
Definition inaddr_any : list Z := [0; 0; 0; 0].

(** [getULong] *)
Definition getULong (l : list Z) : Z := le_val (reverse (take 4 l)).

(** [int] of a time *)
Definition int_of (v : Z) : Z := (v + 2147483648) mod 4294967296 - 2147483648.

(** ** Timers *)

Class Timeouts (T : Type) := {
  add_timeout : func -> Z -> T -> T;
  cancel_timeout : func -> T -> T;
  pending : T -> func -> option Z
}.

(** A function has at most one timer for a client. *)
Class TimeoutsLaws (T : Type) `{Timeouts T} : Prop := {
  pending_add f v (q : T) g : pending (add_timeout f v q) g = if decide (g = f) then Some v else pending q g;
  pending_cancel f (q : T) g : pending (cancel_timeout f q) g = if decide (g = f) then None else pending q g
}.

Section Client.
Context {T : Type} `{Timeouts T}.

(** [struct client_state], with how often the outside was asked, and what was done. *)
Record client := mkClient {
  c_state : dhcp_state; c_active : option client_lease; c_new : option client_lease; c_offered_leases : list client_lease;
  c_leases : list client_lease; c_destination : list Z; c_xid : Z; c_secs : Z; c_first_sending : Z; c_interval : Z;
  c_medium : list string; c_packet : out_packet; c_requested_address : list Z; c_timeouts : T; c_draws : nat; c_scripts : nat;
  c_writes : nat; c_allocated : positive; c_events : list event
}.

Definition set_c_state v s := mkClient v (c_active s) (c_new s) (c_offered_leases s) (c_leases s) (c_destination s) (c_xid s)
  (c_secs s) (c_first_sending s) (c_interval s) (c_medium s) (c_packet s) (c_requested_address s) (c_timeouts s) (c_draws s)
  (c_scripts s) (c_writes s) (c_allocated s) (c_events s).
Definition set_c_active v s := mkClient (c_state s) v (c_new s) (c_offered_leases s) (c_leases s) (c_destination s) (c_xid s)
  (c_secs s) (c_first_sending s) (c_interval s) (c_medium s) (c_packet s) (c_requested_address s) (c_timeouts s) (c_draws s)
  (c_scripts s) (c_writes s) (c_allocated s) (c_events s).
Definition set_c_new v s := mkClient (c_state s) (c_active s) v (c_offered_leases s) (c_leases s) (c_destination s) (c_xid s)
  (c_secs s) (c_first_sending s) (c_interval s) (c_medium s) (c_packet s) (c_requested_address s) (c_timeouts s) (c_draws s)
  (c_scripts s) (c_writes s) (c_allocated s) (c_events s).
Definition set_c_offered_leases v s := mkClient (c_state s) (c_active s) (c_new s) v (c_leases s) (c_destination s) (c_xid s)
  (c_secs s) (c_first_sending s) (c_interval s) (c_medium s) (c_packet s) (c_requested_address s) (c_timeouts s) (c_draws s)
  (c_scripts s) (c_writes s) (c_allocated s) (c_events s).
Definition set_c_leases v s := mkClient (c_state s) (c_active s) (c_new s) (c_offered_leases s) v (c_destination s) (c_xid s)
  (c_secs s) (c_first_sending s) (c_interval s) (c_medium s) (c_packet s) (c_requested_address s) (c_timeouts s) (c_draws s)
  (c_scripts s) (c_writes s) (c_allocated s) (c_events s).
Definition set_c_destination v s := mkClient (c_state s) (c_active s) (c_new s) (c_offered_leases s) (c_leases s) v (c_xid s)
  (c_secs s) (c_first_sending s) (c_interval s) (c_medium s) (c_packet s) (c_requested_address s) (c_timeouts s) (c_draws s)
  (c_scripts s) (c_writes s) (c_allocated s) (c_events s).
Definition set_c_xid v s := mkClient (c_state s) (c_active s) (c_new s) (c_offered_leases s) (c_leases s) (c_destination s) v
  (c_secs s) (c_first_sending s) (c_interval s) (c_medium s) (c_packet s) (c_requested_address s) (c_timeouts s) (c_draws s)
  (c_scripts s) (c_writes s) (c_allocated s) (c_events s).
Definition set_c_secs v s := mkClient (c_state s) (c_active s) (c_new s) (c_offered_leases s) (c_leases s) (c_destination s)
  (c_xid s) v (c_first_sending s) (c_interval s) (c_medium s) (c_packet s) (c_requested_address s) (c_timeouts s) (c_draws s)
  (c_scripts s) (c_writes s) (c_allocated s) (c_events s).
Definition set_c_first_sending v s := mkClient (c_state s) (c_active s) (c_new s) (c_offered_leases s) (c_leases s)
  (c_destination s) (c_xid s) (c_secs s) v (c_interval s) (c_medium s) (c_packet s) (c_requested_address s) (c_timeouts s)
  (c_draws s) (c_scripts s) (c_writes s) (c_allocated s) (c_events s).
Definition set_c_interval v s := mkClient (c_state s) (c_active s) (c_new s) (c_offered_leases s) (c_leases s) (c_destination s)
  (c_xid s) (c_secs s) (c_first_sending s) v (c_medium s) (c_packet s) (c_requested_address s) (c_timeouts s) (c_draws s)
  (c_scripts s) (c_writes s) (c_allocated s) (c_events s).
Definition set_c_medium v s := mkClient (c_state s) (c_active s) (c_new s) (c_offered_leases s) (c_leases s) (c_destination s)
  (c_xid s) (c_secs s) (c_first_sending s) (c_interval s) v (c_packet s) (c_requested_address s) (c_timeouts s) (c_draws s)
  (c_scripts s) (c_writes s) (c_allocated s) (c_events s).
Definition set_c_packet v s := mkClient (c_state s) (c_active s) (c_new s) (c_offered_leases s) (c_leases s) (c_destination s)
  (c_xid s) (c_secs s) (c_first_sending s) (c_interval s) (c_medium s) v (c_requested_address s) (c_timeouts s) (c_draws s)
  (c_scripts s) (c_writes s) (c_allocated s) (c_events s).
Definition set_c_requested_address v s := mkClient (c_state s) (c_active s) (c_new s) (c_offered_leases s) (c_leases s)
  (c_destination s) (c_xid s) (c_secs s) (c_first_sending s) (c_interval s) (c_medium s) (c_packet s) v (c_timeouts s) (c_draws
  s) (c_scripts s) (c_writes s) (c_allocated s) (c_events s).
Definition set_c_timeouts v s := mkClient (c_state s) (c_active s) (c_new s) (c_offered_leases s) (c_leases s) (c_destination s)
  (c_xid s) (c_secs s) (c_first_sending s) (c_interval s) (c_medium s) (c_packet s) (c_requested_address s) v (c_draws s)
  (c_scripts s) (c_writes s) (c_allocated s) (c_events s).
Definition set_c_draws v s := mkClient (c_state s) (c_active s) (c_new s) (c_offered_leases s) (c_leases s) (c_destination s)
  (c_xid s) (c_secs s) (c_first_sending s) (c_interval s) (c_medium s) (c_packet s) (c_requested_address s) (c_timeouts s) v
  (c_scripts s) (c_writes s) (c_allocated s) (c_events s).
Definition set_c_scripts v s := mkClient (c_state s) (c_active s) (c_new s) (c_offered_leases s) (c_leases s) (c_destination s)
  (c_xid s) (c_secs s) (c_first_sending s) (c_interval s) (c_medium s) (c_packet s) (c_requested_address s) (c_timeouts s)
  (c_draws s) v (c_writes s) (c_allocated s) (c_events s).
Definition set_c_writes v s := mkClient (c_state s) (c_active s) (c_new s) (c_offered_leases s) (c_leases s) (c_destination s)
  (c_xid s) (c_secs s) (c_first_sending s) (c_interval s) (c_medium s) (c_packet s) (c_requested_address s) (c_timeouts s)
  (c_draws s) (c_scripts s) v (c_allocated s) (c_events s).
Definition set_c_allocated v s := mkClient (c_state s) (c_active s) (c_new s) (c_offered_leases s) (c_leases s) (c_destination
  s) (c_xid s) (c_secs s) (c_first_sending s) (c_interval s) (c_medium s) (c_packet s) (c_requested_address s) (c_timeouts s)
  (c_draws s) (c_scripts s) (c_writes s) v (c_events s).
Definition set_c_events v s := mkClient (c_state s) (c_active s) (c_new s) (c_offered_leases s) (c_leases s) (c_destination s)
  (c_xid s) (c_secs s) (c_first_sending s) (c_interval s) (c_medium s) (c_packet s) (c_requested_address s) (c_timeouts s)
  (c_draws s) (c_scripts s) (c_writes s) (c_allocated s) v.

(** ** The monad *)

(** [Crash]: a null pointer is followed, memory outside a buffer is written, or a number divided by zero.  [Stop]: the program ends, by [exit] or [log_fatal].  [Loop]: the rounds did not suffice. *)
Inductive res (A : Type) := Crash | Stop | Loop | Ok (a : A) (c : client).
Arguments Crash {A}.
Arguments Stop {A}.
Arguments Loop {A}.
Arguments Ok {A} a c.

Definition MC (A : Type) : Type := client -> res A.

#[export] Instance MC_ret : MRet MC := fun A a c => Ok a c.
#[export] Instance MC_bind : MBind MC := fun A B f m c => match m c with Crash => Crash | Stop => Stop | Loop => Loop | Ok a c' => f a c' end.

Definition getc {A} (f : client -> A) : MC A := fun c => Ok (f c) c.
Definition setc (f : client -> client) : MC unit := fun c => Ok tt (f c).
Definition followc {A} (o : option A) : MC A := fun c => match o with Some a => Ok a c | None => Crash end.
Definition stop {A} : MC A := fun _ => Stop.
Definition remainder (a b : Z) : MC Z := fun c => if b =? 0 then Crash else Ok (Z.rem a b) c.
Definition loops {A} : MC A := fun _ => Loop.
Definition emitc (e : event) : MC unit := setc (fun c => set_c_events (c_events c ++ [e]) c).

Context (cfg : client_config) (out : outside) (cur_time : Z).

Definition draw : MC Z := k ← getc c_draws; setc (set_c_draws (S k)) ;; mret (random out k).

(** [script_init], [script_write_params] and [script_go] *)
Definition script_go (reason : string) : MC Z :=
  emitc (script reason) ;; k ← getc c_scripts; setc (set_c_scripts (S k)) ;; mret (script_result out k).

Definition add (f : func) (tv_sec : Z) : MC unit := setc (fun c => set_c_timeouts (add_timeout f tv_sec (c_timeouts c)) c).
Definition cancel (f : func) : MC unit := setc (fun c => set_c_timeouts (cancel_timeout f (c_timeouts c)) c).

(** ** Packets *)

Definition unconfigured_flags : Z := if can_receive_unicast_unconfigured cfg then 0 else BOOTP_BROADCAST.

(** [make_client_options], as far as the client itself is changed. *)
Definition make_client_options (rip : option (list Z)) : MC unit := setc (set_c_requested_address (default [] rip)).

Definition make_discover (lease : option client_lease) : MC unit :=
  make_client_options (address <$> lease) ;;
  xid ← draw;
  setc (set_c_packet (mkOutPacket DHCPDISCOVER xid 0 unconfigured_flags inaddr_any (giaddr cfg) (address <$> lease) None)).

(** The client has the address it asks for. *)
Definition owns_address (s : dhcp_state) : bool := bool_decide (s = S_BOUND) || bool_decide (s = S_RENEWING) || bool_decide (s = S_REBINDING).

Definition make_request (lease : client_lease) : MC unit :=
  st ← getc c_state; xid ← getc c_xid;
  let rip := if bool_decide (st = S_REQUESTING) || bool_decide (st = S_REBOOTING) then Some (address lease) else None in
  make_client_options rip ;;
  setc (set_c_packet (mkOutPacket DHCPREQUEST xid 0 (if owns_address st then 0 else unconfigured_flags) (if owns_address st then address lease else inaddr_any)
    (if negb (bool_decide (st = S_BOUND)) && negb (bool_decide (st = S_RENEWING)) then giaddr cfg else inaddr_any) rip
    (if bool_decide (st = S_REQUESTING) then options lease !! DHO_DHCP_SERVER_IDENTIFIER else None))).

Definition make_inform (lease : option client_lease) : MC unit :=
  st ← getc c_state; xid ← getc c_xid;
  make_client_options None ;;
  ciaddr ← (if owns_address st then l ← followc lease; mret (address l) else mret inaddr_any);
  setc (set_c_packet (mkOutPacket DHCPINFORM xid 0 (if owns_address st then 0 else unconfigured_flags) ciaddr
    (if negb (bool_decide (st = S_BOUND)) && negb (bool_decide (st = S_RENEWING)) then giaddr cfg else inaddr_any) None None)).

Definition make_decline (lease : client_lease) : MC unit :=
  xid ← getc c_xid;
  make_client_options (Some (address lease)) ;;
  setc (set_c_packet (mkOutPacket DHCPDECLINE xid 0 unconfigured_flags inaddr_any (giaddr cfg) (Some (address lease)) (options lease !! DHO_DHCP_SERVER_IDENTIFIER))).

Definition make_release (lease : client_lease) : MC unit :=
  make_client_options None ;;
  xid ← draw;
  setc (set_c_packet (mkOutPacket DHCPRELEASE xid 0 0 (address lease) (giaddr cfg) None (options lease !! DHO_DHCP_SERVER_IDENTIFIER))).

Definition send (from to : list Z) : MC unit := p ← getc c_packet; emitc (send_packet p from to).
Definition send_decline : MC unit := send inaddr_any iaddr_broadcast.
Definition send_inform : MC unit := send inaddr_any iaddr_broadcast.

(** Where a lease came from; broadcast if it does not say. *)
Definition server_of (lease : client_lease) : list Z :=
  match options lease !! DHO_DHCP_SERVER_IDENTIFIER with
  | Some ds => if (3 <? length ds)%nat then take 4 ds else iaddr_broadcast
  | None => iaddr_broadcast
  end.

(** Up to the first zero, or the whole array. *)
Fixpoint until_nul (l : list Z) : list Z := match l with [] => [] | b :: l => if b =? 0 then [] else b :: until_nul l end.

Definition packet_to_lease (p : packet) : MC client_lease :=
  k ← getc c_allocated; setc (set_c_allocated (Pos.succ k)) ;;
  let opts := packet_options p in
  let opts := if vendor_space_name cfg then
                match opts !! DHO_VENDOR_ENCAPSULATED_OPTIONS with
                | Some data => if bool_decide (data = []) then opts else parse_encapsulated_suboptions out data opts
                | None => opts
                end
              else opts in
  let i := match opts !! DHO_DHCP_OPTION_OVERLOAD with Some data => default 0 (head data) | None => 0 end in
  mret (mkClientLease k 0 0 0 (raw_yiaddr p)
    (if (Z.land i 2 =? 0) && negb (default 0 (head (raw_sname p)) =? 0) then Some (until_nul (raw_sname p)) else None)
    (if (Z.land i 1 =? 0) && negb (default 0 (head (raw_file p)) =? 0) then Some (until_nul (raw_file p)) else None)
    [] false (on_receipt out opts)).

(** ** Sending *)

(** [if (interval < 65536)] *)
Definition secs_of (interval : Z) : Z := if interval <? 65536 then interval mod 65536 else 65535.

(** The loop over the media of [send_discover]; the result is [increase]. *)
Fixpoint try_media (n : nat) (fail increase : bool) : MC bool :=
  match n with
  | O => loops
  | S n =>
      m ← getc c_medium;
      let increase := if bool_decide (m = []) then increase else false in
      setc (set_c_medium (tail m)) ;;
      increase ← (if bool_decide (tail m = []) then (if fail then stop else setc (set_c_medium (media cfg)) ;; mret true) else mret increase);
      r ← script_go "MEDIUM";
      if negb (r =? 0) then try_media n true increase else mret increase
  end.

(** A longer interval, but not past the cutoff. *)
Definition back_off (shift : Z -> Z) : MC unit :=
  i ← getc c_interval;
  (if i =? 0 then setc (set_c_interval (initial_interval cfg))
   else r ← draw; x ← remainder (shift r) (2 * i); setc (set_c_interval (i + x))) ;;
  i ← getc c_interval;
  if backoff_cutoff cfg <? i then
    r ← draw; x ← remainder (shift r) (backoff_cutoff cfg); setc (set_c_interval (Z.quot (backoff_cutoff cfg) 2 + x))
  else mret tt.

(** No increase while media are tried. *)
Definition grow (increase : bool) : MC unit :=
  i ← getc c_interval;
  if increase then back_off id else if i =? 0 then setc (set_c_interval (initial_interval cfg)) else mret tt.

(** If the interval would go past [t], it ends there. *)
Definition limit_to (t : Z) : MC unit :=
  i ← getc c_interval; if t <? cur_time + i then setc (set_c_interval (t - cur_time + 1)) else mret tt.

(** [send_discover] when it is not too late *)
Definition discover (interval : Z) : MC unit :=
  offered ← getc c_offered_leases; m ← getc c_medium;
  increase ← (if bool_decide (offered = []) && negb (bool_decide (media cfg = [])) then try_media (2 + length m + length (media cfg)) false true
              else mret true);
  grow increase ;;
  first ← getc c_first_sending; limit_to (first + timeout cfg) ;;
  setc (fun c => set_c_packet (set_o_secs (secs_of interval) (c_packet c)) c) ;;
  setc (set_c_secs (secs_of interval)) ;;
  send inaddr_any iaddr_broadcast ;;
  i ← getc c_interval; add send_discover (cur_time + i).

(** The end of [send_request] *)
Definition send_again (st : dhcp_state) (interval : Z) (from to : list Z) : MC unit :=
  secs ← getc c_secs;
  setc (fun c => set_c_packet (set_o_secs (if bool_decide (st = S_REQUESTING) then secs else secs_of interval) (c_packet c)) c) ;;
  send from to ;;
  i ← getc c_interval; add send_request (cur_time + i).

(** [send_request] when the lease is not over *)
Definition request (interval : Z) : MC unit :=
  st ← getc c_state;
  back_off (fun r => Z.shiftr r 2) ;;
  active ← getc c_active;
  (if bool_decide (st = S_REQUESTING) then mret tt else l ← followc active; limit_to (expiry l)) ;;
  dest ← getc c_destination;
  to ← (if bool_decide (st = S_REQUESTING) || bool_decide (st = S_REBOOTING) then mret iaddr_broadcast
        else l ← followc active; mret (if rebind l <? cur_time then iaddr_broadcast else dest));
  from ← (if bool_decide (st = S_RENEWING) || bool_decide (st = S_REBINDING) then l ← followc active; mret (address l) else mret inaddr_any);
  send_again st interval from to.

(** ** Panic *)

Inductive panic_result := bound_later | bound_now | no_lease.

(** [activate_next]: the active lease goes to the end of the list, and the first one becomes active. *)
Definition activate_next : MC unit :=
  active ← getc c_active; ls ← getc c_leases;
  match ls ++ option_list active with
  | [] => mret tt
  | l :: ls => setc (set_c_active (Some l)) ;; setc (set_c_leases ls)
  end.

(** [while (client -> active)]; [loop] is the lease that was tried first. *)
Fixpoint panic_loop (n : nat) (loop : option positive) : MC panic_result :=
  match n with
  | O => loops
  | S n =>
      active ← getc c_active;
      match active with
      | None => mret no_lease
      | Some l =>
          works ← (if cur_time <? expiry l then r ← script_go "TIMEOUT"; mret (r =? 0) else mret false);
          if (works : bool) then mret (if cur_time <? renewal l then bound_later else bound_now)
          else
            ls ← getc c_leases;
            if bool_decide (ls = []) then setc (set_c_leases [l]) ;; setc (set_c_active None) ;; mret no_lease
            else next_lease n loop
      end
  end
(** From [activate_next] on *)
with next_lease (n : nat) (loop : option positive) : MC panic_result :=
  match n with
  | O => loops
  | S n =>
      activate_next ;;
      active ← getc c_active;
      if bool_decide (lease_id <$> active = loop) then mret no_lease
      else panic_loop n (match loop with None => lease_id <$> active | Some _ => loop end)
  end.

(** The search of [state_panic] *)
Definition find_lease : MC panic_result :=
  active ← getc c_active; ls ← getc c_leases;
  let rounds := (6 + 2 * length ls)%nat in
  if bool_decide (active = None) && negb (bool_decide (ls = [])) then next_lease rounds None else panic_loop rounds (lease_id <$> active).

(** ** The state machine *)

(** [client -> first_sending = cur_time; client -> interval = client -> config -> initial_interval] *)
Definition start_sending : MC unit := setc (set_c_first_sending cur_time) ;; setc (set_c_interval (initial_interval cfg)).

(** [client -> state = S_INIT; state_init (client)] and the like: [call] is a call with fewer rounds left. *)
Section Bodies.
Context (call : func -> MC unit).

Definition reboot_body : MC unit :=
  active ← getc c_active;
  match active with
  | Some l =>
      if is_bootp l || (expiry l <=? cur_time) then call state_init
      else
        setc (set_c_state S_REBOOTING) ;;
        x ← draw; setc (set_c_xid x) ;;
        make_request l ;;
        setc (set_c_destination iaddr_broadcast) ;; start_sending ;; setc (set_c_medium []) ;;
        call send_request
  | None => call state_init
  end.

Definition init_body : MC unit :=
  active ← getc c_active;
  make_discover active ;;
  p ← getc c_packet; setc (set_c_xid (o_xid p)) ;;
  setc (set_c_destination iaddr_broadcast) ;; setc (set_c_state S_SELECTING) ;; start_sending ;;
  call send_discover.

Definition selecting_body : MC unit :=
  cancel state_selecting ;; cancel send_discover ;;
  offered ← getc c_offered_leases;
  setc (set_c_offered_leases []) ;;
  match offered with
  | [] => setc (set_c_state S_INIT) ;; call state_init
  | picked :: _ =>
      if is_bootp picked then
        setc (set_c_new (Some (set_times (cur_time + 12000) (renewal picked + (cur_time + 8000)) (rebind picked + (cur_time + 10000)) picked))) ;;
        setc (set_c_state S_REQUESTING) ;;
        call bind_lease
      else
        setc (set_c_destination iaddr_broadcast) ;; setc (set_c_state S_REQUESTING) ;; start_sending ;;
        make_request picked ;;
        p ← getc c_packet; setc (set_c_xid (o_xid p)) ;;
        call send_request
  end.

Definition discover_body : MC unit :=
  first ← getc c_first_sending;
  let interval := int_of (cur_time - first) in
  if timeout cfg <? interval then call state_panic else discover interval.

Definition panic_body : MC unit :=
  r ← find_lease;
  match r with
  | bound_later =>
      setc (set_c_state S_BOUND) ;; active ← getc c_active; l ← followc active; add state_bound (renewal l)
  | bound_now => setc (set_c_state S_BOUND) ;; call state_bound
  | no_lease =>
      if onetry cfg then stop
      else
        script_go "FAIL" ;;
        setc (set_c_state S_INIT) ;;
        x ← draw; x ← remainder x (retry_interval cfg);
        add state_init (cur_time + (Z.quot (retry_interval cfg + 1) 2 + x))
  end.

(** The label [cancel] of [send_request] *)
Definition give_up_request : MC unit := setc (set_c_state S_INIT) ;; cancel send_request ;; call state_init.

(** The medium of a lease the client had before it was started; false if it does not work. *)
Definition reboot_medium : MC bool :=
  st ← getc c_state; m ← getc c_medium; active ← getc c_active;
  if bool_decide (st = S_REBOOTING) && bool_decide (m = []) then
    l ← followc active;
    if bool_decide (lease_medium l = []) then mret true
    else
      r ← script_go "MEDIUM";
      if negb (r =? 0) then mret false else setc (set_c_medium (lease_medium l)) ;; mret true
  else mret true.

Definition request_body : MC unit :=
  first ← getc c_first_sending; st ← getc c_state;
  let interval := int_of (cur_time - first) in
  if (bool_decide (st = S_REBOOTING) || bool_decide (st = S_REQUESTING)) && (reboot_timeout cfg <? interval) then give_up_request
  else
    ok ← reboot_medium;
    if negb ok then give_up_request
    else
      active ← getc c_active;
      over ← (if bool_decide (st = S_REQUESTING) then mret false else l ← followc active; mret (expiry l <? cur_time));
      if (over : bool) then script_go "EXPIRE" ;; script_go "PREINIT" ;; setc (set_c_state S_INIT) ;; call state_init
      else request interval.

Definition bound_body : MC unit :=
  active ← getc c_active; l ← followc active;
  make_request l ;;
  p ← getc c_packet; setc (set_c_xid (o_xid p)) ;;
  setc (set_c_destination (server_of l)) ;; start_sending ;; setc (set_c_state S_RENEWING) ;;
  call send_request.

Definition bind_body : MC unit :=
  cancel state_reboot ;;
  m ← getc c_medium; new ← getc c_new; l ← followc new;
  let l := set_lease_medium m l in
  setc (set_c_new (Some l)) ;;
  st ← getc c_state;
  r ← script_go (if bool_decide (st = S_REQUESTING) then "BOUND" else if bool_decide (st = S_RENEWING) then "RENEW"
                 else if bool_decide (st = S_REBOOTING) then "REBOOT" else "REBIND");
  if negb (r =? 0) then make_decline l ;; send_decline ;; setc (set_c_new None) ;; call state_init
  else
    emitc (write_client_lease l false) ;;
    setc (set_c_active (Some l)) ;; setc (set_c_new None) ;;
    add state_bound (renewal l) ;;
    setc (set_c_state S_BOUND).

End Bodies.

Fixpoint call (n : nat) (f : func) : MC unit :=
  match n with
  | O => loops
  | S n =>
      match f with
      | state_reboot => reboot_body (call n)
      | state_init => init_body (call n)
      | state_selecting => selecting_body (call n)
      | send_discover => discover_body (call n)
      | state_panic => panic_body (call n)
      | send_request => request_body (call n)
      | state_bound => bound_body (call n)
      | bind_lease => bind_body (call n)
      end
  end.

(** ** Messages *)

(** The message is for this client. *)
Definition for_us (p : packet) : MC bool :=
  xid ← getc c_xid;
  mret ((xid =? raw_xid p) && (Z.of_nat (length (hw_address cfg)) - 1 =? raw_hlen p) &&
        bool_decide (tail (hw_address cfg) = take (Z.to_nat (raw_hlen p)) (raw_chaddr p))).

(** A time of an ACK; zero if there is none. *)
Definition time_option (opts : gmap Z (list Z)) (code : Z) : Z := match opts !! code with Some ds => if (3 <? length ds)%nat then getULong ds else 0 | None => 0 end.

(** [if (client -> new -> renewal <= TIME_MAX / 3 - 3)] *)
Definition spread_renewal (renewal : Z) : MC Z :=
  if renewal <=? Z.quot TIME_MAX 3 - 3 then
    r ← draw; x ← remainder r renewal; mret (Z.quot (renewal * 3 + 3) 4 + Z.quot (x + 3) 4)
  else mret renewal.

(** The times of a new lease, relative to now; [e] is when it ends. *)
Definition relative_times (opts : gmap Z (list Z)) (e : Z) : MC (Z * Z * Z) :=
  let e := if e <? 0 then TIME_MAX else e in
  let r := time_option opts DHO_DHCP_RENEWAL_TIME in
  let r := if r =? 0 then Z.quot e 2 + 1 else r in
  let r := if r <=? 0 then TIME_MAX else r in
  r ← spread_renewal r;
  let b := time_option opts DHO_DHCP_REBINDING_TIME in
  let b := if b <=? 0 then (if e <=? Z.quot TIME_MAX 7 then Z.quot (e * 7) 8 else Z.quot e 8 * 7) else b in
  let r := if b <? r then (if b <=? Z.quot TIME_MAX 3 then Z.quot (b * 3) 4 else Z.quot b 4 * 3) else r in
  mret (e, r, b).

(** [t += cur_time; if (t < cur_time) t = TIME_MAX] *)
Definition absolute (t : Z) : Z := if t + cur_time <? cur_time then TIME_MAX else t + cur_time.

(** [decode_mih_options] (MosOptions.v) on the options of the packet.  Nothing was written to its text buffer before: what is written there
    leaves it. *)
Definition decode_mih (p : packet) : MC unit :=
  match decode_mih_options (replicate ipv4_buf_size 0) (mos_ip p) (mos_fqdn p) with
  | Some (_, Some head) => emitc (app_callback head)
  | Some (_, None) => mret tt
  | None => fun _ => Crash
  end.

Definition dhcpack (n : nat) (p : packet) : MC unit :=
  mine ← for_us p; st ← getc c_state;
  if negb mine then mret tt
  else if bool_decide (st = S_INFORM) then setc (set_c_state S_BOUND) ;; decode_mih p
  else if negb (bool_decide (st ∈ [S_REBOOTING; S_REQUESTING; S_RENEWING; S_REBINDING])) then mret tt
  else
    l ← packet_to_lease p;
    setc (set_c_new (Some l)) ;;
    cancel send_request ;;
    let e := time_option (options l) DHO_DHCP_LEASE_TIME in
    if e =? 0 then call n state_init
    else
      t ← relative_times (options l) e;
      let '(e, r, b) := t in
      setc (set_c_new (Some (set_times (absolute e) (absolute r) (absolute b) l))) ;;
      decode_mih p ;;
      call n bind_lease.

(** [find_required]: an option that has to be there is not. *)
Definition lacks_option (p : packet) : bool := existsb (fun code => bool_decide (packet_options p !! code = None)) (required_options cfg).

Definition dhcpoffer (n : nat) (p : packet) : MC unit :=
  mine ← for_us p; st ← getc c_state; offered ← getc c_offered_leases;
  if negb mine || negb (bool_decide (st = S_SELECTING)) then mret tt
  else if lacks_option p then mret tt
  else if existsb (fun l => bool_decide (address l = raw_yiaddr p)) offered then mret tt
  else
    l ← packet_to_lease p;
    m ← getc c_medium;
    let l := set_lease_medium m (set_is_bootp (negb (options_valid p) || (packet_type p =? 0)) l) in
    first ← getc c_first_sending; wanted ← getc c_requested_address;
    let stop_selecting := int_of (first + select_interval cfg) in
    setc (set_c_offered_leases (if bool_decide (address l = wanted) then l :: offered else offered ++ [l])) ;;
    if stop_selecting <=? 0 then call n state_selecting
    else add state_selecting stop_selecting ;; cancel send_discover.

Definition dhcpnak (n : nat) (p : packet) : MC unit :=
  mine ← for_us p; st ← getc c_state; active ← getc c_active;
  if negb mine || negb (bool_decide (st ∈ [S_REBOOTING; S_REQUESTING; S_RENEWING; S_REBINDING])) then mret tt
  else if bool_decide (active = None) then mret tt
  else
    script_go "EXPIRE" ;;
    setc (set_c_active None) ;;
    cancel send_request ;;
    script_go "PREINIT" ;;
    setc (set_c_state S_INIT) ;;
    call n state_init.

Definition dhcp (n : nat) (p : packet) : MC unit :=
  if negb (bool_decide (packet_type p ∈ [DHCPOFFER; DHCPNAK; DHCPACK])) || reject_list out (client_addr p) then mret tt
  else if packet_type p =? DHCPOFFER then dhcpoffer n p
  else if packet_type p =? DHCPNAK then dhcpnak n p
  else dhcpack n p.

Definition bootp (n : nat) (p : packet) : MC unit :=
  if negb (raw_op p =? BOOTREPLY) || reject_list out (client_addr p) then mret tt else dhcpoffer n p.

(** ** Control *)

Definition state_inform : MC unit :=
  active ← getc c_active;
  make_inform active ;;
  p ← getc c_packet; setc (set_c_xid (o_xid p)) ;;
  setc (set_c_destination iaddr_broadcast) ;; setc (set_c_state S_INFORM) ;; start_sending ;;
  send_inform.

Definition state_stop : MC unit :=
  cancel state_selecting ;; cancel send_discover ;; cancel send_request ;; cancel state_bound ;;
  active ← getc c_active;
  if bool_decide (active = None) then mret tt else script_go "STOP" ;; mret tt.

Definition client_location_changed (n : nat) : MC unit :=
  st ← getc c_state;
  (if bool_decide (st = S_SELECTING) then cancel send_discover
   else if bool_decide (st = S_BOUND) then cancel state_bound
   else if bool_decide (st ∈ [S_REBOOTING; S_REQUESTING; S_RENEWING]) then cancel send_request
   else mret tt) ;;
  setc (set_c_state S_INIT) ;;
  call n state_reboot.

(** [send_release]: the lease ends now. *)
Definition send_release (l : client_lease) : MC unit :=
  let l := set_times cur_time cur_time cur_time l in
  dest ← getc c_destination;
  setc (set_c_active (Some l)) ;;
  k ← getc c_writes; setc (set_c_writes (S k)) ;;
  emitc (write_client_lease l true) ;;
  if write_ok out k then send (address l) dest else mret tt.

Definition do_release : MC unit :=
  x ← draw; setc (set_c_xid x) ;;
  active ← getc c_active;
  (match active with
   | Some l =>
       make_release l ;;
       setc (set_c_destination (server_of l)) ;; start_sending ;; setc (set_c_medium []) ;;
       send_release l ;;
       script_go "RELEASE" ;; mret tt
   | None => mret tt
   end) ;;
  cancel state_bound ;; cancel send_discover ;; cancel state_init ;; cancel send_request ;; cancel state_reboot ;;
  setc (set_c_state S_STOPPED).

Definition terminate_session : MC unit := do_release.

Definition init_session (n : nat) : MC unit :=
  setc (set_c_state S_INIT) ;;
  x ← draw; add state_reboot (cur_time + Z.rem x 5) ;;
  call n state_init.

Definition request_info : MC unit := state_inform.

(** A timer goes off. *)
Definition fire (n : nat) (f : func) : MC unit :=
  q ← getc c_timeouts;
  match pending q f with
  | Some tv_sec => if tv_sec <=? cur_time then cancel f ;; call n f else mret tt
  | None => mret tt
  end.

(** What wakes the client up *)
Inductive input := timer (f : func) | message (p : packet) | bootreply (p : packet).

Definition handle (n : nat) (i : input) : MC unit := match i with timer f => fire n f | message p => dhcp n p | bootreply p => bootp n p end.

End Client.

Arguments client T : clear implicits.
Arguments res T A : clear implicits.
Arguments MC T A : clear implicits.
Arguments Crash {T A}.
Arguments Stop {T A}.
Arguments Loop {T A}.
Arguments Ok {T A} a c.

(** Inputs, each at its time *)
Fixpoint run {T} `{Timeouts T} (cfg : client_config) (out : outside) (n : nat) (inputs : list (Z * input)) : MC T unit :=
  match inputs with
  | [] => mret tt
  | (cur_time, i) :: inputs => handle cfg out cur_time n i ;; run cfg out n inputs
  end.
