(* ===== verification/DhcpClientProofs.v ===== *)
(** * The DHCPv4 client keeps going

    While a client runs, the timers that are set are those of its state, a client that uses an address has a lease, and every function
    returns: no null pointer is followed, and there is always a next step. *)

From stdpp Require Import gmap.
From S2P Require Import Prelude MosOptions DhcpClient.

#[local] Open Scope Z_scope.

(** What is known if the client crashes *)
Class MayCrash : Type := may_crash : Prop.

(** A message whose MIH options make the client leave a buffer *)
Definition mih_overflows (p : packet) : Prop := decode_mih_options (replicate ipv4_buf_size 0) (mos_ip p) (mos_fqdn p) = None.

Section Wp.
Context {T : Type} `{Timeouts T} {KC : MayCrash} (out : outside).

Notation client := (client T).
Notation MC := (MC T).

(** ** Running without a crash *)

(** [m] returns, with [Q], or ends the program, or crashes as it may. *)
Definition wp {A} (m : MC A) (Q : A -> client -> Prop) (c : client) : Prop :=
  match m c with Crash => may_crash | Loop => False | Stop => True | Ok a c' => Q a c' end.

Lemma wp_show {A} (m : MC A) Q c : wp m Q c -> match m c with Crash => may_crash | Loop => False | Stop => True | Ok a c' => Q a c' end.
Proof. done. Qed.

Lemma wp_bind {A B} (m : MC A) (f : A -> MC B) Q c : wp m (fun a => wp (f a) Q) c -> wp (m ≫= f) Q c.
Proof. unfold wp, mbind, MC_bind. by destruct (m c). Qed.

Lemma wp_ret {A} (a : A) (Q : A -> client -> Prop) c : Q a c -> wp (mret a) Q c.
Proof. done. Qed.

Lemma wp_mono {A} (m : MC A) (Q Q' : A -> client -> Prop) c : wp m Q c -> (forall a c', Q a c' -> Q' a c') -> wp m Q' c.
Proof. unfold wp. destruct (m c); auto. Qed.

Lemma wp_get {A} (f : client -> A) (Q : A -> client -> Prop) c : Q (f c) c -> wp (getc f) Q c.
Proof. done. Qed.

Lemma wp_set f (Q : unit -> client -> Prop) c : Q tt (f c) -> wp (setc f) Q c.
Proof. done. Qed.

Lemma wp_decode p (Q : unit -> client -> Prop) c : (mih_overflows p -> may_crash) ->
  (forall e, Q tt (set_c_events e c)) -> wp (decode_mih p) Q c.
Proof.
  unfold wp, decode_mih, mih_overflows. intros Hc HQ. destruct (decode_mih_options _ _ _) as [[b [h|]]|]; [apply HQ| |by apply Hc].
  specialize (HQ (c_events c)). by destruct c.
Qed.

Lemma wp_follow {A} (a : A) (Q : A -> client -> Prop) c : Q a c -> wp (followc (Some a)) Q c.
Proof. done. Qed.

Lemma wp_remainder a b (Q : Z -> client -> Prop) c : b <> 0 -> Q (Z.rem a b) c -> wp (remainder a b) Q c.
Proof. intros Hb. unfold wp, remainder. by destruct (Z.eqb_spec b 0). Qed.

Lemma wp_if {A} (b : bool) (m m' : MC A) Q c : (b = true -> wp m Q c) -> (b = false -> wp m' Q c) -> wp (if b then m else m') Q c.
Proof. destruct b; auto. Qed.

Lemma wp_draw (Q : Z -> client -> Prop) c : Q (random out (c_draws c)) (set_c_draws (S (c_draws c)) c) -> wp (draw out) Q c.
Proof. done. Qed.

End Wp.

(** A configuration the client can work with *)
Definition usable (cfg : client_config) : Prop := 0 <= timeout cfg /\ backoff_cutoff cfg <> 0 /\ retry_interval cfg <> 0.

(** Steps of a proof; what is left are calls of functions that have lemmas of their own. *)
Ltac wp_step :=
  match goal with
  | |- wp (mbind _ _) _ _ => apply wp_bind
  | |- wp (mret _) _ _ => apply wp_ret
  | |- wp (getc _) _ _ => apply wp_get
  | |- wp (setc _) _ _ => apply wp_set
  | |- wp (followc (Some _)) _ _ => apply wp_follow
  | |- wp (draw _) _ _ => apply wp_draw
  | |- wp stop _ _ => exact I
  | |- wp (emitc _) _ _ => apply wp_set
  | |- wp (add _ _) _ _ => apply wp_set
  | |- wp (cancel _) _ _ => apply wp_set
  | |- wp (remainder _ _) _ _ => apply wp_remainder; [unfold usable in *; lia|]
  | |- wp (let _ := _ in _) _ _ => cbv zeta
  end.
Ltac wps := repeat (cbv beta; wp_step).

Section Proofs.
Context {T : Type} `{Hlaws : TimeoutsLaws T} {KC : MayCrash} (cfg : client_config) (out : outside) (cur_time : Z).

Notation client := (client T).
Notation MC := (MC T).

Hypothesis Husable : usable cfg.

(** What the script does not change *)
Definition core (c : client) : dhcp_state * option client_lease * option client_lease * list client_lease * list client_lease * T :=
  (c_state c, c_active c, c_new c, c_offered_leases c, c_leases c, c_timeouts c).
Definition sending (c : client) : Z * Z := (c_first_sending c, c_interval c).

Lemma wp_script s (Q : Z -> client -> Prop) c : (forall r c', core c' = core c -> sending c' = sending c -> c_medium c' = c_medium c -> Q r c') -> wp (script_go out s) Q c.
Proof. intros HQ. unfold script_go. wps. by apply HQ. Qed.

(** ** Media *)

Lemma try_media_ok n (fail inc : bool) (Q : bool -> client -> Prop) c :
  (1 + length (tail (c_medium c)) + (if fail then 0 else length (media cfg)) < n)%nat -> media cfg <> [] ->
  (forall b c', core c' = core c -> sending c' = sending c -> Q b c') -> wp (try_media cfg out n fail inc) Q c.
Proof.
  revert fail inc Q c. induction n as [|n IH]; intros fail inc Q c Hn Hm HQ; [lia|]. cbn [try_media]. wps. cbn [c_medium set_c_medium].
  destruct (tail (c_medium c)) as [|m ms] eqn:Ht.
  - rewrite bool_decide_eq_true_2 by done. destruct fail; [exact I|]. wps. apply wp_script. intros r c' H1 H2 H3. cbn in H3.
    apply wp_if; intros _; [|by apply wp_ret; apply HQ].
    apply IH; [rewrite H3; destruct (media cfg) as [|? [|]]; simpl in *; [done|lia|lia]|done|].
    intros b c'' E1 E2. apply HQ; [by rewrite E1, H1|by rewrite E2, H2].
  - rewrite bool_decide_eq_false_2 by done. wps. apply wp_script. intros r c' H1 H2 H3. cbn in H3.
    apply wp_if; intros _; [|by apply wp_ret; apply HQ].
    apply IH; [rewrite H3; cbn [tail length] in *; lia|done|]. intros b c'' E1 E2. apply HQ; [by rewrite E1, H1|by rewrite E2, H2].
Qed.

(** ** Intervals *)

(** What a configuration and the outside are expected to be *)
Definition sane : Prop := 1 <= initial_interval cfg /\ 2 <= backoff_cutoff cfg /\ 0 <= timeout cfg /\ forall k, 0 <= random out k.

(** The longest interval between two messages *)
Definition longest : Z := backoff_cutoff cfg + backoff_cutoff cfg / 2.

Lemma back_off_ok shift (Q : unit -> client -> Prop) c : (forall r, 0 <= r -> 0 <= shift r) ->
  (forall c', core c' = core c -> c_first_sending c' = c_first_sending c -> c_medium c' = c_medium c ->
     (sane -> 0 <= c_interval c -> 1 <= c_interval c' <= longest) -> Q tt c') -> wp (back_off cfg out shift) Q c.
Proof.
  intros Hsh HQ. unfold back_off. wps.
  assert (Hcap : forall i c', core c' = core c -> c_first_sending c' = c_first_sending c -> c_medium c' = c_medium c -> c_interval c' = i ->
    (sane -> 0 <= c_interval c -> 1 <= i) ->
    wp (if backoff_cutoff cfg <? i then r ← draw out; x ← remainder (shift r) (backoff_cutoff cfg); setc (set_c_interval (Z.quot (backoff_cutoff cfg) 2 + x)) else mret tt) Q c').
  { intros i c' H1 H2 H3 H4 H5. apply wp_if; intros Hlt; wps; apply HQ; try done; unfold longest.
    - cbn. intros (_ & Hb & _ & Hr) _. pose proof (Hsh _ (Hr (c_draws c'))). rewrite Z.quot_div_nonneg, Z.rem_mod_nonneg by lia.
      pose proof (Z.mod_pos_bound (shift (random out (c_draws c'))) (backoff_cutoff cfg)). pose proof (Z.div_le_lower_bound (backoff_cutoff cfg) 2 1). lia.
    - intros Hs Hi. apply Z.ltb_ge in Hlt. pose proof (H5 Hs Hi). destruct Hs as (_ & Hb & _). pose proof (Z.div_pos (backoff_cutoff cfg) 2). lia. }
  apply wp_if; intros H0; [apply Z.eqb_eq in H0|apply Z.eqb_neq in H0]; wps; apply Hcap; try done; cbn.
  - intros (Hi & _) _. lia.
  - intros (_ & _ & _ & Hr) Hi. pose proof (Hsh _ (Hr (c_draws c))). rewrite Z.rem_mod_nonneg by lia.
    pose proof (Z.mod_pos_bound (shift (random out (c_draws c))) (2 * c_interval c)). lia.
Qed.

Lemma core_parts c c' : core c' = core c ->
  c_state c' = c_state c /\ c_active c' = c_active c /\ c_new c' = c_new c /\ c_offered_leases c' = c_offered_leases c /\ c_leases c' = c_leases c /\
  c_timeouts c' = c_timeouts c.
Proof. unfold core. by intros [= -> -> -> -> -> ->]. Qed.

(** Intervals are positive, and not longer than they were or have to be. *)
Definition bounded (c c' : client) : Prop :=
  sane -> 0 <= c_interval c -> 1 <= c_interval c' <= Z.max longest (Z.max (initial_interval cfg) (c_interval c)).

Lemma grow_ok inc (Q : unit -> client -> Prop) c :
  (forall c', core c' = core c -> c_first_sending c' = c_first_sending c -> bounded c c' -> Q tt c') -> wp (grow cfg out inc) Q c.
Proof.
  intros HQ. unfold grow. wps. apply wp_if; intros _.
  - apply back_off_ok; [done|]. intros c' H1 H2 _ H3. apply HQ; try done. intros Hs Hi. specialize (H3 Hs Hi). lia.
  - apply wp_if; intros H0; wps; apply HQ; try done; intros Hs Hi; cbn in *; [destruct Hs as (? & _)|]; lia.
Qed.

Lemma limit_ok t (Q : unit -> client -> Prop) c :
  (forall c', core c' = core c -> c_first_sending c' = c_first_sending c ->
     (1 <= c_interval c -> cur_time <= t -> 1 <= c_interval c' <= c_interval c /\ cur_time + c_interval c' <= t + 1) -> Q tt c') -> wp (limit_to cur_time t) Q c.
Proof. intros HQ. unfold limit_to. wps. apply wp_if; intros Hlt; wps; apply HQ; try done; cbn; lia. Qed.

(** The next message goes out after now and not past [limit], if there is one. *)
Definition resend (f : func) (limit : option Z) (c c' : client) : Prop :=
  core c' = (c_state c, c_active c, c_new c, c_offered_leases c, c_leases c, add_timeout f (cur_time + c_interval c') (c_timeouts c)) /\
  c_first_sending c' = c_first_sending c /\ 
  match limit with
  | Some t => cur_time <= t -> bounded c c' /\ (sane -> 0 <= c_interval c -> cur_time + c_interval c' <= t + 1)
  | None => bounded c c'
  end.

Lemma discover_ok interval (Q : unit -> client -> Prop) c :
  (forall c', resend send_discover (Some (c_first_sending c + timeout cfg)) c c' -> Q tt c') -> wp (discover cfg out cur_time interval) Q c.
Proof.
  intros HQ. unfold discover. wps.
  assert (Hrest : forall inc c1, core c1 = core c -> sending c1 = sending c ->
    wp (grow cfg out inc ;; first ← getc c_first_sending; limit_to cur_time (first + timeout cfg) ;;
        setc (fun c => set_c_packet (set_o_secs (secs_of interval) (c_packet c)) c) ;; setc (set_c_secs (secs_of interval)) ;;
        send inaddr_any iaddr_broadcast ;; i ← getc c_interval; add send_discover (cur_time + i)) Q c1).
  { intros inc c1 H1 [= H2 H3]. wps. apply grow_ok. intros c2 E1 E2 E3. wps. apply limit_ok. intros c3 F1 F2 F3. unfold send. wps. apply HQ.
    apply core_parts in H1, E1, F1. destruct H1 as (? & ? & ? & ? & ? & ?), E1 as (? & ? & ? & ? & ? & ?), F1 as (? & ? & ? & ? & ? & ?).
    rewrite E2, H2 in F3. split; [unfold core; cbn; congruence|]. split; [cbn; congruence|]. unfold bounded in *. rewrite H3 in E3. cbn.
    intros Hl. split; intros Hs Hi; specialize (E3 Hs Hi); specialize (F3 ltac:(lia) ltac:(lia)); lia. }
  apply wp_if; intros Hb; [|apply wp_ret; by apply Hrest]. apply andb_prop in Hb as [_ Hb]. apply negb_true_iff, bool_decide_eq_false in Hb.
  apply try_media_ok; [destruct (c_medium c); simpl; lia|done|]. intros inc c1 H1 H2. by apply Hrest.
Qed.

(** A state in which [send_request] may be called *)
Definition may_request (c : client) : Prop := c_state c = S_REQUESTING \/ c_active c <> None.

(** How long it may wait: a lease that is in use ends. *)
Definition request_limit (c : client) : option Z := if decide (c_state c = S_REQUESTING) then None else expiry <$> c_active c.

Lemma send_again_ok st interval from to (Q : unit -> client -> Prop) c :
  (forall c', core c' = (c_state c, c_active c, c_new c, c_offered_leases c, c_leases c, add_timeout send_request (cur_time + c_interval c) (c_timeouts c)) ->
     sending c' = sending c -> Q tt c') -> wp (send_again cur_time st interval from to) Q c.
Proof. intros HQ. unfold send_again, send. wps. by apply HQ. Qed.

Lemma request_ok interval (Q : unit -> client -> Prop) c : may_request c ->
  (forall c', resend send_request (request_limit c) c c' -> Q tt c') -> wp (request cfg out cur_time interval) Q c.
Proof.
  intros Hmay HQ. unfold request. wps. apply back_off_ok; [intros; by apply Z.shiftr_nonneg|]. intros c1 H1 H2 _ H3. wps.
  apply core_parts in H1. destruct H1 as (Hst & Hac & Hne & Hof & Hle & Hti).
  assert (Hend : forall st from to c2, core c2 = core c1 -> c_first_sending c2 = c_first_sending c1 ->
    match request_limit c with
    | Some t => 1 <= c_interval c1 -> cur_time <= t -> 1 <= c_interval c2 <= c_interval c1 /\ cur_time + c_interval c2 <= t + 1
    | None => c_interval c2 = c_interval c1
    end -> wp (send_again cur_time st interval from to) Q c2).
  { intros st from to c2 E1 E2 E3. apply send_again_ok. intros c3 F1 [= F2 F3]. apply HQ. apply core_parts in E1. destruct E1 as (? & ? & ? & ? & ? & ?).
    unfold resend. rewrite F1, F3. split; [congruence|]. split; [congruence|]. unfold bounded. rewrite F3.
    destruct (request_limit c) as [t|]; [intros Hl; split|]; intros Hs Hi; specialize (H3 Hs Hi); [specialize (E3 ltac:(lia) Hl)..|]; lia. }
  destruct (bool_decide (c_state c = S_REQUESTING)) eqn:Hreq.
  - apply bool_decide_eq_true in Hreq. cbn [orb]. wps.
    apply wp_if; intros Hb; [by rewrite Hreq in Hb|]. wps. apply Hend; [done|done|]. unfold request_limit. by rewrite decide_True.
  - apply bool_decide_eq_false in Hreq. destruct (c_active c1) as [l|] eqn:Hl; [|destruct Hmay; congruence].
    assert (Hlim : request_limit c = Some (expiry l)) by (unfold request_limit; rewrite decide_False by done; by rewrite <- Hac).
    wps. apply limit_ok. intros c2 E1 E2 E3. wps. cbn [orb].
    apply wp_if; intros _; wps; (apply wp_if; intros _; wps; (apply Hend; [done|done|by rewrite Hlim])).
Qed.

(** ** Timers *)

(** No timer is set; only that of [f]. *)
Definition quiet (q : T) : Prop := forall g, pending q g = None.
Definition only (f : func) (v : Z) (q : T) : Prop := forall g, pending q g = if decide (g = f) then Some v else None.

Lemma add_only f v q : quiet q -> only f v (add_timeout f v q).
Proof. intros Hq g. by rewrite pending_add, Hq. Qed.

Lemma cancel_quiet f q : (forall g, g <> f -> pending q g = None) -> quiet (cancel_timeout f q).
Proof. intros Hq g. rewrite pending_cancel. case_decide; auto. Qed.

Lemma cancel_only f v q : only f v q -> quiet (cancel_timeout f q).
Proof. intros Ho. apply cancel_quiet. intros g Hg. by rewrite Ho, decide_False. Qed.

Lemma quiet_cancel f q : quiet q -> quiet (cancel_timeout f q).
Proof. intros Hq. by apply cancel_quiet. Qed.

(** The timers a state may wait for *)
Definition timers_of (s : dhcp_state) : list func :=
  match s with
  | S_INIT => [state_init; state_reboot]
  | S_SELECTING => [send_discover; state_selecting]
  | S_REQUESTING | S_REBOOTING | S_RENEWING => [send_request]
  | S_BOUND => [state_bound]
  | S_REBINDING | S_STOPPED | S_INFORM => []
  end.

(** The states of a client that has an address *)
Definition leased (s : dhcp_state) : bool := match s with S_BOUND | S_RENEWING | S_REBOOTING => true | _ => false end.

(** A running client: it waits for exactly one timer, one of its state, and has a lease if it uses one. *)
Definition steady (c : client) : Prop :=
  (exists f v, f ∈ timers_of (c_state c) /\ only f v (c_timeouts c)) /\ (leased (c_state c) = true -> c_active c <> None).

Lemma int_of_0 : int_of 0 = 0.
Proof. done. Qed.

(** ** The functions *)

Definition settles (m : MC unit) (c : client) : Prop := wp m (fun _ => steady) c.

Lemma first_discover n c : (1 <= n)%nat -> quiet (c_timeouts c) -> c_state c = S_SELECTING -> c_first_sending c = cur_time ->
  settles (call cfg out cur_time n send_discover) c.
Proof.
  intros Hn Hq Hs Hf. destruct n as [|n]; [lia|]. unfold settles. cbn [call]. unfold discover_body. wps. rewrite Hf, Z.sub_diag, int_of_0.
  apply wp_if; intros H0; [apply Z.ltb_lt in H0; unfold usable in *; lia|]. apply discover_ok. intros c' (Hc & _). unfold core in Hc. injection Hc as H1 H2 _ _ _ H3.
  split; rewrite H1, Hs; [|done]. exists send_discover. eexists. split; [constructor|]. rewrite H3. by apply add_only.
Qed.

Lemma init_ok n c : (2 <= n)%nat -> quiet (c_timeouts c) -> settles (call cfg out cur_time n state_init) c.
Proof.
  intros Hn Hq. destruct n as [|n]; [lia|]. unfold settles. cbn [call]. unfold init_body, make_discover, make_client_options, start_sending. wps.
  apply first_discover; [lia|done..].
Qed.

(** [send_request] starts anew, or sends again while the lease lasts. *)
Lemma request_cases n (Q : unit -> client -> Prop) c : quiet (c_timeouts c) -> may_request c ->
  (forall c1, quiet (c_timeouts c1) -> wp (call cfg out cur_time n state_init) Q c1) ->
  (forall c1 c', core c1 = core c -> sending c1 = sending c -> (c_state c <> S_REQUESTING -> forall l, c_active c = Some l -> cur_time <= expiry l) ->
     resend send_request (request_limit c) c1 c' -> Q tt c') -> wp (call cfg out cur_time (S n) send_request) Q c.
Proof.
  intros Hq Hmay Hinit Hsend. cbn [call]. unfold request_body, give_up_request. wps.
  assert (Hgive : forall c1, core c1 = core c -> wp (setc (set_c_state S_INIT) ;; cancel send_request ;; call cfg out cur_time n state_init) Q c1).
  { intros c1 H1. apply core_parts in H1. destruct H1 as (_ & _ & _ & _ & _ & H1). wps. apply Hinit. cbn. rewrite H1. by apply quiet_cancel. }
  apply wp_if; intros _; [by apply Hgive|]. wps.
  assert (Hrest : forall c1, core c1 = core c -> sending c1 = sending c -> wp (active ← getc c_active;
      over ← (if bool_decide (c_state c = S_REQUESTING) then mret false else l ← followc active; mret (expiry l <? cur_time));
      if (over : bool) then script_go out "EXPIRE" ;; script_go out "PREINIT" ;; setc (set_c_state S_INIT) ;; call cfg out cur_time n state_init
      else request cfg out cur_time (int_of (cur_time - c_first_sending c))) Q c1).
  { intros c1 H1 H1'. pose proof (core_parts _ _ H1) as (Hst & Hac & _ & _ & _ & Hti).
    assert (Hlim : request_limit c1 = request_limit c) by (unfold request_limit; by rewrite Hst, Hac).
    assert (Hmay1 : may_request c1) by (unfold may_request; by rewrite Hst, Hac).
    wps. destruct (bool_decide (c_state c = S_REQUESTING)) eqn:Hreq.
    - apply wp_ret, request_ok; [done|]. intros c' Hc. rewrite Hlim in Hc. apply bool_decide_eq_true in Hreq. by apply (Hsend c1).
    - apply bool_decide_eq_false in Hreq. rewrite Hac. destruct (c_active c) as [l|] eqn:Hl; [|by destruct Hmay]. wps. apply wp_if; intros Hover.
      + wps. apply wp_script. intros r2 c2 E2 _ _. wps. apply wp_script. intros r3 c3 E3 _ _. wps. apply Hinit. cbn.
        apply core_parts in E2, E3. destruct E2 as (_ & _ & _ & _ & _ & E2), E3 as (_ & _ & _ & _ & _ & E3). by rewrite E3, E2, Hti.
      + apply request_ok; [done|]. intros c' Hc. rewrite Hlim in Hc. apply (Hsend c1); try done. intros _ l' [= <-]. by apply Z.ltb_ge. }
  unfold reboot_medium. wps. apply wp_if; intros Hb; [|wps; by apply Hrest].
  apply andb_prop in Hb as [Hb _]. apply bool_decide_eq_true in Hb. destruct (c_active c) as [l|] eqn:Hl; [|destruct Hmay; congruence].
  wps. apply wp_if; intros _; [wps; by apply Hrest|]. wps. apply wp_script. intros r c1 H1 H2 _. apply wp_if; intros _; wps; [by apply Hgive|by apply Hrest].
Qed.

Lemma request_settles n c : (3 <= n)%nat -> quiet (c_timeouts c) -> timers_of (c_state c) = [send_request] -> may_request c ->
  settles (call cfg out cur_time n send_request) c.
Proof.
  intros Hn Hq Hs Hmay. destruct n as [|n]; [lia|]. apply request_cases; [done|done|intros; apply init_ok; [lia|done..]|].
  intros c1 c' H1 _ _ (Hc & _). apply core_parts in H1. destruct H1 as (Hst & Hac & _ & _ & _ & Hti). unfold core in Hc. injection Hc as E1 E2 _ _ _ E3.
  split; rewrite E1, Hst.
  - exists send_request. eexists. rewrite Hs. split; [constructor|]. rewrite E3. apply add_only. by rewrite Hti.
  - intros Hl. rewrite E2, Hac. destruct Hmay as [Hr|]; [by rewrite Hr in Hl|done].
Qed.

Lemma bound_ok n c : (4 <= n)%nat -> quiet (c_timeouts c) -> c_active c <> None -> settles (call cfg out cur_time n state_bound) c.
Proof.
  intros Hn Hq Ha. destruct n as [|n]; [lia|]. unfold settles. cbn [call]. unfold bound_body, make_request, make_client_options, start_sending. wps.
  destruct (c_active c) as [l|] eqn:Hl; [|done]. wps. apply request_settles; try done; [lia|]. right. cbn. congruence.
Qed.

(** *** Panic *)

(** The leases a client has *)
Definition held (c : client) : list client_lease := option_list (c_active c) ++ c_leases c.

(** What looking for a lease changes: the leases are put in another order. *)
Definition reordered (c c' : client) : Prop := held c' ≡ₚ held c /\ c_timeouts c' = c_timeouts c /\ c_first_sending c' = c_first_sending c.

(** What the search comes back with: a lease that has not ended *)
Definition found (r : panic_result) (c : client) : Prop :=
  match r with no_lease => True | _ => exists l, c_active c = Some l /\ cur_time < expiry l /\ (r = bound_later -> cur_time < renewal l) end.

Lemma activate_ok (Q : unit -> client -> Prop) c :
  (forall c', reordered c c' -> c_active c' = head (c_leases c ++ option_list (c_active c)) -> c_leases c' = tail (c_leases c ++ option_list (c_active c)) -> Q tt c') ->
  wp activate_next Q c.
Proof.
  intros HQ. unfold activate_next. wps. destruct (c_leases c ++ option_list (c_active c)) as [|l ls] eqn:Hls.
  - apply app_eq_nil in Hls as [H1 H2]. apply wp_ret, HQ; [done| |done]. by destruct (c_active c).
  - wps. apply HQ; [|done|done]. split; [|done]. unfold held. cbn. rewrite <- Hls. by rewrite (comm app).
Qed.

Lemma reordered_trans c1 c2 c3 : reordered c1 c2 -> reordered c2 c3 -> reordered c1 c3.
Proof. intros (H1 & H2 & H3) (E1 & E2 & E3). split; [by rewrite E1|]. split; congruence. Qed.

Lemma core_reordered c c' : core c' = core c -> sending c' = sending c -> reordered c c'.
Proof. intros Hc [= H1 _]. apply core_parts in Hc. destruct Hc as (_ & Ha & _ & _ & Hl & Ht). unfold reordered, held. by rewrite Ha, Hl. Qed.

(** One round: the active lease works, there is no other, or the next one is tried. *)
Lemma panic_round n loop a c (Q : panic_result -> client -> Prop) : c_active c = Some a ->
  (forall r c', reordered c c' -> found r c' -> Q r c') ->
  (forall c', core c' = core c -> sending c' = sending c -> c_leases c <> [] -> wp (next_lease out cur_time n loop) Q c') -> wp (panic_loop out cur_time (S n) loop) Q c.
Proof.
  intros Ha HQ Hnext. cbn [panic_loop]. wps. rewrite Ha.
  assert (Hfail : forall c', core c' = core c -> sending c' = sending c ->
    wp (ls ← getc c_leases; if bool_decide (ls = []) then setc (set_c_leases [a]) ;; setc (set_c_active None) ;; mret no_lease else next_lease out cur_time n loop) Q c').
  { intros c' H1 H2. wps. pose proof (core_parts _ _ H1) as (_ & Ha' & _ & _ & Hl' & _). apply wp_if; intros Hb.
    - apply bool_decide_eq_true in Hb. wps. apply HQ; [|done]. eapply reordered_trans; [by apply core_reordered|].
      split; [|done]. unfold held. cbn. by rewrite Ha', Ha, Hb.
    - apply bool_decide_eq_false in Hb. apply Hnext; [done..|congruence]. }
  wps. apply wp_if; intros Hlive; [|wps; by apply Hfail]. wps. apply wp_script. intros r c' H1 H2 _. wps. apply wp_if; intros _; [|by apply Hfail].
  apply wp_ret, HQ; [by apply core_reordered|]. pose proof (core_parts _ _ H1) as (_ & Ha' & _). apply Z.ltb_lt in Hlive.
  unfold found. destruct (cur_time <? renewal a) eqn:Hr; exists a; rewrite Ha'; split_and!; try done. intros _. by apply Z.ltb_lt.
Qed.

(** The next lease is tried, unless it was tried first. *)
Lemma next_round n loop c (Q : panic_result -> client -> Prop) : (forall r c', reordered c c' -> found r c' -> Q r c') ->
  (forall c', reordered c c' -> c_active c' = head (c_leases c ++ option_list (c_active c)) -> c_leases c' = tail (c_leases c ++ option_list (c_active c)) ->
     lease_id <$> c_active c' <> loop -> wp (panic_loop out cur_time n (match loop with None => lease_id <$> c_active c' | Some _ => loop end)) Q c') ->
  wp (next_lease out cur_time (S n) loop) Q c.
Proof.
  intros HQ Hloop. cbn [next_lease]. wps. apply activate_ok. intros c' H1 H2 H3. wps. apply wp_if; intros Hb; [wps; by apply HQ|].
  apply bool_decide_eq_false in Hb. by apply Hloop.
Qed.

(** The search comes to the lease it started with. *)
Lemma search_ends n : forall (k : positive) pre l post (Q : panic_result -> client -> Prop) c, c_active c <> None -> c_leases c = pre ++ l :: post -> lease_id l = k ->
  (2 * length pre + 2 <= n)%nat -> (forall r c', reordered c c' -> found r c' -> Q r c') -> wp (panic_loop out cur_time n (Some k)) Q c.
Proof.
  induction n as [n IH] using (well_founded_induction lt_wf). intros k pre l post Q c Ha Hl Hk Hn HQ.
  destruct n as [|[|n]]; [lia..|]. destruct (c_active c) as [a|] eqn:Hac; [|done].
  apply panic_round with a; [done|done|]. intros c1 H1 H2 _. pose proof (core_parts _ _ H1) as (_ & Ha1 & _ & _ & Hl1 & _).
  assert (Hr : forall c2, reordered c1 c2 -> reordered c c2) by (intros; eapply reordered_trans; [by apply core_reordered|done]).
  apply next_round; [auto|]. intros c2 E1 E2 E3 Hb. rewrite Hl1, Ha1, Hl, Hac in E2, E3.
  destruct pre as [|x pre]; [rewrite E2 in Hb; cbn in Hb; congruence|].
  apply (IH n ltac:(lia) k pre l (post ++ [a])); [by rewrite E2|by rewrite E3; cbn; rewrite <- app_assoc|done|cbn in Hn; lia|].
  intros r c' F1 F2. apply HQ; [eapply reordered_trans; eauto|done].
Qed.

(** The search from the active lease on *)
Lemma search_active n a (Q : panic_result -> client -> Prop) c : c_active c = Some a -> (2 * length (c_leases c) + 4 <= n)%nat ->
  (forall r c', reordered c c' -> found r c' -> Q r c') -> wp (panic_loop out cur_time n (Some (lease_id a))) Q c.
Proof.
  intros Ha Hn HQ. destruct n as [|[|n]]; [lia..|]. apply panic_round with a; [done|done|]. intros c1 H1 H2 H3.
  pose proof (core_parts _ _ H1) as (_ & Ha1 & _ & _ & Hl1 & _).
  assert (Hr : forall c2, reordered c1 c2 -> reordered c c2) by (intros; eapply reordered_trans; [by apply core_reordered|done]).
  apply next_round; [auto|]. intros c2 E1 E2 E3 _. rewrite Hl1, Ha1, Ha in E2, E3. destruct (c_leases c) as [|y ls]; [done|]. cbn in E2, E3, Hn.
  eapply (search_ends _ _ ls a []); [by rewrite E2|done|done|lia|]. intros r c' F1 F2. apply HQ; [eapply reordered_trans; eauto|done].
Qed.

(** Whatever the leases are, the search ends within its rounds. *)
Lemma search_ok (Q : panic_result -> client -> Prop) c : (forall r c', reordered c c' -> found r c' -> Q r c') -> wp (find_lease out cur_time) Q c.
Proof.
  intros HQ. unfold find_lease. wps. apply wp_if; intros Hb.
  - apply andb_prop in Hb as [Hb1 Hb2]. apply bool_decide_eq_true in Hb1. apply negb_true_iff, bool_decide_eq_false in Hb2.
    destruct (c_leases c) as [|x ls] eqn:Hl; [done|]. apply next_round; [done|]. intros c1 E1 E2 E3 _. rewrite Hb1, Hl, app_nil_r in E2, E3. cbn in E2, E3.
    rewrite E2. cbn [fmap option_fmap option_map]. apply search_active; [done|rewrite E3; cbn; lia|]. intros r c' F1 F2. apply HQ; [by eapply reordered_trans|done].
  - destruct (c_active c) as [a|] eqn:Ha; [apply search_active; [done|lia|done]|]. change (6 + 2 * length (c_leases c))%nat with (S (5 + 2 * length (c_leases c))).
    cbn [panic_loop]. wps. rewrite Ha. wps. by apply HQ.
Qed.

Lemma panic_ok n c : (5 <= n)%nat -> quiet (c_timeouts c) -> settles (call cfg out cur_time n state_panic) c.
Proof.
  intros Hn Hq. destruct n as [|n]; [lia|]. unfold settles. cbn [call]. unfold panic_body. wps. apply search_ok. intros r c1 (Hp & Ht1 & _) Hf.
  rewrite <- Ht1 in Hq. destruct r.
  - destruct Hf as (l & Hl & _). wps. cbn. rewrite Hl. wps. split; cbn; [|congruence].
    exists state_bound. eexists. split; [constructor|]. by apply add_only.
  - destruct Hf as (l & Hl & _). wps. apply bound_ok; [lia|done|]. cbn. congruence.
  - apply wp_if; intros _; [exact I|]. wps. apply wp_script. intros r2 c2 E1 _ _. apply core_parts in E1. destruct E1 as (_ & _ & _ & _ & _ & E1). wps.
    split; cbn; [|done]. exists state_init. eexists. split; [constructor|]. rewrite E1. by apply add_only.
Qed.

Lemma discover_settles n c : (6 <= n)%nat -> quiet (c_timeouts c) -> c_state c = S_SELECTING -> settles (call cfg out cur_time n send_discover) c.
Proof.
  intros Hn Hq Hs. destruct n as [|n]; [lia|]. unfold settles. cbn [call]. unfold discover_body. wps.
  apply wp_if; intros _; [apply panic_ok; [lia|done..]|]. apply discover_ok. intros c' (Hc & _). unfold core in Hc. injection Hc as H1 H2 _ _ _ H3.
  split; rewrite H1, Hs; [|done]. exists send_discover. eexists. split; [constructor|]. rewrite H3. by apply add_only.
Qed.

(** *** Binding and selecting *)

Lemma bind_ok n c : (3 <= n)%nat -> quiet (c_timeouts c) -> c_new c <> None -> settles (call cfg out cur_time n bind_lease) c.
Proof.
  intros Hn Hq Hnew. destruct n as [|n]; [lia|]. unfold settles. cbn [call]. unfold bind_body. wps. cbn [c_new c_medium c_state set_c_timeouts].
  destruct (c_new c) as [l|] eqn:Hl; [|done]. wps. cbn. apply wp_script. intros r c1 H1 _ _. apply core_parts in H1. destruct H1 as (_ & _ & _ & _ & _ & H1).
  cbn in H1. assert (Hq1 : quiet (c_timeouts c1)) by (rewrite H1; by apply quiet_cancel).
  apply wp_if; intros _.
  - unfold make_decline, make_client_options, send_decline, send. wps. apply init_ok; [lia|done].
  - wps. split; [|done]. exists state_bound. eexists. split; [constructor|]. cbn. by apply add_only.
Qed.

(** Only timers of selecting are set. *)
Definition selecting_only (q : T) : Prop := forall g, g <> send_discover -> g <> state_selecting -> pending q g = None.

Lemma selecting_ok n c : (4 <= n)%nat -> selecting_only (c_timeouts c) -> settles (call cfg out cur_time n state_selecting) c.
Proof.
  intros Hn Hq. destruct n as [|n]; [lia|]. unfold settles. cbn [call]. unfold selecting_body. wps.
  assert (Hq1 : quiet (cancel_timeout send_discover (cancel_timeout state_selecting (c_timeouts c)))).
  { apply cancel_quiet. intros g Hg. rewrite pending_cancel. case_decide; auto. }
  cbn [c_offered_leases set_c_timeouts]. destruct (c_offered_leases c) as [|l ls]; [wps; apply init_ok; [lia|done..]|].
  apply wp_if; intros _; wps; [apply bind_ok; [lia|done..]|]. unfold make_request, make_client_options, start_sending. wps.
  apply request_settles; [lia|done|done|by left].
Qed.

Lemma reboot_ok n c : (4 <= n)%nat -> quiet (c_timeouts c) -> settles (call cfg out cur_time n state_reboot) c.
Proof.
  intros Hn Hq. destruct n as [|n]; [lia|]. unfold settles. cbn [call]. unfold reboot_body. wps.
  destruct (c_active c) as [l|] eqn:Hl; [|apply init_ok; [lia|done..]]. apply wp_if; intros _; [apply init_ok; [lia|done..]|].
  unfold make_request, make_client_options, start_sending. wps. apply request_settles; [lia|done..|]. right. cbn. congruence.
Qed.

(** ** Inputs *)

Lemma fire_steady n f c : (6 <= n)%nat -> steady c -> settles (fire cfg out cur_time n f) c.
Proof.
  intros Hn [(g & v & Hg & Ho) Hl]. unfold settles, fire. wps. rewrite Ho. case_decide as Hf; [subst g|apply wp_ret; split; eauto].
  apply wp_if; intros _; [|apply wp_ret; split; eauto]. wps. pose proof (cancel_only _ _ _ Ho) as Hq.
  assert (Hmay : c_state c <> S_REQUESTING -> timers_of (c_state c) = [send_request] -> c_active c <> None) by (intros; apply Hl; destruct (c_state c); done).
  destruct f.
  - apply reboot_ok; [lia|done].
  - apply init_ok; [lia|done].
  - apply selecting_ok; [lia|]. intros h _ _. apply Hq.
  - apply discover_settles; [lia|done|]. cbn. destruct (c_state c); cbn in Hg; set_solver.
  - exfalso. destruct (c_state c); cbn in Hg; set_solver.
  - assert (Hs : timers_of (c_state c) = [send_request]) by (destruct (c_state c); cbn in Hg |- *; set_solver).
    apply request_settles; [lia|done|done|]. unfold may_request. cbn. destruct (decide (c_state c = S_REQUESTING)); [by left|right; auto].
  - apply bound_ok; [lia|done|]. cbn. apply Hl. destruct (c_state c); cbn in Hg; set_solver.
  - exfalso. destruct (c_state c); cbn in Hg; set_solver.
Qed.

(** In a state in which an answer is expected, cancelling [send_request] leaves no timer. *)
Lemma answered c : steady c -> c_state c ∈ [S_REBOOTING; S_REQUESTING; S_RENEWING; S_REBINDING] -> quiet (cancel_timeout send_request (c_timeouts c)).
Proof.
  clear Husable.
  intros [(g & v & Hg & Ho) _] Hs. apply (cancel_only _ v). enough (g = send_request) as <- by done.
  destruct (c_state c); cbn in Hg; set_solver.
Qed.

Lemma steady_not_inform c : steady c -> c_state c <> S_INFORM.
Proof. clear Husable. intros [(g & v & Hg & _) _] Hs. rewrite Hs in Hg. cbn in Hg. set_solver. Qed.

Lemma spread_ok r (Q : Z -> client -> Prop) c : (forall k, 0 <= random out k) -> 1 <= r ->
  (forall r' c', core c' = core c -> 0 <= r' -> Q r' c') -> wp (spread_renewal out r) Q c.
Proof.
  intros Hr H1 HQ. unfold spread_renewal. apply wp_if; intros _; wps; apply HQ; try done; [|lia]. pose proof (Hr (c_draws c)).
  apply Z.add_nonneg_nonneg; apply Z.quot_pos; try lia. pose proof (Z.rem_nonneg (random out (c_draws c)) r ltac:(lia) ltac:(lia)). lia.
Qed.

(** A part of a time, in both ways it is computed *)
Lemma part_of a b t : 0 <= a <= b /\ 0 < b -> 0 <= t -> 0 <= Z.quot (t * a) b <= t /\ 0 <= Z.quot t b * a <= t.
Proof.
  intros Hab Ht. rewrite !Z.quot_div_nonneg by nia. split; [split; [apply Z.div_pos; nia|apply Z.div_le_upper_bound; nia]|].
  pose proof (Z.mul_div_le t b ltac:(lia)). pose proof (Z.div_pos t b Ht ltac:(lia)). nia.
Qed.

(** The lease ends when the server says, and is renewed before it is rebound. *)
Lemma times_ok opts e (Q : Z * Z * Z -> client -> Prop) c : (forall k, 0 <= random out k) -> e <> 0 ->
  (forall r b c', core c' = core c -> 0 <= r <= b -> (time_option opts DHO_DHCP_REBINDING_TIME <= 0 -> b <= (if e <? 0 then TIME_MAX else e)) ->
     Q (if e <? 0 then TIME_MAX else e, r, b) c') -> wp (relative_times out opts e) Q c.
Proof.
  intros Hr He HQ. unfold relative_times. set (e' := if e <? 0 then TIME_MAX else e) in *. wps.
  assert (He' : 1 <= e') by (unfold e', TIME_MAX; destruct (Z.ltb_spec e 0); lia).
  set (r0 := if _ <=? 0 then _ else _). assert (Hr0 : 1 <= r0).
  { unfold r0, TIME_MAX. set (v := if time_option _ _ =? 0 then _ else _). destruct (Z.leb_spec v 0); lia. }
  apply spread_ok; [done|done|]. intros r' c' Hc Hr'. wps. set (b0 := time_option opts DHO_DHCP_REBINDING_TIME) in *. set (b := if b0 <=? 0 then _ else _).
  assert (Hb : 0 <= b /\ (b0 <= 0 -> b <= e')).
  { unfold b. pose proof (part_of 7 8 e' ltac:(lia) ltac:(lia)) as [??]. destruct (Z.leb_spec b0 0); [|lia]. destruct (e' <=? _); lia. }
  apply HQ; [done| |tauto]. pose proof (part_of 3 4 b ltac:(lia) ltac:(lia)) as [??]. destruct (Z.ltb_spec b r'); [|lia]. destruct (b <=? _); lia.
Qed.

Lemma absolute_nonneg t : 0 <= t -> absolute cur_time t = t + cur_time.
Proof. intros Ht. unfold absolute. destruct (Z.ltb_spec (t + cur_time) cur_time); lia. Qed.

Lemma times_core opts e (Q : Z * Z * Z -> client -> Prop) c : (forall t c', core c' = core c -> Q t c') -> wp (relative_times out opts e) Q c.
Proof.
  intros HQ. unfold relative_times, spread_renewal. wps. set (v := if time_option opts DHO_DHCP_RENEWAL_TIME =? 0 then _ else _).
  assert (Hv : (if v <=? 0 then TIME_MAX else v) <> 0) by (unfold TIME_MAX; destruct (Z.leb_spec v 0); lia).
  apply wp_if; intros _; wps; by apply HQ.
Qed.

Lemma packet_lease_ok p (Q : client_lease -> client -> Prop) c :
  (forall l c', core c' = core c -> sending c' = sending c -> Q l c') -> wp (packet_to_lease cfg out p) Q c.
Proof. intros HQ. unfold packet_to_lease. wps. by apply HQ. Qed.

Lemma ack_steady n p c : (3 <= n)%nat -> (mih_overflows p -> may_crash) -> steady c -> settles (dhcpack cfg out cur_time n p) c.
Proof.
  intros Hn Hmih Hs. unfold settles, dhcpack, for_us. wps. apply wp_if; intros _; [by apply wp_ret|].
  apply wp_if; intros Hb; [apply bool_decide_eq_true in Hb; by apply steady_not_inform in Hs|]. apply wp_if; intros Hst; [by apply wp_ret|].
  apply negb_false_iff, bool_decide_eq_true in Hst. pose proof (answered _ Hs Hst) as Hq.
  wps. apply packet_lease_ok. intros l c1 H1 _. apply core_parts in H1. destruct H1 as (_ & _ & _ & _ & _ & H1). wps.
  apply wp_if; intros _; [apply init_ok; [lia|cbn; by rewrite H1]|]. wps. apply times_core. intros [[e r] b] c2 H2. apply core_parts in H2.
  destruct H2 as (_ & _ & _ & _ & _ & H2). cbn in H2. wps. apply wp_decode; [done|]. intros ev. apply bind_ok; [lia| |done]. cbn. by rewrite H2, H1.
Qed.

Lemma nak_steady n p c : (2 <= n)%nat -> steady c -> settles (dhcpnak cfg out cur_time n p) c.
Proof.
  intros Hn Hs. unfold settles, dhcpnak, for_us. wps. apply wp_if; intros Hst; [by apply wp_ret|].
  apply orb_false_elim in Hst as [_ Hst]. apply negb_false_iff, bool_decide_eq_true in Hst. pose proof (answered _ Hs Hst) as Hq.
  apply wp_if; intros _; [by apply wp_ret|]. wps. apply wp_script. intros r c1 H1 _ _. wps. apply wp_script. intros r2 c2 H2 _ _. wps.
  apply init_ok; [lia|]. apply core_parts in H1, H2. destruct H1 as (_ & _ & _ & _ & _ & H1), H2 as (_ & _ & _ & _ & _ & H2).
  cbn in H2 |- *. by rewrite H2, H1.
Qed.

Lemma offer_steady n p c : (4 <= n)%nat -> steady c -> settles (dhcpoffer cfg out cur_time n p) c.
Proof.
  intros Hn Hs. unfold settles, dhcpoffer, for_us. wps. apply wp_if; intros Hst; [by apply wp_ret|].
  apply orb_false_elim in Hst as [_ Hst]. apply negb_false_iff, bool_decide_eq_true in Hst.
  apply wp_if; intros _; [by apply wp_ret|]. apply wp_if; intros _; [by apply wp_ret|]. wps.
  apply packet_lease_ok. intros l c1 H1 _. apply core_parts in H1. destruct H1 as (Hst1 & _ & _ & _ & _ & H1). wps.
  assert (Hq : selecting_only (c_timeouts c)).
  { destruct Hs as [(g & v & Hg & Ho) _]. rewrite Hst in Hg. intros h Hh1 Hh2. rewrite Ho, decide_False; [done|]. cbn in Hg. set_solver. }
  apply wp_if; intros _; [apply selecting_ok; [lia|cbn; by rewrite H1]|]. wps. split; cbn; rewrite Hst1, Hst; [|done].
  exists state_selecting. eexists. split; [right; constructor|]. intros g. rewrite H1, pending_cancel, pending_add.
  case_decide as Hg; [by rewrite Hg|]. case_decide as Hg'; [done|]. by apply Hq.
Qed.

(** A message that may crash the client *)
Definition harmful (i : input) : Prop := match i with message p => mih_overflows p | _ => False end.

Lemma handle_steady n i c : (6 <= n)%nat -> (harmful i -> may_crash) -> steady c -> settles (handle cfg out cur_time n i) c.
Proof.
  intros Hn Hharm Hs. unfold settles. destruct i as [f|p|p]; cbn [handle].
  - by apply fire_steady.
  - unfold dhcp. apply wp_if; intros _; [by apply wp_ret|]. apply wp_if; intros _; [apply offer_steady; [lia|done..]|].
    apply wp_if; intros _; [apply nak_steady|apply ack_steady]; try done; lia.
  - unfold bootp. apply wp_if; intros _; [by apply wp_ret|]. apply offer_steady; [lia|done..].
Qed.

(** ** What an ACK gives *)

Lemma init_selects n (c : client) : (2 <= n)%nat -> wp (call cfg out cur_time n state_init) (fun _ c' => c_state c' = S_SELECTING) c.
Proof.
  intros Hn. destruct n as [|[|n]]; [lia..|]. cbn [call]. unfold init_body, make_discover, make_client_options, start_sending. wps.
  unfold discover_body. wps. cbn [c_first_sending set_c_interval set_c_first_sending]. rewrite Z.sub_diag, int_of_0.
  apply wp_if; intros H0; [apply Z.ltb_lt in H0; unfold usable in *; lia|]. apply discover_ok. intros c' (Hc & _). unfold core in Hc. by injection Hc as -> _ _ _ _ _.
Qed.

(** A lease that is bound is the new one, and its renewal is waited for. *)
Lemma bind_takes n c l : (3 <= n)%nat -> quiet (c_timeouts c) -> c_new c = Some l ->
  wp (call cfg out cur_time n bind_lease) (fun _ c' => c_state c' = S_BOUND ->
    only state_bound (renewal l) (c_timeouts c') /\ exists m, c_active c' = Some (set_lease_medium m l)) c.
Proof.
  intros Hn Hq Hl. destruct n as [|n]; [lia|]. cbn [call]. unfold bind_body. wps. cbn [c_new c_medium c_state set_c_timeouts]. rewrite Hl. wps. cbn.
  apply wp_script. intros r c1 H1 _ _. apply core_parts in H1. destruct H1 as (_ & _ & _ & _ & _ & H1). cbn in H1. apply wp_if; intros _.
  - unfold make_decline, make_client_options, send_decline, send. wps. eapply wp_mono; [apply init_selects; lia|]. intros _ c' -> [=].
  - wps. intros _. split; [|by eexists]. cbn. apply add_only. rewrite H1. by apply quiet_cancel.
Qed.

End Proofs.
