(* ===== verification/DhcpClientClaims.v ===== *)
(** * What the DHCPv4 client does

    The theorems about client/dhclient.c, for any implementation of the timers that keeps to [TimeoutsLaws], and a client that runs on timers
    of its own for the examples. *)

From stdpp Require Import gmap.
From S2P Require Import Prelude MosOptions DhcpClient DhcpClientProofs.

#[local] Open Scope Z_scope.

(** ** Theorems *)

Section Claims.
Context {T : Type} `{Hlaws : TimeoutsLaws T} (cfg : client_config) (out : outside).

(** C4: a running client goes on running.  Whatever messages arrive and whatever timers go off, at any times, in any order, no null
    pointer is followed and every function returns; afterwards exactly one timer is set, it is one that the state waits for, and a client
    that uses an address has a lease.  The program can only end where the code ends it, and it leaves its memory only if a message
    has MIH options that [decode_mih_options] cannot decode within its buffers.  (The configuration has times to divide by, and a
    timeout that is not negative.) *)
Theorem client_runs_on inputs (c : client T) : usable cfg -> steady c ->
  match run cfg out 6 inputs c with
  | Ok _ c' => steady c'
  | Stop => True
  | Crash => exists cur_time p, (cur_time, message p) ∈ inputs /\ mih_overflows p
  | Loop => False
  end.
Proof.
  intros Ht. set (K := exists cur_time p, (cur_time, message p) ∈ inputs /\ mih_overflows p).
  assert (Hin : forall cur_time i, (cur_time, i) ∈ inputs -> harmful i -> K) by (intros t [|p|] Hi Hh; try done; by exists t, p).
  clearbody K. revert c. induction inputs as [|[cur_time i] inputs IH]; intros c Hs; [done|]. cbn [run].
  refine (wp_show (KC := K) _ (fun _ => steady) _ _). apply wp_bind. eapply wp_mono; [apply handle_steady; [done|done| |done]|].
  - apply (Hin cur_time). set_solver.
  - intros ? c' Hc'. apply IH; [|done]. intros t j Hj. apply (Hin t). set_solver.
Qed.

(** C24: an ACK that makes a client bound, one that runs (with exactly the timer its state waits for) or waits for the answer to an
    INFORM, and is not bound yet.  If it waits for the answer to an INFORM, its lease and its timers stay as they are.  Otherwise the
    ACK gives it a lease that ends when the server says, is to be renewed no earlier than now and no later than it is rebound, and is
    rebound before it ends unless the server gives a time for that; the one timer that is set is that of the renewal.  The client
    leaves its memory only if [decode_mih_options] cannot decode the MIH options of the ACK within its buffers.  (The
    configuration has times to divide by, and random numbers are not negative.) *)
Theorem ack_times cur_time p (c : client T) : usable cfg -> (forall k, 0 <= random out k) -> steady c \/ c_state c = S_INFORM -> c_state c <> S_BOUND ->
  match dhcpack cfg out cur_time 3 p c with
  | Ok _ c' => c_state c' = S_BOUND ->
      c_state c = S_INFORM /\ c_active c' = c_active c /\ c_timeouts c' = c_timeouts c \/
      exists l, c_active c' = Some l /\ only state_bound (renewal l) (c_timeouts c') /\ cur_time <= renewal l <= rebind l /\
        (time_option (options l) DHO_DHCP_REBINDING_TIME <= 0 -> rebind l <= expiry l) /\
        let e := time_option (options l) DHO_DHCP_LEASE_TIME in e <> 0 /\ expiry l = cur_time + (if e <? 0 then TIME_MAX else e)
  | Stop => True
  | Crash => mih_overflows p
  | Loop => False
  end.
Proof.
  intros Ht Hr Hs Hnot. refine (wp_show (KC := mih_overflows p) _ _ _ _).
  unfold dhcpack, for_us. wps. apply wp_if; intros _; [by apply wp_ret|].
  apply wp_if; intros Hb; [apply bool_decide_eq_true in Hb; wps; apply wp_decode; [done|]; intros ev _; by left|].
  apply bool_decide_eq_false in Hb. destruct Hs as [Hs|]; [|done]. apply wp_if; intros Hst; [by apply wp_ret|].
  apply negb_false_iff, bool_decide_eq_true in Hst. pose proof (answered _ Hs Hst) as Hq.
  wps. apply packet_lease_ok. intros l c1 H1 _. apply core_parts in H1. destruct H1 as (_ & _ & _ & _ & _ & H1). wps.
  apply wp_if; intros He; [eapply wp_mono; [apply init_selects; [done|lia]|]; by intros _ c' -> [=]|]. apply Z.eqb_neq in He.
  wps. apply times_ok; [done..|]. intros r b c2 H2 Hrb Hbe. apply core_parts in H2. destruct H2 as (_ & _ & _ & _ & _ & H2). cbn in H2. wps.
  apply wp_decode; [done|]. intros ev.
  eapply wp_mono; [apply bind_takes; [done|lia| |done]; cbn; by rewrite H2, H1|]. intros ? c' Hc' Hbd. right. destruct (Hc' Hbd) as (Ho & m & Ha).
  eexists. split; [done|]. split; [done|]. cbn. set (e := time_option (options l) DHO_DHCP_LEASE_TIME) in *.
  assert (0 <= (if e <? 0 then TIME_MAX else e)) by (unfold TIME_MAX; destruct (Z.ltb_spec e 0); lia).
  rewrite !absolute_nonneg by lia. split_and!; [lia|lia| |done|lia]. intros Hn. specialize (Hbe Hn). lia.
Qed.

(** Nothing in the search ends the program. *)
Lemma search_no_stop cur_time n : forall loop (c : client T), panic_loop out cur_time n loop c <> Stop /\ next_lease out cur_time n loop c <> Stop.
Proof.
  induction n as [|n IH]; intros loop c; [done|]. split; cbn [panic_loop next_lease]; unfold script_go, activate_next; unfold mbind, MC_bind, getc, setc, emitc; cbn.
  - destruct (c_active c) as [l|]; [|done]. repeat (case_match; simplify_eq/=; try done); apply IH.
  - repeat (case_match; simplify_eq/=; try done); apply IH.
Qed.

(** C40: when no server answers, the search through the recorded leases ends, however many leases there are and whatever the script
    says, without a null pointer and without ending the program; no lease is lost or made up (active and recorded leases together are
    a permutation of what they were), no timer changes, and if the search takes a lease, it is the active one, it has not ended, and
    its renewal time has not come unless it is to be renewed at once. *)
Theorem panic_search cur_time (c : client T) :
  match find_lease out cur_time c with
  | Ok r c' => option_list (c_active c') ++ c_leases c' ≡ₚ option_list (c_active c) ++ c_leases c /\ c_timeouts c' = c_timeouts c /\
      (r <> no_lease -> exists l, c_active c' = Some l /\ cur_time < expiry l /\ (r = bound_later -> cur_time < renewal l))
  | Crash | Loop | Stop => False
  end.
Proof.
  assert (Hno : find_lease out cur_time c <> Stop) by (unfold find_lease, mbind, MC_bind, getc; case_match; apply search_no_stop).
  pose proof (search_ok (KC := False) out cur_time (fun r c' => reordered c c' /\ found cur_time r c') c ltac:(done)) as Hwp. unfold wp in Hwp.
  destruct (find_lease out cur_time c) as [| | |r c']; [done..|]. destruct Hwp as [(Hp & Hq & _) Hf]. split; [done|]. split; [done|]. by destruct r.
Qed.

(** C25: while a client renews its lease (or asks for the one it had), it never sleeps past its end.  When [send_request] runs, either it
    starts anew, or the lease has not ended and the function runs again after now, and no later than a second after the lease ends;
    the pauses stay bounded. *)
Theorem lease_end_noticed cur_time l (c : client T) : usable cfg -> sane cfg out -> quiet (c_timeouts c) -> 0 <= c_interval c ->
  c_state c = S_RENEWING \/ c_state c = S_REBOOTING -> c_active c = Some l ->
  match call cfg out cur_time 3 send_request c with
  | Ok _ c' => c_state c' = S_SELECTING \/
      (c_state c' = c_state c /\ c_active c' = Some l /\ cur_time <= expiry l /\
       exists v, only send_request v (c_timeouts c') /\ cur_time < v <= expiry l + 1 /\
         v <= cur_time + Z.max (longest cfg) (Z.max (initial_interval cfg) (c_interval c)))
  | Stop => True
  | Crash | Loop => False
  end.
Proof.
  intros Hu Hsane Hq Hi Hst Ha. refine (wp_show (KC := False) _ _ _ _). apply request_cases; [done|done|right; congruence|..].
  - intros c1 _. eapply wp_mono; [apply init_selects; [done|lia]|]. intros ? c' Hc'. by left.
  - intros c1 c' H1 [= _ H2] Hlive (Hc & _ & Hlim). right. apply core_parts in H1. destruct H1 as (E1 & E2 & _ & _ & _ & E3).
    unfold core in Hc. injection Hc as F1 F2 _ _ _ F3. assert (Hne : c_state c <> S_REQUESTING) by (destruct Hst; congruence).
    unfold request_limit in Hlim. rewrite decide_False, Ha in Hlim by done. cbn in Hlim. specialize (Hlive Hne _ Ha). destruct (Hlim Hlive) as [Hb Hl].
    unfold bounded in Hb. rewrite H2 in Hb, Hl. specialize (Hb Hsane Hi). specialize (Hl Hsane Hi).
    split_and!; [congruence..|done|]. eexists. split; [rewrite F3; apply add_only; by rewrite E3|]. lia.
Qed.

(** The next DISCOVER goes out after now, in time for the panic when it comes to that. *)
Theorem discover_in_time cur_time interval (c : client T) : usable cfg -> sane cfg out -> quiet (c_timeouts c) -> 0 <= c_interval c -> cur_time <= c_first_sending c + timeout cfg ->
  match discover cfg out cur_time interval c with
  | Ok _ c' => exists v, only send_discover v (c_timeouts c') /\ cur_time < v <= c_first_sending c + timeout cfg + 1
  | Stop => True
  | Crash | Loop => False
  end.
Proof.
  intros Hu Hsane Hq Hi Hle. refine (wp_show (KC := False) _ _ _ _). apply discover_ok; [done|]. intros c' (Hc & _ & Hlim). unfold core in Hc. injection Hc as _ _ _ _ _ F3.
  destruct (Hlim Hle) as [Hb Hl]. specialize (Hb Hsane Hi). specialize (Hl Hsane Hi). eexists. split; [rewrite F3; by apply add_only|]. lia.
Qed.

(** When a session ends while no offer is waited for, nothing is left to do. *)
Theorem release_quiet cur_time (c : client T) : pending (c_timeouts c) state_selecting = None -> pending (c_timeouts c) state_panic = None ->
  pending (c_timeouts c) bind_lease = None ->
  match terminate_session cfg out cur_time c with Ok _ c' => quiet (c_timeouts c') /\ c_state c' = S_STOPPED | Crash | Stop | Loop => False end.
Proof.
  intros H1 H2 H3.
  assert (Hq : quiet (cancel_timeout state_reboot (cancel_timeout send_request (cancel_timeout state_init (cancel_timeout send_discover
    (cancel_timeout state_bound (c_timeouts c))))))) by (intros g; rewrite !pending_cancel; by destruct g).
  unfold terminate_session, do_release, make_release, make_client_options, start_sending, send_release, send, script_go, draw, emitc, cancel.
  unfold mbind, MC_bind, getc, setc. cbn. destruct (c_active c) as [l|]; [|done]. cbn. by destruct (write_ok out (c_writes c)).
Qed.

End Claims.

(** ** A client *)

(** Timers as a function *)
Definition alarms : Type := func -> option Z.

#[export] Instance alarms_timeouts : Timeouts alarms := {|
  add_timeout f v q g := if decide (g = f) then Some v else q g;
  cancel_timeout f q g := if decide (g = f) then None else q g;
  pending q := q
|}.

#[export] Instance alarms_laws : TimeoutsLaws alarms.
Proof. by split. Qed.

Definition home : client_config :=
  mkConfig 60 10 300 1 10 15 [] [1] false false [1; 2; 0; 0; 0; 0; 7] true [0; 0; 0; 0].

(** Random numbers are 4, the script succeeds, and nothing is rejected. *)
Definition world : outside := mkOutside (fun _ => 4) (fun _ => 0) (fun _ => true) (fun _ => false) (fun _ opts => opts) (fun opts => opts).

Definition nothing_sent : out_packet := mkOutPacket 0 0 0 0 [] [] None None.

(** A client that has just been started, and waits for [state_init] at 1000. *)
Definition fresh : client alarms :=
  mkClient S_INIT None None [] [] [] 0 0 0 0 [] nothing_sent [] (fun g => if decide (g = state_init) then Some 1000 else None) 0 0 0 1 [].

Definition reply (type : Z) : packet :=
  mkPacket type true [10; 0; 0; 1] (<[1 := [255; 255; 255; 0]]> (<[51 := [0; 0; 14; 16]]> {[54 := [10; 0; 0; 1]]})) 2 4 6 [2; 0; 0; 0; 0; 7] [10; 0; 0; 9] [] [] (fun _ => None) (fun _ => None).

(** It discovers, takes the offer, asks for the address and gets it. *)
Definition morning : list (Z * input) :=
  [(1000, timer state_init); (1001, message (reply DHCPOFFER)); (1001, timer state_selecting); (1002, message (reply DHCPACK))].

Lemma fresh_steady : steady fresh.
Proof. split; [|done]. exists state_init, 1000. split; [constructor|done]. Qed.

(** The lease it has then, and its times *)
Example morning_ends : (fun r => match r with Ok _ c => Some (c_state c, address <$> c_active c, expiry <$> c_active c, renewal <$> c_active c, rebind <$> c_active c) | _ => None end)
  (run home world 6 morning fresh) = Some (S_BOUND, Some [10; 0; 0; 9], Some 4602, Some 2354, Some 4152).
Proof. vm_compute. reflexivity. Qed.

(** The witness of [client_runs_on]: the morning, from a running client. *)
Lemma client_runs_on_witness : steady fresh /\ match run home world 6 morning fresh with Ok _ c' => steady c' | _ => False end.
Proof.
  split; [apply fresh_steady|]. pose proof (client_runs_on home world morning fresh ltac:(repeat split; done) fresh_steady) as Hrun.
  assert (Hok : match run home world 6 morning fresh with Ok _ _ => True | _ => False end) by (vm_compute; exact I).
  destruct (run home world 6 morning fresh) as [| | |? c']; [done..|exact Hrun].
Defined.

(** The client when it has asked for the address *)
Definition asking : client alarms :=
  mkClient S_REQUESTING None None [] [] iaddr_broadcast 4 0 1001 11 [] nothing_sent [] (fun g => if decide (g = send_request) then Some 1012 else None) 3 0 0 2 [].

Lemma asking_steady : steady asking.
Proof. split; [|done]. exists send_request, 1012. split; [constructor|done]. Qed.

(** The witness of [ack_times]: the ACK makes the client bound. *)
Lemma ack_times_witness :
  match dhcpack home world 1002 3 (reply DHCPACK) asking with
  | Ok _ c' => c_state c' = S_BOUND /\ exists l, c_active c' = Some l /\ 1002 <= renewal l <= rebind l
  | _ => False
  end.
Proof.
  pose proof (ack_times home world 1002 (reply DHCPACK) asking ltac:(repeat split; done) ltac:(done) (or_introl asking_steady) ltac:(done)) as Hack.
  assert (Hst : match dhcpack home world 1002 3 (reply DHCPACK) asking with Ok _ c' => c_state c' = S_BOUND | _ => False end) by (vm_compute; reflexivity).
  destruct (dhcpack home world 1002 3 (reply DHCPACK) asking) as [| | |? c']; [done..|]. destruct (Hack Hst) as [([=] & _)|(l & Ha & _ & Hr & _)]. eauto.
Defined.

(** A lease that ends at 4602, and a client that renews it. *)
Definition hour : client_lease := mkClientLease 1 4602 2354 4152 [10; 0; 0; 9] None None [] false ∅.
Definition renewing : client alarms :=
  mkClient S_RENEWING (Some hour) None [] [] [10; 0; 0; 1] 4 0 2354 15 [] nothing_sent [] (fun _ => None) 3 0 0 2 [].

(** The witness of [lease_end_noticed]: four seconds before the end *)
Lemma lease_end_noticed_witness :
  match call home world 4598 3 send_request renewing with Ok _ c' => exists v, only send_request v (c_timeouts c') /\ 4598 < v <= 4603 | _ => False end.
Proof.
  assert (Hsane : sane home world) by (split_and!; try done; lia).
  pose proof (lease_end_noticed home world 4598 hour renewing ltac:(repeat split; done) Hsane ltac:(by intros g) ltac:(done) ltac:(by left) ltac:(done)) as Hend.
  assert (Hst : match call home world 4598 3 send_request renewing with Ok _ c' => c_state c' = S_RENEWING | _ => False end) by (vm_compute; reflexivity).
  destruct (call home world 4598 3 send_request renewing) as [| | |? c']; [done..|]. destruct Hend as [Hs|(_ & _ & _ & v & Ho & Hv & _)]; [congruence|].
  exists v. split; [done|]. cbn in Hv. lia.
Defined.

(** ** What goes wrong *)

Definition idle : client alarms := mkClient S_INIT None None [] [] [] 0 0 0 0 [] nothing_sent [] (fun _ => None) 0 0 0 1 [].

(** A session that [init_session] starts can follow a null pointer.  The function starts discovery and sets a timer for [state_reboot] as
    well; if that goes off after an offer was taken and before the ACK is there, discovery starts again while the timer of [send_request]
    stays, and [send_request] then looks at a lease that does not exist. *)
Theorem session_crashes :
  (init_session home world 1000 6 ;;
   run home world 6 [(1001, message (reply DHCPOFFER)); (1001, timer state_selecting); (1004, timer state_reboot); (1012, timer send_request)]) idle = Crash.
Proof. vm_compute. reflexivity. Qed.

(** A session that is terminated while offers are waited for goes on: [do_release] does not cancel [state_selecting]. *)
Theorem terminated_goes_on :
  match (run home world 6 (take 2 morning) ;; terminate_session home world 1001 ;; run home world 6 [(1001, timer state_selecting)]) fresh with
  | Ok _ c => c_state c = S_REQUESTING
  | _ => False
  end.
Proof. vm_compute. reflexivity. Qed.

(** A client that asks for information before it has an address is bound to nothing when the answer comes. *)
Theorem inform_binds_nothing :
  match (run home world 6 (take 1 morning) ;; request_info home 1001 ;; run home world 6 [(1002, message (reply DHCPACK))]) fresh with
  | Ok _ c => c_state c = S_BOUND /\ c_active c = None
  | _ => False
  end.
Proof. vm_compute. done. Qed.
